(* ===== verification/_CoqProject ===== *)
-Q . S2P
Prelude.v
Klib.v
Interfaces.v
Hardware.v
Keyboard.v
Pmm.v
Vmm.v
VmmTables.v
Kmalloc.v
KmallocInv.v
Pipe.v
Vfs.v
VfsFd.v
VfsTree.v
VfsData.v
VfsQuiet.v
Rootfs.v
Font.v
Fb.v
FbProps.v
Devices.v
Sched.v
ElfLoad.v
UserMem.v
TusElf.v
Execve.v
Syscall.v
SyscallProps.v
Ppm.v
Splash.v
Descriptors.v
Main.v
Grep.v
GrepProps.v
Unix.v
Doas.v
Accounts.v
AccountsProps.v
Sed.v
SedProps.v
ShellParse.v
ShellPath.v
Shell.v
ShellProps.v
