(* ===== verification/Prelude.v ===== *)
(** * Toasty UNIX Software (TUS): a verification development

    TUS is a small x86-64 UNIX-like kernel in C (src/kernel) with a few user
    programs. The development translates the kernel's data structures and
    operations to Rocq functions and proves what the parts promise.

    ** The kernel and its model

    Memory. pmm.c hands out 4 KiB frames ([Pmm]); vmm.c builds page tables in
    them ([Vmm]; [VmmTables] reads the tables as mappings); kmalloc.c is the
    heap on top of both ([Kmalloc]; its invariant is in [KmallocInv]). The
    frame pool is the class [FramePool] of [Interfaces]: the theorems on page
    tables hold for any pool, and [Pmm] is the instance.

    Files. vfs.c is an in-memory tree with shared open files, descriptor
    tables and pipes ([Pipe], [Vfs]); [VfsFd] is about reference counts,
    [VfsTree] about paths, [VfsData] about contents, [VfsQuiet] about what each
    operation leaves alone. rootfs.c fills the tree from a ustar archive
    ([Rootfs]). Device nodes call the class of device
    operations that [Devices] instantiates (devices.c, console.c).

    Devices. [Hardware] has port access, pic.c, pit.c and serial.c;
    [Keyboard] is keyboard.c; [Font], [Fb] and [FbProps] are the framebuffer
    console fb.c with its escape sequences.

    Tasks. [Sched] is sched.c: its state [kern] joins heap, page tables, file
    system, devices, the task table and the registers a switch saves.
    [ElfLoad] is the ELF library (elfload.c, elfreloc_amd64.c), which works on
    the callbacks of the class [ElfHost] under the laws [ElfLaws]; [TusElf] is
    tus_elf.c, the callbacks over a kernel and the start of a program.

    Programs and the kernel. [UserMem] is user memory behind the page tables;
    [Execve] is execve and [Syscall] the dispatcher of syscall.c with every
    call of the table; [SyscallProps] has their properties.

    The shell. [ShellParse] and [ShellPath] are the parts of commands.c and
    cmd_fs.c that compute on strings (tokens, pipelines, paths, listings),
    [Shell] the commands, the pipeline executor and the line editor of tsh.c
    over the whole kernel, [ShellProps] what they leave behind.

    The boot screen. [Ppm] is the image decoder ppm.c over any allocator,
    [Splash] is splash.c: layout, scaling and drawing of the logos.

    The processor and the start. [Descriptors] has the segments, gates and
    interrupt dispatch of gdt.c and idt.c, their panic messages and cpu.c,
    with a small model of how the processor reads descriptors and passes
    gates; [Main] is main.c, which calls the initialisation of all the parts.

    User programs. [Grep] is userspace/grep.c, [GrepProps] its properties.
    [Unix] is a process as the account programs see it (files, terminal,
    identities, the account functions of the C library); [Doas] is doas.c,
    [Accounts] has login.c, passwd.c and useradd.c, [AccountsProps] their
    properties. [Sed] is sed.c, with echo.c, and [SedProps] what they do.

    [Klib] is klib.c (memory and string routines, numbers, formatted output).
    This file has the machine words, byte buffers, lists, tactics and hints
    that all of them share.

    ** Conventions

    A C integer of [w] bits is a [Z], wrapped where an operation can leave its
    type ([u8] .. [u64], [s8] ..). A buffer is a list of bytes, memory a
    function from addresses. [None] is an access outside of an object, the use
    of a freed one, or a loop that runs out of fuel; errors the code returns
    are values. A wait ([hlt]) is a result of its own, after which the loop
    tests again.

    ** What the theorems show

    Memory: allocated frames and blocks are in nobody else's use, heap blocks
    tile the arena, mapping and unmapping change one page of one space, spaces
    share exactly the kernel half. Files: lookup is the walk along the
    components, creation and removal change one path, what is written is read,
    reference counts are exact, pipes are FIFO queues, the archive becomes the
    tree. Devices: the keyboard buffer is a FIFO under any interleaving with
    interrupts, a task that owns the input reads alone, console output stays in
    bounds and the screen shows the text. Tasks: every ready task runs within
    15 ticks, a preempted task resumes with its own context, exit releases
    what the task held, a new task starts with its arguments on the stack. ELF:
    the accepted headers are exactly the supported ones, and loading puts every
    segment in place or reports the lack of memory. System calls: bad pointers
    are refused, no call touches another task's memory, execve replaces the
    image or leaves the task as it was, mapped memory is fresh and goes away
    again, bytes cross a pipe from one task's memory to another's. Shell: lines
    have at most eight well-formed stages, a written pipeline is read back,
    paths resolve to their normal form and to the node the tree has there, and
    whatever is typed the shell keeps its descriptors. grep: matching decides
    the language of the pattern, the output is the selected lines. Boot screen:
    images decode to their pixels, logos are drawn side by side inside the
    surface. Accounts: doas runs only what the last matching rule permits, a
    written configuration is read back, a new account is locked until passwd
    opens it, login accepts what passwd set, a lock can be undone. Start: user
    mode enters the kernel by the system call gate only, interrupts are
    handled once and acknowledged, and when the shell runs the tables,
    controllers and stacks that interrupts need are in place; a small machine
    boots to its banner. sed: scripts without branches end, line ranges print
    the lines they name. Some theorems record defects: pages unmapped while in use, an open file of a
    removed node, a race between two keyboard readers, patterns that match
    every line, glued operators of the shell, scrolling behind the logos, doas
    -u that does not ask who is asking, accounts that share a number, a sed
    that looks at the first atom only and replaces up to the end of the line,
    a spurious interrupt that is never acknowledged.

    ** Bounds and fuel

    Loops over tables of fixed size run over that size (16 task slots, 512
    page table entries, the frames of the bitmap). Walks along linked lists
    take fuel; the theorems on them state that the fuel given suffices. The
    loops over program headers get one more step than there are headers, and
    [el_load_places] shows that it is enough. The dynamic table of an image is
    taken to have fewer than 2^32 entries. Strings in user memory are read in
    as many rounds as user addresses allow; the matcher of grep gets the length
    of the pattern, and [m_seq_terminates] shows that it satisfies the
    recursive equations, as [sed_m_seq_step] does for that of sed; a script of
    sed gets a number of rounds per line, and [sed_ends] says how many are
    enough; the tokenizer gets the length of the line, of which
    every token takes a byte. The loops of [cat] and [ls] and the waits of the
    shell last as long as files, directories and tasks do: they get a number of
    rounds as an argument, and a run that needs more ends as busy.

    ** Not modelled

    The entry stubs in assembly, which are addresses here, the TLB and the
    rest of the processor. [crypt], the clock, the texts of [strerror] and the
    environment of the user programs are parameters; terminal modes are left
    out. limine.h, musl (but for the account functions), kilo and the upstream
    doas are third-party code. *)

From stdpp Require Import base numbers list gmap.
From Stdlib Require Import ZArith Lia ZifyBool.
From Stdlib Require Ascii String.
Export String.StringSyntax.

Open Scope Z_scope.

(** ** Machine words

    A [w]-bit C integer is a [Z]; every operation that can leave the range
    of its type is wrapped explicitly with one of the functions below. *)

Definition u8 (z : Z) : Z := z mod 2 ^ 8.
Definition u16 (z : Z) : Z := z mod 2 ^ 16.
Definition u32 (z : Z) : Z := z mod 2 ^ 32.
Definition u64 (z : Z) : Z := z mod 2 ^ 64.

(** Conversions to a signed type: two's complement, as the compiler does. *)
Definition s8 (z : Z) : Z := if u8 z <? 2 ^ 7 then u8 z else u8 z - 2 ^ 8.
Definition s32 (z : Z) : Z := if u32 z <? 2 ^ 31 then u32 z else u32 z - 2 ^ 32.
Definition s64 (z : Z) : Z := if u64 z <? 2 ^ 63 then u64 z else u64 z - 2 ^ 64.

Create HintDb tus.

Lemma u64_range z : 0 <= u64 z < 2 ^ 64.
Proof. apply Z.mod_pos_bound. lia. Qed.

Lemma u64_small z : 0 <= z < 2 ^ 64 -> u64 z = z.
Proof. apply Z.mod_small. Qed.

Lemma u64_u64 z : u64 (u64 z) = u64 z.
Proof. apply u64_small, u64_range. Qed.

Lemma u32_range z : 0 <= u32 z < 2 ^ 32.
Proof. apply Z.mod_pos_bound. lia. Qed.

Lemma u32_small z : 0 <= z < 2 ^ 32 -> u32 z = z.
Proof. apply Z.mod_small. Qed.

Lemma u8_range z : 0 <= u8 z < 2 ^ 8.
Proof. apply Z.mod_pos_bound. lia. Qed.

Lemma u8_small z : 0 <= z < 2 ^ 8 -> u8 z = z.
Proof. apply Z.mod_small. Qed.

Lemma s64_small z : - 2 ^ 63 <= z < 2 ^ 63 -> s64 z = z.
Proof.
  intros H. unfold s64, u64.
  destruct (Z.ltb_spec z 0).
  - rewrite <-(Z.mod_add z 1 (2 ^ 64)), Z.mod_small by lia.
    destruct (Z.ltb_spec (z + 1 * 2 ^ 64) (2 ^ 63)); lia.
  - rewrite Z.mod_small by lia. destruct (Z.ltb_spec z (2 ^ 63)); lia.
Qed.

Lemma s32_small z : - 2 ^ 31 <= z < 2 ^ 31 -> s32 z = z.
Proof.
  intros H. unfold s32, u32.
  destruct (Z.ltb_spec z 0).
  - rewrite <-(Z.mod_add z 1 (2 ^ 32)), Z.mod_small by lia.
    destruct (Z.ltb_spec (z + 1 * 2 ^ 32) (2 ^ 31)); lia.
  - rewrite Z.mod_small by lia. destruct (Z.ltb_spec z (2 ^ 31)); lia.
Qed.

#[export] Hint Resolve u64_range u32_range u8_range : tus.

(** ** Case analysis on the tests of the code

    [split_tests] splits every [if] of the goal on its boolean test and
    turns the tests into propositions; [zify_tests H] does the same for the
    boolean equations already in the context. *)

Ltac bool_to_prop :=
  repeat match goal with
  | H : (_ && _)%bool = true |- _ => apply andb_prop in H; destruct H
  | H : (_ || _)%bool = false |- _ => apply orb_false_elim in H; destruct H
  | H : (_ && _)%bool = false |- _ => apply andb_false_iff in H
  | H : (_ || _)%bool = true |- _ => apply orb_true_iff in H
  | H : negb _ = true |- _ => apply negb_true_iff in H
  | H : negb _ = false |- _ => apply negb_false_iff in H
  | H : (_ =? _) = true |- _ => apply Z.eqb_eq in H
  | H : (_ =? _) = false |- _ => apply Z.eqb_neq in H
  | H : (_ <? _) = true |- _ => apply Z.ltb_lt in H
  | H : (_ <? _) = false |- _ => apply Z.ltb_ge in H
  | H : (_ <=? _) = true |- _ => apply Z.leb_le in H
  | H : (_ <=? _) = false |- _ => apply Z.leb_gt in H
  end.

Ltac split_tests :=
  repeat match goal with
  | |- context [if ?b then _ else _] => destruct b eqn:?
  end; bool_to_prop.

Ltac split_tests_in H :=
  repeat match type of H with
  | context [if ?b then _ else _] => destruct b eqn:?
  end; bool_to_prop.

(** [lia] with division and remainder by constants. *)
Ltac divlia := Z.to_euclidean_division_equations; lia.

(** A decidable proposition on concrete data, by running its decision
    procedure. *)
Ltac by_decide := apply (bool_decide_eq_true_1 _); vm_compute; reflexivity.

(** ** Memory

    A memory is a total function from addresses to cells; the cell width
    (bytes or 64-bit words) is the client's. *)

Definition memory : Type := Z -> Z.

Definition upd (m : memory) (a v : Z) : memory :=
  fun x => if x =? a then v else m x.

(** [fill m a n v] stores [v] in the [n] cells from [a]. *)
Definition fill (m : memory) (a n v : Z) : memory :=
  fun x => if (a <=? x) && (x <? a + n) then v else m x.

Lemma upd_eq m a v : upd m a v a = v.
Proof. unfold upd. by rewrite Z.eqb_refl. Qed.

Lemma upd_ne m a b v : b <> a -> upd m a v b = m b.
Proof. unfold upd. intros H. by rewrite (proj2 (Z.eqb_neq b a) H). Qed.

Lemma fill_in m a n v x : a <= x < a + n -> fill m a n v x = v.
Proof. unfold fill. intros. split_tests; [done|lia]. Qed.

Lemma fill_out m a n v x : x < a \/ a + n <= x -> fill m a n v x = m x.
Proof. unfold fill. intros. split_tests; [lia|done]. Qed.

(** ** Bounded search

    [zfind p n i] is the first index of [i, i + n) that satisfies [p]: the
    shape of every [for] loop of the kernel that scans a table and returns
    from inside the loop. *)

Fixpoint zfind (p : Z -> bool) (n : nat) (i : Z) : option Z :=
  match n with
  | O => None
  | S n' => if p i then Some i else zfind p n' (i + 1)
  end.

Lemma zfind_Some p n i j :
  zfind p n i = Some j <->
  i <= j < i + Z.of_nat n /\ p j = true /\ (forall k, i <= k < j -> p k = false).
Proof.
  revert i; induction n as [|n IH]; intros i; cbn [zfind].
  - split; [done|]. intros (?&_). lia.
  - destruct (p i) eqn:E.
    + split; [intros [= <-]; split_and!; try done; intros; lia|].
      intros (Hr & Hj & Hf). destruct (Z.eq_dec i j) as [->|]; [done|].
      rewrite Hf in E by lia. done.
    + rewrite IH. split; intros (Hr & Hj & Hf); repeat split; auto; try lia.
      * intros k Hk. destruct (Z.eq_dec k i) as [->|]; [done|apply Hf; lia].
      * destruct (Z.eq_dec i j) as [->|]; [congruence|lia].
      * intros k Hk. apply Hf. lia.
Qed.

Lemma zfind_None p n i :
  zfind p n i = None <-> forall k, i <= k < i + Z.of_nat n -> p k = false.
Proof.
  revert i; induction n as [|n IH]; intros i; cbn [zfind].
  - split; [intros _ k ?; lia|done].
  - destruct (p i) eqn:E.
    + split; [done|]. intros H. rewrite H in E by lia. done.
    + rewrite IH. split; intros H k Hk.
      * destruct (Z.eq_dec k i) as [->|]; [done|apply H; lia].
      * apply H. lia.
Qed.

Lemma zfind_ext p q n i : (forall j, i <= j < i + Z.of_nat n -> p j = q j) -> zfind p n i = zfind q n i.
Proof.
  revert i. induction n as [|n IH]; intros i Hpq; cbn [zfind]; [done|].
  rewrite Hpq by lia. rewrite IH; [done|]. intros j Hj. apply Hpq. lia.
Qed.

(** Indices [i, i + n) in order, for the loops that visit all of them. *)
Fixpoint zseq (i : Z) (n : nat) : list Z :=
  match n with
  | O => []
  | S n' => i :: zseq (i + 1) n'
  end.

Lemma elem_of_zseq i n k : k ∈ zseq i n <-> i <= k < i + Z.of_nat n.
Proof.
  revert i; induction n as [|n IH]; intros i; cbn [zseq].
  - split; [by intros ?%elem_of_nil|lia].
  - rewrite elem_of_cons, IH. lia.
Qed.

Lemma length_zseq i n : length (zseq i n) = n.
Proof. revert i; induction n as [|n IH]; intros i; cbn [zseq length]; auto. Qed.

(** ** Byte buffers

    A buffer is the list of its bytes, indexed by [Z]. [sub l o n] are the
    [n] bytes from offset [o], [splice l o b] is [l] with the bytes [b]
    copied over it at offset [o] (the source and destination of a [memcpy]). *)

Definition byte_at (l : list Z) (i : Z) : Z := nth (Z.to_nat i) l 0.
Definition zlen (l : list Z) : Z := Z.of_nat (length l).
Definition sub (l : list Z) (o n : Z) : list Z := take (Z.to_nat n) (drop (Z.to_nat o) l).
Definition splice (l : list Z) (o : Z) (b : list Z) : list Z :=
  take (Z.to_nat o) l ++ b ++ drop (Z.to_nat (o + zlen b)) l.

Lemma byte_at_lookup l i : 0 <= i < zlen l -> l !! Z.to_nat i = Some (byte_at l i).
Proof.
  unfold zlen, byte_at. intros Hi.
  destruct (l !! Z.to_nat i) as [x|] eqn:E.
  - f_equal. symmetry. by apply nth_lookup_Some with (d := 0) in E.
  - apply lookup_ge_None in E. lia.
Qed.

Lemma buf_ext l1 l2 :
  zlen l1 = zlen l2 -> (forall i, 0 <= i < zlen l1 -> byte_at l1 i = byte_at l2 i) -> l1 = l2.
Proof.
  intros Hlen Hi. apply list_eq_same_length with (length l1); [unfold zlen in *; lia|done|].
  intros i x y Hlt H1 H2. specialize (Hi (Z.of_nat i)). unfold byte_at in Hi.
  rewrite Nat2Z.id in Hi. apply nth_lookup_Some with (d := 0) in H1, H2.
  unfold zlen in Hi. rewrite H1, H2 in Hi. apply Hi. lia.
Qed.

Lemma zlen_nonneg l : 0 <= zlen l.
Proof. unfold zlen. lia. Qed.

Lemma zlen_app l1 l2 : zlen (l1 ++ l2) = zlen l1 + zlen l2.
Proof. unfold zlen. rewrite length_app. lia. Qed.

Lemma zlen_sub l o n : 0 <= o -> 0 <= n -> o + n <= zlen l -> zlen (sub l o n) = n.
Proof. unfold zlen, sub. intros. rewrite length_take, length_drop. lia. Qed.

Lemma zlen_splice l o b : 0 <= o -> o + zlen b <= zlen l -> zlen (splice l o b) = zlen l.
Proof.
  unfold splice. intros. rewrite !zlen_app. unfold zlen in *. rewrite length_take, length_drop. lia.
Qed.

Lemma byte_at_app l1 l2 i :
  0 <= i -> byte_at (l1 ++ l2) i = if i <? zlen l1 then byte_at l1 i else byte_at l2 (i - zlen l1).
Proof.
  unfold byte_at, zlen. intros. destruct (Z.ltb_spec i (Z.of_nat (length l1))).
  - rewrite app_nth1 by lia. done.
  - rewrite app_nth2 by lia. f_equal. lia.
Qed.

Lemma byte_at_take l n i : 0 <= i < n -> byte_at (take (Z.to_nat n) l) i = byte_at l i.
Proof.
  unfold byte_at. intros. rewrite <-(take_drop (Z.to_nat n) l) at 2.
  destruct (decide (Z.to_nat i < length (take (Z.to_nat n) l))%nat) as [Hlt|Hge].
  - by rewrite app_nth1.
  - rewrite length_take in Hge. rewrite !nth_overflow; [done|..].
    + rewrite take_drop. lia.
    + rewrite length_take. lia.
Qed.

Lemma byte_at_drop l n i : 0 <= i -> 0 <= n -> byte_at (drop (Z.to_nat n) l) i = byte_at l (n + i).
Proof.
  unfold byte_at. intros. rewrite Z2Nat.inj_add by lia.
  destruct (decide (Z.to_nat n <= length l)%nat) as [Hle|Hgt].
  - rewrite <-(take_drop (Z.to_nat n) l) at 2. rewrite app_nth2; rewrite length_take; [|lia].
    f_equal. lia.
  - rewrite !nth_overflow; [done|lia|rewrite length_drop; lia].
Qed.

Lemma byte_at_sub l o n i : 0 <= o -> 0 <= i < n -> byte_at (sub l o n) i = byte_at l (o + i).
Proof. intros. unfold sub. rewrite byte_at_take by lia. apply byte_at_drop; lia. Qed.

Lemma byte_at_splice l o b i :
  0 <= o -> o + zlen b <= zlen l -> 0 <= i ->
  byte_at (splice l o b) i =
    if (o <=? i) && (i <? o + zlen b) then byte_at b (i - o) else byte_at l i.
Proof.
  intros Ho Hb Hi. pose proof (zlen_nonneg b). unfold splice. rewrite byte_at_app by lia.
  assert (Hz : zlen (take (Z.to_nat o) l) = o) by (unfold zlen in *; rewrite length_take; lia).
  rewrite Hz. destruct (Z.ltb_spec i o).
  - rewrite byte_at_take by lia. split_tests; [lia|done].
  - rewrite byte_at_app by lia. destruct (Z.ltb_spec (i - o) (zlen b)).
    + split_tests; [done|lia].
    + rewrite byte_at_drop by lia. split_tests; [lia|f_equal; lia].
Qed.

Lemma sub_sub l o n o' n' :
  0 <= o -> 0 <= o' -> 0 <= n' -> o' + n' <= n -> o + n <= zlen l ->
  sub (sub l o n) o' n' = sub l (o + o') n'.
Proof.
  intros. apply buf_ext; rewrite !zlen_sub; rewrite ?zlen_sub; try lia.
  intros i Hi. rewrite !byte_at_sub by lia. f_equal. lia.
Qed.

Lemma sub_app l o n n' :
  0 <= o -> 0 <= n -> 0 <= n' -> o + n + n' <= zlen l ->
  sub l o n ++ sub l (o + n) n' = sub l o (n + n').
Proof.
  intros. apply buf_ext; rewrite ?zlen_app, !zlen_sub by lia; [lia|].
  intros i Hi. rewrite byte_at_app, zlen_sub by lia.
  destruct (Z.ltb_spec i n); rewrite !byte_at_sub by lia; f_equal; lia.
Qed.

Lemma sub_all l : sub l 0 (zlen l) = l.
Proof. unfold sub, zlen. rewrite Nat2Z.id. apply firstn_all. Qed.

(** A buffer given by the byte at every index. *)
Definition tabulate (f : Z -> Z) (n : Z) : list Z := map f (zseq 0 (Z.to_nat n)).

Lemma zlen_tabulate f n : 0 <= n -> zlen (tabulate f n) = n.
Proof. intros. unfold zlen, tabulate. rewrite length_map, length_zseq. lia. Qed.

Lemma nth_zseq i n k d : (k < n)%nat -> nth k (zseq i n) d = i + Z.of_nat k.
Proof.
  revert i k; induction n as [|n IH]; intros i [|k] Hk; cbn [zseq nth]; try lia.
  rewrite IH; lia.
Qed.

Lemma byte_at_tabulate f n i : 0 <= i < n -> byte_at (tabulate f n) i = f i.
Proof.
  intros. unfold byte_at, tabulate.
  rewrite nth_indep with (d' := f 0) by (rewrite length_map, length_zseq; lia).
  rewrite map_nth, nth_zseq by lia. f_equal. lia.
Qed.

(** The bytes of a string literal, without the terminator. *)
Definition bs (s : String.string) : list Z :=
  map (fun c => Z.of_N (Ascii.N_of_ascii c)) (String.list_ascii_of_string s).
Arguments bs s%_string_scope.

(** Little-endian integers in memory. *)
Fixpoint le_bytes (n : nat) (v : Z) : list Z :=
  match n with
  | O => []
  | S n' => u8 v :: le_bytes n' (Z.shiftr v 8)
  end.

Fixpoint le_value (l : list Z) : Z :=
  match l with
  | [] => 0
  | b :: l' => b + 256 * le_value l'
  end.

Lemma zlen_le_bytes n v : zlen (le_bytes n v) = Z.of_nat n.
Proof. unfold zlen. revert v. induction n as [|n IH]; intros v; cbn; [done|]. specialize (IH (Z.shiftr v 8)). lia. Qed.

Lemma le_value_bytes n v : 0 <= v < 2 ^ (8 * Z.of_nat n) -> le_value (le_bytes n v) = v.
Proof.
  revert v. induction n as [|n IH]; intros v Hv; cbn [le_bytes le_value].
  { change (2 ^ (8 * Z.of_nat 0)) with 1 in Hv. lia. }
  rewrite Z.shiftr_div_pow2 by lia. change (2 ^ 8) with 256. unfold u8. change (2 ^ 8) with 256.
  rewrite IH; [pose proof (Z.div_mod v 256); lia|].
  replace (8 * Z.of_nat (S n)) with (8 + 8 * Z.of_nat n) in Hv by lia. rewrite Z.pow_add_r in Hv by lia.
  change (2 ^ 8) with 256 in Hv. split; [apply Z.div_pos; lia|]. apply Z.div_lt_upper_bound; lia.
Qed.

(** ** Bit arithmetic *)

Lemma testbit_set a k j :
  0 <= k -> 0 <= j ->
  Z.testbit (Z.lor a (Z.shiftl 1 k)) j = Z.testbit a j || (j =? k).
Proof.
  intros. rewrite Z.lor_spec, Z.shiftl_1_l, Z.pow2_bits_eqb by lia.
  by rewrite (Z.eqb_sym k j).
Qed.

Lemma testbit_clear a k j :
  0 <= k -> 0 <= j ->
  Z.testbit (Z.ldiff a (Z.shiftl 1 k)) j = Z.testbit a j && negb (j =? k).
Proof.
  intros. rewrite Z.ldiff_spec, Z.shiftl_1_l, Z.pow2_bits_eqb by lia.
  by rewrite (Z.eqb_sym k j).
Qed.

Lemma testbit_high a n i : 0 <= a < 2 ^ n -> n <= i -> Z.testbit a i = false.
Proof.
  intros Ha Hi. destruct (Z.ltb_spec n 0).
  { rewrite Z.pow_neg_r in Ha by lia. lia. }
  rewrite <-(Z.mod_small a (2 ^ n)) by lia. by apply Z.mod_pow2_bits_high.
Qed.

(** A number below [2 ^ k] fills the low bits of a shifted number. *)
Lemma lor_shift v k d : 0 <= k -> 0 <= d < 2 ^ k -> Z.lor (Z.shiftl v k) d = v * 2 ^ k + d.
Proof.
  intros Hk Hd. assert (Hl : Z.land (Z.shiftl v k) d = 0).
  { apply Z.bits_inj'. intros n Hn. rewrite Z.land_spec, Z.bits_0, Z.shiftl_spec by lia.
    destruct (Z.ltb_spec n k); [by rewrite Z.testbit_neg_r by lia|].
    rewrite (testbit_high d k n) by lia. apply andb_false_r. }
  rewrite <-Z.lxor_lor, <-Z.add_nocarry_lxor by done. by rewrite Z.shiftl_mul_pow2.
Qed.

(** ** Singly linked lists in memory

    [lseg next p l q]: following [next] from [p] visits exactly the nodes of
    [l] and arrives at [q]. [chain next p l] is the NULL-terminated case.
    The kernel heap's free list and the directories of the VFS are such
    lists. *)

Section LinkedLists.

Fixpoint lseg (next : Z -> Z) (p : Z) (l : list Z) (q : Z) : Prop :=
  match l with
  | [] => p = q
  | x :: l' => p = x /\ x <> 0 /\ lseg next (next x) l' q
  end.

Definition chain (next : Z -> Z) (p : Z) (l : list Z) : Prop := lseg next p l 0.

Implicit Types next : Z -> Z.

Lemma lseg_app next p l1 l2 q :
  lseg next p (l1 ++ l2) q <-> exists r, lseg next p l1 r /\ lseg next r l2 q.
Proof.
  revert p; induction l1 as [|x l1 IH]; intros p; cbn [app lseg].
  - split; [by exists p|by intros (r & -> & ?)].
  - rewrite IH. naive_solver.
Qed.

Lemma lseg_ext next next' p l q :
  (forall x, x ∈ l -> next x = next' x) -> lseg next p l q -> lseg next' p l q.
Proof.
  revert p; induction l as [|x l IH]; intros p Hext; cbn [lseg]; [done|].
  intros (-> & ? & ?). split_and!; [done..|].
  rewrite <-Hext by set_solver. apply IH; [|done]. intros. apply Hext. set_solver.
Qed.

Lemma chain_ext next next' p l :
  (forall x, x ∈ l -> next x = next' x) -> chain next p l -> chain next' p l.
Proof. apply lseg_ext. Qed.

Lemma chain_det next p l1 l2 : chain next p l1 -> chain next p l2 -> l1 = l2.
Proof.
  unfold chain. revert p l2; induction l1 as [|x l1 IH]; intros p [|y l2]; cbn [lseg].
  - done.
  - by intros -> (<- & ? & _).
  - by intros (-> & ? & _) ->.
  - intros (-> & ? & H1) (-> & ? & H2). f_equal. eauto.
Qed.

Lemma chain_split next p l x :
  chain next p l -> x ∈ l ->
  exists l1 l2, l = l1 ++ x :: l2 /\ lseg next p l1 x /\ chain next (next x) l2.
Proof.
  intros Hc (l1 & l2 & ->)%list_elem_of_split.
  apply lseg_app in Hc as (r & H1 & H2). cbn [lseg] in H2.
  destruct H2 as (-> & ? & H2). eauto.
Qed.

(** A terminating traversal visits no node twice. *)
Lemma chain_NoDup next p l : chain next p l -> NoDup l.
Proof.
  revert p; induction l as [|x l IH]; intros p Hc; [constructor|].
  destruct Hc as (-> & Hx & Hc). constructor; [|eauto].
  intros Hin. destruct (chain_split _ _ _ _ Hc Hin) as (l1 & l2 & -> & _ & H2).
  pose proof (chain_det _ _ _ _ Hc H2) as E.
  apply (f_equal length) in E. rewrite length_app in E. cbn in E. lia.
Qed.

Lemma chain_nonnull next p l x : chain next p l -> x ∈ l -> x <> 0.
Proof.
  revert p; induction l as [|y l IH]; intros p Hc Hin; [by apply elem_of_nil in Hin|].
  destruct Hc as (-> & Hy & Hc). apply elem_of_cons in Hin as [->|?]; eauto.
Qed.

Lemma chain_nil_inv next l : chain next 0 l -> l = [].
Proof. destruct l as [|x l]; [done|]. intros (<- & ? & _). done. Qed.

Lemma chain_cons_inv next p l :
  chain next p l -> p <> 0 -> exists l', l = p :: l' /\ chain next (next p) l'.
Proof.
  destruct l as [|x l]; [by intros -> ?|]. intros (-> & ? & ?) _. eauto.
Qed.

End LinkedLists.
