(* ===== verification/Klib.v ===== *)
(** * Kernel support library (src/kernel/core/klib.c)

    The memory routines (with the x86 string instructions they are written
    in), the C string routines, [strtoul] and formatted output.

    A char buffer is the list of its bytes (0..255); reading at or past the
    end of the list yields the terminating NUL, so a list without zeros is a
    C string as it is. *)

From stdpp Require Import base numbers list gmap.
From Stdlib Require Import ZArith Lia ZifyBool.
From S2P Require Import Prelude.

(** ** Memory routines *)

(** [rep movsb]: [n] byte moves from RSI = [s] to RDI = [d]; both step by +1,
    or by -1 when the direction flag [df] is set. *)
Fixpoint rep_movsb (df : bool) (n : nat) (d s : Z) (m : memory) : memory :=
  match n with
  | O => m
  | S n' =>
      let step := if df then -1 else 1 in
      rep_movsb df n' (u64 (d + step)) (u64 (s + step)) (upd m d (m s))
  end.

(** [rep stosb]: [n] stores of AL = [v] from RDI = [d] upwards. *)
Fixpoint rep_stosb (n : nat) (d v : Z) (m : memory) : memory :=
  match n with
  | O => m
  | S n' => rep_stosb n' (u64 (d + 1)) v (upd m d v)
  end.

Definition memcpy (m : memory) (dest src n : Z) : memory :=
  rep_movsb false (Z.to_nat n) dest src m.

Definition memmove (m : memory) (dest src n : Z) : memory :=
  if (dest =? src) || (n =? 0) then m
  else if dest <? src then rep_movsb false (Z.to_nat n) dest src m
  else rep_movsb true (Z.to_nat n) (u64 (dest + n)) (u64 (src + n)) m.

Definition memset (m : memory) (dest value n : Z) : memory :=
  rep_stosb (Z.to_nat n) dest (u8 value) m.

(** ** C strings *)

Definition char_at (s : list Z) (i : nat) : Z := nth i s 0.

Fixpoint strlen (s : list Z) : Z :=
  match s with
  | [] => 0
  | c :: s' => if c =? 0 then 0 else 1 + strlen s'
  end.

Fixpoint strcmp (a b : list Z) : Z :=
  match a with
  | [] => 0 - hd 0 b
  | ca :: a' =>
      if negb (ca =? 0) && (ca =? hd 0 b) then strcmp a' (tl b) else ca - hd 0 b
  end.

Fixpoint strncmp (a b : list Z) (n : nat) : Z :=
  match n with
  | O => 0
  | S n' =>
      if negb (hd 0 a =? 0) && (hd 0 a =? hd 0 b) then strncmp (tl a) (tl b) n'
      else hd 0 a - hd 0 b
  end.

(** [strcpy]: the bytes written over [dest], NUL included; the rest of
    [dest] is untouched. *)
Fixpoint strcpy (dest src : list Z) : list Z :=
  match src with
  | [] => 0 :: tl dest
  | c :: src' => if c =? 0 then 0 :: tl dest else c :: strcpy (tl dest) src'
  end.

(** [strncpy]: copy up to the NUL, then pad with NULs up to [n] bytes. *)
Fixpoint strncpy (dest src : list Z) (n : nat) : list Z :=
  match n with
  | O => dest
  | S n' =>
      if hd 0 src =? 0 then replicate (S n') 0 ++ drop (S n') dest
      else hd 0 src :: strncpy (tl dest) (tl src) n'
  end.

(** [strchr]: the index of the first [c], the terminator included. *)
Fixpoint strchr_from (s : list Z) (c i : Z) : option Z :=
  match s with
  | [] => if c =? 0 then Some i else None
  | x :: s' =>
      if x =? 0 then if c =? 0 then Some i else None
      else if x =? c then Some i
      else strchr_from s' c (i + 1)
  end.

Definition strchr (s : list Z) (c : Z) : option Z := strchr_from s (u8 c) 0.

(** ** Number parsing *)

Definition digit_value (c : Z) : option Z :=
  if (48 <=? c) && (c <=? 57) then Some (c - 48)
  else if (97 <=? c) && (c <=? 102) then Some (c - 97 + 10)
  else if (65 <=? c) && (c <=? 70) then Some (c - 65 + 10)
  else None.

(** The digit loop: value and what is left of the input. *)
Fixpoint strtoul_digits (s : list Z) (base value : Z) : Z * list Z :=
  match s with
  | [] => (value, [])
  | c :: s' =>
      match digit_value c with
      | Some d =>
          if u32 base <=? d then (value, s)
          else strtoul_digits s' base (u64 (u64 (value * base) + d))
      | None => (value, s)
      end
  end.

Fixpoint skip_blanks (s : list Z) : list Z :=
  match s with
  | c :: s' => if (c =? 32) || (c =? 9) then skip_blanks s' else s
  | [] => []
  end.

Definition has_hex_prefix (s : list Z) : bool :=
  (char_at s 0 =? 48) && ((char_at s 1 =? 120) || (char_at s 1 =? 88)).

Definition strtoul (s : list Z) (base : Z) : Z * list Z :=
  let p := skip_blanks s in
  if base =? 0 then
    if has_hex_prefix p then strtoul_digits (drop 2 p) 16 0
    else if char_at p 0 =? 48 then strtoul_digits p 8 0
    else strtoul_digits p 10 0
  else if (base =? 16) && has_hex_prefix p then strtoul_digits (drop 2 p) base 0
  else strtoul_digits p base 0.

(** ** Formatted output *)

Definition digit_char (upper : bool) (digit : Z) : Z :=
  if digit <? 10 then 48 + digit else (if upper then 65 else 97) + digit - 10.

(** The digit loop of [kput_unsigned]: the contents of [digits[]], least
    significant first. 64 rounds are enough for any base from 2 on. *)
Fixpoint put_digits (fuel : nat) (value base : Z) (upper : bool) : list Z :=
  match fuel with
  | O => []
  | S fuel' =>
      if value =? 0 then []
      else digit_char upper (value mod base) :: put_digits fuel' (value / base) base upper
  end.

Definition kput_unsigned (value base : Z) (upper : bool) : list Z :=
  if value =? 0 then [48] else rev (put_digits 64 value base upper).

(** A variadic argument: an integer register or a string pointer. *)
Inductive va :=
| VaInt (z : Z)
| VaStr (s : option (list Z)).

Definition va_int (args : list va) : option (Z * list va) :=
  match args with VaInt z :: args' => Some (z, args') | _ => None end.

Definition va_str (args : list va) : option (option (list Z) * list va) :=
  match args with VaStr s :: args' => Some (s, args') | _ => None end.

Fixpoint scan_width (fmt : list Z) (width : Z) : Z * list Z :=
  match fmt with
  | c :: fmt' =>
      if (48 <=? c) && (c <=? 57) then scan_width fmt' (s32 (s32 (width * 10) + (c - 48)))
      else (width, fmt)
  | [] => (width, [])
  end.

Fixpoint scan_long (fmt : list Z) (is_long : bool) : bool * list Z :=
  match fmt with
  | c :: fmt' => if c =? 108 then scan_long fmt' true else (is_long, fmt)
  | [] => (is_long, [])
  end.

Definition null_str : list Z := [40; 110; 117; 108; 108; 41].

Definition c_string (s : list Z) : list Z := take (Z.to_nat (strlen s)) s.

Definition format_str (s : option (list Z)) (left_align : bool) (width : Z) : list Z :=
  let s := match s with Some s => s | None => null_str end in
  let pad := s32 (width - s32 (strlen s)) in
  let blanks := replicate (Z.to_nat pad) 32 in
  (if left_align then [] else blanks) ++ c_string s ++ (if left_align then blanks else []).

Definition format_unsigned (z base : Z) (upper is_long : bool) : list Z :=
  kput_unsigned (if is_long then u64 z else u32 z) base upper.

Definition format_signed (z : Z) (is_long : bool) : list Z :=
  let v := if is_long then s64 z else s32 z in
  if v <? 0 then 45 :: kput_unsigned (u64 (- v)) 10 false else kput_unsigned (u64 v) 10 false.

(** One conversion: the text for the conversion character [c] and the
    remaining arguments; [None] when the argument has the wrong kind. *)
Definition format_one (c : Z) (left_align : bool) (width : Z) (is_long : bool)
    (args : list va) : option (list Z * list va) :=
  if c =? 115 then '(s, args) ← va_str args; Some (format_str s left_align width, args)
  else if c =? 99 then '(z, args) ← va_int args; Some ([u8 z], args)
  else if c =? 100 then '(z, args) ← va_int args; Some (format_signed z is_long, args)
  else if c =? 117 then '(z, args) ← va_int args; Some (format_unsigned z 10 false is_long, args)
  else if c =? 120 then '(z, args) ← va_int args; Some (format_unsigned z 16 false is_long, args)
  else if c =? 88 then '(z, args) ← va_int args; Some (format_unsigned z 16 true is_long, args)
  else if c =? 112 then
    '(z, args) ← va_int args; Some ([48; 120] ++ kput_unsigned (u64 z) 16 false, args)
  else if c =? 37 then Some ([37], args)
  else Some ([37; c], args).

(** [kvprintf]: the characters passed to the sink. [None]: the call reads an
    argument that was not passed, or reads past the end of the format (a
    format that ends inside a conversion). *)
Fixpoint kvprintf (fuel : nat) (fmt : list Z) (args : list va) : option (list Z) :=
  match fuel with
  | O => None
  | S fuel' =>
      match fmt with
      | [] => Some []
      | c :: fmt =>
          if c =? 0 then Some []
          else if negb (c =? 37) then out ← kvprintf fuel' fmt args; Some (c :: out)
          else
            let left_align := hd 0 fmt =? 45 in
            let fmt := if left_align then tl fmt else fmt in
            let '(width, fmt) := scan_width fmt 0 in
            let '(is_long, fmt) := scan_long fmt false in
            match fmt with
            | [] => None
            | c :: fmt =>
                if c =? 0 then None
                else
                  '(text, args) ← format_one c left_align width is_long args;
                  out ← kvprintf fuel' fmt args;
                  Some (text ++ out)
            end
      end
  end.

(** ** Facts about the memory routines *)

Lemma rep_movsb_forward n d s m x :
  0 <= d -> d + Z.of_nat n < 2 ^ 64 -> 0 <= s -> s + Z.of_nat n < 2 ^ 64 ->
  d <= s \/ s + Z.of_nat n <= d ->
  rep_movsb false n d s m x =
    if (d <=? x) && (x <? d + Z.of_nat n) then m (s + (x - d)) else m x.
Proof.
  revert d s m; induction n as [|n IH]; intros d s m ? ? ? ? Hov; cbn [rep_movsb].
  { split_tests; [lia|done]. }
  rewrite !u64_small, IH by lia.
  destruct (Z.eq_dec x d) as [->|Hx].
  - rewrite upd_eq. split_tests; first [lia|f_equal; lia].
  - rewrite !(upd_ne _ _ x) by done.
    split_tests; first [lia | done | rewrite upd_ne by lia; f_equal; lia].
Qed.

Lemma rep_movsb_backward n d s m x :
  Z.of_nat n <= d < 2 ^ 64 -> Z.of_nat n <= s -> s <= d ->
  rep_movsb true n d s m x =
    if (d - Z.of_nat n <? x) && (x <=? d) then m (s - (d - x)) else m x.
Proof.
  revert d s m; induction n as [|n IH]; intros d s m ? ? Hov; cbn [rep_movsb].
  { split_tests; [lia|done]. }
  rewrite !u64_small, IH by lia.
  destruct (Z.eq_dec x d) as [->|Hx].
  - rewrite upd_eq. split_tests; first [lia|f_equal; lia].
  - rewrite !(upd_ne _ _ x) by done.
    split_tests; first [lia | done | rewrite upd_ne by lia; f_equal; lia].
Qed.

Lemma rep_stosb_fill n d v m x :
  0 <= d -> d + Z.of_nat n < 2 ^ 64 ->
  rep_stosb n d v m x = fill m d (Z.of_nat n) v x.
Proof.
  unfold fill. revert d m; induction n as [|n IH]; intros d m ? ?; cbn [rep_stosb].
  { split_tests; [lia|done]. }
  rewrite u64_small, IH by lia. unfold upd. split_tests; first [lia|done].
Qed.

Lemma memset_fill m dest v n x :
  0 <= dest -> 0 <= n -> dest + n < 2 ^ 64 ->
  memset m dest v n x = fill m dest n (u8 v) x.
Proof. intros. unfold memset. rewrite rep_stosb_fill by lia. by rewrite Z2Nat.id. Qed.

(** ** Facts about strings *)

Definition bytes (s : list Z) : Prop := Forall (fun c => 0 <= c < 256) s.

(** The lexicographic order on byte strings, as a comparison. *)
Fixpoint lex (a b : list Z) : comparison :=
  match a, b with
  | [], [] => Eq
  | [], _ => Lt
  | _, [] => Gt
  | x :: a', y :: b' => match Z.compare x y with Eq => lex a' b' | c => c end
  end.

Lemma lex_eq a b : lex a b = Eq <-> a = b.
Proof.
  revert b; induction a as [|x a IH]; intros [|y b]; cbn [lex]; try done.
  destruct (Z.compare_spec x y); [subst; rewrite IH; naive_solver|..];
    (split; [done|]; intros [= ]; lia).
Qed.

Lemma strlen_nonneg s : 0 <= strlen s.
Proof. induction s as [|c s IH]; cbn [strlen]; split_tests; lia. Qed.

Lemma c_string_cons c s :
  c_string (c :: s) = if c =? 0 then [] else c :: c_string s.
Proof.
  unfold c_string. cbn [strlen]. destruct (c =? 0); [done|].
  pose proof (strlen_nonneg s). by rewrite Z2Nat.inj_add by lia.
Qed.

Lemma c_string_nz s : 0 ∉ s -> c_string s = s.
Proof.
  induction s as [|c s IH]; [done|]. intros H. rewrite c_string_cons.
  destruct (Z.eqb_spec c 0); [set_solver|]. rewrite IH; set_solver.
Qed.

Lemma strlen_length s : strlen s = Z.of_nat (length (c_string s)).
Proof.
  induction s as [|c s IH]; [done|]. rewrite c_string_cons. cbn [strlen].
  destruct (c =? 0); cbn [length]; lia.
Qed.

Lemma strcmp_lex a b :
  bytes a -> bytes b -> Z.compare (strcmp a b) 0 = lex (c_string a) (c_string b).
Proof.
  intros Ha; revert b; induction Ha as [|x a Hx Ha IH]; intros b Hb; cbn [strcmp].
  - change (c_string []) with (@nil Z).
    destruct Hb as [|y b Hy Hb]; [done|]. cbn [hd]. rewrite c_string_cons.
    destruct (Z.eqb_spec y 0); [by subst|]. apply Z.compare_lt_iff. lia.
  - rewrite c_string_cons. destruct Hb as [|y b Hy Hb]; cbn [hd tl].
    + change (c_string []) with (@nil Z).
      destruct (Z.eqb_spec x 0) as [->|]; [done|]. cbn [andb negb lex].
      apply Z.compare_gt_iff. lia.
    + rewrite c_string_cons.
      destruct (Z.eqb_spec x 0) as [->|], (Z.eqb_spec y 0) as [->|]; cbn [andb negb lex].
      * done.
      * apply Z.compare_lt_iff. lia.
      * destruct (Z.eqb_spec x 0); [done|]. apply Z.compare_gt_iff. lia.
      * destruct (Z.eqb_spec x y) as [->|]; [by rewrite Z.compare_refl; apply IH|].
        destruct (Z.compare_spec x y);
          [done|apply Z.compare_lt_iff; lia|apply Z.compare_gt_iff; lia].
Qed.

(** ** Facts about number parsing and printing *)

Lemma digit_value_char upper d : 0 <= d < 16 -> digit_value (digit_char upper d) = Some d.
Proof.
  intros Hd. unfold digit_value, digit_char.
  destruct (Z.ltb_spec d 10), upper; split_tests; first [lia | f_equal; lia].
Qed.

Lemma strtoul_digits_put f v base upper rest :
  2 <= base <= 16 -> 0 <= v < 2 ^ Z.of_nat f -> v < 2 ^ 64 ->
  strtoul_digits (rev (put_digits f v base upper) ++ rest) base 0 = strtoul_digits rest base v.
Proof.
  intros Hb. revert v rest; induction f as [|f IH]; intros v rest Hv Hv64; cbn [put_digits].
  { change (2 ^ Z.of_nat 0) with 1 in Hv. by replace v with 0 by lia. }
  destruct (Z.eqb_spec v 0) as [->|Hnz]; [done|]. cbn [rev]. rewrite <-app_assoc.
  rewrite Nat2Z.inj_succ, Z.pow_succ_r in Hv by lia.
  assert (0 <= v / base <= v / 2) as Hq.
  { split; [apply Z.div_pos; lia|]. apply Z.div_le_compat_l; lia. }
  pose proof (Z.mod_pos_bound v base ltac:(lia)) as Hm.
  pose proof (Z.div_mod v base ltac:(lia)) as Hdm.
  rewrite IH; [|split; [lia|]; apply Z.le_lt_trans with (v / 2); [lia|divlia]
               |apply Z.le_lt_trans with (v / 2); [lia|divlia]].
  cbn [app strtoul_digits]. rewrite digit_value_char by lia.
  rewrite (u32_small base) by lia. destruct (Z.leb_spec base (v mod base)); [lia|].
  rewrite (Z.mul_comm (v / base)), (u64_small (base * _)) by nia.
  by rewrite <-Hdm, u64_small by lia.
Qed.

Lemma put_digits_length f v base upper k :
  1 < base -> 0 <= v < base ^ Z.of_nat k -> (length (put_digits f v base upper) <= k)%nat.
Proof.
  intros Hb. revert v k; induction f as [|f IH]; intros v k Hv; cbn [put_digits length]; [lia|].
  destruct (Z.eqb_spec v 0); cbn [length]; [lia|].
  destruct k as [|k]; [change (base ^ Z.of_nat 0) with 1 in Hv; lia|].
  rewrite Nat2Z.inj_succ, Z.pow_succ_r in Hv by lia.
  apply le_n_S, IH. split; [apply Z.div_pos; lia|]. apply Z.div_lt_upper_bound; lia.
Qed.

Lemma digit_char_range upper d : 0 <= d < 16 -> 48 <= digit_char upper d <= 102 /\ digit_char upper d <> 88.
Proof. intros. unfold digit_char. destruct upper; split_tests; lia. Qed.

Definition plain_digit (c : Z) : Prop := 48 <= c <= 102 /\ c <> 88.

Lemma put_digits_chars f v base upper :
  2 <= base <= 16 -> Forall plain_digit (put_digits f v base upper).
Proof.
  intros Hb. revert v; induction f as [|f IH]; intros v; cbn [put_digits]; [constructor|].
  destruct (v =? 0); constructor; [|done].
  apply digit_char_range. pose proof (Z.mod_pos_bound v base). lia.
Qed.

Lemma kput_chars v base upper :
  2 <= base <= 16 -> Forall plain_digit (kput_unsigned v base upper).
Proof.
  intros Hb. unfold kput_unsigned. destruct (v =? 0).
  - constructor; [|constructor]. split; lia.
  - apply Forall_rev, put_digits_chars. lia.
Qed.

Lemma strtoul_digits_kput v base upper rest :
  2 <= base <= 16 -> 0 <= v < 2 ^ 64 ->
  strtoul_digits (kput_unsigned v base upper ++ rest) base 0 = strtoul_digits rest base v.
Proof.
  intros Hb Hv. unfold kput_unsigned. destruct (Z.eqb_spec v 0) as [->|].
  - cbn [app strtoul_digits]. change (digit_value 48) with (Some 0).
    rewrite u32_small by lia. by destruct (Z.leb_spec base 0); [lia|].
  - apply strtoul_digits_put; lia.
Qed.

Lemma strtoul_plain s base :
  Forall plain_digit s -> 2 <= base -> strtoul s base = strtoul_digits s base 0.
Proof.
  intros Hs Hb. unfold strtoul.
  assert (skip_blanks s = s) as ->.
  { destruct Hs as [|c s [Hc _] _]; [done|]. cbn. split_tests; [lia|done]. }
  destruct (Z.eqb_spec base 0); [lia|].
  assert (has_hex_prefix s = false) as ->; [|by rewrite andb_false_r].
  unfold has_hex_prefix, char_at.
  destruct Hs as [|c s _ Hs]; [done|]. destruct Hs as [|c' s [Hc Hc'] _]; cbn [nth]; lia.
Qed.

(** ** Formatted output: the text of a format

    A format as the caller writes it: literal characters and conversions
    with an optional minus flag, width and [l] modifiers. *)

Inductive item :=
| Lit (c : Z)
| Conv (left_align : bool) (width : Z) (longs : nat) (c : Z).

Definition conversions : list Z := [115; 99; 100; 117; 120; 88; 112; 37].

Definition item_ok (i : item) : Prop :=
  match i with
  | Lit c => c <> 0 /\ c <> 37
  | Conv _ w _ c => 0 <= w < 2 ^ 31 /\ c ∈ conversions
  end.

Definition item_text (i : item) : list Z :=
  match i with
  | Lit c => [c]
  | Conv l w k c =>
      [37] ++ (if l then [45] else []) ++ (if w =? 0 then [] else kput_unsigned w 10 false) ++
      replicate k 108 ++ [c]
  end.

(** What the format means: one item after the other, arguments in order. *)
Fixpoint render (items : list item) (args : list va) : option (list Z) :=
  match items with
  | [] => Some []
  | Lit c :: items => out ← render items args; Some (c :: out)
  | Conv l w k c :: items =>
      '(text, args) ← format_one c l w (negb (Nat.eqb k 0)) args;
      out ← render items args;
      Some (text ++ out)
  end.

Lemma put_digits_decimal f v upper :
  Forall (fun c => 48 <= c <= 57) (put_digits f v 10 upper).
Proof.
  revert v; induction f as [|f IH]; intros v; cbn [put_digits]; [constructor|].
  destruct (v =? 0); constructor; [|done].
  unfold digit_char. pose proof (Z.mod_pos_bound v 10). split_tests; lia.
Qed.

(** [scan_width] reads back a printed width below 2^31. *)
Lemma scan_width_put f v rest :
  0 <= v < 2 ^ Z.of_nat f -> v < 2 ^ 31 ->
  scan_width (rev (put_digits f v 10 false) ++ rest) 0 = scan_width rest v.
Proof.
  revert v rest; induction f as [|f IH]; intros v rest Hv Hv31; cbn [put_digits].
  { change (2 ^ Z.of_nat 0) with 1 in Hv. by replace v with 0 by lia. }
  destruct (Z.eqb_spec v 0) as [->|Hnz]; [done|]. cbn [rev]. rewrite <-app_assoc.
  rewrite Nat2Z.inj_succ, Z.pow_succ_r in Hv by lia.
  rewrite IH by divlia. cbn [app scan_width]. unfold digit_char.
  destruct (Z.ltb_spec (v mod 10) 10); [|divlia].
  replace ((48 <=? 48 + v mod 10) && (48 + v mod 10 <=? 57)) with true by divlia.
  f_equal. replace (48 + v mod 10 - 48) with (v mod 10) by lia.
  rewrite (s32_small (_ * _)) by divlia. rewrite s32_small; divlia.
Qed.

Lemma scan_width_stop c rest w :
  ~ 48 <= c <= 57 -> scan_width (c :: rest) w = (w, c :: rest).
Proof. intros. cbn [scan_width]. split_tests; [lia|done]. Qed.

Lemma scan_long_replicate k b c rest :
  c <> 108 ->
  scan_long (replicate k 108 ++ c :: rest) b = (b || negb (Nat.eqb k 0), c :: rest).
Proof.
  intros Hc. revert b; induction k as [|k IH]; intros b; cbn [replicate app scan_long].
  - destruct (Z.eqb_spec c 108); [done|]. by rewrite orb_false_r.
  - rewrite IH. cbn. by rewrite orb_true_r.
Qed.

Lemma conversions_plain c :
  c ∈ conversions -> c <> 0 /\ c <> 45 /\ c <> 108 /\ ~ 48 <= c <= 57.
Proof. unfold conversions. rewrite !elem_of_cons, elem_of_nil. lia. Qed.

(** The flags of a conversion, read back from its text. *)
Lemma scan_flags (l : bool) w k c rest :
  0 <= w < 2 ^ 31 -> c ∈ conversions ->
  let fmt := (if l then [45] else []) ++ (if w =? 0 then [] else kput_unsigned w 10 false) ++
             replicate k 108 ++ c :: rest in
  (hd 0 fmt =? 45) = l /\
  (scan_width (if l then tl fmt else fmt) 0 = (w, replicate k 108 ++ c :: rest)).
Proof.
  intros Hw Hc. destruct (conversions_plain c Hc) as (_ & H45 & H108 & Hd).
  set (tail := replicate k 108 ++ c :: rest).
  assert (Htail : scan_width tail w = (w, tail) /\ hd 0 tail <> 45).
  { destruct k; [split; [by apply scan_width_stop|done]|split; [by apply scan_width_stop; lia|done]]. }
  destruct Htail as [Hstop Hhd].
  assert (Hscan : scan_width ((if w =? 0 then [] else kput_unsigned w 10 false) ++ tail) 0 = (w, tail)).
  { unfold kput_unsigned. destruct (Z.eqb_spec w 0) as [->|]; [done|].
    rewrite scan_width_put by lia. done. }
  assert (Hhd' : hd 0 ((if w =? 0 then [] else kput_unsigned w 10 false) ++ tail) <> 45).
  { destruct (w =? 0); [done|]. pose proof (kput_chars w 10 false ltac:(lia)) as Hk.
    destruct Hk as [|x ? [Hx _]]; [done|]. cbn. lia. }
  destruct l; cbn [app hd tl]; [by split|]. split; [|done].
  by apply Z.eqb_neq.
Qed.

Lemma kvprintf_item f i items args :
  item_ok i ->
  kvprintf (S f) (item_text i ++ items) args =
    match i with
    | Lit c => out ← kvprintf f items args; Some (c :: out)
    | Conv l w k c =>
        '(text, args) ← format_one c l w (negb (Nat.eqb k 0)) args;
        out ← kvprintf f items args;
        Some (text ++ out)
    end.
Proof.
  destruct i as [c|l w k c]; cbn [item_ok item_text]; intros Hok.
  - cbn [app kvprintf]. destruct (Z.eqb_spec c 0), (Z.eqb_spec c 37); naive_solver.
  - destruct Hok as [Hw Hc]. destruct (conversions_plain c Hc) as (H0 & _ & H108 & _).
    destruct (scan_flags l w k c items Hw Hc) as [Hl Hsw].
    cbn [app kvprintf Z.eqb Pos.eqb negb]. rewrite <-!app_assoc.
    cbn [app]. rewrite Hl, Hsw, scan_long_replicate by done.
    by destruct (Z.eqb_spec c 0); [lia|].
Qed.

(** ** Properties *)

(** [memcpy] on disjoint buffers, and [memmove] whenever the destination
    does not lie above the source, copy exactly the [n] bytes of the source
    as they were before the call and touch nothing else. *)
Theorem memmove_forward_copies m dest src n :
  0 <= dest -> 0 <= n -> dest + n < 2 ^ 64 -> 0 <= src -> src + n < 2 ^ 64 ->
  (forall x, dest <= src \/ src + n <= dest ->
     memcpy m dest src n x =
       if (dest <=? x) && (x <? dest + n) then m (src + (x - dest)) else m x) /\
  (forall x, dest <= src ->
     memmove m dest src n x =
       if (dest <=? x) && (x <? dest + n) then m (src + (x - dest)) else m x).
Proof.
  intros Hd Hn Hdn Hs Hsn. split; intros x Hov.
  - unfold memcpy. rewrite rep_movsb_forward by lia. by rewrite Z2Nat.id.
  - unfold memmove. destruct (Z.eqb_spec dest src) as [->|].
    { cbn. split_tests; [f_equal; lia|done]. }
    destruct (Z.eqb_spec n 0) as [->|]; cbn [orb].
    { split_tests; [lia|done]. }
    destruct (Z.ltb_spec dest src); [|lia].
    rewrite rep_movsb_forward by lia. by rewrite Z2Nat.id.
Qed.

Lemma memmove_forward_copies_witness :
  memmove (fun a => a) 100 102 4 103 = 105.
Proof.
  exact (proj2 (memmove_forward_copies (fun a => a) 100 102 4
           ltac:(lia) ltac:(lia) ltac:(lia) ltac:(lia) ltac:(lia)) 103 ltac:(lia)).
Defined.

(** (A defect.) When the destination lies above the source, the backward
    branch of [memmove] starts one byte too high: it moves the bytes
    [1 .. n] instead of [0 .. n-1], so the byte after the destination
    buffer is overwritten and the first destination byte is left alone. *)
Theorem memmove_backward_shifted m dest src n x :
  0 <= src < dest -> 0 < n -> dest + n < 2 ^ 64 ->
  memmove m dest src n x =
    if (dest <? x) && (x <=? dest + n) then m (src + (x - dest)) else m x.
Proof.
  intros Hs Hn Hd. unfold memmove.
  destruct (Z.eqb_spec dest src); [lia|]. destruct (Z.eqb_spec n 0); [lia|]. cbn [orb].
  destruct (Z.ltb_spec dest src); [lia|]. rewrite !u64_small by lia.
  rewrite rep_movsb_backward by lia. rewrite Z2Nat.id by lia.
  replace (dest + n - n) with dest by lia. by replace (src + n - (dest + n - x)) with (src + (x - dest)) by lia.
Qed.

Lemma memmove_backward_shifted_witness :
  memmove (fun a => a) 102 100 4 102 = 102 /\ memmove (fun a => a) 102 100 4 106 = 104.
Proof.
  split.
  - exact (memmove_backward_shifted (fun a => a) 102 100 4 102 ltac:(lia) ltac:(lia) ltac:(lia)).
  - exact (memmove_backward_shifted (fun a => a) 102 100 4 106 ltac:(lia) ltac:(lia) ltac:(lia)).
Defined.

(** [strcmp] orders strings: the sign of its result is the lexicographic
    comparison of the two byte strings up to their terminators, so it is
    zero exactly for equal strings. *)
Theorem strcmp_orders a b :
  bytes a -> bytes b ->
  Z.compare (strcmp a b) 0 = lex (c_string a) (c_string b) /\
  (strcmp a b = 0 <-> c_string a = c_string b).
Proof.
  intros Ha Hb. pose proof (strcmp_lex a b Ha Hb) as E. split; [done|].
  rewrite <-lex_eq, <-E. by rewrite Z.compare_eq_iff.
Qed.

Lemma strcmp_orders_witness :
  strcmp [97; 98] [97; 98; 0; 99] = 0 <-> c_string [97; 98] = c_string [97; 98; 0; 99].
Proof.
  refine (proj2 (strcmp_orders [97; 98] [97; 98; 0; 99] _ _)); repeat constructor; lia.
Defined.

(** Printing a 64-bit number with [kput_unsigned] and reading the text
    back with [strtoul] in the same base gives the number and consumes the
    whole text; in the bases the kernel prints (10 and up) the text has at
    most 20 characters, within the 24 of the [digits] buffer. *)
Theorem strtoul_kput_unsigned v base upper :
  2 <= base <= 16 -> 0 <= v < 2 ^ 64 ->
  strtoul (kput_unsigned v base upper) base = (v, []) /\
  (10 <= base -> (length (kput_unsigned v base upper) <= 20)%nat).
Proof.
  intros Hb Hv. split.
  - rewrite strtoul_plain by (try apply kput_chars; lia).
    rewrite <-(app_nil_r (kput_unsigned _ _ _)). by rewrite strtoul_digits_kput by lia.
  - intros Hb10. unfold kput_unsigned. destruct (v =? 0); [cbn; lia|].
    rewrite length_rev. apply put_digits_length; [lia|]. split; [lia|].
    apply Z.lt_le_trans with (10 ^ 20); [lia|]. apply Z.pow_le_mono_l. lia.
Qed.

Lemma strtoul_kput_unsigned_witness :
  strtoul (kput_unsigned 0xffffffff81000000 16 true) 16 = (0xffffffff81000000, []).
Proof. apply (strtoul_kput_unsigned 0xffffffff81000000 16 true); lia. Defined.

(** [kvprintf] prints what the format says: for every format made of
    literal characters and of conversions with an optional minus flag, a
    width below 2^31 and any number of [l] modifiers, the walk over the
    format text reads back exactly the items and produces their texts in
    order, consuming the arguments from left to right. *)
Theorem kvprintf_renders items args fuel :
  Forall item_ok items -> (length items < fuel)%nat ->
  kvprintf fuel (concat (map item_text items)) args = render items args.
Proof.
  intros Hok. revert args fuel; induction Hok as [|i items Hi Hok IH]; intros args fuel Hf;
    (destruct fuel as [|fuel]; [cbn in Hf; lia|]); [done|].
  cbn [map concat length] in *. rewrite kvprintf_item by done.
  destruct i as [c|l w k c]; cbn [render].
  - by rewrite IH by lia.
  - destruct (format_one c l w _ args) as [[text args']|]; [|done].
    cbn. by rewrite IH by lia.
Qed.

(** [kprintf("%-5s|", "ab")]. *)
Lemma kvprintf_renders_witness :
  kvprintf 3 (concat (map item_text [Conv true 5 0 115; Lit 124])) [VaStr (Some [97; 98])] =
  Some [97; 98; 32; 32; 32; 124].
Proof.
  rewrite (kvprintf_renders [Conv true 5 0 115; Lit 124] [VaStr (Some [97; 98])] 3);
    [vm_compute; reflexivity| |cbn; lia].
  repeat constructor; cbn; try lia.
Defined.
