(* ===== verification/Interfaces.v ===== *)
(** * Interfaces between the components

    What one part of the kernel promises to another, as type classes: the
    clients' theorems are proved against the class, the implementation's
    file declares the instance. *)

From stdpp Require Import base numbers list gmap.
From Stdlib Require Import ZArith Lia ZifyBool.
From S2P Require Import Prelude.

(** ** Frame pool

    The contract of the physical memory manager (src/kernel/mm/pmm.h) that
    the virtual memory manager and the kernel heap build on. [fp_avail s p]:
    the frame at physical address [p] is available. A failing allocation
    returns 0, so address 0 never counts as available. *)

Definition page_aligned (p : Z) : Prop := p mod 4096 = 0.

Class FramePool (P : Type) := {
  fp_alloc : P -> Z * P;
  fp_free : P -> Z -> P;
  fp_inv : P -> Prop;
  fp_avail : P -> Z -> Prop;

  (** An allocated frame was available, is aligned and addressable, and is
      the only one that stops being available. *)
  fp_alloc_spec s p s' :
    fp_inv s -> fp_alloc s = (p, s') ->
    fp_inv s' /\
    (p = 0 \/ (fp_avail s p /\ page_aligned p /\ 0 < p < 2 ^ 52)) /\
    (forall q, fp_avail s' q <-> fp_avail s q /\ q <> p);

  (** Releasing a frame makes at most that frame available. *)
  fp_free_spec s p :
    fp_inv s -> page_aligned p -> 0 <= p ->
    fp_inv (fp_free s p) /\
    (forall q, fp_avail s q -> fp_avail (fp_free s p) q) /\
    (forall q, fp_avail (fp_free s p) q -> fp_avail s q \/ q = p);
}.
