(* ===== verification/Hardware.v ===== *)
(** * Port I/O, interrupt controller, timer and serial line

    The port instructions of src/kernel/arch/x86_64/io.h as a class over the
    state of the hardware, and the drivers that only talk to ports: pic.c
    (the two 8259A interrupt controllers), pit.c (the tick counter and
    [timer_sleep_ms]) and serial.c (the UART).

    The hardware is a parameter of the drivers. The theorem on pic.c takes
    for it the two chips as their data sheet describes them: the sequence of
    initialisation words, the mask register, the vector base. *)

From stdpp Require Import base numbers list gmap.
From Stdlib Require Import ZArith Lia ZifyBool.
From S2P Require Import Prelude.

(** [inb] and [outb]: reading a port may change the device. *)
Class Ports (H : Type) := {
  inb : Z -> H -> Z * H;
  outb : Z -> Z -> H -> H;
}.

(** ** The interrupt controller (pic.c) *)

Definition PIC1_CMD_PORT : Z := 0x20.
Definition PIC1_DATA_PORT : Z := 0x21.
Definition PIC2_CMD_PORT : Z := 0xA0.
Definition PIC2_DATA_PORT : Z := 0xA1.
Definition ICW1_INIT : Z := 0x11.
Definition ICW4_8086 : Z := 0x01.
Definition MASTER_BASE : Z := 0x20.
Definition SLAVE_BASE : Z := 0x28.
Definition SLAVE_ON_IRQ2 : Z := 0x04.
Definition SLAVE_CASCADE_ID : Z := 0x02.

Record pic := Pic {
  g_master_mask : Z;
  g_slave_mask : Z;
}.

(** The static initialisers. *)
Definition pic_boot : pic := Pic 0xFF 0xFF.

Section Pic.
Context {H : Type} `{Ports H}.

Definition io_wait (h : H) : H := outb 0x80 0 h.

Definition pic_init (p : pic) (h : H) : H :=
  let h := io_wait (outb PIC1_CMD_PORT ICW1_INIT h) in
  let h := io_wait (outb PIC2_CMD_PORT ICW1_INIT h) in
  let h := io_wait (outb PIC1_DATA_PORT MASTER_BASE h) in
  let h := io_wait (outb PIC2_DATA_PORT SLAVE_BASE h) in
  let h := io_wait (outb PIC1_DATA_PORT SLAVE_ON_IRQ2 h) in
  let h := io_wait (outb PIC2_DATA_PORT SLAVE_CASCADE_ID h) in
  let h := io_wait (outb PIC1_DATA_PORT ICW4_8086 h) in
  let h := io_wait (outb PIC2_DATA_PORT ICW4_8086 h) in
  let h := outb PIC1_DATA_PORT (g_master_mask p) h in
  outb PIC2_DATA_PORT (g_slave_mask p) h.

Definition pic_enable_irq (irq : Z) (p : pic) (h : H) : pic * H :=
  if irq <? 8 then
    let m := Z.land (g_master_mask p) (u8 (Z.lnot (Z.shiftl 1 irq))) in
    (Pic m (g_slave_mask p), outb PIC1_DATA_PORT m h)
  else if irq <? 16 then
    let m := Z.land (g_slave_mask p) (u8 (Z.lnot (Z.shiftl 1 (irq - 8)))) in
    (Pic (g_master_mask p) m, outb PIC2_DATA_PORT m h)
  else (p, h).

Definition pic_disable_irq (irq : Z) (p : pic) (h : H) : pic * H :=
  if irq <? 8 then
    let m := Z.lor (g_master_mask p) (u8 (Z.shiftl 1 irq)) in
    (Pic m (g_slave_mask p), outb PIC1_DATA_PORT m h)
  else if irq <? 16 then
    let m := Z.lor (g_slave_mask p) (u8 (Z.shiftl 1 (irq - 8))) in
    (Pic (g_master_mask p) m, outb PIC2_DATA_PORT m h)
  else (p, h).

Definition pic_send_eoi (irq : Z) (h : H) : H :=
  let h := if 8 <=? irq then outb PIC2_CMD_PORT 0x20 h else h in
  outb PIC1_CMD_PORT 0x20 h.
End Pic.

(** ** The timer (pit.c) *)

Definition PIT_CH0_DATA : Z := 0x40.
Definition PIT_CMD : Z := 0x43.
Definition PIT_IRQ : Z := 0.
Definition DIVISOR_100HZ : Z := 11932.

Definition pit_tick (g_ticks : Z) : Z := u64 (g_ticks + 1).
Definition pit_ticks (g_ticks : Z) : Z := g_ticks.
Definition pit_uptime_ms (g_ticks : Z) : Z := u64 (g_ticks * 10).

Section Pit.
Context {H : Type} `{Ports H}.

Definition pit_init (p : pic) (h : H) : pic * H :=
  let h := outb PIT_CMD 0x36 h in
  let h := outb PIT_CH0_DATA (u8 (Z.land DIVISOR_100HZ 0xFF)) h in
  let h := outb PIT_CH0_DATA (u8 (Z.land (Z.shiftr DIVISOR_100HZ 8) 0xFF)) h in
  pic_enable_irq PIT_IRQ p h.
End Pit.

Definition sleep_target (g_ticks ms : Z) : Z := u64 (g_ticks + u32 (ms + 9) / 10).

(** The waiting loop. [wakes] are the interrupts that end each [hlt] in
    turn: [true] for the timer, [false] for another one. The result is the
    tick count on return and the wake-ups left, [None] while still asleep. *)
Fixpoint sleep_loop (target g_ticks : Z) (wakes : list bool) : option (Z * list bool) :=
  if g_ticks <? target then
    match wakes with
    | [] => None
    | tick :: wakes' => sleep_loop target (if tick then pit_tick g_ticks else g_ticks) wakes'
    end
  else Some (g_ticks, wakes).

Definition timer_sleep_ms (ms g_ticks : Z) (wakes : list bool) : option (Z * list bool) :=
  sleep_loop (sleep_target g_ticks ms) g_ticks wakes.

(** ** The serial line (serial.c) *)

Definition COM1_BASE : Z := 0x3F8.
Definition BAUD_DIVISOR : Z := 1.
Definition REG_DATA : Z := 0.
Definition REG_IER : Z := 1.
Definition REG_FCR : Z := 2.
Definition REG_LCR : Z := 3.
Definition REG_MCR : Z := 4.
Definition REG_LSR : Z := 5.
Definition LCR_DLAB : Z := 0x80.
Definition LCR_8N1 : Z := 0x03.
Definition FCR_ENABLE : Z := 0xC7.
Definition MCR_DTR_RTS : Z := 0x0B.
Definition LSR_THR_EMPTY : Z := 0x20.

Section Serial.
Context {H : Type} `{Ports H}.

(** The new value of [g_ready] and the hardware. *)
Definition serial_init (h : H) : bool * H :=
  let h := outb (COM1_BASE + REG_IER) 0x00 h in
  let h := outb (COM1_BASE + REG_LCR) LCR_DLAB h in
  let h := outb (COM1_BASE + REG_DATA) (u8 (Z.land BAUD_DIVISOR 0xFF)) h in
  let h := outb (COM1_BASE + REG_IER) (u8 (Z.land (Z.shiftr BAUD_DIVISOR 8) 0xFF)) h in
  let h := outb (COM1_BASE + REG_LCR) LCR_8N1 h in
  let h := outb (COM1_BASE + REG_FCR) FCR_ENABLE h in
  let h := outb (COM1_BASE + REG_MCR) MCR_DTR_RTS h in
  (true, h).

(** The bounded wait for the transmitter. *)
Fixpoint wait_thr (tries : nat) (h : H) : H :=
  match tries with
  | O => h
  | S tries' =>
      let '(lsr, h) := inb (COM1_BASE + REG_LSR) h in
      if Z.land lsr LSR_THR_EMPTY =? 0 then wait_thr tries' h else h
  end.

Definition serial_putchar (g_ready : bool) (c : Z) (h : H) : H :=
  if negb g_ready then h
  else outb (COM1_BASE + REG_DATA) (u8 c) (wait_thr (Z.to_nat 100000) h).

(** [s] is the string without its terminator. *)
Fixpoint serial_write (g_ready : bool) (s : list Z) (h : H) : H :=
  match s with
  | [] => h
  | c :: s' => serial_write g_ready s' (serial_putchar g_ready c h)
  end.
End Serial.

(** ** Two 8259A chips

    The registers of one chip: the initialisation word it expects next (0
    when it is operational), the vector base and the interrupt mask. *)

Record chip := Chip {
  c_icw : Z;
  c_base : Z;
  c_imr : Z;
}.

(** A command with bit 4 is ICW1: it starts the initialisation (in cascade
    mode with an ICW4 for the value the driver writes) and clears the mask. *)
Definition chip_cmd (v : Z) (c : chip) : chip :=
  if Z.testbit v 4 then Chip 2 (c_base c) 0 else c.

Definition chip_data (v : Z) (c : chip) : chip :=
  if c_icw c =? 2 then Chip 3 (Z.land v 0xF8) (c_imr c)
  else if c_icw c =? 3 then Chip 4 (c_base c) (c_imr c)
  else if c_icw c =? 4 then Chip 0 (c_base c) (c_imr c)
  else Chip 0 (c_base c) v.

Definition pics : Type := chip * chip.

#[export] Instance pics_ports : Ports pics := {
  inb port h :=
    (if port =? PIC1_DATA_PORT then c_imr (fst h)
     else if port =? PIC2_DATA_PORT then c_imr (snd h) else 0, h);
  outb port v h :=
    if port =? PIC1_CMD_PORT then (chip_cmd v (fst h), snd h)
    else if port =? PIC1_DATA_PORT then (chip_data v (fst h), snd h)
    else if port =? PIC2_CMD_PORT then (fst h, chip_cmd v (snd h))
    else if port =? PIC2_DATA_PORT then (fst h, chip_data v (snd h))
    else h;
}.

(** The vector with which line [n] interrupts the processor, if it does: a
    line of the second chip passes through line 2 of the first. *)
Definition irq_vector (h : pics) (n : Z) : option Z :=
  if n <? 8 then
    if (c_icw (fst h) =? 0) && negb (Z.testbit (c_imr (fst h)) n)
    then Some (c_base (fst h) + n) else None
  else
    if (c_icw (fst h) =? 0) && (c_icw (snd h) =? 0) && negb (Z.testbit (c_imr (snd h)) (n - 8))
       && negb (Z.testbit (c_imr (fst h)) 2)
    then Some (c_base (snd h) + (n - 8)) else None.

(** The calls of the drivers. *)
Inductive pic_op :=
| Enable (irq : Z)
| Disable (irq : Z)
| Eoi (irq : Z).

Definition op_irq (o : pic_op) : Z :=
  match o with Enable i | Disable i | Eoi i => i end.

Definition pic_run1 {H} `{Ports H} (s : pic * H) (o : pic_op) : pic * H :=
  match o with
  | Enable i => pic_enable_irq i (fst s) (snd s)
  | Disable i => pic_disable_irq i (fst s) (snd s)
  | Eoi i => (fst s, pic_send_eoi i (snd s))
  end.

Definition pic_run {H} `{Ports H} (ops : list pic_op) (h : H) : pic * H :=
  foldl pic_run1 (pic_boot, pic_init pic_boot h) ops.

(** The last call on line [n] enabled it. *)
Definition enabled_step (n : Z) (b : bool) (o : pic_op) : bool :=
  match o with
  | Enable i => if i =? n then true else b
  | Disable i => if i =? n then false else b
  | Eoi _ => b
  end.
Definition enabled (ops : list pic_op) (n : Z) : bool := foldl (enabled_step n) false ops.

(** The chips are operational, at the bases of the driver, with the masks of
    the driver's copies, and [on] are the lines not masked. *)
Record pic_ok (s : pic * pics) (on : Z -> bool) : Prop := PicOk {
  po_master : fst (snd s) = Chip 0 MASTER_BASE (g_master_mask (fst s));
  po_slave : snd (snd s) = Chip 0 SLAVE_BASE (g_slave_mask (fst s));
  po_low n : 0 <= n < 8 -> Z.testbit (g_master_mask (fst s)) n = negb (on n);
  po_high n : 8 <= n < 16 -> Z.testbit (g_slave_mask (fst s)) (n - 8) = negb (on n);
}.

Lemma testbit_u8_not_pow k n : 0 <= k -> 0 <= n < 8 ->
  Z.testbit (u8 (Z.lnot (Z.shiftl 1 k))) n = negb (n =? k).
Proof.
  intros Hk Hn. unfold u8. rewrite Z.mod_pow2_bits_low, Z.lnot_spec, Z.shiftl_1_l by lia.
  rewrite Z.pow2_bits_eqb by lia. f_equal. lia.
Qed.

Lemma testbit_u8_pow k n : 0 <= k -> 0 <= n < 8 -> Z.testbit (u8 (Z.shiftl 1 k)) n = (n =? k).
Proof.
  intros Hk Hn. unfold u8. rewrite Z.mod_pow2_bits_low, Z.shiftl_1_l, Z.pow2_bits_eqb by lia. lia.
Qed.

(** The two updates of a mask, as the driver writes them. *)
Lemma unmask_bit m k n : 0 <= k -> 0 <= n < 8 ->
  Z.testbit (Z.land m (u8 (Z.lnot (Z.shiftl 1 k)))) n = if n =? k then false else Z.testbit m n.
Proof.
  intros Hk Hn. rewrite Z.land_spec, testbit_u8_not_pow by lia.
  destruct (Z.testbit m n), (n =? k); done.
Qed.

Lemma mask_bit m k n : 0 <= k -> 0 <= n < 8 ->
  Z.testbit (Z.lor m (u8 (Z.shiftl 1 k))) n = if n =? k then true else Z.testbit m n.
Proof.
  intros Hk Hn. rewrite Z.lor_spec, testbit_u8_pow by lia. destruct (Z.testbit m n), (n =? k); done.
Qed.

Lemma pic_init_ok h : pic_ok (pic_boot, pic_init pic_boot h) (fun _ => false).
Proof.
  split; [reflexivity|reflexivity|..]; intros n Hn; cbn [fst g_master_mask g_slave_mask pic_boot];
    change 0xFF with (Z.ones 8); apply Z.ones_spec_low; lia.
Qed.

Lemma pic_ok_step s on o : pic_ok s on -> 0 <= op_irq o -> pic_ok (pic_run1 s o) (fun n => enabled_step n (on n) o).
Proof.
  destruct s as [[m sl] [c1 c2]]. intros [H1 H2 Hlow Hhigh] Hi. cbn in H1, H2, Hlow, Hhigh. subst c1 c2.
  destruct o as [i|i|i]; cbn [op_irq] in Hi; cbn -[Z.land Z.lor Z.shiftl u8 Z.testbit];
    unfold pic_enable_irq, pic_disable_irq, pic_send_eoi; cbn [g_master_mask g_slave_mask];
    split_tests; split; try reflexivity; cbn [fst snd g_master_mask g_slave_mask];
    intros n Hn; rewrite ?unmask_bit, ?mask_bit by lia;
    repeat match goal with |- context [?a =? ?b] => destruct (Z.eqb_spec a b); try lia end;
    rewrite ?Hlow, ?Hhigh by lia; done.
Qed.

Lemma pic_ok_run ops : forall s on, pic_ok s on -> Forall (fun o => 0 <= op_irq o) ops ->
  pic_ok (foldl pic_run1 s ops) (fun n => foldl (enabled_step n) (on n) ops).
Proof.
  induction ops as [|o ops IH]; intros s on Hok Hops; [exact Hok|].
  inversion Hops; subst. cbn [foldl]. apply IH; [by apply pic_ok_step|done].
Qed.

(** After [pic_init] and any sequence of [pic_enable_irq],
    [pic_disable_irq] and [pic_send_eoi], the two chips are initialised and a
    line below 8 interrupts, with vector 0x20 + line, exactly when the last
    call on it enabled it; a line from 8 on does so only if line 2 of the
    first chip, through which it passes, has been enabled as well. *)
Theorem pic_lines_follow_calls (ops : list pic_op) (h : pics) (n : Z) :
  Forall (fun o => 0 <= op_irq o) ops -> 0 <= n < 16 ->
  irq_vector (snd (pic_run ops h)) n =
    if enabled ops n && ((n <? 8) || enabled ops 2) then Some (0x20 + n) else None.
Proof.
  intros Hops Hn. unfold pic_run, enabled.
  destruct (pic_ok_run ops _ _ (pic_init_ok h) Hops) as [H1 H2 Hlow Hhigh].
  unfold irq_vector. rewrite H1, H2. cbn [c_icw c_imr c_base].
  destruct (Z.ltb_spec n 8).
  - rewrite Hlow, negb_involutive, orb_true_l, andb_true_r by lia. done.
  - rewrite Hhigh, Hlow, !negb_involutive, orb_false_l by lia. cbn [andb Z.eqb].
    unfold SLAVE_BASE. replace (0x28 + (n - 8)) with (0x20 + n) by lia. done.
Qed.

Lemma pic_lines_follow_calls_witness :
  irq_vector (snd (pic_run [Enable 0; Enable 12; Enable 1; Disable 0] (Chip 0 0 0, Chip 0 0 0))) 1 = Some 0x21 /\
  irq_vector (snd (pic_run [Enable 0; Enable 12; Enable 1; Disable 0] (Chip 0 0 0, Chip 0 0 0))) 12 = None.
Proof.
  split; (rewrite pic_lines_follow_calls; [reflexivity|repeat constructor; cbn; lia|lia]).
Defined.

(** ** Sleeping *)

(** The number of timer interrupts among [wakes]. *)
Fixpoint ticks_in (wakes : list bool) : Z :=
  match wakes with
  | [] => 0
  | b :: wakes' => ticks_in wakes' + (if b then 1 else 0)
  end.

Lemma sleep_loop_returns wakes : forall target g,
  0 <= g -> target < 2 ^ 64 -> target - g <= ticks_in wakes ->
  exists used rest, wakes = used ++ rest /\ sleep_loop target g wakes = Some (Z.max g target, rest) /\
    ticks_in used = Z.max 0 (target - g).
Proof.
  induction wakes as [|b wakes IH]; intros target g Hg Ht Hn; cbn [sleep_loop].
  - exists [], []. cbn in *. split; [done|].
    destruct (Z.ltb_spec g target); [lia|]. split; [|lia]. f_equal. f_equal. lia.
  - destruct (Z.ltb_spec g target).
    + assert ((if b then pit_tick g else g) = g + (if b then 1 else 0)) as ->.
      { destruct b; [|lia]. unfold pit_tick. rewrite u64_small; lia. }
      destruct (IH target (g + (if b then 1 else 0))) as (used & rest & -> & -> & Hu);
        [destruct b; lia|lia|cbn in Hn; destruct b; lia|].
      exists (b :: used), rest. split; [done|]. cbn [ticks_in]. rewrite Hu. destruct b; split; try lia; do 2 f_equal; lia.
    + exists [], (b :: wakes). split; [done|]. split; [do 2 f_equal; lia|]. cbn. lia.
Qed.

(** [timer_sleep_ms] of fewer than 2^32 - 9 milliseconds returns as soon
    as the timer has ticked [ms / 10] times, rounded up, whatever other
    interrupts wake it up in between, and not before. *)
Theorem timer_sleep_ms_wakes (ms g_ticks : Z) (wakes : list bool) :
  0 <= ms < 2 ^ 32 - 9 -> 0 <= g_ticks < 2 ^ 63 -> (ms + 9) / 10 <= ticks_in wakes ->
  exists used rest, wakes = used ++ rest /\
    timer_sleep_ms ms g_ticks wakes = Some (g_ticks + (ms + 9) / 10, rest) /\
    ticks_in used = (ms + 9) / 10 /\ ms <= 10 * ticks_in used < ms + 10.
Proof.
  intros Hms Hg Hn. unfold timer_sleep_ms, sleep_target.
  assert (0 <= (ms + 9) / 10 < 2 ^ 32) by divlia.
  rewrite u32_small, u64_small by lia.
  destruct (sleep_loop_returns wakes (g_ticks + (ms + 9) / 10) g_ticks) as (used & rest & -> & -> & Hu); [lia..|].
  exists used, rest. split; [done|]. split; [do 2 f_equal; lia|]. split; [lia|]. divlia.
Qed.

Lemma timer_sleep_ms_wakes_witness :
  exists used rest, [true; false; true; true; true] = used ++ rest /\
    timer_sleep_ms 25 7 [true; false; true; true; true] = Some (10, rest) /\ ticks_in used = 3.
Proof.
  destruct (timer_sleep_ms_wakes 25 7 [true; false; true; true; true]) as (used & rest & H1 & H2 & H3 & _);
    [lia|lia|vm_compute; discriminate|].
  exists used, rest. split; [exact H1|]. split; [exact H2|exact H3].
Defined.

(** The sum in 32 bits wraps around for the longest sleeps: they return at
    once. *)
Theorem timer_sleep_ms_overflow (ms g_ticks : Z) (wakes : list bool) :
  2 ^ 32 - 9 <= ms < 2 ^ 32 -> 0 <= g_ticks < 2 ^ 64 ->
  timer_sleep_ms ms g_ticks wakes = Some (g_ticks, wakes).
Proof.
  intros Hms Hg. unfold timer_sleep_ms, sleep_target.
  assert (u32 (ms + 9) / 10 = 0) as ->.
  { unfold u32. rewrite <-(Z.mod_add _ (-1)), Z.mod_small by lia. apply Z.div_small. lia. }
  rewrite u64_small by lia. destruct wakes; cbn; destruct (Z.ltb_spec g_ticks (g_ticks + 0)); lia || done.
Qed.
