(* ===== verification/Keyboard.v ===== *)
(** * The keyboard driver

    Translation of src/kernel/drivers/keyboard.c: the scancode tables, the
    interrupt handler with its modifier state, the ring buffer of events,
    and the readers with the ownership of the console input. The ports are
    those of [Hardware].

    A reader is a loop that halts the processor while it may not or cannot
    take an event. It is given twice: as the function of one turn of the
    loop ([None] when the turn ends in [hlt]), and as the statements of the
    turn one by one ([reader_step]), so that interrupts and other tasks can
    run between any two of them. *)

From stdpp Require Import base numbers list gmap.
From Stdlib Require Import ZArith Lia ZifyBool.
From S2P Require Import Prelude.
From S2P Require Import Hardware.

Definition KBD_DATA_PORT : Z := 0x60.
Definition KBD_STATUS_PORT : Z := 0x64.
Definition KBD_IRQ : Z := 1.
Definition KBD_BUFFER_SIZE : Z := 256.
Definition SC_EXTENDED : Z := 0xE0.
Definition SC_CTRL : Z := 0x1D.
Definition SC_LSHIFT : Z := 0x2A.
Definition SC_RSHIFT : Z := 0x36.
Definition SC_CAPS_LOCK : Z := 0x3A.

Definition KBD_EVENT_CHAR : Z := 0.
Definition KBD_EVENT_SPECIAL : Z := 1.

Definition KBD_KEY_UP : Z := 1.
Definition KBD_KEY_DOWN : Z := 2.
Definition KBD_KEY_LEFT : Z := 3.
Definition KBD_KEY_RIGHT : Z := 4.
Definition KBD_KEY_HOME : Z := 5.
Definition KBD_KEY_END : Z := 6.
Definition KBD_KEY_DELETE : Z := 7.
Definition KBD_KEY_INSERT : Z := 8.
Definition KBD_KEY_PAGE_UP : Z := 9.
Definition KBD_KEY_PAGE_DOWN : Z := 10.

(** An array given by its designated initialisers; the rest is 0. *)
Fixpoint table (l : list (Z * Z)) (i : Z) : Z :=
  match l with
  | [] => 0
  | (k, v) :: l' => if i =? k then v else table l' i
  end.

Definition kbd_normal : Z -> Z := table
  [ (0x01, 0x1B);
    (0x02, 49); (0x03, 50); (0x04, 51); (0x05, 52);
    (0x06, 53); (0x07, 54); (0x08, 55); (0x09, 56);
    (0x0A, 57); (0x0B, 48); (0x0C, 45); (0x0D, 61);
    (0x0E, 8); (0x0F, 9);
    (0x10, 113); (0x11, 119); (0x12, 101); (0x13, 114);
    (0x14, 116); (0x15, 121); (0x16, 117); (0x17, 105);
    (0x18, 111); (0x19, 112); (0x1A, 91); (0x1B, 93);
    (0x1C, 10);
    (0x1E, 97); (0x1F, 115); (0x20, 100); (0x21, 102);
    (0x22, 103); (0x23, 104); (0x24, 106); (0x25, 107);
    (0x26, 108); (0x27, 59); (0x28, 39); (0x29, 96);
    (0x2B, 92); (0x2C, 122); (0x2D, 120); (0x2E, 99);
    (0x2F, 118); (0x30, 98); (0x31, 110); (0x32, 109);
    (0x33, 44); (0x34, 46); (0x35, 47);
    (0x37, 42);
    (0x39, 32) ].

Definition kbd_shifted : Z -> Z := table
  [ (0x02, 33); (0x03, 64); (0x04, 35); (0x05, 36);
    (0x06, 37); (0x07, 94); (0x08, 38); (0x09, 42);
    (0x0A, 40); (0x0B, 41); (0x0C, 95); (0x0D, 43);
    (0x10, 81); (0x11, 87); (0x12, 69); (0x13, 82);
    (0x14, 84); (0x15, 89); (0x16, 85); (0x17, 73);
    (0x18, 79); (0x19, 80); (0x1A, 123); (0x1B, 125);
    (0x1E, 65); (0x1F, 83); (0x20, 68); (0x21, 70);
    (0x22, 71); (0x23, 72); (0x24, 74); (0x25, 75);
    (0x26, 76); (0x27, 58); (0x28, 34); (0x29, 126);
    (0x2B, 124); (0x2C, 90); (0x2D, 88); (0x2E, 67);
    (0x2F, 86); (0x30, 66); (0x31, 78); (0x32, 77);
    (0x33, 60); (0x34, 62); (0x35, 63);
    (0x37, 42) ].

Definition extmap : Z -> Z := table
  [ (0x47, KBD_KEY_HOME); (0x4F, KBD_KEY_END); (0x48, KBD_KEY_UP); (0x50, KBD_KEY_DOWN);
    (0x4B, KBD_KEY_LEFT); (0x4D, KBD_KEY_RIGHT); (0x49, KBD_KEY_PAGE_UP);
    (0x51, KBD_KEY_PAGE_DOWN); (0x52, KBD_KEY_INSERT); (0x53, KBD_KEY_DELETE) ].

(** ** State *)

Record kbd_event := KbdEvent {
  ev_type : Z;
  ev_code : Z;
  ev_c : Z;
}.

#[export] Instance kbd_event_eq_dec : EqDecision kbd_event.
Proof. solve_decision. Defined.

Record kbd := Kbd {
  g_buffer : Z -> kbd_event;
  g_head : Z;
  g_tail : Z;
  g_shift_pressed : bool;
  g_ctrl_pressed : bool;
  g_caps_locked : bool;
  g_extended : bool;
  g_kbd_owner : Z;
}.

Definition kbd_boot : kbd := Kbd (fun _ => KbdEvent 0 0 0) 0 0 false false false false 0.

Definition with_tail (k : kbd) (t : Z) : kbd :=
  Kbd (g_buffer k) (g_head k) t (g_shift_pressed k) (g_ctrl_pressed k) (g_caps_locked k)
    (g_extended k) (g_kbd_owner k).
Definition with_owner (k : kbd) (o : Z) : kbd :=
  Kbd (g_buffer k) (g_head k) (g_tail k) (g_shift_pressed k) (g_ctrl_pressed k) (g_caps_locked k)
    (g_extended k) o.
Definition with_mods (k : kbd) (shift ctrl caps ext : bool) : kbd :=
  Kbd (g_buffer k) (g_head k) (g_tail k) shift ctrl caps ext (g_kbd_owner k).

(** ** The interrupt side *)

Definition kbd_push_event (ev : kbd_event) (k : kbd) : kbd :=
  let next := (g_head k + 1) mod KBD_BUFFER_SIZE in
  if next =? g_tail k then k
  else Kbd (fun i => if i =? g_head k then ev else g_buffer k i) next (g_tail k)
         (g_shift_pressed k) (g_ctrl_pressed k) (g_caps_locked k) (g_extended k) (g_kbd_owner k).

Definition kbd_push_char (c : Z) (k : kbd) : kbd := kbd_push_event (KbdEvent KBD_EVENT_CHAR 0 c) k.

Section Irq.
Context {H : Type} `{Ports H}.

(** The bounded wait for the acknowledgement of a command byte. *)
Fixpoint wait_ack (i : nat) (h : H) : H :=
  match i with
  | O => h
  | S i' =>
      let '(status, h) := inb KBD_STATUS_PORT h in
      if Z.land status 0x01 =? 0 then wait_ack i' h
      else snd (inb KBD_DATA_PORT h)
  end.

Definition kbd_update_leds (g_caps_locked : bool) (h : H) : H :=
  let h := outb KBD_DATA_PORT 0xED h in
  let h := wait_ack (Z.to_nat 10000) h in
  let h := outb KBD_DATA_PORT (if g_caps_locked then 0x04 else 0x00) h in
  wait_ack (Z.to_nat 10000) h.

(** Caps Lock and Ctrl applied to the character of the table. *)
Definition caps_char (caps : bool) (c : Z) : Z :=
  if caps && (97 <=? c) && (c <=? 122) then c - 97 + 65
  else if caps && (65 <=? c) && (c <=? 90) then c - 65 + 97
  else c.

Definition ctrl_char (ctrl : bool) (c : Z) : Z :=
  if ctrl && (97 <=? c) && (c <=? 122) then Z.land c 0x1F else c.

Definition kbd_irq_handler (k : kbd) (h : H) : kbd * H :=
  let '(scancode, h) := inb KBD_DATA_PORT h in
  if scancode =? SC_EXTENDED then
    (with_mods k (g_shift_pressed k) (g_ctrl_pressed k) (g_caps_locked k) true, h)
  else if g_extended k then
    let k := with_mods k (g_shift_pressed k) (g_ctrl_pressed k) (g_caps_locked k) false in
    if Z.land scancode 0x80 =? 0 then
      let key := extmap (Z.land scancode 0x7F) in
      if key =? 0 then (k, h)
      else (kbd_push_event (KbdEvent KBD_EVENT_SPECIAL key 0) k, h)
    else (k, h)
  else
    let make := Z.land scancode 0x80 =? 0 in
    let code := Z.land scancode 0x7F in
    if code =? SC_CTRL then
      (with_mods k (g_shift_pressed k) make (g_caps_locked k) (g_extended k), h)
    else if (code =? SC_LSHIFT) || (code =? SC_RSHIFT) then
      (with_mods k make (g_ctrl_pressed k) (g_caps_locked k) (g_extended k), h)
    else if code =? SC_CAPS_LOCK then
      if make then
        let caps := negb (g_caps_locked k) in
        (with_mods k (g_shift_pressed k) (g_ctrl_pressed k) caps (g_extended k), kbd_update_leds caps h)
      else (k, h)
    else if negb make then (k, h)
    else
      let c := if g_shift_pressed k then kbd_shifted code else kbd_normal code in
      if c =? 0 then (k, h)
      else
        let c := caps_char (g_caps_locked k) c in
        let c := ctrl_char (g_ctrl_pressed k) c in
        (kbd_push_char c k, h).
End Irq.

(** ** The readers *)

(** [ev = g_buffer[g_tail]; g_tail = (g_tail + 1) % KBD_BUFFER_SIZE]. *)
Definition take_event (k : kbd) : kbd_event * kbd :=
  (g_buffer k (g_tail k), with_tail k ((g_tail k + 1) mod KBD_BUFFER_SIZE)).

(** One turn of each reading loop; [None] when it ends in [hlt]. *)
Definition kbd_get_event (k : kbd) : option kbd_event * kbd :=
  if g_head k =? g_tail k then (None, k)
  else let '(ev, k) := take_event k in (Some ev, k).

Definition kbd_input_release (pid : Z) (k : kbd) : kbd :=
  if g_kbd_owner k =? pid then with_owner k 0 else k.

Definition kbd_input_owner (k : kbd) : Z := g_kbd_owner k.

Definition kbd_get_event_owned (pid : Z) (k : kbd) : option kbd_event * kbd :=
  let k := if g_kbd_owner k =? 0 then with_owner k pid else k in
  if negb (g_kbd_owner k =? pid) then (None, k)
  else if g_head k =? g_tail k then (None, k)
  else let '(ev, k) := take_event k in (Some ev, k).

Definition kbd_get_event_shell (pid : Z) (k : kbd) : option kbd_event * kbd :=
  if negb (g_kbd_owner k =? 0) && negb (g_kbd_owner k =? pid) then (None, k)
  else if g_head k =? g_tail k then (None, k)
  else let '(ev, k) := take_event k in (Some ev, k).

(** [kbd_getchar] drops the events before the next character; [None] when
    it runs out of events and halts. The ring holds fewer than
    [KBD_BUFFER_SIZE] events. *)
Fixpoint getchar_loop (fuel : nat) (k : kbd) : option Z * kbd :=
  match fuel with
  | O => (None, k)
  | S fuel' =>
      match kbd_get_event k with
      | (None, k) => (None, k)
      | (Some ev, k) =>
          if ev_type ev =? KBD_EVENT_CHAR then (Some (ev_c ev), k) else getchar_loop fuel' k
      end
  end.

Definition kbd_getchar (k : kbd) : option Z * kbd := getchar_loop (Z.to_nat KBD_BUFFER_SIZE) k.

Definition kbd_poll (k : kbd) : Z * kbd :=
  if g_head k =? g_tail k then (-1, k)
  else
    let '(ev, k) := take_event k in
    if negb (ev_type ev =? KBD_EVENT_CHAR) then (-1, k) else (ev_c ev, k).

Definition kbd_has_char (k : kbd) : bool := negb (g_head k =? g_tail k).

Definition kbd_init {H} `{Ports H} (p : pic) (h : H) : pic * H := pic_enable_irq KBD_IRQ p h.

(** ** The readers, statement by statement *)

Inductive reader :=
| Anyone               (* kbd_get_event *)
| Owner (pid : Z)      (* kbd_get_event_owned *)
| Shell (pid : Z).     (* kbd_get_event_shell *)

(** Where a reader stands in its loop. *)
Inductive pc :=
| PClaim | PCheck | PEmpty | PRead | PAdvance (ev : kbd_event) | PDone (ev : kbd_event).

Definition loop_start (r : reader) : pc :=
  match r with
  | Anyone => PEmpty
  | Owner _ => PClaim
  | Shell _ => PCheck
  end.

(** The next statement; [None] for [hlt], after which the loop starts again. *)
Definition reader_step (r : reader) (p : pc) (k : kbd) : option pc * kbd :=
  match p with
  | PClaim =>
      match r with
      | Owner pid => (Some PCheck, if g_kbd_owner k =? 0 then with_owner k pid else k)
      | _ => (Some PCheck, k)
      end
  | PCheck =>
      match r with
      | Owner pid => if negb (g_kbd_owner k =? pid) then (None, k) else (Some PEmpty, k)
      | Shell pid =>
          if negb (g_kbd_owner k =? 0) && negb (g_kbd_owner k =? pid) then (None, k) else (Some PEmpty, k)
      | Anyone => (Some PEmpty, k)
      end
  | PEmpty => if g_head k =? g_tail k then (None, k) else (Some PRead, k)
  | PRead => (Some (PAdvance (g_buffer k (g_tail k))), k)
  | PAdvance ev => (Some (PDone ev), with_tail k ((g_tail k + 1) mod KBD_BUFFER_SIZE))
  | PDone ev => (Some (PDone ev), k)
  end.

(** ** Executions

    A turn of a reader with interrupts between its statements: [bursts] are
    the numbers of keyboard interrupts that arrive before each of them. The
    result has the events that entered the ring and the event returned. *)

Section Runs.
Context {H : Type} `{Ports H}.

(** The event an interrupt has stored, seen from the ring before and after. *)
Definition accepted (k k' : kbd) : list kbd_event :=
  if g_head k' =? g_head k then [] else [g_buffer k' (g_head k)].

Fixpoint irqs (n : nat) (k : kbd) (h : H) : list kbd_event * kbd * H :=
  match n with
  | O => ([], k, h)
  | S n' =>
      let '(k1, h1) := kbd_irq_handler k h in
      let '(acc, k2, h2) := irqs n' k1 h1 in (accepted k k1 ++ acc, k2, h2)
  end.

Fixpoint turn (fuel : nat) (r : reader) (p : pc) (bursts : list nat) (k : kbd) (h : H)
  : list kbd_event * option kbd_event * kbd * H :=
  let '(acc, k, h) := irqs (hd O bursts) k h in
  match fuel, p with
  | O, PDone ev | S _, PDone ev => (acc, Some ev, k, h)
  | O, _ => (acc, None, k, h)
  | S fuel', _ =>
      match reader_step r p k with
      | (None, k) => (acc, None, k, h)
      | (Some p', k) =>
          let '(acc', out, k, h) := turn fuel' r p' (tail bursts) k h in (acc ++ acc', out, k, h)
      end
  end.

(** What happens to the driver over time. The readers exclude one another
    during a turn; interrupts do not wait for anybody. *)
Inductive move :=
| Irqs (n : nat)
| Turn (r : reader) (bursts : list nat)
| Release (pid : Z).

Definition move1 (m : move) (k : kbd) (h : H) : list kbd_event * list (reader * kbd_event) * kbd * H :=
  match m with
  | Irqs n => let '(acc, k, h) := irqs n k h in (acc, [], k, h)
  | Turn r bursts =>
      let '(acc, out, k, h) := turn 5 r (loop_start r) bursts k h in
      (acc, match out with Some ev => [(r, ev)] | None => [] end, k, h)
  | Release pid => ([], [], kbd_input_release pid k, h)
  end.

Fixpoint moves (ms : list move) (k : kbd) (h : H) : list kbd_event * list (reader * kbd_event) * kbd * H :=
  match ms with
  | [] => ([], [], k, h)
  | m :: ms' =>
      let '(acc1, out1, k, h) := move1 m k h in
      let '(acc2, out2, k, h) := moves ms' k h in (acc1 ++ acc2, out1 ++ out2, k, h)
  end.
End Runs.

(** The number of events in the ring, and the events in order of arrival. *)
Definition count (k : kbd) : Z := (g_head k - g_tail k) mod KBD_BUFFER_SIZE.
Definition pending (k : kbd) : list kbd_event :=
  map (fun i => g_buffer k ((g_tail k + i) mod KBD_BUFFER_SIZE)) (zseq 0 (Z.to_nat (count k))).

Definition ring_ok (k : kbd) : Prop := 0 <= g_head k < KBD_BUFFER_SIZE /\ 0 <= g_tail k < KBD_BUFFER_SIZE.

(** ** The ring *)

Definition same_ring (k k' : kbd) : Prop :=
  g_buffer k' = g_buffer k /\ g_head k' = g_head k /\ g_tail k' = g_tail k /\ g_kbd_owner k' = g_kbd_owner k.

Lemma same_ring_pending k k' : same_ring k k' -> pending k' = pending k.
Proof. intros (Hb & Hh & Ht & _). unfold pending, count. by rewrite Hb, Hh, Ht. Qed.

Lemma count_range k : 0 <= count k < 256.
Proof. apply Z.mod_pos_bound. lia. Qed.

Lemma zseq_snoc i n : zseq i (S n) = zseq i n ++ [i + Z.of_nat n].
Proof.
  revert i. induction n as [|n IH]; intros i; [cbn; do 2 f_equal; lia|].
  change (zseq i (S (S n))) with (i :: zseq (i + 1) (S n)). rewrite IH.
  replace (i + Z.of_nat (S n)) with (i + 1 + Z.of_nat n) by lia. done.
Qed.

Lemma zseq_shift i n : zseq (i + 1) n = map (Z.add 1) (zseq i n).
Proof. revert i. induction n as [|n IH]; intros i; cbn; [done|]. rewrite IH. f_equal. lia. Qed.

(** Storing an event appends it, unless 255 events are waiting. *)
Lemma push_pending ev k : ring_ok k ->
  (count k = 255 /\ kbd_push_event ev k = k) \/
  (count k < 255 /\ pending (kbd_push_event ev k) = pending k ++ [ev] /\
   accepted k (kbd_push_event ev k) = [ev] /\ ring_ok (kbd_push_event ev k) /\
   g_kbd_owner (kbd_push_event ev k) = g_kbd_owner k).
Proof.
  intros [Hh Ht]. unfold kbd_push_event, KBD_BUFFER_SIZE in *. pose proof (count_range k) as Hc.
  unfold count, KBD_BUFFER_SIZE in Hc.
  destruct (Z.eqb_spec ((g_head k + 1) mod 256) (g_tail k)) as [E|E].
  { left. split; [|done]. unfold count, KBD_BUFFER_SIZE. divlia. }
  right. set (k' := Kbd _ _ _ _ _ _ _ _).
  assert (count k' = count k + 1) as Hck.
  { unfold count, k', KBD_BUFFER_SIZE; cbn. divlia. }
  split; [unfold count, KBD_BUFFER_SIZE; divlia|]. split; [|split; [|split; [|done]]].
  - unfold pending. rewrite Hck. replace (Z.to_nat (count k + 1)) with (S (Z.to_nat (count k))) by (unfold count, KBD_BUFFER_SIZE; lia).
    rewrite zseq_snoc, map_app. f_equal.
    + apply map_ext_in. intros i Hi. apply list_elem_of_In, elem_of_zseq in Hi. cbn.
      destruct (Z.eqb_spec ((g_tail k + i) mod KBD_BUFFER_SIZE) (g_head k)); [|done].
      exfalso. unfold count, KBD_BUFFER_SIZE in *. divlia.
    + cbn [map]. f_equal. unfold k'. cbn [g_buffer g_tail].
      replace ((g_tail k + (0 + Z.of_nat (Z.to_nat (count k)))) mod KBD_BUFFER_SIZE) with (g_head k)
        by (unfold count, KBD_BUFFER_SIZE in *; divlia).
      by rewrite Z.eqb_refl.
  - unfold accepted, k'. cbn. destruct (Z.eqb_spec ((g_head k + 1) mod 256) (g_head k)); [divlia|].
    by rewrite Z.eqb_refl.
  - unfold ring_ok, k', KBD_BUFFER_SIZE. cbn. split; [|lia]. apply Z.mod_pos_bound. lia.
Qed.

(** Taking an event removes the oldest. *)
Lemma take_pending k : ring_ok k -> g_head k <> g_tail k ->
  pending k = g_buffer k (g_tail k) :: pending (with_tail k ((g_tail k + 1) mod KBD_BUFFER_SIZE)).
Proof.
  intros [Hh Ht] Hne. unfold pending. cbn [g_buffer with_tail g_tail].
  set (k' := with_tail _ _).
  assert (count k = count k' + 1) as Hc.
  { unfold count, k', KBD_BUFFER_SIZE in *; cbn. divlia. }
  rewrite Hc. pose proof (count_range k').
  replace (Z.to_nat (count k' + 1)) with (S (Z.to_nat (count k'))) by lia.
  cbn [zseq map]. f_equal.
  - f_equal. unfold KBD_BUFFER_SIZE in *. rewrite Z.add_0_r, Z.mod_small; lia.
  - change 1 with (0 + 1) at 1. rewrite zseq_shift, map_map. apply map_ext. intros i. f_equal.
    unfold KBD_BUFFER_SIZE. rewrite Zplus_mod_idemp_l. f_equal. lia.
Qed.

Lemma pending_nil k : ring_ok k -> pending k = [] <-> g_head k = g_tail k.
Proof.
  intros Hok. split.
  - intros E. destruct (Z.eq_dec (g_head k) (g_tail k)) as [|Hne]; [done|].
    rewrite take_pending in E by done. discriminate.
  - intros E. unfold pending, count. by rewrite E, Z.sub_diag.
Qed.

(** ** Interrupts and readers *)

Section Fifo.
Context {H : Type} `{Ports H}.

(** An interrupt changes the modifiers and stores at most one event. *)
Lemma irq_shape k (h : H) :
  let k' := fst (kbd_irq_handler k h) in
  exists k1, same_ring k k1 /\ (k' = k1 \/ exists ev, k' = kbd_push_event ev k1).
Proof.
  cbn zeta. unfold kbd_irq_handler. destruct (inb _ h) as [sc h1].
  split_tests; cbn [fst]; eexists; (split; [|first [right; by eexists|by left]]); by split_and!.
Qed.

Lemma irq_pending k (h : H) : ring_ok k ->
  let k' := fst (kbd_irq_handler k h) in
  ring_ok k' /\ pending k' = pending k ++ accepted k k' /\ g_kbd_owner k' = g_kbd_owner k.
Proof.
  intros Hok. cbn zeta. destruct (irq_shape k h) as (k1 & Hs & Hk'). cbn zeta in Hk'.
  pose proof (same_ring_pending _ _ Hs) as Hp. destruct Hs as (Hb & Hh & Ht & Ho).
  assert (ring_ok k1) as Hok1 by (unfold ring_ok; by rewrite Hh, Ht).
  assert (accepted k k1 = []) as Ha by (unfold accepted; by rewrite Hh, Z.eqb_refl).
  destruct Hk' as [->|[ev ->]].
  { by rewrite Ha, app_nil_r. }
  destruct (push_pending ev k1 Hok1) as [[_ ->]|(_ & -> & Hacc & ? & ->)].
  { by rewrite Ha, app_nil_r. }
  split_and!; [done| |done]. rewrite Hp. f_equal. rewrite <-Hacc. unfold accepted. by rewrite Hh.
Qed.

Lemma irqs_pending n : forall k (h : H) acc k' h', ring_ok k -> irqs n k h = (acc, k', h') ->
  ring_ok k' /\ pending k' = pending k ++ acc /\ g_kbd_owner k' = g_kbd_owner k.
Proof.
  induction n as [|n IH]; intros k h acc k' h' Hok E; cbn [irqs] in E.
  { simplify_eq. by rewrite app_nil_r. }
  pose proof (irq_pending k h Hok) as (Hok1 & Hp & Ho). cbn zeta in Hok1, Hp, Ho.
  destruct (kbd_irq_handler k h) as [k1 h1]. cbn [fst] in Hok1, Hp, Ho.
  destruct (irqs n k1 h1) as [[acc2 k2] h2] eqn:E2. simplify_eq.
  destruct (IH _ _ _ _ _ Hok1 E2) as (? & Hp2 & Ho2).
  split_and!; [done| |congruence]. by rewrite Hp2, Hp, app_assoc.
Qed.

(** What the place of a reader says about the ring. *)
Definition pc_ok (p : pc) (k : kbd) : Prop :=
  match p with
  | PRead => g_head k <> g_tail k
  | PAdvance ev => exists l, pending k = ev :: l
  | _ => True
  end.

Definition taken (p : pc) : list kbd_event := match p with PDone ev => [ev] | _ => [] end.

Definition rank (p : pc) : nat :=
  match p with
  | PClaim => 5 | PCheck => 4 | PEmpty => 3 | PRead => 2 | PAdvance _ => 1 | PDone _ => 0
  end.

Lemma pc_ok_more p k k' acc : ring_ok k -> ring_ok k' -> pc_ok p k -> pending k' = pending k ++ acc -> pc_ok p k'.
Proof.
  intros Hok Hok' Hp E. destruct p; cbn in *; try done.
  - intros E'. apply Hp, pending_nil; [done|]. apply pending_nil in E'; [|done].
    rewrite E' in E. symmetry in E. by apply app_nil in E as [-> _].
  - destruct Hp as [l Hl]. rewrite E, Hl. by exists (l ++ acc).
Qed.

(** One statement: the ring loses the event when the reader takes it. *)
Lemma step_pending r p k : ring_ok k -> pc_ok p k -> (0 < rank p)%nat ->
  let '(p', k') := reader_step r p k in
  ring_ok k' /\
  match p' with
  | None => pending k' = pending k
  | Some p' => taken p' ++ pending k' = pending k /\ pc_ok p' k' /\ (rank p' < rank p)%nat
  end.
Proof.
  intros Hok Hp Hr. destruct p; cbn [reader_step rank] in *; try lia.
  - destruct r; split_tests; cbn; split_and!; auto; lia.
  - destruct r; split_tests; cbn; split_and!; auto; lia.
  - destruct (Z.eqb_spec (g_head k) (g_tail k)); cbn; split_and!; auto; lia.
  - cbn. split_and!; [done|done| |lia]. rewrite take_pending by done. eauto.
  - destruct Hp as [l Hl]. assert (g_head k <> g_tail k) as Hne.
    { intros E. apply pending_nil in E; [|done]. by rewrite E in Hl. }
    pose proof (take_pending k Hok Hne) as Ht. rewrite Hl in Ht. simplify_eq.
    cbn. split_and!; [|by rewrite Hl, take_pending in * by done|done|lia].
    destruct Hok as [Hh Hta]. split; [done|]. cbn. apply Z.mod_pos_bound. done.
Qed.

Lemma turn_S r fuel p bursts k (h : H) : rank p <> 0%nat ->
  turn (S fuel) r p bursts k h =
    let '(acc, k, h) := irqs (hd O bursts) k h in
    match reader_step r p k with
    | (None, k) => (acc, None, k, h)
    | (Some p', k) =>
        let '(acc', out, k, h) := turn fuel r p' (tail bursts) k h in (acc ++ acc', out, k, h)
    end.
Proof. by destruct p. Qed.

Lemma turn_done r fuel ev bursts k (h : H) :
  turn fuel r (PDone ev) bursts k h = let '(acc, k, h) := irqs (hd O bursts) k h in (acc, Some ev, k, h).
Proof. by destruct fuel. Qed.

Lemma turn_pending r fuel : forall p bursts k (h : H) acc out k' h',
  ring_ok k -> pc_ok p k -> (rank p <= fuel)%nat ->
  turn fuel r p bursts k h = (acc, out, k', h') ->
  ring_ok k' /\ option_list out ++ pending k' = taken p ++ pending k ++ acc.
Proof.
  induction fuel as [|fuel IH]; intros p bursts k h acc out k' h' Hok Hp Hr E;
    destruct (irqs (hd O bursts) k h) as [[acc1 k1] h1] eqn:E1;
    destruct (irqs_pending _ _ _ _ _ _ Hok E1) as (Hok1 & Hp1 & _);
    (destruct (decide (rank p = 0%nat)) as [Hz|Hz];
     [destruct p; try discriminate; rewrite turn_done, E1 in E; simplify_eq; cbn; by rewrite Hp1|]); [lia|].
  rewrite turn_S, E1 in E by done.
  pose proof (pc_ok_more _ _ _ _ Hok Hok1 Hp Hp1) as Hpk1.
  pose proof (step_pending r p k1 Hok1 Hpk1 ltac:(lia)) as Hstep.
  assert (taken p = []) as -> by (by destruct p).
  destruct (reader_step r p k1) as [[p'|] k2]; [|simplify_eq; destruct Hstep as [? ->]; by rewrite Hp1].
  destruct Hstep as (Hok2 & Ht & Hpk2 & Hlt).
  destruct (turn fuel r p' (tail bursts) k2 h1) as [[[acc2 out2] k3] h3] eqn:E3. simplify_eq.
  destruct (IH _ _ _ _ _ _ _ _ Hok2 Hpk2 ltac:(lia) E3) as [? ->].
  split; [done|]. by rewrite app_assoc, Ht, Hp1, <-app_assoc.
Qed.

Lemma move1_pending m k (h : H) acc out k' h' : ring_ok k -> move1 m k h = (acc, out, k', h') ->
  ring_ok k' /\ map snd out ++ pending k' = pending k ++ acc.
Proof.
  intros Hok E. destruct m as [n|r bursts|pid]; cbn [move1] in E.
  - destruct (irqs n k h) as [[acc1 k1] h1] eqn:E1. simplify_eq.
    by destruct (irqs_pending _ _ _ _ _ _ Hok E1) as (? & ? & _).
  - destruct (turn 5 r (loop_start r) bursts k h) as [[[acc1 o] k1] h1] eqn:E1. simplify_eq.
    assert (pc_ok (loop_start r) k) as Hs by (by destruct r).
    assert (rank (loop_start r) <= 5)%nat as Hr by (destruct r; cbn; lia).
    destruct (turn_pending _ _ _ _ _ _ _ _ _ _ Hok Hs Hr E1) as [? Hp].
    split; [done|]. replace (taken (loop_start r)) with (@nil kbd_event) in Hp by (by destruct r).
    by destruct o.
  - simplify_eq. unfold kbd_input_release. rewrite app_nil_r. by destruct (_ =? _).
Qed.
End Fifo.

(** Without interrupts, the statements of a turn add up to the function of
    the turn. *)
Definition turn_fn (r : reader) (k : kbd) : option kbd_event * kbd :=
  match r with
  | Anyone => kbd_get_event k
  | Owner pid => kbd_get_event_owned pid k
  | Shell pid => kbd_get_event_shell pid k
  end.

Lemma turn_quiet {H} `{Ports H} r k (h : H) :
  turn 5 r (loop_start r) [] k h = ([], fst (turn_fn r k), snd (turn_fn r k), h).
Proof.
  destruct r as [|pid|pid];
    cbn -[Z.modulo]; unfold kbd_get_event, kbd_get_event_owned, kbd_get_event_shell, take_event;
    split_tests; cbn -[Z.modulo]; split_tests; reflexivity || (exfalso; cbn in *; lia).
Qed.

(** ** A keyboard at the other end of the ports

    It acknowledges every command byte with 0xFA before it sends the next
    scancode. *)

Record feed := Feed {
  acks : nat;
  codes : list Z;
}.

#[export] Instance feed_ports : Ports feed := {
  inb port h :=
    if port =? KBD_STATUS_PORT then (if Nat.eqb (acks h) 0 then 0 else 1, h)
    else match acks h, codes h with
         | S n, l => (0xFA, Feed n l)
         | O, c :: l => (c, Feed 0 l)
         | O, [] => (0, h)
         end;
  outb port v h := if port =? KBD_DATA_PORT then Feed (S (acks h)) (codes h) else h;
}.

(** Pressing or releasing a key, and the bytes of scancode set 1 for it. *)
Record key_act := Key {
  press : bool;
  ext : bool;
  key_code : Z;
}.

Definition key_bytes (a : key_act) : list Z :=
  (if ext a then [SC_EXTENDED] else []) ++ [if press a then key_code a else key_code a + 128].

(** Code 0x60 is not used by any key: its release would be the prefix. *)
Definition key_ok (a : key_act) : Prop := 0 <= key_code a < 128 /\ key_code a <> 0x60.

(** The letters of the three rows of the US layout. *)
Definition letter : Z -> Z := table
  (zip (zseq 0x10 10 ++ zseq 0x1E 9 ++ zseq 0x2C 7)
       [113; 119; 101; 114; 116; 121; 117; 105; 111; 112; 97; 115; 100; 102; 103; 104; 106; 107; 108;
        122; 120; 99; 118; 98; 110; 109]).

(** The character of a key: a letter is upper case when exactly one of Shift
    and Caps Lock is on, and a control character with Ctrl if it is lower
    case; the other keys depend on Shift only. *)
Definition key_char (shift ctrl caps : bool) (code : Z) : Z :=
  let l := letter code in
  if l =? 0 then (if shift then kbd_shifted code else kbd_normal code)
  else if xorb shift caps then l - 32
  else if ctrl then l - 96 else l.

Record mods := Mods {
  shift : bool;
  ctrl : bool;
  caps : bool;
}.

Definition key_step (m : mods) (a : key_act) : mods * list kbd_event :=
  let code := key_code a in
  if ext a then
    (m, if press a && negb (extmap code =? 0) then [KbdEvent KBD_EVENT_SPECIAL (extmap code) 0] else [])
  else if code =? SC_CTRL then (Mods (shift m) (press a) (caps m), [])
  else if (code =? SC_LSHIFT) || (code =? SC_RSHIFT) then (Mods (press a) (ctrl m) (caps m), [])
  else if code =? SC_CAPS_LOCK then (Mods (shift m) (ctrl m) (xorb (press a) (caps m)), [])
  else
    let c := key_char (shift m) (ctrl m) (caps m) code in
    (m, if press a && negb (c =? 0) then [KbdEvent KBD_EVENT_CHAR 0 c] else []).

Fixpoint key_events (m : mods) (l : list key_act) : list kbd_event :=
  match l with
  | [] => []
  | a :: l' => let '(m', evs) := key_step m a in evs ++ key_events m' l'
  end.



(** ** Ownership *)

(** The task of a reader that respects the ownership. *)
Definition reader_pid (r : reader) : option Z :=
  match r with
  | Anyone => None
  | Owner pid | Shell pid => Some pid
  end.

(** A move of tasks other than the release by the owner itself. *)
Definition bystander (owner : Z) (m : move) : Prop :=
  match m with
  | Irqs _ => True
  | Turn r _ => exists pid, reader_pid r = Some pid
  | Release pid => pid <> owner
  end.

Section Owned.
Context {H : Type} `{Ports H} (owner : Z).

(** A reader past its check is the owner. *)
Definition pc_owned (r : reader) (p : pc) : Prop :=
  match p with
  | PClaim | PCheck => True
  | _ => reader_pid r = Some owner
  end.

Lemma step_owned r p k : owner <> 0 -> g_kbd_owner k = owner -> ring_ok k -> (exists pid, reader_pid r = Some pid) ->
  pc_owned r p ->
  let '(p', k') := reader_step r p k in
  g_kbd_owner k' = owner /\ ring_ok k' /\ match p' with Some p' => pc_owned r p' | None => True end.
Proof.
  intros Hnz Ho [Hh Ht] [pid Hr] Hp. destruct r as [|q|q]; [discriminate|..]; destruct p; cbn in *;
    split_tests; cbn; split_and!; auto; try congruence; try lia; try (by f_equal; lia);
    split; auto; apply Z.mod_pos_bound; done.
Qed.

Lemma turn_owned r fuel : forall p bursts k (h : H) acc out k' h',
  owner <> 0 -> g_kbd_owner k = owner -> ring_ok k -> (exists pid, reader_pid r = Some pid) -> pc_owned r p ->
  turn fuel r p bursts k h = (acc, out, k', h') ->
  g_kbd_owner k' = owner /\ ring_ok k' /\ (out <> None -> reader_pid r = Some owner).
Proof.
  induction fuel as [|fuel IH]; intros p bursts k h acc out k' h' Hnz Ho Hok Hr Hp E;
    destruct (irqs (hd O bursts) k h) as [[acc1 k1] h1] eqn:E1;
    destruct (irqs_pending _ _ _ _ _ _ Hok E1) as (Hok1 & _ & Ho1); rewrite Ho in Ho1;
    (destruct (decide (rank p = 0%nat)) as [Hz|Hz];
     [destruct p; try discriminate; rewrite turn_done, E1 in E; by simplify_eq|]).
  { cbn [turn] in E. rewrite E1 in E. destruct p; by simplify_eq. }
  rewrite turn_S, E1 in E by done.
  pose proof (step_owned r p k1 Hnz Ho1 Hok1 Hr Hp) as Hstep.
  destruct (reader_step r p k1) as [[p'|] k2]; [|by simplify_eq; destruct Hstep as (? & ? & _)].
  destruct Hstep as (Ho2 & Hok2 & Hp2).
  destruct (turn fuel r p' (tail bursts) k2 h1) as [[[acc2 out2] k3] h3] eqn:E3. simplify_eq.
  exact (IH _ _ _ _ _ _ _ _ Hnz Ho2 Hok2 Hr Hp2 E3).
Qed.

Lemma move1_owned m k (h : H) acc out k' h' :
  owner <> 0 -> g_kbd_owner k = owner -> ring_ok k -> bystander owner m -> move1 m k h = (acc, out, k', h') ->
  g_kbd_owner k' = owner /\ ring_ok k' /\ Forall (fun o => reader_pid (fst o) = Some owner) out.
Proof.
  intros Hnz Ho Hok Hb E. destruct m as [n|r bursts|pid]; cbn [move1 bystander] in *.
  - destruct (irqs n k h) as [[acc1 k1] h1] eqn:E1. simplify_eq.
    destruct (irqs_pending _ _ _ _ _ _ Hok E1) as (? & _ & ->). by split_and!.
  - destruct (turn 5 r (loop_start r) bursts k h) as [[[acc1 o] k1] h1] eqn:E1. injection E as <- <- <- <-.
    assert (pc_owned r (loop_start r)) as Hs by (by destruct r as [|q|q]; destruct Hb as [pid Hb]; [discriminate|..]).
    destruct (turn_owned _ _ _ _ _ _ _ _ _ _ Hnz Ho Hok Hb Hs E1) as (? & ? & Hout).
    split_and!; [done|done|]. destruct o; constructor; [by apply Hout|constructor].
  - simplify_eq. unfold kbd_input_release. destruct (Z.eqb_spec (g_kbd_owner k) pid); [lia|]. by split_and!.
Qed.
End Owned.

(** While a task owns the console input and does not release it, every
    event read through [kbd_get_event_owned] and [kbd_get_event_shell] goes
    to this task, whatever the other tasks and the interrupts do, and the
    ownership stays. *)
Theorem kbd_owner_reads_alone {H} `{Ports H} (owner : Z) (ms : list move) (k : kbd) (h : H) :
  owner <> 0 -> g_kbd_owner k = owner -> ring_ok k -> Forall (bystander owner) ms ->
  let '(_, out, k', _) := moves ms k h in
  kbd_input_owner k' = owner /\ Forall (fun o => reader_pid (fst o) = Some owner) out.
Proof.
  intros Hnz Ho Hok Hms. revert k h Ho Hok. induction Hms as [|m ms Hm _ IH]; intros k h Ho Hok; cbn [moves].
  { by split. }
  destruct (move1 m k h) as [[[acc1 out1] k1] h1] eqn:E1.
  destruct (move1_owned owner _ _ _ _ _ _ _ Hnz Ho Hok Hm E1) as (Ho1 & Hok1 & Hf).
  specialize (IH k1 h1 Ho1 Hok1). destruct (moves ms k1 h1) as [[[acc2 out2] k2] h2].
  destruct IH as [? ?]. split; [done|]. by apply Forall_app.
Qed.

Lemma kbd_owner_reads_alone_witness :
  let '(_, out, k', _) :=
    moves [Turn (Shell 1) []; Irqs 2; Release 1; Turn (Owner 9) []; Turn (Owner 7) []]
      (with_owner kbd_boot 7) (Feed 0 [0x1E; 0x30; 0x2E]) in
  kbd_input_owner k' = 7 /\ Forall (fun o => reader_pid (fst o) = Some 7) out /\ length out = 1%nat.
Proof.
  pose proof (kbd_owner_reads_alone 7 [Turn (Shell 1) []; Irqs 2; Release 1; Turn (Owner 9) []; Turn (Owner 7) []]
    (with_owner kbd_boot 7) (Feed 0 [0x1E; 0x30; 0x2E])) as F.
  destruct (moves _ (with_owner kbd_boot 7) _) as [[[acc out] k'] h'] eqn:E.
  destruct F as [F1 F2]; [lia|reflexivity|split; vm_compute; split; discriminate || reflexivity|
    repeat constructor; cbn; eauto; lia|].
  split; [exact F1|]. split; [exact F2|]. vm_compute in E. injection E as _ <- _ _. reflexivity.
Defined.

(** ** Decoding *)

Lemma zseq_forall (P : Z -> bool) i n :
  forallb P (zseq i n) = true -> forall x, i <= x < i + Z.of_nat n -> P x = true.
Proof.
  intros Hf x Hx. rewrite forallb_forall in Hf. apply Hf, list_elem_of_In, elem_of_zseq, Hx.
Qed.

Lemma scancode_parts code : 0 <= code < 128 ->
  Z.land code 0x80 = 0 /\ Z.land code 0x7F = code /\ Z.land (code + 128) 0x80 = 128 /\ Z.land (code + 128) 0x7F = code.
Proof.
  intros Hc.
  pose proof (zseq_forall (fun c => (Z.land c 0x80 =? 0) && (Z.land c 0x7F =? c) &&
    (Z.land (c + 128) 0x80 =? 128) && (Z.land (c + 128) 0x7F =? c)) 0 128 eq_refl code ltac:(lia)) as E.
  lia.
Qed.

(** The two tables with Caps Lock and Ctrl agree with [key_char]. *)
Lemma table_chars s c l code : 0 <= code < 128 ->
  let ch := if s : bool then kbd_shifted code else kbd_normal code in
  (ch = 0 <-> key_char s c l code = 0) /\ (ch <> 0 -> ctrl_char c (caps_char l ch) = key_char s c l code).
Proof.
  intros Hc. cbn zeta.
  assert (forallb (fun code => let ch := if s then kbd_shifted code else kbd_normal code in
    eqb (ch =? 0) (key_char s c l code =? 0) && ((ch =? 0) || (ctrl_char c (caps_char l ch) =? key_char s c l code)))
    (zseq 0 128) = true) as F by (destruct s, c, l; vm_compute; reflexivity).
  pose proof (zseq_forall _ _ _ F code ltac:(lia)) as E. cbn zeta beta in E.
  apply andb_prop in E as [E1%eqb_prop E2]. lia.
Qed.

Lemma update_leds_feed b l : kbd_update_leds b (Feed 0 l) = Feed 0 l.
Proof.
  unfold kbd_update_leds. assert (Z.to_nat 10000 = S (Z.to_nat 9999)) as -> by lia.
  by destruct b.
Qed.

(** The modifiers of [m], and the events stored. *)
Definition set_mods (m : mods) (k : kbd) : kbd := with_mods k (shift m) (ctrl m) (caps m) false.
Definition store (evs : list kbd_event) (k : kbd) : kbd :=
  match evs with ev :: _ => kbd_push_event ev k | [] => k end.
Definition key_state (m : mods) (k : kbd) : Prop := set_mods m k = k.

Lemma irq_plain m (press : bool) code l k :
  0 <= code < 128 -> code <> 0x60 -> key_state m k ->
  kbd_irq_handler k (Feed 0 ((if press then code else code + 128) :: l)) =
    (store (snd (key_step m (Key press false code))) (set_mods (fst (key_step m (Key press false code))) k), Feed 0 l).
Proof.
  intros Hc Hx Hm. destruct (scancode_parts _ Hc) as (P1 & P2 & P3 & P4). destruct m as [s c cl].
  destruct (table_chars s c cl code Hc) as [T1 T2].
  rewrite <-Hm. unfold kbd_irq_handler, key_step. cbn -[Z.land kbd_shifted kbd_normal key_char kbd_update_leds].
  rewrite Hm.
  rewrite (proj2 (Z.eqb_neq (if press then code else code + 128) SC_EXTENDED)) by (destruct press; unfold SC_EXTENDED; lia).
  replace (Z.land (if press then code else code + 128) 128 =? 0) with press by (destruct press; lia).
  replace (Z.land (if press then code else code + 128) 127) with code by (by destruct press).
  split_tests; try (by destruct press); cbn [negb xorb andb fst snd]; rewrite ?update_leds_feed; try reflexivity;
    first [exfalso; lia | unfold kbd_push_char; rewrite T2 by done; reflexivity].
Qed.

Lemma irq_ext m (press : bool) code l k :
  0 <= code < 128 -> code <> 0x60 -> key_state m k ->
  kbd_irq_handler (with_mods k (shift m) (ctrl m) (caps m) true)
    (Feed 0 ((if press then code else code + 128) :: l)) =
    (store (snd (key_step m (Key press true code))) (set_mods (fst (key_step m (Key press true code))) k), Feed 0 l).
Proof.
  intros Hc Hx Hm. destruct (scancode_parts _ Hc) as (P1 & P2 & P3 & P4). destruct m as [s c cl].
  unfold kbd_irq_handler, key_step. cbn -[Z.land extmap].
  rewrite (proj2 (Z.eqb_neq (if press then code else code + 128) SC_EXTENDED)) by (destruct press; unfold SC_EXTENDED; lia).
  replace (Z.land (if press then code else code + 128) 128 =? 0) with press by (destruct press; lia).
  replace (Z.land (if press then code else code + 128) 127) with code by (by destruct press).
  by destruct press, (extmap code =? 0).
Qed.

(** One key: the interrupts for its bytes leave the modifiers of [key_step]
    and store its events. *)
Lemma key_irqs m a l k : key_state m k -> key_ok a ->
  let '(_, k', h') := irqs (length (key_bytes a)) k (Feed 0 (key_bytes a ++ l)) in
  h' = Feed 0 l /\ k' = store (snd (key_step m a)) (set_mods (fst (key_step m a)) k).
Proof.
  intros Hm [Hc Hx]. destruct a as [p [] code]; cbn [press ext key_code] in *; unfold key_bytes; cbn [ext press key_code].
  - change (irqs (length _) k _) with
      (let '(k1, h1) := kbd_irq_handler k (Feed 0 (SC_EXTENDED :: [if p then code else code + 128] ++ l)) in
       let '(acc, k2, h2) := irqs 1 k1 h1 in (accepted k k1 ++ acc, k2, h2)).
    assert (kbd_irq_handler k (Feed 0 (SC_EXTENDED :: [if p then code else code + 128] ++ l)) =
      (with_mods k (shift m) (ctrl m) (caps m) true, Feed 0 ((if p then code else code + 128) :: l))) as ->
      by (rewrite <-Hm; reflexivity).
    cbn [irqs]. rewrite (irq_ext m p code l k Hc Hx Hm). done.
  - cbn [app length irqs]. rewrite (irq_plain m p code l k Hc Hx Hm). done.
Qed.

Lemma key_step_one m a : (length (snd (key_step m a)) <= 1)%nat.
Proof. unfold key_step. split_tests; cbn; lia. Qed.

(** Storing an event when there is room. *)
Lemma store_event m k evs : ring_ok k -> count k + Z.of_nat (length evs) <= 255 -> (length evs <= 1)%nat ->
  let k' := store evs (set_mods m k) in
  ring_ok k' /\ key_state m k' /\ pending k' = pending k ++ evs.
Proof.
  intros Hok Hroom Hone. destruct evs as [|ev [|]]; cbn in *; [by rewrite app_nil_r| |lia].
  destruct (push_pending ev (set_mods m k) Hok) as [[E _]|(_ & E & _ & ? & _)]; [unfold count in *; cbn in E; lia|].
  split_and!; [done| |exact E]. unfold kbd_push_event. by destruct (_ =? _).
Qed.

Lemma length_pending k : Z.of_nat (length (pending k)) = count k.
Proof. unfold pending. rewrite length_map, length_zseq. pose proof (count_range k). lia. Qed.

Lemma irqs_app n1 n2 k {H} `{Ports H} (h : H) :
  irqs (n1 + n2) k h =
    let '(acc1, k1, h1) := irqs n1 k h in
    let '(acc2, k2, h2) := irqs n2 k1 h1 in (acc1 ++ acc2, k2, h2).
Proof.
  revert k h. induction n1 as [|n1 IH]; intros k h; cbn [irqs Nat.add].
  { by destruct (irqs n2 k h) as [[? ?] ?]. }
  destruct (kbd_irq_handler k h) as [k1 h1]. rewrite IH.
  destruct (irqs n1 k1 h1) as [[? k2] h2], (irqs n2 k2 h2) as [[? ?] ?]. by rewrite app_assoc.
Qed.

Lemma keys_irqs acts : forall m k,
  ring_ok k -> key_state m k -> Forall key_ok acts ->
  count k + Z.of_nat (length (key_events m acts)) <= 255 ->
  let '(_, k', h') := irqs (length (concat (map key_bytes acts))) k (Feed 0 (concat (map key_bytes acts))) in
  codes h' = [] /\ pending k' = pending k ++ key_events m acts.
Proof.
  induction acts as [|a acts IH]; intros m k Hok Hm Hwf Hroom; cbn [map concat key_events irqs length].
  { by rewrite app_nil_r. }
  inversion Hwf as [|? ? Ha Hacts]; subst. cbn [key_events] in Hroom.
  rewrite length_app, irqs_app.
  pose proof (key_irqs m a (concat (map key_bytes acts)) k Hm Ha) as Hk.
  destruct (irqs (length (key_bytes a)) k _) as [[acc1 k1] h1]. destruct Hk as [-> ->].
  pose proof (key_step_one m a) as Hone. destruct (key_step m a) as [m' evs]. cbn [fst snd] in *.
  rewrite length_app in Hroom.
  destruct (store_event m' k evs Hok ltac:(lia) Hone) as (Hok1 & Hm1 & Hp1).
  set (k1 := store evs (set_mods m' k)) in *.
  assert (count k1 = count k + Z.of_nat (length evs)) as Hc by (rewrite <-!length_pending, Hp1, length_app; lia).
  specialize (IH m' k1 Hok1 Hm1 Hacts ltac:(lia)).
  destruct (irqs (length (concat (map key_bytes acts))) k1 _) as [[acc2 k2] h2].
  destruct IH as [? ->]. by rewrite Hp1, app_assoc.
Qed.

(** Whatever keys are pressed and released, the events that the interrupt
    handler stores for the bytes of scancode set 1 they send are those of the
    layout: letters upper case when exactly one of Shift and Caps Lock is on,
    control characters with Ctrl, other characters by Shift, the keys with a
    prefix byte as special keys; the exchange that sets the Caps Lock light
    does not swallow a scancode. *)
Theorem kbd_decodes_keys (acts : list key_act) :
  Forall key_ok acts -> (length (key_events (Mods false false false) acts) <= 255)%nat ->
  let bytes := concat (map key_bytes acts) in
  let '(_, k', h') := irqs (length bytes) kbd_boot (Feed 0 bytes) in
  codes h' = [] /\ pending k' = key_events (Mods false false false) acts.
Proof.
  intros Hwf Hroom. cbn zeta.
  apply (keys_irqs acts (Mods false false false) kbd_boot); [by repeat split|done|done|].
  change (count kbd_boot) with 0. lia.
Qed.

Lemma kbd_decodes_keys_witness :
  let acts := [Key true false 0x2A; Key true false 0x1E; Key false false 0x1E; Key true false 0x3A;
               Key true false 0x30; Key false false 0x2A; Key true true 0x48; Key true false 0x02] in
  let bytes := concat (map key_bytes acts) in
  let '(_, k', h') := irqs (length bytes) kbd_boot (Feed 0 bytes) in
  codes h' = [] /\ map ev_c (pending k') = [65; 98; 0; 49] /\ map ev_code (pending k') = [0; 0; KBD_KEY_UP; 0].
Proof.
  intros acts bytes. pose proof (kbd_decodes_keys acts) as F. cbn zeta in F. fold bytes in F.
  destruct (irqs (length bytes) kbd_boot (Feed 0 bytes)) as [[acc k'] h'].
  destruct F as [F1 F2]; [repeat constructor; cbn; lia|vm_compute; lia|].
  split; [exact F1|]. rewrite F2. split; reflexivity.
Defined.

(** Space, Enter, Tab, Backspace and Escape have no entry in the table for
    Shift: they do nothing while it is held. *)
Theorem shifted_keys_dead (c l : bool) :
  map (key_char true c l) [0x39; 0x1C; 0x0F; 0x0E; 0x01] = [0; 0; 0; 0; 0] /\
  map (key_char false false false) [0x39; 0x1C; 0x0F; 0x0E; 0x01] = [32; 10; 9; 8; 27].
Proof. by destruct c, l. Qed.

(** ** Two readers at once *)

(** The statements of two readers in the order of [who]. *)
Fixpoint interleave (who : list bool) (r1 r2 : reader) (p1 p2 : pc) (k : kbd) : pc * pc * kbd :=
  match who with
  | [] => (p1, p2, k)
  | true :: who' =>
      let '(p, k) := reader_step r1 p1 k in
      interleave who' r1 r2 (default (loop_start r1) p) p2 k
  | false :: who' =>
      let '(p, k) := reader_step r2 p2 k in
      interleave who' r1 r2 p1 (default (loop_start r2) p) k
  end.

(** A task switch between the statements of a turn breaks the exclusion
    of the readers: the shell (task 1) has checked the ownership and the ring
    when a program (task 7) claims the console and reads the one key that is
    waiting; the shell then returns the same key although task 7 owns the
    console, and its index passes the end of the ring, which now seems to
    hold 255 events. *)
Theorem kbd_readers_race :
  let k := kbd_push_char 97 kbd_boot in
  let '(p1, p2, k') :=
    interleave [true; true; true; false; false; false; false; false; true] (Shell 1) (Owner 7)
      (loop_start (Shell 1)) (loop_start (Owner 7)) k in
  count k = 1 /\ p1 = PDone (KbdEvent KBD_EVENT_CHAR 0 97) /\ p2 = PDone (KbdEvent KBD_EVENT_CHAR 0 97) /\
  kbd_input_owner k' = 7 /\ count k' = 255.
Proof. vm_compute. by split_and!. Qed.
