(* ===== verification/Pmm.v ===== *)
(** * Physical memory manager (src/kernel/mm/pmm.c)

    The bitmap frame allocator: one bit per 4 KiB frame, set = in use. The
    state is the five static variables of pmm.c; the operations are its
    functions, with the bit operations on the bitmap bytes and the 64-bit
    arithmetic written out. The second half of the file states what the
    allocator promises to its clients ([FramePool]) and discharges it. *)

From stdpp Require Import base numbers list gmap.
From Stdlib Require Import ZArith Lia ZifyBool.
From S2P Require Import Prelude.
From S2P Require Import Interfaces.

Definition FRAME_SIZE : Z := 4096.
Definition FRAME_SHIFT : Z := 12.
Definition MAX_FRAMES : Z := 1024 * 1024.
Definition BITMAP_BYTES : Z := MAX_FRAMES / 8.

Definition LIMINE_MEMMAP_USABLE : Z := 0.

(** An entry of the boot loader's memory map. *)
Record memmap_entry := MemmapEntry {
  me_base : Z;
  me_length : Z;
  me_type : Z;
}.

(** The static variables of pmm.c. *)
Record pmm := Pmm {
  g_bitmap : memory;
  g_total_frames : Z;
  g_allocated_frames : Z;
  g_hhdm_offset : Z;
  g_last_hint : Z;
}.

Definition with_bitmap (s : pmm) (b : memory) : pmm :=
  Pmm b (g_total_frames s) (g_allocated_frames s) (g_hhdm_offset s) (g_last_hint s).

(** Static storage before [pmm_init]. *)
Definition pmm_bss : pmm := Pmm (fun _ => 0) 0 0 0 0.

(** ** Operations *)

Definition frame_is_free (s : pmm) (frame : Z) : bool :=
  Z.land (g_bitmap s (frame / 8)) (Z.shiftl 1 (frame mod 8)) =? 0.

Definition frame_set_used (s : pmm) (frame : Z) : pmm :=
  with_bitmap s (upd (g_bitmap s) (frame / 8)
    (u8 (Z.lor (g_bitmap s (frame / 8)) (u8 (Z.shiftl 1 (frame mod 8)))))).

Definition frame_set_free (s : pmm) (frame : Z) : pmm :=
  with_bitmap s (upd (g_bitmap s) (frame / 8)
    (u8 (Z.land (g_bitmap s (frame / 8)) (u8 (Z.lnot (Z.shiftl 1 (frame mod 8))))))).

(** First frame and end frame of a usable region, clipped to the bitmap. *)
Definition entry_start (e : memmap_entry) : Z :=
  Z.shiftr (u64 (me_base e + FRAME_SIZE - 1)) FRAME_SHIFT.

Definition entry_end (e : memmap_entry) : Z :=
  let fin := Z.shiftr (u64 (me_base e + me_length e)) FRAME_SHIFT in
  if MAX_FRAMES <? fin then MAX_FRAMES else fin.

Definition pmm_init_frame (s : pmm) (frame : Z) : pmm :=
  let s := frame_set_free s frame in
  Pmm (g_bitmap s) (u64 (g_total_frames s + 1)) (g_allocated_frames s)
      (g_hhdm_offset s) (g_last_hint s).

Definition pmm_init_entry (s : pmm) (e : memmap_entry) : pmm :=
  if negb (me_type e =? LIMINE_MEMMAP_USABLE) then s
  else fold_left pmm_init_frame
         (zseq (entry_start e) (Z.to_nat (entry_end e - entry_start e))) s.

Definition pmm_init (s : pmm) (memmap : option (list memmap_entry)) (hhdm_offset : Z) : pmm :=
  let s := Pmm (fill (g_bitmap s) 0 BITMAP_BYTES 255) 0 0 hhdm_offset (g_last_hint s) in
  match memmap with
  | None => s
  | Some entries =>
      let s := fold_left pmm_init_entry entries s in
      Pmm (g_bitmap s) (g_total_frames s) (g_allocated_frames s) (g_hhdm_offset s) 0
  end.

(** The body shared by the two scan loops of [pmm_alloc_frame]. *)
Definition take_frame (s : pmm) (i : Z) : Z * pmm :=
  let s := frame_set_used s i in
  (u64 (Z.shiftl i FRAME_SHIFT),
   Pmm (g_bitmap s) (g_total_frames s) (u64 (g_allocated_frames s + 1))
       (g_hhdm_offset s) (u64 (i + 1))).

Definition pmm_alloc_frame (s : pmm) : Z * pmm :=
  match zfind (frame_is_free s) (Z.to_nat (g_total_frames s - g_last_hint s)) (g_last_hint s) with
  | Some i => take_frame s i
  | None =>
      match zfind (frame_is_free s) (Z.to_nat (Z.min (g_last_hint s) (g_total_frames s))) 0 with
      | Some i => take_frame s i
      | None => (0, s)
      end
  end.

(** The body of [pmm_alloc_frames] once the run at [i] is known to be free. *)
Definition take_run (s : pmm) (i count : Z) : Z * pmm :=
  let s' := fold_left frame_set_used (zseq i (Z.to_nat count)) s in
  (u64 (Z.shiftl i FRAME_SHIFT),
   Pmm (g_bitmap s') (g_total_frames s') (u64 (g_allocated_frames s' + count))
       (g_hhdm_offset s') (u64 (i + count))).

(** [pmm_alloc_frames]: the outer loop at position [i], with the 64-bit
    wrap-around of its test [i + count <= g_total_frames]; [None] when the
    fuel runs out. *)
Fixpoint alloc_frames_loop (fuel : nat) (s : pmm) (count i : Z) : option (Z * pmm) :=
  match fuel with
  | O => None
  | S fuel' =>
      if u64 (i + count) <=? g_total_frames s then
        if forallb (frame_is_free s) (zseq i (Z.to_nat count)) then
          Some (take_run s i count)
        else alloc_frames_loop fuel' s count (i + 1)
      else Some (0, s)
  end.

Definition pmm_alloc_frames (fuel : nat) (s : pmm) (count : Z) : option (Z * pmm) :=
  if count =? 0 then Some (0, s) else alloc_frames_loop fuel s count 0.

Definition pmm_free_frame (s : pmm) (phys : Z) : pmm :=
  let frame := Z.shiftr phys FRAME_SHIFT in
  if g_total_frames s <=? frame then s
  else if frame_is_free s frame then s
  else
    let s := frame_set_free s frame in
    Pmm (g_bitmap s) (g_total_frames s) (u64 (g_allocated_frames s - 1))
        (g_hhdm_offset s) (g_last_hint s).

Definition pmm_free_frames (s : pmm) (phys count : Z) : pmm :=
  fold_left (fun s i => pmm_free_frame s (u64 (phys + i * FRAME_SIZE)))
            (zseq 0 (Z.to_nat count)) s.

Definition pmm_phys_to_virt (s : pmm) (phys : Z) : Z := u64 (phys + g_hhdm_offset s).

(** [pmm_get_stats]: total and free frame counts. *)
Definition pmm_get_stats (s : pmm) : Z * Z :=
  (g_total_frames s, u64 (g_total_frames s - g_allocated_frames s)).

(** ** The bitmap as a set of frames *)

Section Bitmap.

Implicit Types s : pmm.

Lemma land_bit_zero b k :
  0 <= k -> (Z.land b (Z.shiftl 1 k) =? 0) = negb (Z.testbit b k).
Proof.
  intros Hk. rewrite Z.shiftl_1_l. destruct (Z.testbit b k) eqn:E; cbn.
  - apply Z.eqb_neq. intros H. apply (f_equal (fun z => Z.testbit z k)) in H.
    rewrite Z.land_spec, Z.pow2_bits_true, E, Z.bits_0 in H by lia. done.
  - apply Z.eqb_eq, Z.bits_inj'. intros n Hn.
    rewrite Z.land_spec, Z.pow2_bits_eqb, Z.bits_0 by lia.
    destruct (Z.eqb_spec k n) as [<-|]; [by rewrite E|apply andb_false_r].
Qed.

Lemma frame_is_free_testbit s f :
  frame_is_free s f = negb (Z.testbit (g_bitmap s (f / 8)) (f mod 8)).
Proof. apply land_bit_zero. pose proof (Z.mod_pos_bound f 8). lia. Qed.

Lemma testbit_u8 z j : 0 <= j < 8 -> Z.testbit (u8 z) j = Z.testbit z j.
Proof. intros. apply Z.mod_pow2_bits_low. lia. Qed.

Lemma same_bit f g : f / 8 = g / 8 -> (g mod 8 =? f mod 8) = (g =? f).
Proof. intros. destruct (Z.eqb_spec g f), (Z.eqb_spec (g mod 8) (f mod 8)); divlia. Qed.

(** Setting a bit removes exactly that frame from the free set. *)
Lemma frame_set_used_free s f g :
  frame_is_free (frame_set_used s f) g = frame_is_free s g && negb (g =? f).
Proof.
  rewrite !frame_is_free_testbit. cbn [frame_set_used g_bitmap with_bitmap].
  pose proof (Z.mod_pos_bound f 8 ltac:(lia)). pose proof (Z.mod_pos_bound g 8 ltac:(lia)).
  destruct (Z.eqb_spec (g / 8) (f / 8)) as [E|E].
  - rewrite E, upd_eq, testbit_u8, Z.lor_spec, testbit_u8, Z.shiftl_1_l by lia.
    rewrite Z.pow2_bits_eqb, (Z.eqb_sym (f mod 8)), (same_bit f g) by lia.
    apply negb_orb.
  - rewrite upd_ne by done. destruct (Z.eqb_spec g f) as [->|]; [done|].
    by rewrite andb_true_r.
Qed.

(** Clearing a bit adds exactly that frame. *)
Lemma frame_set_free_free s f g :
  frame_is_free (frame_set_free s f) g = frame_is_free s g || (g =? f).
Proof.
  rewrite !frame_is_free_testbit. cbn [frame_set_free g_bitmap with_bitmap].
  pose proof (Z.mod_pos_bound f 8 ltac:(lia)). pose proof (Z.mod_pos_bound g 8 ltac:(lia)).
  destruct (Z.eqb_spec (g / 8) (f / 8)) as [E|E].
  - rewrite E, upd_eq, testbit_u8, Z.land_spec, testbit_u8, Z.lnot_spec by lia.
    rewrite Z.shiftl_1_l, Z.pow2_bits_eqb, (Z.eqb_sym (f mod 8)), (same_bit f g) by lia.
    by rewrite negb_andb, negb_involutive.
  - rewrite upd_ne by done. destruct (Z.eqb_spec g f) as [->|]; [done|].
    by rewrite orb_false_r.
Qed.

Lemma elem_of_cons_b (g f : Z) (l : list Z) :
  bool_decide (g ∈ f :: l) = (g =? f) || bool_decide (g ∈ l).
Proof.
  destruct (Z.eqb_spec g f) as [->|]; cbn.
  - apply bool_decide_eq_true_2. set_solver.
  - apply bool_decide_ext. set_solver.
Qed.

(** Marking a whole run of frames. *)
Lemma fold_set_used_free l s g :
  frame_is_free (fold_left frame_set_used l s) g =
  frame_is_free s g && negb (bool_decide (g ∈ l)).
Proof.
  revert s; induction l as [|f l IH]; intros s; cbn [fold_left].
  - rewrite bool_decide_eq_false_2 by apply not_elem_of_nil. by rewrite andb_true_r.
  - rewrite IH, frame_set_used_free, elem_of_cons_b, negb_orb. apply eq_sym, andb_assoc.
Qed.

Lemma fold_set_used_fields l s :
  g_total_frames (fold_left frame_set_used l s) = g_total_frames s /\
  g_allocated_frames (fold_left frame_set_used l s) = g_allocated_frames s /\
  g_hhdm_offset (fold_left frame_set_used l s) = g_hhdm_offset s.
Proof. revert s; induction l as [|f l IH]; intros s; cbn [fold_left]; [done|].
  apply (IH (frame_set_used s f)).
Qed.

End Bitmap.

(** ** Allocation *)

(** The part of the state's well-formedness the scans rely on: the frame
    count fits the bitmap, so no scan leaves [g_bitmap]. *)
Record pmm_ok (s : pmm) : Prop := PmmOk {
  ok_total : 0 <= g_total_frames s <= MAX_FRAMES;
  ok_hint : 0 <= g_last_hint s;
}.

Section Allocation.

Implicit Types s : pmm.

Lemma pmm_alloc_frame_cases s :
  pmm_ok s ->
  (exists i, 0 <= i < g_total_frames s /\ frame_is_free s i = true /\
             pmm_alloc_frame s = take_frame s i) \/
  (pmm_alloc_frame s = (0, s) /\
   forall i, 0 <= i < g_total_frames s -> frame_is_free s i = false).
Proof.
  intros [Ht Hh]. unfold pmm_alloc_frame.
  destruct (zfind _ _ (g_last_hint s)) as [i|] eqn:E1.
  { apply zfind_Some in E1 as (? & ? & _). left. exists i. split_and!; [lia..|done|done]. }
  destruct (zfind _ _ 0) as [i|] eqn:E2.
  { apply zfind_Some in E2 as (? & ? & _). left. exists i. split_and!; [lia..|done|done]. }
  right. split; [done|]. rewrite zfind_None in E1, E2. intros i Hi.
  destruct (Z.ltb_spec i (g_last_hint s)); [apply E2|apply E1]; lia.
Qed.

Lemma take_frame_addr s i : 0 <= i < MAX_FRAMES -> fst (take_frame s i) = i * FRAME_SIZE.
Proof.
  intros Hi. unfold MAX_FRAMES in Hi. cbn [take_frame fst].
  rewrite Z.shiftl_mul_pow2 by (unfold FRAME_SHIFT; lia).
  apply u64_small. unfold FRAME_SHIFT, FRAME_SIZE. lia.
Qed.

Lemma take_frame_free s i g :
  frame_is_free (snd (take_frame s i)) g = frame_is_free s g && negb (g =? i).
Proof. apply frame_set_used_free. Qed.

Lemma take_frame_ok s i : pmm_ok s -> pmm_ok (snd (take_frame s i)).
Proof. intros [Ht Hh]. split; [done|]. apply u64_range. Qed.

Lemma shiftr_frame i : Z.shiftr (i * FRAME_SIZE) FRAME_SHIFT = i.
Proof.
  unfold FRAME_SIZE, FRAME_SHIFT. rewrite Z.shiftr_div_pow2 by lia. divlia.
Qed.

(** Releasing a frame that is in use. *)
Lemma pmm_free_frame_used s i :
  0 <= i < g_total_frames s -> frame_is_free s i = false ->
  pmm_free_frame s (i * FRAME_SIZE) =
  Pmm (g_bitmap (frame_set_free s i)) (g_total_frames s)
      (u64 (g_allocated_frames s - 1)) (g_hhdm_offset s) (g_last_hint s).
Proof.
  intros Hi Hu. unfold pmm_free_frame. rewrite shiftr_frame, Hu.
  destruct (Z.leb_spec (g_total_frames s) i); [lia|done].
Qed.

(** [pmm_alloc_frames] terminates within [g_total_frames + 1] rounds and
    finds the first run of [count] free frames. *)
Lemma alloc_frames_loop_total fuel s count i :
  0 <= g_total_frames s < 2 ^ 63 -> 0 < count < 2 ^ 64 -> 0 <= i ->
  (count <= g_total_frames s \/ i = 0) -> i <= g_total_frames s + 1 ->
  g_total_frames s + 1 < i + Z.of_nat fuel ->
  exists r, alloc_frames_loop fuel s count i = Some r.
Proof.
  revert i; induction fuel as [|fuel IH]; intros i Ht Hc Hi Hci Hit Hf; [lia|].
  cbn [alloc_frames_loop].
  destruct (Z.leb_spec (u64 (i + count)) (g_total_frames s)) as [Hle|]; [|eauto].
  destruct (forallb _ _); [eauto|].
  destruct (Z.leb_spec count (g_total_frames s)) as [Hct|Hct].
  - rewrite u64_small in Hle by lia. apply IH; lia.
  - replace i with 0 in Hle by lia. rewrite u64_small in Hle by lia. lia.
Qed.

Lemma take_run_addr s i count :
  0 <= i < MAX_FRAMES -> fst (take_run s i count) = i * FRAME_SIZE.
Proof. exact (take_frame_addr s i). Qed.

Lemma take_run_free s i count k :
  0 <= count ->
  frame_is_free (snd (take_run s i count)) k =
  frame_is_free s k && negb ((i <=? k) && (k <? i + count)).
Proof.
  intros Hc. unfold take_run. cbn [snd].
  etransitivity; [apply (fold_set_used_free (zseq i (Z.to_nat count)) s k)|].
  do 2 f_equal. apply eq_true_iff_eq. rewrite bool_decide_eq_true, elem_of_zseq. lia.
Qed.

Lemma take_run_fields s i count :
  g_total_frames (snd (take_run s i count)) = g_total_frames s /\
  g_allocated_frames (snd (take_run s i count)) = u64 (g_allocated_frames s + count) /\
  g_hhdm_offset (snd (take_run s i count)) = g_hhdm_offset s.
Proof.
  unfold take_run. cbn [snd g_total_frames g_allocated_frames g_hhdm_offset].
  destruct (fold_set_used_fields (zseq i (Z.to_nat count)) s) as (-> & -> & ->). done.
Qed.

Lemma all_free_or_used s i count :
  forallb (frame_is_free s) (zseq i (Z.to_nat count)) = false ->
  exists k, i <= k < i + count /\ frame_is_free s k = false.
Proof.
  intros Hall.
  destruct (zfind (fun k => negb (frame_is_free s k)) (Z.to_nat count) i) as [k|] eqn:E.
  - apply zfind_Some in E as (? & ?%negb_true_iff & _). exists k. split; [lia|done].
  - exfalso. apply not_true_iff_false in Hall. apply Hall, forallb_forall.
    intros k Hk%list_elem_of_In%elem_of_zseq.
    rewrite zfind_None in E. apply negb_false_iff, E. lia.
Qed.

Lemma alloc_frames_loop_cases fuel s count i r :
  0 <= g_total_frames s <= MAX_FRAMES -> 0 < count < 2 ^ 64 -> 0 <= i ->
  (count <= g_total_frames s \/ i = 0) -> i <= g_total_frames s + 1 ->
  alloc_frames_loop fuel s count i = Some r ->
  (exists f, i <= f /\ f + count <= g_total_frames s /\ r = take_run s f count /\
     (forall k, f <= k < f + count -> frame_is_free s k = true) /\
     (forall f', i <= f' < f -> exists k, f' <= k < f' + count /\ frame_is_free s k = false)) \/
  (r = (0, s) /\
   forall f, i <= f -> f + count <= g_total_frames s ->
     exists k, f <= k < f + count /\ frame_is_free s k = false).
Proof.
  unfold MAX_FRAMES. intros Ht Hc.
  revert i; induction fuel as [|fuel IH]; intros i Hi Hci Hit; [done|].
  cbn [alloc_frames_loop].
  destruct (Z.leb_spec (u64 (i + count)) (g_total_frames s)) as [Hle|Hgt].
  2:{ intros [= <-]. right. split; [done|]. intros f Hf Hfc.
      exfalso. rewrite u64_small in Hgt by lia. lia. }
  assert (i + count <= g_total_frames s).
  { destruct Hci as [?| ->]; rewrite u64_small in Hle by lia; lia. }
  destruct (forallb _ _) eqn:Hall; intros Heq.
  - left. exists i. injection Heq as <-. split_and!; [lia..|done| |intros; lia].
    rewrite forallb_forall in Hall. intros k Hk. apply Hall.
    apply list_elem_of_In, elem_of_zseq. lia.
  - destruct (IH (i + 1) ltac:(lia) ltac:(lia) ltac:(lia) Heq)
      as [(f & ? & ? & ? & ? & Hfirst)|(-> & Hnone)].
    + left. exists f. split_and!; [lia|done..|]. intros f' Hf'.
      destruct (Z.eq_dec f' i) as [->|]; [by apply all_free_or_used|apply Hfirst; lia].
    + right. split; [done|]. intros f Hf Hfc.
      destruct (Z.eq_dec f i) as [->|]; [by apply all_free_or_used|apply Hnone; lia].
Qed.

End Allocation.

(** ** Ownership: the frames handed out and not yet returned

    [pmm_step] runs the allocator together with the list of addresses its
    clients hold; a client only returns what it holds. *)

Inductive pmm_step : pmm * list Z -> pmm * list Z -> Prop :=
| StepAlloc s p s' held :
    pmm_alloc_frame s = (p, s') -> p <> 0 ->
    pmm_step (s, held) (s', p :: held)
| StepAllocFail s s' held :
    pmm_alloc_frame s = (0, s') ->
    pmm_step (s, held) (s', held)
| StepAllocRun fuel s count p s' held :
    0 <= count < 2 ^ 64 ->
    pmm_alloc_frames fuel s count = Some (p, s') -> p <> 0 ->
    pmm_step (s, held) (s', map (fun i => p + i * FRAME_SIZE) (zseq 0 (Z.to_nat count)) ++ held)
| StepAllocRunFail fuel s count s' held :
    0 <= count < 2 ^ 64 ->
    pmm_alloc_frames fuel s count = Some (0, s') ->
    pmm_step (s, held) (s', held)
| StepFree s p held1 held2 :
    pmm_step (s, held1 ++ p :: held2) (pmm_free_frame s p, held1 ++ held2).

(** What holds between the allocator and its clients: [held] lists distinct
    frames in use, frame 0 is never free, the counter counts [held], and
    every frame that is free or held is one of the usable frames [U]. *)
Record pmm_owned (U : Z -> Prop) (s : pmm) (held : list Z) : Prop := PmmOwned {
  own_ok : pmm_ok s;
  own_zero : frame_is_free s 0 = false;
  own_usable : forall f, 0 <= f < g_total_frames s -> frame_is_free s f = true -> U f;
  own_nodup : NoDup held;
  own_used : forall p, p ∈ held ->
    exists f, p = f * FRAME_SIZE /\ 0 < f < g_total_frames s /\ frame_is_free s f = false /\ U f;
  own_count : g_allocated_frames s = Z.of_nat (length held);
}.

Section Ownership.

Context (U : Z -> Prop).
Notation pmm_owned := (pmm_owned U).
Implicit Types s : pmm.

(** Held frames are pairwise distinct frames of a bounded range. *)
Lemma held_bound s held :
  pmm_ok s -> NoDup held ->
  (forall p, p ∈ held -> exists f, p = f * FRAME_SIZE /\ 0 < f < g_total_frames s) ->
  Z.of_nat (length held) <= g_total_frames s.
Proof.
  intros [Ht _] Hnd Hin.
  assert (Hsub : map (fun p => p / FRAME_SIZE) held ⊆ zseq 0 (Z.to_nat (g_total_frames s))).
  { intros f Hf. apply list_elem_of_fmap in Hf as (p & -> & Hp).
    destruct (Hin p Hp) as (f & -> & Hf). apply elem_of_zseq.
    rewrite Z.div_mul by (unfold FRAME_SIZE; lia). lia. }
  apply NoDup_submseteq in Hsub.
  - apply submseteq_length in Hsub. rewrite length_map, length_zseq in Hsub. lia.
  - apply NoDup_fmap_2_strong; [|done]. intros p q Hp Hq.
    destruct (Hin p Hp) as (f & -> & _), (Hin q Hq) as (g & -> & _).
    rewrite !Z.div_mul by (unfold FRAME_SIZE; lia). congruence.
Qed.

Lemma owned_free_left s held :
  pmm_owned s held -> Z.of_nat (length held) <= g_total_frames s.
Proof.
  intros [Hok _ _ Hnd Hu _]. eapply held_bound; eauto.
  intros p Hp. destruct (Hu p Hp) as (f & ? & ? & _). eauto.
Qed.

Lemma owned_bound s held : pmm_owned s held -> Z.of_nat (length held) <= MAX_FRAMES.
Proof.
  intros Hown. etransitivity; [by apply owned_free_left|].
  destruct Hown as [[? _] _ _ _ _ _]. lia.
Qed.

Lemma owned_take s held i :
  pmm_owned s held -> 0 <= i < g_total_frames s -> frame_is_free s i = true ->
  pmm_owned (snd (take_frame s i)) (i * FRAME_SIZE :: held).
Proof.
  intros Hown Hi Hf. pose proof (owned_bound _ _ Hown) as Hb.
  destruct Hown as [Hok H0 HU Hnd Hu Hc]. unfold MAX_FRAMES in *.
  assert (i <> 0) by congruence.
  split.
  - by apply take_frame_ok.
  - by rewrite take_frame_free, H0.
  - intros f Hr. rewrite take_frame_free. intros [? _]%andb_prop. by apply HU.
  - constructor; [|done]. intros Hin. destruct (Hu _ Hin) as (f & E & _ & Huf & _).
    apply Z.mul_cancel_r in E; [|unfold FRAME_SIZE; lia]. congruence.
  - intros p Hp. apply elem_of_cons in Hp as [->|Hp].
    + exists i. rewrite take_frame_free, Z.eqb_refl, andb_false_r.
      split_and!; [done|cbn; lia..|done|by apply HU].
    + destruct (Hu p Hp) as (f & -> & Hr & Huf & ?). exists f. by rewrite take_frame_free, Huf.
  - cbn. rewrite Hc, u64_small by lia. lia.
Qed.

Lemma owned_free s held1 p held2 :
  pmm_owned s (held1 ++ p :: held2) -> pmm_owned (pmm_free_frame s p) (held1 ++ held2).
Proof.
  intros Hown. pose proof (owned_bound _ _ Hown) as Hb.
  destruct Hown as [Hok H0 HU Hnd Hu Hc]. unfold MAX_FRAMES in *.
  destruct (Hu p ltac:(set_solver)) as (f & -> & Hr & Huf & HUf).
  rewrite pmm_free_frame_used by (done || lia).
  apply NoDup_app in Hnd as (Hn1 & Hdis & Hn2). apply NoDup_cons in Hn2 as [Hp2 Hn2].
  assert (Hfree : forall b h g, frame_is_free (Pmm (g_bitmap (frame_set_free s f))
            (g_total_frames s) b (g_hhdm_offset s) h) g = frame_is_free s g || (g =? f))
    by (intros; apply frame_set_free_free).
  split.
  - destruct Hok. by split.
  - rewrite Hfree, H0. lia.
  - intros g Hg. rewrite Hfree. intros [?| ->%Z.eqb_eq]%orb_prop; [by apply HU|done].
  - apply NoDup_app. set_solver.
  - intros q Hq. destruct (Hu q ltac:(set_solver)) as (g & -> & Hg & Hug & ?).
    exists g. split_and!; [done|cbn; lia..| |done].
    rewrite Hfree, Hug. apply Z.eqb_neq. intros ->.
    apply elem_of_app in Hq as [Hq|Hq]; [|done]. apply (Hdis _ Hq). set_solver.
  - cbn. rewrite Hc. rewrite !length_app in *. cbn [length] in *.
    rewrite u64_small by lia. lia.
Qed.

Lemma run_addresses f count p :
  p ∈ map (fun i => f * FRAME_SIZE + i * FRAME_SIZE) (zseq 0 (Z.to_nat count)) <->
  exists g, p = g * FRAME_SIZE /\ f <= g < f + count.
Proof.
  rewrite list_elem_of_fmap. split.
  - intros (i & -> & Hi%elem_of_zseq). exists (f + i). split; [ring|lia].
  - intros (g & -> & Hg). exists (g - f). split; [ring|]. apply elem_of_zseq. lia.
Qed.

Lemma NoDup_zseq i n : NoDup (zseq i n).
Proof.
  revert i; induction n as [|n IH]; intros i; cbn [zseq]; constructor; [|done].
  rewrite elem_of_zseq. lia.
Qed.

Lemma owned_take_run s held f count :
  pmm_owned s held -> 0 <= f -> 0 < count -> f + count <= g_total_frames s ->
  (forall k, f <= k < f + count -> frame_is_free s k = true) ->
  pmm_owned (snd (take_run s f count))
    (map (fun i => f * FRAME_SIZE + i * FRAME_SIZE) (zseq 0 (Z.to_nat count)) ++ held).
Proof.
  intros Hown Hf Hc Hfc Hfree. pose proof (owned_bound _ _ Hown) as Hb.
  destruct Hown as [Hok H0 HU Hnd Hu Hcount]. unfold MAX_FRAMES in *.
  destruct (take_run_fields s f count) as (Et & Ea & _).
  assert (f <> 0) by (intros ->; rewrite Hfree in H0 by lia; done).
  split.
  - destruct Hok as [Ht _]. split; [by rewrite Et|]. apply u64_range.
  - rewrite take_run_free, H0 by lia. done.
  - intros g. rewrite Et, take_run_free by lia. intros Hg [? _]%andb_prop. by apply HU.
  - apply NoDup_app. split_and!; [|intros p Hp Hin|done].
    + apply NoDup_fmap_2_strong; [|apply NoDup_zseq]. unfold FRAME_SIZE. lia.
    + apply run_addresses in Hp as (g & -> & Hg). destruct (Hu _ Hin) as (g' & E & _ & Hug & _).
      apply Z.mul_cancel_r in E; [|unfold FRAME_SIZE; lia]. subst g'.
      rewrite Hfree in Hug by lia. done.
  - intros p Hp. rewrite Et. apply elem_of_app in Hp as [Hp|Hp].
    + apply run_addresses in Hp as (g & -> & Hg). exists g.
      split_and!; [done|lia..| |apply HU, Hfree; lia].
      rewrite take_run_free, Hfree by lia. cbn. apply negb_false_iff. lia.
    + destruct (Hu p Hp) as (g & -> & Hg & Hug & ?). exists g.
      split_and!; [done|lia..| |done]. by rewrite take_run_free, Hug by lia.
  - rewrite Ea, Hcount, length_app, length_map, length_zseq.
    destruct Hok as [Ht _]. unfold MAX_FRAMES in Ht. rewrite u64_small by lia. lia.
Qed.

Lemma pmm_alloc_frames_cases fuel s count r :
  pmm_ok s -> 0 <= count < 2 ^ 64 -> pmm_alloc_frames fuel s count = Some r ->
  (exists f, 0 <= f /\ 0 < count /\ f + count <= g_total_frames s /\
     r = take_run s f count /\ (forall k, f <= k < f + count -> frame_is_free s k = true) /\
     (forall f', 0 <= f' < f -> exists k, f' <= k < f' + count /\ frame_is_free s k = false)) \/
  (r = (0, s) /\
   (count = 0 \/ forall f, 0 <= f -> f + count <= g_total_frames s ->
      exists k, f <= k < f + count /\ frame_is_free s k = false)).
Proof.
  intros [Ht _] Hc. unfold pmm_alloc_frames. destruct (Z.eqb_spec count 0) as [->|].
  { intros [= <-]. right. auto. }
  intros [(f & ? & ? & ? & ? & ?)|(? & ?)]%alloc_frames_loop_cases; [left|right; auto|lia..].
  exists f. split_and!; auto; lia.
Qed.

(** One allocation: either a fresh non-null frame joins [held], or there is
    none left and nothing changes. *)
Lemma owned_alloc s held p s' :
  pmm_owned s held -> pmm_alloc_frame s = (p, s') ->
  (p <> 0 /\ pmm_owned s' (p :: held)) \/
  (p = 0 /\ s' = s /\ forall i, 0 <= i < g_total_frames s -> frame_is_free s i = false).
Proof.
  intros Hown E. pose proof Hown as [[Ht _] H0 _ _ _ _].
  destruct (pmm_alloc_frame_cases s (own_ok _ _ _ Hown)) as [(i & Hi & Hf & E')|(E' & Hn)];
    rewrite E in E'.
  - left. assert (p = i * FRAME_SIZE) as ->.
    { rewrite <-(take_frame_addr s i) by lia. by rewrite <-E'. }
    replace s' with (snd (take_frame s i)) by (by rewrite <-E').
    split; [|by apply owned_take]. unfold FRAME_SIZE.
    enough (i <> 0) by lia. intros ->. congruence.
  - right. by injection E' as -> ->.
Qed.

Lemma owned_alloc_run fuel s held count p s' :
  pmm_owned s held -> 0 <= count < 2 ^ 64 -> pmm_alloc_frames fuel s count = Some (p, s') ->
  (p <> 0 /\
   pmm_owned s' (map (fun i => p + i * FRAME_SIZE) (zseq 0 (Z.to_nat count)) ++ held)) \/
  (p = 0 /\ s' = s).
Proof.
  intros Hown Hc E. pose proof Hown as [Hok H0 _ _ _ _].
  apply pmm_alloc_frames_cases in E as [(f & Hf & Hc0 & Hfc & E & Hfree & _)|(E & _)]; [|right|done..].
  2:{ by injection E as -> ->. }
  left. destruct Hok as [Ht _]. assert (p = f * FRAME_SIZE) as ->.
  { rewrite <-(take_run_addr s f count) by lia. by rewrite <-E. }
  replace s' with (snd (take_run s f count)) by (by rewrite <-E).
  split; [|by apply owned_take_run]. unfold FRAME_SIZE.
  enough (f <> 0) by lia. intros ->. rewrite Hfree in H0 by lia. done.
Qed.

Lemma owned_step c c' :
  pmm_step c c' -> pmm_owned (fst c) (snd c) -> pmm_owned (fst c') (snd c').
Proof.
  intros Hstep Hown.
  destruct Hstep as [s p s' held E Hp|s s' held E|fuel s count p s' held Hc E Hp
                    |fuel s count s' held Hc E|s p held1 held2]; cbn [fst snd] in *.
  - destruct (owned_alloc _ _ _ _ Hown E) as [[_ ?]|[? _]]; done.
  - destruct (owned_alloc _ _ _ _ Hown E) as [[? _]|(_ & -> & _)]; done.
  - destruct (owned_alloc_run _ _ _ _ _ _ Hown Hc E) as [[_ ?]|[? _]]; done.
  - destruct (owned_alloc_run _ _ _ _ _ _ Hown Hc E) as [[? _]|(_ & ->)]; done.
  - by apply owned_free.
Qed.

Lemma alloc_frames_total fuel s count r :
  pmm_ok s -> 0 <= count < 2 ^ 64 -> pmm_alloc_frames fuel s count = Some r ->
  g_total_frames (snd r) = g_total_frames s.
Proof.
  intros Hok Hc E. apply pmm_alloc_frames_cases in E as [(f & _ & _ & _ & -> & _)|(-> & _)];
    [apply take_run_fields|done..].
Qed.

Lemma pmm_free_frame_total s p : g_total_frames (pmm_free_frame s p) = g_total_frames s.
Proof. unfold pmm_free_frame. by repeat destruct (_ : bool). Qed.

Lemma alloc_frame_total s : g_total_frames (snd (pmm_alloc_frame s)) = g_total_frames s.
Proof. unfold pmm_alloc_frame. by repeat destruct (zfind _ _ _). Qed.

Lemma pmm_run_owned c c' :
  rtc pmm_step c c' -> pmm_owned (fst c) (snd c) ->
  pmm_owned (fst c') (snd c') /\ g_total_frames (fst c') = g_total_frames (fst c).
Proof.
  induction 1 as [c|c1 c2 c3 Hs Hr IH]; intros Hown; [done|].
  destruct (IH (owned_step _ _ Hs Hown)) as [? ->]. split; [done|].
  destruct Hs as [s p s' held E|s s' held E|fuel s count p s' held Hc E|fuel s count s' held Hc E|];
    cbn [fst snd] in *.
  1,2: pose proof (alloc_frame_total s) as Ht; by rewrite E in Ht.
  1,2: by apply alloc_frames_total in E; [|destruct Hown|].
  apply pmm_free_frame_total.
Qed.

End Ownership.

(** ** Boot *)

(** The frames of the usable regions, in the order [pmm_init] frees them. *)
Definition usable_frames (entries : list memmap_entry) : list Z :=
  flat_map (fun e => if me_type e =? LIMINE_MEMMAP_USABLE
                     then zseq (entry_start e) (Z.to_nat (entry_end e - entry_start e))
                     else []) entries.

Section Boot.

Implicit Types s : pmm.

Lemma init_frames_free l s g :
  frame_is_free (fold_left pmm_init_frame l s) g = frame_is_free s g || bool_decide (g ∈ l).
Proof.
  revert s; induction l as [|f l IH]; intros s; cbn [fold_left].
  - rewrite bool_decide_eq_false_2 by apply not_elem_of_nil. by rewrite orb_false_r.
  - rewrite IH, elem_of_cons_b, orb_assoc. f_equal. apply frame_set_free_free.
Qed.

Lemma init_frames_fields l s :
  0 <= g_total_frames s < 2 ^ 64 ->
  g_total_frames (fold_left pmm_init_frame l s) =
    u64 (g_total_frames s + Z.of_nat (length l)) /\
  g_allocated_frames (fold_left pmm_init_frame l s) = g_allocated_frames s.
Proof.
  revert s; induction l as [|f l IH]; intros s Hs; cbn [fold_left length].
  - split; [|done]. rewrite u64_small; lia.
  - destruct (IH (pmm_init_frame s f)) as [-> ->]; [cbn; apply u64_range|].
    split; [|done]. cbn. unfold u64. rewrite Zplus_mod_idemp_l. f_equal. lia.
Qed.

(** The nested loops of [pmm_init] visit exactly [usable_frames]. *)
Lemma init_entries_flat entries s :
  fold_left pmm_init_entry entries s = fold_left pmm_init_frame (usable_frames entries) s.
Proof.
  revert s; induction entries as [|e es IH]; intros s; cbn [fold_left usable_frames flat_map].
  - done.
  - rewrite fold_left_app, IH. f_equal. unfold pmm_init_entry.
    by destruct (me_type e =? LIMINE_MEMMAP_USABLE).
Qed.

Lemma usable_frames_range entries f : f ∈ usable_frames entries -> 0 <= f < MAX_FRAMES.
Proof.
  unfold usable_frames. rewrite list_elem_of_In, in_flat_map. intros (e & _ & Hf).
  destruct (me_type e =? _); [|done].
  apply list_elem_of_In, elem_of_zseq in Hf.
  assert (0 <= entry_start e) by (apply Z.shiftr_nonneg, u64_range).
  assert (entry_end e <= MAX_FRAMES).
  { unfold entry_end. destruct (Z.ltb_spec MAX_FRAMES
      (Z.shiftr (u64 (me_base e + me_length e)) FRAME_SHIFT)); lia. }
  lia.
Qed.

Lemma usable_frames_length entries :
  NoDup (usable_frames entries) -> Z.of_nat (length (usable_frames entries)) <= MAX_FRAMES.
Proof.
  intros Hnd. assert (Hs : usable_frames entries ⊆ zseq 0 (Z.to_nat MAX_FRAMES)).
  { intros f Hf%usable_frames_range. apply elem_of_zseq. lia. }
  apply NoDup_submseteq, submseteq_length in Hs; [|done]. rewrite length_zseq in Hs.
  assert (0 <= MAX_FRAMES) by (unfold MAX_FRAMES; lia). lia.
Qed.

(** [pmm_init] on a memory map whose usable regions do not overlap: a frame
    is free exactly when it is usable, the total counts them and nothing
    is allocated. *)
Lemma pmm_init_spec s0 entries hhdm (s := pmm_init s0 (Some entries) hhdm) :
  NoDup (usable_frames entries) ->
  (forall f, 0 <= f < MAX_FRAMES ->
     frame_is_free s f = bool_decide (f ∈ usable_frames entries)) /\
  g_total_frames s = Z.of_nat (length (usable_frames entries)) /\
  g_allocated_frames s = 0 /\ pmm_ok s.
Proof.
  intros Hnd. subst s. pose proof (usable_frames_length _ Hnd) as Hlen.
  unfold pmm_init. rewrite init_entries_flat.
  set (s1 := Pmm _ 0 0 hhdm (g_last_hint s0)).
  destruct (init_frames_fields (usable_frames entries) s1 ltac:(cbn; lia)) as [Et Ea].
  rewrite u64_small in Et by (unfold MAX_FRAMES in Hlen; cbn; lia).
  cbn [g_total_frames g_allocated_frames]. split_and!; try done.
  - intros f Hf. etransitivity; [apply (init_frames_free (usable_frames entries) s1)|].
    rewrite frame_is_free_testbit. cbn [s1 g_bitmap].
    rewrite fill_in by (unfold BITMAP_BYTES, MAX_FRAMES in *; divlia).
    change 255 with (Z.ones 8). rewrite Z.ones_spec_low; [done|].
    apply Z.mod_pos_bound. lia.
  - split; cbn; [|lia]. rewrite Et. cbn. lia.
Qed.

Lemma pmm_init_owned s0 entries hhdm :
  NoDup (usable_frames entries) -> 0 ∉ usable_frames entries ->
  pmm_owned (fun f => f ∈ usable_frames entries) (pmm_init s0 (Some entries) hhdm) [].
Proof.
  intros Hnd H0. destruct (pmm_init_spec s0 entries hhdm Hnd) as (Hf & Ht & Ha & Hok).
  pose proof (usable_frames_length _ Hnd) as Hlen.
  split; [done| | |constructor|intros p Hp; by apply not_elem_of_nil in Hp|done].
  - rewrite Hf by (unfold MAX_FRAMES; lia). by apply bool_decide_eq_false.
  - intros f Hr. rewrite Hf by lia. apply bool_decide_eq_true.
Qed.

End Boot.

(** ** The contract of the allocator *)

Definition pmm_avail (s : pmm) (p : Z) : Prop :=
  exists f, p = f * FRAME_SIZE /\ 0 < f < g_total_frames s /\ frame_is_free s f = true.

Lemma pmm_alloc_spec s p s' :
  pmm_ok s -> pmm_alloc_frame s = (p, s') ->
  pmm_ok s' /\
  (p = 0 \/ (pmm_avail s p /\ page_aligned p /\ 0 < p < 2 ^ 52)) /\
  (forall q, pmm_avail s' q <-> pmm_avail s q /\ q <> p).
Proof.
  intros Hok E. pose proof Hok as [Ht _].
  destruct (pmm_alloc_frame_cases s Hok) as [(i & Hi & Hf & E')|(E' & Hn)]; rewrite E in E'.
  - assert (p = i * FRAME_SIZE) as ->.
    { rewrite <-(take_frame_addr s i) by lia. by rewrite <-E'. }
    replace s' with (snd (take_frame s i)) by (by rewrite <-E').
    unfold MAX_FRAMES in *. split_and!; [by apply take_frame_ok| |].
    + destruct (Z.eq_dec i 0) as [->|]; [by left|right].
      split_and!; [exists i; split_and!; [done|lia..|done]| |unfold FRAME_SIZE; lia..].
      unfold page_aligned, FRAME_SIZE. divlia.
    + intros q. unfold pmm_avail. setoid_rewrite take_frame_free. split.
      * intros (f & -> & Hr & [? ?%negb_true_iff%Z.eqb_neq]%andb_prop).
        split; [by exists f|]. rewrite Z.mul_cancel_r; [done|unfold FRAME_SIZE; lia].
      * intros ((f & -> & Hr & Hfr) & Hne). exists f. split_and!; [done|cbn; lia..|].
        rewrite Hfr. apply negb_true_iff, Z.eqb_neq. intros ->. done.
  - injection E' as -> ->. split_and!; [done|by left|].
    intros q. split; [|tauto]. intros Hq. split; [done|]. intros ->.
    destruct Hq as (f & E' & Hr & _). unfold FRAME_SIZE in E'. lia.
Qed.

Lemma pmm_free_spec s p :
  pmm_ok s -> page_aligned p -> 0 <= p ->
  pmm_ok (pmm_free_frame s p) /\
  (forall q, pmm_avail s q -> pmm_avail (pmm_free_frame s p) q) /\
  (forall q, pmm_avail (pmm_free_frame s p) q -> pmm_avail s q \/ q = p).
Proof.
  intros Hok Hal Hp. unfold page_aligned in Hal.
  assert (Ep : p = (p / 4096) * FRAME_SIZE) by (unfold FRAME_SIZE; divlia).
  unfold pmm_free_frame. rewrite Ep, shiftr_frame, <-Ep.
  destruct (_ <=? _) eqn:E1; [auto|]. destruct (frame_is_free s (p / 4096)) eqn:E2; [auto|].
  assert (Hfree : forall a g, frame_is_free (Pmm (g_bitmap (frame_set_free s (p / 4096)))
    (g_total_frames s) a (g_hhdm_offset s) (g_last_hint s)) g
    = frame_is_free s g || (g =? p / 4096)) by (intros; apply frame_set_free_free).
  split_and!.
  - destruct Hok. by split.
  - intros q (f & -> & Hr & Hf). exists f. rewrite Hfree, Hf. done.
  - intros q (f & -> & Hr & Hf). rewrite Hfree in Hf.
    apply orb_prop in Hf as [Hf| ->%Z.eqb_eq]; [left; by exists f|right; by rewrite Ep at 2].
Qed.

#[export] Instance pmm_pool : FramePool pmm := {|
  fp_alloc := pmm_alloc_frame;
  fp_free := pmm_free_frame;
  fp_inv := pmm_ok;
  fp_avail := pmm_avail;
  fp_alloc_spec := pmm_alloc_spec;
  fp_free_spec := pmm_free_spec;
|}.

(** ** Properties *)

(** C1. Starting from the memory map of the boot loader (usable regions that
    do not overlap and do not contain frame 0), whatever sequence of single
    and contiguous allocations and releases the clients perform: the frames
    they hold are pairwise distinct, lie in usable regions, are marked in use
    in the bitmap, and [pmm_get_stats] reports exactly the usable frames
    minus the held ones as free. *)
Theorem pmm_frames_exclusive s0 entries hhdm s held :
  NoDup (usable_frames entries) -> 0 ∉ usable_frames entries ->
  rtc pmm_step (pmm_init s0 (Some entries) hhdm, []) (s, held) ->
  NoDup held /\
  (forall p, p ∈ held -> exists f,
     p = f * FRAME_SIZE /\ f ∈ usable_frames entries /\ frame_is_free s f = false) /\
  pmm_get_stats s =
    (Z.of_nat (length (usable_frames entries)),
     Z.of_nat (length (usable_frames entries)) - Z.of_nat (length held)).
Proof.
  intros Hnd H0 Hrun.
  destruct (pmm_init_spec s0 entries hhdm Hnd) as (_ & Ht0 & _ & _).
  pose proof (usable_frames_length _ Hnd) as Hlen. unfold MAX_FRAMES in Hlen.
  destruct (pmm_run_owned _ _ _ Hrun (pmm_init_owned s0 entries hhdm Hnd H0)) as [Hown Et].
  cbn [fst snd] in *. pose proof Hown as [_ _ _ Hdup Hu Hc].
  pose proof (owned_free_left _ _ _ Hown) as Hle.
  split_and!; [done| |].
  - intros p Hp. destruct (Hu p Hp) as (f & ? & _ & ? & ?). eauto.
  - unfold pmm_get_stats. rewrite Et, Ht0 in *. rewrite Hc, u64_small by lia. done.
Qed.

Definition demo_memmap : list memmap_entry :=
  [MemmapEntry 4096 (7 * 4096) 0; MemmapEntry (8 * 4096) 4096 1; MemmapEntry (9 * 4096) (3 * 4096) 0].

Lemma pmm_frames_exclusive_witness :
  let s := pmm_init pmm_bss (Some demo_memmap) 0 in
  fst (pmm_alloc_frame s) = 4096 /\ pmm_get_stats (snd (pmm_alloc_frame s)) = (10, 9).
Proof.
  set (s := pmm_init pmm_bss (Some demo_memmap) 0). cbv zeta.
  assert (Hp : fst (pmm_alloc_frame s) = 4096) by (vm_compute; reflexivity).
  split; [exact Hp|].
  refine (proj2 (proj2 (pmm_frames_exclusive pmm_bss demo_memmap 0
            (snd (pmm_alloc_frame s)) [fst (pmm_alloc_frame s)] _ _ _))).
  - by_decide.
  - by_decide.
  - apply rtc_once. apply StepAlloc; [apply surjective_pairing|by rewrite Hp].
Defined.

(** [pmm_alloc_frames] terminates and is first fit: with [total + 2]
    rounds it either takes the lowest run of [count] free frames (returning
    its address, marking the run used and nothing else), or returns 0 and
    changes nothing because no such run exists, including for counts near
    2^64 whose loop test wraps around. *)
Theorem pmm_alloc_frames_first_fit s count :
  pmm_ok s -> 0 < count < 2 ^ 64 ->
  exists p s', pmm_alloc_frames (Z.to_nat (g_total_frames s + 2)) s count = Some (p, s') /\
    ((exists f, p = f * FRAME_SIZE /\ 0 <= f /\ f + count <= g_total_frames s /\
        (forall k, frame_is_free s' k = frame_is_free s k && negb ((f <=? k) && (k <? f + count))) /\
        (forall k, f <= k < f + count -> frame_is_free s k = true) /\
        (forall f', 0 <= f' < f ->
           exists k, f' <= k < f' + count /\ frame_is_free s k = false)) \/
     (p = 0 /\ s' = s /\
      forall f, 0 <= f -> f + count <= g_total_frames s ->
        exists k, f <= k < f + count /\ frame_is_free s k = false)).
Proof.
  intros Hok Hc. pose proof Hok as [Ht _]. unfold MAX_FRAMES in Ht.
  destruct (alloc_frames_loop_total (Z.to_nat (g_total_frames s + 2)) s count 0)
    as [[p s'] E]; [lia..|].
  exists p, s'. unfold pmm_alloc_frames at 1. destruct (Z.eqb_spec count 0); [lia|].
  split; [done|].
  apply alloc_frames_loop_cases in E as [(f & ? & ? & E & ? & ?)|(E & ?)];
    [left|right|unfold MAX_FRAMES; lia..]; [|by injection E as -> ->].
  exists f. split_and!; try done.
  - rewrite <-(take_run_addr s f count) by (unfold MAX_FRAMES; lia). by rewrite <-E.
  - intros k. rewrite <-take_run_free by lia. by rewrite <-E.
Qed.

Lemma pmm_alloc_frames_first_fit_witness :
  exists p s', pmm_alloc_frames 12 (pmm_init pmm_bss (Some demo_memmap) 0) 3 = Some (p, s') /\
    p = 4096.
Proof.
  destruct (pmm_alloc_frames_first_fit (pmm_init pmm_bss (Some demo_memmap) 0) 3)
    as (p & s' & E & _).
  - split; [split|]; vm_compute; discriminate.
  - lia.
  - exists p, s'. split; [exact E|].
    apply (f_equal (fun o => match o with Some (q, _) => q | None => 0 end)) in E.
    revert E. vm_compute. intros <-. reflexivity.
Defined.

(** (A defect.) The scans stop at [g_total_frames], the NUMBER of usable
    frames, not one past the highest usable frame: when every usable frame
    has a number at or above the count (RAM that starts above a hole), the
    first allocation after boot already fails while the statistics report
    all frames free. *)
Theorem pmm_frames_above_count_lost s0 entries hhdm (s := pmm_init s0 (Some entries) hhdm) :
  NoDup (usable_frames entries) ->
  (forall f, f ∈ usable_frames entries -> Z.of_nat (length (usable_frames entries)) <= f) ->
  fst (pmm_alloc_frame s) = 0 /\
  pmm_get_stats s = (Z.of_nat (length (usable_frames entries)),
                     Z.of_nat (length (usable_frames entries))).
Proof.
  intros Hnd Hhigh. destruct (pmm_init_spec s0 entries hhdm Hnd) as (Hf & Ht & Ha & Hok).
  fold s in Hf, Ht, Ha, Hok. pose proof Hok as [Hr _].
  split.
  - destruct (pmm_alloc_frame_cases s Hok) as [(i & Hi & Hfree & _)|[-> _]]; [|done].
    rewrite Hf, bool_decide_eq_true in Hfree by lia. apply Hhigh in Hfree. lia.
  - unfold pmm_get_stats. unfold MAX_FRAMES in Hr. rewrite Ha, Z.sub_0_r, u64_small by lia.
    by rewrite Ht.
Qed.

(** 64 KiB of RAM at 1 MiB: sixteen frames, none of which can be allocated. *)
Lemma pmm_frames_above_count_lost_witness :
  let s := pmm_init pmm_bss (Some [MemmapEntry 0x100000 0x10000 0]) 0 in
  fst (pmm_alloc_frame s) = 0 /\ pmm_get_stats s = (16, 16).
Proof.
  apply (pmm_frames_above_count_lost pmm_bss [MemmapEntry 0x100000 0x10000 0] 0).
  - by_decide.
  - intros f Hf%list_elem_of_In. vm_compute in Hf. vm_compute. intuition (subst; discriminate).
Defined.
