(* ===== verification/Vmm.v ===== *)
(** * Virtual memory manager (src/kernel/mm/vmm.c)

    Four-level x86-64 page tables in physical memory. The state holds the
    frame pool the tables are allocated from (any [FramePool]), physical
    memory as 64-bit words indexed by byte address (the kernel reaches it
    through the direct map, so [pmm_phys_to_virt] is the identity on these
    indices), the CR3 register and the two static variables of vmm.c. The
    TLB is not part of the state: [invlpg] and the CR3 reloads have no
    counterpart. *)

From stdpp Require Import base numbers list gmap.
From Stdlib Require Import ZArith Lia ZifyBool.
From S2P Require Import Prelude.
From S2P Require Import Interfaces.
From S2P Require Import Pmm.

Definition PAGE_SIZE : Z := 4096.
Definition VMM_PRESENT : Z := 1.
Definition VMM_WRITE : Z := 2.
Definition VMM_USER : Z := 4.
Definition PTE_ADDR_MASK : Z := 0x000ffffffffff000.
Definition KERNEL_HALF_BASE : Z := 0xffff800000000000.
Definition VMM_KHEAP_BASE : Z := 0xffffffff81000000.
Definition VMM_KHEAP_SIZE : Z := 64 * 1024 * 1024.
Definition PS_BIT : Z := Z.shiftl 1 7.
Definition NX_BIT : Z := Z.shiftl 1 63.
Definition SPLIT_FLAGS_MASK : Z := Z.ldiff (Z.ldiff 0xFFF PS_BIT) NX_BIT.

Record vmm (P : Type) := Vmm {
  pool : P;
  pmem : memory;
  hw_cr3 : Z;
  g_cr3 : Z;
  g_root_cr3 : Z;
}.
Arguments Vmm {P}.
Arguments pool {P}.
Arguments pmem {P}.
Arguments hw_cr3 {P}.
Arguments g_cr3 {P}.
Arguments g_root_cr3 {P}.

Definition with_pool {P} (s : vmm P) (p : P) : vmm P :=
  Vmm p (pmem s) (hw_cr3 s) (g_cr3 s) (g_root_cr3 s).

Definition with_pmem {P} (s : vmm P) (m : memory) : vmm P :=
  Vmm (pool s) m (hw_cr3 s) (g_cr3 s) (g_root_cr3 s).

(** Reading and writing the 64-bit word at [a]. *)
Definition ld {P} (s : vmm P) (a : Z) : Z := pmem s a.
Definition st {P} (s : vmm P) (a v : Z) : vmm P := with_pmem s (upd (pmem s) a v).

(** [&table[idx]]. *)
Definition entry_addr (table idx : Z) : Z := table + 8 * idx.

(** The indices of the four levels. *)
Definition pml4_index (virt : Z) : Z := Z.land (Z.shiftr virt 39) 0x1FF.
Definition pdpt_index (virt : Z) : Z := Z.land (Z.shiftr virt 30) 0x1FF.
Definition pd_index (virt : Z) : Z := Z.land (Z.shiftr virt 21) 0x1FF.
Definition pt_index (virt : Z) : Z := Z.land (Z.shiftr virt 12) 0x1FF.

(** ** Operations *)

Section Operations.
Context {P : Type} `{FramePool P}.

Definition pmm_alloc (s : vmm P) : Z * vmm P :=
  let '(phys, p) := fp_alloc (pool s) in (phys, with_pool s p).

(** [memset] of the direct-map page of [phys] to zero. *)
Definition clear_page (s : vmm P) (phys : Z) : vmm P :=
  with_pmem s (fill (pmem s) phys PAGE_SIZE 0).

Definition table_fetch (s : vmm P) (entry : Z) (allocate : bool) : Z * vmm P :=
  if negb (Z.land (ld s entry) VMM_PRESENT =? 0) then (Z.land (ld s entry) PTE_ADDR_MASK, s)
  else if negb allocate then (0, s)
  else
    let '(phys, s) := pmm_alloc s in
    if phys =? 0 then (0, s)
    else
      let s := clear_page s phys in
      (phys, st s entry (Z.lor (Z.lor (Z.lor phys VMM_PRESENT) VMM_WRITE) VMM_USER)).

(** The block of [walk_pt] that splits a large page, written three times in
    the source: [stride] is what one entry of the new table maps and [ps]
    says whether its entries are large pages themselves. [None] when no
    frame is left; the flag tells whether a split happened. *)
Definition split_level (s : vmm P) (entry stride : Z) (ps : bool) : option bool * vmm P :=
  if Z.land (ld s entry) PS_BIT =? 0 then (Some false, s)
  else
    let base := Z.land (ld s entry) PTE_ADDR_MASK in
    let flags_l := Z.lor (Z.land (ld s entry) SPLIT_FLAGS_MASK) (if ps then PS_BIT else 0) in
    let '(new_phys, s) := pmm_alloc s in
    if new_phys =? 0 then (None, s)
    else
      let s := clear_page s new_phys in
      let s := fold_left (fun s i =>
                 st s (entry_addr new_phys i) (Z.lor (u64 (base + i * stride)) flags_l))
                 (zseq 0 512) s in
      let s := st s entry (Z.lor new_phys (Z.land (ld s entry) 0xFFF)) in
      (Some true, s).

(** One level of the walk: split a large page, then fetch the next table. *)
Definition walk_level (s : vmm P) (entry stride : Z) (ps allocate : bool) :
    option (Z * bool) * vmm P :=
  match split_level s entry stride ps with
  | (None, s) => (None, s)
  | (Some split, s) =>
      let '(next, s) := table_fetch s entry allocate in
      if next =? 0 then (None, s) else (Some (next, split), s)
  end.

Definition clear_nx (s : vmm P) (entry : Z) : vmm P := st s entry (Z.ldiff (ld s entry) NX_BIT).
Definition set_user (s : vmm P) (entry : Z) : vmm P := st s entry (Z.lor (ld s entry) VMM_USER).

(** [walk_pt]: the address of the leaf entry and whether a large page was
    split, or [None] for NULL. *)
Definition walk_pt (s : vmm P) (cr3 virt : Z) (allocate user : bool) :
    option (Z * bool) * vmm P :=
  let e4 := entry_addr cr3 (pml4_index virt) in
  match walk_level s e4 0x40000000 false allocate with
  | (None, s) => (None, s)
  | (Some (pdpt, split4), s) =>
      let e3 := entry_addr pdpt (pdpt_index virt) in
      match walk_level s e3 0x200000 true allocate with
      | (None, s) => (None, s)
      | (Some (pd, split3), s) =>
          let e2 := entry_addr pd (pd_index virt) in
          match walk_level s e2 0x1000 false allocate with
          | (None, s) => (None, s)
          | (Some (pt, split2), s) =>
              let s := clear_nx (clear_nx (clear_nx s e4) e3) e2 in
              let s := if user then set_user (set_user (set_user s e4) e3) e2 else s in
              (Some (entry_addr pt (pt_index virt), split4 || split3 || split2), s)
          end
      end
  end.

Definition vmm_init (s : vmm P) : vmm P :=
  Vmm (pool s) (pmem s) (hw_cr3 s) (hw_cr3 s) (hw_cr3 s).

Definition vmm_root_cr3 (s : vmm P) : Z := g_root_cr3 s.

Definition vmm_space_clone (s : vmm P) : Z * vmm P :=
  let '(phys, s) := pmm_alloc s in
  if phys =? 0 then (0, s)
  else
    let s := clear_page s phys in
    (phys, fold_left (fun s i => st s (entry_addr phys i) (ld s (entry_addr (g_root_cr3 s) i)))
             (zseq 256 256) s).

Definition vmm_space_switch (s : vmm P) (cr3 : Z) : vmm P :=
  if cr3 =? g_cr3 s then s else Vmm (pool s) (pmem s) cr3 cr3 (g_root_cr3 s).

(** 0 on success, -1 on failure. *)
Definition vmm_map_page_in (s : vmm P) (cr3 virt phys flags : Z) : Z * vmm P :=
  if negb (Z.land virt (PAGE_SIZE - 1) =? 0) || negb (Z.land phys (PAGE_SIZE - 1) =? 0)
  then (-1, s)
  else
    match walk_pt s cr3 virt true (negb (Z.land flags VMM_USER =? 0)) with
    | (None, s) => (-1, s)
    | (Some (pte, _), s) =>
        (0, st s pte (Z.lor (Z.lor (Z.land phys PTE_ADDR_MASK) flags) VMM_PRESENT))
    end.

Definition space_of (s : vmm P) (virt : Z) : Z :=
  if KERNEL_HALF_BASE <=? virt then g_root_cr3 s else g_cr3 s.

Definition vmm_map_page (s : vmm P) (virt phys flags : Z) : Z * vmm P :=
  vmm_map_page_in s (space_of s virt) virt phys flags.

(** The loop of [vmm_map_region], [n] pages to go at offset [off]. *)
Fixpoint map_region_loop (n : nat) (s : vmm P) (virt phys off flags : Z) : Z * vmm P :=
  match n with
  | O => (0, s)
  | S n' =>
      match vmm_map_page s (u64 (virt + off)) (u64 (phys + off)) flags with
      | (0, s) => map_region_loop n' s virt phys (off + PAGE_SIZE) flags
      | (_, s) => (-1, s)
      end
  end.

Definition vmm_map_region (s : vmm P) (virt phys bytes flags : Z) : Z * vmm P :=
  map_region_loop (Z.to_nat ((bytes + PAGE_SIZE - 1) / PAGE_SIZE)) s virt phys 0 flags.

Definition vmm_unmap_page_in (s : vmm P) (cr3 virt : Z) : vmm P :=
  match walk_pt s cr3 virt false false with
  | (None, s) => s
  | (Some (pte, _), s) => st s pte 0
  end.

Definition vmm_unmap_page (s : vmm P) (virt : Z) : vmm P :=
  vmm_unmap_page_in s (space_of s virt) virt.

Definition vmm_translate_in (s : vmm P) (cr3 virt : Z) : Z * vmm P :=
  match walk_pt s cr3 virt false false with
  | (None, s) => (0, s)
  | (Some (pte, _), s) =>
      if Z.land (ld s pte) VMM_PRESENT =? 0 then (0, s)
      else (Z.lor (Z.land (ld s pte) PTE_ADDR_MASK) (Z.land virt (PAGE_SIZE - 1)), s)
  end.

Definition vmm_translate (s : vmm P) (virt : Z) : Z * vmm P := vmm_translate_in s (g_cr3 s) virt.

Definition vmm_reserve_tables (s : vmm P) (virt bytes : Z) : vmm P :=
  let first := Z.ldiff virt (PAGE_SIZE - 1) in
  let last := Z.ldiff (u64 (virt + bytes + PAGE_SIZE - 1)) (PAGE_SIZE - 1) in
  fold_left (fun s i => snd (walk_pt s (g_root_cr3 s) (first + i * PAGE_SIZE) true false))
    (zseq 0 (Z.to_nat ((last - first + PAGE_SIZE - 1) / PAGE_SIZE))) s.

Definition vmm_pte (s : vmm P) (virt : Z) : Z * vmm P :=
  match walk_pt s (g_cr3 s) virt false false with
  | (None, s) => (0, s)
  | (Some (pte, _), s) => (ld s pte, s)
  end.

Definition vmm_level_nx (s : vmm P) (virt : Z) : Z :=
  let e4 := ld s (entry_addr (g_cr3 s) (pml4_index virt)) in
  let nx := Z.land e4 NX_BIT in
  if Z.land e4 VMM_PRESENT =? 0 then nx
  else
    let e3 := ld s (entry_addr (Z.land e4 PTE_ADDR_MASK) (pdpt_index virt)) in
    let nx := Z.lor nx (Z.land e3 NX_BIT) in
    if Z.land e3 VMM_PRESENT =? 0 then nx
    else
      let e2 := ld s (entry_addr (Z.land e3 PTE_ADDR_MASK) (pd_index virt)) in
      Z.lor nx (Z.land e2 NX_BIT).

Definition vmm_level_entry (s : vmm P) (virt level : Z) : Z :=
  let e4 := ld s (entry_addr (g_cr3 s) (pml4_index virt)) in
  if level =? 3 then e4
  else if Z.land e4 VMM_PRESENT =? 0 then 0
  else
    let e3 := ld s (entry_addr (Z.land e4 PTE_ADDR_MASK) (pdpt_index virt)) in
    if level =? 2 then e3
    else if Z.land e3 VMM_PRESENT =? 0 then 0
    else
      let e2 := ld s (entry_addr (Z.land e3 PTE_ADDR_MASK) (pd_index virt)) in
      if level =? 1 then e2 else 0.

End Operations.
