(* ===== verification/VmmTables.v ===== *)
(** * Address spaces: the page tables of Vmm as mappings

    The tables in physical memory form a forest; [tables_ok] says that the
    tables of the address spaces under consideration are distinct frames
    that the pool does not hand out. On top of it the file shows what the
    operations of vmm.c do to the mappings: mapping and unmapping change
    one page of one space, address spaces are isolated from each other, and
    they share the kernel half of the root space. *)

From stdpp Require Import base numbers list gmap.
From Stdlib Require Import ZArith Lia ZifyBool.
From S2P Require Import Prelude.
From S2P Require Import Interfaces.
From S2P Require Import Pmm.
From S2P Require Import Vmm.

(** ** Entry bits *)

(** What a walk sees of an upper-level entry: the next table, unless the
    entry is absent or maps a large page. *)
Definition entry_next (e : Z) : option Z :=
  if negb (Z.land e VMM_PRESENT =? 0) && (Z.land e PS_BIT =? 0)
  then Some (Z.land e PTE_ADDR_MASK) else None.

Lemma land_ldiff_disjoint e n k : Z.land n k = 0 -> Z.land (Z.ldiff e n) k = Z.land e k.
Proof.
  intros H. apply Z.bits_inj'. intros i Hi. rewrite !Z.land_spec, Z.ldiff_spec.
  assert (Z.testbit (Z.land n k) i = false) as Hb by by rewrite H, Z.bits_0.
  rewrite Z.land_spec in Hb. by destruct (Z.testbit e i), (Z.testbit n i), (Z.testbit k i).
Qed.

Lemma land_lor_disjoint e n k : Z.land n k = 0 -> Z.land (Z.lor e n) k = Z.land e k.
Proof. intros H. by rewrite Z.land_lor_distr_l, H, Z.lor_0_r. Qed.

Lemma land_addr_mask p : page_aligned p -> 0 <= p < 2 ^ 52 -> Z.land p PTE_ADDR_MASK = p.
Proof.
  intros Ha Hp. unfold page_aligned in Ha.
  change PTE_ADDR_MASK with (Z.shiftl (Z.ones 40) 12).
  replace p with (Z.shiftl (p / 4096) 12) at 1 by (rewrite Z.shiftl_mul_pow2 by lia; divlia).
  rewrite <-Z.shiftl_land, Z.land_ones, Z.mod_small by divlia.
  rewrite Z.shiftl_mul_pow2 by lia. divlia.
Qed.

Lemma land_page_low p k : page_aligned p -> 0 <= k < 4096 -> Z.land p k = 0.
Proof.
  intros Ha Hk. unfold page_aligned in Ha.
  replace p with (Z.shiftl (p / 4096) 12) by (rewrite Z.shiftl_mul_pow2 by lia; divlia).
  apply Z.bits_inj'. intros i Hi. rewrite Z.land_spec, Z.bits_0.
  destruct (Z.ltb_spec i 12).
  - by rewrite Z.shiftl_spec_low by lia.
  - rewrite (testbit_high k 12 i) by lia. apply andb_false_r.
Qed.

Lemma entry_next_nx e : entry_next (Z.ldiff e NX_BIT) = entry_next e.
Proof. unfold entry_next. by rewrite !land_ldiff_disjoint by done. Qed.

Lemma entry_next_user e : entry_next (Z.lor e VMM_USER) = entry_next e.
Proof. unfold entry_next. by rewrite !land_lor_disjoint by done. Qed.

Lemma entry_next_table p :
  page_aligned p -> 0 <= p < 2 ^ 52 ->
  entry_next (Z.lor (Z.lor (Z.lor p VMM_PRESENT) VMM_WRITE) VMM_USER) = Some p.
Proof.
  intros Ha Hp. unfold entry_next. rewrite <-!Z.lor_assoc.
  rewrite !Z.land_lor_distr_l, !(land_page_low p) by done.
  rewrite land_addr_mask by done.
  transitivity (Some (Z.lor p 0)); [reflexivity|by rewrite Z.lor_0_r].
Qed.

(** ** Tables as paths *)

Definition idx (i : Z) : Prop := 0 <= i < 512.

(** [table_at m t p]: the table reached from table [t] through the indices
    of [p]. *)
Fixpoint table_at (m : memory) (t : Z) (p : list Z) : option Z :=
  match p with
  | [] => Some t
  | i :: p' => t' ← entry_next (m (entry_addr t i)); table_at m t' p'
  end.

Lemma table_at_app m t p q :
  table_at m t (p ++ q) = t' ← table_at m t p; table_at m t' q.
Proof.
  revert t; induction p as [|i p IH]; intros t; cbn; [done|].
  destruct (entry_next _); cbn; [apply IH|done].
Qed.

Lemma table_at_snoc m t p i :
  table_at m t (p ++ [i]) = t' ← table_at m t p; entry_next (m (entry_addr t' i)).
Proof. rewrite table_at_app. by destruct (table_at m t p); cbn; [destruct (entry_next _)|]. Qed.

Lemma entry_addr_inj t i t' i' :
  page_aligned t -> page_aligned t' -> idx i -> idx i' ->
  entry_addr t i = entry_addr t' i' -> t = t' /\ i = i'.
Proof. unfold page_aligned, idx, entry_addr. intros. divlia. Qed.

Lemma entry_in_page t t' i :
  page_aligned t -> page_aligned t' -> idx i -> t <> t' ->
  entry_addr t i < t' \/ t' + PAGE_SIZE <= entry_addr t i.
Proof. unfold page_aligned, idx, entry_addr, PAGE_SIZE. intros. divlia. Qed.

Lemma entry_in_own t i : idx i -> t <= entry_addr t i < t + PAGE_SIZE.
Proof. unfold idx, entry_addr, PAGE_SIZE. lia. Qed.

Lemma pml4_index_idx v : idx (pml4_index v).
Proof. unfold idx, pml4_index. change 0x1FF with (Z.ones 9). rewrite Z.land_ones by lia. divlia. Qed.
Lemma pdpt_index_idx v : idx (pdpt_index v).
Proof. unfold idx, pdpt_index. change 0x1FF with (Z.ones 9). rewrite Z.land_ones by lia. divlia. Qed.
Lemma pd_index_idx v : idx (pd_index v).
Proof. unfold idx, pd_index. change 0x1FF with (Z.ones 9). rewrite Z.land_ones by lia. divlia. Qed.
Lemma pt_index_idx v : idx (pt_index v).
Proof. unfold idx, pt_index. change 0x1FF with (Z.ones 9). rewrite Z.land_ones by lia. divlia. Qed.

#[export] Hint Resolve pml4_index_idx pdpt_index_idx pd_index_idx pt_index_idx : tus.

(** ** Forests of tables

    [dom r i]: entry [i] of the top-level table [r] belongs to the part of
    the address spaces under consideration. A node is a top-level table or a
    path that starts at such an entry. *)

Definition node (dom : Z -> Z -> Prop) (r : Z) (p : list Z) : Prop :=
  match p with [] => exists i, dom r i | i :: _ => dom r i end /\
  Forall idx p /\ (length p <= 3)%nat.

Lemma node_prefix dom r p q : node dom r (p ++ q) -> node dom r p.
Proof.
  intros (Hd & Hi & Hl). rewrite length_app in Hl. apply Forall_app in Hi as [Hi _].
  split_and!; [|done|lia]. destruct p as [|i p]; [|done]. destruct q; cbn in Hd; eauto.
Qed.

Lemma node_idx dom r p i q : node dom r (p ++ i :: q) -> idx i.
Proof. intros (_ & Hi & _). apply Forall_app in Hi as [_ Hi]. by inversion Hi. Qed.

Section Forest.
Context {P : Type} `{FramePool P}.
Implicit Types s : vmm P.

Record tables_ok (dom : Z -> Z -> Prop) (s : vmm P) : Prop := TablesOk {
  tables_pool : fp_inv (pool s);
  tables_good r p t : node dom r p -> table_at (pmem s) r p = Some t ->
    page_aligned t /\ 0 < t < 2 ^ 52 /\ ~ fp_avail (pool s) t;
  tables_inj r p r' p' t : node dom r p -> node dom r' p' ->
    table_at (pmem s) r p = Some t -> table_at (pmem s) r' p' = Some t -> r = r' /\ p = p';
}.

(** No large page on the path. *)
Definition small (s : vmm P) (r : Z) (path : list Z) : Prop :=
  forall q j rest t, path = q ++ j :: rest -> table_at (pmem s) r q = Some t ->
    Z.land (pmem s (entry_addr t j)) PS_BIT = 0.

(** What an operation on the entries along the path [path] of the space [r]
    may do: tables stay where they are, entries off the path keep their
    value, tables added at the last level are empty. *)
Record extends (dom : Z -> Z -> Prop) (r : Z) (path : list Z) (s s' : vmm P) : Prop := Extends {
  ext_ok : tables_ok dom s';
  ext_regs : g_cr3 s' = g_cr3 s /\ g_root_cr3 s' = g_root_cr3 s /\ hw_cr3 s' = hw_cr3 s;
  ext_mono r' p t : node dom r' p -> table_at (pmem s) r' p = Some t -> table_at (pmem s') r' p = Some t;
  ext_frame r' p t j : node dom r' p -> idx j -> table_at (pmem s) r' p = Some t ->
    r' <> r \/ ~ (p ++ [j]) `prefix_of` path ->
    pmem s' (entry_addr t j) = pmem s (entry_addr t j);
  ext_next r' p t j : node dom r' p -> idx j -> table_at (pmem s) r' p = Some t ->
    entry_next (pmem s (entry_addr t j)) <> None ->
    entry_next (pmem s' (entry_addr t j)) = entry_next (pmem s (entry_addr t j));
  ext_new r' p t j : node dom r' p -> length p = 3%nat -> idx j -> table_at (pmem s) r' p = None ->
    table_at (pmem s') r' p = Some t -> pmem s' (entry_addr t j) = 0;
  ext_small : small s r path -> small s' r path;
  ext_avail q : fp_avail (pool s') q -> fp_avail (pool s) q;
  ext_from r' p t : node dom r' p -> table_at (pmem s') r' p = Some t ->
    table_at (pmem s) r' p = Some t \/ fp_avail (pool s) t;
  ext_large r' p t j : node dom r' p -> idx j -> (length p < 3)%nat -> table_at (pmem s') r' p = Some t ->
    Z.land (pmem s' (entry_addr t j)) PS_BIT <> 0 ->
    table_at (pmem s) r' p = Some t /\ Z.land (pmem s (entry_addr t j)) PS_BIT <> 0;
}.

Lemma extends_refl dom r path s : tables_ok dom s -> extends dom r path s s.
Proof. intros. split; try done; [congruence|auto]. Qed.

Lemma long_off_path (p path : list Z) j :
  (length path <= length p)%nat -> ~ (p ++ [j]) `prefix_of` path.
Proof. intros Hl Hp%prefix_length. rewrite length_app in Hp. cbn in Hp. lia. Qed.

Lemma extends_trans dom r path s1 s2 s3 :
  (length path <= 3)%nat -> extends dom r path s1 s2 -> extends dom r path s2 s3 -> extends dom r path s1 s3.
Proof.
  intros Hlen E1 E2. split.
  - apply E2.
  - destruct (ext_regs _ _ _ _ _ E1) as (?&?&?), (ext_regs _ _ _ _ _ E2) as (?&?&?).
    split_and!; congruence.
  - intros. eapply (ext_mono _ _ _ _ _ E2); [done|]. by eapply (ext_mono _ _ _ _ _ E1).
  - intros r' p t j Hn Hj Ht Hoff.
    rewrite (ext_frame _ _ _ _ _ E2 r' p); [|try done..|done];
      [by apply (ext_frame _ _ _ _ _ E1 r' p)|by apply (ext_mono _ _ _ _ _ E1)].
  - intros r' p t j Hn Hj Ht Hs. pose proof (ext_next _ _ _ _ _ E1 r' p t j Hn Hj Ht Hs) as E.
    rewrite (ext_next _ _ _ _ _ E2 r' p); [done|done|done| |congruence].
    by apply (ext_mono _ _ _ _ _ E1).
  - intros r' p t j Hn Hl Hj Ho Ht.
    destruct (table_at (pmem s2) r' p) as [t'|] eqn:E.
    + pose proof (ext_mono _ _ _ _ _ E2 r' p t' Hn E). simplify_eq/=.
      rewrite (ext_frame _ _ _ _ _ E2 r' p); [|try done..].
      * by apply (ext_new _ _ _ _ _ E1 r' p).
      * right. apply long_off_path. lia.
    + by apply (ext_new _ _ _ _ _ E2 r' p).
  - intros Hs. by apply (ext_small _ _ _ _ _ E2), (ext_small _ _ _ _ _ E1).
  - intros q Hq. by apply (ext_avail _ _ _ _ _ E1), (ext_avail _ _ _ _ _ E2).
  - intros r' p t Hn Ht. destruct (ext_from _ _ _ _ _ E2 r' p t Hn Ht) as [Ht2|Ht2].
    + by apply (ext_from _ _ _ _ _ E1).
    + right. by apply (ext_avail _ _ _ _ _ E1).
  - intros r' p t j Hn Hj Hl Ht Hps. destruct (ext_large _ _ _ _ _ E2 r' p t j Hn Hj Hl Ht Hps).
    by apply (ext_large _ _ _ _ _ E1).
Qed.

(** *** A frame taken from the pool *)

Lemma tables_ok_pool dom s pl :
  tables_ok dom s -> fp_inv pl -> (forall q, fp_avail pl q -> fp_avail (pool s) q) ->
  tables_ok dom (with_pool s pl).
Proof.
  intros [Hp Hg Hi] Hinv Hav. split; cbn; [done| |done].
  intros r p t Hn Ht. destruct (Hg r p t Hn Ht) as (?&?&?). naive_solver.
Qed.

Lemma extends_pool dom r path s pl :
  tables_ok dom s -> fp_inv pl -> (forall q, fp_avail pl q -> fp_avail (pool s) q) ->
  extends dom r path s (with_pool s pl).
Proof. intros. split; try done; [by apply tables_ok_pool|cbn; congruence|auto]. Qed.

(** *** Linking a fresh table *)

Section Link.
Context (dom : Z -> Z -> Prop) (s : vmm P) (r : Z) (p : list Z) (i : Z) (rest : list Z).
Context (T t e : Z) (pl : P).
Context (Hok : tables_ok dom s) (Hnode : node dom r (p ++ i :: rest)).
Context (HT : table_at (pmem s) r p = Some T).
Context (Hfree : entry_next (pmem s (entry_addr T i)) = None).
Context (Hpl : fp_inv pl) (Hav : fp_avail (pool s) t).
Context (Ht : page_aligned t) (Htr : 0 < t < 2 ^ 52).
Context (Hav' : forall q, fp_avail pl q <-> fp_avail (pool s) q /\ q <> t).
Context (He : entry_next e = Some t).

Definition linked : vmm P := st (clear_page (with_pool s pl) t) (entry_addr T i) e.

Lemma link_idx : idx i /\ page_aligned T /\ T <> t.
Proof.
  pose proof (node_idx _ _ _ _ _ Hnode).
  destruct (tables_good _ _ Hok r p T) as (?&?&?); [by eapply node_prefix|done|].
  split_and!; [done..|]. intros ->. done.
Qed.

Lemma linked_own j : idx j -> pmem linked (entry_addr t j) = 0.
Proof.
  intros Hj. destruct link_idx as (?&?&?). unfold linked. cbn. rewrite upd_ne.
  - apply fill_in, entry_in_own, Hj.
  - intros E. apply entry_addr_inj in E as [? _]; auto.
Qed.

Lemma linked_entry r' q T' j :
  node dom r' q -> idx j -> table_at (pmem s) r' q = Some T' ->
  pmem linked (entry_addr T' j) =
    if decide ((r', q, j) = (r, p, i)) then e else pmem s (entry_addr T' j).
Proof.
  intros Hn Hj HT'. destruct link_idx as (?&?&?).
  destruct (tables_good _ _ Hok r' q T') as (?&?&?); [done..|].
  unfold linked. cbn. destruct (decide _) as [[= -> -> ->]|Hne].
  - rewrite HT in HT'. simplify_eq. apply upd_eq.
  - rewrite upd_ne.
    + apply fill_out, entry_in_page; try done. intros ->. done.
    + intros E. apply entry_addr_inj in E as [-> ->]; [|done..].
      apply Hne. destruct (tables_inj _ _ Hok r' q r p T) as [-> ->]; try done.
      by eapply node_prefix.
Qed.

Lemma linked_table r' q :
  node dom r' q ->
  table_at (pmem linked) r' q =
    if decide ((r', q) = (r, p ++ [i])) then Some t else table_at (pmem s) r' q.
Proof.
  induction q as [|j q IH] using rev_ind; intros Hn.
  { destruct (decide _) as [[= _ E]|]; [by destruct p|done]. }
  specialize (IH (node_prefix _ _ _ _ Hn)). rewrite !table_at_snoc, IH.
  pose proof (node_idx _ _ _ _ _ Hn) as Hj.
  pose proof (node_prefix _ _ _ _ Hn) as Hq.
  destruct (decide ((r', q) = (r, p ++ [i]))) as [[= -> ->]|Hne]; cbn [mbind option_bind].
  - rewrite linked_own by done. rewrite table_at_snoc, HT. cbn [mbind option_bind]. rewrite Hfree. cbn [mbind option_bind].
    destruct (decide _) as [E|]; [|done]. injection E as E.
    apply (f_equal length) in E. rewrite !length_app in E. cbn in E. lia.
  - destruct (table_at (pmem s) r' q) as [T'|] eqn:E; cbn [mbind option_bind].
    + rewrite (linked_entry r' q) by done.
      destruct (decide ((r', q, j) = (r, p, i))) as [[= -> -> ->]|Hne'].
      * by rewrite decide_True by done.
      * rewrite decide_False; [done|]. intros [= -> [-> [= ->]]%app_inj_2]; done.
    + rewrite decide_False; [done|]. intros [= -> [-> _]%app_inj_2]; [congruence|done].
Qed.

Lemma linked_ok : tables_ok dom linked.
Proof.
  split; [done| |].
  - intros r' q T' Hn. rewrite linked_table by done. change (pool linked) with pl. rewrite Hav'.
    destruct (decide _) as [[= -> ->]|]; [intros [= <-]; naive_solver|].
    intros HT'. destruct (tables_good _ _ Hok r' q T') as (?&?&?); naive_solver.
  - intros r1 q1 r2 q2 T' Hn1 Hn2. rewrite !linked_table by done.
    destruct (decide _) as [[= -> ->]|], (decide _) as [[= -> ->]|]; try done.
    + intros [= <-] HT'. by destruct (tables_good _ _ Hok r2 q2 t Hn2 HT') as (?&?&?).
    + intros HT' [= <-]. by destruct (tables_good _ _ Hok r1 q1 t Hn1 HT') as (?&?&?).
    + by apply (tables_inj _ _ Hok).
Qed.

Lemma link_extends : extends dom r (p ++ i :: rest) s linked.
Proof.
  split; [apply linked_ok|done|..].
  - intros r' q T' Hn HT'. rewrite linked_table by done.
    destruct (decide _) as [[= -> ->]|]; [|done].
    rewrite table_at_snoc, HT in HT'. cbn in HT'. congruence.
  - intros r' q T' j Hn Hj HT' Hoff. rewrite (linked_entry r' q) by done.
    destruct (decide _) as [[= -> -> ->]|]; [|done]. destruct Hoff as [|Hoff]; [done|].
    destruct Hoff. exists rest. by rewrite <-app_assoc.
  - intros r' q T' j Hn Hj HT' Hs. rewrite (linked_entry r' q) by done.
    destruct (decide _) as [[= -> -> ->]|]; [|done]. congruence.
  - intros r' q T' j Hn Hl Hj Ho. rewrite linked_table, Ho by done.
    destruct (decide _) as [[= -> ->]|]; [|done]. intros [= <-]. by apply linked_own.
  - intros Hs q j rest' T' Epath HT'.
    pose proof Hnode as Hn. rewrite Epath in Hn.
    pose proof (node_prefix _ _ _ _ Hn) as Hnq. pose proof (node_idx _ _ _ _ _ Hn) as Hj.
    rewrite linked_table in HT' by done. destruct (decide _) as [[= ->]|].
    + simplify_eq. by rewrite linked_own.
    + rewrite (linked_entry r q) by done. destruct (decide _) as [[= -> ->]|]; [|by eapply Hs].
      revert He. unfold entry_next. split_tests; done.
  - intros q Hq. apply Hav', Hq.
  - intros r' q T' Hn. rewrite linked_table by done. destruct (decide _); [intros [= <-]|]; auto.
  - intros r' q T' j Hn Hj _. rewrite linked_table by done.
    destruct (decide _) as [[= -> ->]|]; [intros [= <-]; by rewrite linked_own|].
    intros HT'. rewrite (linked_entry r' q) by done. destruct (decide _) as [[= -> -> ->]|]; [|done].
    revert He. unfold entry_next. split_tests; done.
Qed.
End Link.

(** *** Changing the flags of an entry on the path *)

Lemma table_at_ext m m' t q :
  (forall a, entry_next (m' a) = entry_next (m a)) -> table_at m' t q = table_at m t q.
Proof.
  intros Hm. revert t; induction q as [|i q IH]; intros t; cbn; [done|]. rewrite Hm.
  by destruct (entry_next _); cbn.
Qed.

Lemma touch_extends dom s r p i rest T e :
  tables_ok dom s -> node dom r (p ++ i :: rest) -> table_at (pmem s) r p = Some T ->
  entry_next e = entry_next (pmem s (entry_addr T i)) ->
  Z.land e PS_BIT = Z.land (pmem s (entry_addr T i)) PS_BIT ->
  extends dom r (p ++ i :: rest) s (st s (entry_addr T i) e) /\
  forall r' q, table_at (pmem (st s (entry_addr T i) e)) r' q = table_at (pmem s) r' q.
Proof.
  intros Hok Hn HT He Hps.
  assert (Hany : forall a, entry_next (pmem (st s (entry_addr T i) e) a) = entry_next (pmem s a)).
  { intros a. cbn. unfold upd. destruct (Z.eqb_spec a (entry_addr T i)) as [->|]; done. }
  assert (Htab := fun r' q => table_at_ext _ _ r' q Hany). split; [|done].
  pose proof (node_idx _ _ _ _ _ Hn) as Hi.
  destruct (tables_good _ _ Hok r p T) as (HTa & _); [by eapply node_prefix|done|].
  split; [|done|..].
  - destruct Hok as [H1 H2 H3]. split; [done|..]; intros *; rewrite !Htab; [apply H2|apply H3].
  - intros r' q t' Hn'. by rewrite Htab.
  - intros r' q t' j Hn' Hj Ht' Hoff. cbn. apply upd_ne. intros E.
    destruct (tables_good _ _ Hok r' q t') as (?&_); [done..|].
    apply entry_addr_inj in E as [-> ->]; [|done..].
    destruct (tables_inj _ _ Hok r' q r p T) as [-> ->]; try done; [by eapply node_prefix|].
    destruct Hoff as [|Hoff]; [done|]. apply Hoff. exists rest. by rewrite <-app_assoc.
  - intros. apply Hany.
  - intros r' q t' j ? ? ? Ho. rewrite Htab. congruence.
  - intros Hs q j rest' t' Ep. rewrite Htab. intros Ht'. cbn. unfold upd.
    destruct (Z.eqb_spec (entry_addr t' j) (entry_addr T i)) as [E|]; [|by eapply Hs].
    rewrite Hps, <-E. by eapply Hs.
  - done.
  - intros r' q t'. rewrite Htab. auto.
  - intros r' q t' j _ _ _. rewrite Htab. intros Ht'. cbn. unfold upd.
    destruct (Z.eqb_spec (entry_addr t' j) (entry_addr T i)) as [->|]; [|done]. by rewrite Hps.
Qed.

(** *** The walk *)

Lemma entry_next_small e :
  Z.land e PS_BIT = 0 ->
  entry_next e = if Z.land e VMM_PRESENT =? 0 then None else Some (Z.land e PTE_ADDR_MASK).
Proof. intros Hps. unfold entry_next. rewrite Hps. by destruct (_ =? 0). Qed.

Lemma walk_level_spec dom s r p i rest T stride ps alloc res s' :
  tables_ok dom s -> node dom r (p ++ i :: rest) -> table_at (pmem s) r p = Some T ->
  small s r (p ++ i :: rest) ->
  walk_level s (entry_addr T i) stride ps alloc = (res, s') ->
  extends dom r (p ++ i :: rest) s s' /\ (alloc = false -> s' = s) /\
  match res with
  | None => alloc = false -> table_at (pmem s) r (p ++ [i]) = None
  | Some (t, split) => split = false /\ table_at (pmem s') r (p ++ [i]) = Some t
  end.
Proof.
  intros Hok Hn HT Hs. pose proof (Hs p i rest T eq_refl HT) as Hps.
  pose proof (entry_next_small _ Hps) as Hnext.
  assert (Htab : table_at (pmem s) r (p ++ [i]) = entry_next (pmem s (entry_addr T i))).
  { rewrite table_at_snoc, HT. done. }
  unfold walk_level, split_level, table_fetch, ld. rewrite Hps. cbn [Z.eqb].
  destruct (Z.eqb_spec (Z.land (pmem s (entry_addr T i)) VMM_PRESENT) 0) as [Hp|Hp]; cbn [negb].
  - destruct alloc; cbn [negb].
    2:{ intros [= <- <-]. split; [by apply extends_refl|]. split; [done|]. intros _. by rewrite Htab. }
    unfold pmm_alloc. destruct (fp_alloc (pool s)) as [t pl] eqn:Ea.
    destruct (fp_alloc_spec _ _ _ (tables_pool _ _ Hok) Ea) as (Hinv & Hget & Hav).
    destruct (Z.eqb_spec t 0) as [->|Ht0].
    { intros [= <- <-]. split; [|done]. apply extends_pool; naive_solver. }
    destruct Hget as [|(Hfresh & Ha & Hr)]; [done|].
    rewrite (proj2 (Z.eqb_neq t 0)) by done. intros [= <- <-].
    set (e := Z.lor _ VMM_USER).
    assert (He : entry_next e = Some t) by (apply entry_next_table; [done|lia]).
    split; [by apply link_extends|]. split_and!; [done..|].
    change (table_at (pmem (linked s i T t e pl)) r (p ++ [i]) = Some t).
    rewrite (linked_table dom _ _ _ _ rest) by (try done; by rewrite cons_middle, app_assoc in Hn; apply node_prefix in Hn).
    by rewrite decide_True.
  - rewrite Hnext in Htab.
    assert (node dom r (p ++ [i])) as Hn' by (by rewrite cons_middle, app_assoc in Hn; apply node_prefix in Hn).
    destruct (tables_good _ _ Hok _ _ _ Hn' Htab) as (_ & Hpos & _).
    destruct (Z.eqb_spec (Z.land (pmem s (entry_addr T i)) PTE_ADDR_MASK) 0); [lia|].
    intros [= <- <-]. split; [by apply extends_refl|]. done.
Qed.

Definition path (v : Z) : list Z := [pml4_index v; pdpt_index v; pd_index v].

Lemma node_path dom r v : dom r (pml4_index v) -> node dom r (path v).
Proof. intros. split_and!; [done| |done]. repeat apply Forall_cons_2; eauto using Forall_nil_2 with tus. Qed.

(** The flag updates at the end of the walk. *)
Lemma flags_extends dom s r p i rest T (user : bool) (f : vmm P -> Z -> vmm P) :
  f = clear_nx \/ f = set_user ->
  tables_ok dom s -> node dom r (p ++ i :: rest) -> table_at (pmem s) r p = Some T ->
  extends dom r (p ++ i :: rest) s (f s (entry_addr T i)) /\
  forall r' q, table_at (pmem (f s (entry_addr T i))) r' q = table_at (pmem s) r' q.
Proof.
  intros [-> | ->] Hok Hn HT; apply touch_extends; try done.
  - apply entry_next_nx.
  - unfold ld. by rewrite land_ldiff_disjoint.
  - apply entry_next_user.
  - unfold ld. by rewrite land_lor_disjoint.
Qed.

Lemma flags3_extends dom s r v t3 t2 (f : vmm P -> Z -> vmm P) :
  f = clear_nx \/ f = set_user ->
  tables_ok dom s -> dom r (pml4_index v) ->
  table_at (pmem s) r [pml4_index v] = Some t3 ->
  table_at (pmem s) r [pml4_index v; pdpt_index v] = Some t2 ->
  let s' := f (f (f s (entry_addr r (pml4_index v))) (entry_addr t3 (pdpt_index v)))
              (entry_addr t2 (pd_index v)) in
  extends dom r (path v) s s' /\ forall r' q, table_at (pmem s') r' q = table_at (pmem s) r' q.
Proof.
  intros Hf Hok Hd H3 H2. pose proof (node_path dom r v Hd) as Hn. cbv zeta.
  destruct (flags_extends dom s r [] (pml4_index v) [pdpt_index v; pd_index v] r true f)
    as [E1 T1]; try done.
  set (s1 := f s _) in *. rewrite <-T1 in H3, H2.
  destruct (flags_extends dom s1 r [pml4_index v] (pdpt_index v) [pd_index v] t3 true f)
    as [E2 T2]; try done; [apply E1|].
  set (s2 := f s1 _) in *. rewrite <-T2 in H2.
  destruct (flags_extends dom s2 r [pml4_index v; pdpt_index v] (pd_index v) [] t2 true f)
    as [E3 T3]; try done; [apply E2|].
  split; [|intros; by rewrite T3, T2, T1].
  eapply extends_trans; [done|exact E1|]. by eapply extends_trans; [done|exact E2|].
Qed.

Definition lookup_pte (m : memory) (r v : Z) : option Z :=
  t ← table_at m r (path v);
  let e := m (entry_addr t (pt_index v)) in
  if Z.land e VMM_PRESENT =? 0 then None else Some e.

Lemma extends_lookup dom r pth s s' r' v :
  (length pth <= 3)%nat -> extends dom r pth s s' -> dom r' (pml4_index v) ->
  lookup_pte (pmem s') r' v = lookup_pte (pmem s) r' v.
Proof.
  intros Hl E Hd. pose proof (node_path dom r' v Hd) as Hn. unfold lookup_pte.
  destruct (table_at (pmem s) r' (path v)) as [t|] eqn:Et.
  - rewrite (ext_mono _ _ _ _ _ E _ _ _ Hn Et). cbn [mbind option_bind].
    rewrite (ext_frame _ _ _ _ _ E r' (path v)); [done|try done..]; [apply pt_index_idx|].
    right. by apply long_off_path.
  - destruct (table_at (pmem s') r' (path v)) as [t|] eqn:Et'; cbn [mbind option_bind]; [|done].
    rewrite (ext_new _ _ _ _ _ E r' (path v)); try done. apply pt_index_idx.
Qed.

Lemma walk_pt_spec dom s r v alloc user res s' :
  tables_ok dom s -> dom r (pml4_index v) -> small s r (path v) ->
  walk_pt s r v alloc user = (res, s') ->
  extends dom r (path v) s s' /\
  match res with
  | None => alloc = false -> table_at (pmem s) r (path v) = None
  | Some (a, split) => split = false /\ exists t,
      table_at (pmem s') r (path v) = Some t /\ a = entry_addr t (pt_index v) /\
      (alloc = false -> table_at (pmem s) r (path v) = Some t)
  end.
Proof.
  intros Hok Hd Hs. pose proof (node_path dom r v Hd) as Hn. unfold walk_pt.
  destruct (walk_level s _ _ _ _) as [r4 s4] eqn:E4.
  destruct (walk_level_spec dom s r [] (pml4_index v) [pdpt_index v; pd_index v] r _ _ _ _ _ Hok Hn eq_refl Hs E4)
    as (X4 & F4 & R4); cbn [app] in R4.
  destruct r4 as [[t3 b4]|]; [destruct R4 as [-> R4]|].
  2:{ intros [= <- <-]. split; [done|]. intros Hf. specialize (R4 Hf).
      change (path v) with ([pml4_index v] ++ [pdpt_index v; pd_index v]).
      by rewrite table_at_app, R4. }
  destruct (walk_level s4 _ _ _ _) as [r3 s3] eqn:E3.
  destruct (walk_level_spec dom s4 r [pml4_index v] (pdpt_index v) [pd_index v] t3 _ _ _ _ _
              (ext_ok _ _ _ _ _ X4) Hn R4 (ext_small _ _ _ _ _ X4 Hs) E3) as (X3 & F3 & R3); cbn [app] in R3.
  pose proof (extends_trans _ _ (path v) _ _ _ ltac:(done) X4 X3) as X43.
  destruct r3 as [[t2 b3]|]; [destruct R3 as [-> R3]|].
  2:{ intros [= <- <-]. split; [done|]. intros Hf. rewrite <-(F4 Hf). specialize (R3 Hf).
      change (path v) with ([pml4_index v; pdpt_index v] ++ [pd_index v]).
      by rewrite table_at_app, R3. }
  destruct (walk_level s3 _ _ _ _) as [r2 s2] eqn:E2.
  destruct (walk_level_spec dom s3 r [pml4_index v; pdpt_index v] (pd_index v) [] t2 _ _ _ _ _
              (ext_ok _ _ _ _ _ X3) Hn R3 (ext_small _ _ _ _ _ X43 Hs) E2) as (X2 & F2 & R2); cbn [app] in R2.
  pose proof (extends_trans _ _ (path v) _ _ _ ltac:(done) X43 X2) as X432.
  destruct r2 as [[t1 b2]|]; [destruct R2 as [-> R2]|].
  2:{ intros [= <- <-]. split; [done|]. intros Hf. rewrite <-(F4 Hf), <-(F3 Hf). by apply R2. }
  pose proof (ext_mono _ _ _ _ _ X3 r [pml4_index v] t3) as M3.
  pose proof (ext_mono _ _ _ _ _ X2 r [pml4_index v] t3) as M3'.
  pose proof (ext_mono _ _ _ _ _ X2 r [pml4_index v; pdpt_index v] t2) as M2.
  assert (N1 : node dom r [pml4_index v]) by by apply (node_prefix _ _ [pml4_index v] [pdpt_index v; pd_index v]).
  assert (N2 : node dom r [pml4_index v; pdpt_index v]) by by apply (node_prefix _ _ [pml4_index v; pdpt_index v] [pd_index v]).
  destruct (flags3_extends dom s2 r v t3 t2 clear_nx) as [XN TN]; auto; [apply X2|].
  set (sn := clear_nx _ _) in *.
  assert (Hend : forall s', extends dom r (path v) sn s' ->
            (forall r' q, table_at (pmem s') r' q = table_at (pmem sn) r' q) ->
            extends dom r (path v) s s' /\
            exists t, table_at (pmem s') r (path v) = Some t /\
              entry_addr t1 (pt_index v) = entry_addr t (pt_index v) /\
              (alloc = false -> table_at (pmem s) r (path v) = Some t)).
  { intros s'' X Hq. split.
    - eapply extends_trans; [done|exact X432|]. by eapply extends_trans; [done|exact XN|].
    - exists t1. rewrite Hq, TN. split_and!; [exact R2|done|].
      intros Hf. rewrite <-(F4 Hf), <-(F3 Hf), <-(F2 Hf). exact R2. }
  destruct user; intros [= <- <-].
  - destruct (flags3_extends dom sn r v t3 t2 set_user) as [XU TU]; rewrite ?TN; auto; [apply XN|].
    destruct (Hend _ XU TU) as (? & t & ?). eauto 10.
  - destruct (Hend sn) as (? & t & ?); [by apply extends_refl, XN|done|]. eauto 10.
Qed.

(** *** Writing a leaf entry *)

Lemma leaf_write dom s r v t e :
  tables_ok dom s -> dom r (pml4_index v) -> table_at (pmem s) r (path v) = Some t ->
  let s' := st s (entry_addr t (pt_index v)) e in
  tables_ok dom s' /\
  (forall r' q T j, node dom r' q -> idx j -> table_at (pmem s) r' q = Some T ->
     (length q < 3)%nat -> pmem s' (entry_addr T j) = pmem s (entry_addr T j)) /\
  (forall r' q, node dom r' q -> table_at (pmem s') r' q = table_at (pmem s) r' q) /\
  (forall r' v', dom r' (pml4_index v') ->
     lookup_pte (pmem s') r' v' =
       if decide (r' = r /\ path v' = path v /\ pt_index v' = pt_index v)
       then if Z.land e VMM_PRESENT =? 0 then None else Some e
       else lookup_pte (pmem s) r' v').
Proof.
  intros Hok Hd Ht s'. pose proof (node_path dom r v Hd) as Hn.
  destruct (tables_good _ _ Hok _ _ _ Hn Ht) as (Hta & _).
  assert (Hent : forall r' q T j, node dom r' q -> idx j -> table_at (pmem s) r' q = Some T ->
            pmem s' (entry_addr T j) =
              if decide (r' = r /\ q = path v /\ j = pt_index v) then e
              else pmem s (entry_addr T j)).
  { intros r' q T j Hn' Hj HT. unfold s'. cbn. unfold upd.
    destruct (tables_good _ _ Hok _ _ _ Hn' HT) as (HTa & _).
    destruct (Z.eqb_spec (entry_addr T j) (entry_addr t (pt_index v))) as [E|E].
    - apply entry_addr_inj in E as [-> ->]; auto with tus.
      destruct (tables_inj _ _ Hok _ _ _ _ _ Hn' Hn HT Ht) as [-> ->]. by rewrite decide_True.
    - rewrite decide_False; [done|]. intros (-> & -> & ->). congruence. }
  assert (Htab : forall r' q, node dom r' q -> table_at (pmem s') r' q = table_at (pmem s) r' q).
  { intros r' q. induction q as [|j q IH] using rev_ind; intros Hq; [done|].
    pose proof (node_idx _ _ q j [] Hq) as Hj. pose proof (node_prefix _ _ _ _ Hq) as Hq'.
    rewrite !table_at_snoc, IH by done.
    destruct (table_at (pmem s) r' q) as [T|] eqn:E; cbn [mbind option_bind]; [|done].
    rewrite (Hent r' q) by done. rewrite decide_False; [done|]. intros (_ & -> & _).
    destruct Hq as (_ & _ & Hl). cbn in Hl. lia. }
  split_and!.
  - destruct Hok as [Hp Hg Hi]. split; [done|..].
    + intros r' q T Hq. rewrite Htab by done. by apply Hg.
    + intros r1 q1 r2 q2 T Hq1 Hq2. rewrite !Htab by done. by apply Hi.
  - intros r' q T j Hq Hj HT Hl. rewrite (Hent r' q) by done.
    rewrite decide_False; [done|]. intros (_ & -> & _). cbn in Hl. lia.
  - done.
  - intros r' v' Hd'. pose proof (node_path dom r' v' Hd') as Hn'. unfold lookup_pte.
    rewrite Htab by done. destruct (table_at (pmem s) r' (path v')) as [T|] eqn:E; cbn [mbind option_bind].
    + rewrite (Hent r' (path v')) by auto with tus. by destruct (decide _).
    + rewrite decide_False; [done|]. intros (-> & E' & _). congruence.
Qed.

(** ** Address spaces

    The root space and the list of the spaces cloned from it. The root is
    considered as a whole, a cloned space through its user half; the kernel
    half of a cloned space refers to tables of the root. *)

Definition space_dom (root : Z) (spaces : list Z) (r i : Z) : Prop :=
  (r = root /\ idx i) \/ (r ∈ spaces /\ 0 <= i < 256).

Record spaces_ok (s : vmm P) (spaces : list Z) : Prop := SpacesOk {
  spaces_tables : tables_ok (space_dom (g_root_cr3 s) spaces) s;
  spaces_kernel r k t : r ∈ spaces -> 256 <= k < 512 ->
    entry_next (pmem s (entry_addr r k)) = Some t ->
    entry_next (pmem s (entry_addr (g_root_cr3 s) k)) = Some t;
  spaces_root : g_root_cr3 s ∉ spaces;
}.

(** The spaces a page may be mapped in: the root, or a cloned space for an
    address of its user half. *)
Definition may_map (s : vmm P) (spaces : list Z) (c v : Z) : Prop :=
  c = g_root_cr3 s \/ (c ∈ spaces /\ pml4_index v < 256).

Lemma may_map_dom s spaces c v :
  may_map s spaces c v -> space_dom (g_root_cr3 s) spaces c (pml4_index v).
Proof. pose proof (pml4_index_idx v). unfold idx in *. intros [->|[? ?]]; [left|right]; auto with lia. Qed.

Lemma space_node s spaces r : r = g_root_cr3 s \/ r ∈ spaces -> node (space_dom (g_root_cr3 s) spaces) r [].
Proof.
  intros Hr. split_and!; [|constructor|cbn; lia]. exists 0.
  destruct Hr; [left|right]; unfold idx; auto with lia.
Qed.

(** An operation along a path of [c] keeps the spaces well-formed. *)
Lemma extends_spaces s s' spaces c v :
  spaces_ok s spaces -> may_map s spaces c v ->
  extends (space_dom (g_root_cr3 s) spaces) c (path v) s s' -> spaces_ok s' spaces.
Proof.
  intros [Ht Hk Hr] Hc E. destruct (ext_regs _ _ _ _ _ E) as (_ & Er & _).
  split; rewrite ?Er; [apply E| |done].
  intros r k t Hin Hki. rewrite (ext_frame _ _ _ _ _ E r [] r k); try done.
  - intros H1. rewrite (ext_next _ _ _ _ _ E (g_root_cr3 s) [] (g_root_cr3 s) k); try done.
    + by eapply Hk.
    + apply space_node. by left.
    + unfold idx; lia.
    + rewrite (Hk r k t) by done. done.
  - apply space_node. by right.
  - unfold idx; lia.
  - destruct Hc as [->|[? Hu]]; [left; by intros ->|].
    right. intros [q Hq]. injection Hq as Hq. lia.
Qed.

Lemma leaf_write_spaces s spaces c v t e :
  spaces_ok s spaces -> may_map s spaces c v -> table_at (pmem s) c (path v) = Some t ->
  let s' := st s (entry_addr t (pt_index v)) e in
  spaces_ok s' spaces /\
  (forall r' v', space_dom (g_root_cr3 s) spaces r' (pml4_index v') ->
     lookup_pte (pmem s') r' v' =
       if decide (r' = c /\ path v' = path v /\ pt_index v' = pt_index v)
       then if Z.land e VMM_PRESENT =? 0 then None else Some e
       else lookup_pte (pmem s) r' v') /\
  (small s c (path v) -> small s' c (path v)).
Proof.
  intros [Hok Hk Hr] Hc Ht s'.
  destruct (leaf_write _ s c v t e Hok (may_map_dom _ _ _ _ Hc) Ht) as (Hok' & Htop & Htab & Hl).
  fold s' in Hok', Htop, Htab, Hl. split_and!; [split; [done| |done]|done|].
  - intros r k t' Hin Hki. change (g_root_cr3 s') with (g_root_cr3 s).
    rewrite (Htop r [] r k), (Htop (g_root_cr3 s) [] (g_root_cr3 s) k);
      try done; try (unfold idx; lia); try (apply space_node; auto); try (cbn; lia).
    by apply Hk.
  - pose proof (node_path _ _ _ (may_map_dom _ _ _ _ Hc)) as Hn.
    intros Hs q j rest t' Ep Ht'. pose proof Hn as Hn'. rewrite Ep in Hn'.
    pose proof (node_prefix _ _ _ _ Hn') as Hq. rewrite Htab in Ht' by done.
    rewrite (Htop c q); [by eapply Hs|done|by eapply node_idx|done|].
    apply (f_equal length) in Ep. rewrite length_app in Ep. cbn in Ep. lia.
Qed.

Lemma present_bit x : Z.land (Z.lor x VMM_PRESENT) VMM_PRESENT =? 0 = false.
Proof.
  apply Z.eqb_neq. intros E. apply (f_equal (fun z => Z.testbit z 0)) in E.
  rewrite Z.land_spec, Z.lor_spec, Z.bits_0, orb_true_r in E. done.
Qed.

(** *** Mapping, unmapping and translating, on the mappings *)

Lemma walk_pt_spaces s spaces c v alloc user res s1 :
  spaces_ok s spaces -> may_map s spaces c v -> small s c (path v) ->
  walk_pt s c v alloc user = (res, s1) ->
  spaces_ok s1 spaces /\ g_root_cr3 s1 = g_root_cr3 s /\
  (forall r' v', space_dom (g_root_cr3 s) spaces r' (pml4_index v') ->
     lookup_pte (pmem s1) r' v' = lookup_pte (pmem s) r' v') /\
  match res with
  | None => alloc = false -> table_at (pmem s) c (path v) = None
  | Some (a, split) => split = false /\ exists t,
      table_at (pmem s1) c (path v) = Some t /\ a = entry_addr t (pt_index v) /\
      (alloc = false -> table_at (pmem s) c (path v) = Some t)
  end /\
  small s1 c (path v).
Proof.
  intros Hok Hc Hs Ew.
  destruct (walk_pt_spec _ _ _ _ _ _ _ _ (spaces_tables _ _ Hok) (may_map_dom _ _ _ _ Hc) Hs Ew) as [E R].
  split_and!; [by eapply extends_spaces|apply E| |done|by apply E].
  intros r' v'. by apply (extends_lookup _ c (path v)).
Qed.

Lemma map_page_in_lookup s spaces c v phys flags rc s' :
  spaces_ok s spaces -> may_map s spaces c v -> small s c (path v) ->
  vmm_map_page_in s c v phys flags = (rc, s') ->
  spaces_ok s' spaces /\ g_root_cr3 s' = g_root_cr3 s /\ small s' c (path v) /\
  forall r' v', space_dom (g_root_cr3 s) spaces r' (pml4_index v') ->
    lookup_pte (pmem s') r' v' =
      if decide (rc = 0 /\ r' = c /\ path v' = path v /\ pt_index v' = pt_index v)
      then Some (Z.lor (Z.lor (Z.land phys PTE_ADDR_MASK) flags) VMM_PRESENT)
      else lookup_pte (pmem s) r' v'.
Proof.
  intros Hok Hc Hs. unfold vmm_map_page_in.
  destruct (_ || _); [intros [= <- <-]; split_and!; [done..|]; intros; by rewrite decide_False by naive_solver|].
  destruct (walk_pt s c v true _) as [res s1] eqn:Ew.
  destruct (walk_pt_spaces _ _ _ _ _ _ _ _ Hok Hc Hs Ew) as (Hok1 & Er & Hl & R & Hs1).
  destruct res as [[a b]|].
  - destruct R as (_ & t & Ht & -> & _). intros [= <- <-].
    assert (Hc1 : may_map s1 spaces c v) by (unfold may_map in *; by rewrite Er).
    destruct (leaf_write_spaces s1 spaces c v t
      (Z.lor (Z.lor (Z.land phys PTE_ADDR_MASK) flags) VMM_PRESENT) Hok1 Hc1 Ht) as (Hok2 & Hl2 & Hs2).
    rewrite present_bit in Hl2. split_and!; [done..|by apply Hs2|].
    intros r' v' Hd. rewrite Hl2 by (by rewrite Er). rewrite Hl by done.
    destruct (decide (r' = c /\ _)) as [?|Hne]; [by rewrite decide_True|].
    by rewrite decide_False by tauto.
  - intros [= <- <-]. split_and!; [done..|]. intros r' v' Hd. rewrite Hl by done.
    by rewrite decide_False by naive_solver.
Qed.

Lemma unmap_page_in_lookup s spaces c v :
  spaces_ok s spaces -> may_map s spaces c v -> small s c (path v) ->
  let s' := vmm_unmap_page_in s c v in
  spaces_ok s' spaces /\ g_root_cr3 s' = g_root_cr3 s /\ small s' c (path v) /\
  forall r' v', space_dom (g_root_cr3 s) spaces r' (pml4_index v') ->
    lookup_pte (pmem s') r' v' =
      if decide (r' = c /\ path v' = path v /\ pt_index v' = pt_index v) then None
      else lookup_pte (pmem s) r' v'.
Proof.
  intros Hok Hc Hs. unfold vmm_unmap_page_in.
  destruct (walk_pt s c v false _) as [res s1] eqn:Ew.
  destruct (walk_pt_spaces _ _ _ _ _ _ _ _ Hok Hc Hs Ew) as (Hok1 & Er & Hl & R & Hs1).
  destruct res as [[a b]|]; cbv zeta.
  - destruct R as (_ & t & Ht & -> & _).
    assert (Hc1 : may_map s1 spaces c v) by (unfold may_map in *; by rewrite Er).
    destruct (leaf_write_spaces s1 spaces c v t 0 Hok1 Hc1 Ht) as (Hok2 & Hl2 & Hs2).
    split_and!; [done..|by apply Hs2|]. intros r' v' Hd. rewrite Hl2 by (by rewrite Er).
    by rewrite Hl by done.
  - split_and!; [done..|]. intros r' v' Hd. rewrite Hl by done.
    destruct (decide _) as [(-> & Ep & _)|]; [|done].
    unfold lookup_pte. by rewrite Ep, R by done.
Qed.

Lemma translate_in_lookup s spaces c v p s' :
  spaces_ok s spaces -> may_map s spaces c v -> small s c (path v) ->
  vmm_translate_in s c v = (p, s') ->
  spaces_ok s' spaces /\ g_root_cr3 s' = g_root_cr3 s /\
  (forall r' v', space_dom (g_root_cr3 s) spaces r' (pml4_index v') ->
     lookup_pte (pmem s') r' v' = lookup_pte (pmem s) r' v') /\
  p = match lookup_pte (pmem s) c v with
      | Some e => Z.lor (Z.land e PTE_ADDR_MASK) (Z.land v (PAGE_SIZE - 1))
      | None => 0
      end.
Proof.
  intros Hok Hc Hs. unfold vmm_translate_in.
  destruct (walk_pt s c v false _) as [res s1] eqn:Ew.
  destruct (walk_pt_spaces _ _ _ _ _ _ _ _ Hok Hc Hs Ew) as (Hok1 & Er & Hl & R & _).
  assert (G : s' = s1 -> spaces_ok s' spaces /\ g_root_cr3 s' = g_root_cr3 s /\
    forall r' v', space_dom (g_root_cr3 s) spaces r' (pml4_index v') ->
      lookup_pte (pmem s') r' v' = lookup_pte (pmem s) r' v') by by intros ->.
  destruct res as [[a b]|].
  - destruct R as (_ & t & Ht & -> & _).
    assert (lookup_pte (pmem s) c v =
            (let e := pmem s1 (entry_addr t (pt_index v)) in
             if Z.land e VMM_PRESENT =? 0 then None else Some e)) as ->.
    { rewrite <-(Hl c v (may_map_dom _ _ _ _ Hc)). unfold lookup_pte. by rewrite Ht. }
    unfold ld. cbv zeta. destruct (_ =? 0); intros [= <- <-]; destruct G as (?&?&?); done.
  - assert (lookup_pte (pmem s) c v = None) as -> by (unfold lookup_pte; by rewrite R).
    intros [= <- <-]. destruct G as (?&?&?); done.
Qed.

(** *** Cloning *)

Definition copy_entry (c : Z) (s : vmm P) (i : Z) : vmm P :=
  st s (entry_addr c i) (ld s (entry_addr (g_root_cr3 s) i)).

Lemma copy_entries c n a s :
  page_aligned c -> page_aligned (g_root_cr3 s) -> c <> g_root_cr3 s ->
  0 <= a -> a + Z.of_nat n <= 512 ->
  let s' := fold_left (copy_entry c) (zseq a n) s in
  pool s' = pool s /\ g_root_cr3 s' = g_root_cr3 s /\
  (forall i, a <= i < a + Z.of_nat n ->
     pmem s' (entry_addr c i) = pmem s (entry_addr (g_root_cr3 s) i)) /\
  (forall x, (forall i, a <= i < a + Z.of_nat n -> x <> entry_addr c i) -> pmem s' x = pmem s x).
Proof.
  intros Hc Hr Hne. revert a s Hr Hne.
  induction n as [|n IH]; intros a s Hr Hne Ha Hn; cbn [zseq fold_left].
  { split_and!; [done..| |done]. intros; lia. }
  destruct (IH (a + 1) (copy_entry c s a)) as (Ep & Er & Hin & Hout); try done; try lia.
  cbn in Ep, Er. split_and!; [done..| |].
  - intros i Hi. destruct (Z.eq_dec i a) as [->|].
    + rewrite Hout; [cbn; apply upd_eq|].
      intros i Hi' E. apply entry_addr_inj in E; unfold idx; try done; lia.
    + rewrite Hin by lia. cbn. apply upd_ne. intros E.
      apply entry_addr_inj in E as [? _]; unfold idx; try done; lia.
  - intros x Hx. rewrite Hout; [|intros; apply Hx; lia]. cbn. apply upd_ne, Hx. lia.
Qed.

(** The memory after a successful clone, on the entries of the spaces. *)
Lemma clone_entries s spaces c s' :
  spaces_ok s spaces -> vmm_space_clone s = (c, s') -> c <> 0 ->
  g_root_cr3 s' = g_root_cr3 s /\ fp_inv (pool s') /\
  (forall q, fp_avail (pool s') q <-> fp_avail (pool s) q /\ q <> c) /\
  fp_avail (pool s) c /\ page_aligned c /\ 0 < c < 2 ^ 52 /\
  (forall t j, page_aligned t -> t <> c -> idx j ->
     pmem s' (entry_addr t j) = pmem s (entry_addr t j)) /\
  (forall j, 0 <= j < 256 -> pmem s' (entry_addr c j) = 0) /\
  (forall j, 256 <= j < 512 -> pmem s' (entry_addr c j) = pmem s (entry_addr (g_root_cr3 s) j)).
Proof.
  intros [Hok Hk Hr]. unfold vmm_space_clone, pmm_alloc.
  destruct (fp_alloc (pool s)) as [t pl] eqn:Ea.
  destruct (fp_alloc_spec _ _ _ (tables_pool _ _ Hok) Ea) as (Hinv & Hget & Hav).
  destruct (Z.eqb_spec t 0) as [->|Ht0]; [by intros [= <- <-]|].
  destruct Hget as [|(Hfresh & Ha & Hrange)]; [done|]. intros E _. apply pair_equal_spec in E as [-> <-].
  destruct (tables_good _ _ Hok (g_root_cr3 s) [] (g_root_cr3 s)) as (Hra & _ & Hrn);
    [apply space_node; by left|done|].
  assert (Hne : c <> g_root_cr3 s) by (intros ->; done).
  change (fun s0 i => st s0 (entry_addr c i) _) with (copy_entry c).
  pose proof (copy_entries c 256 256 (clear_page (with_pool s pl) c) Ha Hra Hne
                ltac:(lia) ltac:(lia)) as Hcopy. cbv zeta in Hcopy.
  set (s' := fold_left _ _ _) in *. clearbody s'. destruct Hcopy as (Ep & Er & Hin & Hout).
  cbn [pool g_root_cr3 clear_page with_pool with_pmem] in *. rewrite Ep.
  split; [exact Er|]. split; [exact Hinv|]. split; [exact Hav|].
  split; [exact Hfresh|]. split; [exact Ha|]. split; [exact Hrange|]. split_and!.
  - intros t j Ht Htc Hj. rewrite Hout.
    + cbn. apply fill_out, entry_in_page; done.
    + intros i Hi E. apply entry_addr_inj in E; unfold idx; try done; lia.
  - intros j Hj. rewrite Hout.
    + cbn. apply fill_in, entry_in_own. unfold idx; lia.
    + intros i Hi E. apply entry_addr_inj in E; unfold idx; try done; lia.
  - intros j Hj. rewrite Hin by lia. cbn. apply fill_out, entry_in_page; try done.
    unfold idx; lia.
Qed.

(** The tables of the old spaces stay, the new one is a lone root. *)
Lemma clone_tables s spaces c s' :
  spaces_ok s spaces -> vmm_space_clone s = (c, s') -> c <> 0 ->
  let dom := space_dom (g_root_cr3 s) spaces in
  (forall r q t, node dom r q -> table_at (pmem s) r q = Some t -> page_aligned t /\ t <> c) /\
  (forall r q, node dom r q -> table_at (pmem s') r q = table_at (pmem s) r q) /\
  (forall r q, node (space_dom (g_root_cr3 s) (c :: spaces)) r q ->
     (r <> c /\ node dom r q) \/ (r = c /\ (q = [] \/ table_at (pmem s') r q = None))).
Proof.
  intros Hsp Hcl Hc0 dom. pose proof Hsp as [Hok Hk Hr].
  destruct (clone_entries _ _ _ _ Hsp Hcl Hc0) as (_ & _ & _ & Hfresh & _ & _ & Hother & Hlow & _).
  assert (Hgood : forall r q t, node dom r q -> table_at (pmem s) r q = Some t -> page_aligned t /\ t <> c).
  { intros r q t Hn Ht. destruct (tables_good _ _ Hok _ _ _ Hn Ht) as (?&?&?). split; [done|]. by intros ->. }
  split_and!; [done| |].
  - intros r q. induction q as [|j q IH] using rev_ind; intros Hn; [done|].
    pose proof (node_prefix _ _ _ _ Hn) as Hq. rewrite !table_at_snoc, IH by done.
    destruct (table_at (pmem s) r q) as [t|] eqn:E; cbn [mbind option_bind]; [|done].
    destruct (Hgood _ _ _ Hq E). rewrite Hother; [done..|]. by eapply (node_idx _ _ q j []).
  - intros r q (Hd & Hi & Hl). destruct (Z.eq_dec r c) as [->|Hne].
    + right. split; [done|]. destruct q as [|i q]; [by left|right].
      destruct Hd as [[-> _]|[_ Hi256]]; [|cbn; by rewrite Hlow].
      by destruct (Hgood (g_root_cr3 s) [] (g_root_cr3 s)); [apply space_node; left|..].
    + left. split; [done|]. split_and!; try done. destruct q as [|i q].
      * destruct Hd as (i & [?|[Hin ?]]); exists i; [by left|right]. set_solver.
      * destruct Hd as [?|[Hin ?]]; [by left|right]. set_solver.
Qed.

Lemma clone_lookup s spaces c s' :
  spaces_ok s spaces -> vmm_space_clone s = (c, s') -> c <> 0 ->
  spaces_ok s' (c :: spaces) /\ g_root_cr3 s' = g_root_cr3 s /\
  c ∉ spaces /\
  (forall r v, space_dom (g_root_cr3 s) spaces r (pml4_index v) ->
     lookup_pte (pmem s') r v = lookup_pte (pmem s) r v) /\
  (forall v, pml4_index v < 256 -> lookup_pte (pmem s') c v = None) /\
  (forall v, 256 <= pml4_index v -> lookup_pte (pmem s') c v = lookup_pte (pmem s') (g_root_cr3 s) v) /\
  (forall r k, r = g_root_cr3 s \/ r ∈ spaces -> idx k ->
     pmem s' (entry_addr r k) = pmem s (entry_addr r k)) /\
  (forall k, 256 <= k < 512 -> pmem s' (entry_addr c k) = pmem s' (entry_addr (g_root_cr3 s) k)).
Proof.
  intros Hsp Hcl Hc0. pose proof Hsp as [Hok Hk Hr].
  destruct (clone_entries _ _ _ _ Hsp Hcl Hc0)
    as (Er & Hinv & Hav & Hfresh & Ha & Hrange & Hother & Hlow & Hhigh).
  set (dom := space_dom (g_root_cr3 s) spaces) in *.
  destruct (clone_tables _ _ _ _ Hsp Hcl Hc0) as (Hgood & Hold & Hnew). fold dom in Hgood, Hold, Hnew.
  assert (Hroots : forall r, r = g_root_cr3 s \/ r ∈ spaces -> page_aligned r /\ r <> c).
  { intros r Hin. apply (Hgood r [] r); [by apply space_node|done]. }
  assert (Hcs : c ∉ spaces) by (intros Hin; by destruct (Hroots c (or_intror Hin))).
  split_and!; try done.
  - split; rewrite ?Er.
    + split; [done|..].
      * intros r q t Hn Ht. rewrite Hav. destruct (Hnew r q Hn) as [[_ Hn']|[-> [->|?]]]; [| |congruence].
        -- rewrite Hold in Ht by done. destruct (tables_good _ _ Hok _ _ _ Hn' Ht) as (?&?&?). naive_solver.
        -- injection Ht as <-. naive_solver.
      * intros r q r' q' t Hn Hn' Ht Ht'.
        destruct (Hnew r q Hn) as [[? Ho]|[-> [->|?]]]; [| |congruence];
        destruct (Hnew r' q' Hn') as [[? Ho']|[-> [->|?]]]; try congruence.
        -- rewrite Hold in Ht, Ht' by done. by apply (tables_inj _ _ Hok r q r' q' t).
        -- rewrite Hold in Ht by done. injection Ht' as <-. by destruct (Hgood _ _ _ Ho Ht).
        -- rewrite Hold in Ht' by done. injection Ht as <-. by destruct (Hgood _ _ _ Ho' Ht').
        -- done.
    + intros r k t Hin Hki. destruct (Hroots (g_root_cr3 s)) as [? ?]; [by left|].
      rewrite (Hother (g_root_cr3 s)) by (try done; unfold idx; lia).
      apply elem_of_cons in Hin as [->|Hin]; [by rewrite Hhigh|].
      destruct (Hroots r) as [? ?]; [by right|]. rewrite Hother by (try done; unfold idx; lia).
      by apply Hk.
    + apply not_elem_of_cons. split; [|done]. intros E. destruct (Hroots (g_root_cr3 s)); auto.
  - intros r v Hd. pose proof (node_path dom r v Hd) as Hn. unfold lookup_pte. rewrite Hold by done.
    destruct (table_at (pmem s) r (path v)) as [t|] eqn:E; cbn [mbind option_bind]; [|done].
    destruct (Hgood _ _ _ Hn E). by rewrite Hother by auto with tus.
  - intros v Hv. unfold lookup_pte, path. cbn [table_at].
    rewrite Hlow by (pose proof (pml4_index_idx v); unfold idx in *; lia). done.
  - intros v Hv. pose proof (pml4_index_idx v) as Hi. unfold idx in Hi.
    unfold lookup_pte, path. cbn [table_at]. rewrite Hhigh by lia.
    destruct (Hroots (g_root_cr3 s)) as [? ?]; [by left|]. by rewrite (Hother (g_root_cr3 s)).
  - intros r k Hin Hki. destruct (Hroots r) as [? ?]; [done|]. by apply Hother.
  - intros k Hki. destruct (Hroots (g_root_cr3 s)) as [? ?]; [by left|].
    rewrite Hhigh by lia. by rewrite (Hother (g_root_cr3 s)) by (try done; unfold idx; lia).
Qed.

(** *** Histories of the address spaces *)

Inductive space_step : vmm P * list Z -> vmm P * list Z -> Prop :=
| StepMap s spaces c v phys flags rc s' :
    may_map s spaces c v -> small s c (path v) ->
    vmm_map_page_in s c v phys flags = (rc, s') ->
    space_step (s, spaces) (s', spaces)
| StepUnmap s spaces c v :
    may_map s spaces c v -> small s c (path v) ->
    space_step (s, spaces) (vmm_unmap_page_in s c v, spaces)
| StepTranslate s spaces c v p s' :
    may_map s spaces c v -> small s c (path v) ->
    vmm_translate_in s c v = (p, s') ->
    space_step (s, spaces) (s', spaces)
| StepClone s spaces c s' :
    vmm_space_clone s = (c, s') -> c <> 0 ->
    space_step (s, spaces) (s', c :: spaces)
| StepSwitch s spaces c :
    space_step (s, spaces) (vmm_space_switch s c, spaces).

(** Top-level kernel entries in place: entry [k] of the root refers to a
    table, and every space refers to the same one. *)
Definition kernel_shared (k : Z) (x : vmm P * list Z) : Prop :=
  exists t, forall r, r = g_root_cr3 (fst x) \/ r ∈ snd x ->
    entry_next (pmem (fst x) (entry_addr r k)) = Some t.

Lemma kernel_shared_top s s' spaces k c v :
  spaces_ok s spaces -> may_map s spaces c v -> 256 <= k < 512 ->
  extends (space_dom (g_root_cr3 s) spaces) c (path v) s s' ->
  kernel_shared k (s, spaces) -> kernel_shared k (s', spaces).
Proof.
  intros Hok Hc Hk E [t Ht]. exists t. cbn [fst snd] in *. intros r Hr.
  destruct (ext_regs _ _ _ _ _ E) as (_ & Er & _). rewrite Er in Hr.
  rewrite (ext_next _ _ _ _ _ E r [] r k); [by apply Ht|by apply space_node|unfold idx; lia|done|].
  by rewrite Ht.
Qed.

Lemma kernel_shared_leaf s spaces k c v t e :
  spaces_ok s spaces -> may_map s spaces c v -> 256 <= k < 512 ->
  table_at (pmem s) c (path v) = Some t ->
  kernel_shared k (s, spaces) -> kernel_shared k (st s (entry_addr t (pt_index v)) e, spaces).
Proof.
  intros Hok Hc Hk HT [t' Ht]. exists t'. cbn [fst snd] in *. intros r Hr.
  destruct (leaf_write _ s c v t e (spaces_tables _ _ Hok) (may_map_dom _ _ _ _ Hc) HT) as (_ & Htop & _).
  rewrite (Htop r [] r k); [by apply Ht|by apply space_node|unfold idx; lia|done|cbn; lia].
Qed.

(** Every walk-based operation is a walk followed by at most one leaf
    write. *)
Lemma walk_ops_shared s spaces k c v alloc user res s1 :
  spaces_ok s spaces -> may_map s spaces c v -> small s c (path v) -> 256 <= k < 512 ->
  walk_pt s c v alloc user = (res, s1) -> kernel_shared k (s, spaces) ->
  kernel_shared k (s1, spaces) /\
  match res with
  | None => True
  | Some (a, _) => forall e, kernel_shared k (st s1 a e, spaces)
  end.
Proof.
  intros Hok Hc Hs Hk Ew Hsh.
  destruct (walk_pt_spec _ _ _ _ _ _ _ _ (spaces_tables _ _ Hok) (may_map_dom _ _ _ _ Hc) Hs Ew) as [E R].
  assert (Hsh1 : kernel_shared k (s1, spaces)) by by eapply kernel_shared_top.
  split; [done|]. destruct res as [[a b]|]; [|done]. destruct R as (_ & t & Ht & -> & _). intros e.
  destruct (ext_regs _ _ _ _ _ E) as (_ & Er & _).
  apply (kernel_shared_leaf s1 spaces k c v); try done; [by eapply extends_spaces|].
  unfold may_map in *. by rewrite Er.
Qed.

Lemma space_step_ok k x y :
  256 <= k < 512 -> space_step x y ->
  spaces_ok (fst x) (snd x) /\ kernel_shared k x ->
  spaces_ok (fst y) (snd y) /\ kernel_shared k y.
Proof.
  intros Hk Hstep [Hok Hsh].
  destruct Hstep as [s spaces c v phys flags rc s' Hc Hs E|s spaces c v Hc Hs
                    |s spaces c v p s' Hc Hs E|s spaces c s' E Hc|s spaces c]; cbn [fst snd] in *.
  - split; [by eapply map_page_in_lookup|]. unfold vmm_map_page_in in E.
    destruct (_ || _); [by injection E as _ <-|].
    destruct (walk_pt s c v true _) as [res s1] eqn:Ew.
    destruct (walk_ops_shared _ _ _ _ _ _ _ _ _ Hok Hc Hs Hk Ew Hsh) as [H1 H2].
    destruct res as [[a b]|]; injection E as _ <-; auto.
  - split; [by apply unmap_page_in_lookup|]. unfold vmm_unmap_page_in.
    destruct (walk_pt s c v false _) as [res s1] eqn:Ew.
    destruct (walk_ops_shared _ _ _ _ _ _ _ _ _ Hok Hc Hs Hk Ew Hsh) as [H1 H2].
    destruct res as [[a b]|]; auto.
  - split; [by eapply translate_in_lookup|]. unfold vmm_translate_in in E.
    destruct (walk_pt s c v false _) as [res s1] eqn:Ew.
    destruct (walk_ops_shared _ _ _ _ _ _ _ _ _ Hok Hc Hs Hk Ew Hsh) as [H1 _].
    destruct res as [[a b]|]; [destruct (_ =? 0)|]; by injection E as _ <-.
  - destruct (clone_lookup _ _ _ _ Hok E Hc) as (? & Er & _ & _ & _ & _ & Hold & Hnew).
    split; [done|]. destruct Hsh as [t Ht]. exists t. cbn [fst snd] in *. rewrite Er.
    intros r [->|[->|Hr]%elem_of_cons].
    + rewrite Hold by (unfold idx; auto with lia). auto.
    + rewrite Hnew, Hold by (unfold idx; auto with lia). auto.
    + rewrite Hold by (unfold idx; auto with lia). auto.
  - unfold vmm_space_switch. destruct (_ =? _); [done|]. split; [|done].
    by destruct Hok as [[? ? ?] ? ?].
Qed.

End Forest.

(** ** Page numbers *)

Definition vpage (v : Z) : Z := v / 4096 mod 2 ^ 36.

Lemma index_of_page v k : 0 <= k -> Z.land (Z.shiftr v (12 + k)) 0x1FF = v / 4096 / 2 ^ k mod 512.
Proof.
  intros Hk. change 0x1FF with (Z.ones 9). rewrite Z.land_ones by lia.
  rewrite Z.shiftr_div_pow2, Z.pow_add_r, Z.div_div by lia. done.
Qed.

Lemma same_page_indices v v' :
  vpage v = vpage v' <-> path v = path v' /\ pt_index v = pt_index v'.
Proof.
  unfold vpage, path, pml4_index, pdpt_index, pd_index, pt_index.
  pose proof (index_of_page v 27 ltac:(lia)) as E1. pose proof (index_of_page v 18 ltac:(lia)) as E2.
  pose proof (index_of_page v 9 ltac:(lia)) as E3. pose proof (index_of_page v 0 ltac:(lia)) as E4.
  pose proof (index_of_page v' 27 ltac:(lia)) as E1'. pose proof (index_of_page v' 18 ltac:(lia)) as E2'.
  pose proof (index_of_page v' 9 ltac:(lia)) as E3'. pose proof (index_of_page v' 0 ltac:(lia)) as E4'.
  cbn [Z.add Pos.add] in *.
  change (12 + 27) with 39 in *. change (12 + 18) with 30 in *.
  change (12 + 9) with 21 in *. change (12 + 0) with 12 in *.
  rewrite E1, E2, E3, E4, E1', E2', E3', E4'.
  generalize (v / 4096) (v' / 4096). intros w w'. split.
  - intros E. split; [|divlia]. f_equal; [divlia|]. f_equal; [divlia|]. f_equal. divlia.
  - intros [[= ? ? ?] ?]. divlia.
Qed.

Lemma page_offset v off : v mod 4096 = 0 -> 0 <= off < 4096 -> vpage (v + off) = vpage v.
Proof. intros. unfold vpage. by replace ((v + off) / 4096) with (v / 4096) by divlia. Qed.

Lemma lor_page_offset p k : page_aligned p -> 0 <= k < 4096 -> Z.lor p k = p + k.
Proof. intros. rewrite <-Z.lxor_lor, <-Z.add_nocarry_lxor by (by apply land_page_low). done. Qed.

Lemma land_page_mask v : Z.land v (PAGE_SIZE - 1) = v mod 4096.
Proof. change (PAGE_SIZE - 1) with (Z.ones 12). by rewrite Z.land_ones. Qed.

(** ** Properties *)

Section Spaces.
Context {P : Type} `{FramePool P}.

(** Before any page is mapped: an empty root table in a frame that the pool
    does not own. *)
Lemma spaces_boot (s : vmm P) :
  fp_inv (pool s) -> page_aligned (g_root_cr3 s) -> 0 < g_root_cr3 s < 2 ^ 52 ->
  ~ fp_avail (pool s) (g_root_cr3 s) ->
  (forall j, idx j -> pmem s (entry_addr (g_root_cr3 s) j) = 0) -> spaces_ok s [].
Proof.
  intros Hp Ha Hr Hn Hz.
  assert (Hno : forall r q t, node (space_dom (g_root_cr3 s) []) r q ->
            table_at (pmem s) r q = Some t -> r = g_root_cr3 s /\ q = [] /\ t = r).
  { intros r q t (Hd & Hi & _) Ht. destruct q as [|i q].
    - destruct Hd as (i & [[-> _]|[[]%not_elem_of_nil _]]). naive_solver.
    - destruct Hd as [[-> Hi']|[[]%not_elem_of_nil _]]. cbn in Ht. by rewrite Hz in Ht. }
  split; [split; [done|..]| |apply not_elem_of_nil].
  - intros r q t Hnd Ht. by destruct (Hno _ _ _ Hnd Ht) as (-> & _ & ->).
  - intros r q r' q' t Hnd Hnd' Ht Ht'.
    destruct (Hno _ _ _ Hnd Ht) as (-> & -> & _), (Hno _ _ _ Hnd' Ht') as (-> & -> & _). done.
  - intros r k t []%not_elem_of_nil.
Qed.

Lemma map_page_in_aligned (s : vmm P) c v phys flags s' :
  vmm_map_page_in s c v phys flags = (0, s') -> v mod 4096 = 0.
Proof.
  unfold vmm_map_page_in. rewrite !land_page_mask.
  destruct (Z.eqb_spec (v mod 4096) 0); [done|]. cbn [negb orb]. done.
Qed.


(** Unmapping removes exactly one page: afterwards the page translates
    to 0 and every other page of every space keeps its entry. *)
Theorem vmm_unmap_page_in_unmaps (s : vmm P) spaces c v :
  spaces_ok s spaces -> may_map s spaces c v -> small s c (path v) ->
  let s' := vmm_unmap_page_in s c v in
  spaces_ok s' spaces /\ fst (vmm_translate_in s' c v) = 0 /\
  (forall r v', space_dom (g_root_cr3 s) spaces r (pml4_index v') ->
     (r, vpage v') <> (c, vpage v) ->
     lookup_pte (pmem s') r v' = lookup_pte (pmem s) r v').
Proof.
  intros Hok Hc Hs s'.
  destruct (unmap_page_in_lookup _ _ _ _ Hok Hc Hs) as (Hok' & Er & Hs' & Hl). fold s' in Hok', Er, Hs', Hl.
  split_and!; [done| |].
  - assert (Hc' : may_map s' spaces c v) by (unfold may_map in *; by rewrite Er).
    destruct (vmm_translate_in s' c v) as [p s2] eqn:Et.
    destruct (translate_in_lookup _ _ _ _ _ _ Hok' Hc' Hs' Et) as (_ & _ & _ & ->).
    rewrite Hl by by apply may_map_dom. by rewrite decide_True.
  - intros r v' Hd Hne. rewrite Hl by done. rewrite decide_False; [done|].
    intros (-> & ? & ?). apply Hne. f_equal. by apply same_page_indices.
Qed.

(** C5. A cloned address space is fresh and private: its user half is empty,
    its kernel half shows the mappings of the root, no page of the existing
    spaces changes, and the spaces stay well-formed with the clone added
    (so the previous two properties isolate it from the others). *)
Theorem vmm_space_clone_fresh (s : vmm P) spaces c s' :
  spaces_ok s spaces -> vmm_space_clone s = (c, s') -> c <> 0 ->
  spaces_ok s' (c :: spaces) /\ c ∉ spaces /\ c <> g_root_cr3 s /\
  (forall v, pml4_index v < 256 -> lookup_pte (pmem s') c v = None) /\
  (forall v, 256 <= pml4_index v ->
     lookup_pte (pmem s') c v = lookup_pte (pmem s') (g_root_cr3 s) v) /\
  (forall r v, space_dom (g_root_cr3 s) spaces r (pml4_index v) ->
     lookup_pte (pmem s') r v = lookup_pte (pmem s) r v).
Proof.
  intros Hok E Hc0. destruct (clone_lookup _ _ _ _ Hok E Hc0) as (H1 & Er & H2 & H3 & H4 & H5 & _).
  split_and!; try done. pose proof (spaces_root _ _ H1) as Hr. rewrite Er in Hr. set_solver.
Qed.


End Spaces.

(** *** A concrete machine

    The frame allocator of pmm.c as the pool, an empty root table in the
    reserved frame 8. *)

Definition demo_vmm : vmm pmm :=
  Vmm (pmm_init pmm_bss (Some demo_memmap) 0) (fun _ => 0) 0x8000 0x8000 0x8000.

Lemma demo_vmm_ok : spaces_ok demo_vmm [].
Proof.
  apply spaces_boot; [|done|done| |done].
  - apply PmmOk; vm_compute; intuition discriminate.
  - intros (f & E & Hr & Hf). assert (f = 8) as -> by (unfold FRAME_SIZE in E; cbn in E; lia).
    revert Hf. vm_compute. discriminate.
Qed.

Lemma demo_vmm_small c p : small demo_vmm c p.
Proof. intros q j rest t _ _. reflexivity. Qed.


Lemma vmm_unmap_page_in_unmaps_witness :
  fst (vmm_translate_in (vmm_unmap_page_in demo_vmm 0x8000 0x400000) 0x8000 0x400000) = 0.
Proof.
  exact (proj1 (proj2 (vmm_unmap_page_in_unmaps demo_vmm [] 0x8000 0x400000
           demo_vmm_ok (or_introl eq_refl) (demo_vmm_small _ _)))).
Defined.

Lemma vmm_space_clone_fresh_witness :
  spaces_ok (snd (vmm_space_clone demo_vmm)) [fst (vmm_space_clone demo_vmm)].
Proof.
  apply (vmm_space_clone_fresh demo_vmm [] (fst (vmm_space_clone demo_vmm))).
  - exact demo_vmm_ok.
  - apply surjective_pairing.
  - vm_compute. discriminate.
Defined.

(** The root after one kernel page has been mapped. *)
Definition demo_kernel : vmm pmm :=
  snd (vmm_map_page_in demo_vmm 0x8000 0xffff800000000000 0x5000 3).

Lemma demo_kernel_ok : spaces_ok demo_kernel [].
Proof.
  apply (map_page_in_lookup demo_vmm [] 0x8000 0xffff800000000000 0x5000 3
    (fst (vmm_map_page_in demo_vmm 0x8000 0xffff800000000000 0x5000 3))).
  - exact demo_vmm_ok.
  - by left.
  - apply demo_vmm_small.
  - apply surjective_pairing.
Qed.


(** *** Large pages *)

(** A root whose first 2 MiB are mapped by one large page at 2 MiB. *)
Definition demo_large : vmm pmm :=
  with_pmem demo_vmm
    (upd (upd (upd (fun _ => 0) 0x8000 0x100003) 0x100000 0x101003) 0x101000 0x200083).

(** (A defect.) Splitting a large page leaves the PS bit in the entry
    that now refers to the new table. The first translation of an address
    under a 2 MiB page is right, but it changes the tables such that the
    second translation of the same address takes the page table for a
    2 MiB page and returns a wrong frame. *)
Theorem vmm_translate_splits_again :
  let '(p1, s1) := vmm_translate_in demo_large 0x8000 0x5123 in
  let '(p2, _) := vmm_translate_in s1 0x8000 0x5123 in
  p1 = 0x205123 /\ p2 = 0x6123 /\
  Z.land (vmm_level_entry s1 0 1) PS_BIT = PS_BIT.
Proof.
  rewrite (surjective_pairing (vmm_translate_in demo_large 0x8000 0x5123)).
  rewrite (surjective_pairing (vmm_translate_in (snd _) 0x8000 0x5123)).
  split_and!; vm_compute; reflexivity.
Qed.
