(* ===== verification/Kmalloc.v ===== *)
(** * Kernel heap (src/kernel/mm/kmalloc.c)

    The free-list allocator over the virtual memory manager. The state adds
    to the machine of Vmm the contents of the heap arena, as 64-bit words at
    virtual addresses (a block header is three words: size, pages, next; all
    headers are 8-byte aligned), and the three static variables of
    kmalloc.c. What a freshly mapped page contains is whatever the words
    hold initially: nothing clears it.

    A [struct block **] is [None] for [&g_free] and [Some b] for
    [&b->next]. Loops over the free list take fuel and return [None] when it
    runs out. *)

From stdpp Require Import base numbers list gmap.
From Stdlib Require Import ZArith Lia ZifyBool.
From S2P Require Import Prelude.
From S2P Require Import Interfaces.
From S2P Require Import Pmm.
From S2P Require Import Vmm.

Definition ALIGN : Z := 16.
Definition HEADER_SIZE : Z := 24.

Record heap (P : Type) := Heap {
  hvm : vmm P;
  hmem : memory;
  g_free : Z;
  g_arena_next : Z;
  g_arena_bytes : Z;
}.
Arguments Heap {P}.
Arguments hvm {P}.
Arguments hmem {P}.
Arguments g_free {P}.
Arguments g_arena_next {P}.
Arguments g_arena_bytes {P}.

Definition with_hvm {P} (s : heap P) (v : vmm P) : heap P :=
  Heap v (hmem s) (g_free s) (g_arena_next s) (g_arena_bytes s).
Definition with_hmem {P} (s : heap P) (m : memory) : heap P :=
  Heap (hvm s) m (g_free s) (g_arena_next s) (g_arena_bytes s).
Definition with_free {P} (s : heap P) (b : Z) : heap P :=
  Heap (hvm s) (hmem s) b (g_arena_next s) (g_arena_bytes s).
Definition advance {P} (s : heap P) (bytes : Z) : heap P :=
  Heap (hvm s) (hmem s) (g_free s) (u64 (g_arena_next s + bytes)) (u64 (g_arena_bytes s + bytes)).

(** The fields of [struct block]. *)
Definition blk_size {P} (s : heap P) (b : Z) : Z := hmem s b.
Definition blk_pages {P} (s : heap P) (b : Z) : Z := hmem s (b + 8).
Definition blk_next {P} (s : heap P) (b : Z) : Z := hmem s (b + 16).
Definition set_size {P} (s : heap P) (b v : Z) : heap P := with_hmem s (upd (hmem s) b v).
Definition set_pages {P} (s : heap P) (b v : Z) : heap P := with_hmem s (upd (hmem s) (b + 8) v).
Definition set_next {P} (s : heap P) (b v : Z) : heap P := with_hmem s (upd (hmem s) (b + 16) v).

(** [*link] and [*link = v]. *)
Definition get_link {P} (s : heap P) (link : option Z) : Z :=
  match link with None => g_free s | Some b => blk_next s b end.
Definition set_link {P} (s : heap P) (link : option Z) (v : Z) : heap P :=
  match link with None => with_free s v | Some b => set_next s b v end.

Definition align_up (n : Z) : Z := Z.ldiff (u64 (n + ALIGN - 1)) (ALIGN - 1).

(** ** Operations *)

Section Operations.
Context {P : Type} `{FramePool P}.
Implicit Types s : heap P.

Definition kmalloc_init (s : heap P) : heap P :=
  Heap (vmm_reserve_tables (hvm s) VMM_KHEAP_BASE VMM_KHEAP_SIZE) (hmem s) 0 VMM_KHEAP_BASE 0.

Definition heap_grow_page (s : heap P) : heap P :=
  let '(phys, v) := pmm_alloc (hvm s) in
  if phys =? 0 then with_hvm s v
  else
    let s := with_hvm s (snd (vmm_map_page v (g_arena_next s) phys VMM_WRITE)) in
    let b := g_arena_next s in
    let s := set_size s b (PAGE_SIZE - HEADER_SIZE) in
    let s := set_next s b (g_free s) in
    let s := with_free s b in
    advance s PAGE_SIZE.

(** [heap_grow]: the loop takes [ceil (payload / PAGE_SIZE)] rounds. *)
Definition heap_grow (s : heap P) (payload : Z) : heap P :=
  Nat.iter (Z.to_nat ((payload + PAGE_SIZE - 1) / PAGE_SIZE)) heap_grow_page s.

(** The page loop of a large allocation; [false] when a frame is missing. *)
Fixpoint map_pages (n : nat) (s : heap P) (i : Z) : bool * heap P :=
  match n with
  | O => (true, s)
  | S n' =>
      let '(phys, v) := pmm_alloc (hvm s) in
      if phys =? 0 then (false, with_hvm s v)
      else
        map_pages n'
          (with_hvm s (snd (vmm_map_page v (u64 (g_arena_next s + i * PAGE_SIZE)) phys VMM_WRITE)))
          (i + 1)
  end.

Definition kmalloc_large (s : heap P) (size : Z) : Z * heap P :=
  let pages := u64 (size + HEADER_SIZE + PAGE_SIZE - 1) / PAGE_SIZE in
  let b := g_arena_next s in
  match map_pages (Z.to_nat pages) s 0 with
  | (false, s) => (0, s)
  | (true, s) =>
      let s := set_size s b size in
      let s := set_pages s b pages in
      let s := set_next s b 0 in
      let s := advance s (u64 (pages * PAGE_SIZE)) in
      (u64 (b + HEADER_SIZE), s)
  end.

(** Taking the free block [b] that [link] refers to, split if the remainder
    can hold a block. *)
Definition take_block (s : heap P) (link : option Z) (b size : Z) : heap P :=
  if u64 (size + HEADER_SIZE + ALIGN) <=? blk_size s b then
    let rest := u64 (b + HEADER_SIZE + size) in
    let s := set_size s rest (u64 (blk_size s b - size - HEADER_SIZE)) in
    let s := set_next s rest (blk_next s b) in
    let s := set_link s link rest in
    set_size s b size
  else set_link s link (blk_next s b).

(** The first-fit loop: [Some (0, s)] when it reaches the end of the list. *)
Fixpoint first_fit (fuel : nat) (s : heap P) (link : option Z) (size : Z) : option (Z * heap P) :=
  match fuel with
  | O => None
  | S fuel' =>
      let b := get_link s link in
      if b =? 0 then Some (0, s)
      else if size <=? blk_size s b then
        Some (u64 (b + HEADER_SIZE), take_block s link b size)
      else first_fit fuel' s (Some b) size
  end.

(** [kmalloc]: [fuel] bounds the walk over the free list, [retries] the
    recursive calls. *)
Fixpoint kmalloc (retries fuel : nat) (s : heap P) (size : Z) : option (Z * heap P) :=
  match retries with
  | O => None
  | S retries' =>
      let size := if size =? 0 then ALIGN else size in
      let size := align_up size in
      if PAGE_SIZE - HEADER_SIZE <? size then Some (kmalloc_large s size)
      else
        match first_fit fuel s None size with
        | None => None
        | Some (p, s) =>
            if negb (p =? 0) then Some (p, s)
            else
              let before := g_arena_bytes s in
              let s := heap_grow s size in
              if g_arena_bytes s =? before then Some (0, s)
              else kmalloc retries' fuel s size
        end
  end.

(** Releasing the frames of a multi-page block. *)
Definition release_page (virt : Z) (s : heap P) (i : Z) : heap P :=
  let '(phys, v) := vmm_translate (hvm s) (u64 (virt + i * PAGE_SIZE)) in
  if negb (phys =? 0) then
    let v := vmm_unmap_page v (u64 (virt + i * PAGE_SIZE)) in
    with_hvm s (with_pool v (fp_free (pool v) phys))
  else with_hvm s v.

(** The walk to the insertion point of [b]. *)
Fixpoint find_link (fuel : nat) (s : heap P) (link : option Z) (b : Z) : option (option Z) :=
  match fuel with
  | O => None
  | S fuel' =>
      let x := get_link s link in
      if negb (x =? 0) && (x <? b) then find_link fuel' s (Some x) b else Some link
  end.

(** The search for the predecessor of [b]. *)
Fixpoint find_prev (fuel : nat) (s : heap P) (prev b : Z) : option Z :=
  match fuel with
  | O => None
  | S fuel' => if blk_next s prev =? b then Some prev else find_prev fuel' s (blk_next s prev) b
  end.

Definition merge_next (s : heap P) (b : Z) : heap P :=
  let n := blk_next s b in
  if negb (n =? 0) && (u64 (b + HEADER_SIZE + blk_size s b) =? n) then
    let s := set_size s b (u64 (blk_size s b + (HEADER_SIZE + blk_size s n))) in
    set_next s b (blk_next s n)
  else s.

Definition merge_prev (fuel : nat) (s : heap P) (link : option Z) (b : Z) : option (heap P) :=
  if negb (get_link s link =? b) then
    match find_prev fuel s (g_free s) b with
    | None => None
    | Some prev =>
        Some (if u64 (prev + HEADER_SIZE + blk_size s prev) =? b then
                let s := set_size s prev (u64 (blk_size s prev + (HEADER_SIZE + blk_size s b))) in
                set_next s prev (blk_next s b)
              else s)
    end
  else Some s.

Definition kfree (fuel : nat) (s : heap P) (ptr : Z) : option (heap P) :=
  if ptr =? 0 then Some s
  else
    let b := u64 (ptr - HEADER_SIZE) in
    if 0 <? blk_pages s b then
      Some (fold_left (release_page b) (zseq 0 (Z.to_nat (blk_pages s b))) s)
    else
      match find_link fuel s None b with
      | None => None
      | Some link =>
          let s := set_next s b (get_link s link) in
          let s := set_link s link b in
          let s := merge_next s b in
          merge_prev fuel s link b
      end.

(** [memcpy] between two payloads, word by word: both pointers are 8-byte
    aligned and [n] is a multiple of 8. *)
Definition copy_words (m : memory) (dst src n : Z) : memory :=
  fun x => if (dst <=? x) && (x <? dst + n) then m (src + (x - dst)) else m x.

Definition krealloc (retries fuel : nat) (s : heap P) (ptr size : Z) : option (Z * heap P) :=
  if ptr =? 0 then kmalloc retries fuel s size
  else
    let b := u64 (ptr - HEADER_SIZE) in
    let size := align_up size in
    if size <=? blk_size s b then Some (ptr, s)
    else
      match kmalloc retries fuel s size with
      | None => None
      | Some (fresh, s) =>
          if fresh =? 0 then Some (0, s)
          else
            let s := with_hmem s (copy_words (hmem s) fresh ptr (blk_size s b)) in
            match kfree fuel s ptr with
            | None => None
            | Some s => Some (fresh, s)
            end
      end.

Definition kmalloc_arena_bytes (s : heap P) : Z := g_arena_bytes s.

End Operations.
