(* ===== verification/KmallocInv.v ===== *)
(** * The kernel heap keeps its blocks apart

    The invariant of the allocator of Kmalloc: the free list is a proper
    list, and the held blocks, the free blocks and the released multi-page
    blocks tile the arena, every byte belonging to exactly one of them.
    [kmalloc] and [kfree] preserve it, with the fuel their loops need. *)

From stdpp Require Import base numbers list gmap.
From Stdlib Require Import ZArith Lia ZifyBool.
From S2P Require Import Prelude.
From S2P Require Import Interfaces.
From S2P Require Import Pmm.
From S2P Require Import Vmm.
From S2P Require Import Kmalloc.

(** ** Regions of the arena *)

Definition region : Type := Z * Z.

Definition inside (x : Z) (r : region) : bool := (fst r <=? x) && (x <? fst r + snd r).

(** How many of the regions contain the address [x]. *)
Fixpoint cover (x : Z) (l : list region) : Z :=
  match l with
  | [] => 0
  | r :: l => (if inside x r then 1 else 0) + cover x l
  end.

Lemma cover_app x l1 l2 : cover x (l1 ++ l2) = cover x l1 + cover x l2.
Proof. induction l1 as [|r l1 IH]; cbn [app cover]; lia. Qed.

Lemma cover_nonneg x l : 0 <= cover x l.
Proof. induction l as [|r l IH]; cbn [cover]; [lia|]. destruct (inside x r); lia. Qed.

Lemma cover_elem x r l : r ∈ l -> inside x r = true -> 1 <= cover x l.
Proof.
  intros (l1 & l2 & ->)%list_elem_of_split Hx. rewrite cover_app. cbn [cover]. rewrite Hx.
  pose proof (cover_nonneg x l1). pose proof (cover_nonneg x l2). lia.
Qed.

Lemma cover_split x b n n' l :
  0 <= n -> 0 <= n' -> cover x ((b, n + n') :: l) = cover x ((b, n) :: (b + n, n') :: l).
Proof. intros. cbn [cover]. unfold inside. cbn [fst snd]. split_tests; lia. Qed.

Lemma elem_of_map {A B} (f : A -> B) x l : x ∈ l -> f x ∈ map f l.
Proof. apply list_elem_of_fmap_2. Qed.

Section Heap.
Context {P : Type} `{FramePool P}.
Implicit Types s : heap P.

Definition free_region (s : heap P) (b : Z) : region := (b, HEADER_SIZE + blk_size s b).

Definition block_ok (s : heap P) (b : Z) : Prop :=
  ALIGN <= blk_size s b /\ b mod 8 = 0 /\ blk_size s b mod 8 = 0.

(** [heap_ok s A F R]: [F] is the free list, [A] the regions held by
    clients, [R] the regions of released multi-page blocks. *)
Record heap_ok (s : heap P) (A : list region) (F : list Z) (R : list region) : Prop := HeapOk {
  heap_chain : chain (blk_next s) (g_free s) F;
  heap_arena : VMM_KHEAP_BASE <= g_arena_next s < 2 ^ 64 /\ g_arena_next s mod PAGE_SIZE = 0 /\
               g_arena_bytes s = g_arena_next s - VMM_KHEAP_BASE;
  heap_tile x : cover x (A ++ map (free_region s) F ++ R) =
                if (VMM_KHEAP_BASE <=? x) && (x <? g_arena_next s) then 1 else 0;
  heap_free b : b ∈ F -> block_ok s b;
  heap_held b n : (b, n) ∈ A -> block_ok s b /\ HEADER_SIZE + blk_size s b <= n;
}.

(** The words of the held blocks are as before. *)
Definition keeps (A : list region) (s s' : heap P) : Prop :=
  forall r x, r ∈ A -> inside x r = true -> hmem s' x = hmem s x.

(** *** Free blocks and the others *)

(** The words [b .. b + n] of a free block belong to no other block. *)
Lemma free_alone s A F1 b F2 R x :
  heap_ok s A (F1 ++ b :: F2) R -> inside x (free_region s b) = true ->
  (forall r, r ∈ A -> inside x r = false) /\
  (forall b', b' ∈ F1 ++ F2 -> inside x (free_region s b') = false) /\
  VMM_KHEAP_BASE <= x < g_arena_next s.
Proof.
  intros Hok Hx. pose proof (heap_tile _ _ _ _ Hok x) as Ht.
  rewrite map_app, !cover_app in Ht. cbn [map cover] in Ht. rewrite Hx in Ht.
  pose proof (cover_nonneg x A). pose proof (cover_nonneg x R).
  pose proof (cover_nonneg x (map (free_region s) F1)).
  pose proof (cover_nonneg x (map (free_region s) F2)).
  assert (Hin : VMM_KHEAP_BASE <= x < g_arena_next s) by (split_tests_in Ht; lia).
  replace ((VMM_KHEAP_BASE <=? x) && (x <? g_arena_next s)) with true in Ht by lia.
  split_and!; try lia.
  - intros r Hr. destruct (inside x r) eqn:E; [|done]. pose proof (cover_elem _ _ _ Hr E). lia.
  - intros b' Hb'. destruct (inside x (free_region s b')) eqn:E; [|done].
    apply elem_of_app in Hb' as [Hb'|Hb']; apply (elem_of_map (free_region s)) in Hb';
      pose proof (cover_elem _ _ _ Hb' E); lia.
Qed.

(** The words of the header of a free block. *)
Definition header_word (b x : Z) : Prop := x = b \/ x = b + 8 \/ x = b + 16.

Lemma header_inside s A F R b x :
  heap_ok s A F R -> b ∈ F -> header_word b x -> inside x (free_region s b) = true.
Proof.
  intros Hok Hb Hx. destruct (heap_free _ _ _ _ Hok b Hb) as (Hs & _).
  unfold inside, free_region, header_word, HEADER_SIZE, ALIGN in *. cbn [fst snd]. lia.
Qed.

Lemma free_bounds s A F R b :
  heap_ok s A F R -> b ∈ F ->
  VMM_KHEAP_BASE <= b /\ b + HEADER_SIZE + blk_size s b <= g_arena_next s.
Proof.
  intros Hok Hb. pose proof (heap_free _ _ _ _ Hok b Hb) as (Hs & _).
  apply list_elem_of_split in Hb as (F1 & F2 & ->). unfold ALIGN in Hs.
  destruct (free_alone s A F1 b F2 R b Hok) as (_ & _ & ?).
  { unfold inside, free_region, HEADER_SIZE. cbn [fst snd]. lia. }
  destruct (free_alone s A F1 b F2 R (b + HEADER_SIZE + blk_size s b - 1) Hok) as (_ & _ & ?).
  { unfold inside, free_region, HEADER_SIZE. cbn [fst snd]. lia. }
  lia.
Qed.

(** *** Links *)

Definition is_link (F1 : list Z) (link : option Z) : Prop :=
  match link with
  | None => F1 = []
  | Some p => exists F0, F1 = F0 ++ [p]
  end.

Lemma get_link_spec s F1 link c :
  is_link F1 link -> lseg (blk_next s) (g_free s) F1 c -> get_link s link = c.
Proof.
  destruct link as [p|]; cbn; [intros [F0 ->]|intros ->; done].
  intros (r & _ & Hp)%lseg_app. by destruct Hp as (-> & _ & Hp).
Qed.

Lemma set_link_spec s F1 link c c' :
  is_link F1 link -> NoDup F1 -> lseg (blk_next s) (g_free s) F1 c ->
  lseg (blk_next (set_link s link c')) (g_free (set_link s link c')) F1 c'.
Proof.
  destruct link as [p|]; cbn; [intros [F0 ->]|intros ->; done].
  intros (_ & Hnp & _)%NoDup_app (r & H0 & Hp)%lseg_app. destruct Hp as (-> & Hnz & Hp).
  apply lseg_app. exists p. split.
  - eapply lseg_ext; [|exact H0]. intros x Hx. unfold blk_next. cbn. rewrite upd_ne; [done|].
    intros E. assert (x = p) as -> by lia. apply (Hnp p Hx). set_solver.
  - cbn. split_and!; [done..|]. unfold blk_next. cbn. by rewrite upd_eq.
Qed.

Lemma lseg_chain next p l q l2 : lseg next p l q -> chain next q l2 -> chain next p (l ++ l2).
Proof. intros. apply lseg_app. eauto. Qed.

(** *** Separation of headers *)

Lemma header_unique s A F R b b' w :
  heap_ok s A F R -> b ∈ F -> b' ∈ F -> header_word b w -> header_word b' w -> b = b'.
Proof.
  intros Hok Hb Hb' Hw Hw'. pose proof (header_inside _ _ _ _ _ _ Hok Hb Hw) as E.
  pose proof (header_inside _ _ _ _ _ _ Hok Hb' Hw') as E'.
  destruct (decide (b = b')) as [|Hne]; [done|].
  apply list_elem_of_split in Hb as (F1 & F2 & ->).
  destruct (free_alone _ _ _ _ _ _ _ Hok E) as (_ & Hf & _). rewrite Hf in E'; [done|].
  set_solver.
Qed.

(** The header words of the other free blocks lie outside [b]'s region. *)
Lemma header_apart s A F1 b F2 R b' w :
  heap_ok s A (F1 ++ b :: F2) R -> b' ∈ F1 ++ F2 -> header_word b' w ->
  w < b \/ b + HEADER_SIZE + blk_size s b <= w.
Proof.
  intros Hok Hb' Hw.
  assert (E' : inside w (free_region s b') = true) by (eapply header_inside; [done|set_solver|done]).
  destruct (inside w (free_region s b)) eqn:E.
  - destruct (free_alone _ _ _ _ _ _ _ Hok E) as (_ & Hf & _). by rewrite Hf in E'.
  - unfold inside, free_region in E. cbn [fst snd] in E. lia.
Qed.

(** The word [*link] of a link into the free list. *)
Definition link_word (link : option Z) (w : Z) : Prop :=
  match link with None => False | Some p => w = p + 16 end.

Lemma set_link_word s link v w : ~ link_word link w -> hmem (set_link s link v) w = hmem s w.
Proof. destruct link; cbn; [intros; by apply upd_ne|done]. Qed.

Lemma link_elem F1 link w : is_link F1 link -> link_word link w -> exists p, p ∈ F1 /\ w = p + 16.
Proof. destruct link as [p|]; [|done]. intros [F0 ->] ->. exists p. set_solver. Qed.

(** A link is no size word of a free block, the next word of its own block
    only, and no word of a held block. *)
Lemma link_not_size s A F R F1 link b :
  heap_ok s A F R -> is_link F1 link -> F1 ⊆ F -> b ∈ F -> ~ link_word link b.
Proof.
  intros Hok Hl Hsub Hb Hw. destruct (link_elem _ _ _ Hl Hw) as (p & Hp & E).
  assert (b = p) by (eapply header_unique; [done|done|by apply Hsub|by left|right; right; done]).
  lia.
Qed.

Lemma link_not_next s A F R F1 link b :
  heap_ok s A F R -> is_link F1 link -> F1 ⊆ F -> b ∈ F -> b ∉ F1 -> ~ link_word link (b + 16).
Proof.
  intros Hok Hl Hsub Hb Hb1 Hw. destruct (link_elem _ _ _ Hl Hw) as (p & Hp & E).
  by replace b with p in Hb1 by lia.
Qed.

Lemma link_not_held s A F R F1 link r w :
  heap_ok s A F R -> is_link F1 link -> F1 ⊆ F -> r ∈ A -> inside w r = true -> ~ link_word link w.
Proof.
  intros Hok Hl Hsub Hr Hin Hw. destruct (link_elem _ _ _ Hl Hw) as (p & Hp & ->).
  assert (Hp' : p ∈ F) by by apply Hsub.
  pose proof (header_inside _ _ _ _ p (p + 16) Hok Hp' ltac:(right; by right)) as E.
  apply list_elem_of_split in Hp' as (G1 & G2 & ->).
  destruct (free_alone _ _ _ _ _ _ _ Hok E) as (Hf & _ & _). by rewrite Hf in Hin.
Qed.

Lemma free_regions_ext s s' F :
  (forall b, b ∈ F -> blk_size s' b = blk_size s b) ->
  map (free_region s') F = map (free_region s) F.
Proof. intros Hs. apply map_ext_in. intros b Hb%list_elem_of_In. unfold free_region. by rewrite Hs. Qed.

Lemma heap_list s A F1 b F2 R :
  heap_ok s A (F1 ++ b :: F2) R ->
  NoDup (F1 ++ b :: F2) /\ b <> 0 /\ b ∉ F1 /\ b ∉ F2 /\
  lseg (blk_next s) (g_free s) F1 b /\ chain (blk_next s) (blk_next s b) F2.
Proof.
  intros Hok. pose proof (heap_chain _ _ _ _ Hok) as Hc.
  pose proof (chain_NoDup _ _ _ Hc) as Hnd. pose proof Hnd as Hnd'.
  apply NoDup_app in Hnd' as (_ & H1 & [H2 _]%NoDup_cons).
  apply lseg_app in Hc as (r & Hl & Hr). destruct Hr as (-> & Hnz & Hr).
  split_and!; try done. intros Hb. apply (H1 b Hb). set_solver.
Qed.

Lemma held_word s A F R b n :
  heap_ok s A F R -> (b, n) ∈ A -> inside b (b, n) = true.
Proof.
  intros Hok Hb. destruct (heap_held _ _ _ _ Hok _ _ Hb) as ((Hs & _) & Hn).
  unfold inside, HEADER_SIZE, ALIGN in *. cbn [fst snd]. lia.
Qed.

Lemma keeps_held s s' A F R b n :
  heap_ok s A F R -> keeps A s s' -> (b, n) ∈ A -> blk_size s' b = blk_size s b.
Proof. intros Hok Hk Hb. apply (Hk (b, n)); [done|by eapply held_word]. Qed.

Lemma block_ok_ext s s' b : blk_size s' b = blk_size s b -> block_ok s b -> block_ok s' b.
Proof. unfold block_ok. by intros ->. Qed.

(** *** Taking a block *)

Lemma unlink_ok s A F1 b F2 R link :
  heap_ok s A (F1 ++ b :: F2) R -> is_link F1 link ->
  let s' := set_link s link (blk_next s b) in
  heap_ok s' (free_region s b :: A) (F1 ++ F2) R /\ keeps A s s' /\
  blk_size s' b = blk_size s b /\ hvm s' = hvm s /\ g_arena_next s' = g_arena_next s /\
  g_arena_bytes s' = g_arena_bytes s.
Proof.
  intros Hok Hl s'. destruct (heap_list _ _ _ _ _ _ Hok) as (Hnd & Hnz & Hb1 & Hb2 & Hseg & Hch).
  assert (Hsub : F1 ⊆ F1 ++ b :: F2) by set_solver.
  assert (Hsz : forall x, x ∈ F1 ++ b :: F2 -> blk_size s' x = blk_size s x).
  { intros x Hx. apply set_link_word. by eapply link_not_size. }
  assert (Hk : keeps A s s').
  { intros r w Hr Hw. apply set_link_word. by eapply link_not_held. }
  assert (Hregs : g_arena_next s' = g_arena_next s /\ g_arena_bytes s' = g_arena_bytes s /\ hvm s' = hvm s)
    by (destruct link; done).
  destruct Hregs as (En & Eb & Ev). split_and!; try done; [|apply Hsz; set_solver].
  split.
  - apply lseg_chain with (blk_next s b).
    + apply set_link_spec with b; [done| |done]. by apply NoDup_app in Hnd as [? _].
    + eapply chain_ext; [|exact Hch]. intros x Hx. symmetry. apply set_link_word.
      eapply link_not_next; [done|done|done|set_solver|].
      apply NoDup_app in Hnd as (_ & Hd & _). intros Hx1. apply (Hd x Hx1). set_solver.
  - rewrite En, Eb. apply Hok.
  - intros x. rewrite En, <-(heap_tile _ _ _ _ Hok x).
    rewrite (free_regions_ext s s') by (intros; apply Hsz; set_solver).
    rewrite !map_app, !cover_app. cbn [app map cover]. lia.
  - intros x Hx. eapply block_ok_ext; [apply Hsz; set_solver|]. eapply heap_free; [done|set_solver].
  - intros x n [[= -> ->]|Hx]%elem_of_cons.
    + rewrite Hsz by set_solver. split; [|done]. eapply block_ok_ext; [apply Hsz; set_solver|].
      eapply heap_free; [done|set_solver].
    + rewrite (keeps_held s s' A _ R x n) by done. destruct (heap_held _ _ _ _ Hok _ _ Hx).
      split; [|done]. eapply block_ok_ext; [by eapply keeps_held|done].
Qed.

(** The split branch of [take_block]. *)
Definition split_block (s : heap P) (link : option Z) (b size : Z) : heap P :=
  let rest := b + HEADER_SIZE + size in
  let s := set_size s rest (blk_size s b - size - HEADER_SIZE) in
  let s := set_next s rest (blk_next s b) in
  let s := set_link s link rest in
  set_size s b size.

Lemma split_block_word s link b size w :
  w <> b + HEADER_SIZE + size -> w <> b + HEADER_SIZE + size + 16 -> w <> b ->
  ~ link_word link w -> hmem (split_block s link b size) w = hmem s w.
Proof.
  intros H1 H2 H3 H4. unfold split_block, set_size at 1. cbn [hmem with_hmem].
  rewrite upd_ne, set_link_word by done. cbn. by rewrite !upd_ne.
Qed.

Lemma split_block_header s A F1 b F2 R link size :
  heap_ok s A (F1 ++ b :: F2) R -> is_link F1 link ->
  ALIGN <= size -> size + HEADER_SIZE + ALIGN <= blk_size s b ->
  let s' := split_block s link b size in let rest := b + HEADER_SIZE + size in
  blk_size s' b = size /\ blk_size s' rest = blk_size s b - size - HEADER_SIZE /\
  blk_next s' rest = blk_next s b.
Proof.
  intros Hok Hl Hs1 Hs2 s' rest. unfold ALIGN, HEADER_SIZE in *.
  assert (Hlw : forall w, b <= w < b + HEADER_SIZE + blk_size s b -> ~ link_word link w).
  { intros w Hw Hlw. destruct (link_elem _ _ _ Hl Hlw) as (p & Hp & ->).
    destruct (header_apart s A F1 b F2 R p (p + 16) Hok) as [?|?]; try lia; [set_solver|right; by right]. }
  unfold HEADER_SIZE in *. subst s' rest. unfold split_block, HEADER_SIZE, blk_size at 1 4, blk_next at 1.
  split_and!.
  - cbn. apply upd_eq.
  - cbn. rewrite upd_ne, set_link_word by (try apply Hlw; lia). cbn.
    rewrite upd_ne by lia. apply upd_eq.
  - cbn. rewrite upd_ne, set_link_word by (try apply Hlw; lia). cbn.
    rewrite upd_eq. unfold blk_next. cbn. by rewrite upd_ne by lia.
Qed.

Lemma split_ok s A F1 b F2 R link size :
  heap_ok s A (F1 ++ b :: F2) R -> is_link F1 link ->
  ALIGN <= size -> size mod 8 = 0 -> size + HEADER_SIZE + ALIGN <= blk_size s b ->
  let s' := split_block s link b size in
  heap_ok s' ((b, HEADER_SIZE + size) :: A) (F1 ++ (b + HEADER_SIZE + size) :: F2) R /\ keeps A s s' /\
  blk_size s' b = size /\ hvm s' = hvm s /\ g_arena_next s' = g_arena_next s /\
  g_arena_bytes s' = g_arena_bytes s.
Proof.
  intros Hok Hl Hs1 Hm Hs2 s'.
  destruct (heap_list _ _ _ _ _ _ Hok) as (Hnd & Hnz & Hb1 & Hb2 & Hseg & Hch).
  destruct (split_block_header _ _ _ _ _ _ _ _ Hok Hl Hs1 Hs2) as (Zb & Zr & Nr).
  fold s' in Zb, Zr, Nr. set (rest := b + HEADER_SIZE + size) in *.
  assert (Hb : b ∈ F1 ++ b :: F2) by set_solver.
  destruct (heap_free _ _ _ _ Hok b Hb) as (_ & Hb8 & Hsz8).
  pose proof (free_bounds _ _ _ _ _ Hok Hb) as Hbounds.
  assert (Hfar : forall x w, x ∈ F1 ++ F2 -> header_word x w -> w <> rest /\ w <> rest + 16 /\ w <> b).
  { intros x w Hx Hw. pose proof (header_apart _ _ _ _ _ _ _ _ Hok Hx Hw).
    unfold rest, ALIGN, HEADER_SIZE in *. lia. }
  assert (Hsub : F1 ⊆ F1 ++ b :: F2) by set_solver.
  assert (Hsz : forall x, x ∈ F1 ++ F2 -> blk_size s' x = blk_size s x).
  { intros x Hx. destruct (Hfar x x Hx (or_introl eq_refl)) as (?&?&?). apply split_block_word; try done.
    eapply link_not_size; [done|done|done|set_solver]. }
  assert (Hk : keeps A s s').
  { intros r w Hr Hw. assert (Hout : inside w (free_region s b) = false).
    { destruct (inside w (free_region s b)) eqn:E; [|done].
      destruct (free_alone _ _ _ _ _ _ _ Hok E) as (Hf & _). by rewrite Hf in Hw. }
    unfold inside, free_region in Hout. cbn [fst snd] in Hout.
    apply split_block_word; try (unfold rest, ALIGN, HEADER_SIZE in *; lia).
    by eapply link_not_held. }
  assert (Hregs : g_arena_next s' = g_arena_next s /\ g_arena_bytes s' = g_arena_bytes s /\ hvm s' = hvm s)
    by (destruct link; done).
  destruct Hregs as (En & Eb & Ev). split_and!; try done. split.
  - set (s2 := set_next (set_size s rest (blk_size s b - size - HEADER_SIZE)) rest
                 (blk_next (set_size s rest (blk_size s b - size - HEADER_SIZE)) b)).
    assert (Hseg2 : lseg (blk_next s2) (g_free s2) F1 b).
    { eapply lseg_ext; [|exact Hseg]. intros x Hx. unfold s2, blk_next. cbn.
      destruct (Hfar x (x + 16)) as (?&?&?); [set_solver|right; by right|].
      by rewrite !upd_ne. }
    apply NoDup_app in Hnd as (Hnd1 & Hd & _).
    pose proof (set_link_spec s2 F1 link b rest Hl Hnd1 Hseg2) as Hseg3.
    apply lseg_chain with rest.
    + eapply lseg_ext; [|exact Hseg3]. intros x Hx. symmetry. unfold blk_next. cbn.
      destruct (Hfar x (x + 16)) as (?&?&?); [set_solver|right; by right|]. by apply upd_ne.
    + split_and!; [done|unfold rest, VMM_KHEAP_BASE, ALIGN, HEADER_SIZE in *; lia|].
      rewrite Nr. eapply chain_ext; [|exact Hch]. intros x Hx. symmetry.
      destruct (Hfar x (x + 16)) as (?&?&?); [set_solver|right; by right|].
      apply split_block_word; try done. eapply link_not_next; [done|done|done|set_solver|].
      intros Hx1. apply (Hd x Hx1). set_solver.
  - rewrite En, Eb. apply Hok.
  - intros x. rewrite En, <-(heap_tile _ _ _ _ Hok x).
    rewrite !map_app, !cover_app. cbn [app map cover].
    rewrite !(free_regions_ext s s') by (intros; apply Hsz; set_solver).
    unfold free_region at 2 5. rewrite Zr. unfold inside, rest, ALIGN, HEADER_SIZE in *. cbn [fst snd].
    split_tests; lia.
  - intros x [Hx|[->|Hx]%elem_of_cons]%elem_of_app.
    + eapply block_ok_ext; [apply Hsz; set_solver|]. eapply heap_free; [done|set_solver].
    + unfold block_ok. rewrite Zr. unfold rest, ALIGN, HEADER_SIZE in *. split_and!; [lia|divlia|divlia].
    + eapply block_ok_ext; [apply Hsz; set_solver|]. eapply heap_free; [done|set_solver].
  - intros x n [[= -> ->]|Hx]%elem_of_cons.
    + unfold block_ok. rewrite Zb. done.
    + rewrite (keeps_held s s' A _ R x n) by done. destruct (heap_held _ _ _ _ Hok _ _ Hx).
      split; [|done]. eapply block_ok_ext; [by eapply keeps_held|done].
Qed.

Lemma take_block_ok s A F1 b F2 R link size :
  heap_ok s A (F1 ++ b :: F2) R -> is_link F1 link ->
  ALIGN <= size <= blk_size s b -> size mod 8 = 0 ->
  let s' := take_block s link b size in
  exists F', heap_ok s' (free_region s' b :: A) F' R /\ keeps A s s' /\ size <= blk_size s' b /\
    hvm s' = hvm s /\ g_arena_next s' = g_arena_next s /\ g_arena_bytes s' = g_arena_bytes s.
Proof.
  intros Hok Hl Hs Hm s'. subst s'.
  assert (Hb : b ∈ F1 ++ b :: F2) by set_solver.
  pose proof (free_bounds _ _ _ _ _ Hok Hb) as Hbounds.
  pose proof (heap_arena _ _ _ _ Hok) as (Ha & _).
  unfold VMM_KHEAP_BASE, HEADER_SIZE, ALIGN in *.
  destruct (Z.leb_spec (size + 24 + 16) (blk_size s b)) as [Hfit|Hfit].
  - assert (take_block s link b size = split_block s link b size) as ->.
    { unfold take_block, split_block, HEADER_SIZE, ALIGN.
      rewrite (u64_small (size + 24 + 16)), (u64_small (b + 24 + size)),
        (u64_small (blk_size s b - size - 24)) by lia.
      by rewrite (proj2 (Z.leb_le _ _) Hfit). }
    destruct (split_ok s A F1 b F2 R link size) as (H1 & H2 & H3 & ?);
      unfold ALIGN, HEADER_SIZE; try done; try lia.
    unfold free_region. rewrite H3. eexists. split_and!; [exact H1|exact H2|lia|naive_solver..].
  - assert (take_block s link b size = set_link s link (blk_next s b)) as ->.
    { unfold take_block, HEADER_SIZE, ALIGN. rewrite (u64_small (size + 24 + 16)) by lia.
      by rewrite (proj2 (Z.leb_gt _ _) Hfit). }
    destruct (unlink_ok s A F1 b F2 R link Hok Hl) as (H1 & H2 & H3 & ?).
    unfold free_region. rewrite H3. eexists. split_and!; [exact H1|exact H2|lia|naive_solver..].
Qed.

(** *** First fit *)

Lemma first_fit_ok fuel s A F1 F2 R link size :
  heap_ok s A (F1 ++ F2) R -> is_link F1 link -> ALIGN <= size -> size mod 8 = 0 ->
  (length F2 < fuel)%nat ->
  (first_fit fuel s link size = Some (0, s) /\ (forall b, b ∈ F2 -> blk_size s b < size)) \/
  (exists b s' F', first_fit fuel s link size = Some (b + HEADER_SIZE, s') /\
     VMM_KHEAP_BASE <= b /\ b + HEADER_SIZE < 2 ^ 64 /\
     heap_ok s' (free_region s' b :: A) F' R /\ keeps A s s' /\ size <= blk_size s' b /\
     hvm s' = hvm s /\ g_arena_next s' = g_arena_next s /\ g_arena_bytes s' = g_arena_bytes s).
Proof.
  intros Hok Hl Hs Hm. revert F1 F2 link Hok Hl.
  induction fuel as [|fuel IH]; intros F1 F2 link Hok Hl Hf; [lia|]. cbn [first_fit].
  pose proof (heap_chain _ _ _ _ Hok) as (c & Hseg & Hch)%lseg_app.
  rewrite (get_link_spec _ _ _ _ Hl Hseg).
  destruct F2 as [|b F2].
  - cbn in Hch. subst c. left. split; [done|]. intros b []%not_elem_of_nil.
  - destruct Hch as (-> & Hnz & Hch). rewrite (proj2 (Z.eqb_neq b 0)) by done.
    assert (Hb : b ∈ F1 ++ b :: F2) by set_solver.
    pose proof (free_bounds _ _ _ _ _ Hok Hb) as Hbounds.
    pose proof (heap_arena _ _ _ _ Hok) as (Ha & _).
    destruct (heap_free _ _ _ _ Hok b Hb) as (Hbs & _).
    unfold VMM_KHEAP_BASE, HEADER_SIZE, ALIGN in *.
    destruct (Z.leb_spec size (blk_size s b)).
    + right. destruct (take_block_ok s A F1 b F2 R link size) as (F' & H1 & H2 & H3 & ?);
        unfold ALIGN; try done; try lia.
      exists b, (take_block s link b size), F'. rewrite u64_small by lia.
      split_and!; try done; try lia; naive_solver.
    + destruct (IH (F1 ++ [b]) F2 (Some b)) as [[E Hall]|Hfound].
      * by rewrite <-app_assoc.
      * by exists F1.
      * cbn in Hf. lia.
      * left. split; [done|]. intros x [->|Hx]%elem_of_cons; auto.
      * by right.
Qed.

(** *** Growing the arena *)

Lemma align_up_spec n : 0 <= n <= 2 ^ 64 - 16 -> align_up n = (n + 15) / 16 * 16.
Proof.
  intros Hn. unfold align_up, ALIGN. rewrite u64_small by lia.
  change (16 - 1) with (Z.ones 4). rewrite Z.ldiff_ones_r by lia.
  rewrite Z.shiftl_mul_pow2, Z.shiftr_div_pow2 by lia. do 2 f_equal. lia.
Qed.

(** A block at the end of the arena, as a new region. *)
Lemma arena_extend s s' A F R r F' A' n :
  heap_ok s A F R -> 40 <= n -> n mod PAGE_SIZE = 0 -> g_arena_next s + n < 2 ^ 64 ->
  r = (g_arena_next s, n) ->
  g_arena_next s' = g_arena_next s + n -> g_arena_bytes s' = g_arena_bytes s + n ->
  (forall x, x < g_arena_next s -> hmem s' x = hmem s x) ->
  (forall b, b ∈ F' -> b ∈ F \/ (b = g_arena_next s /\ free_region s' b = r)) ->
  (forall b m, (b, m) ∈ A' -> (b, m) ∈ A \/ ((b, m) = r /\ HEADER_SIZE + blk_size s' b <= m)) ->
  (forall x, cover x (A' ++ map (free_region s') F') =
     (if inside x r then 1 else 0) + cover x (A ++ map (free_region s') F)) ->
  block_ok s' (g_arena_next s) -> chain (blk_next s') (g_free s') F' ->
  heap_ok s' A' F' R /\ keeps A s s'.
Proof.
  intros Hok Hn Hnp Hlt Er En Eb Hm HF HA Hc Hblk Hch.
  assert (Hbelow : forall b m x, (b, m) ∈ A -> inside x (b, m) = true -> x < g_arena_next s).
  { intros b m x Hb Hx. pose proof (heap_tile _ _ _ _ Hok x) as Ht. rewrite cover_app in Ht.
    pose proof (cover_elem _ _ _ Hb Hx). pose proof (cover_nonneg x (map (free_region s) F ++ R)).
    split_tests_in Ht; lia. }
  assert (Hk : keeps A s s') by (intros [b m] x Hb Hx; eauto).
  assert (Hsz : forall b, b ∈ F -> blk_size s' b = blk_size s b).
  { intros b Hb. apply Hm. pose proof (free_bounds _ _ _ _ _ Hok Hb).
    destruct (heap_free _ _ _ _ Hok b Hb) as (Hb16 & _). unfold ALIGN, HEADER_SIZE in *. lia. }
  split; [|done]. destruct (heap_arena _ _ _ _ Hok) as (Ha1 & Ha2 & Ha3). split; [done|..].
  - rewrite En, Eb. unfold PAGE_SIZE in *. split_and!; try lia. divlia.
  - intros x. pose proof (heap_tile _ _ _ _ Hok x) as Ht.
    rewrite app_assoc, cover_app, Hc, (free_regions_ext s s') by done.
    rewrite app_assoc, cover_app in Ht. rewrite En, Er. unfold inside. cbn [fst snd].
    split_tests_in Ht; split_tests; lia.
  - intros b [Hb|[-> _]]%HF; [|done]. eapply block_ok_ext; [by apply Hsz|]. by eapply heap_free.
  - intros b m [Hb|[E Hle]]%HA; [|by rewrite Er in E; injection E as -> ->].
    destruct (heap_held _ _ _ _ Hok _ _ Hb). rewrite (keeps_held s s' A F R b m) by done.
    split; [|done]. eapply block_ok_ext; [by eapply keeps_held|done].
Qed.

(** Only the machine underneath changes. *)
Definition same_heap (s s' : heap P) : Prop :=
  hmem s' = hmem s /\ g_free s' = g_free s /\ g_arena_next s' = g_arena_next s /\
  g_arena_bytes s' = g_arena_bytes s.

Lemma same_heap_ok s s' A F R : same_heap s s' -> heap_ok s A F R -> heap_ok s' A F R /\ keeps A s s'.
Proof.
  destruct s, s'. intros (E1 & E2 & E3 & E4) [H1 H2 H3 H4 H5]. cbn in *. subst.
  split; [by split|]. by intros r x.
Qed.

Lemma same_heap_trans s1 s2 s3 : same_heap s1 s2 -> same_heap s2 s3 -> same_heap s1 s3.
Proof. unfold same_heap. intros (?&?&?&?) (?&?&?&?). split_and!; congruence. Qed.

Lemma heap_grow_page_ok s A F R :
  heap_ok s A F R -> g_arena_next s + PAGE_SIZE < 2 ^ 64 ->
  let s' := heap_grow_page s in
  (fst (pmm_alloc (hvm s)) = 0 /\ same_heap s s') \/
  (exists b, heap_ok s' A (b :: F) R /\ keeps A s s' /\
     blk_size s' b = PAGE_SIZE - HEADER_SIZE /\ g_arena_bytes s' = g_arena_bytes s + PAGE_SIZE).
Proof.
  intros Hok Hlt s'. unfold s', heap_grow_page.
  destruct (pmm_alloc (hvm s)) as [phys v]. cbn [fst].
  destruct (Z.eqb_spec phys 0) as [->|]; [by left|right].
  destruct (heap_arena _ _ _ _ Hok) as (Ha & Hp & Hb). unfold VMM_KHEAP_BASE, PAGE_SIZE, HEADER_SIZE in *.
  exists (g_arena_next s). clear s'.
  set (s' := advance _ _).
  assert (En : g_arena_next s' = g_arena_next s + 4096) by (cbn; apply u64_small; lia).
  assert (Eb : g_arena_bytes s' = g_arena_bytes s + 4096) by (cbn; apply u64_small; lia).
  assert (Zb : blk_size s' (g_arena_next s) = 4096 - 24).
  { unfold blk_size. cbn. rewrite upd_ne by lia. apply upd_eq. }
  assert (Nb : blk_next s' (g_arena_next s) = g_free s) by (unfold blk_next; cbn; apply upd_eq).
  assert (Hm : forall x, x < g_arena_next s -> hmem s' x = hmem s x) by (intros; cbn; rewrite !upd_ne by lia; done).
  destruct (arena_extend s s' A F R (g_arena_next s, 4096) (g_arena_next s :: F) A 4096)
    as [H1 H2]; unfold PAGE_SIZE; try done; try lia.
  - intros b [->|]%elem_of_cons; [right|by left]. split; [done|]. unfold free_region. by rewrite Zb.
  - intros b m ?. by left.
  - intros x. rewrite !cover_app. cbn [map cover].
    replace (free_region s' (g_arena_next s)) with (g_arena_next s, 4096) by (unfold free_region; by rewrite Zb).
    lia.
  - unfold block_ok, ALIGN. rewrite Zb. split_and!; [lia|divlia|done].
  - split_and!; [done|lia|]. rewrite Nb. eapply chain_ext; [|apply Hok].
    intros x Hx. symmetry. apply Hm. pose proof (free_bounds _ _ _ _ _ Hok Hx).
    destruct (heap_free _ _ _ _ Hok x Hx) as (Hx16 & _). unfold ALIGN, HEADER_SIZE in *. lia.
Qed.

Lemma map_pages_same n s i : same_heap s (snd (map_pages n s i)).
Proof.
  revert s i; induction n as [|n IH]; intros s i; cbn [map_pages]; [done|].
  destruct (pmm_alloc (hvm s)) as [phys v]. destruct (phys =? 0); [done|].
  eapply same_heap_trans; [|apply IH]. done.
Qed.

(** A multi-page block: the region is whole pages, recorded in its header. *)
Definition large_region (s : heap P) (b : Z) : region := (b, blk_pages s b * PAGE_SIZE).

Lemma kmalloc_large_ok s A F R size :
  heap_ok s A F R -> PAGE_SIZE - HEADER_SIZE < size < 2 ^ 62 -> size mod 8 = 0 ->
  g_arena_next s + size + 2 * PAGE_SIZE < 2 ^ 64 ->
  let '(p, s') := kmalloc_large s size in
  (p = 0 /\ same_heap s s') \/
  (exists b, p = b + HEADER_SIZE /\ VMM_KHEAP_BASE <= b /\ p < 2 ^ 64 /\
     heap_ok s' (large_region s' b :: A) F R /\ keeps A s s' /\ blk_size s' b = size /\
     0 < blk_pages s' b).
Proof.
  intros Hok Hs Hm Hlt. unfold kmalloc_large.
  destruct (heap_arena _ _ _ _ Hok) as (Ha & Hp & Hb). unfold VMM_KHEAP_BASE, PAGE_SIZE, HEADER_SIZE in *.
  rewrite (u64_small (size + 24 + 4096 - 1)) by lia. set (pages := (size + 24 + 4096 - 1) / 4096).
  assert (Hpg : size + 24 <= pages * 4096 <= size + 24 + 4095 /\ 0 < pages) by (unfold pages; divlia).
  pose proof (map_pages_same (Z.to_nat pages) s 0) as Hsame.
  destruct (map_pages (Z.to_nat pages) s 0) as [ok s1]. cbn [snd] in Hsame.
  destruct ok; [right|by left].
  destruct (same_heap_ok _ _ _ _ _ Hsame Hok) as [Hok1 Hk1]. destruct Hsame as (Em & Ef & En & Eb).
  exists (g_arena_next s). rewrite (u64_small (g_arena_next s + 24)) by lia.
  rewrite (u64_small (pages * 4096)) by lia.
  set (s' := advance _ _).
  assert (En' : g_arena_next s' = g_arena_next s1 + pages * 4096) by (cbn; rewrite u64_small; lia).
  assert (Eb' : g_arena_bytes s' = g_arena_bytes s1 + pages * 4096) by (cbn; rewrite u64_small; lia).
  assert (Zb : blk_size s' (g_arena_next s) = size).
  { unfold blk_size. cbn. rewrite !upd_ne by lia. apply upd_eq. }
  assert (Pb : blk_pages s' (g_arena_next s) = pages).
  { unfold blk_pages. cbn. rewrite upd_ne by lia. apply upd_eq. }
  assert (Hm' : forall x, x < g_arena_next s1 -> hmem s' x = hmem s1 x) by (intros; cbn; rewrite !upd_ne by lia; done).
  destruct (arena_extend s1 s' A F R (large_region s' (g_arena_next s)) F
              (large_region s' (g_arena_next s) :: A) (pages * 4096))
    as [H1 H2]; unfold PAGE_SIZE; try done; try lia.
  - divlia.
  - unfold large_region. by rewrite Pb, En.
  - intros b ?. by left.
  - intros b m [E|?]%elem_of_cons; [right|by left]. split; [done|].
    unfold large_region in E. rewrite Pb in E. injection E as -> ->.
    rewrite Zb. unfold HEADER_SIZE, PAGE_SIZE. lia.
  - unfold block_ok, ALIGN. rewrite En, Zb. split_and!; [lia|divlia|done].
  - change (g_free s') with (g_free s1). eapply chain_ext; [|apply Hok1].
    intros x Hx. symmetry. apply Hm'. pose proof (free_bounds _ _ _ _ _ Hok1 Hx).
    destruct (heap_free _ _ _ _ Hok1 x Hx) as (Hx16 & _). unfold ALIGN, HEADER_SIZE in *. lia.
  - split_and!; try done; try lia. intros r x Hr Hx. rewrite (H2 r x) by done. by rewrite Em.
Qed.

(** *** [kmalloc] *)

(** What a successful call gives: a block of at least [size] bytes whose
    region is new. *)
Definition allocated (s : heap P) (A : list region) (F : list Z) (R : list region) (size p : Z)
    (s' : heap P) : Prop :=
  exists b r, p = b + HEADER_SIZE /\ VMM_KHEAP_BASE <= b /\ p < 2 ^ 64 /\
    heap_ok s' (r :: A) F R /\ keeps A s s' /\ size <= blk_size s' b /\
    (r = free_region s' b \/ (r = large_region s' b /\ 0 < blk_pages s' b)).

Lemma keeps_trans A s1 s2 s3 : keeps A s1 s2 -> keeps A s2 s3 -> keeps A s1 s3.
Proof. intros H1 H2 r x Hr Hx. rewrite (H2 r x), (H1 r x) by done. done. Qed.

Lemma heap_grow_small s size : 0 < size <= PAGE_SIZE -> heap_grow s size = heap_grow_page s.
Proof.
  intros Hs. unfold heap_grow, PAGE_SIZE in *.
  by replace (Z.to_nat ((size + 4096 - 1) / 4096)) with 1%nat by divlia.
Qed.

(** After growing, the request fits the new page. *)
Lemma kmalloc_retry retries fuel s A b F R size :
  heap_ok s A (b :: F) R -> blk_size s b = PAGE_SIZE - HEADER_SIZE ->
  ALIGN <= size <= PAGE_SIZE - HEADER_SIZE -> size mod 16 = 0 -> (length F + 1 < fuel)%nat ->
  exists p s' F', kmalloc (S retries) fuel s size = Some (p, s') /\ allocated s A F' R size p s'.
Proof.
  intros Hok Hb Hs Hm Hf. unfold ALIGN, PAGE_SIZE, HEADER_SIZE in *. cbn [kmalloc].
  rewrite (proj2 (Z.eqb_neq size 0)) by lia. rewrite align_up_spec by lia.
  replace ((size + 15) / 16 * 16) with size by divlia.
  unfold PAGE_SIZE, HEADER_SIZE. rewrite (proj2 (Z.ltb_ge (4096 - 24) size)) by lia.
  destruct (first_fit_ok fuel s A [] (b :: F) R None size) as [[_ Hall]|(b' & s' & F' & E & H1 & H2 & H3 & H4 & H5 & _)];
    unfold ALIGN; try done; try lia; [divlia|cbn; lia| |].
  - specialize (Hall b). rewrite Hb in Hall. specialize (Hall ltac:(set_solver)). lia.
  - rewrite E. unfold VMM_KHEAP_BASE, HEADER_SIZE in *.
    rewrite (proj2 (Z.eqb_neq (b' + 24) 0)) by lia. cbn [negb].
    exists (b' + 24), s', F'. split; [done|]. exists b', (free_region s' b').
    unfold VMM_KHEAP_BASE, HEADER_SIZE. split_and!; try done; try lia; by left.
Qed.

Lemma kmalloc_ok retries fuel s A F R size :
  heap_ok s A F R -> 0 <= size < 2 ^ 61 -> g_arena_next s + size + 3 * PAGE_SIZE < 2 ^ 64 ->
  (length F + 1 < fuel)%nat -> (2 <= retries)%nat ->
  exists p s' F', kmalloc retries fuel s size = Some (p, s') /\
    ((p = 0 /\ heap_ok s' A F' R /\ keeps A s s' /\
      (align_up (if size =? 0 then ALIGN else size) <= PAGE_SIZE - HEADER_SIZE ->
       fst (pmm_alloc (hvm s)) = 0)) \/
     allocated s A F' R size p s').
Proof.
  intros Hok Hs Hlt Hf Hr. destruct retries as [|[|retries]]; [lia..|]. cbn [kmalloc].
  set (size0 := if size =? 0 then ALIGN else size). unfold ALIGN in size0.
  assert (Hs0 : 1 <= size0 <= Z.max 16 size /\ size <= size0) by (unfold size0; split_tests; lia).
  rewrite !(align_up_spec size0) by lia. set (a := (size0 + 15) / 16 * 16).
  assert (Ha : 16 <= a /\ size0 <= a <= size0 + 15 /\ a mod 16 = 0) by (unfold a; divlia).
  clearbody a. unfold PAGE_SIZE, HEADER_SIZE in *.
  destruct (Z.ltb_spec (4096 - 24) a) as [Hlarge|Hsmall].
  - pose proof (kmalloc_large_ok s A F R a Hok) as HL. unfold PAGE_SIZE, HEADER_SIZE in HL.
    specialize (HL ltac:(lia) ltac:(divlia) ltac:(lia)).
    destruct (kmalloc_large s a) as [p s'].
    exists p, s', F. split; [done|]. destruct HL as [[-> Hsame]|(b & Ep & H1 & H2 & H3 & H4 & H5 & H6)].
    + left. destruct (same_heap_ok _ _ _ _ _ Hsame Hok). split_and!; try done. lia.
    + right. exists b, (large_region s' b). split_and!; try done; try lia; by right.
  - destruct (first_fit_ok fuel s A [] F R None a) as [[E _]|(b & s' & F' & E & H1 & H2 & H3 & H4 & H5 & _)];
      unfold ALIGN; try done; try lia; [divlia| |]; rewrite E.
    + cbn [negb Z.eqb]. rewrite heap_grow_small by (unfold PAGE_SIZE; lia).
      destruct (heap_grow_page_ok s A F R Hok) as [[Hnone Hsame]|(b & H1 & H2 & H3 & H4)];
        [unfold PAGE_SIZE; lia|..].
      * assert (g_arena_bytes (heap_grow_page s) = g_arena_bytes s) as -> by apply Hsame.
        rewrite Z.eqb_refl. exists 0, (heap_grow_page s), F. split; [done|]. left.
        destruct (same_heap_ok _ _ _ _ _ Hsame Hok). done.
      * rewrite (proj2 (Z.eqb_neq (g_arena_bytes (heap_grow_page s)) _)) by (unfold PAGE_SIZE in H4; lia).
        destruct (kmalloc_retry retries fuel (heap_grow_page s) A b F R a) as (p & s' & F' & E' & Hal);
          unfold ALIGN, PAGE_SIZE, HEADER_SIZE; try done; try lia.
        exists p, s', F'. split; [exact E'|]. right.
        destruct Hal as (b' & r & ? & ? & ? & ? & ? & ? & ?). exists b', r.
        split_and!; try done; [by eapply keeps_trans|lia].
    + unfold VMM_KHEAP_BASE, HEADER_SIZE in *.
      rewrite (proj2 (Z.eqb_neq (b + 24) 0)) by lia. cbn [negb].
      exists (b + 24), s', F'. split; [done|]. right. exists b, (free_region s' b).
      unfold VMM_KHEAP_BASE, HEADER_SIZE. split_and!; try done; try lia; by left.
Qed.

(** *** [kfree] *)

Lemma find_link_ok fuel s F1 F2 link b :
  is_link F1 link -> lseg (blk_next s) (g_free s) F1 (get_link s link) ->
  chain (blk_next s) (get_link s link) F2 -> (length F2 < fuel)%nat ->
  exists G1 G2 link', find_link fuel s link b = Some link' /\ F1 ++ F2 = G1 ++ G2 /\ is_link G1 link' /\
    lseg (blk_next s) (g_free s) G1 (get_link s link') /\ chain (blk_next s) (get_link s link') G2.
Proof.
  revert F1 F2 link; induction fuel as [|fuel IH]; intros F1 F2 link Hl Hseg Hch Hf; [lia|].
  cbn [find_link]. destruct (negb _ && _) eqn:Et; [|by exists F1, F2, link].
  bool_to_prop. destruct (chain_cons_inv _ _ _ Hch) as (F3 & -> & Hch3); [done|].
  destruct (IH (F1 ++ [get_link s link]) F3 (Some (get_link s link))) as (G1 & G2 & l' & E & EF & ?).
  - by exists F1.
  - apply lseg_app. exists (get_link s link). split; [done|]. cbn. done.
  - done.
  - cbn in Hf. lia.
  - exists G1, G2, l'. by rewrite <-EF, <-app_assoc.
Qed.

(** Words of a held block belong to no free block and to no other held
    block. *)
Lemma held_alone s r A F R x :
  heap_ok s (r :: A) F R -> inside x r = true ->
  (forall r', r' ∈ A -> inside x r' = false) /\ (forall b, b ∈ F -> inside x (free_region s b) = false).
Proof.
  intros Hok Hx. pose proof (heap_tile _ _ _ _ Hok x) as Ht.
  rewrite !cover_app in Ht. cbn [cover] in Ht. rewrite Hx in Ht.
  pose proof (cover_nonneg x A). pose proof (cover_nonneg x R).
  pose proof (cover_nonneg x (map (free_region s) F)).
  split.
  - intros r' Hr. destruct (inside x r') eqn:E; [|done]. pose proof (cover_elem _ _ _ Hr E).
    split_tests_in Ht; lia.
  - intros b Hb. destruct (inside x (free_region s b)) eqn:E; [|done].
    apply (elem_of_map (free_region s)) in Hb. pose proof (cover_elem _ _ _ Hb E).
    split_tests_in Ht; lia.
Qed.

Lemma insert_ok s A F1 F2 R b link c :
  heap_ok s (free_region s b :: A) (F1 ++ F2) R -> is_link F1 link ->
  lseg (blk_next s) (g_free s) F1 c -> chain (blk_next s) c F2 ->
  let s' := set_link (set_next s b c) link b in
  heap_ok s' A (F1 ++ b :: F2) R /\ keeps A s s'.
Proof.
  intros Hok Hl Hseg Hch s'.
  destruct (heap_held _ _ _ _ Hok b (HEADER_SIZE + blk_size s b)) as ((Hb16 & Hb8 & Hs8) & _); [left|].
  assert (Hin : forall w, b <= w <= b + 16 -> inside w (free_region s b) = true).
  { intros w Hw. unfold inside, free_region, HEADER_SIZE, ALIGN in *. cbn [fst snd]. lia. }
  assert (Hsub : F1 ⊆ F1 ++ F2) by set_solver.
  assert (Hfar : forall x w, x ∈ F1 ++ F2 -> header_word x w -> w < b \/ b + 16 < w).
  { intros x w Hx Hw. destruct (Z_le_gt_dec b w) as [?|]; [|lia]. destruct (Z_le_gt_dec w (b + 16)); [|lia].
    pose proof (header_inside _ _ _ _ _ _ Hok Hx Hw) as E.
    destruct (held_alone _ _ _ _ _ _ Hok (Hin w ltac:(lia))) as [_ Hf]. by rewrite Hf in E. }
  assert (Hlb : forall w, b <= w <= b + 16 -> ~ link_word link w).
  { intros w Hw Hlw. eapply (link_not_held s _ _ _ _ _ (free_region s b) w); [done..|left|by apply Hin|done]. }
  assert (Hw : forall w, w <> b + 16 -> ~ link_word link w -> hmem s' w = hmem s w).
  { intros w H1 H2. unfold s'. rewrite set_link_word by done. cbn. by apply upd_ne. }
  assert (Hsz : forall x, x ∈ F1 ++ b :: F2 -> blk_size s' x = blk_size s x).
  { intros x Hx. destruct (decide (x = b)) as [->|].
    - apply Hw; [lia|apply Hlb; lia].
    - assert (Hx' : x ∈ F1 ++ F2) by set_solver.
      apply Hw; [|by eapply link_not_size]. pose proof (Hfar x x Hx' (or_introl eq_refl)). lia. }
  assert (Hk : keeps A s s').
  { intros r w Hr Hi. apply Hw.
    - intros ->. destruct (held_alone _ _ _ _ _ _ Hok (Hin (b + 16) ltac:(lia))) as [Hf _]. by rewrite Hf in Hi.
    - eapply link_not_held; [done|done|done|by right|done]. }
  assert (Hregs : g_arena_next s' = g_arena_next s /\ g_arena_bytes s' = g_arena_bytes s) by (destruct link; done).
  destruct Hregs as (En & Eb). split; [|done].
  pose proof (chain_NoDup _ _ _ (heap_chain _ _ _ _ Hok)) as Hnd.
  pose proof (heap_arena _ _ _ _ Hok) as (Ha & _ & _).
  split.
  - assert (Hseg1 : lseg (blk_next (set_next s b c)) (g_free (set_next s b c)) F1 c).
    { eapply lseg_ext; [|exact Hseg]. intros x Hx. unfold blk_next. cbn. rewrite upd_ne; [done|].
      pose proof (Hfar x (x + 16) ltac:(set_solver) ltac:(right; by right)). lia. }
    apply lseg_chain with b.
    + apply set_link_spec with c; [done| |done]. by apply NoDup_app in Hnd as [? _].
    + assert (Hbz : b <> 0).
      { pose proof (heap_tile _ _ _ _ Hok b) as Ht. cbn [app cover] in Ht.
        rewrite (Hin b) in Ht by lia. pose proof (cover_nonneg b (A ++ map (free_region s) (F1 ++ F2) ++ R)).
        unfold VMM_KHEAP_BASE in Ht. split_tests_in Ht; lia. }
      split_and!; [done|done|].
      assert (blk_next s' b = c) as ->.
      { unfold blk_next, s'. rewrite set_link_word by (apply Hlb; lia). cbn. apply upd_eq. }
      eapply chain_ext; [|exact Hch]. intros x Hx. symmetry. apply Hw.
      * pose proof (Hfar x (x + 16) ltac:(set_solver) ltac:(right; by right)). lia.
      * eapply link_not_next; [done|done|done|set_solver|].
        apply NoDup_app in Hnd as (_ & Hd & _). intros Hx1. by apply (Hd x Hx1).
  - rewrite En, Eb. apply Hok.
  - intros x. rewrite En, <-(heap_tile _ _ _ _ Hok x).
    rewrite (free_regions_ext s s') by done.
    rewrite !map_app, !cover_app. cbn [app map cover]. lia.
  - intros x Hx. eapply block_ok_ext; [by apply Hsz|].
    destruct (decide (x = b)) as [->|]; [done|]. eapply heap_free; [done|set_solver].
  - intros x n Hx. destruct (heap_held _ _ _ _ Hok x n) as [? ?]; [by right|].
    assert (Ex : blk_size s' x = blk_size s x)
      by (apply (Hk (x, n)); [done|eapply held_word; [done|by right]]).
    rewrite Ex. split; [by eapply block_ok_ext|done].
Qed.

Lemma merge_next_ok s A F1 b F2 R :
  heap_ok s A (F1 ++ b :: F2) R ->
  exists F2', heap_ok (merge_next s b) A (F1 ++ b :: F2') R /\ keeps A s (merge_next s b).
Proof.
  intros Hok. unfold merge_next. destruct (_ && _) eqn:Et; [|exists F2; split; [done|by intros r x]].
  destruct (heap_list _ _ _ _ _ _ Hok) as (Hnd & Hnz & Hb1 & Hb2 & Hseg & Hch).
  bool_to_prop. destruct (chain_cons_inv _ _ _ Hch) as (F3 & -> & Hch3); [done|].
  set (n := blk_next s b) in *. exists F3.
  assert (Hbin : b ∈ F1 ++ b :: n :: F3) by set_solver.
  assert (Hnin : n ∈ F1 ++ b :: n :: F3) by set_solver.
  pose proof (free_bounds _ _ _ _ _ Hok Hbin) as Hbb. pose proof (free_bounds _ _ _ _ _ Hok Hnin) as Hnb.
  pose proof (heap_arena _ _ _ _ Hok) as (Ha & _ & _).
  destruct (heap_free _ _ _ _ Hok b Hbin) as (Hb16 & Hb8 & Hbs8).
  destruct (heap_free _ _ _ _ Hok n Hnin) as (Hn16 & Hn8 & Hns8).
  unfold VMM_KHEAP_BASE, ALIGN, HEADER_SIZE in *.
  rewrite u64_small in * by lia.
  set (s' := set_next _ _ _).
  assert (Hm : forall w, w <> b -> w <> b + 16 -> hmem s' w = hmem s w) by (intros; cbn; by rewrite !upd_ne).
  assert (Zb : blk_size s' b = blk_size s b + (24 + blk_size s n)).
  { unfold blk_size at 1. cbn. rewrite upd_ne by lia. apply upd_eq. }
  assert (Nb : blk_next s' b = blk_next s n).
  { unfold blk_next. cbn. rewrite upd_eq. by rewrite upd_ne by lia. }
  assert (Hne : forall x w, x ∈ F1 ++ F3 -> header_word x w -> w <> b /\ w <> b + 16).
  { intros x w Hx Hw. destruct (header_apart s A F1 b (n :: F3) R x w Hok) as [?|?];
      [set_solver|done|unfold HEADER_SIZE in *; lia..]. }
  assert (Hsz : forall x, x ∈ F1 ++ F3 -> blk_size s' x = blk_size s x).
  { intros x Hx. destruct (Hne x x Hx (or_introl eq_refl)). by apply Hm. }
  assert (Hk : keeps A s s').
  { intros r w Hr Hi. assert (forall w', b <= w' <= b + 16 -> w <> w').
    { intros w' Hw' ->. destruct (free_alone s A F1 b (n :: F3) R w' Hok) as (Hf & _).
      - unfold inside, free_region, HEADER_SIZE. cbn [fst snd]. lia.
      - by rewrite Hf in Hi. }
    apply Hm; auto with lia. }
  split; [|done]. split.
  - apply lseg_chain with b.
    + eapply lseg_ext; [|exact Hseg]. intros x Hx. symmetry.
      destruct (Hne x (x + 16)); [set_solver|right; by right|]. by apply Hm.
    + split_and!; [done..|]. rewrite Nb. eapply chain_ext; [|exact Hch3]. intros x Hx. symmetry.
      destruct (Hne x (x + 16)); [set_solver|right; by right|]. by apply Hm.
  - apply Hok.
  - intros x. change (g_arena_next s') with (g_arena_next s). rewrite <-(heap_tile _ _ _ _ Hok x).
    rewrite !map_app, !cover_app. cbn [app map cover].
    rewrite !(free_regions_ext s s') by (intros; apply Hsz; set_solver).
    unfold free_region at 2 5 6. rewrite Zb. unfold inside, HEADER_SIZE. cbn [fst snd].
    split_tests; lia.
  - intros x [Hx|[->|Hx]%elem_of_cons]%elem_of_app.
    + eapply block_ok_ext; [apply Hsz; set_solver|]. eapply heap_free; [done|set_solver].
    + unfold block_ok, ALIGN. rewrite Zb. split_and!; [lia|done|divlia].
    + eapply block_ok_ext; [apply Hsz; set_solver|]. eapply heap_free; [done|set_solver].
  - intros x m Hx. destruct (heap_held _ _ _ _ Hok x m Hx) as [? ?].
    assert (Ex : blk_size s' x = blk_size s x) by (by eapply keeps_held).
    rewrite Ex. split; [by eapply block_ok_ext|done].
Qed.

(** Freeing a small block whose [pages] word is 0 puts it on the free list. *)
Lemma kfree_small_ok fuel s A F R b :
  heap_ok s (free_region s b :: A) F R -> blk_pages s b <= 0 -> VMM_KHEAP_BASE <= b ->
  b + HEADER_SIZE < 2 ^ 64 -> (length F < fuel)%nat ->
  exists s' F', kfree fuel s (b + HEADER_SIZE) = Some s' /\ heap_ok s' A F' R /\ keeps A s s' /\ b ∈ F'.
Proof.
  intros Hok Hp Hb Hb64 Hf. unfold kfree. unfold VMM_KHEAP_BASE in Hb.
  rewrite (proj2 (Z.eqb_neq (b + HEADER_SIZE) 0)) by (unfold HEADER_SIZE; lia).
  replace (u64 (b + HEADER_SIZE - HEADER_SIZE)) with b
    by (rewrite u64_small; unfold HEADER_SIZE in *; lia).
  rewrite (proj2 (Z.ltb_ge 0 (blk_pages s b))) by lia.
  destruct (find_link_ok fuel s [] F None b) as (G1 & G2 & link & E & EF & Hl & Hseg & Hch);
    [done|done|apply Hok|done|].
  rewrite E. cbn [app] in EF. subst F.
  destruct (insert_ok s A G1 G2 R b link (get_link s link) Hok Hl Hseg Hch) as [Hok1 Hk1].
  set (s1 := set_link _ _ _) in *.
  destruct (merge_next_ok s1 A G1 b G2 R Hok1) as (F2' & Hok2 & Hk2).
  exists (merge_next s1 b), (G1 ++ b :: F2'). split_and!; [|done|by eapply keeps_trans|set_solver].
  unfold merge_prev. destruct (heap_list _ _ _ _ _ _ Hok2) as (_ & _ & _ & _ & Hseg2 & _).
  by rewrite (get_link_spec _ _ _ _ Hl Hseg2), Z.eqb_refl.
Qed.

Lemma release_same virt l s : same_heap s (fold_left (release_page virt) l s).
Proof.
  revert s; induction l as [|i l IH]; intros s; cbn [fold_left]; [done|].
  eapply same_heap_trans; [|apply IH]. unfold release_page.
  destruct (vmm_translate _ _) as [phys v]. by destruct (negb _).
Qed.

(** Freeing a multi-page block retires its region. *)
Lemma kfree_large_ok fuel s A F R b :
  heap_ok s (large_region s b :: A) F R -> 0 < blk_pages s b -> VMM_KHEAP_BASE <= b ->
  b + HEADER_SIZE < 2 ^ 64 ->
  exists s', kfree fuel s (b + HEADER_SIZE) = Some s' /\
    heap_ok s' A F (large_region s b :: R) /\ keeps A s s'.
Proof.
  intros Hok Hp Hb Hb64. unfold kfree. unfold VMM_KHEAP_BASE in Hb.
  rewrite (proj2 (Z.eqb_neq (b + HEADER_SIZE) 0)) by (unfold HEADER_SIZE; lia).
  replace (u64 (b + HEADER_SIZE - HEADER_SIZE)) with b
    by (rewrite u64_small; unfold HEADER_SIZE in *; lia).
  rewrite (proj2 (Z.ltb_lt 0 (blk_pages s b))) by lia. eexists. split; [done|].
  destruct (same_heap_ok _ _ A F (large_region s b :: R) (release_same b (zseq 0 (Z.to_nat (blk_pages s b))) s)) as [H1 H2].
  - destruct Hok as [H1 H2 H3 H4 H5]. split; try done.
    + intros x. rewrite <-H3, !cover_app. cbn [cover]. lia.
    + intros x n Hx. apply H5. by right.
  - done.
Qed.

End Heap.

(** ** Properties *)

(** C16. [kmalloc] terminates and returns memory of its own: with two calls
    deep recursion and fuel for the free list, it either returns a pointer
    whose payload of at least [size] bytes, with its header, is a region
    disjoint from every block the clients hold, or returns NULL having
    allocated nothing. In both cases the blocks still tile the arena
    exactly (every byte in one held, free or retired block) and no word of
    a held block changes; a request of up to one page fails only when the
    frame allocator is exhausted. *)
Theorem kmalloc_fresh_block {P} `{FramePool P} retries fuel (s : heap P) A F R size :
  heap_ok s A F R -> 0 <= size < 2 ^ 61 -> g_arena_next s + size + 3 * PAGE_SIZE < 2 ^ 64 ->
  (length F + 1 < fuel)%nat -> (2 <= retries)%nat ->
  exists p s', kmalloc retries fuel s size = Some (p, s') /\ keeps A s s' /\
    ((p = 0 /\ (exists F', heap_ok s' A F' R) /\
      (size <= PAGE_SIZE - HEADER_SIZE - 8 -> fst (pmm_alloc (hvm s)) = 0)) \/
     (p <> 0 /\ p mod 8 = 0 /\ exists n F', HEADER_SIZE + size <= n /\
        heap_ok s' ((p - HEADER_SIZE, n) :: A) F' R)).
Proof.
  intros Hok Hs Hlt Hf Hr.
  destruct (kmalloc_ok retries fuel s A F R size Hok Hs Hlt Hf Hr) as (p & s' & F' & E & Hres).
  exists p, s'. split; [done|].
  destruct Hres as [(-> & H1 & H2 & H3)|(b & r & -> & Hb & Hp & H1 & H2 & H3 & Hr')].
  - split; [done|]. left. split_and!; [done|eauto|]. intros Hsz. apply H3.
    unfold PAGE_SIZE, HEADER_SIZE, ALIGN in *.
    destruct (Z.eqb_spec size 0); rewrite align_up_spec by lia; [done|divlia].
  - split; [done|]. right. unfold VMM_KHEAP_BASE in Hb.
    replace (b + HEADER_SIZE - HEADER_SIZE) with b by lia.
    assert (Er : r = (b, snd r)) by (destruct Hr' as [->|[-> _]]; done).
    rewrite Er in H1. destruct (heap_held _ _ _ _ H1 b (snd r)) as [(_ & Hb8 & _) Hn]; [left|].
    unfold HEADER_SIZE in *. split_and!; [lia|divlia|]. exists (snd r), F'. split; [lia|done].
Qed.

Lemma heap_boot_ok {P} `{FramePool P} (v : vmm P) m : heap_ok (Heap v m 0 VMM_KHEAP_BASE 0) [] [] [].
Proof.
  split; [done|done| |intros b []%not_elem_of_nil|intros b n []%not_elem_of_nil].
  intros x. cbn. split_tests; [lia|done].
Qed.

(** An empty heap on a machine with ten frames. *)
Definition demo_heap : heap pmm :=
  Heap (Vmm (pmm_init pmm_bss (Some demo_memmap) 0) (fun _ => 0) 0x8000 0x8000 0x8000)
       (fun _ => 0) 0 VMM_KHEAP_BASE 0.

Lemma kmalloc_fresh_block_witness :
  exists p s', kmalloc 2 2 demo_heap 100 = Some (p, s') /\ keeps [] demo_heap s'.
Proof.
  destruct (kmalloc_fresh_block 2 2 demo_heap [] [] [] 100) as (p & s' & E & Hk & _).
  - apply heap_boot_ok.
  - lia.
  - vm_compute. reflexivity.
  - cbn. lia.
  - lia.
  - eauto.
Defined.


(** The heap after [kmalloc(100)], and the freeing of that block. *)
Definition demo_heap_1 : heap pmm :=
  match kmalloc 2 2 demo_heap 100 with Some (_, s) => s | None => demo_heap end.

Lemma demo_heap_1_ok :
  heap_ok demo_heap_1 [(VMM_KHEAP_BASE, 24 + 112)] [VMM_KHEAP_BASE + 136] [].
Proof.
  split.
  - split_and!; vm_compute; try reflexivity; discriminate.
  - split_and!; vm_compute; try reflexivity; discriminate.
  - intros x. cbn [cover app map]. unfold free_region.
    replace (blk_size demo_heap_1 (VMM_KHEAP_BASE + 136)) with 3936 by (vm_compute; reflexivity).
    replace (g_arena_next demo_heap_1) with (VMM_KHEAP_BASE + 4096) by (vm_compute; reflexivity).
    unfold inside, HEADER_SIZE. cbn [fst snd]. split_tests; lia.
  - intros b ->%list_elem_of_singleton. split_and!; vm_compute; try reflexivity; discriminate.
  - intros b n [= -> ->]%list_elem_of_singleton.
    split; [split_and!|]; vm_compute; try reflexivity; discriminate.
Qed.


(** The client fills the 64-byte payload at [p]. *)
Definition client_fill {P} (s : heap P) (p : Z) : heap P := with_hmem s (fill (hmem s) p 64 1).

(** Allocate 64 bytes, use and free them, then allocate 16 bytes twice and
    free the second block; the result is the pointers and the heaps before
    and after the last [kfree]. *)
Definition reuse_scenario (s : heap pmm) : option (Z * Z * Z * heap pmm * heap pmm) :=
  '(p1, s) ← kmalloc 2 8 s 64;
  s ← kfree 8 (client_fill s p1) p1;
  '(p2, s) ← kmalloc 2 8 s 16;
  '(p3, s) ← kmalloc 2 8 s 16;
  s' ← kfree 8 s p3;
  Some (p1, p2, p3, s, s').

(** (A defect.) Splitting a block does not initialise the [pages] word
    of the remainder, which lies in old payload. On an empty heap over
    zeroed memory: after a 64-byte block has been used and freed, the second
    of two 16-byte allocations has a nonzero [pages] word, and freeing it
    unmaps the page that also holds the first one, still in use, and hands
    its frame back. The first pointer is also not 16-byte aligned. *)
Theorem kfree_unmaps_page_in_use :
  exists p1 p2 p3 s s', reuse_scenario demo_heap = Some (p1, p2, p3, s, s') /\
    p1 mod 16 = 8 /\ p2 / PAGE_SIZE = p3 / PAGE_SIZE /\
    blk_pages s (p3 - HEADER_SIZE) = 1 /\
    fst (vmm_translate (hvm s) p2) <> 0 /\
    fst (vmm_translate (hvm s') p2) = 0 /\
    frame_is_free (pool (hvm s)) (fst (vmm_translate (hvm s) p2) / PAGE_SIZE) = false /\
    frame_is_free (pool (hvm s')) (fst (vmm_translate (hvm s) p2) / PAGE_SIZE) = true.
Proof.
  set (r := reuse_scenario demo_heap).
  assert (Hc : match r with
               | Some (p1, p2, p3, s, s') =>
                   p1 mod 16 = 8 /\ p2 / PAGE_SIZE = p3 / PAGE_SIZE /\
                   blk_pages s (p3 - HEADER_SIZE) = 1 /\
                   fst (vmm_translate (hvm s) p2) <> 0 /\
                   fst (vmm_translate (hvm s') p2) = 0 /\
                   frame_is_free (pool (hvm s)) (fst (vmm_translate (hvm s) p2) / PAGE_SIZE) = false /\
                   frame_is_free (pool (hvm s')) (fst (vmm_translate (hvm s) p2) / PAGE_SIZE) = true
               | None => False
               end).
  { vm_compute. split_and!; reflexivity || discriminate. }
  destruct r as [[[[[p1 p2] p3] s] s']|]; [|done]. exists p1, p2, p3, s, s'. auto.
Qed.
