(* ===== verification/Pipe.v ===== *)
(** * Pipes (src/kernel/vfs/vfs.c, [struct vfs_pipe])

    The 4 KiB ring buffer between a writer and a reader. A blocking call
    ([hlt] while the buffer is empty or full) is a call that returns
    [RWait] or [WBlocked]: the other tasks run and the loop tests again. The
    file shows that the ring buffer is a FIFO queue. *)

From stdpp Require Import base numbers list gmap.
From Stdlib Require Import ZArith Lia ZifyBool.
From S2P Require Import Prelude.

Definition PIPE_BUF_SIZE : Z := 4096.
Definition EPIPE : Z := 32.

Record vfs_pipe := VfsPipe {
  p_buf : list Z;
  p_head : Z;
  p_count : Z;
  p_refs_r : Z;
  p_refs_w : Z;
}.

(** A pipe as [memset] and the initialisation in [vfs_pipe] leave it. *)
Definition pipe_new : vfs_pipe := VfsPipe (replicate 4096 0) 0 0 1 1.

Inductive rres :=
| RDone (n : Z) (bytes : list Z) (p : vfs_pipe)
| RWait.

(** [pipe_read]: the return value and the bytes stored in the caller's
    buffer, or the need to wait. *)
Definition pipe_read (p : vfs_pipe) (count : Z) : rres :=
  if p_count p =? 0 then
    if p_refs_w p =? 0 then RDone 0 [] p else RWait
  else
    let n := if count <? p_count p then count else p_count p in
    let first := PIPE_BUF_SIZE - p_head p in
    let bytes :=
      if first <? n then sub (p_buf p) (p_head p) first ++ sub (p_buf p) 0 (n - first)
      else sub (p_buf p) (p_head p) n in
    RDone n bytes
      (VfsPipe (p_buf p) ((p_head p + n) mod PIPE_BUF_SIZE) (p_count p - n)
               (p_refs_r p) (p_refs_w p)).

(** One round of the loop of [pipe_write] with [total] bytes written. *)
Inductive wstep :=
| WBroken
| WFull
| WChunk (n : Z) (p : vfs_pipe).

Definition pipe_write_round (p : vfs_pipe) (buf : list Z) (total : Z) : wstep :=
  if p_refs_r p =? 0 then WBroken
  else if p_count p =? PIPE_BUF_SIZE then WFull
  else
    let free := PIPE_BUF_SIZE - p_count p in
    let n := if zlen buf - total <? free then zlen buf - total else free in
    let wpos := (p_head p + p_count p) mod PIPE_BUF_SIZE in
    let first := PIPE_BUF_SIZE - wpos in
    let b :=
      if first <? n then
        splice (splice (p_buf p) wpos (sub buf total first)) 0 (sub buf (total + first) (n - first))
      else splice (p_buf p) wpos (sub buf total n) in
    WChunk n (VfsPipe b (p_head p) (p_count p + n) (p_refs_r p) (p_refs_w p)).

Inductive wres :=
| WDone (ret : Z)
| WBlocked (total : Z).

(** [pipe_write] from [total] bytes on; a blocked writer resumes with the
    total it has reached. *)
Fixpoint pipe_write (fuel : nat) (p : vfs_pipe) (buf : list Z) (total : Z) : option (wres * vfs_pipe) :=
  match fuel with
  | O => None
  | S fuel' =>
      if total <? zlen buf then
        match pipe_write_round p buf total with
        | WBroken => Some (WDone (if 0 <? total then total else - EPIPE), p)
        | WFull => Some (WBlocked total, p)
        | WChunk n p => pipe_write fuel' p buf (total + n)
        end
      else Some (WDone total, p)
  end.

(** ** The queue *)

Record pipe_ok (p : vfs_pipe) : Prop := PipeOk {
  pipe_len : zlen (p_buf p) = PIPE_BUF_SIZE;
  pipe_head : 0 <= p_head p < PIPE_BUF_SIZE;
  pipe_count : 0 <= p_count p <= PIPE_BUF_SIZE;
}.

(** The bytes in flight, oldest first. *)
Definition contents (p : vfs_pipe) : list Z :=
  tabulate (fun i => byte_at (p_buf p) ((p_head p + i) mod PIPE_BUF_SIZE)) (p_count p).

Lemma zlen_contents p : pipe_ok p -> zlen (contents p) = p_count p.
Proof. intros [_ _ ?]. apply zlen_tabulate. lia. Qed.

Lemma byte_at_contents p i :
  0 <= i < p_count p ->
  byte_at (contents p) i = byte_at (p_buf p) ((p_head p + i) mod PIPE_BUF_SIZE).
Proof. intros. unfold contents. by rewrite byte_at_tabulate by lia. Qed.

(** Position [i] after the head, without the modulus. *)
Lemma ring_index h i :
  0 <= h < PIPE_BUF_SIZE -> 0 <= i < PIPE_BUF_SIZE ->
  (h + i) mod PIPE_BUF_SIZE = if h + i <? PIPE_BUF_SIZE then h + i else h + i - PIPE_BUF_SIZE.
Proof. unfold PIPE_BUF_SIZE. intros. split_tests; divlia. Qed.

(** The bytes [pipe_read] copies out: in one piece, or in two around the end
    of the buffer. *)
Lemma ring_read p n :
  pipe_ok p -> 0 <= n <= p_count p ->
  (if PIPE_BUF_SIZE - p_head p <? n
   then sub (p_buf p) (p_head p) (PIPE_BUF_SIZE - p_head p) ++
        sub (p_buf p) 0 (n - (PIPE_BUF_SIZE - p_head p))
   else sub (p_buf p) (p_head p) n) = take (Z.to_nat n) (contents p).
Proof.
  intros Hok Hn. pose proof Hok as [Hl Hh Hc].
  assert (Hz : zlen (take (Z.to_nat n) (contents p)) = n).
  { pose proof (zlen_contents p Hok). unfold zlen in *. rewrite length_take. lia. }
  destruct (Z.ltb_spec (PIPE_BUF_SIZE - p_head p) n) as [Hw|Hw]; apply buf_ext; rewrite ?zlen_app, ?zlen_sub, ?Hz by lia;
    try lia; intros i Hi; rewrite byte_at_take, byte_at_contents, ring_index by lia.
  - rewrite byte_at_app, zlen_sub by lia.
    destruct (Z.ltb_spec i (PIPE_BUF_SIZE - p_head p)); rewrite byte_at_sub by lia;
      split_tests; try lia; f_equal; lia.
  - rewrite byte_at_sub by lia. split_tests; [done|lia].
Qed.

Lemma pipe_read_fifo p count n bytes p' :
  pipe_ok p -> 0 <= count -> pipe_read p count = RDone n bytes p' ->
  pipe_ok p' /\ n = zlen bytes /\ contents p = bytes ++ contents p' /\
  n = Z.min count (p_count p) /\ p_refs_r p' = p_refs_r p /\ p_refs_w p' = p_refs_w p.
Proof.
  intros Hok Hcount. pose proof Hok as [Hl Hh Hc]. unfold pipe_read.
  destruct (Z.eqb_spec (p_count p) 0) as [Hz|Hz].
  { destruct (p_refs_w p =? 0); [|done]. intros [= <- <- <-]. split_and!; try done. lia. }
  set (m := if count <? p_count p then count else p_count p).
  assert (Hm : 0 <= m <= p_count p /\ m = Z.min count (p_count p)) by (unfold m; split_tests; lia).
  rewrite ring_read by (done || lia). intros [= <- <- <-].
  set (p' := VfsPipe _ _ _ _ _).
  assert (Hok' : pipe_ok p').
  { split; cbn [p_buf p_head p_count p']; [done| |lia]. unfold PIPE_BUF_SIZE. divlia. }
  pose proof (zlen_contents p Hok) as Zp. pose proof (zlen_contents p' Hok') as Zp'.
  assert (Hz' : zlen (take (Z.to_nat m) (contents p)) = m)
    by (unfold zlen in *; rewrite length_take; lia).
  split_and!; try done; [|lia]. apply buf_ext.
  - rewrite zlen_app, Zp, Zp', Hz'. cbn. lia.
  - intros i Hi. rewrite Zp in Hi. rewrite byte_at_app, Hz' by lia.
    destruct (Z.ltb_spec i m).
    + by rewrite byte_at_take by lia.
    + rewrite !byte_at_contents by (cbn; lia). cbn [p_buf p_head p']. f_equal.
      unfold PIPE_BUF_SIZE in *. divlia.
Qed.

(** Copying [d] to the write position, in one piece or two. *)
Lemma ring_write p d b :
  pipe_ok p -> zlen d <= PIPE_BUF_SIZE - p_count p ->
  let wpos := (p_head p + p_count p) mod PIPE_BUF_SIZE in
  let first := PIPE_BUF_SIZE - wpos in
  b = (if first <? zlen d
       then splice (splice (p_buf p) wpos (sub d 0 first)) 0 (sub d first (zlen d - first))
       else splice (p_buf p) wpos d) ->
  let p' := VfsPipe b (p_head p) (p_count p + zlen d) (p_refs_r p) (p_refs_w p) in
  pipe_ok p' /\ contents p' = contents p ++ d.
Proof.
  intros Hok Hd wpos first Hb p'. pose proof Hok as [Hl Hh Hc]. pose proof (zlen_nonneg d).
  assert (Hw : 0 <= wpos < PIPE_BUF_SIZE) by (unfold wpos, PIPE_BUF_SIZE; divlia).
  assert (Hfirst : 0 < first <= PIPE_BUF_SIZE) by (unfold first; lia).
  assert (Hsub : first < zlen d -> zlen (sub d 0 first) = first /\ zlen (sub d first (zlen d - first)) = zlen d - first).
  { intros. rewrite !zlen_sub by lia. lia. }
  assert (Hlb : zlen b = PIPE_BUF_SIZE /\ forall j, 0 <= j < PIPE_BUF_SIZE ->
    byte_at b j = if (wpos <=? j) && (j <? wpos + zlen d) then byte_at d (j - wpos)
                  else if j <? zlen d - first then byte_at d (first + j) else byte_at (p_buf p) j).
  { rewrite Hb. destruct (Z.ltb_spec first (zlen d)) as [Ht|Ht].
    - destruct (Hsub Ht) as [E1 E2].
      assert (E3 : zlen (splice (p_buf p) wpos (sub d 0 first)) = PIPE_BUF_SIZE)
        by (rewrite zlen_splice; unfold first in *; lia).
      split; [rewrite zlen_splice; lia|]. intros j Hj.
      rewrite byte_at_splice, E2 by lia.
      destruct (Z.ltb_spec j (zlen d - first)).
      + rewrite (proj2 (Z.leb_le 0 j)) by lia. rewrite (proj2 (Z.ltb_lt j _)) by lia. cbn [andb].
        rewrite byte_at_sub by lia. unfold first in *.
        rewrite (proj2 (Z.leb_gt wpos j)) by lia. cbn [andb]. f_equal. lia.
      + rewrite (proj2 (Z.ltb_ge j (0 + _))) by lia. rewrite andb_false_r.
        rewrite byte_at_splice, E1 by (unfold first in *; lia). unfold first in *.
        destruct (Z.leb_spec wpos j); cbn [andb]; [|done].
        rewrite !(proj2 (Z.ltb_lt j _)) by lia. by rewrite byte_at_sub by lia.
    - split; [rewrite zlen_splice; unfold first in *; lia|]. intros j Hj.
      rewrite byte_at_splice by (unfold first in *; lia).
      destruct (_ && _); [done|]. by rewrite (proj2 (Z.ltb_ge j _)) by lia. }
  destruct Hlb as [Hlb Hbyte].
  assert (Hok' : pipe_ok p') by (split; cbn; lia).
  split; [done|]. apply buf_ext; rewrite ?zlen_app, !zlen_contents by done; [done|].
  intros i Hi. cbn [p_count p'] in Hi.
  rewrite byte_at_app, zlen_contents, byte_at_contents by (done || cbn; lia). cbn [p_buf p_head p'].
  assert (Hidx : (p_head p + i) mod PIPE_BUF_SIZE =
    if i <? p_count p then (p_head p + i) mod PIPE_BUF_SIZE
    else if i - p_count p <? first then wpos + (i - p_count p) else i - p_count p - first).
  { destruct (Z.ltb_spec i (p_count p)); [done|]. unfold first, wpos, PIPE_BUF_SIZE in *.
    split_tests; divlia. }
  rewrite Hbyte by (unfold PIPE_BUF_SIZE; divlia). destruct (Z.ltb_spec i (p_count p)) as [Hlt|Hge].
  - rewrite byte_at_contents by lia. clear Hidx.
    assert (Hold : forall k, p_count p <= k < p_count p + zlen d ->
              (p_head p + i) mod PIPE_BUF_SIZE <> (p_head p + k) mod PIPE_BUF_SIZE).
    { intros k Hk. unfold PIPE_BUF_SIZE in *. divlia. }
    set (j := (p_head p + i) mod PIPE_BUF_SIZE) in *.
    assert (Hj : 0 <= j < PIPE_BUF_SIZE) by (unfold j, PIPE_BUF_SIZE; divlia).
    destruct ((wpos <=? j) && (j <? wpos + zlen d)) eqn:E1.
    { exfalso. bool_to_prop. apply (Hold (p_count p + (j - wpos))); [lia|].
      unfold wpos, PIPE_BUF_SIZE in *. divlia. }
    destruct (Z.ltb_spec j (zlen d - first)) as [E2|]; [|done].
    exfalso. apply (Hold (p_count p + first + j)); [lia|]. unfold first, wpos, PIPE_BUF_SIZE in *. divlia.
  - rewrite Hidx. unfold first in *. split_tests; try lia; f_equal; lia.
Qed.

Lemma pipe_round_fifo p buf total n p' :
  pipe_ok p -> 0 <= total < zlen buf -> pipe_write_round p buf total = WChunk n p' ->
  pipe_ok p' /\ contents p' = contents p ++ sub buf total n /\
  n = Z.min (zlen buf - total) (PIPE_BUF_SIZE - p_count p) /\ 0 < n /\
  p_count p' = p_count p + n /\ p_refs_r p' = p_refs_r p /\ p_refs_w p' = p_refs_w p.
Proof.
  intros Hok Ht. pose proof Hok as [Hl Hh Hc]. unfold pipe_write_round.
  destruct (p_refs_r p =? 0); [done|]. destruct (Z.eqb_spec (p_count p) PIPE_BUF_SIZE); [done|].
  set (m := if zlen buf - total <? _ then _ else _).
  assert (Hm : 0 < m /\ total + m <= zlen buf /\ m = Z.min (zlen buf - total) (PIPE_BUF_SIZE - p_count p))
    by (unfold m; split_tests; lia).
  assert (Hd : zlen (sub buf total m) = m) by (rewrite zlen_sub; lia).
  assert (Hw : 0 <= (p_head p + p_count p) mod PIPE_BUF_SIZE < PIPE_BUF_SIZE) by (unfold PIPE_BUF_SIZE; divlia).
  intros [= <- <-]. clearbody m.
  destruct (ring_write p (sub buf total m) _ Hok ltac:(lia) eq_refl) as [H1 H2].
  rewrite Hd in H1, H2. set (wpos := (p_head p + p_count p) mod PIPE_BUF_SIZE) in *.
  assert (Hsame : (if PIPE_BUF_SIZE - wpos <? m
      then splice (splice (p_buf p) wpos (sub (sub buf total m) 0 (PIPE_BUF_SIZE - wpos))) 0
             (sub (sub buf total m) (PIPE_BUF_SIZE - wpos) (m - (PIPE_BUF_SIZE - wpos)))
      else splice (p_buf p) wpos (sub buf total m)) =
     (if PIPE_BUF_SIZE - wpos <? m
      then splice (splice (p_buf p) wpos (sub buf total (PIPE_BUF_SIZE - wpos))) 0
             (sub buf (total + (PIPE_BUF_SIZE - wpos)) (m - (PIPE_BUF_SIZE - wpos)))
      else splice (p_buf p) wpos (sub buf total m))).
  { destruct (Z.ltb_spec (PIPE_BUF_SIZE - wpos) m); [|done].
    rewrite !sub_sub by lia. by rewrite Z.add_0_r. }
  rewrite Hsame in H1, H2. split_and!; try done; lia.
Qed.

(** How far a call of [pipe_write] got. *)
Definition reached (total : Z) (res : wres) : Z :=
  match res with
  | WDone ret => if ret <? 0 then total else ret
  | WBlocked t => t
  end.

(** A writer that has written something reports a count, not an error. *)
Lemma pipe_write_pos fuel p buf total ret p' :
  pipe_ok p -> 0 < total -> pipe_write fuel p buf total = Some (WDone ret, p') -> 0 < ret.
Proof.
  revert p total; induction fuel as [|fuel IH]; intros p total Hok Ht; cbn [pipe_write]; [done|].
  destruct (Z.ltb_spec total (zlen buf)); [|intros [= <- <-]; lia].
  destruct (pipe_write_round p buf total) as [| |n q] eqn:Er; [|done|].
  - intros [= <- <-]. by rewrite (proj2 (Z.ltb_lt 0 total)).
  - destruct (pipe_round_fifo p buf total n q Hok ltac:(lia) Er) as (H1 & _ & _ & H4 & _).
    apply IH; [done|lia].
Qed.

Lemma pipe_write_fifo fuel p buf total res p' :
  pipe_ok p -> 0 <= total <= zlen buf -> pipe_write fuel p buf total = Some (res, p') ->
  pipe_ok p' /\ total <= reached total res <= zlen buf /\
  contents p' = contents p ++ sub buf total (reached total res - total) /\
  p_refs_r p' = p_refs_r p /\ p_refs_w p' = p_refs_w p.
Proof.
  revert p total; induction fuel as [|fuel IH]; intros p total Hok Ht; cbn [pipe_write]; [done|].
  assert (Hnone : forall r, reached total r = total ->
            pipe_ok p /\ total <= reached total r <= zlen buf /\
            contents p = contents p ++ sub buf total (reached total r - total) /\
            p_refs_r p = p_refs_r p /\ p_refs_w p = p_refs_w p).
  { intros r ->. rewrite Z.sub_diag, app_nil_r. split_and!; done || lia. }
  destruct (Z.ltb_spec total (zlen buf)).
  2:{ intros [= <- <-]. apply Hnone. cbn. split_tests; lia. }
  destruct (pipe_write_round p buf total) as [| |n q] eqn:Er.
  - intros [= <- <-]. apply Hnone. unfold reached, EPIPE.
    destruct (Z.ltb_spec 0 total); split_tests; lia.
  - intros [= <- <-]. by apply Hnone.
  - destruct (pipe_round_fifo p buf total n q Hok ltac:(lia) Er) as (H1 & H2 & H3 & H4 & H5 & H6 & H7).
    intros E. destruct (IH q (total + n) H1 ltac:(lia) E) as (Q1 & Q2 & Q3 & Q4 & Q5).
    assert (Hre : reached (total + n) res = reached total res).
    { destruct res as [ret|]; [|done]. apply pipe_write_pos in E; [|done|lia].
      unfold reached. by rewrite (proj2 (Z.ltb_ge ret 0)) by lia. }
    rewrite Hre in *. split_and!; try done; try lia; try congruence.
    rewrite Q3, H2, <-app_assoc. f_equal. rewrite sub_app by lia. f_equal. lia.
Qed.

(** Without interference the writer's loop runs at most three times: it
    finishes, finds no reader, or fills the buffer. *)
Lemma pipe_write_total fuel p buf total :
  pipe_ok p -> 0 <= total <= zlen buf -> (3 <= fuel)%nat ->
  exists res p', pipe_write fuel p buf total = Some (res, p') /\
    (forall t, res = WBlocked t -> p_count p' = PIPE_BUF_SIZE /\ p_refs_r p' <> 0) /\
    (forall ret, res = WDone ret -> p_refs_r p <> 0 -> ret = zlen buf).
Proof.
  intros Hok Ht Hf. destruct fuel as [|[|fuel]]; [lia..|]. destruct fuel as [|fuel]; [lia|].
  cbn [pipe_write]. destruct (Z.ltb_spec total (zlen buf)).
  2:{ exists (WDone total), p. split_and!; try done. intros ret [= <-]. lia. }
  destruct (pipe_write_round p buf total) as [| |n q] eqn:Er.
  - eexists _, _. split_and!; [done..|]. revert Er. unfold pipe_write_round.
    destruct (Z.eqb_spec (p_refs_r p) 0); [done|]. by destruct (_ =? _).
  - eexists _, _. split_and!; [done| |done]. intros _ _. revert Er. unfold pipe_write_round.
    destruct (Z.eqb_spec (p_refs_r p) 0); [done|]. by destruct (Z.eqb_spec (p_count p) PIPE_BUF_SIZE).
  - destruct (pipe_round_fifo p buf total n q Hok ltac:(lia) Er) as (H1 & _ & H3 & H4 & H5 & H6 & H7).
    destruct (Z.ltb_spec (total + n) (zlen buf)).
    2:{ eexists _, _. split_and!; [done..|]. intros ret [= <-]. lia. }
    unfold pipe_write_round. rewrite H6, H5.
    destruct (Z.eqb_spec (p_refs_r p) 0) as [Ez|Ez].
    { eexists _, _. split_and!; done. }
    rewrite (proj2 (Z.eqb_eq (p_count p + n) PIPE_BUF_SIZE)) by lia.
    eexists _, _. split_and!; [done| |done]. intros _ _. rewrite H6. split; [lia|done].
Qed.

(** ** Properties *)

(** The life of a pipe: reads and writes of any tasks in any order, and
    descriptors being opened and closed in between. [W] and [R] collect the
    bytes the writers handed over and the readers received. *)
Inductive pipe_step : vfs_pipe * list Z * list Z -> vfs_pipe * list Z * list Z -> Prop :=
| PipeRead p W R count n bytes p' :
    0 <= count -> pipe_read p count = RDone n bytes p' -> pipe_step (p, W, R) (p', W, R ++ bytes)
| PipeWrite fuel p W R buf total res p' :
    0 <= total <= zlen buf -> pipe_write fuel p buf total = Some (res, p') ->
    pipe_step (p, W, R) (p', W ++ sub buf total (reached total res - total), R)
| PipeRefs p W R r w :
    pipe_step (p, W, R) (VfsPipe (p_buf p) (p_head p) (p_count p) r w, W, R).

(** C22. A pipe is a bounded FIFO: after any interleaving of reads and writes
    (blocked writers resuming where they stopped), the bytes written are
    exactly the bytes read followed by the at most 4096 bytes still in the
    ring buffer; nothing is lost, duplicated or reordered. *)
Theorem pipe_is_fifo p W R :
  rtc pipe_step (pipe_new, [], []) (p, W, R) ->
  W = R ++ contents p /\ zlen (contents p) <= PIPE_BUF_SIZE.
Proof.
  intros Hrun.
  assert (Hinv : pipe_ok p /\ W = R ++ contents p).
  { change (pipe_ok (fst (fst (p, W, R))) /\ snd (fst (p, W, R)) = snd (p, W, R) ++ contents (fst (fst (p, W, R)))).
    assert (H0 : pipe_ok (fst (fst (pipe_new, @nil Z, @nil Z))) /\
                 snd (fst (pipe_new, @nil Z, @nil Z)) = snd (pipe_new, @nil Z, @nil Z) ++ contents (fst (fst (pipe_new, @nil Z, @nil Z)))).
    { split; [split; vm_compute; intuition discriminate|done]. }
    revert H0. induction Hrun as [|x y z Hxy _ IH]; [done|]. intros [Hok E]. apply IH.
    destruct Hxy as [q W1 R1 count n bytes q' Hc Er|fuel q W1 R1 buf total res q' Ht Ew|q W1 R1 r w];
      cbn [fst snd] in *.
    - destruct (pipe_read_fifo _ _ _ _ _ Hok Hc Er) as (? & _ & E' & _).
      split; [done|]. by rewrite E, E', app_assoc.
    - destruct (pipe_write_fifo _ _ _ _ _ _ Hok Ht Ew) as (? & _ & E' & _).
      split; [done|]. by rewrite E, E', app_assoc.
    - split; [|done]. by destruct Hok. }
  destruct Hinv as [Hok E]. split; [done|]. rewrite zlen_contents by done. apply Hok.
Qed.

(** Five bytes written, three read. *)
Lemma pipe_is_fifo_witness :
  exists p, rtc pipe_step (pipe_new, [], []) (p, [10; 20; 30; 40; 50], [10; 20; 30]) /\
    [10; 20; 30; 40; 50] = [10; 20; 30] ++ contents p.
Proof.
  set (p1 := match pipe_write 3 pipe_new [10; 20; 30; 40; 50] 0 with Some (_, p) => p | None => pipe_new end).
  set (p2 := match pipe_read p1 3 with RDone _ _ p => p | RWait => p1 end).
  assert (Hrun : rtc pipe_step (pipe_new, [], []) (p2, [10; 20; 30; 40; 50], [10; 20; 30])).
  { apply rtc_l with (p1, [10; 20; 30; 40; 50], []).
    - apply (PipeWrite 3 pipe_new [] [] [10; 20; 30; 40; 50] 0 (WDone 5) p1); vm_compute; intuition discriminate.
    - apply rtc_once. apply (PipeRead p1 _ [] 3 3 [10; 20; 30] p2); vm_compute; intuition discriminate. }
  exists p2. split; [exact Hrun|]. exact (proj1 (pipe_is_fifo p2 _ _ Hrun)).
Defined.

(** Reading and writing a pipe terminates for every call: a read waits
    only while the pipe is empty and has a writer, returns 0 only at end of
    file (or for an empty buffer), and a write, after at most three rounds
    without interference, has written everything, has no reader, or waits
    with the buffer full. *)
Theorem pipe_calls_progress p count buf total :
  pipe_ok p -> 0 <= count -> 0 <= total <= zlen buf ->
  (pipe_read p count = RWait <-> p_count p = 0 /\ p_refs_w p <> 0) /\
  (forall bytes p', pipe_read p count = RDone 0 bytes p' -> count = 0 \/ (p_count p = 0 /\ p_refs_w p = 0)) /\
  exists res p', pipe_write 3 p buf total = Some (res, p') /\
    (forall t, res = WBlocked t -> p_count p' = PIPE_BUF_SIZE /\ p_refs_r p' <> 0) /\
    (forall ret, res = WDone ret -> p_refs_r p <> 0 -> ret = zlen buf).
Proof.
  intros Hok Hc Ht. split_and!; [..|by apply pipe_write_total].
  - unfold pipe_read. destruct (Z.eqb_spec (p_count p) 0), (Z.eqb_spec (p_refs_w p) 0); naive_solver.
  - intros bytes p' E. pose proof (pipe_read_fifo _ _ _ _ _ Hok Hc E) as (_ & _ & _ & Hn & _).
    destruct (Z.eq_dec (p_count p) 0) as [Ez|]; [|lia]. right. split; [done|].
    revert E. unfold pipe_read. rewrite (proj2 (Z.eqb_eq (p_count p) 0) Ez).
    by destruct (Z.eqb_spec (p_refs_w p) 0).
Qed.

Lemma pipe_calls_progress_witness :
  pipe_read pipe_new 10 = RWait.
Proof.
  apply (pipe_calls_progress pipe_new 10 [] 0).
  - split; vm_compute; intuition discriminate.
  - lia.
  - done.
  - split; [reflexivity|discriminate].
Defined.
