(* ===== verification/Vfs.v ===== *)
(** * Virtual file system (src/kernel/vfs/vfs.c)

    The in-memory tree, the open file descriptions and the descriptor
    tables. Every kernel object (node, open file, pipe) lives in a finite map
    from its address; [kfree] removes it from the map and addresses are not
    reused, so an access through a dangling pointer is a failing lookup. An
    operation is a function [vfs -> option (A * vfs)]: [None] is an access
    to an object that does not exist, or a loop that does not end. A NULL
    pointer is address 0.

    [kmalloc] either succeeds or fails as the oracle [oom] says. The bytes of
    a fresh buffer are given by [junk]. The devices behind device nodes are
    a parameter ([DeviceTable]); a call that blocks returns [IoWait]. *)

From stdpp Require Import base numbers list gmap.
From Stdlib Require Import ZArith Lia ZifyBool.
From S2P Require Import Prelude.
From S2P Require Import Klib.
From S2P Require Import Pipe.

Definition ENOENT : Z := 2.
Definition EIO : Z := 5.
Definition EBADF : Z := 9.
Definition ENOMEM : Z := 12.
Definition EEXIST : Z := 17.
Definition ENOTDIR : Z := 20.
Definition EISDIR : Z := 21.
Definition EINVAL : Z := 22.
Definition ENOTTY : Z := 25.

Definition O_RDONLY : Z := 0.
Definition O_WRONLY : Z := 1.
Definition O_RDWR : Z := 2.
Definition O_CREAT : Z := 0x40.
Definition O_TRUNC : Z := 0x200.
Definition O_APPEND : Z := 0x400.

Definition VFS_NAME_MAX : Z := 64.
Definition VFS_MAX_FDS : Z := 16.
Definition SIZEOF_DIRENT : Z := 76.

(** ** Data *)

Inductive node_type := VFS_DIR | VFS_FILE | VFS_DEVICE.

#[export] Instance node_type_eq_dec : EqDecision node_type.
Proof. solve_decision. Defined.

Record vfs_node := VfsNode {
  n_name : list Z;
  n_type : node_type;
  n_mode : Z;
  n_uid : Z;
  n_gid : Z;
  n_data : list Z;
  n_size : Z;
  n_capacity : Z;
  n_ops : option Z;
  n_priv : Z;
  n_parent : Z;
  n_sibling : Z;
  n_child : Z;
}.

Record vfs_file := VfsFile {
  f_node : Z;
  f_pipe : Z;
  f_pos : Z;
  f_flags : Z;
  f_refs : Z;
}.

Record vfs_dirent := VfsDirent {
  d_name : list Z;
  d_type : node_type;
  d_size : Z;
  d_mode : Z;
}.

(** The outcome of a call that moves data: a return value with the bytes for
    the caller's buffer, or the need to wait. *)
Inductive io :=
| IoRet (n : Z) (bytes : list Z)
| IoWait (total : Z).

(** [struct file_ops] over the state [D] of the devices; [None] is a NULL
    function pointer. *)
Record file_ops (D : Type) := FileOps {
  op_read : option (Z -> Z -> Z -> D -> io * D);
  op_write : option (Z -> list Z -> Z -> D -> Z * D);
  op_ioctl : option (Z -> Z -> list Z -> D -> (Z * list Z) * D);
}.
Arguments FileOps {D}.
Arguments op_read {D}.
Arguments op_write {D}.
Arguments op_ioctl {D}.

Class DeviceTable (D : Type) := dev_ops : Z -> file_ops D.

Record vfs (D : Type) := Vfs {
  nodes : gmap Z vfs_node;
  files : gmap Z vfs_file;
  pipes : gmap Z vfs_pipe;
  g_root : Z;
  tables : gmap Z (list Z);   (* the fd table of every task *)
  cur : option Z;             (* the current task *)
  next_id : Z;
  oom : list bool;
  devs : D;
}.
Arguments Vfs {D}.
Arguments nodes {D}.
Arguments files {D}.
Arguments pipes {D}.
Arguments g_root {D}.
Arguments tables {D}.
Arguments cur {D}.
Arguments next_id {D}.
Arguments oom {D}.
Arguments devs {D}.

Definition with_nodes {D} (s : vfs D) m : vfs D :=
  Vfs m (files s) (pipes s) (g_root s) (tables s) (cur s) (next_id s) (oom s) (devs s).
Definition with_files {D} (s : vfs D) m : vfs D :=
  Vfs (nodes s) m (pipes s) (g_root s) (tables s) (cur s) (next_id s) (oom s) (devs s).
Definition with_pipes {D} (s : vfs D) m : vfs D :=
  Vfs (nodes s) (files s) m (g_root s) (tables s) (cur s) (next_id s) (oom s) (devs s).
Definition with_root {D} (s : vfs D) r : vfs D :=
  Vfs (nodes s) (files s) (pipes s) r (tables s) (cur s) (next_id s) (oom s) (devs s).
Definition with_tables {D} (s : vfs D) t : vfs D :=
  Vfs (nodes s) (files s) (pipes s) (g_root s) t (cur s) (next_id s) (oom s) (devs s).
Definition with_alloc {D} (s : vfs D) i o : vfs D :=
  Vfs (nodes s) (files s) (pipes s) (g_root s) (tables s) (cur s) i o (devs s).
Definition with_devs {D} (s : vfs D) d : vfs D :=
  Vfs (nodes s) (files s) (pipes s) (g_root s) (tables s) (cur s) (next_id s) (oom s) d.

(** ** The monad *)

Definition M (D A : Type) : Type := vfs D -> option (A * vfs D).

#[export] Instance M_ret {D} : MRet (M D) := fun A x s => Some (x, s).
#[export] Instance M_bind {D} : MBind (M D) := fun A B f m s =>
  match m s with
  | None => None
  | Some (x, s') => f x s'
  end.

Definition fault {D A} : M D A := fun _ => None.
Definition get {D} : M D (vfs D) := fun s => Some (s, s).
Definition modify {D} (f : vfs D -> vfs D) : M D unit := fun s => Some (tt, f s).

(** Access through a pointer: the object must exist. *)
Definition get_node {D} (a : Z) : M D vfs_node := fun s => n ← nodes s !! a; Some (n, s).
Definition get_file {D} (a : Z) : M D vfs_file := fun s => f ← files s !! a; Some (f, s).
Definition get_pipe {D} (a : Z) : M D vfs_pipe := fun s => p ← pipes s !! a; Some (p, s).

Definition put_node {D} (a : Z) (n : vfs_node) : M D unit :=
  modify (fun s => with_nodes s (<[a := n]> (nodes s))).
Definition put_file {D} (a : Z) (f : vfs_file) : M D unit :=
  modify (fun s => with_files s (<[a := f]> (files s))).
Definition put_pipe {D} (a : Z) (p : vfs_pipe) : M D unit :=
  modify (fun s => with_pipes s (<[a := p]> (pipes s))).

(** [kmalloc]: a fresh address, or 0 when the oracle says so. *)
Definition kmalloc_id {D} : M D Z := fun s =>
  match oom s with
  | true :: o => Some (0, with_alloc s (next_id s) o)
  | _ => Some (next_id s, with_alloc s (next_id s + 1) (tail (oom s)))
  end.

(** [kfree]; freeing NULL does nothing. *)
Definition kfree_node {D} (a : Z) : M D unit :=
  if a =? 0 then mret tt
  else get_node a ≫= fun _ => modify (fun s => with_nodes s (delete a (nodes s))).
Definition kfree_file {D} (a : Z) : M D unit :=
  if a =? 0 then mret tt
  else get_file a ≫= fun _ => modify (fun s => with_files s (delete a (files s))).
Definition kfree_pipe {D} (a : Z) : M D unit :=
  if a =? 0 then mret tt
  else get_pipe a ≫= fun _ => modify (fun s => with_pipes s (delete a (pipes s))).

(** The fields the operations assign. *)
Definition set_sibling (n : vfs_node) (x : Z) : vfs_node :=
  VfsNode (n_name n) (n_type n) (n_mode n) (n_uid n) (n_gid n) (n_data n) (n_size n)
    (n_capacity n) (n_ops n) (n_priv n) (n_parent n) x (n_child n).
Definition set_child (n : vfs_node) (x : Z) : vfs_node :=
  VfsNode (n_name n) (n_type n) (n_mode n) (n_uid n) (n_gid n) (n_data n) (n_size n)
    (n_capacity n) (n_ops n) (n_priv n) (n_parent n) (n_sibling n) x.
Definition set_parent (n : vfs_node) (x : Z) : vfs_node :=
  VfsNode (n_name n) (n_type n) (n_mode n) (n_uid n) (n_gid n) (n_data n) (n_size n)
    (n_capacity n) (n_ops n) (n_priv n) x (n_sibling n) (n_child n).
Definition set_mode (n : vfs_node) (x : Z) : vfs_node :=
  VfsNode (n_name n) (n_type n) x (n_uid n) (n_gid n) (n_data n) (n_size n)
    (n_capacity n) (n_ops n) (n_priv n) (n_parent n) (n_sibling n) (n_child n).
Definition set_data (n : vfs_node) (d : list Z) (size cap : Z) : vfs_node :=
  VfsNode (n_name n) (n_type n) (n_mode n) (n_uid n) (n_gid n) d size
    cap (n_ops n) (n_priv n) (n_parent n) (n_sibling n) (n_child n).
Definition set_pos (f : vfs_file) (x : Z) : vfs_file :=
  VfsFile (f_node f) (f_pipe f) x (f_flags f) (f_refs f).
Definition set_refs (f : vfs_file) (x : Z) : vfs_file :=
  VfsFile (f_node f) (f_pipe f) (f_pos f) (f_flags f) x.
Definition set_pipe_refs (p : vfs_pipe) (r w : Z) : vfs_pipe :=
  VfsPipe (p_buf p) (p_head p) (p_count p) r w.

(** A node after [memset] to zero. *)
Definition blank_node : vfs_node := VfsNode [] VFS_FILE 0 0 0 [] 0 0 None 0 0 0 0.

(** ** Paths *)

Definition SLASH : Z := 47.

(** The index of the last slash of [p], counted from [i]. *)
Fixpoint last_slash (p : list Z) (i : nat) (acc : option nat) : option nat :=
  match p with
  | [] => acc
  | c :: p' => last_slash p' (S i) (if c =? SLASH then Some i else acc)
  end.

(** [path_split]: the directory part and the final name, [None] for -1. *)
Definition path_split (path : list Z) (dir_size name_size : Z) : option (list Z * list Z) :=
  match last_slash path 0 None with
  | None => if name_size <=? zlen path then None else Some ([SLASH], path)
  | Some dlen =>
      let name := drop (S dlen) path in
      let bad_name := (zlen name =? 0) || (name_size <=? zlen name) in
      if Nat.eqb dlen 0 then if bad_name then None else Some ([SLASH], name)
      else if dir_size <=? Z.of_nat dlen then None
      else if bad_name then None else Some (take dlen path, name)
  end.

Fixpoint skip_slashes (p : list Z) : list Z :=
  match p with
  | c :: p' => if c =? SLASH then skip_slashes p' else p
  | [] => []
  end.

(** The length of the component that [p] starts with. *)
Fixpoint comp_len (p : list Z) : nat :=
  match p with
  | c :: p' => if c =? SLASH then O else S (comp_len p')
  | [] => O
  end.

(** ** Operations *)

Section Operations.
Context {D : Type} `{DeviceTable D} (junk : Z -> Z).

(** The walk over a list of siblings. *)
Fixpoint sibling_find (fuel : nat) (n : Z) (name : list Z) : M D Z :=
  match fuel with
  | O => fault
  | S fuel' =>
      if n =? 0 then mret 0
      else
        node ← get_node n;
        if strcmp (n_name node) name =? 0 then mret n
        else sibling_find fuel' (n_sibling node) name
  end.

(** Enough rounds to visit every node once and to see the end. *)
Definition list_fuel (s : vfs D) : nat := S (size (nodes s)).

Definition dir_find (dir : Z) (name : list Z) : M D Z :=
  d ← get_node dir;
  s ← get;
  sibling_find (list_fuel s) (n_child d) name.

Definition dir_attach (dir node : Z) : M D Z :=
  d ← get_node dir;
  n ← get_node node;
  _ ← put_node node (set_sibling (set_parent n dir) (n_child d));
  d ← get_node dir;
  _ ← put_node dir (set_child d node);
  mret node.

Fixpoint lookup_loop (fuel : nat) (cur : Z) (p : list Z) : M D Z :=
  match fuel with
  | O => fault
  | S fuel' =>
      match p with
      | [] => mret cur
      | _ =>
          let len := comp_len p in
          if VFS_NAME_MAX <=? Z.of_nat len then mret 0
          else
            c ← get_node cur;
            if negb (bool_decide (n_type c = VFS_DIR)) then mret 0
            else
              next ← dir_find cur (take len p);
              if next =? 0 then mret 0
              else lookup_loop fuel' next (skip_slashes (drop len p))
      end
  end.

Definition vfs_lookup (path : list Z) : M D Z :=
  s ← get;
  match skip_slashes path with
  | [] => mret (g_root s)
  | p => lookup_loop (S (length p)) (g_root s) p
  end.

(** The common body of the three creation functions: [init] is the node
    they fill in. *)
Definition create_node (path : list Z) (init : list Z -> vfs_node) : M D Z :=
  match path_split path 256 VFS_NAME_MAX with
  | None => mret 0
  | Some (dir_path, name) =>
      parent ← vfs_lookup dir_path;
      if parent =? 0 then mret 0
      else
        pn ← get_node parent;
        if negb (bool_decide (n_type pn = VFS_DIR)) then mret 0
        else
          existing ← dir_find parent name;
          if negb (existing =? 0) then mret 0
          else
            node ← kmalloc_id;
            if node =? 0 then mret 0
            else
              _ ← put_node node (init name);
              dir_attach parent node
  end.

Definition vfs_create_dir (path : list Z) : M D Z :=
  create_node path (fun name => VfsNode name VFS_DIR 493 0 0 [] 0 0 None 0 0 0 0).

Definition vfs_create_file (path : list Z) : M D Z :=
  create_node path (fun name => VfsNode name VFS_FILE 420 0 0 [] 0 0 None 0 0 0 0).

Definition vfs_create_device (path : list Z) (ops : option Z) (priv : Z) : M D Z :=
  create_node path (fun name => VfsNode name VFS_DEVICE 384 0 0 [] 0 0 ops priv 0 0 0).

(** [*link] for [link = &parent->child] ([inl parent]) or [&n->sibling]
    ([inr n]). *)
Definition get_dir_link (link : Z + Z) : M D Z :=
  match link with
  | inl parent => p ← get_node parent; mret (n_child p)
  | inr x => n ← get_node x; mret (n_sibling n)
  end.

Definition set_dir_link (link : Z + Z) (v : Z) : M D unit :=
  match link with
  | inl parent => p ← get_node parent; put_node parent (set_child p v)
  | inr x => n ← get_node x; put_node x (set_sibling n v)
  end.

Fixpoint remove_loop (fuel : nat) (link : Z + Z) (name : list Z) : M D Z :=
  match fuel with
  | O => fault
  | S fuel' =>
      x ← get_dir_link link;
      if x =? 0 then mret (-1)
      else
        victim ← get_node x;
        if strcmp (n_name victim) name =? 0 then
          if bool_decide (n_type victim = VFS_DIR) && negb (n_child victim =? 0) then mret (-1)
          else
            _ ← set_dir_link link (n_sibling victim);
            _ ← kfree_node x;
            mret 0
        else remove_loop fuel' (inr x) name
  end.

Definition vfs_remove (path : list Z) : M D Z :=
  match path_split path 256 VFS_NAME_MAX with
  | None => mret (-1)
  | Some (dir_path, name) =>
      parent ← vfs_lookup dir_path;
      if parent =? 0 then mret (-1)
      else
        pn ← get_node parent;
        if negb (bool_decide (n_type pn = VFS_DIR)) then mret (-1)
        else
          s ← get;
          remove_loop (list_fuel s) (inl parent) name
  end.

(** *** Descriptors *)

Definition pipe_ref (f : vfs_file) (d : Z) : M D unit :=
  if f_pipe f =? 0 then mret tt
  else
    p ← get_pipe (f_pipe f);
    if negb (Z.land (f_flags f) O_WRONLY =? 0)
    then put_pipe (f_pipe f) (set_pipe_refs p (p_refs_r p) (p_refs_w p + d))
    else put_pipe (f_pipe f) (set_pipe_refs p (p_refs_r p + d) (p_refs_w p)).

Definition file_ref (a : Z) : M D unit :=
  f ← get_file a;
  _ ← put_file a (set_refs f (f_refs f + 1));
  pipe_ref f 1.

Definition file_unref (a : Z) : M D unit :=
  f ← get_file a;
  _ ← pipe_ref f (-1);
  _ ← put_file a (set_refs f (f_refs f - 1));
  if f_refs f - 1 =? 0 then
    _ ← (if f_pipe f =? 0 then mret tt
         else
           p ← get_pipe (f_pipe f);
           if (p_refs_r p =? 0) && (p_refs_w p =? 0) then kfree_pipe (f_pipe f) else mret tt);
    kfree_file a
  else mret tt.

(** The descriptor table of the current task, [None] without one. *)
Definition fd_table : M D (option (list Z)) :=
  s ← get;
  match cur s with
  | None => mret None
  | Some t => match tables s !! t with None => fault | Some tbl => mret (Some tbl) end
  end.

(** [tbl[i] = v] in the table of the current task. *)
Definition fd_set (i v : Z) : M D unit :=
  s ← get;
  match cur s with
  | None => fault
  | Some t =>
      match tables s !! t with
      | None => fault
      | Some tbl => modify (fun s => with_tables s (<[t := <[Z.to_nat i := v]> tbl]> (tables s)))
      end
  end.

Definition slot (tbl : list Z) (i : Z) : Z := byte_at tbl i.

Definition fd_alloc (f : Z) : M D Z :=
  t ← fd_table;
  match t with
  | None => mret (- EBADF)
  | Some tbl =>
      match zfind (fun i => slot tbl i =? 0) 13 3 with
      | Some i => _ ← fd_set i f; mret i
      | None => mret (- ENOMEM)
      end
  end.

Definition fd_get (fd : Z) : M D Z :=
  t ← fd_table;
  match t with
  | None => mret 0
  | Some tbl => mret (if (fd <? 0) || (VFS_MAX_FDS <=? fd) then 0 else slot tbl fd)
  end.

Definition vfs_open (path : option (list Z)) (flags : Z) : M D Z :=
  match path with
  | None => mret (- EINVAL)
  | Some path =>
      found ← vfs_lookup path;
      node ← (if negb (found =? 0) then mret found
              else if negb (Z.land flags O_CREAT =? 0) then vfs_create_file path
              else mret 0);
      if node =? 0 then mret (- ENOENT)
      else
        n ← get_node node;
        if bool_decide (n_type n = VFS_DIR) && negb (Z.land flags (Z.lor O_WRONLY O_RDWR) =? 0)
        then mret (- EISDIR)
        else
          _ ← (if bool_decide (n_type n = VFS_FILE) && negb (Z.land flags O_TRUNC =? 0)
               then put_node node (set_data n (n_data n) 0 (n_capacity n)) else mret tt);
          f ← kmalloc_id;
          if f =? 0 then mret (- ENOMEM)
          else
            n ← get_node node;
            let pos := if negb (Z.land flags O_APPEND =? 0) then n_size n else 0 in
            _ ← put_file f (VfsFile node 0 pos flags 1);
            fd_alloc f
  end.

Definition vfs_close (fd : Z) : M D Z :=
  t ← fd_table;
  match t with
  | None => mret (- EBADF)
  | Some tbl =>
      if (fd <? 0) || (VFS_MAX_FDS <=? fd) || (slot tbl fd =? 0) then mret (- EBADF)
      else
        _ ← fd_set fd 0;
        _ ← file_unref (slot tbl fd);
        mret 0
  end.

Definition vfs_dup (oldfd : Z) : M D Z :=
  t ← fd_table;
  match t with
  | None => mret (- EBADF)
  | Some tbl =>
      if (oldfd <? 0) || (VFS_MAX_FDS <=? oldfd) || (slot tbl oldfd =? 0) then mret (- EBADF)
      else
        match zfind (fun i => slot tbl i =? 0) 16 0 with
        | Some i =>
            _ ← fd_set i (slot tbl oldfd);
            _ ← file_ref (slot tbl oldfd);
            mret i
        | None => mret (- ENOMEM)
        end
  end.

Definition vfs_dup2 (oldfd newfd : Z) : M D Z :=
  t ← fd_table;
  match t with
  | None => mret (- EBADF)
  | Some tbl =>
      if (oldfd <? 0) || (VFS_MAX_FDS <=? oldfd) || (slot tbl oldfd =? 0) then mret (- EBADF)
      else if (newfd <? 0) || (VFS_MAX_FDS <=? newfd) then mret (- EBADF)
      else if oldfd =? newfd then mret newfd
      else
        _ ← (if negb (slot tbl newfd =? 0) then file_unref (slot tbl newfd) else mret tt);
        _ ← fd_set newfd (slot tbl oldfd);
        _ ← file_ref (slot tbl oldfd);
        mret newfd
  end.

(** [vfs_pipe]: the return value and the two descriptors. *)
Definition vfs_pipe_open : M D (Z * (Z * Z)) :=
  t ← fd_table;
  match t with
  | None => mret (- EBADF, (0, 0))
  | Some _ =>
      p ← kmalloc_id;
      if p =? 0 then mret (- ENOMEM, (0, 0))
      else
        _ ← put_pipe p pipe_new;
        r ← kmalloc_id;
        _ ← (if r =? 0 then mret tt else put_file r (VfsFile 0 p 0 O_RDONLY 1));
        w ← kmalloc_id;
        _ ← (if w =? 0 then mret tt else put_file w (VfsFile 0 p 0 O_WRONLY 1));
        if (r =? 0) || (w =? 0) then
          _ ← kfree_file r;
          _ ← kfree_file w;
          _ ← kfree_pipe p;
          mret (- ENOMEM, (0, 0))
        else
          a ← fd_alloc r;
          b ← fd_alloc w;
          if (a <? 0) || (b <? 0) then
            _ ← (if 0 <=? a then fd_set a 0 else mret tt);
            _ ← (if 0 <=? b then fd_set b 0 else mret tt);
            _ ← kfree_file r;
            _ ← kfree_file w;
            _ ← kfree_pipe p;
            mret (- ENOMEM, (0, 0))
          else mret (0, (a, b))
  end.

Fixpoint close_slots (n : nat) (i : Z) : M D unit :=
  match n with
  | O => mret tt
  | S n' =>
      t ← fd_table;
      match t with
      | None => mret tt
      | Some tbl =>
          _ ← (if negb (slot tbl i =? 0)
               then _ ← file_unref (slot tbl i); fd_set i 0
               else mret tt);
          close_slots n' (i + 1)
      end
  end.

Definition vfs_close_all : M D unit :=
  t ← fd_table;
  match t with
  | None => mret tt
  | Some _ => close_slots 16 0
  end.

(** [vfs_fd_inherit dst src] for the tables of the tasks [dst] and [src]. *)
Fixpoint inherit_slots (n : nat) (i : Z) (dst src : Z) : M D unit :=
  match n with
  | O => mret tt
  | S n' =>
      s ← get;
      match tables s !! dst, tables s !! src with
      | Some dt, Some st =>
          _ ← modify (fun s => with_tables s (<[dst := <[Z.to_nat i := slot st i]> dt]> (tables s)));
          _ ← (if negb (slot st i =? 0) then file_ref (slot st i) else mret tt);
          inherit_slots n' (i + 1) dst src
      | _, _ => fault
      end
  end.

Definition vfs_fd_inherit (dst src : Z) : M D unit := inherit_slots 16 0 dst src.

(** *** Data *)

(** The doubling loop that computes a new capacity. *)
Fixpoint grow_cap (fuel : nat) (newcap need : Z) : option Z :=
  match fuel with
  | O => None
  | S fuel' => if newcap <? need then grow_cap fuel' (u64 (newcap * 2)) need else Some newcap
  end.

(** [krealloc] of a file buffer: the old bytes, then junk. *)
Definition enlarge (d : list Z) (cap : Z) : list Z :=
  d ++ map junk (zseq (zlen d) (Z.to_nat (cap - zlen d))).

(** Make room for [need] bytes; [false] for -ENOMEM. *)
Definition reserve (node need : Z) : M D bool :=
  n ← get_node node;
  if n_capacity n <? need then
    match grow_cap 64 (if n_capacity n =? 0 then 64 else n_capacity n) need with
    | None => fault
    | Some newcap =>
        fresh ← kmalloc_id;
        if fresh =? 0 then mret false
        else
          _ ← put_node node (set_data n (enlarge (n_data n) newcap) (n_size n) newcap);
          mret true
    end
  else mret true.

Definition file_read (a count : Z) : M D (Z * list Z) :=
  f ← get_file a;
  n ← get_node (f_node f);
  if n_size n <=? f_pos f then mret (0, [])
  else
    let avail := n_size n - f_pos f in
    let count := if avail <? count then avail else count in
    _ ← put_file a (set_pos f (f_pos f + count));
    mret (count, sub (n_data n) (f_pos f) count).

Definition file_write (a : Z) (buf : list Z) : M D Z :=
  f ← get_file a;
  ok ← reserve (f_node f) (u64 (f_pos f + zlen buf));
  if negb ok then mret (- ENOMEM)
  else
    n ← get_node (f_node f);
    let pos := f_pos f + zlen buf in
    let size := if n_size n <? pos then pos else n_size n in
    _ ← put_node (f_node f) (set_data n (splice (n_data n) (f_pos f) buf) size (n_capacity n));
    _ ← put_file a (set_pos f pos);
    mret (zlen buf).

Definition vfs_ftruncate (fd length : Z) : M D Z :=
  a ← fd_get fd;
  if a =? 0 then mret (- EBADF)
  else
    f ← get_file a;
    if negb (f_pipe f =? 0) then mret (- EBADF)
    else
      n ← get_node (f_node f);
      if negb (bool_decide (n_type n = VFS_FILE)) then mret (- EBADF)
      else if length <? 0 then mret (- EINVAL)
      else if length <? n_size n then
        _ ← put_node (f_node f) (set_data n (n_data n) length (n_capacity n));
        mret 0
      else
        ok ← reserve (f_node f) length;
        if negb ok then mret (- ENOMEM)
        else
          n ← get_node (f_node f);
          _ ← (if n_size n <? length then
                 put_node (f_node f)
                   (set_data n (splice (n_data n) (n_size n) (replicate (Z.to_nat (length - n_size n)) 0))
                      length (n_capacity n))
               else mret tt);
          mret 0.

(** [buf] tells whether the caller's buffer pointer is not NULL. *)
Definition vfs_read (fd : Z) (buf : bool) (count : Z) : M D io :=
  a ← fd_get fd;
  if a =? 0 then mret (IoRet (- EBADF) [])
  else if negb buf then mret (IoRet (- EINVAL) [])
  else
    f ← get_file a;
    if Z.land (f_flags f) 3 =? O_WRONLY then mret (IoRet (- EBADF) [])
    else if negb (f_pipe f =? 0) then
      p ← get_pipe (f_pipe f);
      match pipe_read p count with
      | RWait => mret (IoWait 0)
      | RDone n bytes p' => _ ← put_pipe (f_pipe f) p'; mret (IoRet n bytes)
      end
    else
      n ← get_node (f_node f);
      match n_type n with
      | VFS_FILE => '(r, bytes) ← file_read a count; mret (IoRet r bytes)
      | VFS_DEVICE =>
          match n_ops n with
          | None => mret (IoRet (- EIO) [])
          | Some ops =>
              match op_read (dev_ops ops) with
              | None => mret (IoRet (- EIO) [])
              | Some rd =>
                  s ← get;
                  let '(res, d) := rd (n_priv n) count (f_pos f) (devs s) in
                  _ ← modify (fun s => with_devs s d);
                  match res with
                  | IoRet r bytes =>
                      _ ← (if 0 <? r then put_file a (set_pos f (u64 (f_pos f + r))) else mret tt);
                      mret (IoRet r bytes)
                  | IoWait t => mret (IoWait t)
                  end
              end
          end
      | VFS_DIR => mret (IoRet (- EISDIR) [])
      end.

Definition vfs_pread (fd : Z) (buf : bool) (count offset : Z) : M D (Z * list Z) :=
  a ← fd_get fd;
  if a =? 0 then mret (- EBADF, [])
  else if negb buf then mret (- EINVAL, [])
  else
    f ← get_file a;
    if negb (f_pipe f =? 0) then mret (- EISDIR, [])
    else
      n ← get_node (f_node f);
      if negb (bool_decide (n_type n = VFS_FILE)) then mret (- EISDIR, [])
      else if n_size n <=? offset then mret (0, [])
      else
        let avail := n_size n - offset in
        let count := if avail <? count then avail else count in
        mret (count, sub (n_data n) offset count).

(** [vfs_write] with [total] bytes already written (a blocked pipe writer
    that resumes; 0 for a new call). *)
Definition vfs_write (fd : Z) (buf : option (list Z)) (total : Z) : M D io :=
  a ← fd_get fd;
  if a =? 0 then mret (IoRet (- EBADF) [])
  else
    match buf with
    | None => mret (IoRet (- EINVAL) [])
    | Some buf =>
        f ← get_file a;
        if Z.land (f_flags f) 3 =? O_RDONLY then mret (IoRet (- EBADF) [])
        else if negb (f_pipe f =? 0) then
          p ← get_pipe (f_pipe f);
          match pipe_write 3 p buf total with
          | None => fault
          | Some (WDone r, p') => _ ← put_pipe (f_pipe f) p'; mret (IoRet r [])
          | Some (WBlocked t, p') => _ ← put_pipe (f_pipe f) p'; mret (IoWait t)
          end
        else
          n ← get_node (f_node f);
          match n_type n with
          | VFS_FILE => r ← file_write a buf; mret (IoRet r [])
          | VFS_DEVICE =>
              match n_ops n with
              | None => mret (IoRet (- EIO) [])
              | Some ops =>
                  match op_write (dev_ops ops) with
                  | None => mret (IoRet (- EIO) [])
                  | Some wr =>
                      s ← get;
                      let '(r, d) := wr (n_priv n) buf (f_pos f) (devs s) in
                      _ ← modify (fun s => with_devs s d);
                      _ ← (if 0 <? r then put_file a (set_pos f (u64 (f_pos f + r))) else mret tt);
                      mret (IoRet r [])
                  end
              end
          | VFS_DIR => mret (IoRet (- EISDIR) [])
          end
    end.

Definition vfs_ioctl (fd request : Z) (arg : list Z) : M D (Z * list Z) :=
  a ← fd_get fd;
  if a =? 0 then mret (- EBADF, [])
  else
    f ← get_file a;
    if negb (f_pipe f =? 0) then mret (- ENOTTY, [])
    else
      n ← get_node (f_node f);
      match n_type n, n_ops n with
      | VFS_DEVICE, Some ops =>
          match op_ioctl (dev_ops ops) with
          | None => mret (- ENOTTY, [])
          | Some ctl =>
              s ← get;
              let '(res, d) := ctl (n_priv n) request arg (devs s) in
              _ ← modify (fun s => with_devs s d);
              mret res
          end
      | _, _ => mret (- ENOTTY, [])
      end.

(** The entry [skip] places after [n] in the sibling list. *)
Fixpoint skip_entries (fuel : nat) (n skip : Z) : M D Z :=
  match fuel with
  | O => fault
  | S fuel' =>
      if negb (n =? 0) && (0 <? skip) then
        node ← get_node n;
        skip_entries fuel' (n_sibling node) (skip - 1)
      else mret n
  end.

(** The entries written while they fit. *)
Fixpoint fill_entries (fuel : nat) (n room : Z) : M D (list vfs_dirent) :=
  match fuel with
  | O => fault
  | S fuel' =>
      if negb (n =? 0) && (SIZEOF_DIRENT <=? room) then
        node ← get_node n;
        rest ← fill_entries fuel' (n_sibling node) (room - SIZEOF_DIRENT);
        mret (VfsDirent (n_name node) (n_type node) (u32 (n_size node)) (n_mode node) :: rest)
      else mret []
  end.

Definition vfs_readdir (fd : Z) (buf : bool) (count : Z) : M D (Z * list vfs_dirent) :=
  a ← fd_get fd;
  if a =? 0 then mret (- EBADF, [])
  else
    f ← get_file a;
    if negb (f_pipe f =? 0) then mret (- ENOTDIR, [])
    else
      n ← get_node (f_node f);
      if negb (bool_decide (n_type n = VFS_DIR)) then mret (- ENOTDIR, [])
      else if negb buf then mret (- EINVAL, [])
      else
        s ← get;
        first ← skip_entries (list_fuel s) (n_child n) (f_pos f);
        entries ← fill_entries (list_fuel s) first count;
        _ ← put_file a (set_pos f (f_pos f + Z.of_nat (length entries)));
        mret (SIZEOF_DIRENT * Z.of_nat (length entries), entries).

(** *** Path operations *)

Definition vfs_mkdir (path : option (list Z)) (mode : Z) : M D Z :=
  match path with
  | None => mret (- EINVAL)
  | Some path =>
      existing ← vfs_lookup path;
      if negb (existing =? 0) then mret (- EEXIST)
      else
        dir ← vfs_create_dir path;
        if dir =? 0 then mret (- ENOENT)
        else
          _ ← (if negb (mode =? 0) then d ← get_node dir; put_node dir (set_mode d mode) else mret tt);
          mret 0
  end.

Definition vfs_unlink (path : option (list Z)) : M D Z :=
  match path with
  | None => mret (- EINVAL)
  | Some path =>
      found ← vfs_lookup path;
      if found =? 0 then mret (- ENOENT)
      else
        r ← vfs_remove path;
        if negb (r =? 0) then mret (- EISDIR) else mret 0
  end.

Definition vfs_chmod (path : option (list Z)) (mode : Z) : M D Z :=
  match path with
  | None => mret (- EINVAL)
  | Some path =>
      node ← vfs_lookup path;
      if node =? 0 then mret (- ENOENT)
      else
        n ← get_node node;
        _ ← put_node node (set_mode n mode);
        mret 0
  end.

(** *** Construction *)

Definition ensure_dir (path : list Z) : M D unit :=
  found ← vfs_lookup path;
  if found =? 0 then _ ← vfs_create_dir path; mret tt else mret tt.

Definition vfs_init : M D unit :=
  r ← kmalloc_id;
  _ ← modify (fun s => with_root s r);
  if r =? 0 then mret tt
  else put_node r (VfsNode [SLASH] VFS_DIR 0 0 0 [] 0 0 None 0 0 0 0).

(** Wiring of one standard descriptor. *)
Definition open_std (tty0 : Z) (i : Z) : M D unit :=
  f ← kmalloc_id;
  if f =? 0 then mret tt
  else
    _ ← put_file f (VfsFile tty0 0 0 O_RDWR 1);
    t ← fd_table;
    match t with
    | None => kfree_file f
    | Some _ => fd_set i f
    end.

(** ["/dev"], ["/tmp"], ["/etc"], ["/boot"], ["/dev/tty0"]. *)
Definition s_dev : list Z := [47; 100; 101; 118].
Definition s_tmp : list Z := [47; 116; 109; 112].
Definition s_etc : list Z := [47; 101; 116; 99].
Definition s_boot : list Z := [47; 98; 111; 111; 116].
Definition s_tty0 : list Z := s_dev ++ [47; 116; 116; 121; 48].

(** [devices_init] registers the device nodes (src/kernel/vfs/devices.c). *)
Definition vfs_devices_init (devices_init : M D unit) : M D unit :=
  _ ← ensure_dir s_dev;
  _ ← ensure_dir s_tmp;
  _ ← ensure_dir s_etc;
  _ ← ensure_dir s_boot;
  _ ← devices_init;
  tty0 ← vfs_lookup s_tty0;
  if tty0 =? 0 then mret tt
  else
    _ ← open_std tty0 0;
    _ ← open_std tty0 1;
    open_std tty0 2.

End Operations.
