(* ===== verification/VfsFd.v ===== *)
(** * Descriptors: reference counts are exact

    The open file descriptions of Vfs are shared by the descriptor tables of
    all tasks. The file shows that the reference counts of files and pipes
    equal the number of descriptors that refer to them, so that no operation
    on descriptors touches a freed object and nothing in use is freed. *)

From stdpp Require Import base numbers list gmap.
From Stdlib Require Import ZArith Lia ZifyBool.
From S2P Require Import Prelude.
From S2P Require Import Klib.
From S2P Require Import Pipe.
From S2P Require Import Vfs.

(** ** Sums over maps *)

Definition msum {A} (g : A -> Z) (m : gmap Z A) : Z := map_fold (fun _ x acc => g x + acc) 0 m.

Lemma msum_empty {A} (g : A -> Z) : msum g ∅ = 0.
Proof. apply map_fold_empty. Qed.

Lemma msum_delete {A} (g : A -> Z) m i x :
  m !! i = Some x -> msum g m = g x + msum g (delete i m).
Proof.
  intros Hi. unfold msum. apply (map_fold_delete_L (fun _ y acc => g y + acc)); [|done].
  intros. lia.
Qed.

Lemma msum_insert_new {A} (g : A -> Z) m i x :
  m !! i = None -> msum g (<[i := x]> m) = g x + msum g m.
Proof.
  intros Hi. unfold msum. apply (map_fold_insert_L (fun _ y acc => g y + acc)); [|done].
  intros. lia.
Qed.

Lemma msum_insert {A} (g : A -> Z) m i x y :
  m !! i = Some x -> msum g (<[i := y]> m) = msum g m - g x + g y.
Proof.
  intros Hi. rewrite (msum_delete g m i x), <-insert_delete_eq by done.
  rewrite msum_insert_new by apply lookup_delete_eq. lia.
Qed.

Lemma msum_zero {A} (g : A -> Z) m : (forall i x, m !! i = Some x -> g x = 0) -> msum g m = 0.
Proof.
  induction m as [|i x m Hi IH] using map_ind; intros Hg; [apply msum_empty|].
  rewrite msum_insert_new by done. rewrite (Hg i x) by apply lookup_insert_eq. apply IH.
  intros j y Hj. apply (Hg j). by rewrite lookup_insert_ne by congruence.
Qed.

Lemma msum_nonneg {A} (g : A -> Z) m : (forall i x, m !! i = Some x -> 0 <= g x) -> 0 <= msum g m.
Proof.
  induction m as [|i x m Hi IH] using map_ind; intros Hg.
  - by rewrite msum_empty.
  - rewrite msum_insert_new by done. pose proof (Hg i x (lookup_insert_eq _ _ _)).
    assert (0 <= msum g m); [|lia]. apply IH. intros j y Hj. apply (Hg j).
    rewrite lookup_insert_ne; [done|]. congruence.
Qed.

(** ** Occurrences in a table *)

Fixpoint occ (a : Z) (l : list Z) : Z :=
  match l with
  | [] => 0
  | x :: l => (if x =? a then 1 else 0) + occ a l
  end.

Lemma occ_nonneg a l : 0 <= occ a l.
Proof. induction l as [|x l IH]; cbn [occ]; [lia|]. destruct (x =? a); lia. Qed.

Lemma occ_insert a l i o v :
  l !! i = Some o ->
  occ a (<[i := v]> l) = occ a l - (if o =? a then 1 else 0) + (if v =? a then 1 else 0).
Proof.
  revert i; induction l as [|x l IH]; intros [|i] Hi; try done.
  - injection Hi as ->. cbn [insert list_insert occ]. lia.
  - cbn in Hi. change (<[S i := v]> (x :: l)) with (x :: <[i := v]> l).
    cbn [occ]. rewrite (IH i) by done. lia.
Qed.

Lemma occ_lookup a l i : l !! i = Some a -> 1 <= occ a l.
Proof.
  revert i; induction l as [|x l IH]; intros [|i] Hi; try done; cbn [occ].
  - injection Hi as ->. rewrite Z.eqb_refl. pose proof (occ_nonneg a l). lia.
  - apply IH in Hi. destruct (x =? a); lia.
Qed.

Lemma bind_run {D A B} (m : M D A) (f : A -> M D B) s x s' :
  m s = Some (x, s') -> (m ≫= f) s = f x s'.
Proof. unfold mbind, M_bind. by intros ->. Qed.

Section Descriptors.
Context {D : Type} `{DeviceTable D}.
Implicit Types s : vfs D.

(** How many descriptors of all tasks refer to the file [a]. *)
Definition holders (s : vfs D) (a : Z) : Z := msum (occ a) (tables s).

Definition file_refs (s : vfs D) (a : Z) : Z :=
  match files s !! a with Some f => f_refs f | None => 0 end.

Definition writes (f : vfs_file) : bool := negb (Z.land (f_flags f) O_WRONLY =? 0).

(** The references that the files of pipe [p] account for, per end. *)
Definition end_refs (w : bool) (p : Z) (f : vfs_file) : Z :=
  if (f_pipe f =? p) && Bool.eqb (writes f) w then f_refs f else 0.
Definition pipe_end (s : vfs D) (w : bool) (p : Z) : Z := msum (end_refs w p) (files s).

(** [fds_ok s leak]: every file is referenced by exactly its [refs] minus
    [leak] descriptors, and pipes count the references of their files. A
    [leak] other than 0 is a file that no descriptor reaches any more. *)
Record fds_ok (s : vfs D) (leak : Z -> Z) : Prop := FdsOk {
  fds_len t tbl : tables s !! t = Some tbl -> length tbl = 16%nat;
  fds_cur t : cur s = Some t -> is_Some (tables s !! t);
  fds_refs a : a <> 0 -> file_refs s a = holders s a + leak a;
  fds_live a f : files s !! a = Some f -> 0 < f_refs f /\ 0 < a < next_id s;
  fds_pipe a f : files s !! a = Some f -> f_pipe f <> 0 -> is_Some (pipes s !! f_pipe f);
  fds_ends p q : pipes s !! p = Some q ->
    p_refs_r q = pipe_end s false p /\ p_refs_w q = pipe_end s true p /\
    0 < p_refs_r q + p_refs_w q /\ 0 < p < next_id s;
  fds_next : 0 < next_id s;
}.

Definition bump (leak : Z -> Z) (a d : Z) : Z -> Z := fun x => if x =? a then leak x + d else leak x.

(** The part of the state that the reference counting leaves alone. *)
Definition same_tables (s s' : vfs D) : Prop :=
  tables s' = tables s /\ cur s' = cur s /\ nodes s' = nodes s /\ g_root s' = g_root s /\
  next_id s' = next_id s /\ oom s' = oom s /\ devs s' = devs s.

Lemma end_refs_nonneg s leak w p : fds_ok s leak -> forall i f, files s !! i = Some f -> 0 <= end_refs w p f.
Proof. intros Hok i f Hf. destruct (fds_live _ _ Hok i f Hf). unfold end_refs. destruct (_ && _); lia. Qed.

Lemma live_file s leak a :
  fds_ok s leak -> a <> 0 -> 0 < holders s a + leak a -> exists f, files s !! a = Some f.
Proof.
  intros Hok Ha Hpos. pose proof (fds_refs _ _ Hok a Ha) as E. unfold file_refs in E.
  destruct (files s !! a) as [f|]; [by exists f|lia].
Qed.

(** The two ends of a pipe after the references of one file change. *)
Lemma pipe_end_update s a f f' w p :
  files s !! a = Some f ->
  msum (end_refs w p) (<[a := f']> (files s)) = pipe_end s w p - end_refs w p f + end_refs w p f'.
Proof. intros Hf. unfold pipe_end. by apply msum_insert. Qed.

Lemma end_refs_set w p f r :
  end_refs w p (set_refs f r) = if (f_pipe f =? p) && Bool.eqb (writes f) w then r else 0.
Proof. done. Qed.

(** *** Moving a reference count *)

Definition pipe_shift (f : vfs_file) (d : Z) (q : vfs_pipe) : vfs_pipe :=
  if writes f then set_pipe_refs q (p_refs_r q) (p_refs_w q + d)
  else set_pipe_refs q (p_refs_r q + d) (p_refs_w q).

Lemma pipe_ref_run s f d :
  (f_pipe f = 0 /\ pipe_ref f d s = Some (tt, s)) \/
  (f_pipe f <> 0 /\ forall q, pipes s !! f_pipe f = Some q ->
     pipe_ref f d s = Some (tt, with_pipes s (<[f_pipe f := pipe_shift f d q]> (pipes s)))).
Proof.
  unfold pipe_ref. destruct (Z.eqb_spec (f_pipe f) 0) as [E|E]; [by left|right]. split; [done|].
  intros q Hq. unfold mbind, M_bind, get_pipe. rewrite Hq. cbn [mbind option_bind].
  unfold pipe_shift, writes. by destruct (negb _).
Qed.

(** The pipes after the references of [f] moved by [d]. *)
Definition shifted (s : vfs D) (f : vfs_file) (d : Z) : gmap Z vfs_pipe :=
  if f_pipe f =? 0 then pipes s
  else match pipes s !! f_pipe f with
       | Some q => <[f_pipe f := pipe_shift f d q]> (pipes s)
       | None => pipes s
       end.

Lemma pipe_ref_shifted s leak a f d :
  fds_ok s leak -> files s !! a = Some f ->
  pipe_ref f d s = Some (tt, with_pipes s (shifted s f d)).
Proof.
  intros Hok Hf. unfold shifted. destruct (pipe_ref_run s f d) as [[E ->]|[E Hrun]].
  - rewrite E. cbn. by destruct s.
  - destruct (fds_pipe _ _ Hok a f Hf E) as [q Hq].
    rewrite (proj2 (Z.eqb_neq (f_pipe f) 0)), Hq by done. by apply Hrun.
Qed.

(** The counts of a pipe, from the files in [F'] whose sums moved by [d] at
    the end [f] belongs to. *)
Lemma shifted_ends s leak a f d F' p q :
  fds_ok s leak -> files s !! a = Some f -> shifted s f d !! p = Some q ->
  (forall w, msum (end_refs w p) F' =
     pipe_end s w p + (if (f_pipe f =? p) && Bool.eqb (writes f) w then d else 0)) ->
  p_refs_r q = msum (end_refs false p) F' /\ p_refs_w q = msum (end_refs true p) F' /\
  0 < p < next_id s /\ (f_pipe f <> p -> 0 < p_refs_r q + p_refs_w q).
Proof.
  intros Hok Hf Hq HF. rewrite !HF. unfold shifted in Hq.
  destruct (Z.eqb_spec (f_pipe f) 0) as [E0|E0].
  - destruct (fds_ends _ _ Hok p q Hq) as (Er & Ew & Hpos & Hp).
    rewrite E0, (proj2 (Z.eqb_neq 0 p)) by lia. cbn [andb]. split_and!; lia.
  - destruct (fds_pipe _ _ Hok a f Hf E0) as [q0 Hq0]. rewrite Hq0 in Hq. cbn iota in Hq.
    destruct (Z.eqb_spec (f_pipe f) p) as [E|Hne]; [subst p|].
    + rewrite lookup_insert_eq in Hq. injection Hq as <-.
      destruct (fds_ends _ _ Hok _ q0 Hq0) as (Er & Ew & Hpos & Hp).
      unfold pipe_shift. destruct (writes f); cbn; split_and!; try lia; done.
    + rewrite lookup_insert_ne in Hq by done. cbn [andb].
      destruct (fds_ends _ _ Hok p q Hq) as (Er & Ew & Hpos & Hp). split_and!; lia.
Qed.

Lemma shifted_dom s f d p : is_Some (shifted s f d !! p) <-> is_Some (pipes s !! p).
Proof.
  unfold shifted. destruct (f_pipe f =? 0); [done|]. destruct (pipes s !! f_pipe f) as [q|] eqn:E; [|done].
  destruct (decide (p = f_pipe f)) as [->|]; [rewrite lookup_insert_eq, E; split; eauto|].
  by rewrite lookup_insert_ne.
Qed.

Lemma refs_update_ok s leak a f d :
  fds_ok s leak -> files s !! a = Some f -> 0 < f_refs f + d ->
  fds_ok (with_files (with_pipes s (shifted s f d)) (<[a := set_refs f (f_refs f + d)]> (files s)))
         (bump leak a d).
Proof.
  intros Hok Hf Hpos. pose proof Hok as [H1 H2 H3 H4 H5 H6 H7].
  assert (Hsum : forall w p, msum (end_refs w p) (<[a := set_refs f (f_refs f + d)]> (files s)) =
     pipe_end s w p + (if (f_pipe f =? p) && Bool.eqb (writes f) w then d else 0)).
  { intros w p. rewrite (pipe_end_update s a f) by done. rewrite end_refs_set. unfold end_refs.
    destruct (_ && _); lia. }
  split; cbn [tables cur files pipes next_id with_files with_pipes]; try done.
  - intros b Hb. unfold file_refs, holders, bump. cbn [files tables with_files with_pipes].
    specialize (H3 b Hb). unfold file_refs, holders in H3.
    destruct (Z.eqb_spec b a) as [->|Hne].
    + rewrite lookup_insert_eq. rewrite Hf in H3. cbn. lia.
    + rewrite lookup_insert_ne by done. done.
  - intros b g [[<- <-]|[_ Hg]]%lookup_insert_Some; [|by apply H4].
    destruct (H4 a f Hf). done.
  - intros b g [[<- <-]|[_ Hg]]%lookup_insert_Some Hp; apply shifted_dom; [by apply (H5 a f)|by apply (H5 b g)].
  - intros p q Hq. destruct (shifted_ends s leak a f d _ p q Hok Hf Hq (fun w => Hsum w p)) as (Er & Ew & Hp & Hoth).
    unfold pipe_end. cbn [files with_files with_pipes]. split_and!; try done; try lia.
    destruct (Z.eq_dec (f_pipe f) p) as [E|Hne]; [|by apply Hoth].
    rewrite Er, Ew, !(msum_delete _ (<[a := _]> (files s)) a (set_refs f (f_refs f + d))) by apply lookup_insert_eq.
    rewrite !end_refs_set, E, Z.eqb_refl. cbn [andb].
    assert (Hnn : forall w, 0 <= msum (end_refs w p) (delete a (<[a := set_refs f (f_refs f + d)]> (files s)))).
    { intros w. apply msum_nonneg. intros i x. rewrite delete_insert_eq.
      intros [_ Hx]%lookup_delete_Some. by eapply end_refs_nonneg. }
    pose proof (Hnn true). pose proof (Hnn false). destruct (writes f); cbn [Bool.eqb]; lia.
Qed.

Lemma same_tables_files s m P : same_tables s (with_files (with_pipes s P) m).
Proof. by split_and!. Qed.

Lemma file_ref_ok s leak a f :
  fds_ok s leak -> files s !! a = Some f ->
  exists s', file_ref a s = Some (tt, s') /\ fds_ok s' (bump leak a 1) /\ same_tables s s' /\
    (forall b, b <> a -> files s' !! b = files s !! b).
Proof.
  intros Hok Hf. eexists.
  split; [|split; [apply (refs_update_ok s leak a f 1 Hok Hf)|split; [apply same_tables_files|]]].
  - unfold file_ref, mbind, M_bind, get_file. rewrite Hf. cbn [mbind option_bind].
    unfold put_file, modify.
    set (s1 := with_files s _).
    destruct (pipe_ref_run s1 f 1) as [[E ->]|[E Hrun]]; unfold shifted.
    + rewrite E. cbn. by destruct s.
    + destruct (fds_pipe _ _ Hok a f Hf E) as [q Hq].
      rewrite (proj2 (Z.eqb_neq (f_pipe f) 0)), Hq by done. rewrite (Hrun q) by done. done.
  - destruct (fds_live _ _ Hok a f Hf). lia.
  - intros b Hb. cbn. by rewrite lookup_insert_ne.
Qed.

(** *** Dropping the last reference *)

Definition dropped (s : vfs D) (f : vfs_file) : gmap Z vfs_pipe :=
  match shifted s f (-1) !! f_pipe f with
  | Some q => if (p_refs_r q =? 0) && (p_refs_w q =? 0) then delete (f_pipe f) (shifted s f (-1))
              else shifted s f (-1)
  | None => shifted s f (-1)
  end.

Lemma drop_file_ok s leak a f :
  fds_ok s leak -> files s !! a = Some f -> f_refs f = 1 ->
  fds_ok (with_files (with_pipes s (dropped s f)) (delete a (files s))) (bump leak a (-1)).
Proof.
  intros Hok Hf Hr. pose proof Hok as [H1 H2 H3 H4 H5 H6 H7].
  assert (Hsum : forall w p, msum (end_refs w p) (delete a (files s)) =
     pipe_end s w p + (if (f_pipe f =? p) && Bool.eqb (writes f) w then -1 else 0)).
  { intros w p. unfold pipe_end. rewrite (msum_delete _ (files s) a f) by done. unfold end_refs at 2.
    rewrite Hr. destruct (_ && _); lia. }
  assert (Hdrop : forall p q, dropped s f !! p = Some q -> shifted s f (-1) !! p = Some q /\
     (p = f_pipe f -> ~ (p_refs_r q = 0 /\ p_refs_w q = 0))).
  { intros p q. unfold dropped. destruct (shifted s f (-1) !! f_pipe f) as [q0|] eqn:E0.
    - destruct ((p_refs_r q0 =? 0) && (p_refs_w q0 =? 0)) eqn:Ez.
      + intros [Hne Hq]%lookup_delete_Some. split; [done|]. by intros ->.
      + intros Hq. split; [done|]. intros ->. assert (q = q0) as -> by congruence. lia.
    - intros Hq. split; [done|]. intros ->. congruence. }
  assert (Hnn : forall w p, 0 <= msum (end_refs w p) (delete a (files s))).
  { intros w p. apply msum_nonneg. intros i x [_ Hx]%lookup_delete_Some. by eapply end_refs_nonneg. }
  split; cbn [tables cur files pipes next_id with_files with_pipes]; try done.
  - intros b Hb. unfold file_refs, holders, bump. cbn [files tables with_files with_pipes].
    specialize (H3 b Hb). unfold file_refs, holders in H3.
    destruct (Z.eqb_spec b a) as [->|Hne].
    + rewrite lookup_delete_eq. rewrite Hf in H3. lia.
    + by rewrite lookup_delete_ne.
  - intros b g [_ Hg]%lookup_delete_Some. by apply H4.
  - intros b g [Hne Hg]%lookup_delete_Some Hp. destruct (H5 b g Hg Hp) as [q0 Hq0].
    assert (Hsh : is_Some (shifted s f (-1) !! f_pipe g)) by (apply shifted_dom; eauto).
    destruct Hsh as [q Hq]. unfold dropped.
    destruct (shifted s f (-1) !! f_pipe f) as [q1|] eqn:E1; [|eauto].
    destruct ((p_refs_r q1 =? 0) && (p_refs_w q1 =? 0)) eqn:Ez; [|eauto].
    rewrite lookup_delete_ne; [eauto|]. intros E. rewrite <-E, E1 in Hq. injection Hq as <-.
    destruct (shifted_ends s leak a f (-1) _ (f_pipe f) q1 Hok Hf E1 (fun w => Hsum w (f_pipe f))) as (Er & Ew & _).
    assert (Hgin : delete a (files s) !! b = Some g) by (by apply lookup_delete_Some).
    pose proof (fun w => msum_delete (end_refs w (f_pipe f)) _ b g Hgin) as Hg'.
    assert (Hnn' : forall w, 0 <= msum (end_refs w (f_pipe f)) (delete b (delete a (files s)))).
    { intros w. apply msum_nonneg. intros i x [_ [_ Hx]%lookup_delete_Some]%lookup_delete_Some.
      by eapply end_refs_nonneg. }
    pose proof (Hnn' true). pose proof (Hnn' false). pose proof (Hg' true) as G1. pose proof (Hg' false) as G2.
    unfold end_refs at 2 in G1. unfold end_refs at 2 in G2. rewrite <-E, Z.eqb_refl in G1, G2. cbn [andb] in G1, G2.
    destruct (H4 b g Hg) as [Hpos _]. destruct (writes g); cbn [Bool.eqb] in *; lia.
  - intros p q Hq. destruct (Hdrop p q Hq) as [Hsh Hnz].
    destruct (shifted_ends s leak a f (-1) _ p q Hok Hf Hsh (fun w => Hsum w p)) as (Er & Ew & Hp & Hoth).
    unfold pipe_end. cbn [files with_files with_pipes]. split_and!; try done; try lia.
    destruct (Z.eq_dec (f_pipe f) p) as [E|Hne]; [|by apply Hoth].
    specialize (Hnz (eq_sym E)). pose proof (Hnn true p). pose proof (Hnn false p). lia.
Qed.

Lemma file_unref_ok s leak a f :
  fds_ok s leak -> files s !! a = Some f ->
  exists s', file_unref a s = Some (tt, s') /\ fds_ok s' (bump leak a (-1)) /\ same_tables s s' /\
    (1 < f_refs f -> is_Some (files s' !! a)) /\ (forall b, b <> a -> files s' !! b = files s !! b).
Proof.
  intros Hok Hf. destruct (fds_live _ _ Hok a f Hf) as [Hpos Ha].
  unfold file_unref, mbind, M_bind, get_file. rewrite Hf. cbn [mbind option_bind].
  rewrite (pipe_ref_shifted s leak a f (-1) Hok Hf). unfold put_file at 1, modify at 1, mret, M_ret.
  cbn [files with_pipes]. replace (f_refs f - 1) with (f_refs f + -1) by lia.
  destruct (Z.eqb_spec (f_refs f + -1) 0) as [E1|E1].
  - exists (with_files (with_pipes s (dropped s f)) (delete a (files s))).
    split; [|split; [by apply drop_file_ok; [..|lia]|split; [apply same_tables_files|split; [lia|]]]].
    2:{ intros b Hb. cbn. by rewrite lookup_delete_ne. }
    assert (Hkf : forall P, kfree_file a (with_files (with_pipes s P) (<[a := set_refs f (f_refs f + -1)]> (files s)))
              = Some (tt, with_files (with_pipes s P) (delete a (files s)))).
    { intros P. unfold kfree_file. rewrite (proj2 (Z.eqb_neq a 0)) by lia.
      unfold mbind, M_bind, get_file, modify. cbn [files with_files]. rewrite lookup_insert_eq.
      cbn [mbind option_bind]. unfold with_files. cbn. by rewrite delete_insert_eq. }
    destruct (Z.eqb_spec (f_pipe f) 0) as [E0|E0].
    + rewrite Hkf. unfold dropped, shifted. rewrite E0, Z.eqb_refl.
      destruct (pipes s !! 0) as [q|] eqn:Eq; [|done].
      destruct (fds_ends _ _ Hok 0 q Eq) as (_ & _ & _ & ?). lia.
    + destruct (fds_pipe _ _ Hok a f Hf E0) as [q0 Hq0].
      assert (Hsh : is_Some (shifted s f (-1) !! f_pipe f)) by (apply shifted_dom; eauto).
      destruct Hsh as [q Hq]. unfold get_pipe. cbn [pipes with_files with_pipes]. rewrite Hq.
      cbn [mbind option_bind]. unfold dropped. rewrite Hq.
      destruct (_ && _); [|apply Hkf].
      unfold kfree_pipe. rewrite (proj2 (Z.eqb_neq (f_pipe f) 0)) by done.
      unfold mbind, M_bind, get_pipe, modify. cbn [pipes with_files with_pipes]. rewrite Hq.
      cbn [mbind option_bind]. specialize (Hkf (delete (f_pipe f) (shifted s f (-1)))).
      unfold with_files, with_pipes in *.
      cbn [nodes files pipes g_root tables cur next_id oom devs] in *. exact Hkf.
  - eexists. split; [done|]. split; [apply (refs_update_ok s leak a f (-1)); [done..|lia]|].
    split; [apply same_tables_files|]. split; [intros _; cbn; rewrite lookup_insert_eq; eauto|].
    intros b Hb. cbn. by rewrite lookup_insert_ne.
Qed.

(** *** Slots *)

Lemma fds_ok_leak s leak leak' :
  (forall a, a <> 0 -> leak' a = leak a) -> fds_ok s leak -> fds_ok s leak'.
Proof. intros Hl [H1 H2 H3 H4 H5 H6 H7]. split; try done. intros a Ha. rewrite Hl by done. auto. Qed.

(** The current task's table. *)
Definition table (s : vfs D) (t : Z) (tbl : list Z) : Prop :=
  cur s = Some t /\ tables s !! t = Some tbl.

Lemma table_run s t tbl : table s t tbl -> fd_table s = Some (Some tbl, s).
Proof.
  intros [Hc Ht]. unfold fd_table, mbind, M_bind, get, mret, M_ret. cbn. by rewrite Hc, Ht.
Qed.

Definition set_slot (s : vfs D) (t : Z) (tbl : list Z) (i v : Z) : vfs D :=
  with_tables s (<[t := <[Z.to_nat i := v]> tbl]> (tables s)).

Lemma fd_set_run s t tbl i v : table s t tbl -> fd_set i v s = Some (tt, set_slot s t tbl i v).
Proof. intros [Hc Ht]. unfold fd_set, mbind, M_bind, get. cbn. by rewrite Hc, Ht. Qed.

Lemma slot_lookup s leak t tbl i :
  fds_ok s leak -> tables s !! t = Some tbl -> 0 <= i < 16 -> tbl !! Z.to_nat i = Some (slot tbl i).
Proof.
  intros Hok Ht Hi. apply byte_at_lookup. unfold zlen.
  rewrite (fds_len _ _ Hok t tbl Ht). lia.
Qed.

Lemma set_slot_ok s leak t tbl i v :
  fds_ok s leak -> tables s !! t = Some tbl -> 0 <= i < 16 ->
  fds_ok (set_slot s t tbl i v) (bump (bump leak (slot tbl i) 1) v (-1)).
Proof.
  intros Hok Ht Hi. pose proof (slot_lookup _ _ _ _ _ Hok Ht Hi) as Hs.
  pose proof Hok as [H1 H2 H3 H4 H5 H6 H7].
  split; cbn [tables cur files pipes next_id with_tables set_slot]; try done.
  - intros t' tbl' [[<- <-]|[_ Ht']]%lookup_insert_Some; [|by apply (H1 t')].
    rewrite length_insert. by apply (H1 t).
  - intros t' Ht'. destruct (decide (t' = t)) as [->|]; [rewrite lookup_insert_eq; eauto|].
    rewrite lookup_insert_ne by done. by apply H2.
  - intros a Ha. specialize (H3 a Ha). unfold holders in *. cbn [tables set_slot with_tables].
    change (file_refs (set_slot s t tbl i v) a) with (file_refs s a). rewrite H3.
    rewrite (msum_insert _ _ t tbl) by done. rewrite (occ_insert a tbl _ _ v Hs).
    unfold bump. rewrite (Z.eqb_sym v a), (Z.eqb_sym (slot tbl i) a).
    destruct (a =? v), (a =? slot tbl i); lia.
Qed.

Lemma set_slot_table s t tbl i v :
  table s t tbl -> table (set_slot s t tbl i v) t (<[Z.to_nat i := v]> tbl).
Proof. intros [Hc Ht]. split; [done|]. cbn. apply lookup_insert_eq. Qed.

(** A descriptor in use refers to a live file. *)
Lemma slot_live s leak t tbl i :
  fds_ok s leak -> (forall a, 0 <= leak a) -> tables s !! t = Some tbl -> 0 <= i < 16 -> slot tbl i <> 0 ->
  exists f, files s !! slot tbl i = Some f.
Proof.
  intros Hok Hl Ht Hi Hs. pose proof (slot_lookup _ _ _ _ _ Hok Ht Hi) as Hlk.
  apply (live_file s leak); try done. unfold holders.
  rewrite (msum_delete _ _ t tbl) by done. apply occ_lookup in Hlk.
  pose proof (msum_nonneg (occ (slot tbl i)) (delete t (tables s)) (fun _ x _ => occ_nonneg _ x)).
  specialize (Hl (slot tbl i)). lia.
Qed.

(** Two descriptors on one file are two holders. *)
Lemma two_slots s leak t tbl i j :
  fds_ok s leak -> tables s !! t = Some tbl -> 0 <= i < 16 -> 0 <= j < 16 -> i <> j ->
  slot tbl i = slot tbl j -> 2 <= holders s (slot tbl j).
Proof.
  intros Hok Ht Hi Hj Hne E. pose proof (slot_lookup _ _ _ _ _ Hok Ht Hi) as Hli.
  pose proof (slot_lookup _ _ _ _ _ Hok Ht Hj) as Hlj.
  unfold holders. rewrite (msum_delete _ _ t tbl) by done.
  pose proof (msum_nonneg (occ (slot tbl j)) (delete t (tables s)) (fun _ x _ => occ_nonneg _ x)).
  pose proof (occ_insert (slot tbl j) tbl _ _ (slot tbl j + 1) Hli) as E1.
  assert (Hlj' : <[Z.to_nat i := slot tbl j + 1]> tbl !! Z.to_nat j = Some (slot tbl j))
    by (rewrite list_lookup_insert_ne by lia; done).
  apply occ_lookup in Hlj'. rewrite E, Z.eqb_refl in E1.
  rewrite (proj2 (Z.eqb_neq (slot tbl j + 1) _)) in E1 by lia. lia.
Qed.

Lemma same_tables_table s s' t tbl : same_tables s s' -> table s t tbl -> table s' t tbl.
Proof. unfold same_tables, table. intros (-> & -> & _). done. Qed.

Ltac leak_eq := apply fds_ok_leak; intros ? ?; unfold bump; split_tests; lia.

(** *** The operations *)

Lemma vfs_close_ok s leak t tbl fd :
  fds_ok s leak -> (forall a, 0 <= leak a) -> table s t tbl ->
  exists r s', vfs_close fd s = Some (r, s') /\ fds_ok s' leak /\ cur s' = cur s /\
    ((r = - EBADF /\ s' = s) \/
     (r = 0 /\ 0 <= fd < 16 /\ slot tbl fd <> 0 /\ table s' t (<[Z.to_nat fd := 0]> tbl))).
Proof.
  intros Hok Hl Htb. unfold vfs_close, mbind, M_bind. rewrite (table_run _ _ _ Htb).
  destruct ((fd <? 0) || (VFS_MAX_FDS <=? fd) || (slot tbl fd =? 0)) eqn:Et.
  { exists (- EBADF), s. split_and!; try done. by left. }
  unfold VFS_MAX_FDS in Et. bool_to_prop. rewrite (fd_set_run _ _ _ _ _ Htb).
  pose proof (set_slot_ok s leak t tbl fd 0 Hok (proj2 Htb) ltac:(lia)) as Hok1.
  pose proof (set_slot_table _ _ _ fd 0 Htb) as Htb1.
  destruct (slot_live s leak t tbl fd Hok Hl (proj2 Htb)) as [f Hf]; [lia|done|].
  destruct (file_unref_ok _ _ (slot tbl fd) f Hok1 Hf) as (s' & E & Hok' & Hst & _).
  rewrite E. exists 0, s'. split; [done|]. split; [by revert Hok'; leak_eq|].
  split; [by destruct Hst as (_ & -> & _)|]. right. split_and!; try done; try lia.
  by eapply same_tables_table.
Qed.

Lemma vfs_dup_ok s leak t tbl oldfd :
  fds_ok s leak -> (forall a, 0 <= leak a) -> table s t tbl ->
  exists r s', vfs_dup oldfd s = Some (r, s') /\ fds_ok s' leak /\ cur s' = cur s /\
    ((r < 0 /\ s' = s) \/
     (0 <= r < 16 /\ slot tbl r = 0 /\ 0 <= oldfd < 16 /\
      table s' t (<[Z.to_nat r := slot tbl oldfd]> tbl))).
Proof.
  intros Hok Hl Htb. unfold vfs_dup, mbind, M_bind. rewrite (table_run _ _ _ Htb).
  destruct ((oldfd <? 0) || (VFS_MAX_FDS <=? oldfd) || (slot tbl oldfd =? 0)) eqn:Et.
  { exists (- EBADF), s. split_and!; try done. by left. }
  unfold VFS_MAX_FDS in Et. bool_to_prop.
  destruct (zfind _ 16 0) as [i|] eqn:Ei.
  2:{ exists (- ENOMEM), s. split_and!; try done. by left. }
  apply zfind_Some in Ei as (Hi & Hi0%Z.eqb_eq & _). rewrite (fd_set_run _ _ _ _ _ Htb).
  pose proof (set_slot_ok s leak t tbl i (slot tbl oldfd) Hok (proj2 Htb) ltac:(lia)) as Hok1.
  pose proof (set_slot_table _ _ _ i (slot tbl oldfd) Htb) as Htb1.
  destruct (slot_live s leak t tbl oldfd Hok Hl (proj2 Htb)) as [f Hf]; [lia|done|].
  destruct (file_ref_ok _ _ (slot tbl oldfd) f Hok1 Hf) as (s' & E & Hok' & Hst & _).
  rewrite E. exists i, s'. split; [done|]. split; [by revert Hok'; leak_eq|].
  split; [by destruct Hst as (_ & -> & _)|]. right. split_and!; try done; try lia.
  by eapply same_tables_table.
Qed.

Lemma vfs_dup2_ok s leak t tbl oldfd newfd :
  fds_ok s leak -> (forall a, 0 <= leak a) -> table s t tbl ->
  exists r s', vfs_dup2 oldfd newfd s = Some (r, s') /\ fds_ok s' leak /\ cur s' = cur s /\
    ((r = - EBADF /\ s' = s) \/
     (r = newfd /\ 0 <= newfd < 16 /\ 0 <= oldfd < 16 /\
      table s' t (<[Z.to_nat newfd := slot tbl oldfd]> tbl))).
Proof.
  intros Hok Hl Htb. unfold vfs_dup2, mbind, M_bind. rewrite (table_run _ _ _ Htb).
  destruct ((oldfd <? 0) || (VFS_MAX_FDS <=? oldfd) || (slot tbl oldfd =? 0)) eqn:Et.
  { exists (- EBADF), s. split_and!; try done. by left. }
  destruct ((newfd <? 0) || (VFS_MAX_FDS <=? newfd)) eqn:Et2.
  { exists (- EBADF), s. split_and!; try done. by left. }
  unfold VFS_MAX_FDS in *. bool_to_prop.
  destruct (Z.eqb_spec oldfd newfd) as [->|Hne].
  { exists newfd, s. split_and!; try done. right. split_and!; try done; try lia.
    rewrite list_insert_id; [done|]. eapply slot_lookup; [done|apply Htb|lia]. }
  destruct (slot_live s leak t tbl oldfd Hok Hl (proj2 Htb)) as [f Hf]; [lia|done|].
  assert (Hmid : exists s1 leak1, (if negb (slot tbl newfd =? 0) then file_unref (slot tbl newfd) else mret tt) s
             = Some (tt, s1) /\ fds_ok s1 leak1 /\ same_tables s s1 /\
             (forall a, a <> 0 -> leak1 a = bump leak (slot tbl newfd) (-1) a) /\
             is_Some (files s1 !! slot tbl oldfd)).
  { destruct (Z.eqb_spec (slot tbl newfd) 0) as [Ez|Enz]; cbn [negb].
    - exists s, leak. split_and!; try done; try by eexists. intros a Ha. unfold bump. rewrite Ez.
      by rewrite (proj2 (Z.eqb_neq a 0)).
    - destruct (slot_live s leak t tbl newfd Hok Hl (proj2 Htb)) as [g Hg]; [lia|done|].
      destruct (file_unref_ok _ _ (slot tbl newfd) g Hok Hg) as (s1 & E1 & Hok1 & Hst & Hmore & Hoth).
      exists s1, (bump leak (slot tbl newfd) (-1)). split_and!; try done.
      destruct (decide (slot tbl oldfd = slot tbl newfd)) as [Es|Es]; [|rewrite Hoth by done; eauto].
      rewrite Es. apply Hmore. pose proof (fds_refs _ _ Hok (slot tbl newfd) Enz) as Er.
      unfold file_refs in Er. rewrite Hg in Er. rewrite Er.
      pose proof (two_slots s leak t tbl oldfd newfd Hok (proj2 Htb) ltac:(lia) ltac:(lia) Hne Es) as Htwo.
      specialize (Hl (slot tbl newfd)). lia. }
  destruct Hmid as (s1 & leak1 & E1 & Hok1 & Hst1 & Hleak1 & [f1 Hf1]). rewrite E1.
  pose proof (same_tables_table _ _ _ _ Hst1 Htb) as Htb1. rewrite (fd_set_run _ _ _ _ _ Htb1).
  pose proof (set_slot_ok s1 leak1 t tbl newfd (slot tbl oldfd) Hok1 (proj2 Htb1) ltac:(lia)) as Hok2.
  pose proof (set_slot_table _ _ _ newfd (slot tbl oldfd) Htb1) as Htb2.
  destruct (file_ref_ok _ _ (slot tbl oldfd) f1 Hok2 Hf1) as (s' & E & Hok' & Hst & _).
  rewrite E. exists newfd, s'. split; [done|]. split.
  { revert Hok'. apply fds_ok_leak. intros a Ha. unfold bump. rewrite Hleak1 by done. unfold bump.
    split_tests; lia. }
  split; [destruct Hst as (_ & -> & _), Hst1 as (_ & <- & _); done|].
  right. split_and!; try done; try lia. by eapply same_tables_table.
Qed.

Lemma slot_insert tbl i v j :
  0 <= i < zlen tbl -> 0 <= j -> slot (<[Z.to_nat i := v]> tbl) j = if j =? i then v else slot tbl j.
Proof.
  intros Hi Hj. unfold slot, byte_at. rewrite !nth_lookup. unfold zlen in Hi.
  destruct (Z.eqb_spec j i) as [->|Hne].
  - by rewrite list_lookup_insert_eq by lia.
  - by rewrite list_lookup_insert_ne by lia.
Qed.

Lemma table_zlen s leak t tbl : fds_ok s leak -> tables s !! t = Some tbl -> zlen tbl = 16.
Proof. intros Hok Ht. unfold zlen. by rewrite (fds_len _ _ Hok t tbl Ht). Qed.

Lemma close_slots_ok n i s leak t tbl :
  fds_ok s leak -> (forall a, 0 <= leak a) -> table s t tbl -> 0 <= i -> i + Z.of_nat n <= 16 ->
  exists s' tbl', close_slots n i s = Some (tt, s') /\ fds_ok s' leak /\ cur s' = cur s /\ table s' t tbl' /\
    (forall j, 0 <= j < 16 -> slot tbl' j = if (i <=? j) && (j <? i + Z.of_nat n) then 0 else slot tbl j) /\
    devs s' = devs s /\ (forall u, u <> t -> tables s' !! u = tables s !! u).
Proof.
  intros Hok Hl. revert i s tbl Hok; induction n as [|n IH]; intros i s tbl Hok Htb Hi Hn; cbn [close_slots].
  { exists s, tbl. split_and!; try done; try apply Htb. intros j Hj. split_tests; [lia|done]. }
  rewrite (bind_run _ _ _ _ _ (table_run _ _ _ Htb)).
  assert (Hone : exists s1, (if negb (slot tbl i =? 0)
      then _ ← file_unref (slot tbl i); fd_set i 0 else mret tt) s = Some (tt, s1) /\
      fds_ok s1 leak /\ cur s1 = cur s /\ table s1 t (<[Z.to_nat i := 0]> tbl) /\
      devs s1 = devs s /\ (forall u, u <> t -> tables s1 !! u = tables s !! u)).
  { destruct (Z.eqb_spec (slot tbl i) 0) as [Ez|Enz]; cbn [negb].
    - exists s. split_and!; try done; try apply Htb. rewrite list_insert_id; [apply Htb|].
      rewrite <-Ez. eapply slot_lookup; [done|apply Htb|lia].
    - destruct (slot_live s leak t tbl i Hok Hl (proj2 Htb)) as [g Hg]; [lia|done|].
      destruct (file_unref_ok _ _ (slot tbl i) g Hok Hg) as (s1 & E1 & Hok1 & Hst & _).
      pose proof (same_tables_table _ _ _ _ Hst Htb) as Htb1.
      rewrite (bind_run _ _ _ _ _ E1), (fd_set_run _ _ _ _ _ Htb1).
      eexists. split; [done|].
      pose proof (set_slot_ok s1 _ t tbl i 0 Hok1 (proj2 Htb1) ltac:(lia)) as Hok2.
      split; [by revert Hok2; leak_eq|]. split; [destruct Hst as (_ & E & _); exact E|].
      split; [by apply set_slot_table|]. destruct Hst as (Et & _ & _ & _ & _ & _ & ?). split; [done|].
      intros u Hu. cbn [tables set_slot with_tables]. by rewrite lookup_insert_ne, Et. }
  destruct Hone as (s1 & E1 & Hok1 & Hc1 & Htb1 & Hd1 & Hu1). rewrite (bind_run _ _ _ _ _ E1).
  destruct (IH (i + 1) s1 (<[Z.to_nat i := 0]> tbl) Hok1 Htb1) as (s' & tbl' & E & Hok' & Hc & Htb' & Hs & Hd & Hu); [lia..|].
  exists s', tbl'. split_and!; try done; try apply Htb'; [congruence| |congruence|intros u Hut; rewrite Hu, Hu1; done].
  intros j Hj. rewrite Hs, slot_insert; [|rewrite (table_zlen _ _ _ _ Hok (proj2 Htb)); lia|lia|done].
  split_tests; lia.
Qed.

Lemma vfs_close_all_ok s leak t tbl :
  fds_ok s leak -> (forall a, 0 <= leak a) -> table s t tbl ->
  exists s' tbl', vfs_close_all s = Some (tt, s') /\ fds_ok s' leak /\ cur s' = cur s /\ table s' t tbl' /\
    (forall j, 0 <= j < 16 -> slot tbl' j = 0) /\ devs s' = devs s /\
    (forall u, u <> t -> tables s' !! u = tables s !! u).
Proof.
  intros Hok Hl Htb. unfold vfs_close_all, mbind, M_bind. rewrite (table_run _ _ _ Htb).
  destruct (close_slots_ok 16 0 s leak t tbl Hok Hl Htb) as (s' & tbl' & E & Hok' & Hc & Htb' & Hs & Hd & Hu); [lia..|].
  exists s', tbl'. split_and!; try done; try apply Htb'. intros j Hj. rewrite Hs by done. split_tests; [done|lia].
Qed.

(** Inheriting into the empty table of a new task. *)
Lemma inherit_slots_ok n i s leak dst src dt stb :
  fds_ok s leak -> (forall a, 0 <= leak a) -> dst <> src ->
  tables s !! dst = Some dt -> tables s !! src = Some stb -> 0 <= i -> i + Z.of_nat n = 16 ->
  (forall j, i <= j < 16 -> slot dt j = 0) ->
  exists s' dt', inherit_slots n i dst src s = Some (tt, s') /\ fds_ok s' leak /\ cur s' = cur s /\
    tables s' = <[dst := dt']> (tables s) /\
    forall j, 0 <= j < 16 -> slot dt' j = if j <? i then slot dt j else slot stb j.
Proof.
  intros Hok Hl Hne. revert i s dt Hok; induction n as [|n IH]; intros i s dt Hok Hd Hs Hi Hn Hz;
    cbn [inherit_slots].
  { exists s, dt. split_and!; try done; [by rewrite insert_id|]. intros j Hj. split_tests; [done|lia]. }
  rewrite (bind_run get _ s s s) by done. rewrite Hd, Hs.
  set (s1 := with_tables s (<[dst := <[Z.to_nat i := slot stb i]> dt]> (tables s))).
  rewrite (bind_run _ _ s tt s1) by done.
  pose proof (set_slot_ok s leak dst dt i (slot stb i) Hok Hd ltac:(lia)) as Hok1.
  change (set_slot s dst dt i (slot stb i)) with s1 in Hok1. rewrite Hz in Hok1 by lia.
  assert (Hone : exists s2, (if negb (slot stb i =? 0) then file_ref (slot stb i) else mret tt) s1 = Some (tt, s2) /\
      fds_ok s2 leak /\ cur s2 = cur s /\ tables s2 = tables s1).
  { destruct (Z.eqb_spec (slot stb i) 0) as [Ez|Enz]; cbn [negb].
    - exists s1. split_and!; try done. revert Hok1. rewrite Ez. leak_eq.
    - destruct (slot_live s leak src stb i Hok Hl Hs) as [f Hf]; [lia|done|].
      destruct (file_ref_ok s1 _ (slot stb i) f Hok1 Hf) as (s2 & E2 & Hok2 & Hst & _).
      exists s2. split; [done|]. split; [by revert Hok2; leak_eq|].
      destruct Hst as (-> & -> & _). done. }
  destruct Hone as (s2 & E2 & Hok2 & Hc2 & Ht2). rewrite (bind_run _ _ _ _ _ E2).
  pose proof (table_zlen _ _ _ _ Hok Hd) as Hzl.
  destruct (IH (i + 1) s2 (<[Z.to_nat i := slot stb i]> dt) Hok2) as (s' & dt' & E & Hok' & Hc & Ht & Hsl).
  - rewrite Ht2. cbn. apply lookup_insert_eq.
  - rewrite Ht2. cbn. by rewrite lookup_insert_ne.
  - lia.
  - lia.
  - intros j Hj. rewrite slot_insert by lia. rewrite (proj2 (Z.eqb_neq j i)) by lia. apply Hz. lia.
  - exists s', dt'. split_and!; try done; [congruence| |].
    + rewrite Ht, Ht2. cbn. by rewrite insert_insert_eq.
    + intros j Hj. rewrite Hsl, slot_insert by lia. split_tests; try lia; congruence.
Qed.

(** *** New objects *)

Lemma kmalloc_id_run s :
  exists o, kmalloc_id s = Some (0, with_alloc s (next_id s) o) \/
            kmalloc_id s = Some (next_id s, with_alloc s (next_id s + 1) o).
Proof. unfold kmalloc_id. destruct (oom s) as [|[] o]; eauto. Qed.

Lemma with_alloc_ok s leak i o : fds_ok s leak -> next_id s <= i -> fds_ok (with_alloc s i o) leak.
Proof.
  intros [H1 H2 H3 H4 H5 H6 H7] Hi. split; cbn; try done.
  - intros a f Hf. destruct (H4 a f Hf). split; [done|lia].
  - intros p q Hq. destruct (H6 p q Hq) as (?&?&?&?). split_and!; try done; lia.
  - lia.
Qed.

(** An address that is not allocated yet is in no table and no leak. *)
Lemma fresh_address s leak a :
  fds_ok s leak -> (forall b, 0 <= leak b) -> next_id s <= a ->
  files s !! a = None /\ pipes s !! a = None /\ holders s a = 0 /\ leak a = 0.
Proof.
  intros Hok Hl Ha. pose proof (fds_next _ _ Hok).
  assert (Hf : files s !! a = None).
  { destruct (files s !! a) as [f|] eqn:E; [|done]. destruct (fds_live _ _ Hok a f E). lia. }
  pose proof (fds_refs _ _ Hok a ltac:(lia)) as E. unfold file_refs in E. rewrite Hf in E.
  pose proof (msum_nonneg (occ a) (tables s) (fun _ x _ => occ_nonneg _ x)) as Hh.
  specialize (Hl a). unfold holders in *. split_and!; try done; try lia.
  destruct (pipes s !! a) as [q|] eqn:Eq; [|done]. destruct (fds_ends _ _ Hok a q Eq) as (?&?&?&?). lia.
Qed.

(** A fresh open file on a node, not yet in a table. *)
Lemma new_file_ok s leak a f :
  fds_ok s leak -> (forall b, 0 <= leak b) -> 0 < a < next_id s -> files s !! a = None ->
  holders s a = 0 -> leak a = 0 -> f_refs f = 1 -> f_pipe f = 0 ->
  fds_ok (with_files s (<[a := f]> (files s))) (bump leak a 1).
Proof.
  intros [H1 H2 H3 H4 H5 H6 H7] Hl Ha Hnew Hh Hla Hr Hp.
  split; cbn [tables cur files pipes next_id with_files]; try done.
  - intros b Hb. unfold file_refs, bump. cbn [files with_files]. change (holders (with_files s _) b) with (holders s b).
    destruct (Z.eqb_spec b a) as [->|Hne]; [rewrite lookup_insert_eq; lia|].
    rewrite lookup_insert_ne by done. by apply H3.
  - intros b g [[<- <-]|[_ Hg]]%lookup_insert_Some; [lia|by apply (H4 b)].
  - intros b g [[<- <-]|[_ Hg]]%lookup_insert_Some; [done|by apply (H5 b)].
  - intros p q Hq. destruct (H6 p q Hq) as (Er & Ew & Hpos & Hpr). unfold pipe_end. cbn [files with_files].
    rewrite !msum_insert_new by done. unfold end_refs at 1 3. rewrite Hp, (proj2 (Z.eqb_neq 0 p)) by lia.
    cbn [andb]. unfold pipe_end in *. split_and!; lia.
Qed.

Lemma fd_alloc_ok s leak t tbl f :
  fds_ok s leak -> table s t tbl ->
  exists x s', fd_alloc f s = Some (x, s') /\
    ((x = - ENOMEM /\ s' = s /\ forall i, 3 <= i < 16 -> slot tbl i <> 0) \/
     (3 <= x < 16 /\ slot tbl x = 0 /\ s' = set_slot s t tbl x f)).
Proof.
  intros Hok Htb. unfold fd_alloc. rewrite (bind_run _ _ _ _ _ (table_run _ _ _ Htb)).
  destruct (zfind _ 13 3) as [i|] eqn:Ei.
  - apply zfind_Some in Ei as (Hi & Hi0%Z.eqb_eq & _).
    rewrite (bind_run _ _ _ _ _ (fd_set_run _ _ _ _ _ Htb)). eexists _, _. split; [done|]. right.
    split_and!; try done; lia.
  - eexists _, _. split; [done|]. left. split_and!; try done.
    intros i Hi. rewrite zfind_None in Ei. by apply Z.eqb_neq, Ei.
Qed.

(** The pipe and its two ends, not yet in a table. *)
Definition pipe_objects (s : vfs D) (p r w : Z) (o : list bool) : vfs D :=
  with_alloc
    (with_files (with_pipes s (<[p := pipe_new]> (pipes s)))
       (<[w := VfsFile 0 p 0 O_WRONLY 1]> (<[r := VfsFile 0 p 0 O_RDONLY 1]> (files s))))
    (next_id s + 3) o.

Lemma pipe_objects_ok s leak o :
  fds_ok s leak -> (forall b, 0 <= leak b) ->
  let p := next_id s in
  fds_ok (pipe_objects s p (p + 1) (p + 2) o) (bump (bump leak (p + 1) 1) (p + 2) 1).
Proof.
  intros Hok Hl p. pose proof Hok as [H1 H2 H3 H4 H5 H6 H7].
  destruct (fresh_address s leak p Hok Hl) as (Fp & Pp & _); [lia|].
  destruct (fresh_address s leak (p + 1) Hok Hl) as (Fr & _ & Hr & Lr); [lia|].
  destruct (fresh_address s leak (p + 2) Hok Hl) as (Fw & _ & Hw & Lw); [lia|].
  assert (Hends : forall e q, pipe_end (pipe_objects s p (p + 1) (p + 2) o) e q =
            pipe_end s e q + (if p =? q then 1 else 0)).
  { intros e q. unfold pipe_end. cbn [files pipe_objects with_alloc with_files].
    rewrite msum_insert_new by (rewrite lookup_insert_ne by lia; done).
    rewrite msum_insert_new by done.
    change (end_refs e q (VfsFile 0 p 0 O_WRONLY 1)) with (if (p =? q) && Bool.eqb true e then 1 else 0).
    change (end_refs e q (VfsFile 0 p 0 O_RDONLY 1)) with (if (p =? q) && Bool.eqb false e then 1 else 0).
    destruct (p =? q), e; cbn [andb Bool.eqb]; lia. }
  assert (Hempty : forall e, pipe_end s e p = 0).
  { intros e. unfold pipe_end. assert (G : forall i f, files s !! i = Some f -> end_refs e p f = 0).
    { intros i f Hf. unfold end_refs. destruct (Z.eqb_spec (f_pipe f) p) as [E|]; [|done].
      destruct (H5 i f Hf) as [q Hq]; [lia|]. rewrite E, Pp in Hq. done. }
    revert G. generalize (files s). intros m. induction m as [|i x m Hi IH] using map_ind; intros G.
    - apply msum_empty.
    - rewrite msum_insert_new by done. rewrite (G i x) by apply lookup_insert_eq. rewrite IH; [done|].
      intros j f Hj. apply (G j). rewrite lookup_insert_ne; [done|congruence]. }
  split; try done.
  - intros a Ha. unfold file_refs, bump. cbn [files pipe_objects with_alloc with_files].
    change (holders (pipe_objects s p (p + 1) (p + 2) o) a) with (holders s a).
    specialize (H3 a Ha). unfold file_refs in H3.
    destruct (Z.eqb_spec a (p + 2)) as [->|].
    { rewrite lookup_insert_eq, (proj2 (Z.eqb_neq (p + 2) (p + 1))) by lia. cbn [f_refs]. lia. }
    rewrite lookup_insert_ne by done. destruct (Z.eqb_spec a (p + 1)) as [->|].
    { rewrite lookup_insert_eq. cbn [f_refs]. lia. }
    by rewrite lookup_insert_ne.
  - cbn. intros a f [[<- <-]|[_ [[<- <-]|[_ Hf]]%lookup_insert_Some]]%lookup_insert_Some; cbn; try lia.
    destruct (H4 a f Hf). lia.
  - cbn. intros a f [[<- <-]|[_ [[<- <-]|[_ Hf]]%lookup_insert_Some]]%lookup_insert_Some Hp; cbn.
    + rewrite lookup_insert_eq. eauto.
    + rewrite lookup_insert_eq. eauto.
    + destruct (H5 a f Hf Hp) as [q Hq]. rewrite lookup_insert_ne; [eauto|]. congruence.
  - intros q x. cbn [pipes pipe_objects with_alloc with_files with_pipes].
    intros [[<- <-]|[Hne Hx]]%lookup_insert_Some; rewrite !Hends.
    + rewrite Z.eqb_refl, !Hempty. cbn. lia.
    + rewrite (proj2 (Z.eqb_neq p q)) by done. destruct (H6 q x Hx) as (?&?&?&?).
      cbn. split_and!; lia.
  - cbn. lia.
Qed.

Lemma kfree_file_run s a f :
  a <> 0 -> files s !! a = Some f -> kfree_file a s = Some (tt, with_files s (delete a (files s))).
Proof.
  intros Ha Hf. unfold kfree_file. rewrite (proj2 (Z.eqb_neq a 0)) by done.
  unfold mbind, M_bind, get_file. by rewrite Hf.
Qed.

Lemma kfree_pipe_run s a q :
  a <> 0 -> pipes s !! a = Some q -> kfree_pipe a s = Some (tt, with_pipes s (delete a (pipes s))).
Proof.
  intros Ha Hq. unfold kfree_pipe. rewrite (proj2 (Z.eqb_neq a 0)) by done.
  unfold mbind, M_bind, get_pipe. by rewrite Hq.
Qed.

Lemma kfree_file_null s : kfree_file 0 s = Some (tt, s).
Proof. done. Qed.

(** Normal form of nested state updates: allocation outermost, then files,
    then pipes. *)
Lemma files_with_files s m : files (with_files s m) = m. Proof. done. Qed.
Lemma files_with_pipes s m : files (with_pipes s m) = files s. Proof. done. Qed.
Lemma files_with_alloc s i o : files (with_alloc s i o) = files s. Proof. done. Qed.
Lemma pipes_with_files s m : pipes (with_files s m) = pipes s. Proof. done. Qed.
Lemma pipes_with_pipes s m : pipes (with_pipes s m) = m. Proof. done. Qed.
Lemma pipes_with_alloc s i o : pipes (with_alloc s i o) = pipes s. Proof. done. Qed.
Lemma next_with_files s m : next_id (with_files s m) = next_id s. Proof. done. Qed.
Lemma next_with_pipes s m : next_id (with_pipes s m) = next_id s. Proof. done. Qed.
Lemma next_with_alloc s i o : next_id (with_alloc s i o) = i. Proof. done. Qed.
Lemma files_alloc_swap s m i o : with_files (with_alloc s i o) m = with_alloc (with_files s m) i o. Proof. done. Qed.
Lemma pipes_alloc_swap s m i o : with_pipes (with_alloc s i o) m = with_alloc (with_pipes s m) i o. Proof. done. Qed.
Lemma pipes_files_swap s m m' : with_pipes (with_files s m) m' = with_files (with_pipes s m') m. Proof. done. Qed.
Lemma files_files s m m' : with_files (with_files s m) m' = with_files s m'. Proof. done. Qed.
Lemma pipes_pipes s m m' : with_pipes (with_pipes s m) m' = with_pipes s m'. Proof. done. Qed.
Lemma alloc_alloc s i o i' o' : with_alloc (with_alloc s i o) i' o' = with_alloc s i' o'. Proof. done. Qed.
Lemma with_files_id s : with_files s (files s) = s. Proof. by destruct s. Qed.
Lemma with_pipes_id s : with_pipes s (pipes s) = s. Proof. by destruct s. Qed.

Ltac vfs_norm :=
  repeat rewrite ?files_with_files, ?files_with_pipes, ?files_with_alloc, ?pipes_with_files,
    ?pipes_with_pipes, ?pipes_with_alloc, ?next_with_files, ?next_with_pipes, ?next_with_alloc,
    ?files_alloc_swap, ?pipes_alloc_swap, ?pipes_files_swap, ?files_files, ?pipes_pipes, ?alloc_alloc.

(** A file that is allocated when [a] is not NULL. *)
Definition with_file_if (s : vfs D) (a : Z) (f : vfs_file) : vfs D :=
  if a =? 0 then s else with_files s (<[a := f]> (files s)).

Lemma put_file_if_run s a f :
  (if a =? 0 then mret tt else put_file a f) s = Some (tt, with_file_if s a f).
Proof. unfold with_file_if. by destruct (a =? 0). Qed.

(** Undoing an incomplete [vfs_pipe]: both ends and the pipe are freed. *)
Lemma free_pipe_objects s i o p r w R W (k : Z * (Z * Z)) :
  let s1 := with_alloc (with_file_if (with_file_if (with_pipes s (<[p := pipe_new]> (pipes s))) r R) w W) i o in
  p <> 0 -> (r = 0 \/ r <> w) -> pipes s !! p = None -> files s !! r = None -> files s !! w = None ->
  (_ ← kfree_file r; _ ← kfree_file w; _ ← kfree_pipe p; mret k) s1 = Some (k, with_alloc s i o).
Proof.
  intros s1 Hp Hrw Pp Fr Fw. unfold s1, with_file_if. clear s1.
  assert (Hfp : forall F (k : Z * (Z * Z)) (x := with_alloc (with_files (with_pipes s (<[p := pipe_new]> (pipes s))) F) i o),
            F = files s -> (_ ← kfree_pipe p; mret k) x = Some (k, with_alloc s i o)).
  { intros F k' x ->. unfold x. erewrite bind_run; [|eapply kfree_pipe_run; [done|vfs_norm; apply lookup_insert_eq]].
    vfs_norm. rewrite delete_insert_id by done.
    by rewrite with_pipes_id, with_files_id. }
  destruct (Z.eqb_spec r 0) as [->|Hr], (Z.eqb_spec w 0) as [->|Hw].
  - erewrite bind_run by apply kfree_file_null. erewrite bind_run by apply kfree_file_null.
    rewrite <-(with_files_id (with_pipes s _)). by apply Hfp.
  - erewrite bind_run by apply kfree_file_null.
    erewrite bind_run; [|eapply kfree_file_run; [done|vfs_norm; apply lookup_insert_eq]].
    vfs_norm. apply Hfp. by rewrite delete_insert_id.
  - erewrite bind_run; [|eapply kfree_file_run; [done|vfs_norm; apply lookup_insert_eq]].
    erewrite bind_run by apply kfree_file_null. vfs_norm. apply Hfp. by rewrite delete_insert_id.
  - destruct Hrw as [|Hrw]; [done|].
    erewrite bind_run; [|eapply kfree_file_run; [done|vfs_norm; rewrite lookup_insert_ne by done; apply lookup_insert_eq]].
    vfs_norm.
    erewrite bind_run; [|eapply kfree_file_run; [done|vfs_norm; rewrite lookup_delete_ne by done; apply lookup_insert_eq]].
    vfs_norm. apply Hfp. rewrite delete_insert_ne, (delete_insert_id (files s)) by done. by rewrite delete_insert_id.
Qed.

Lemma file_if_alloc s a f i o :
  with_file_if (with_alloc s i o) a f = with_alloc (with_file_if s a f) i o.
Proof. unfold with_file_if. by destruct (a =? 0). Qed.

(** The second half of [vfs_pipe]: descriptors for the two ends. *)
Definition pipe_fds (p r w : Z) : M D (Z * (Z * Z)) :=
  a ← fd_alloc r;
  b ← fd_alloc w;
  if (a <? 0) || (b <? 0) then
    _ ← (if 0 <=? a then fd_set a 0 else mret tt);
    _ ← (if 0 <=? b then fd_set b 0 else mret tt);
    _ ← kfree_file r;
    _ ← kfree_file w;
    _ ← kfree_pipe p;
    mret (- ENOMEM, (0, 0))
  else mret (0, (a, b)).

Definition pipe_result (s : vfs D) (t : Z) (tbl : list Z) (leak : Z -> Z) (res : Z * (Z * Z)) (s' : vfs D) : Prop :=
  fds_ok s' leak /\ cur s' = cur s /\
  ((fst res < 0 /\ tables s' = tables s) \/
   (exists a b r w, res = (0, (a, b)) /\ 3 <= a < 16 /\ 3 <= b < 16 /\ a <> b /\
      slot tbl a = 0 /\ slot tbl b = 0 /\ r <> 0 /\ w <> 0 /\
      table s' t (<[Z.to_nat b := w]> (<[Z.to_nat a := r]> tbl)))).

Lemma set_slot_undo s t tbl i v w :
  tables s !! t = Some tbl -> tbl !! Z.to_nat i = Some w ->
  set_slot (set_slot s t tbl i v) t (<[Z.to_nat i := v]> tbl) i w = s.
Proof.
  intros Ht Hi. unfold set_slot. cbn [tables with_tables].
  rewrite list_insert_insert_eq, insert_insert_eq.
  rewrite (list_insert_id tbl (Z.to_nat i) w Hi), (insert_id (tables s) t tbl Ht). by destruct s.
Qed.

Lemma pipe_fds_ok s leak t tbl o :
  fds_ok s leak -> (forall b, 0 <= leak b) -> table s t tbl ->
  let p := next_id s in
  exists res s', pipe_fds p (p + 1) (p + 2) (pipe_objects s p (p + 1) (p + 2) o) = Some (res, s') /\
    pipe_result s t tbl leak res s'.
Proof.
  intros Hok Hl Htb p. pose proof (pipe_objects_ok s leak o Hok Hl) as Hok1. fold p in Hok1.
  pose proof (fds_next _ _ Hok) as Hp0.
  destruct (fresh_address s leak p Hok Hl) as (_ & Pp & _); [lia|].
  destruct (fresh_address s leak (p + 1) Hok Hl) as (Fr & _ & _ & Lr); [lia|].
  destruct (fresh_address s leak (p + 2) Hok Hl) as (Fw & _ & _ & Lw); [lia|].
  set (s1 := pipe_objects s p (p + 1) (p + 2) o) in *.
  assert (Htb1 : table s1 t tbl) by exact Htb.
  assert (Hundo : forall k : Z * (Z * Z),
    (_ ← kfree_file (p + 1); _ ← kfree_file (p + 2); _ ← kfree_pipe p; (mret k : M D (Z * (Z * Z)))) s1
      = Some (k, with_alloc s (p + 3) o)).
  { intros k. pose proof (free_pipe_objects s (p + 3) o p (p + 1) (p + 2) (VfsFile 0 p 0 O_RDONLY 1)
      (VfsFile 0 p 0 O_WRONLY 1) k) as F. cbv zeta in F. unfold with_file_if in F.
    rewrite (proj2 (Z.eqb_neq (p + 1) 0)), (proj2 (Z.eqb_neq (p + 2) 0)) in F by lia.
    apply F; try done; [lia|right; lia]. }
  unfold pipe_fds.
  destruct (fd_alloc_ok s1 _ t tbl (p + 1) Hok1 Htb1) as (a & s2 & Ea & [(-> & -> & Hfull)|(Ha & Ha0 & ->)]).
  - rewrite (bind_run _ _ _ _ _ Ea).
    destruct (fd_alloc_ok s1 _ t tbl (p + 2) Hok1 Htb1) as (b & s3 & Eb & [(-> & -> & _)|(Hb & Hb0 & _)]).
    2:{ by destruct (Hfull b Hb). }
    rewrite (bind_run _ _ _ _ _ Eb). change (- ENOMEM <? 0) with true. change (0 <=? - ENOMEM) with false.
    cbn [orb]. do 2 rewrite (bind_run _ _ s1 tt s1) by done. rewrite Hundo.
    eexists _, _. split; [done|]. split; [apply with_alloc_ok; [done|lia]|]. split; [done|]. by left.
  - rewrite (bind_run _ _ _ _ _ Ea). set (s2 := set_slot s1 t tbl a (p + 1)) in *.
    pose proof (set_slot_ok s1 _ t tbl a (p + 1) Hok1 (proj2 Htb1) ltac:(lia)) as Hok2.
    pose proof (set_slot_table s1 t tbl a (p + 1) Htb1) as Htb2. fold s2 in Hok2, Htb2.
    set (tbl2 := <[Z.to_nat a := p + 1]> tbl) in *.
    assert (Hz : zlen tbl = 16) by (eapply table_zlen; [exact Hok|apply Htb]).
    destruct (fd_alloc_ok s2 _ t tbl2 (p + 2) Hok2 Htb2) as (b & s3 & Eb & [(-> & -> & _)|(Hb & Hb0 & ->)]);
      rewrite (bind_run _ _ _ _ _ Eb).
    + rewrite orb_true_r. rewrite (proj2 (Z.leb_le 0 a)) by lia.
      rewrite (bind_run _ _ _ _ _ (fd_set_run _ _ _ a 0 Htb2)).
      assert (set_slot s2 t tbl2 a 0 = s1) as ->.
      { apply set_slot_undo; [apply Htb1|]. rewrite <-Ha0. by eapply slot_lookup; [exact Hok1|apply Htb1|lia]. }
      rewrite (bind_run _ _ s1 tt s1) by done. rewrite Hundo.
      eexists _, _. split; [done|]. split; [apply with_alloc_ok; [done|lia]|]. split; [done|]. by left.
    + rewrite (proj2 (Z.ltb_ge a 0)), (proj2 (Z.ltb_ge b 0)) by lia. cbn [orb].
      pose proof (set_slot_ok s2 _ t tbl2 b (p + 2) Hok2 (proj2 Htb2) ltac:(lia)) as Hok3.
      unfold tbl2 in Hb0. rewrite slot_insert in Hb0 by lia.
      assert (Hba : b <> a) by (intros ->; rewrite Z.eqb_refl in Hb0; lia).
      rewrite (proj2 (Z.eqb_neq b a)) in Hb0 by done.
      eexists _, _. split; [done|]. split; [|split; [done|right]].
      * revert Hok3. apply fds_ok_leak. intros x Hx. unfold bump, tbl2. rewrite slot_insert by lia.
        rewrite (proj2 (Z.eqb_neq b a)), Ha0, Hb0 by done. split_tests; lia.
      * exists a, b, (p + 1), (p + 2). split_and!; try done; try lia. by apply set_slot_table.
Qed.

Lemma vfs_pipe_ok s leak t tbl :
  fds_ok s leak -> (forall b, 0 <= leak b) -> table s t tbl ->
  exists res s', vfs_pipe_open s = Some (res, s') /\ pipe_result s t tbl leak res s'.
Proof.
  intros Hok Hl Htb. unfold vfs_pipe_open. rewrite (bind_run _ _ _ _ _ (table_run _ _ _ Htb)).
  pose proof (fds_next _ _ Hok) as Hp0. set (p := next_id s).
  assert (Hfail : forall i o, next_id s <= i -> pipe_result s t tbl leak (- ENOMEM, (0, 0)) (with_alloc s i o)).
  { intros i o Hi. split; [by apply with_alloc_ok|]. split; [done|]. by left. }
  destruct (fresh_address s leak p Hok Hl) as (_ & Pp & _); [lia|].
  assert (Hfresh : forall x, p < x -> files s !! x = None).
  { intros x Hx. apply (fresh_address s leak x Hok Hl). lia. }
  assert (Hf0 : files s !! 0 = None).
  { destruct (files s !! 0) as [f|] eqn:E; [|done]. destruct (fds_live _ _ Hok 0 f E). lia. }
  destruct (kmalloc_id_run s) as (o1 & [E1|E1]); rewrite (bind_run _ _ _ _ _ E1).
  { cbn [Z.eqb]. eexists _, _. split; [done|]. apply Hfail. lia. }
  fold p. rewrite (proj2 (Z.eqb_neq p 0)) by lia.
  set (P := <[p := pipe_new]> (pipes s)). set (R := VfsFile 0 p 0 O_RDONLY 1). set (W := VfsFile 0 p 0 O_WRONLY 1).
  rewrite (bind_run (put_pipe p pipe_new) _ _ tt (with_alloc (with_pipes s P) (p + 1) o1)) by done.
  set (sP := with_pipes s P).
  assert (Hr : exists r o2 i2, kmalloc_id (with_alloc sP (p + 1) o1) = Some (r, with_alloc sP i2 o2) /\
             (r = 0 \/ (r = p + 1 /\ i2 = p + 2)) /\ p + 1 <= i2).
  { destruct (kmalloc_id_run (with_alloc sP (p + 1) o1)) as (o2 & [E|E]); rewrite E; vfs_norm;
      eexists _, _, _; (split; [done|]); lia. }
  destruct Hr as (r & o2 & i2 & E2 & Hr & Hi2). rewrite (bind_run _ _ _ _ _ E2).
  rewrite (bind_run _ _ _ _ _ (put_file_if_run _ r R)), file_if_alloc. set (sR := with_file_if sP r R).
  assert (Hw : exists w o3 i3, kmalloc_id (with_alloc sR i2 o2) = Some (w, with_alloc sR i3 o3) /\
             (w = 0 \/ (w = i2 /\ i3 = i2 + 1)) /\ i2 <= i3).
  { destruct (kmalloc_id_run (with_alloc sR i2 o2)) as (o3 & [E|E]); rewrite E; vfs_norm;
      eexists _, _, _; (split; [done|]); lia. }
  destruct Hw as (w & o3 & i3 & E3 & Hw & Hi3). rewrite (bind_run _ _ _ _ _ E3).
  rewrite (bind_run _ _ _ _ _ (put_file_if_run _ w W)), file_if_alloc.
  destruct ((r =? 0) || (w =? 0)) eqn:Ez.
  - unfold sR, sP, P. rewrite free_pipe_objects; [|lia|lia|done| |].
    + eexists _, _. split; [done|]. apply Hfail. lia.
    + destruct Hr as [->|[-> _]]; [done|apply Hfresh; lia].
    + destruct Hw as [->|[-> _]]; [done|apply Hfresh; lia].
  - bool_to_prop. destruct Hr as [|[-> ->]]; [done|]. destruct Hw as [|[-> ->]]; [done|].
    unfold sR, sP, with_file_if. rewrite (proj2 (Z.eqb_neq (p + 1) 0)), (proj2 (Z.eqb_neq (p + 2) 0)) by lia.
    replace (p + 2 + 1) with (p + 3) by lia. by apply pipe_fds_ok.
Qed.

(** *** Sequences of descriptor operations *)

(** The calls on descriptors that tasks make, the spawn of a task that
    inherits the descriptors of its parent, and a switch to another task. *)
Inductive fd_op :=
| FdClose (fd : Z)
| FdDup (oldfd : Z)
| FdDup2 (oldfd newfd : Z)
| FdPipe
| FdCloseAll
| FdSpawn (t : Z)
| FdSwitch (t : Z).

Definition with_cur (s : vfs D) (c : option Z) : vfs D :=
  Vfs (nodes s) (files s) (pipes s) (g_root s) (tables s) c (next_id s) (oom s) (devs s).

Definition fd_run (op : fd_op) : M D unit :=
  match op with
  | FdClose fd => _ ← vfs_close fd; mret tt
  | FdDup oldfd => _ ← vfs_dup oldfd; mret tt
  | FdDup2 oldfd newfd => _ ← vfs_dup2 oldfd newfd; mret tt
  | FdPipe => _ ← vfs_pipe_open; mret tt
  | FdCloseAll => vfs_close_all
  | FdSpawn t =>
      s ← get;
      match cur s, tables s !! t with
      | Some c, None =>
          _ ← modify (fun s => with_tables s (<[t := replicate 16 0]> (tables s)));
          vfs_fd_inherit t c
      | _, _ => mret tt
      end
  | FdSwitch t =>
      s ← get;
      match tables s !! t with
      | Some _ => modify (fun s => with_cur s (Some t))
      | None => mret tt
      end
  end.

Fixpoint fd_runs (ops : list fd_op) : M D unit :=
  match ops with
  | [] => mret tt
  | op :: ops' => _ ← fd_run op; fd_runs ops'
  end.

Lemma occ_zeros a n : a <> 0 -> occ a (replicate n 0) = 0.
Proof. intros Ha. induction n as [|n IH]; [done|]. cbn [replicate occ]. rewrite IH. split_tests; [lia|done]. Qed.

Lemma new_table_ok s leak t :
  fds_ok s leak -> tables s !! t = None -> fds_ok (with_tables s (<[t := replicate 16 0]> (tables s))) leak.
Proof.
  intros [H1 H2 H3 H4 H5 H6 H7] Ht. split; try done; cbn [tables with_tables cur].
  - intros t' tbl [[<- <-]|[_ Ht']]%lookup_insert_Some; [done|by apply (H1 t')].
  - intros t' Hc. destruct (decide (t' = t)) as [->|]; [rewrite lookup_insert_eq; eauto|].
    rewrite lookup_insert_ne by done. by apply H2.
  - intros a Ha. change (file_refs (with_tables s _) a) with (file_refs s a). rewrite (H3 a Ha).
    unfold holders. cbn [tables with_tables]. rewrite msum_insert_new by done. rewrite occ_zeros by done. lia.
Qed.

Lemma spawn_ok s leak t c :
  fds_ok s leak -> (forall a, 0 <= leak a) -> cur s = Some c -> tables s !! t = None ->
  exists s', vfs_fd_inherit t c (with_tables s (<[t := replicate 16 0]> (tables s))) = Some (tt, s') /\
    fds_ok s' leak /\ cur s' = cur s.
Proof.
  intros Hok Hl Hc Ht. destruct (fds_cur _ _ Hok c Hc) as [ctbl Hct].
  assert (Hne : t <> c) by congruence.
  destruct (inherit_slots_ok 16 0 _ leak t c (replicate 16 0) ctbl (new_table_ok s leak t Hok Ht) Hl Hne)
    as (s' & dt' & E & Hok' & Hcur & _); [| |done|done| |by exists s'].
  - cbn [tables with_tables]. apply lookup_insert_eq.
  - cbn [tables with_tables]. by rewrite lookup_insert_ne.
  - intros j Hj. unfold slot, byte_at. by rewrite nth_lookup, lookup_replicate_2 by lia.
Qed.

Lemma fd_run_ok op s leak :
  fds_ok s leak -> (forall a, 0 <= leak a) -> is_Some (cur s) ->
  exists s', fd_run op s = Some (tt, s') /\ fds_ok s' leak /\ is_Some (cur s').
Proof.
  intros Hok Hl [t Hc]. destruct (fds_cur _ _ Hok t Hc) as [tbl Ht]. assert (Htb : table s t tbl) by done.
  destruct op as [fd|fd|o n| | |t'|t']; cbn [fd_run].
  - destruct (vfs_close_ok s leak t tbl fd Hok Hl Htb) as (r & s' & E & Hok' & Hc' & _).
    rewrite (bind_run _ _ _ _ _ E). exists s'. rewrite Hc', Hc. eauto.
  - destruct (vfs_dup_ok s leak t tbl fd Hok Hl Htb) as (r & s' & E & Hok' & Hc' & _).
    rewrite (bind_run _ _ _ _ _ E). exists s'. rewrite Hc', Hc. eauto.
  - destruct (vfs_dup2_ok s leak t tbl o n Hok Hl Htb) as (r & s' & E & Hok' & Hc' & _).
    rewrite (bind_run _ _ _ _ _ E). exists s'. rewrite Hc', Hc. eauto.
  - destruct (vfs_pipe_ok s leak t tbl Hok Hl Htb) as (r & s' & E & Hok' & Hc' & _).
    rewrite (bind_run _ _ _ _ _ E). exists s'. rewrite Hc', Hc. eauto.
  - destruct (vfs_close_all_ok s leak t tbl Hok Hl Htb) as (s' & tbl' & E & Hok' & Hc' & _).
    exists s'. rewrite Hc', Hc. eauto.
  - rewrite (bind_run get _ s s s) by done. rewrite Hc.
    destruct (tables s !! t') as [x|] eqn:Et; [exists s; rewrite Hc; eauto|].
    destruct (spawn_ok s leak t' t Hok Hl Hc Et) as (s' & E & Hok' & Hc').
    rewrite (bind_run _ _ s tt (with_tables s (<[t' := replicate 16 0]> (tables s)))) by done.
    exists s'. rewrite Hc', Hc. eauto.
  - rewrite (bind_run get _ s s s) by done.
    destruct (tables s !! t') as [x|] eqn:Et; [|exists s; rewrite Hc; eauto].
    eexists. split; [done|]. split; [|by eexists]. destruct Hok as [H1 H2 H3 H4 H5 H6 H7].
    split; try done. cbn. intros u [= <-]. eauto.
Qed.

(** With no descriptor in use, no file and no pipe is left. *)
Lemma nothing_left s :
  fds_ok s (fun _ => 0) -> (forall t tbl, tables s !! t = Some tbl -> tbl = replicate 16 0) ->
  files s = ∅ /\ pipes s = ∅.
Proof.
  intros Hok Hz.
  assert (Hf : files s = ∅).
  { apply map_empty. intros a. destruct (files s !! a) as [f|] eqn:Ef; [|done].
    destruct (fds_live _ _ Hok a f Ef) as [Hr Ha]. pose proof (fds_refs _ _ Hok a ltac:(lia)) as E.
    unfold file_refs in E. rewrite Ef in E. assert (holders s a = 0); [|lia].
    unfold holders. apply msum_zero. intros i x E'. rewrite (Hz _ _ E'). apply occ_zeros. lia. }
  split; [done|]. apply map_empty. intros p. destruct (pipes s !! p) as [q|] eqn:Eq; [|done].
  destruct (fds_ends _ _ Hok p q Eq) as (Er & Ew & Hpos & _). unfold pipe_end in *.
  rewrite Hf, !msum_empty in *. lia.
Qed.

End Descriptors.

(** C24. Reference counting of descriptors: from a state in which every open
    file counts exactly the descriptors that refer to it and every pipe
    counts exactly the references to its two ends, any sequence of close,
    dup, dup2, pipe, close-all, spawn and task switch runs without touching
    a freed object, whatever allocations fail, and ends in such a state; and
    once no descriptor is in use, every open file and every pipe has been
    freed. *)
Theorem fd_ops_counts_exact {D} `{DeviceTable D} (ops : list fd_op) (s : vfs D) :
  fds_ok s (fun _ => 0) -> is_Some (cur s) ->
  exists s', fd_runs ops s = Some (tt, s') /\ fds_ok s' (fun _ => 0) /\
    ((forall t tbl, tables s' !! t = Some tbl -> tbl = replicate 16 0) -> files s' = ∅ /\ pipes s' = ∅).
Proof.
  revert s. induction ops as [|op ops IH]; intros s Hok Hc; cbn [fd_runs].
  - exists s. split_and!; try done. apply nothing_left, Hok.
  - destruct (fd_run_ok op s _ Hok ltac:(done) Hc) as (s1 & E & Hok1 & Hc1).
    rewrite (bind_run _ _ _ _ _ E). by apply IH.
Qed.

Lemma no_files_ok {D} (s : vfs D) t :
  files s = ∅ -> pipes s = ∅ -> (forall u tbl, tables s !! u = Some tbl -> tbl = replicate 16 0) ->
  is_Some (tables s !! t) -> 0 < next_id s -> cur s = Some t -> fds_ok s (fun _ => 0).
Proof.
  intros Hf Hp Ht Hs Hn Hc. split; rewrite ?Hf, ?Hp; try done.
  - intros t' tbl E. by rewrite (Ht _ _ E).
  - rewrite Hc. by intros t' [= <-].
  - intros a Ha. unfold file_refs, holders. rewrite Hf, lookup_empty, msum_zero; [done|].
    intros i x E. rewrite (Ht _ _ E). by apply occ_zeros.
Qed.

Lemma fd_ops_counts_exact_witness :
  let _ : DeviceTable unit := fun _ => FileOps None None None in
  let s0 : vfs unit := Vfs ∅ ∅ ∅ 0 {[ 1 := replicate 16 0 ]} (Some 1) 1 [] tt in
  exists s', fd_runs [FdPipe; FdDup2 4 1; FdSpawn 2; FdClose 1; FdClose 4; FdCloseAll; FdSwitch 2; FdCloseAll] s0
             = Some (tt, s') /\ files s' = ∅ /\ pipes s' = ∅.
Proof.
  intros d s0. destruct (fd_ops_counts_exact (D := unit)
    [FdPipe; FdDup2 4 1; FdSpawn 2; FdClose 1; FdClose 4; FdCloseAll; FdSwitch 2; FdCloseAll] s0)
    as (s' & E & _ & Hend).
  - apply (no_files_ok s0 1); try done. intros u tbl E. cbn in E. by apply lookup_singleton_Some in E as [_ <-].
  - by eexists.
  - exists s'. split; [exact E|]. apply Hend. intros t tbl Ht.
    assert (Hs : tables s' = {[ 1 := replicate 16 0; 2 := replicate 16 0 ]}).
    { apply (f_equal (fun r => match r with Some (_, x) => tables x | None => ∅ end)) in E.
      cbn beta iota in E. rewrite <-E. vm_compute. reflexivity. }
    rewrite Hs in Ht. apply lookup_insert_Some in Ht as [[_ <-]|[_ Ht]]; [done|].
    by apply lookup_singleton_Some in Ht as [_ <-].
Defined.
