(* ===== verification/VfsTree.v ===== *)
(** * The file tree: paths and directories

    Directories of vfs.c are singly linked lists of siblings. The file
    relates them to an abstract tree (a list of children per directory, with
    distinct valid names and a unique parent) and shows that [vfs_lookup] is
    the walk along the components of a path, and that creation and removal
    change the meaning of exactly one path. *)

From stdpp Require Import base numbers list gmap.
From Stdlib Require Import ZArith Lia ZifyBool.
From S2P Require Import Prelude.
From S2P Require Import Klib.
From S2P Require Import Pipe.
From S2P Require Import Vfs.
From S2P Require Import VfsFd.

(** ** Strings and paths *)

(** The bytes of a C string before its terminator. *)
Definition cstr (p : list Z) : Prop := Forall (fun c => 0 < c < 256) p.

Definition valid_name (nm : list Z) : Prop :=
  cstr nm /\ SLASH ∉ nm /\ (length nm < 64)%nat.

(** The nonempty components of a path; [acc] is the component so far. *)
Fixpoint comps (acc : list Z) (p : list Z) : list (list Z) :=
  match p with
  | [] => match acc with [] => [] | _ => [acc] end
  | c :: p' =>
      if c =? SLASH then match acc with [] => comps [] p' | _ => acc :: comps [] p' end
      else comps (acc ++ [c]) p'
  end.

Definition components (p : list Z) : list (list Z) := comps [] p.

Lemma cstr_strcmp a b : cstr a -> cstr b -> (strcmp a b =? 0) = bool_decide (a = b).
Proof.
  intros Ha Hb.
  assert (G : forall l, cstr l -> bytes l /\ c_string l = l).
  { intros l Hl. split; [eapply Forall_impl; [exact Hl|]; cbn; lia|].
    apply c_string_nz. intros H0. unfold cstr in Hl. rewrite Forall_forall in Hl. specialize (Hl 0 H0). lia. }
  destruct (G a Ha) as [Ba Ca], (G b Hb) as [Bb Cb].
  pose proof (strcmp_lex a b Ba Bb) as E. rewrite Ca, Cb in E.
  apply Bool.eq_iff_eq_true. rewrite bool_decide_eq_true, <-lex_eq, <-E, Z.compare_eq_iff. lia.
Qed.

Lemma skip_slashes_components p : components (skip_slashes p) = components p.
Proof.
  induction p as [|c p IH]; [done|]. cbn [skip_slashes].
  destruct (c =? SLASH) eqn:E; [|done]. rewrite IH. unfold components. cbn [comps]. by rewrite E.
Qed.

Lemma comps_take acc p :
  acc ++ take (comp_len p) p <> [] ->
  comps acc p = (acc ++ take (comp_len p) p) :: components (drop (comp_len p) p).
Proof.
  revert acc. induction p as [|c p IH]; intros acc Hne; cbn [comp_len] in *.
  - cbn [take drop comps] in *. rewrite app_nil_r in *. by destruct acc.
  - cbn [comps]. unfold components. destruct (c =? SLASH) eqn:E.
    + cbn [take drop comps] in *. rewrite app_nil_r in *. rewrite E. by destruct acc.
    + cbn [take drop]. rewrite IH by (by destruct acc). by rewrite <-(assoc_L (++)).
Qed.

Lemma components_step p :
  p <> [] -> skip_slashes p = p ->
  components p = take (comp_len p) p :: components (skip_slashes (drop (comp_len p) p)) /\ (0 < comp_len p)%nat.
Proof.
  intros Hne Hs. destruct p as [|c p]; [done|]. cbn [skip_slashes comp_len] in *.
  destruct (c =? SLASH) eqn:E.
  { exfalso. assert (G : forall q, (length (skip_slashes q) <= length q)%nat).
    { intros q; induction q as [|x q IH]; cbn; [lia|]. destruct (x =? SLASH); cbn; lia. }
    specialize (G p). rewrite Hs in G. cbn in G. lia. }
  rewrite skip_slashes_components. split; [|lia].
  unfold components at 1. rewrite comps_take; [cbn [comp_len]; by rewrite E|]. cbn [comp_len]. by rewrite E.
Qed.

Lemma comps_app acc p q :
  comps acc (p ++ SLASH :: q) = comps acc p ++ components q.
Proof.
  revert acc. induction p as [|c p IH]; intros acc; cbn [app comps].
  - change (SLASH =? SLASH) with true. by destruct acc.
  - destruct (c =? SLASH); [|apply IH]. destruct acc; rewrite IH; done.
Qed.

Lemma comps_name acc nm : SLASH ∉ nm -> acc ++ nm <> [] -> comps acc nm = [acc ++ nm].
Proof.
  revert acc. induction nm as [|c nm IH]; intros acc Hs Hne; cbn [comps].
  - rewrite app_nil_r in *. by destruct acc.
  - destruct (Z.eqb_spec c SLASH) as [->|]; [set_solver|].
    rewrite IH; [by rewrite <-(assoc_L (++))|set_solver|by destruct acc].
Qed.

Lemma components_name nm : SLASH ∉ nm -> nm <> [] -> components nm = [nm].
Proof. intros. by apply (comps_name []). Qed.

Lemma comp_len_no_slash p : SLASH ∉ take (comp_len p) p.
Proof.
  induction p as [|c p IH]; cbn [comp_len]; [set_solver|].
  destruct (Z.eqb_spec c SLASH); cbn [take]; set_solver.
Qed.

Lemma last_slash_spec p i acc :
  (last_slash p i acc = acc /\ SLASH ∉ p) \/
  (exists a b, p = a ++ SLASH :: b /\ SLASH ∉ b /\ last_slash p i acc = Some (i + length a)%nat).
Proof.
  revert i acc. induction p as [|c p IH]; intros i acc; cbn [last_slash].
  { left. split; [done|set_solver]. }
  destruct (IH (S i) (if c =? SLASH then Some i else acc)) as [[E Hn]|(a & b & -> & Hn & E)].
  - destruct (Z.eqb_spec c SLASH) as [->|].
    + right. exists [], p. rewrite E. cbn. split_and!; [done..|]. f_equal. lia.
    + left. split; [done|set_solver].
  - right. exists (c :: a), b. rewrite E. split_and!; [done..|]. cbn. f_equal. lia.
Qed.

(** What a successful [path_split] gives. *)
Lemma path_split_spec path dir nm :
  cstr path -> path_split path 256 VFS_NAME_MAX = Some (dir, nm) ->
  cstr dir /\ valid_name nm /\
  (nm <> [] -> components path = components dir ++ [nm]) /\ (nm = [] -> path = []).
Proof.
  intros Hc. unfold path_split, VFS_NAME_MAX.
  assert (Hsl : cstr [SLASH]) by (repeat constructor).
  destruct (last_slash_spec path 0 None) as [[-> Hn]|(a & b & -> & Hn & ->)].
  - destruct (Z.leb_spec 64 (zlen path)); [done|]. unfold zlen in *. intros [= <- <-].
    split; [done|]. split; [split_and!; [done..|lia]|]. split; [|done]. intros Hne. by rewrite components_name.
  - cbn [Nat.add]. assert (Hd : drop (S (length a)) (a ++ SLASH :: b) = b).
    { replace (S (length a)) with (length (a ++ [SLASH])) by (rewrite length_app; cbn; lia).
      change (SLASH :: b) with ([SLASH] ++ b). rewrite (assoc_L (++)). apply drop_app_length. }
    rewrite Hd. unfold zlen. apply Forall_app in Hc as [Ha Hb]. apply Forall_cons in Hb as [_ Hb].
    assert (Hcomp : b <> [] -> components (a ++ SLASH :: b) = components a ++ [b]).
    { intros Hne. unfold components at 1. rewrite comps_app. by rewrite (components_name b). }
    assert (Hbad : ((Z.of_nat (length b) =? 0) || (64 <=? Z.of_nat (length b))) = false ->
                   b <> [] /\ valid_name b).
    { intros E. bool_to_prop. split; [by destruct b|]. split_and!; try done; lia. }
    destruct (Nat.eqb_spec (length a) 0) as [E0|E0].
    + destruct ((_ =? 0) || _) eqn:E; [done|]. intros [= <- <-]. destruct (Hbad eq_refl) as [Hne Hv].
      destruct a; [|done]. rewrite Hcomp by done. done.
    + destruct (256 <=? _); [done|]. destruct ((_ =? 0) || _) eqn:E; [done|]. intros [= <- <-].
      destruct (Hbad eq_refl) as [Hne Hv]. rewrite take_app_length. split_and!; try done; try (by intros ->); auto.
Qed.

(** ** The abstract tree *)

Section Tree.
Context {D : Type} `{DeviceTable D}.
Implicit Types (s : vfs D) (m : gmap Z vfs_node) (kids : Z -> list Z).

Definition sib (m : gmap Z vfs_node) (x : Z) : Z :=
  match m !! x with Some n => n_sibling n | None => 0 end.

(** [kids d] are the children of [d], in the order of the sibling list. *)
Record tree_ok (m : gmap Z vfs_node) (root next : Z) (kids : Z -> list Z) : Prop := TreeOk {
  t_root : exists n, m !! root = Some n /\ n_type n = VFS_DIR /\ n_parent n = 0;
  t_addr a n : m !! a = Some n -> 0 < a < next;
  t_chain d n : m !! d = Some n -> chain (sib m) (n_child n) (kids d);
  t_leaf d n : m !! d = Some n -> n_type n <> VFS_DIR -> n_child n = 0;
  t_none d : m !! d = None -> kids d = [];
  t_kid d c : c ∈ kids d -> exists n, m !! c = Some n /\ n_parent n = d /\ valid_name (n_name n);
  t_names d c c' n n' : c ∈ kids d -> c' ∈ kids d -> m !! c = Some n -> m !! c' = Some n' ->
    n_name n = n_name n' -> c = c';
}.

Definition named (m : gmap Z vfs_node) (nm : list Z) (c : Z) : bool :=
  match m !! c with Some n => bool_decide (n_name n = nm) | None => false end.

(** The child of [d] called [nm]. *)
Definition child (m : gmap Z vfs_node) (kids : Z -> list Z) (d : Z) (nm : list Z) : option Z :=
  List.find (named m nm) (kids d).

(** The walk along the components of a path. *)
Fixpoint walk (m : gmap Z vfs_node) (kids : Z -> list Z) (d : Z) (cs : list (list Z)) : option Z :=
  match cs with
  | [] => Some d
  | c :: cs' => match child m kids d c with Some x => walk m kids x cs' | None => None end
  end.

Definition tree (s : vfs D) (kids : Z -> list Z) : Prop := tree_ok (nodes s) (g_root s) (next_id s) kids.

(** *** Lookup *)

Lemma child_Some m root next kids d nm x :
  tree_ok m root next kids -> child m kids d nm = Some x ->
  x ∈ kids d /\ exists n, m !! x = Some n /\ n_name n = nm /\ n_parent n = d.
Proof.
  intros Ht [Hin Hn]%List.find_some. apply list_elem_of_In in Hin. split; [done|].
  destruct (t_kid _ _ _ _ Ht d x Hin) as (n & Hx & Hp & _). exists n.
  unfold named in Hn. rewrite Hx in Hn. apply bool_decide_eq_true in Hn. done.
Qed.

Lemma child_of m root next kids d x n :
  tree_ok m root next kids -> x ∈ kids d -> m !! x = Some n -> child m kids d (n_name n) = Some x.
Proof.
  intros Ht Hin Hx. unfold child.
  assert (Hnx : named m (n_name n) x = true).
  { unfold named. rewrite Hx. by apply bool_decide_eq_true. }
  destruct (List.find _ _) as [y|] eqn:E.
  - destruct (child_Some _ _ _ _ _ _ _ Ht E) as (Hy & n' & Hn' & En & _).
    f_equal. by eapply t_names.
  - apply List.find_none with (x := x) in E; [congruence|by apply list_elem_of_In].
Qed.

Lemma child_None m kids d nm :
  child m kids d nm = None <-> forall x n, x ∈ kids d -> m !! x = Some n -> n_name n <> nm.
Proof.
  unfold child. split.
  - intros E x n Hin Hx En. apply List.find_none with (x := x) in E; [|by apply list_elem_of_In].
    unfold named in E. rewrite Hx in E. by apply bool_decide_eq_false in E.
  - intros Hall. destruct (List.find _ _) as [x|] eqn:E; [|done].
    apply List.find_some in E as [Hin%list_elem_of_In Hn]. unfold named in Hn.
    destruct (m !! x) as [n|] eqn:Hx; [|done]. apply bool_decide_eq_true in Hn. by destruct (Hall x n).
Qed.

Lemma sibling_find_run fuel s p l nm :
  chain (sib (nodes s)) p l -> (forall c, c ∈ l -> exists n, nodes s !! c = Some n /\ cstr (n_name n)) ->
  cstr nm -> (length l < fuel)%nat ->
  sibling_find fuel p nm s = Some (default 0 (List.find (named (nodes s) nm) l), s).
Proof.
  intros Hc Hl Hnm. revert p fuel Hc. induction l as [|x l IH]; intros p fuel Hc Hf;
    (destruct fuel as [|fuel]; [cbn in Hf; lia|]); cbn [sibling_find].
  - cbn in Hc. subst p. done.
  - destruct Hc as (-> & Hx & Hc). rewrite (proj2 (Z.eqb_neq x 0)) by done.
    destruct (Hl x) as (n & Hn & Hcn); [set_solver|].
    rewrite (bind_run (get_node x) _ s n s) by (unfold get_node; by rewrite Hn).
    rewrite cstr_strcmp by done. unfold sib in Hc at 2. rewrite Hn in Hc.
    cbn [List.find]. unfold named at 1. rewrite Hn.
    destruct (bool_decide (n_name n = nm)); [done|].
    apply IH; [set_solver|done|cbn in Hf; lia].
Qed.

Lemma kids_bound s kids d n :
  tree s kids -> nodes s !! d = Some n -> (length (kids d) < list_fuel s)%nat.
Proof.
  intros Ht Hd. unfold list_fuel. pose proof (chain_NoDup _ _ _ (t_chain _ _ _ _ Ht d n Hd)) as Hnd.
  assert (G : list_to_set (kids d) ⊆@{gset Z} dom (nodes s)).
  { intros x Hx. apply elem_of_list_to_set in Hx.
    destruct (t_kid _ _ _ _ Ht d x Hx) as (n' & Hx' & _). apply elem_of_dom. eauto. }
  apply subseteq_size in G. rewrite size_list_to_set, size_dom in G by done. lia.
Qed.

Lemma dir_find_run s kids d n nm :
  tree s kids -> nodes s !! d = Some n -> cstr nm ->
  dir_find d nm s = Some (default 0 (child (nodes s) kids d nm), s).
Proof.
  intros Ht Hd Hnm. unfold dir_find.
  rewrite (bind_run (get_node d) _ s n s) by (unfold get_node; by rewrite Hd).
  rewrite (bind_run get _ s s s) by done.
  apply sibling_find_run; [by apply Ht| |done|by eapply kids_bound].
  intros c Hc. destruct (t_kid _ _ _ _ Ht d c Hc) as (n' & ? & _ & [? _]). eauto.
Qed.

Lemma kids_leaf m root next kids d n :
  tree_ok m root next kids -> m !! d = Some n -> n_child n = 0 -> kids d = [].
Proof.
  intros Ht Hd E. pose proof (t_chain _ _ _ _ Ht d n Hd) as Hc. rewrite E in Hc. by eapply chain_nil_inv.
Qed.

Lemma lookup_loop_run fuel s kids d n p :
  tree s kids -> nodes s !! d = Some n -> cstr p -> skip_slashes p = p -> (length p < fuel)%nat ->
  lookup_loop fuel d p s = Some (default 0 (walk (nodes s) kids d (components p)), s).
Proof.
  intros Ht. revert d n p. induction fuel as [|fuel IH]; intros d n p Hd Hp Hs Hf; [lia|].
  cbn [lookup_loop]. destruct p as [|c0 p0]; [done|]. set (p := c0 :: p0) in *.
  destruct (components_step p ltac:(done) Hs) as [Ec Hlen]. rewrite Ec. cbn [walk].
  set (len := comp_len p) in *. assert (Hnm : cstr (take len p)) by (by apply Forall_take).
  assert (Hno : (64 <= Z.of_nat len \/ n_type n <> VFS_DIR) -> child (nodes s) kids d (take len p) = None).
  { intros Hor. apply child_None. intros x m' Hin Hx En.
    destruct Hor as [Hlong|Hty].
    - destruct (t_kid _ _ _ _ Ht d x Hin) as (m2 & Hx2 & _ & (_ & _ & Hl)).
      assert (m2 = m') as -> by congruence. rewrite En, length_take in Hl.
      assert (len <= length p)%nat; [|lia]. unfold len. clear. generalize p. intros q.
      induction q as [|y q IH]; cbn; [lia|]. destruct (y =? SLASH); lia.
    - pose proof (t_leaf _ _ _ _ Ht d n Hd Hty) as E0.
      rewrite (kids_leaf _ _ _ _ _ _ Ht Hd E0) in Hin. set_solver. }
  unfold VFS_NAME_MAX. destruct (Z.leb_spec 64 (Z.of_nat len)); [rewrite Hno by lia; done|].
  rewrite (bind_run (get_node d) _ s n s) by (unfold get_node; by rewrite Hd).
  destruct (bool_decide (n_type n = VFS_DIR)) eqn:Ety; cbn [negb].
  2:{ apply bool_decide_eq_false in Ety. rewrite Hno by tauto. done. }
  rewrite (bind_run _ _ _ _ _ (dir_find_run s kids d n _ Ht Hd Hnm)).
  destruct (child _ _ _ _) as [x|] eqn:Ex; [|done]. cbn [from_option id].
  destruct (child_Some _ _ _ _ _ _ _ Ht Ex) as (_ & n' & Hx & _).
  pose proof (t_addr _ _ _ _ Ht x n' Hx). rewrite (proj2 (Z.eqb_neq x 0)) by lia.
  assert (Hsk : forall q, skip_slashes (skip_slashes q) = skip_slashes q /\ (length (skip_slashes q) <= length q)%nat /\
            (cstr q -> cstr (skip_slashes q))).
  { clear. intros q; induction q as [|y q (IH1 & IH2 & IH3)]; [done|]. cbn [skip_slashes].
    destruct (y =? SLASH) eqn:E; cbn [length]; [|cbn [skip_slashes]; rewrite E; done].
    split_and!; [done|lia|]. intros [_ Hq]%Forall_cons. auto. }
  destruct (Hsk (drop len p)) as (S1 & S2 & S3). rewrite length_drop in S2.
  assert (0 < length p)%nat by (cbn; lia).
  eapply IH; [exact Hx| |done|lia]. apply S3. by apply Forall_drop.
Qed.

Lemma vfs_lookup_run s kids path :
  tree s kids -> cstr path ->
  vfs_lookup path s = Some (default 0 (walk (nodes s) kids (g_root s) (components path)), s).
Proof.
  intros Ht Hp. unfold vfs_lookup. rewrite (bind_run get _ s s s) by done.
  rewrite <-(skip_slashes_components path).
  destruct (t_root _ _ _ _ Ht) as (n & Hn & _).
  assert (G : cstr (skip_slashes path) /\ skip_slashes (skip_slashes path) = skip_slashes path).
  { clear -Hp. induction Hp as [|c p Hc Hp IH]; [by split; [constructor|]|]. cbn [skip_slashes].
    destruct (c =? SLASH) eqn:E; [done|]. cbn [skip_slashes]. rewrite E. split; [by constructor|done]. }
  destruct G as [G1 G2]. destruct (skip_slashes path) as [|c p] eqn:E; [done|].
  eapply lookup_loop_run; try done. lia.
Qed.

(** *** Walks *)

Lemma walk_snoc m kids d cs c :
  walk m kids d (cs ++ [c]) = match walk m kids d cs with Some x => child m kids x c | None => None end.
Proof.
  revert d. induction cs as [|c' cs IH]; intros d; cbn [app walk].
  - by destruct (child m kids d c).
  - by destruct (child m kids d c').
Qed.

Lemma walk_dom m root next kids cs x :
  tree_ok m root next kids -> walk m kids root cs = Some x -> is_Some (m !! x).
Proof.
  intros Ht. destruct cs as [|c cs _] using rev_ind.
  - intros [= <-]. destruct (t_root _ _ _ _ Ht) as (n & -> & _). eauto.
  - rewrite walk_snoc. destruct (walk m kids root cs) as [y|]; [|done].
    intros (_ & n & -> & _)%(child_Some _ _ _ _ _ _ _ Ht). eauto.
Qed.

(** Every node has one path. *)
Lemma walk_inj m root next kids cs cs' x :
  tree_ok m root next kids -> walk m kids root cs = Some x -> walk m kids root cs' = Some x -> cs = cs'.
Proof.
  intros Ht. revert cs' x. induction cs as [|c cs IH] using rev_ind; intros cs' x.
  - intros [= <-]. destruct cs' as [|c' cs' _] using rev_ind; [done|]. rewrite walk_snoc.
    destruct (walk m kids root cs') as [y|] eqn:Ey; [|done].
    intros (_ & n & Hn & _ & Hp)%(child_Some _ _ _ _ _ _ _ Ht).
    destruct (t_root _ _ _ _ Ht) as (n' & Hn' & _ & Hp').
    destruct (walk_dom _ _ _ _ _ _ Ht Ey) as [z Hz]. pose proof (t_addr _ _ _ _ Ht y z Hz).
    assert (n' = n) as -> by congruence. lia.
  - rewrite walk_snoc. destruct (walk m kids root cs) as [y|] eqn:Ey; [|done].
    intros Hc. pose proof Hc as (_ & n & Hn & Hnm & Hp)%(child_Some _ _ _ _ _ _ _ Ht).
    destruct cs' as [|c' cs' _] using rev_ind.
    + intros [= <-]. destruct (t_root _ _ _ _ Ht) as (n' & Hn' & _ & Hp').
      destruct (walk_dom _ _ _ _ _ _ Ht Ey) as [z Hz]. pose proof (t_addr _ _ _ _ Ht y z Hz).
      assert (n' = n) as -> by congruence. lia.
    + rewrite walk_snoc. destruct (walk m kids root cs') as [y'|] eqn:Ey'; [|done].
      intros (_ & n' & Hn' & Hnm' & Hp')%(child_Some _ _ _ _ _ _ _ Ht).
      assert (n' = n) as -> by congruence. assert (y' = y) as -> by congruence.
      rewrite (IH cs' y eq_refl Ey'). by rewrite <-Hnm, <-Hnm'.
Qed.

(** *** Creation *)

(** The tree with the new node [a] in front of the children of [d]. *)
Definition kids_add (kids : Z -> list Z) (d a : Z) : Z -> list Z :=
  fun x => if x =? d then a :: kids d else kids x.

Definition nodes_add (m : gmap Z vfs_node) (d a : Z) (dn n : vfs_node) : gmap Z vfs_node :=
  <[d := set_child dn a]> (<[a := set_sibling (set_parent n d) (n_child dn)]> m).

Lemma dir_attach_run s d a dn n :
  nodes s !! d = Some dn -> nodes s !! a = Some n -> d <> a ->
  dir_attach d a s = Some (a, with_nodes s (nodes_add (nodes s) d a dn n)).
Proof.
  intros Hd Ha Hne. unfold dir_attach.
  rewrite (bind_run (get_node d) _ s dn s) by (unfold get_node; by rewrite Hd).
  rewrite (bind_run (get_node a) _ s n s) by (unfold get_node; by rewrite Ha).
  set (m1 := <[a := set_sibling (set_parent n d) (n_child dn)]> (nodes s)).
  rewrite (bind_run _ _ s tt (with_nodes s m1)) by done.
  rewrite (bind_run (get_node d) _ (with_nodes s m1) dn (with_nodes s m1)).
  2:{ unfold get_node, m1. cbn [nodes with_nodes]. by rewrite lookup_insert_ne, Hd. }
  done.
Qed.

Section Create.
Context (m : gmap Z vfs_node) (root next : Z) (kids : Z -> list Z).
Context (Ht : tree_ok m root next kids).
Context (d a : Z) (dn n : vfs_node).
Context (Hd : m !! d = Some dn) (Hty : n_type dn = VFS_DIR) (Ha : m !! a = None) (Ha0 : 0 < a < next).
Context (Hn : n_child n = 0) (Hv : valid_name (n_name n)) (Hnew : child m kids d (n_name n) = None).

Let m' := nodes_add m d a dn n.
Let kids' := kids_add kids d a.

Lemma add_ne : d <> a.
Proof. intros ->. congruence. Qed.

Lemma add_new : m' !! a = Some (set_sibling (set_parent n d) (n_child dn)).
Proof. unfold m', nodes_add. rewrite lookup_insert_ne by apply add_ne. apply lookup_insert_eq. Qed.

Lemma add_dir : m' !! d = Some (set_child dn a).
Proof. apply lookup_insert_eq. Qed.

Lemma add_old x : x <> d -> x <> a -> m' !! x = m !! x.
Proof. intros. unfold m', nodes_add. by rewrite !lookup_insert_ne. Qed.

(** Names and parents of the old nodes are unchanged. *)
Lemma add_attrs x nx : m !! x = Some nx ->
  exists nx', m' !! x = Some nx' /\ n_name nx' = n_name nx /\ n_parent nx' = n_parent nx /\
    n_type nx' = n_type nx /\ n_sibling nx' = n_sibling nx /\ (x <> d -> nx' = nx).
Proof.
  intros Hx. destruct (decide (x = d)) as [->|Hxd].
  - assert (nx = dn) as -> by congruence. exists (set_child dn a). rewrite add_dir. done.
  - exists nx. rewrite add_old; [done|done|congruence].
Qed.

Lemma add_sib x : x <> a -> sib m' x = sib m x.
Proof.
  intros Hx. unfold sib. destruct (m !! x) as [nx|] eqn:E.
  - destruct (add_attrs x nx E) as (nx' & -> & _ & _ & _ & Hs & _). done.
  - rewrite add_old by congruence. by rewrite E.
Qed.

Lemma fresh_not_kid x : a ∉ kids x.
Proof. intros Hin. destruct (t_kid _ _ _ _ Ht x a Hin) as (y & Hy & _). congruence. Qed.

Lemma old_kid x c : c ∈ kids x -> c <> a.
Proof. intros Hin ->. by destruct (fresh_not_kid x). Qed.

Lemma kids_new : kids' a = [].
Proof.
  unfold kids', kids_add. rewrite (proj2 (Z.eqb_neq a d)) by (symmetry; apply add_ne).
  by apply (t_none _ _ _ _ Ht).
Qed.

Lemma named_old nm c : c <> a -> named m' nm c = named m nm c.
Proof.
  intros Hc. unfold named. destruct (m !! c) as [nc|] eqn:E.
  - destruct (add_attrs c nc E) as (nc' & -> & -> & _). done.
  - rewrite add_old by congruence. by rewrite E.
Qed.

Lemma find_old nm l : a ∉ l -> List.find (named m' nm) l = List.find (named m nm) l.
Proof.
  induction l as [|c l IH]; [done|]. intros Hin. cbn [List.find]. rewrite named_old by set_solver.
  rewrite IH by set_solver. done.
Qed.

Lemma child_add x nm :
  x <> a -> child m' kids' x nm = if bool_decide (x = d /\ nm = n_name n) then Some a else child m kids x nm.
Proof.
  intros Hx. unfold child, kids', kids_add.
  destruct (Z.eqb_spec x d) as [->|Hxd].
  - cbn [List.find]. unfold named at 1. rewrite add_new. cbn [n_name set_sibling set_parent].
    rewrite find_old by apply fresh_not_kid. case_bool_decide as E1; case_bool_decide as E2; try done.
    + destruct E2. by split.
    + destruct E2 as [_ ->]. by destruct E1.
  - rewrite find_old by apply fresh_not_kid. by rewrite bool_decide_eq_false_2 by tauto.
Qed.

Lemma tree_add : tree_ok m' root next kids'.
Proof.
  assert (Hk : forall x c, c ∈ kids' x -> (x = d /\ c = a) \/ (c ∈ kids x /\ c <> a)).
  { intros x c. unfold kids', kids_add. pose proof (old_kid x c). destruct (Z.eqb_spec x d) as [->|]; [|tauto].
    intros [->|Hin]%elem_of_cons; [tauto|]. right. split; [done|]. by eapply old_kid. }
  split.
  - destruct (t_root _ _ _ _ Ht) as (r & Hr & Hrt & Hrp).
    destruct (add_attrs root r Hr) as (r' & Hr' & _ & Ep & Et & _). exists r'. rewrite Ep, Et. done.
  - intros x nx Hx. destruct (decide (x = a)) as [->|]; [done|].
    destruct (decide (x = d)) as [->|]; [by eapply t_addr|].
    rewrite add_old in Hx by done. by eapply t_addr.
  - intros x nx Hx. destruct (decide (x = a)) as [->|Hxa].
    { rewrite add_new in Hx. injection Hx as <-. rewrite kids_new. cbn. done. }
    unfold kids', kids_add. destruct (Z.eqb_spec x d) as [->|Hxd].
    + rewrite add_dir in Hx. injection Hx as <-. cbn [set_child n_child]. split_and!; [done|lia|].
      unfold sib at 2. rewrite add_new. cbn [n_sibling set_sibling].
      eapply lseg_ext; [|by apply (t_chain _ _ _ _ Ht d dn Hd)]. intros y Hy. symmetry. apply add_sib. by eapply old_kid.
    + rewrite add_old in Hx by done. eapply chain_ext; [|by apply (t_chain _ _ _ _ Ht x nx Hx)].
      intros y Hy. symmetry. apply add_sib. by eapply old_kid.
  - intros x nx Hx Hnt. destruct (decide (x = a)) as [->|Hxa].
    { rewrite add_new in Hx. injection Hx as <-. done. }
    destruct (decide (x = d)) as [->|Hxd].
    + rewrite add_dir in Hx. injection Hx as <-. by destruct Hnt.
    + rewrite add_old in Hx by done. by eapply t_leaf.
  - intros x Hx. unfold kids', kids_add. destruct (Z.eqb_spec x d) as [->|]; [rewrite add_dir in Hx; done|].
    destruct (decide (x = a)) as [->|]; [rewrite add_new in Hx; done|].
    rewrite add_old in Hx by done. by eapply t_none.
  - intros x c [[-> ->]|[Hc Hca]]%Hk.
    + rewrite add_new. eexists. split; [done|]. done.
    + destruct (t_kid _ _ _ _ Ht x c Hc) as (nc & Hnc & Hp & Hvn).
      destruct (add_attrs c nc Hnc) as (nc' & Hnc' & En & Ep & _). exists nc'. rewrite En, Ep. done.
  - assert (Hclash : forall c nc', c ∈ kids d -> c <> a -> m' !! c = Some nc' -> n_name nc' <> n_name n).
    { intros c nc' Hc Hca Hnc' E. destruct (t_kid _ _ _ _ Ht d c Hc) as (nc & Hnc & _).
      destruct (add_attrs c nc Hnc) as (z & Hz & En & _). assert (z = nc') as -> by congruence.
      rewrite child_None in Hnew. apply (Hnew c nc Hc Hnc). congruence. }
    intros x c c' nc nc' [[-> ->]|[Hc Hca]]%Hk [[Ex Ec']|[Hc' Hca']]%Hk Hnc Hnc' E; subst.
    + done.
    + rewrite add_new in Hnc. injection Hnc as <-. cbn in E. by destruct (Hclash c' nc').
    + rewrite add_new in Hnc'. injection Hnc' as <-. cbn in E. by destruct (Hclash c nc).
    + destruct (t_kid _ _ _ _ Ht x c Hc) as (z & Hz & _), (t_kid _ _ _ _ Ht x c' Hc') as (z' & Hz' & _).
      destruct (add_attrs c z Hz) as (w & Hw & Ew & _), (add_attrs c' z' Hz') as (w' & Hw' & Ew' & _).
      eapply (t_names _ _ _ _ Ht x c c'); try done. congruence.
Qed.

(** The walks of the new tree: one more path. *)
Lemma walk_add pc cs :
  walk m kids root pc = Some d ->
  walk m' kids' root cs = if decide (cs = pc ++ [n_name n]) then Some a else walk m kids root cs.
Proof.
  intros Hpc. induction cs as [|c cs IH] using rev_ind.
  { cbn. destruct (decide _) as [E|]; [by destruct pc|done]. }
  rewrite !walk_snoc, IH. destruct (decide (cs = pc ++ [n_name n])) as [->|Hne].
  - assert (child m' kids' a c = None) as -> by (unfold child; by rewrite kids_new).
    rewrite walk_snoc, Hpc, Hnew. destruct (decide _) as [E|]; [|done].
    apply app_inj_tail in E as [E _]. apply (f_equal length) in E. rewrite length_app in E. cbn in E. lia.
  - destruct (walk m kids root cs) as [x|] eqn:Ex.
    + assert (Hxa : x <> a) by (intros ->; destruct (walk_dom _ _ _ _ _ _ Ht Ex); congruence).
      rewrite child_add by done. case_bool_decide as E1; destruct (decide _) as [E2|E2]; try done.
      * destruct E1 as [-> ->]. destruct E2. by rewrite (walk_inj _ _ _ _ _ _ _ Ht Ex Hpc).
      * apply app_inj_tail in E2 as [-> ->]. destruct E1. split; [congruence|done].
    + destruct (decide _) as [E|]; [|done]. apply app_inj_tail in E as [-> _]. congruence.
Qed.

End Create.

(** The descriptor part of the state, which path operations leave alone. *)
Definition same_fds (s s' : vfs D) : Prop :=
  files s' = files s /\ pipes s' = pipes s /\ g_root s' = g_root s /\ tables s' = tables s /\
  cur s' = cur s /\ devs s' = devs s /\ next_id s <= next_id s'.

Lemma tree_ok_next m root next next' kids :
  tree_ok m root next kids -> next <= next' -> tree_ok m root next' kids.
Proof. intros [H1 H2 H3 H4 H5 H6 H7] Hle. split; try done. intros a n Hn. specialize (H2 a n Hn). lia. Qed.

(** What the creation functions need of the node they fill in. *)
Definition fresh_init (init : list Z -> vfs_node) : Prop :=
  forall nm, n_name (init nm) = nm /\ n_child (init nm) = 0.

(** The conditions under which a creation succeeds. *)
Definition can_create (s : vfs D) (kids : Z -> list Z) (path : list Z) (d : Z) (dn : vfs_node) (nm : list Z) : Prop :=
  exists dir, path_split path 256 VFS_NAME_MAX = Some (dir, nm) /\
    walk (nodes s) kids (g_root s) (components dir) = Some d /\
    nodes s !! d = Some dn /\ n_type dn = VFS_DIR /\ child (nodes s) kids d nm = None /\
    hd false (oom s) = false.

Lemma create_node_run s kids path init :
  tree s kids -> cstr path -> fresh_init init -> 0 < next_id s ->
  (exists d dn nm, can_create s kids path d dn nm /\
     create_node path init s = Some (next_id s,
       with_nodes (with_alloc s (next_id s + 1) (tail (oom s))) (nodes_add (nodes s) d (next_id s) dn (init nm)))) \/
  ((forall d dn nm, ~ can_create s kids path d dn nm) /\
   exists o, create_node path init s = Some (0, with_alloc s (next_id s) o)).
Proof.
  intros Ht Hp Hi Hnx. unfold create_node, can_create.
  assert (Hself : with_alloc s (next_id s) (oom s) = s) by (by destruct s).
  destruct (path_split path 256 VFS_NAME_MAX) as [[dir nm]|] eqn:Esp.
  2:{ right. split; [by intros d dn nm (? & ? & _)|]. exists (oom s). by rewrite Hself. }
  destruct (path_split_spec _ _ _ Hp Esp) as (Hdir & Hnm & _).
  rewrite (bind_run _ _ _ _ _ (vfs_lookup_run s kids dir Ht Hdir)).
  destruct (walk _ _ _ (components dir)) as [d|] eqn:Ed; cbn [from_option id].
  2:{ right. split; [|exists (oom s); by rewrite Hself]. intros d dn nm' (dir' & [= <- <-] & E & _). congruence. }
  destruct (walk_dom _ _ _ _ _ _ Ht Ed) as [dn Hdn]. pose proof (t_addr _ _ _ _ Ht d dn Hdn) as Hd0.
  rewrite (proj2 (Z.eqb_neq d 0)) by lia.
  rewrite (bind_run (get_node d) _ s dn s) by (unfold get_node; by rewrite Hdn).
  destruct (bool_decide (n_type dn = VFS_DIR)) eqn:Ety; cbn [negb].
  2:{ right. apply bool_decide_eq_false in Ety. split; [|exists (oom s); by rewrite Hself].
      intros d' dn' nm' (dir' & [= <- <-] & E & Hd' & Hty & _). congruence. }
  apply bool_decide_eq_true in Ety.
  rewrite (bind_run _ _ _ _ _ (dir_find_run s kids d dn nm Ht Hdn (proj1 Hnm))).
  destruct (child _ _ d nm) as [x|] eqn:Ex; cbn [from_option id].
  { destruct (child_Some _ _ _ _ _ _ _ Ht Ex) as (_ & nx & Hx & _). pose proof (t_addr _ _ _ _ Ht x nx Hx).
    rewrite (proj2 (Z.eqb_neq x 0)) by lia. right. split; [|exists (oom s); by rewrite Hself].
    intros d' dn' nm' (dir' & [= <- <-] & E & _ & _ & Hc & _). congruence. }
  cbn [Z.eqb negb].
  assert (Hnone : nodes s !! next_id s = None).
  { destruct (nodes s !! next_id s) as [z|] eqn:E; [|done]. pose proof (t_addr _ _ _ _ Ht _ _ E). lia. }
  destruct (oom s) as [|b o] eqn:Eo; [|destruct b].
  2:{ right. split; [intros d' dn' nm' (dir' & _ & _ & _ & _ & _ & Ho); done|]. exists o.
      unfold kmalloc_id. unfold mbind at 1, M_bind at 1. by rewrite Eo. }
  all: left; exists d, dn, nm; split; [by exists dir|].
  all: unfold kmalloc_id, mbind at 1, M_bind at 1; rewrite Eo; cbn [tail];
    rewrite (proj2 (Z.eqb_neq (next_id s) 0)) by lia;
    set (s1 := with_alloc s (next_id s + 1) _); set (s2 := with_nodes s1 (<[next_id s := init nm]> (nodes s1)));
    rewrite (bind_run _ _ s1 tt s2) by done; rewrite (dir_attach_run s2 d (next_id s) dn (init nm));
    [ f_equal; f_equal; unfold s2, s1, nodes_add; cbn [nodes with_nodes with_alloc]; by rewrite insert_insert_eq
    | cbn; rewrite lookup_insert_ne by congruence; done | cbn; apply lookup_insert_eq | congruence ].
Qed.

(** The effect of a creation on the tree. *)
Lemma create_node_tree s kids path init d dn nm :
  tree s kids -> cstr path -> fresh_init init -> can_create s kids path d dn nm -> 0 < next_id s ->
  let a := next_id s in
  let m' := nodes_add (nodes s) d a dn (init nm) in
  tree_ok m' (g_root s) (a + 1) (kids_add kids d a) /\
  m' !! a = Some (set_sibling (set_parent (init nm) d) (n_child dn)) /\
  (path <> [] -> forall cs, walk m' (kids_add kids d a) (g_root s) cs =
     if decide (cs = components path) then Some a else walk (nodes s) kids (g_root s) cs).
Proof.
  intros Ht Hp Hi (dir & Esp & Ed & Hdn & Hty & Hc & _) Hnx a m'.
  destruct (path_split_spec _ _ _ Hp Esp) as (Hdir & Hnm & Hcomp & Hemp). destruct (Hi nm) as [En Ech].
  pose proof (tree_ok_next _ _ _ (a + 1) _ Ht ltac:(unfold a; lia)) as Ht'.
  assert (Hnone : nodes s !! a = None).
  { destruct (nodes s !! a) as [z|] eqn:E; [|done]. pose proof (t_addr _ _ _ _ Ht _ _ E). lia. }
  rewrite <-En in Hc, Hnm. split_and!.
  - apply tree_add; try done. lia.
  - unfold m', nodes_add. rewrite lookup_insert_ne by congruence. apply lookup_insert_eq.
  - intros Hne cs. unfold m'. erewrite walk_add; [|try eassumption; lia..].
    rewrite En. rewrite Hcomp; [done|]. intros E. by apply Hne, Hemp.
Qed.

(** *** Removal *)

(** The pointer to the first element after [l0] in the list of [d]. *)
Definition link_of (d : Z) (l0 : list Z) : Z + Z :=
  match last l0 with None => inl d | Some x => inr x end.

(** The node map after [*link = v->sibling; kfree(v)]. *)
Definition nodes_del (m : gmap Z vfs_node) (link : Z + Z) (v : Z) : gmap Z vfs_node :=
  delete v
    (match link with
     | inl d => alter (fun n => set_child n (sib m v)) d m
     | inr x => alter (fun n => set_sibling n (sib m v)) x m
     end).

Definition kids_del (kids : Z -> list Z) (d v : Z) : Z -> list Z :=
  fun x => if x =? d then List.filter (fun y => negb (y =? v)) (kids d) else kids x.

(** A directory that is not empty. *)
Definition busy (m : gmap Z vfs_node) (v : Z) : bool :=
  match m !! v with
  | Some n => bool_decide (n_type n = VFS_DIR) && negb (n_child n =? 0)
  | None => false
  end.

Lemma alter_as_insert {A} (f : A -> A) (m : gmap Z A) i n : m !! i = Some n -> alter f i m = <[i := f n]> m.
Proof. intros E. rewrite <-(insert_id m i n E) at 1. apply alter_insert_eq. Qed.

Lemma link_run s d dn l0 l :
  nodes s !! d = Some dn -> (forall c, c ∈ l0 -> is_Some (nodes s !! c)) ->
  chain (sib (nodes s)) (n_child dn) (l0 ++ l) ->
  get_dir_link (link_of d l0) s = Some (hd 0 l, s) /\
  forall v, set_dir_link (link_of d l0) (sib (nodes s) v) s =
    Some (tt, with_nodes s (match link_of d l0 with
      | inl d => alter (fun n => set_child n (sib (nodes s) v)) d (nodes s)
      | inr x => alter (fun n => set_sibling n (sib (nodes s) v)) x (nodes s) end)).
Proof.
  intros Hd Hl Hc. unfold link_of. destruct l0 as [|x l0 _] using rev_ind; cbn [last].
  - assert (n_child dn = hd 0 l) as E by (destruct l; [done|by destruct Hc]).
    unfold get_dir_link, set_dir_link, mbind, M_bind, get_node. rewrite Hd. cbn. rewrite E. split; [done|].
    intros v. by rewrite (alter_as_insert _ _ _ _ Hd).
  - rewrite last_snoc. destruct (Hl x) as [n Hn]; [set_solver|].
    apply lseg_app in Hc as (r & Hc & Hc2). apply lseg_app in Hc as (r' & _ & (-> & _ & Hc)). cbn in Hc.
    assert (n_sibling n = hd 0 l) as E.
    { unfold sib in Hc. rewrite Hn in Hc. rewrite Hc. destruct l; [done|by destruct Hc2]. }
    unfold get_dir_link, set_dir_link, mbind, M_bind, get_node. rewrite Hn. cbn. rewrite E. split; [done|].
    intros v. by rewrite (alter_as_insert _ _ _ _ Hn).
Qed.

Lemma remove_loop_run fuel s kids d dn l0 l nm :
  tree s kids -> nodes s !! d = Some dn -> kids d = l0 ++ l -> cstr nm -> (length l < fuel)%nat ->
  exists r s', remove_loop fuel (link_of d l0) nm s = Some (r, s') /\
  match List.find (named (nodes s) nm) l with
  | None => r = -1 /\ s' = s
  | Some v =>
      if busy (nodes s) v then r = -1 /\ s' = s
      else r = 0 /\ exists l1 l2, l = l1 ++ v :: l2 /\
             s' = with_nodes s (nodes_del (nodes s) (link_of d (l0 ++ l1)) v)
  end.
Proof.
  intros Ht Hd. revert fuel l0. induction l as [|x l IH]; intros fuel l0 Hk Hnm Hf;
    (destruct fuel as [|fuel]; [cbn in Hf; lia|]); cbn [remove_loop].
  all: pose proof (t_chain _ _ _ _ Ht d dn Hd) as Hc; rewrite Hk in Hc.
  all: assert (Hl0 : forall c, c ∈ l0 -> is_Some (nodes s !! c))
    by (intros c Hin; destruct (t_kid _ _ _ _ Ht d c) as (n & Hn & _); [rewrite Hk; set_solver|eauto]).
  all: destruct (link_run _ _ _ _ _ Hd Hl0 Hc) as [Hg Hs].
  - rewrite (bind_run _ _ _ _ _ Hg). cbn. eauto.
  - rewrite (bind_run _ _ _ _ _ Hg). cbn [hd].
    destruct (t_kid _ _ _ _ Ht d x) as (n & Hn & _ & [Hcn _]); [rewrite Hk; set_solver|].
    pose proof (t_addr _ _ _ _ Ht x n Hn). rewrite (proj2 (Z.eqb_neq x 0)) by lia.
    rewrite (bind_run (get_node x) _ s n s) by (unfold get_node; by rewrite Hn).
    rewrite cstr_strcmp by done. cbn [List.find]. unfold named at 1. rewrite Hn.
    case_bool_decide as En.
    + unfold busy. rewrite Hn. destruct (bool_decide _ && _) eqn:Eb; [eauto|].
      specialize (Hs x). unfold sib in Hs at 1. rewrite Hn in Hs.
      rewrite (bind_run _ _ _ _ _ Hs). eexists 0, _. split; [|split; [done|]].
      * unfold kfree_node. rewrite (proj2 (Z.eqb_neq x 0)) by lia. unfold mbind, M_bind, get_node.
        cbn [nodes with_nodes]. assert (is_Some (match link_of d l0 with
          | inl d => alter (fun n => set_child n (sib (nodes s) x)) d (nodes s)
          | inr y => alter (fun n => set_sibling n (sib (nodes s) x)) y (nodes s) end !! x)) as [z ->].
        { destruct (link_of d l0); apply lookup_alter_is_Some; eauto. }
        done.
      * exists [], l. rewrite app_nil_r. done.
    + assert (link_of d (l0 ++ [x]) = inr x) as El by (unfold link_of; by rewrite last_snoc).
      destruct (IH fuel (l0 ++ [x])) as (r & s' & E & Hres); [by rewrite <-(assoc_L (++))|done|cbn in Hf; lia|].
      rewrite El in E. exists r, s'. split; [done|].
      destruct (List.find _ l) as [v|]; [|done]. destruct (busy _ v); [done|].
      destruct Hres as (Hr & l1 & l2 & -> & ->). split; [done|]. exists (x :: l1), l2.
      by rewrite <-(assoc_L (++)).
Qed.

Section Remove.
Context (m : gmap Z vfs_node) (root next : Z) (kids : Z -> list Z).
Context (Ht : tree_ok m root next kids).
Context (d v : Z) (dn vn : vfs_node) (l0 l1 : list Z).
Context (Hd : m !! d = Some dn) (Hv : m !! v = Some vn) (Hkids : kids d = l0 ++ v :: l1) (Hempty : n_child vn = 0).

Let m' := nodes_del m (link_of d l0) v.
Let kids' := kids_del kids d v.

Lemma del_facts :
  v ∉ l0 /\ v ∉ l1 /\ (forall x, x ∈ l0 -> x ∉ l1) /\ d <> v /\ kids v = [] /\ v <> root /\ kids' d = l0 ++ l1.
Proof.
  pose proof (t_chain _ _ _ _ Ht d dn Hd) as Hc. apply chain_NoDup in Hc. rewrite Hkids in Hc.
  apply NoDup_app in Hc as (Hn0 & Hdis & [Hv1 Hn1]%NoDup_cons).
  assert (Hv0 : v ∉ l0) by (intros Hin; apply (Hdis v Hin); set_solver).
  assert (Hkv : kids v = []) by (by eapply kids_leaf).
  assert (Hdv : d <> v). { intros ->. rewrite Hkv in Hkids. by destruct l0. }
  split_and!; try done.
  - intros x Hx Hx1. apply (Hdis x Hx). set_solver.
  - intros ->. destruct (t_kid _ _ _ _ Ht d root) as (n & Hn & Hp & _); [rewrite Hkids; set_solver|].
    destruct (t_root _ _ _ _ Ht) as (n' & Hn' & _ & Hp'). pose proof (t_addr _ _ _ _ Ht d dn Hd).
    assert (n' = n) as -> by congruence. lia.
  - unfold kids', kids_del. rewrite Z.eqb_refl, Hkids, List.filter_app. cbn [List.filter].
    rewrite Z.eqb_refl. cbn [negb].
    assert (G : forall l, v ∉ l -> List.filter (fun y => negb (y =? v)) l = l).
    { clear. induction l as [|y l IH]; [done|]. intros Hin. cbn [List.filter].
      rewrite (proj2 (Z.eqb_neq y v)) by set_solver. cbn [negb]. f_equal. apply IH. set_solver. }
    by rewrite !G.
Qed.

Lemma del_attrs x nx : x <> v -> m !! x = Some nx ->
  exists nx', m' !! x = Some nx' /\ n_name nx' = n_name nx /\ n_parent nx' = n_parent nx /\
    n_type nx' = n_type nx /\
    n_sibling nx' = (if bool_decide (last l0 = Some x) then sib m v else n_sibling nx) /\
    n_child nx' = (if bool_decide (l0 = [] /\ x = d) then sib m v else n_child nx).
Proof.
  intros Hx Hm. unfold m', nodes_del. rewrite lookup_delete_ne by done. unfold link_of.
  destruct (last l0) as [y|] eqn:El.
  - assert (l0 <> []) by (by intros ->). rewrite (bool_decide_eq_false_2 (l0 = [] /\ _)) by tauto.
    rewrite lookup_alter. destruct (decide (y = x)) as [->|Hne].
    + rewrite Hm. cbn. eexists. split; [done|]. rewrite bool_decide_eq_true_2 by done. done.
    + exists nx. rewrite bool_decide_eq_false_2 by congruence. done.
  - apply last_None in El. rewrite (bool_decide_eq_false_2 (None = Some x)) by done.
    rewrite lookup_alter. destruct (decide (d = x)) as [->|Hne].
    + rewrite Hm. cbn. eexists. split; [done|]. rewrite bool_decide_eq_true_2 by done. done.
    + exists nx. rewrite bool_decide_eq_false_2 by (intros [_ ->]; done). done.
Qed.

Lemma del_none x : m' !! x = None <-> x = v \/ m !! x = None.
Proof.
  unfold m', nodes_del. destruct (decide (x = v)) as [->|Hne]; [rewrite lookup_delete_eq; tauto|].
  rewrite lookup_delete_ne by done. destruct (link_of d l0) as [y|y]; rewrite lookup_alter;
    destruct (decide (y = x)) as [->|]; rewrite ?fmap_None; tauto.
Qed.

Lemma del_inv x nx' : m' !! x = Some nx' -> x <> v /\ exists nx, m !! x = Some nx.
Proof.
  intros E. destruct (decide (x = v)) as [->|Hne].
  - assert (m' !! v = None) by (apply del_none; tauto). congruence.
  - split; [done|]. destruct (m !! x) as [nx|] eqn:E2; [eauto|].
    assert (m' !! x = None) by (apply del_none; tauto). congruence.
Qed.

Lemma del_sib x : x <> v -> last l0 <> Some x -> sib m' x = sib m x.
Proof.
  intros Hx Hl. unfold sib at 1 2. destruct (m !! x) as [nx|] eqn:E.
  - destruct (del_attrs x nx Hx E) as (nx' & -> & _ & _ & _ & -> & _).
    by rewrite bool_decide_eq_false_2.
  - by rewrite (proj2 (del_none x) (or_intror E)).
Qed.

Lemma del_kid x c : c ∈ kids' x <-> c ∈ kids x /\ c <> v.
Proof.
  unfold kids', kids_del. destruct (Z.eqb_spec x d) as [->|Hne].
  - rewrite list_elem_of_In, List.filter_In, <-list_elem_of_In. destruct (Z.eqb_spec c v); naive_solver.
  - split; [|tauto]. intros Hc. split; [done|]. intros ->.
    destruct (t_kid _ _ _ _ Ht x v Hc) as (n & Hn & Hp & _).
    destruct (t_kid _ _ _ _ Ht d v) as (n' & Hn' & Hp' & _); [rewrite Hkids; set_solver|]. congruence.
Qed.

(** The sibling list of [d] without [v]. *)
Lemma del_chain dn' : m' !! d = Some dn' -> chain (sib m') (n_child dn') (l0 ++ l1).
Proof.
  intros E. destruct del_facts as (Hv0 & Hv1 & Hdis & Hdv & _).
  destruct (del_attrs d dn Hdv Hd) as (z & Hz & _ & _ & _ & _ & Ech).
  assert (z = dn') as -> by congruence. rewrite Ech.
  pose proof (t_chain _ _ _ _ Ht d dn Hd) as Hc. rewrite Hkids in Hc.
  assert (Htail : lseg (sib m) (sib m v) l1 0 -> lseg (sib m') (sib m v) l1 0).
  { apply lseg_ext. intros y Hy. symmetry. apply del_sib; [set_solver|].
    intros El. apply (Hdis y); [by apply last_Some_elem_of|done]. }
  destruct (decide (l0 = [])) as [E0|E0].
  { rewrite bool_decide_eq_true_2 by done. rewrite E0 in *. destruct Hc as (_ & _ & Hc). by apply Htail. }
  rewrite bool_decide_eq_false_2 by tauto. destruct (List.exists_last E0) as (l & x & El0).
  assert (Hlast : last l0 = Some x) by (rewrite El0; apply last_snoc).
  apply lseg_app in Hc as (r & Hc & (-> & _ & Hcv)). apply lseg_app.
  exists (sib m v). split; [|by apply Htail].
  pose proof (t_chain _ _ _ _ Ht d dn Hd) as Hnd%chain_NoDup. rewrite Hkids, El0 in Hnd.
  apply NoDup_app in Hnd as ((_ & Hnd & _)%NoDup_app & _).
  rewrite El0 in Hc |- *. apply lseg_app in Hc as (r & Hc & (-> & Hx & _)). apply lseg_app. exists x. split.
  - eapply lseg_ext; [|exact Hc]. intros y Hy. symmetry. apply del_sib; [set_solver|].
    rewrite Hlast. intros [= ->]. apply (Hnd y Hy). set_solver.
  - split_and!; [done..|]. cbn [lseg]. destruct (t_kid _ _ _ _ Ht d x) as (nx & Hnx & _); [rewrite Hkids; set_solver|].
    destruct (del_attrs x nx) as (nx' & Hnx' & _ & _ & _ & Es & _); [set_solver|done|].
    unfold sib at 1. rewrite Hnx', Es. by rewrite bool_decide_eq_true_2.
Qed.

Lemma tree_del : tree_ok m' root next kids'.
Proof.
  destruct del_facts as (Hv0 & Hv1 & Hdis & Hdv & Hkv & Hroot & Hkd). split.
  - destruct (t_root _ _ _ _ Ht) as (r & Hr & Hrt & Hrp).
    destruct (del_attrs root r ltac:(done) Hr) as (r' & Hr' & _ & Ep & Et & _). exists r'. rewrite Ep, Et. done.
  - intros x nx' Hx. destruct (del_inv x nx' Hx) as [_ [nx Hnx]]. by eapply t_addr.
  - intros x nx' Hx. destruct (del_inv x nx' Hx) as [Hxv [nx Hnx]].
    destruct (decide (x = d)) as [->|Hxd]; [rewrite Hkd; by apply del_chain|].
    destruct (del_attrs x nx Hxv Hnx) as (z & Hz & _ & _ & _ & _ & Ech).
    assert (z = nx') as -> by congruence. rewrite bool_decide_eq_false_2 in Ech by tauto. rewrite Ech.
    unfold kids', kids_del. rewrite (proj2 (Z.eqb_neq x d)) by done.
    eapply chain_ext; [|by apply (t_chain _ _ _ _ Ht x nx Hnx)]. intros y Hy. symmetry.
    assert (Hyd : y ∉ kids d).
    { intros Hyd. destruct (t_kid _ _ _ _ Ht x y Hy) as (n1 & ? & ? & _), (t_kid _ _ _ _ Ht d y Hyd) as (n2 & ? & ? & _).
      congruence. }
    rewrite Hkids in Hyd. apply del_sib; [set_solver|]. intros El%last_Some_elem_of. set_solver.
  - intros x nx' Hx Hnt. destruct (del_inv x nx' Hx) as [Hxv [nx Hnx]].
    destruct (del_attrs x nx Hxv Hnx) as (z & Hz & _ & _ & Et & _ & Ech). assert (z = nx') as -> by congruence.
    rewrite Et in Hnt. rewrite bool_decide_eq_false_2 in Ech.
    + rewrite Ech. by eapply t_leaf.
    + intros [_ ->]. assert (nx = dn) as -> by congruence.
      pose proof (t_leaf _ _ _ _ Ht d dn Hd Hnt) as E0.
      rewrite (kids_leaf _ _ _ _ _ _ Ht Hd E0) in Hkids. by destruct l0.
  - intros x [->|Hx]%del_none; unfold kids', kids_del.
    + by rewrite (proj2 (Z.eqb_neq v d)).
    + destruct (Z.eqb_spec x d) as [->|]; [congruence|by eapply t_none].
  - intros x c [Hc Hcv]%del_kid. destruct (t_kid _ _ _ _ Ht x c Hc) as (n & Hn & Hp & Hvn).
    destruct (del_attrs c n Hcv Hn) as (n' & Hn' & En & Ep & _). exists n'. rewrite En, Ep. done.
  - intros x c c' n n' [Hc Hcv]%del_kid [Hc' Hcv']%del_kid Hn Hn' E.
    destruct (t_kid _ _ _ _ Ht x c Hc) as (z & Hz & _), (t_kid _ _ _ _ Ht x c' Hc') as (z' & Hz' & _).
    destruct (del_attrs c z Hcv Hz) as (w & Hw & Ew & _), (del_attrs c' z' Hcv' Hz') as (w' & Hw' & Ew' & _).
    eapply (t_names _ _ _ _ Ht x c c'); try done. congruence.
Qed.

Lemma child_del x nm :
  child m' kids' x nm = if bool_decide (x = d /\ nm = n_name vn) then None else child m kids x nm.
Proof.
  case_bool_decide as E.
  - destruct E as [-> ->]. apply child_None. intros c n' [Hc Hcv]%del_kid Hn' En.
    destruct (t_kid _ _ _ _ Ht d c Hc) as (z & Hz & _).
    destruct (del_attrs c z Hcv Hz) as (w & Hw & Ew & _). apply Hcv.
    eapply (t_names _ _ _ _ Ht d c v); [done|rewrite Hkids; set_solver|done|done|congruence].
  - destruct (child m kids x nm) as [c|] eqn:Ec.
    + destruct (child_Some _ _ _ _ _ _ _ Ht Ec) as (Hc & n & Hn & Hnm & Hp).
      assert (Hcv : c <> v).
      { intros ->. destruct (t_kid _ _ _ _ Ht d v) as (n' & Hn' & Hp' & _); [rewrite Hkids; set_solver|].
        apply E. split; congruence. }
      destruct (del_attrs c n Hcv Hn) as (n' & Hn' & En & _). rewrite <-Hnm, <-En.
      eapply child_of; [apply tree_del|by apply del_kid|done].
    + apply child_None. intros c n' [Hc Hcv]%del_kid Hn' En. rewrite child_None in Ec.
      destruct (t_kid _ _ _ _ Ht x c Hc) as (z & Hz & _).
      destruct (del_attrs c z Hcv Hz) as (w & Hw & Ew & _). apply (Ec c z Hc Hz). congruence.
Qed.

(** The walks of the new tree: one path less. *)
Lemma walk_del pc cs :
  walk m kids root pc = Some d ->
  walk m' kids' root cs = if decide (cs = pc ++ [n_name vn]) then None else walk m kids root cs.
Proof.
  intros Hpc. destruct del_facts as (Hv0 & Hv1 & Hdis & Hdv & Hkv & Hroot & Hkd).
  induction cs as [|c cs IH] using rev_ind.
  { cbn. destruct (decide _) as [E|]; [by destruct pc|done]. }
  rewrite !walk_snoc, IH. destruct (decide (cs = pc ++ [n_name vn])) as [->|Hne].
  - rewrite walk_snoc, Hpc. assert (child m kids d (n_name vn) = Some v) as ->.
    { eapply child_of; [done|rewrite Hkids; set_solver|done]. }
    assert (child m kids v c = None) as -> by (unfold child; by rewrite Hkv). by destruct (decide _).
  - destruct (walk m kids root cs) as [x|] eqn:Ex.
    + rewrite child_del. case_bool_decide as E1; destruct (decide _) as [E2|E2]; try done.
      * destruct E1 as [-> ->]. destruct E2. by rewrite (walk_inj _ _ _ _ _ _ _ Ht Ex Hpc).
      * apply app_inj_tail in E2 as [-> ->]. destruct E1. split; [congruence|done].
    + by destruct (decide _).
Qed.

End Remove.

(** A removal that is refused: no such path, or a directory in use. *)
Definition cannot_remove (s : vfs D) (kids : Z -> list Z) (path : list Z) : Prop :=
  forall dir nm d v vn, path_split path 256 VFS_NAME_MAX = Some (dir, nm) ->
    walk (nodes s) kids (g_root s) (components dir) = Some d -> child (nodes s) kids d nm = Some v ->
    nodes s !! v = Some vn -> n_child vn <> 0.

Lemma vfs_remove_run s kids path :
  tree s kids -> cstr path ->
  exists r s', vfs_remove path s = Some (r, s') /\
    ((r = -1 /\ s' = s /\ cannot_remove s kids path) \/
     (r = 0 /\ exists dir d dn v vn l0 l1,
        path_split path 256 VFS_NAME_MAX = Some (dir, n_name vn) /\
        walk (nodes s) kids (g_root s) (components dir) = Some d /\
        nodes s !! d = Some dn /\ nodes s !! v = Some vn /\ kids d = l0 ++ v :: l1 /\ n_child vn = 0 /\
        s' = with_nodes s (nodes_del (nodes s) (link_of d l0) v))).
Proof.
  intros Ht Hp. unfold vfs_remove, cannot_remove.
  destruct (path_split path 256 VFS_NAME_MAX) as [[dir nm]|] eqn:Esp; [|eexists _, _; split; [done|by left]].
  destruct (path_split_spec _ _ _ Hp Esp) as (Hdir & Hnm & _).
  rewrite (bind_run _ _ _ _ _ (vfs_lookup_run s kids dir Ht Hdir)).
  destruct (walk _ _ _ (components dir)) as [d|] eqn:Ed; cbn [from_option id].
  2:{ eexists _, _. split; [done|]. left. split_and!; try done. intros dir' nm' d v vn [= <- <-]. congruence. }
  destruct (walk_dom _ _ _ _ _ _ Ht Ed) as [dn Hdn]. pose proof (t_addr _ _ _ _ Ht d dn Hdn) as Hd0.
  rewrite (proj2 (Z.eqb_neq d 0)) by lia.
  rewrite (bind_run (get_node d) _ s dn s) by (unfold get_node; by rewrite Hdn).
  destruct (bool_decide (n_type dn = VFS_DIR)) eqn:Ety; cbn [negb].
  2:{ eexists _, _. split; [done|]. left. split_and!; try done. apply bool_decide_eq_false in Ety.
      intros dir' nm' d' v vn [= <- <-]. rewrite Ed. intros [= <-] Hc. exfalso. revert Hc.
      unfold child. rewrite (kids_leaf _ _ _ _ _ _ Ht Hdn); [done|by eapply t_leaf]. }
  rewrite (bind_run get _ s s s) by done.
  destruct (remove_loop_run (list_fuel s) s kids d dn [] (kids d) nm Ht Hdn eq_refl (proj1 Hnm)) as (r & s' & E & Hr);
    [by eapply kids_bound|]. change (link_of d []) with (@inl Z Z d) in E. exists r, s'. split; [done|].
  fold (child (nodes s) kids d nm) in Hr. destruct (child (nodes s) kids d nm) as [v|] eqn:Ef.
  2:{ left. destruct Hr as [-> ->]. split_and!; try done. intros ? ? ? ? ? [= <- <-]. rewrite Ed. intros [= <-]. congruence. }
  destruct (child_Some _ _ _ _ _ _ _ Ht Ef) as (_ & vn & Hvn & <- & _).
  unfold busy in Hr. rewrite Hvn in Hr. destruct (bool_decide _ && _) eqn:Eb.
  - left. destruct Hr as [-> ->]. split_and!; try done. intros ? ? ? ? ? [= <- <-]. rewrite Ed. intros [= <-].
    rewrite Ef. intros [= <-]. rewrite Hvn. intros [= <-]. by bool_to_prop.
  - right. destruct Hr as (-> & l0 & l1 & Hk & ->). split; [done|].
    exists dir, d, dn, v, vn, l0, l1. split_and!; try done.
    apply andb_false_iff in Eb as [Eb|Eb]; [|by bool_to_prop].
    apply bool_decide_eq_false in Eb. by eapply t_leaf.
Qed.

(** The walk to a path that splits. *)
Lemma walk_split s kids path dir nm v :
  tree s kids -> cstr path -> path <> [] -> path_split path 256 VFS_NAME_MAX = Some (dir, nm) ->
  walk (nodes s) kids (g_root s) (components path) = Some v ->
  exists d, walk (nodes s) kids (g_root s) (components dir) = Some d /\ child (nodes s) kids d nm = Some v.
Proof.
  intros Ht Hp Hne Esp. destruct (path_split_spec _ _ _ Hp Esp) as (_ & _ & Hcomp & Hemp).
  rewrite Hcomp by (intros E0; by apply Hne, Hemp). rewrite walk_snoc.
  destruct (walk _ _ _ (components dir)) as [d|]; [eauto|done].
Qed.

End Tree.

(** ** The properties *)

(** C25. Path lookup: in a well-formed tree [vfs_lookup] terminates without
    touching a missing node, leaves the state unchanged, and returns the node
    that the walk along the nonempty components of the path reaches from the
    root, NULL if a component is missing or leads through a file; and a node
    is reached by one component list only. *)
Theorem vfs_lookup_walks_components {D} (s : vfs D) kids path path' :
  tree s kids -> cstr path -> cstr path' ->
  exists x, vfs_lookup path s = Some (x, s) /\
    x = default 0 (walk (nodes s) kids (g_root s) (components path)) /\
    (x <> 0 -> vfs_lookup path' s = Some (x, s) -> components path = components path').
Proof.
  intros Ht Hp Hp'. eexists. split; [by apply vfs_lookup_run|]. split; [done|].
  rewrite (vfs_lookup_run s kids path' Ht Hp'). intros Hx [= E].
  destruct (walk (nodes s) kids (g_root s) (components path)) as [a|] eqn:Ea; [|done].
  destruct (walk (nodes s) kids (g_root s) (components path')) as [b|] eqn:Eb; cbn in *; [|congruence].
  subst b. by eapply walk_inj.
Qed.

(** C26. Creating a file: [vfs_create_file] terminates and keeps the tree well
    formed. It succeeds exactly when the path splits into an existing
    directory and a free, short enough name and memory is available; then
    the path leads to a new, empty regular file of mode 0644, and every path
    with other components leads where it led before. On failure nothing in
    the tree changes. *)
Theorem vfs_create_file_adds_path {D} (s : vfs D) kids path :
  tree s kids -> cstr path -> path <> [] ->
  exists r s' kids', vfs_create_file path s = Some (r, s') /\ tree s' kids' /\ same_fds s s' /\
    (r <> 0 <-> exists d dn nm, can_create s kids path d dn nm) /\
    (r = 0 -> nodes s' = nodes s) /\
    (r <> 0 ->
      (exists n, nodes s' !! r = Some n /\ n_type n = VFS_FILE /\ n_mode n = 420 /\ n_size n = 0) /\
      forall q, cstr q -> exists x, vfs_lookup q s = Some (x, s) /\
        vfs_lookup q s' = Some (if decide (components q = components path) then r else x, s')).
Proof.
  intros Ht Hp Hne. pose proof (t_root _ _ _ _ Ht) as (rn & Hrn & _). pose proof (t_addr _ _ _ _ Ht _ _ Hrn).
  set (init := fun name => VfsNode name VFS_FILE 420 0 0 [] 0 0 None 0 0 0 0).
  assert (Hi : fresh_init init) by done.
  destruct (create_node_run s kids path init Ht Hp Hi) as [(d & dn & nm & Hcan & E)|(Hno & o & E)]; [lia| |].
  - destruct (create_node_tree s kids path init d dn nm Ht Hp Hi Hcan) as (Ht' & Hnew & Hw); [lia|].
    eexists _, _, (kids_add kids d (next_id s)). split; [exact E|]. split; [exact Ht'|].
    split; [by split_and!; cbn; try done; lia|]. split; [split; [by eauto|lia]|]. split; [lia|].
    intros _. split; [eexists; split; [exact Hnew|done]|]. intros q Hq. eexists.
    split; [by apply vfs_lookup_run|]. erewrite vfs_lookup_run; [|exact Ht'|exact Hq].
    cbn [nodes with_nodes g_root with_alloc].
    rewrite Hw by done. by destruct (decide _).
  - eexists 0, _, kids. split; [exact E|]. split; [exact Ht|]. split; [by split_and!; cbn; try done; lia|].
    split; [|split; [done|lia]]. split; [done|]. intros (d & dn & nm & Hc). by destruct (Hno d dn nm).
Qed.

(** C27. Removing: [vfs_remove] terminates and keeps the tree well formed. If
    it returns 0 the path leads nowhere afterwards and every path with other
    components leads where it led before; otherwise it returns -1 and the
    state is unchanged, and then a path that splits into directory and name
    leads nowhere or to a directory that is not empty. *)
Theorem vfs_remove_drops_path {D} (s : vfs D) kids path :
  tree s kids -> cstr path -> path <> [] ->
  exists r s' kids', vfs_remove path s = Some (r, s') /\ tree s' kids' /\ same_fds s s' /\
    (r <> 0 -> r = -1 /\ s' = s /\
      forall v vn dir_nm, path_split path 256 VFS_NAME_MAX = Some dir_nm -> vfs_lookup path s = Some (v, s) ->
        nodes s !! v = Some vn -> n_child vn <> 0) /\
    (r = 0 -> forall q, cstr q -> exists x, vfs_lookup q s = Some (x, s) /\
       vfs_lookup q s' = Some (if decide (components q = components path) then 0 else x, s')).
Proof.
  intros Ht Hp Hne.
  destruct (vfs_remove_run s kids path Ht Hp) as (r & s' & E & [(-> & -> & Hno)|(-> & Hr)]).
  - exists (-1), s, kids. split_and!; try done; try lia. intros _. split_and!; try done.
    intros v vn [dir nm] Esp Hl Hvn. rewrite (vfs_lookup_run s kids path Ht Hp) in Hl.
    destruct (walk _ _ _ (components path)) as [w|] eqn:Ew; cbn in Hl.
    + injection Hl as ->. destruct (walk_split s kids path dir nm v Ht Hp Hne Esp Ew) as (d & Ed & Ec).
      by eapply Hno.
    + injection Hl as <-. pose proof (t_addr _ _ _ _ Ht _ _ Hvn). lia.
  - destruct Hr as (dir & d & dn & v & vn & l0 & l1 & Esp & Ed & Hdn & Hvn & Hk & Hch & ->).
    destruct (path_split_spec _ _ _ Hp Esp) as (_ & _ & Hcomp & Hemp).
    assert (Hnm : n_name vn <> []) by (intros E0; by apply Hne, Hemp).
    pose proof (tree_del _ _ _ _ Ht d v dn vn l0 l1 Hdn Hvn Hk Hch) as Ht'.
    eexists 0, _, (kids_del kids d v). split; [exact E|]. split; [exact Ht'|].
    split; [by split_and!; cbn; try done; lia|]. split; [done|]. intros _ q Hq. eexists.
    split; [by apply vfs_lookup_run|]. erewrite vfs_lookup_run; [|exact Ht'|exact Hq]. cbn [nodes with_nodes g_root].
    rewrite (walk_del _ _ _ _ Ht d v dn vn l0 l1 Hdn Hvn Hk Hch _ _ Ed), Hcomp by done.
    by destruct (decide _).
Qed.

(** ** A small tree: "/", "/a" and "/a/f" *)

Definition demo_nodes : gmap Z vfs_node :=
  {[ 1 := VfsNode [SLASH] VFS_DIR 0 0 0 [] 0 0 None 0 0 0 2;
     2 := VfsNode [97] VFS_DIR 493 0 0 [] 0 0 None 0 1 0 3;
     3 := VfsNode [102] VFS_FILE 420 0 0 [] 0 0 None 0 2 0 0 ]}.

Definition demo_kids (x : Z) : list Z := if x =? 1 then [2] else if x =? 2 then [3] else [].

Definition demo : vfs unit := Vfs demo_nodes ∅ ∅ 1 {[ 1 := replicate 16 0 ]} (Some 1) 10 [] tt.

Lemma demo_lookup x n : demo_nodes !! x = Some n ->
  (x = 1 /\ n = VfsNode [SLASH] VFS_DIR 0 0 0 [] 0 0 None 0 0 0 2) \/
  (x = 2 /\ n = VfsNode [97] VFS_DIR 493 0 0 [] 0 0 None 0 1 0 3) \/
  (x = 3 /\ n = VfsNode [102] VFS_FILE 420 0 0 [] 0 0 None 0 2 0 0).
Proof.
  unfold demo_nodes. intros [[<- <-]|[_ [[<- <-]|[_ [<- <-]%lookup_singleton_Some]]%lookup_insert_Some]]%lookup_insert_Some;
    auto.
Qed.

Lemma demo_kid d c : c ∈ demo_kids d -> (d = 1 /\ c = 2) \/ (d = 2 /\ c = 3).
Proof.
  unfold demo_kids. destruct (Z.eqb_spec d 1); [intros E%list_elem_of_singleton; auto|].
  destruct (Z.eqb_spec d 2); [intros E%list_elem_of_singleton; auto|]. by intros E%elem_of_nil.
Qed.

Lemma demo_tree : tree demo demo_kids.
Proof.
  assert (Hname : forall c, 97 <= c <= 102 -> valid_name [c]).
  { intros c Hc. split_and!; [repeat constructor; lia| |cbn; lia].
    intros E%list_elem_of_singleton. unfold SLASH in E. lia. }
  split; cbn [nodes g_root next_id demo].
  - eexists. split; [vm_compute; reflexivity|done].
  - intros a n [[-> _]|[[-> _]|[-> _]]]%demo_lookup; lia.
  - intros d n [[-> ->]|[[-> ->]|[-> ->]]]%demo_lookup; (repeat split; done).
  - intros d n [[-> ->]|[[-> ->]|[-> ->]]]%demo_lookup; done.
  - intros d Hd. unfold demo_kids. destruct (Z.eqb_spec d 1) as [->|]; [vm_compute in Hd; done|].
    destruct (Z.eqb_spec d 2) as [->|]; [vm_compute in Hd; done|done].
  - intros d c [[-> ->]|[-> ->]]%demo_kid; eexists; (split; [vm_compute; reflexivity|]);
      (split; [done|]); cbn; apply Hname; lia.
  - intros d c c' n n' [[-> ->]|[-> ->]]%demo_kid [[E ->]|[E ->]]%demo_kid; lia.
Qed.

Lemma vfs_lookup_walks_components_witness :
  vfs_lookup [SLASH; 97; SLASH; SLASH; 102] demo = Some (3, demo) /\
  components [SLASH; 97; SLASH; SLASH; 102] = components [97; SLASH; 102; SLASH].
Proof.
  destruct (vfs_lookup_walks_components demo demo_kids [SLASH; 97; SLASH; SLASH; 102] [97; SLASH; 102; SLASH] demo_tree)
    as (x & E & -> & Huniq).
  - repeat constructor.
  - repeat constructor.
  - change (default 0 _) with 3 in E, Huniq. split; [exact E|]. apply Huniq; [done|]. vm_compute. reflexivity.
Defined.

Lemma vfs_create_file_adds_path_witness :
  exists s', vfs_create_file [SLASH; 97; SLASH; 103] demo = Some (10, s') /\
    vfs_lookup [97; SLASH; 103] s' = Some (10, s') /\ vfs_lookup [SLASH; 97; SLASH; 102] s' = Some (3, s').
Proof.
  destruct (vfs_create_file_adds_path demo demo_kids [SLASH; 97; SLASH; 103] demo_tree) as
    (r & s' & kids' & E & _ & _ & _ & _ & Hq); [repeat constructor|done|].
  assert (r = 10) as ->.
  { apply (f_equal (fun o => match o with Some (x, _) => x | None => 0 end)) in E. rewrite <-E. vm_compute. reflexivity. }
  exists s'. split; [exact E|]. destruct (Hq ltac:(lia)) as [_ Hq'].
  destruct (Hq' [97; SLASH; 103]) as (x & _ & ->); [repeat constructor|].
  destruct (Hq' [SLASH; 97; SLASH; 102]) as (y & Ey & ->); [repeat constructor|].
  rewrite decide_True by reflexivity. rewrite decide_False by discriminate. split; [reflexivity|].
  vm_compute in Ey. injection Ey as <-. reflexivity.
Defined.

Lemma vfs_remove_drops_path_witness :
  exists s', vfs_remove [SLASH; 97; SLASH; 102] demo = Some (0, s') /\
    vfs_lookup [97; SLASH; 102] s' = Some (0, s') /\ vfs_lookup [SLASH; 97] s' = Some (2, s').
Proof.
  destruct (vfs_remove_drops_path demo demo_kids [SLASH; 97; SLASH; 102] demo_tree) as
    (r & s' & kids' & E & _ & _ & _ & Hq); [repeat constructor|done|].
  assert (r = 0) as ->.
  { apply (f_equal (fun o => match o with Some (x, _) => x | None => 1 end)) in E. rewrite <-E. vm_compute. reflexivity. }
  exists s'. split; [exact E|].
  destruct (Hq eq_refl [97; SLASH; 102]) as (x & _ & ->); [repeat constructor|].
  destruct (Hq eq_refl [SLASH; 97]) as (y & Ey & ->); [repeat constructor|].
  rewrite decide_True by reflexivity. rewrite decide_False by discriminate. split; [reflexivity|].
  vm_compute in Ey. injection Ey as <-. reflexivity.
Defined.
