(* ===== verification/VfsData.v ===== *)
(** * File contents and the life of nodes

    What a program sees of a regular file through descriptors: writes,
    positioned reads and truncation as operations on a byte string. The last
    part records where the descriptor layer and the tree disagree about the
    lifetime of an object. *)

From stdpp Require Import base numbers list gmap.
From Stdlib Require Import ZArith Lia ZifyBool.
From S2P Require Import Prelude.
From S2P Require Import Klib.
From S2P Require Import Pipe.
From S2P Require Import Vfs.
From S2P Require Import VfsFd.

(** The bytes of a file: the first [size] bytes of its buffer. *)
Definition content (n : vfs_node) : list Z := sub (n_data n) 0 (n_size n).

(** The buffer of a file has [capacity] bytes, of which [size] are used. *)
Definition file_ok (n : vfs_node) : Prop :=
  zlen (n_data n) = n_capacity n /\ 0 <= n_size n <= n_capacity n /\ n_capacity n < 2 ^ 64.

(** [write_at c pos b]: the string [c] with [b] written over it from [pos]. *)
Definition write_at (c : list Z) (pos : Z) (b : list Z) : list Z :=
  sub c 0 pos ++ b ++ sub c (pos + zlen b) (zlen c - (pos + zlen b)).

(** [resize c n]: [c] cut or extended with zeros to [n] bytes. *)
Definition resize (c : list Z) (n : Z) : list Z :=
  if n <? zlen c then sub c 0 n else c ++ replicate (Z.to_nat (n - zlen c)) 0.

Lemma zlen_content n : file_ok n -> zlen (content n) = n_size n.
Proof. intros (Hl & Hs & _). unfold content. rewrite zlen_sub; lia. Qed.

Lemma zlen_replicate k x : zlen (replicate k x) = Z.of_nat k.
Proof. unfold zlen. by rewrite length_replicate. Qed.

Lemma byte_at_replicate k x i : 0 <= i < Z.of_nat k -> byte_at (replicate k x) i = x.
Proof. intros. unfold byte_at. by rewrite nth_lookup, lookup_replicate_2 by lia. Qed.

Lemma sub_beyond l o n : n <= 0 -> sub l o n = [].
Proof. intros. unfold sub. replace (Z.to_nat n) with O by lia. done. Qed.

(** The new content when [b] is copied into the buffer at a position inside
    the content. *)
Lemma content_write d size cap pos b n' :
  0 <= pos <= size -> size <= zlen d -> pos + zlen b <= zlen d ->
  n_data n' = splice d pos b -> n_size n' = Z.max size (pos + zlen b) -> n_capacity n' = cap ->
  content n' = write_at (sub d 0 size) pos b.
Proof.
  intros Hpos Hsz Hb Ed Es _. pose proof (zlen_nonneg b). unfold content, write_at. rewrite Ed, Es.
  rewrite (sub_sub d 0 size 0 pos), zlen_sub by lia. cbn [Z.add].
  apply buf_ext.
  - rewrite zlen_sub, !zlen_app, zlen_sub; rewrite ?zlen_splice; try lia.
    destruct (Z.leb_spec size (pos + zlen b)).
    + rewrite sub_beyond by lia. change (zlen []) with 0. lia.
    + rewrite zlen_sub; rewrite ?zlen_sub; lia.
  - rewrite zlen_sub by (rewrite ?zlen_splice; lia). intros i Hi.
    rewrite byte_at_sub, byte_at_splice by lia. rewrite !byte_at_app, zlen_sub by lia.
    change (0 + i) with i.
    destruct (Z.ltb_spec i pos); [rewrite byte_at_sub by lia; split_tests; first [lia|f_equal; lia]|].
    rewrite byte_at_app by lia.
    destruct (Z.ltb_spec (i - pos) (zlen b)); [split_tests; first [lia|done]|].
    rewrite sub_sub by lia. rewrite byte_at_sub by lia. split_tests; first [lia|f_equal; lia].
Qed.

Lemma content_zero_fill d size len n' :
  0 <= size <= len -> len <= zlen d ->
  n_data n' = splice d size (replicate (Z.to_nat (len - size)) 0) -> n_size n' = len ->
  content n' = resize (sub d 0 size) len.
Proof.
  intros Hs Hl Ed Es. unfold content, resize. rewrite Ed, Es, zlen_sub by lia.
  rewrite (proj2 (Z.ltb_ge len size)) by lia.
  assert (Hz : zlen (replicate (Z.to_nat (len - size)) 0) = len - size) by (rewrite zlen_replicate; lia).
  apply buf_ext.
  - rewrite zlen_sub, zlen_app, zlen_sub; rewrite ?zlen_splice; lia.
  - rewrite zlen_sub by (rewrite ?zlen_splice; lia). intros i Hi.
    rewrite byte_at_sub, byte_at_splice, byte_at_app, zlen_sub by lia. change (0 + i) with i.
    destruct (Z.ltb_spec i size); [rewrite byte_at_sub by lia; split_tests; [lia|done]|].
    rewrite !byte_at_replicate by lia. split_tests; [done|lia].
Qed.

(** The doubling loop reaches every capacity up to 2^63 within 64 rounds. *)
Lemma grow_cap_ok fuel c need :
  0 < c < 2 ^ 64 -> need <= 2 ^ 63 -> need <= c * 2 ^ (Z.of_nat fuel) ->
  exists v, grow_cap (S fuel) c need = Some v /\ need <= v /\ c <= v < 2 ^ 64.
Proof.
  intros Hc Hn. revert c Hc. induction fuel as [|fuel IH]; intros c Hc Hf.
  - exists c. cbn. rewrite (proj2 (Z.ltb_ge c need)) by lia. split; [done|lia].
  - change (grow_cap (S (S fuel)) c need) with (if c <? need then grow_cap (S fuel) (u64 (c * 2)) need else Some c).
    destruct (Z.ltb_spec c need); [|exists c; split; [done|lia]].
    assert (E : u64 (c * 2) = c * 2) by (apply Z.mod_small; lia). rewrite E.
    destruct (IH (c * 2)) as (v & Ev & ? & ?); [lia| |exists v; split; [exact Ev|lia]].
    rewrite Nat2Z.inj_succ, Z.pow_succ_r in Hf by lia. rewrite <-Z.mul_assoc. exact Hf.
Qed.

Section Contents.
Context {D : Type} `{DeviceTable D} (junk : Z -> Z).
Implicit Types s : vfs D.

(** A buffer that has been enlarged keeps its content. *)
Lemma enlarge_sub d cap size : 0 <= size <= zlen d -> sub (enlarge junk d cap) 0 size = sub d 0 size.
Proof.
  intros Hs. unfold enlarge, sub. change (Z.to_nat 0) with O. rewrite !drop_0, take_app_le; [done|]. unfold zlen in Hs. lia.
Qed.

Lemma zlen_enlarge d cap : zlen d <= cap -> zlen (enlarge junk d cap) = cap.
Proof. intros. unfold enlarge. rewrite zlen_app. unfold zlen at 2. rewrite length_map, length_zseq. lia. Qed.

(** Making room: either memory is short and nothing changes, or the node has
    the room and the same content. *)
Lemma reserve_run s a n need :
  nodes s !! a = Some n -> file_ok n -> need <= 2 ^ 63 -> 0 < next_id s ->
  exists ok s', reserve junk a need s = Some (ok, s') /\
    files s' = files s /\ tables s' = tables s /\ cur s' = cur s /\ 0 < next_id s' /\
    ((ok = false /\ nodes s' = nodes s /\ hd false (oom s) = true) \/
     (ok = true /\ exists d cap, let n' := set_data n d (n_size n) cap in
        nodes s' = <[a := n']> (nodes s) /\ file_ok n' /\ content n' = content n /\ need <= cap)).
Proof.
  intros Hn (Hl & Hs & Hc) Hneed Hnx. unfold reserve.
  rewrite (bind_run (get_node a) _ s n s) by (unfold get_node; by rewrite Hn).
  destruct (Z.ltb_spec (n_capacity n) need) as [Hlt|Hge].
  2:{ exists true, s. split; [done|]. split_and!; try done. right. split; [done|].
      exists (n_data n), (n_capacity n). assert (set_data n (n_data n) (n_size n) (n_capacity n) = n) as -> by (by destruct n).
      cbn zeta. rewrite insert_id by done. split_and!; try done; lia. }
  set (c0 := if n_capacity n =? 0 then 64 else n_capacity n).
  assert (Hc0 : 0 < c0 < 2 ^ 64 /\ n_capacity n <= c0) by (unfold c0; split_tests; lia).
  destruct (grow_cap_ok 63 c0 need) as (v & Ev & Hv & Hcv); [lia|done|change (2 ^ Z.of_nat 63) with (2 ^ 63); lia|].
  rewrite Ev. unfold kmalloc_id, mbind, M_bind. destruct (oom s) as [|[] o] eqn:Eo; cbn [tail].
  2:{ eexists false, _. split; [done|]. split_and!; try done. left. split_and!; try done. }
  all: rewrite (proj2 (Z.eqb_neq (next_id s) 0)) by lia; eexists true, _; split; [done|];
    split_and!; try done; [cbn; lia|]; right; split; [done|]; exists (enlarge junk (n_data n) v), v; cbn zeta; split; [done|];
    unfold file_ok, content; cbn [n_data n_size n_capacity set_data];
    rewrite zlen_enlarge, enlarge_sub by lia; split_and!; try done; lia.
Qed.

(** The descriptor [fd] of the current task is the open file [a] = [f] on the
    regular file [n]. *)
Record open_file (s : vfs D) (fd a : Z) (f : vfs_file) (n : vfs_node) : Prop := OpenFile {
  of_fd : fd_get fd s = Some (a, s);
  of_ptr : a <> 0;
  of_file : files s !! a = Some f;
  of_pipe : f_pipe f = 0;
  of_node : nodes s !! f_node f = Some n;
  of_type : n_type n = VFS_FILE;
  of_ok : file_ok n;
  of_next : 0 < next_id s;
}.

Lemma get_file_run s a f : files s !! a = Some f -> get_file a s = Some (f, s).
Proof. intros E. unfold get_file. by rewrite E. Qed.

Lemma get_node_run s a n : nodes s !! a = Some n -> get_node a s = Some (n, s).
Proof. intros E. unfold get_node. by rewrite E. Qed.

(** [fd_get] reads the descriptor table only. *)
Lemma fd_get_tables s s' fd a :
  tables s' = tables s -> cur s' = cur s -> fd_get fd s = Some (a, s) -> fd_get fd s' = Some (a, s').
Proof.
  intros Et Ec. unfold fd_get, fd_table, mbind, M_bind, get, mret, M_ret, fault. rewrite Et, Ec.
  destruct (cur s) as [t|]; [|by intros [= <-]]. destruct (tables s !! t); [|done]. by intros [= <-].
Qed.

Lemma vfs_pread_run s fd a f n count off :
  open_file s fd a f n -> 0 <= off -> 0 <= count ->
  let k := Z.max 0 (Z.min count (zlen (content n) - off)) in
  vfs_pread fd true count off s = Some ((k, sub (content n) off k), s).
Proof.
  intros [Hfd Ha Hf Hp Hn Hty Hok Hnx] Ho Hc k. unfold vfs_pread. rewrite (bind_run _ _ _ _ _ Hfd).
  rewrite (proj2 (Z.eqb_neq a 0)) by done. cbn [negb]. rewrite (bind_run _ _ _ _ _ (get_file_run _ _ _ Hf)), Hp.
  cbn [Z.eqb negb]. rewrite (bind_run _ _ _ _ _ (get_node_run _ _ _ Hn)), bool_decide_eq_true_2 by done. cbn [negb].
  pose proof (zlen_content n Hok) as Hz. destruct Hok as (Hl & Hs & _).
  unfold k. rewrite Hz. destruct (Z.leb_spec (n_size n) off).
  - rewrite Z.max_l by lia. by rewrite sub_beyond.
  - assert ((if n_size n - off <? count then n_size n - off else count) = Z.max 0 (Z.min count (n_size n - off))) as ->
      by (split_tests; lia).
    unfold content. rewrite sub_sub by lia. done.
Qed.

(** The state after a write or a truncation of an open regular file. *)
Lemma open_file_update s s' fd a f f' n n' :
  open_file s fd a f n -> tables s' = tables s -> cur s' = cur s -> 0 < next_id s' ->
  files s' = <[a := f']> (files s) -> nodes s' = <[f_node f := n']> (nodes s) ->
  f_pipe f' = 0 -> f_node f' = f_node f -> n_type n' = VFS_FILE -> file_ok n' -> open_file s' fd a f' n'.
Proof.
  intros [Hfd Ha Hf Hp Hn Hty Hok Hnx] Et Ec Hnx' Ef En Hp' Hnode Hty' Hok'. split; try done.
  - by eapply fd_get_tables.
  - rewrite Ef. apply lookup_insert_eq.
  - rewrite En, Hnode. apply lookup_insert_eq.
Qed.

End Contents.

(** ** The properties *)

(** C28. Regular files are byte strings: a write through a descriptor whose
    position lies within the file either reports -ENOMEM and changes nothing
    or writes the whole buffer at the position, extends the file as needed,
    advances the position by the length and touches no other file; a
    positioned read then returns exactly the bytes of the updated string
    that exist at its offset. *)
Theorem vfs_write_then_pread {D} `{DeviceTable D} junk (s : vfs D) fd a f n buf off count :
  open_file s fd a f n -> Z.land (f_flags f) 3 <> O_RDONLY -> 0 <= f_pos f <= n_size n ->
  f_pos f + zlen buf <= 2 ^ 63 -> 0 <= off -> 0 <= count ->
  exists r s', vfs_write junk fd (Some buf) 0 s = Some (IoRet r [], s') /\
    ((r = - ENOMEM /\ hd false (oom s) = true /\ nodes s' = nodes s /\ files s' = files s) \/
     (r = zlen buf /\ exists n', let c := write_at (content n) (f_pos f) buf in
        open_file s' fd a (set_pos f (f_pos f + zlen buf)) n' /\ content n' = c /\
        nodes s' = <[f_node f := n']> (nodes s) /\
        let k := Z.max 0 (Z.min count (zlen c - off)) in
        vfs_pread fd true count off s' = Some ((k, sub c off k), s'))).
Proof.
  intros Ho Hfl Hpos Hlen Hoff Hcount. pose proof Ho as [Hfd Ha Hf Hp Hn Hty Hok Hnx].
  pose proof (zlen_nonneg buf). unfold vfs_write. rewrite (bind_run _ _ _ _ _ Hfd).
  rewrite (proj2 (Z.eqb_neq a 0)) by done. rewrite (bind_run _ _ _ _ _ (get_file_run _ _ _ Hf)), Hp.
  rewrite (proj2 (Z.eqb_neq _ O_RDONLY)) by done. cbn [Z.eqb negb].
  rewrite (bind_run _ _ _ _ _ (get_node_run _ _ _ Hn)), Hty. unfold file_write.
  assert (Hu : u64 (f_pos f + zlen buf) = f_pos f + zlen buf) by (apply Z.mod_small; lia).
  destruct (reserve_run junk s (f_node f) n (f_pos f + zlen buf) Hn Hok) as
    (ok & s1 & E1 & Ef1 & Et1 & Ec1 & Hnx1 & Hres); [lia|done|]. unfold mbind at 1 2, M_bind at 1 2.
  rewrite (get_file_run _ _ _ Hf), Hu. unfold mbind at 1, M_bind at 1. rewrite E1.
  destruct Hres as [(-> & En1 & Hoom)|(-> & d & cap & En1 & (Hl & Hs & Hcap) & Hcont & Hneed)]; cbn [negb].
  { eexists _, s1. split; [done|]. left. done. }
  set (n1 := set_data n d (n_size n) cap) in *. cbn [n_data n_size n_capacity n1 set_data] in Hl, Hs, Hcap.
  assert (Hn1 : nodes s1 !! f_node f = Some n1) by (rewrite En1; apply lookup_insert_eq).
  rewrite (bind_run _ _ _ _ _ (get_node_run _ _ _ Hn1)). eexists _, _. split; [done|]. right. split; [done|].
  set (n' := set_data _ _ _ _). exists n'. cbn zeta.
  assert (Hc' : content n' = write_at (content n) (f_pos f) buf).
  { rewrite <-Hcont. apply (content_write d (n_size n) cap (f_pos f) buf); try done; try lia.
    cbn [n' n_size set_data n1]. split_tests; lia. }
  rewrite <-Hc'. match goal with |- context [open_file ?x _ _ _ _] => set (s2 := x) end.
  assert (Ho' : open_file s2 fd a (set_pos f (f_pos f + zlen buf)) n').
  { eapply (open_file_update s);
      [exact Ho|exact Et1|exact Ec1|exact Hnx1|by cbn; rewrite Ef1|by cbn; rewrite En1, insert_insert_eq|exact Hp|done|exact Hty|].
    unfold file_ok, n'. cbn [n_data n_size n_capacity set_data n1]. rewrite zlen_splice by lia. split_tests; lia. }
  split_and!; try done; [by cbn; rewrite En1, insert_insert_eq|]. by eapply vfs_pread_run.
Qed.

(** [vfs_ftruncate] on a regular file: it either reports -ENOMEM and
    changes nothing, or returns 0 with the content cut to the length or
    extended to it with zero bytes; the position of the descriptor and all
    other files are unchanged. *)
Theorem vfs_ftruncate_resizes {D} junk (s : vfs D) fd a f n len :
  open_file s fd a f n -> 0 <= len <= 2 ^ 63 ->
  exists r s', vfs_ftruncate junk fd len s = Some (r, s') /\
    ((r = - ENOMEM /\ hd false (oom s) = true /\ nodes s' = nodes s /\ files s' = files s) \/
     (r = 0 /\ exists n', open_file s' fd a f n' /\ content n' = resize (content n) len /\
        nodes s' = <[f_node f := n']> (nodes s))).
Proof.
  intros Ho Hlen. pose proof Ho as [Hfd Ha Hf Hp Hn Hty Hok Hnx]. pose proof (zlen_content n Hok) as Hz.
  unfold vfs_ftruncate. rewrite (bind_run _ _ _ _ _ Hfd).
  rewrite (proj2 (Z.eqb_neq a 0)) by done. rewrite (bind_run _ _ _ _ _ (get_file_run _ _ _ Hf)), Hp.
  cbn [Z.eqb negb]. rewrite (bind_run _ _ _ _ _ (get_node_run _ _ _ Hn)), bool_decide_eq_true_2 by done. cbn [negb].
  rewrite (proj2 (Z.ltb_ge len 0)) by lia. destruct (Z.ltb_spec len (n_size n)) as [Hlt|Hge].
  - eexists 0, _. split; [done|]. right. split; [done|]. eexists. split; [|split; [|done]].
    + eapply (open_file_update s); try done; [by cbn; rewrite insert_id|].
      destruct Hok as (? & ? & ?). unfold file_ok. cbn. lia.
    + unfold resize. rewrite Hz, (proj2 (Z.ltb_lt len (n_size n))) by done. destruct Hok as (? & ? & ?).
      unfold content. cbn. rewrite sub_sub by lia. done.
  - destruct (reserve_run junk s (f_node f) n len Hn Hok) as
      (ok & s1 & E1 & Ef1 & Et1 & Ec1 & Hnx1 & Hres); [lia|done|]. rewrite (bind_run _ _ _ _ _ E1).
    destruct Hres as [(-> & En1 & Hoom)|(-> & d & cap & En1 & Hok1 & Hcont & Hneed)]; cbn [negb].
    { eexists _, s1. split; [done|]. left. done. }
    set (n1 := set_data n d (n_size n) cap) in *.
    assert (Hn1 : nodes s1 !! f_node f = Some n1) by (rewrite En1; apply lookup_insert_eq).
    rewrite (bind_run _ _ _ _ _ (get_node_run _ _ _ Hn1)). change (n_size n1) with (n_size n).
    destruct Hok1 as (Hl & Hs & Hcap). cbn [n_data n_size n_capacity n1 set_data] in Hl, Hs, Hcap.
    destruct (Z.ltb_spec (n_size n) len) as [Hlt|Heq].
    + eexists 0, _. split; [done|]. right. split; [done|].
      exists (set_data n1 (splice d (n_size n) (replicate (Z.to_nat (len - n_size n)) 0)) len cap).
      split; [|split; [rewrite <-Hcont; apply (content_zero_fill d (n_size n)); try done; lia|by cbn; rewrite En1, insert_insert_eq]].
      eapply (open_file_update s);
        [exact Ho|exact Et1|exact Ec1|exact Hnx1|by cbn; rewrite Ef1, insert_id|by cbn; rewrite En1, insert_insert_eq|exact Hp|done|exact Hty|].
      unfold file_ok. cbn [n_data n_size n_capacity set_data n1]. rewrite zlen_splice; [lia|lia|]. rewrite zlen_replicate. lia.
    + exists 0, s1. split; [done|]. right. split; [done|]. exists n1. split; [|split; [|done]].
      * eapply (open_file_update s);
          [exact Ho|exact Et1|exact Ec1|exact Hnx1|by rewrite Ef1, insert_id|done|exact Hp|done|exact Hty|done].
      * rewrite Hcont. unfold resize. rewrite Hz, (proj2 (Z.ltb_ge len (n_size n))) by lia.
        replace (Z.to_nat (len - n_size n)) with O by lia. by rewrite app_nil_r.
Qed.

(** A state with one regular file, open for reading and writing at position
    2 as descriptor 3. *)
Definition one_file : vfs unit :=
  Vfs {[ 1 := VfsNode [SLASH] VFS_DIR 0 0 0 [] 0 0 None 0 0 0 2;
         2 := VfsNode [102] VFS_FILE 420 0 0 [104; 105; 33; 0] 3 4 None 0 1 0 0 ]}
      {[ 5 := VfsFile 2 0 2 O_RDWR 1 ]} ∅ 1
      {[ 1 := [0; 0; 0; 5; 0; 0; 0; 0; 0; 0; 0; 0; 0; 0; 0; 0] ]} (Some 1) 10 [] tt.

Lemma one_file_open :
  open_file one_file 3 5 (VfsFile 2 0 2 O_RDWR 1) (VfsNode [102] VFS_FILE 420 0 0 [104; 105; 33; 0] 3 4 None 0 1 0 0).
Proof. split; reflexivity || done || (split_and!; cbn; lia). Qed.

Lemma vfs_write_then_pread_witness :
  let _ : DeviceTable unit := fun _ => FileOps None None None in
  exists s', vfs_write (fun _ => 170) 3 (Some [65; 66; 67]) 0 one_file = Some (IoRet 3 [], s') /\
    vfs_pread 3 true 100 1 s' = Some ((4, [105; 65; 66; 67]), s').
Proof.
  intros dv. destruct (vfs_write_then_pread (fun _ => 170) one_file 3 5 _ _ [65; 66; 67] 1 100 one_file_open)
    as (r & s' & E & Hr); cbn [f_flags f_pos n_size]; [discriminate|lia|vm_compute; discriminate|lia|lia|].
  destruct Hr as [(_ & Hoom & _)|(Hr & n' & _ & _ & _ & Hrd)]; [discriminate|].
  exists s'. split; [rewrite E; subst r; reflexivity|exact Hrd].
Defined.

Lemma vfs_ftruncate_resizes_witness :
  exists s' n', vfs_ftruncate (fun _ => 170) 3 6 one_file = Some (0, s') /\ nodes s' !! 2 = Some n' /\
    content n' = [104; 105; 33; 0; 0; 0].
Proof.
  destruct (vfs_ftruncate_resizes (fun _ => 170) one_file 3 5 _ _ 6 one_file_open) as (r & s' & E & Hr);
    [lia|]. destruct Hr as [(_ & Hoom & _)|(-> & n' & Ho & Hc & _)]; [discriminate|].
  exists s', n'. split; [exact E|]. split; [exact (of_node _ _ _ _ _ Ho)|]. rewrite Hc. reflexivity.
Defined.

(** ** Lifetimes that do not match *)

(** Descriptor 3 is open on the file "/f"; after [unlink("/f")] the node is
    freed, and a read through the descriptor accesses freed memory. *)
Theorem unlink_leaves_dangling_file :
  let _ : DeviceTable unit := fun _ => FileOps None None None in
  match vfs_unlink (Some [SLASH; 102]) one_file with
  | Some (r, s') => r = 0 /\ vfs_read 3 true 1 s' = None
  | None => False
  end.
Proof. vm_compute. split; reflexivity. Qed.

(** The descriptor table of the task is full. *)
Definition full_table : vfs unit :=
  Vfs (nodes one_file) (files one_file) ∅ 1 {[ 1 := replicate 16 5 ]} (Some 1) 10 [] tt.

(** [vfs_open] with a full descriptor table returns -ENOMEM but keeps the
    open file it has allocated: an object with one reference that no
    descriptor refers to. *)
Theorem vfs_open_full_table_leaks :
  match vfs_open (Some [SLASH; 102]) O_RDONLY full_table with
  | Some (r, s') => r = - ENOMEM /\ file_refs s' 10 = 1 /\ holders s' 10 = 0
  | None => False
  end.
Proof. vm_compute. split_and!; reflexivity. Qed.

(** After a truncation to 0 the next write through the same descriptor
    starts at its old position; the gap is filled with the old bytes of the
    file, not with zeros. *)
Theorem write_after_truncate_shows_old_bytes :
  let _ : DeviceTable unit := fun _ => FileOps None None None in
  (_ ← vfs_ftruncate (fun _ => 170) 3 0;
   _ ← vfs_write (fun _ => 170) 3 (Some [88]) 0;
   vfs_pread 3 true 10 0) one_file ≫= (fun x => Some (fst x)) = Some (3, [104; 105; 88]).
Proof. vm_compute. reflexivity. Qed.
