(* ===== verification/VfsQuiet.v ===== *)
(** * What file system calls do to descriptors

    Two relations between states, with the calls that stay within them. A
    step is [quiet] when it leaves every descriptor table, the reference
    counts of open files and the ends of pipes as they are: path operations
    and transfers of data are. It is [local] when it touches no table but
    the current task's: the calls on descriptors are. *)

From stdpp Require Import base numbers list gmap.
From Stdlib Require Import ZArith Lia ZifyBool.
From S2P Require Import Prelude.
From S2P Require Import Klib.
From S2P Require Import Pipe.
From S2P Require Import Vfs.
From S2P Require Import VfsFd.

(** What reference counting sees of a file and of a pipe. *)
Definition fsig (f : vfs_file) : Z * Z * Z := (f_pipe f, f_flags f, f_refs f).
Definition psig (q : vfs_pipe) : Z * Z := (p_refs_r q, p_refs_w q).

Lemma msum_fmap {A B} (h : A -> B) (g : B -> Z) (m : gmap Z A) : msum g (h <$> m) = msum (fun x => g (h x)) m.
Proof.
  induction m as [|i x m Hi IH] using map_ind; [by rewrite fmap_empty, !msum_empty|].
  rewrite fmap_insert, !msum_insert_new, IH by (done || by rewrite lookup_fmap, Hi). done.
Qed.

Section Quiet.
Context {D : Type} `{DeviceTable D} (junk : Z -> Z).
Implicit Types s : vfs D.

Record quiet s s' : Prop := Quiet {
  q_cur : cur s' = cur s;
  q_tables : tables s' = tables s;
  q_next : next_id s <= next_id s';
  q_files : fsig <$> files s' = fsig <$> files s;
  q_pipes : psig <$> pipes s' = psig <$> pipes s;
}.

#[export] Instance quiet_preorder : PreOrder quiet.
Proof.
  split; [intros s; by split|]. intros s1 s2 s3 [A1 A2 A3 A4 A5] [B1 B2 B3 B4 B5]. split; try congruence. lia.
Qed.

Lemma quiet_file s s' a x : quiet s s' -> fsig <$> files s !! a = Some x -> fsig <$> files s' !! a = Some x.
Proof. intros Hq E. by rewrite <-lookup_fmap, (q_files _ _ Hq), lookup_fmap. Qed.

Lemma sig_Some {A B} (h : A -> B) (m m' : gmap Z A) a x :
  h <$> m' = h <$> m -> m' !! a = Some x -> exists y, m !! a = Some y /\ h y = h x.
Proof.
  intros E Hx. assert (Hm : (h <$> m') !! a = Some (h x)) by by rewrite lookup_fmap, Hx.
  rewrite E, lookup_fmap in Hm. destruct (m !! a) as [y|]; [|done]. exists y. split; [done|]. by injection Hm.
Qed.

(** Reference counting does not notice a quiet step. *)
Lemma quiet_ok s s' leak : quiet s s' -> fds_ok s leak -> fds_ok s' leak.
Proof.
  intros [Hc Ht Hn Hf Hp] [H1 H2 H3 H4 H5 H6 H7].
  assert (Hends : forall w p, pipe_end s' w p = pipe_end s w p).
  { intros w p. unfold pipe_end.
    assert (E : forall m : gmap Z vfs_file, msum (end_refs w p) m =
      msum (fun x : Z * Z * Z => let '(fp, fl, r) := x in if (fp =? p) && Bool.eqb (negb (Z.land fl O_WRONLY =? 0)) w then r else 0) (fsig <$> m))
      by (intros m; by rewrite msum_fmap).
    by rewrite !E, Hf. }
  split.
  - rewrite Ht. exact H1.
  - rewrite Ht, Hc. exact H2.
  - intros a Ha. unfold holders. rewrite Ht. change (msum (occ a) (tables s)) with (holders s a). rewrite <-(H3 a Ha). unfold file_refs.
    destruct (files s' !! a) as [f|] eqn:E.
    + destruct (sig_Some _ _ _ _ _ Hf E) as (g & -> & Hg). by injection Hg.
    + destruct (files s !! a) as [g|] eqn:E2; [|done]. destruct (sig_Some _ _ _ _ _ (eq_sym Hf) E2) as (f & Ef & _). congruence.
  - intros a f E. destruct (sig_Some _ _ _ _ _ Hf E) as (g & Eg & Hg). destruct (H4 a g Eg). injection Hg as _ _ <-. lia.
  - intros a f E Hfp. destruct (sig_Some _ _ _ _ _ Hf E) as (g & Eg & Hg). injection Hg as Hgp _ _. rewrite <-Hgp in *.
    destruct (H5 a g Eg Hfp) as [q Eq]. destruct (sig_Some _ _ _ _ _ (eq_sym Hp) Eq) as (q' & E' & _). eauto.
  - intros p q E. destruct (sig_Some _ _ _ _ _ Hp E) as (q' & E' & Hq). injection Hq as <- <-. rewrite !Hends.
    destruct (H6 p q' E') as (? & ? & ? & ?). split_and!; try done; lia.
  - lia.
Qed.

(** [m] is quiet from [s] on. *)
Definition hushed {A} (m : M D A) s : Prop := forall x s', m s = Some (x, s') -> quiet s s'.

Lemma hushed_ret {A} (x : A) s : hushed (mret x) s.
Proof. by intros ? ? [= _ <-]. Qed.

Lemma hushed_fault {A} s : hushed (fault : M D A) s.
Proof. done. Qed.

Lemma hushed_bind {A B} (m : M D A) (f : A -> M D B) s :
  hushed m s -> (forall x s', m s = Some (x, s') -> quiet s s' -> hushed (f x) s') -> hushed (m ≫= f) s.
Proof.
  intros Hm Hf y s2 E. unfold mbind, M_bind in E. destruct (m s) as [[x s1]|] eqn:E1; [|done].
  pose proof (Hm x s1 E1) as Q1. etrans; [done|]. exact (Hf x s1 eq_refl Q1 y s2 E).
Qed.

Lemma hushed_get {B} (f : vfs D -> M D B) s : hushed (f s) s -> hushed (get ≫= f) s.
Proof. done. Qed.

Lemma hushed_get_node {B} a (f : vfs_node -> M D B) s :
  (forall n, nodes s !! a = Some n -> hushed (f n) s) -> hushed (get_node a ≫= f) s.
Proof.
  intros Hf y s2 E. unfold mbind, M_bind, get_node in E. destruct (nodes s !! a) as [n|] eqn:En; [|done]. exact (Hf n eq_refl y s2 E).
Qed.

Lemma hushed_get_file {B} a (f : vfs_file -> M D B) s :
  (forall n, fsig <$> files s !! a = Some (fsig n) -> hushed (f n) s) -> hushed (get_file a ≫= f) s.
Proof.
  intros Hf y s2 E. unfold mbind, M_bind, get_file in E. destruct (files s !! a) as [n|] eqn:En; [|done].
  exact (Hf n eq_refl y s2 E).
Qed.

Lemma hushed_get_pipe {B} a (f : vfs_pipe -> M D B) s :
  (forall n, psig <$> pipes s !! a = Some (psig n) -> hushed (f n) s) -> hushed (get_pipe a ≫= f) s.
Proof.
  intros Hf y s2 E. unfold mbind, M_bind, get_pipe in E. destruct (pipes s !! a) as [n|] eqn:En; [|done].
  exact (Hf n eq_refl y s2 E).
Qed.

Lemma hushed_fd_get {B} fd (f : Z -> M D B) s : (forall a, hushed (f a) s) -> hushed (fd_get fd ≫= f) s.
Proof.
  intros Hf y s2 E. unfold fd_get, fd_table, mbind, M_bind, get, mret, M_ret in E.
  destruct (cur s) as [t|]; [|exact (Hf 0 y s2 E)]. destruct (tables s !! t) as [tbl|]; [|done]. exact (Hf _ y s2 E).
Qed.

Lemma hushed_put_node a n s : hushed (put_node a n) s.
Proof. intros ? ? [= _ <-]. by split. Qed.

Lemma hushed_put_file a f s : fsig <$> files s !! a = Some (fsig f) -> hushed (put_file a f) s.
Proof.
  intros Hf ? ? [= _ <-]. split; try done. cbn. rewrite fmap_insert. apply insert_id. by rewrite lookup_fmap.
Qed.

Lemma hushed_put_pipe a q s : psig <$> pipes s !! a = Some (psig q) -> hushed (put_pipe a q) s.
Proof.
  intros Hf ? ? [= _ <-]. split; try done. cbn. rewrite fmap_insert. apply insert_id. by rewrite lookup_fmap.
Qed.

Lemma hushed_devs d s : hushed (modify (fun s => with_devs s d)) s.
Proof. intros ? ? [= _ <-]. by split. Qed.

Lemma hushed_kmalloc s : hushed kmalloc_id s.
Proof. intros ? ? E. destruct (kmalloc_id_run s) as (o & [E'|E']); rewrite E' in E; injection E as _ <-; split; cbn; (done || lia). Qed.

Lemma hushed_kfree_node a s : hushed (kfree_node a) s.
Proof.
  unfold kfree_node. destruct (a =? 0); [apply hushed_ret|]. apply hushed_get_node. intros n _ ? ? [= _ <-]. by split.
Qed.

(** Walks through the body of an operation. *)
Ltac hush :=
  repeat match goal with
  | |- hushed (mret _) _ => apply hushed_ret
  | |- hushed fault _ => apply hushed_fault
  | |- hushed (put_node _ _) _ => apply hushed_put_node
  | |- hushed (kfree_node _) _ => apply hushed_kfree_node
  | |- hushed kmalloc_id _ => apply hushed_kmalloc
  | |- hushed (modify (fun s => with_devs s _)) _ => apply hushed_devs
  | |- hushed (mbind _ get) _ => apply hushed_get
  | |- hushed (mbind _ (get_node _)) _ => apply hushed_get_node; intros ? ?
  | |- hushed (mbind _ (get_file _)) _ => apply hushed_get_file; intros ? ?
  | |- hushed (mbind _ (get_pipe _)) _ => apply hushed_get_pipe; intros ? ?
  | |- hushed (mbind _ (fd_get _)) _ => apply hushed_fd_get; intros ?
  | |- hushed (mbind _ _) _ => apply hushed_bind; [|intros ? ? _ ?]
  | |- hushed (if ?b then _ else _) _ => destruct b
  | |- hushed (match ?x with _ => _ end) _ => destruct x eqn:?
  end.

Lemma hushed_sibling_find fuel n name s : hushed (sibling_find fuel n name) s.
Proof. revert n. induction fuel as [|fuel IH]; intros n; cbn [sibling_find]; hush. apply IH. Qed.

Lemma hushed_dir_find dir name s : hushed (dir_find dir name) s.
Proof. unfold dir_find. hush. apply hushed_sibling_find. Qed.

Lemma hushed_dir_attach dir node s : hushed (dir_attach dir node) s.
Proof. unfold dir_attach. hush. Qed.

Lemma hushed_lookup_loop fuel c p s : hushed (lookup_loop fuel c p) s.
Proof.
  revert c p s. induction fuel as [|fuel IH]; intros c p s; cbn [lookup_loop]; hush; [apply hushed_dir_find|apply IH].
Qed.

Lemma hushed_lookup path s : hushed (vfs_lookup path) s.
Proof. unfold vfs_lookup. hush. apply hushed_lookup_loop. Qed.

Lemma hushed_create path init s : hushed (create_node path init) s.
Proof. unfold create_node. hush; (apply hushed_lookup || apply hushed_dir_find || apply hushed_dir_attach). Qed.

Lemma hushed_remove_loop fuel link name s : hushed (remove_loop fuel link name) s.
Proof.
  revert link s. induction fuel as [|fuel IH]; intros link s; cbn [remove_loop]; hush.
  - unfold get_dir_link. hush.
  - unfold set_dir_link. hush.
  - apply IH.
Qed.

Lemma hushed_remove path s : hushed (vfs_remove path) s.
Proof. unfold vfs_remove. hush; (apply hushed_lookup || apply hushed_remove_loop). Qed.

Lemma hushed_reserve node need s : hushed (reserve junk node need) s.
Proof. unfold reserve. hush. Qed.

Lemma hushed_file_read a count s : hushed (file_read a count) s.
Proof. unfold file_read. hush. by apply hushed_put_file. Qed.

Lemma hushed_file_write a buf s : hushed (file_write junk a buf) s.
Proof.
  unfold file_write. hush; [apply hushed_reserve|]. apply hushed_put_file. eauto using quiet_file.
Qed.

Lemma pipe_read_sig p count n bytes p' : pipe_read p count = RDone n bytes p' -> psig p' = psig p.
Proof. unfold pipe_read. repeat destruct (_ =? _); intros [= _ _ <-]; done. Qed.

Lemma pipe_write_sig fuel p buf total r p' : pipe_write fuel p buf total = Some (r, p') -> psig p' = psig p.
Proof.
  revert p total. induction fuel as [|fuel IH]; intros p total; cbn [pipe_write]; [done|].
  destruct (total <? zlen buf); [|by intros [= _ <-]]. unfold pipe_write_round.
  destruct (p_refs_r p =? 0); [by intros [= _ <-]|]. destruct (p_count p =? PIPE_BUF_SIZE); [by intros [= _ <-]|].
  intros E%IH. by rewrite E.
Qed.

Lemma hushed_read fd buf count s : hushed (vfs_read fd buf count) s.
Proof.
  unfold vfs_read. hush; try apply hushed_file_read.
  all: try (apply hushed_put_file; cbn [fsig f_pipe f_flags f_refs set_pos]; eauto using quiet_file).
  apply hushed_put_pipe. by erewrite pipe_read_sig by done.
Qed.

Lemma hushed_pread fd buf count offset s : hushed (vfs_pread fd buf count offset) s.
Proof. unfold vfs_pread. hush. Qed.

Lemma hushed_write fd buf total s : hushed (vfs_write junk fd buf total) s.
Proof.
  unfold vfs_write. hush; try apply hushed_file_write.
  all: try (apply hushed_put_file; cbn [fsig f_pipe f_flags f_refs set_pos]; eauto using quiet_file).
  all: apply hushed_put_pipe; by erewrite pipe_write_sig by done.
Qed.

Lemma hushed_ioctl fd request arg s : hushed (vfs_ioctl fd request arg) s.
Proof. unfold vfs_ioctl. hush. Qed.

Lemma hushed_skip fuel n skip s : hushed (skip_entries fuel n skip) s.
Proof. revert n skip. induction fuel as [|fuel IH]; intros n skip; cbn [skip_entries]; hush. apply IH. Qed.

Lemma hushed_fill fuel n room s : hushed (fill_entries fuel n room) s.
Proof. revert n room s. induction fuel as [|fuel IH]; intros n room s; cbn [fill_entries]; hush. apply IH. Qed.

Lemma hushed_readdir fd buf count s : hushed (vfs_readdir fd buf count) s.
Proof.
  unfold vfs_readdir. hush; [apply hushed_skip|apply hushed_fill|].
  apply hushed_put_file. eauto using quiet_file.
Qed.

Lemma hushed_mkdir path mode s : hushed (vfs_mkdir path mode) s.
Proof. unfold vfs_mkdir. hush; (apply hushed_lookup || apply hushed_create). Qed.

Lemma hushed_unlink path s : hushed (vfs_unlink path) s.
Proof. unfold vfs_unlink. hush; (apply hushed_lookup || apply hushed_remove). Qed.

(** ** Calls on descriptors *)

Definition loc s s' : Prop := cur s' = cur s /\ forall i, cur s <> Some i -> tables s' !! i = tables s !! i.

#[export] Instance loc_preorder : PreOrder loc.
Proof.
  split; [done|]. intros s1 s2 s3 [A1 A2] [B1 B2]. split; [congruence|]. intros i Hi.
  rewrite B2 by (by rewrite A1). by apply A2.
Qed.

Lemma quiet_loc s s' : quiet s s' -> loc s s'.
Proof. intros [Hc Ht _ _ _]. split; [done|]. intros i _. by rewrite Ht. Qed.

Definition local {A} (m : M D A) : Prop := forall s x s', m s = Some (x, s') -> loc s s'.

Lemma local_bind {A B} (m : M D A) (f : A -> M D B) : local m -> (forall x, local (f x)) -> local (m ≫= f).
Proof.
  intros Hm Hf s y s2 E. unfold mbind, M_bind in E. destruct (m s) as [[x s1]|] eqn:E1; [|done].
  etrans; [exact (Hm s x s1 E1)|exact (Hf x s1 y s2 E)].
Qed.

Lemma local_ret {A} (x : A) : local (mret x).
Proof. by intros s ? ? [= _ <-]. Qed.
Lemma local_fault {A} : local (fault : M D A).
Proof. done. Qed.
Lemma local_get : local get.
Proof. by intros s ? ? [= _ <-]. Qed.
Lemma local_get_node a : local (get_node a).
Proof. intros s ? ? E. unfold get_node in E. destruct (nodes s !! a); [|done]. by injection E as _ <-. Qed.
Lemma local_get_file a : local (get_file a).
Proof. intros s ? ? E. unfold get_file in E. destruct (files s !! a); [|done]. by injection E as _ <-. Qed.
Lemma local_get_pipe a : local (get_pipe a).
Proof. intros s ? ? E. unfold get_pipe in E. destruct (pipes s !! a); [|done]. by injection E as _ <-. Qed.
Lemma local_put_node a n : local (put_node a n).
Proof. by intros s ? ? [= _ <-]. Qed.
Lemma local_put_file a f : local (put_file a f).
Proof. by intros s ? ? [= _ <-]. Qed.
Lemma local_put_pipe a q : local (put_pipe a q).
Proof. by intros s ? ? [= _ <-]. Qed.
Lemma local_with_files g : local (modify (fun s => with_files s (g s))).
Proof. by intros s ? ? [= _ <-]. Qed.
Lemma local_with_pipes g : local (modify (fun s => with_pipes s (g s))).
Proof. by intros s ? ? [= _ <-]. Qed.
Lemma local_kmalloc : local kmalloc_id.
Proof. intros s ? ? E. by apply quiet_loc, (hushed_kmalloc s _ _ E). Qed.

Lemma local_fd_table : local fd_table.
Proof.
  intros s x s' E. unfold fd_table, mbind, M_bind, get, mret, M_ret in E.
  destruct (cur s) as [t|]; [|by injection E as _ <-]. destruct (tables s !! t); [|done]. by injection E as _ <-.
Qed.

Lemma local_fd_set i v : local (fd_set i v).
Proof.
  intros s x s' E. unfold fd_set, mbind, M_bind, get in E. destruct (cur s) as [t|] eqn:Ec; [|done].
  destruct (tables s !! t) as [tbl|]; [|done]. injection E as _ <-. split; [done|]. intros j Hj. cbn.
  apply lookup_insert_ne. congruence.
Qed.

Ltac stay :=
  repeat match goal with
  | |- local (mbind _ _) => apply local_bind; [|intros ?]
  | |- local (if ?b then _ else _) => destruct b
  | |- local (match ?x with _ => _ end) => destruct x
  | |- local (mret _) => apply local_ret
  | |- local fault => apply local_fault
  | |- local get => apply local_get
  | |- local (get_node _) => apply local_get_node
  | |- local (get_file _) => apply local_get_file
  | |- local (get_pipe _) => apply local_get_pipe
  | |- local (put_node _ _) => apply local_put_node
  | |- local (put_file _ _) => apply local_put_file
  | |- local (put_pipe _ _) => apply local_put_pipe
  | |- local (modify (fun s => with_files s _)) => apply local_with_files
  | |- local (modify (fun s => with_pipes s _)) => apply local_with_pipes
  | |- local kmalloc_id => apply local_kmalloc
  | |- local fd_table => apply local_fd_table
  | |- local (fd_set _ _) => apply local_fd_set
  end.

Lemma local_file_ref a : local (file_ref a).
Proof. unfold file_ref, pipe_ref. stay. Qed.
Lemma local_file_unref a : local (file_unref a).
Proof. unfold file_unref, pipe_ref, kfree_pipe, kfree_file. stay. Qed.
Lemma local_fd_alloc f : local (fd_alloc f).
Proof. unfold fd_alloc. stay. Qed.
Lemma local_close fd : local (vfs_close fd).
Proof. unfold vfs_close. stay. apply local_file_unref. Qed.
Lemma local_dup fd : local (vfs_dup fd).
Proof. unfold vfs_dup. stay. apply local_file_ref. Qed.
Lemma local_dup2 fd fd' : local (vfs_dup2 fd fd').
Proof. unfold vfs_dup2. stay; (apply local_file_unref || apply local_file_ref). Qed.
Lemma local_pipe : local vfs_pipe_open.
Proof. unfold vfs_pipe_open, kfree_pipe, kfree_file. stay; apply local_fd_alloc. Qed.

(** ** Opening *)

(** The reference counts are right, but for files that no descriptor has. *)
Definition counted s : Prop := exists leak, (forall a, 0 <= leak a) /\ fds_ok s leak.

Lemma quiet_counted s s' : quiet s s' -> counted s -> counted s'.
Proof. intros Hq (leak & Hl & Hok). exists leak. split; [done|]. by eapply quiet_ok. Qed.

Lemma quiet_table s s' t tbl : quiet s s' -> table s t tbl -> table s' t tbl.
Proof. intros [Hc Ht _ _ _] [H1 H2]. split; congruence. Qed.

Lemma bind_inv {A B} (m : M D A) (f : A -> M D B) s y s2 :
  (m ≫= f) s = Some (y, s2) -> exists x s1, m s = Some (x, s1) /\ f x s1 = Some (y, s2).
Proof. unfold mbind, M_bind. destruct (m s) as [[x s1]|]; [|done]. intros E. by exists x, s1. Qed.

(** The new file of [vfs_open] and its descriptor. *)
Lemma new_fd s leak t tbl f fd s' x :
  fds_ok s leak -> (forall a, 0 <= leak a) -> table s t tbl -> f_refs f = 1 -> f_pipe f = 0 ->
  0 < x < next_id s -> files s !! x = None -> holders s x = 0 -> leak x = 0 ->
  (_ ← put_file x f; fd_alloc x) s = Some (fd, s') ->
  loc s s' /\ counted s' /\
  ((fd < 0 /\ table s' t tbl) \/ (3 <= fd < 16 /\ slot tbl fd = 0 /\ table s' t (<[Z.to_nat fd := x]> tbl))).
Proof.
  intros Hok Hl Htb Hr Hp Hx Hnew Hh Hlk E.
  pose proof (new_file_ok s leak x f Hok Hl Hx Hnew Hh Hlk Hr Hp) as Hok1.
  set (s1 := with_files s (<[x := f]> (files s))) in *.
  assert (E1 : fd_alloc x s1 = Some (fd, s')) by done. clear E.
  assert (Htb1 : table s1 t tbl) by done.
  split; [exact (local_fd_alloc x s1 fd s' E1)|].
  destruct (fd_alloc_ok s1 _ t tbl x Hok1 Htb1) as (y & s2 & E2 & Hcase). rewrite E2 in E1. injection E1 as -> ->.
  assert (Hl1 : forall a, 0 <= bump leak x 1 a) by (intros a; unfold bump; specialize (Hl a); split_tests; lia).
  destruct Hcase as [(-> & -> & _)|(Hfd & Hs & ->)].
  - split; [by exists (bump leak x 1)|]. left. split; [done|done].
  - split.
    + exists leak. split; [done|]. pose proof (set_slot_ok s1 _ t tbl fd x Hok1 (proj2 Htb1) ltac:(lia)) as Hok2.
      revert Hok2. rewrite Hs. apply fds_ok_leak. intros a Ha. unfold bump. split_tests; lia.
    + right. split_and!; [lia|lia|done|]. by apply set_slot_table.
Qed.

Lemma vfs_open_step path flags s t tbl fd s' :
  counted s -> table s t tbl -> vfs_open path flags s = Some (fd, s') ->
  loc s s' /\ counted s' /\
  ((fd < 0 /\ table s' t tbl) \/
   (3 <= fd < 16 /\ slot tbl fd = 0 /\ exists a, a <> 0 /\ table s' t (<[Z.to_nat fd := a]> tbl))).
Proof.
  intros Hc Htb E. unfold vfs_open in E.
  assert (Hneg : forall r s1, quiet s s1 -> r < 0 -> (mret r : M D Z) s1 = Some (fd, s') ->
    loc s s' /\ counted s' /\ ((fd < 0 /\ table s' t tbl) \/
      (3 <= fd < 16 /\ slot tbl fd = 0 /\ exists a, a <> 0 /\ table s' t (<[Z.to_nat fd := a]> tbl)))).
  { intros r s1 Hq Hr [= <- <-]. split_and!; [by apply quiet_loc|by eapply quiet_counted|]. left. split; [done|by eapply quiet_table]. }
  destruct path as [path|]; [|by apply (Hneg _ s) in E].
  apply bind_inv in E as (found & s1 & E1 & E). pose proof (hushed_lookup _ _ _ _ E1) as Q1.
  apply bind_inv in E as (node & s2 & E2 & E).
  assert (Q2 : quiet s s2).
  { etrans; [exact Q1|]. revert E2. destruct (negb (found =? 0)); [apply hushed_ret|].
    destruct (negb (Z.land flags O_CREAT =? 0)); [apply hushed_create|apply hushed_ret]. }
  destruct (node =? 0); [by apply (Hneg _ s2) in E|].
  apply bind_inv in E as (n & s3 & E3 & E). assert (Q3 : quiet s s3).
  { etrans; [exact Q2|]. unfold get_node in E3. destruct (nodes s2 !! node); [|done]. by injection E3 as _ <-. }
  destruct (bool_decide _ && _); [by apply (Hneg _ s3) in E|].
  apply bind_inv in E as ([] & s4 & E4 & E). assert (Q4 : quiet s s4).
  { etrans; [exact Q3|]. revert E4. destruct (bool_decide _ && _); [apply hushed_put_node|apply hushed_ret]. }
  apply bind_inv in E as (x & s5 & E5 & E). pose proof (hushed_kmalloc _ _ _ E5) as Q5.
  assert (Q5' : quiet s s5) by (etrans; [exact Q4|exact Q5]).
  destruct (Z.eqb_spec x 0) as [->|Hx]; [by apply (Hneg _ s5) in E|].
  apply bind_inv in E as (n5 & s6 & E6 & E).
  assert (s6 = s5) as -> by (unfold get_node in E6; destruct (nodes s5 !! node); [by injection E6|done]).
  assert (Hfresh : x = next_id s4 /\ next_id s5 = next_id s4 + 1).
  { destruct (kmalloc_id_run s4) as (o & [E'|E']); rewrite E' in E5; injection E5 as <- <-; [done|]. done. }
  destruct Hfresh as [-> Hnx].
  pose proof (quiet_counted _ _ Q4 Hc) as (leak4 & Hl4 & Hok4).
  destruct (fresh_address s4 leak4 (next_id s4) Hok4 Hl4 ltac:(lia)) as (Hf4 & _ & Hh4 & Hk4).
  pose proof (fds_next _ _ Hok4) as Hn4.
  destruct (new_fd s5 leak4 t tbl (VfsFile node 0 (if negb (Z.land flags O_APPEND =? 0) then n_size n5 else 0) flags 1) fd s' (next_id s4))
    as (HL & HC & HT); try done; [exact (quiet_ok _ _ _ Q5 Hok4)|exact (quiet_table _ _ _ _ Q5' Htb)|lia| | |].
  - destruct (files s5 !! next_id s4) as [f|] eqn:Ef; [|done].
    destruct (sig_Some _ _ _ _ _ (q_files _ _ Q5) Ef) as (g & Eg & _). congruence.
  - unfold holders in *. by rewrite (q_tables _ _ Q5).
  - split_and!; [etrans; [by apply quiet_loc|done]|done|].
    destruct HT as [?|(?&?&?)]; [by left|right]. split_and!; [lia|lia|done|]. eauto.
Qed.
End Quiet.
