(* ===== verification/Rootfs.v ===== *)
(** * Mounting the initial file system (src/kernel/vfs/rootfs.c)

    The ustar archive rootfs.img is a list of bytes; every access to it is
    checked against its length, so that a read outside of the image is a
    fault. The files are created through the functions of Vfs. *)

From stdpp Require Import base numbers list gmap.
From Stdlib Require Import ZArith Lia ZifyBool.
From S2P Require Import Prelude.
From S2P Require Import Klib.
From S2P Require Import Pipe.
From S2P Require Import Vfs.
From S2P Require Import VfsFd.
From S2P Require Import VfsTree.
From S2P Require Import VfsData.

Definition TAR_BLOCK : Z := 512.

(** [tar_octal]: octal digits; blanks and NULs are skipped, anything else
    ends the number. *)
Fixpoint tar_octal_from (v : Z) (field : list Z) : Z :=
  match field with
  | [] => v
  | c :: field' =>
      if (48 <=? c) && (c <=? 55) then tar_octal_from (Z.lor (u64 (Z.shiftl v 3)) (c - 48)) field'
      else if (c =? 32) || (c =? 0) then tar_octal_from v field'
      else v
  end.

Definition tar_octal (field : list Z) : Z := tar_octal_from 0 field.

(** The number of bytes before the terminator, below [room]. *)
Fixpoint name_len (name : list Z) (room : nat) : nat :=
  match room, name with
  | S room', c :: name' => if c =? 0 then O else S (name_len name' room')
  | _, _ => O
  end.

(** [len] without the trailing slashes of the first [len] bytes. *)
Fixpoint strip_slashes (name : list Z) (len : nat) : nat :=
  match len with
  | O => O
  | S len' => if byte_at name (Z.of_nat len') =? SLASH then strip_slashes name len' else len
  end.

(** [tar_normalise] with a buffer of [buf_size] bytes; [None] for NULL. *)
Definition tar_normalise (name : list Z) (buf_size : Z) : option (list Z) :=
  let name := if (byte_at name 0 =? 46) && (byte_at name 1 =? SLASH) then drop 2 name else name in
  let len := strip_slashes name (name_len name (Z.to_nat (buf_size - 1))) in
  match len with
  | O => None
  | _ => Some (take len name)
  end.

Definition all_zero (block : list Z) : bool := forallb (fun c => c =? 0) block.

Section Mount.
Context {D : Type}.

Definition set_node_mode (a mode : Z) : M D unit :=
  if negb (mode =? 0) then n ← get_node a; put_node a (set_mode n mode) else mret tt.

(** One archive entry at offset [p]; [false] makes the mount fail. *)
Definition mount_entry (image : list Z) (p type fsize mode : Z) (path : list Z) : M D bool :=
  if type =? 53 then
    dir ← vfs_create_dir path;
    _ ← (if negb (dir =? 0) then set_node_mode dir mode else mret tt);
    mret true
  else if (type =? 48) || (type =? 0) then
    node ← vfs_create_file path;
    if node =? 0 then mret false
    else
      _ ← set_node_mode node mode;
      if 0 <? fsize then
        data ← kmalloc_id;
        n ← get_node node;
        if data =? 0 then
          _ ← put_node node (set_data n [] 0 (n_capacity n));
          mret false
        else if zlen image <? p + TAR_BLOCK + fsize then fault
        else
          _ ← put_node node (set_data n (sub image (p + TAR_BLOCK) fsize) fsize fsize);
          mret true
      else mret true
  else mret true.

Fixpoint mount_loop (fuel : nat) (image : list Z) (p : Z) : M D Z :=
  match fuel with
  | O => fault
  | S fuel' =>
      if p + TAR_BLOCK <=? zlen image then
        let block := sub image p TAR_BLOCK in
        if all_zero block then mret 0
        else
          let type := byte_at block 156 in
          let fsize := tar_octal (sub block 124 12) in
          let mode := u32 (tar_octal (sub block 100 8)) in
          ok ← (match tar_normalise block 101 with
                | None => mret true
                | Some path => mount_entry image p type fsize mode path
                end);
          if negb ok then mret (-1)
          else
            let padded := Z.land (u64 (fsize + TAR_BLOCK - 1)) (Z.lnot (TAR_BLOCK - 1)) in
            let p' := p + (TAR_BLOCK + padded) in
            if zlen image <? p' then mret (-1) else mount_loop fuel' image p'
      else mret 0
  end.

(** [image] is [None] for a NULL pointer. *)
Definition vfs_mount_rootfs (image : option (list Z)) : M D Z :=
  match image with
  | None => mret (-1)
  | Some image =>
      if zlen image <? TAR_BLOCK * 2 then mret (-1)
      else mount_loop (S (length image)) image 0
  end.

End Mount.

(** ** Archives *)

Record tar_entry := TarEntry {
  e_name : list Z;
  e_mode : Z;
  e_type : Z;
  e_data : list Z;
}.

(** The number [v] as [k] octal digits. *)
Fixpoint octal (k : nat) (v : Z) : list Z :=
  match k with
  | O => []
  | S k' => octal k' (v / 8) ++ [48 + v mod 8]
  end.

(** A header block of an entry, as tar writes it; the fields that the kernel
    ignores (owner, time, checksum, magic) are arbitrary. *)
Record header_of (h : list Z) (e : tar_entry) : Prop := HeaderOf {
  h_len : zlen h = 512;
  h_name : sub h 0 100 = e_name e ++ replicate (100 - length (e_name e)) 0;
  h_name_len : (0 < length (e_name e) < 100)%nat;
  h_name_cstr : cstr (e_name e);
  h_mode : sub h 100 8 = octal 7 (e_mode e) ++ [0];
  h_mode_range : 0 <= e_mode e < 8 ^ 7;
  h_size : sub h 124 12 = octal 11 (zlen (e_data e)) ++ [0];
  h_size_range : zlen (e_data e) < 8 ^ 11;
  h_type : byte_at h 156 = e_type e;
}.

(** The length of the data rounded up to whole blocks. *)
Definition pad_len (n : Z) : Z := 512 * ((n + 511) / 512) - n.

(** [archive es image]: the image holds the entries [es] and ends in a zero
    block. *)
Inductive archive : list tar_entry -> list Z -> Prop :=
| ArchEnd rest : archive [] (replicate 512 0 ++ rest)
| ArchEntry h e pad es image :
    header_of h e -> zlen pad = pad_len (zlen (e_data e)) -> archive es image ->
    archive (e :: es) (h ++ e_data e ++ pad ++ image).

(** The components of the path of an entry: a leading "./" is dropped. *)
Definition strip_dot (name : list Z) : list Z :=
  if bool_decide (take 2 name = [46; SLASH]) then drop 2 name else name.

Definition entry_comps (e : tar_entry) : list (list Z) := components (strip_dot (e_name e)).

(** ** The abstract file system *)

Inductive fs_obj :=
| FsDir (mode : Z)
| FsFile (mode : Z) (bytes : list Z)
| FsDevice.

Abbreviation fs := (gmap (list (list Z)) fs_obj).

Definition is_dir (e : tar_entry) : bool := e_type e =? 53.
Definition is_file (e : tar_entry) : bool := (e_type e =? 48) || (e_type e =? 0).

(** The effect of an entry: directories and files appear at their path with
    the mode of the archive, everything else is skipped. *)
Definition fs_step (F : fs) (e : tar_entry) : fs :=
  match entry_comps e with
  | [] => F
  | cs =>
      if is_dir e then <[cs := FsDir (if e_mode e =? 0 then 493 else e_mode e)]> F
      else if is_file e then <[cs := FsFile (if e_mode e =? 0 then 420 else e_mode e) (e_data e)]> F
      else F
  end.

(** Parents come before their children, names are short, no path occurs
    twice: what tar produces for a directory tree. *)
Definition wf_entry (F : fs) (e : tar_entry) : Prop :=
  entry_comps e = [] \/ (is_dir e = false /\ is_file e = false) \/
  exists pc nm, entry_comps e = pc ++ [nm] /\ (length nm < 64)%nat /\ F !! (pc ++ [nm]) = None /\
    (pc = [] \/ exists mode, F !! pc = Some (FsDir mode)).

Fixpoint wf_archive (F : fs) (es : list tar_entry) : Prop :=
  match es with
  | [] => True
  | e :: es' => wf_entry F e /\ wf_archive (fs_step F e) es'
  end.

Definition obj_of (n : vfs_node) : fs_obj :=
  match n_type n with
  | VFS_DIR => FsDir (n_mode n)
  | VFS_FILE => FsFile (n_mode n) (content n)
  | VFS_DEVICE => FsDevice
  end.

(** ** Numbers *)

Lemma tar_octal_digits k v v0 rest :
  0 <= v < 8 ^ Z.of_nat k -> 0 <= v0 -> v0 * 8 ^ Z.of_nat k + v < 2 ^ 60 ->
  tar_octal_from v0 (octal k v ++ rest) = tar_octal_from (v0 * 8 ^ Z.of_nat k + v) rest.
Proof.
  revert v rest. induction k as [|k IH]; intros v rest Hv Hv0 Hb.
  - cbn in *. f_equal. lia.
  - rewrite Nat2Z.inj_succ, Z.pow_succ_r in * by lia. cbn [octal]. rewrite <-(assoc_L (++)).
    assert (Hdm : v = 8 * (v / 8) + v mod 8 /\ 0 <= v mod 8 < 8) by divlia.
    assert (0 <= v / 8 < 8 ^ Z.of_nat k) by divlia.
    set (P := 8 ^ Z.of_nat k) in *.
    rewrite IH by nia. cbn [app tar_octal_from].
    rewrite (proj2 (Z.leb_le 48 _)), (proj2 (Z.leb_le _ 55)) by lia. cbn [andb].
    assert (u64 (Z.shiftl (v0 * P + v / 8) 3) = Z.shiftl (v0 * P + v / 8) 3) as ->.
    { rewrite Z.shiftl_mul_pow2 by lia. apply Z.mod_small. change (2 ^ 3) with 8. nia. }
    replace (48 + v mod 8 - 48) with (v mod 8) by lia.
    rewrite lor_shift by lia. f_equal. change (2 ^ 3) with 8. lia.
Qed.

Lemma tar_octal_field k v :
  0 <= v < 8 ^ Z.of_nat k -> (k <= 20)%nat -> tar_octal (octal k v ++ [0]) = v.
Proof.
  intros Hv Hk. unfold tar_octal. rewrite tar_octal_digits; [cbn; lia|done|lia|].
  assert (8 ^ Z.of_nat k <= 8 ^ 20) by (apply Z.pow_le_mono_r; lia). change (8 ^ 20) with (2 ^ 60) in *. lia.
Qed.

(** ** Names *)

Lemma name_len_cstr l rest room :
  cstr l -> (length l <= room)%nat -> name_len (l ++ 0 :: rest) room = length l.
Proof.
  intros Hl. revert room. induction Hl as [|c l Hc Hl IH]; intros room Hr; destruct room; cbn in *; try lia.
  rewrite (proj2 (Z.eqb_neq c 0)) by lia. f_equal. apply IH. lia.
Qed.

Lemma take_last (l : list Z) k :
  (k < length l)%nat -> take (S k) l = take k l ++ [byte_at l (Z.of_nat k)].
Proof.
  intros Hk. apply take_S_r. rewrite <-(Nat2Z.id k) at 1. apply byte_at_lookup. unfold zlen. lia.
Qed.

Lemma strip_slashes_spec l len :
  (len <= length l)%nat ->
  let k := strip_slashes l len in
  (k <= len)%nat /\ components (take k l) = components (take len l) /\
  (k <> O -> byte_at l (Z.of_nat (k - 1)) <> SLASH).
Proof.
  induction len as [|len IH]; intros Hl; cbn [strip_slashes]; [done|].
  destruct (Z.eqb_spec (byte_at l (Z.of_nat len)) SLASH) as [E|E].
  - destruct IH as (H1 & H2 & H3); [lia|]. split; [lia|]. split; [|done]. rewrite H2.
    rewrite take_last, E by lia. unfold components. rewrite comps_app. by rewrite app_nil_r.
  - split_and!; [done..|]. intros _. by replace (S len - 1)%nat with len by lia.
Qed.

Lemma comps_last acc l c : c <> SLASH -> comps acc (l ++ [c]) <> [].
Proof.
  intros Hc. revert acc. induction l as [|x l IH]; intros acc; cbn [app comps].
  - rewrite (proj2 (Z.eqb_neq c SLASH)) by done. by destruct acc.
  - destruct (x =? SLASH); [|apply IH]. destruct acc; [apply IH|done].
Qed.

(** [tar_normalise] finds the path of the entry, without a final slash. *)
Lemma tar_normalise_spec name rest :
  cstr name -> (0 < length name < 100)%nat ->
  match tar_normalise (name ++ 0 :: rest) 101 with
  | None => components (strip_dot name) = []
  | Some path => cstr path /\ components path = components (strip_dot name) /\
      (length path < 100)%nat /\ exists p c, path = p ++ [c] /\ c <> SLASH
  end.
Proof.
  intros Hc Hlen. unfold tar_normalise. change (Z.to_nat (101 - 1)) with 100%nat.
  assert (Hdot : exists rest', (if (byte_at (name ++ 0 :: rest) 0 =? 46) && (byte_at (name ++ 0 :: rest) 1 =? SLASH)
            then drop 2 (name ++ 0 :: rest) else name ++ 0 :: rest) = strip_dot name ++ 0 :: rest' /\
            cstr (strip_dot name) /\ (length (strip_dot name) <= length name)%nat).
  { exists rest. unfold strip_dot. destruct name as [|a [|b name]]; [cbn in Hlen; lia| |].
    - change (byte_at _ 1) with 0. rewrite andb_false_r, bool_decide_eq_false_2 by done. done.
    - change (byte_at _ 0) with a. change (byte_at _ 1) with b. change (take 2 (a :: b :: name)) with [a; b].
      assert (E : bool_decide ([a; b] = [46; SLASH]) = (a =? 46) && (b =? SLASH)).
      { apply Bool.eq_iff_eq_true. rewrite bool_decide_eq_true. split; [by intros [= -> ->]|].
        intros E. bool_to_prop. by subst. }
      rewrite E. destruct ((a =? 46) && (b =? SLASH)); [|done].
      split_and!; [done|by do 2 apply Forall_cons in Hc as [_ Hc]|rewrite length_drop; lia]. }
  destruct Hdot as (rest' & -> & Hc' & Hl'). set (nm := strip_dot name) in *.
  rewrite name_len_cstr by (try done; lia).
  destruct (strip_slashes_spec (nm ++ 0 :: rest') (length nm)) as (H1 & H2 & H3); [rewrite length_app; lia|].
  set (k := strip_slashes _ _) in *. rewrite take_app_length in H2.
  assert (Ht : take k (nm ++ 0 :: rest') = take k nm) by (apply take_app_le; lia). rewrite Ht in H2 |- *.
  destruct k as [|k]; [by rewrite <-H2|]. split; [by apply Forall_take|]. split; [done|].
  split; [rewrite length_take; lia|]. exists (take k nm), (byte_at nm (Z.of_nat k)).
  rewrite take_last by lia. split; [done|]. specialize (H3 ltac:(lia)).
  replace (S k - 1)%nat with k in H3 by lia. rewrite byte_at_app in H3 by lia.
  unfold zlen in H3. by rewrite (proj2 (Z.ltb_lt _ _)) in H3 by lia.
Qed.

(** A path without final slash splits at its last component. *)
Lemma path_split_last path p c pc nm :
  path = p ++ [c] -> c <> SLASH -> (length path < 100)%nat -> components path = pc ++ [nm] -> (length nm < 64)%nat ->
  exists dir, path_split path 256 VFS_NAME_MAX = Some (dir, nm) /\ components dir = pc.
Proof.
  intros Ep Hc Hlen Ecomp Hnm. unfold path_split, VFS_NAME_MAX.
  destruct (last_slash_spec path 0 None) as [[-> Hn]|(a & b & E & Hn & ->)].
  - rewrite components_name in Ecomp; [|done|subst; by destruct p].
    destruct pc as [|x pc]; [|by destruct pc]. injection Ecomp as <-.
    unfold zlen. rewrite (proj2 (Z.leb_gt 64 _)) by lia. by exists [SLASH].
  - cbn [Nat.add]. assert (Hd : drop (S (length a)) path = b).
    { rewrite E. replace (S (length a)) with (length (a ++ [SLASH])) by (rewrite length_app; cbn; lia).
      change (SLASH :: b) with ([SLASH] ++ b). rewrite (assoc_L (++)). apply drop_app_length. }
    assert (Hb : b <> []).
    { intros ->. rewrite Ep in E. apply app_inj_tail in E as [_ ->]. done. }
    rewrite Hd. rewrite E in Ecomp. unfold components in Ecomp. rewrite comps_app, (components_name b) in Ecomp by done.
    apply app_inj_tail in Ecomp as [<- <-]. fold (components a). unfold zlen.
    rewrite (proj2 (Z.leb_gt 64 (Z.of_nat (length b)))) by lia.
    rewrite (proj2 (Z.eqb_neq (Z.of_nat (length b)) 0)) by (destruct b; cbn; [done|lia]). cbn [orb].
    pose proof E as Hpath. apply (f_equal length) in E. rewrite length_app in E. cbn in E.
    destruct (Nat.eqb_spec (length a) 0) as [E0|E0]; [destruct a; [by exists [SLASH]|done]|].
    rewrite (proj2 (Z.leb_gt 256 (Z.of_nat (length a)))) by lia. exists a. split; [|done].
    rewrite Hpath. by rewrite take_app_length.
Qed.


(** ** Nodes that change in place *)

Section Represent.
Context {D : Type}.
Implicit Types (s : vfs D) (m : gmap Z vfs_node) (kids : Z -> list Z) (F : fs).

(** What the shape of the tree depends on. *)
Definition same_shape (n n' : vfs_node) : Prop :=
  n_name n' = n_name n /\ n_type n' = n_type n /\ n_parent n' = n_parent n /\
  n_sibling n' = n_sibling n /\ n_child n' = n_child n.

Lemma same_shape_lookup m a n n' x y :
  m !! a = Some n -> same_shape n n' -> <[a := n']> m !! x = Some y ->
  exists y0, m !! x = Some y0 /\ same_shape y0 y.
Proof.
  intros Ha Hs [[<- <-]|[_ Hx]]%lookup_insert_Some; [eauto|]. exists y. split; [done|]. by repeat split.
Qed.

Lemma same_shape_sib m a n n' x : m !! a = Some n -> same_shape n n' -> sib (<[a := n']> m) x = sib m x.
Proof.
  intros Ha Hs. unfold sib. destruct (decide (x = a)) as [->|].
  - rewrite lookup_insert_eq, Ha. apply Hs.
  - by rewrite lookup_insert_ne.
Qed.

Lemma tree_set m root next kids a n n' :
  tree_ok m root next kids -> m !! a = Some n -> same_shape n n' -> tree_ok (<[a := n']> m) root next kids.
Proof.
  intros [H1 H2 H3 H4 H5 H6 H7] Ha Hs.
  assert (Hlk : forall x y, m !! x = Some y -> exists y', <[a := n']> m !! x = Some y' /\ same_shape y y').
  { intros x y Hx. destruct (decide (x = a)) as [->|].
    - exists n'. rewrite lookup_insert_eq. split; [done|]. by assert (y = n) as -> by congruence.
    - exists y. rewrite lookup_insert_ne by done. split; [done|]. by repeat split. }
  pose proof (same_shape_lookup m a n n') as Hinv. split.
  - destruct H1 as (r & Hr & Ht & Hp). destruct (Hlk _ _ Hr) as (r' & Hr' & (_ & E1 & E2 & _)).
    exists r'. rewrite E1, E2. done.
  - intros x y Hx. destruct (Hinv x y Ha Hs Hx) as (y0 & Hy0 & _). by eapply H2.
  - intros x y Hx. destruct (Hinv x y Ha Hs Hx) as (y0 & Hy0 & (_ & _ & _ & _ & Ec)). rewrite Ec.
    eapply chain_ext; [|by apply H3]. intros z _. symmetry. by eapply same_shape_sib.
  - intros x y Hx Ht. destruct (Hinv x y Ha Hs Hx) as (y0 & Hy0 & (_ & Et & _ & _ & Ec)). rewrite Ec.
    eapply H4; [done|]. congruence.
  - intros x Hx. apply H5. apply lookup_insert_None in Hx. tauto.
  - intros x c Hc. destruct (H6 x c Hc) as (y & Hy & Hp & Hv). destruct (Hlk _ _ Hy) as (y' & Hy' & (En & _ & Ep & _)).
    exists y'. rewrite En, Ep. done.
  - intros x c c' y y' Hc Hc' Hy Hy' E. destruct (Hinv c y Ha Hs Hy) as (z & Hz & (En & _)).
    destruct (Hinv c' y' Ha Hs Hy') as (z' & Hz' & (En' & _)). eapply (H7 x c c'); try done. congruence.
Qed.

Lemma walk_set m kids a n n' d cs :
  m !! a = Some n -> same_shape n n' -> walk (<[a := n']> m) kids d cs = walk m kids d cs.
Proof.
  intros Ha Hs. assert (Hn : forall nm x, named (<[a := n']> m) nm x = named m nm x).
  { intros nm x. unfold named. destruct (decide (x = a)) as [->|].
    - rewrite lookup_insert_eq, Ha. destruct Hs as (-> & _). done.
    - by rewrite lookup_insert_ne. }
  assert (Hc : forall x nm, child (<[a := n']> m) kids x nm = child m kids x nm).
  { intros x nm. unfold child. induction (kids x) as [|y l IH]; [done|]. cbn [List.find]. by rewrite Hn, IH. }
  revert d. induction cs as [|c cs IH]; intros d; cbn [walk]; [done|]. rewrite Hc. by destruct (child m kids d c).
Qed.

(** The tree holds exactly the objects of the abstract file system [F]. *)
Definition repr (s : vfs D) (kids : Z -> list Z) (F : fs) : Prop :=
  tree s kids /\
  forall cs, cs <> [] ->
    match walk (nodes s) kids (g_root s) cs with
    | None => F !! cs = None
    | Some a => exists n, nodes s !! a = Some n /\ F !! cs = Some (obj_of n)
    end.

(** Creation succeeds for an entry whose parent is there. *)
Lemma repr_can_create s kids F path pc nm dir :
  repr s kids F -> oom s = [] -> path_split path 256 VFS_NAME_MAX = Some (dir, nm) -> components dir = pc ->
  F !! (pc ++ [nm]) = None -> (pc = [] \/ exists mode, F !! pc = Some (FsDir mode)) ->
  exists d dn, can_create s kids path d dn nm.
Proof.
  intros [Ht Hr] Ho Hsp Hdir Hnew Hpar.
  assert (Hd : exists d dn, walk (nodes s) kids (g_root s) pc = Some d /\ nodes s !! d = Some dn /\ n_type dn = VFS_DIR).
  { destruct (decide (pc = [])) as [->|Hne].
    - destruct (t_root _ _ _ _ Ht) as (n & Hn & Hty & _). eexists _, _. done.
    - destruct Hpar as [|[mode Hm]]; [done|]. specialize (Hr pc Hne).
      destruct (walk _ _ _ pc) as [d|]; [|congruence]. destruct Hr as (n & Hn & E).
      exists d, n. split_and!; [done..|]. rewrite Hm in E. unfold obj_of in E. by destruct (n_type n). }
  destruct Hd as (d & dn & Hw & Hdn & Hty). exists d, dn, dir. rewrite Hdir, Ho. split_and!; try done.
  specialize (Hr (pc ++ [nm]) ltac:(by destruct pc)). rewrite walk_snoc, Hw in Hr.
  destruct (child _ _ d nm) as [x|]; [|done]. destruct Hr as (n & _ & E). congruence.
Qed.

(** The new object, after the attributes of its node have been set. *)
Lemma repr_add s kids F path init d dn nm s' n2 :
  repr s kids F -> cstr path -> path <> [] -> fresh_init init -> can_create s kids path d dn nm ->
  let a := next_id s in
  same_shape (set_sibling (set_parent (init nm) d) (n_child dn)) n2 ->
  nodes s' = <[a := n2]> (nodes_add (nodes s) d a dn (init nm)) -> g_root s' = g_root s -> a < next_id s' ->
  repr s' (kids_add kids d a) (<[components path := obj_of n2]> F).
Proof.
  intros [Ht Hr] Hp Hne Hi Hcan a Hs En Eg Hlt.
  pose proof (t_root _ _ _ _ Ht) as (rn & Hrn & _). pose proof (t_addr _ _ _ _ Ht _ _ Hrn) as Hr0.
  destruct (create_node_tree s kids path init d dn nm Ht Hp Hi Hcan) as (Ht' & Hnew & Hw); [lia|]. fold a in Ht', Hnew, Hw.
  assert (Hfresh : nodes s !! a = None).
  { destruct (nodes s !! a) as [z|] eqn:E; [|done]. pose proof (t_addr _ _ _ _ Ht _ _ E). unfold a in *. lia. }
  destruct Hcan as (dir & _ & _ & Hdn & _). split.
  - unfold tree. rewrite En, Eg. eapply tree_set; [|exact Hnew|exact Hs]. eapply tree_ok_next; [exact Ht'|]. lia.
  - intros cs Hcs. rewrite En, Eg, (walk_set _ _ _ _ _ _ _ Hnew Hs), (Hw Hne).
    destruct (decide (cs = components path)) as [->|Hc].
    + exists n2. rewrite !lookup_insert_eq. done.
    + rewrite lookup_insert_ne by done. specialize (Hr cs Hcs).
      destruct (walk (nodes s) kids (g_root s) cs) as [x|] eqn:Ex; [|done].
      destruct Hr as (n & Hn & HF). assert (Hxa : x <> a) by congruence. rewrite lookup_insert_ne by done.
      unfold nodes_add. destruct (decide (x = d)) as [->|].
      * exists (set_child dn a). rewrite lookup_insert_eq. split; [done|]. rewrite HF.
        by assert (n = dn) as -> by congruence.
      * exists n. rewrite !lookup_insert_ne by done. done.
Qed.

Lemma create_ok s kids path init :
  tree s kids -> cstr path -> fresh_init init -> oom s = [] ->
  (exists d dn nm, can_create s kids path d dn nm) ->
  exists d dn nm, can_create s kids path d dn nm /\
    create_node path init s = Some (next_id s,
      with_nodes (with_alloc s (next_id s + 1) []) (nodes_add (nodes s) d (next_id s) dn (init nm))) /\
    nodes_add (nodes s) d (next_id s) dn (init nm) !! next_id s =
      Some (set_sibling (set_parent (init nm) d) (n_child dn)) /\ 0 < next_id s.
Proof.
  intros Ht Hp Hi Ho (d0 & dn0 & nm0 & Hc0).
  pose proof (t_root _ _ _ _ Ht) as (rn & Hrn & _). pose proof (t_addr _ _ _ _ Ht _ _ Hrn).
  destruct (create_node_run s kids path init Ht Hp Hi) as [(d & dn & nm & Hcan & E)|(Hno & _)]; [lia| |by destruct (Hno d0 dn0 nm0)].
  exists d, dn, nm. rewrite Ho in E. split; [done|]. split; [exact E|]. split; [|lia].
  by apply (create_node_tree s kids path init d dn nm Ht Hp Hi Hcan); lia.
Qed.

Lemma set_node_mode_run s a n mode :
  nodes s !! a = Some n ->
  set_node_mode a mode s =
    Some (tt, with_nodes s (<[a := if mode =? 0 then n else set_mode n mode]> (nodes s))).
Proof.
  intros Hn. unfold set_node_mode. destruct (mode =? 0); cbn [negb].
  - rewrite insert_id by done. by destruct s.
  - by rewrite (bind_run _ _ _ _ _ (get_node_run _ _ _ Hn)).
Qed.

Definition dir_init (name : list Z) : vfs_node := VfsNode name VFS_DIR 493 0 0 [] 0 0 None 0 0 0 0.
Definition file_init (name : list Z) : vfs_node := VfsNode name VFS_FILE 420 0 0 [] 0 0 None 0 0 0 0.

(** A directory entry. *)
Lemma mount_dir_ok s kids F image p fsize mode path :
  repr s kids F -> oom s = [] -> cstr path -> path <> [] ->
  (exists d dn nm, can_create s kids path d dn nm) ->
  exists s' kids', mount_entry image p 53 fsize mode path s = Some (true, s') /\
    repr s' kids' (<[components path := FsDir (if mode =? 0 then 493 else mode)]> F) /\ oom s' = [] /\ same_fds s s'.
Proof.
  intros Hr Ho Hp Hne Hcan. unfold mount_entry. cbn [Z.eqb Pos.eqb].
  destruct (create_ok s kids path dir_init (proj1 Hr) Hp ltac:(done) Ho Hcan) as (d & dn & nm & Hc & E & Hnew & Hnx).
  change (vfs_create_dir path) with (create_node (D := D) path dir_init). rewrite (bind_run _ _ _ _ _ E).
  rewrite (proj2 (Z.eqb_neq (next_id s) 0)) by lia. cbn [negb].
  rewrite (bind_run _ _ _ _ _ (set_node_mode_run (with_nodes _ _) (next_id s) _ mode Hnew)).
  set (n2 := if mode =? 0 then _ else _).
  eexists _, (kids_add kids d (next_id s)). split; [done|]. split.
  - assert (FsDir (if mode =? 0 then 493 else mode) = obj_of n2) as -> by (unfold n2; by destruct (mode =? 0)).
    eapply (repr_add s kids F path dir_init d dn nm); try done; [unfold n2; by destruct (mode =? 0)|cbn; lia].
  - split; [done|]. split_and!; cbn; try done. lia.
Qed.

(** A regular file whose bytes are in the image. *)
Lemma mount_file_ok s kids F image p type mode path data :
  repr s kids F -> oom s = [] -> cstr path -> path <> [] ->
  (exists d dn nm, can_create s kids path d dn nm) ->
  type = 48 \/ type = 0 -> 0 <= p -> p + TAR_BLOCK + zlen data <= zlen image ->
  sub image (p + TAR_BLOCK) (zlen data) = data ->
  exists s' kids', mount_entry image p type (zlen data) mode path s = Some (true, s') /\
    repr s' kids' (<[components path := FsFile (if mode =? 0 then 420 else mode) data]> F) /\
    oom s' = [] /\ same_fds s s'.
Proof.
  intros Hr Ho Hp Hne Hcan Hty Hp0 Hin Hsub. unfold mount_entry.
  rewrite (proj2 (Z.eqb_neq type 53)) by lia.
  assert ((type =? 48) || (type =? 0) = true) as -> by lia.
  destruct (create_ok s kids path file_init (proj1 Hr) Hp ltac:(done) Ho Hcan) as (d & dn & nm & Hc & E & Hnew & Hnx).
  change (vfs_create_file path) with (create_node (D := D) path file_init). rewrite (bind_run _ _ _ _ _ E).
  rewrite (proj2 (Z.eqb_neq (next_id s) 0)) by lia.
  rewrite (bind_run _ _ _ _ _ (set_node_mode_run (with_nodes _ _) (next_id s) _ mode Hnew)).
  set (n2 := if mode =? 0 then _ else _).
  assert (Hn2 : n_type n2 = VFS_FILE /\ n_mode n2 = (if mode =? 0 then 420 else mode) /\ n_size n2 = 0 /\
    same_shape (set_sibling (set_parent (file_init nm) d) (n_child dn)) n2) by (unfold n2; by destruct (mode =? 0)).
  destruct Hn2 as (Et & Em & Es & Hs). set (m2 := nodes_add _ _ _ _ _) in *. cbn [nodes with_nodes].
  destruct (Z.ltb_spec 0 (zlen data)) as [Hpos|Hzero].
  - set (s2 := with_nodes _ (<[next_id s := n2]> m2)).
    rewrite (bind_run kmalloc_id _ s2 (next_id s + 1) (with_alloc s2 (next_id s + 2) [])).
    2:{ unfold kmalloc_id, s2. cbn. do 2 f_equal. unfold with_alloc. cbn. f_equal. lia. }
    assert (Hlk : nodes (with_alloc s2 (next_id s + 2) []) !! next_id s = Some n2) by (cbn; apply lookup_insert_eq).
    rewrite (bind_run _ _ _ _ _ (get_node_run _ _ _ Hlk)).
    rewrite (proj2 (Z.eqb_neq (next_id s + 1) 0)), (proj2 (Z.ltb_ge _ _)) by lia.
    eexists _, (kids_add kids d (next_id s)). split; [done|]. rewrite Hsub. set (n3 := set_data n2 data _ _). split.
    + assert (FsFile (if mode =? 0 then 420 else mode) data = obj_of n3) as ->.
      { unfold obj_of, n3, content. cbn. rewrite Et, Em. by rewrite sub_all. }
      eapply (repr_add s kids F path file_init d dn nm); try done; [|cbn; lia].
      cbn. fold m2. by rewrite insert_insert_eq.
    + split; [done|]. split_and!; cbn; try done. lia.
  - pose proof (zlen_nonneg data). assert (data = []) as -> by (destruct data; [done|unfold zlen in *; cbn in *; lia]).
    eexists _, (kids_add kids d (next_id s)). split; [done|]. split.
    + assert (FsFile (if mode =? 0 then 420 else mode) [] = obj_of n2) as ->.
      { unfold obj_of, content. by rewrite Et, Em, Es, sub_beyond. }
      eapply (repr_add s kids F path file_init d dn nm); try done. cbn. lia.
    + split; [done|]. split_and!; cbn; try done. lia.
Qed.

(** *** The fields of a header *)

Lemma header_name h e : header_of h e -> exists rest, h = e_name e ++ 0 :: rest.
Proof.
  intros Hh. destruct (h_name_len _ _ Hh) as [_ Hl]. pose proof (h_name _ _ Hh) as E.
  unfold sub in E. change (Z.to_nat 0) with O in E. change (Z.to_nat 100) with 100%nat in E. rewrite drop_0 in E.
  rewrite <-(take_drop 100 h), E. destruct (100 - length (e_name e))%nat as [|k] eqn:Ek; [lia|].
  exists (replicate k 0 ++ drop 100 h). cbn [replicate]. by rewrite <-(assoc_L (++)).
Qed.

Lemma header_not_zero h e : header_of h e -> all_zero h = false.
Proof.
  intros Hh. destruct (header_name h e Hh) as [rest ->]. pose proof (h_name_cstr _ _ Hh) as Hc.
  destruct (h_name_len _ _ Hh) as [Hl _]. destruct (e_name e) as [|c name]; [cbn in Hl; lia|].
  apply Forall_cons in Hc as [Hc _]. cbn. by rewrite (proj2 (Z.eqb_neq c 0)) by lia.
Qed.

Lemma header_numbers h e :
  header_of h e -> tar_octal (sub h 124 12) = zlen (e_data e) /\ u32 (tar_octal (sub h 100 8)) = e_mode e.
Proof.
  intros Hh. rewrite (h_size _ _ Hh), (h_mode _ _ Hh). pose proof (h_size_range _ _ Hh). pose proof (h_mode_range _ _ Hh).
  pose proof (zlen_nonneg (e_data e)). rewrite !tar_octal_field by lia.
  split; [done|]. apply Z.mod_small. change (8 ^ 7) with 2097152 in *. lia.
Qed.

Lemma padded_block n :
  0 <= n < 8 ^ 11 -> Z.land (u64 (n + TAR_BLOCK - 1)) (Z.lnot (TAR_BLOCK - 1)) = n + pad_len n.
Proof.
  intros Hn. unfold pad_len, TAR_BLOCK. change (8 ^ 11) with 8589934592 in Hn.
  assert (u64 (n + 512 - 1) = n + 511) as -> by (unfold u64; rewrite Z.mod_small; lia).
  change (512 - 1) with (Z.ones 9). rewrite <-Z.ldiff_land, Z.ldiff_ones_r, Z.shiftl_mul_pow2, Z.shiftr_div_pow2 by lia.
  change (2 ^ 9) with 512. lia.
Qed.

Lemma sub_mid (pre l post : list Z) : sub (pre ++ l ++ post) (zlen pre) (zlen l) = l.
Proof. unfold sub, zlen. rewrite !Nat2Z.id, drop_app_length. apply take_app_length. Qed.

(** One entry of the archive. *)
Lemma mount_step_ok s kids F h e pre pad rest :
  let image := pre ++ h ++ e_data e ++ pad ++ rest in
  repr s kids F -> oom s = [] -> header_of h e -> wf_entry F e ->
  exists s' kids',
    match tar_normalise h 101 with
    | None => mret true
    | Some path => mount_entry image (zlen pre) (byte_at h 156) (tar_octal (sub h 124 12)) (u32 (tar_octal (sub h 100 8))) path
    end s = Some (true, s') /\
    repr s' kids' (fs_step F e) /\ oom s' = [] /\ same_fds s s'.
Proof.
  intros image Hr Ho Hh Hwf. destruct (header_numbers h e Hh) as [-> ->]. rewrite (h_type _ _ Hh).
  assert (Hself : same_fds s s) by (split_and!; try done; lia).
  destruct (header_name h e Hh) as [hrest Eh].
  pose proof (tar_normalise_spec (e_name e) hrest (h_name_cstr _ _ Hh) (h_name_len _ _ Hh)) as Hnorm.
  rewrite <-Eh in Hnorm. unfold fs_step. unfold wf_entry in Hwf. fold (entry_comps e) in Hnorm.
  destruct (tar_normalise h 101) as [path|]; [|rewrite Hnorm; eexists s, kids; by split_and!].
  destruct Hnorm as (Hc & Ecomp & Hlen & p & c & Ep & Hcs).
  assert (Hpne : path <> []) by (subst path; by destruct p).
  assert (Hcne : entry_comps e <> []) by (rewrite <-Ecomp, Ep; by apply comps_last).
  destruct (entry_comps e) as [|c0 cs0] eqn:Ece; [done|]. rewrite <-Ece in *. clear Ece c0 cs0.
  destruct (is_dir e || is_file e) eqn:Ek.
  2:{ apply orb_false_iff in Ek as [Ed Ef]. unfold mount_entry. rewrite Ed, Ef. unfold is_dir, is_file in Ed, Ef.
      rewrite Ed, Ef. eexists s, kids. by split_and!. }
  destruct Hwf as [|[[Hd Hf]|(pc & nm & Esplit & Hnm & Hnew & Hpar)]]; [done|rewrite Hd, Hf in Ek; done|].
  rewrite Esplit in Ecomp.
  destruct (path_split_last path p c pc nm Ep Hcs Hlen Ecomp Hnm) as (dir & Hsp & Hdir).
  destruct (repr_can_create s kids F path pc nm dir Hr Ho Hsp Hdir Hnew Hpar) as (d & dn & Hcan).
  rewrite Esplit, <-Ecomp. unfold is_dir in *. destruct (Z.eqb_spec (e_type e) 53) as [Et|Et].
  - rewrite Et. eapply mount_dir_ok; eauto.
  - cbn [orb] in Ek. rewrite Ek. unfold is_file in Ek. eapply mount_file_ok; eauto.
    + lia.
    + apply zlen_nonneg.
    + unfold image, TAR_BLOCK. rewrite !zlen_app, (h_len _ _ Hh). pose proof (zlen_nonneg pad). pose proof (zlen_nonneg rest). lia.
    + unfold image, TAR_BLOCK. rewrite <-(h_len _ _ Hh), <-zlen_app, (assoc_L (++) pre h). apply sub_mid.
Qed.

Lemma archive_blocks es image : archive es image -> 512 * (Z.of_nat (length es) + 1) <= zlen image.
Proof.
  induction 1 as [rest|h e pad es image Hh Hpad Ha IH]; rewrite !zlen_app.
  - rewrite zlen_replicate. pose proof (zlen_nonneg rest). cbn. lia.
  - rewrite (h_len _ _ Hh). pose proof (zlen_nonneg (e_data e)). pose proof (zlen_nonneg pad). cbn [length]. lia.
Qed.

Lemma same_fds_trans s1 s2 s3 : same_fds s1 s2 -> same_fds s2 s3 -> same_fds s1 s3.
Proof. intros (?&?&?&?&?&?&?) (?&?&?&?&?&?&?). split_and!; try congruence. lia. Qed.

Lemma mount_loop_ok es : forall fuel pre image s kids F,
  archive es image -> repr s kids F -> oom s = [] -> wf_archive F es -> (length es < fuel)%nat ->
  exists s' kids', mount_loop fuel (pre ++ image) (zlen pre) s = Some (0, s') /\
    repr s' kids' (fold_left fs_step es F) /\ same_fds s s'.
Proof.
  induction es as [|e es IH]; intros fuel pre image s kids F Ha Hr Ho Hwf Hfuel;
    (destruct fuel as [|fuel]; [lia|]); cbn [mount_loop fold_left]; inversion Ha as [rest|h e0 pad es0 img Hh Hpad Ha']; subst.
  - pose proof (zlen_nonneg rest). rewrite (proj2 (Z.leb_le _ _)) by (rewrite !zlen_app, zlen_replicate; unfold TAR_BLOCK; lia).
    change TAR_BLOCK with (zlen (replicate 512 0)) at 1. rewrite sub_mid.
    exists s, kids. split; [done|]. split; [done|]. by split_and!.
  - destruct Hwf as [Hwe Hwf]. pose proof (archive_blocks _ _ Ha') as Hb.
    pose proof (zlen_nonneg (e_data e)) as Hd0. pose proof (h_size_range _ _ Hh) as Hdr.
    assert (Hpl : 0 <= zlen pad) by apply zlen_nonneg.
    rewrite (proj2 (Z.leb_le _ _)) by (rewrite !zlen_app, (h_len _ _ Hh); unfold TAR_BLOCK; lia).
    assert (Hblk : sub (pre ++ h ++ e_data e ++ pad ++ img) (zlen pre) TAR_BLOCK = h).
    { change TAR_BLOCK with 512. rewrite <-(h_len _ _ Hh). apply sub_mid. }
    rewrite Hblk, (header_not_zero _ _ Hh).
    destruct (mount_step_ok s kids F h e pre pad img Hr Ho Hh Hwe) as (s1 & kids1 & E1 & Hr1 & Ho1 & Hs1).
    rewrite (bind_run _ _ _ _ _ E1). cbn [negb].
    rewrite (proj1 (header_numbers _ _ Hh)), padded_block by lia. rewrite <-Hpad.
    assert (Ep : zlen pre + (TAR_BLOCK + (zlen (e_data e) + zlen pad)) = zlen (pre ++ h ++ e_data e ++ pad)).
    { rewrite !zlen_app, (h_len _ _ Hh). unfold TAR_BLOCK. lia. }
    rewrite Ep, (proj2 (Z.ltb_ge _ _)) by (rewrite !zlen_app; lia).
    destruct (IH fuel (pre ++ h ++ e_data e ++ pad) img s1 kids1 (fs_step F e)) as (s' & kids' & E & Hr' & Hs'); try done.
    { cbn in Hfuel. lia. }
    rewrite <-!(assoc_L (++)) in E. exists s', kids'. split; [exact E|]. split; [done|]. by eapply same_fds_trans.
Qed.

End Represent.

(** C23. Mounting rootfs.img: for every ustar archive whose entries list
    parents before children (what tar writes for a directory tree), mounted
    on a tree that holds the file system [F] (initially only the root), and
    with memory available, [vfs_mount_rootfs] returns 0 and the tree holds
    exactly [F] extended by the entries in order: every directory and
    regular file is found by [vfs_lookup] at its path with the mode and the
    bytes of the archive, nothing else is added, and no byte outside of the
    image is read. *)
Theorem vfs_mount_rootfs_extracts {D} (s : vfs D) kids F es image :
  archive es image -> 1024 <= zlen image -> wf_archive F es -> repr s kids F -> oom s = [] ->
  exists s' kids', vfs_mount_rootfs (Some image) s = Some (0, s') /\
    repr s' kids' (fold_left fs_step es F) /\ same_fds s s' /\
    forall q, cstr q -> components q <> [] ->
      match fold_left fs_step es F !! components q with
      | Some obj => exists a n, vfs_lookup q s' = Some (a, s') /\ nodes s' !! a = Some n /\ obj_of n = obj
      | None => vfs_lookup q s' = Some (0, s')
      end.
Proof.
  intros Ha Hlen Hwf Hr Ho. unfold vfs_mount_rootfs. rewrite (proj2 (Z.ltb_ge _ _)) by (unfold TAR_BLOCK; lia).
  destruct (mount_loop_ok es (S (length image)) [] image s kids F Ha Hr Ho Hwf) as (s' & kids' & E & Hr' & Hs).
  { pose proof (archive_blocks _ _ Ha). unfold zlen in *. lia. }
  exists s', kids'. split; [exact E|]. split; [done|]. split; [done|]. intros q Hq Hne.
  destruct Hr' as [Ht Hobj]. specialize (Hobj _ Hne). rewrite (vfs_lookup_run s' kids' q Ht Hq).
  destruct (walk _ _ _ (components q)) as [a|]; [|by rewrite Hobj].
  destruct Hobj as (n & Hn & ->). exists a, n. done.
Qed.

(** ** A small archive: the directory "a" and the file "a/f" *)

Definition demo_header (e : tar_entry) : list Z :=
  e_name e ++ replicate (100 - length (e_name e)) 0 ++ octal 7 (e_mode e) ++ [0] ++ replicate 16 0 ++
  octal 11 (zlen (e_data e)) ++ [0] ++ replicate 20 0 ++ [e_type e] ++ replicate 355 0.

Definition demo_dir : tar_entry := TarEntry [46; 47; 97; 47] 448 53 [].
Definition demo_file : tar_entry := TarEntry [46; 47; 97; 47; 102] 0 48 [104; 105].

Definition demo_image : list Z :=
  demo_header demo_dir ++ [] ++ [] ++ demo_header demo_file ++ [104; 105] ++ replicate 510 0 ++ replicate 512 0 ++ [].

Lemma demo_archive : archive [demo_dir; demo_file] demo_image.
Proof.
  assert (Hc : forall l, forallb (fun c => (0 <? c) && (c <? 256)) l = true -> cstr l).
  { intros l Hl. apply Forall_forall. intros c Hc%list_elem_of_In. rewrite forallb_forall in Hl. specialize (Hl c Hc). lia. }
  unfold demo_image. apply ArchEntry; [|reflexivity|apply ArchEntry; [|reflexivity|apply ArchEnd]].
  - split; try reflexivity; try (vm_compute; lia); try done. by apply Hc.
  - split; try reflexivity; try (vm_compute; lia); try done. by apply Hc.
Qed.

(** The state after [vfs_init]: only the root. *)
Definition demo_root : vfs unit :=
  Vfs {[ 1 := VfsNode [SLASH] VFS_DIR 0 0 0 [] 0 0 None 0 0 0 0 ]} ∅ ∅ 1 ∅ None 2 [] tt.

Lemma demo_repr : repr demo_root (fun _ => []) ∅.
Proof.
  split.
  - split; cbn [nodes demo_root g_root next_id].
    + eexists. split; [apply lookup_singleton_eq|done].
    + intros a n [<- <-]%lookup_singleton_Some. lia.
    + intros d n [<- <-]%lookup_singleton_Some. done.
    + intros d n [<- <-]%lookup_singleton_Some. done.
    + done.
    + intros d c Hc%elem_of_nil. done.
    + intros d c c' n n' Hc%elem_of_nil. done.
  - intros [|c cs] Hne; [done|]. cbn. apply lookup_empty.
Qed.

Lemma vfs_mount_rootfs_extracts_witness :
  exists s' a n, vfs_mount_rootfs (Some demo_image) demo_root = Some (0, s') /\
    vfs_lookup [SLASH; 97; SLASH; 102] s' = Some (a, s') /\ nodes s' !! a = Some n /\
    obj_of n = FsFile 420 [104; 105].
Proof.
  destruct (vfs_mount_rootfs_extracts demo_root (fun _ => []) ∅ [demo_dir; demo_file] demo_image demo_archive)
    as (s' & kids' & E & _ & _ & Hl).
  - vm_compute. discriminate.
  - split; [|split; [|exact I]]; right; right.
    + exists [], [97]. split; [reflexivity|]. split; [cbn; lia|]. split; [reflexivity|by left].
    + exists [[97]], [102]. split; [reflexivity|]. split; [cbn; lia|]. split; [reflexivity|].
      right. exists 448. reflexivity.
  - exact demo_repr.
  - reflexivity.
  - specialize (Hl [SLASH; 97; SLASH; 102] ltac:(repeat constructor) ltac:(done)).
    assert (Hf : fold_left fs_step [demo_dir; demo_file] ∅ !! components [SLASH; 97; SLASH; 102] = Some (FsFile 420 [104; 105]))
      by reflexivity.
    rewrite Hf in Hl. destruct Hl as (a & n & Hq & Hn & Ho). exists s', a, n.
    split; [exact E|]. split; [exact Hq|]. split; [exact Hn|exact Ho].
Defined.

(** A header that announces more data than the image has: the bytes are
    copied before the end of the archive is checked, so the copy reads past
    the image. *)
Theorem mount_reads_past_image :
  let big := TarEntry [102] 0 48 (replicate 2000 1) in
  vfs_mount_rootfs (Some (demo_header big ++ replicate 512 1)) demo_root = None.
Proof. vm_compute. reflexivity. Qed.
