(* ===== verification/Font.v ===== *)
(** * The console font (src/kernel/drivers/font8x16.h)

    The glyphs of the characters 0x20 to 0x7F, 16 rows of 8 pixels each; the
    highest bit of a row is its leftmost pixel. *)

From stdpp Require Import base list.
From Stdlib Require Import ZArith.

Local Open Scope Z_scope.

Definition FONT_WIDTH : Z := 8.
Definition FONT_HEIGHT : Z := 16.
Definition FONT_FIRST : Z := 0x20.
Definition FONT_LAST : Z := 0x7F.

Definition font8x16 : list (list Z) :=
  [[0; 0; 0; 0; 0; 0; 0; 0; 0; 0; 0; 0; 0; 0; 0; 0];
   [0; 0; 24; 60; 60; 60; 24; 24; 24; 0; 24; 24; 0; 0; 0; 0];
   [0; 0; 102; 102; 102; 36; 0; 0; 0; 0; 0; 0; 0; 0; 0; 0];
   [0; 0; 108; 108; 254; 108; 108; 108; 254; 108; 108; 0; 0; 0; 0; 0];
   [24; 24; 126; 195; 194; 192; 126; 3; 131; 195; 126; 24; 24; 0; 0; 0];
   [0; 0; 0; 198; 204; 24; 48; 96; 198; 134; 12; 0; 0; 0; 0; 0];
   [0; 0; 56; 108; 108; 56; 118; 220; 204; 204; 118; 0; 0; 0; 0; 0];
   [0; 0; 24; 24; 24; 48; 0; 0; 0; 0; 0; 0; 0; 0; 0; 0];
   [0; 0; 12; 24; 48; 48; 48; 48; 48; 24; 12; 0; 0; 0; 0; 0];
   [0; 0; 48; 24; 12; 12; 12; 12; 12; 24; 48; 0; 0; 0; 0; 0];
   [0; 0; 0; 102; 60; 255; 60; 102; 0; 0; 0; 0; 0; 0; 0; 0];
   [0; 0; 0; 24; 24; 126; 24; 24; 0; 0; 0; 0; 0; 0; 0; 0];
   [0; 0; 0; 0; 0; 0; 0; 0; 0; 24; 24; 24; 48; 0; 0; 0];
   [0; 0; 0; 0; 0; 126; 0; 0; 0; 0; 0; 0; 0; 0; 0; 0];
   [0; 0; 0; 0; 0; 0; 0; 0; 0; 24; 24; 0; 0; 0; 0; 0];
   [0; 0; 3; 6; 12; 24; 48; 96; 192; 128; 0; 0; 0; 0; 0; 0];
   [0; 0; 126; 195; 195; 219; 219; 219; 195; 195; 126; 0; 0; 0; 0; 0];
   [0; 0; 24; 56; 120; 24; 24; 24; 24; 24; 126; 0; 0; 0; 0; 0];
   [0; 0; 126; 195; 3; 6; 12; 24; 48; 96; 255; 0; 0; 0; 0; 0];
   [0; 0; 126; 195; 3; 30; 3; 3; 3; 195; 126; 0; 0; 0; 0; 0];
   [0; 0; 6; 14; 30; 54; 102; 198; 255; 6; 6; 0; 0; 0; 0; 0];
   [0; 0; 255; 192; 192; 254; 3; 3; 3; 195; 126; 0; 0; 0; 0; 0];
   [0; 0; 62; 96; 192; 254; 195; 195; 195; 99; 62; 0; 0; 0; 0; 0];
   [0; 0; 255; 3; 6; 12; 24; 48; 48; 48; 48; 0; 0; 0; 0; 0];
   [0; 0; 126; 195; 195; 126; 195; 195; 195; 195; 126; 0; 0; 0; 0; 0];
   [0; 0; 126; 195; 195; 195; 127; 3; 3; 6; 124; 0; 0; 0; 0; 0];
   [0; 0; 0; 24; 24; 0; 0; 0; 24; 24; 0; 0; 0; 0; 0; 0];
   [0; 0; 0; 24; 24; 0; 0; 0; 24; 24; 24; 48; 0; 0; 0; 0];
   [0; 0; 6; 12; 24; 48; 96; 48; 24; 12; 6; 0; 0; 0; 0; 0];
   [0; 0; 0; 0; 126; 0; 0; 126; 0; 0; 0; 0; 0; 0; 0; 0];
   [0; 0; 96; 48; 24; 12; 6; 12; 24; 48; 96; 0; 0; 0; 0; 0];
   [0; 0; 126; 195; 3; 6; 12; 24; 24; 0; 24; 24; 0; 0; 0; 0];
   [0; 0; 126; 195; 219; 219; 219; 219; 222; 192; 127; 0; 0; 0; 0; 0];
   [0; 0; 24; 60; 102; 195; 195; 255; 195; 195; 195; 0; 0; 0; 0; 0];
   [0; 0; 254; 99; 99; 126; 99; 99; 99; 99; 254; 0; 0; 0; 0; 0];
   [0; 0; 62; 99; 192; 192; 192; 192; 192; 99; 62; 0; 0; 0; 0; 0];
   [0; 0; 252; 102; 99; 99; 99; 99; 99; 102; 252; 0; 0; 0; 0; 0];
   [0; 0; 255; 97; 96; 124; 96; 96; 96; 97; 255; 0; 0; 0; 0; 0];
   [0; 0; 255; 97; 96; 124; 96; 96; 96; 96; 240; 0; 0; 0; 0; 0];
   [0; 0; 62; 99; 192; 192; 207; 195; 195; 99; 62; 0; 0; 0; 0; 0];
   [0; 0; 195; 195; 195; 255; 195; 195; 195; 195; 195; 0; 0; 0; 0; 0];
   [0; 0; 126; 24; 24; 24; 24; 24; 24; 24; 126; 0; 0; 0; 0; 0];
   [0; 0; 15; 6; 6; 6; 6; 198; 198; 198; 124; 0; 0; 0; 0; 0];
   [0; 0; 227; 102; 108; 120; 112; 120; 108; 102; 227; 0; 0; 0; 0; 0];
   [0; 0; 240; 96; 96; 96; 96; 96; 96; 97; 255; 0; 0; 0; 0; 0];
   [0; 0; 195; 231; 255; 255; 219; 195; 195; 195; 195; 0; 0; 0; 0; 0];
   [0; 0; 195; 227; 243; 251; 207; 199; 195; 195; 195; 0; 0; 0; 0; 0];
   [0; 0; 126; 195; 195; 195; 195; 195; 195; 195; 126; 0; 0; 0; 0; 0];
   [0; 0; 254; 195; 195; 195; 254; 192; 192; 192; 192; 0; 0; 0; 0; 0];
   [0; 0; 126; 195; 195; 195; 195; 195; 219; 219; 126; 3; 0; 0; 0; 0];
   [0; 0; 254; 195; 195; 195; 254; 204; 198; 195; 195; 0; 0; 0; 0; 0];
   [0; 0; 126; 195; 192; 126; 3; 3; 3; 195; 126; 0; 0; 0; 0; 0];
   [0; 0; 255; 219; 24; 24; 24; 24; 24; 24; 60; 0; 0; 0; 0; 0];
   [0; 0; 195; 195; 195; 195; 195; 195; 195; 195; 126; 0; 0; 0; 0; 0];
   [0; 0; 195; 195; 195; 195; 195; 195; 102; 60; 24; 0; 0; 0; 0; 0];
   [0; 0; 195; 195; 195; 195; 219; 219; 255; 231; 195; 0; 0; 0; 0; 0];
   [0; 0; 195; 195; 102; 60; 24; 60; 102; 195; 195; 0; 0; 0; 0; 0];
   [0; 0; 195; 195; 195; 102; 60; 24; 24; 24; 60; 0; 0; 0; 0; 0];
   [0; 0; 255; 195; 134; 12; 24; 48; 97; 195; 255; 0; 0; 0; 0; 0];
   [0; 0; 60; 48; 48; 48; 48; 48; 48; 48; 60; 0; 0; 0; 0; 0];
   [0; 0; 192; 96; 48; 24; 12; 6; 3; 1; 0; 0; 0; 0; 0; 0];
   [0; 0; 60; 12; 12; 12; 12; 12; 12; 12; 60; 0; 0; 0; 0; 0];
   [0; 24; 60; 102; 195; 0; 0; 0; 0; 0; 0; 0; 0; 0; 0; 0];
   [0; 0; 0; 0; 0; 0; 0; 0; 0; 0; 0; 255; 0; 0; 0; 0];
   [0; 48; 24; 12; 0; 0; 0; 0; 0; 0; 0; 0; 0; 0; 0; 0];
   [0; 0; 0; 0; 124; 198; 6; 126; 198; 198; 126; 0; 0; 0; 0; 0];
   [0; 0; 224; 96; 124; 102; 102; 102; 102; 102; 124; 0; 0; 0; 0; 0];
   [0; 0; 0; 0; 124; 198; 192; 192; 192; 198; 124; 0; 0; 0; 0; 0];
   [0; 0; 28; 12; 124; 204; 204; 204; 204; 204; 126; 0; 0; 0; 0; 0];
   [0; 0; 0; 0; 124; 198; 198; 254; 192; 198; 124; 0; 0; 0; 0; 0];
   [0; 0; 28; 54; 48; 120; 48; 48; 48; 48; 120; 0; 0; 0; 0; 0];
   [0; 0; 0; 0; 126; 198; 198; 198; 126; 6; 124; 0; 0; 0; 0; 0];
   [0; 0; 224; 96; 124; 102; 102; 102; 102; 102; 231; 0; 0; 0; 0; 0];
   [0; 0; 24; 24; 0; 56; 24; 24; 24; 24; 60; 0; 0; 0; 0; 0];
   [0; 0; 12; 12; 0; 28; 12; 12; 12; 204; 120; 0; 0; 0; 0; 0];
   [0; 0; 224; 96; 102; 108; 120; 108; 102; 102; 231; 0; 0; 0; 0; 0];
   [0; 0; 56; 24; 24; 24; 24; 24; 24; 24; 60; 0; 0; 0; 0; 0];
   [0; 0; 0; 0; 252; 219; 219; 219; 219; 219; 219; 0; 0; 0; 0; 0];
   [0; 0; 0; 0; 220; 102; 102; 102; 102; 102; 231; 0; 0; 0; 0; 0];
   [0; 0; 0; 0; 124; 198; 198; 198; 198; 198; 124; 0; 0; 0; 0; 0];
   [0; 0; 0; 0; 220; 102; 102; 102; 102; 124; 96; 224; 0; 0; 0; 0];
   [0; 0; 0; 0; 126; 204; 204; 204; 204; 124; 12; 30; 0; 0; 0; 0];
   [0; 0; 0; 0; 220; 102; 96; 96; 96; 96; 240; 0; 0; 0; 0; 0];
   [0; 0; 0; 0; 124; 198; 96; 60; 6; 198; 124; 0; 0; 0; 0; 0];
   [0; 0; 48; 48; 252; 48; 48; 48; 48; 54; 28; 0; 0; 0; 0; 0];
   [0; 0; 0; 0; 204; 204; 204; 204; 204; 204; 126; 0; 0; 0; 0; 0];
   [0; 0; 0; 0; 195; 195; 195; 102; 60; 24; 24; 0; 0; 0; 0; 0];
   [0; 0; 0; 0; 195; 195; 219; 219; 255; 102; 102; 0; 0; 0; 0; 0];
   [0; 0; 0; 0; 195; 102; 60; 24; 60; 102; 195; 0; 0; 0; 0; 0];
   [0; 0; 0; 0; 195; 195; 195; 102; 60; 24; 24; 48; 0; 0; 0; 0];
   [0; 0; 0; 0; 254; 140; 24; 48; 96; 198; 254; 0; 0; 0; 0; 0];
   [0; 0; 14; 24; 24; 24; 112; 24; 24; 24; 14; 0; 0; 0; 0; 0];
   [0; 0; 24; 24; 24; 24; 0; 24; 24; 24; 24; 0; 0; 0; 0; 0];
   [0; 0; 112; 24; 24; 24; 14; 24; 24; 24; 112; 0; 0; 0; 0; 0];
   [0; 0; 118; 220; 0; 0; 0; 0; 0; 0; 0; 0; 0; 0; 0; 0]].

(** Row [y] of the glyph of character [uc]. *)
Definition glyph_row (uc y : Z) : Z := nth (Z.to_nat y) (nth (Z.to_nat (uc - FONT_FIRST)) font8x16 []) 0.
