(* ===== verification/Fb.v ===== *)
(** * Framebuffer text console (src/kernel/drivers/fb.c)

    The pixel surface is a memory of 32-bit words of [pitch_words * height]
    words (the pitch is a multiple of 4 bytes, so the byte-wise [memset] and
    [memmove] are operations on words), the text grids are functions from row and column. Every write to
    the surface and to the text buffer is checked: [None] is a write outside
    of the surface or of the 256 x 512 text array. *)

From stdpp Require Import base numbers list.
From Stdlib Require Import ZArith Lia ZifyBool.
From S2P Require Import Prelude.
From S2P Require Import Font.

Definition FB_MAX_COLS : Z := 512.
Definition FB_MAX_ROWS : Z := 256.
Definition FB_HISTORY_ROWS : Z := 2048.
Definition FB_PALETTE_SIZE : Z := 16.
Definition COLOR_FG : Z := 0x00E8E8E8.
Definition COLOR_BG : Z := 0.
Definition CSI_BUF_SIZE : Z := 32.

(** ** State *)

Record fb_cell := FbCell { cell_c : Z; cell_color : Z }.

Definition grid : Type := Z -> Z -> fb_cell.

Definition grid_set (g : grid) (row col : Z) (cell : fb_cell) : grid :=
  fun r c => if (r =? row) && (c =? col) then cell else g r c.

(** The surface: [g_pitch_bytes], the size in pixels, the grid size and the
    first pixel row of the text. *)
Record fb_geom := FbGeom {
  g_pitch_bytes : Z;
  g_width : Z;
  g_height : Z;
  g_cols : Z;
  g_rows : Z;
  g_text_top : Z;
}.

Definition g_pitch_words (g : fb_geom) : Z := g_pitch_bytes g / 4.

(** The palette is the list of the pairs [(fg, bg)] in use. *)
Record fb_colors := FbColors {
  g_fg : Z;
  g_bg : Z;
  g_cur_color : Z;
  g_reverse : bool;
  g_palette : list (Z * Z);
}.

Inductive ansi_mode := ANSI_NORMAL | ANSI_ESC | ANSI_CSI | ANSI_SS3.

(** The first [g_csi_len] bytes of [g_csi_buf] are a list. *)
Record fb_ansi := FbAnsi {
  g_ansi_state : ansi_mode;
  g_csi_buf : list Z;
  g_csi_private : bool;
}.

Record fb_alt := FbAlt {
  g_alt_text : grid;
  g_alt_cursor_x : Z;
  g_alt_cursor_y : Z;
  g_alt_fg : Z;
  g_alt_bg : Z;
  g_alt_cur_color : Z;
  g_alt_active : bool;
}.

Record fb_hist := FbHist {
  g_history : grid;
  g_hist_head : Z;
  g_hist_count : Z;
  g_view_back : Z;
}.

Record fb := Fb {
  geom : fb_geom;
  g_text : grid;
  g_pixels : memory;
  g_cursor_x : Z;
  g_cursor_y : Z;
  g_cursor_visible : bool;
  colors : fb_colors;
  ansi : fb_ansi;
  alt : fb_alt;
  hist : fb_hist;
}.

Definition with_geom (s : fb) g := Fb g (g_text s) (g_pixels s) (g_cursor_x s) (g_cursor_y s) (g_cursor_visible s) (colors s) (ansi s) (alt s) (hist s).
Definition with_text (s : fb) t := Fb (geom s) t (g_pixels s) (g_cursor_x s) (g_cursor_y s) (g_cursor_visible s) (colors s) (ansi s) (alt s) (hist s).
Definition with_pixels (s : fb) p := Fb (geom s) (g_text s) p (g_cursor_x s) (g_cursor_y s) (g_cursor_visible s) (colors s) (ansi s) (alt s) (hist s).
Definition with_cursor (s : fb) x y := Fb (geom s) (g_text s) (g_pixels s) x y (g_cursor_visible s) (colors s) (ansi s) (alt s) (hist s).
Definition with_visible (s : fb) v := Fb (geom s) (g_text s) (g_pixels s) (g_cursor_x s) (g_cursor_y s) v (colors s) (ansi s) (alt s) (hist s).
Definition with_colors (s : fb) c := Fb (geom s) (g_text s) (g_pixels s) (g_cursor_x s) (g_cursor_y s) (g_cursor_visible s) c (ansi s) (alt s) (hist s).
Definition with_ansi (s : fb) a := Fb (geom s) (g_text s) (g_pixels s) (g_cursor_x s) (g_cursor_y s) (g_cursor_visible s) (colors s) a (alt s) (hist s).
Definition with_alt (s : fb) a := Fb (geom s) (g_text s) (g_pixels s) (g_cursor_x s) (g_cursor_y s) (g_cursor_visible s) (colors s) (ansi s) a (hist s).
Definition with_hist (s : fb) h := Fb (geom s) (g_text s) (g_pixels s) (g_cursor_x s) (g_cursor_y s) (g_cursor_visible s) (colors s) (ansi s) (alt s) h.

Definition with_pen (c : fb_colors) (fg bg : Z) (reverse : bool) : fb_colors :=
  FbColors fg bg (g_cur_color c) reverse (g_palette c).
Definition with_view (h : fb_hist) (v : Z) : fb_hist :=
  FbHist (g_history h) (g_hist_head h) (g_hist_count h) v.

(** The number of words of the surface. *)
Definition surface (g : fb_geom) : Z := g_pitch_words g * g_height g.

(** ** Colours *)

Definition ansi_colors : list Z :=
  [0x000000; 0xAA0000; 0x00AA00; 0xAA5500; 0x0000AA; 0xAA00AA; 0x00AAAA; 0xAAAAAA;
   0x555555; 0xFF5555; 0x55FF55; 0xFFFF55; 0x5555FF; 0xFF55FF; 0x55FFFF; 0xFFFFFF].

(** The index of a pair in the palette, counted from [i]. *)
Fixpoint palette_find (p : list (Z * Z)) (fg bg i : Z) : option Z :=
  match p with
  | [] => None
  | (f, b) :: p' => if (f =? fg) && (b =? bg) then Some i else palette_find p' fg bg (i + 1)
  end.

(** The index and the palette with the pair added if there is room. *)
Definition palette_lookup (p : list (Z * Z)) (fg bg : Z) : Z * list (Z * Z) :=
  match palette_find p fg bg 0 with
  | Some i => (i, p)
  | None =>
      if Z.of_nat (length p) <? FB_PALETTE_SIZE then (Z.of_nat (length p), p ++ [(fg, bg)])
      else (0, p)
  end.

Definition fb_update_color (s : fb) : fb :=
  let c := colors s in
  let '(i, p) := if g_reverse c then palette_lookup (g_palette c) (g_bg c) (g_fg c)
                 else palette_lookup (g_palette c) (g_fg c) (g_bg c) in
  with_colors s (FbColors (g_fg c) (g_bg c) i (g_reverse c) p).

Definition fb_set_color (s : fb) (fg bg : Z) : fb :=
  fb_update_color (with_colors s (with_pen (colors s) fg bg (g_reverse (colors s)))).

(** ** Drawing *)

(** The pair of a palette index; entries that are not in use are zero. *)
Definition pair_of (s : fb) (color : Z) : Z * Z :=
  nth (Z.to_nat (Z.land color (FB_PALETTE_SIZE - 1))) (g_palette (colors s)) (0, 0).

(** The colour of pixel [(x, y)] of a cell. *)
Definition cell_pixel (fg bg uc x y : Z) : Z :=
  if negb (Z.land (glyph_row uc y) (Z.shiftr 0x80 x) =? 0) then fg else bg.

(** The first word of a cell. *)
Definition cell_base (g : fb_geom) (row col : Z) : Z :=
  (g_text_top g + row * FONT_HEIGHT) * g_pitch_words g + col * FONT_WIDTH.

(** The 8 x 16 block of words at [base] set to [f x y]. *)
Definition paint_block (m : memory) (base pw : Z) (f : Z -> Z -> Z) : memory :=
  fun i =>
    let y := (i - base) / pw in
    let x := (i - base) mod pw in
    if (0 <=? i - base) && (y <? FONT_HEIGHT) && (x <? FONT_WIDTH) then f x y else m i.

Definition fb_paint_cell (s : fb) (row col : Z) (cell : fb_cell) (show_cursor : bool) : option fb :=
  let g := geom s in
  if (row <? 0) || (g_rows g <=? row) || (col <? 0) || (g_cols g <=? col) then Some s
  else
    let uc := if (cell_c cell <? FONT_FIRST) || (FONT_LAST <? cell_c cell) then 32 else cell_c cell in
    let '(fg0, bg0) := pair_of s (cell_color cell) in
    let at_cursor := show_cursor && (row =? g_cursor_y s) && (col =? g_cursor_x s) in
    let fg := if at_cursor then bg0 else fg0 in
    let bg := if at_cursor then fg0 else bg0 in
    let base := cell_base g row col in
    let last := base + (FONT_HEIGHT - 1) * g_pitch_words g + (FONT_WIDTH - 1) in
    if (0 <=? base) && (last <? surface g)
    then Some (with_pixels s (paint_block (g_pixels s) base (g_pitch_words g) (cell_pixel fg bg uc)))
    else None.

Definition fb_draw_cell (s : fb) (row col : Z) (show_cursor : bool) : option fb :=
  fb_paint_cell s row col (g_text s row col) show_cursor.

(** [for (i = from; i < from + n; i++) body(i)]. *)
Fixpoint for_range (n : nat) (i : Z) (body : Z -> fb -> option fb) (s : fb) : option fb :=
  match n with
  | O => Some s
  | S n' => s' ← body i s; for_range n' (i + 1) body s'
  end.

Definition fb_repaint_cursor (s : fb) : option fb :=
  if g_cursor_visible s then fb_draw_cell s (g_cursor_y s) (g_cursor_x s) true else Some s.

Definition fb_redraw_live (s : fb) : option fb :=
  s ← for_range (Z.to_nat (g_rows (geom s))) 0
        (fun row s => for_range (Z.to_nat (g_cols (geom s))) 0
           (fun col s => fb_draw_cell s row col false) s) s;
  fb_repaint_cursor s.

(** The ring slot of history line [line]. *)
Definition hist_slot (h : fb_hist) (line : Z) : Z :=
  let slot := Z.rem (g_hist_head h - g_hist_count h + line) FB_HISTORY_ROWS in
  if slot <? 0 then slot + FB_HISTORY_ROWS else slot.

Definition fb_redraw_history (s : fb) : option fb :=
  for_range (Z.to_nat (g_rows (geom s))) 0
    (fun row s =>
       let h := hist s in
       let line := g_hist_count h - g_view_back h - g_rows (geom s) + row in
       for_range (Z.to_nat (g_cols (geom s))) 0
         (fun col s =>
            fb_paint_cell s row col
              (if line <? 0 then FbCell 32 0 else g_history h (hist_slot h line) col) false) s) s.

Definition fb_scroll_page (s : fb) (dir : Z) : option fb :=
  let h := hist s in
  let max_back := Z.max 0 (g_hist_count h - g_rows (geom s)) in
  let v := g_view_back h + dir * g_rows (geom s) in
  let v := if v <? 0 then 0 else v in
  let v := if max_back <? v then max_back else v in
  let s := with_hist s (with_view h v) in
  if v =? 0 then fb_redraw_live s else fb_redraw_history s.

Definition fb_view_scrolled (s : fb) : bool := negb (g_view_back (hist s) =? 0).

(** *** Text *)

(** [g_text[row][col] = cell]. *)
Definition put_text (s : fb) (row col : Z) (cell : fb_cell) : option fb :=
  if (0 <=? row) && (row <? FB_MAX_ROWS) && (0 <=? col) && (col <? FB_MAX_COLS)
  then Some (with_text s (grid_set (g_text s) row col cell)) else None.

Definition blank (s : fb) : fb_cell := FbCell 32 (g_cur_color (colors s)).

(** Rows [0, rows) and columns [0, cols) blanked. *)
Definition clear_grid (g : grid) (rows cols : Z) (b : fb_cell) : grid :=
  fun r c => if (0 <=? r) && (r <? rows) && (0 <=? c) && (c <? cols) then b else g r c.

Definition history_push (s : fb) : option fb :=
  let h := hist s in
  let y := g_cursor_y s in
  if (0 <=? y) && (y <? FB_MAX_ROWS) then
    let row := fun r c => if (r =? g_hist_head h) && (0 <=? c) && (c <? g_cols (geom s))
                          then g_text s y c else g_history h r c in
    Some (with_hist s
      (FbHist row ((g_hist_head h + 1) mod FB_HISTORY_ROWS)
         (if g_hist_count h <? FB_HISTORY_ROWS then g_hist_count h + 1 else g_hist_count h)
         (g_view_back h)))
  else None.

(** [memmove] of the text region up by one line, and the bottom line zeroed. *)
Definition scroll_pixels (g : fb_geom) (m : memory) : memory :=
  let base := g_text_top g * g_pitch_words g in
  let line := FONT_HEIGHT * g_pitch_words g in
  let total := (g_rows g - 1) * line in
  fun i =>
    if (base <=? i) && (i <? base + total) then m (i + line)
    else if (base + total <=? i) && (i <? base + total + line) then 0
    else m i.

Definition scroll_text (g : fb_geom) (t : grid) (b : fb_cell) : grid :=
  fun r c =>
    if (0 <=? c) && (c <? g_cols g) then
      if (0 <=? r) && (r <? g_rows g - 1) then t (r + 1) c
      else if r =? g_rows g - 1 then b else t r c
    else t r c.

Definition fb_scroll_up (s : fb) : option fb :=
  let g := geom s in
  let last := (g_text_top g + g_rows g * FONT_HEIGHT) * g_pitch_words g in
  if last <=? surface g then
    Some (with_pixels (with_text s (scroll_text g (g_text s) (blank s))) (scroll_pixels g (g_pixels s)))
  else None.

Definition fb_clear (s : fb) : fb :=
  let g := geom s in
  let t := clear_grid (g_text s) (g_rows g) (g_cols g) (blank s) in
  let s := with_text s t in
  let s := with_pixels s (fill (g_pixels s) 0 (surface g) 0) in
  let s := with_geom s (FbGeom (g_pitch_bytes g) (g_width g) (g_height g) (g_cols g) (g_rows g) 0) in
  let s := with_cursor s 0 0 in
  with_hist s (FbHist (g_history (hist s)) 0 0 0).

(** ** Escape sequences *)

(** The decimal number at the start of [l], capped at 9999, whether there
    was a digit, and the rest. *)
Fixpoint csi_number (l : list Z) (v : Z) (any : bool) : Z * bool * list Z :=
  match l with
  | c :: l' =>
      if (48 <=? c) && (c <=? 57) then
        let v' := v * 10 + (c - 48) in
        csi_number l' (if 9999 <? v' then 9999 else v') true
      else (v, any, l)
  | [] => (v, any, [])
  end.

(** Up to [max] parameters; missing ones are [def]. *)
Fixpoint ansi_parse_params (max : nat) (l : list Z) (def : Z) : list Z :=
  match max with
  | O => []
  | S max' =>
      match l with
      | [] => replicate (S max') def
      | _ =>
          let '(v, any, rest) := csi_number l 0 false in
          (if any then v else def) ::
          match rest with
          | c :: rest' => if c =? 59 then ansi_parse_params max' rest' def else replicate max' def
          | [] => replicate max' def
          end
      end
  end.

Definition ansi_erase_cells (s : fb) (row col0 col1 : Z) : option fb :=
  let g := geom s in
  if (row <? 0) || (g_rows g <=? row) then Some s
  else
    for_range (Z.to_nat (Z.min col1 (g_cols g) - col0)) col0
      (fun c s =>
         if c <? 0 then Some s
         else s' ← put_text s row c (blank s); fb_paint_cell s' row c (blank s) false) s.

Definition ansi_alt_enter (s : fb) : fb :=
  if g_alt_active (alt s) then s
  else
    let c := colors s in
    fb_clear (with_alt s (FbAlt (g_text s) (g_cursor_x s) (g_cursor_y s) (g_fg c) (g_bg c) (g_cur_color c) true)).

Definition ansi_alt_exit (s : fb) : option fb :=
  let a := alt s in
  if negb (g_alt_active a) then Some s
  else
    let c := colors s in
    let s := with_alt s (FbAlt (g_alt_text a) (g_alt_cursor_x a) (g_alt_cursor_y a) (g_alt_fg a) (g_alt_bg a)
                           (g_alt_cur_color a) false) in
    let s := with_pixels s (fill (g_pixels s) 0 (surface (geom s)) 0) in
    let s := with_text s (g_alt_text a) in
    let s := with_cursor s (g_alt_cursor_x a) (g_alt_cursor_y a) in
    let s := with_colors s (FbColors (g_alt_fg a) (g_alt_bg a) (g_alt_cur_color a) (g_reverse c) (g_palette c)) in
    fb_redraw_live s.

Definition clamp (v n : Z) : Z :=
  let v := if v <? 0 then 0 else v in
  if n <=? v then n - 1 else v.

(** One SGR parameter. *)
Definition sgr (c : fb_colors) (p : Z) : fb_colors :=
  let col i := nth (Z.to_nat i) ansi_colors 0 in
  if p =? 0 then with_pen c COLOR_FG COLOR_BG false
  else if p =? 7 then with_pen c (g_fg c) (g_bg c) true
  else if p =? 27 then with_pen c (g_fg c) (g_bg c) false
  else if (p =? 1) || (p =? 4) then c
  else if (30 <=? p) && (p <=? 37) then with_pen c (col (p - 30)) (g_bg c) (g_reverse c)
  else if (40 <=? p) && (p <=? 47) then with_pen c (g_fg c) (col (p - 40)) (g_reverse c)
  else if (90 <=? p) && (p <=? 97) then with_pen c (col (p - 90 + 8)) (g_bg c) (g_reverse c)
  else if (100 <=? p) && (p <=? 107) then with_pen c (g_fg c) (col (p - 100 + 8)) (g_reverse c)
  else if p =? 39 then with_pen c COLOR_FG (g_bg c) (g_reverse c)
  else if p =? 49 then with_pen c (g_fg c) COLOR_BG (g_reverse c)
  else c.

(** Private (DEC) modes. *)
Definition ansi_private (s : fb) (final m : Z) : option fb :=
  let a := alt s in
  if final =? 104 then (* 'h' *)
    if m =? 25 then Some (with_visible s true)
    else if (m =? 47) || (m =? 1049) then Some (ansi_alt_enter s)
    else if m =? 1048 then
      Some (with_alt s (FbAlt (g_alt_text a) (g_cursor_x s) (g_cursor_y s) (g_alt_fg a) (g_alt_bg a)
                          (g_alt_cur_color a) (g_alt_active a)))
    else Some s
  else if final =? 108 then (* 'l' *)
    if m =? 25 then Some (with_visible s false)
    else if (m =? 47) || (m =? 1049) then ansi_alt_exit s
    else if m =? 1048 then Some (with_cursor s (g_alt_cursor_x a) (g_alt_cursor_y a))
    else Some s
  else Some s.

(** The effect of a final byte, after the cursor has been erased. *)
Definition ansi_final (s : fb) (final : Z) (params : list Z) : option fb :=
  let g := geom s in
  let x := g_cursor_x s in
  let y := g_cursor_y s in
  let p0 := nth 0 params 1 in
  let p1 := nth 1 params 1 in
  if (final =? 72) || (final =? 102) then Some (with_cursor s (clamp (p1 - 1) (g_cols g)) (clamp (p0 - 1) (g_rows g)))
  else if final =? 65 then Some (with_cursor s x (if y - p0 <? 0 then 0 else y - p0))
  else if final =? 66 then Some (with_cursor s x (if g_rows g <=? y + p0 then g_rows g - 1 else y + p0))
  else if final =? 67 then Some (with_cursor s (if g_cols g <=? x + p0 then g_cols g - 1 else x + p0) y)
  else if final =? 68 then Some (with_cursor s (if x - p0 <? 0 then 0 else x - p0) y)
  else if (final =? 71) || (final =? 96) then Some (with_cursor s (clamp (p0 - 1) (g_cols g)) y)
  else if final =? 100 then Some (with_cursor s x (clamp (p0 - 1) (g_rows g)))
  else if final =? 74 then (* 'J' *)
    if (p0 =? 2) || (p0 =? 3) then
      for_range (Z.to_nat (g_rows g)) 0 (fun r s => ansi_erase_cells s r 0 (g_cols g)) s
    else if p0 =? 1 then
      for_range (Z.to_nat (y + 1)) 0
        (fun r s => ansi_erase_cells s r 0 (if r =? y then x + 1 else g_cols g)) s
    else
      s ← ansi_erase_cells s y x (g_cols g);
      for_range (Z.to_nat (g_rows g - (y + 1))) (y + 1) (fun r s => ansi_erase_cells s r 0 (g_cols g)) s
  else if final =? 75 then (* 'K' *)
    if p0 =? 2 then ansi_erase_cells s y 0 (g_cols g)
    else if p0 =? 1 then ansi_erase_cells s y 0 (x + 1)
    else ansi_erase_cells s y x (g_cols g)
  else if final =? 88 then ansi_erase_cells s y x (x + p0)
  else if final =? 109 then Some (fb_update_color (with_colors s (fold_left sgr params (colors s))))
  else Some s.

Definition ansi_exec (s : fb) (final : Z) : option fb :=
  let params := ansi_parse_params 8 (g_csi_buf (ansi s)) 1 in
  if g_csi_private (ansi s) then ansi_private s final (nth 0 params 1)
  else
    s ← fb_draw_cell s (g_cursor_y s) (g_cursor_x s) false;
    s ← ansi_final s final params;
    fb_repaint_cursor s.

Definition ansi_goto (s : fb) (m : ansi_mode) : fb :=
  with_ansi s (FbAnsi m (g_csi_buf (ansi s)) (g_csi_private (ansi s))).

(** [ansi_consume]: whether the byte was consumed, and the new state. Bytes
    are 0..255; a byte above 127 is a negative [char]. *)
Definition ansi_consume (s : fb) (c : Z) : option (bool * fb) :=
  let a := ansi s in
  match g_ansi_state a with
  | ANSI_NORMAL => if c =? 27 then Some (true, ansi_goto s ANSI_ESC) else Some (false, s)
  | ANSI_ESC =>
      if c =? 91 then Some (true, with_ansi s (FbAnsi ANSI_CSI [] false))
      else if c =? 79 then Some (true, ansi_goto s ANSI_SS3)
      else Some (true, ansi_goto s ANSI_NORMAL)
  | ANSI_SS3 => Some (true, ansi_goto s ANSI_NORMAL)
  | ANSI_CSI =>
      if (64 <=? c) && (c <=? 126) then
        s' ← ansi_exec (ansi_goto s ANSI_NORMAL) c; Some (true, s')
      else if (zlen (g_csi_buf a) =? 0) && (c =? 63) then
        Some (true, with_ansi s (FbAnsi ANSI_CSI (g_csi_buf a) true))
      else if ((48 <=? c) && (c <=? 57)) || (c =? 59) then
        let buf := if zlen (g_csi_buf a) <? CSI_BUF_SIZE - 1 then g_csi_buf a ++ [c] else g_csi_buf a in
        Some (true, with_ansi s (FbAnsi ANSI_CSI buf (g_csi_private a)))
      else Some (true, ansi_goto s ANSI_NORMAL)
  end.

(** ** Output *)

(** The end of a character: wrap, scroll, draw the cursor. *)
Definition put_finish (s : fb) : option fb :=
  s ← (if g_cols (geom s) <=? g_cursor_x s then
         s ← history_push s; Some (with_cursor s 0 (g_cursor_y s + 1))
       else Some s);
  s ← (if g_rows (geom s) <=? g_cursor_y s then
         s ← fb_scroll_up s; Some (with_cursor s (g_cursor_x s) (g_rows (geom s) - 1))
       else Some s);
  fb_repaint_cursor s.

(** A character other than a tab that is not part of a sequence. *)
Definition put_plain (s : fb) (c : Z) : option fb :=
  let x := g_cursor_x s in
  let y := g_cursor_y s in
  let cell c := FbCell c (g_cur_color (colors s)) in
  s ← (if c =? 10 then s ← history_push s; Some (with_cursor s 0 (y + 1))
       else if c =? 13 then Some (with_cursor s 0 y)
       else if c =? 8 then
         if 0 <? x then
           let s := with_cursor s (x - 1) y in
           s ← put_text s y (x - 1) (cell 32);
           fb_draw_cell s y (x - 1) false
         else Some s
       else if (FONT_FIRST <=? c) && (c <=? FONT_LAST) then
         s ← put_text s y x (cell c);
         s ← fb_draw_cell s y x false;
         Some (with_cursor s (x + 1) y)
       else Some s);
  put_finish s.

(** The start of every character that is not part of a sequence. *)
Definition put_start (s : fb) : option fb :=
  s ← (if negb (g_view_back (hist s) =? 0) then fb_redraw_live (with_hist s (with_view (hist s) 0)) else Some s);
  fb_draw_cell s (g_cursor_y s) (g_cursor_x s) false.

(** [fb_putchar] of a character other than a tab. *)
Definition putchar_base (s : fb) (c : Z) : option fb :=
  '(consumed, s) ← ansi_consume s c;
  if (consumed : bool) then Some s else s ← put_start s; put_plain s c.

(** [do fb_putchar(' '); while (g_cursor_x % 8 != 0);] *)
Fixpoint tab_loop (fuel : nat) (s : fb) : option fb :=
  match fuel with
  | O => None
  | S fuel' =>
      s' ← putchar_base s 32;
      if g_cursor_x s' mod 8 =? 0 then Some s' else tab_loop fuel' s'
  end.

Definition fb_putchar (s : fb) (c : Z) : option fb :=
  if c =? 9 then
    '(consumed, s) ← ansi_consume s c;
    if (consumed : bool) then Some s else s ← put_start s; tab_loop 8 s
  else putchar_base s c.

(** ** The rest of the interface *)

Definition fb_get_grid (s : fb) : Z * Z := (g_cols (geom s), g_rows (geom s)).

Definition fb_fill (s : fb) (color : Z) : fb :=
  with_pixels s (fill (g_pixels s) 0 (surface (geom s)) color).

Definition fb_set_text_top (s : fb) (pixel_y : Z) : fb :=
  let g := geom s in
  with_geom s (FbGeom (g_pitch_bytes g) (g_width g) (g_height g) (g_cols g) (g_rows g) pixel_y).

(** The framebuffer that the boot loader describes. *)
Record limine_framebuffer := LimineFb {
  lf_pixels : memory;
  lf_width : Z;
  lf_height : Z;
  lf_pitch : Z;
  lf_bpp : Z;
  lf_rgb : bool;   (* memory_model is RGB *)
}.

(** [fb_init] on the state [s] of the driver (zero at boot); [None] for -1. *)
Definition fb_init (s : fb) (f : option limine_framebuffer) : option fb :=
  match f with
  | None => None
  | Some f =>
      if negb (lf_rgb f) || negb (lf_bpp f =? 32) then None
      else
        let cols := lf_width f / FONT_WIDTH in
        let rows := lf_height f / FONT_HEIGHT in
        let cols := if FB_MAX_COLS <? cols then FB_MAX_COLS else cols in
        let rows := if FB_MAX_ROWS <? rows then FB_MAX_ROWS else rows in
        let s := with_pixels s (lf_pixels f) in
        let s := with_geom s (FbGeom (lf_pitch f) (lf_width f) (lf_height f) cols rows (g_text_top (geom s))) in
        let '(i, p) := palette_lookup [] COLOR_FG COLOR_BG in
        let c := colors s in
        Some (fb_clear (with_colors s (FbColors (g_fg c) (g_bg c) i (g_reverse c) p)))
  end.

(** The static initial state of the driver. *)
Definition fb_static : fb :=
  Fb (FbGeom 0 0 0 0 0 0) (fun _ _ => FbCell 0 0) (fun _ => 0) 0 0 true
     (FbColors COLOR_FG COLOR_BG 0 false []) (FbAnsi ANSI_NORMAL [] false)
     (FbAlt (fun _ _ => FbCell 0 0) 0 0 0 0 0 false) (FbHist (fun _ _ => FbCell 0 0) 0 0 0).

(** One row of [fb_blit_scaled]: columns from [ox] on, [n] of them. *)
Fixpoint blit_row (n : nat) (ox : Z) (g : fb_geom) (x w out_w : Z) (rgb : list Z) (src dst : Z) (m : memory)
  : option memory :=
  match n with
  | O => Some m
  | S n' =>
      let sx := ox * w / out_w in
      let sx := if w <=? sx then w - 1 else sx in
      if g_width g <=? u32 (x + ox) then Some m
      else
        let a := src + sx * 3 in
        if (zlen rgb <=? a + 2) || (surface g <=? dst + ox) then None
        else
          let v := Z.lor (Z.lor (Z.shiftl (byte_at rgb a) 16) (Z.shiftl (byte_at rgb (a + 1)) 8)) (byte_at rgb (a + 2)) in
          blit_row n' (ox + 1) g x w out_w rgb src dst (upd m (dst + ox) v)
  end.

Fixpoint blit_rows (n : nat) (oy : Z) (g : fb_geom) (x y w h out_w out_h : Z) (rgb : list Z) (m : memory)
  : option memory :=
  match n with
  | O => Some m
  | S n' =>
      let sy := oy * h / out_h in
      let sy := if h <=? sy then h - 1 else sy in
      let py := u32 (y + oy) in
      if g_height g <=? py then Some m
      else
        m' ← blit_row (Z.to_nat out_w) 0 g x w out_w rgb (sy * w * 3) (py * g_pitch_words g + x) m;
        blit_rows n' (oy + 1) g x y w h out_w out_h rgb m'
  end.

(** [fb_blit_scaled]; [rgb] is [None] for a NULL pointer. *)
Definition fb_blit_scaled (s : fb) (x y w h : Z) (rgb : option (list Z)) (scale : Z) : option fb :=
  match rgb with
  | None => Some s
  | Some rgb =>
      if scale =? 0 then Some s
      else
        let out_w := u32 (Z.shiftr (w * scale) 16) in
        let out_h := u32 (Z.shiftr (h * scale) 16) in
        if (out_w =? 0) || (out_h =? 0) then Some s
        else
          m ← blit_rows (Z.to_nat out_h) 0 (geom s) x y w h out_w out_h rgb (g_pixels s);
          Some (with_pixels s m)
  end.
