(* ===== verification/FbProps.v ===== *)
(** * The console: memory safety and what is on screen

    Every byte sequence keeps the cursor in the grid and every access inside
    of the surface and the text array; plain text keeps the pixels equal to
    the rendering of the text buffer; a cursor address sequence is parsed
    back to its numbers. *)

From stdpp Require Import base numbers list.
From Stdlib Require Import ZArith Lia ZifyBool.
From S2P Require Import Prelude.
From S2P Require Import Font.
From S2P Require Import Fb.

(** ** The invariant *)

(** The grid fits the surface below the first text row. *)
Definition geom_ok (g : fb_geom) : Prop :=
  0 < g_cols g <= FB_MAX_COLS /\ 0 < g_rows g <= FB_MAX_ROWS /\
  g_cols g * FONT_WIDTH <= g_pitch_words g /\
  0 <= g_text_top g /\ g_text_top g + g_rows g * FONT_HEIGHT <= g_height g.

Record fb_ok (s : fb) : Prop := FbOk {
  ok_geom : geom_ok (geom s);
  ok_x : 0 <= g_cursor_x s < g_cols (geom s);
  ok_y : 0 <= g_cursor_y s < g_rows (geom s);
  ok_alt_x : 0 <= g_alt_cursor_x (alt s) < g_cols (geom s);
  ok_alt_y : 0 <= g_alt_cursor_y (alt s) < g_rows (geom s);
  ok_csi : zlen (g_csi_buf (ansi s)) < CSI_BUF_SIZE;
  ok_head : 0 <= g_hist_head (hist s) < FB_HISTORY_ROWS;
  ok_count : 0 <= g_hist_count (hist s) <= FB_HISTORY_ROWS;
}.

(** States that differ in text and pixels only. *)
Definition same_but_screen (s s' : fb) : Prop :=
  exists t p, s' = with_text (with_pixels s p) t.

Lemma sbs_refl s : same_but_screen s s.
Proof. exists (g_text s), (g_pixels s). by destruct s. Qed.

Lemma sbs_trans s1 s2 s3 : same_but_screen s1 s2 -> same_but_screen s2 s3 -> same_but_screen s1 s3.
Proof. intros (t & p & ->) (t' & p' & ->). by exists t', p'. Qed.

Lemma sbs_ok s s' : same_but_screen s s' -> fb_ok s -> fb_ok s'.
Proof. intros (t & p & ->) [H1 H2 H3 H4 H5 H6 H7 H8]. by split. Qed.

Lemma sbs_geom s s' : same_but_screen s s' -> geom s' = geom s /\ g_cursor_x s' = g_cursor_x s /\ g_cursor_y s' = g_cursor_y s /\
  g_cursor_visible s' = g_cursor_visible s /\ colors s' = colors s /\ ansi s' = ansi s /\ hist s' = hist s /\ alt s' = alt s.
Proof. by intros (t & p & ->). Qed.

(** ** Safety of the drawing functions *)

Lemma paint_cell_run s row col cell b :
  geom_ok (geom s) -> exists p, fb_paint_cell s row col cell b = Some (with_pixels s p).
Proof.
  intros (Hc & Hr & Hp & Ht & Hh). unfold fb_paint_cell.
  destruct (_ || _) eqn:E; [exists (g_pixels s); by destruct s|]. bool_to_prop.
  destruct (pair_of s (cell_color cell)) as [fg bg].
  assert (Hin : 0 <= cell_base (geom s) row col /\
    cell_base (geom s) row col + (FONT_HEIGHT - 1) * g_pitch_words (geom s) + (FONT_WIDTH - 1) < surface (geom s)).
  { unfold cell_base, surface, FONT_HEIGHT, FONT_WIDTH in *. set (g := geom s) in *. set (pw := g_pitch_words g) in *.
    assert (g_text_top g + row * 16 + 16 <= g_height g) by lia.
    assert (0 <= g_text_top g + row * 16) by lia. split; [nia|].
    assert ((g_text_top g + row * 16 + 16) * pw <= pw * g_height g) by nia. nia. }
  rewrite (proj2 (Z.leb_le 0 _)), (proj2 (Z.ltb_lt _ (surface _))) by lia. eexists. done.
Qed.

Lemma draw_cell_run s row col b :
  geom_ok (geom s) -> exists p, fb_draw_cell s row col b = Some (with_pixels s p).
Proof. apply paint_cell_run. Qed.

(** A loop whose body keeps [P] runs to its end. *)
Lemma for_range_inv (P : fb -> Prop) n i body s :
  (forall j s, i <= j < i + Z.of_nat n -> P s -> exists s', body j s = Some s' /\ P s') -> P s ->
  exists s', for_range n i body s = Some s' /\ P s'.
Proof.
  revert i s. induction n as [|n IH]; intros i s Hb Hs; cbn [for_range]; [eauto|].
  destruct (Hb i s) as (s1 & -> & H1); [lia|done|]. cbn. apply IH; [|done].
  intros j s' Hj. apply Hb. lia.
Qed.

Lemma sbs_pixels s s1 p : same_but_screen s s1 -> same_but_screen s (with_pixels s1 p).
Proof. intros (t & q & ->). by exists t, p. Qed.

Lemma sbs_self s : fb_ok s -> exists s', Some s = Some s' /\ same_but_screen s s'.
Proof. intros _. exists s. split; [done|apply sbs_refl]. Qed.

Lemma repaint_cursor_run s : fb_ok s -> exists s', fb_repaint_cursor s = Some s' /\ same_but_screen s s'.
Proof.
  intros Hok. unfold fb_repaint_cursor. destruct (g_cursor_visible s); [|by apply sbs_self].
  destruct (draw_cell_run s (g_cursor_y s) (g_cursor_x s) true (ok_geom _ Hok)) as [p ->].
  eexists. split; [done|]. apply sbs_pixels, sbs_refl.
Qed.

Lemma redraw_live_run s : fb_ok s -> exists s', fb_redraw_live s = Some s' /\ same_but_screen s s'.
Proof.
  intros Hok. unfold fb_redraw_live.
  destruct (for_range_inv (same_but_screen s) (Z.to_nat (g_rows (geom s))) 0
    (fun row s => for_range (Z.to_nat (g_cols (geom s))) 0 (fun col s => fb_draw_cell s row col false) s) s)
    as (s1 & -> & H1); [|apply sbs_refl|].
  - intros row s1 _ H1. apply (for_range_inv (same_but_screen s)); [|done]. intros col s2 _ H2.
    destruct (draw_cell_run s2 row col false) as [p ->]; [apply (ok_geom s2), (sbs_ok s); done|].
    eexists. split; [done|]. by apply sbs_pixels.
  - cbn. destruct (repaint_cursor_run s1) as (s2 & -> & H2); [by apply (sbs_ok s)|].
    eexists. split; [done|]. by eapply sbs_trans.
Qed.

Lemma redraw_history_run s : fb_ok s -> exists s', fb_redraw_history s = Some s' /\ same_but_screen s s'.
Proof.
  intros Hok. unfold fb_redraw_history. apply (for_range_inv (same_but_screen s)); [|apply sbs_refl].
  intros row s1 _ H1. apply (for_range_inv (same_but_screen s)); [|done]. intros col s2 _ H2.
  destruct (paint_cell_run s2 row col
    (if g_hist_count (hist s1) - g_view_back (hist s1) - g_rows (geom s1) + row <? 0 then FbCell 32 0
     else g_history (hist s1) (hist_slot (hist s1) (g_hist_count (hist s1) - g_view_back (hist s1) - g_rows (geom s1) + row)) col) false)
    as [p E]; [apply (ok_geom s2), (sbs_ok s); done|].
  eexists. split; [exact E|]. by apply sbs_pixels.
Qed.

Lemma put_text_run s row col cell :
  geom_ok (geom s) -> 0 <= row < g_rows (geom s) -> 0 <= col < g_cols (geom s) ->
  put_text s row col cell = Some (with_text s (grid_set (g_text s) row col cell)).
Proof.
  intros (Hc & Hr & _) H1 H2. unfold put_text.
  by rewrite (proj2 (Z.leb_le 0 row)), (proj2 (Z.ltb_lt row FB_MAX_ROWS)), (proj2 (Z.leb_le 0 col)),
    (proj2 (Z.ltb_lt col FB_MAX_COLS)) by lia.
Qed.

Lemma sbs_text s s1 t : same_but_screen s s1 -> same_but_screen s (with_text s1 t).
Proof. intros (t' & q & ->). by exists t, q. Qed.

Lemma erase_cells_run s row col0 col1 :
  fb_ok s -> exists s', ansi_erase_cells s row col0 col1 = Some s' /\ same_but_screen s s'.
Proof.
  intros Hok. unfold ansi_erase_cells. destruct (_ || _) eqn:E; [by apply sbs_self|]. bool_to_prop.
  apply (for_range_inv (same_but_screen s)); [|apply sbs_refl]. intros c s1 Hc H1.
  destruct (Z.ltb_spec c 0); [eauto|]. destruct (sbs_geom _ _ H1) as (Eg & _).
  rewrite put_text_run; [|apply ok_geom, (sbs_ok s); done|rewrite Eg; lia|rewrite Eg; lia]. cbn [mbind option_bind].
  match goal with |- context [fb_paint_cell ?x ?r ?cc ?ce ?b] => destruct (paint_cell_run x r cc ce b) as [p ->] end.
  { apply (ok_geom s1), (sbs_ok s); done. }
  eexists. split; [done|]. by apply sbs_pixels, sbs_text.
Qed.

(** ** Safety of the escape sequences *)

Lemma csi_number_nonneg l v any : 0 <= v -> 0 <= fst (fst (csi_number l v any)).
Proof.
  revert v any. induction l as [|c l IH]; intros v any Hv; cbn [csi_number]; [done|].
  destruct (_ && _) eqn:E; [|done]. bool_to_prop. apply IH. split_tests; lia.
Qed.

Lemma params_nonneg max l : Forall (fun p => 0 <= p) (ansi_parse_params max l 1).
Proof.
  revert l. induction max as [|max IH]; intros l; cbn [ansi_parse_params]; [constructor|].
  assert (Hrep : forall n, Forall (fun p => 0 <= p) (replicate n 1)) by (intros n; apply Forall_replicate; lia).
  destruct l as [|c l]; [apply (Hrep (S max))|].
  pose proof (csi_number_nonneg (c :: l) 0 false ltac:(lia)) as Hn.
  destruct (csi_number (c :: l) 0 false) as [[v any] rest]. cbn in Hn. constructor; [by destruct any; lia|].
  destruct rest as [|d rest]; [apply Hrep|]. destruct (d =? 59); [apply IH|apply Hrep].
Qed.

Lemma nth_param i params : Forall (fun p => 0 <= p) params -> 0 <= nth i params 1.
Proof.
  intros H. revert i. induction H as [|p l Hp Hl IH]; intros i; [by destruct i|]. destruct i; [done|apply IH].
Qed.

Lemma ok_cursor s x y :
  fb_ok s -> 0 <= x < g_cols (geom s) -> 0 <= y < g_rows (geom s) -> fb_ok (with_cursor s x y).
Proof. intros [H1 H2 H3 H4 H5 H6 H7 H8] Hx Hy. by split. Qed.

Lemma ok_colors s c : fb_ok s -> fb_ok (with_colors s c).
Proof. intros [H1 H2 H3 H4 H5 H6 H7 H8]. by split. Qed.

Lemma ok_update_color s : fb_ok s -> fb_ok (fb_update_color s).
Proof. intros Hok. unfold fb_update_color. destruct (if g_reverse (colors s) then _ else _). by apply ok_colors. Qed.

Lemma ok_clear s : fb_ok s -> fb_ok (fb_clear s).
Proof.
  intros [(G1 & G2 & G3 & G4 & G5) H2 H3 H4 H5 H6 H7 H8]. unfold fb_clear.
  split; cbn; try done; try lia. unfold geom_ok. cbn. split_and!; try done; lia.
Qed.

Lemma ok_goto s m : fb_ok s -> fb_ok (ansi_goto s m).
Proof. intros [H1 H2 H3 H4 H5 H6 H7 H8]. by split. Qed.

Lemma clamp_range v n : 0 < n -> 0 <= clamp v n < n.
Proof. intros. unfold clamp. split_tests; lia. Qed.

Lemma clamp_min v n : 0 < n -> clamp v n = Z.min (Z.max 0 v) (n - 1).
Proof. intros. unfold clamp. destruct (Z.ltb_spec v 0), (Z.leb_spec n (if v <? 0 then 0 else v)); split_tests; lia. Qed.

Lemma alt_exit_run s : fb_ok s -> exists s', ansi_alt_exit s = Some s' /\ fb_ok s'.
Proof.
  intros Hok. unfold ansi_alt_exit. destruct (g_alt_active (alt s)); cbn [negb]; [|eauto].
  match goal with |- exists s', fb_redraw_live ?x = _ /\ _ => destruct (redraw_live_run x) as (s' & -> & Hs); [|exists s'; split; [done|]] end.
  - destruct Hok as [H1 H2 H3 H4 H5 H6 H7 H8]. by split.
  - eapply sbs_ok; [exact Hs|]. destruct Hok as [H1 H2 H3 H4 H5 H6 H7 H8]. by split.
Qed.

Lemma private_run s final m : fb_ok s -> exists s', ansi_private s final m = Some s' /\ fb_ok s'.
Proof.
  intros Hok. unfold ansi_private.
  destruct (final =? 104); [|destruct (final =? 108); [|eauto]].
  - destruct (m =? 25); [eexists; split; [done|]; by destruct Hok|].
    destruct ((m =? 47) || (m =? 1049)).
    { eexists. split; [done|]. unfold ansi_alt_enter. destruct (g_alt_active (alt s)); [done|].
      apply ok_clear. by destruct Hok. }
    destruct (m =? 1048); [|eauto]. eexists. split; [done|]. by destruct Hok.
  - destruct (m =? 25); [eexists; split; [done|]; by destruct Hok|].
    destruct ((m =? 47) || (m =? 1049)); [by apply alt_exit_run|].
    destruct (m =? 1048); [|eauto]. eexists. split; [done|]. by apply ok_cursor; destruct Hok.
Qed.

Lemma erase_rows_run s n i (last : Z -> Z) :
  fb_ok s ->
  exists s', for_range n i (fun r s => ansi_erase_cells s r 0 (last r)) s = Some s' /\ fb_ok s'.
Proof.
  intros Hok. apply (for_range_inv fb_ok); [|done]. intros j s1 _ H1.
  destruct (erase_cells_run s1 j 0 (last j) H1) as (s2 & -> & H2). eexists. split; [done|]. by eapply sbs_ok.
Qed.

Lemma erase_ok s row c0 c1 : fb_ok s -> exists s', ansi_erase_cells s row c0 c1 = Some s' /\ fb_ok s'.
Proof. intros Hok. destruct (erase_cells_run s row c0 c1 Hok) as (s' & -> & H). eexists. split; [done|]. by eapply sbs_ok. Qed.

Lemma final_run s final params :
  fb_ok s -> Forall (fun p => 0 <= p) params -> exists s', ansi_final s final params = Some s' /\ fb_ok s'.
Proof.
  intros Hok Hp. pose proof (nth_param 0 params Hp) as P0. pose proof (nth_param 1 params Hp) as P1.
  destruct (ok_geom _ Hok) as (G1 & G2 & _). pose proof (ok_x _ Hok). pose proof (ok_y _ Hok).
  unfold ansi_final. set (p0 := nth 0 params 1) in *. set (p1 := nth 1 params 1) in *.
  assert (Hcur : forall x y, 0 <= x < g_cols (geom s) -> 0 <= y < g_rows (geom s) ->
    exists s', Some (with_cursor s x y) = Some s' /\ fb_ok s') by (intros; eexists; split; [done|by apply ok_cursor]).
  destruct (_ || _); [apply Hcur; apply clamp_range; lia|].
  destruct (final =? 65); [apply Hcur; [done|split_tests; lia]|].
  destruct (final =? 66); [apply Hcur; [done|split_tests; lia]|].
  destruct (final =? 67); [apply Hcur; [split_tests; lia|done]|].
  destruct (final =? 68); [apply Hcur; [split_tests; lia|done]|].
  destruct (_ || _); [apply Hcur; [apply clamp_range; lia|done]|].
  destruct (final =? 100); [apply Hcur; [done|apply clamp_range; lia]|].
  destruct (final =? 74).
  { destruct (_ || _); [by apply (erase_rows_run s _ _ (fun _ => g_cols (geom s)))|].
    destruct (p0 =? 1); [by apply (erase_rows_run s _ _ (fun r => if r =? g_cursor_y s then g_cursor_x s + 1 else g_cols (geom s)))|].
    destruct (erase_ok s (g_cursor_y s) (g_cursor_x s) (g_cols (geom s)) Hok) as (s1 & -> & H1). cbn [mbind option_bind].
    by apply (erase_rows_run s1 _ _ (fun _ => g_cols (geom s))). }
  destruct (final =? 75); [destruct (p0 =? 2); [|destruct (p0 =? 1)]; by apply erase_ok|].
  destruct (final =? 88); [by apply erase_ok|].
  destruct (final =? 109); [|eauto]. eexists. split; [done|]. by apply ok_update_color, ok_colors.
Qed.

Lemma exec_run s final : fb_ok s -> exists s', ansi_exec s final = Some s' /\ fb_ok s'.
Proof.
  intros Hok. unfold ansi_exec. destruct (g_csi_private (ansi s)); [by apply private_run|].
  destruct (draw_cell_run s (g_cursor_y s) (g_cursor_x s) false (ok_geom _ Hok)) as [p ->]. cbn [mbind option_bind].
  destruct (final_run (with_pixels s p) final (ansi_parse_params 8 (g_csi_buf (ansi s)) 1)) as (s1 & -> & H1);
    [by destruct Hok|apply params_nonneg|]. cbn.
  destruct (repaint_cursor_run s1 H1) as (s2 & -> & H2). eexists. split; [done|]. by eapply sbs_ok.
Qed.

Lemma consume_run s c : fb_ok s -> exists b s', ansi_consume s c = Some (b, s') /\ fb_ok s' /\
  (b = false -> s' = s /\ g_ansi_state (ansi s) = ANSI_NORMAL /\ c <> 27).
Proof.
  intros Hok. unfold ansi_consume. destruct (g_ansi_state (ansi s)).
  - destruct (Z.eqb_spec c 27); eexists _, _; (split; [done|]); [split; [by apply ok_goto|done]|done].
  - destruct (c =? 91); [eexists _, _; split; [done|]; split; [by destruct Hok|done]|].
    destruct (c =? 79); (eexists _, _; split; [done|]; split; [by apply ok_goto|done]).
  - destruct (_ && _).
    { destruct (exec_run (ansi_goto s ANSI_NORMAL) c) as (s1 & -> & H1); [by apply ok_goto|].
      eexists _, _. split; [done|]. split; done. }
    destruct (_ && _); [eexists _, _; split; [done|]; split; [by destruct Hok|done]|].
    destruct (_ || _); [|eexists _, _; split; [done|]; split; [by apply ok_goto|done]].
    eexists _, _. split; [done|]. split; [|done]. destruct Hok as [H1 H2 H3 H4 H5 H6 H7 H8]. split; try done. cbn.
    destruct (Z.ltb_spec (zlen (g_csi_buf (ansi s))) (CSI_BUF_SIZE - 1)); [|done].
    rewrite zlen_app. change (zlen [c]) with 1. lia.
  - eexists _, _. split; [done|]. split; [by apply ok_goto|done].
Qed.

(** ** What is on screen *)

(** The pixel [(x, y)] of a cell of the text buffer, with its colours swapped
    if [inv]. *)
Definition render (s : fb) (row col : Z) (inv : bool) (x y : Z) : Z :=
  let cell := g_text s row col in
  let uc := if (cell_c cell <? FONT_FIRST) || (FONT_LAST <? cell_c cell) then 32 else cell_c cell in
  let '(fg, bg) := pair_of s (cell_color cell) in
  cell_pixel (if inv then bg else fg) (if inv then fg else bg) uc x y.

Definition shown (s : fb) (row col : Z) (inv : bool) : Prop :=
  forall x y, 0 <= x < FONT_WIDTH -> 0 <= y < FONT_HEIGHT ->
    g_pixels s (cell_base (geom s) row col + y * g_pitch_words (geom s) + x) = render s row col inv x y.

(** The screen shows the text buffer; the cell at the cursor is inverted if
    [inv]. *)
Definition mirror (s : fb) (inv : bool) : Prop :=
  forall row col, 0 <= row < g_rows (geom s) -> 0 <= col < g_cols (geom s) ->
    shown s row col (inv && (row =? g_cursor_y s) && (col =? g_cursor_x s)).

(** The background of the current colour pair is black. *)
Definition black (s : fb) : Prop := snd (pair_of s (g_cur_color (colors s))) = 0.

Lemma cell_pixel_index g row col x y :
  cell_base g row col + y * g_pitch_words g + x =
  (g_text_top g + row * FONT_HEIGHT + y) * g_pitch_words g + (col * FONT_WIDTH + x).
Proof. unfold cell_base. ring. Qed.

(** A cell owns its words. *)
Lemma paint_block_other g m row col f row' col' x y :
  geom_ok g -> 0 <= col < g_cols g -> 0 <= col' < g_cols g -> 0 <= x < FONT_WIDTH -> 0 <= y < FONT_HEIGHT ->
  (row', col') <> (row, col) ->
  paint_block m (cell_base g row col) (g_pitch_words g) f (cell_base g row' col' + y * g_pitch_words g + x) =
  m (cell_base g row' col' + y * g_pitch_words g + x).
Proof.
  intros (G1 & G2 & G3 & G4 & G5) Hc Hc' Hx Hy Hne. unfold paint_block.
  set (i := cell_base g row' col' + y * g_pitch_words g + x). set (pw := g_pitch_words g) in *.
  destruct (_ && _) eqn:E; [|done]. exfalso. bool_to_prop. apply Hne.
  unfold FONT_WIDTH, FONT_HEIGHT in *. assert (Hpw : 0 < pw) by lia.
  set (q := (i - cell_base g row col) / pw) in *. set (r := (i - cell_base g row col) mod pw) in *.
  assert (Hq : 0 <= q) by (apply Z.div_pos; lia).
  pose proof (Z.mod_pos_bound (i - cell_base g row col) pw Hpw) as Hr. fold r in Hr.
  pose proof (Z.div_mod (i - cell_base g row col) pw ltac:(lia)) as Ediv. fold q r in Ediv.
  assert (Hu : g_text_top g + row' * 16 + y = g_text_top g + row * 16 + q /\ col' * 8 + x = col * 8 + r).
  { apply (Z.div_mod_unique pw); [left; lia|left; lia|]. unfold i, cell_base, FONT_WIDTH, FONT_HEIGHT in Ediv. fold pw in Ediv. lia. }
  f_equal; lia.
Qed.

Lemma paint_block_own g m row col f x y :
  geom_ok g -> 0 <= x < FONT_WIDTH -> 0 <= y < FONT_HEIGHT ->
  paint_block m (cell_base g row col) (g_pitch_words g) f (cell_base g row col + y * g_pitch_words g + x) = f x y.
Proof.
  intros (G1 & G2 & G3 & G4 & G5) Hx Hy. unfold paint_block. set (pw := g_pitch_words g) in *. unfold FONT_WIDTH, FONT_HEIGHT in *.
  replace (cell_base g row col + y * pw + x - cell_base g row col) with (x + y * pw) by lia.
  rewrite Z.div_add, Z.mod_add, Z.div_small, Z.mod_small by lia.
  rewrite (proj2 (Z.leb_le 0 _)) by nia. rewrite (proj2 (Z.ltb_lt (0 + y) 16)), (proj2 (Z.ltb_lt x 8)) by lia. done.
Qed.

(** Drawing a cell shows it and leaves the others as they are. *)
Lemma draw_cell_shows s row col b :
  geom_ok (geom s) -> 0 <= row < g_rows (geom s) -> 0 <= col < g_cols (geom s) ->
  exists p, fb_draw_cell s row col b = Some (with_pixels s p) /\
    shown (with_pixels s p) row col (b && (row =? g_cursor_y s) && (col =? g_cursor_x s)) /\
    forall row' col' inv, 0 <= col' < g_cols (geom s) -> (row', col') <> (row, col) ->
      shown s row' col' inv -> shown (with_pixels s p) row' col' inv.
Proof.
  intros Hg Hr Hc. destruct (draw_cell_run s row col b Hg) as [p E]. exists p. split; [exact E|].
  unfold fb_draw_cell, fb_paint_cell in E.
  assert ((row <? 0) || (g_rows (geom s) <=? row) || (col <? 0) || (g_cols (geom s) <=? col) = false) as Eb by lia.
  rewrite Eb in E. destruct (pair_of s (cell_color (g_text s row col))) as [fg bg] eqn:Ep.
  destruct (_ && (_ <? surface _)); [|done].
  assert (p = paint_block (g_pixels s) (cell_base (geom s) row col) (g_pitch_words (geom s))
    (cell_pixel (if b && (row =? g_cursor_y s) && (col =? g_cursor_x s) then bg else fg)
       (if b && (row =? g_cursor_y s) && (col =? g_cursor_x s) then fg else bg)
       (if (cell_c (g_text s row col) <? FONT_FIRST) || (FONT_LAST <? cell_c (g_text s row col)) then 32
        else cell_c (g_text s row col)))) as -> by (by apply (f_equal (fun o => match o with Some x => g_pixels x | None => fun _ => 0 end)) in E).
  split.
  - intros x y Hx Hy. cbn [g_pixels with_pixels geom]. rewrite paint_block_own by done.
    unfold render, pair_of in *. cbn [g_text with_pixels colors]. by rewrite Ep.
  - intros row' col' inv Hc' Hne Hs x y Hx Hy. cbn [g_pixels with_pixels geom]. rewrite paint_block_other by done. by apply Hs.
Qed.

(** Drawing the cell at the cursor sets or clears its inversion. *)
Lemma draw_cursor_mirror s inv b :
  fb_ok s -> mirror s inv ->
  exists p, fb_draw_cell s (g_cursor_y s) (g_cursor_x s) b = Some (with_pixels s p) /\ mirror (with_pixels s p) b.
Proof.
  intros Hok Hm. destruct (draw_cell_shows s (g_cursor_y s) (g_cursor_x s) b (ok_geom _ Hok) (ok_y _ Hok) (ok_x _ Hok))
    as (p & E & Hown & Hother). exists p. split; [done|]. intros row col Hr Hc. cbn [geom with_pixels g_cursor_x g_cursor_y] in *.
  destruct (decide ((row, col) = (g_cursor_y s, g_cursor_x s))) as [[= -> ->]|Hne].
  - rewrite !Z.eqb_refl in *. by rewrite !andb_true_r in *.
  - assert (Hoff : forall c, c && (row =? g_cursor_y s) && (col =? g_cursor_x s) = false).
    { intros c. destruct (Z.eqb_spec row (g_cursor_y s)), (Z.eqb_spec col (g_cursor_x s)); subst; try done; by destruct c. }
    rewrite Hoff. apply Hother; [done|done|]. specialize (Hm row col Hr Hc). by rewrite Hoff in Hm.
Qed.

(** Writing a cell and drawing it. *)
Lemma put_draw_mirror s row col cell :
  fb_ok s -> mirror s false -> 0 <= row < g_rows (geom s) -> 0 <= col < g_cols (geom s) ->
  exists p, fb_draw_cell (with_text s (grid_set (g_text s) row col cell)) row col false =
      Some (with_pixels (with_text s (grid_set (g_text s) row col cell)) p) /\
    mirror (with_pixels (with_text s (grid_set (g_text s) row col cell)) p) false.
Proof.
  intros Hok Hm Hr Hc. set (s1 := with_text s _).
  destruct (draw_cell_shows s1 row col false (ok_geom _ Hok) Hr Hc) as (p & E & Hown & Hother).
  exists p. split; [done|]. intros row' col' Hr' Hc'. cbn [andb].
  destruct (decide ((row', col') = (row, col))) as [[= -> ->]|Hne]; [exact Hown|].
  apply Hother; [done|done|]. intros x y Hx Hy. specialize (Hm row' col' Hr' Hc' x y Hx Hy). cbn [andb] in Hm.
  cbn [g_pixels s1 with_text geom] in *. rewrite Hm. unfold render, pair_of. cbn [g_text s1 with_text colors]. unfold grid_set.
  destruct (Z.eqb_spec row' row), (Z.eqb_spec col' col); subst; try done.
Qed.

(** The glyph of the blank has no foreground pixel. *)
Lemma glyph_space y : glyph_row 32 y = 0.
Proof.
  unfold glyph_row. change (nth (Z.to_nat (32 - FONT_FIRST)) font8x16 []) with (replicate 16 0).
  rewrite nth_lookup. destruct (replicate 16 0 !! Z.to_nat y) as [v|] eqn:E; [|done].
  by apply lookup_replicate in E as [-> _].
Qed.

(** Scrolling moves the picture with the text, if the blank line is black. *)
Lemma scroll_mirror s :
  fb_ok s -> mirror s false -> black s ->
  mirror (with_pixels (with_text s (scroll_text (geom s) (g_text s) (blank s))) (scroll_pixels (geom s) (g_pixels s))) false.
Proof.
  intros Hok Hm Hb row col Hr Hc x y Hx Hy. cbn [andb geom with_pixels with_text g_pixels] in *.
  destruct (ok_geom _ Hok) as (G1 & G2 & G3 & G4 & G5). rewrite cell_pixel_index.
  set (g := geom s) in *. set (pw := g_pitch_words g) in *. unfold FONT_WIDTH, FONT_HEIGHT in *.
  assert (Hpw : 0 < pw) by lia. unfold scroll_pixels, FONT_HEIGHT. fold pw.
  unfold render, pair_of. cbn [g_text with_pixels with_text colors]. unfold scroll_text.
  rewrite (proj2 (Z.leb_le 0 col)), (proj2 (Z.ltb_lt col _)), (proj2 (Z.leb_le 0 row)) by lia. cbn [andb].
  destruct (Z.ltb_spec row (g_rows g - 1)) as [Hlt|Hge].
  - rewrite (proj2 (Z.leb_le _ _)), (proj2 (Z.ltb_lt _ _)) by nia. cbn [andb].
    assert (Hr1 : 0 <= row + 1 < g_rows g) by lia.
    specialize (Hm (row + 1) col Hr1 Hc x y Hx Hy). cbn [andb] in Hm. rewrite cell_pixel_index in Hm.
    fold g pw in Hm. unfold FONT_WIDTH, FONT_HEIGHT in Hm. unfold render, pair_of in Hm. rewrite <-Hm. f_equal. ring.
  - assert (row = g_rows g - 1) as -> by lia. rewrite Z.eqb_refl.
    rewrite (proj2 (Z.ltb_ge _ ((g_text_top g) * pw + (g_rows g - 1) * (16 * pw)))) by nia. rewrite andb_false_r.
    rewrite (proj2 (Z.leb_le _ _)), (proj2 (Z.ltb_lt _ _)) by nia. cbn [andb blank cell_c cell_color].
    unfold black, pair_of in Hb. destruct (nth _ (g_palette (colors s)) (0, 0)) as [fg bg] eqn:En. cbn in Hb. subst bg.
    change (32 <? FONT_FIRST) with false. change (FONT_LAST <? 32) with false. cbn [orb]. unfold cell_pixel.
    by rewrite glyph_space, Z.land_0_l.
Qed.

Lemma repaint_mirror s :
  fb_ok s -> mirror s false -> exists s', fb_repaint_cursor s = Some s' /\ same_but_screen s s' /\ mirror s' (g_cursor_visible s).
Proof.
  intros Hok Hm. unfold fb_repaint_cursor. destruct (g_cursor_visible s); [|exists s; split_and!; try done; apply sbs_refl].
  destruct (draw_cursor_mirror s false true Hok Hm) as (p & -> & Hm'). eexists. split; [done|]. split; [apply sbs_pixels, sbs_refl|done].
Qed.

(** ** Safety of output *)

Lemma history_push_run s :
  fb_ok s -> exists h, history_push s = Some (with_hist s h) /\ fb_ok (with_hist s h) /\ g_view_back h = g_view_back (hist s).
Proof.
  intros Hok. unfold history_push. destruct (ok_geom _ Hok) as (_ & G2 & _). pose proof (ok_y _ Hok).
  rewrite (proj2 (Z.leb_le 0 (g_cursor_y s))), (proj2 (Z.ltb_lt (g_cursor_y s) FB_MAX_ROWS)) by lia.
  eexists. split; [done|]. split; [|done]. destruct Hok as [H1 H2 H3 H4 H5 H6 H7 H8]. split; try done; cbn.
  - apply Z.mod_pos_bound. done.
  - split_tests; lia.
Qed.

Lemma scroll_up_run s :
  geom_ok (geom s) -> fb_scroll_up s =
    Some (with_pixels (with_text s (scroll_text (geom s) (g_text s) (blank s))) (scroll_pixels (geom s) (g_pixels s))).
Proof.
  intros (G1 & G2 & G3 & G4 & G5). unfold fb_scroll_up, surface. unfold FONT_HEIGHT, FONT_WIDTH in *.
  rewrite (proj2 (Z.leb_le _ _)); [done|]. nia.
Qed.

(** After wrapping and scrolling the cursor is in the grid again. *)
Lemma put_finish_run s x y :
  fb_ok s -> 0 <= x <= g_cols (geom s) -> 0 <= y <= g_rows (geom s) -> (x = g_cols (geom s) -> y < g_rows (geom s)) ->
  exists s', put_finish (with_cursor s x y) = Some s' /\ fb_ok s' /\
    ansi s' = ansi s /\ g_view_back (hist s') = g_view_back (hist s) /\ colors s' = colors s /\
    g_cursor_visible s' = g_cursor_visible s /\
    g_cursor_x s' = (if x <? g_cols (geom s) then x else 0) /\
    (mirror s false -> black s -> mirror s' (g_cursor_visible s)).
Proof.
  intros Hok Hx Hy Hxy. destruct (ok_geom _ Hok) as (G1 & G2 & G3 & G4 & G5). unfold put_finish. cbn [geom with_cursor g_cursor_x].
  assert (Hw : exists s1 y1, (if g_cols (geom s) <=? x
              then s ← history_push (with_cursor s x y); Some (with_cursor s 0 (g_cursor_y s + 1))
              else Some (with_cursor s x y)) = Some (with_cursor s1 (if x <? g_cols (geom s) then x else 0) y1) /\
            fb_ok s1 /\ geom s1 = geom s /\ ansi s1 = ansi s /\ g_view_back (hist s1) = g_view_back (hist s) /\
            colors s1 = colors s /\ g_cursor_visible s1 = g_cursor_visible s /\ 0 <= y1 <= g_rows (geom s) /\
            (mirror s false -> mirror s1 false)).
  { destruct (Z.leb_spec (g_cols (geom s)) x).
    - assert (Hy' : 0 <= y < g_rows (geom s)) by lia.
      assert (Hrow : exists h, history_push (with_cursor s x y) = Some (with_hist (with_cursor s x y) h) /\
                fb_ok (with_hist s h) /\ g_view_back h = g_view_back (hist s)).
      { destruct (history_push_run (with_cursor s 0 y)) as (h & E & Hh & Hv); [apply ok_cursor; try done; lia|].
        exists h. split; [|split; [destruct Hok, Hh; by split|done]]. revert E. unfold history_push. cbn.
        destruct (_ && _); [|done]. intros [= <-]. done. }
      destruct Hrow as (h & -> & Hh & Hv). cbn. exists (with_hist s h), (y + 1).
      rewrite (proj2 (Z.ltb_ge x _)) by lia. split; [done|]. split_and!; try done; lia.
    - exists s, y. rewrite (proj2 (Z.ltb_lt x _)) by lia. split; [done|]. split_and!; try done; lia. }
  destruct Hw as (s1 & y1 & -> & Hok1 & Eg & Ea & Ev & Ec & Evis & Hy1 & Hm1). cbn [mbind option_bind].
  set (x1 := if x <? g_cols (geom s) then x else 0).
  assert (Hx1 : 0 <= x1 < g_cols (geom s1)) by (rewrite Eg; unfold x1; split_tests; lia).
  cbn [geom with_cursor g_cursor_y g_cursor_x]. rewrite Eg.
  assert (Hs : exists s2, (if g_rows (geom s) <=? y1
      then s ← fb_scroll_up (with_cursor s1 x1 y1); Some (with_cursor s (g_cursor_x s) (g_rows (geom s) - 1))
      else Some (with_cursor s1 x1 y1)) = Some s2 /\ fb_ok s2 /\ ansi s2 = ansi s /\
      g_view_back (hist s2) = g_view_back (hist s) /\ colors s2 = colors s /\ g_cursor_visible s2 = g_cursor_visible s /\
      g_cursor_x s2 = x1 /\ (mirror s false -> black s -> mirror s2 false)).
  { destruct (Z.leb_spec (g_rows (geom s)) y1).
    - rewrite scroll_up_run by (cbn; by apply ok_geom). cbn [mbind option_bind]. eexists. split; [done|].
      split; [|cbn; split_and!; try done].
      + assert (Hb : fb_ok (with_cursor s1 x1 (g_rows (geom s1) - 1))) by (apply ok_cursor; [done..|rewrite Eg; lia]).
        destruct Hb as [H1 H2 H3 H4 H5 H6 H7 H8]. by split.
      + intros Hm Hbl. apply (scroll_mirror s1 Hok1 (Hm1 Hm)). unfold black, pair_of in *. by rewrite Ec.
    - eexists. split; [done|]. split; [|cbn; split_and!; try done; intros Hm _; by apply Hm1].
      apply ok_cursor; [done..|rewrite Eg; lia]. }
  destruct Hs as (s2 & E2 & Hok2 & Ea2 & Ev2 & Ec2 & Evis2 & Ex2 & Hm2). rewrite E2. cbn [mbind option_bind].
  destruct (repaint_cursor_run s2 Hok2) as (s3 & E3 & H3). exists s3. split; [done|].
  split; [by eapply sbs_ok|]. destruct (sbs_geom _ _ H3) as (_ & Ex3 & _ & Evis3 & Ec3 & Ea3 & Eh3 & _).
  rewrite Ex3, Evis3, Ec3, Ea3, Eh3. split_and!; try done. intros Hm Hbl.
  destruct (repaint_mirror s2 Hok2 (Hm2 Hm Hbl)) as (s3' & E3' & _ & Hm3).
  assert (s3' = s3) as -> by congruence. by rewrite <-Evis2.
Qed.

(** What output of a plain character keeps. *)
Definition plain_step (s s' : fb) : Prop :=
  fb_ok s' /\ ansi s' = ansi s /\ g_view_back (hist s') = 0 /\ colors s' = colors s /\
  g_cursor_visible s' = g_cursor_visible s.

Lemma put_cell_run s row col cell :
  fb_ok s -> 0 <= row < g_rows (geom s) -> 0 <= col < g_cols (geom s) ->
  let s1 := with_text s (grid_set (g_text s) row col cell) in
  exists p, fb_draw_cell s1 row col false = Some (with_pixels s1 p) /\ (mirror s false -> mirror (with_pixels s1 p) false).
Proof.
  intros Hok Hr Hc s1. destruct (draw_cell_run s1 row col false (ok_geom _ Hok)) as [p E]. exists p. split; [done|].
  intros Hm. destruct (put_draw_mirror s row col cell Hok Hm Hr Hc) as (p' & E' & Hm'). fold s1 in E', Hm'.
  rewrite E' in E. by injection E as <-.
Qed.

Lemma put_plain_run s c :
  fb_ok s -> g_view_back (hist s) = 0 -> c <> 9 ->
  exists s', put_plain s c = Some s' /\ plain_step s s' /\
    ((FONT_FIRST <= c <= FONT_LAST) -> g_cursor_x s' = if g_cursor_x s + 1 <? g_cols (geom s) then g_cursor_x s + 1 else 0) /\
    (mirror s false -> black s -> mirror s' (g_cursor_visible s)).
Proof.
  intros Hok Hv Hc. pose proof (ok_x _ Hok) as Hx. pose proof (ok_y _ Hok) as Hy. pose proof (ok_geom _ Hok) as Hg.
  assert (Hfin : forall s1 x y, fb_ok s1 -> geom s1 = geom s -> ansi s1 = ansi s -> g_view_back (hist s1) = 0 ->
            colors s1 = colors s -> g_cursor_visible s1 = g_cursor_visible s -> (mirror s false -> mirror s1 false) ->
            0 <= x <= g_cols (geom s) -> 0 <= y <= g_rows (geom s) -> (x = g_cols (geom s) -> y < g_rows (geom s)) ->
            exists s', put_finish (with_cursor s1 x y) = Some s' /\ plain_step s s' /\
              (g_cursor_x s' = if x <? g_cols (geom s) then x else 0) /\
              (mirror s false -> black s -> mirror s' (g_cursor_visible s))).
  { intros s1 x y Hok1 Eg Ea Ev Ec Evis Hm1 H1 H2 H3. rewrite <-Eg in H1, H2, H3.
    destruct (put_finish_run s1 x y Hok1 H1 H2 H3) as (s' & E & Hok' & Ea' & Ev' & Ec' & Evis' & Ex' & Hm').
    exists s'. split; [done|]. split; [split_and!; try congruence; done|]. split; [by rewrite Ex', Eg|].
    intros Hm Hb. rewrite <-Evis. apply Hm'; [by apply Hm1|]. unfold black, pair_of in *. by rewrite Ec. }
  unfold put_plain. destruct (Z.eqb_spec c 10) as [->|H10].
  { destruct (history_push_run s Hok) as (h & -> & Hh & Hvh). cbn [mbind option_bind].
    destruct (Hfin (with_hist s h) 0 (g_cursor_y s + 1)) as (s' & E & Hs & _ & Hm'); try done; try (cbn; congruence); try lia.
    exists s'. split; [exact E|]. split; [done|]. split; [unfold FONT_FIRST; lia|done]. }
  destruct (Z.eqb_spec c 13) as [->|H13].
  { cbn [mbind option_bind]. destruct (Hfin s 0 (g_cursor_y s)) as (s' & E & Hs & _ & Hm'); try done; try lia.
    exists s'. split; [exact E|]. split; [done|]. split; [unfold FONT_FIRST; lia|done]. }
  assert (Eself : with_cursor s (g_cursor_x s) (g_cursor_y s) = s) by (by destruct s).
  destruct (Z.eqb_spec c 8) as [->|H8].
  { destruct (Z.ltb_spec 0 (g_cursor_x s)) as [Hpos|Hzero]; cbn zeta; cbn [mbind option_bind].
    - rewrite put_text_run by (cbn; try done; lia). cbn [mbind option_bind].
      set (t := grid_set _ _ _ _).
      destruct (put_cell_run (with_cursor s (g_cursor_x s - 1) (g_cursor_y s)) (g_cursor_y s) (g_cursor_x s - 1)
        (FbCell 32 (g_cur_color (colors s)))) as (p & E1 & Hm1); [by apply ok_cursor; try done; lia|done|cbn; lia|].
      set (sb := with_cursor s (g_cursor_x s - 1) (g_cursor_y s)) in *.
      assert (E2 : fb_draw_cell (with_text sb t) (g_cursor_y s) (g_cursor_x s - 1) false = Some (with_pixels (with_text sb t) p))
        by exact E1. rewrite E2. cbn [mbind option_bind].
      change (with_pixels _ p) with (with_cursor (with_pixels (with_text s t) p) (g_cursor_x s - 1) (g_cursor_y s)).
      destruct (Hfin (with_pixels (with_text s t) p) (g_cursor_x s - 1) (g_cursor_y s)) as (s' & E & Hs & _ & Hm'); try done; try lia.
      { by destruct Hok. } exists s'. split; [exact E|]. split; [done|]. split; [unfold FONT_FIRST; lia|done].
    - destruct (Hfin s (g_cursor_x s) (g_cursor_y s)) as (s' & E & Hs & _ & Hm'); try done; try lia.
      rewrite Eself in E. exists s'. split; [exact E|]. split; [done|]. split; [unfold FONT_FIRST; lia|done]. }
  destruct (_ && _) eqn:Ef.
  - rewrite put_text_run by done. cbn [mbind option_bind].
    destruct (put_cell_run s (g_cursor_y s) (g_cursor_x s) (FbCell c (g_cur_color (colors s))) Hok Hy Hx) as (p & -> & Hm1).
    cbn [mbind option_bind]. set (t := grid_set _ _ _ _).
    destruct (Hfin (with_pixels (with_text s t) p) (g_cursor_x s + 1) (g_cursor_y s)) as (s' & E & Hs & Hx' & Hm'); try done; try lia.
    { by destruct Hok. } exists s'. split; [exact E|]. done.
  - cbn [mbind option_bind]. destruct (Hfin s (g_cursor_x s) (g_cursor_y s)) as (s' & E & Hs & _ & Hm'); try done; try lia.
    rewrite Eself in E. exists s'. split; [exact E|]. split; [done|]. split; [bool_to_prop; lia|done].
Qed.

Lemma put_start_run s :
  fb_ok s -> exists s', put_start s = Some s' /\ plain_step s s' /\ g_cursor_x s' = g_cursor_x s /\ geom s' = geom s /\
    (forall inv, mirror s inv -> g_view_back (hist s) = 0 -> mirror s' false).
Proof.
  intros Hok. unfold put_start.
  assert (Hl : exists s1, (if negb (g_view_back (hist s) =? 0) then fb_redraw_live (with_hist s (with_view (hist s) 0)) else Some s) = Some s1 /\
             plain_step s s1 /\ g_cursor_x s1 = g_cursor_x s /\ geom s1 = geom s /\ (g_view_back (hist s) = 0 -> s1 = s)).
  { destruct (Z.eqb_spec (g_view_back (hist s)) 0) as [E|E]; cbn [negb]; [by exists s|].
    assert (Hok0 : fb_ok (with_hist s (with_view (hist s) 0))) by (by destruct Hok).
    destruct (redraw_live_run _ Hok0) as (s1 & -> & H1). exists s1. split; [done|].
    destruct (sbs_geom _ _ H1) as (Eg & Ex & _ & Evis & Ec & Ea & Eh & _). unfold plain_step. rewrite Eg, Ex, Evis, Ec, Ea, Eh.
    split_and!; try done. by eapply sbs_ok. }
  destruct Hl as (s1 & -> & (Hok1 & Ea & Ev & Ec & Evis) & Ex & Eg & Hsame). cbn [mbind option_bind].
  destruct (draw_cell_run s1 (g_cursor_y s1) (g_cursor_x s1) false (ok_geom _ Hok1)) as [p E].
  eexists. split; [done|]. split; [unfold plain_step; cbn; split_and!; try done; by destruct Hok1|]. split_and!; try done.
  intros inv Hm Hv. rewrite (Hsame Hv) in *. destruct (draw_cursor_mirror s inv false Hok1 Hm) as (p' & E' & Hm').
  rewrite E' in E. by injection E as <-.
Qed.

Lemma putchar_base_run s c : fb_ok s -> c <> 9 -> exists s', putchar_base s c = Some s' /\ fb_ok s'.
Proof.
  intros Hok Hc. unfold putchar_base. destruct (consume_run s c Hok) as (b & s1 & -> & Hok1 & Hb). cbn [mbind option_bind].
  destruct b; [eauto|]. destruct (put_start_run s1 Hok1) as (s2 & -> & (Hok2 & _ & Hv2 & _) & _). cbn [mbind option_bind].
  destruct (put_plain_run s2 c Hok2 Hv2 Hc) as (s3 & -> & (Hok3 & _) & _). eauto.
Qed.

(** A space outside of a sequence. *)
Lemma put_space_run s :
  fb_ok s -> g_ansi_state (ansi s) = ANSI_NORMAL ->
  exists s', putchar_base s 32 = Some s' /\ fb_ok s' /\ ansi s' = ansi s /\
    g_cursor_x s' = if g_cursor_x s + 1 <? g_cols (geom s) then g_cursor_x s + 1 else 0.
Proof.
  intros Hok Ha. unfold putchar_base, ansi_consume. rewrite Ha. cbn [mbind option_bind Z.eqb Pos.eqb].
  destruct (put_start_run s Hok) as (s1 & -> & (Hok1 & Ea1 & Hv1 & _) & Ex1 & Eg1 & _). cbn [mbind option_bind].
  destruct (put_plain_run s1 32 Hok1 Hv1 ltac:(lia)) as (s2 & -> & (Hok2 & Ea2 & _) & Ex2 & _).
  exists s2. split_and!; try done; [congruence|]. rewrite Ex2 by (vm_compute; split; discriminate). by rewrite Ex1, Eg1.
Qed.

Lemma tab_loop_run fuel s :
  fb_ok s -> g_ansi_state (ansi s) = ANSI_NORMAL -> 8 - g_cursor_x s mod 8 <= Z.of_nat fuel ->
  exists s', tab_loop fuel s = Some s' /\ fb_ok s'.
Proof.
  revert s. induction fuel as [|fuel IH]; intros s Hok Ha Hf.
  { pose proof (Z.mod_pos_bound (g_cursor_x s) 8). lia. }
  cbn [tab_loop]. destruct (put_space_run s Hok Ha) as (s1 & -> & Hok1 & Ea & Ex). cbn [mbind option_bind].
  destruct (Z.eqb_spec (g_cursor_x s1 mod 8) 0) as [E|E]; [eauto|]. apply IH; [done|by rewrite Ea|].
  pose proof (ok_x _ Hok). rewrite Ex in E |- *. split_tests_in E; [|done].
  divlia.
Qed.

Lemma putchar_run s c : fb_ok s -> exists s', fb_putchar s c = Some s' /\ fb_ok s'.
Proof.
  intros Hok. unfold fb_putchar. destruct (Z.eqb_spec c 9) as [->|Hc]; [|by apply putchar_base_run].
  destruct (consume_run s 9 Hok) as (b & s1 & -> & Hok1 & Hb). cbn [mbind option_bind]. destruct b; [eauto|].
  destruct (Hb eq_refl) as (-> & Ha & _). destruct (put_start_run s Hok1) as (s2 & -> & (Hok2 & Ea2 & _) & _). cbn [mbind option_bind].
  apply tab_loop_run; [done|by rewrite Ea2|]. pose proof (Z.mod_pos_bound (g_cursor_x s2) 8). lia.
Qed.

(** ** Sequences of operations *)

(** What the kernel and, through the console device, programs do with the
    console. *)
Inductive fb_op :=
| OpPut (c : Z)
| OpScroll (dir : Z)
| OpClear
| OpColor (fg bg : Z)
| OpFill (color : Z).

Definition fb_run (op : fb_op) (s : fb) : option fb :=
  match op with
  | OpPut c => fb_putchar s c
  | OpScroll dir => fb_scroll_page s dir
  | OpClear => Some (fb_clear s)
  | OpColor fg bg => Some (fb_set_color s fg bg)
  | OpFill color => Some (fb_fill s color)
  end.

Fixpoint fb_runs (ops : list fb_op) (s : fb) : option fb :=
  match ops with
  | [] => Some s
  | op :: ops' => s' ← fb_run op s; fb_runs ops' s'
  end.

Definition fb_puts (text : list Z) (s : fb) : option fb := fb_runs (map OpPut text) s.

Lemma scroll_page_run s dir : fb_ok s -> exists s', fb_scroll_page s dir = Some s' /\ fb_ok s'.
Proof.
  intros Hok. unfold fb_scroll_page. set (v := if _ <? _ then _ else _).
  assert (Hok1 : fb_ok (with_hist s (with_view (hist s) v))) by (by destruct Hok).
  destruct (v =? 0).
  - destruct (redraw_live_run _ Hok1) as (s' & -> & H). eexists. split; [done|]. by eapply sbs_ok.
  - destruct (redraw_history_run _ Hok1) as (s' & -> & H). eexists. split; [done|]. by eapply sbs_ok.
Qed.

Lemma fb_run_ok op s : fb_ok s -> exists s', fb_run op s = Some s' /\ fb_ok s'.
Proof.
  intros Hok. destruct op; cbn [fb_run].
  - by apply putchar_run.
  - by apply scroll_page_run.
  - eexists. split; [done|]. by apply ok_clear.
  - eexists. split; [done|]. by apply ok_update_color, ok_colors.
  - eexists. split; [done|]. by destruct Hok.
Qed.

(** A framebuffer that [fb_init] accepts and that has room for one cell. *)
Definition usable (f : limine_framebuffer) : Prop :=
  lf_rgb f = true /\ lf_bpp f = 32 /\ 8 <= lf_width f /\ 16 <= lf_height f /\ lf_width f <= lf_pitch f / 4.

Lemma fb_init_ok f : usable f -> exists s, fb_init fb_static (Some f) = Some s /\ fb_ok s /\
  mirror s false /\ black s /\ g_view_back (hist s) = 0 /\ g_ansi_state (ansi s) = ANSI_NORMAL.
Proof.
  intros (E1 & E2 & Hw & Hh & Hp). unfold fb_init. rewrite E1, E2. cbn [negb orb Z.eqb Pos.eqb].
  eexists. split; [done|]. set (cols := if FB_MAX_COLS <? _ then _ else _). set (rows := if FB_MAX_ROWS <? _ then _ else _).
  assert (Hc : 0 < cols <= 512 /\ cols * 8 <= lf_width f).
  { unfold cols, FB_MAX_COLS, FONT_WIDTH. split_tests; divlia. }
  assert (Hr : 0 < rows <= 256 /\ rows * 16 <= lf_height f).
  { unfold rows, FB_MAX_ROWS, FONT_HEIGHT. split_tests; divlia. }
  split.
  - split; cbn; try done; try lia. unfold geom_ok, g_pitch_words. cbn.
    unfold FB_MAX_COLS, FB_MAX_ROWS, FONT_WIDTH, FONT_HEIGHT. lia.
  - split_and!; try done. intros row col Hrow Hcol x y Hx Hy. cbn [andb].
    cbn [geom fb_clear with_hist with_cursor with_geom with_pixels with_text with_colors g_rows g_cols] in Hrow, Hcol.
    rewrite cell_pixel_index. cbn [g_text_top geom fb_clear with_hist with_cursor with_geom with_pixels with_text with_colors
      g_pixels g_pitch_words g_pitch_bytes g_height g_width g_cols g_rows].
    unfold FONT_HEIGHT, FONT_WIDTH in *. unfold g_pitch_words. cbn [g_pitch_bytes]. set (pw := lf_pitch f / 4) in *.
    rewrite fill_in by (unfold surface, g_pitch_words; cbn; fold pw; nia).
    unfold render. cbn [g_text fb_clear with_hist with_cursor with_geom with_pixels with_text with_colors geom g_rows g_cols].
    unfold clear_grid. rewrite (proj2 (Z.leb_le 0 row)), (proj2 (Z.ltb_lt row rows)), (proj2 (Z.leb_le 0 col)),
      (proj2 (Z.ltb_lt col cols)) by lia. cbn [andb blank cell_c cell_color].
    change (pair_of _ _) with (COLOR_FG, 0). unfold cell_pixel. change (if _ || _ then 32 else 32) with 32.
    by rewrite glyph_space, Z.land_0_l.
Qed.

(** The console shows its text buffer and is in no escape sequence. *)
Definition live (s : fb) (inv : bool) : Prop :=
  fb_ok s /\ mirror s inv /\ black s /\ g_view_back (hist s) = 0 /\ g_ansi_state (ansi s) = ANSI_NORMAL.

Lemma black_colors s s' : colors s' = colors s -> black s -> black s'.
Proof. unfold black, pair_of. by intros ->. Qed.

Lemma put_start_live s inv :
  live s inv -> exists s', put_start s = Some s' /\ live s' false /\ g_cursor_visible s' = g_cursor_visible s.
Proof.
  intros (Hok & Hm & Hb & Hv & Ha). destruct (put_start_run s Hok) as (s1 & E & (Hok1 & Ea & Hv1 & Ec & Evis) & _ & _ & Hm1).
  exists s1. split; [done|]. split; [|done]. split_and!; try done; [by eapply Hm1|by eapply black_colors|by rewrite Ea].
Qed.

Lemma putchar_base_live s inv c :
  live s inv -> c <> 9 -> c <> 27 ->
  exists s', putchar_base s c = Some s' /\ live s' (g_cursor_visible s') /\ g_cursor_visible s' = g_cursor_visible s.
Proof.
  intros Hl Hc Hesc. pose proof Hl as (_ & _ & _ & _ & Ha). unfold putchar_base, ansi_consume. rewrite Ha.
  rewrite (proj2 (Z.eqb_neq c 27)) by done. cbn [mbind option_bind].
  destruct (put_start_live s inv Hl) as (s1 & -> & (Hok1 & Hm1 & Hb1 & Hv1 & Ha1) & Evis1). cbn [mbind option_bind].
  destruct (put_plain_run s1 c Hok1 Hv1 Hc) as (s2 & -> & (Hok2 & Ea2 & Hv2 & Ec2 & Evis2) & _ & Hm2).
  exists s2. split; [done|]. split; [|congruence]. split_and!; try done.
  - rewrite Evis2. by apply Hm2.
  - by eapply black_colors.
  - by rewrite Ea2.
Qed.

Lemma tab_loop_live fuel s inv s' :
  live s inv -> tab_loop fuel s = Some s' -> live s' (g_cursor_visible s') /\ g_cursor_visible s' = g_cursor_visible s.
Proof.
  revert s inv. induction fuel as [|fuel IH]; intros s inv Hl E; [done|]. cbn [tab_loop] in E.
  destruct (putchar_base_live s inv 32 Hl) as (s1 & E1 & Hl1 & Evis); [lia..|]. rewrite E1 in E. cbn [mbind option_bind] in E.
  destruct (g_cursor_x s1 mod 8 =? 0); [by injection E as <-|]. destruct (IH s1 _ Hl1 E) as [? ?]. split; [done|congruence].
Qed.

Lemma putchar_live s inv c :
  live s inv -> c <> 27 -> exists s', fb_putchar s c = Some s' /\ live s' (g_cursor_visible s').
Proof.
  intros Hl Hc. destruct (putchar_run s c (proj1 Hl)) as (s' & E & _). exists s'. split; [done|].
  unfold fb_putchar in E. destruct (Z.eqb_spec c 9) as [->|H9].
  - pose proof Hl as (_ & _ & _ & _ & Ha). unfold ansi_consume in E. rewrite Ha in E. cbn [Z.eqb Pos.eqb mbind option_bind] in E.
    destruct (put_start_live s inv Hl) as (s1 & E1 & Hl1 & _). rewrite E1 in E. cbn [mbind option_bind] in E.
    by eapply tab_loop_live.
  - destruct (putchar_base_live s inv c Hl H9 Hc) as (s1 & E1 & Hl1 & _). rewrite E1 in E. by injection E as <-.
Qed.


Definition small_fb : limine_framebuffer := LimineFb (fun _ => 7) 40 48 160 32 true.

Lemma small_usable : usable small_fb.
Proof. split_and!; vm_compute; done. Qed.


(** C32. The screen shows the text: after [fb_init], for every text without
    escape bytes (printable characters, newlines, carriage returns,
    backspaces, tabs, with wrapping and scrolling), every cell of the grid
    displays the glyph of its character in the colours of its cell, and the
    cell at the cursor is inverted exactly when the cursor is visible. *)
Theorem fb_screen_shows_text f c text :
  usable f -> Forall (fun c => c <> 27) (c :: text) ->
  exists s0 s, fb_init fb_static (Some f) = Some s0 /\ fb_puts (c :: text) s0 = Some s /\ mirror s (g_cursor_visible s).
Proof.
  intros Hu Ht. destruct (fb_init_ok f Hu) as (s0 & E0 & Hok & Hm & Hb & Hv & Ha). exists s0.
  assert (Hl : live s0 false) by (by split_and!).
  assert (Hgo : forall l s inv, live s inv -> Forall (fun c => c <> 27) l -> (l = [] -> inv = g_cursor_visible s) ->
             exists s', fb_puts l s = Some s' /\ mirror s' (g_cursor_visible s')).
  { clear. induction l as [|c l IH]; intros s inv Hl Hf He.
    - exists s. split; [done|]. rewrite <-He by done. apply Hl.
    - apply Forall_cons in Hf as [Hc Hf]. destruct (putchar_live s inv c Hl Hc) as (s1 & E & Hl1).
      unfold fb_puts. cbn [map fb_runs fb_run]. rewrite E. by apply (IH s1 _ Hl1). }
  destruct (Hgo (c :: text) s0 false Hl Ht) as (s & E & Hs); [done|]. by exists s.
Qed.

Lemma fb_screen_shows_text_witness :
  exists s0 s, fb_init fb_static (Some small_fb) = Some s0 /\ fb_puts [72; 105; 10; 9; 33] s0 = Some s /\ mirror s (g_cursor_visible s).
Proof. apply (fb_screen_shows_text small_fb 72 [105; 10; 9; 33] small_usable). repeat constructor; discriminate. Defined.

(** ** Cursor addressing *)

(** The decimal digits of [n], at most [k] of them. *)
Fixpoint decimal (k : nat) (n : Z) : list Z :=
  match k with
  | O => []
  | S k' => (if n <? 10 then [] else decimal k' (n / 10)) ++ [48 + n mod 10]
  end.

Definition digits (l : list Z) : Prop := Forall (fun c => 48 <= c <= 57) l.

Lemma decimal_digits k n : 0 <= n -> digits (decimal k n).
Proof.
  revert n. induction k as [|k IH]; intros n Hn; [constructor|]. cbn [decimal]. apply Forall_app. split.
  - destruct (n <? 10); [constructor|]. apply IH. divlia.
  - constructor; [divlia|constructor].
Qed.

Lemma decimal_length k n : (length (decimal k n) <= k)%nat.
Proof.
  revert n. induction k as [|k IH]; intros n; [done|]. cbn [decimal]. rewrite length_app. cbn [length].
  specialize (IH (n / 10)). destruct (n <? 10); cbn [length]; lia.
Qed.

(** The parser reads a number back. *)
Lemma csi_number_decimal k n any rest :
  0 <= n < 10 ^ Z.of_nat k -> n <= 9999 -> (0 < k)%nat ->
  csi_number (decimal k n ++ rest) 0 any = csi_number rest n true.
Proof.
  revert n any rest. induction k as [|k IH]; intros n any rest Hn Hcap Hk; [lia|]. clear Hk.
  rewrite Nat2Z.inj_succ, Z.pow_succ_r in Hn by lia. cbn [decimal]. rewrite <-(assoc_L (++)).
  assert (Hstep : forall v a, csi_number ([48 + n mod 10] ++ rest) v a =
    csi_number rest (if 9999 <? v * 10 + n mod 10 then 9999 else v * 10 + n mod 10) true).
  { intros v a. cbn [app csi_number]. assert (0 <= n mod 10 < 10) by divlia.
    rewrite (proj2 (Z.leb_le 48 _)), (proj2 (Z.leb_le _ 57)) by lia. cbn [andb].
    by replace (48 + n mod 10 - 48) with (n mod 10) by lia. }
  destruct (Z.ltb_spec n 10).
  - cbn [app] in *. rewrite Hstep, Z.mod_small by lia. rewrite (proj2 (Z.ltb_ge 9999 _)) by lia. done.
  - rewrite IH, Hstep; [|divlia|divlia|destruct k; [cbn in Hn; lia|lia]].
    rewrite (proj2 (Z.ltb_ge 9999 _)) by divlia. f_equal. divlia.
Qed.

Lemma decimal_nonempty k n : (0 < k)%nat -> exists c l, decimal k n = c :: l.
Proof.
  destruct k; [lia|]. intros _. cbn [decimal]. destruct (if n <? 10 then [] else decimal k (n / 10)); cbn; eauto.
Qed.

(** Parameters of a sequence with two numbers. *)
Lemma params_two a b :
  0 <= a <= 9999 -> 0 <= b <= 9999 ->
  ansi_parse_params 8 (decimal 4 a ++ 59 :: decimal 4 b) 1 = a :: b :: replicate 6 1.
Proof.
  intros Ha Hb.
  assert (Hn : forall n any rest, 0 <= n <= 9999 -> csi_number (decimal 4 n ++ rest) 0 any = csi_number rest n true).
  { intros n any rest Hn. apply csi_number_decimal; [change (10 ^ Z.of_nat 4) with 10000; lia|lia|lia]. }
  destruct (decimal_nonempty 4 a ltac:(lia)) as (c & l & Ea). destruct (decimal_nonempty 4 b ltac:(lia)) as (c' & l' & Eb).
  cbn [ansi_parse_params]. destruct (decimal 4 a ++ 59 :: decimal 4 b) eqn:E; [by rewrite Ea in E|]. rewrite <-E.
  rewrite Hn by done. cbn [csi_number Z.leb Z.compare Pos.compare Pos.compare_cont andb Z.eqb Pos.eqb].
  f_equal. specialize (Hn b false [] Hb). rewrite app_nil_r in Hn. rewrite Eb in Hn |- *. rewrite Hn. done.
Qed.

(** Parameter bytes are collected. *)
Lemma collect_params l s :
  g_ansi_state (ansi s) = ANSI_CSI -> Forall (fun c => 48 <= c <= 57 \/ c = 59) l ->
  zlen (g_csi_buf (ansi s)) + zlen l < CSI_BUF_SIZE ->
  fb_puts l s = Some (with_ansi s (FbAnsi ANSI_CSI (g_csi_buf (ansi s) ++ l) (g_csi_private (ansi s)))).
Proof.
  revert s. induction l as [|c l IH]; intros s Ha Hl Hlen.
  - rewrite app_nil_r. unfold fb_puts. cbn. f_equal. destruct s as [? ? ? ? ? ? ? [? ? ?] ? ?]. cbn in *. by subst.
  - apply Forall_cons in Hl as [Hc Hl]. change (zlen (c :: l)) with (Z.of_nat (S (length l))) in Hlen.
    unfold fb_puts. cbn [map fb_runs fb_run]. unfold fb_putchar, putchar_base, ansi_consume. rewrite Ha.
    rewrite (proj2 (Z.eqb_neq c 9)), (proj2 (Z.eqb_neq c 63)) by lia.
    assert ((64 <=? c) && (c <=? 126) = false) as -> by lia. rewrite andb_false_r.
    assert ((48 <=? c) && (c <=? 57) || (c =? 59) = true) as -> by lia.
    rewrite (proj2 (Z.ltb_lt (zlen (g_csi_buf (ansi s))) _)) by lia. cbn [mbind option_bind].
    set (s1 := with_ansi s _). change (fb_runs (map OpPut l) s1) with (fb_puts l s1).
    rewrite (IH s1); [|done|done|].
    + cbn [ansi s1 with_ansi g_csi_buf g_csi_private]. by rewrite <-(assoc_L (++)).
    + cbn [ansi s1 with_ansi g_csi_buf]. rewrite zlen_app. change (zlen [c]) with 1. unfold zlen in *. lia.
Qed.

(** The sequence ESC [ row ; col H. *)
Definition cup (row col : Z) : list Z := [27; 91] ++ (decimal 4 row ++ 59 :: decimal 4 col) ++ [72].

Lemma fb_puts_app l1 l2 s : fb_puts (l1 ++ l2) s = s' ← fb_puts l1 s; fb_puts l2 s'.
Proof.
  unfold fb_puts. revert s. induction l1 as [|c l1 IH]; intros s; [done|]. cbn [app map fb_runs].
  destruct (fb_run (OpPut c) s) as [s1|]; [|done]. cbn [mbind option_bind]. apply IH.
Qed.

(** Cursor addressing: printing ESC [ row ; col H in decimal moves the
    cursor to that position, counted from 1 and clamped to the grid, leaves
    the text unchanged and ends the sequence. *)
Theorem ansi_cup_moves_cursor s row col :
  fb_ok s -> g_ansi_state (ansi s) = ANSI_NORMAL -> 0 <= row <= 9999 -> 0 <= col <= 9999 ->
  exists s', fb_puts (cup row col) s = Some s' /\ g_text s' = g_text s /\ g_ansi_state (ansi s') = ANSI_NORMAL /\
    g_cursor_y s' = Z.min (Z.max 0 (row - 1)) (g_rows (geom s) - 1) /\
    g_cursor_x s' = Z.min (Z.max 0 (col - 1)) (g_cols (geom s) - 1).
Proof.
  intros Hok Ha Hr Hc. unfold cup. rewrite fb_puts_app.
  assert (Hstart : fb_puts [27; 91] s = Some (with_ansi s (FbAnsi ANSI_CSI [] false))).
  { unfold fb_puts. cbn [map fb_runs fb_run]. unfold fb_putchar, putchar_base, ansi_consume. rewrite Ha. done. }
  rewrite Hstart. cbn [mbind option_bind]. rewrite fb_puts_app.
  set (s1 := with_ansi s _). set (l := decimal 4 row ++ 59 :: decimal 4 col).
  assert (Hlen : zlen l <= 9).
  { unfold l, zlen. rewrite length_app. cbn [length]. pose proof (decimal_length 4 row). pose proof (decimal_length 4 col). lia. }
  rewrite (collect_params l s1); [|done| |change (zlen (g_csi_buf (ansi s1))) with 0; unfold CSI_BUF_SIZE; lia].
  2:{ unfold l. apply Forall_app. split; [|constructor; [lia|]].
      - eapply Forall_impl; [apply decimal_digits; lia|]. cbn. lia.
      - eapply Forall_impl; [apply decimal_digits; lia|]. cbn. lia. }
  cbn [mbind option_bind]. set (s2 := with_ansi s1 _). unfold fb_puts. cbn [map fb_runs fb_run].
  unfold fb_putchar, putchar_base, ansi_consume. cbn [s2 with_ansi ansi g_ansi_state Z.eqb Pos.eqb Z.leb Z.compare Pos.compare Pos.compare_cont andb].
  fold s2. set (s3 := ansi_goto s2 ANSI_NORMAL). assert (Hok3 : fb_ok s3).
  { destruct Hok as [H1 H2 H3 H4 H5 H6 H7 H8]. split; try done. change (zlen (g_csi_buf (ansi s3))) with (zlen l). unfold CSI_BUF_SIZE. lia. }
  unfold ansi_exec. change (g_csi_private (ansi s3)) with false. change (g_csi_buf (ansi s3)) with l.
  unfold l. rewrite params_two by lia.
  destruct (draw_cell_run s3 (g_cursor_y s3) (g_cursor_x s3) false (ok_geom _ Hok3)) as [p ->]. cbn [mbind option_bind].
  unfold ansi_final. cbn [Z.eqb Pos.eqb orb nth mbind option_bind]. set (s4 := with_cursor _ _ _).
  destruct (ok_geom _ Hok) as (G1 & G2 & _).
  assert (Hrow : g_cursor_y s4 = Z.min (Z.max 0 (row - 1)) (g_rows (geom s) - 1)) by (apply clamp_min; lia).
  assert (Hcol : g_cursor_x s4 = Z.min (Z.max 0 (col - 1)) (g_cols (geom s) - 1)) by (apply clamp_min; lia).
  assert (Hrp : exists p, fb_repaint_cursor s4 = Some (with_pixels s4 p)).
  { unfold fb_repaint_cursor. destruct (g_cursor_visible s4); [apply draw_cell_run, (ok_geom _ Hok)|].
    exists (g_pixels s4). by destruct s4. }
  destruct Hrp as [p' ->]. cbn [mbind option_bind]. eexists. split; [done|]. done.
Qed.

Lemma ansi_cup_moves_cursor_witness :
  exists s0 s', fb_init fb_static (Some small_fb) = Some s0 /\ fb_puts (cup 2 300) s0 = Some s' /\
    g_cursor_y s' = 1 /\ g_cursor_x s' = 4.
Proof.
  destruct (fb_init_ok small_fb small_usable) as (s0 & E0 & Hok & _ & _ & _ & Ha).
  destruct (ansi_cup_moves_cursor s0 2 300 Hok Ha) as (s' & E & _ & _ & Hy & Hx); [lia|lia|].
  exists s0, s'. split; [exact E0|]. split; [exact E|].
  assert (Hg : g_rows (geom s0) = 3 /\ g_cols (geom s0) = 5).
  { vm_compute in E0. apply (f_equal (fun o => match o with Some s => (g_rows (geom s), g_cols (geom s)) | None => (0, 0) end)) in E0.
    cbn beta iota in E0. injection E0 as <- <-. split; reflexivity. }
  destruct Hg as [Hr Hc]. rewrite Hr in Hy. rewrite Hc in Hx. split; [exact Hy|exact Hx].
Defined.

(** ** Behaviour that contradicts the documentation *)

(** The text region may leave the framebuffer: [fb_set_text_top] (called
    by the boot splash) moves the grid down but keeps its number of rows, so
    on a framebuffer of 3 text rows with the text moved down by one row, the
    second newline already draws the cursor below the last pixel row. *)
Theorem fb_text_top_overruns :
  (s ← fb_init fb_static (Some small_fb); fb_puts [10; 10] (fb_set_text_top s 16)) = None.
Proof. vm_compute. reflexivity. Qed.

(** Empty parameters of erase and colour sequences are read as 1, not as
    0: after "abc" and a carriage return, ESC [ K erases up to the cursor and
    leaves "bc" on the line (ESC [ 0 K clears it), and ESC [ m leaves the
    colours of ESC [ 3 1 m in place. *)
Theorem ansi_empty_parameter_is_one :
  let text l := s ← fb_init fb_static (Some small_fb); fb_puts l s in
  (s ← text [97; 98; 99; 13; 27; 91; 75]; Some (map (fun c => cell_c (g_text s 0 c)) [0; 1; 2])) = Some [32; 98; 99] /\
  (s ← text [97; 98; 99; 13; 27; 91; 48; 75]; Some (map (fun c => cell_c (g_text s 0 c)) [0; 1; 2])) = Some [32; 32; 32] /\
  (s ← text [27; 91; 51; 49; 109; 27; 91; 109]; Some (g_fg (colors s))) = Some 0xAA0000 /\
  (s ← text [27; 91; 51; 49; 109; 27; 91; 48; 109]; Some (g_fg (colors s))) = Some COLOR_FG.
Proof. vm_compute. split_and!; reflexivity. Qed.
