(* ===== verification/Devices.v ===== *)
(** * Console and device files

    Translation of src/kernel/core/console.c (output to the serial line and
    the framebuffer) and of src/kernel/vfs/devices.c (the device nodes under
    /dev), on top of the framebuffer, keyboard and serial drivers. The file
    gives the instance of [DeviceTable] for the file system.

    The state of the devices is an [option]: [None] after an access outside
    of the framebuffer. A read that has to wait for a key returns [IoWait].
    The argument of an ioctl is the list of the bytes it points to, empty
    for NULL. *)

From stdpp Require Import base numbers list gmap.
From Stdlib Require Import ZArith Lia ZifyBool.
From S2P Require Import Prelude.
From S2P Require Import Hardware.
From S2P Require Import Keyboard.
From S2P Require Import Klib.
From S2P Require Import Pipe.
From S2P Require Import Vfs.
From S2P Require Import VfsFd.
From S2P Require Import VfsTree.
From S2P Require Import VfsData.
From S2P Require Import Font.
From S2P Require Import Fb.
From S2P Require Import FbProps.

Definition FB_IOCTL_GET_INFO : Z := 0x1.
Definition FB_IOCTL_FILL : Z := 0x2.
Definition TCGETS : Z := 0x5401.
Definition TCSETS : Z := 0x5402.
Definition TCSETSW : Z := 0x5403.
Definition TCSETSF : Z := 0x5404.
Definition TIOCGWINSZ : Z := 0x5413.
Definition TUS_ICRNL : Z := 0x0100.
Definition TUS_ICANON : Z := 0x0002.
Definition TUS_ECHO : Z := 0x0008.

(** ** State *)

Record fb_device_info := FbInfo {
  fi_width : Z;
  fi_height : Z;
  fi_bpp : Z;
  fi_pitch : Z;
  fi_address : Z;
}.

(** The 32 bytes of the struct: four bytes of padding before [pitch]. *)
Definition info_bytes (i : fb_device_info) : list Z :=
  le_bytes 4 (fi_width i) ++ le_bytes 4 (fi_height i) ++ le_bytes 4 (fi_bpp i) ++ [0; 0; 0; 0] ++
  le_bytes 8 (fi_pitch i) ++ le_bytes 8 (fi_address i).

(** [struct tus_termios] as the kernel stores it: 60 bytes, of which it reads
    [c_iflag] (at 0) and [c_lflag] (at 12). *)
Definition tus_termios : Type := list Z.
Definition termios_size : Z := 60.
Definition c_iflag (t : tus_termios) : Z := le_value (sub t 0 4).
Definition c_lflag (t : tus_termios) : Z := le_value (sub t 12 4).

Definition termios_default : tus_termios :=
  le_bytes 4 0x0302 ++ le_bytes 4 0x0001 ++ le_bytes 4 0x10B1 ++ le_bytes 4 0x803B ++
  [0] ++ ([0; 0; 0; 0; 0; 0; 1] ++ replicate 25 0) ++ [0; 0; 0] ++
  le_bytes 4 0x1001 ++ le_bytes 4 0x1001.

Record dev (H : Type) := Dev {
  d_fb : fb;
  g_fb_active : bool;
  g_ready : bool;           (* serial.c *)
  d_kbd : kbd;
  g_termios : tus_termios;
  g_tty_pend : list Z;
  g_tty_pend_n : Z;
  g_tty_pend_i : Z;
  fb_info : fb_device_info;
  d_pid : option Z;         (* the pid of sched_current() *)
  d_hw : H;
}.
Arguments Dev {H}.
Arguments d_fb {H}.
Arguments g_fb_active {H}.
Arguments g_ready {H}.
Arguments d_kbd {H}.
Arguments g_termios {H}.
Arguments g_tty_pend {H}.
Arguments g_tty_pend_n {H}.
Arguments g_tty_pend_i {H}.
Arguments fb_info {H}.
Arguments d_pid {H}.
Arguments d_hw {H}.

Section Dev.
Context {H : Type}.

Definition set_fb (d : dev H) (s : fb) : dev H :=
  Dev s (g_fb_active d) (g_ready d) (d_kbd d) (g_termios d) (g_tty_pend d) (g_tty_pend_n d)
    (g_tty_pend_i d) (fb_info d) (d_pid d) (d_hw d).
Definition set_hw (d : dev H) (h : H) : dev H :=
  Dev (d_fb d) (g_fb_active d) (g_ready d) (d_kbd d) (g_termios d) (g_tty_pend d) (g_tty_pend_n d)
    (g_tty_pend_i d) (fb_info d) (d_pid d) h.
Definition set_kbd (d : dev H) (k : kbd) : dev H :=
  Dev (d_fb d) (g_fb_active d) (g_ready d) k (g_termios d) (g_tty_pend d) (g_tty_pend_n d)
    (g_tty_pend_i d) (fb_info d) (d_pid d) (d_hw d).
Definition set_termios (d : dev H) (t : tus_termios) : dev H :=
  Dev (d_fb d) (g_fb_active d) (g_ready d) (d_kbd d) t (g_tty_pend d) (g_tty_pend_n d)
    (g_tty_pend_i d) (fb_info d) (d_pid d) (d_hw d).
Definition set_pend (d : dev H) (p : list Z) (n i : Z) : dev H :=
  Dev (d_fb d) (g_fb_active d) (g_ready d) (d_kbd d) (g_termios d) p n i (fb_info d) (d_pid d) (d_hw d).
Definition set_flags (d : dev H) (active ready : bool) : dev H :=
  Dev (d_fb d) active ready (d_kbd d) (g_termios d) (g_tty_pend d) (g_tty_pend_n d)
    (g_tty_pend_i d) (fb_info d) (d_pid d) (d_hw d).
Definition set_info (d : dev H) (i : fb_device_info) : dev H :=
  Dev (d_fb d) (g_fb_active d) (g_ready d) (d_kbd d) (g_termios d) (g_tty_pend d) (g_tty_pend_n d)
    (g_tty_pend_i d) i (d_pid d) (d_hw d).

(** ** Console (console.c) *)

Context `{Ports H}.

Definition console_init (f : option limine_framebuffer) (d : dev H) : dev H :=
  let '(ready, h) := serial_init (d_hw d) in
  let d := set_hw d h in
  match fb_init (d_fb d) f with
  | None => set_flags d false ready
  | Some s => set_flags (set_fb d s) true ready
  end.

(** [None]: the framebuffer driver has written outside of its buffers. *)
Definition console_putchar (c : Z) (d : dev H) : option (dev H) :=
  let d := set_hw d (serial_putchar (g_ready d) c (d_hw d)) in
  if g_fb_active d then s ← fb_putchar (d_fb d) c; Some (set_fb d s) else Some d.

(** [s] is the string without its terminator. *)
Fixpoint console_write (s : list Z) (d : dev H) : option (dev H) :=
  match s with
  | [] => Some d
  | c :: s' => d' ← console_putchar c d; console_write s' d'
  end.

Definition console_clear (d : dev H) : dev H :=
  if g_fb_active d then set_fb d (fb_clear (d_fb d)) else d.

Definition console_scroll_page (dir : Z) (d : dev H) : option (dev H) :=
  if g_fb_active d then s ← fb_scroll_page (d_fb d) dir; Some (set_fb d s) else Some d.

Definition console_set_color (fg bg : Z) (d : dev H) : dev H :=
  if g_fb_active d then set_fb d (fb_set_color (d_fb d) fg bg) else d.

Definition console_set_text_top (pixel_y : Z) (d : dev H) : dev H :=
  if g_fb_active d then set_fb d (fb_set_text_top (d_fb d) pixel_y) else d.

Definition console_has_framebuffer (d : dev H) : bool := g_fb_active d.

(** ** /dev/fb0 *)

(** The byte at offset [pos] of the surface. *)
Definition fb_byte (m : memory) (pos : Z) : Z :=
  Z.land (Z.shiftr (m (pos / 4)) (8 * (pos mod 4))) 0xFF.

Definition fb_set_byte (m : memory) (pos b : Z) : memory :=
  let sh := 8 * (pos mod 4) in
  upd m (pos / 4) (Z.lor (Z.land (m (pos / 4)) (Z.lnot (Z.shiftl 0xFF sh))) (Z.shiftl b sh)).

Fixpoint fb_set_bytes (m : memory) (pos : Z) (l : list Z) : memory :=
  match l with
  | [] => m
  | b :: l' => fb_set_bytes (fb_set_byte m pos b) (pos + 1) l'
  end.

(** The number of bytes of an access at [pos]. *)
Definition fb_span (i : fb_device_info) (count pos : Z) : Z :=
  let size := u64 (fi_pitch i * fi_height i) in
  if size <=? pos then 0
  else if size - pos <? count then size - pos else count.

(** The access stays inside of the surface. *)
Definition fb_inside (d : dev H) (pos n : Z) : bool :=
  (n =? 0) || (pos + n <=? 4 * surface (geom (d_fb d))).

Definition fb_read (count pos : Z) (d : dev H) : option (io * dev H) :=
  let n := fb_span (fb_info d) count pos in
  if fb_inside d pos n
  then Some (IoRet n (map (fb_byte (g_pixels (d_fb d))) (zseq pos (Z.to_nat n))), d) else None.

Definition fb_write (buf : list Z) (pos : Z) (d : dev H) : option (Z * dev H) :=
  let n := fb_span (fb_info d) (zlen buf) pos in
  if fb_inside d pos n
  then Some (n, set_fb d (with_pixels (d_fb d)
                  (fb_set_bytes (g_pixels (d_fb d)) pos (take (Z.to_nat n) buf)))) else None.

Definition fb_ioctl (request : Z) (arg : list Z) (d : dev H) : option (Z * list Z * dev H) :=
  if request =? FB_IOCTL_GET_INFO then
    if zlen arg =? 0 then Some (- EINVAL, [], d) else Some (0, info_bytes (fb_info d), d)
  else if request =? FB_IOCTL_FILL then
    Some (0, [], set_fb d (fb_fill (d_fb d) (if zlen arg =? 0 then 0 else le_value (sub arg 0 4))))
  else Some (- ENOTTY, [], d).

(** ** /dev/tty0 *)

(** The escape sequence of a special key; [] for an unmapped code. *)
Definition key_seq (code : Z) : list Z :=
  if code =? KBD_KEY_UP then [27; 91; 65]
  else if code =? KBD_KEY_DOWN then [27; 91; 66]
  else if code =? KBD_KEY_RIGHT then [27; 91; 67]
  else if code =? KBD_KEY_LEFT then [27; 91; 68]
  else if code =? KBD_KEY_HOME then [27; 91; 72]
  else if code =? KBD_KEY_END then [27; 91; 70]
  else if code =? KBD_KEY_DELETE then [27; 91; 51; 126]
  else if code =? KBD_KEY_INSERT then [27; 91; 50; 126]
  else if code =? KBD_KEY_PAGE_UP then [27; 91; 53; 126]
  else if code =? KBD_KEY_PAGE_DOWN then [27; 91; 54; 126]
  else [].

Definition tty_special_byte (code : Z) (d : dev H) : Z * dev H :=
  match key_seq code with
  | [] => (0, d)
  | seq => (byte_at seq 0, set_pend d (splice (g_tty_pend d) 0 seq) (zlen seq) 1)
  end.

(** The loop over events; a ring holds fewer events than the fuel. *)
Fixpoint tty_loop (fuel : nat) (pid : Z) (canon echo : bool) (d : dev H) : option (io * dev H) :=
  match fuel with
  | O => None
  | S fuel' =>
      match kbd_get_event_owned pid (d_kbd d) with
      | (None, k) => Some (IoWait 0, set_kbd d k)
      | (Some ev, k) =>
          let d := set_kbd d k in
          if ev_type ev =? KBD_EVENT_SPECIAL then
            let '(b, d) := tty_special_byte (ev_code ev) d in
            if b =? 0 then tty_loop fuel' pid canon echo d else Some (IoRet 1 [b], d)
          else if negb (ev_type ev =? KBD_EVENT_CHAR) then tty_loop fuel' pid canon echo d
          else if ev_c ev =? 0x1B then
            if canon then Some (IoRet 0 [], d) else Some (IoRet 1 [ev_c ev], d)
          else
            let c := ev_c ev in
            let c := if (c =? 10) && (Z.land (c_iflag (g_termios d)) TUS_ICRNL =? 0) then 13 else c in
            d ← (if echo && (0x20 <=? c) && negb (c =? 0x7F) then console_putchar c d else Some d);
            Some (IoRet 1 [c], d)
      end
  end.

Definition tty_read (count : Z) (d : dev H) : option (io * dev H) :=
  if count =? 0 then Some (IoRet 0 [], d)
  else if g_tty_pend_i d <? g_tty_pend_n d then
    let b := byte_at (g_tty_pend d) (g_tty_pend_i d) in
    let i := g_tty_pend_i d + 1 in
    let d := if i =? g_tty_pend_n d then set_pend d (g_tty_pend d) 0 0
             else set_pend d (g_tty_pend d) (g_tty_pend_n d) i in
    Some (IoRet 1 [b], d)
  else
    let pid := match d_pid d with Some pid => pid | None => 1 end in
    let canon := negb (Z.land (c_lflag (g_termios d)) TUS_ICANON =? 0) in
    let echo := negb (Z.land (c_lflag (g_termios d)) TUS_ECHO =? 0) in
    tty_loop (Z.to_nat KBD_BUFFER_SIZE) pid canon echo d.

Definition tty_write (buf : list Z) (d : dev H) : option (Z * dev H) :=
  d ← console_write buf d; Some (zlen buf, d).

Definition tty_ioctl (request : Z) (arg : list Z) (d : dev H) : option (Z * list Z * dev H) :=
  if request =? TCGETS then
    if zlen arg =? 0 then Some (- EINVAL, [], d) else Some (0, g_termios d, d)
  else if (request =? TCSETS) || (request =? TCSETSW) || (request =? TCSETSF) then
    if zlen arg =? 0 then Some (- EINVAL, [], d) else Some (0, [], set_termios d (sub arg 0 termios_size))
  else if request =? TIOCGWINSZ then
    if zlen arg =? 0 then Some (- EINVAL, [], d)
    else
      let '(cols, rows) := fb_get_grid (d_fb d) in
      Some (0, le_bytes 2 rows ++ le_bytes 2 cols ++ le_bytes 2 0 ++ le_bytes 2 0, d)
  else Some (- ENOTTY, [], d).

(** ** /dev/kbd0, /dev/serial0, /dev/null, /dev/zero *)

Fixpoint kbd_loop (fuel : nat) (d : dev H) : option (io * dev H) :=
  match fuel with
  | O => None
  | S fuel' =>
      match kbd_get_event (d_kbd d) with
      | (None, k) => Some (IoWait 0, set_kbd d k)
      | (Some ev, k) =>
          let d := set_kbd d k in
          if ev_type ev =? KBD_EVENT_SPECIAL then kbd_loop fuel' d
          else if negb (ev_type ev =? KBD_EVENT_CHAR) then kbd_loop fuel' d
          else if ev_c ev =? 0x1B then Some (IoRet 0 [], d)
          else Some (IoRet 1 [ev_c ev], d)
      end
  end.

Definition kbd_read (count : Z) (d : dev H) : option (io * dev H) :=
  if count =? 0 then Some (IoRet 0 [], d) else kbd_loop (Z.to_nat KBD_BUFFER_SIZE) d.

Definition serial_write_dev (buf : list Z) (d : dev H) : option (Z * dev H) :=
  Some (zlen buf, set_hw d (serial_write (g_ready d) buf (d_hw d))).

Definition null_write (buf : list Z) (d : dev H) : option (Z * dev H) := Some (zlen buf, d).

Definition null_read (count : Z) (d : dev H) : option (io * dev H) := Some (IoRet 0 [], d).

Definition zero_read (count : Z) (d : dev H) : option (io * dev H) :=
  Some (IoRet count (replicate (Z.to_nat count) 0), d).

(** ** The table of devices *)

(** A device function on the state that records a wild access. *)
Definition lift_read (f : Z -> Z -> dev H -> option (io * dev H)) : Z -> Z -> Z -> option (dev H) -> io * option (dev H) :=
  fun _ count pos od =>
    match d ← od; f count pos d with
    | Some (r, d) => (r, Some d)
    | None => (IoRet 0 [], None)
    end.

Definition lift_write (f : list Z -> Z -> dev H -> option (Z * dev H)) : Z -> list Z -> Z -> option (dev H) -> Z * option (dev H) :=
  fun _ buf pos od =>
    match d ← od; f buf pos d with
    | Some (r, d) => (r, Some d)
    | None => (0, None)
    end.

Definition lift_ioctl (f : Z -> list Z -> dev H -> option (Z * list Z * dev H))
  : Z -> Z -> list Z -> option (dev H) -> (Z * list Z) * option (dev H) :=
  fun _ request arg od =>
    match d ← od; f request arg d with
    | Some (r, out, d) => ((r, out), Some d)
    | None => ((0, []), None)
    end.

Definition fb_ops : file_ops (option (dev H)) :=
  FileOps (Some (lift_read fb_read)) (Some (lift_write fb_write)) (Some (lift_ioctl fb_ioctl)).
Definition tty_ops : file_ops (option (dev H)) :=
  FileOps (Some (lift_read (fun count _ => tty_read count))) (Some (lift_write (fun buf _ => tty_write buf)))
    (Some (lift_ioctl tty_ioctl)).
Definition kbd_ops : file_ops (option (dev H)) :=
  FileOps (Some (lift_read (fun count _ => kbd_read count))) None None.
Definition serial_ops : file_ops (option (dev H)) :=
  FileOps None (Some (lift_write (fun buf _ => serial_write_dev buf))) None.
Definition null_ops : file_ops (option (dev H)) :=
  FileOps (Some (lift_read (fun count _ => null_read count))) (Some (lift_write (fun buf _ => null_write buf))) None.
Definition zero_ops : file_ops (option (dev H)) :=
  FileOps (Some (lift_read (fun count _ => zero_read count))) (Some (lift_write (fun buf _ => null_write buf))) None.

(** The numbers stand for the addresses of the six static structs. *)
Definition device_table (ops : Z) : file_ops (option (dev H)) :=
  if ops =? 1 then fb_ops
  else if ops =? 2 then tty_ops
  else if ops =? 3 then kbd_ops
  else if ops =? 4 then serial_ops
  else if ops =? 5 then null_ops
  else zero_ops.

#[export] Instance tus_devices : DeviceTable (option (dev H)) := device_table.

(** [fb_get_info]: width, height, bits per pixel and pitch of the surface;
    [active] tells that [fb_init] has set [g_fb], whose pixels have 32 bits. *)
Definition fb_get_info (active : bool) (s : fb) (address : Z) : fb_device_info :=
  FbInfo (g_width (geom s)) (g_height (geom s)) (if active then 32 else 0) (g_pitch_bytes (geom s)) address.

Definition s_fb0 : list Z := s_dev ++ [47; 102; 98; 48].
Definition s_kbd0 : list Z := s_dev ++ [47; 107; 98; 100; 48].
Definition s_serial0 : list Z := s_dev ++ [47; 115; 101; 114; 105; 97; 108; 48].
Definition s_null : list Z := s_dev ++ [47; 110; 117; 108; 108].
Definition s_zero : list Z := s_dev ++ [47; 122; 101; 114; 111].

(** [address] is that of the framebuffer. *)
Definition devices_init (address : Z) : M (option (dev H)) unit :=
  _ ← modify (fun s => with_devs s (d ← devs s; Some (set_info d (fb_get_info (g_fb_active d) (d_fb d) address))));
  _ ← vfs_create_device s_fb0 (Some 1) 0;
  _ ← vfs_create_device s_tty0 (Some 2) 0;
  _ ← vfs_create_device s_kbd0 (Some 3) 0;
  _ ← vfs_create_device s_serial0 (Some 4) 0;
  _ ← vfs_create_device s_null (Some 5) 0;
  _ ← vfs_create_device s_zero (Some 6) 0;
  mret tt.
End Dev.

(** ** Reading the terminal *)

Section Tty.
Context {H : Type} `{Ports H}.

(** Reads of at least one byte until the terminal has nothing left or ends
    the stream. *)
Fixpoint tty_drain (fuel : nat) (count : Z) (d : dev H) : option (list Z * dev H) :=
  match fuel with
  | O => None
  | S fuel' =>
      match tty_read count d with
      | None => None
      | Some (IoWait _, d) => Some ([], d)
      | Some (IoRet n bytes, d) =>
          if n =? 0 then Some ([], d)
          else '(l, d) ← tty_drain fuel' count d; Some (bytes ++ l, d)
      end
  end.

Definition canon (d : dev H) : bool := negb (Z.land (c_lflag (g_termios d)) TUS_ICANON =? 0).
Definition icrnl (d : dev H) : bool := negb (Z.land (c_iflag (g_termios d)) TUS_ICRNL =? 0).
Definition pid_of (d : dev H) : Z := match d_pid d with Some pid => pid | None => 1 end.

(** The bytes of an event. *)
Definition ev_bytes (nl : bool) (ev : kbd_event) : list Z :=
  if ev_type ev =? KBD_EVENT_SPECIAL then key_seq (ev_code ev)
  else if (ev_c ev =? 10) && negb nl then [13] else [ev_c ev].

(** Escape ends the stream in canonical mode. *)
Definition ends (cn : bool) (ev : kbd_event) : bool := cn && (ev_type ev =? KBD_EVENT_CHAR) && (ev_c ev =? 0x1B).

Fixpoint stream (cn nl : bool) (evs : list kbd_event) : list Z :=
  match evs with
  | [] => []
  | ev :: evs' => if ends cn ev then [] else ev_bytes nl ev ++ stream cn nl evs'
  end.

(** The queued rest of an escape sequence. *)
Definition pend (d : dev H) : list Z := sub (g_tty_pend d) (g_tty_pend_i d) (g_tty_pend_n d - g_tty_pend_i d).

Definition ev_ok (ev : kbd_event) : Prop := ev_type ev = KBD_EVENT_CHAR \/ ev_type ev = KBD_EVENT_SPECIAL.

#[export] Instance ev_ok_dec ev : Decision (ev_ok ev).
Proof. unfold ev_ok. apply _. Defined.

(** The events [evs] wait for task [pid_of d], and the screen is usable. *)
Record tty_ok (d : dev H) (evs : list kbd_event) : Prop := TtyOk {
  to_ring : ring_ok (d_kbd d);
  to_events : pending (d_kbd d) = evs;
  to_owner : g_kbd_owner (d_kbd d) = 0 \/ g_kbd_owner (d_kbd d) = pid_of d;
  to_pend : zlen (g_tty_pend d) = 8 /\ 0 <= g_tty_pend_i d <= g_tty_pend_n d /\ g_tty_pend_n d <= 8;
  to_fb : g_fb_active d = true -> fb_ok (d_fb d);
}.

(** The fields a read does not change. *)
Definition same_mode (d d' : dev H) : Prop := g_termios d' = g_termios d /\ d_pid d' = d_pid d.

Lemma get_owned_some k pid ev l : ring_ok k -> g_kbd_owner k = 0 \/ g_kbd_owner k = pid -> pending k = ev :: l ->
  exists k', kbd_get_event_owned pid k = (Some ev, k') /\ ring_ok k' /\ pending k' = l /\ g_kbd_owner k' = pid.
Proof.
  intros Hok Ho Hp. set (k1 := if g_kbd_owner k =? 0 then with_owner k pid else k).
  assert (ring_ok k1 /\ pending k1 = pending k /\ g_kbd_owner k1 = pid) as (Hok1 & Hp1 & Ho1).
  { unfold k1. destruct (Z.eqb_spec (g_kbd_owner k) 0); split_and!; try done; lia. }
  assert (g_head k1 <> g_tail k1) as Hne.
  { intros E. apply pending_nil in E; [|done]. rewrite Hp1, Hp in E. discriminate. }
  pose proof (take_pending k1 Hok1 Hne) as Ht. rewrite Hp1, Hp in Ht. injection Ht as -> Ht.
  unfold kbd_get_event_owned. fold k1. rewrite Ho1, Z.eqb_refl. cbn [negb].
  destruct (Z.eqb_spec (g_head k1) (g_tail k1)); [done|]. cbn [take_event].
  eexists. split; [reflexivity|]. split_and!; [|by rewrite Ht|exact Ho1].
  destruct Hok1 as [? ?]. split; [done|]. cbn. by apply Z.mod_pos_bound.
Qed.

Lemma get_owned_none k pid : ring_ok k -> g_kbd_owner k = 0 \/ g_kbd_owner k = pid -> pending k = [] ->
  exists k', kbd_get_event_owned pid k = (None, k').
Proof.
  intros Hok Ho Hp. apply pending_nil in Hp; [|done]. unfold kbd_get_event_owned.
  split_tests; cbn in *; eauto; exfalso; lia.
Qed.

Lemma console_putchar_run c d : (g_fb_active d = true -> fb_ok (d_fb d)) ->
  exists d', console_putchar c d = Some d' /\ (g_fb_active d' = true -> fb_ok (d_fb d')) /\ same_mode d d' /\
    d_kbd d' = d_kbd d /\ g_tty_pend d' = g_tty_pend d /\ g_tty_pend_n d' = g_tty_pend_n d /\ g_tty_pend_i d' = g_tty_pend_i d.
Proof.
  intros Hfb. unfold console_putchar. cbn [g_fb_active set_hw d_fb].
  destruct (g_fb_active d) eqn:Ea.
  - destruct (putchar_run (d_fb d) c (Hfb eq_refl)) as (s' & -> & Hok). cbn.
    eexists. split; [reflexivity|]. by split_and!.
  - eexists. split; [reflexivity|]. split_and!; try done. cbn. congruence.
Qed.

Lemma key_seq_cases code : key_seq code = [] \/
  exists b l, key_seq code = b :: l /\ b = 27 /\ 1 <= zlen l <= 3.
Proof. unfold key_seq. split_tests; (by left) || (right; do 2 eexists; split; [reflexivity|]; unfold zlen; cbn; lia). Qed.

(** A sequence that has been queued: its first byte is returned at once. *)
Lemma special_run code d : zlen (g_tty_pend d) = 8 ->
  match key_seq code with
  | [] => tty_special_byte code d = (0, d)
  | b :: l => exists d', tty_special_byte code d = (b, d') /\ b <> 0 /\ pend d' = l /\
      d' = set_pend d (g_tty_pend d') (zlen (b :: l)) 1 /\ zlen (g_tty_pend d') = 8 /\ zlen (b :: l) <= 8
  end.
Proof.
  intros Hlen. unfold tty_special_byte. destruct (key_seq_cases code) as [->|(b & l & -> & -> & Hl)]; [done|].
  assert (zlen (27 :: l) = 1 + zlen l) as Hz by (unfold zlen; cbn; lia).
  eexists. split; [reflexivity|]. split; [done|]. cbn [set_pend g_tty_pend].
  assert (zlen (splice (g_tty_pend d) 0 (27 :: l)) = 8) as Hs by (rewrite zlen_splice; lia).
  split_and!; [|done|done|lia]. unfold pend. cbn [set_pend g_tty_pend g_tty_pend_i g_tty_pend_n].
  apply buf_ext; [rewrite zlen_sub; lia|]. intros i Hi. rewrite zlen_sub in Hi by lia.
  rewrite byte_at_sub, byte_at_splice by lia. split_tests; try lia.
  unfold byte_at. replace (Z.to_nat (1 + i - 0)) with (S (Z.to_nat i)) by lia. done.
Qed.

Lemma pend_nil d : tty_ok d (pending (d_kbd d)) -> pend d = [] <-> g_tty_pend_i d = g_tty_pend_n d.
Proof.
  intros [_ _ _ (Hl & Hi & Hn) _]. unfold pend. split; intros E.
  - assert (zlen (sub (g_tty_pend d) (g_tty_pend_i d) (g_tty_pend_n d - g_tty_pend_i d)) = 0) as Hz by (by rewrite E).
    rewrite zlen_sub in Hz; lia.
  - by rewrite E, Z.sub_diag.
Qed.

Lemma echo_run (b : bool) c d evs : tty_ok d evs ->
  exists d', (if b then console_putchar c d else Some d) = Some d' /\ tty_ok d' evs /\ same_mode d d' /\ pend d' = pend d.
Proof.
  intros Hok. destruct b; [|by exists d]. destruct Hok as [Hring Hev Ho Hp Hfb].
  destruct (console_putchar_run c d Hfb) as (d' & E & Hfb' & [Ht Hpid] & Hk & H1 & H2 & H3).
  exists d'. split; [done|]. unfold pend, pid_of in *. rewrite H1, H2, H3.
  split_and!; [|done|done]. split; rewrite ?Hk, ?H1, ?H2, ?H3; try done. unfold pid_of. by rewrite Hpid.
Qed.

(** One turn of the reading loop, with [evs] waiting and nothing queued. *)
Lemma tty_loop_run evs : forall fuel echo d,
  (length evs < fuel)%nat -> tty_ok d evs -> Forall ev_ok evs -> g_tty_pend_i d = g_tty_pend_n d ->
  exists r d', tty_loop fuel (pid_of d) (canon d) echo d = Some (r, d') /\ same_mode d d' /\
    ((r = IoWait 0 \/ r = IoRet 0 []) /\ stream (canon d) (icrnl d) evs = [] \/
     exists b evs', r = IoRet 1 [b] /\ tty_ok d' evs' /\ Forall ev_ok evs' /\
       stream (canon d) (icrnl d) evs = b :: pend d' ++ stream (canon d) (icrnl d) evs').
Proof.
  induction evs as [|ev evs IH]; intros [|fuel] echo d Hf [Hring Hev Ho Hp Hfb] Hwf Hpe; cbn in Hf; try lia; cbn [tty_loop].
  { destruct (get_owned_none _ (pid_of d) Hring Ho Hev) as [k' ->].
    do 2 eexists. split; [reflexivity|]. split; [by split|]. left. split; [by left|done]. }
  destruct (get_owned_some _ (pid_of d) _ _ Hring Ho Hev) as (k' & -> & Hring' & Hev' & Ho').
  inversion Hwf as [|? ? Hok Hwf']; subst.
  set (d1 := set_kbd d k'). assert (tty_ok d1 (pending k')) as Hd1 by (split; auto).
  cbn [stream]. unfold ev_bytes, ends. destruct Hok as [Ht|Ht]; rewrite Ht; cbn [Z.eqb KBD_EVENT_CHAR KBD_EVENT_SPECIAL Pos.eqb negb].
  - (* a character *)
    destruct (Z.eqb_spec (ev_c ev) 0x1B) as [Hesc|Hesc].
    + destruct (canon d); cbn [andb]; do 2 eexists; (split; [reflexivity|]); (split; [by split|]).
      * left. split; [by right|done].
      * right. exists (ev_c ev), (pending k'). split_and!; try done.
        rewrite (proj2 (pend_nil d1 Hd1) Hpe), Hesc. done.
    + rewrite andb_false_r. set (c := if (ev_c ev =? 10) && _ then 13 else ev_c ev).
      set (b := echo && (0x20 <=? c) && negb (c =? 0x7F)).
      destruct (echo_run b c d1 _ Hd1) as (d2 & -> & Hd2 & Hm & Hpd). cbn [mbind option_bind].
      do 2 eexists. split; [reflexivity|]. split; [done|]. right. exists c, (pending k'). split_and!; try done.
      rewrite Hpd, (proj2 (pend_nil d1 Hd1) Hpe). unfold c, icrnl. cbn [d1 set_kbd g_termios].
      rewrite negb_involutive. by destruct (_ && _).
  - (* a special key *)
    rewrite andb_false_r. cbn [andb].
    pose proof (special_run (ev_code ev) d1 (proj1 Hp)) as Hs. destruct (key_seq (ev_code ev)) as [|b l].
    + rewrite Hs. cbn [Z.eqb app]. destruct (IH fuel echo d1) as (r & d' & E & Hm & Hr); [lia|done..|].
      exists r, d'. by split_and!.
    + destruct Hs as (d' & -> & Hb & Hpd & Hd' & Hl & Hn). rewrite (proj2 (Z.eqb_neq b 0) Hb).
      do 2 eexists. split; [reflexivity|]. rewrite Hd'. split; [by split|]. right.
      exists b, (pending k'). split_and!; try done; [|by rewrite <-Hd', Hpd].
      split; auto. cbn. assert (zlen (b :: l) = 1 + zlen l) by (unfold zlen; cbn; lia).
      pose proof (zlen_nonneg l). lia.
Qed.

(** A read while a sequence is queued. *)
Lemma tty_read_pend count d evs b l : tty_ok d evs -> 1 <= count -> pend d = b :: l ->
  exists d', tty_read count d = Some (IoRet 1 [b], d') /\ tty_ok d' evs /\ pend d' = l /\ same_mode d d'.
Proof.
  intros [Hring Hev Ho (Hl & Hi & Hn) Hfb] Hc Hp. unfold pend in Hp. unfold tty_read.
  destruct (Z.eqb_spec count 0); [lia|].
  assert (zlen (b :: l) = g_tty_pend_n d - g_tty_pend_i d) as Hz by (rewrite <-Hp, zlen_sub; lia).
  assert (zlen (b :: l) = 1 + zlen l) as Hz1 by (unfold zlen; cbn; lia). pose proof (zlen_nonneg l).
  destruct (Z.ltb_spec (g_tty_pend_i d) (g_tty_pend_n d)); [|lia].
  assert (byte_at (g_tty_pend d) (g_tty_pend_i d) = b) as ->.
  { pose proof (byte_at_sub (g_tty_pend d) (g_tty_pend_i d) (g_tty_pend_n d - g_tty_pend_i d) 0) as Hb.
    rewrite Hp in Hb. rewrite <-(Z.add_0_r (g_tty_pend_i d)), <-Hb by lia. done. }
  assert (sub (g_tty_pend d) (g_tty_pend_i d + 1) (g_tty_pend_n d - (g_tty_pend_i d + 1)) = l) as Ht.
  { apply buf_ext; [rewrite zlen_sub; lia|]. intros i Hir. rewrite zlen_sub in Hir by lia.
    rewrite byte_at_sub by lia. replace (g_tty_pend_i d + 1 + i) with (g_tty_pend_i d + (1 + i)) by lia.
    rewrite <-(byte_at_sub _ _ (g_tty_pend_n d - g_tty_pend_i d)), Hp by lia.
    unfold byte_at. by replace (Z.to_nat (1 + i)) with (S (Z.to_nat i)) by lia. }
  eexists. split; [reflexivity|]. destruct (Z.eqb_spec (g_tty_pend_i d + 1) (g_tty_pend_n d)) as [E|E];
    (split; [split; try done; cbn; lia|]); (split; [|done]); [|exact Ht].
  destruct l; [done|]. unfold zlen in *. cbn in *. lia.
Qed.

Lemma drain_run fuel count : forall d evs,
  tty_ok d evs -> Forall ev_ok evs -> 1 <= count ->
  (length (pend d ++ stream (canon d) (icrnl d) evs) < fuel)%nat ->
  exists d', tty_drain fuel count d = Some (pend d ++ stream (canon d) (icrnl d) evs, d').
Proof.
  induction fuel as [|fuel IH]; intros d evs Hok Hwf Hc Hf; [lia|]. cbn [tty_drain].
  assert (forall d' : dev H, same_mode d d' -> canon d' = canon d /\ icrnl d' = icrnl d) as Hmode
    by (intros d' [E _]; unfold canon, icrnl; by rewrite E).
  destruct (pend d) as [|b l] eqn:Ep.
  - assert (tty_ok d (pending (d_kbd d))) as Hok' by (by rewrite (to_events _ _ Hok)).
    pose proof (proj1 (pend_nil d Hok') Ep) as Hpe. unfold tty_read.
    destruct (Z.eqb_spec count 0); [lia|]. rewrite Hpe, Z.ltb_irrefl.
    assert (length evs < Z.to_nat KBD_BUFFER_SIZE)%nat as Hlen.
    { pose proof (length_pending (d_kbd d)) as Hlp. pose proof (count_range (d_kbd d)).
      rewrite (to_events _ _ Hok) in Hlp. unfold KBD_BUFFER_SIZE. lia. }
    destruct (tty_loop_run evs _ (negb (Z.land (c_lflag (g_termios d)) TUS_ECHO =? 0)) d Hlen Hok Hwf Hpe)
      as (r & d' & E & Hm & Hr).
    unfold pid_of, canon in E. rewrite E. destruct Hr as [[[->| ->] Hst]|(b & evs' & -> & Hok2 & Hwf' & Hst)];
      [rewrite Hst; cbn; eauto..|].
    destruct (Hmode d' Hm) as [Hcn Hnl]. rewrite Hst in Hf |- *. cbn [Z.eqb app] in *.
    destruct (IH d' evs' Hok2 Hwf' Hc) as [d3 E3]; [rewrite Hcn, Hnl; cbn in Hf; lia|].
    rewrite E3, Hcn, Hnl. cbn. eauto.
  - destruct (tty_read_pend count d evs b l Hok Hc Ep) as (d' & -> & Hok2 & Hpd & Hm).
    destruct (Hmode d' Hm) as [Hcn Hnl]. cbn [Z.eqb app] in *.
    destruct (IH d' evs Hok2 Hwf Hc) as [d3 E3]; [rewrite Hcn, Hnl, Hpd; cbn in Hf; lia|].
    rewrite E3, Hcn, Hnl, Hpd. cbn. eauto.
Qed.
End Tty.

(** Reading the terminal byte by byte delivers what a terminal would
    send for the keys that wait in the ring: first the rest of a sequence
    already begun, then per key its character or its escape sequence, with
    Enter as carriage return when ICRNL is off, up to Escape in canonical
    mode; keys without a meaning are skipped. No read writes outside of the
    framebuffer, echo included, and the loop over events ends. *)
Theorem tty_reads_keys {H} `{Ports H} (d : dev H) (evs : list kbd_event) (count : Z) (fuel : nat) :
  tty_ok d evs -> Forall ev_ok evs -> 1 <= count ->
  (length (pend d ++ stream (canon d) (icrnl d) evs) < fuel)%nat ->
  exists d', tty_drain fuel count d = Some (pend d ++ stream (canon d) (icrnl d) evs, d').
Proof. apply drain_run. Qed.

(** ** From boot to the first line on the console *)

Section Boot.
Context {H : Type} `{Ports H}.

(** The state before [vfs_init]: task 1 has an empty table of descriptors. *)
Definition before_boot (d : dev H) : vfs (option (dev H)) :=
  Vfs ∅ ∅ ∅ 0 {[ 1 := replicate (Z.to_nat VFS_MAX_FDS) 0 ]} (Some 1) 1 [] (Some d).

Definition boot (address : Z) : M (option (dev H)) unit :=
  _ ← vfs_init; vfs_devices_init (devices_init address).

(** The descriptor [fd] of the current task is open on a device node with the
    functions [dev_ops ops]. *)
Record open_device (s : vfs (option (dev H))) (fd ops : Z) : Prop := OpenDevice {
  od_open : exists a f n, fd_get fd s = Some (a, s) /\ a <> 0 /\ files s !! a = Some f /\ f_pipe f = 0 /\
    Z.land (f_flags f) 3 = O_RDWR /\ nodes s !! f_node f = Some n /\ n_type n = VFS_DEVICE /\ n_ops n = Some ops;
}.

(** Reading and writing such a descriptor calls the functions of the device. *)
Lemma vfs_write_device s fd ops wr buf total : open_device s fd ops -> op_write (dev_ops ops) = Some wr ->
  exists priv pos s', vfs_write (fun _ => 0) fd (Some buf) total s = Some (IoRet (fst (wr priv buf pos (devs s))) [], s') /\
    devs s' = snd (wr priv buf pos (devs s)).
Proof.
  intros [(a & f & n & Hfd & Ha & Hf & Hp & Hfl & Hn & Hty & Hops)] Hwr. exists (n_priv n), (f_pos f).
  unfold vfs_write. rewrite (bind_run _ _ _ _ _ Hfd), (proj2 (Z.eqb_neq a 0) Ha).
  rewrite (bind_run _ _ _ _ _ (get_file_run _ _ _ Hf)), Hfl, Hp. cbn [Z.eqb O_RDWR O_RDONLY negb].
  rewrite (bind_run _ _ _ _ _ (get_node_run _ _ _ Hn)), Hty, Hops, Hwr.
  destruct (wr (n_priv n) buf (f_pos f) (devs s)) as [r d'] eqn:E. unfold mbind, M_bind, get, modify. rewrite E.
  cbn [fst snd]. destruct (0 <? r); eexists; split; reflexivity.
Qed.

Lemma boot_opens address d fd : 0 <= fd <= 2 ->
  exists s, boot address (before_boot d) = Some (tt, s) /\ open_device s fd 2 /\
    devs s = Some (set_info d (fb_get_info (g_fb_active d) (d_fb d) address)).
Proof.
  intros Hfd. assert (fd = 0 \/ fd = 1 \/ fd = 2) as Hc by lia.
  eexists. split; [vm_compute; reflexivity|]. split; [|reflexivity]. split.
  destruct Hc as [->|[->| ->]]; do 3 eexists; (split; [vm_compute; reflexivity|]);
    (split; [discriminate|]); split_and!; vm_compute; reflexivity.
Qed.

Lemma console_write_run buf : forall d, (g_fb_active d = true -> fb_ok (d_fb d)) ->
  exists d', console_write buf d = Some d' /\ (g_fb_active d' = true -> fb_ok (d_fb d')).
Proof.
  induction buf as [|c buf IH]; intros d Hfb; cbn [console_write]; [eauto|].
  destruct (console_putchar_run c d Hfb) as (d1 & -> & Hfb1 & _). by apply IH.
Qed.
End Boot.

(** After [vfs_init] and [vfs_devices_init] the first task has the
    descriptors 0, 1 and 2 open on the terminal: writing any bytes to one of
    them through [vfs_write] puts exactly these bytes on the console - the
    serial line and, if present, the framebuffer, without leaving its
    bounds - and returns their number. *)
Theorem boot_wires_console {H} `{Ports H} (address : Z) (d : dev H) (fd : Z) (buf : list Z) :
  (g_fb_active d = true -> fb_ok (d_fb d)) -> 0 <= fd <= 2 ->
  exists s d2 s', boot address (before_boot d) = Some (tt, s) /\
    console_write buf (set_info d (fb_get_info (g_fb_active d) (d_fb d) address)) = Some d2 /\
    vfs_write (fun _ => 0) fd (Some buf) 0 s = Some (IoRet (zlen buf) [], s') /\ devs s' = Some d2.
Proof.
  intros Hfb Hfd. destruct (boot_opens address d fd Hfd) as (s & E & Hopen & Hd).
  set (d1 := set_info _ _) in *. destruct (console_write_run buf d1 Hfb) as (d2 & Ec & _).
  destruct (vfs_write_device s fd 2 _ buf 0 Hopen eq_refl) as (priv & pos & s' & Ew & Hs').
  exists s, d2, s'. rewrite Ew, Hs', Hd. unfold lift_write, tty_write. cbn [mbind option_bind]. rewrite Ec.
  split; [exact E|]. split_and!; reflexivity.
Qed.

(** *** A terminal in raw mode *)

Definition demo_dev : dev feed :=
  Dev fb_static false false
    (kbd_push_char 10 (kbd_push_char 97 (kbd_push_event (KbdEvent KBD_EVENT_SPECIAL KBD_KEY_UP 0) kbd_boot)))
    (replicate 60 0) (replicate 8 0) 0 0 (FbInfo 0 0 0 0 0) (Some 7) (Feed 0 []).

Lemma tty_reads_keys_witness : exists d', tty_drain 10 1 demo_dev = Some ([27; 91; 65; 97; 13], d').
Proof.
  destruct (tty_reads_keys demo_dev (pending (d_kbd demo_dev)) 1 10) as [d' E].
  - split; [by split; vm_compute|reflexivity|left; reflexivity|by split_and!; vm_compute|discriminate].
  - by_decide.
  - lia.
  - vm_compute. lia.
  - exists d'. exact E.
Defined.

Lemma boot_wires_console_witness :
  exists s d2 s', boot 0 (before_boot demo_dev) = Some (tt, s) /\
    console_write [104; 105] (set_info demo_dev (FbInfo 0 0 0 0 0)) = Some d2 /\
    vfs_write (fun _ => 0) 1 (Some [104; 105]) 0 s = Some (IoRet 2 [], s') /\ devs s' = Some d2.
Proof. apply (boot_wires_console 0 demo_dev 1 [104; 105]); [discriminate|lia]. Defined.

(** ** Pixels through /dev/fb0 *)

Lemma fb_byte_bits m q i : 0 <= i ->
  Z.testbit (fb_byte m q) i = Z.testbit (m (q / 4)) (i + 8 * (q mod 4)) && (i <? 8).
Proof.
  intros Hi. unfold fb_byte. change 0xFF with (Z.ones 8).
  rewrite Z.land_spec, Z.shiftr_spec, Z.testbit_ones_nonneg by lia. done.
Qed.

Lemma byte_high b i : 0 <= b < 256 -> 8 <= i -> Z.testbit b i = false.
Proof. intros Hb Hi. apply (testbit_high b 8); lia. Qed.

Lemma fb_byte_set m p q b : 0 <= p -> 0 <= q -> 0 <= b < 256 ->
  fb_byte (fb_set_byte m p b) q = if q =? p then b else fb_byte m q.
Proof.
  intros Hp Hq Hb. apply Z.bits_inj'. intros i Hi. rewrite fb_byte_bits by lia.
  assert (Z.testbit (if q =? p then b else fb_byte m q) i =
    if q =? p then Z.testbit b i else Z.testbit (m (q / 4)) (i + 8 * (q mod 4)) && (i <? 8)) as ->
    by (destruct (q =? p); [done|apply fb_byte_bits; lia]).
  unfold fb_set_byte. destruct (Z.eq_dec (q / 4) (p / 4)) as [E|E].
  - rewrite <-E, upd_eq, Z.lor_spec, Z.land_spec, Z.lnot_spec, !Z.shiftl_spec by divlia. change 0xFF with (Z.ones 8).
    destruct (Z.eqb_spec q p) as [->|Hne].
    + replace (i + 8 * (p mod 4) - 8 * (p mod 4)) with i by lia. rewrite Z.testbit_ones_nonneg by lia.
      destruct (Z.ltb_spec i 8); [by rewrite andb_false_r, andb_true_r|]. rewrite andb_false_r.
      symmetry. by apply byte_high.
    + assert (q mod 4 <> p mod 4) by divlia. set (j := i + 8 * (q mod 4) - 8 * (p mod 4)).
      destruct (Z.ltb_spec i 8); [|by rewrite !andb_false_r]. rewrite !andb_true_r.
      assert (j < 0 \/ 8 <= j) as [Hj|Hj] by (unfold j; divlia).
      * rewrite !(Z.testbit_neg_r _ j) by lia. by rewrite andb_true_r, orb_false_r.
      * rewrite (Z.testbit_ones_nonneg 8 j), (byte_high b j) by lia. destruct (Z.ltb_spec j 8); [lia|].
        by rewrite andb_true_r, orb_false_r.
  - rewrite upd_ne by done. destruct (Z.eqb_spec q p) as [->|]; [done|done].
Qed.

Lemma fb_bytes_set l : forall m p q, 0 <= p -> 0 <= q -> Forall (fun b => 0 <= b < 256) l ->
  fb_byte (fb_set_bytes m p l) q = if (p <=? q) && (q <? p + zlen l) then byte_at l (q - p) else fb_byte m q.
Proof.
  induction l as [|b l IH]; intros m p q Hp Hq Hl; cbn [fb_set_bytes].
  - unfold zlen. cbn. split_tests; (done || lia).
  - inversion Hl; subst. rewrite IH, fb_byte_set by (done || lia).
    assert (zlen (b :: l) = 1 + zlen l) as Hz by (unfold zlen; cbn; lia). pose proof (zlen_nonneg l).
    rewrite Hz. destruct (Z.eqb_spec q p) as [->|Hne].
    + rewrite Z.sub_diag. split_tests; try lia; done.
    + split_tests; try lia; try done. unfold byte_at.
      by replace (Z.to_nat (q - p)) with (S (Z.to_nat (q - (p + 1)))) by lia.
Qed.

(** The description of /dev/fb0 matches the surface. *)
Definition info_ok {H} (d : dev H) : Prop :=
  fi_pitch (fb_info d) * fi_height (fb_info d) = 4 * surface (geom (d_fb d)) /\
  0 <= 4 * surface (geom (d_fb d)) < 2 ^ 64.

(** Bytes written to /dev/fb0 at an offset are read back from there: the
    write is cut at the end of the surface, changes the bytes written and no
    others, and neither call leaves the surface. *)
Theorem fb0_write_read {H} (d : dev H) (buf : list Z) (pos : Z) :
  info_ok d -> Forall (fun b => 0 <= b < 256) buf -> 0 <= pos ->
  let n := Z.min (zlen buf) (Z.max 0 (4 * surface (geom (d_fb d)) - pos)) in
  exists d', fb_write buf pos d = Some (n, d') /\
    fb_read n pos d' = Some (IoRet n (sub buf 0 n), d') /\
    forall q, 0 <= q -> q < pos \/ pos + n <= q -> fb_byte (g_pixels (d_fb d')) q = fb_byte (g_pixels (d_fb d)) q.
Proof.
  intros [Hi Hs] Hb Hp n. pose proof (zlen_nonneg buf) as Hz.
  assert (forall k, 0 <= k -> fb_span (fb_info d) k pos = Z.min k (Z.max 0 (4 * surface (geom (d_fb d)) - pos))) as Hspan.
  { intros k Hk. unfold fb_span. rewrite Hi, u64_small by lia. split_tests; lia. }
  assert (forall d' : dev H, geom (d_fb d') = geom (d_fb d) -> fb_inside d' pos n = true) as Hin.
  { intros d' E. unfold fb_inside. rewrite E. destruct (Z.eqb_spec n 0); [done|]. cbn. lia. }
  unfold fb_write. rewrite Hspan by lia. fold n. rewrite Hin by done. eexists. split; [reflexivity|].
  set (m := g_pixels (d_fb d)). assert (zlen (take (Z.to_nat n) buf) = n) as Ht.
  { unfold zlen in *. rewrite length_take. lia. }
  assert (Forall (fun b => 0 <= b < 256) (take (Z.to_nat n) buf)) as Hbt by (by apply Forall_take).
  split.
  - unfold fb_read. cbn [fb_info set_fb d_fb g_pixels with_pixels]. rewrite Hspan by lia.
    replace (Z.min n _) with n by lia. rewrite Hin by done. do 3 f_equal.
    apply buf_ext; [unfold zlen; rewrite length_map, length_zseq; change (Z.of_nat (length (sub buf 0 n))) with (zlen (sub buf 0 n)); rewrite zlen_sub; lia|].
    intros i Hir. unfold zlen in Hir. rewrite length_map, length_zseq in Hir. rewrite byte_at_sub by lia.
    unfold byte_at at 1. rewrite (nth_indep _ 0 (fb_byte (fb_set_bytes m pos (take (Z.to_nat n) buf)) 0)) by (rewrite length_map, length_zseq; lia).
    rewrite map_nth, nth_zseq, fb_bytes_set, Ht by (done || lia).
    replace (pos + Z.of_nat (Z.to_nat i) - pos) with i by lia. split_tests; try lia. rewrite byte_at_take by lia. done.
  - intros q Hq Ho. cbn [d_fb set_fb g_pixels with_pixels]. rewrite fb_bytes_set, Ht by (done || lia).
    split_tests; lia || done.
Qed.

(** A surface of one line of 4 pixels. *)
Definition demo_fb_dev : dev feed :=
  set_info (set_fb demo_dev (with_geom fb_static (FbGeom 16 4 1 0 0 0))) (FbInfo 4 1 32 16 0).

Lemma fb0_write_read_witness :
  exists d', fb_write [1; 2; 3; 4; 5] 13 demo_fb_dev = Some (3, d') /\ fb_read 3 13 d' = Some (IoRet 3 [1; 2; 3], d').
Proof.
  destruct (fb0_write_read demo_fb_dev [1; 2; 3; 4; 5] 13) as (d' & E1 & E2 & _);
    [split; [reflexivity|split; [discriminate|reflexivity]]|by_decide|lia|].
  exists d'. split; [exact E1|exact E2].
Defined.
