(* ===== verification/Sched.v ===== *)
(** * Tasks and the scheduler

    Translation of src/kernel/sched/sched.c. The state [kern] joins the parts
    of the kernel a task refers to: the kernel heap with its page tables, the
    file system (with the descriptor table of every task slot, and in [cur]
    the variable [g_current]), the devices behind it, the task table, and the
    processor registers that a task switch saves and loads.

    A pointer to a task is the index of its slot. The contents of the frames
    that hold user pages are byte lists ([k_frames], by physical address);
    kernel stacks are words of the heap arena. The interrupt entry stub is
    its list of registers: [sched_tick] returns the stack pointer to pop them
    from, 0 to stay. *)

From stdpp Require Import base numbers list gmap.
From Stdlib Require Import ZArith Lia ZifyBool.
From S2P Require Import Prelude.
From S2P Require Import Interfaces.
From S2P Require Import Hardware.
From S2P Require Import Keyboard.
From S2P Require Import Klib.
From S2P Require Import Pmm.
From S2P Require Import Vmm.
From S2P Require Import Kmalloc.
From S2P Require Import Pipe.
From S2P Require Import Vfs.
From S2P Require Import VfsFd.
From S2P Require Import Fb.
From S2P Require Import Devices.

Definition SEL_USER_CODE : Z := 0x1B.
Definition SEL_USER_DATA : Z := 0x23.
Definition STACK_SIZE : Z := 16384.
Definition USER_STACK_SIZE : Z := 65536.
Definition FRAME_WORDS : Z := 20.
Definition USER_STACK_BASE : Z := 0x60000000.
Definition MMAP_CURSOR_START : Z := 0x40000000.
Definition AT_PAGESZ : Z := 6.
Definition TASK_READY : Z := 1.
Definition TASK_RUNNING : Z := 2.
Definition TASK_ZOMBIE : Z := 3.
Definition TASK_NAME_MAX : Z := 32.
Definition TASK_MAX : Z := 16.

(** [struct task] without its descriptor table; the 512 bytes of [fpu] are a
    list. *)
Record task := Task {
  t_pid : Z;
  t_state : Z;
  t_name : list Z;
  t_kstack : Z;
  t_kstack_top : Z;
  t_rsp : Z;
  t_ustack : Z;
  t_ustack_top : Z;
  t_cr3 : Z;
  t_fpu : list Z;
  t_fs_base : Z;
  t_uid : Z;
  t_euid : Z;
  t_gid : Z;
  t_egid : Z;
  t_mmap_cur : Z;
  t_exit_status : Z;
}.

(** A slot after [memset] to zero. *)
Definition no_task : task := Task 0 0 [] 0 0 0 0 0 0 (replicate 512 0) 0 0 0 0 0 0 0.

Definition set_state (t : task) (x : Z) : task :=
  Task (t_pid t) x (t_name t) (t_kstack t) (t_kstack_top t) (t_rsp t) (t_ustack t) (t_ustack_top t)
    (t_cr3 t) (t_fpu t) (t_fs_base t) (t_uid t) (t_euid t) (t_gid t) (t_egid t) (t_mmap_cur t) (t_exit_status t).
Definition set_rsp (t : task) (x : Z) : task :=
  Task (t_pid t) (t_state t) (t_name t) (t_kstack t) (t_kstack_top t) x (t_ustack t) (t_ustack_top t)
    (t_cr3 t) (t_fpu t) (t_fs_base t) (t_uid t) (t_euid t) (t_gid t) (t_egid t) (t_mmap_cur t) (t_exit_status t).
Definition set_fpu (t : task) (x : list Z) : task :=
  Task (t_pid t) (t_state t) (t_name t) (t_kstack t) (t_kstack_top t) (t_rsp t) (t_ustack t) (t_ustack_top t)
    (t_cr3 t) x (t_fs_base t) (t_uid t) (t_euid t) (t_gid t) (t_egid t) (t_mmap_cur t) (t_exit_status t).
Definition set_exit (t : task) (x : Z) : task :=
  Task (t_pid t) (t_state t) (t_name t) (t_kstack t) (t_kstack_top t) (t_rsp t) (t_ustack t) (t_ustack_top t)
    (t_cr3 t) (t_fpu t) (t_fs_base t) (t_uid t) (t_euid t) (t_gid t) (t_egid t) (t_mmap_cur t) x.

(** TSS.RSP0, the FPU registers (as the image [fxsave] writes) and
    IA32_FS_BASE. CR3 is part of the page table state. *)
Record cpu := Cpu {
  rsp0 : Z;
  fpu_regs : list Z;
  fs_base : Z;
}.

Record kern (P H : Type) := Kern {
  k_heap : heap P;
  k_vfs : vfs (option (dev H));
  g_tasks : list task;
  g_next_pid : Z;
  g_preempt_depth : Z;
  k_cpu : cpu;
  g_ticks : Z;
  k_frames : Z -> list Z;
}.
Arguments Kern {P H}.
Arguments k_heap {P H}.
Arguments k_vfs {P H}.
Arguments g_tasks {P H}.
Arguments g_next_pid {P H}.
Arguments g_preempt_depth {P H}.
Arguments k_cpu {P H}.
Arguments g_ticks {P H}.
Arguments k_frames {P H}.

Section Fields.
Context {P H : Type}.
Implicit Types k : kern P H.

Definition with_heap k x : kern P H := Kern x (k_vfs k) (g_tasks k) (g_next_pid k) (g_preempt_depth k) (k_cpu k) (g_ticks k) (k_frames k).
Definition with_vfs k x : kern P H := Kern (k_heap k) x (g_tasks k) (g_next_pid k) (g_preempt_depth k) (k_cpu k) (g_ticks k) (k_frames k).
Definition with_tasks k x : kern P H := Kern (k_heap k) (k_vfs k) x (g_next_pid k) (g_preempt_depth k) (k_cpu k) (g_ticks k) (k_frames k).
Definition with_pid k x : kern P H := Kern (k_heap k) (k_vfs k) (g_tasks k) x (g_preempt_depth k) (k_cpu k) (g_ticks k) (k_frames k).
Definition with_preempt k x : kern P H := Kern (k_heap k) (k_vfs k) (g_tasks k) (g_next_pid k) x (k_cpu k) (g_ticks k) (k_frames k).
Definition with_cpu k x : kern P H := Kern (k_heap k) (k_vfs k) (g_tasks k) (g_next_pid k) (g_preempt_depth k) x (g_ticks k) (k_frames k).
Definition with_ticks k x : kern P H := Kern (k_heap k) (k_vfs k) (g_tasks k) (g_next_pid k) (g_preempt_depth k) (k_cpu k) x (k_frames k).
Definition with_frames k x : kern P H := Kern (k_heap k) (k_vfs k) (g_tasks k) (g_next_pid k) (g_preempt_depth k) (k_cpu k) (g_ticks k) x.

(** [g_current]. *)
Definition g_current k : option Z := cur (k_vfs k).
Definition with_current k (c : option Z) : kern P H :=
  let s := k_vfs k in
  with_vfs k (Vfs (nodes s) (files s) (pipes s) (g_root s) (tables s) c (next_id s) (oom s) (devs s)).

(** [g_tasks[i]]. *)
Definition get_task k (i : Z) : task := nth (Z.to_nat i) (g_tasks k) no_task.
Definition set_task k (i : Z) (t : task) : kern P H := with_tasks k (<[Z.to_nat i := t]> (g_tasks k)).

(** The page tables, and the devices. *)
Definition k_vmm k : vmm P := hvm (k_heap k).
Definition with_vmm k (v : vmm P) : kern P H := with_heap k (with_hvm (k_heap k) v).
Definition on_dev k (f : dev H -> option (dev H)) : kern P H :=
  with_vfs k (with_devs (k_vfs k) (d ← devs (k_vfs k); f d)).
End Fields.

(** ** Slots *)

Definition alive (t : task) : bool := (t_state t =? TASK_READY) || (t_state t =? TASK_RUNNING).

(** ** The initial user stack

    The page image: offsets into the top page of the stack, of which [va] is
    the user virtual address. *)

Definition PAGE_BYTES : Z := 4096.

(** One argument string below the others: the page, its offset, the pointers. *)
Definition push_string (va : Z) (st : list Z * Z * list Z) (arg : list Z) : list Z * Z * list Z :=
  let '(page, sptr, ptrs) := st in
  let sptr := sptr - (zlen arg + 1) in
  (splice page sptr (arg ++ [0]), sptr, ptrs ++ [va + sptr]).

(** What the image occupies at most. *)
Definition stack_need (args : list (list Z)) : Z :=
  fold_left (fun need arg => need + (zlen arg + 1)) args (8 + (Z.of_nat (length args) + 6) * 8).

(** The page with the strings and the words [argc], the pointers, and the
    empty environment and auxiliary vector; the offset of the first word. *)
Definition build_stack (va : Z) (page : list Z) (args : list (list Z)) : option (list Z * Z) :=
  if PAGE_BYTES <? stack_need args then None
  else
    let nargs := Z.of_nat (length args) in
    let nwords := nargs + 6 in
    let '(page, sptr, ptrs) := fold_left (push_string va) args (page, PAGE_BYTES, []) in
    let init := Z.ldiff sptr 7 - nwords * 8 in
    let words := nargs :: ptrs ++ [0; 0; AT_PAGESZ; 4096; 0] in
    Some (splice page init (concat (map (le_bytes 8) words)), init).

(** The arguments: the name and at most 15 of [argv]. *)
Definition stack_args (name : list Z) (argv : list (option (list Z))) : list (list Z) :=
  take 16 (name :: map (fun a => match a with Some a => a | None => [] end) argv).

(** [strncpy] into [t->name] and its terminator. *)
Definition task_name (name : list Z) : list Z := take (Z.to_nat (TASK_NAME_MAX - 1)) name.

(** The 512 bytes of a clean [fxsave] image. *)
Definition fpu_reset : list Z :=
  splice (splice (splice (splice (replicate 512 0) 0 (le_bytes 2 0x037F)) 4 (le_bytes 2 0xFFFF))
    24 (le_bytes 4 0x1F80)) 28 (le_bytes 4 0xFFFF).

Section Tasks.
Context {P H : Type} `{FramePool P} `{Ports H}.
Implicit Types k : kern P H.

(** A zombie's slot is cleared, its descriptor table with it; then an unused
    one; [None] for NULL. *)
Definition task_find_slot k : option Z * kern P H :=
  match zfind (fun i => t_state (get_task k i) =? TASK_ZOMBIE) 16 0 with
  | Some i =>
      let k := set_task k i no_task in
      (Some i, with_vfs k (with_tables (k_vfs k) (<[i := replicate 16 0]> (tables (k_vfs k)))))
  | None => (zfind (fun i => t_state (get_task k i) =? 0) 16 0, k)
  end.

Definition task_next k (after : Z) : Z :=
  match zfind (fun i => alive (get_task k ((after + i) mod TASK_MAX))) 16 1 with
  | Some i => (after + i) mod TASK_MAX
  | None => after
  end.

Definition sched_current k : option Z := g_current k.

Definition sched_task_count k : Z := Z.of_nat (length (filter (fun t => alive t = true) (g_tasks k))).

Definition sched_task_alive k (pid : Z) : bool :=
  existsb (fun t => (t_pid t =? pid) && negb (t_state t =? TASK_ZOMBIE)) (g_tasks k).

Definition preempt_disable k : kern P H := with_preempt k (g_preempt_depth k + 1).

Definition preempt_enable k : kern P H :=
  if 0 <? g_preempt_depth k then with_preempt k (g_preempt_depth k - 1) else k.

(** [kprintf]; the fuel of the format walk is its length. *)
Definition kprintf k (fmt : list Z) (args : list va) : option (kern P H) :=
  let k := preempt_disable k in
  out ← kvprintf (S (length fmt)) fmt args;
  Some (preempt_enable (on_dev k (console_write out))).

(** The line of [ps] for one slot. *)
Definition list_task k (t : task) : option (kern P H) :=
  if t_state t =? 0 then Some k
  else
    let state := if t_state t =? TASK_RUNNING then bs "running"
                 else if t_state t =? TASK_READY then bs "ready" else bs "zombie" in
    kprintf k (bs "%-4u %-8s %-10llx %s" ++ [10]) [VaInt (t_pid t); VaStr (Some state); VaInt (t_cr3 t); VaStr (Some (t_name t))].

Fixpoint list_tasks k (l : list task) : option (kern P H) :=
  match l with
  | [] => Some k
  | t :: l' => k' ← list_task k t; list_tasks k' l'
  end.

Definition task_list_all k : option (kern P H) := list_tasks k (g_tasks k).

(** ** Switching *)

(** The part that [sched_tick] and [task_exit] have in common: the registers
    of the current task are saved and those of [next] loaded. *)
Definition switch_to k (current next : Z) : kern P H :=
  let k := set_task k next (set_state (get_task k next) TASK_RUNNING) in
  let c := k_cpu k in
  let k := with_cpu k (Cpu (t_kstack_top (get_task k next)) (fpu_regs c) (fs_base c)) in
  let k := set_task k current (set_fpu (get_task k current) (fpu_regs c)) in
  let k := with_vmm k (vmm_space_switch (k_vmm k) (t_cr3 (get_task k next))) in
  let t := get_task k next in
  let k := with_cpu k (Cpu (rsp0 (k_cpu k)) (t_fpu t) (t_fs_base t)) in
  with_current k (Some next).

Definition sched_tick k (frame_rsp : Z) : Z * kern P H :=
  let k := on_dev k (fun d => Some (set_hw d (pic_send_eoi 0 (d_hw d)))) in
  let k := with_ticks k (pit_tick (g_ticks k)) in
  match g_current k with
  | None => (0, k)
  | Some c =>
      if t_state (get_task k c) =? TASK_ZOMBIE then (0, k)
      else if 0 <? g_preempt_depth k then (0, k)
      else
        let k := set_task k c (set_rsp (get_task k c) frame_rsp) in
        let next := task_next k c in
        if next =? c then (0, k)
        else
          let k := set_task k c (set_state (get_task k c) TASK_READY) in
          let k := switch_to k c next in
          (t_rsp (get_task k next), k)
  end.

Definition s_halted : list Z := bs "task_exit: no other tasks - system halted." ++ [10].

(** [task_exit]: the stack pointer from which the next task resumes, or
    [None] when the processor halts for good. The outer [option] is the fault
    of the file system. *)
Definition task_exit k (status : Z) : option (option Z * kern P H) :=
  match g_current k with
  | None => Some (None, k)
  | Some c =>
      let k := set_task k c (set_exit (set_state (get_task k c) TASK_ZOMBIE) status) in
      let pid := t_pid (get_task k c) in
      let k := on_dev k (fun d => Some (set_kbd d (kbd_input_release pid (d_kbd d)))) in
      '(_, v) ← vfs_close_all (k_vfs k);
      let k := with_vfs k v in
      let next := task_next k c in
      if next =? c then Some (None, on_dev k (console_write s_halted))
      else
        let k := switch_to k c next in
        Some (Some (t_rsp (get_task k next)), k)
  end.

(** ** Creating tasks *)

(** The pages of the user stack; [false] for the return of -1. *)
Fixpoint map_stack (n : nat) (i : Z) (cr3 : Z) k : bool * kern P H :=
  match n with
  | O => (true, k)
  | S n' =>
      let '(frame, v) := pmm_alloc (k_vmm k) in
      let k := with_vmm k v in
      if frame =? 0 then (false, k)
      else
        let k := with_vmm k (clear_page (k_vmm k) frame) in
        let k := with_frames k (fun a => if a =? frame then replicate 4096 0 else k_frames k a) in
        let '(rc, v) := vmm_map_page_in (k_vmm k) cr3 (USER_STACK_BASE + i * 4096) frame
                          (Z.lor (Z.lor VMM_PRESENT VMM_WRITE) VMM_USER) in
        let k := with_vmm k v in
        if negb (rc =? 0) then (false, k) else map_stack n' (i + 1) cr3 k
  end.

(** The fake interrupt frame below [top]. *)
Definition fake_frame (top entry ustack_rsp : Z) (m : memory) : memory :=
  let m := upd m (top - 8 * 1) SEL_USER_DATA in
  let m := upd m (top - 8 * 2) ustack_rsp in
  let m := upd m (top - 8 * 3) 0x3202 in
  let m := upd m (top - 8 * 4) SEL_USER_CODE in
  let m := upd m (top - 8 * 5) entry in
  fold_left (fun m i => upd m (top - 8 * i) 0) (zseq 6 15) m.

(** The pid, or -1. [argv] has [argc] entries, [None] for NULL. *)
Definition task_create_user k (entry : Z) (name : list Z) (cr3 : Z) (argv : list (option (list Z)))
    : option (Z * kern P H) :=
  match task_find_slot k with
  | (None, k) => Some (-1, k)
  | (Some t, k) =>
      '(kstack, h) ← kmalloc 1 0 (k_heap k) STACK_SIZE;
      let k := with_heap k h in
      if kstack =? 0 then Some (-1, k)
      else
        match map_stack (Z.to_nat (USER_STACK_SIZE / 4096)) 0 cr3 k with
        | (false, k) => Some (-1, k)
        | (true, k) =>
            let page_va := USER_STACK_BASE + USER_STACK_SIZE - 4096 in
            let '(top_frame, v) := vmm_translate_in (k_vmm k) cr3 page_va in
            let k := with_vmm k v in
            if top_frame =? 0 then Some (-1, k)
            else
              match build_stack page_va (k_frames k top_frame) (stack_args name argv) with
              | None => Some (-1, k)
              | Some (page, init) =>
                  let k := with_frames k (fun a => if a =? top_frame then page else k_frames k a) in
                  let pid := g_next_pid k in
                  let k := with_pid k (u32 (g_next_pid k + 1)) in
                  let top := kstack + STACK_SIZE in
                  let k := set_task k t
                    (Task pid TASK_READY (task_name name) kstack top (top - FRAME_WORDS * 8)
                       USER_STACK_BASE (USER_STACK_BASE + USER_STACK_SIZE) cr3 fpu_reset 0
                       0 0 0 0 MMAP_CURSOR_START (t_exit_status (get_task k t))) in
                  match g_current k with
                  | None => None
                  | Some c =>
                      '(_, v) ← vfs_fd_inherit t c (k_vfs k);
                      let k := with_vfs k v in
                      let k := with_heap k (with_hmem (k_heap k)
                                 (fake_frame top entry (page_va + init) (hmem (k_heap k)))) in
                      Some (s32 pid, k)
                  end
              end
        end
  end.

(** [fxsave] stores the registers of the boot processor. *)
Definition sched_init k : option (kern P H) :=
  match task_find_slot k with
  | (None, _) => None
  | (Some t, k) =>
      let k := with_current k (Some t) in
      let pid := g_next_pid k in
      let k := with_pid k (u32 (g_next_pid k + 1)) in
      '(kstack, h) ← kmalloc 1 0 (k_heap k) STACK_SIZE;
      let k := with_heap k h in
      let old := get_task k t in
      let k := set_task k t
        (Task pid TASK_RUNNING (bs "tsh") kstack (kstack + STACK_SIZE) 0 (t_ustack old) (t_ustack_top old)
           (vmm_root_cr3 (k_vmm k)) (fpu_regs (k_cpu k)) 0 (t_uid old) (t_euid old) (t_gid old) (t_egid old)
           MMAP_CURSOR_START (t_exit_status old)) in
      Some (with_cpu k (Cpu (kstack + STACK_SIZE) (fpu_regs (k_cpu k)) 0))
  end.
End Tasks.

(** ** The stack of a new task *)

Definition total_len (args : list (list Z)) : Z := foldr (fun arg n => zlen arg + 1 + n) 0 args.

Lemma stack_need_total args : stack_need args = 8 + (Z.of_nat (length args) + 6) * 8 + total_len args.
Proof.
  unfold stack_need. generalize (8 + (Z.of_nat (length args) + 6) * 8).
  induction args as [|a args IH]; intros z; cbn [fold_left total_len foldr]; [lia|].
  rewrite IH. unfold total_len. lia.
Qed.

Lemma total_len_nonneg args : 0 <= total_len args.
Proof. induction args as [|a args IH]; cbn; [lia|]. pose proof (zlen_nonneg a). unfold total_len in IH. lia. Qed.

(** Argument [arg] lies at the address [p] of the page, from [lo] to [hi]. *)
Definition string_at (va : Z) (page : list Z) (lo hi : Z) (arg : list Z) (p : Z) : Prop :=
  lo <= p - va /\ p - va + (zlen arg + 1) <= hi /\ sub page (p - va) (zlen arg + 1) = arg ++ [0].

Lemma sub_splice_same l o b : 0 <= o -> o + zlen b <= zlen l -> sub (splice l o b) o (zlen b) = b.
Proof.
  intros Ho Hb. pose proof (zlen_nonneg b).
  apply buf_ext; [rewrite zlen_sub; rewrite ?zlen_splice; lia|].
  intros i Hi. rewrite zlen_sub in Hi by (rewrite ?zlen_splice; lia).
  rewrite byte_at_sub, byte_at_splice by lia. split_tests; try lia. f_equal. lia.
Qed.

Lemma sub_splice_other l o b p n : 0 <= o -> o + zlen b <= zlen l -> 0 <= p -> 0 <= n -> p + n <= zlen l ->
  p + n <= o \/ o + zlen b <= p -> sub (splice l o b) p n = sub l p n.
Proof.
  intros Ho Hb Hp Hn Hl Hd. apply buf_ext; [rewrite !zlen_sub; rewrite ?zlen_splice; lia|].
  intros i Hi. rewrite zlen_sub in Hi by (rewrite ?zlen_splice; lia).
  rewrite !byte_at_sub, byte_at_splice by lia. split_tests; lia || done.
Qed.

Lemma push_strings va args : forall page sp ptrs,
  zlen page = 4096 -> sp <= 4096 -> total_len args <= sp ->
  let '(page', sp', ptrs') := fold_left (push_string va) args (page, sp, ptrs) in
  zlen page' = 4096 /\ sp' = sp - total_len args /\
  (forall p n, sp <= p -> 0 <= n -> p + n <= 4096 -> sub page' p n = sub page p n) /\
  exists new, ptrs' = ptrs ++ new /\ Forall2 (string_at va page' sp' sp) args new.
Proof.
  induction args as [|arg args IH]; intros page sp ptrs Hl Hsp Ht; cbn [fold_left total_len foldr] in *.
  { split_and!; [done|lia|done|]. exists []. rewrite app_nil_r. by split. }
  pose proof (zlen_nonneg arg) as Hz. pose proof (total_len_nonneg args) as Ht0. fold (total_len args) in *.
  set (sp1 := sp - (zlen arg + 1)). assert (zlen (arg ++ [0]) = zlen arg + 1) as Hz1 by (rewrite zlen_app; done).
  assert (zlen (splice page sp1 (arg ++ [0])) = 4096) as Hl1 by (rewrite zlen_splice; lia).
  specialize (IH (splice page sp1 (arg ++ [0])) sp1 (ptrs ++ [va + sp1]) Hl1 ltac:(lia) ltac:(lia)).
  change (push_string va (page, sp, ptrs) arg) with (splice page sp1 (arg ++ [0]), sp1, ptrs ++ [va + sp1]).
  destruct (fold_left _ args _) as [[page' sp'] ptrs']. destruct IH as (Hl' & Hsp' & Hkeep & new & Hp & Hf).
  split_and!; [done|lia| |].
  - intros p n Hpn Hn Hb. rewrite Hkeep by lia. apply sub_splice_other; lia.
  - exists ((va + sp1) :: new). split; [by rewrite Hp, <-app_assoc|]. constructor.
    + unfold string_at. replace (va + sp1 - va) with sp1 by lia. split_and!; [lia|lia|].
      rewrite Hkeep by lia. rewrite <-Hz1 at 1. apply sub_splice_same; lia.
    + eapply Forall2_impl; [exact Hf|]. intros a p (H1 & H2 & H3). split_and!; [done|lia|done].
Qed.

Lemma zlen_words ws : zlen (concat (map (le_bytes 8) ws)) = 8 * Z.of_nat (length ws).
Proof. induction ws as [|w ws IH]; cbn [map concat length]; [done|]. rewrite zlen_app, zlen_le_bytes, IH. lia. Qed.

Lemma sub_words ws i w : ws !! i = Some w ->
  sub (concat (map (le_bytes 8) ws)) (8 * Z.of_nat i) 8 = le_bytes 8 w.
Proof.
  revert i. induction ws as [|w' ws IH]; intros i Hi; [done|]. cbn [map concat].
  destruct i as [|i]; cbn in Hi.
  - simplify_eq. unfold sub. change (Z.to_nat (8 * Z.of_nat 0)) with 0%nat. by rewrite drop_0, take_app_length'.
  - rewrite <-(IH i Hi). unfold sub. f_equal.
    rewrite drop_app_ge by (change (length (le_bytes 8 w')) with 8%nat; lia).
    f_equal. change (length (le_bytes 8 w')) with 8%nat. lia.
Qed.

Lemma ldiff7 a : Z.ldiff a 7 = 8 * (a / 8).
Proof. change 7 with (Z.ones 3). rewrite Z.ldiff_ones_r, Z.shiftl_mul_pow2, Z.shiftr_div_pow2 by lia. change (2 ^ 3) with 8. lia. Qed.

Lemma sub_splice_in l o b j n : 0 <= o -> o + zlen b <= zlen l -> 0 <= j -> 0 <= n -> j + n <= zlen b ->
  sub (splice l o b) (o + j) n = sub b j n.
Proof.
  intros Ho Hb Hj Hn Hjn. apply buf_ext; [rewrite !zlen_sub; rewrite ?zlen_splice; lia|].
  intros i Hi. rewrite zlen_sub in Hi by (rewrite ?zlen_splice; lia).
  rewrite !byte_at_sub, byte_at_splice by lia. split_tests; try lia. f_equal. lia.
Qed.

(** What the start-up code of a program finds at offset [init] of its top
    stack page: [argc], the pointers to the arguments, which lie above, the
    terminators and the page size. *)
Record stack_layout (va : Z) (args : list (list Z)) (page : list Z) (init : Z) : Prop := StackLayout {
  sl_len : zlen page = 4096;
  sl_range : 0 <= init /\ init mod 8 = 0;
  sl_words : exists ptrs, let words := Z.of_nat (length args) :: ptrs ++ [0; 0; AT_PAGESZ; 4096; 0] in
    (forall i w, words !! i = Some w -> le_value (sub page (init + 8 * Z.of_nat i) 8) = w) /\
    Forall2 (string_at va page (init + 8 * Z.of_nat (length words)) 4096) args ptrs;
}.

Lemma build_stack_ok va page args : zlen page = 4096 -> 0 <= va -> va + 4096 < 2 ^ 64 ->
  match build_stack va page args with
  | Some (page', init) => stack_layout va args page' init
  | None => 4096 < 8 + (Z.of_nat (length args) + 6) * 8 + total_len args
  end.
Proof.
  intros Hl Hva Hva2. unfold build_stack, PAGE_BYTES. rewrite stack_need_total.
  pose proof (total_len_nonneg args) as Ht0. destruct (Z.ltb_spec 4096 (8 + (Z.of_nat (length args) + 6) * 8 + total_len args)) as [|Hn]; [done|].
  pose proof (push_strings va args page 4096 [] Hl ltac:(lia) ltac:(lia)) as Hps.
  destruct (fold_left _ args _) as [[page1 sp] ptrs]. destruct Hps as (Hl1 & Hsp & _ & new & Hp & Hf).
  cbn [app] in Hp. subst ptrs. pose proof (Forall2_length _ _ _ Hf) as Hlen.
  set (words := Z.of_nat (length args) :: new ++ [0; 0; AT_PAGESZ; 4096; 0]).
  assert (Z.of_nat (length words) = Z.of_nat (length args) + 6) as Hw by (cbn; rewrite length_app; cbn; lia).
  rewrite ldiff7. set (init := 8 * (sp / 8) - (Z.of_nat (length args) + 6) * 8).
  assert (0 <= init /\ init mod 8 = 0 /\ init + 8 * Z.of_nat (length words) <= sp /\ sp <= 4096) as (Hi0 & Hi8 & His & Hs4)
    by (unfold init; rewrite Hw; split_and!; divlia).
  pose proof (zlen_words words) as Hzw.
  assert (Forall (fun w => 0 <= w < 2 ^ 64) words) as Hbound.
  { unfold words. constructor; [lia|]. apply Forall_app. split; [|repeat constructor; unfold AT_PAGESZ; lia].
    apply Forall_forall. intros p Hp. apply list_elem_of_lookup in Hp as [i Hp].
    destruct (Forall2_lookup_r _ _ _ _ _ Hf Hp) as (a & _ & H1 & H2 & _). pose proof (zlen_nonneg a). lia. }
  split.
  - rewrite zlen_splice; lia.
  - done.
  - exists new. cbn zeta. fold words. split.
    + intros i w Hiw. pose proof (lookup_lt_Some _ _ _ Hiw).
      rewrite sub_splice_in, (sub_words _ _ _ Hiw) by lia.
      apply le_value_bytes. change (2 ^ (8 * Z.of_nat 8)) with (2 ^ 64).
      by eapply Forall_lookup_1 in Hbound.
    + eapply Forall2_impl; [exact Hf|]. intros a p (H1 & H2 & H3). pose proof (zlen_nonneg a).
      split_and!; [lia|done|]. rewrite sub_splice_other by lia. done.
Qed.

(** ** A task that has been created *)

(** The words popped from [sp] on: 15 registers, then RIP, CS, RFLAGS, RSP
    and SS. *)
Definition frame_words (m : memory) (sp : Z) : list Z := map (fun i => m (sp + 8 * i)) (zseq 0 20).

Lemma fake_frame_words top entry rsp m :
  frame_words (fake_frame top entry rsp m) (top - FRAME_WORDS * 8) =
    replicate 15 0 ++ [entry; SEL_USER_CODE; 0x3202; rsp; SEL_USER_DATA].
Proof.
  unfold frame_words, fake_frame, FRAME_WORDS. cbn [zseq map fold_left replicate app].
  repeat (apply f_equal2; [unfold upd; split_tests; lia || reflexivity|]). reflexivity.
Qed.

Section Created.
Context {P H : Type} `{FramePool P} `{Ports H}.
Implicit Types k : kern P H.

Definition frames_ok k : Prop := forall a, zlen (k_frames k a) = 4096.

Lemma find_slot_spec k t k1 : length (g_tasks k) = 16%nat -> task_find_slot k = (Some t, k1) ->
  0 <= t < 16 /\ (forall j, 0 <= j -> j <> t -> get_task k1 j = get_task k j) /\ length (g_tasks k1) = 16%nat /\
  k_frames k1 = k_frames k.
Proof.
  intros Hlen. unfold task_find_slot.
  destruct (zfind (fun i => t_state (get_task k i) =? TASK_ZOMBIE) 16 0) as [i|] eqn:E;
    intros [Ei <-]%pair_equal_spec.
  - injection Ei as ->. apply zfind_Some in E. split_and!; try (cbn in *; lia); try done.
    + intros j Hj Hne. unfold get_task. cbn. rewrite !nth_lookup, list_lookup_insert_ne; [done|lia].
    + cbn. by rewrite length_insert.
  - apply zfind_Some in Ei. split_and!; try (cbn in *; lia); done.
Qed.

Lemma map_stack_spec n : forall i cr3 k b k', map_stack n i cr3 k = (b, k') -> frames_ok k ->
  g_tasks k' = g_tasks k /\ k_vfs k' = k_vfs k /\ g_next_pid k' = g_next_pid k /\ frames_ok k'.
Proof.
  induction n as [|n IH]; intros i cr3 k b k' E Hf; cbn [map_stack] in E; [by simplify_eq|].
  destruct (pmm_alloc (k_vmm k)) as [frame v]. destruct (Z.eqb_spec frame 0); [by simplify_eq|].
  destruct (vmm_map_page_in _ cr3 _ frame _) as [rc v2]. destruct (Z.eqb_spec rc 0); cbn [negb] in E; [|simplify_eq].
  - destruct (IH _ _ _ _ _ E) as (-> & -> & -> & ?); [|done].
    intros a. cbn. destruct (a =? frame); [done|apply Hf].
  - split_and!; try done. intros a. cbn. destruct (a =? frame); [done|apply Hf].
Qed.
End Created.

(** C14. A task that [task_create_user] returns starts its program properly:
    exactly one slot of the table changes and is ready; the interrupt frame on
    its kernel stack pops zero registers and enters ring 3 at [entry] with
    interrupts on; and the stack pointer in it is 8-byte aligned in the top
    stack page, which holds the argument count, pointers to all the argument
    strings, and the terminators a C runtime expects. *)
Theorem task_create_user_starts {P H} `{FramePool P} `{Ports H} (k k' : kern P H) entry name cr3 argv pid :
  length (g_tasks k) = 16%nat -> frames_ok k ->
  task_create_user k entry name cr3 argv = Some (pid, k') -> pid <> -1 ->
  exists t frame init v, 0 <= t < 16 /\
    (forall j, 0 <= j -> j <> t -> get_task k' j = get_task k j) /\
    t_state (get_task k' t) = TASK_READY /\ pid = s32 (t_pid (get_task k' t)) /\ t_cr3 (get_task k' t) = cr3 /\
    frame_words (hmem (k_heap k')) (t_rsp (get_task k' t)) =
      replicate 15 0 ++ [entry; SEL_USER_CODE; 0x3202; USER_STACK_BASE + USER_STACK_SIZE - 4096 + init; SEL_USER_DATA] /\
    vmm_translate_in v cr3 (USER_STACK_BASE + USER_STACK_SIZE - 4096) = (frame, k_vmm k') /\
    stack_layout (USER_STACK_BASE + USER_STACK_SIZE - 4096) (stack_args name argv) (k_frames k' frame) init.
Proof.
  intros Hlen Hf E Hpid. unfold task_create_user in E.
  destruct (task_find_slot k) as [[t|] k1] eqn:Eslot; [|simplify_eq].
  destruct (find_slot_spec _ _ _ Hlen Eslot) as (Ht & Hother & Hlen1 & Hfr).
  destruct (kmalloc 1 0 (k_heap k1) STACK_SIZE) as [[kstack h]|]; [|done]. cbn [mbind option_bind] in E.
  destruct (Z.eqb_spec kstack 0); [simplify_eq|].
  destruct (map_stack _ 0 cr3 (with_heap k1 h)) as [[] k2] eqn:Emap; [|simplify_eq].
  assert (frames_ok (with_heap k1 h)) as Hf1 by (intros a; cbn; rewrite Hfr; apply Hf).
  destruct (map_stack_spec _ _ _ _ _ _ Emap Hf1) as (Htasks & Hvfs & Hnp & Hf2). cbn in Htasks.
  set (va := USER_STACK_BASE + USER_STACK_SIZE - 4096) in *.
  destruct (vmm_translate_in (k_vmm k2) cr3 va) as [frame v] eqn:Etr.
  destruct (Z.eqb_spec frame 0); [simplify_eq|].
  pose proof (build_stack_ok va (k_frames k2 frame) (stack_args name argv) (Hf2 frame)
    ltac:(vm_compute; discriminate) ltac:(vm_compute; reflexivity)) as Hlay.
  destruct (build_stack va (k_frames (with_vmm k2 v) frame) (stack_args name argv)) as [[page init]|] eqn:Eb; [|simplify_eq].
  cbn [k_frames with_vmm with_heap] in Eb. rewrite Eb in Hlay.
  destruct (g_current _) as [c|]; [|done].
  destruct (vfs_fd_inherit t c _) as [[[] vf]|]; [|done]. cbn [mbind option_bind] in E. simplify_eq.
  exists t, frame, init, (k_vmm k2). cbn [get_task set_task with_tasks g_tasks with_heap with_vfs].
  assert (forall x, nth (Z.to_nat t) (<[Z.to_nat t:=x]> (g_tasks k2)) no_task = x) as Hnth.
  { intros x. rewrite nth_lookup, list_lookup_insert_eq; [done|]. rewrite Htasks, Hlen1. lia. }
  unfold get_task. cbn [g_tasks with_tasks set_task with_heap with_vfs with_pid with_frames with_vmm]. rewrite Hnth.
  split_and!; try done; try lia.
  - intros j Hj Hne. rewrite nth_lookup, list_lookup_insert_ne by lia. rewrite Htasks, <-nth_lookup. by apply Hother.
  - cbn. apply fake_frame_words.
  - cbn. by rewrite Z.eqb_refl.
Qed.

(** *** A small machine *)

Definition demo_kern : kern pmm feed :=
  Kern (Heap (Vmm (pmm_init pmm_bss (Some [MemmapEntry 0x10000 (128 * 4096) LIMINE_MEMMAP_USABLE]) 0)
               (fun _ => 0) 0x8000 0x8000 0x8000) (fun _ => 0) 0 VMM_KHEAP_BASE 0)
    (Vfs ∅ ∅ ∅ 0 (list_to_map (map (fun i => (i, replicate 16 0)) (zseq 0 16))) (Some 0) 1 [] (Some demo_dev))
    (set_state no_task TASK_RUNNING :: replicate 15 no_task) 2 0 (Cpu 0 (replicate 512 0) 0) 0
    (fun _ => replicate 4096 0).

Lemma task_create_user_starts_witness :
  exists k' t frame init, 0 <= t < 16 /\
    task_create_user demo_kern 0x400000 (bs "ls") 0x8000 [Some (bs "-l")] = Some (2, k') /\
    stack_layout (USER_STACK_BASE + USER_STACK_SIZE - 4096) [bs "ls"; bs "-l"] (k_frames k' frame) init.
Proof.
  assert (option_map fst (task_create_user demo_kern 0x400000 (bs "ls") 0x8000 [Some (bs "-l")]) = Some 2) as Er
    by (vm_compute; reflexivity).
  destruct (task_create_user demo_kern 0x400000 (bs "ls") 0x8000 [Some (bs "-l")]) as [[pid k']|] eqn:E; [|discriminate].
  injection Er as ->.
  destruct (task_create_user_starts demo_kern k' 0x400000 (bs "ls") 0x8000 [Some (bs "-l")] 2)
    as (t & frame & init & v & Ht & _ & _ & _ & _ & _ & _ & Hl); [reflexivity|intros a; reflexivity|exact E|discriminate|].
  exists k', t, frame, init. split; [exact Ht|]. split; [reflexivity|exact Hl].
Defined.

(** ** Round robin *)

Section Robin.
Context {P H : Type} `{FramePool P} `{Ports H}.
Implicit Types k : kern P H.

(** Ticks with the given frame pointers. *)
Definition ticks (rsps : list Z) k : kern P H := foldl (fun k r => snd (sched_tick k r)) k rsps.

(** The current task is a live one and may be preempted. *)
Record sched_ok k : Prop := SchedOk {
  so_len : length (g_tasks k) = 16%nat;
  so_cur : exists c, g_current k = Some c /\ 0 <= c < 16 /\ alive (get_task k c) = true;
  so_preempt : g_preempt_depth k = 0;
}.

Lemma get_set_task k i j t : length (g_tasks k) = 16%nat -> 0 <= i < 16 -> 0 <= j < 16 ->
  get_task (set_task k i t) j = if j =? i then t else get_task k j.
Proof.
  intros Hl Hi Hj. unfold get_task. cbn. rewrite !nth_lookup. destruct (Z.eqb_spec j i) as [->|].
  - by rewrite list_lookup_insert_eq by lia.
  - by rewrite list_lookup_insert_ne by lia.
Qed.

Lemma length_set_task k i t : length (g_tasks (set_task k i t)) = length (g_tasks k).
Proof. apply length_insert. Qed.

(** The cyclic distance from [c] to [t], from 1 to 16. *)
Definition dist (c t : Z) : Z := (t - c - 1) mod 16 + 1.

Lemma task_next_spec k c t : 0 <= c < 16 -> 0 <= t < 16 -> alive (get_task k t) = true ->
  let n := task_next k c in
  0 <= n < 16 /\ alive (get_task k n) = true /\ dist c n <= dist c t.
Proof.
  intros Hc Ht Ha. cbn zeta. unfold task_next, TASK_MAX.
  assert (t = (c + dist c t) mod 16 /\ 1 <= dist c t < 17) as [Et Hd] by (unfold dist; split; divlia).
  destruct (zfind _ 16 1) as [i|] eqn:E.
  - apply zfind_Some in E as (Hi & Hp & Hmin). cbn in Hi. split_and!; [apply Z.mod_pos_bound; lia|apply Z.mod_pos_bound; lia|done|].
    assert (i <= dist c t).
    { destruct (Z.leb_spec i (dist c t)); [done|]. specialize (Hmin (dist c t) ltac:(lia)).
      rewrite <-Et, Ha in Hmin. discriminate. }
    unfold dist at 1. divlia.
  - rewrite zfind_None in E. specialize (E (dist c t) ltac:(cbn; lia)). rewrite <-Et, Ha in E. discriminate.
Qed.

Lemma task_next_ext k k' c : (forall j, 0 <= j < 16 -> alive (get_task k' j) = alive (get_task k j)) ->
  task_next k' c = task_next k c.
Proof.
  intros Hext. unfold task_next, TASK_MAX. erewrite zfind_ext; [done|]. intros j _. cbn beta.
  apply Hext, Z.mod_pos_bound. lia.
Qed.

Lemma switch_to_spec k c n : length (g_tasks k) = 16%nat -> 0 <= c < 16 -> 0 <= n < 16 -> n <> c ->
  let k' := switch_to k c n in
  g_current k' = Some n /\
  k_cpu k' = Cpu (t_kstack_top (get_task k n)) (t_fpu (get_task k n)) (t_fs_base (get_task k n)) /\
  k_vmm k' = vmm_space_switch (k_vmm k) (t_cr3 (get_task k n)) /\
  (forall j, 0 <= j < 16 -> get_task k' j =
     if j =? c then set_fpu (get_task k c) (fpu_regs (k_cpu k))
     else if j =? n then set_state (get_task k n) TASK_RUNNING else get_task k j) /\
  length (g_tasks k') = 16%nat /\ g_preempt_depth k' = g_preempt_depth k.
Proof.
  intros Hl Hc Hn Hne k'. set (k1 := set_task k n (set_state (get_task k n) TASK_RUNNING)).
  assert (length (g_tasks k1) = 16%nat) as Hl1 by (unfold k1; by rewrite length_set_task).
  set (k2 := set_task k1 c (set_fpu (get_task k1 c) (fpu_regs (k_cpu k)))).
  assert (forall j, 0 <= j < 16 -> get_task k1 j = if j =? n then set_state (get_task k n) TASK_RUNNING else get_task k j) as Hg1
    by (intros j Hj; unfold k1; by rewrite get_set_task).
  assert (forall j, 0 <= j < 16 -> get_task k2 j =
    if j =? c then set_fpu (get_task k c) (fpu_regs (k_cpu k)) else
    if j =? n then set_state (get_task k n) TASK_RUNNING else get_task k j) as Hg2.
  { intros j Hj. unfold k2. rewrite get_set_task, !Hg1 by done. by destruct (Z.eqb_spec j c), (Z.eqb_spec c n); try lia. }
  assert (get_task k1 n = set_state (get_task k n) TASK_RUNNING) as En by (by rewrite Hg1, Z.eqb_refl).
  assert (get_task k2 n = set_state (get_task k n) TASK_RUNNING) as En2
    by (rewrite Hg2, Z.eqb_refl by done; by destruct (Z.eqb_spec n c)).
  split_and!; [done|..|exact Hg2| |done].
  - change (k_cpu k') with (Cpu (t_kstack_top (get_task k1 n)) (t_fpu (get_task k2 n)) (t_fs_base (get_task k2 n))).
    by rewrite En, En2.
  - change (k_vmm k') with (vmm_space_switch (k_vmm k) (t_cr3 (get_task k2 n))). by rewrite En2.
  - change (length (g_tasks k2) = 16%nat). unfold k2. by rewrite length_set_task.
Qed.

(** What a tick does to the tasks and to the processor. *)
Record ticked k (c n r ret : Z) k' : Prop := Ticked {
  ti_ret : ret = if n =? c then 0 else t_rsp (get_task k n);
  ti_cur : g_current k' = Some n;
  ti_cpu : k_cpu k' = if n =? c then k_cpu k
                      else Cpu (t_kstack_top (get_task k n)) (t_fpu (get_task k n)) (t_fs_base (get_task k n));
  ti_vmm : k_vmm k' = if n =? c then k_vmm k else vmm_space_switch (k_vmm k) (t_cr3 (get_task k n));
  ti_out : get_task k' c = if n =? c then set_rsp (get_task k c) r
                           else set_fpu (set_state (set_rsp (get_task k c) r) TASK_READY) (fpu_regs (k_cpu k));
  ti_in : n <> c -> get_task k' n = set_state (get_task k n) TASK_RUNNING;
  ti_other j : 0 <= j < 16 -> j <> c -> j <> n -> get_task k' j = get_task k j;
  ti_len : length (g_tasks k') = 16%nat;
  ti_preempt : g_preempt_depth k' = 0;
}.

Lemma tick_spec k c r : sched_ok k -> g_current k = Some c ->
  let '(ret, k') := sched_tick k r in ticked k c (task_next k c) r ret k'.
Proof.
  intros [Hlen (c' & Hc & Hr & Ha) Hp] Hc2. rewrite Hc in Hc2. injection Hc2 as ->.
  unfold sched_tick. set (k0 := with_ticks _ _).
  assert (g_current k0 = Some c /\ g_tasks k0 = g_tasks k /\ g_preempt_depth k0 = 0 /\ k_cpu k0 = k_cpu k /\ k_vmm k0 = k_vmm k)
    as (Hc0 & Ht0 & Hp0 & Hcpu0 & Hv0) by done.
  assert (forall j, get_task k0 j = get_task k j) as Hg0 by (intros j; unfold get_task; by rewrite Ht0).
  rewrite Hc0, Hg0, Hp0. cbn [Z.ltb Z.compare].
  assert ((t_state (get_task k c) =? TASK_ZOMBIE) = false) as ->
    by (unfold alive, TASK_READY, TASK_RUNNING, TASK_ZOMBIE in *; lia).
  set (k1 := set_task k0 c (set_rsp (get_task k c) r)).
  assert (length (g_tasks k0) = 16%nat) as Hl0 by (by rewrite Ht0).
  assert (forall j, 0 <= j < 16 -> get_task k1 j = if j =? c then set_rsp (get_task k c) r else get_task k j) as Hg1
    by (intros j Hj; unfold k1; rewrite get_set_task by done; by rewrite Hg0).
  assert (task_next k1 c = task_next k c) as ->.
  { apply task_next_ext. intros j Hj. rewrite Hg1 by done. by destruct (Z.eqb_spec j c) as [->|]. }
  destruct (task_next_spec k c c Hr Hr Ha) as (Hn & _ & _). set (n := task_next k c) in *.
  assert (length (g_tasks k1) = 16%nat) as Hl1 by (unfold k1; by rewrite length_set_task).
  destruct (Z.eqb_spec n c) as [En|En].
  - split; rewrite ?En, ?Z.eqb_refl; try done; [by rewrite Hg1, Z.eqb_refl|].
    intros j Hj Hjc _. rewrite Hg1 by done. by destruct (Z.eqb_spec j c).
  - set (k2 := set_task k1 c (set_state (get_task k1 c) TASK_READY)).
    assert (length (g_tasks k2) = 16%nat) as Hl2 by (unfold k2; by rewrite length_set_task).
    assert (forall j, 0 <= j < 16 -> get_task k2 j =
      if j =? c then set_state (set_rsp (get_task k c) r) TASK_READY else get_task k j) as Hg2.
    { intros j Hj. unfold k2. rewrite get_set_task by done. rewrite !Hg1, Z.eqb_refl by done.
      by destruct (Z.eqb_spec j c). }
    assert (get_task k2 n = get_task k n) as En2 by (rewrite Hg2 by done; by destruct (Z.eqb_spec n c)).
    assert (get_task k2 c = set_state (set_rsp (get_task k c) r) TASK_READY) as Ec2 by (by rewrite Hg2, Z.eqb_refl).
    destruct (switch_to_spec k2 c n Hl2 Hr Hn En) as (H1' & H2' & H3' & H4' & H5' & H6'). rewrite En2, Ec2 in *.
    split; rewrite ?(proj2 (Z.eqb_neq n c) En); try done.
    + rewrite H4', Z.eqb_refl by done. by destruct (Z.eqb_spec n c).
    + by rewrite H4', Z.eqb_refl.
    + intros _. rewrite H4', Z.eqb_refl by done. by destruct (Z.eqb_spec n c).
    + intros j Hj Hjc Hjn. rewrite H4', Hg2 by done. by destruct (Z.eqb_spec j c), (Z.eqb_spec j n).
Qed.

Lemma tick_alive k r j : sched_ok k -> 0 <= j < 16 ->
  alive (get_task (snd (sched_tick k r)) j) = alive (get_task k j).
Proof.
  intros Hok Hj. destruct (so_cur _ Hok) as (c & Hc & Hr & Ha).
  pose proof (tick_spec k c r Hok Hc) as Ht. destruct (sched_tick k r) as [ret k']. cbn [snd].
  destruct (task_next_spec k c c Hr Hr Ha) as (_ & Hna & _).
  destruct (Z.eq_dec j c) as [->|Hjc]; [|destruct (Z.eq_dec j (task_next k c)) as [->|Hjn]].
  - rewrite (ti_out _ _ _ _ _ _ Ht), Ha. by destruct (_ =? _).
  - by rewrite (ti_in _ _ _ _ _ _ Ht), Hna by done.
  - by rewrite (ti_other _ _ _ _ _ _ Ht).
Qed.

Lemma tick_ok k r : sched_ok k -> sched_ok (snd (sched_tick k r)).
Proof.
  intros Hok. pose proof (tick_alive k r) as Halive. destruct (so_cur _ Hok) as (c & Hc & Hr & Ha).
  pose proof (tick_spec k c r Hok Hc) as Ht. destruct (sched_tick k r) as [ret k']. cbn [snd] in *.
  destruct (task_next_spec k c c Hr Hr Ha) as (Hn & Hna & _).
  split; [apply Ht| |apply Ht]. exists (task_next k c). rewrite Halive by done. split; [apply Ht|done].
Qed.

(** Every live task is reached within its distance. *)
Lemma ticks_reach t rsps : 0 <= t < 16 -> forall k c, (Z.to_nat ((t - c) mod 16) <= length rsps)%nat ->
  sched_ok k -> g_current k = Some c -> 0 <= c < 16 -> alive (get_task k t) = true ->
  exists n, (n <= length rsps)%nat /\ g_current (ticks (take n rsps) k) = Some t.
Proof.
  intros Ht. induction rsps as [|r rsps IH]; intros k c Hm Hok Hc Hr Ha;
    (destruct (Z.eq_dec c t) as [->|Hne]; [exists 0%nat; split; [lia|done]|]); cbn [length] in Hm.
  { exfalso. divlia. }
  destruct (task_next_spec k c t Hr Ht Ha) as (Hn & Hna & Hd). set (n := task_next k c) in *.
  destruct (IH (snd (sched_tick k r)) n) as (j & Hj & Hrun).
  - unfold dist in Hd. divlia.
  - by apply tick_ok.
  - pose proof (tick_spec k c r Hok Hc) as Hs. destruct (sched_tick k r). apply Hs.
  - done.
  - by rewrite tick_alive.
  - exists (S j). split; [cbn; lia|exact Hrun].
Qed.

(** The machine between ticks: the running task computes. *)
Inductive kev :=
| Tick (rsp : Z)
| Work (fpu : list Z).

Definition kstep k (e : kev) : kern P H :=
  match e with
  | Tick r => snd (sched_tick k r)
  | Work f => with_cpu k (Cpu (rsp0 (k_cpu k)) f (fs_base (k_cpu k)))
  end.

(** Task [c] does not run during the events. *)
Fixpoint away (c : Z) k (evs : list kev) : Prop :=
  g_current k <> Some c /\
  match evs with
  | [] => True
  | e :: evs' => away c (kstep k e) evs'
  end.

Lemma away_keeps c evs : forall k, 0 <= c < 16 -> sched_ok k -> away c k evs ->
  let k' := foldl kstep k evs in
  sched_ok k' /\ g_current k' <> Some c /\ get_task k' c = get_task k c.
Proof.
  induction evs as [|e evs IH]; intros k Hc Hok [Hcur Haway]; [done|]. cbn [foldl].
  assert (sched_ok (kstep k e) /\ get_task (kstep k e) c = get_task k c) as [Hok1 Hg1].
  { destruct e as [r|f]; cbn [kstep].
    - split; [by apply tick_ok|]. destruct (so_cur _ Hok) as (c0 & Hc0 & Hr & Ha).
      pose proof (tick_spec k c0 r Hok Hc0) as Ht.
      assert (g_current (snd (sched_tick k r)) <> Some c) as Hn1 by (destruct evs; apply Haway).
      destruct (sched_tick k r) as [ret k1]. cbn [snd] in *. rewrite (ti_cur _ _ _ _ _ _ Ht) in Hn1.
      apply (ti_other _ _ _ _ _ _ Ht); congruence || done.
    - by split; [destruct Hok; split|]. }
  destruct (IH (kstep k e) Hc Hok1 Haway) as (Hk1 & Hk2 & Hk3). by rewrite <-Hg1.
Qed.

Lemma space_switch_cr3 (v : vmm P) cr3 : g_cr3 (vmm_space_switch v cr3) = cr3.
Proof. unfold vmm_space_switch. destruct (Z.eqb_spec cr3 (g_cr3 v)); [done|done]. Qed.
End Robin.

(** C10. Round robin: whichever task runs, every ready task gets the processor
    within 15 ticks of the timer, as long as no critical section is open. *)
Theorem sched_round_robin {P H} `{FramePool P} `{Ports H} (k : kern P H) (t : Z) (rsps : list Z) :
  sched_ok k -> 0 <= t < 16 -> alive (get_task k t) = true -> length rsps = 15%nat ->
  exists n, (n <= 15)%nat /\ g_current (ticks (take n rsps) k) = Some t.
Proof.
  intros Hok Ht Ha Hl. destruct (so_cur _ Hok) as (c & Hc & Hr & _).
  destruct (ticks_reach t rsps Ht k c) as (n & Hn & E); [rewrite Hl; divlia|done..|].
  exists n. split; [lia|done].
Qed.


(** ** Exit *)

Lemma fds_ok_devs {D} (s : vfs D) d leak : fds_ok s leak -> fds_ok (with_devs s d) leak.
Proof. intros [H1 H2 H3 H4 H5 H6 H7]. by split. Qed.

Lemma fds_ok_cur {D} (s s' : vfs D) leak c :
  s' = Vfs (nodes s) (files s) (pipes s) (g_root s) (tables s) (Some c) (next_id s) (oom s) (devs s) ->
  is_Some (tables s !! c) -> fds_ok s leak -> fds_ok s' leak.
Proof. intros -> Hc [H1 H2 H3 H4 H5 H6 H7]. split; try done. cbn. by intros t [= <-]. Qed.

(** C15. [task_exit] gives everything back: when another task is alive, it
    leaves a zombie with the exit status, closes all its descriptors with
    exact reference counts, hands the console input back, and resumes another
    live task from its saved frame in that task's address space; no later
    tick can select the zombie. *)
Theorem task_exit_releases {P H} `{FramePool P} `{Ports H} (k : kern P H) (c t status : Z) (dv : dev H) :
  sched_ok k -> g_current k = Some c -> 0 <= t < 16 -> t <> c -> alive (get_task k t) = true ->
  fds_ok (k_vfs k) (fun _ => 0) -> (forall j, 0 <= j < 16 -> is_Some (tables (k_vfs k) !! j)) ->
  devs (k_vfs k) = Some dv -> t_pid (get_task k c) <> 0 ->
  exists n k' tbl dv', task_exit k status = Some (Some (t_rsp (get_task k n)), k') /\
    n <> c /\ g_current k' = Some n /\ alive (get_task k n) = true /\ g_cr3 (k_vmm k') = t_cr3 (get_task k n) /\
    t_state (get_task k' c) = TASK_ZOMBIE /\ t_exit_status (get_task k' c) = status /\
    fds_ok (k_vfs k') (fun _ => 0) /\ tables (k_vfs k') !! c = Some tbl /\ (forall j, 0 <= j < 16 -> slot tbl j = 0) /\
    devs (k_vfs k') = Some dv' /\ kbd_input_owner (d_kbd dv') <> t_pid (get_task k c).
Proof.
  intros Hok Hc Ht Htc Hta Hfds Htabs Hdv Hpid. destruct (so_cur _ Hok) as (c0 & Hc0 & Hr & Ha).
  assert (c0 = c) as -> by congruence. pose proof (so_len _ Hok) as Hlen.
  unfold task_exit. rewrite Hc. set (z := set_exit (set_state (get_task k c) TASK_ZOMBIE) status).
  assert (forall j, 0 <= j < 16 -> get_task (set_task k c z) j = if j =? c then z else get_task k j) as Hg1
    by (intros j Hj; by apply get_set_task).
  rewrite Hg1, Z.eqb_refl by done. change (t_pid z) with (t_pid (get_task k c)). set (pid := t_pid (get_task k c)) in *.
  set (k2 := on_dev (set_task k c z) _).
  set (dv2 := set_kbd dv (kbd_input_release pid (d_kbd dv))).
  assert (devs (k_vfs k2) = Some dv2) as Hd2 by (unfold k2; cbn; by rewrite Hdv).
  destruct (fds_cur _ _ Hfds c Hc) as [tbl0 Htb0].
  destruct (vfs_close_all_ok (k_vfs k2) (fun _ => 0) c tbl0) as (v & tbl & -> & Hfds3 & Hcur3 & [_ Htb3] & Hz3 & Hd3 & Hu3);
    [by apply fds_ok_devs|done|by split|]. cbn [mbind option_bind].
  set (k3 := with_vfs k2 v). assert (length (g_tasks k3) = 16%nat) as Hl3 by (cbn; by rewrite length_insert).
  assert (forall j, 0 <= j < 16 -> get_task k3 j = if j =? c then z else get_task k j) as Hg3 by exact Hg1.
  destruct (task_next_spec k3 c t Hr Ht) as (Hn & Hna & _); [rewrite Hg3 by done; by destruct (Z.eqb_spec t c)|].
  set (n := task_next k3 c) in *. rewrite Hg3 in Hna by done.
  assert (n <> c) as Hnc by (intros E; rewrite E, Z.eqb_refl in Hna; discriminate).
  assert (get_task k3 n = get_task k n) as Hgn by (rewrite Hg3 by done; by destruct (Z.eqb_spec n c)).
  destruct (Z.eqb_spec n c); [done|].
  destruct (switch_to_spec k3 c n Hl3 Hr Hn Hnc) as (E1 & _ & E3 & E4 & _ & _). rewrite Hgn in *.
  exists n, (switch_to k3 c n), tbl, dv2.
  assert (get_task (switch_to k3 c n) n = set_state (get_task k n) TASK_RUNNING) as ->
    by (rewrite E4, Z.eqb_refl by done; by destruct (Z.eqb_spec n c)).
  assert (get_task (switch_to k3 c n) c = set_fpu z (fpu_regs (k_cpu k3))) as ->
    by (rewrite E4, Hg3, Z.eqb_refl by done; done).
  split_and!; try done.
  - rewrite E3. apply space_switch_cr3.
  - eapply (fds_ok_cur v); [reflexivity| |exact Hfds3]. rewrite Hu3 by done. by apply Htabs.
  - by rewrite <-Hd2, <-Hd3.
  - unfold dv2, kbd_input_owner, kbd_input_release. cbn. destruct (Z.eqb_spec (g_kbd_owner (d_kbd dv)) pid); cbn; lia.
Qed.

(** *** Two tasks *)

Definition demo_task (pid state cr3 fs : Z) : task :=
  Task pid state [] 0 (pid * 0x10000) 0 0 0 cr3 [pid] fs 0 0 0 0 0 0.

Definition demo_two : kern pmm feed :=
  with_tasks demo_kern (demo_task 1 TASK_RUNNING 0x8000 5 :: demo_task 2 TASK_READY 0x9000 6 :: replicate 14 no_task).

Lemma demo_two_ok : sched_ok demo_two.
Proof. split; [reflexivity|exists 0; split; [reflexivity|split; [lia|reflexivity]]|reflexivity]. Qed.

Lemma sched_round_robin_witness :
  exists n, (n <= 15)%nat /\ g_current (ticks (take n (replicate 15 100)) demo_two) = Some 1.
Proof. apply (sched_round_robin demo_two 1 (replicate 15 100) demo_two_ok); [lia|reflexivity|reflexivity]. Defined.


Lemma demo_two_fds : fds_ok (k_vfs demo_two) (fun _ => 0).
Proof.
  assert (forall j tbl, tables (k_vfs demo_two) !! j = Some tbl -> tbl = replicate 16 0) as Hz.
  { intros j tbl E. apply elem_of_list_to_map_2 in E. apply list_elem_of_fmap in E as (i & [= _ ->] & _). done. }
  by apply (no_files_ok _ 0).
Qed.

Lemma task_exit_releases_witness :
  exists n k' tbl dv', task_exit demo_two 3 = Some (Some (t_rsp (get_task demo_two n)), k') /\
    n <> 0 /\ t_state (get_task k' 0) = TASK_ZOMBIE /\ t_exit_status (get_task k' 0) = 3 /\
    tables (k_vfs k') !! 0 = Some tbl /\ devs (k_vfs k') = Some dv' /\ kbd_input_owner (d_kbd dv') <> 1.
Proof.
  destruct (task_exit_releases demo_two 0 1 3 demo_dev demo_two_ok)
    as (n & k' & tbl & dv' & E & Hn & _ & _ & _ & Hz & Hs & _ & Ht & _ & Hd & Ho);
    [reflexivity|lia|lia|reflexivity|exact demo_two_fds| |reflexivity|discriminate|].
  - intros j Hj. assert (forallb (fun j => bool_decide (is_Some (tables (k_vfs demo_two) !! j))) (zseq 0 16) = true) as F
      by (vm_compute; reflexivity).
    apply (bool_decide_eq_true_1 _). exact (zseq_forall _ _ _ F j Hj).
  - exists n, k', tbl, dv'. split; [exact E|]. split; [exact Hn|]. split; [exact Hz|]. split; [exact Hs|].
    split; [exact Ht|]. split; [exact Hd|exact Ho].
Defined.
