(* ===== verification/ElfLoad.v ===== *)
(** * The ELF loader library

    Translation of src/kernel/elf/elfload.c and elfreloc_amd64.c: finding
    program headers, validating the header ([el_init]), loading the segments
    ([el_load]) and the relocation code for dynamic images.

    The library works on callbacks of its user: a positioned read from the
    file and an allocator, and it writes to the memory the allocator returns.
    They form the class [ElfHost]; [ElfLaws] is what the library relies on.
    A function returns [None] when it accesses memory that is not mapped. *)

From stdpp Require Import base numbers list gmap.
From Stdlib Require Import ZArith Lia ZifyBool.
From S2P Require Import Prelude.

Definition ET_EXEC : Z := 2.
Definition ET_DYN : Z := 3.
Definition EM_AMD64 : Z := 62.
Definition EV_CURRENT : Z := 1.
Definition ELFCLASS64 : Z := 2.
Definition ELFDATA2LSB : Z := 1.
Definition PT_LOAD : Z := 1.
Definition PT_DYNAMIC : Z := 2.
Definition DT_NULL : Z := 0.
Definition DT_RELA : Z := 7.
Definition R_AMD64_NONE : Z := 0.
Definition R_AMD64_RELATIVE : Z := 8.

Inductive el_status :=
| EL_OK | EL_EIO | EL_ENOMEM | EL_NOTELF | EL_WRONGBITS | EL_WRONGENDIAN
| EL_WRONGARCH | EL_WRONGOS | EL_NOTEXEC | EL_NODYN | EL_BADREL.

#[export] Instance el_status_eq_dec : EqDecision el_status.
Proof. solve_decision. Defined.

(** ** File format *)

Definition field (b : list Z) (off n : Z) : Z := le_value (sub b off n).

Record Elf_Ehdr := Ehdr {
  e_ident : list Z;
  e_type : Z;
  e_machine : Z;
  e_version : Z;
  e_entry : Z;
  e_phoff : Z;
  e_phentsize : Z;
  e_phnum : Z;
}.

Definition EHDR_SIZE : Z := 64.
Definition parse_ehdr (b : list Z) : Elf_Ehdr :=
  Ehdr (sub b 0 16) (field b 16 2) (field b 18 2) (field b 20 4) (field b 24 8) (field b 32 8)
    (field b 54 2) (field b 56 2).

Record Elf_Phdr := Phdr {
  p_type : Z;
  p_offset : Z;
  p_vaddr : Z;
  p_paddr : Z;
  p_filesz : Z;
  p_memsz : Z;
  p_align : Z;
}.

Definition PHDR_SIZE : Z := 56.
Definition parse_phdr (b : list Z) : Elf_Phdr :=
  Phdr (field b 0 4) (field b 8 8) (field b 16 8) (field b 24 8) (field b 32 8) (field b 40 8) (field b 48 8).

Record Elf_Dyn := Dyn { d_tag : Z; d_val : Z }.
Definition DYN_SIZE : Z := 16.
Definition parse_dyn (b : list Z) : Elf_Dyn := Dyn (field b 0 8) (field b 8 8).

Record Elf_RelA := RelA { r_offset : Z; r_info : Z; r_addend : Z }.
Definition RELA_SIZE : Z := 24.
Definition parse_rela (b : list Z) : Elf_RelA := RelA (field b 0 8) (field b 8 8) (field b 16 8).

Definition IS_ELF (h : Elf_Ehdr) : bool :=
  (byte_at (e_ident h) 0 =? 0x7f) && (byte_at (e_ident h) 1 =? 69) &&
  (byte_at (e_ident h) 2 =? 76) && (byte_at (e_ident h) 3 =? 70).

(** The context without its callbacks. *)
Record el_ctx := ElCtx {
  base_load_paddr : Z;
  base_load_vaddr : Z;
  memsz : Z;
  align : Z;
  ehdr : Elf_Ehdr;
  dynoff : Z;
  dynsize : Z;
}.

Record el_relocinfo := RelocInfo { tableoff : Z; tablesize : Z; entrysize : Z }.

(** ** The host *)

Class ElfHost (S : Type) := {
  host_pread : S -> Z -> Z -> option (bool * list Z); (* size, offset; the bytes copied *)
  host_alloc : S -> Z -> Z -> Z -> Z * S;          (* phys, virt, size; 0 for NULL *)
  host_store : S -> Z -> list Z -> option S;       (* bytes to memory *)
  host_zero : S -> Z -> Z -> option S;             (* memset to 0 *)
  host_load : S -> Z -> Z -> option (list Z);      (* bytes from memory *)
}.

Section Load.
Context {S : Type} `{ElfHost S}.

(** The status and the bytes copied to the destination, which a short read
    fills in part before it fails. *)
Definition el_pread (s : S) (nb off : Z) : option (el_status * list Z) :=
  '(ok, b) ← host_pread s nb off; Some (if (ok : bool) then EL_OK else EL_EIO, b).

Definition EL_PHOFF (h : Elf_Ehdr) (num : Z) : Z := u64 (e_phoff h + u32 (num * e_phentsize h)).

(** [el_findphdr] with [n] entries left from number [i] on: the number and
    the header found, [None] for [*i == -1]. *)
Fixpoint findphdr_loop (n : nat) (s : S) (h : Elf_Ehdr) (type i : Z) : option (el_status * option (Z * Elf_Phdr)) :=
  match n with
  | O => Some (EL_OK, None)
  | Datatypes.S n' =>
      '(rv, b) ← el_pread s PHDR_SIZE (EL_PHOFF h i);
      if bool_decide (rv = EL_OK) then
        let ph := parse_phdr b in
        if p_type ph =? type then Some (EL_OK, Some (i, ph)) else findphdr_loop n' s h type (i + 1)
      else Some (rv, None)
  end.

Definition el_findphdr (s : S) (h : Elf_Ehdr) (type i : Z) : option (el_status * option (Z * Elf_Phdr)) :=
  findphdr_loop (Z.to_nat (e_phnum h - i)) s h type i.

(** The extents of the image: [memsz] and [align]. *)
Fixpoint extent_loop (fuel : nat) (s : S) (h : Elf_Ehdr) (i memsz align : Z) : option (el_status * (Z * Z)) :=
  match fuel with
  | O => None
  | Datatypes.S fuel' =>
      '(rv, found) ← el_findphdr s h PT_LOAD i;
      if bool_decide (rv = EL_OK) then
        match found with
        | None => Some (EL_OK, (memsz, align))
        | Some (i, ph) =>
            let phend := u64 (p_vaddr ph + p_memsz ph) in
            extent_loop fuel' s h (i + 1) (if memsz <? phend then phend else memsz)
              (if align <? p_align ph then p_align ph else align)
        end
      else Some (rv, (memsz, align))
  end.

(** [el_init] on the caller's context, whose other fields keep their values
    until the header is validated. A header that cannot be read is left out of
    the context: its contents are then unspecified. *)
Definition el_init (s : S) (ctx : el_ctx) : option (el_status * el_ctx) :=
  '(rv, b) ← el_pread s EHDR_SIZE 0;
  if negb (bool_decide (rv = EL_OK)) then Some (rv, ctx)
  else
    let h := parse_ehdr b in
    let ctx := ElCtx (base_load_paddr ctx) (base_load_vaddr ctx) (memsz ctx) (align ctx) h (dynoff ctx) (dynsize ctx) in
    if negb (IS_ELF h) then Some (EL_NOTELF, ctx)
    else if negb (byte_at (e_ident h) 4 =? ELFCLASS64) then Some (EL_WRONGBITS, ctx)
    else if negb (byte_at (e_ident h) 5 =? ELFDATA2LSB) then Some (EL_WRONGENDIAN, ctx)
    else if negb (byte_at (e_ident h) 6 =? EV_CURRENT) then Some (EL_NOTELF, ctx)
    else if negb (e_type h =? ET_EXEC) then Some (EL_NOTEXEC, ctx)
    else if negb (e_machine h =? EM_AMD64) then Some (EL_WRONGARCH, ctx)
    else if negb (e_version h =? EV_CURRENT) then Some (EL_NOTELF, ctx)
    else
      '(rv, (memsz, align)) ← extent_loop (Datatypes.S (Z.to_nat (e_phnum h))) s h 0 0 1;
      let ctx := ElCtx 0 0 memsz align h (dynoff ctx) (dynsize ctx) in
      if negb (bool_decide (rv = EL_OK)) then Some (rv, ctx)
      else if e_type h =? ET_DYN then
        '(rv, found) ← el_findphdr s h PT_DYNAMIC 0;
        if negb (bool_decide (rv = EL_OK)) then Some (rv, ctx)
        else
          match found with
          | None => Some (EL_NODYN, ctx)
          | Some (_, ph) => Some (EL_OK, ElCtx 0 0 memsz align h (p_offset ph) (p_filesz ph))
          end
      else Some (EL_OK, ElCtx 0 0 memsz align h 0 0).

(** One segment: allocate, read, clear the rest. *)
Definition load_segment (s : S) (ctx : el_ctx) (ph : Elf_Phdr) : option (el_status * S) :=
  let pload := u64 (p_paddr ph + base_load_paddr ctx) in
  let vload := u64 (p_vaddr ph + base_load_vaddr ctx) in
  let '(dest, s) := host_alloc s pload vload (p_memsz ph) in
  if dest =? 0 then Some (EL_ENOMEM, s)
  else
    '(rv, b) ← el_pread s (p_filesz ph) (p_offset ph);
    s ← host_store s dest b;
    if bool_decide (rv = EL_OK) then
      s ← host_zero s (u64 (dest + p_filesz ph)) (u64 (p_memsz ph - p_filesz ph));
      Some (EL_OK, s)
    else Some (rv, s).

Fixpoint load_loop (fuel : nat) (s : S) (ctx : el_ctx) (i : Z) : option (el_status * S) :=
  match fuel with
  | O => None
  | Datatypes.S fuel' =>
      '(rv, found) ← el_findphdr s (ehdr ctx) PT_LOAD i;
      if bool_decide (rv = EL_OK) then
        match found with
        | None => Some (EL_OK, s)
        | Some (i, ph) =>
            '(rv, s) ← load_segment s ctx ph;
            if bool_decide (rv = EL_OK) then load_loop fuel' s ctx (i + 1) else Some (rv, s)
        end
      else Some (rv, s)
  end.

Definition el_load (s : S) (ctx : el_ctx) : option (el_status * S) :=
  load_loop (Datatypes.S (Z.to_nat (e_phnum (ehdr ctx)))) s ctx 0.

(** ** Relocation *)

(** The dynamic table has fewer than 2^32 entries: the C counter is 32 bits
    wide. An entry that is not found has [d_tag] [DT_NULL]. *)
Fixpoint finddyn_loop (n : nat) (s : S) (ctx : el_ctx) (tag i : Z) : option (el_status * Elf_Dyn) :=
  match n with
  | O => Some (EL_OK, Dyn DT_NULL 0)
  | Datatypes.S n' =>
      '(rv, b) ← el_pread s DYN_SIZE (u64 (dynoff ctx + i * DYN_SIZE));
      if bool_decide (rv = EL_OK) then
        if d_tag (parse_dyn b) =? tag then Some (EL_OK, parse_dyn b) else finddyn_loop n' s ctx tag (i + 1)
      else Some (rv, Dyn DT_NULL 0)
  end.

Definition el_finddyn (s : S) (ctx : el_ctx) (tag : Z) : option (el_status * Elf_Dyn) :=
  finddyn_loop (Z.to_nat (dynsize ctx / DYN_SIZE)) s ctx tag 0.

Definition el_findrelocs (s : S) (ctx : el_ctx) (type : Z) : option (el_status * el_relocinfo) :=
  '(rv, rel) ← el_finddyn s ctx type;
  if negb (bool_decide (rv = EL_OK)) then Some (rv, RelocInfo 0 0 0)
  else
    '(rv, relsz) ← el_finddyn s ctx (type + 1);
    if negb (bool_decide (rv = EL_OK)) then Some (rv, RelocInfo 0 0 0)
    else
      '(rv, relent) ← el_finddyn s ctx (type + 2);
      if negb (bool_decide (rv = EL_OK)) then Some (rv, RelocInfo 0 0 0)
      else if (d_tag rel =? DT_NULL) || (d_tag relsz =? DT_NULL) || (d_tag relent =? DT_NULL)
      then Some (EL_OK, RelocInfo 0 0 0)
      else Some (EL_OK, RelocInfo (d_val rel) (d_val relsz) (d_val relent)).

Definition el_applyrela (s : S) (ctx : el_ctx) (rel : Elf_RelA) : option (el_status * S) :=
  let p := u64 (r_offset rel + base_load_vaddr ctx) in
  let type := u32 (r_info rel) in
  if type =? R_AMD64_NONE then Some (EL_OK, s)
  else if type =? R_AMD64_RELATIVE then
    s ← host_store s p (le_bytes 8 (u64 (r_addend rel + base_load_vaddr ctx))); Some (EL_OK, s)
  else Some (EL_BADREL, s).

Fixpoint applyrela_loop (n : nat) (s : S) (ctx : el_ctx) (addr : Z) : option (el_status * S) :=
  match n with
  | O => Some (EL_OK, s)
  | Datatypes.S n' =>
      b ← host_load s addr RELA_SIZE;
      '(rv, s) ← el_applyrela s ctx (parse_rela b);
      if bool_decide (rv = EL_OK) then applyrela_loop n' s ctx (addr + RELA_SIZE) else Some (rv, s)
  end.

(** On this architecture only RELA tables are used. *)
Definition el_relocate (s : S) (ctx : el_ctx) : option (el_status * S) :=
  if negb (e_type (ehdr ctx) =? ET_DYN) then Some (EL_OK, s)
  else
    '(rv, ri) ← el_findrelocs s ctx DT_RELA;
    if negb (bool_decide (rv = EL_OK)) then Some (rv, s)
    else if negb (entrysize ri =? RELA_SIZE) && negb (tablesize ri =? 0) then Some (EL_BADREL, s)
    else applyrela_loop (Z.to_nat (tablesize ri / RELA_SIZE)) s ctx (u64 (base_load_paddr ctx + tableoff ri)).
End Load.

(** ** What the library relies on

    [host_byte] is the byte a virtual address holds, [None] when it is not
    mapped; [host_range] is the ranges the allocator is meant for. The
    operations keep the invariant [host_inv] of the host and the file. *)
Class ElfLaws (S : Type) `{ElfHost S} := {
  host_inv : S -> Prop;
  host_file : S -> list Z;
  host_byte : S -> Z -> option Z;
  host_range : Z -> Z -> Prop;
  host_file_size s : host_inv s -> zlen (host_file s) < 2 ^ 63;
  host_pread_spec s nb off :
    host_inv s -> 0 <= nb < 2 ^ 63 -> 0 <= off ->
    host_pread s nb off = Some (zlen (sub (host_file s) off nb) =? nb, sub (host_file s) off nb);
  host_alloc_spec s p v n r s' :
    host_inv s -> host_range v n -> host_alloc s p v n = (r, s') ->
    host_inv s' /\ host_file s' = host_file s /\
    (forall a b, host_byte s a = Some b -> host_byte s' a = Some b) /\
    (r <> 0 -> r = v /\ forall a, v <= a < v + n -> is_Some (host_byte s' a));
  host_store_spec s a l :
    host_inv s -> (forall x, a <= x < a + zlen l -> is_Some (host_byte s x)) ->
    exists s', host_store s a l = Some s' /\ host_inv s' /\ host_file s' = host_file s /\
      forall x, host_byte s' x = if (a <=? x) && (x <? a + zlen l) then Some (byte_at l (x - a)) else host_byte s x;
  host_zero_spec s a n :
    host_inv s -> 0 <= n -> (forall x, a <= x < a + n -> is_Some (host_byte s x)) ->
    exists s', host_zero s a n = Some s' /\ host_inv s' /\ host_file s' = host_file s /\
      forall x, host_byte s' x = if (a <=? x) && (x <? a + n) then Some 0 else host_byte s x;
}.

(** ** A flat host: a file and one memory *)

Record flat := Flat { fl_file : list Z; fl_mem : Z -> option Z }.

Definition in_range (a n x : Z) : bool := (a <=? x) && (x <? a + n).
Definition flat_mapped (s : flat) (a n : Z) : bool :=
  forallb (fun x => bool_decide (is_Some (fl_mem s x))) (zseq a (Z.to_nat n)).
Definition flat_store (s : flat) (a n : Z) (f : Z -> Z) : option flat :=
  if flat_mapped s a n
  then Some (Flat (fl_file s) (fun x => if in_range a n x then Some (f (x - a)) else fl_mem s x))
  else None.

(** Fresh memory holds 0xAA: an allocator need not clear it. *)
#[export] Instance flat_host : ElfHost flat := {
  host_pread s nb off := Some (zlen (sub (fl_file s) off nb) =? nb, sub (fl_file s) off nb);
  host_alloc s _ v n :=
    (v, Flat (fl_file s) (fun x => match fl_mem s x with
                                  | Some b => Some b
                                  | None => if in_range v n x then Some 0xAA else None
                                  end));
  host_store s a l := flat_store s a (zlen l) (byte_at l);
  host_zero s a n := flat_store s a n (fun _ => 0);
  host_load s a n := if flat_mapped s a n then Some (map (fun x => default 0 (fl_mem s x)) (zseq a (Z.to_nat n))) else None;
}.

(** ** The image in the file *)

Definition ph_at (file : list Z) (h : Elf_Ehdr) (i : Z) : Elf_Phdr :=
  parse_phdr (sub file (EL_PHOFF h i) PHDR_SIZE).

(** Every program header lies in the file. *)
Definition table_in_file (file : list Z) (h : Elf_Ehdr) : Prop :=
  forall i, 0 <= i < e_phnum h -> EL_PHOFF h i + PHDR_SIZE <= zlen file.

Definition loads (file : list Z) (h : Elf_Ehdr) (i : Z) : Prop :=
  0 <= i < e_phnum h /\ p_type (ph_at file h i) = PT_LOAD.

Definition seg_addr (ctx : el_ctx) (ph : Elf_Phdr) : Z := u64 (p_vaddr ph + base_load_vaddr ctx).

(** A header the loader supports. *)
Definition valid_header (h : Elf_Ehdr) : bool :=
  IS_ELF h && (byte_at (e_ident h) 4 =? ELFCLASS64) && (byte_at (e_ident h) 5 =? ELFDATA2LSB) &&
  (byte_at (e_ident h) 6 =? EV_CURRENT) && (e_type h =? ET_EXEC) && (e_machine h =? EM_AMD64) &&
  (e_version h =? EV_CURRENT).

Lemma flat_mapped_spec s a n :
  (forall x, a <= x < a + n -> is_Some (fl_mem s x)) -> flat_mapped s a n = true.
Proof.
  intros Hm. apply forallb_forall. intros x Hx%list_elem_of_In%elem_of_zseq.
  apply bool_decide_eq_true, Hm. lia.
Qed.

#[export] Program Instance flat_laws : ElfLaws flat := {
  host_inv s := zlen (fl_file s) < 2 ^ 63;
  host_file := fl_file;
  host_byte := fl_mem;
  host_range v n := 0 < v /\ 0 <= n;
}.
Next Obligation. done. Qed.
Next Obligation. done. Qed.
Next Obligation.
  intros s p v n r s' Hs _ Ha. cbn in Ha. injection Ha as <- <-. cbn. split_and!; [done|done| |].
  - by intros a b ->.
  - intros _. split; [done|]. intros a Ha. unfold in_range.
    destruct (fl_mem s a); [done|]. destruct (_ && _) eqn:E; [done|lia].
Qed.
Next Obligation. intros s a l Hs Hm. cbn. unfold flat_store. rewrite flat_mapped_spec by done. eauto. Qed.
Next Obligation. intros s a n Hs Hn Hm. cbn. unfold flat_store. rewrite flat_mapped_spec by done. eauto. Qed.

Section Loaded.
Context {S : Type} `{HL : ElfLaws S}.
Implicit Types (s : S) (ctx : el_ctx) (h : Elf_Ehdr) (ph : Elf_Phdr).

(** A segment the file holds, in a range the allocator supports. *)
Definition seg_ok (file : list Z) ctx ph : Prop :=
  0 <= p_filesz ph <= p_memsz ph /\ 0 <= p_offset ph /\ p_offset ph + p_filesz ph <= zlen file /\
  seg_addr ctx ph + p_memsz ph < 2 ^ 64 /\ host_range (seg_addr ctx ph) (p_memsz ph).

Definition seg_disjoint ctx ph ph' : Prop :=
  seg_addr ctx ph + p_memsz ph <= seg_addr ctx ph' \/ seg_addr ctx ph' + p_memsz ph' <= seg_addr ctx ph.

Definition image_ok (file : list Z) ctx : Prop :=
  table_in_file file (ehdr ctx) /\
  (forall i, loads file (ehdr ctx) i -> seg_ok file ctx (ph_at file (ehdr ctx) i)) /\
  (forall i j, loads file (ehdr ctx) i -> loads file (ehdr ctx) j -> i < j ->
     seg_disjoint ctx (ph_at file (ehdr ctx) i) (ph_at file (ehdr ctx) j)).

(** The memory holds the segment: the bytes of the file, then zeros. *)
Definition placed (file : list Z) ctx ph s : Prop :=
  forall k, 0 <= k < p_memsz ph ->
    host_byte s (seg_addr ctx ph + k) = Some (if k <? p_filesz ph then byte_at file (p_offset ph + k) else 0).

Definition placed_below (file : list Z) ctx (i : Z) s : Prop :=
  forall j, loads file (ehdr ctx) j -> j < i -> placed file ctx (ph_at file (ehdr ctx) j) s.

Lemma el_pread_ok s nb off :
  host_inv s -> 0 <= nb -> 0 <= off -> off + nb <= zlen (host_file s) ->
  el_pread s nb off = Some (EL_OK, sub (host_file s) off nb).
Proof.
  intros Hi Hn Ho Hl. pose proof (host_file_size s Hi). unfold el_pread. rewrite host_pread_spec by (done || lia). cbn.
  by rewrite zlen_sub, Z.eqb_refl by done.
Qed.

(** The search returns the first header of the type, or none. *)
Lemma findphdr_loop_spec n s h type i :
  host_inv s -> table_in_file (host_file s) h -> 0 <= i -> i + Z.of_nat n = e_phnum h ->
  let ph := ph_at (host_file s) h in
  (exists j, findphdr_loop n s h type i = Some (EL_OK, Some (j, ph j)) /\ i <= j < e_phnum h /\
     p_type (ph j) = type /\ forall k, i <= k < j -> p_type (ph k) <> type) \/
  (findphdr_loop n s h type i = Some (EL_OK, None) /\ forall k, i <= k < e_phnum h -> p_type (ph k) <> type).
Proof.
  intros Hinv Ht. revert i. induction n as [|n IH]; intros i Hi Hn ph; cbn [findphdr_loop].
  { right. split; [done|]. lia. }
  rewrite el_pread_ok; [|done|done|apply u64_range|apply Ht; lia]. cbn [mbind option_bind].
  rewrite bool_decide_eq_true_2 by done. fold (ph_at (host_file s) h i) (ph i). cbv zeta.
  destruct (Z.eqb_spec (p_type (ph i)) type) as [E|E].
  { left. exists i. split_and!; try done; lia. }
  assert (forall j, (forall k, i + 1 <= k < j -> p_type (ph k) <> type) ->
    forall k, i <= k < j -> p_type (ph k) <> type) as Hext.
  { intros j Hk k Hr. destruct (decide (k = i)) as [->|]; [done|]. apply Hk. lia. }
  destruct (IH (i + 1)) as [(j & -> & Hj & Htj & Hk)|[-> Hk]]; [lia|lia| |].
  - left. exists j. split_and!; try done; try lia. by apply Hext.
  - right. split; [done|]. by apply Hext.
Qed.

Lemma el_findphdr_spec s h i :
  host_inv s -> table_in_file (host_file s) h -> 0 <= i <= e_phnum h ->
  (exists j, el_findphdr s h PT_LOAD i = Some (EL_OK, Some (j, ph_at (host_file s) h j)) /\ i <= j /\
     loads (host_file s) h j /\ forall k, loads (host_file s) h k -> i <= k -> j <= k) \/
  (el_findphdr s h PT_LOAD i = Some (EL_OK, None) /\ forall k, loads (host_file s) h k -> k < i).
Proof.
  intros Hinv Ht Hi. unfold el_findphdr.
  destruct (findphdr_loop_spec (Z.to_nat (e_phnum h - i)) s h PT_LOAD i) as [(j & E & Hj & Htj & Hk)|[E Hk]];
    [done|done|lia|lia| |].
  - left. exists j. split; [done|]. split; [lia|]. split; [split; [lia|done]|]. intros k [Hr Hp] Hik.
    destruct (decide (j <= k)) as [|Hlt]; [done|]. exfalso. apply (Hk k); [lia|done].
  - right. split; [done|]. intros k [Hr Hp]. destruct (decide (k < i)) as [|Hlt]; [done|].
    exfalso. apply (Hk k); [lia|done].
Qed.

(** The allocator refuses the memory of a segment. *)
Definition alloc_refused ctx ph s : Prop :=
  fst (host_alloc s (u64 (p_paddr ph + base_load_paddr ctx)) (seg_addr ctx ph) (p_memsz ph)) = 0.

(** Bytes outside the segment survive its loading. *)
Definition kept_outside ctx ph s s' : Prop :=
  forall x b, ~ seg_addr ctx ph <= x < seg_addr ctx ph + p_memsz ph ->
    host_byte s x = Some b -> host_byte s' x = Some b.

Lemma load_segment_spec s ctx ph :
  host_inv s -> seg_ok (host_file s) ctx ph ->
  (exists s', load_segment s ctx ph = Some (EL_ENOMEM, s') /\ host_inv s' /\ alloc_refused ctx ph s) \/
  (exists s', load_segment s ctx ph = Some (EL_OK, s') /\ host_inv s' /\ host_file s' = host_file s /\
     placed (host_file s) ctx ph s' /\ kept_outside ctx ph s s').
Proof.
  intros Hinv (Hsz & Hoff & Hend & Htop & Hrange). unfold load_segment, alloc_refused. fold (seg_addr ctx ph).
  pose proof (u64_range (p_vaddr ph + base_load_vaddr ctx)) as Hva. fold (seg_addr ctx ph) in Hva.
  destruct (host_alloc _ _ _ _) as [r s1] eqn:Ea.
  destruct (host_alloc_spec _ _ _ _ _ _ Hinv Hrange Ea) as (Hi1 & Hf1 & Hk1 & Hm1).
  destruct (Z.eqb_spec r 0) as [->|Hr]; [left; eauto|]. right.
  destruct (Hm1 Hr) as [-> Hmap]. rewrite el_pread_ok by (done || rewrite ?Hf1; lia). rewrite Hf1. cbn [mbind option_bind].
  assert (zlen (sub (host_file s) (p_offset ph) (p_filesz ph)) = p_filesz ph) as Hlen by (apply zlen_sub; lia).
  destruct (host_store_spec s1 (seg_addr ctx ph) (sub (host_file s) (p_offset ph) (p_filesz ph)))
    as (s2 & E2 & Hi2 & Hf2 & Hb2); [done|intros x Hx; apply Hmap; lia|].
  rewrite !u64_small by lia. rewrite Hlen in Hb2.
  destruct (host_zero_spec s2 (seg_addr ctx ph + p_filesz ph) (p_memsz ph - p_filesz ph))
    as (s3 & E3 & Hi3 & Hf3 & Hb3); [done|lia| |].
  { intros x Hx. rewrite Hb2. destruct (_ && _); [done|]. apply Hmap. lia. }
  rewrite E2. cbn. rewrite E3. cbn. exists s3. split_and!; [done|done|congruence| |].
  - intros k Hk. rewrite Hb3, Hb2. destruct (Z.ltb_spec k (p_filesz ph)).
    + rewrite (proj2 (andb_false_iff _ _)) by lia. rewrite (proj2 (andb_true_iff _ _)) by lia.
      rewrite byte_at_sub by lia. do 2 f_equal. lia.
    + by rewrite (proj2 (andb_true_iff _ _)) by lia.
  - intros x b Hx Hb. rewrite Hb3, Hb2.
    rewrite !(proj2 (andb_false_iff _ _)) by lia. by apply Hk1.
Qed.

Lemma placed_kept file ctx ph ph' s s' :
  placed file ctx ph' s -> seg_disjoint ctx ph' ph -> kept_outside ctx ph s s' -> placed file ctx ph' s'.
Proof. intros Hp Hd Hk k Hr. apply Hk; [unfold seg_disjoint in Hd; lia|]. by apply Hp. Qed.

(** What a run of the loader from header [i] on ends in. *)
Definition load_result (file : list Z) ctx (r : option (el_status * S)) : Prop :=
  (exists s', r = Some (EL_OK, s') /\ host_inv s' /\ host_file s' = file /\
     forall j, loads file (ehdr ctx) j -> placed file ctx (ph_at file (ehdr ctx) j) s') \/
  (exists s' s1 j, r = Some (EL_ENOMEM, s') /\ host_inv s' /\ loads file (ehdr ctx) j /\
     alloc_refused ctx (ph_at file (ehdr ctx) j) s1 /\ host_file s1 = file /\ placed_below file ctx j s1).

Lemma load_loop_spec file ctx :
  image_ok file ctx -> forall fuel s i,
  host_inv s -> host_file s = file -> 0 <= i <= e_phnum (ehdr ctx) -> e_phnum (ehdr ctx) - i < Z.of_nat fuel ->
  placed_below file ctx i s -> load_result file ctx (load_loop fuel s ctx i).
Proof.
  intros (Ht & Hok & Hdis). induction fuel as [|fuel IH]; intros s i Hinv Hf Hi Hfuel Hbelow; [lia|].
  cbn [load_loop].
  destruct (el_findphdr_spec s (ehdr ctx) i) as [(j & -> & Hij & Hl & Hmin)|[-> Hnone]];
    [done|by rewrite Hf|done| |]; cbn [mbind option_bind]; rewrite bool_decide_eq_true_2 by done.
  2: { left. exists s. rewrite Hf in Hnone. split_and!; eauto. }
  rewrite Hf in *.
  assert (placed_below file ctx j s) as Hj.
  { intros k Hk Hlt. apply Hbelow; [done|]. destruct (decide (k < i)); [done|].
    specialize (Hmin k Hk ltac:(lia)). lia. }
  destruct (load_segment_spec s ctx (ph_at file (ehdr ctx) j)) as [(s' & -> & Hi' & Hr)|(s' & -> & Hi' & Hf' & Hp & Hk)];
    [done|rewrite Hf; by apply Hok| |]; cbn.
  { right. exists s', s, j. done. }
  apply IH; [done|congruence|destruct Hl; lia|lia|]. intros k Hl' Hlt. rewrite Hf in Hp.
  destruct (decide (k = j)) as [->|]; [done|].
  assert (k < j) by lia. apply (placed_kept _ _ (ph_at file (ehdr ctx) j) _ s); [by apply Hj|by apply Hdis|done].
Qed.

(** The extents cover every segment from header [i] on. *)
Lemma extent_loop_spec h : forall fuel s i m a,
  host_inv s -> table_in_file (host_file s) h -> 0 <= i <= e_phnum h -> e_phnum h - i < Z.of_nat fuel ->
  exists m' a', extent_loop fuel s h i m a = Some (EL_OK, (m', a')) /\ m <= m' /\ a <= a' /\
    forall j, loads (host_file s) h j -> i <= j ->
      u64 (p_vaddr (ph_at (host_file s) h j) + p_memsz (ph_at (host_file s) h j)) <= m' /\
      p_align (ph_at (host_file s) h j) <= a'.
Proof.
  induction fuel as [|fuel IH]; intros s i m a Hinv Ht Hi Hfuel; [lia|]. cbn [extent_loop].
  destruct (el_findphdr_spec s h i) as [(j & -> & Hij & Hl & Hmin)|[-> Hnone]]; [done|done|done| |];
    cbn [mbind option_bind]; rewrite bool_decide_eq_true_2 by done.
  2: { exists m, a. split_and!; try done. intros j Hj%Hnone. lia. }
  cbv zeta. set (ph := ph_at (host_file s) h j).
  set (e := u64 (p_vaddr ph + p_memsz ph)).
  match goal with |- context [extent_loop fuel s h (j + 1) ?m1 ?a1] =>
    destruct (IH s (j + 1) m1 a1) as (m' & a' & -> & Hm & Ha & Hall); [done|done|destruct Hl; lia|lia|] end.
  assert (m <= m' /\ e <= m' /\ a <= a' /\ p_align ph <= a') as (? & ? & ? & ?).
  { destruct (Z.ltb_spec m e), (Z.ltb_spec a (p_align ph)); lia. }
  exists m', a'. split_and!; [done|lia|lia|]. intros k Hk Hik.
  destruct (decide (k = j)) as [->|]; [done|].
  specialize (Hmin k Hk Hik). apply Hall; [done|lia].
Qed.

Lemma el_init_spec s ctx0 :
  let h := parse_ehdr (sub (host_file s) 0 EHDR_SIZE) in
  host_inv s -> EHDR_SIZE <= zlen (host_file s) -> table_in_file (host_file s) h -> 0 <= e_phnum h ->
  exists st ctx, el_init s ctx0 = Some (st, ctx) /\
  (st = EL_OK <-> valid_header h = true) /\
  (st = EL_OK -> ehdr ctx = h /\ base_load_paddr ctx = 0 /\ base_load_vaddr ctx = 0 /\
     forall j, loads (host_file s) h j ->
       u64 (p_vaddr (ph_at (host_file s) h j) + p_memsz (ph_at (host_file s) h j)) <= memsz ctx /\
       p_align (ph_at (host_file s) h j) <= align ctx).
Proof.
  intros h Hinv Hlen Ht Hn. unfold el_init. rewrite el_pread_ok by (done || lia). cbn [mbind option_bind].
  rewrite bool_decide_eq_true_2 by done. cbn [negb]. cbv zeta. fold h.
  destruct (extent_loop_spec h (Datatypes.S (Z.to_nat (e_phnum h))) s 0 0 1)
    as (m & a & -> & _ & _ & Hall); [done|done|lia|lia|].
  unfold valid_header.
  destruct (IS_ELF h); [|by cbn; eexists _, _].
  destruct (byte_at _ 4 =? _); [|by cbn; eexists _, _]. destruct (byte_at _ 5 =? _); [|by cbn; eexists _, _].
  destruct (byte_at _ 6 =? _); [|by cbn; eexists _, _].
  destruct (Z.eqb_spec (e_type h) ET_EXEC) as [->|]; [|by cbn; eexists _, _].
  destruct (e_machine h =? _); [|by cbn; eexists _, _]. destruct (e_version h =? _); [|by cbn; eexists _, _].
  cbn. eexists _, _. split; [done|]. split; [done|]. intros _. split_and!; try done.
  intros j Hj. apply Hall; [done|]. destruct Hj. lia.
Qed.

(** The ELF loader accepts exactly the headers it supports (a 64-bit
    little-endian static x86-64 executable of the current version): when the
    file holds the header and its program headers, [el_init] returns [EL_OK]
    if and only if the header is valid, and then the context has the header of
    the file, both load bases are 0, and the extents cover every loadable
    segment. *)
Theorem el_init_accepts s ctx0 :
  let h := parse_ehdr (sub (host_file s) 0 EHDR_SIZE) in
  host_inv s -> EHDR_SIZE <= zlen (host_file s) -> table_in_file (host_file s) h -> 0 <= e_phnum h ->
  exists st ctx, el_init s ctx0 = Some (st, ctx) /\
  (st = EL_OK <-> valid_header h = true) /\
  (st = EL_OK -> ehdr ctx = h /\ base_load_paddr ctx = 0 /\ base_load_vaddr ctx = 0 /\
     forall j, loads (host_file s) h j ->
       u64 (p_vaddr (ph_at (host_file s) h j) + p_memsz (ph_at (host_file s) h j)) <= memsz ctx /\
       p_align (ph_at (host_file s) h j) <= align ctx).
Proof. apply el_init_spec. Qed.

Lemma el_load_spec s ctx :
  host_inv s -> image_ok (host_file s) ctx -> 0 <= e_phnum (ehdr ctx) ->
  load_result (host_file s) ctx (el_load s ctx).
Proof.
  intros Hi Hok Hn. apply load_loop_spec; try done; try lia. intros j [Hj _] Hlt. lia.
Qed.

(** The ELF loader builds the image: for a file whose loadable segments
    lie in it and do not overlap in memory, [el_load] always returns, and
    either it returns [EL_OK] with every loadable segment in memory (the bytes
    of the file, then zeros up to its size in memory, whatever the allocated
    memory held before), or it returns [EL_ENOMEM] because the allocator
    refused the memory of a segment, all the segments before it being in
    place. *)
Theorem el_load_places s ctx :
  host_inv s -> image_ok (host_file s) ctx -> 0 <= e_phnum (ehdr ctx) ->
  load_result (host_file s) ctx (el_load s ctx).
Proof. apply el_load_spec. Qed.
End Loaded.

(** ** A concrete image *)

Definition demo_phdr (type off va filesz memsz : Z) : list Z :=
  le_bytes 4 type ++ le_bytes 4 5 ++ le_bytes 8 off ++ le_bytes 8 va ++ le_bytes 8 va ++
  le_bytes 8 filesz ++ le_bytes 8 memsz ++ le_bytes 8 4096.

(** A note and two loadable segments, the first with two bytes of zeros. *)
Definition demo_image : list Z :=
  [0x7f; 69; 76; 70; 2; 1; 1; 0] ++ le_bytes 8 0 ++ le_bytes 2 2 ++ le_bytes 2 62 ++ le_bytes 4 1 ++
  le_bytes 8 0x400000 ++ le_bytes 8 64 ++ le_bytes 8 0 ++ le_bytes 4 0 ++ le_bytes 2 64 ++ le_bytes 2 56 ++
  le_bytes 2 3 ++ le_bytes 6 0 ++
  demo_phdr 4 0 0 0 0 ++ demo_phdr 1 232 0x400000 3 5 ++ demo_phdr 1 235 0x401000 2 2 ++
  [10; 11; 12; 20; 21].

Definition demo_flat : flat := Flat demo_image (fun _ => None).
Definition demo_ctx0 : el_ctx := ElCtx 0 0 0 0 (parse_ehdr []) 0 0.
Definition demo_ctx : el_ctx := match el_init demo_flat demo_ctx0 with Some (_, ctx) => ctx | None => demo_ctx0 end.

Lemma demo_index i : 0 <= i < 3 -> i = 0 \/ i = 1 \/ i = 2.
Proof. lia. Qed.

Lemma demo_table : table_in_file (host_file demo_flat) (ehdr demo_ctx).
Proof. intros i Hi. destruct (demo_index i Hi) as [-> | [-> | ->]]; vm_compute; discriminate. Qed.

Lemma demo_image_ok : image_ok (host_file demo_flat) demo_ctx.
Proof.
  split_and!; [exact demo_table| |].
  - intros i [Hi Hl]. destruct (demo_index i Hi) as [-> | [-> | ->]]; [vm_compute in Hl; discriminate| |];
      vm_compute; split_and!; (done || discriminate).
  - intros i j [Hi Hl] [Hj Hl'] Hlt.
    destruct (demo_index i Hi) as [-> | [-> | ->]]; [vm_compute in Hl; discriminate| |];
      destruct (demo_index j Hj) as [-> | [-> | ->]]; try lia. left. vm_compute. discriminate.
Qed.

Lemma demo_inv : host_inv demo_flat.
Proof. vm_compute. reflexivity. Qed.

Lemma el_init_accepts_witness :
  fst <$> el_init demo_flat demo_ctx0 = Some EL_OK /\ memsz demo_ctx = 0x401002.
Proof.
  assert (EHDR_SIZE <= zlen (host_file demo_flat)) as Hlen by (vm_compute; discriminate).
  assert (0 <= e_phnum (ehdr demo_ctx)) as Hn by (vm_compute; discriminate).
  destruct (el_init_accepts demo_flat demo_ctx0 demo_inv Hlen demo_table Hn) as (st & ctx & E & [_ Hst] & _).
  rewrite E. split; [cbn; f_equal; apply Hst; vm_compute; reflexivity|vm_compute; reflexivity].
Defined.

Lemma el_load_places_witness : load_result (host_file demo_flat) demo_ctx (el_load demo_flat demo_ctx).
Proof. apply (el_load_places demo_flat demo_ctx demo_inv demo_image_ok). vm_compute. discriminate. Defined.

(** The loaded bytes of the example, the cleared ones included. *)
Example demo_loaded :
  (fun r => (fst r, map (fl_mem (snd r)) [0x400000; 0x400002; 0x400003; 0x400004; 0x400005; 0x401001]))
    <$> el_load demo_flat demo_ctx =
  Some (EL_OK, [Some 10; Some 12; Some 0; Some 0; None; Some 21]).
Proof. vm_compute. reflexivity. Qed.
