(* ===== verification/UserMem.v ===== *)
(** * User memory: the frames behind the user halves of the address spaces

    VmmTables describes page tables. This file adds the frames the user pages
    refer to: [users_ok] says that every user page of every cloned space has a
    frame of its own, which is neither available in the pool nor used as a
    page table. On top of it, the accesses of the processor through the page
    tables ([user_load], [user_store]) are reads and writes of a byte array
    per address space.

    The contents of the frames of user pages are [k_frames] of Sched. *)

From stdpp Require Import base numbers list gmap.
From Stdlib Require Import ZArith Lia ZifyBool.
From S2P Require Import Prelude.
From S2P Require Import Interfaces.
From S2P Require Import Pmm.
From S2P Require Import Vmm.
From S2P Require Import VmmTables.
From S2P Require Import Kmalloc.
From S2P Require Import Vfs.
From S2P Require Import VfsData.
From S2P Require Import Sched.

Definition frame_of (e : Z) : Z := Z.land e PTE_ADDR_MASK.

(** The flags of every user page. *)
Definition PAGE_FLAGS : Z := Z.lor (Z.lor VMM_PRESENT VMM_WRITE) VMM_USER.

Definition user_half (v : Z) : Prop := 0 <= v < 2 ^ 47.

Section Users.
Context {P : Type} `{FramePool P}.
Implicit Types (s : vmm P) (spaces : list Z).

(** [f] is the frame of the user page of [v] in [r]. *)
Definition maps_to s (r v f : Z) : Prop := exists e, lookup_pte (pmem s) r v = Some e /\ frame_of e = f.

(** No page table lies in [f]. *)
Definition not_table s spaces (f : Z) : Prop :=
  forall r p, node (space_dom (g_root_cr3 s) spaces) r p -> table_at (pmem s) r p <> Some f.

Record users_ok s spaces : Prop := UsersOk {
  uo_spaces : spaces_ok s spaces;
  uo_small r v : r ∈ spaces -> pml4_index v < 256 -> small s r (path v);
  uo_frame r v f : r ∈ spaces -> pml4_index v < 256 -> maps_to s r v f ->
    page_aligned f /\ 0 < f < 2 ^ 52 /\ ~ fp_avail (pool s) f /\ not_table s spaces f;
  uo_inj r v r' v' f : r ∈ spaces -> r' ∈ spaces -> pml4_index v < 256 -> pml4_index v' < 256 ->
    maps_to s r v f -> maps_to s r' v' f -> r = r' /\ vpage v = vpage v';
}.

(** A frame that may become the page of [v] in [c]: no other page has it. *)
Record frame_for s spaces (c v f : Z) : Prop := FrameFor {
  ff_aligned : page_aligned f;
  ff_range : 0 < f < 2 ^ 52;
  ff_taken : ~ fp_avail (pool s) f;
  ff_table : not_table s spaces f;
  ff_only r' v' : r' ∈ spaces -> pml4_index v' < 256 -> maps_to s r' v' f -> r' = c /\ vpage v' = vpage v;
}.

Lemma user_dom s spaces r v : r ∈ spaces -> pml4_index v < 256 -> space_dom (g_root_cr3 s) spaces r (pml4_index v).
Proof. intros. right. pose proof (pml4_index_idx v) as [? ?]. done. Qed.

Lemma user_may_map s spaces r v : r ∈ spaces -> pml4_index v < 256 -> may_map s spaces r v.
Proof. by right. Qed.

Lemma same_vpage v v' : path v = path v' -> pt_index v = pt_index v' -> vpage v = vpage v'.
Proof. intros. by apply same_page_indices. Qed.

(** A walk along the path of [v] keeps the invariant, and the frames fit for
    a page. *)
Lemma extends_users s s' spaces c v :
  users_ok s spaces -> may_map s spaces c v ->
  extends (space_dom (g_root_cr3 s) spaces) c (path v) s s' ->
  users_ok s' spaces /\ (forall a b f, frame_for s spaces a b f -> frame_for s' spaces a b f) /\
  (forall r v' f, r ∈ spaces -> pml4_index v' < 256 -> maps_to s' r v' f <-> maps_to s r v' f).
Proof.
  intros [Hsp Hsm Hfr Hinj] Hc E. pose proof (ext_regs _ _ _ _ _ E) as (_ & Er & _).
  assert (Hmap : forall r v' f, r ∈ spaces -> pml4_index v' < 256 -> maps_to s' r v' f <-> maps_to s r v' f).
  { intros r v' f Hr Hv. unfold maps_to. by rewrite (extends_lookup _ c (path v) s s' r v') by (done || by apply user_dom). }
  assert (Htab : forall f, ~ fp_avail (pool s) f -> not_table s spaces f -> not_table s' spaces f).
  { intros f Ha Hn r p Hnode. rewrite Er in Hnode. intros Ht.
    destruct (ext_from _ _ _ _ _ E r p f Hnode Ht) as [Ho|?]; [by apply (Hn r p)|done]. }
  assert (Hav : forall f, ~ fp_avail (pool s) f -> ~ fp_avail (pool s') f)
    by (intros f Ha Ha'; by apply Ha, (ext_avail _ _ _ _ _ E)).
  split_and!; [split| |done].
  - by eapply extends_spaces.
  - intros r v' Hr Hv q j rest t Ep Ht.
    assert (node (space_dom (g_root_cr3 s) spaces) r (q ++ j :: rest)) as Hn
      by (rewrite <-Ep; by apply node_path, user_dom).
    destruct (Z.eq_dec (Z.land (pmem s' (entry_addr t j)) PS_BIT) 0) as [|Hps]; [done|exfalso].
    destruct (ext_large _ _ _ _ _ E r q t j) as [Ht' Hps']; try done.
    + by eapply node_prefix.
    + by eapply node_idx.
    + apply (f_equal length) in Ep. rewrite length_app in Ep. cbn in Ep. lia.
    + by apply Hps', (Hsm r v' Hr Hv q j rest).
  - intros r v' f Hr Hv Hm%Hmap; [|done..]. destruct (Hfr r v' f Hr Hv Hm) as (?&?&?&?). auto.
  - intros r v1 r' v2 f Hr Hr' Hv1 Hv2 Hm1%Hmap Hm2%Hmap; [|done..]. by apply (Hinj r v1 r' v2 f).
  - intros a b f [H1 H2 H3 H4 H5]. split; auto. intros r' v' Hr Hv Hm%Hmap; auto.
Qed.

(** Taking a frame: it fits for any page. *)
Lemma alloc_users s spaces f s' :
  users_ok s spaces -> pmm_alloc s = (f, s') ->
  users_ok s' spaces /\ s' = with_pool s (pool s') /\
  (forall q, fp_avail (pool s') q <-> fp_avail (pool s) q /\ q <> f) /\
  (f <> 0 -> fp_avail (pool s) f /\ forall c v, frame_for s' spaces c v f) /\
  (forall a b g, frame_for s spaces a b g -> frame_for s' spaces a b g).
Proof.
  intros [Hsp Hsm Hfr Hinj]. unfold pmm_alloc. destruct (fp_alloc (pool s)) as [p pl] eqn:E.
  destruct (fp_alloc_spec _ _ _ (tables_pool _ _ (spaces_tables _ _ Hsp)) E) as (Hinv & Hget & Hav).
  intros [-> <-]%pair_equal_spec. cbn [pool with_pool].
  assert (Hless : forall q, ~ fp_avail (pool s) q -> ~ fp_avail pl q) by (intros q; rewrite Hav; tauto).
  split_and!; [split| |done| |].
  - destruct Hsp as [Ht Hk Hr]. split; [|done..]. apply tables_ok_pool; [done..|]. naive_solver.
  - done.
  - intros r v g Hr Hv Hm. destruct (Hfr r v g Hr Hv Hm) as (?&?&?&?). auto.
  - done.
  - done.
  - intros Hf. destruct Hget as [|(Ha & Hal & Hrange)]; [done|]. split; [done|]. intros c v.
    split; [done|done| | |].
    + cbn. rewrite Hav. tauto.
    + intros r p Hn Ht. by destruct (tables_good _ _ (spaces_tables _ _ Hsp) r p f Hn Ht) as (_ & _ & ?).
    + intros r' v' Hr Hv Hm. by destruct (Hfr r' v' f Hr Hv Hm) as (_ & _ & ? & _).
  - intros a b g [H1 H2 H3 H4 H5]. split; auto.
Qed.

(** What the map and unmap operations may do to the user pages: the page of
    [v] in [c] becomes [new] (all pages stay when [new] is [None]). *)
Record pages_step s spaces (c v : Z) (new : option (option Z)) s' : Prop := PagesStep {
  ps_users : users_ok s' spaces;
  ps_regs : g_root_cr3 s' = g_root_cr3 s /\ g_cr3 s' = g_cr3 s /\ hw_cr3 s' = hw_cr3 s;
  ps_avail q : fp_avail (pool s') q -> fp_avail (pool s) q;
  ps_maps r v' f : r ∈ spaces -> pml4_index v' < 256 ->
    maps_to s' r v' f <->
      match new with
      | Some g => if decide (r = c /\ vpage v' = vpage v) then g = Some f else maps_to s r v' f
      | None => maps_to s r v' f
      end;
  ps_frames a b f : frame_for s spaces a b f -> new <> Some (Some f) -> frame_for s' spaces a b f;
}.

Lemma walk_pages s spaces c v alloc user res s' :
  users_ok s spaces -> may_map s spaces c v -> small s c (path v) ->
  walk_pt s c v alloc user = (res, s') ->
  pages_step s spaces c v None s' /\
  match res with
  | None => alloc = false -> table_at (pmem s) c (path v) = None
  | Some (a, _) => exists t, table_at (pmem s') c (path v) = Some t /\ a = entry_addr t (pt_index v) /\
      (alloc = false -> table_at (pmem s) c (path v) = Some t)
  end.
Proof.
  intros Hok Hc Hs Ew.
  destruct (walk_pt_spec _ _ _ _ _ _ _ _ (spaces_tables _ _ (uo_spaces _ _ Hok)) (may_map_dom _ _ _ _ Hc) Hs Ew) as [E R].
  destruct (extends_users _ _ _ _ _ Hok Hc E) as (Hok' & Hff & Hm).
  destruct (ext_regs _ _ _ _ _ E) as (? & ? & ?).
  split; [split; auto; apply E|]. destruct res as [[a b]|]; [|done]. by destruct R as [_ R].
Qed.

Lemma root_not_user s spaces r : spaces_ok s spaces -> r ∈ spaces -> r <> g_root_cr3 s.
Proof. intros Hok Hr ->. by apply (spaces_root _ _ Hok). Qed.

(** The frame a leaf entry refers to. *)
Definition leaf_frame (e : Z) : option Z := if Z.land e VMM_PRESENT =? 0 then None else Some (frame_of e).

Lemma leaf_pages s spaces c v t e :
  users_ok s spaces -> may_map s spaces c v -> table_at (pmem s) c (path v) = Some t ->
  (forall f, c ∈ spaces -> leaf_frame e = Some f -> frame_for s spaces c v f) ->
  pages_step s spaces c v (if bool_decide (c ∈ spaces) then Some (leaf_frame e) else None)
    (st s (entry_addr t (pt_index v)) e).
Proof.
  intros [Hsp Hsm Hfr Hinj] Hc Ht Hnew. set (s' := st s _ e).
  destruct (leaf_write_spaces s spaces c v t e Hsp Hc Ht) as (Hsp' & Hl & _). fold s' in Hsp', Hl.
  destruct (leaf_write _ s c v t e (spaces_tables _ _ Hsp) (may_map_dom _ _ _ _ Hc) Ht) as (_ & Htop & Htab & _).
  fold s' in Htop, Htab.
  assert (Hm : forall r v' f, r ∈ spaces -> pml4_index v' < 256 -> maps_to s' r v' f <->
    if decide (r = c /\ vpage v' = vpage v) then leaf_frame e = Some f else maps_to s r v' f).
  { intros r v' f Hr Hv. unfold maps_to, leaf_frame. rewrite Hl by by apply user_dom.
    destruct (decide (r = c /\ path v' = path v /\ pt_index v' = pt_index v)) as [(Er & Ep & Ei)|Hne].
    - rewrite decide_True by (split; [done|by apply same_vpage]). clear.
      destruct (Z.land e VMM_PRESENT =? 0); (split; [intros (e' & [= <-] & <-)|intros [= <-]]); eauto.
    - rewrite decide_False; [done|]. intros (? & Hp%same_page_indices). tauto. }
  assert (Hnt : forall f, not_table s spaces f -> not_table s' spaces f).
  { intros f Hn r q Hq. rewrite Htab by done. by apply Hn. }
  split; [split| |..]; try done.
  - intros r v' Hr Hv q j rest T Ep HT.
    assert (node (space_dom (g_root_cr3 s) spaces) r (q ++ j :: rest)) as Hn
      by (rewrite <-Ep; by apply node_path, user_dom).
    pose proof (node_prefix _ _ _ _ Hn) as Hq. rewrite Htab in HT by done.
    rewrite (Htop r q); [by apply (Hsm r v' Hr Hv q j rest)|done|by eapply node_idx|done|].
    apply (f_equal length) in Ep. rewrite length_app in Ep. cbn in Ep. lia.
  - intros r v' f Hr Hv Hmf. rewrite Hm in Hmf by done. destruct (decide _) as [[-> _]|].
    + destruct (Hnew f Hr Hmf) as [? ? ? ? _]. auto.
    + destruct (Hfr r v' f Hr Hv Hmf) as (?&?&?&?). auto.
  - intros r v1 r' v2 f Hr Hr' Hv1 Hv2 Hm1 Hm2. rewrite Hm in Hm1, Hm2 by done.
    destruct (decide (r = c /\ _)) as [[-> E1]|]; destruct (decide (r' = c /\ _)) as [[-> E2]|].
    + split; [done|congruence].
    + destruct (ff_only _ _ _ _ _ (Hnew f Hr Hm1) r' v2 Hr' Hv2 Hm2) as [-> E2]. split; [done|congruence].
    + destruct (ff_only _ _ _ _ _ (Hnew f Hr' Hm2) r v1 Hr Hv1 Hm1) as [-> E1]. split; [done|congruence].
    + by apply (Hinj r v1 r' v2 f).
  - intros r v' f Hr Hv. rewrite Hm by done. case_bool_decide as Hcs; [done|].
    rewrite decide_False; [done|]. intros [-> _]. done.
  - intros a b f [H1 H2 H3 H4 H5] Hne. split; auto. intros r' v' Hr Hv Hmf. rewrite Hm in Hmf by done.
    destruct (decide _) as [[-> _]|]; [|auto]. rewrite bool_decide_eq_true_2 in Hne by done. congruence.
Qed.

Lemma pages_trans s s1 s2 spaces c v new :
  pages_step s spaces c v None s1 -> pages_step s1 spaces c v new s2 -> pages_step s spaces c v new s2.
Proof.
  intros [U1 (R1 & R2 & R3) A1 M1 F1] [U2 (R4 & R5 & R6) A2 M2 F2]. split; [done| | | |].
  - split_and!; congruence.
  - auto.
  - intros r v' f Hr Hv. rewrite M2 by done. specialize (M1 r v' f Hr Hv).
    destruct new; [destruct (decide _)|]; tauto.
  - auto.
Qed.

Lemma may_map_step s spaces c v new s' a b : pages_step s spaces c v new s' -> may_map s spaces a b -> may_map s' spaces a b.
Proof. intros Hs. unfold may_map. by rewrite (proj1 (ps_regs _ _ _ _ _ _ Hs)). Qed.

Lemma page_entry_frame f flags : page_aligned f -> 0 <= f < 2 ^ 52 -> Z.land flags PTE_ADDR_MASK = 0 ->
  leaf_frame (Z.lor (Z.lor (Z.land f PTE_ADDR_MASK) flags) VMM_PRESENT) = Some f.
Proof.
  intros Ha Hr Hf. unfold leaf_frame, frame_of. rewrite present_bit.
  rewrite !Z.land_lor_distr_l, Hf, <-Z.land_assoc, Z.land_diag, land_addr_mask by done.
  change (Z.land VMM_PRESENT PTE_ADDR_MASK) with 0. by rewrite !Z.lor_0_r.
Qed.

(** Mapping a frame fit for the page. *)
Lemma map_pages s spaces c v f flags rc s' :
  users_ok s spaces -> c ∈ spaces -> pml4_index v < 256 -> frame_for s spaces c v f ->
  Z.land flags PTE_ADDR_MASK = 0 -> vmm_map_page_in s c v f flags = (rc, s') ->
  pages_step s spaces c v (if rc =? 0 then Some (Some f) else None) s' /\ (rc = 0 -> v mod 4096 = 0).
Proof.
  intros Hok Hc Hv Hf Hfl E. split; [|intros ->; by eapply map_page_in_aligned].
  revert E. unfold vmm_map_page_in.
  assert (Hrefl : pages_step s spaces c v None s) by (split; try done; by auto).
  destruct (_ || _); [by intros [= <- <-]|].
  pose proof (user_may_map s spaces c v Hc Hv) as Hmm.
  destruct (walk_pt s c v true _) as [res s1] eqn:Ew.
  destruct (walk_pages _ _ _ _ _ _ _ _ Hok Hmm (uo_small _ _ Hok c v Hc Hv) Ew) as [W R].
  destruct res as [[a b]|]; [|by intros [= <- <-]]. destruct R as (t & Ht & -> & _). intros [= <- <-].
  destruct Hf as [Ha Hr ? ? ?] eqn:Ef. clear Ef. eapply pages_trans; [exact W|].
  pose proof (leaf_pages s1 spaces c v t (Z.lor (Z.lor (Z.land f PTE_ADDR_MASK) flags) VMM_PRESENT)
    (ps_users _ _ _ _ _ _ W) (may_map_step _ _ _ _ _ _ _ _ W Hmm) Ht) as L.
  rewrite page_entry_frame in L by (done || lia). rewrite bool_decide_eq_true_2 in L by done. apply L.
  intros g _ [= <-]. by apply (ps_frames _ _ _ _ _ _ W).
Qed.

(** Mapping a page of the kernel half in the root: no user page changes. *)
Lemma map_root_pages s spaces v phys flags rc s' :
  users_ok s spaces -> small s (g_root_cr3 s) (path v) ->
  vmm_map_page_in s (g_root_cr3 s) v phys flags = (rc, s') ->
  pages_step s spaces (g_root_cr3 s) v None s'.
Proof.
  intros Hok Hs. unfold vmm_map_page_in.
  assert (Hrefl : pages_step s spaces (g_root_cr3 s) v None s) by (split; try done; by auto).
  destruct (_ || _); [by intros [= <- <-]|].
  assert (Hmm : may_map s spaces (g_root_cr3 s) v) by by left.
  destruct (walk_pt s _ v true _) as [res s1] eqn:Ew.
  destruct (walk_pages _ _ _ _ _ _ _ _ Hok Hmm Hs Ew) as [W R].
  destruct res as [[a b]|]; [|by intros [= <- <-]]. destruct R as (t & Ht & -> & _). intros [= <- <-].
  eapply pages_trans; [exact W|].
  pose proof (leaf_pages s1 spaces (g_root_cr3 s) v t (Z.lor (Z.lor (Z.land phys PTE_ADDR_MASK) flags) VMM_PRESENT)
    (ps_users _ _ _ _ _ _ W) (may_map_step _ _ _ _ _ _ _ _ W Hmm) Ht) as L.
  rewrite bool_decide_eq_false_2 in L by apply (spaces_root _ _ (uo_spaces _ _ Hok)). apply L.
  intros f Hin. by destruct (spaces_root _ _ (uo_spaces _ _ Hok)).
Qed.

Lemma unmap_pages s spaces c v :
  users_ok s spaces -> c ∈ spaces -> pml4_index v < 256 ->
  pages_step s spaces c v (Some None) (vmm_unmap_page_in s c v).
Proof.
  intros Hok Hc Hv. unfold vmm_unmap_page_in. pose proof (user_may_map s spaces c v Hc Hv) as Hmm.
  destruct (walk_pt s c v false _) as [res s1] eqn:Ew.
  destruct (walk_pages _ _ _ _ _ _ _ _ Hok Hmm (uo_small _ _ Hok c v Hc Hv) Ew) as [W R].
  destruct res as [[a b]|].
  - destruct R as (t & Ht & -> & _). eapply pages_trans; [exact W|].
    pose proof (leaf_pages s1 spaces c v t 0 (ps_users _ _ _ _ _ _ W) (may_map_step _ _ _ _ _ _ _ _ W Hmm) Ht) as L.
    rewrite bool_decide_eq_true_2 in L by done. by apply L.
  - destruct W as [W1 W2 W3 W4 W5]. split; auto. intros r v' f Hr Hv'. rewrite W4 by done.
    destruct (decide _) as [[-> Hp]|]; [|done]. split; [|done]. intros (e & He & _).
    apply same_page_indices in Hp as [Hp _]. unfold lookup_pte in He. by rewrite Hp, R in He.
Qed.

Lemma translate_pages s spaces c v p s' :
  users_ok s spaces -> c ∈ spaces -> pml4_index v < 256 -> vmm_translate_in s c v = (p, s') ->
  pages_step s spaces c v None s' /\
  (if p =? 0 then forall f, ~ maps_to s c v f else maps_to s c v (Z.ldiff p 0xFFF) /\ p = Z.ldiff p 0xFFF + v mod 4096).
Proof.
  intros Hok Hc Hv E. pose proof (user_may_map s spaces c v Hc Hv) as Hmm.
  destruct (translate_in_lookup _ _ _ _ _ _ (uo_spaces _ _ Hok) Hmm (uo_small _ _ Hok c v Hc Hv) E) as (_ & _ & _ & Ep).
  split.
  - revert E. unfold vmm_translate_in. destruct (walk_pt s c v false _) as [res s1] eqn:Ew.
    destruct (walk_pages _ _ _ _ _ _ _ _ Hok Hmm (uo_small _ _ Hok c v Hc Hv) Ew) as [W _].
    destruct res as [[a b]|]; [destruct (_ =? 0)|]; by intros [= _ <-].
  - destruct (lookup_pte (pmem s) c v) as [e|] eqn:El.
    2: { subst p. cbn. intros f (e & E' & _). congruence. }
    assert (maps_to s c v (frame_of e)) as Hm by (by exists e).
    destruct (uo_frame _ _ Hok c v _ Hc Hv Hm) as (Ha & Hr & _).
    rewrite land_page_mask, lor_page_offset in Ep by (done || apply Z.mod_pos_bound; lia).
    fold (frame_of e) in Ep. pose proof (Z.mod_pos_bound v 4096 ltac:(lia)).
    assert (Z.ldiff p 0xFFF = frame_of e) as ->.
    { change 0xFFF with (Z.ones 12). rewrite Z.ldiff_ones_r, Z.shiftr_div_pow2, Z.shiftl_mul_pow2 by lia.
      unfold page_aligned in Ha. subst p. change (2 ^ 12) with 4096. divlia. }
    destruct (Z.eqb_spec p 0); [lia|]. done.
Qed.

(** A frame that no page refers to may go back to the pool. *)
Lemma free_pages s spaces f :
  users_ok s spaces -> page_aligned f -> 0 <= f -> not_table s spaces f ->
  (forall r v, r ∈ spaces -> pml4_index v < 256 -> ~ maps_to s r v f) ->
  users_ok (with_pool s (fp_free (pool s) f)) spaces.
Proof.
  intros [[Ht Hk Hr] Hsm Hfr Hinj] Ha H0 Hnt Hun. pose proof (tables_pool _ _ Ht) as Hinv.
  destruct (fp_free_spec (pool s) f Hinv Ha H0) as (Hinv' & _ & Hav).
  split; [split; [|done..]| |..]; try done.
  - destruct Ht as [_ Hg Hi]. split; [done| |done]. intros r p t Hn Htab.
    destruct (Hg r p t Hn Htab) as (?&?&?). split_and!; try done; try lia.
    cbn. intros [?| ->]%Hav; [done|]. by apply (Hnt r p).
  - intros r v g Hrs Hv Hm. destruct (Hfr r v g Hrs Hv Hm) as (?&?&?&?). split_and!; try done; try lia.
    cbn. intros [?| ->]%Hav; [done|]. by apply (Hun r v).
Qed.

(** The frame of a page fits for that page. *)
Lemma mapped_frame s spaces c v f :
  users_ok s spaces -> c ∈ spaces -> pml4_index v < 256 -> maps_to s c v f -> frame_for s spaces c v f.
Proof.
  intros Hok Hc Hv Hm. destruct (uo_frame _ _ Hok c v f Hc Hv Hm) as (?&?&?&?). split; try done.
  intros r' v' Hr Hv' Hm'. by apply (uo_inj _ _ Hok r' v' c v f).
Qed.

Lemma maps_fun s r v f g : maps_to s r v f -> maps_to s r v g -> f = g.
Proof. intros (e & He & <-) (e' & He' & <-). congruence. Qed.

Lemma ldiff_page f : page_aligned f -> 0 <= f -> Z.ldiff f 0xFFF = f.
Proof.
  intros Ha H0. change 0xFFF with (Z.ones 12). rewrite Z.ldiff_ones_r, Z.shiftr_div_pow2, Z.shiftl_mul_pow2 by lia.
  unfold page_aligned in Ha. change (2 ^ 12) with 4096. divlia.
Qed.

Lemma clone_regs s c s' : vmm_space_clone s = (c, s') -> g_cr3 s' = g_cr3 s /\ hw_cr3 s' = hw_cr3 s.
Proof.
  unfold vmm_space_clone, pmm_alloc. destruct (fp_alloc (pool s)) as [p pl].
  destruct (p =? 0); [by intros [= _ <-]|]. intros [_ <-]%pair_equal_spec.
  generalize (zseq 256 256). intros l.
  assert (forall s0 : vmm P, let s1 := fold_left (fun s i => st s (entry_addr p i) (ld s (entry_addr (g_root_cr3 s) i))) l s0 in
    g_cr3 s1 = g_cr3 s0 /\ hw_cr3 s1 = hw_cr3 s0) as Hl.
  { induction l as [|i l IH]; intros s0; [done|]. cbn [fold_left]. apply (IH (st s0 _ _)). }
  apply (Hl (clear_page (with_pool s pl) p)).
Qed.

(** A new space has no user pages. *)
Lemma clone_pages s spaces c s' :
  users_ok s spaces -> vmm_space_clone s = (c, s') -> c <> 0 ->
  users_ok s' (c :: spaces) /\ c ∉ spaces /\
  (g_root_cr3 s' = g_root_cr3 s /\ g_cr3 s' = g_cr3 s /\ hw_cr3 s' = hw_cr3 s) /\
  (forall r v f, r ∈ spaces -> pml4_index v < 256 -> maps_to s' r v f <-> maps_to s r v f) /\
  (forall v f, pml4_index v < 256 -> ~ maps_to s' c v f).
Proof.
  intros [Hsp Hsm Hfr Hinj] E Hc0.
  destruct (clone_lookup _ _ _ _ Hsp E Hc0) as (Hsp' & Er & Hcs & Hl & Hnone & _ & _ & _).
  destruct (clone_entries _ _ _ _ Hsp E Hc0) as (_ & _ & Hav & Hfresh & _ & _ & Hother & Hlow & _).
  destruct (clone_tables _ _ _ _ Hsp E Hc0) as (Hgood & Hold & Hnew).
  assert (Hm : forall r v f, r ∈ spaces -> pml4_index v < 256 -> maps_to s' r v f <-> maps_to s r v f).
  { intros r v f Hr Hv. unfold maps_to. by rewrite Hl by by apply user_dom. }
  assert (Hno : forall v f, pml4_index v < 256 -> ~ maps_to s' c v f).
  { intros v f Hv (e & He & _). by rewrite Hnone in He. }
  assert (Hdec : forall r v f, r ∈ c :: spaces -> pml4_index v < 256 -> maps_to s' r v f -> r ∈ spaces /\ maps_to s r v f).
  { intros r v f [->|Hr]%elem_of_cons Hv Hmf; [by destruct (Hno v f)|]. split; [done|]. by apply Hm. }
  split_and!; try done; [split| |].
  - done.
  - intros r v Hr Hv q j rest t Ep Ht.
    assert (node (space_dom (g_root_cr3 s) (c :: spaces)) r (q ++ j :: rest)) as Hn
      by (rewrite <-Ep; by apply node_path, user_dom).
    pose proof (node_idx _ _ _ _ _ Hn) as Hj. pose proof (node_prefix _ _ _ _ Hn) as Hq.
    destruct (Hnew r q Hq) as [[Hrc Ho]|[-> [->|?]]]; [| |congruence].
    + apply elem_of_cons in Hr as [?|Hr]; [done|]. rewrite Hold in Ht by done.
      destruct (Hgood r q t Ho Ht) as [? ?]. rewrite Hother by done. by apply (Hsm r v Hr Hv q j rest).
    + injection Ht as <-. cbn in Ep. injection Ep as <- _. destruct Hj as [? _]. by rewrite Hlow.
  - intros r v f Hr Hv Hmf. destruct (Hdec r v f Hr Hv Hmf) as [Hr' Hm']. destruct (Hfr r v f Hr' Hv Hm') as (?&?&Ha&Hnt).
    split_and!; try done; try lia; [rewrite Hav; tauto|].
    intros r' p Hn Ht. rewrite Er in Hn. destruct (Hnew r' p Hn) as [[_ Ho]|[-> [->|?]]]; [| |congruence].
    + rewrite Hold in Ht by done. by apply (Hnt r' p).
    + by injection Ht as <-.
  - intros r v r' v' f Hr Hr' Hv Hv' H1 H2. destruct (Hdec r v f), (Hdec r' v' f); try done. by apply (Hinj r v r' v' f).
  - by apply (clone_regs s c).
  - by apply (clone_regs s c).
Qed.

(** Memory outside of the page tables may change freely. *)
Lemma words_users s m spaces :
  users_ok s spaces ->
  (forall r p t j, node (space_dom (g_root_cr3 s) spaces) r p -> table_at (pmem s) r p = Some t -> idx j ->
     m (entry_addr t j) = pmem s (entry_addr t j)) ->
  pages_step s spaces 0 0 None (with_pmem s m).
Proof.
  intros [Hsp Hsm Hfr Hinj] Hw. destruct Hsp as [Ht Hk Hr].
  assert (Htab : forall r q, node (space_dom (g_root_cr3 s) spaces) r q -> table_at m r q = table_at (pmem s) r q).
  { intros r q. induction q as [|j q IH] using rev_ind; intros Hn; [done|].
    pose proof (node_prefix _ _ _ _ Hn) as Hq. rewrite !table_at_snoc, IH by done.
    destruct (table_at (pmem s) r q) as [t|] eqn:E; cbn [mbind option_bind]; [|done].
    rewrite (Hw r q t j); [done..|]. by eapply (node_idx _ _ q j []). }
  assert (Hm : forall r v f, r ∈ spaces -> pml4_index v < 256 -> maps_to (with_pmem s m) r v f <-> maps_to s r v f).
  { intros r v f Hrs Hv. unfold maps_to, lookup_pte. cbn [pmem with_pmem].
    pose proof (node_path _ _ _ (user_dom s _ _ _ Hrs Hv)) as Hn. rewrite Htab by done.
    destruct (table_at (pmem s) r (path v)) as [t|] eqn:E; cbn [mbind option_bind]; [|done].
    by rewrite (Hw r (path v) t) by auto with tus. }
  assert (Hnt : forall f, not_table s spaces f -> not_table (with_pmem s m) spaces f).
  { intros f Hn r p Hnode. cbn. rewrite Htab by done. by apply Hn. }
  split; [split; [split|..]| |..]; try done.
  - destruct Ht as [Hp Hg Hi]. split; [done|..]; cbn [pmem with_pmem pool].
    + intros r p t Hn. rewrite Htab by done. by apply Hg.
    + intros r p r' p' t Hn Hn'. rewrite !Htab by done. by apply Hi.
  - intros r k t Hin Hki. cbn [pmem with_pmem g_root_cr3].
    assert (forall r', r' = g_root_cr3 s \/ r' ∈ spaces -> m (entry_addr r' k) = pmem s (entry_addr r' k)) as Htop.
    { intros r' Hr'. apply (Hw r' []); [by apply space_node|done|unfold idx; lia]. }
    rewrite !Htop by auto. by apply Hk.
  - intros r v Hrs Hv q j rest t Ep HT. cbn [pmem with_pmem] in *.
    assert (node (space_dom (g_root_cr3 s) spaces) r (q ++ j :: rest)) as Hn
      by (rewrite <-Ep; by apply node_path, user_dom).
    pose proof (node_prefix _ _ _ _ Hn) as Hq. rewrite Htab in HT by done.
    rewrite (Hw r q t j Hq HT) by (by eapply node_idx). by apply (Hsm r v Hrs Hv q j rest).
  - intros r v f Hrs Hv Hmf%Hm; [|done..]. destruct (Hfr r v f Hrs Hv Hmf) as (?&?&?&?). auto.
  - intros r v r' v' f Hrs Hrs' Hv Hv' H1%Hm H2%Hm; [|done..]. by apply (Hinj r v r' v' f).
  - intros a b f [H1 H2 H3 H4 H5] _. split; auto. intros r' v' Hr' Hv' Hmf%Hm; auto.
Qed.

Lemma clear_users s spaces c v f : users_ok s spaces -> frame_for s spaces c v f ->
  pages_step s spaces 0 0 None (clear_page s f).
Proof.
  intros Hok [Ha Hr _ Hnt _]. apply words_users; [done|]. intros r p t j Hn Ht Hj. apply fill_out, entry_in_page; try done.
  - by destruct (tables_good _ _ (spaces_tables _ _ (uo_spaces _ _ Hok)) r p t Hn Ht).
  - intros ->. by apply (Hnt r p).
Qed.
End Users.

(** ** The processor's view *)

Section Access.
Context {P H : Type} `{FramePool P}.
Implicit Types k : kern P H.

(** The frame behind an address of the user half in the space [r]; [None] is
    a page fault. Addresses of the kernel half are not part of this view. *)
Definition mmu k (r va : Z) : option Z :=
  if (0 <=? va) && (va <? 2 ^ 47) then e ← lookup_pte (pmem (k_vmm k)) r va; Some (frame_of e) else None.

Definition user_byte k (r va : Z) : option Z :=
  f ← mmu k r va; Some (byte_at (k_frames k f) (va mod 4096)).

(** Accesses in the current space. *)
Definition poke k (va b : Z) : option (kern P H) :=
  f ← mmu k (hw_cr3 (k_vmm k)) va;
  Some (with_frames k (fun a => if a =? f then <[Z.to_nat (va mod 4096) := b]> (k_frames k f) else k_frames k a)).

Fixpoint user_store k (va : Z) (l : list Z) : option (kern P H) :=
  match l with
  | [] => Some k
  | b :: l' => k' ← poke k va b; user_store k' (va + 1) l'
  end.

Definition user_load k (va n : Z) : option (list Z) :=
  mapM (user_byte k (hw_cr3 (k_vmm k))) (zseq va (Z.to_nat n)).

Record mem_ok k (spaces : list Z) : Prop := MemOk {
  mo_users : users_ok (k_vmm k) spaces;
  mo_frames : frames_ok k;
}.

Lemma user_half_index v : user_half v -> pml4_index v < 256.
Proof.
  intros Hv. unfold user_half in Hv. unfold pml4_index. pose proof (index_of_page v 27 ltac:(lia)) as E.
  change (12 + 27) with 39 in E. rewrite E. divlia.
Qed.

Lemma user_half_vpage v : user_half v -> vpage v = v / 4096.
Proof. unfold user_half, vpage. intros. divlia. Qed.

Lemma mmu_maps k r va f : user_half va -> mmu k r va = Some f <-> maps_to (k_vmm k) r va f.
Proof.
  intros Hv. unfold mmu, maps_to, user_half in *. rewrite (proj2 (andb_true_iff _ _)) by lia.
  destruct (lookup_pte _ r va) as [e|]; cbn; [|naive_solver]. split; [intros [= <-]; eauto|intros (e' & [= <-] & <-); done].
Qed.

Lemma mmu_half k r va f : mmu k r va = Some f -> user_half va.
Proof. unfold mmu, user_half. destruct (_ && _) eqn:E; [lia|done]. Qed.

Lemma user_byte_half k r va b : user_byte k r va = Some b -> user_half va.
Proof. unfold user_byte. destruct (mmu k r va) eqn:E; [|done]. intros _. by eapply mmu_half. Qed.

(** Writing one byte changes it, in its space, and no other byte of any. *)
Lemma poke_spec k spaces va b :
  mem_ok k spaces -> hw_cr3 (k_vmm k) ∈ spaces -> is_Some (user_byte k (hw_cr3 (k_vmm k)) va) ->
  exists fr, poke k va b = Some (with_frames k fr) /\ mem_ok (with_frames k fr) spaces /\
    forall r va', r ∈ spaces -> user_byte (with_frames k fr) r va' =
      if decide (r = hw_cr3 (k_vmm k) /\ va' = va) then Some b else user_byte k r va'.
Proof.
  intros [Hu Hf] Hc [b0 Hb]. unfold user_byte in Hb. unfold poke.
  destruct (mmu k _ va) as [f|] eqn:Ef; [|done]. pose proof (mmu_half _ _ _ _ Ef) as Hh.
  eexists. split; [done|]. split.
  - split; [done|]. intros a. cbn. unfold zlen. destruct (Z.eqb_spec a f); [rewrite length_insert|]; apply Hf.
  - intros r va' Hr. unfold user_byte. change (mmu (with_frames k _) r va') with (mmu k r va').
    destruct (mmu k r va') as [f'|] eqn:Ef'; cbn [mbind option_bind].
    2: { rewrite decide_False; [done|]. intros [-> ->]. congruence. }
    pose proof (mmu_half _ _ _ _ Ef') as Hh'. cbn [k_frames with_frames].
    destruct (Z.eqb_spec f' f) as [->|Hne].
    + apply mmu_maps in Ef, Ef'; try done.
      destruct (uo_inj _ _ Hu _ _ _ _ _ Hr Hc (user_half_index _ Hh') (user_half_index _ Hh) Ef' Ef) as [-> Hp].
      rewrite !user_half_vpage in Hp by done. unfold byte_at. rewrite !nth_lookup.
      destruct (decide (_ /\ va' = va)) as [[_ ->]|Hne].
      * rewrite list_lookup_insert_eq; [done|]. pose proof (Hf f) as Hlen. unfold zlen in Hlen. divlia.
      * rewrite list_lookup_insert_ne; [done|]. assert (va' <> va) by tauto. divlia.
    + rewrite decide_False; [done|]. intros [-> ->]. congruence.
Qed.

Lemma user_store_spec spaces l : forall k va,
  mem_ok k spaces -> hw_cr3 (k_vmm k) ∈ spaces ->
  (forall x, va <= x < va + zlen l -> is_Some (user_byte k (hw_cr3 (k_vmm k)) x)) ->
  exists fr, user_store k va l = Some (with_frames k fr) /\ mem_ok (with_frames k fr) spaces /\
    forall r x, r ∈ spaces -> user_byte (with_frames k fr) r x =
      if decide (r = hw_cr3 (k_vmm k) /\ va <= x < va + zlen l) then Some (byte_at l (x - va)) else user_byte k r x.
Proof.
  induction l as [|b l IH]; intros k va Hok Hc Hm; cbn [user_store].
  { exists (k_frames k). destruct k. split_and!; [done..|]. intros r x Hr. rewrite decide_False; [done|]. unfold zlen. cbn. lia. }
  assert (zlen (b :: l) = 1 + zlen l) as Hlen by (unfold zlen; cbn [length]; lia). pose proof (zlen_nonneg l).
  destruct (poke_spec k spaces va b Hok Hc) as (fr & -> & Hok1 & Hb1); [apply Hm; lia|]. cbn [mbind option_bind].
  destruct (IH (with_frames k fr) (va + 1) Hok1 Hc) as (fr2 & -> & Hok2 & Hb2).
  { intros x Hx. change (hw_cr3 (k_vmm (with_frames k fr))) with (hw_cr3 (k_vmm k)). rewrite Hb1 by done.
    destruct (decide _); [done|]. apply Hm. lia. }
  exists fr2. split_and!; [done..|]. intros r x Hr.
  change (with_frames k fr2) with (with_frames (with_frames k fr) fr2). rewrite Hb2, Hb1 by done. cbn [k_vmm k_heap with_frames].
  destruct (decide (r = _ /\ va + 1 <= x < _)) as [[-> Hx]|Hx].
  - rewrite decide_True by (split; [done|lia]). f_equal. unfold byte_at.
    replace (Z.to_nat (x - va)) with (S (Z.to_nat (x - (va + 1)))) by lia. done.
  - destruct (decide (r = _ /\ x = va)) as [[-> ->]|Hx2].
    + rewrite decide_True by (split; [done|lia]). by rewrite Z.sub_diag.
    + rewrite decide_False; [done|]. intros [-> ?]. assert (x <> va) by tauto. assert (~ va + 1 <= x < va + 1 + zlen l) by tauto. lia.
Qed.

Lemma user_load_spec k va n l : user_load k va n = Some l -> 0 <= n ->
  zlen l = n /\ forall i, 0 <= i < n -> user_byte k (hw_cr3 (k_vmm k)) (va + i) = Some (byte_at l i).
Proof.
  unfold user_load. intros E%mapM_Some Hn. pose proof (Forall2_length _ _ _ E) as Hlen. rewrite length_zseq in Hlen.
  split; [unfold zlen; lia|]. intros i Hi.
  assert (zseq va (Z.to_nat n) !! Z.to_nat i = Some (va + i)) as Hz.
  { destruct (zseq va (Z.to_nat n) !! Z.to_nat i) as [x|] eqn:Ex.
    - rewrite <-(nth_lookup_Some _ _ 0 _ Ex), nth_zseq by lia. f_equal. lia.
    - apply lookup_ge_None in Ex. rewrite length_zseq in Ex. lia. }
  destruct (Forall2_lookup_l _ _ _ _ _ E Hz) as (b & Hb & Hu).
  unfold byte_at. by rewrite (nth_lookup_Some _ _ 0 _ Hb).
Qed.

(** Page table operations keep the bytes of the pages they keep. *)
Lemma step_bytes k spaces c v new v' :
  pages_step (k_vmm k) spaces c v new v' ->
  forall r va, r ∈ spaces -> user_half va ->
    user_byte (with_vmm k v') r va =
      match new with
      | Some g => if decide (r = c /\ vpage va = vpage v)
                  then f ← g; Some (byte_at (k_frames k f) (va mod 4096)) else user_byte k r va
      | None => user_byte k r va
      end.
Proof.
  intros Hs r va Hr Hva. unfold user_byte. cbn [k_frames with_vmm with_heap].
  assert (Hm : forall f, mmu (with_vmm k v') r va = Some f <->
    match new with Some g => if decide (r = c /\ vpage va = vpage v) then g = Some f else mmu k r va = Some f
    | None => mmu k r va = Some f end).
  { intros f. rewrite mmu_maps by done. rewrite (ps_maps _ _ _ _ _ _ Hs) by (done || by apply user_half_index).
    destruct new; [destruct (decide _)|]; [done|..]; by rewrite mmu_maps by done. }
  assert (forall (x y : option Z), (forall f, x = Some f <-> y = Some f) -> x = y) as Hext.
  { intros [a|] y Hxy; [symmetry; by apply Hxy|]. destruct y as [b|]; [|done]. by apply Hxy. }
  destruct new as [g|]; [destruct (decide _)|]; by rewrite (Hext _ _ Hm).
Qed.

Lemma step_mem_ok k spaces c v new v' : mem_ok k spaces -> pages_step (k_vmm k) spaces c v new v' -> mem_ok (with_vmm k v') spaces.
Proof. intros [Hu Hf] Hs. split; [apply Hs|done]. Qed.

Lemma user_byte_out k r va : ~ user_half va -> user_byte k r va = None.
Proof. intros Hn. destruct (user_byte k r va) eqn:E; [|done]. by apply user_byte_half in E. Qed.

Lemma step_same_bytes k spaces c v v' : pages_step (k_vmm k) spaces c v None v' ->
  forall r va, r ∈ spaces -> user_byte (with_vmm k v') r va = user_byte k r va.
Proof.
  intros Hs r va Hr. destruct (decide (0 <= va < 2 ^ 47)) as [Hh|Hh]; [by apply (step_bytes _ _ _ _ _ _ Hs)|].
  by rewrite !user_byte_out.
Qed.

(** [memset] of the frame [f] through the direct map. *)
Definition zero_frame k (f : Z) : kern P H :=
  with_frames (with_vmm k (clear_page (k_vmm k) f)) (fun a => if a =? f then replicate 4096 0 else k_frames k a).

Lemma zero_frame_spec k spaces c v f :
  mem_ok k spaces -> frame_for (k_vmm k) spaces c v f ->
  mem_ok (zero_frame k f) spaces /\
  pages_step (k_vmm k) spaces 0 0 None (k_vmm (zero_frame k f)) /\
  ((forall r va, r ∈ spaces -> pml4_index va < 256 -> ~ maps_to (k_vmm k) r va f) ->
   forall r va, r ∈ spaces -> user_byte (zero_frame k f) r va = user_byte k r va).
Proof.
  intros [Hu Hf] Hff. pose proof (clear_users _ _ _ _ _ Hu Hff) as Hs. split_and!; [split| |].
  - apply Hs.
  - intros a. cbn. destruct (a =? f); [done|apply Hf].
  - done.
  - intros Hun r va Hr. rewrite <-(step_same_bytes _ _ _ _ _ Hs r va Hr). unfold user_byte.
    change (mmu (zero_frame k f) r va) with (mmu (with_vmm k (clear_page (k_vmm k) f)) r va).
    destruct (mmu (with_vmm k _) r va) as [g|] eqn:E; cbn [mbind option_bind]; [|done].
    pose proof (mmu_half _ _ _ _ E) as Hh. pose proof (user_half_index _ Hh) as Hi. apply mmu_maps in E; [|done].
    apply (ps_maps _ _ _ _ _ _ Hs) in E; [|done..]. cbn. destruct (Z.eqb_spec g f) as [->|]; [|done].
    by destruct (Hun r va Hr Hi).
Qed.

(** The state but for page tables and frames, and the registers. *)
Record same_rest k k' : Prop := SameRest {
  sr_rest : with_frames (with_vmm k' (k_vmm k)) (k_frames k) = k;
  sr_regs : g_root_cr3 (k_vmm k') = g_root_cr3 (k_vmm k) /\ g_cr3 (k_vmm k') = g_cr3 (k_vmm k) /\
            hw_cr3 (k_vmm k') = hw_cr3 (k_vmm k);
}.

Lemma same_rest_refl k : same_rest k k.
Proof. split; [|done]. by destruct k as [[] ? ? ? ? ? ? ?]. Qed.

Lemma same_rest_trans k1 k2 k3 : same_rest k1 k2 -> same_rest k2 k3 -> same_rest k1 k3.
Proof.
  intros [E1 (A1 & B1 & C1)] [E2 (A2 & B2 & C2)]. split; [|split_and!; congruence].
  rewrite <-E1 at 3. rewrite <-E2 at 1. by destruct k3 as [[] ? ? ? ? ? ? ?].
Qed.

Lemma same_rest_step k spaces c v new v' : pages_step (k_vmm k) spaces c v new v' -> same_rest k (with_vmm k v').
Proof. intros Hs. split; [|apply Hs]. by destruct k as [[] ? ? ? ? ? ? ?]. Qed.

(** A fresh page of zeros at [va], as [map_stack] and [sys_mmap] add it. *)
Lemma zero_page_spec k spaces cr3 va f v1 rc v3 :
  mem_ok k spaces -> cr3 ∈ spaces -> user_half va -> pmm_alloc (k_vmm k) = (f, v1) -> f <> 0 ->
  let k2 := zero_frame (with_vmm k v1) f in
  vmm_map_page_in (k_vmm k2) cr3 va f PAGE_FLAGS = (rc, v3) ->
  let k3 := with_vmm k2 v3 in
  mem_ok k3 spaces /\ same_rest k k3 /\
  pages_step (k_vmm k) spaces cr3 va (if rc =? 0 then Some (Some f) else None) v3 /\
  (rc = 0 -> va mod 4096 = 0) /\ (rc <> 0 -> frame_for v3 spaces cr3 va f) /\
  (forall r x, r ∈ spaces -> user_byte k3 r x =
     if decide (rc = 0 /\ r = cr3 /\ va <= x < va + 4096 /\ x < 2 ^ 47) then Some 0 else user_byte k r x).
Proof.
  intros Hk Hc Hva Ea Hf0 k2 Em k3. pose proof (user_half_index _ Hva) as Hi.
  destruct (alloc_users _ _ _ _ (mo_users _ _ Hk) Ea) as (Hu1 & Ev1 & Hav & Hfr & Hkeep).
  destruct (Hfr Hf0) as [Hfav Hff]. specialize (Hff cr3 va).
  assert (mem_ok (with_vmm k v1) spaces) as Hk1 by (split; [done|apply Hk]).
  destruct (zero_frame_spec (with_vmm k v1) spaces cr3 va f Hk1 Hff) as (Hk2 & S2 & Hb2). fold k2 in Hk2, S2, Hb2.
  assert (Hun : forall r x, r ∈ spaces -> pml4_index x < 256 -> ~ maps_to v1 r x f).
  { intros r x Hr Hx Hm. rewrite Ev1 in Hm. by destruct (uo_frame _ _ (mo_users _ _ Hk) r x f Hr Hx Hm) as (_ & _ & ? & _). }
  specialize (Hb2 Hun). pose proof (ps_frames _ _ _ _ _ _ S2 cr3 va f Hff ltac:(done)) as Hff2.
  destruct (map_pages _ _ _ _ _ PAGE_FLAGS _ _ (mo_users _ _ Hk2) Hc Hi Hff2 eq_refl Em) as [S3 Hal].
  assert (pages_step (k_vmm k) spaces cr3 va None (k_vmm k2)) as S12.
  { destruct S2 as [U2 R2 A2 M2 F2]. split; [done|by rewrite Ev1 in R2| | |].
    - intros q Hq%A2. by apply Hav in Hq as [? _].
    - intros r x g Hr Hx. rewrite M2 by done. cbn. by rewrite Ev1.
    - intros a b g Hg _. apply F2; [by apply Hkeep|done]. }
  pose proof (pages_trans _ _ _ _ _ _ _ S12 S3) as S.
  split_and!; [by eapply step_mem_ok| |done|done| |].
  - split; [by destruct k as [[] ? ? ? ? ? ? ?]|apply S].
  - intros Hrc. apply (ps_frames _ _ _ _ _ _ S3 cr3 va f Hff2). by rewrite (proj2 (Z.eqb_neq rc 0)) by done.
  - intros r x Hr. assert (user_byte k2 r x = user_byte k r x) as Hold.
    { rewrite Hb2 by done. unfold user_byte, mmu. cbn. rewrite Ev1. done. }
    destruct (decide (0 <= x < 2 ^ 47)) as [Hh|Hh].
    2: { rewrite decide_False by (unfold user_half in *; lia). by rewrite !user_byte_out. }
    unfold k3. rewrite (step_bytes _ _ _ _ _ _ S3 r x Hr Hh). destruct (Z.eqb_spec rc 0) as [->|Hrc].
    2: { rewrite decide_False by tauto. exact Hold. }
    specialize (Hal eq_refl). destruct (decide (r = cr3 /\ vpage x = vpage va)) as [[-> Hp]|Hne].
    + rewrite !user_half_vpage in Hp by done. unfold user_half in Hva. rewrite decide_True by (split_and!; try done; try lia; divlia).
      cbn [mbind option_bind k_frames k2 zero_frame with_frames]. rewrite Z.eqb_refl. f_equal. apply byte_at_replicate. pose proof (Z.mod_pos_bound x 4096). lia.
    + rewrite decide_False; [exact Hold|]. intros (_ & -> & Hx & _). apply Hne. split; [done|].
      rewrite !user_half_vpage by done. unfold user_half in Hva. divlia.
Qed.
End Access.
