(* ===== verification/TusElf.v ===== *)
(** * Running programs (src/kernel/elf/tus_elf.c)

    The callbacks that connect the ELF library to the kernel (reads through
    the file system, segments in the address space of the new task), and the
    two ways to run a program: [elf_exec] starts a task for it, and
    [elf_exec_current] is the kernel part of execve.

    The library writes the segments with the new address space in CR3; these
    are the accesses of UserMem. The static variable [g_elf_fd] is set before
    every use, so it is a local of the two functions. [None] is an access to an
    unmapped page or to a freed object of the file system. *)

From stdpp Require Import base numbers list gmap.
From Stdlib Require Import ZArith Lia ZifyBool.
From S2P Require Import Prelude.
From S2P Require Import Interfaces.
From S2P Require Import Hardware.
From S2P Require Import Keyboard.
From S2P Require Import Klib.
From S2P Require Import Pmm.
From S2P Require Import Vmm.
From S2P Require Import VmmTables.
From S2P Require Import Kmalloc.
From S2P Require Import Pipe.
From S2P Require Import Vfs.
From S2P Require Import VfsFd.
From S2P Require Import VfsData.
From S2P Require Import Fb.
From S2P Require Import Devices.
From S2P Require Import Sched.
From S2P Require Import ElfLoad.
From S2P Require Import UserMem.

Definition EACCES : Z := 13.
Definition ENOEXEC : Z := 8.
Definition EXEC_STACK_SIZE : Z := 65536.
Definition EXEC_USER_STACK : Z := 0x60000000.

(** The numbers and the names of the statuses. *)
Definition status_num (st : el_status) : Z :=
  match st with
  | EL_OK => 0 | EL_EIO => 1 | EL_ENOMEM => 2 | EL_NOTELF => 3 | EL_WRONGBITS => 4 | EL_WRONGENDIAN => 5
  | EL_WRONGARCH => 6 | EL_WRONGOS => 7 | EL_NOTEXEC => 8 | EL_NODYN => 9 | EL_BADREL => 10
  end.

Definition status_name (st : el_status) : list Z :=
  match st with
  | EL_OK => bs "ok"
  | EL_EIO => bs "I/O error"
  | EL_ENOMEM => bs "out of memory"
  | EL_NOTELF => bs "not an ELF file"
  | EL_WRONGBITS => bs "wrong ELF class (need 64-bit)"
  | EL_WRONGENDIAN => bs "wrong endianness"
  | EL_WRONGARCH => bs "wrong architecture (need x86-64)"
  | EL_WRONGOS => bs "wrong OS ABI"
  | EL_NOTEXEC => bs "not a static executable (link with -static)"
  | EL_NODYN => bs "no dynamic segment"
  | EL_BADREL => bs "unsupported relocation"
  end.

(** What follows the last slash. *)
Fixpoint base_name (base p : list Z) : list Z :=
  match p with
  | [] => base
  | c :: p' => base_name (if c =? SLASH then p' else base) p'
  end.

(** The kernel during a load: [ctx->userdata] and the descriptor of the file. *)
Record loader (P H : Type) := Loader {
  ld_kern : kern P H;
  ld_cr3 : Z;
  ld_fd : Z;
}.
Arguments Loader {P H}.
Arguments ld_kern {P H}.
Arguments ld_cr3 {P H}.
Arguments ld_fd {P H}.

Section Exec.
Context {P H : Type} `{FramePool P} `{Ports H}.
Implicit Types k : kern P H.

Definition on_vfs {A} (m : M (option (dev H)) A) k : option (A * kern P H) :=
  '(x, v) ← m (k_vfs k); Some (x, with_vfs k v).

Definition tus_pread (l : loader P H) (nb offset : Z) : option (bool * list Z) :=
  '(n, b, _) ← vfs_pread (ld_fd l) true nb offset (k_vfs (ld_kern l));
  Some (n =? s64 nb, b).

(** The loop of [tus_alloc], [n] pages from [page] on; [false] for NULL. *)
Fixpoint alloc_pages (n : nat) (page cr3 : Z) k : bool * kern P H :=
  match n with
  | O => (true, k)
  | S n' =>
      let '(frame, v) := vmm_translate_in (k_vmm k) cr3 page in
      let k := with_vmm k v in
      let '(frame, v) := if frame =? 0 then pmm_alloc (k_vmm k) else (frame, k_vmm k) in
      let k := with_vmm k v in
      if frame =? 0 then (false, k)
      else
        let '(rc, v) := vmm_map_page_in (k_vmm k) cr3 page (Z.ldiff frame 0xFFF) PAGE_FLAGS in
        let k := with_vmm k v in
        if negb (rc =? 0) then (false, k) else alloc_pages n' (page + 4096) cr3 k
  end.

Definition page_count (first last : Z) : nat := Z.to_nat ((last - first) / 4096).

Definition tus_alloc (l : loader P H) (phys virt size : Z) : Z * loader P H :=
  let first := Z.ldiff virt 0xFFF in
  let last := Z.ldiff (u64 (u64 (virt + size) + 0xFFF)) 0xFFF in
  let '(ok, k) := alloc_pages (page_count first last) first (ld_cr3 l) (ld_kern l) in
  (if ok then virt else 0, Loader k (ld_cr3 l) (ld_fd l)).

#[export] Instance tus_host : ElfHost (loader P H) := {
  host_pread := tus_pread;
  host_alloc := tus_alloc;
  host_store l a b := k ← user_store (ld_kern l) a b; Some (Loader k (ld_cr3 l) (ld_fd l));
  host_zero l a n := k ← user_store (ld_kern l) a (replicate (Z.to_nat n) 0); Some (Loader k (ld_cr3 l) (ld_fd l));
  host_load l a n := user_load (ld_kern l) a n;
}.

Definition elf_error k (what : list Z) (st : el_status) : option (kern P H) :=
  kprintf k (bs "%s: %s (%d)" ++ [10]) [VaStr (Some what); VaStr (Some (status_name st)); VaInt (status_num st)].

Definition new_ctx : el_ctx := ElCtx 0 0 0 0 (parse_ehdr []) 0 0.

(** The x bits, [0111]. *)
Definition executable (n : vfs_node) : bool := negb (Z.land (n_mode n) 73 =? 0).

(** Lookup of the program and its mode; [false] is the refusal. *)
Definition may_exec (path : list Z) : M (option (dev H)) bool :=
  node ← vfs_lookup path;
  if node =? 0 then mret false else n ← get_node node; mret (executable n).

(** Closing the file and returning [err]. *)
Definition close_with k (fd err : Z) : option (Z * kern P H) :=
  '(_, k) ← on_vfs (vfs_close fd) k; Some (err, k).

(** The way out once the new address space is active. *)
Definition leave_space k : kern P H :=
  preempt_enable (with_vmm k (vmm_space_switch (k_vmm k) (vmm_root_cr3 (k_vmm k)))).

Definition elf_exec k (path : option (list Z)) (argv : list (option (list Z))) : option (Z * kern P H) :=
  match path with
  | None => Some (- EINVAL, k)
  | Some path =>
      '(fd, k) ← on_vfs (vfs_open (Some path) O_RDONLY) k;
      if fd <? 0 then
        k ← kprintf k (bs "exec: cannot open %s" ++ [10]) [VaStr (Some path)]; Some (fd, k)
      else
        '(ok, k) ← on_vfs (may_exec path) k;
        if negb ok then
          k ← kprintf k (bs "exec: permission denied: %s" ++ [10]) [VaStr (Some path)];
          close_with k fd (- EACCES)
        else
          '(st, ctx) ← el_init (Loader k 0 fd) new_ctx;
          if negb (bool_decide (st = EL_OK)) then
            k ← elf_error k (bs "exec") st;
            close_with k fd (- ENOEXEC)
          else
            let '(cr3, v) := vmm_space_clone (k_vmm k) in
            let k := with_vmm k v in
            if cr3 =? 0 then
              k ← kprintf k (bs "exec: cannot allocate address space" ++ [10]) [];
              close_with k fd (- ENOMEM)
            else
              let k := preempt_disable k in
              let k := with_vmm k (vmm_space_switch (k_vmm k) cr3) in
              '(st, l) ← el_load (Loader k cr3 fd) ctx;
              let k := ld_kern l in
              if negb (bool_decide (st = EL_OK)) then
                k ← elf_error k (bs "exec") st;
                let k := leave_space k in
                close_with k fd (- ENOMEM)
              else
                '(pid, k) ← task_create_user k (e_entry (ehdr ctx)) path cr3 argv;
                let k := leave_space k in
                if pid <? 0 then
                  k ← kprintf k (bs "exec: cannot create task for %s" ++ [10]) [VaStr (Some path)];
                  close_with k fd (- ENOMEM)
                else
                  '(_, k) ← on_vfs (vfs_close fd) k;
                  k ← kprintf k (bs "exec: %s started as pid %d (entry 0x%llx, ring 3, cr3 0x%llx)" ++ [10])
                        [VaStr (Some path); VaInt pid; VaInt (e_entry (ehdr ctx)); VaInt cr3];
                  Some (pid, k)
  end.

(** ** execve *)

(** The initial RSP, or 0. The pages and the layout are those of
    [task_create_user], repeated in the source. *)
Definition exec_build_stack k (cr3 : Z) (name : list Z) (argv : list (option (list Z))) : Z * kern P H :=
  match map_stack (Z.to_nat (EXEC_STACK_SIZE / 4096)) 0 cr3 k with
  | (false, k) => (0, k)
  | (true, k) =>
      let page_va := EXEC_USER_STACK + EXEC_STACK_SIZE - 4096 in
      let '(top_frame, v) := vmm_translate_in (k_vmm k) cr3 page_va in
      let k := with_vmm k v in
      if top_frame =? 0 then (0, k)
      else
        match build_stack page_va (k_frames k top_frame) (stack_args name argv) with
        | None => (0, k)
        | Some (page, init) =>
            (page_va + init, with_frames k (fun a => if a =? top_frame then page else k_frames k a))
        end
  end.

(** The fields of the task that the new image resets. *)
Definition exec_task (t : task) (cr3 : Z) (path : list Z) : task :=
  Task (t_pid t) (t_state t) (task_name (base_name path path)) (t_kstack t) (t_kstack_top t) (t_rsp t)
    EXEC_USER_STACK (EXEC_USER_STACK + EXEC_STACK_SIZE) cr3 (t_fpu t) 0 0 0 0 0 0x40000000 (t_exit_status t).

(** The interrupt frame at [f]. *)
Definition exec_frame (f entry rsp : Z) (m : memory) : memory :=
  let m := upd m f entry in
  let m := upd m (f + 8) 0x1B in
  let m := upd m (f + 16) (Z.lor (m (f + 16)) 0x200) in
  let m := upd m (f + 24) rsp in
  upd m (f + 32) 0x23.

(** The task [c] moves to the loaded image. *)
Definition exec_commit k (c cr3 : Z) (path : list Z) (entry ustack_rsp frame_rsp : Z) : kern P H :=
  let k := with_vmm k (vmm_space_switch (k_vmm k) cr3) in
  let k := set_task k c (exec_task (get_task k c) cr3 path) in
  let k := with_heap k (with_hmem (k_heap k) (exec_frame frame_rsp entry ustack_rsp (hmem (k_heap k)))) in
  preempt_enable k.

(** From the new address space on. *)
Definition exec_image k (c fd : Z) (ctx : el_ctx) (path : list Z) (argv : list (option (list Z))) (frame_rsp : Z)
    : option (Z * kern P H) :=
  let '(cr3, v) := vmm_space_clone (k_vmm k) in
  let k := with_vmm k v in
  if cr3 =? 0 then close_with k fd (- ENOMEM)
  else
    let k := preempt_disable k in
    let k := with_vmm k (vmm_space_switch (k_vmm k) cr3) in
    '(st, l) ← el_load (Loader k cr3 fd) ctx;
    let k := ld_kern l in
    if negb (bool_decide (st = EL_OK)) then close_with (leave_space k) fd (- ENOEXEC)
    else
      let '(ustack_rsp, k) := exec_build_stack k cr3 path argv in
      if ustack_rsp =? 0 then close_with (leave_space k) fd (- ENOMEM)
      else
        '(_, k) ← on_vfs (vfs_close fd) k;
        Some (0, exec_commit k c cr3 path (e_entry (ehdr ctx)) ustack_rsp frame_rsp).

Definition elf_exec_current k (path : option (list Z)) (argv : list (option (list Z))) (frame_rsp : Z)
    : option (Z * kern P H) :=
  match sched_current k, path with
  | Some c, Some path =>
      '(fd, k) ← on_vfs (vfs_open (Some path) O_RDONLY) k;
      if fd <? 0 then Some (fd, k)
      else
        '(ok, k) ← on_vfs (may_exec path) k;
        if negb ok then close_with k fd (- EACCES)
        else
          '(st, ctx) ← el_init (Loader k 0 fd) new_ctx;
          if negb (bool_decide (st = EL_OK)) then close_with k fd (- ENOEXEC)
          else exec_image k c fd ctx path argv frame_rsp
  | _, _ => Some (- EINVAL, k)
  end.
End Exec.

(** ** The allocator *)

Section Alloc.
Context {P H : Type} `{FramePool P} `{Ports H}.
Context (spaces : list Z) (cr3 : Z) (Hcr3 : cr3 ∈ spaces).
Implicit Types k : kern P H.

(** Only pages of [cr3] were added. *)
Record grown k k' : Prop := Grown {
  gr_ok : mem_ok k' spaces;
  gr_same : k' = with_vmm k (k_vmm k');
  gr_regs : g_root_cr3 (k_vmm k') = g_root_cr3 (k_vmm k) /\ g_cr3 (k_vmm k') = g_cr3 (k_vmm k) /\
            hw_cr3 (k_vmm k') = hw_cr3 (k_vmm k);
  gr_mono r va b : r ∈ spaces -> user_byte k r va = Some b -> user_byte k' r va = Some b;
  gr_other r va : r ∈ spaces -> r <> cr3 -> user_byte k' r va = user_byte k r va;
}.

Lemma grown_refl k : mem_ok k spaces -> grown k k.
Proof. intros Hk. split; try done. by destruct k as [[] ? ? ? ? ? ? ?]. Qed.

Lemma grown_trans k1 k2 k3 : grown k1 k2 -> grown k2 k3 -> grown k1 k3.
Proof.
  intros [O1 S1 (A1 & B1 & C1) M1 X1] [O2 S2 (A2 & B2 & C2) M2 X2]. split; try done.
  - rewrite S2, S1 at 1. done.
  - split_and!; congruence.
  - auto.
  - intros. rewrite X2, X1 by done. done.
Qed.

Lemma grown_none k v va : mem_ok k spaces -> pages_step (k_vmm k) spaces cr3 va None v -> grown k (with_vmm k v).
Proof.
  intros Hk Hs. pose proof (step_mem_ok _ _ _ _ _ _ Hk Hs) as Hok. destruct (ps_regs _ _ _ _ _ _ Hs) as (?&?&?).
  assert (forall r a, r ∈ spaces -> user_byte (with_vmm k v) r a = user_byte k r a) as Hb.
  { intros r a Hr. destruct (decide (0 <= a < 2 ^ 47)) as [Hh|Hh]; [by apply (step_bytes _ _ _ _ _ _ Hs)|].
    by rewrite !user_byte_out. }
  split; try done; [|auto]. intros r a b Hr. by rewrite Hb.
Qed.

Lemma grown_alloc k f v : mem_ok k spaces -> pmm_alloc (k_vmm k) = (f, v) -> grown k (with_vmm k v).
Proof.
  intros [Hu Hf] E. destruct (alloc_users _ _ _ _ Hu E) as (Hu' & Ev & _).
  assert (forall r a, user_byte (with_vmm k v) r a = user_byte k r a) as Hb.
  { intros r a. unfold user_byte, mmu. cbn. rewrite Ev. done. }
  split; try done; [by rewrite Ev|]. intros r va b _. by rewrite Hb.
Qed.

(** Mapping the page of [page] with a frame that fits. *)
Lemma grown_map k page f rc v :
  mem_ok k spaces -> user_half page -> frame_for (k_vmm k) spaces cr3 page f ->
  (forall g, maps_to (k_vmm k) cr3 page g -> g = f) ->
  vmm_map_page_in (k_vmm k) cr3 page f PAGE_FLAGS = (rc, v) ->
  grown k (with_vmm k v) /\
  (rc = 0 -> forall va, page <= va < page + 4096 -> va < 2 ^ 47 -> is_Some (user_byte (with_vmm k v) cr3 va)).
Proof.
  intros Hk Hh Hf Hsame E. pose proof (user_half_index _ Hh) as Hi.
  destruct (map_pages _ _ _ _ _ PAGE_FLAGS _ _ (mo_users _ _ Hk) Hcr3 Hi Hf eq_refl E) as [Hs Hal].
  destruct (Z.eqb_spec rc 0) as [->|Hrc]; [|split; [by eapply grown_none|done]].
  pose proof (step_bytes _ _ _ _ _ _ Hs) as Hb. destruct (ps_regs _ _ _ _ _ _ Hs) as (?&?&?).
  specialize (Hal eq_refl). split.
  - assert (forall r va, r ∈ spaces -> r <> cr3 -> user_byte (with_vmm k v) r va = user_byte k r va) as Ho.
    { intros r va Hr Hne. destruct (decide (0 <= va < 2 ^ 47)) as [Hv|Hv]; [|by rewrite !user_byte_out].
      rewrite Hb by done. by rewrite decide_False by naive_solver. }
    split; try done; [by eapply step_mem_ok|]. intros r va b Hr Hub. pose proof (user_byte_half _ _ _ _ Hub) as Hv.
    rewrite Hb by done. destruct (decide _) as [[-> Hp]|]; [|done]. cbn.
    unfold user_byte in Hub. destruct (mmu k cr3 va) as [g|] eqn:Eg; [|done]. apply mmu_maps in Eg; [|done].
    apply same_page_indices in Hp as [Hp1 Hp2]. rewrite <-(Hsame g); [done|].
    unfold maps_to, lookup_pte in *. by rewrite <-Hp1, <-Hp2.
  - intros _ va Hva Hlt. unfold user_half in Hh. rewrite Hb by (done || unfold user_half; lia).
    replace va with (page + (va - page)) by lia. rewrite decide_True by (split; [done|apply page_offset; [done|lia]]). done.
Qed.

Lemma alloc_pages_spec n : forall page k ok k',
  mem_ok k spaces -> 0 <= page -> page mod 4096 = 0 -> page + 4096 * Z.of_nat n <= 2 ^ 47 ->
  alloc_pages n page cr3 k = (ok, k') ->
  grown k k' /\ (ok = true -> forall va, page <= va < page + 4096 * Z.of_nat n -> is_Some (user_byte k' cr3 va)).
Proof.
  induction n as [|n IH]; intros page k ok k' Hk Hge Hal Hend E; cbn [alloc_pages] in E.
  { injection E as <- <-. split; [by apply grown_refl|]. lia. }
  assert (user_half page) as Hh by (unfold user_half; lia). pose proof (user_half_index _ Hh) as Hi.
  destruct (vmm_translate_in (k_vmm k) cr3 page) as [p v1] eqn:Et.
  destruct (translate_pages _ _ _ _ _ _ (mo_users _ _ Hk) Hcr3 Hi Et) as [T1 Hp].
  pose proof (grown_none _ _ _ Hk T1) as G1. set (k1 := with_vmm k v1) in *.
  destruct (if p =? 0 then pmm_alloc (k_vmm k1) else (p, k_vmm k1)) as [f v2] eqn:Ea.
  assert (grown k1 (with_vmm k1 v2) /\ (f <> 0 -> frame_for v2 spaces cr3 page (Z.ldiff f 0xFFF) /\
            forall g, maps_to v2 cr3 page g -> g = Z.ldiff f 0xFFF)) as [G2 Hf].
  { destruct (Z.eqb_spec p 0) as [->|Hp0].
    - split; [by eapply grown_alloc; [apply G1|]|]. intros Hf0.
      destruct (alloc_users _ _ _ _ (mo_users _ _ (gr_ok _ _ G1)) Ea) as (_ & Ev & _ & Hfr & _).
      destruct (Hfr Hf0) as [_ Hff]. destruct (Hff cr3 page) as [Ha Hr ? ? ?] eqn:Eff. clear Eff.
      rewrite ldiff_page by (done || lia). split; [done|]. intros g Hg. rewrite Ev in Hg.
      apply (ps_maps _ _ _ _ _ _ T1) in Hg; [|done..]. by destruct (Hp g).
    - injection Ea as <- <-. destruct Hp as [Hm Hpe]. split; [by apply grown_refl, G1|]. intros _.
      assert (maps_to (k_vmm k1) cr3 page (Z.ldiff p 0xFFF)) as Hm1 by by apply (ps_maps _ _ _ _ _ _ T1).
      split; [apply mapped_frame; try done; apply G1|]. intros g Hg. by eapply maps_fun. }
  set (k2 := with_vmm k1 v2) in *. pose proof (grown_trans _ _ _ G1 G2) as G12.
  destruct (Z.eqb_spec f 0) as [->|Hf0]; [injection E as <- <-; by split|].
  destruct (Hf Hf0) as [Hff Hsame].
  destruct (vmm_map_page_in (k_vmm k2) cr3 page _ PAGE_FLAGS) as [rc v3] eqn:Em.
  destruct (grown_map k2 page (Z.ldiff f 0xFFF) rc v3 (gr_ok _ _ G2) Hh Hff Hsame Em) as [G3 Hpage].
  pose proof (grown_trans _ _ _ G12 G3) as G123.
  destruct (Z.eqb_spec rc 0) as [->|]; cbn [negb] in E; [|injection E as <- <-; by split].
  destruct (IH (page + 4096) (with_vmm k2 v3) ok k') as [G4 Hrest]; [apply G3|lia|divlia|lia|done|].
  split; [by eapply grown_trans|]. intros Hok va Hva.
  destruct (decide (va < page + 4096)).
  - destruct (Hpage eq_refl va) as [b Hb]; [lia|lia|]. exists b. by apply (gr_mono _ _ G4).
  - apply Hrest; [done|lia].
Qed.
End Alloc.

(** ** The kernel is a host for the ELF library *)

Lemma ldiff_down x : 0 <= x -> Z.ldiff x 0xFFF = x - x mod 4096.
Proof.
  intros Hx. change 0xFFF with (Z.ones 12). rewrite Z.ldiff_ones_r, Z.shiftr_div_pow2, Z.shiftl_mul_pow2 by lia.
  change (2 ^ 12) with 4096. divlia.
Qed.

Section Pread.
Context {P H : Type} `{FramePool P} `{Ports H}.

Lemma tus_pread_file (l : loader P H) fd file a f n nb off :
  ld_fd l = fd -> open_file (k_vfs (ld_kern l)) fd a f n -> content n = file -> 0 <= nb < 2 ^ 63 -> 0 <= off ->
  tus_pread l nb off = Some (zlen (sub file off nb) =? nb, sub file off nb).
Proof.
  intros Hfd Hopen Hc Hnb Hoff. unfold tus_pread. rewrite Hfd.
  rewrite (vfs_pread_run _ _ _ _ _ nb off Hopen) by lia. cbn [mbind option_bind]. rewrite Hc.
  assert (s64 nb = nb) as -> by (unfold s64; rewrite u64_small by lia; split_tests; lia).
  assert (sub file off (Z.max 0 (Z.min nb (zlen file - off))) = sub file off nb) as ->.
  { unfold sub. destruct (Z.leb_spec (zlen file) off) as [Hle|Hlt].
    - rewrite drop_ge by (unfold zlen in Hle; lia). by rewrite !take_nil.
    - destruct (Z.leb_spec nb (zlen file - off)); [by rewrite Z.min_l, Z.max_r by lia|].
      rewrite Z.min_r, Z.max_r by lia. unfold zlen in *. rewrite !take_ge by (rewrite length_drop; lia). done. }
  assert (zlen (sub file off nb) = Z.max 0 (Z.min nb (zlen file - off))) as ->; [|done].
  unfold sub, zlen. rewrite length_take, length_drop. lia.
Qed.
End Pread.

Section Host.
Context {P H : Type} `{FramePool P} `{Ports H}.
Context (spaces : list Z) (cr3 fd : Z) (file : list Z) (k0 : kern P H).

(** [k] is [k0] but for the page tables and the contents of user frames, and
    the user pages of all spaces but [cr3] are as in [k0]. *)
Record apart (k : kern P H) : Prop := Apart {
  ap_rest : same_rest k0 k;
  ap_bytes r va : r ∈ spaces -> r <> cr3 -> user_byte k r va = user_byte k0 r va;
}.

Record load_inv (l : loader P H) : Prop := LoadInv {
  li_cr3 : ld_cr3 l = cr3;
  li_in : cr3 ∈ spaces;
  li_fd : ld_fd l = fd;
  li_mem : mem_ok (ld_kern l) spaces;
  li_hw : hw_cr3 (k_vmm (ld_kern l)) = cr3;
  li_file : exists a f n, open_file (k_vfs (ld_kern l)) fd a f n /\ content n = file;
  li_size : zlen file < 2 ^ 63;
  li_apart : apart (ld_kern l);
}.

Lemma apart_vfs k : apart k -> k_vfs k = k_vfs k0.
Proof. intros [[E _] _]. by rewrite <-E. Qed.

Lemma load_inv_grown l k : load_inv l -> grown spaces cr3 (ld_kern l) k -> load_inv (Loader k (ld_cr3 l) (ld_fd l)).
Proof.
  intros [H1' H2' H3' H4' H5' H6' H7' [[Er Eg] Eb]] [G1 G2 (G3 & G4 & G5) G6 G7].
  split; cbn [ld_kern ld_cr3 ld_fd]; try done; try congruence.
  - rewrite G2. exact H6'.
  - destruct Eg as (?&?&?). split; [split; [rewrite G2; exact Er|split_and!; congruence]|].
    intros r va Hr Hne. by rewrite G7, Eb.
Qed.

Lemma load_inv_store l a b :
  load_inv l -> (forall x, a <= x < a + zlen b -> is_Some (user_byte (ld_kern l) cr3 x)) ->
  exists k, user_store (ld_kern l) a b = Some k /\ load_inv (Loader k (ld_cr3 l) (ld_fd l)) /\
    forall x, user_byte k cr3 x = if (a <=? x) && (x <? a + zlen b) then Some (byte_at b (x - a)) else user_byte (ld_kern l) cr3 x.
Proof.
  intros [H1' H2' H3' H4' H5' H6' H7' [[Er Eg] Eb]] Hm. rewrite <-H5' in Hm.
  destruct (user_store_spec spaces b (ld_kern l) a H4') as (fr & -> & Hok & Hb); [by rewrite H5'|done|].
  rewrite H5' in Hb. exists (with_frames (ld_kern l) fr). split; [done|]. split.
  - split; cbn [ld_kern ld_cr3 ld_fd]; try done. split; [by split|].
    intros r va Hr Hne. rewrite Hb, decide_False by naive_solver. by apply Eb.
  - intros x. rewrite Hb by done. destruct ((a <=? x) && (x <? a + zlen b)) eqn:E.
    + by rewrite decide_True by (split; [done|lia]).
    + rewrite decide_False by lia. done.
Qed.

Lemma tus_alloc_spec l p v n r l' :
  load_inv l -> 0 < v -> 0 <= n -> v + n <= 2 ^ 47 -> tus_alloc l p v n = (r, l') ->
  load_inv l' /\ (forall a b, user_byte (ld_kern l) cr3 a = Some b -> user_byte (ld_kern l') cr3 a = Some b) /\
  (r <> 0 -> r = v /\ forall a, v <= a < v + n -> is_Some (user_byte (ld_kern l') cr3 a)).
Proof.
  intros Hl Hv Hn Hend. unfold tus_alloc. pose proof (li_cr3 _ Hl) as Ec. rewrite Ec.
  rewrite !u64_small by (rewrite ?u64_small; lia). rewrite !ldiff_down by lia.
  destruct (alloc_pages _ _ _ _) as [ok k] eqn:E. intros [= <- <-].
  set (first := v - v mod 4096) in *. set (last := v + n + 4095 - (v + n + 4095) mod 4096) in *.
  assert (first mod 4096 = 0 /\ 0 <= first <= v /\ v + n <= last /\ last <= 2 ^ 47 /\ last mod 4096 = 0) as (Hf & Hf2 & Hla & Hl47 & Hlm).
  { unfold first, last. split_and!; divlia. }
  assert (Z.of_nat (page_count first last) * 4096 = last - first) as Hcount by (unfold page_count; divlia).
  destruct (alloc_pages_spec spaces cr3 (li_in _ Hl) (page_count first last) first (ld_kern l) ok k)
    as [G Hm]; [apply Hl|lia|done|lia|done|].
  cbn [ld_kern]. split_and!.
  - rewrite <-Ec. by apply load_inv_grown.
  - intros a b Hb. apply (gr_mono _ _ _ _ G); [apply Hl|done].
  - destruct ok; [|done]. intros _. split; [done|]. intros a Ha. apply Hm; [done|lia].
Qed.

Lemma tus_pread_spec l nb off : load_inv l -> 0 <= nb < 2 ^ 63 -> 0 <= off ->
  tus_pread l nb off = Some (zlen (sub file off nb) =? nb, sub file off nb).
Proof. intros [_ _ Hfd _ _ (a & f & n & Hopen & Hc) _ _]. by apply (tus_pread_file l fd file a f n). Qed.

(** The callbacks of tus_elf.c satisfy what the library relies on, and leave
    everything but the new address space alone. *)
Definition tus_laws : ElfLaws (loader P H).
Proof.
  refine {| host_inv := load_inv; host_file := fun _ => file;
            host_byte := fun l va => user_byte (ld_kern l) cr3 va;
            host_range := fun v n => 0 < v /\ 0 <= n /\ v + n <= 2 ^ 47 |}.
  - intros l Hl. apply Hl.
  - intros l nb off. apply tus_pread_spec.
  - intros l p v n r l' Hl (Hv & Hn & Hend) E. destruct (tus_alloc_spec l p v n r l') as (?&?&?); auto.
  - intros l a b Hl Hm. destruct (load_inv_store l a b Hl Hm) as (k & E & Hk & Hb).
    eexists. cbn. rewrite E. done.
  - intros l a n Hl Hn Hm. destruct (load_inv_store l a (replicate (Z.to_nat n) 0) Hl) as (k & E & Hk & Hb).
    { intros x. rewrite zlen_replicate. rewrite Z2Nat.id by done. apply Hm. }
    eexists. cbn. rewrite E. split_and!; [done..|]. intros x. cbn [ld_kern]. rewrite Hb, zlen_replicate, Z2Nat.id by done.
    destruct (_ && _) eqn:Ex; [|done]. by rewrite byte_at_replicate by lia.
Defined.
End Host.
