(* ===== verification/Execve.v ===== *)
(** * What execve does

    The stages of [elf_exec_current] of TusElf, from opening the file to the
    rewritten interrupt frame, each with what it does to the descriptors and
    to the user memory of the address spaces. *)

From stdpp Require Import base numbers list gmap.
From Stdlib Require Import ZArith Lia ZifyBool.
From S2P Require Import Prelude.
From S2P Require Import Interfaces.
From S2P Require Import Hardware.
From S2P Require Import Keyboard.
From S2P Require Import Klib.
From S2P Require Import Pmm.
From S2P Require Import Vmm.
From S2P Require Import VmmTables.
From S2P Require Import Kmalloc.
From S2P Require Import Pipe.
From S2P Require Import Vfs.
From S2P Require Import VfsFd.
From S2P Require Import VfsTree.
From S2P Require Import VfsData.
From S2P Require Import Fb.
From S2P Require Import Devices.
From S2P Require Import Sched.
From S2P Require Import ElfLoad.
From S2P Require Import UserMem.
From S2P Require Import TusElf.

(** ** Opening the program *)

Section Open.
Context {H : Type} `{Ports H}.
Local Abbreviation D := (option (dev H)).
Implicit Types s : vfs D.

(** The regular file [n] at [path], in a well-formed file system in which the
    current task [c] has the descriptor table [tbl]. *)
Record program s (c : Z) (tbl : list Z) (path : list Z) (n : vfs_node) : Prop := Program {
  pr_tree : exists kids nd, tree s kids /\ walk (nodes s) kids (g_root s) (components path) = Some nd /\
              nodes s !! nd = Some n;
  pr_path : cstr path;
  pr_type : n_type n = VFS_FILE;
  pr_ok : file_ok n;
  pr_size : zlen (content n) < 2 ^ 63;
  pr_fds : fds_ok s (fun _ => 0);
  pr_table : table s c tbl;
}.

Lemma program_lookup s c tbl path n : program s c tbl path n ->
  exists nd, nd <> 0 /\ vfs_lookup path s = Some (nd, s) /\ nodes s !! nd = Some n.
Proof.
  intros [(kids & nd & Ht & Hw & Hn) Hp _ _ _ _ _]. exists nd. pose proof (t_addr _ _ _ _ Ht nd n Hn).
  split_and!; [lia| |done]. by rewrite (vfs_lookup_run _ _ _ Ht Hp), Hw.
Qed.

(** Opening fails, or gives a new descriptor for the file. *)
Lemma open_program s c tbl path n : program s c tbl path n ->
  exists fd s', vfs_open (Some path) O_RDONLY s = Some (fd, s') /\
    (fd = - ENOMEM /\ table s' c tbl \/
     3 <= fd < 16 /\ slot tbl fd = 0 /\
     exists a f, a <> 0 /\ program s' c (<[Z.to_nat fd := a]> tbl) path n /\ open_file s' fd a f n).
Proof.
  intros Hp. destruct (program_lookup _ _ _ _ _ Hp) as (nd & Hnd & Hl & Hn). unfold vfs_open.
  rewrite (bind_run _ _ _ _ _ Hl). rewrite (proj2 (Z.eqb_neq nd 0)) by done. cbn [negb].
  rewrite (bind_run (mret nd) _ s nd s) by done. rewrite (proj2 (Z.eqb_neq nd 0)) by done.
  rewrite (bind_run _ _ _ _ _ (get_node_run _ _ _ Hn)). rewrite (pr_type _ _ _ _ _ Hp).
  rewrite bool_decide_eq_false_2, bool_decide_eq_true_2 by done. cbn [andb].
  change (negb (Z.land O_RDONLY O_TRUNC =? 0)) with false. cbv iota. rewrite (bind_run (mret tt) _ s tt s) by done.
  destruct (kmalloc_id_run s) as [o [E|E]]; rewrite (bind_run _ _ _ _ _ E).
  { eexists _, _. split; [done|]. left. split; [done|]. apply (pr_table _ _ _ _ _ Hp). }
  destruct Hp as [(kids & nd' & Ht & Hw & Hn') Hpath Hty Hok Hsz Hfds Htb].
  pose proof (fds_next _ _ Hfds) as Hnx. rewrite (proj2 (Z.eqb_neq (next_id s) 0)) by lia.
  set (s1 := with_alloc s (next_id s + 1) o). assert (nodes s1 !! nd = Some n) as Hn1 by done.
  rewrite (bind_run _ _ _ _ _ (get_node_run _ _ _ Hn1)). cbn [Z.land O_RDONLY O_APPEND Z.eqb negb].
  set (f := VfsFile nd 0 0 O_RDONLY 1). set (s2 := with_files s1 (<[next_id s := f]> (files s1))).
  rewrite (bind_run (put_file _ _) _ s1 tt s2) by done.
  destruct (fresh_address s _ (next_id s) Hfds) as (Hf & Hpi & Hh & _); [done|lia|].
  assert (fds_ok s2 (bump (fun _ => 0) (next_id s) 1)) as Hfds2.
  { apply new_file_ok; try done; [apply with_alloc_ok; [done|lia]|cbn; lia]. }
  destruct (fd_alloc_ok s2 _ c tbl (next_id s) Hfds2 Htb) as (fd & s3 & -> & [(-> & -> & _)|(Hfd & Hsl & ->)]).
  { eexists _, _. split; [done|]. left. split; [done|]. exact Htb. }
  eexists _, _. split; [done|]. right. split_and!; try done; try lia.
  assert (table (set_slot s2 c tbl fd (next_id s)) c (<[Z.to_nat fd := next_id s]> tbl)) as Htb3 by by apply set_slot_table.
  assert (length tbl = 16%nat) as Hlen by by apply (fds_len _ _ Hfds c), Htb.
  assert (fds_ok (set_slot s2 c tbl fd (next_id s)) (fun _ => 0)) as Hfds3.
  { pose proof (set_slot_ok s2 _ c tbl fd (next_id s) Hfds2 (proj2 Htb) ltac:(lia)) as Hs.
    revert Hs. rewrite Hsl. apply fds_ok_leak. intros x Hx. unfold bump. split_tests; lia. }
  exists (next_id s), f. split_and!; [lia| |].
  - split; try done. exists kids, nd'. split_and!; try done. by eapply tree_ok_next; [exact Ht|cbn; lia].
  - split; try done; [|lia|cbn; by rewrite lookup_insert_eq|cbn; lia].
    unfold fd_get. rewrite (bind_run _ _ _ _ _ (table_run _ _ _ Htb3)). unfold VFS_MAX_FDS.
    rewrite (proj2 (orb_false_iff _ _)) by lia. unfold slot, byte_at, mret, M_ret. do 2 f_equal.
    rewrite nth_lookup, list_lookup_insert_eq by lia. done.
Qed.

Lemma may_exec_program s c tbl path n : program s c tbl path n -> may_exec path s = Some (executable n, s).
Proof.
  intros Hp. destruct (program_lookup _ _ _ _ _ Hp) as (nd & Hnd & Hl & Hn). unfold may_exec.
  rewrite (bind_run _ _ _ _ _ Hl). rewrite (proj2 (Z.eqb_neq nd 0)) by done.
  by rewrite (bind_run _ _ _ _ _ (get_node_run _ _ _ Hn)).
Qed.

(** Closing it gives the old table back. *)
Lemma close_program s c tbl fd a : table s c (<[Z.to_nat fd := a]> tbl) -> fds_ok s (fun _ => 0) ->
  3 <= fd < 16 -> slot tbl fd = 0 -> a <> 0 ->
  exists s', vfs_close fd s = Some (0, s') /\ fds_ok s' (fun _ => 0) /\ table s' c tbl.
Proof.
  intros Htb Hfds Hfd Hsl Ha. pose proof (fds_len _ _ Hfds _ _ (proj2 Htb)) as Hlen. rewrite length_insert in Hlen.
  assert (slot (<[Z.to_nat fd := a]> tbl) fd = a) as Hs.
  { unfold slot, byte_at. by rewrite nth_lookup, list_lookup_insert_eq by lia. }
  destruct (vfs_close_ok s (fun _ => 0) c _ fd Hfds (fun _ => Z.le_refl 0) Htb)
    as (r & s' & E & Hok & _ & [[-> ->]|(-> & _ & _ & Htb')]).
  - exfalso. unfold vfs_close in E. rewrite (bind_run _ _ _ _ _ (table_run _ _ _ Htb)) in E.
    rewrite Hs in E. unfold VFS_MAX_FDS in E. rewrite (proj2 (orb_false_iff _ _)) in E by lia.
    revert E. unfold mbind, M_bind. destruct (fd_set _ _ _) as [[? ?]|]; [|done].
    destruct (file_unref _ _) as [[? ?]|]; [|done]. unfold mret, M_ret. intros [= E _].
  - exists s'. split_and!; try done. rewrite list_insert_insert_eq in Htb'. rewrite list_insert_id in Htb'; [done|].
    rewrite <-Hsl. apply byte_at_lookup. unfold zlen. lia.
Qed.
End Open.

(** ** Reading the header *)

Section Image.
Context {P H : Type} `{FramePool P} `{Ports H}.

(** A program image: its program headers and segments lie in the file, and
    the loadable segments lie in user memory below the stack, apart from each
    other. *)
Record image_fits (file : list Z) : Prop := ImageFits {
  if_header : EHDR_SIZE <= zlen file;
  if_count : 0 <= e_phnum (parse_ehdr (sub file 0 EHDR_SIZE));
  if_table : table_in_file file (parse_ehdr (sub file 0 EHDR_SIZE));
  if_seg i : let ph := ph_at file (parse_ehdr (sub file 0 EHDR_SIZE)) i in
    loads file (parse_ehdr (sub file 0 EHDR_SIZE)) i ->
    0 <= p_filesz ph <= p_memsz ph /\ 0 <= p_offset ph /\ p_offset ph + p_filesz ph <= zlen file /\
    0 < p_vaddr ph /\ p_vaddr ph + p_memsz ph <= EXEC_USER_STACK;
  if_apart i j : let h := parse_ehdr (sub file 0 EHDR_SIZE) in
    loads file h i -> loads file h j -> i < j ->
    p_vaddr (ph_at file h i) + p_memsz (ph_at file h i) <= p_vaddr (ph_at file h j) \/
    p_vaddr (ph_at file h j) + p_memsz (ph_at file h j) <= p_vaddr (ph_at file h i);
}.

(** For reading alone the kernel is a host as well: nothing is allocated. *)
Definition read_laws (fd : Z) (file : list Z) : ElfLaws (loader P H).
Proof.
  refine {| host_inv := fun l => ld_fd l = fd /\ zlen file < 2 ^ 63 /\
              exists a f n, open_file (k_vfs (ld_kern l)) fd a f n /\ content n = file;
            host_file := fun _ => file; host_byte := fun _ _ => None; host_range := fun _ _ => False |}.
  - by intros l (_ & ? & _).
  - intros l nb off (Hfd & Hsz & a & f & n & Hopen & Hc) Hnb Hoff. by apply (tus_pread_file l fd file a f n).
  - done.
  - intros l a b Hl Hm. destruct b as [|x b]; [exists l; destruct l; split; [done|]; split; [done|]; split; [done|]|].
    + intros y. destruct (_ && _) eqn:E; [|done]. unfold zlen in E. cbn in E. lia.
    + destruct (Hm a) as [? ?]; [unfold zlen; cbn; lia|done].
  - intros l a n Hl Hn Hm. destruct (Z.eq_dec n 0) as [->|]; [exists l; destruct l; split; [done|]; split; [done|]; split; [done|]|].
    + intros y. destruct (_ && _) eqn:E; [lia|done].
    + destruct (Hm a) as [? ?]; [lia|done].
Defined.

Lemma init_program (k : kern P H) (s' : vfs (option (dev H))) cr3 fd a f n :
  open_file s' fd a f n -> zlen (content n) < 2 ^ 63 -> image_fits (content n) ->
  exists st ctx, el_init (Loader (with_vfs k s') cr3 fd) new_ctx = Some (st, ctx) /\
    (st = EL_OK -> ehdr ctx = parse_ehdr (sub (content n) 0 EHDR_SIZE) /\ valid_header (ehdr ctx) = true /\
       base_load_paddr ctx = 0 /\ base_load_vaddr ctx = 0).
Proof.
  intros Ho Hsz [I1 I2 I3 _ _].
  destruct (el_init_spec (HL := read_laws fd (content n)) (Loader (with_vfs k s') cr3 fd) new_ctx)
    as (st & ctx & E & Hv & Hok); [|done..|].
  - split_and!; [done..|]. eauto.
  - exists st, ctx. split; [done|]. intros Hst. destruct (Hok Hst) as (-> & ? & ? & _). split_and!; try done. by apply Hv.
Qed.

(** ** Loading it *)

Definition segments_in (file : list Z) (k : kern P H) (cr3 : Z) : Prop :=
  forall i, let ph := ph_at file (parse_ehdr (sub file 0 EHDR_SIZE)) i in
    loads file (parse_ehdr (sub file 0 EHDR_SIZE)) i ->
    forall x, 0 <= x < p_memsz ph ->
      user_byte k cr3 (p_vaddr ph + x) = Some (if x <? p_filesz ph then byte_at file (p_offset ph + x) else 0).

Lemma load_program (k : kern P H) spaces cr3 fd a f n ctx :
  mem_ok k spaces -> cr3 ∈ spaces -> hw_cr3 (k_vmm k) = cr3 -> open_file (k_vfs k) fd a f n ->
  zlen (content n) < 2 ^ 63 -> image_fits (content n) ->
  ehdr ctx = parse_ehdr (sub (content n) 0 EHDR_SIZE) -> base_load_paddr ctx = 0 -> base_load_vaddr ctx = 0 ->
  exists st l, el_load (Loader k cr3 fd) ctx = Some (st, l) /\ load_inv spaces cr3 fd (content n) k l /\
    (st = EL_OK -> segments_in (content n) (ld_kern l) cr3).
Proof.
  intros Hk Hc Hhw Ho Hsz Hi Eh Ep Ev. set (file := content n) in *. pose proof Hi as [I1 I2 I3 I4 I5].
  set (HL := tus_laws (P := P) (H := H) spaces cr3 fd file k).
  assert (Hva : forall i, loads file (ehdr ctx) i -> seg_addr ctx (ph_at file (ehdr ctx) i) = p_vaddr (ph_at file (ehdr ctx) i)).
  { intros i Hl. rewrite Eh in *. destruct (I4 i Hl) as (?&?&?&?&?). unfold seg_addr, EXEC_USER_STACK in *.
    rewrite Ev, Z.add_0_r. apply u64_small. lia. }
  destruct (el_load_spec (HL := HL) (Loader k cr3 fd) ctx) as [(l & -> & Hl & _ & Hpl)|(l & s1 & j & -> & Hl & _)].
  - split; try done; [by exists a, f, n|]. split; [apply same_rest_refl|done].
  - split_and!; [by rewrite Eh| |].
    + intros i Hl. change (host_file _) with file in *. unfold seg_ok. rewrite (Hva i Hl). rewrite Eh in *.
      destruct (I4 i Hl) as (?&?&?&?&?). unfold EXEC_USER_STACK in *.
      set (ph := ph_at _ _ i) in *. assert (0 < p_vaddr ph /\ 0 <= p_memsz ph /\ p_vaddr ph + p_memsz ph <= 2 ^ 47) as Hr by lia.
      split_and!; try lia. exact Hr.
    + intros i j Hl1 Hl2 Hij. change (host_file _) with file in *. unfold seg_disjoint. rewrite !Hva by done.
      rewrite Eh in *. by apply I5.
  - by rewrite Eh.
  - exists EL_OK, l. split_and!; [done..|]. intros _ i ph Hli x Hx. change (host_file _) with file in Hpl.
    rewrite Eh in Hpl, Hva. specialize (Hpl i Hli x Hx). rewrite Hva in Hpl by done. exact Hpl.
  - exists EL_ENOMEM, l. split_and!; done.
Qed.
End Image.

(** ** The new stack *)

Section Stack.
Context {P H : Type} `{FramePool P} `{Ports H}.
Context (spaces : list Z) (cr3 : Z) (Hcr3 : cr3 ∈ spaces).
Implicit Types k : kern P H.

Lemma map_stack_mem n : forall i k ok k',
  mem_ok k spaces -> 0 <= i -> i + Z.of_nat n <= 16 -> map_stack n i cr3 k = (ok, k') ->
  let lo := USER_STACK_BASE + i * 4096 in
  let hi := USER_STACK_BASE + (i + Z.of_nat n) * 4096 in
  mem_ok k' spaces /\ same_rest k k' /\
  (forall r x, r ∈ spaces -> r <> cr3 \/ x < lo \/ hi <= x -> user_byte k' r x = user_byte k r x) /\
  (ok = true -> forall x, lo <= x < hi -> user_byte k' cr3 x = Some 0).
Proof.
  induction n as [|n IH]; intros i k ok k' Hk Hi Hn E lo hi; cbn [map_stack] in E.
  { injection E as <- <-. split_and!; try done; [apply same_rest_refl|]. intros _ x Hx. unfold lo, hi in Hx. lia. }
  assert (user_half lo) as Hlo by (unfold user_half, lo, USER_STACK_BASE; lia).
  destruct (pmm_alloc (k_vmm k)) as [f v1] eqn:Ea.
  destruct (alloc_users _ _ _ _ (mo_users _ _ Hk) Ea) as (Hu1 & Ev1 & _).
  destruct (Z.eqb_spec f 0) as [->|Hf0].
  { injection E as <- <-.
    assert (forall r x, user_byte (with_vmm k v1) r x = user_byte k r x) as Hb
      by (intros r x; unfold user_byte, mmu; cbn; by rewrite Ev1).
    split_and!; [split; [done|apply Hk]|split; [by destruct k as [[] ? ? ? ? ? ? ?]|by rewrite Ev1]|intros; by apply Hb|done]. }
  fold (zero_frame (with_vmm k v1) f) in E. change (with_frames (with_vmm (with_vmm k v1) _) _) with (zero_frame (with_vmm k v1) f) in E.
  destruct (vmm_map_page_in _ cr3 _ f _) as [rc v3] eqn:Em.
  destruct (zero_page_spec k spaces cr3 lo f v1 rc v3 Hk Hcr3 Hlo Ea Hf0 Em) as (Hk3 & Hs3 & _ & _ & _ & Hb3).
  set (k3 := with_vmm (zero_frame (with_vmm k v1) f) v3) in *.
  assert (forall r x, r ∈ spaces -> r <> cr3 \/ x < lo \/ lo + 4096 <= x -> user_byte k3 r x = user_byte k r x) as Hout.
  { intros r x Hr Hx. rewrite Hb3 by done. rewrite decide_False; [done|]. intros (_ & -> & ? & _). lia. }
  destruct (Z.eqb_spec rc 0) as [->|Hrc]; cbn [negb] in E.
  2: { injection E as <- <-. split_and!; try done. intros r x Hr Hx. rewrite Hb3 by done. by rewrite decide_False by tauto. }
  destruct (IH (i + 1) k3 ok k' Hk3 ltac:(lia) ltac:(lia) E) as (Hk' & Hs' & Hout' & Hin').
  split_and!; [done|by eapply same_rest_trans| |].
  - intros r x Hr Hx. rewrite Hout' by (try done; unfold lo, hi in *; lia). apply Hout; [done|]. unfold lo, hi in *. lia.
  - intros Hok x Hx. destruct (decide (x < lo + 4096)).
    + rewrite Hout' by (try done; unfold lo, hi in *; lia). rewrite Hb3 by done. rewrite decide_True; [done|].
      unfold user_half in Hlo. unfold lo, hi, USER_STACK_BASE in *. split_and!; try done; lia.
    + apply Hin'; [done|]. unfold lo, hi in *. lia.
Qed.

(** Filling the frame behind one page. *)
Lemma write_page k va f page :
  mem_ok k spaces -> user_half va -> va mod 4096 = 0 -> maps_to (k_vmm k) cr3 va f -> zlen page = 4096 ->
  let k' := with_frames k (fun a => if a =? f then page else k_frames k a) in
  mem_ok k' spaces /\
  forall r x, r ∈ spaces -> user_byte k' r x =
    if decide (r = cr3 /\ va <= x < va + 4096) then Some (byte_at page (x - va)) else user_byte k r x.
Proof.
  intros [Hu Hf] Hva Hal Hm Hlen k'. split.
  { split; [done|]. intros a. cbn. destruct (a =? f); [done|apply Hf]. }
  intros r x Hr. unfold user_byte. change (mmu k' r x) with (mmu k r x).
  pose proof (user_half_index _ Hva) as Hvi. destruct (mmu k r x) as [g|] eqn:Eg; cbn [mbind option_bind].
  - pose proof (mmu_half _ _ _ _ Eg) as Hx. apply mmu_maps in Eg; [|done]. cbn [k_frames k' with_frames].
    destruct (Z.eqb_spec g f) as [->|Hne].
    + destruct (uo_inj _ _ Hu r x cr3 va f Hr Hcr3 (user_half_index _ Hx) Hvi Eg Hm) as [-> Hp].
      rewrite !user_half_vpage in Hp by done. rewrite decide_True by (split; [done|divlia]). do 2 f_equal. divlia.
    + rewrite decide_False; [done|]. intros [-> Hr']. apply Hne. apply (maps_fun (k_vmm k) cr3 va); [|done].
      assert (vpage x = vpage va) as Hp by (rewrite !user_half_vpage by done; divlia).
      apply same_page_indices in Hp as [Hp1 Hp2]. unfold maps_to, lookup_pte in *. by rewrite <-Hp1, <-Hp2.
  - rewrite decide_False; [done|]. intros [-> Hr'].
    assert (user_half x) as Hx by (unfold user_half in *; divlia).
    assert (vpage x = vpage va) as Hp by (rewrite !user_half_vpage by done; divlia).
    apply same_page_indices in Hp as [Hp1 Hp2]. assert (maps_to (k_vmm k) cr3 x f) as Hmx
      by (unfold maps_to, lookup_pte in *; by rewrite Hp1, Hp2).
    apply mmu_maps in Hmx; [|done]. congruence.
Qed.

Lemma exec_stack k name argv rsp k' :
  mem_ok k spaces -> exec_build_stack k cr3 name argv = (rsp, k') ->
  let page_va := EXEC_USER_STACK + EXEC_STACK_SIZE - 4096 in
  mem_ok k' spaces /\ same_rest k k' /\
  (forall r x, r ∈ spaces -> r <> cr3 \/ x < EXEC_USER_STACK -> user_byte k' r x = user_byte k r x) /\
  (rsp <> 0 -> exists page init, rsp = page_va + init /\ stack_layout page_va (stack_args name argv) page init /\
     forall i, 0 <= i < 4096 -> user_byte k' cr3 (page_va + i) = Some (byte_at page i)).
Proof.
  intros Hk. unfold exec_build_stack. set (va := EXEC_USER_STACK + EXEC_STACK_SIZE - 4096).
  destruct (map_stack _ 0 cr3 k) as [ok k1] eqn:Em. cbv zeta.
  destruct (map_stack_mem (Z.to_nat (EXEC_STACK_SIZE / 4096)) 0 k ok k1 Hk ltac:(lia) ltac:(vm_compute; discriminate) Em) as (Hk1 & Hs1 & Hout & _).
  assert (forall r x, r ∈ spaces -> r <> cr3 \/ x < EXEC_USER_STACK -> user_byte k1 r x = user_byte k r x) as Hout1.
  { intros r x Hr Hx. apply Hout; [done|]. unfold USER_STACK_BASE, EXEC_USER_STACK in *. lia. }
  destruct ok; [|by intros [= <- <-]].
  assert (user_half va) as Hva by (vm_compute; split; [discriminate|reflexivity]).
  destruct (vmm_translate_in (k_vmm k1) cr3 va) as [p v] eqn:Et.
  destruct (translate_pages _ _ _ _ _ _ (mo_users _ _ Hk1) Hcr3 (user_half_index _ Hva) Et) as [T Hp].
  pose proof (step_mem_ok _ _ _ _ _ _ Hk1 T) as Hk2. pose proof (same_rest_trans _ _ _ Hs1 (same_rest_step _ _ _ _ _ _ T)) as Hs2.
  assert (forall r x, r ∈ spaces -> r <> cr3 \/ x < EXEC_USER_STACK -> user_byte (with_vmm k1 v) r x = user_byte k r x) as Hout2.
  { intros r x Hr Hx. rewrite (step_same_bytes _ _ _ _ _ T) by done. by apply Hout1. }
  destruct (Z.eqb_spec p 0); [by intros [= <- <-]|]. destruct Hp as [Hm Ep].
  change (va mod 4096) with 0 in Ep. rewrite Z.add_0_r in Ep. rewrite <-Ep in Hm.
  pose proof (build_stack_ok va (k_frames (with_vmm k1 v) p) (stack_args name argv) (mo_frames _ _ Hk2 p)
    ltac:(vm_compute; discriminate) ltac:(vm_compute; reflexivity)) as Hlay.
  destruct (build_stack va _ _) as [[page init]|]; [|by intros [= <- <-]]. intros [= <- <-].
  assert (maps_to (k_vmm (with_vmm k1 v)) cr3 va p) as Hm2 by (apply (ps_maps _ _ _ _ _ _ T); [done|by apply user_half_index|done]).
  destruct (write_page (with_vmm k1 v) va p page Hk2 Hva eq_refl Hm2 (sl_len _ _ _ _ Hlay)) as [Hk3 Hb3].
  split; [done|]. split; [by destruct Hs2 as [Hs2 ?]; split|]. split.
  - intros r x Hr Hx. rewrite Hb3 by done. rewrite decide_False; [by apply Hout2|]. intros [-> Hx'].
    destruct Hx as [|Hx]; [done|]. unfold va, EXEC_USER_STACK, EXEC_STACK_SIZE in *. lia.
  - intros _. exists page, init. split_and!; try done. intros i Hi. rewrite Hb3 by done. rewrite decide_True by (split; [done|lia]).
    do 2 f_equal. lia.
Qed.
End Stack.

(** ** The whole call *)

Section Execve.
Context {P H : Type} `{FramePool P} `{Ports H}.
Implicit Types (k : kern P H) (spaces : list Z).

(** The call failed: the tasks, the descriptors of the caller, its kernel stack
    and all user memory are as before. Which address space is active is said
    separately. *)
Record untouched k (spaces : list Z) (c : Z) (tbl : list Z) k' : Prop := Untouched {
  un_table : table (k_vfs k') c tbl;
  un_tasks : g_tasks k' = g_tasks k;
  un_bytes s x : s ∈ spaces -> user_byte k' s x = user_byte k s x;
  un_hmem : hmem (k_heap k') = hmem (k_heap k);
  un_root : g_root_cr3 (k_vmm k') = g_root_cr3 (k_vmm k);
}.

(** The address space that a failed call leaves active: the one of before, or
    the kernel's own. The second only happens when the new address space had
    been entered and the program or its stack did not fit. *)
Definition left_in k (r : Z) k' : Prop :=
  hw_cr3 (k_vmm k') = hw_cr3 (k_vmm k) \/
  (r = - ENOEXEC \/ r = - ENOMEM) /\ hw_cr3 (k_vmm k') = g_root_cr3 (k_vmm k).

(** What the task structure says about the new program. *)
Record fresh_task (t t' : task) (cr3 : Z) : Prop := FreshTask {
  ft_same : t_pid t' = t_pid t /\ t_state t' = t_state t /\ t_kstack_top t' = t_kstack_top t /\ t_rsp t' = t_rsp t;
  ft_cr3 : t_cr3 t' = cr3;
  ft_stack : t_ustack_top t' = 0x60010000;
  ft_reset : t_fs_base t' = 0 /\ t_mmap_cur t' = 0x40000000;
}.

(** The interrupt frame at [f] enters user mode at [entry] with interrupts on. *)
Record enters (m m' : memory) (f entry rsp : Z) : Prop := Enters {
  en_rip : m' f = entry;
  en_cs : m' (f + 8) = 0x1B;
  en_flags : m' (f + 16) = Z.lor (m (f + 16)) 0x200;
  en_rsp : m' (f + 24) = rsp;
  en_ss : m' (f + 32) = 0x23;
  en_rest a : a < f \/ f + 40 <= a -> m' a = m a;
}.

Lemma exec_frame_enters m f entry rsp : enters m (exec_frame f entry rsp m) f entry rsp.
Proof. split; intros; unfold exec_frame; rewrite ?upd_eq; repeat (rewrite upd_eq || rewrite upd_ne by lia); done. Qed.

(** The call succeeded: the task runs in a new address space [cr3] that holds
    the segments of the program and a stack with its arguments; the frame at
    [frame] returns to the entry point. *)
Record replaced k (spaces : list Z) (c : Z) (tbl path : list Z) argv (frame : Z) (n : vfs_node) (cr3 : Z) k' : Prop := Replaced {
  rp_exec : executable n = true /\ valid_header (parse_ehdr (sub (content n) 0 EHDR_SIZE)) = true;
  rp_new : cr3 ∉ spaces;
  rp_mem : mem_ok k' (cr3 :: spaces);
  rp_hw : hw_cr3 (k_vmm k') = cr3;
  rp_table : table (k_vfs k') c tbl;
  rp_fds : fds_ok (k_vfs k') (fun _ => 0);
  rp_task : exists t, g_tasks k' = <[Z.to_nat c := t]> (g_tasks k) /\ fresh_task (get_task k c) t cr3;
  rp_bytes s x : s ∈ spaces -> user_byte k' s x = user_byte k s x;
  rp_image : segments_in (content n) k' cr3;
  rp_stack : exists page init, let va := EXEC_USER_STACK + EXEC_STACK_SIZE - 4096 in
    stack_layout va (stack_args path argv) page init /\
    (forall i, 0 <= i < 4096 -> user_byte k' cr3 (va + i) = Some (byte_at page i)) /\
    enters (hmem (k_heap k)) (hmem (k_heap k')) frame (e_entry (parse_ehdr (sub (content n) 0 EHDR_SIZE))) (va + init);
}.

Lemma on_vfs_run {A} (m : M (option (dev H)) A) k x v :
  m (k_vfs k) = Some (x, v) -> on_vfs m k = Some (x, with_vfs k v).
Proof. unfold on_vfs. by intros ->. Qed.

(** A state in which the file is open at [fd] and nothing else has changed but
    user memory of spaces other than [spaces]. *)
Record opened k (spaces : list Z) (c : Z) (tbl : list Z) (fd a : Z) k' : Prop := Opened {
  pe_range : 3 <= fd < 16 /\ slot tbl fd = 0 /\ a <> 0;
  pe_table : table (k_vfs k') c (<[Z.to_nat fd := a]> tbl);
  pe_fds : fds_ok (k_vfs k') (fun _ => 0);
  pe_tasks : g_tasks k' = g_tasks k;
  pe_bytes s x : s ∈ spaces -> user_byte k' s x = user_byte k s x;
  pe_hmem : hmem (k_heap k') = hmem (k_heap k);
  pe_root : g_root_cr3 (k_vmm k') = g_root_cr3 (k_vmm k);
}.

(** What the call may end in. *)
Definition exec_result k spaces c tbl path argv frame n (res : option (Z * kern P H)) : Prop :=
  exists r k', res = Some (r, k') /\
    (r < 0 /\ untouched k spaces c tbl k' /\ left_in k r k' \/
     r = 0 /\ exists cr3, replaced k spaces c tbl path argv frame n cr3 k').

Lemma fail_close k spaces c tbl path argv frame n fd a k1 err :
  err < 0 -> opened k spaces c tbl fd a k1 -> left_in k err k1 -> exec_result k spaces c tbl path argv frame n (close_with k1 fd err).
Proof.
  intros Herr [(Hr & Hs & Ha) Ht Hf Hta Hb Hh Hro] Hl.
  destruct (close_program _ _ _ _ _ Ht Hf Hr Hs Ha) as (v & E & _ & Ht').
  unfold close_with. rewrite (on_vfs_run _ _ _ _ E). cbn [mbind option_bind]. eexists _, _. split; [done|]. left. by split_and!.
Qed.

Lemma pending_rest k spaces c tbl fd a k1 k2 :
  opened k spaces c tbl fd a k1 -> same_rest k1 k2 ->
  (forall s x, s ∈ spaces -> user_byte k2 s x = user_byte k1 s x) -> opened k spaces c tbl fd a k2.
Proof.
  intros [H1' H2' H3' H4' H5' H6' H7'] [E (R & _)] Hb. split; try done; [..|by rewrite R].
  - by rewrite <-E in H2'.
  - by rewrite <-E in H3'.
  - by rewrite <-E in H4'.
  - intros s x Hs. by rewrite Hb, H5'.
  - by rewrite <-E in H6'.
Qed.

Lemma switch_users (v : vmm P) spaces cr3 : users_ok v spaces -> users_ok (vmm_space_switch v cr3) spaces.
Proof.
  unfold vmm_space_switch. destruct (_ =? _); [done|]. intros [[[A1 A2 A3] A4 A5] A6 A7 A8].
  split; [split; [split|..]|..]; done.
Qed.

Lemma switch_bytes k cr3 r x : user_byte (with_vmm k (vmm_space_switch (k_vmm k) cr3)) r x = user_byte k r x.
Proof. unfold user_byte, mmu, vmm_space_switch. cbn. by destruct (_ =? _). Qed.

Lemma switch_root (v : vmm P) cr3 : g_root_cr3 (vmm_space_switch v cr3) = g_root_cr3 v.
Proof. unfold vmm_space_switch. by destruct (_ =? _). Qed.

(** The registers that hold the active space agree. *)
Lemma switch_active (v : vmm P) cr3 : hw_cr3 v = g_cr3 v -> hw_cr3 (vmm_space_switch v cr3) = cr3 /\ g_cr3 (vmm_space_switch v cr3) = cr3.
Proof. intros E. unfold vmm_space_switch. destruct (Z.eqb_spec cr3 (g_cr3 v)); [by rewrite E|done]. Qed.

Lemma leave_vmm k : k_vmm (leave_space k) = vmm_space_switch (k_vmm k) (g_root_cr3 (k_vmm k)).
Proof. unfold leave_space, preempt_enable. by destruct (0 <? _). Qed.

Lemma pending_leave k spaces c tbl fd a k1 : opened k spaces c tbl fd a k1 -> opened k spaces c tbl fd a (leave_space k1).
Proof.
  intros [H1' H2' H3' H4' H5' H6' H7'].
  assert (g_root_cr3 (k_vmm (leave_space k1)) = g_root_cr3 (k_vmm k)) as Hro by by rewrite leave_vmm, switch_root.
  unfold leave_space, preempt_enable in *.
  destruct (0 <? _); (split; try done; intros s x Hs; rewrite <-H5' by done; apply (switch_bytes k1)).
Qed.

(** The way out once the new address space was entered. *)
Lemma fail_leave k spaces c tbl path argv frame n fd a k1 err :
  err = - ENOEXEC \/ err = - ENOMEM -> opened k spaces c tbl fd a k1 -> hw_cr3 (k_vmm k1) = g_cr3 (k_vmm k1) ->
  exec_result k spaces c tbl path argv frame n (close_with (leave_space k1) fd err).
Proof.
  intros Herr Ho Hreg. eapply fail_close; [by destruct Herr as [-> | ->]|by apply pending_leave|].
  right. split; [done|]. rewrite leave_vmm, <-(pe_root _ _ _ _ _ _ _ Ho). by apply switch_active.
Qed.

Lemma same_maps_bytes k v spaces :
  (forall r va f, r ∈ spaces -> pml4_index va < 256 -> maps_to v r va f <-> maps_to (k_vmm k) r va f) ->
  forall r x, r ∈ spaces -> user_byte (with_vmm k v) r x = user_byte k r x.
Proof.
  intros Hm r x Hr. destruct (decide (0 <= x < 2 ^ 47)) as [Hh|Hh]; [|by rewrite !user_byte_out].
  unfold user_byte. cbn [k_frames with_vmm with_heap].
  assert (mmu (with_vmm k v) r x = mmu k r x) as ->; [|done].
  assert (forall f, mmu (with_vmm k v) r x = Some f <-> mmu k r x = Some f) as He.
  { intros f. rewrite !mmu_maps by done. apply Hm; [done|by apply user_half_index]. }
  destruct (mmu (with_vmm k v) r x) as [f|] eqn:E; [symmetry; by apply He|].
  destruct (mmu k r x) as [f|]; [|done]. by apply He.
Qed.

(** A new space, entered: the rest is as before. *)
Lemma enter_space k1 spaces cr3 v :
  mem_ok k1 spaces -> hw_cr3 (k_vmm k1) = g_cr3 (k_vmm k1) -> vmm_space_clone (k_vmm k1) = (cr3, v) -> cr3 <> 0 ->
  let k2 := preempt_disable (with_vmm k1 v) in
  let k3 := with_vmm k2 (vmm_space_switch (k_vmm k2) cr3) in
  cr3 ∉ spaces /\ mem_ok k3 (cr3 :: spaces) /\ hw_cr3 (k_vmm k3) = cr3 /\ g_cr3 (k_vmm k3) = cr3 /\
  g_root_cr3 (k_vmm k3) = g_root_cr3 (k_vmm k1) /\
  (forall s x, s ∈ spaces -> user_byte k3 s x = user_byte k1 s x).
Proof.
  intros [Hu Hf] Hreg Ec Hc k2 k3. destruct (clone_pages _ _ _ _ Hu Ec Hc) as (Hu' & Hnew & (Er & Eg & Eh) & Hm & _).
  assert (hw_cr3 v = g_cr3 v) as Hv by congruence. destruct (switch_active v cr3 Hv) as [S1 S2].
  split; [done|]. split; [split; [by apply switch_users|exact Hf]|]. split_and!; [exact S1|exact S2| |].
  - etransitivity; [apply (switch_root v)|exact Er].
  - intros s x Hs. unfold k3. rewrite (switch_bytes k2). by apply (same_maps_bytes k1 v spaces).
Qed.

Lemma clone_refused (s : vmm P) v : vmm_space_clone s = (0, v) -> exists pl, v = with_pool s pl.
Proof.
  unfold vmm_space_clone, pmm_alloc. destruct (fp_alloc (pool s)) as [p pl].
  destruct (Z.eqb_spec p 0); [intros [= <-]; eauto|]. by intros [? _]%pair_equal_spec.
Qed.

Lemma exec_commit_spec k c cr3 path entry rsp frame :
  let k' := exec_commit k c cr3 path entry rsp frame in
  k_vmm k' = vmm_space_switch (k_vmm k) cr3 /\ k_vfs k' = k_vfs k /\
  g_tasks k' = <[Z.to_nat c := exec_task (get_task k c) cr3 path]> (g_tasks k) /\ k_cpu k' = k_cpu k /\
  (forall r x, user_byte k' r x = user_byte k r x) /\
  hmem (k_heap k') = exec_frame frame entry rsp (hmem (k_heap k)) /\ k_frames k' = k_frames k.
Proof.
  unfold exec_commit, preempt_enable.
  destruct (0 <? _); (split_and!; [done..| |done|done]; intros r x; apply (switch_bytes k)).
Qed.

(** From the new address space on. *)
Lemma exec_image_spec k spaces c tbl path argv frame n fd a f k1 ctx :
  mem_ok k1 spaces -> hw_cr3 (k_vmm k1) = g_cr3 (k_vmm k1) -> zlen (content n) < 2 ^ 63 -> executable n = true ->
  open_file (k_vfs k1) fd a f n -> image_fits (content n) -> opened k spaces c tbl fd a k1 -> hw_cr3 (k_vmm k1) = hw_cr3 (k_vmm k) ->
  ehdr ctx = parse_ehdr (sub (content n) 0 EHDR_SIZE) -> valid_header (ehdr ctx) = true ->
  base_load_paddr ctx = 0 -> base_load_vaddr ctx = 0 ->
  exec_result k spaces c tbl path argv frame n (exec_image k1 c fd ctx path argv frame).
Proof.
  intros Hk Hreg Hsz Hx Ho Himg Hpe Hsame Eh Hval Eb1 Eb2. unfold exec_image.
  destruct (vmm_space_clone (k_vmm k1)) as [cr3 v] eqn:Ec. destruct (Z.eqb_spec cr3 0) as [->|Hc0].
  { destruct (clone_refused _ _ Ec) as [pl ->]. eapply fail_close; [done|by destruct Hpe; split|by left]. }
  destruct (enter_space k1 spaces cr3 v Hk Hreg Ec Hc0) as (Hnew & Hk3 & Hhw & Hg & Hro & Hb3). set (k3 := with_vmm _ _) in *.
  assert (opened k spaces c tbl fd a k3) as Hpe3.
  { destruct Hpe as [A1 A2 A3 A4 A5 A6 A7]. split; try done; [|by rewrite Hro]. intros s x Hs. by rewrite Hb3, A5. }
  destruct (load_program k3 (cr3 :: spaces) cr3 fd a f n ctx Hk3) as (st & l & -> & Hl & Hseg); try done; [set_solver|].
  cbn [mbind option_bind]. pose proof (li_apart _ _ _ _ _ _ Hl) as [Hr4 Hb4].
  assert (forall s, s ∈ spaces -> s ∈ cr3 :: spaces /\ s <> cr3) as Hsub.
  { intros s Hs. split; [set_solver|]. intros ->. done. }
  assert (opened k spaces c tbl fd a (ld_kern l)) as Hpe4.
  { eapply pending_rest; [exact Hpe3|done|]. intros s x [Hs Hne]%Hsub. by apply Hb4. }
  assert (hw_cr3 (k_vmm (ld_kern l)) = g_cr3 (k_vmm (ld_kern l))) as Hreg4.
  { destruct (sr_regs _ _ Hr4) as (_ & -> & ->). by rewrite Hhw, Hg. }
  case_bool_decide as Est; cbn [negb]; [|eapply fail_leave; [by left|done|done]].
  destruct (exec_build_stack (ld_kern l) cr3 path argv) as [rsp k5] eqn:Es.
  destruct (exec_stack (cr3 :: spaces) cr3 ltac:(set_solver) _ _ _ _ _ (li_mem _ _ _ _ _ _ Hl) Es) as (Hk5 & Hr5 & Hb5 & Hst).
  assert (opened k spaces c tbl fd a k5) as Hpe5.
  { eapply pending_rest; [exact Hpe4|done|]. intros s x [Hs Hne]%Hsub. by apply Hb5; [|left]. }
  destruct (Z.eqb_spec rsp 0) as [|Hrsp]; [eapply fail_leave; [by right|done|]|].
  { destruct (sr_regs _ _ Hr5) as (_ & -> & ->). exact Hreg4. }
  destruct (Hst Hrsp) as (page & init & -> & Hlay & Hpage). destruct Hpe5 as [(Q1 & Q2 & Q3) Q4 Q5 Q6 Q7 Q8 _].
  destruct (close_program _ _ _ _ _ Q4 Q5 Q1 Q2 Q3) as (vf & Ecl & Hfds & Htb).
  rewrite (on_vfs_run _ _ _ _ Ecl). cbn [mbind option_bind]. eexists _, _. split; [done|]. right. split; [done|].
  assert (hw_cr3 (k_vmm k5) = cr3) as Hhw5 by (rewrite (proj2 (proj2 (sr_regs _ _ Hr5))); apply Hl).
  exists cr3. rewrite Eh.
  destruct (exec_commit_spec (with_vfs k5 vf) c cr3 path (e_entry (parse_ehdr (sub (content n) 0 EHDR_SIZE)))
    (EXEC_USER_STACK + EXEC_STACK_SIZE - 4096 + init) frame) as (C1 & C2 & C3 & C4 & C5 & C6 & C7).
  set (k' := exec_commit _ _ _ _ _ _ _) in *. cbn [g_tasks k_heap with_vfs k_frames] in *.
  assert (forall s x, user_byte k' s x = user_byte k5 s x) as Hb' by exact C5.
  split; try done.
  - split; [done|]. by rewrite <-Eh.
  - split; [rewrite C1; by apply switch_users, Hk5|]. intros b. rewrite C7. apply Hk5.
  - rewrite C1. cbn [k_vmm k_heap with_vfs]. unfold vmm_space_switch. destruct (_ =? _); [done|done].
  - by rewrite C2.
  - by rewrite C2.
  - eexists. split; [rewrite C3, Q6; reflexivity|]. unfold get_task. cbn [g_tasks with_vfs]. by rewrite Q6.
  - intros s x Hs. by rewrite Hb', Q7.
  - intros i ph Hi x Hx'. rewrite Hb'. destruct (if_seg _ Himg i Hi) as (S1 & S2 & S3 & S4 & S5). fold ph in S1, S2, S3, S4, S5.
    rewrite Hb5; [by apply Hseg|set_solver|right; lia].
  - exists page, init. split_and!; [done| |].
    + intros i Hi. rewrite Hb'. by apply Hpage.
    + rewrite C6. cbn [k_heap with_vfs]. rewrite Q8. apply exec_frame_enters.
Qed.

Lemma elf_exec_current_spec k spaces c tbl path argv frame n :
  mem_ok k spaces -> hw_cr3 (k_vmm k) = g_cr3 (k_vmm k) -> program (k_vfs k) c tbl path n -> image_fits (content n) ->
  exec_result k spaces c tbl path argv frame n (elf_exec_current k (Some path) argv frame).
Proof.
  intros Hk Hreg Hp Himg. unfold elf_exec_current, sched_current, g_current.
  rewrite (proj1 (pr_table _ _ _ _ _ Hp)).
  destruct (open_program _ _ _ _ _ Hp) as (fd & s' & Eo & [[-> Htb]|(Hfd & Hsl & a & f & Ha & Hp' & Ho)]);
    rewrite (on_vfs_run _ _ _ _ Eo); cbn [mbind option_bind].
  { eexists _, _. split; [done|]. left. split_and!; [done|by split|by left]. }
  destruct (Z.ltb_spec fd 0); [lia|]. set (k1 := with_vfs k s').
  assert (opened k spaces c tbl fd a k1) as Hpe by (split; try done; apply Hp').
  rewrite (on_vfs_run _ k1 _ _ (may_exec_program _ _ _ _ _ Hp')). cbn [mbind option_bind].
  change (with_vfs k1 (k_vfs k1)) with k1.
  destruct (executable n) eqn:Hx; cbn [negb]; [|eapply fail_close; [done|done|by left]].
  destruct (init_program k s' 0 fd a f n Ho (pr_size _ _ _ _ _ Hp) Himg) as (st & ctx & Ei & Hst).
  fold k1 in Ei. change (with_vfs k1 s') with k1. rewrite Ei. cbn [mbind option_bind].
  case_bool_decide as Est; cbn [negb]; [|eapply fail_close; [done|done|by left]]. destruct (Hst Est) as (Eh & Hval & Eb1 & Eb2).
  eapply exec_image_spec; try done; [by destruct Hk; split|apply (pr_size _ _ _ _ _ Hp)].
Qed.
End Execve.


(** *** A program in a small file system *)

Definition prog_nodes (image : list Z) : gmap Z vfs_node :=
  {[ 1 := VfsNode [SLASH] VFS_DIR 0 0 0 [] 0 0 None 0 0 0 2;
     2 := VfsNode (bs "p") VFS_FILE 493 0 0 image (zlen image) (zlen image) None 0 1 0 0 ]}.

Definition prog_vfs (image : list Z) : vfs (option (dev feed)) :=
  let s := k_vfs demo_kern in Vfs (prog_nodes image) ∅ ∅ 1 (tables s) (cur s) 3 [] (devs s).

Definition prog_kern (image : list Z) : kern pmm feed := with_vfs demo_kern (prog_vfs image).

Lemma prog_lookup image x n : prog_nodes image !! x = Some n ->
  (x = 1 /\ n = VfsNode [SLASH] VFS_DIR 0 0 0 [] 0 0 None 0 0 0 2) \/
  (x = 2 /\ n = VfsNode (bs "p") VFS_FILE 493 0 0 image (zlen image) (zlen image) None 0 1 0 0).
Proof. unfold prog_nodes. intros [[<- <-]|[_ [<- <-]%lookup_singleton_Some]]%lookup_insert_Some; auto. Qed.

Definition prog_kids (x : Z) : list Z := if x =? 1 then [2] else [].

Lemma prog_kid d c : c ∈ prog_kids d -> d = 1 /\ c = 2.
Proof.
  unfold prog_kids. destruct (Z.eqb_spec d 1); [intros E%list_elem_of_singleton; auto|]. by intros E%elem_of_nil.
Qed.

Lemma prog_tree image : tree (prog_vfs image) prog_kids.
Proof.
  split; cbn [nodes g_root next_id prog_vfs].
  - eexists. split; [reflexivity|done].
  - intros a n [[-> _]|[-> _]]%prog_lookup; lia.
  - intros d n [[-> ->]|[-> ->]]%prog_lookup; (repeat split; done).
  - intros d n [[-> ->]|[-> ->]]%prog_lookup; done.
  - intros d Hd. unfold prog_kids. destruct (Z.eqb_spec d 1) as [->|]; [done|done].
  - intros d c [-> ->]%prog_kid. eexists. split; [reflexivity|]. split; [done|].
    split_and!; [repeat constructor; lia| |cbn; lia]. intros E%list_elem_of_singleton. done.
  - intros d c c' n n' [-> ->]%prog_kid [_ ->]%prog_kid; done.
Qed.

Lemma demo_kern_ok : mem_ok demo_kern [].
Proof.
  split; [|intros a; reflexivity]. split; [|by intros *; intros []%not_elem_of_nil..].
  apply spaces_boot; [|done|done| |done].
  - apply PmmOk; vm_compute; intuition discriminate.
  - intros (f & E & Hr & Hf). assert (f = 8) as -> by (unfold FRAME_SIZE in E; cbn in E; lia).
    revert Hf. vm_compute. discriminate.
Qed.

Lemma prog_program image : zlen image < 2 ^ 63 ->
  program (prog_vfs image) 0 (replicate 16 0) (bs "/p")
    (VfsNode (bs "p") VFS_FILE 493 0 0 image (zlen image) (zlen image) None 0 1 0 0).
Proof.
  intros Hsz. pose proof (zlen_nonneg image).
  assert (forall j tbl, tables (prog_vfs image) !! j = Some tbl -> tbl = replicate 16 0) as Hz.
  { intros j tbl E. apply elem_of_list_to_map_2 in E. apply list_elem_of_fmap in E as (i & [= _ ->] & _). done. }
  split; try done.
  - exists prog_kids, 2. split_and!; [apply prog_tree|done|done].
  - repeat constructor.
  - unfold file_ok. cbn. split_and!; lia.
  - unfold content. cbn. by rewrite sub_all.
  - by apply (no_files_ok _ 0).
Qed.

Lemma demo_image_fits : image_fits demo_image.
Proof.
  split; [vm_compute; discriminate|vm_compute; discriminate|exact demo_table| |].
  - intros i ph [Hi Hl]. destruct (demo_index i Hi) as [-> | [-> | ->]]; [vm_compute in Hl; discriminate| |];
      vm_compute; repeat split; (reflexivity || discriminate).
  - intros i j h [Hi Hl] [Hj Hl'] Hlt.
    destruct (demo_index i Hi) as [-> | [-> | ->]]; [vm_compute in Hl; discriminate| |];
      destruct (demo_index j Hj) as [-> | [-> | ->]]; try lia. left. vm_compute. discriminate.
Qed.


(** The example succeeds, and its bytes can be read back. *)
Example prog_runs :
  (fun r => (fst r, map (user_byte (snd r) (hw_cr3 (k_vmm (snd r)))) [0x400000; 0x400003; 0x401001],
             bool_decide (hw_cr3 (k_vmm (snd r)) = t_cr3 (get_task (snd r) 0))))
    <$> elf_exec_current (prog_kern demo_image) (Some (bs "/p")) [Some (bs "x")] VMM_KHEAP_BASE =
  Some (0, [Some 10; Some 0; Some 21], true).
Proof. vm_compute. reflexivity. Qed.

(** An image whose only segment is larger than the machine's memory. *)
Definition huge_image : list Z :=
  [0x7f; 69; 76; 70; 2; 1; 1; 0] ++ le_bytes 8 0 ++ le_bytes 2 2 ++ le_bytes 2 62 ++ le_bytes 4 1 ++
  le_bytes 8 0x400000 ++ le_bytes 8 64 ++ le_bytes 8 0 ++ le_bytes 4 0 ++ le_bytes 2 64 ++ le_bytes 2 56 ++
  le_bytes 2 1 ++ le_bytes 6 0 ++ demo_phdr 1 120 0x400000 0 0x100000.

(** The task has replaced its image once, and the file then becomes [huge_image]. *)
Definition exec_then_huge : option (Z * kern pmm feed * (Z * kern pmm feed)) :=
  '(_, k) ← elf_exec_current (prog_kern demo_image) (Some (bs "/p")) [] VMM_KHEAP_BASE;
  let k := with_vfs k (prog_vfs huge_image) in
  r ← elf_exec_current k (Some (bs "/p")) [] VMM_KHEAP_BASE;
  Some (t_cr3 (get_task k 0), k, r).

(** A failed execve does not leave the task running in its own memory.
    When the new image cannot be loaded, [elf_exec_current] returns -ENOEXEC
    with the task's recorded address space unchanged, but with the kernel's own
    address space active: the page that holds the caller's code is no longer
    mapped when the system call returns. *)
Theorem execve_failure_leaves_root :
  exists cr3 k r k', exec_then_huge = Some (cr3, k, (r, k')) /\
    hw_cr3 (k_vmm k) = cr3 /\ user_byte k (hw_cr3 (k_vmm k)) 0x400000 = Some 10 /\
    r = - ENOEXEC /\ t_cr3 (get_task k' 0) = cr3 /\ user_byte k' cr3 0x400000 = Some 10 /\
    hw_cr3 (k_vmm k') = g_root_cr3 (k_vmm k') /\ user_byte k' (hw_cr3 (k_vmm k')) 0x400000 = None.
Proof.
  assert ((fun '(cr3, k, (r, k')) =>
             (hw_cr3 (k_vmm k) - cr3, user_byte k (hw_cr3 (k_vmm k)) 0x400000, r, t_cr3 (get_task k' 0) - cr3,
              user_byte k' cr3 0x400000, hw_cr3 (k_vmm k') - g_root_cr3 (k_vmm k'),
              user_byte k' (hw_cr3 (k_vmm k')) 0x400000)) <$> exec_then_huge =
          Some (0, Some 10, - ENOEXEC, 0, Some 10, 0, None)) as E by (vm_compute; reflexivity).
  destruct exec_then_huge as [[[cr3 k] [r k']]|]; [|discriminate].
  apply (inj Some) in E. repeat (apply pair_equal_spec in E as [E ?]).
  exists cr3, k, r, k'. split_and!; try done; lia.
Qed.
