(* ===== verification/Syscall.v ===== *)
(** * System calls (src/kernel/syscall/syscall.c)

    The dispatcher of interrupt 0x80 with its handlers: argument checks, the
    anonymous mappings ([sys_mmap], [sys_munmap]), [sys_execve],
    [sys_arch_prctl], [sys_writev], and the calls into the file system, the
    timer and the scheduler.

    Pointers of the caller are addresses in the active address space; the
    accesses of the kernel through them are those of UserMem. [None] is a page
    fault in the kernel (or one of the faults of the components it calls). A
    kernel-mode caller's pointers into kernel memory are not part of that view.
    A path counts as faulting when it has no end in mapped memory, and a buffer
    to write when it is not mapped as a whole, unless the call fails before it
    uses the buffer.

    A call may end in three ways: it returns a value, the caller waits inside
    the call, or the caller is gone. *)

From stdpp Require Import base numbers list gmap.
From Stdlib Require Import ZArith Lia ZifyBool.
From S2P Require Import Prelude.
From S2P Require Import Interfaces.
From S2P Require Import Hardware.
From S2P Require Import Keyboard.
From S2P Require Import Klib.
From S2P Require Import Pmm.
From S2P Require Import Vmm.
From S2P Require Import VmmTables.
From S2P Require Import Kmalloc.
From S2P Require Import Pipe.
From S2P Require Import Vfs.
From S2P Require Import VfsFd.
From S2P Require Import VfsData.
From S2P Require Import Fb.
From S2P Require Import Devices.
From S2P Require Import Sched.
From S2P Require Import ElfLoad.
From S2P Require Import UserMem.
From S2P Require Import TusElf.

Definition EPERM : Z := 1.
Definition EFAULT : Z := 14.
Definition ENOSYS : Z := 38.
Definition USER_HALF_MAX : Z := 0x00007fffffffffff.
Definition ARCH_SET_FS : Z := 0x1002.
Definition ARCH_GET_FS : Z := 0x1003.
Definition MAP_ANONYMOUS : Z := 0x20.

(** The numbers of syscall.h. *)
Definition SYS_EXIT : Z := 0.
Definition SYS_READ : Z := 1.
Definition SYS_WRITE : Z := 2.
Definition SYS_OPEN : Z := 3.
Definition SYS_CLOSE : Z := 4.
Definition SYS_IOCTL : Z := 5.
Definition SYS_GETPID : Z := 6.
Definition SYS_UPTIME : Z := 7.
Definition SYS_SLEEP : Z := 8.
Definition SYS_MKDIR : Z := 9.
Definition SYS_UNLINK : Z := 10.
Definition SYS_READDIR : Z := 11.
Definition SYS_MMAP : Z := 12.
Definition SYS_MUNMAP : Z := 13.
Definition SYS_ARCH_PRCTL : Z := 14.
Definition SYS_WRITEV : Z := 15.
Definition SYS_TIME : Z := 16.
Definition SYS_FTRUNCATE : Z := 17.
Definition SYS_EXECVE : Z := 18.
Definition SYS_CHMOD : Z := 19.
Definition SYS_GETUID : Z := 20.
Definition SYS_GETEUID : Z := 21.
Definition SYS_SETUID : Z := 22.
Definition SYS_GETGID : Z := 23.
Definition SYS_SETGID : Z := 24.
Definition SYS_PIPE : Z := 25.
Definition SYS_DUP2 : Z := 26.
Definition SYS_DUP : Z := 27.

(** The register image on the kernel stack; all are 64-bit words. *)
Record syscall_regs := SyscallRegs {
  rax : Z;
  rdi : Z;
  rsi : Z;
  rdx : Z;
  r10 : Z;
  r8 : Z;
  r9 : Z;
}.

(** How a call ends. [Transfer n] waits in a read or write that has moved [n]
    bytes, [Sleep t] waits for tick [t]; [Gone] has the stack pointer of the
    task that runs next. *)
Inductive outcome :=
  | Ret (r : Z)
  | Transfer (n : Z)
  | Sleep (target : Z)
  | Gone (rsp : option Z).

Definition access_ok (from_user : bool) (ptr len : Z) : bool :=
  if negb from_user then true
  else
    let e := u64 (ptr + len) in
    (ptr <=? e) && (e <=? USER_HALF_MAX).

(** ** Loops over memory *)

(** At most [p] rounds of [f], until one of them has a result. *)
Fixpoint rounds {S R : Type} (p : positive) (f : S -> S + R) (s : S) : S + R :=
  match p with
  | xH => f s
  | xO q => match rounds q f s with inl s => rounds q f s | inr r => inr r end
  | xI q =>
      match f s with
      | inl s => match rounds q f s with inl s => rounds q f s | inr r => inr r end
      | inr r => inr r
      end
  end.

(** [cur->fs_base = ...] and the like. *)
Definition set_fs_base (t : task) (x : Z) : task :=
  Task (t_pid t) (t_state t) (t_name t) (t_kstack t) (t_kstack_top t) (t_rsp t) (t_ustack t) (t_ustack_top t)
    (t_cr3 t) (t_fpu t) x (t_uid t) (t_euid t) (t_gid t) (t_egid t) (t_mmap_cur t) (t_exit_status t).
Definition set_mmap_cur (t : task) (x : Z) : task :=
  Task (t_pid t) (t_state t) (t_name t) (t_kstack t) (t_kstack_top t) (t_rsp t) (t_ustack t) (t_ustack_top t)
    (t_cr3 t) (t_fpu t) (t_fs_base t) (t_uid t) (t_euid t) (t_gid t) (t_egid t) x (t_exit_status t).
Definition set_uids (t : task) (x : Z) : task :=
  Task (t_pid t) (t_state t) (t_name t) (t_kstack t) (t_kstack_top t) (t_rsp t) (t_ustack t) (t_ustack_top t)
    (t_cr3 t) (t_fpu t) (t_fs_base t) x x (t_gid t) (t_egid t) (t_mmap_cur t) (t_exit_status t).
Definition set_gids (t : task) (x : Z) : task :=
  Task (t_pid t) (t_state t) (t_name t) (t_kstack t) (t_kstack_top t) (t_rsp t) (t_ustack t) (t_ustack_top t)
    (t_cr3 t) (t_fpu t) (t_fs_base t) (t_uid t) (t_euid t) x x (t_mmap_cur t) (t_exit_status t).

Definition canonical (a : Z) : bool := (a <? 2 ^ 47) || (2 ^ 64 - 2 ^ 47 <=? a).

Definition node_type_num (t : node_type) : Z :=
  match t with VFS_DIR => 1 | VFS_FILE => 2 | VFS_DEVICE => 3 end.

(** [struct vfs_dirent] as [vfs_readdir] fills it. *)
Definition dirent_bytes (e : vfs_dirent) : list Z :=
  splice (replicate 64 0) 0 (d_name e) ++ le_bytes 4 (node_type_num (d_type e)) ++
  le_bytes 4 (d_size e) ++ le_bytes 4 (d_mode e).

(** How many bytes of its argument a request reads. *)
Definition ioctl_reads (request : Z) : Z :=
  if (request =? TCSETS) || (request =? TCSETSW) || (request =? TCSETSF) then termios_size
  else if request =? FB_IOCTL_FILL then 4
  else 0.

Section Syscall.
Context {P H : Type} `{FramePool P} `{Ports H} (junk : Z -> Z).
Implicit Types k : kern P H.

(** ** Reading the caller's memory *)

Definition byte_of k (va : Z) : option Z := user_byte k (hw_cr3 (k_vmm k)) va.

(** A string, to its NUL. *)
Definition user_string k (va : Z) : option (list Z) :=
  match rounds (2 ^ 47) (fun '(a, acc) =>
          match byte_of k a with
          | None => inr None
          | Some b => if b =? 0 then inr (Some (rev acc)) else inl (a + 1, b :: acc)
          end) (va, []) with
  | inl _ => None
  | inr r => r
  end.

(** A path argument; [Some None] is the null pointer. *)
Definition user_path k (va : Z) : option (option (list Z)) :=
  if va =? 0 then Some None else Some <$> user_string k va.

(** The copies of [sys_execve]: at most [n] bytes of a string. *)
Fixpoint copy_string (n : nat) k (va : Z) : option (list Z) :=
  match n with
  | O => Some []
  | S n' =>
      b ← byte_of k va;
      if b =? 0 then Some [] else l ← copy_string n' k (va + 1); Some (b :: l)
  end.

Definition user_word k (va : Z) : option Z := le_value <$> user_load k va 8.

(** A file system call that uses the [n] bytes at [va]; when they are not
    all mapped, only the results that [failed] recognises are returned. *)
Definition with_buffer {A} k (va n : Z) (call : list Z -> M (option (dev H)) A) (failed : A -> bool)
    : option (A * kern P H) :=
  match user_load k va n with
  | Some buf => on_vfs (call buf) k
  | None =>
      '(r, k') ← on_vfs (call (replicate (Z.to_nat n) 0)) k;
      if failed r then Some (r, k') else None
  end.

Definition io_failed (r : io) : bool := match r with IoRet r _ => r <? 0 | IoWait _ => false end.

(** [vfs_write(fd, va, n)]. *)
Definition user_write k (fd va n : Z) : option (io * kern P H) :=
  if va =? 0 then on_vfs (vfs_write junk fd None 0) k
  else with_buffer k va n (fun buf => vfs_write junk fd (Some buf) 0) io_failed.

(** ** Handlers *)

Definition sys_exit k (status : Z) : option (outcome * kern P H) :=
  '(rsp, k) ← task_exit k (s32 status); Some (Gone rsp, k).

(** One round of the loop of [sys_munmap]. *)
Definition unmap_one (page cr3 : Z) k : kern P H :=
  let '(phys, v) := vmm_translate_in (k_vmm k) cr3 page in
  let k := with_vmm k v in
  if phys =? 0 then k
  else
    let v := vmm_unmap_page_in (k_vmm k) cr3 page in
    with_vmm k (with_pool v (fp_free (pool v) (Z.ldiff phys 0xFFF))).

Fixpoint unmap_loop (n : nat) (page cr3 : Z) k : kern P H :=
  match n with
  | O => k
  | S n' => unmap_loop n' (page + 4096) cr3 (unmap_one page cr3 k)
  end.

Definition page_up (len : Z) : Z := Z.ldiff (u64 (len + 0xFFF)) 0xFFF.

Definition sys_munmap k (addr len : Z) : Z * kern P H :=
  match sched_current k with
  | None => (- EINVAL, k)
  | Some c =>
      if (s64 len <=? 0) || negb (Z.land addr 0xFFF =? 0) then (- EINVAL, k)
      else
        let bytes := page_up len in
        let last := u64 (addr + bytes) in
        if (USER_HALF_MAX <? last) || (last <? addr) then (- EINVAL, k)
        else (0, unmap_loop (page_count addr last) addr (t_cr3 (get_task k c)) k)
  end.

(** The pages of [sys_mmap]; the result is the page that could not be
    mapped, if any. *)
Fixpoint mmap_loop (n : nat) (page cr3 : Z) k : option Z * kern P H :=
  match n with
  | O => (None, k)
  | S n' =>
      let '(frame, v) := pmm_alloc (k_vmm k) in
      let k := with_vmm k v in
      if frame =? 0 then (Some page, k)
      else
        let k := zero_frame k frame in
        let '(rc, v) := vmm_map_page_in (k_vmm k) cr3 page frame PAGE_FLAGS in
        let k := with_vmm k v in
        if negb (rc =? 0) then (Some page, with_vmm k (with_pool v (fp_free (pool v) frame)))
        else mmap_loop n' (page + 4096) cr3 k
  end.

Definition sys_mmap k (addr len prot flags : Z) : Z * kern P H :=
  match sched_current k with
  | None => (- EINVAL, k)
  | Some c =>
      if s64 len <=? 0 then (- EINVAL, k)
      else if Z.land flags MAP_ANONYMOUS =? 0 then (- EINVAL, k)
      else
        let start := if addr =? 0 then t_mmap_cur (get_task k c) else addr in
        if negb (Z.land start 0xFFF =? 0) then (- EINVAL, k)
        else
          let bytes := page_up len in
          let last := u64 (start + bytes) in
          if (USER_HALF_MAX <? last) || (last <? start) then (- ENOMEM, k)
          else
            match mmap_loop (page_count start last) start (t_cr3 (get_task k c)) k with
            | (Some page, k) => (- ENOMEM, snd (sys_munmap k start (u64 (page - start))))
            | (None, k) => (s64 start, set_task k c (set_mmap_cur (get_task k c) last))
            end
  end.

(** A write of IA32_FS_BASE faults on an address that is not canonical. *)
Definition wrmsr_fs_base k (addr : Z) : option (kern P H) :=
  if canonical addr then Some (with_cpu k (Cpu (rsp0 (k_cpu k)) (fpu_regs (k_cpu k)) addr)) else None.

Definition sys_arch_prctl k (op addr : Z) (from_user : bool) : option (Z * kern P H) :=
  match sched_current k with
  | None => Some (- EINVAL, k)
  | Some c =>
      if op =? ARCH_SET_FS then
        let k := set_task k c (set_fs_base (get_task k c) addr) in
        k ← wrmsr_fs_base k addr;
        Some (0, k)
      else if op =? ARCH_GET_FS then
        if negb (access_ok from_user addr 8) then Some (- EFAULT, k)
        else k ← user_store k addr (le_bytes 8 (t_fs_base (get_task k c))); Some (0, k)
      else Some (- EINVAL, k)
  end.

(** The segments from [iov] on, [n] of them. *)
Fixpoint writev_loop (n : nat) k (fd iov total : Z) (from_user : bool) : option (outcome * kern P H) :=
  match n with
  | O => Some (Ret total, k)
  | S n' =>
      base ← user_word k iov;
      len ← user_word k (iov + 8);
      if negb (access_ok from_user base len) then Some (Ret (if 0 <? total then total else - EFAULT), k)
      else
        '(r, k) ← user_write k fd base len;
        match r with
        | IoWait t => Some (Transfer (total + t), k)
        | IoRet r _ =>
            if r <? 0 then Some (Ret (if 0 <? total then total else r), k)
            else writev_loop n' k fd (iov + 16) (total + r) from_user
        end
  end.

Definition sys_writev k (fd iov count : Z) (from_user : bool) : option (outcome * kern P H) :=
  if (s64 count <? 0) || (256 <? s64 count) then Some (Ret (- EINVAL), k)
  else if negb (access_ok from_user iov (count * 16)) then Some (Ret (- EFAULT), k)
  else writev_loop (Z.to_nat count) k (s64 fd) iov 0 from_user.

(** The argument strings from [uargv] on, at most [n]; [inr] is an error. *)
Fixpoint copy_argv (n : nat) k (uargv : Z) (from_user : bool) : option (list (list Z) + Z) :=
  match n with
  | O => Some (inl [])
  | S n' =>
      if negb (access_ok from_user uargv 8) then Some (inr (- EFAULT))
      else
        s ← user_word k uargv;
        if s =? 0 then Some (inl [])
        else if negb (access_ok from_user s 1) then Some (inr (- EFAULT))
        else
          arg ← copy_string 127 k s;
          rest ← copy_argv n' k (uargv + 8) from_user;
          Some (match rest with inl l => inl (arg :: l) | inr e => inr e end)
  end.

Definition sys_execve k (r : syscall_regs) (from_user : bool) (frame_rsp : Z) : option (Z * kern P H) :=
  if negb from_user then Some (- EPERM, k)
  else if negb (access_ok from_user (rdi r) 1) then Some (- EFAULT, k)
  else
    path ← copy_string 255 k (rdi r);
    if bool_decide (path = []) then Some (- ENOENT, k)
    else
      args ← (if rsi r =? 0 then Some (inl []) else copy_argv 16 k (rsi r) from_user);
      match args with
      | inr e => Some (e, k)
      | inl args => elf_exec_current k (Some path) (map Some (tail args)) frame_rsp
      end.

(** ** The dispatcher *)

(** The devices see the pid of the task that makes the call. *)
Definition set_caller k : kern P H :=
  on_dev k (fun d => Some (Dev (d_fb d) (g_fb_active d) (g_ready d) (d_kbd d) (g_termios d) (g_tty_pend d)
    (g_tty_pend_n d) (g_tty_pend_i d) (fb_info d) ((fun c => t_pid (get_task k c)) <$> sched_current k) (d_hw d))).

Definition ret (m : option (Z * kern P H)) : option (outcome * kern P H) := '(r, k) ← m; Some (Ret r, k).

(** A field of the current task. *)
Definition of_current k (f : task -> Z) (none : Z) : option (outcome * kern P H) :=
  Some (Ret (match sched_current k with Some c => f (get_task k c) | None => none end), k).

Definition set_current k (f : task -> task) : option (outcome * kern P H) :=
  match sched_current k with
  | None => Some (Ret (- EPERM), k)
  | Some c => Some (Ret 0, set_task k c (f (get_task k c)))
  end.

(** A call that takes a path. *)
Definition path_call k (from_user : bool) (va : Z) (f : option (list Z) -> M (option (dev H)) Z)
    : option (outcome * kern P H) :=
  if negb (access_ok from_user va 1) then Some (Ret (- EFAULT), k)
  else path ← user_path k va; ret (on_vfs (f path) k).

Definition sys_read k (from_user : bool) (r : syscall_regs) : option (outcome * kern P H) :=
  if negb (access_ok from_user (rsi r) (rdx r)) then Some (Ret (- EFAULT), k)
  else
    '(res, k) ← on_vfs (vfs_read (s32 (rdi r)) (negb (rsi r =? 0)) (rdx r)) k;
    match res with
    | IoWait t => Some (Transfer t, k)
    | IoRet n bytes => k ← user_store k (rsi r) bytes; Some (Ret n, k)
    end.

Definition sys_write k (from_user : bool) (r : syscall_regs) : option (outcome * kern P H) :=
  if negb (access_ok from_user (rsi r) (rdx r)) then Some (Ret (- EFAULT), k)
  else
    '(res, k) ← user_write k (s32 (rdi r)) (rsi r) (rdx r);
    Some (match res with IoWait t => Transfer t | IoRet n _ => Ret n end, k).

Definition sys_readdir k (from_user : bool) (r : syscall_regs) : option (outcome * kern P H) :=
  if negb (access_ok from_user (rsi r) (rdx r)) then Some (Ret (- EFAULT), k)
  else
    '((n, entries), k) ← on_vfs (vfs_readdir (s32 (rdi r)) (negb (rsi r =? 0)) (rdx r)) k;
    k ← user_store k (rsi r) (concat (map dirent_bytes entries));
    Some (Ret n, k).

(** The bytes of the argument that no request reads are zeros here. *)
Definition sys_ioctl k (from_user : bool) (r : syscall_regs) : option (outcome * kern P H) :=
  if negb (access_ok from_user (rdx r) 64) then Some (Ret (- EFAULT), k)
  else
    let call := vfs_ioctl (s32 (rdi r)) (rsi r) in
    '((n, bytes), k) ←
      (if rdx r =? 0 then on_vfs (call []) k
       else with_buffer k (rdx r) (ioctl_reads (rsi r)) (fun buf => call (buf ++ [0])) (fun '(n, _) => n <? 0));
    k ← user_store k (rdx r) bytes;
    Some (Ret n, k).

Definition sys_pipe k (from_user : bool) (va : Z) : option (outcome * kern P H) :=
  '((r, (fd0, fd1)), k) ← on_vfs vfs_pipe_open k;
  if r <? 0 then Some (Ret r, k)
  else if negb (access_ok from_user va 8) then Some (Ret (- EFAULT), k)
  else
    k ← user_store k va (le_bytes 4 fd0 ++ le_bytes 4 fd1);
    Some (Ret 0, k).

Definition sys_sleep k (ms : Z) : outcome :=
  let target := sleep_target (g_ticks k) (u32 ms) in
  if g_ticks k <? target then Sleep target else Ret 0.

Definition syscall_dispatch k (r : syscall_regs) (cs frame_rsp : Z) : option (outcome * kern P H) :=
  let from_user := Z.land cs 3 =? 3 in
  let k := set_caller k in
  let n := rax r in
  if n =? SYS_EXIT then sys_exit k (rdi r)
  else if n =? SYS_EXECVE then ret (sys_execve k r from_user frame_rsp)
  else if n =? SYS_PIPE then sys_pipe k from_user (rdi r)
  else if n =? SYS_DUP2 then ret (on_vfs (vfs_dup2 (s64 (rdi r)) (s64 (rsi r))) k)
  else if n =? SYS_DUP then ret (on_vfs (vfs_dup (s64 (rdi r))) k)
  else if n =? SYS_READ then sys_read k from_user r
  else if n =? SYS_WRITE then sys_write k from_user r
  else if n =? SYS_OPEN then path_call k from_user (rdi r) (fun path => vfs_open path (s32 (rsi r)))
  else if n =? SYS_CLOSE then ret (on_vfs (vfs_close (s32 (rdi r))) k)
  else if n =? SYS_IOCTL then sys_ioctl k from_user r
  else if n =? SYS_GETPID then of_current k t_pid 1
  else if n =? SYS_UPTIME then Some (Ret (s64 (pit_uptime_ms (g_ticks k))), k)
  else if n =? SYS_SLEEP then Some (sys_sleep k (rdi r), k)
  else if n =? SYS_MKDIR then path_call k from_user (rdi r) (fun path => vfs_mkdir path (u32 (rsi r)))
  else if n =? SYS_CHMOD then path_call k from_user (rdi r) (fun path => vfs_chmod path (u32 (rsi r)))
  else if n =? SYS_UNLINK then path_call k from_user (rdi r) vfs_unlink
  else if n =? SYS_READDIR then sys_readdir k from_user r
  else if n =? SYS_MMAP then ret (Some (sys_mmap k (rdi r) (rsi r) (rdx r) (r10 r)))
  else if n =? SYS_MUNMAP then ret (Some (sys_munmap k (rdi r) (rsi r)))
  else if n =? SYS_ARCH_PRCTL then ret (sys_arch_prctl k (rdi r) (rsi r) from_user)
  else if n =? SYS_WRITEV then sys_writev k (rdi r) (rsi r) (rdx r) from_user
  else if n =? SYS_TIME then Some (Ret (s64 (pit_uptime_ms (g_ticks k) / 1000)), k)
  else if n =? SYS_FTRUNCATE then ret (on_vfs (vfs_ftruncate junk (s32 (rdi r)) (s64 (rsi r))) k)
  else if n =? SYS_GETUID then of_current k t_uid 0
  else if n =? SYS_GETEUID then of_current k t_euid 0
  else if n =? SYS_SETUID then set_current k (fun t => set_uids t (u32 (rdi r)))
  else if n =? SYS_GETGID then of_current k t_gid 0
  else if n =? SYS_SETGID then set_current k (fun t => set_gids t (u32 (rdi r)))
  else Some (Ret (- ENOSYS), k).
End Syscall.

(** ** Checks of pointers *)

Lemma access_ok_spec ptr len : 0 <= ptr < 2 ^ 64 -> 0 <= len < 2 ^ 64 ->
  access_ok true ptr len = true <-> ptr + len < 2 ^ 47.
Proof.
  intros Hp Hl. unfold access_ok, USER_HALF_MAX, u64. cbn [negb].
  destruct (Z.ltb_spec (ptr + len) (2 ^ 64)).
  - rewrite Z.mod_small by lia. lia.
  - assert ((ptr + len) mod 2 ^ 64 = ptr + len - 2 ^ 64) as -> by divlia. lia.
Qed.

(** ** Anonymous memory *)

Section Memory.
Context {P H : Type} `{FramePool P} `{Ports H}.
Context (spaces : list Z) (cr3 : Z) (Hcr3 : cr3 ∈ spaces).
Implicit Types k : kern P H.

(** [k'] is [k] but for the pages from [lo] to [hi] of [cr3], which read as [b]. *)
Record repaged k (lo hi : Z) (b : option Z) k' : Prop := Repaged {
  rg_ok : mem_ok k' spaces;
  rg_rest : same_rest k k';
  rg_bytes r x : r ∈ spaces ->
    user_byte k' r x = if decide (r = cr3 /\ lo <= x < hi) then b else user_byte k r x;
}.

Lemma repaged_refl k lo b : mem_ok k spaces -> repaged k lo lo b k.
Proof. intros Hk. split; [done|apply same_rest_refl|]. intros r x Hr. by rewrite decide_False by lia. Qed.

Lemma repaged_trans k1 k2 k3 lo mid hi b : lo <= mid <= hi ->
  repaged k1 lo mid b k2 -> repaged k2 mid hi b k3 -> repaged k1 lo hi b k3.
Proof.
  intros Hm [O1 R1 B1] [O2 R2 B2]. split; [done|by eapply same_rest_trans|]. intros r x Hr.
  rewrite B2, B1 by done. repeat destruct (decide _); (done || lia).
Qed.

Lemma unmap_one_spec k page :
  mem_ok k spaces -> user_half page -> page mod 4096 = 0 -> repaged k page (page + 4096) None (unmap_one page cr3 k).
Proof.
  intros Hk Hh Hal. pose proof (user_half_index _ Hh) as Hi. unfold unmap_one.
  destruct (vmm_translate_in (k_vmm k) cr3 page) as [p v1] eqn:Et.
  destruct (translate_pages _ _ _ _ _ _ (mo_users _ _ Hk) Hcr3 Hi Et) as [T1 Hp].
  pose proof (step_mem_ok _ _ _ _ _ _ Hk T1) as Hk1. pose proof (same_rest_step _ _ _ _ _ _ T1) as R1.
  pose proof (step_same_bytes _ _ _ _ _ T1) as B1. set (k1 := with_vmm k v1) in *.
  assert (Hpage : forall x, user_half x -> page <= x < page + 4096 <-> vpage x = vpage page).
  { intros x Hx. rewrite !user_half_vpage by done. divlia. }
  destruct (Z.eqb_spec p 0) as [->|Hp0].
  - split; [done|done|]. intros r x Hr. rewrite B1 by done. destruct (decide _) as [[-> Hx]|]; [|done].
    destruct (user_byte k cr3 x) eqn:Eb; [|done]. pose proof (user_byte_half _ _ _ _ Eb) as Hxh. exfalso.
    unfold user_byte in Eb. destruct (mmu k cr3 x) as [f|] eqn:Ef; [|done]. apply mmu_maps in Ef; [|done].
    apply (Hp f). apply Hpage, same_page_indices in Hx as [Hx1 Hx2]; [|done].
    unfold maps_to, lookup_pte in *. by rewrite <-Hx1, <-Hx2.
  - destruct Hp as [Hm _]. assert (maps_to (k_vmm k1) cr3 page (Z.ldiff p 0xFFF)) as Hm1 by by apply (ps_maps _ _ _ _ _ _ T1).
    pose proof (unmap_pages _ _ _ _ (mo_users _ _ Hk1) Hcr3 Hi) as U. set (v := vmm_unmap_page_in (k_vmm k1) cr3 page) in *.
    destruct (uo_frame _ _ (mo_users _ _ Hk1) _ _ _ Hcr3 Hi Hm1) as (Ha & Hr & Hav & Hnt).
    pose proof (mapped_frame _ _ _ _ _ (mo_users _ _ Hk1) Hcr3 Hi Hm1) as Hff.
    destruct (ps_frames _ _ _ _ _ _ U _ _ _ Hff ltac:(done)) as [_ _ _ Hnt' _].
    assert (users_ok (with_pool v (fp_free (pool v) (Z.ldiff p 0xFFF))) spaces) as Hu.
    { apply free_pages; [apply U|done|lia|done|]. intros r x Hrs Hx Hmx.
      apply (ps_maps _ _ _ _ _ _ U) in Hmx; [|done..]. destruct (decide _) as [|Hne]; [done|].
      apply Hne. by apply (ff_only _ _ _ _ _ Hff). }
    split; [split; [exact Hu|apply Hk]| |].
    + eapply same_rest_trans; [exact R1|]. split; [by destruct k as [[] ? ? ? ? ? ? ?]|apply U].
    + intros r x Hrs. change (user_byte (with_vmm k1 _) r x) with (user_byte (with_vmm k1 v) r x).
      destruct (decide (0 <= x < 2 ^ 47)) as [Hx|Hx].
      * rewrite (step_bytes _ _ _ _ _ _ U r x Hrs Hx), B1 by done.
        specialize (Hpage x Hx). repeat destruct (decide _); (done || lia).
      * rewrite !user_byte_out by done. by destruct (decide _).
Qed.

Lemma unmap_loop_spec n : forall page k,
  mem_ok k spaces -> 0 <= page -> page mod 4096 = 0 -> page + 4096 * Z.of_nat n <= 2 ^ 47 ->
  repaged k page (page + 4096 * Z.of_nat n) None (unmap_loop n page cr3 k).
Proof.
  induction n as [|n IH]; intros page k Hk Hge Hal Hend; cbn [unmap_loop].
  { rewrite Z.mul_0_r, Z.add_0_r. by apply repaged_refl. }
  pose proof (unmap_one_spec k page Hk ltac:(unfold user_half; lia) Hal) as U.
  eapply repaged_trans; [|exact U|]; [lia|].
  replace (page + 4096 * Z.of_nat (S n)) with (page + 4096 + 4096 * Z.of_nat n) by lia.
  apply IH; [apply U|lia|divlia|lia].
Qed.

(** A page that could not be mapped gives its frame back. *)
Lemma unmapped_frame k page f v1 v3 :
  mem_ok k spaces -> user_half page -> pmm_alloc (k_vmm k) = (f, v1) -> f <> 0 ->
  pages_step (k_vmm k) spaces cr3 page None v3 -> frame_for v3 spaces cr3 page f ->
  users_ok (with_pool v3 (fp_free (pool v3) f)) spaces.
Proof.
  intros Hk Hh Ea Hf0 S [Ha Hr _ Hnt _]. apply free_pages; [apply S|done|lia|done|].
  destruct (alloc_users _ _ _ _ (mo_users _ _ Hk) Ea) as (_ & _ & _ & Hfr & _). destruct (Hfr Hf0) as [Hav _].
  intros r x Hrs Hx Hm. apply (ps_maps _ _ _ _ _ _ S) in Hm; [|done..].
  by destruct (uo_frame _ _ (mo_users _ _ Hk) r x f Hrs Hx Hm) as (_ & _ & ? & _).
Qed.

(** One round of the loop of [sys_mmap]. *)
Lemma mmap_round k page f v1 : mem_ok k spaces -> user_half page -> page + 4096 <= 2 ^ 47 -> pmm_alloc (k_vmm k) = (f, v1) ->
  repaged k page page (Some 0) (with_vmm k v1) /\
  (f <> 0 -> forall rc v3, let k2 := zero_frame (with_vmm k v1) f in
     vmm_map_page_in (k_vmm k2) cr3 page f PAGE_FLAGS = (rc, v3) ->
     if rc =? 0 then repaged k page (page + 4096) (Some 0) (with_vmm k2 v3)
     else repaged k page page (Some 0) (with_vmm k2 (with_pool v3 (fp_free (pool v3) f)))).
Proof.
  intros Hk Hh Hend Ea. split.
  - destruct (alloc_users _ _ _ _ (mo_users _ _ Hk) Ea) as (Hu & Ev & _).
    split; [split; [done|apply Hk]| |].
    + split; [by destruct k as [[] ? ? ? ? ? ? ?]|by rewrite Ev].
    + intros r x Hr. rewrite decide_False by lia. unfold user_byte, mmu. cbn. by rewrite Ev.
  - intros Hf0 rc v3 k2 Em.
    destruct (zero_page_spec k spaces cr3 page f v1 rc v3 Hk Hcr3 Hh Ea Hf0 Em) as (Hk3 & R & S & _ & Hff & Hb).
    fold k2 in Hk3, R, Hb. destruct (Z.eqb_spec rc 0) as [->|Hrc].
    + split; [done|done|]. intros r x Hr. rewrite Hb by done. repeat destruct (decide _); (done || lia).
    + split; [split; [|apply Hk3]| |].
      * exact (unmapped_frame k page f v1 v3 Hk Hh Ea Hf0 S (Hff Hrc)).
      * destruct R as [R1 R2]. split; [exact R1|exact R2].
      * intros r x Hr. change (user_byte (with_vmm k2 _) r x) with (user_byte (with_vmm k2 v3) r x).
        rewrite Hb by done. repeat destruct (decide _); (done || lia).
Qed.

Lemma mmap_loop_spec n : forall page k e k',
  mem_ok k spaces -> 0 <= page -> page mod 4096 = 0 -> page + 4096 * Z.of_nat n <= 2 ^ 47 ->
  mmap_loop n page cr3 k = (e, k') ->
  match e with
  | None => repaged k page (page + 4096 * Z.of_nat n) (Some 0) k'
  | Some p => page <= p < page + 4096 * Z.of_nat n /\ p mod 4096 = 0 /\ repaged k page p (Some 0) k'
  end.
Proof.
  induction n as [|n IH]; intros page k e k' Hk Hge Hal Hend E; cbn [mmap_loop] in E.
  { injection E as <- <-. rewrite Z.mul_0_r, Z.add_0_r. by apply repaged_refl. }
  destruct (pmm_alloc (k_vmm k)) as [f v1] eqn:Ea.
  destruct (mmap_round k page f v1 Hk ltac:(unfold user_half; lia) ltac:(lia) Ea) as [R0 R1].
  destruct (Z.eqb_spec f 0) as [->|Hf0]; [injection E as <- <-; split_and!; (done || lia)|].
  destruct (vmm_map_page_in _ cr3 page f PAGE_FLAGS) as [rc v3] eqn:Em. specialize (R1 Hf0 rc v3 Em).
  destruct (Z.eqb_spec rc 0) as [->|Hrc]; cbn [negb] in E; [|injection E as <- <-; split_and!; (done || lia)].
  apply IH in E; [|apply R1|lia|divlia|lia]. destruct e as [p|].
  - destruct E as (Hp & Hpa & E). split_and!; [lia|lia|done|]. eapply repaged_trans; [|exact R1|exact E]. lia.
  - replace (page + 4096 * Z.of_nat (S n)) with (page + 4096 + 4096 * Z.of_nat n) by lia.
    eapply repaged_trans; [|exact R1|exact E]. lia.
Qed.
End Memory.

(** The bytes of the pages that hold [len] bytes. *)
Definition whole_pages (len : Z) : Z := 4096 * ((len + 4095) / 4096).

Lemma page_up_spec len : 0 <= len < 2 ^ 63 -> page_up len = whole_pages len.
Proof.
  intros Hl. unfold page_up, whole_pages. rewrite u64_small by lia. rewrite ldiff_down by lia.
  change 0xFFF with 4095. divlia.
Qed.

Lemma land_page a : 0 <= a -> (Z.land a 0xFFF =? 0) = (a mod 4096 =? 0).
Proof. intros Ha. change 0xFFF with (Z.ones 12). by rewrite Z.land_ones by lia. Qed.

Lemma s64_pos len : 0 <= len < 2 ^ 64 -> (s64 len <=? 0) = negb ((0 <? len) && (len <? 2 ^ 63)).
Proof. intros Hl. unfold s64. rewrite u64_small by done. split_tests; lia. Qed.

(** A range of pages inside the user half. *)
Definition user_range (start len : Z) : Prop :=
  0 <= start /\ start mod 4096 = 0 /\ 0 < len < 2 ^ 63 /\ start + whole_pages len < 2 ^ 47.

Lemma user_range_pages start len : user_range start len ->
  page_count start (u64 (start + page_up len)) = Z.to_nat (whole_pages len / 4096) /\
  4096 * Z.of_nat (Z.to_nat (whole_pages len / 4096)) = whole_pages len /\ 0 < whole_pages len /\
  u64 (start + page_up len) = start + whole_pages len.
Proof.
  intros (H0 & Ha & Hl & He). rewrite page_up_spec by lia. unfold page_count.
  assert (0 < whole_pages len) by (unfold whole_pages; divlia).
  rewrite u64_small by lia. split_and!; [f_equal; f_equal; lia| |done|done].
  rewrite Z2Nat.id by (apply Z.div_pos; lia). unfold whole_pages. rewrite (Z.mul_comm 4096 ((len + 4095) / 4096)), Z.div_mul; lia.
Qed.

Lemma range_test start len : 0 <= start < 2 ^ 64 -> 0 < len < 2 ^ 63 ->
  let last := u64 (start + page_up len) in
  (USER_HALF_MAX <? last) || (last <? start) = negb (start + whole_pages len <? 2 ^ 47).
Proof.
  intros Hs Hl. rewrite page_up_spec by lia. assert (0 < whole_pages len < 2 ^ 64) by (unfold whole_pages; divlia).
  unfold USER_HALF_MAX, u64. destruct (Z.ltb_spec (start + whole_pages len) (2 ^ 64)).
  - rewrite Z.mod_small by lia. lia.
  - assert ((start + whole_pages len) mod 2 ^ 64 = start + whole_pages len - 2 ^ 64) as -> by divlia. lia.
Qed.

Section Mmap.
Context {P H : Type} `{FramePool P} `{Ports H}.
Context (spaces : list Z) (c cr3 : Z) (Hcr3 : cr3 ∈ spaces).
Implicit Types k : kern P H.

Record in_space k : Prop := InSpace {
  is_current : sched_current k = Some c;
  is_cr3 : t_cr3 (get_task k c) = cr3;
  is_ok : mem_ok k spaces;
}.

Lemma same_rest_task k k' i : same_rest k k' -> get_task k' i = get_task k i /\ sched_current k' = sched_current k.
Proof. intros [E _]. rewrite <-E. done. Qed.

Lemma repaged_in_space k lo hi b k' : in_space k -> repaged spaces cr3 k lo hi b k' -> in_space k'.
Proof.
  intros [Hc Ht Hk] [Hk' R _]. destruct (same_rest_task _ _ c R) as [E1 E2].
  split; [by rewrite E2|by rewrite E1|done].
Qed.

Lemma sys_munmap_run k addr len : in_space k -> user_range addr len ->
  exists k', sys_munmap k addr len = (0, k') /\ repaged spaces cr3 k addr (addr + whole_pages len) None k'.
Proof.
  intros [Hc Ht Hk] Hr. destruct (user_range_pages _ _ Hr) as (En & Ew & Hw & _).
  destruct Hr as (Hs & Ha & Hl & He). unfold sys_munmap. rewrite Hc, s64_pos, land_page by lia.
  rewrite (proj2 (Z.eqb_eq _ _) Ha), (proj2 (andb_true_iff (0 <? len) _)) by lia. cbn [negb orb].
  rewrite range_test by lia. rewrite (proj2 (Z.ltb_lt _ _)) by lia. cbn [negb]. rewrite Ht.
  eexists. split; [done|]. rewrite En, <-Ew at 1. by apply unmap_loop_spec; try lia.
Qed.

Lemma sys_munmap_empty k addr : sys_munmap k addr 0 = (- EINVAL, k).
Proof. unfold sys_munmap. by destruct (sched_current k). Qed.

(** Where [sys_mmap] places the mapping. *)
Definition mmap_start k (addr : Z) : Z := if addr =? 0 then t_mmap_cur (get_task k c) else addr.

Lemma sys_mmap_run k addr len prot flags : in_space k -> user_range (mmap_start k addr) len ->
  Z.land flags MAP_ANONYMOUS <> 0 ->
  let start := mmap_start k addr in
  exists r k', sys_mmap k addr len prot flags = (r, k') /\
    ((r = start /\ exists k1, repaged spaces cr3 k start (start + whole_pages len) (Some 0) k1 /\
        k' = set_task k1 c (set_mmap_cur (get_task k c) (start + whole_pages len))) \/
     (r = - ENOMEM /\ exists hi, start <= hi < start + whole_pages len /\
        exists k1, repaged spaces cr3 k start hi (Some 0) k1 /\ repaged spaces cr3 k1 start hi None k')).
Proof.
  intros Hin Hr Hf start. pose proof Hin as [Hc Ht Hk].
  destruct (user_range_pages _ _ Hr) as (En & Ew & Hw & El). fold start in En, El. pose proof Hr as (Hs & Ha & Hl & He).
  fold start in Hs, Ha, He. unfold sys_mmap. rewrite Hc, s64_pos by lia. rewrite (proj2 (andb_true_iff (0 <? len) _)) by lia.
  rewrite (proj2 (Z.eqb_neq _ _) Hf). change (if addr =? 0 then _ else addr) with start. cbn [negb].
  rewrite land_page, (proj2 (Z.eqb_eq _ _) Ha), range_test by lia. rewrite (proj2 (Z.ltb_lt _ _)) by lia. cbn [negb].
  rewrite Ht, En. destruct (mmap_loop _ start cr3 k) as [e k1] eqn:Em.
  apply (mmap_loop_spec spaces cr3 Hcr3) in Em; try lia; [|done]. rewrite Ew in Em. destruct e as [p|].
  - destruct Em as (Hp & Hpa & R1). eexists _, _. split; [reflexivity|]. right. split; [done|].
    exists p. split; [lia|]. exists k1. split; [done|]. rewrite u64_small by lia.
    destruct (decide (p = start)) as [->|Hne].
    { rewrite Z.sub_diag, sys_munmap_empty. cbn [snd]. apply repaged_refl, R1. }
    pose proof (repaged_in_space _ _ _ _ _ Hin R1) as Hin1.
    assert (whole_pages (p - start) = p - start) as Ep by (unfold whole_pages; divlia).
    destruct (sys_munmap_run k1 start (p - start) Hin1) as (k2 & -> & R2).
    { unfold user_range. rewrite Ep. lia. }
    cbn [snd]. rewrite Ep in R2. by replace (start + (p - start)) with p in R2 by lia.
  - eexists _, _. split; [reflexivity|]. left. split; [apply s64_small; lia|]. exists k1. split; [done|].
    rewrite (proj1 (same_rest_task _ _ c (rg_rest _ _ _ _ _ _ _ Em))), El. done.
Qed.
End Mmap.

(** ** What a call may change *)

Section Contained.
Context {P H : Type} `{FramePool P} `{Ports H} (junk : Z -> Z).
Context (spaces : list Z) (c cr3 : Z) (Hcr3 : cr3 ∈ spaces) (Hc : 0 <= c).
Implicit Types k : kern P H.

(** Only the memory of [cr3], the task [c], the file system, the devices and
    the processor's registers differ. *)
Record contained k k' : Prop := Contained {
  cn_ok : mem_ok k' spaces;
  cn_regs : g_root_cr3 (k_vmm k') = g_root_cr3 (k_vmm k) /\ g_cr3 (k_vmm k') = g_cr3 (k_vmm k) /\
            hw_cr3 (k_vmm k') = hw_cr3 (k_vmm k);
  cn_heap : with_hvm (k_heap k') (k_vmm k) = k_heap k;
  cn_bytes r x : r ∈ spaces -> r <> cr3 -> user_byte k' r x = user_byte k r x;
  cn_tasks i : 0 <= i -> i <> c -> get_task k' i = get_task k i;
  cn_self : t_cr3 (get_task k' c) = t_cr3 (get_task k c) /\ t_pid (get_task k' c) = t_pid (get_task k c) /\
            t_state (get_task k' c) = t_state (get_task k c) /\ t_kstack_top (get_task k' c) = t_kstack_top (get_task k c);
  cn_sched : g_next_pid k' = g_next_pid k /\ g_preempt_depth k' = g_preempt_depth k;
}.

Lemma contained_refl k : mem_ok k spaces -> contained k k.
Proof. intros Hk. split; try done. by destruct k as [[] ? ? ? ? ? ? ?]. Qed.

Lemma contained_trans k1 k2 k3 : contained k1 k2 -> contained k2 k3 -> contained k1 k3.
Proof.
  intros [O1 (A1 & B1 & C1) E1 X1 T1 (S1 & S2 & S3 & S4) (D1 & D2)] [O2 (A2 & B2 & C2) E2 X2 T2 (S5 & S6 & S7 & S8) (D3 & D4)].
  split; [done|split_and!; congruence| | | |split_and!; congruence|split_and!; congruence].
  - rewrite <-E1, <-E2. by destruct (k_heap k3).
  - intros. rewrite X2, X1 by done. done.
  - intros. rewrite T2, T1 by done. done.
Qed.

Lemma contained_vfs k v : mem_ok k spaces -> contained k (with_vfs k v).
Proof. intros [Hu Hf]. split; try done. by destruct k as [[] ? ? ? ? ? ? ?]. Qed.

Lemma contained_on_vfs {A} (m : M (option (dev H)) A) k x k' : mem_ok k spaces -> on_vfs m k = Some (x, k') -> contained k k'.
Proof. intros Hk. unfold on_vfs. destruct (m (k_vfs k)) as [[y v]|]; [|done]. intros [= _ <-]. by apply contained_vfs. Qed.

(** A field of the task itself that is neither its space nor its identity. *)
Lemma contained_task k t : mem_ok k spaces ->
  (t_cr3 t = t_cr3 (get_task k c) /\ t_pid t = t_pid (get_task k c) /\ t_state t = t_state (get_task k c) /\
   t_kstack_top t = t_kstack_top (get_task k c)) -> contained k (set_task k c t).
Proof.
  intros [Hu Hf] Ht. split; try done; [by destruct k as [[] ? ? ? ? ? ? ?]|..]; unfold get_task in *;
    cbn [g_tasks set_task with_tasks]; [|].
  - intros i Hi Hne. rewrite !nth_lookup, list_lookup_insert_ne by lia. done.
  - rewrite nth_lookup in *. rewrite nth_lookup. destruct (decide (Z.to_nat c < length (g_tasks k))%nat).
    + by rewrite list_lookup_insert_eq.
    + by rewrite list_insert_ge by lia.
Qed.

Lemma contained_poke k va b k' : mem_ok k spaces -> hw_cr3 (k_vmm k) = cr3 -> poke k va b = Some k' -> contained k k'.
Proof.
  intros Hk Hh E. assert (is_Some (user_byte k (hw_cr3 (k_vmm k)) va)) as Hs.
  { unfold poke in E. unfold user_byte. destruct (mmu k _ va); [done|discriminate]. }
  destruct (poke_spec k spaces va b Hk ltac:(by rewrite Hh) Hs) as (fr & E' & Hok & Hb). rewrite E' in E. injection E as <-.
  split; try done; [by destruct k as [[] ? ? ? ? ? ? ?]|]. intros r x Hr Hne. rewrite Hb by done.
  by rewrite decide_False by (rewrite Hh; tauto).
Qed.

Lemma contained_store l : forall k va k', mem_ok k spaces -> hw_cr3 (k_vmm k) = cr3 -> user_store k va l = Some k' -> contained k k'.
Proof.
  induction l as [|b l IH]; intros k va k' Hk Hh; cbn [user_store]; [intros [= <-]; by apply contained_refl|].
  destruct (poke k va b) as [k1|] eqn:E1; [|done]. cbn [mbind option_bind]. intros E2.
  pose proof (contained_poke _ _ _ _ Hk Hh E1) as C1. eapply contained_trans; [exact C1|].
  eapply IH; [apply C1| |exact E2]. destruct (cn_regs _ _ C1) as (_ & _ & ->). done.
Qed.

Lemma contained_repaged k lo hi b k' : repaged spaces cr3 k lo hi b k' -> contained k k'.
Proof.
  intros [Hk R B]. destruct (sr_regs _ _ R) as (?&?&?). destruct R as [E _].
  assert (g_tasks k' = g_tasks k /\ g_next_pid k' = g_next_pid k /\ g_preempt_depth k' = g_preempt_depth k) as (T1 & T2 & T3)
    by (rewrite <-E; done).
  split; try done.
  - rewrite <-E. by destruct k' as [[] ? ? ? ? ? ? ?].
  - intros r x Hr Hne. rewrite B by done. by rewrite decide_False by tauto.
  - intros i _ _. unfold get_task. by rewrite T1.
  - unfold get_task. by rewrite T1.
Qed.

(** The task [c] runs in its space [cr3]. *)
Record caller k : Prop := Caller {
  cl_space : in_space spaces c cr3 k;
  cl_active : hw_cr3 (k_vmm k) = cr3;
  cl_cursor : 0 <= t_mmap_cur (get_task k c) < 2 ^ 64;
}.

Definition word (x : Z) : Prop := 0 <= x < 2 ^ 64.

Lemma munmap_contained k addr len : in_space spaces c cr3 k -> word addr -> word len -> contained k (snd (sys_munmap k addr len)).
Proof.
  intros Hin Ha Hl. unfold word in *. destruct (decide (addr mod 4096 = 0 /\ 0 < len < 2 ^ 63 /\ addr + whole_pages len < 2 ^ 47)) as [Hr|Hr].
  - destruct (sys_munmap_run spaces c cr3 Hcr3 k addr len Hin) as (k' & -> & R); [unfold user_range; lia|].
    by eapply contained_repaged.
  - pose proof Hin as [Hcur _ Hk]. assert (sys_munmap k addr len = (- EINVAL, k)) as ->; [|by apply contained_refl].
    unfold sys_munmap. rewrite Hcur, s64_pos, land_page by lia.
    destruct (negb _ || _) eqn:E; [done|]. rewrite range_test by lia. destruct (Z.ltb_spec (addr + whole_pages len) (2 ^ 47)); [lia|done].
Qed.

Lemma mmap_contained k addr len prot flags : caller k -> word addr -> word len ->
  contained k (snd (sys_mmap k addr len prot flags)).
Proof.
  intros [Hin _ Hcu] Ha Hl. pose proof Hin as [Hcur _ Hk]. unfold word in *.
  destruct (decide (user_range (mmap_start c k addr) len /\ Z.land flags MAP_ANONYMOUS <> 0)) as [[Hr Hf]|Hr].
  - destruct (sys_mmap_run spaces c cr3 Hcr3 k addr len prot flags Hin Hr Hf) as (r & k' & -> & [(_ & k1 & R & ->)|(_ & hi & _ & k1 & R1 & R2)]).
    + pose proof (contained_repaged _ _ _ _ _ R) as C1. eapply contained_trans; [exact C1|]. apply contained_task; [apply R|].
      by rewrite (proj1 (same_rest_task _ _ c (rg_rest _ _ _ _ _ _ _ R))).
    + eapply contained_trans; eapply contained_repaged; eassumption.
  - assert (exists e, sys_mmap k addr len prot flags = (e, k)) as [e ->]; [|by apply contained_refl].
    assert (0 <= mmap_start c k addr < 2 ^ 64) as Hs by (unfold mmap_start; split_tests; lia).
    unfold sys_mmap. rewrite Hcur, s64_pos by lia. fold (mmap_start c k addr). set (start := mmap_start c k addr) in *.
    destruct (negb _) eqn:E1; [by eauto|]. destruct (Z.land flags MAP_ANONYMOUS =? 0) eqn:E2; [by eauto|].
    rewrite land_page by lia. destruct (negb (start mod 4096 =? 0)) eqn:E3; [by eauto|].
    rewrite range_test by lia. destruct (Z.ltb_spec (start + whole_pages len) (2 ^ 47)); [|by eauto].
    exfalso. apply Hr. unfold user_range. lia.
Qed.

Lemma with_buffer_contained {A} k va n (call : list Z -> M (option (dev H)) A) failed x k' :
  mem_ok k spaces -> with_buffer k va n call failed = Some (x, k') -> contained k k'.
Proof.
  intros Hk. unfold with_buffer. destruct (user_load k va n); [by apply contained_on_vfs|].
  destruct (on_vfs _ k) as [[y k1]|] eqn:E; [|done]. cbn [mbind option_bind].
  destruct (failed y); [|done]. intros [= _ <-]. by eapply contained_on_vfs.
Qed.

Lemma user_write_contained k fd va n x k' : mem_ok k spaces -> user_write junk k fd va n = Some (x, k') -> contained k k'.
Proof.
  intros Hk. unfold user_write. destruct (va =? 0); [by apply contained_on_vfs|by apply with_buffer_contained].
Qed.

Lemma writev_contained n : forall k fd iov total fu x k', mem_ok k spaces ->
  writev_loop junk n k fd iov total fu = Some (x, k') -> contained k k'.
Proof.
  induction n as [|n IH]; intros k fd iov total fu x k' Hk; cbn [writev_loop]; [intros [= _ <-]; by apply contained_refl|].
  destruct (user_word k iov) as [base|]; [|done]. cbn [mbind option_bind].
  destruct (user_word k (iov + 8)) as [len|]; [|done]. cbn [mbind option_bind].
  destruct (negb (access_ok fu base len)); [intros [= _ <-]; by apply contained_refl|].
  destruct (user_write junk k fd base len) as [[r k1]|] eqn:E; [|done]. cbn [mbind option_bind].
  pose proof (user_write_contained _ _ _ _ _ _ Hk E) as C1. destruct r as [r bytes|t].
  - destruct (r <? 0); [intros [= _ <-]; done|]. intros E2. eapply contained_trans; [exact C1|]. eapply IH; [apply C1|exact E2].
  - by intros [= _ <-].
Qed.

(** Stores after a call into the file system. *)
Lemma store_after k k1 va l k2 : hw_cr3 (k_vmm k) = cr3 -> contained k k1 -> user_store k1 va l = Some k2 -> contained k k2.
Proof.
  intros Hh C1 E. eapply contained_trans; [exact C1|]. eapply contained_store; [apply C1| |exact E].
  by destruct (cn_regs _ _ C1) as (_ & _ & ->).
Qed.

Lemma prctl_contained k op addr fu x k' : caller k -> sys_arch_prctl k op addr fu = Some (x, k') -> contained k k'.
Proof.
  intros [[Hcur _ Hk] Hh _]. unfold sys_arch_prctl. rewrite Hcur. destruct (op =? _).
  - unfold wrmsr_fs_base. destruct (canonical addr); [|done]. intros [= _ <-].
    assert (contained k (set_task k c (set_fs_base (get_task k c) addr))) as C1 by by apply contained_task.
    eapply contained_trans; [exact C1|]. destruct C1 as [O1 _ _ _ _ _ _]. destruct O1. split; try done.
    by destruct k as [[] ? ? ? ? ? ? ?].
  - destruct (op =? _); [|intros [= _ <-]; by apply contained_refl].
    destruct (negb _); [intros [= _ <-]; by apply contained_refl|].
    destruct (user_store _ _ _) as [k1|] eqn:E; [|done]. intros [= _ <-].
    eapply store_after; [done|by apply contained_refl|exact E].
Qed.

Lemma calls_contained k fu (r : syscall_regs) va f x k' : caller k ->
  (sys_read k fu r = Some (x, k') \/ sys_write junk k fu r = Some (x, k') \/ sys_readdir k fu r = Some (x, k') \/
   sys_ioctl k fu r = Some (x, k') \/ sys_pipe k fu va = Some (x, k') \/ path_call k fu va f = Some (x, k')) ->
  contained k k'.
Proof.
  intros [[_ _ Hk] Hh _] [E|[E|[E|[E|[E|E]]]]]; revert E.
  - unfold sys_read. destruct (negb _); [intros [= _ <-]; by apply contained_refl|].
    destruct (on_vfs _ k) as [[res k1]|] eqn:E; [|done]. cbn [mbind option_bind]. apply contained_on_vfs in E; [|done].
    destruct res as [n bytes|t]; [|by intros [= _ <-]].
    destruct (user_store k1 _ _) as [k2|] eqn:E2; [|done]. intros [= _ <-]. by eapply store_after.
  - unfold sys_write. destruct (negb _); [intros [= _ <-]; by apply contained_refl|].
    destruct (user_write _ k _ _ _) as [[res k1]|] eqn:E; [|done]. intros [= _ <-]. by eapply user_write_contained.
  - unfold sys_readdir. destruct (negb _); [intros [= _ <-]; by apply contained_refl|].
    destruct (on_vfs _ k) as [[[n es] k1]|] eqn:E; [|done]. cbn [mbind option_bind]. apply contained_on_vfs in E; [|done].
    destruct (user_store k1 _ _) as [k2|] eqn:E2; [|done]. intros [= _ <-]. by eapply store_after.
  - unfold sys_ioctl. destruct (negb _); [intros [= _ <-]; by apply contained_refl|].
    destruct (if rdx r =? 0 then _ else _) as [[[n bytes] k1]|] eqn:E; [|done]. cbn [mbind option_bind].
    assert (contained k k1) as C1 by (destruct (rdx r =? 0); [by eapply contained_on_vfs|by eapply with_buffer_contained]).
    destruct (user_store k1 _ _) as [k2|] eqn:E2; [|done]. intros [= _ <-]. by eapply store_after.
  - unfold sys_pipe. destruct (on_vfs _ k) as [[[n [f0 f1]] k1]|] eqn:E; [|done]. cbn [mbind option_bind].
    apply contained_on_vfs in E; [|done]. destruct (n <? 0); [by intros [= _ <-]|].
    destruct (negb _); [by intros [= _ <-]|].
    destruct (user_store k1 _ _) as [k2|] eqn:E2; [|done]. intros [= _ <-]. by eapply store_after.
  - unfold path_call. destruct (negb _); [intros [= _ <-]; by apply contained_refl|].
    destruct (user_path k va) as [path|]; [|done]. cbn [mbind option_bind]. unfold ret.
    destruct (on_vfs _ k) as [[n k1]|] eqn:E; [|done]. intros [= _ <-]. by eapply contained_on_vfs.
Qed.

Lemma ret_contained k m x k' : (forall y k1, m = Some (y, k1) -> contained k k1) -> ret m = Some (x, k') -> contained k k'.
Proof. intros Hm. unfold ret. destruct m as [[y k1]|]; [|done]. intros [= _ <-]. by eapply Hm. Qed.

Lemma set_current_contained k f x k' : caller k ->
  (t_cr3 (f (get_task k c)) = t_cr3 (get_task k c) /\ t_pid (f (get_task k c)) = t_pid (get_task k c) /\
   t_state (f (get_task k c)) = t_state (get_task k c) /\ t_kstack_top (f (get_task k c)) = t_kstack_top (get_task k c)) ->
  set_current k f = Some (x, k') -> contained k k'.
Proof. intros [[Hcur _ Hk] _ _] Hf. unfold set_current. rewrite Hcur. intros [= _ <-]. by apply contained_task. Qed.

Lemma set_caller_caller k : caller k -> caller (set_caller k) /\ contained k (set_caller k).
Proof.
  intros [[Hcur Ht Hk] Hh Hm]. split; [|by apply contained_vfs].
  split; [split; [exact Hcur|exact Ht|]|exact Hh|exact Hm]. destruct Hk. by split.
Qed.

Lemma dispatch_contained k r cs frame x k' :
  caller k -> word (rdi r) -> word (rsi r) -> rax r <> SYS_EXIT -> rax r <> SYS_EXECVE ->
  syscall_dispatch junk k r cs frame = Some (x, k') -> contained k k'.
Proof.
  intros Hcl Hdi Hsi Hne1 Hne2. destruct (set_caller_caller k Hcl) as [Hcl1 C1]. unfold syscall_dispatch.
  rewrite (proj2 (Z.eqb_neq _ _) Hne1), (proj2 (Z.eqb_neq _ _) Hne2). intros E.
  eapply contained_trans; [exact C1|]. pose proof Hcl1 as [[_ _ Hk] Hh _]. set (k1 := set_caller k) in *.
  clearbody k1. clear C1 Hcl Hne1 Hne2. revert E.
  repeat match goal with |- (if ?b then _ else _) = _ -> _ => destruct b end;
    try (intros [= _ <-]; by apply contained_refl);
    try (intros E; eapply (calls_contained k1 _ r (rdi r) (fun _ => mret 0)); [done|]; by eauto 9);
    try (intros E; eapply (calls_contained k1 _ r _ _); [done|]; do 5 right; exact E);
    try (apply ret_contained; intros y k2; (by apply contained_on_vfs || by apply prctl_contained));
    try (apply set_current_contained; done).
  - apply ret_contained. intros y k2 [= E]. pose proof (mmap_contained k1 (rdi r) (rsi r) (rdx r) (r10 r) Hcl1 Hdi Hsi) as C. by rewrite E in C.
  - apply ret_contained. intros y k2 [= E]. pose proof (munmap_contained k1 (rdi r) (rsi r) (cl_space _ Hcl1) Hdi Hsi) as C. by rewrite E in C.
  - unfold sys_writev. destruct (_ || _); [intros [= _ <-]; by apply contained_refl|].
    destruct (negb _); [intros [= _ <-]; by apply contained_refl|]. by apply writev_contained.
Qed.
End Contained.
