(* ===== verification/SyscallProps.v ===== *)
(** * Properties of the system calls

    What user programs may rely on: calls touch nothing but the caller's own
    memory, bad pointers are refused, anonymous memory is fresh and goes away,
    and the bytes written to a pipe arrive in the memory of the reader. *)

From stdpp Require Import base numbers list gmap.
From Stdlib Require Import ZArith Lia ZifyBool.
From S2P Require Import Prelude.
From S2P Require Import Interfaces.
From S2P Require Import Hardware.
From S2P Require Import Keyboard.
From S2P Require Import Klib.
From S2P Require Import Pmm.
From S2P Require Import Vmm.
From S2P Require Import VmmTables.
From S2P Require Import Kmalloc.
From S2P Require Import Pipe.
From S2P Require Import Vfs.
From S2P Require Import VfsFd.
From S2P Require Import VfsData.
From S2P Require Import Fb.
From S2P Require Import Devices.
From S2P Require Import Sched.
From S2P Require Import ElfLoad.
From S2P Require Import UserMem.
From S2P Require Import TusElf.
From S2P Require Import Syscall.
From S2P Require Import Execve.

(** The pointer and length that a call checks before it does anything. The
    remaining calls with pointers check later: pipe after it has made the pipe,
    writev the segments and execve the argument array as they come to them. *)
Definition pointer_arg (r : syscall_regs) : option (Z * Z) :=
  if bool_decide (rax r ∈ [SYS_READ; SYS_WRITE; SYS_READDIR]) then Some (rsi r, rdx r)
  else if bool_decide (rax r ∈ [SYS_OPEN; SYS_MKDIR; SYS_CHMOD; SYS_UNLINK; SYS_EXECVE]) then Some (rdi r, 1)
  else if rax r =? SYS_IOCTL then Some (rdx r, 64)
  else if (rax r =? SYS_WRITEV) && (rdx r <=? 256) then Some (rsi r, rdx r * 16)
  else if (rax r =? SYS_ARCH_PRCTL) && (rdi r =? ARCH_GET_FS) then Some (rsi r, 8)
  else None.

Record regs_ok (r : syscall_regs) : Prop := RegsOk {
  ro_rdi : word (rdi r);
  ro_rsi : word (rsi r);
  ro_rdx : word (rdx r);
}.

(** A code segment of ring 3. *)
Definition from_user (cs : Z) : Prop := Z.land cs 3 = 3.

#[local] Arguments access_ok : simpl never.

Lemma refused ptr len : word ptr -> word len -> 2 ^ 47 <= ptr + len -> access_ok true ptr len = false.
Proof.
  intros Hp Hl Hb. destruct (access_ok true ptr len) eqn:E; [|done]. apply access_ok_spec in E; [lia|done|done].
Qed.

Section Refusals.
Context {P H : Type} `{FramePool P} `{Ports H} (junk : Z -> Z).
Implicit Types (k : kern P H) (r : syscall_regs).

(** The buffer of read, write, readdir and ioctl, the array of writev, the
    result of arch_prctl and the first byte of a path. *)
Lemma pointer_refused k r cs frame p n c :
  from_user cs -> regs_ok r -> sched_current k = Some c -> pointer_arg r = Some (p, n) -> 2 ^ 47 <= p + n ->
  syscall_dispatch junk k r cs frame = Some (Ret (- EFAULT), set_caller k).
Proof.
  intros Hcs [Hdi Hsi Hdx] Hc Hp Hb. unfold syscall_dispatch. unfold from_user in Hcs. rewrite Hcs. cbn [Z.eqb Pos.eqb].
  assert (sched_current (set_caller k) = Some c) as Hc' by exact Hc. set (k1 := set_caller k) in *. clearbody k1.
  assert (word 1 /\ word 8 /\ word 64) as (W1 & W8 & W64) by (unfold word; lia).
  unfold pointer_arg in Hp.
  destruct (bool_decide_reflect (rax r ∈ [SYS_READ; SYS_WRITE; SYS_READDIR])) as [Hn|_].
  { injection Hp as <- <-. pose proof (refused _ _ Hsi Hdx Hb) as R.
    repeat (apply elem_of_cons in Hn as [->|Hn]); [..|by apply not_elem_of_nil in Hn];
      cbn [Z.eqb Pos.eqb SYS_READ SYS_WRITE SYS_READDIR]; unfold sys_read, sys_write, sys_readdir; by rewrite R. }
  destruct (bool_decide_reflect (rax r ∈ [SYS_OPEN; SYS_MKDIR; SYS_CHMOD; SYS_UNLINK; SYS_EXECVE])) as [Hn|_].
  { injection Hp as <- <-. pose proof (refused _ _ Hdi W1 Hb) as R.
    repeat (apply elem_of_cons in Hn as [->|Hn]); [..|by apply not_elem_of_nil in Hn];
      cbn; unfold path_call, sys_execve; by rewrite R. }
  destruct (Z.eqb_spec (rax r) SYS_IOCTL) as [->|_].
  { injection Hp as <- <-. cbn. unfold sys_ioctl. by rewrite refused. }
  destruct (_ && (rdx r <=? 256)) eqn:E1.
  { apply andb_true_iff in E1 as [->%Z.eqb_eq Hd]. injection Hp as <- <-. cbn. unfold sys_writev. unfold word in *.
    rewrite s64_small by lia. rewrite (proj2 (orb_false_iff _ _)) by lia.
    rewrite refused by (unfold word; lia). done. }
  destruct (_ && (rdi r =? ARCH_GET_FS)) eqn:E2; [|done].
  apply andb_true_iff in E2 as [->%Z.eqb_eq ->%Z.eqb_eq]. injection Hp as <- <-. cbn. unfold sys_arch_prctl. rewrite Hc'. cbn.
  by rewrite refused.
Qed.


Lemma writev_segment_refused k r cs frame base len :
  from_user cs -> regs_ok r -> rax r = SYS_WRITEV -> 0 < rdx r <= 256 -> rsi r + rdx r * 16 < 2 ^ 47 ->
  user_word k (rsi r) = Some base -> user_word k (rsi r + 8) = Some len -> word base -> word len -> 2 ^ 47 <= base + len ->
  syscall_dispatch junk k r cs frame = Some (Ret (- EFAULT), set_caller k).
Proof.
  intros Hcs [_ Hsi _] Hn Hd Hiov Hb Hl Wb Wl Hbad. unfold syscall_dispatch. unfold from_user in Hcs. rewrite Hcs, Hn.
  cbn [Z.eqb Pos.eqb]. cbn. unfold sys_writev. unfold word in Hsi.
  rewrite s64_small by lia. rewrite (proj2 (orb_false_iff _ _)) by lia.
  rewrite (proj2 (access_ok_spec (rsi r) (rdx r * 16) ltac:(lia) ltac:(lia))) by done. cbn [negb].
  destruct (Z.to_nat (rdx r)) as [|n] eqn:E; [lia|]. cbn [writev_loop].
  change (user_word (set_caller k)) with (user_word k). rewrite Hb, Hl. cbn [mbind option_bind]. by rewrite refused.
Qed.

Lemma argv_refused k r cs frame path :
  from_user cs -> regs_ok r -> rax r = SYS_EXECVE -> rdi r + 1 < 2 ^ 47 -> copy_string 255 k (rdi r) = Some path -> path <> [] ->
  2 ^ 47 <= rsi r + 8 -> syscall_dispatch junk k r cs frame = Some (Ret (- EFAULT), set_caller k).
Proof.
  intros Hcs [Hdi Hsi _] Hn Hd Hp Hne Hbad. unfold syscall_dispatch. unfold from_user in Hcs. rewrite Hcs, Hn.
  cbn [Z.eqb Pos.eqb SYS_EXIT SYS_EXECVE]. unfold sys_execve. unfold word in Hdi. cbn [negb].
  rewrite (proj2 (access_ok_spec (rdi r) 1 ltac:(lia) ltac:(lia))) by done. cbn [negb].
  change (copy_string 255 (set_caller k)) with (copy_string 255 k). rewrite Hp. cbn [mbind option_bind].
  rewrite bool_decide_false by done. rewrite (proj2 (Z.eqb_neq (rsi r) 0)) by lia.
  cbn [copy_argv]. rewrite refused by (unfold word in *; lia || done). done.
Qed.

(** pipe has made its pipe when it looks at the pointer. *)
Lemma pipe_refused k r cs frame out k' :
  from_user cs -> regs_ok r -> rax r = SYS_PIPE -> 2 ^ 47 <= rdi r + 8 ->
  syscall_dispatch junk k r cs frame = Some (out, k') ->
  exists e v, out = Ret e /\ e < 0 /\ k' = with_vfs (set_caller k) v.
Proof.
  intros Hcs [Hdi _ _] Hn Hbad. unfold syscall_dispatch. unfold from_user in Hcs. rewrite Hcs, Hn.
  cbn [Z.eqb Pos.eqb]. cbn. unfold sys_pipe, on_vfs.
  destruct (vfs_pipe_open _) as [[[e [fd0 fd1]] v]|]; [|done]. cbn [mbind option_bind].
  rewrite refused by (unfold word in *; lia || done). cbn [negb].
  destruct (Z.ltb_spec e 0) as [He|_]; intros [= <- <-]; eexists _, v; (split; [reflexivity|]); split; try done.
Qed.
End Refusals.



(** C11. An anonymous mapping is fresh memory, or nothing happened. For a page
    range of the caller's space in which nothing is mapped, [sys_mmap] returns:
    either the start address, and then the range reads as zeros and the cursor
    stands behind it; or -ENOMEM. Every byte outside the range, and in the
    second case every byte of every space, is what it was. *)
Theorem mmap_is_fresh {P H} `{FramePool P} `{Ports H} (k : kern P H) spaces c cr3 addr len prot flags :
  cr3 ∈ spaces -> in_space spaces c cr3 k -> length (g_tasks k) = 16%nat -> 0 <= c < 16 ->
  Z.land flags MAP_ANONYMOUS <> 0 ->
  let start := if addr =? 0 then t_mmap_cur (get_task k c) else addr in
  user_range start len ->
  (forall x, start <= x < start + whole_pages len -> user_byte k cr3 x = None) ->
  exists r k', sys_mmap k addr len prot flags = (r, k') /\ mem_ok k' spaces /\
    ((r = start /\ t_mmap_cur (get_task k' c) = start + whole_pages len /\
      forall r' x, r' ∈ spaces -> user_byte k' r' x =
        if decide (r' = cr3 /\ start <= x < start + whole_pages len) then Some 0 else user_byte k r' x) \/
     (r = - ENOMEM /\ get_task k' c = get_task k c /\
      forall r' x, r' ∈ spaces -> user_byte k' r' x = user_byte k r' x)).
Proof.
  intros Hcr3 Hin Hlen Hc Hf start Hr Hfree.
  destruct (sys_mmap_run spaces c cr3 Hcr3 k addr len prot flags Hin Hr Hf) as (r & k' & E & [(-> & k1 & R & ->)|(-> & hi & Hhi & k1 & R1 & R2)]);
    fold (mmap_start c k addr) in start; eexists _, _; (split; [exact E|]).
  - pose proof (sr_rest _ _ (rg_rest _ _ _ _ _ _ _ R)) as Er.
    assert (g_tasks k1 = g_tasks k) as Et by by rewrite <-Er.
    split; [destruct (rg_ok _ _ _ _ _ _ _ R); by split|]. left. split; [done|]. split.
    + rewrite get_set_task by (lia || by rewrite Et). by rewrite Z.eqb_refl.
    + intros r' x Hr'. exact (rg_bytes _ _ _ _ _ _ _ R r' x Hr').
  - split; [apply R2|]. right. split; [done|]. split.
    + rewrite (proj1 (same_rest_task _ _ c (rg_rest _ _ _ _ _ _ _ R2))).
      by rewrite (proj1 (same_rest_task _ _ c (rg_rest _ _ _ _ _ _ _ R1))).
    + intros r' x Hr'. rewrite (rg_bytes _ _ _ _ _ _ _ R2), (rg_bytes _ _ _ _ _ _ _ R1) by done.
      destruct (decide _) as [[-> Hx]|]; [|done]. symmetry. apply Hfree. fold start in Hhi, Hx |- *. lia.
Qed.


(** ** Two tasks and a pipe *)

Section Pipes.
Context {P H : Type} `{FramePool P} `{Ports H} (junk : Z -> Z).
Implicit Types (k : kern P H) (s : vfs (option (dev H))).

(** In the table of task [t], [fd] is an end of the pipe [p]. *)
Record pipe_fd s (t fd p mode : Z) : Prop := PipeFd {
  pf_range : 0 <= fd < 16;
  pf_pipe : p <> 0;
  pf_file : exists tbl a f, tables s !! t = Some tbl /\ slot tbl fd = a /\ a <> 0 /\ files s !! a = Some f /\
    f_pipe f = p /\ Z.land (f_flags f) 3 = mode;
}.

Lemma pipe_fd_same s s' t fd p mode : tables s' = tables s -> files s' = files s -> pipe_fd s t fd p mode -> pipe_fd s' t fd p mode.
Proof. intros Et Ef [R1 R2 (tbl & a & f & R3)]. split; [done|done|]. exists tbl, a, f. by rewrite Et, Ef. Qed.

Lemma fd_get_slot s t tbl fd : cur s = Some t -> tables s !! t = Some tbl -> 0 <= fd < 16 ->
  fd_get fd s = Some (slot tbl fd, s).
Proof.
  intros Hc Ht Hfd. unfold fd_get, fd_table, mbind, M_bind, get, mret, M_ret. rewrite Hc, Ht.
  unfold VFS_MAX_FDS. by rewrite (proj2 (orb_false_iff (fd <? 0) (16 <=? fd))) by lia.
Qed.

Lemma get_pipe_run s p q : pipes s !! p = Some q -> get_pipe p s = Some (q, s).
Proof. intros E. unfold get_pipe. by rewrite E. Qed.

(** A write that fits. *)
Lemma pipe_write_fits q buf : pipe_ok q -> p_refs_r q <> 0 -> p_count q + zlen buf <= 4096 ->
  exists q', pipe_write 3 q buf 0 = Some (WDone (zlen buf), q') /\ pipe_ok q' /\ contents q' = contents q ++ buf /\
    p_refs_w q' = p_refs_w q.
Proof.
  intros Hq Hr Hfit. pose proof (zlen_nonneg buf). pose proof Hq as [_ _ Hcnt]. cbn [pipe_write].
  destruct (Z.ltb_spec 0 (zlen buf)).
  - destruct (pipe_write_round q buf 0) as [| |n q1] eqn:Er.
    + unfold pipe_write_round in Er. rewrite (proj2 (Z.eqb_neq _ _) Hr) in Er. by destruct (_ =? PIPE_BUF_SIZE).
    + unfold pipe_write_round in Er. rewrite (proj2 (Z.eqb_neq _ _) Hr) in Er.
      destruct (Z.eqb_spec (p_count q) PIPE_BUF_SIZE); [unfold PIPE_BUF_SIZE in *; lia|done].
    + destruct (pipe_round_fifo q buf 0 n q1 Hq ltac:(lia) Er) as (Hq1 & Hcont & Hn & _ & _ & _ & Hw).
      assert (n = zlen buf) as -> by (unfold PIPE_BUF_SIZE in Hn; lia). rewrite Z.add_0_l, Z.ltb_irrefl.
      rewrite sub_all in Hcont. by eauto 6.
  - assert (zlen buf = 0) as Ez by lia. exists q. rewrite Ez. split_and!; try done.
    destruct buf; [by rewrite app_nil_r|unfold zlen in Ez; cbn in Ez; lia].
Qed.

Lemma vfs_write_pipe s t fd p q buf :
  cur s = Some t -> pipe_fd s t fd p O_WRONLY -> pipes s !! p = Some q -> pipe_ok q -> p_refs_r q <> 0 ->
  p_count q + zlen buf <= 4096 ->
  exists q', vfs_write junk fd (Some buf) 0 s = Some (IoRet (zlen buf) [], with_pipes s (<[p := q']> (pipes s))) /\
    pipe_ok q' /\ contents q' = contents q ++ buf.
Proof.
  intros Hc [Hfd Hp (tbl & a & f & Ht & Ha & Ha0 & Hf & Hfp & Hm)] Hq Hok Hr Hfit.
  destruct (pipe_write_fits q buf Hok Hr Hfit) as (q' & Ew & Hok' & Hcont & _).
  exists q'. split; [|done]. unfold vfs_write. rewrite (bind_run _ _ _ _ _ (fd_get_slot _ _ _ _ Hc Ht Hfd)), Ha.
  rewrite (proj2 (Z.eqb_neq a 0)) by done. rewrite (bind_run _ _ _ _ _ (get_file_run _ _ _ Hf)), Hm, Hfp.
  cbn [Z.eqb O_WRONLY O_RDONLY]. rewrite (proj2 (Z.eqb_neq p 0)) by done. cbn [negb].
  rewrite (bind_run _ _ _ _ _ (get_pipe_run _ _ _ Hq)), Ew. done.
Qed.

Lemma vfs_read_pipe s t fd p q m :
  cur s = Some t -> pipe_fd s t fd p O_RDONLY -> pipes s !! p = Some q -> pipe_ok q ->
  0 < p_count q <= m ->
  exists s', vfs_read fd true m s = Some (IoRet (p_count q) (contents q), s').
Proof.
  intros Hc [Hfd Hp (tbl & a & f & Ht & Ha & Ha0 & Hf & Hfp & Hm)] Hq Hok Hcnt.
  destruct (pipe_read q m) as [n bytes q'|] eqn:Er.
  2: { exfalso. unfold pipe_read in Er. rewrite (proj2 (Z.eqb_neq (p_count q) 0)) in Er by lia. done. }
  assert (0 <= m) as Hm0 by lia.
  destruct (pipe_read_fifo _ _ _ _ _ Hok Hm0 Er) as (Hok' & Hn & Hcont & Hmin & _).
  assert (contents q' = []) as Hnil.
  { pose proof (zlen_contents _ Hok) as Hz. rewrite Hcont, zlen_app in Hz. pose proof (zlen_nonneg (contents q')).
    assert (zlen (contents q') = 0) as E0 by lia. destruct (contents q'); [done|unfold zlen in E0; cbn in E0; lia]. }
  eexists. unfold vfs_read. rewrite (bind_run _ _ _ _ _ (fd_get_slot _ _ _ _ Hc Ht Hfd)), Ha.
  rewrite (proj2 (Z.eqb_neq a 0)) by done. cbn [negb]. rewrite (bind_run _ _ _ _ _ (get_file_run _ _ _ Hf)), Hm, Hfp.
  cbn [Z.eqb O_WRONLY O_RDONLY]. rewrite (proj2 (Z.eqb_neq p 0)) by done. cbn [negb].
  rewrite (bind_run _ _ _ _ _ (get_pipe_run _ _ _ Hq)), Er, Hcont, Hnil, app_nil_r.
  assert (n = p_count q) as -> by lia. reflexivity.
Qed.

(** After a switch from [a] to [b]. *)
Lemma switch_view k a b spaces : mem_ok k spaces -> hw_cr3 (k_vmm k) = g_cr3 (k_vmm k) ->
  length (g_tasks k) = 16%nat -> 0 <= a < 16 -> 0 <= b < 16 -> a <> b ->
  let k' := switch_to k a b in
  mem_ok k' spaces /\ hw_cr3 (k_vmm k') = t_cr3 (get_task k b) /\ k_vfs k' = k_vfs (with_current k (Some b)) /\
  forall r x, user_byte k' r x = user_byte k r x.
Proof.
  intros [Hu Hf] Hreg Hlen Ha Hb Hne. cbn zeta. set (k' := switch_to k a b).
  assert (k_vmm k' = vmm_space_switch (k_vmm k) (t_cr3 (get_task k b))) as Ev.
  { unfold k', switch_to. cbn [k_vmm with_current with_vfs with_cpu with_vmm with_heap k_heap with_hvm hvm].
    f_equal. rewrite get_set_task by (try lia; cbn; by rewrite length_insert).
    rewrite (proj2 (Z.eqb_neq b a)) by done. cbn [with_cpu].
    change (get_task (with_cpu ?x _) b) with (get_task x b). rewrite get_set_task by lia. by rewrite Z.eqb_refl. }
  split_and!.
  - split; [rewrite Ev; by apply switch_users|exact Hf].
  - rewrite Ev. unfold vmm_space_switch. destruct (Z.eqb_spec (t_cr3 (get_task k b)) (g_cr3 (k_vmm k))); cbn; congruence.
  - done.
  - intros r x. rewrite <-(switch_bytes k (t_cr3 (get_task k b)) r x). unfold user_byte, mmu. rewrite Ev. done.
Qed.

Lemma user_load_bytes k va n l : zlen l = n ->
  (forall x, va <= x < va + n -> user_byte k (hw_cr3 (k_vmm k)) x = Some (byte_at l (x - va))) ->
  user_load k va n = Some l.
Proof.
  intros <- Hb. unfold user_load. replace (Z.to_nat (zlen l)) with (length l) by (unfold zlen; lia).
  revert va Hb. induction l as [|b l IH]; intros va Hb; [done|].
  assert (zlen (b :: l) = 1 + zlen l) as Hlen by (unfold zlen; cbn [length]; lia). pose proof (zlen_nonneg l).
  cbn [length zseq mapM]. rewrite Hb by lia. rewrite Z.sub_diag. cbn [mbind option_bind].
  rewrite IH; [done|]. intros x Hx. rewrite Hb by lia. f_equal. unfold byte_at.
  by replace (Z.to_nat (x - va)) with (S (Z.to_nat (x - (va + 1)))) by lia.
Qed.

Lemma sys_write_run k fd va n l x s' r10 r8 r9 cs frame : from_user cs -> 0 <= fd < 16 -> 0 < va -> 0 <= n -> va + n < 2 ^ 47 ->
  user_load k va n = Some l ->
  vfs_write junk fd (Some l) 0 (k_vfs (set_caller k)) = Some (IoRet x [], s') ->
  syscall_dispatch junk k (SyscallRegs SYS_WRITE fd va n r10 r8 r9) cs frame = Some (Ret x, with_vfs (set_caller k) s').
Proof.
  intros Hcs Hfd Hva Hn Hend Hl Hw. unfold syscall_dispatch. unfold from_user in Hcs. rewrite Hcs.
  cbn [rax rdi rsi rdx Z.eqb Pos.eqb SYS_EXIT SYS_EXECVE SYS_PIPE SYS_DUP2 SYS_DUP SYS_READ SYS_WRITE].
  unfold sys_write. cbn [rdi rsi rdx]. rewrite (proj2 (access_ok_spec va n ltac:(lia) ltac:(lia))) by lia. cbn [negb].
  unfold user_write. rewrite (proj2 (Z.eqb_neq va 0)) by lia. unfold with_buffer.
  change (user_load (set_caller k) va n) with (user_load k va n). rewrite Hl, s32_small by lia.
  unfold on_vfs. by rewrite Hw.
Qed.

Lemma sys_read_run k fd va n bytes x s' r10 r8 r9 cs frame : from_user cs -> 0 <= fd < 16 -> 0 < va -> 0 <= n -> va + n < 2 ^ 47 ->
  vfs_read fd true n (k_vfs (set_caller k)) = Some (IoRet x bytes, s') ->
  syscall_dispatch junk k (SyscallRegs SYS_READ fd va n r10 r8 r9) cs frame =
    (k' ← user_store (with_vfs (set_caller k) s') va bytes; Some (Ret x, k')).
Proof.
  intros Hcs Hfd Hva Hn Hend Hr. unfold syscall_dispatch. unfold from_user in Hcs. rewrite Hcs.
  cbn [rax rdi rsi rdx Z.eqb Pos.eqb SYS_EXIT SYS_EXECVE SYS_PIPE SYS_DUP2 SYS_DUP SYS_READ SYS_WRITE].
  unfold sys_read. cbn [rdi rsi rdx]. rewrite (proj2 (access_ok_spec va n ltac:(lia) ltac:(lia))) by lia. cbn [negb].
  rewrite (proj2 (Z.eqb_neq va 0)) by lia. rewrite s32_small by lia. cbn [negb]. unfold on_vfs. by rewrite Hr.
Qed.
End Pipes.

(** Two tasks with the ends of an empty pipe, the writer running: a filled
    buffer at [va] of the writer, room at [vb] of the reader. *)
Record piped {P H} `{FramePool P} (k : kern P H) (spaces : list Z) (a b wfd rfd p va vb n m : Z) (l : list Z) : Prop := Piped {
  pd_ok : mem_ok k spaces;
  pd_tasks : length (g_tasks k) = 16%nat /\ 0 <= a < 16 /\ 0 <= b < 16 /\ a <> b;
  pd_current : sched_current k = Some a;
  pd_regs : hw_cr3 (k_vmm k) = g_cr3 (k_vmm k);
  pd_reader : t_cr3 (get_task k b) ∈ spaces;
  pd_write : pipe_fd (k_vfs k) a wfd p O_WRONLY;
  pd_read : pipe_fd (k_vfs k) b rfd p O_RDONLY;
  pd_pipe : exists q, pipes (k_vfs k) !! p = Some q /\ pipe_ok q /\ p_count q = 0 /\ p_refs_r q <> 0;
  pd_size : 0 < n <= 4096 /\ n <= m;
  pd_src : 0 < va /\ va + n < 2 ^ 47 /\ user_load k va n = Some l;
  pd_dst : 0 < vb /\ vb + m < 2 ^ 47 /\ forall x, vb <= x < vb + n -> is_Some (user_byte k (t_cr3 (get_task k b)) x);
}.

(** C8. A pipe carries bytes from one address space to another. When the
    writer calls write with [n] bytes of its memory, the scheduler switches to
    the reader, and the reader calls read with room for them, both calls return
    [n], and the reader's memory then holds the writer's bytes. *)
Theorem pipe_carries_bytes {P H} `{FramePool P} `{Ports H} junk (k : kern P H) spaces a b wfd rfd p va vb n m l cs f1 f2 :
  piped k spaces a b wfd rfd p va vb n m l -> from_user cs ->
  exists k1 k2,
    syscall_dispatch junk k (SyscallRegs SYS_WRITE wfd va n 0 0 0) cs f1 = Some (Ret n, k1) /\
    syscall_dispatch junk (switch_to k1 a b) (SyscallRegs SYS_READ rfd vb m 0 0 0) cs f2 = Some (Ret n, k2) /\
    hw_cr3 (k_vmm k2) = t_cr3 (get_task k b) /\ user_load k2 vb n = Some l.
Proof.
  intros [Hok (Hlen & Ha & Hb & Hne) Hcur Hreg Hrs Hw Hr (q & Hq & Hqok & Hq0 & Hqr) [Hn Hnm] (Hva & Hvae & Hl) (Hvb & Hvbe & Hmap)] Hcs.
  destruct (user_load_spec k va n l Hl ltac:(lia)) as [Hzl _].
  destruct (vfs_write_pipe junk (k_vfs (set_caller k)) a wfd p q l) as (q' & Ew & Hq'ok & Hcont); try done.
  { by apply (pipe_fd_same (k_vfs k)). }
  { rewrite Hq0, Hzl. lia. }
  rewrite Hzl in Ew. set (s1 := with_pipes _ _) in Ew. set (k1 := with_vfs (set_caller k) s1).
  destruct (switch_view k1 a b spaces ltac:(destruct Hok; by split) Hreg Hlen Ha Hb Hne) as (Hok2 & Hcr & Hv2 & Hb2).
  set (k2 := switch_to k1 a b) in *.
  assert (p_count q' = n /\ contents q' = l) as [Hcnt' Hcont'].
  { assert (contents q = []) as E0. { unfold contents. by rewrite Hq0. }
    rewrite E0 in Hcont. split; [|done]. rewrite <-(zlen_contents _ Hq'ok), Hcont. done. }
  assert (k_vfs (set_caller k2) = with_devs (k_vfs (with_current k1 (Some b))) (devs (k_vfs (set_caller k2)))) as Hv3.
  { unfold set_caller, on_dev. cbn [k_vfs with_vfs]. by rewrite Hv2. }
  destruct (vfs_read_pipe (k_vfs (set_caller k2)) b rfd p q' m) as (s3 & Er).
  { by rewrite Hv3. }
  { apply (pipe_fd_same (k_vfs k)); [by rewrite Hv3|by rewrite Hv3|done]. }
  { rewrite Hv3. apply lookup_insert_eq. }
  { done. }
  { lia. }
  rewrite Hcnt', Hcont' in Er.
  assert (mem_ok (with_vfs (set_caller k2) s3) spaces) as Hok3 by (destruct Hok2; by split).
  destruct (user_store_spec spaces l (with_vfs (set_caller k2) s3) vb Hok3) as (fr & Es & Hok4 & Hb4).
  { change (hw_cr3 (k_vmm (with_vfs _ _))) with (hw_cr3 (k_vmm k2)). by rewrite Hcr. }
  { intros x Hx. change (user_byte (with_vfs _ _) ?r x) with (user_byte k2 r x). rewrite Hb2.
    change (hw_cr3 (k_vmm (with_vfs _ _))) with (hw_cr3 (k_vmm k2)). rewrite Hcr. apply Hmap. lia. }
  exists k1, (with_frames (with_vfs (set_caller k2) s3) fr). split_and!.
  - eapply (sys_write_run junk k wfd va n l n s1); try done; [apply Hw|lia].
  - rewrite (sys_read_run junk k2 rfd vb m l n s3); try done; [|apply Hr|lia]. rewrite Es. done.
  - exact Hcr.
  - apply user_load_bytes; [done|]. intros x Hx. change (hw_cr3 (k_vmm (with_frames _ _))) with (hw_cr3 (k_vmm k2)).
    rewrite Hb4 by (by rewrite Hcr). rewrite decide_True by (split; [done|lia]). done.
Qed.

(** ** A machine with two user tasks *)

Definition clone1 : Z * vmm pmm := vmm_space_clone (k_vmm demo_kern).
Definition clone2 : Z * vmm pmm := vmm_space_clone (snd clone1).
Definition cr3_0 : Z := fst clone1.
Definition cr3_1 : Z := fst clone2.

Definition user_task (pid state cr3 : Z) : task := set_mmap_cur (demo_task pid state cr3 0) MMAP_CURSOR_START.

(** Task 0 runs; both have empty address spaces. *)
Definition duo : kern pmm feed :=
  with_vmm (with_tasks demo_kern (user_task 1 TASK_RUNNING cr3_0 :: user_task 2 TASK_READY cr3_1 :: replicate 14 no_task))
    (vmm_space_switch (snd clone2) cr3_0).

Lemma duo_spaces : users_ok (k_vmm duo) [cr3_1; cr3_0] /\ (forall x, user_byte duo cr3_0 x = None) /\
  (forall x, user_byte duo cr3_1 x = None) /\ cr3_0 <> cr3_1.
Proof.
  destruct (vmm_space_clone (k_vmm demo_kern)) as [c1 v1] eqn:E1.
  destruct (vmm_space_clone v1) as [c2 v2] eqn:E2.
  assert (clone1 = (c1, v1)) as F1 by exact E1. assert (clone2 = (c2, v2)) as F2 by (unfold clone2; by rewrite F1).
  assert (cr3_0 = c1) as G1 by (unfold cr3_0; by rewrite F1). assert (cr3_1 = c2) as G2 by (unfold cr3_1; by rewrite F2).
  assert (cr3_0 <> 0 /\ cr3_1 <> 0) as [N1 N2] by (split; by_decide).
  rewrite G1 in N1. rewrite G2 in N2.
  destruct (clone_pages _ _ _ _ (mo_users _ _ demo_kern_ok) E1 N1) as (U1 & _ & _ & _ & Z1).
  destruct (clone_pages _ _ _ _ U1 E2 N2) as (U2 & Hnew & _ & M2 & Z2).
  assert (forall r x, user_byte duo r x = user_byte (with_vmm demo_kern v2) r x) as Hb.
  { intros r x. rewrite <-(switch_bytes (with_vmm demo_kern v2) cr3_0). unfold user_byte, mmu, duo. by rewrite F2. }
  assert (forall r x, (forall v f, pml4_index v < 256 -> ~ maps_to v2 r v f) -> user_byte (with_vmm demo_kern v2) r x = None) as Hn.
  { intros r x Hnone. destruct (user_byte (with_vmm demo_kern v2) r x) eqn:Eb; [|done]. pose proof (user_byte_half _ _ _ _ Eb) as Hh.
    unfold user_byte in Eb. destruct (mmu _ r x) as [f|] eqn:Ef; [|done]. apply mmu_maps in Ef; [|done].
    by destruct (Hnone x f (user_half_index _ Hh)). }
  rewrite G1, G2. split_and!.
  - unfold duo. rewrite F2. cbn [snd]. by apply switch_users.
  - intros x. rewrite Hb. apply Hn. intros v f Hv Hm. apply M2 in Hm; [|by apply list_elem_of_singleton|done]. by apply (Z1 v f Hv).
  - intros x. rewrite Hb. apply Hn. intros v f Hv. by apply Z2.
  - intros ->. apply Hnew. by apply list_elem_of_singleton.
Qed.

Lemma duo_empty x : user_byte duo cr3_0 x = None.
Proof. exact (proj1 (proj2 duo_spaces) x). Qed.

Lemma cr3_0_in : cr3_0 ∈ [cr3_1; cr3_0]. Proof. right. left. Qed.
Lemma cr3_1_in : cr3_1 ∈ [cr3_1; cr3_0]. Proof. left. Qed.

Lemma duo_caller : caller [cr3_1; cr3_0] 0 cr3_0 duo.
Proof.
  split; [split; [reflexivity|reflexivity|split; [apply duo_spaces|intros a; reflexivity]]| |by_decide].
  unfold duo, vmm_space_switch. by_decide.
Qed.

Definition mmap_regs : syscall_regs := SyscallRegs SYS_MMAP 0 5000 3 0x22 0 0.



Lemma duo_range : user_range (mmap_start 0 duo 0) 5000.
Proof. unfold user_range. change (mmap_start 0 duo 0) with 0x40000000. change (whole_pages 5000) with 8192. split_and!; (lia || reflexivity). Qed.

Lemma mmap_is_fresh_witness :
  exists r k', sys_mmap duo 0 5000 3 0x22 = (r, k') /\ mem_ok k' [cr3_1; cr3_0] /\
    ((r = 0x40000000 /\ t_mmap_cur (get_task k' 0) = 0x40000000 + whole_pages 5000 /\
      forall r' x, r' ∈ [cr3_1; cr3_0] -> user_byte k' r' x =
        if decide (r' = cr3_0 /\ 0x40000000 <= x < 0x40000000 + whole_pages 5000) then Some 0 else user_byte duo r' x) \/
     (r = - ENOMEM /\ get_task k' 0 = get_task duo 0 /\
      forall r' x, r' ∈ [cr3_1; cr3_0] -> user_byte k' r' x = user_byte duo r' x)).
Proof.
  apply (mmap_is_fresh duo [cr3_1; cr3_0] 0 cr3_0 0 5000 3 0x22 cr3_0_in (cl_space _ _ _ _ duo_caller));
    [reflexivity|lia|discriminate|exact duo_range|]. intros x _. exact (duo_empty x).
Defined.


(** Both tasks map a page, and share a pipe: descriptor 4 of task 0 writes,
    descriptor 3 of task 1 reads. *)
Definition duo_vfs (c : Z) : vfs (option (dev feed)) :=
  Vfs ∅ {[ 20 := VfsFile 0 10 0 O_RDONLY 1; 21 := VfsFile 0 10 0 O_WRONLY 1 ]} {[ 10 := pipe_new ]} 0
    {[ 0 := <[4%nat := 21]> (replicate 16 0); 1 := <[3%nat := 20]> (replicate 16 0) ]} (Some c) 30 [] (Some demo_dev).

Definition duo1 : kern pmm feed := snd (sys_mmap duo 0 100 3 0x22).
Definition duo2 : kern pmm feed := snd (sys_mmap (with_current duo1 (Some 1)) 0 100 3 0x22).
Definition duo_pipe : kern pmm feed := with_vfs duo2 (duo_vfs 0).

Lemma mmap_succeeds (k k2 : kern pmm feed) spaces c cr3 len start :
  cr3 ∈ spaces -> in_space spaces c cr3 k -> mmap_start c k 0 = start -> user_range start len ->
  k2 = snd (sys_mmap k 0 len 3 0x22) -> fst (sys_mmap k 0 len 3 0x22) = start ->
  mem_ok k2 spaces /\
  forall r x, r ∈ spaces -> user_byte k2 r x =
    if decide (r = cr3 /\ start <= x < start + whole_pages len) then Some 0 else user_byte k r x.
Proof.
  intros Hcr3 Hin Hs Hr -> Hf. rewrite <-Hs in Hr.
  destruct (sys_mmap_run spaces c cr3 Hcr3 k 0 len 3 0x22 Hin Hr ltac:(discriminate)) as (r & k' & E & [(_ & k1 & R & ->)|(-> & _)]).
  - rewrite E. cbn [snd]. rewrite Hs in R. destruct R as [[Ru Rf] _ Rb]. split; [by split|exact Rb].
  - rewrite E in Hf. cbn [fst] in Hf. rewrite Hs in Hr. destruct Hr as (? & _). unfold ENOMEM in Hf. lia.
Qed.

Lemma page_range : user_range 0x40000000 100.
Proof. unfold user_range. change (whole_pages 100) with 4096. split_and!; (lia || reflexivity). Qed.

Lemma mem_ok_vfs (k : kern pmm feed) v spaces : mem_ok k spaces -> mem_ok (with_vfs k v) spaces.
Proof. intros []. by split. Qed.

Lemma mem_ok_current (k : kern pmm feed) c spaces : mem_ok k spaces -> mem_ok (with_current k c) spaces.
Proof. apply mem_ok_vfs. Qed.

Lemma user_byte_vfs (k : kern pmm feed) v r x : user_byte (with_vfs k v) r x = user_byte k r x.
Proof. reflexivity. Qed.

Lemma user_byte_current (k : kern pmm feed) c r x : user_byte (with_current k c) r x = user_byte k r x.
Proof. reflexivity. Qed.

Lemma duo1_eq : duo1 = snd (sys_mmap duo 0 100 3 0x22).
Proof. unfold duo1. reflexivity. Qed.

Lemma duo2_eq : duo2 = snd (sys_mmap (with_current duo1 (Some 1)) 0 100 3 0x22).
Proof. unfold duo2. reflexivity. Qed.

Lemma duo_pipe_ok : mem_ok duo_pipe [cr3_1; cr3_0] /\
  forall r x, r ∈ [cr3_1; cr3_0] -> 0x40000000 <= x < 0x40001000 -> user_byte duo_pipe r x = Some 0.
Proof.
  destruct (mmap_succeeds duo duo1 [cr3_1; cr3_0] 0 cr3_0 100 0x40000000 cr3_0_in (cl_space _ _ _ _ duo_caller) eq_refl page_range duo1_eq)
    as [Hok1 Hb1]; [vm_compute; reflexivity|].
  assert (in_space [cr3_1; cr3_0] 1 cr3_1 (with_current duo1 (Some 1))) as Hin1.
  { split; [reflexivity|by_decide|exact (mem_ok_current duo1 _ _ Hok1)]. }
  destruct (mmap_succeeds (with_current duo1 (Some 1)) duo2 [cr3_1; cr3_0] 1 cr3_1 100 0x40000000 cr3_1_in Hin1 ltac:(by_decide) page_range duo2_eq)
    as [Hok2 Hb2]; [vm_compute; reflexivity|].
  split; [exact (mem_ok_vfs duo2 _ _ Hok2)|]. intros r x Hr Hx. unfold duo_pipe. rewrite user_byte_vfs.
  assert (whole_pages 100 = 4096) as Ew by reflexivity. rewrite Ew in Hb1, Hb2. rewrite Hb2 by done. destruct (decide _) as [|Hne]; [done|].
  rewrite user_byte_current, Hb1 by done.
  rewrite decide_True; [done|]. split; [|lia].
  apply elem_of_cons in Hr as [-> | ->%list_elem_of_singleton]; [|done]. exfalso. apply Hne. split; [done|lia].
Qed.

(** The writer's page holds a word. *)
Definition duo_hi : kern pmm feed := default duo_pipe (user_store duo_pipe 0x40000000 (bs "hi!")).

Lemma duo_hi_ok : (exists fr, duo_hi = with_frames duo_pipe fr) /\ mem_ok duo_hi [cr3_1; cr3_0] /\
  (forall x, 0x40000000 <= x < 0x40000003 -> user_byte duo_hi cr3_0 x = Some (byte_at (bs "hi!") (x - 0x40000000))) /\
  forall x, 0x40000000 <= x < 0x40001000 -> is_Some (user_byte duo_hi cr3_1 x).
Proof.
  assert (hw_cr3 (k_vmm duo_pipe) = cr3_0) as E by by_decide.
  destruct (user_store_spec [cr3_1; cr3_0] (bs "hi!") duo_pipe 0x40000000 (proj1 duo_pipe_ok)) as (fr & Es & Hok & Hb).
  - rewrite E. exact cr3_0_in.
  - intros x Hx. rewrite E, (proj2 duo_pipe_ok) by (exact cr3_0_in || (change (zlen (bs "hi!")) with 3 in Hx; lia)). done.
  - change (zlen (bs "hi!")) with 3 in Hb. rewrite E in Hb. unfold duo_hi. rewrite Es. cbn [default from_option id]. split_and!.
    + by exists fr.
    + exact Hok.
    + intros x Hx. rewrite Hb by exact cr3_0_in. by rewrite decide_True by (split; [done|lia]).
    + intros x Hx. rewrite Hb by exact cr3_1_in. destruct (decide _); [done|]. by rewrite (proj2 duo_pipe_ok) by (exact cr3_1_in || lia).
Qed.

(** What [piped] asks for does not depend on the contents of frames, but for
    the two buffers. *)
Lemma piped_frames (k : kern pmm feed) fr spaces a b wfd rfd p va vb n m l l' :
  piped k spaces a b wfd rfd p va vb n m l -> mem_ok (with_frames k fr) spaces -> user_load (with_frames k fr) va n = Some l' ->
  (forall x, vb <= x < vb + n -> is_Some (user_byte (with_frames k fr) (t_cr3 (get_task k b)) x)) ->
  piped (with_frames k fr) spaces a b wfd rfd p va vb n m l'.
Proof. intros [? ? ? ? ? ? ? ? ? (? & ? & _) (? & ? & _)] ? ? ?. by split. Qed.

Lemma duo_zeros : piped duo_pipe [cr3_1; cr3_0] 0 1 4 3 10 0x40000000 0x40000010 3 64 [0; 0; 0].
Proof.
  assert (t_cr3 (get_task duo_pipe 1) = cr3_1 /\ hw_cr3 (k_vmm duo_pipe) = cr3_0) as [E1 E2] by (split; by_decide).
  split.
  - apply duo_pipe_ok.
  - split_and!; try lia. by_decide.
  - reflexivity.
  - by_decide.
  - rewrite E1. exact cr3_1_in.
  - split; [lia|lia|]. eexists _, _, _. split_and!; reflexivity || discriminate.
  - split; [lia|lia|]. eexists _, _, _. split_and!; reflexivity || discriminate.
  - exists pipe_new. split_and!; [reflexivity|split; vm_compute; intuition discriminate|reflexivity|discriminate].
  - lia.
  - split_and!; [lia|lia|]. apply user_load_bytes; [reflexivity|]. intros x Hx. rewrite E2.
    rewrite (proj2 duo_pipe_ok) by (exact cr3_0_in || lia). f_equal.
    assert (x = 0x40000000 \/ x = 0x40000001 \/ x = 0x40000002) as [-> | [-> | ->]] by lia; reflexivity.
  - split_and!; [lia|lia|]. intros x Hx. rewrite E1, (proj2 duo_pipe_ok) by (exact cr3_1_in || lia). done.
Qed.

Lemma hw_cr3_frames (k : kern pmm feed) fr : hw_cr3 (k_vmm (with_frames k fr)) = hw_cr3 (k_vmm k).
Proof. reflexivity. Qed.

Lemma duo_piped : piped duo_hi [cr3_1; cr3_0] 0 1 4 3 10 0x40000000 0x40000010 3 64 (bs "hi!").
Proof.
  assert (t_cr3 (get_task duo_pipe 1) = cr3_1 /\ hw_cr3 (k_vmm duo_pipe) = cr3_0) as [E1 E2] by (split; by_decide).
  destruct duo_hi_ok as ((fr & E) & Hok & Hsrc & Hdst). rewrite E in Hok, Hsrc, Hdst |- *.
  apply (piped_frames _ _ _ _ _ _ _ _ _ _ _ _ _ _ duo_zeros Hok).
  - apply user_load_bytes; [reflexivity|]. intros x Hx. rewrite hw_cr3_frames, E2. apply Hsrc. lia.
  - intros x Hx. rewrite E1. apply Hdst. lia.
Qed.

Lemma pipe_carries_bytes_witness :
  exists k1 k2,
    syscall_dispatch (fun _ => 0) duo_hi (SyscallRegs SYS_WRITE 4 0x40000000 3 0 0 0) 0x1B 0 = Some (Ret 3, k1) /\
    syscall_dispatch (fun _ => 0) (switch_to k1 0 1) (SyscallRegs SYS_READ 3 0x40000010 64 0 0 0) 0x1B 0 = Some (Ret 3, k2) /\
    hw_cr3 (k_vmm k2) = t_cr3 (get_task duo_hi 1) /\ user_load k2 0x40000010 3 = Some (bs "hi!").
Proof. exact (pipe_carries_bytes (fun _ => 0) duo_hi _ 0 1 4 3 10 _ _ 3 64 _ 0x1B 0 0 duo_piped eq_refl). Defined.
