(* ===== verification/Ppm.v ===== *)
(** * PPM images (src/kernel/drivers/ppm.c)

    The decoder for the boot logo. The read pointer is what is left of the
    file; the code compares it with [end] before every access. The heap is
    known by its two operations only: any allocator will do. *)

From stdpp Require Import base numbers list sets.
From Stdlib Require Import ZArith Lia ZifyBool.
From S2P Require Import Prelude.
From S2P Require Import Klib.

(** ** Tokens *)

Definition is_space (c : Z) : bool := (c =? 32) || (c =? 9) || (c =? 13) || (c =? 10).

(** To the end of the line, which is not consumed. *)
Fixpoint skip_comment (p : list Z) : list Z :=
  match p with
  | [] => []
  | c :: r => if c =? 10 then p else skip_comment r
  end.

(** The first loop of [ppm_next_token]; every round consumes a byte. *)
Fixpoint skip_blank (n : nat) (p : list Z) : list Z :=
  match n, p with
  | S n', c :: r =>
      if c =? 35 then skip_blank n' (skip_comment p)
      else if is_space c then skip_blank n' r
      else p
  | _, _ => p
  end.

(** The second loop, with room for [n] bytes. *)
Fixpoint take_token (n : nat) (p : list Z) : list Z * list Z :=
  match n, p with
  | S n', c :: r =>
      if is_space c || (c =? 35) then ([], p)
      else let '(t, q) := take_token n' r in (c :: t, q)
  | _, _ => ([], p)
  end.

Definition TOK_SIZE : nat := 16.

(** The token, as the C string it is used as, and what follows; [None] is
    [false]. *)
Definition ppm_next_token (p : list Z) (out_size : nat) : option (list Z * list Z) :=
  match skip_blank (length p) p with
  | [] => None
  | p =>
      let '(t, p) := take_token (out_size - 1) p in
      if bool_decide (t = []) then None else Some (c_string t, p)
  end.

(** A byte above 127 is a negative [char]: not a digit either way. *)
Fixpoint parse_digits (tok : list Z) (v : Z) : option Z :=
  match tok with
  | [] => Some v
  | c :: tok' =>
      if (s8 c <? 48) || (57 <? s8 c) then None
      else
        let v := u32 (v * 10 + u32 (s8 c - 48)) in
        if 0xFFFF <? v then None else parse_digits tok' v
  end.

Definition ppm_parse_u32 (tok : list Z) : option Z :=
  match tok with [] => None | _ => parse_digits tok 0 end.

(** ** The decoder *)

Record ppm_image := PpmImage {
  img_width : Z;
  img_height : Z;
  img_ptr : Z;
  img_rgb : list Z;
}.

(** The next number of the header: from 1 to [max]. *)
Definition header_number (p : list Z) (max : Z) : option (Z * list Z) :=
  '(tok, p) ← ppm_next_token p TOK_SIZE;
  v ← ppm_parse_u32 tok;
  if (v =? 0) || (max <? v) then None else Some (v, p).

(** Whether the file is binary, width, height, maxval and the rest. *)
Definition ppm_header (p : list Z) : option (bool * Z * Z * Z * list Z) :=
  '(tok, p) ← ppm_next_token p TOK_SIZE;
  binary ← (if strcmp tok (bs "P3") =? 0 then Some false
            else if strcmp tok (bs "P6") =? 0 then Some true
            else None);
  '(width, p) ← header_number p 4096;
  '(height, p) ← header_number p 4096;
  '(maxval, p) ← header_number p 65535;
  Some (binary, width, height, maxval, p).

Fixpoint skip_space (p : list Z) : list Z :=
  match p with
  | c :: r => if is_space c then skip_space r else p
  | [] => []
  end.

(** [(uint8_t)(((uint32_t)p[i] * 255) / maxval)] for a [char] [p[i]]. *)
Definition scale_char (maxval b : Z) : Z := u8 (u32 (u32 (s8 b) * 255) / maxval).

(** [n] bytes of a binary raster; [None] when there are fewer. *)
Definition binary_raster (p : list Z) (n : Z) (maxval : Z) : option (list Z) :=
  let p := skip_space p in
  if zlen p <? n then None
  else if maxval =? 255 then Some (take (Z.to_nat n) p)
  else Some (map (scale_char maxval) (take (Z.to_nat n) p)).

(** [n] numbers of an ASCII raster. *)
Fixpoint ascii_raster (n : nat) (p : list Z) (maxval : Z) : option (list Z) :=
  match n with
  | O => Some []
  | S n' =>
      '(tok, p) ← ppm_next_token p TOK_SIZE;
      v ← ppm_parse_u32 tok;
      out ← ascii_raster n' p maxval;
      Some (u8 (u32 (v * 255) / maxval) :: out)
  end.

Section Decoder.
Context {A : Type} (kmalloc : A -> Z -> option (Z * A)) (kfree : A -> Z -> option A).

(** The inner result is [None] for -1; the outer one when the allocator
    faults. A NULL [data] has no bytes here. *)
Definition ppm_decode (h : A) (data : list Z) : option (option ppm_image * A) :=
  if zlen data <? 4 then Some (None, h)
  else
    match ppm_header data with
    | None => Some (None, h)
    | Some (binary, width, height, maxval, p) =>
        let npixels := width * height in
        '(rgb, h) ← kmalloc h (npixels * 3);
        if rgb =? 0 then Some (None, h)
        else
          match (if binary : bool then binary_raster p (npixels * 3) maxval
                 else ascii_raster (Z.to_nat (npixels * 3)) p maxval) with
          | None => h ← kfree h rgb; Some (None, h)
          | Some bytes => Some (Some (PpmImage width height rgb bytes), h)
          end
    end.
End Decoder.

(** ** The format *)

(** White space and comments. *)
Inductive blanks : list Z -> Prop :=
  | blanks_nil : blanks []
  | blanks_space c b : is_space c = true -> blanks b -> blanks (c :: b)
  | blanks_comment t b : 10 ∉ t -> blanks b -> blanks (35 :: t ++ 10 :: b).

Definition ends_token (c : Z) : bool := is_space c || (c =? 35).

(** A token cannot go on here. *)
Definition stops (p : list Z) : Prop := match p with [] => True | c :: _ => ends_token c = true end.

Definition token (t : list Z) : Prop :=
  t <> [] /\ (length t < TOK_SIZE)%nat /\ Forall (fun c => ends_token c = false /\ c <> 0) t.

Definition dec_value (v0 : Z) (t : list Z) : Z := foldl (fun v c => v * 10 + (c - 48)) v0 t.

(** [t] is a decimal numeral of [v]. *)
Definition number (t : list Z) (v : Z) : Prop :=
  t <> [] /\ (length t < TOK_SIZE)%nat /\ Forall (fun c => 48 <= c <= 57) t /\ dec_value 0 t = v /\ v <= 0xFFFF.

(** [p] is the numbers [vs], each behind a separator, followed by [q]. *)
Inductive numbers (q : list Z) : list Z -> list Z -> Prop :=
  | numbers_nil : stops q -> numbers q q []
  | numbers_cons b t v p vs :
      blanks b -> b <> [] -> number t v -> numbers q p vs -> numbers q (b ++ t ++ p) (v :: vs).

(** ** Tokens are read *)

Lemma skip_comment_line t p : 10 ∉ t -> skip_comment (t ++ 10 :: p) = 10 :: p.
Proof.
  induction t as [|c t IH]; intros Ht; [done|]. cbn [app skip_comment].
  destruct (Z.eqb_spec c 10); [set_solver|apply IH; set_solver].
Qed.

Lemma skip_blank_run n b p :
  blanks b -> match p with [] => True | c :: _ => ends_token c = false end -> (length (b ++ p) <= n)%nat ->
  skip_blank n (b ++ p) = p.
Proof.
  intros Hb Hp. revert n. induction Hb as [|c b Hc Hb IH|t b Ht Hb IH]; intros n Hn; cbn [app].
  - destruct n as [|n], p as [|c p]; try done. cbn [skip_blank]. unfold ends_token in Hp.
    by destruct (c =? 35), (is_space c).
  - destruct n as [|n]; cbn [app length] in Hn; [lia|]. cbn [skip_blank].
    destruct (Z.eqb_spec c 35) as [->|]; [done|]. rewrite Hc. apply IH. lia.
  - rewrite <-app_assoc. cbn [app]. destruct n as [|[|n]]; cbn [app length] in Hn; rewrite ?length_app in Hn; cbn [length] in Hn; [lia|lia|].
    cbn [skip_blank]. rewrite Z.eqb_refl. cbn [skip_comment Z.eqb]. rewrite skip_comment_line by done. cbn [skip_blank].
    change (10 =? 35) with false. change (is_space 10) with true. cbn [app]. apply IH. rewrite ?length_app in *. cbn [length] in Hn. lia.
Qed.

Lemma take_token_run n t p :
  Forall (fun c => ends_token c = false /\ c <> 0) t -> stops p -> (length t <= n)%nat -> take_token n (t ++ p) = (t, p).
Proof.
  intros Ht Hp. revert n. induction Ht as [|c t [Hc _] Ht IH]; intros n Hn; cbn [app].
  - destruct n as [|n], p as [|c p]; try done. cbn [take_token]. unfold stops, ends_token in Hp. by rewrite Hp.
  - destruct n as [|n]; cbn [length] in Hn; [lia|]. cbn [take_token]. unfold ends_token in Hc. rewrite Hc, IH by lia. done.
Qed.

Lemma next_token_run b t p : blanks b -> token t -> stops p -> ppm_next_token (b ++ t ++ p) TOK_SIZE = Some (t, p).
Proof.
  intros Hb (Hne & Hl & Ht) Hp. unfold ppm_next_token. destruct t as [|c t]; [done|]. cbn [app].
  rewrite skip_blank_run; [|done| |done]. 2:{ by apply Forall_inv in Ht as [? _]. }
  change (c :: t ++ p) with ((c :: t) ++ p). unfold TOK_SIZE in *. cbn [Nat.sub]. rewrite take_token_run by (done || lia).
  rewrite bool_decide_eq_false_2 by done. rewrite c_string_nz; [done|].
  intros Hz. rewrite Forall_forall in Ht. by destruct (Ht 0 Hz).
Qed.

Lemma number_token t v : number t v -> token t.
Proof.
  intros (Hne & Hl & Hd & _ & _). split; [done|]. split; [done|]. eapply Forall_impl; [exact Hd|].
  intros c Hc. cbn beta in Hc. split; unfold ends_token, is_space; lia.
Qed.

Lemma dec_value_mono v0 t : Forall (fun c => 48 <= c <= 57) t -> 0 <= v0 -> v0 <= dec_value v0 t.
Proof.
  intros Ht. revert v0. induction Ht as [|c t Hc Ht IH]; intros v0 Hv; [done|]. cbn. etrans; [|apply IH; lia]. lia.
Qed.

Lemma parse_digits_run t v0 :
  Forall (fun c => 48 <= c <= 57) t -> 0 <= v0 -> dec_value v0 t <= 0xFFFF -> parse_digits t v0 = Some (dec_value v0 t).
Proof.
  intros Ht. revert v0. induction Ht as [|c t Hc Ht IH]; intros v0 Hv Hm; [done|]. cbn [parse_digits].
  assert (Es : s8 c = c) by (unfold s8, u8; rewrite Z.mod_small by lia; destruct (Z.ltb_spec c (2 ^ 7)); lia). rewrite Es.
  cbn in Hm. assert (Hb : v0 * 10 + (c - 48) <= 0xFFFF) by (etrans; [by apply dec_value_mono; [|lia]|exact Hm]).
  assert (Eu : u32 (v0 * 10 + u32 (c - 48)) = v0 * 10 + (c - 48)) by (unfold u32; rewrite (Z.mod_small (c - 48)), Z.mod_small; lia).
  rewrite Eu. destruct (Z.ltb_spec c 48); [lia|]. destruct (Z.ltb_spec 57 c); [lia|]. cbn [orb].
  destruct (Z.ltb_spec 0xFFFF (v0 * 10 + (c - 48))); [lia|]. apply IH; [lia|done].
Qed.

Lemma parse_number t v : number t v -> ppm_parse_u32 t = Some v.
Proof. intros (Hne & _ & Hd & <- & Hv). destruct t; [done|]. by apply parse_digits_run. Qed.

Lemma numbers_stops q p vs : numbers q p vs -> stops p.
Proof.
  intros [Hq|b t v p' vs' Hb Hne Ht Hn]; [done|]. destruct Hb as [|c b Hc Hb|s b Hs Hb]; [done| |done].
  cbn. unfold ends_token. by rewrite Hc.
Qed.

Lemma numbers_inv q p v vs : numbers q p (v :: vs) ->
  exists b t p', p = b ++ t ++ p' /\ blanks b /\ number t v /\ stops p' /\ numbers q p' vs.
Proof. inversion 1 as [|b t v' p' vs' Hb Hne Ht Hn]; subst. exists b, t, p'. split_and!; try done. by eapply numbers_stops. Qed.

Lemma header_number_run q p v vs max : numbers q p (v :: vs) -> 1 <= v <= max ->
  exists p', header_number p max = Some (v, p') /\ numbers q p' vs.
Proof.
  intros (b & t & p' & -> & Hb & Ht & Hs & Hn)%numbers_inv Hv. exists p'. split; [|done]. unfold header_number.
  rewrite next_token_run by eauto using number_token. cbn [mbind option_bind]. rewrite (parse_number t v Ht). cbn [mbind option_bind].
  by rewrite (proj2 (Z.eqb_neq v 0)), (proj2 (Z.ltb_ge max v)) by lia.
Qed.

Lemma ascii_raster_run q p vs m : numbers q p vs -> ascii_raster (length vs) p m = Some (map (fun v => u8 (u32 (v * 255) / m)) vs).
Proof.
  revert p. induction vs as [|v vs IH]; intros p Hn; [done|].
  apply numbers_inv in Hn as (b & t & p' & -> & Hb & Ht & Hs & Hn). cbn [length ascii_raster map].
  rewrite next_token_run by eauto using number_token. cbn [mbind option_bind]. rewrite (parse_number t v Ht). cbn [mbind option_bind].
  by rewrite (IH p' Hn).
Qed.

Lemma token_magic (t : list Z) : t = bs "P3" \/ t = bs "P6" -> token t.
Proof. intros [-> | ->]; (split; [done|split; [cbn; unfold TOK_SIZE; lia|by repeat constructor]]). Qed.

(** A header is read back. *)
Lemma ppm_header_run b txt q w h m vs (binary : bool) :
  blanks b -> numbers q txt (w :: h :: m :: vs) -> 1 <= w <= 4096 -> 1 <= h <= 4096 -> 1 <= m ->
  exists p, ppm_header (b ++ bs (if binary then "P6" else "P3") ++ txt) = Some (binary, w, h, m, p) /\ numbers q p vs.
Proof.
  intros Hb Hn Hw Hh Hm. pose proof (numbers_stops _ _ _ Hn) as Hs.
  assert (Hm' : m <= 65535).
  { apply numbers_inv in Hn as (?&?&?&_&_&_&_&Hn). apply numbers_inv in Hn as (?&?&?&_&_&_&_&Hn).
    apply numbers_inv in Hn as (?&?&?&_&_&(_&_&_&_&?)&_&_). done. }
  destruct (header_number_run q txt w (h :: m :: vs) 4096 Hn Hw) as (p1 & E1 & Hn1).
  destruct (header_number_run q p1 h (m :: vs) 4096 Hn1 Hh) as (p2 & E2 & Hn2).
  destruct (header_number_run q p2 m vs 65535 Hn2 ltac:(lia)) as (p3 & E3 & Hn3).
  exists p3. split; [|done]. unfold ppm_header.
  rewrite next_token_run by (done || (apply token_magic; destruct binary; auto)). cbn [mbind option_bind].
  destruct binary; cbn [strcmp]; rewrite ?E1; cbn; rewrite ?E2; cbn; rewrite ?E3; done.
Qed.

Lemma numbers_end q p : numbers q p [] -> p = q.
Proof. by inversion 1. Qed.

(** Magic number and three numbers are at least four bytes. *)
Lemma header_size b txt q w vs (binary : bool) : numbers q txt (w :: vs) -> (zlen (b ++ bs (if binary then "P6" else "P3") ++ txt) <? 4) = false.
Proof.
  inversion 1 as [|b' t v' p' vs' Hb Hne (Ht & _) Hn]; subst. destruct b' as [|c b']; [done|]. destruct t as [|d t]; [done|].
  unfold zlen. rewrite !length_app. destruct binary; cbn; apply Z.ltb_ge; lia.
Qed.

Lemma scaled_sample v m : 1 <= m -> 0 <= v <= m -> m <= 0xFFFF -> u8 (u32 (v * 255) / m) = v * 255 / m.
Proof.
  intros Hm Hv Hb. unfold u32. rewrite (Z.mod_small (v * 255)) by lia. unfold u8. apply Z.mod_small.
  split; [apply Z.div_pos; lia|]. apply Z.div_lt_upper_bound; lia.
Qed.

Section Images.
Context {A : Type} (kmalloc : A -> Z -> option (Z * A)) (kfree : A -> Z -> option A).

Lemma ppm_decode_ascii heap heap' ptr b txt q w h m vs :
  blanks b -> numbers q txt (w :: h :: m :: vs) -> 1 <= w <= 4096 -> 1 <= h <= 4096 -> 1 <= m ->
  Forall (fun v => 0 <= v <= m) vs -> zlen vs = w * h * 3 -> kmalloc heap (w * h * 3) = Some (ptr, heap') -> ptr <> 0 ->
  ppm_decode kmalloc kfree heap (b ++ bs "P3" ++ txt) = Some (Some (PpmImage w h ptr (map (fun v => v * 255 / m) vs)), heap').
Proof.
  intros Hb Hn Hw Hh Hm Hv Hl Hk Hp. unfold ppm_decode. rewrite (header_size b txt q w (h :: m :: vs) false Hn).
  destruct (ppm_header_run b txt q w h m vs false Hb Hn Hw Hh Hm) as (p & E & Hnp). rewrite E, Hk. cbn [mbind option_bind].
  rewrite (proj2 (Z.eqb_neq ptr 0)) by done. unfold zlen in Hl. rewrite <-Hl, Nat2Z.id, (ascii_raster_run q p vs m Hnp).
  do 4 f_equal. apply map_ext_in. intros v Hin%list_elem_of_In. eapply Forall_forall in Hin; [|exact Hv].
  apply numbers_inv in Hn as (?&?&?&_&_&_&_&Hn). apply numbers_inv in Hn as (?&?&?&_&_&_&_&Hn).
  apply numbers_inv in Hn as (?&?&?&_&_&(_&_&_&_&?)&_&_). by apply scaled_sample.
Qed.

Lemma ppm_decode_binary heap heap' ptr b txt w h c raster rest :
  blanks b -> is_space c = true -> numbers (c :: raster ++ rest) txt [w; h; 255] -> 1 <= w <= 4096 -> 1 <= h <= 4096 ->
  zlen raster = w * h * 3 -> kmalloc heap (w * h * 3) = Some (ptr, heap') -> ptr <> 0 ->
  ppm_decode kmalloc kfree heap (b ++ bs "P6" ++ txt) =
    match binary_raster (raster ++ rest) (w * h * 3) 255 with
    | Some bytes => Some (Some (PpmImage w h ptr bytes), heap')
    | None => kfree heap' ptr ≫= fun h' => Some (None, h')
    end.
Proof.
  intros Hb Hc Hn Hw Hh Hl Hk Hp. unfold ppm_decode. rewrite (header_size b txt _ w [h; 255] true Hn).
  destruct (ppm_header_run b txt _ w h 255 [] true Hb Hn Hw Hh ltac:(lia)) as (p & E & ->%numbers_end). rewrite E, Hk. cbn [mbind option_bind].
  rewrite (proj2 (Z.eqb_neq ptr 0)) by done. unfold binary_raster. cbn [skip_space]. by rewrite Hc.
Qed.
End Images.

Lemma raster_kept raster rest n : zlen raster = n -> 0 < n -> is_space (hd 0 raster) = false ->
  binary_raster (raster ++ rest) n 255 = Some raster.
Proof.
  intros Hl Hn Hs. destruct raster as [|x raster]; [cbn in Hl; unfold zlen in Hl; cbn in Hl; lia|].
  unfold binary_raster. cbn [app skip_space hd] in *. rewrite Hs. unfold zlen in *. cbn [length] in *.
  rewrite length_app. destruct (Z.ltb_spec (Z.of_nat (S (length raster + length rest))) n); [lia|]. cbn [Z.eqb Pos.eqb].
  f_equal. change (x :: raster ++ rest) with ((x :: raster) ++ rest). apply take_app_length'. cbn. lia.
Qed.

Lemma skip_space_len p : (length (skip_space p) <= length p)%nat.
Proof. induction p as [|c p IH]; cbn; [lia|]. destruct (is_space c); cbn; lia. Qed.

(** A blank first byte is taken for one more separator. *)
Lemma raster_lost raster n : zlen raster = n -> is_space (hd 0 raster) = true -> binary_raster raster n 255 = None.
Proof.
  intros Hl Hs. destruct raster as [|x raster]; [done|]. unfold binary_raster. cbn [skip_space hd] in *. rewrite Hs.
  pose proof (skip_space_len raster). unfold zlen in *. cbn [length] in Hl.
  destruct (Z.ltb_spec (Z.of_nat (length (skip_space raster))) n); [done|lia].
Qed.

(** Images are read back: a PPM file with any white space and comments in
    its header decodes to the width, height and pixels it was written from.
    In the ASCII form every sample [v] becomes [v * 255 / maxval], whatever
    maxval is; in the binary form with maxval 255 the raster is copied, as long
    as its first byte is not a white space character. *)
Theorem ppm_decodes {A} (kmalloc : A -> Z -> option (Z * A)) kfree heap heap' ptr b txt w h m q vs c raster rest :
  blanks b -> 1 <= w <= 4096 -> 1 <= h <= 4096 -> 1 <= m ->
  kmalloc heap (w * h * 3) = Some (ptr, heap') -> ptr <> 0 ->
  (numbers q txt (w :: h :: m :: vs) -> Forall (fun v => 0 <= v <= m) vs -> zlen vs = w * h * 3 ->
   ppm_decode kmalloc kfree heap (b ++ bs "P3" ++ txt) =
     Some (Some (PpmImage w h ptr (map (fun v => v * 255 / m) vs)), heap')) /\
  (numbers (c :: raster ++ rest) txt [w; h; 255] -> is_space c = true -> zlen raster = w * h * 3 ->
   is_space (hd 0 raster) = false ->
   ppm_decode kmalloc kfree heap (b ++ bs "P6" ++ txt) = Some (Some (PpmImage w h ptr raster), heap')).
Proof.
  intros Hb Hw Hh Hm Hk Hp. split.
  - intros Hn Hv Hl. by eapply ppm_decode_ascii.
  - intros Hn Hc Hl Hs. rewrite (ppm_decode_binary _ _ heap heap' ptr b txt w h c raster rest) by done.
    by rewrite raster_kept by (done || lia).
Qed.

(** A heap that only grows. *)
Definition bump (h n : Z) : option (Z * Z) := Some (h, h + n).
Definition keep (h p : Z) : option Z := Some h.

Ltac number_text := (split; [done|split; [unfold TOK_SIZE; cbn; lia|split; [by_decide|split; [reflexivity|lia]]]]).
Ltac one_number b t := apply (numbers_cons _ b t); [repeat first [apply blanks_nil|apply blanks_space; [reflexivity|]]|discriminate|number_text|].

Lemma ppm_decodes_witness :
  ppm_decode bump keep 4096 (bs "P3" ++ [10] ++ bs "1 1" ++ [10] ++ bs "15" ++ [10] ++ bs "0 5 15") =
    Some (Some (PpmImage 1 1 4096 [0; 85; 255]), 4099) /\
  ppm_decode bump keep 4096 (bs "P6" ++ [10] ++ bs "1 1" ++ [10] ++ bs "255" ++ [10] ++ [200; 32; 10]) =
    Some (Some (PpmImage 1 1 4096 [200; 32; 10]), 4099).
Proof.
  split.
  - apply (ppm_decodes bump keep 4096 4099 4096 [] ([10] ++ bs "1 1" ++ [10] ++ bs "15" ++ [10] ++ bs "0 5 15")
      1 1 15 [] [0; 5; 15] 0 [] []); try (lia || reflexivity || apply blanks_nil).
    + one_number [10] (bs "1"). one_number [32] (bs "1"). one_number [10] (bs "15").
      one_number [10] (bs "0"). one_number [32] (bs "5"). one_number [32] (bs "15"). by apply numbers_nil.
    + by_decide.
  - apply (ppm_decodes bump keep 4096 4099 4096 [] ([10] ++ bs "1 1" ++ [10] ++ bs "255" ++ [10] ++ [200; 32; 10])
      1 1 255 [] [] 10 [200; 32; 10] []); try (lia || reflexivity || apply blanks_nil).
    one_number [10] (bs "1"). one_number [32] (bs "1"). one_number [10] (bs "255"). by apply numbers_nil.
Defined.

(** A binary image whose first byte is 9, 10, 13 or 32 is rejected: the
    decoder skips all white space behind the maxval instead of one character,
    and then misses bytes at the end of the file. *)
Theorem ppm_blank_pixel_rejected {A} (kmalloc : A -> Z -> option (Z * A)) kfree heap heap' ptr b txt w h c raster :
  blanks b -> 1 <= w <= 4096 -> 1 <= h <= 4096 ->
  kmalloc heap (w * h * 3) = Some (ptr, heap') -> ptr <> 0 ->
  numbers (c :: raster) txt [w; h; 255] -> is_space c = true -> zlen raster = w * h * 3 -> is_space (hd 0 raster) = true ->
  ppm_decode kmalloc kfree heap (b ++ bs "P6" ++ txt) = kfree heap' ptr ≫= fun h' => Some (None, h').
Proof.
  intros Hb Hw Hh Hk Hp Hn Hc Hl Hs. rewrite (ppm_decode_binary _ _ heap heap' ptr b txt w h c raster []) by (rewrite ?app_nil_r; done).
  by rewrite app_nil_r, raster_lost.
Qed.

Lemma ppm_blank_pixel_rejected_witness :
  ppm_decode bump keep 4096 (bs "P6" ++ [10] ++ bs "1 1" ++ [10] ++ bs "255" ++ [10] ++ [32; 0; 0]) = Some (None, 4099).
Proof.
  apply (ppm_blank_pixel_rejected bump keep 4096 4099 4096 [] ([10] ++ bs "1 1" ++ [10] ++ bs "255" ++ [10] ++ [32; 0; 0])
    1 1 10 [32; 0; 0]); try (lia || reflexivity || apply blanks_nil).
  one_number [10] (bs "1"). one_number [32] (bs "1"). one_number [10] (bs "255"). by apply numbers_nil.
Defined.

(** ** Every input *)

Lemma skip_comment_bytes p : bytes p -> bytes (skip_comment p).
Proof. induction 1 as [|c p Hc Hp IH]; cbn; [constructor|]. destruct (c =? 10); [by constructor|done]. Qed.

Lemma skip_blank_bytes n p : bytes p -> bytes (skip_blank n p).
Proof.
  revert p. induction n as [|n IH]; intros p Hp; [done|]. destruct p as [|c p]; [done|]. cbn [skip_blank].
  destruct (c =? 35); [by apply IH, skip_comment_bytes|]. destruct (is_space c); [|done]. apply IH. by inversion Hp.
Qed.

Lemma take_token_bytes n p : bytes p -> bytes (snd (take_token n p)).
Proof.
  revert p. induction n as [|n IH]; intros p Hp; [by destruct p|]. destruct p as [|c p]; [done|]. cbn [take_token].
  destruct (_ || _); [done|]. inversion Hp as [|x l Hx Hl]; subst. specialize (IH p Hl). by destruct (take_token n p).
Qed.

Lemma next_token_bytes p n t q : ppm_next_token p n = Some (t, q) -> bytes p -> bytes q.
Proof.
  unfold ppm_next_token. intros E Hp. apply (skip_blank_bytes (length p)) in Hp. destruct (skip_blank _ p) as [|c r]; [done|].
  apply (take_token_bytes (n - 1)) in Hp. destruct (take_token _ _) as [t' q']. cbn in Hp.
  destruct (bool_decide _); [done|]. by injection E as _ <-.
Qed.

Lemma header_number_range p max v q : header_number p max = Some (v, q) -> bytes p -> v <= max /\ v <> 0 /\ bytes q.
Proof.
  unfold header_number. intros ([t q'] & Et & E)%bind_Some Hp. apply bind_Some in E as (v' & _ & E).
  destruct (_ || _) eqn:Ev in E; [done|]. injection E as <- <-. split_and!; [lia|lia|]. by eapply next_token_bytes.
Qed.

Lemma parse_digits_nonneg t v v' : parse_digits t v = Some v' -> 0 <= v -> 0 <= v'.
Proof.
  revert v. induction t as [|c t IH]; intros v; cbn [parse_digits]; [by intros [= <-]|].
  destruct (_ || _); [done|]. destruct (_ <? _); [done|]. intros E _. eapply IH; [exact E|]. unfold u32. apply Z.mod_pos_bound. lia.
Qed.

Lemma header_number_nonneg p max v q : header_number p max = Some (v, q) -> 0 <= v.
Proof.
  unfold header_number. intros ([t q'] & _ & E)%bind_Some. apply bind_Some in E as (v' & Ep & E).
  destruct (_ || _) in E; [done|]. injection E as <- <-. unfold ppm_parse_u32 in Ep. destruct t; [done|]. by eapply parse_digits_nonneg.
Qed.

Lemma ppm_header_range p binary w h m q : ppm_header p = Some (binary, w, h, m, q) -> bytes p ->
  1 <= w <= 4096 /\ 1 <= h <= 4096 /\ 1 <= m <= 65535 /\ bytes q.
Proof.
  unfold ppm_header. intros ([t q0] & Et & E)%bind_Some Hp. apply (next_token_bytes _ _ _ _ Et) in Hp. apply bind_Some in E as (bin & _ & E).
  apply bind_Some in E as ([w' q1] & E1 & E). apply bind_Some in E as ([h' q2] & E2 & E). apply bind_Some in E as ([m' q3] & E3 & E).
  injection E as <- <- <- <- <-. pose proof (header_number_nonneg _ _ _ _ E1). pose proof (header_number_nonneg _ _ _ _ E2). pose proof (header_number_nonneg _ _ _ _ E3).
  apply header_number_range in E1 as (? & ? & Hq1); [|done]. apply header_number_range in E2 as (? & ? & Hq2); [|done].
  apply header_number_range in E3 as (? & ? & Hq3); [|done]. split_and!; (lia || done).
Qed.

Lemma bytes_u8 z : 0 <= u8 z < 256.
Proof. unfold u8. apply Z.mod_pos_bound. lia. Qed.

Lemma skip_space_bytes p : bytes p -> bytes (skip_space p).
Proof. induction 1 as [|c p Hc Hp IH]; cbn; [constructor|]. destruct (is_space c); [done|by constructor]. Qed.

Lemma binary_raster_shape p n m r : binary_raster p n m = Some r -> bytes p -> 0 <= n -> zlen r = n /\ bytes r.
Proof.
  unfold binary_raster. intros E Hp Hn. apply skip_space_bytes in Hp. set (q := skip_space p) in *.
  destruct (Z.ltb_spec (zlen q) n); [done|]. unfold zlen in *.
  assert (Ht : bytes (take (Z.to_nat n) q)) by by apply Forall_take.
  destruct (m =? 255); injection E as <-; rewrite ?length_map, length_take; (split; [lia|]); [done|].
  apply Forall_map, Forall_true. intros b. apply bytes_u8.
Qed.

Lemma ascii_raster_shape n p m r : ascii_raster n p m = Some r -> length r = n /\ bytes r.
Proof.
  revert p r. induction n as [|n IH]; intros p r; cbn [ascii_raster]; [intros [= <-]; split; [done|constructor]|].
  intros ([t q] & _ & E)%bind_Some. apply bind_Some in E as (v & _ & E). apply bind_Some in E as (out & Eo & [= <-]).
  destruct (IH _ _ Eo) as [<- Hb]. split; [done|]. apply Forall_cons. split; [apply bytes_u8|done].
Qed.

(** The decoder is total and typed: on any bytes it returns an image of
    1 to 4096 by 1 to 4096 pixels with exactly three bytes for each, in a
    block of that size which it has allocated and still holds; or -1, and then
    it has allocated nothing or has released the block again. *)
Theorem ppm_decode_typed {A} (kmalloc : A -> Z -> option (Z * A)) kfree heap data :
  bytes data -> (forall n, is_Some (kmalloc heap n)) ->
  (forall n p h1, kmalloc heap n = Some (p, h1) -> is_Some (kfree h1 p)) ->
  exists r heap', ppm_decode kmalloc kfree heap data = Some (r, heap') /\
    match r with
    | Some img =>
        1 <= img_width img <= 4096 /\ 1 <= img_height img <= 4096 /\ bytes (img_rgb img) /\
        zlen (img_rgb img) = img_width img * img_height img * 3 /\ img_ptr img <> 0 /\
        kmalloc heap (img_width img * img_height img * 3) = Some (img_ptr img, heap')
    | None => heap' = heap \/ exists n p h1, kmalloc heap n = Some (p, h1) /\ (p = 0 /\ heap' = h1 \/ kfree h1 p = Some heap')
    end.
Proof.
  intros Hb Hm Hf. unfold ppm_decode. destruct (zlen data <? 4); [exists None, heap; auto|].
  destruct (ppm_header data) as [[[[[binary w] h] m] q]|] eqn:Eh; [|exists None, heap; auto].
  apply ppm_header_range in Eh as (Hw & Hh & Hx & Hq); [|done]. destruct (Hm (w * h * 3)) as [[p h1] Ek]. rewrite Ek. cbn [mbind option_bind].
  destruct (Z.eqb_spec p 0) as [->|Hp]; [exists None, h1; split; [done|]; right; eauto 10|].
  destruct (if binary then _ else _) as [r|] eqn:Er.
  - exists (Some (PpmImage w h p r)), h1. split; [done|]. cbn.
    assert (zlen r = w * h * 3 /\ bytes r) as [Hl Hr].
    { destruct binary; [apply binary_raster_shape in Er; [done|done|lia]|].
      apply ascii_raster_shape in Er as [El Hr]. unfold zlen. split; [lia|done]. }
    split_and!; (lia || done).
  - destruct (Hf _ _ _ Ek) as [h2 E2]. rewrite E2. cbn. exists None, h2. split; [done|]. right. eauto 10.
Qed.

Lemma ppm_decode_typed_witness :
  exists r heap', ppm_decode bump keep 4096 (bs "P6 2 1 255 abcdef") = Some (r, heap').
Proof.
  destruct (ppm_decode_typed bump keep 4096 (bs "P6 2 1 255 abcdef")) as (r & h & E & _).
  - by_decide.
  - by eexists.
  - by eexists.
  - by exists r, h.
Defined.

(** A sample above 127 of a binary file with another maxval: 254 of 254 is
    computed from -2 and comes out as 6 instead of 255. *)
Example ppm_signed_sample :
  option_map (fun x => option_map img_rgb (fst x)) (ppm_decode bump keep 4096 (bs "P6 1 1 254 " ++ [254; 127; 0])) = Some (Some [6; 127; 0]).
Proof. vm_compute. reflexivity. Qed.
