(* ===== verification/Splash.v ===== *)
(** * The boot splash (src/kernel/boot/splash.c)

    The logo is read from the root file system, decoded by [Ppm], scaled and
    drawn once per processor; then the text console starts below the logos.
    [fuel] is that of the heap's free list. *)

From stdpp Require Import base numbers list gmap.
From Stdlib Require Import ZArith Lia ZifyBool.
From S2P Require Import Prelude.
From S2P Require Import Interfaces.
From S2P Require Import Hardware.
From S2P Require Import Keyboard.
From S2P Require Import Klib.
From S2P Require Import Pmm.
From S2P Require Import Vmm.
From S2P Require Import Kmalloc.
From S2P Require Import Pipe.
From S2P Require Import Vfs.
From S2P Require Import VfsFd.
From S2P Require Import VfsData.
From S2P Require Import Font.
From S2P Require Import Fb.
From S2P Require Import FbProps.
From S2P Require Import Devices.
From S2P Require Import Sched.
From S2P Require Import ElfLoad.
From S2P Require Import TusElf.
From S2P Require Import Ppm.

Definition SPLASH_MARGIN_TOP : Z := 24.
Definition SPLASH_GAP : Z := 20.
Definition SPLASH_TEXT_GAP : Z := 16.

(** ** Layout *)

(** The limit on one side: [scale], or less if [size] would be longer than
    [limit]. *)
Definition fit (scale size limit : Z) : Z :=
  if (0 <? size) && (limit <? size) then
    let s := Z.shiftl limit 16 / size in
    if s <? scale then s else scale
  else scale.

Definition splash_scale (count w h img_w img_h : Z) : Z :=
  let limit_w := w * 80 / 100 in
  let limit_h := h * 45 / 100 in
  let scale := Z.shiftl 1 16 in
  let row := u64 (u64 (count * img_w) + u64 (u64 (count - 1) * SPLASH_GAP)) in
  let scale := fit scale row limit_w in
  let scale := fit scale img_h limit_h in
  u32 scale.

(** A length of the image at [scale]. *)
Definition scaled (len scale : Z) : Z := u32 (Z.shiftr (len * scale) 16).

(** The first column of the row of logos. *)
Definition splash_x (count width toast_w : Z) : Z :=
  let row_w := u64 (u64 (toast_w * count) + u64 (u64 (count - 1) * SPLASH_GAP)) in
  if row_w <? width then u32 ((width - row_w) / 2) else 0.

(** The first column of logo [i]. *)
Definition toast_x (x toast_w i : Z) : Z := u32 (x + u32 (u32 i * u32 (toast_w + SPLASH_GAP))).

(** The loop that draws the logos from [i] on, [n] of them. *)
Fixpoint draw_toasts (n : nat) (i : Z) (x toast_w scale : Z) (img : ppm_image) (s : fb) : option fb :=
  match n with
  | O => Some s
  | S n' =>
      s ← fb_blit_scaled s (toast_x x toast_w i) SPLASH_MARGIN_TOP (img_width img) (img_height img)
            (Some (img_rgb img)) scale;
      draw_toasts n' (i + 1) x toast_w scale img s
  end.

(** The drawing of [splash_show], from [fb_fill] on. *)
Definition splash_draw (cpu_count : Z) (img : ppm_image) (s : fb) : option fb :=
  let width := g_width (geom s) in
  let height := g_height (geom s) in
  let s := fb_fill s 0 in
  let scale := splash_scale cpu_count width height (img_width img) (img_height img) in
  let toast_w := scaled (img_width img) scale in
  let toast_h := scaled (img_height img) scale in
  s ← draw_toasts (Z.to_nat cpu_count) 0 (splash_x cpu_count width toast_w) toast_w scale img s;
  Some (fb_set_text_top s (u32 (SPLASH_MARGIN_TOP + toast_h + SPLASH_TEXT_GAP))).

Section Show.
Context {P H : Type} `{FramePool P} `{Ports H} (fuel : nat).
Implicit Types k : kern P H.

Definition heap_alloc k (size : Z) : option (Z * kern P H) :=
  '(p, h) ← kmalloc 2 fuel (k_heap k) size; Some (p, with_heap k h).
Definition heap_free k (p : Z) : option (kern P H) :=
  h ← kfree fuel (k_heap k) p; Some (with_heap k h).

Definition s_logo : list Z := bs "/logo.ppm".

(** The contents of the logo file in a new block, with the block; [None] for
    the early returns. *)
Definition splash_load k : option (option (list Z * Z) * kern P H) :=
  '(fd, k) ← on_vfs (vfs_open (Some s_logo) O_RDONLY) k;
  if fd <? 0 then
    Some (None, on_dev k (console_write (bs "splash: /logo.ppm not found, skipping logos" ++ [10])))
  else
    let close k := '(_, k) ← on_vfs (vfs_close fd) k; Some (None, k) in
    '(node, k) ← on_vfs (vfs_lookup s_logo) k;
    if node =? 0 then close k
    else
      '(n, k) ← on_vfs (get_node node) k;
      if n_size n =? 0 then close k
      else
        '(file, k) ← heap_alloc k (n_size n);
        if file =? 0 then close k
        else
          '(r, k) ← on_vfs (vfs_read fd true (n_size n)) k;
          '(_, k) ← on_vfs (vfs_close fd) k;
          match r with
          | IoWait _ => None
          | IoRet got bytes =>
              if negb (got =? n_size n) then k ← heap_free k file; Some (None, k)
              else Some (Some (bytes, file), k)
          end.

Definition splash_show (cpu_count : Z) k : option (Z * kern P H) :=
  d ← devs (k_vfs k);
  if negb (console_has_framebuffer d) then Some (-1, k)
  else
    let cpu_count := if cpu_count =? 0 then 1 else cpu_count in
    '(loaded, k) ← splash_load k;
    match loaded with
    | None => Some (-1, k)
    | Some (bytes, file) =>
        '(img, k) ← ppm_decode heap_alloc heap_free k bytes;
        k ← heap_free k file;
        match img with
        | None => Some (-1, on_dev k (console_write (bs "splash: /logo.ppm is not a valid PPM" ++ [10])))
        | Some img =>
            let k := on_dev k (fun d => s ← splash_draw cpu_count img (d_fb d); Some (set_fb d s)) in
            k ← heap_free k (img_ptr img);
            Some (0, k)
        end
    end.
End Show.

(** ** The scale *)

Lemma fit_bound scale size limit : 0 <= scale <= 65536 -> 0 <= limit -> 0 < size ->
  0 <= fit scale size limit <= scale /\ size * fit scale size limit <= limit * 65536.
Proof.
  intros Hs Hl Hz. unfold fit. rewrite Z.shiftl_mul_pow2 by lia. change (2 ^ 16) with 65536.
  rewrite (proj2 (Z.ltb_lt 0 size)) by lia. cbn [andb]. pose proof (Z.mul_div_le (limit * 65536) size Hz).
  assert (0 <= limit * 65536 / size) by (apply Z.div_pos; lia).
  destruct (Z.ltb_spec limit size); [|nia]. destruct (Z.ltb_spec (limit * 65536 / size) scale); nia.
Qed.

(** What the layout takes for granted: one or more logos, an image of the
    decoder, and gaps that take at most a fifth of the width. *)
Record layout_ok (count width height : Z) (img : ppm_image) : Prop := LayoutOk {
  lo_count : 1 <= count;
  lo_width : 0 < width < 2 ^ 32;
  lo_height : 0 < height < 2 ^ 32;
  lo_gaps : (count - 1) * SPLASH_GAP * 5 <= width;
  lo_w : 1 <= img_width img <= 4096;
  lo_h : 1 <= img_height img <= 4096;
  lo_rgb : zlen (img_rgb img) = img_width img * img_height img * 3;
}.

Section Layout.
Context (count width height : Z) (img : ppm_image) (Hlo : layout_ok count width height img).

Definition l_scale : Z := splash_scale count width height (img_width img) (img_height img).
Definition l_w : Z := scaled (img_width img) l_scale.
Definition l_h : Z := scaled (img_height img) l_scale.
Definition l_x : Z := splash_x count width l_w.

Lemma splash_scale_bound : 0 <= l_scale <= 65536 /\
  count * img_width img * l_scale <= width * 80 / 100 * 65536 /\ img_height img * l_scale <= height * 45 / 100 * 65536.
Proof.
  destruct Hlo as [A1 A2 A3 A4 A5 A6 _]. unfold SPLASH_GAP in *. unfold l_scale, splash_scale, SPLASH_GAP.
  assert (Er : u64 (u64 (count * img_width img) + u64 (u64 (count - 1) * 20)) = count * img_width img + (count - 1) * 20).
  { unfold u64. rewrite (Z.mod_small (count - 1)), (Z.mod_small (count * img_width img)), (Z.mod_small ((count - 1) * 20)), Z.mod_small; nia. }
  rewrite Er. clear Er. set (row := count * img_width img + (count - 1) * 20).
  assert (Hrow : count * img_width img <= row /\ 0 < row) by (unfold row; nia).
  change (Z.shiftl 1 16) with 65536.
  assert (0 <= width * 80 / 100) by (apply Z.div_pos; lia). assert (0 <= height * 45 / 100) by (apply Z.div_pos; lia).
  destruct (fit_bound 65536 row (width * 80 / 100)) as [F1 F2]; [lia..|]. set (s1 := fit 65536 row _) in *.
  destruct (fit_bound s1 (img_height img) (height * 45 / 100)) as [F3 F4]; [lia..|]. set (s2 := fit s1 _ _) in *.
  unfold u32. rewrite Z.mod_small by lia. split_and!; [lia|lia|nia|done].
Qed.

Lemma scaled_bound len : 0 <= len <= 4096 -> scaled len l_scale = len * l_scale / 65536 /\ 0 <= scaled len l_scale <= len.
Proof.
  intros Hl. destruct splash_scale_bound as (Hs & _ & _). unfold scaled. rewrite Z.shiftr_div_pow2 by lia. change (2 ^ 16) with 65536.
  assert (0 <= len * l_scale / 65536 <= len).
  { split; [apply Z.div_pos; nia|]. apply Z.div_le_upper_bound; nia. }
  unfold u32. rewrite Z.mod_small by lia. done.
Qed.

Lemma logo_height : 0 <= l_h <= 4096 /\ l_h * 100 <= height * 45.
Proof.
  destruct Hlo as [A1 A2 A3 A4 A5 A6 _]. destruct splash_scale_bound as (Hs & _ & Hh).
  destruct (scaled_bound (img_height img)) as [E Hb]; [lia|]. unfold l_h. split; [lia|].
  rewrite E. assert (img_height img * l_scale / 65536 <= height * 45 / 100) by (apply Z.div_le_upper_bound; lia). divlia.
Qed.

(** The row of logos, gaps included, is inside of the screen. *)
Lemma logo_row : 0 <= l_w <= 4096 /\ 0 <= l_x /\ l_x + l_w * count + (count - 1) * SPLASH_GAP <= width.
Proof.
  destruct Hlo as [A1 A2 A3 A4 A5 A6 _]. destruct splash_scale_bound as (Hs & Hw & _).
  destruct (scaled_bound (img_width img)) as [E Hb]; [lia|]. fold l_w in E, Hb. unfold SPLASH_GAP in *.
  assert (Hrow : l_w * count * 100 <= width * 80).
  { assert (l_w * 65536 <= img_width img * l_scale) by (pose proof (Z.mul_div_le (img_width img * l_scale) 65536); lia).
    assert (l_w * count <= width * 80 / 100) by nia. divlia. }
  assert (Hfit : l_w * count + (count - 1) * 20 <= width) by lia.
  unfold l_x, splash_x, SPLASH_GAP.
  assert (Er : u64 (u64 (l_w * count) + u64 (u64 (count - 1) * 20)) = l_w * count + (count - 1) * 20).
  { unfold u64. rewrite (Z.mod_small (count - 1)), (Z.mod_small (l_w * count)), (Z.mod_small ((count - 1) * 20)), Z.mod_small; lia. }
  rewrite Er. split; [lia|]. destruct (Z.ltb_spec (l_w * count + (count - 1) * 20) width); [|lia].
  unfold u32. rewrite Z.mod_small by divlia. divlia.
Qed.

Lemma toast_x_at i : 0 <= i < count -> toast_x l_x l_w i = l_x + i * (l_w + SPLASH_GAP).
Proof.
  intros Hi. destruct Hlo as [A1 A2 A3 A4 A5 A6 _]. destruct logo_row as (H1 & H2 & H3). unfold toast_x, SPLASH_GAP in *.
  assert (i * (l_w + 20) <= (count - 1) * (l_w + 20)) by nia. unfold u32.
  rewrite (Z.mod_small i), (Z.mod_small (l_w + 20)), (Z.mod_small (i * (l_w + 20))), Z.mod_small; nia.
Qed.
End Layout.

(** ** Drawing *)

(** The colour of the pixel at byte [a] of an image. *)
Definition rgb_at (rgb : list Z) (a : Z) : Z :=
  Z.lor (Z.lor (Z.shiftl (byte_at rgb a) 16) (Z.shiftl (byte_at rgb (a + 1)) 8)) (byte_at rgb (a + 2)).

Definition image_pixel (w : Z) (rgb : list Z) (sx sy : Z) : Z := rgb_at rgb (sy * w * 3 + sx * 3).

Lemma nearest o len out : 0 <= o < out -> 0 < len -> 0 <= o * len / out < len.
Proof. intros Ho Hl. split; [apply Z.div_pos; nia|]. apply Z.div_lt_upper_bound; nia. Qed.

Lemma blit_row_run n ox g x w out_w rgb src dst m :
  0 <= ox -> ox + Z.of_nat n = out_w -> 0 < w -> 0 <= x -> x + out_w < 2 ^ 32 -> 0 <= src -> src + w * 3 <= zlen rgb ->
  dst + (g_width g - x) <= surface g ->
  exists m', blit_row n ox g x w out_w rgb src dst m = Some m' /\
    forall a, m' a = if (dst + ox <=? a) && (a <? dst + out_w) && (a - dst + x <? g_width g)
                     then rgb_at rgb (src + (a - dst) * w / out_w * 3) else m a.
Proof.
  revert ox m. induction n as [|n IH]; intros ox m Hox Hn Hw Hx Hxw Hs Hr Hd; cbn [blit_row].
  { exists m. split; [done|]. intros a. destruct (Z.leb_spec (dst + ox) a); [|done]. by rewrite (proj2 (Z.ltb_ge a (dst + out_w))) by lia. }
  destruct (nearest ox w out_w) as [N1 N2]; [lia..|]. destruct (Z.leb_spec w (ox * w / out_w)); [lia|].
  assert (Eu : u32 (x + ox) = x + ox) by (apply Z.mod_small; lia). rewrite Eu.
  destruct (Z.leb_spec (g_width g) (x + ox)) as [Hg|Hg].
  { exists m. split; [done|]. intros a. destruct (Z.leb_spec (dst + ox) a); [|done].
    rewrite (proj2 (Z.ltb_ge (a - dst + x) _)) by lia. by rewrite andb_false_r. }
  destruct (Z.leb_spec (zlen rgb) (src + ox * w / out_w * 3 + 2)); [lia|].
  destruct (Z.leb_spec (surface g) (dst + ox)); [lia|]. cbn [orb].
  destruct (IH (ox + 1) (upd m (dst + ox) (rgb_at rgb (src + ox * w / out_w * 3)))) as (m' & E & Hm'); [lia..|].
  exists m'. split; [exact E|]. intros a. rewrite Hm'. unfold upd.
  destruct (Z.eqb_spec a (dst + ox)) as [->|Hne].
  - replace (dst + ox - dst) with ox by lia. rewrite (proj2 (Z.leb_gt (dst + (ox + 1)) (dst + ox))) by lia. cbn [andb].
    rewrite (proj2 (Z.leb_le _ _)), (proj2 (Z.ltb_lt (dst + ox) _)), (proj2 (Z.ltb_lt (ox + x) _)) by lia. done.
  - destruct (Z.leb_spec (dst + (ox + 1)) a), (Z.leb_spec (dst + ox) a); try lia; done.
Qed.

(** A point of the screen, in words of the surface. *)
Definition at_ (g : fb_geom) (px py : Z) : Z := py * g_pitch_words g + px.

(** The point belongs to the rectangle. *)
Definition in_rect (x y w h px py : Z) : bool := (x <=? px) && (px <? x + w) && (y <=? py) && (py <? y + h).

(** One row, in points of the screen. *)
Lemma blit_row_at g x row w out_w rgb src m :
  0 < w -> 0 <= out_w -> 0 <= x -> x + out_w < 2 ^ 32 -> 0 <= src -> src + w * 3 <= zlen rgb ->
  0 <= g_width g <= g_pitch_words g -> 0 <= row < g_height g ->
  exists m', blit_row (Z.to_nat out_w) 0 g x w out_w rgb src (row * g_pitch_words g + x) m = Some m' /\
    forall px py, 0 <= px < g_width g -> 0 <= py ->
      m' (at_ g px py) = if in_rect x row out_w 1 px py then rgb_at rgb (src + (px - x) * w / out_w * 3) else m (at_ g px py).
Proof.
  intros Hw How Hx Hxw Hs Hr Hg Hrow.
  destruct (blit_row_run (Z.to_nat out_w) 0 g x w out_w rgb src (row * g_pitch_words g + x) m) as (m' & E & Hm');
    [lia..|unfold surface; nia|].
  exists m'. split; [done|]. intros px py Hpx Hpy. rewrite Hm'. unfold at_, in_rect. set (pw := g_pitch_words g) in *.
  destruct (Z.eq_dec py row) as [->|Hne].
  - replace (row * pw + px - (row * pw + x)) with (px - x) by lia.
    replace ((row * pw + x + 0 <=? row * pw + px) && (row * pw + px <? row * pw + x + out_w) && (px - x + x <? g_width g))
      with ((x <=? px) && (px <? x + out_w) && (row <=? row) && (row <? row + 1)) by lia. done.
  - replace ((x <=? px) && (px <? x + out_w) && (row <=? py) && (py <? row + 1)) with false by lia.
    destruct (Z.leb_spec (row * pw + x + 0) (py * pw + px)); [|done]. destruct (Z.ltb_spec (py * pw + px) (row * pw + x + out_w)); [|done].
    destruct (Z.ltb_spec (py * pw + px - (row * pw + x) + x) (g_width g)); [|done]. exfalso.
    assert (row + 1 <= py \/ py + 1 <= row) as [?|?] by lia; nia.
Qed.

Lemma blit_rows_run n oy g x y w h out_w out_h rgb m :
  0 <= oy -> oy + Z.of_nat n = out_h -> 0 < w -> 0 < h -> 0 <= out_w -> 0 <= x -> x + out_w < 2 ^ 32 -> 0 <= y -> y + out_h < 2 ^ 32 ->
  zlen rgb = w * h * 3 -> 0 <= g_width g <= g_pitch_words g ->
  exists m', blit_rows n oy g x y w h out_w out_h rgb m = Some m' /\
    forall px py, 0 <= px < g_width g -> 0 <= py < g_height g ->
      m' (at_ g px py) = if in_rect x (y + oy) out_w (out_h - oy) px py
                         then image_pixel w rgb ((px - x) * w / out_w) ((py - y) * h / out_h) else m (at_ g px py).
Proof.
  revert oy m. induction n as [|n IH]; intros oy m Hoy Hn Hw Hh How Hx Hxw Hy Hyh Hr Hg; cbn [blit_rows].
  { exists m. split; [done|]. intros px py _ _. replace (in_rect _ _ _ _ _ _) with false by (unfold in_rect; lia). done. }
  destruct (nearest oy h out_h) as [N1 N2]; [lia..|]. destruct (Z.leb_spec h (oy * h / out_h)); [lia|].
  assert (Eu : u32 (y + oy) = y + oy) by (apply Z.mod_small; lia). rewrite Eu.
  destruct (Z.leb_spec (g_height g) (y + oy)).
  { exists m. split; [done|]. intros px py _ Hpy. replace (in_rect _ _ _ _ _ _) with false by (unfold in_rect; lia). done. }
  set (sy := oy * h / out_h) in *.
  destruct (blit_row_at g x (y + oy) w out_w rgb (sy * w * 3) m) as (m1 & E1 & Hm1); [lia..|nia|nia|lia|lia|].
  rewrite E1. cbn [mbind option_bind].
  destruct (IH (oy + 1) m1) as (m2 & E2 & Hm2); [lia..|done|done|]. exists m2. split; [exact E2|]. intros px py Hpx Hpy.
  rewrite Hm2 by done. rewrite Hm1 by lia. unfold image_pixel. destruct (Z.eq_dec py (y + oy)) as [->|Hne].
  - replace (in_rect x (y + (oy + 1)) out_w (out_h - (oy + 1)) px (y + oy)) with false by (unfold in_rect; lia).
    replace (in_rect x (y + oy) out_w (out_h - oy) px (y + oy)) with (in_rect x (y + oy) out_w 1 px (y + oy)) by (unfold in_rect; lia).
    replace (y + oy - y) with oy by lia. done.
  - replace (in_rect x (y + oy) out_w 1 px py) with false by (unfold in_rect; lia).
    replace (in_rect x (y + oy) out_w (out_h - oy) px py) with (in_rect x (y + (oy + 1)) out_w (out_h - (oy + 1)) px py) by (unfold in_rect; lia).
    done.
Qed.

(** The surface holds the visible rows. *)
Definition surface_ok (g : fb_geom) : Prop := 0 < g_width g < 2 ^ 32 /\ 0 < g_height g < 2 ^ 32 /\ g_width g <= g_pitch_words g.

Lemma fb_blit_scaled_run s x y w h rgb scale :
  surface_ok (geom s) -> 0 < w -> 0 < h -> zlen rgb = w * h * 3 -> 0 <= x -> x + scaled w scale < 2 ^ 32 -> 0 <= y -> y + scaled h scale < 2 ^ 32 ->
  exists m, fb_blit_scaled s x y w h (Some rgb) scale = Some (with_pixels s m) /\
    forall px py, 0 <= px < g_width (geom s) -> 0 <= py < g_height (geom s) ->
      m (at_ (geom s) px py) = if in_rect x y (scaled w scale) (scaled h scale) px py
        then image_pixel w rgb ((px - x) * w / scaled w scale) ((py - y) * h / scaled h scale) else g_pixels s (at_ (geom s) px py).
Proof.
  intros (Hgw & Hgh & Hpw) Hw Hh Hr Hx Hxw Hy Hyh. unfold fb_blit_scaled. fold (scaled w scale) (scaled h scale).
  assert (Hsame : (scaled w scale = 0 \/ scaled h scale = 0) -> exists m, Some s = Some (with_pixels s m) /\
    forall px py, 0 <= px < g_width (geom s) -> 0 <= py < g_height (geom s) ->
      m (at_ (geom s) px py) = if in_rect x y (scaled w scale) (scaled h scale) px py
        then image_pixel w rgb ((px - x) * w / scaled w scale) ((py - y) * h / scaled h scale) else g_pixels s (at_ (geom s) px py)).
  { intros Hz. exists (g_pixels s). split; [by destruct s|]. intros px py _ _.
    replace (in_rect _ _ _ _ _ _) with false by (unfold in_rect; lia). done. }
  destruct (Z.eqb_spec scale 0) as [->|_]; [apply Hsame; left; unfold scaled; by rewrite Z.mul_0_r|].
  destruct ((scaled w scale =? 0) || (scaled h scale =? 0)) eqn:Ez; [apply Hsame; lia|].
  assert (0 <= scaled w scale /\ 0 <= scaled h scale) by (unfold scaled, u32; split; apply Z.mod_pos_bound; lia).
  destruct (blit_rows_run (Z.to_nat (scaled h scale)) 0 (geom s) x y w h (scaled w scale) (scaled h scale) rgb (g_pixels s)) as (m & E & Hm); [lia..|].
  rewrite E. exists m. split; [done|]. intros px py Hpx Hpy. rewrite (Hm px py Hpx Hpy). by rewrite Z.add_0_r, Z.sub_0_r.
Qed.

Section Row.
Context (count : Z) (img : ppm_image) (s0 : fb).
Let W := g_width (geom s0).
Let Ht := g_height (geom s0).
Context (Hg : surface_ok (geom s0)) (Hlo : layout_ok count W Ht img).
Let tw := l_w count W Ht img.
Let th := l_h count W Ht img.

(** The left edge of logo [i]. *)
Definition logo_left (i : Z) : Z := l_x count W Ht img + i * (tw + SPLASH_GAP).

(** The point is on logo [i]. *)
Definition on_logo (i px py : Z) : bool := in_rect (logo_left i) SPLASH_MARGIN_TOP tw th px py.

Definition logo_pixel (i px py : Z) : Z :=
  image_pixel (img_width img) (img_rgb img) ((px - logo_left i) * img_width img / tw) ((py - SPLASH_MARGIN_TOP) * img_height img / th).

Lemma logos_apart i j px py : on_logo i px py = true -> i < j -> on_logo j px py = false.
Proof.
  destruct (logo_row count W Ht img Hlo) as (Hw & _ & _). fold tw in Hw. unfold on_logo, in_rect, logo_left, SPLASH_GAP. intros Hi Hij.
  assert (i * (tw + 20) + (tw + 20) <= j * (tw + 20)) by nia. lia.
Qed.

Lemma draw_toasts_run n i s : geom s = geom s0 -> 0 <= i -> i + Z.of_nat n <= count ->
  exists m, draw_toasts n i (l_x count W Ht img) tw (l_scale count W Ht img) img s = Some (with_pixels s m) /\
    forall px py, 0 <= px < W -> 0 <= py < Ht ->
      (forall j, i <= j < i + Z.of_nat n -> on_logo j px py = true -> m (at_ (geom s0) px py) = logo_pixel j px py) /\
      ((forall j, i <= j < i + Z.of_nat n -> on_logo j px py = false) -> m (at_ (geom s0) px py) = g_pixels s (at_ (geom s0) px py)).
Proof.
  revert i s. induction n as [|n IH]; intros i s Eg Hi Hn; cbn [draw_toasts].
  { exists (g_pixels s). split; [by destruct s|]. intros px py _ _. split; [lia|done]. }
  unfold tw. rewrite toast_x_at by (done || lia). fold tw. fold (logo_left i).
  destruct (logo_row count W Ht img Hlo) as (Hw & Hx & Hrow). destruct (logo_height count W Ht img Hlo) as (Hh & _). fold tw in Hw, Hrow. fold th in Hh.
  pose proof (lo_w _ _ _ _ Hlo). pose proof (lo_h _ _ _ _ Hlo). pose proof Hg as (HgW & HgH & _). unfold SPLASH_GAP in Hrow.
  assert (Hl : 0 <= logo_left i /\ logo_left i + tw <= W) by (unfold logo_left, SPLASH_GAP; nia). fold W in HgW.
  destruct (fb_blit_scaled_run s (logo_left i) SPLASH_MARGIN_TOP (img_width img) (img_height img) (img_rgb img) (l_scale count W Ht img))
    as (m1 & E1 & Hm1); rewrite ?Eg; [done|lia|lia|apply Hlo|lia|change (scaled (img_width img) _) with tw; lia|done|change (scaled (img_height img) _) with th; unfold SPLASH_MARGIN_TOP; lia|].
  rewrite E1. cbn [mbind option_bind]. rewrite Eg in Hm1.
  destruct (IH (i + 1) (with_pixels s m1)) as (m & E & Hm); [done|lia|lia|]. exists m. split; [exact E|].
  intros px py Hpx Hpy. destruct (Hm px py Hpx Hpy) as [Hon Hoff]. specialize (Hm1 px py Hpx Hpy).
  change (in_rect _ _ _ _ px py) with (on_logo i px py) in Hm1. cbn [g_pixels with_pixels] in Hoff. split.
  - intros j Hj Hij. destruct (Z.eq_dec j i) as [->|]; [|apply Hon; [lia|done]].
    rewrite Hoff by (intros j' Hj'; eapply logos_apart; [done|lia]). rewrite Hm1, Hij. done.
  - intros Hno. rewrite Hoff by (intros j Hj; apply Hno; lia). rewrite Hm1, (Hno i) by lia. done.
Qed.
End Row.

(** C33. The splash shows the logo once per processor: on a screen on which the
    gaps take at most a fifth of the width, drawing never leaves the surface;
    all logos fit next to each other, in at most 45% of the height; every point
    of logo [i] shows the nearest point of the image, and every other point of
    the screen is black. *)
Theorem splash_draws_logos count (img : ppm_image) (s : fb) :
  surface_ok (geom s) -> layout_ok count (g_width (geom s)) (g_height (geom s)) img ->
  let W := g_width (geom s) in let Ht := g_height (geom s) in
  let tw := l_w count W Ht img in let th := l_h count W Ht img in
  0 <= logo_left count img s 0 /\ logo_left count img s (count - 1) + tw <= W /\ th * 100 <= Ht * 45 /\
  exists s', splash_draw count img s = Some s' /\
    forall px py, 0 <= px < W -> 0 <= py < Ht ->
      (forall i, 0 <= i < count -> on_logo count img s i px py = true ->
         g_pixels s' (at_ (geom s) px py) = logo_pixel count img s i px py) /\
      ((forall i, 0 <= i < count -> on_logo count img s i px py = false) -> g_pixels s' (at_ (geom s) px py) = 0).
Proof.
  intros Hg Hlo. cbn zeta. destruct (logo_row _ _ _ _ Hlo) as (Hw & Hx & Hrow). destruct (logo_height _ _ _ _ Hlo) as (Hh & H45).
  pose proof (lo_count _ _ _ _ Hlo) as Hc.
  split; [unfold logo_left; lia|]. split; [unfold logo_left, SPLASH_GAP in *; set (tw := l_w _ _ _ _) in *; nia|]. split; [done|].
  destruct (draw_toasts_run count img s Hg Hlo (Z.to_nat count) 0 (fb_fill s 0)) as (m & E & Hm); [done|lia|lia|].
  unfold splash_draw. cbn zeta. unfold l_x, l_w, l_scale in E. rewrite E. cbn [mbind option_bind]. eexists. split; [done|].
  intros px py Hpx Hpy. destruct (Hm px py Hpx Hpy) as [Hon Hoff]. rewrite Z2Nat.id in Hon, Hoff by lia. split; [done|].
  intros Hno. cbn. rewrite Hoff by done. cbn. apply fill_in. unfold at_, surface. destruct Hg as (? & ? & ?). nia.
Qed.

(** A screen of 200 by 64 points and a logo of two. *)
Definition demo_screen : fb := with_geom fb_static (FbGeom 800 200 64 25 4 0).
Definition demo_logo : ppm_image := PpmImage 2 1 4096 [1; 2; 3; 4; 5; 6].

Lemma demo_layout : layout_ok 2 200 64 demo_logo.
Proof. split; cbn; unfold SPLASH_GAP; (lia || done). Qed.

Lemma demo_surface : surface_ok (geom demo_screen).
Proof. unfold surface_ok, g_pitch_words. cbn. split_and!; (lia || (change (800 / 4) with 200; lia)). Qed.

Lemma splash_draws_logos_witness :
  exists s', splash_draw 2 demo_logo demo_screen = Some s' /\
    g_pixels s' (at_ (geom demo_screen) 110 24) = 0x010203 /\ g_pixels s' (at_ (geom demo_screen) 111 24) = 0x040506.
Proof.
  destruct (splash_draws_logos 2 demo_logo demo_screen demo_surface demo_layout) as (_ & _ & _ & s' & E & Hp).
  exists s'. split; [exact E|]. split.
  - destruct (Hp 110 24) as [Hon _]; [cbn; lia..|]. rewrite (Hon 1); [reflexivity|lia|reflexivity].
  - destruct (Hp 111 24) as [Hon _]; [cbn; lia..|]. rewrite (Hon 1); [reflexivity|lia|reflexivity].
Defined.

(** The text console after the splash runs out of the framebuffer: its first
    row moves down but the number of rows stays, so the next scroll by a line
    moves memory behind the last row of the screen. *)
Theorem splash_scroll_overruns count (img : ppm_image) (s : fb) :
  surface_ok (geom s) -> layout_ok count (g_width (geom s)) (g_height (geom s)) img ->
  g_rows (geom s) = g_height (geom s) / FONT_HEIGHT ->
  exists s', splash_draw count img s = Some s' /\ fb_scroll_up s' = None.
Proof.
  intros Hg Hlo Hr. destruct (draw_toasts_run count img s Hg Hlo (Z.to_nat count) 0 (fb_fill s 0)) as (m & E & _);
    [done|lia|pose proof (lo_count _ _ _ _ Hlo); lia|].
  destruct (logo_height _ _ _ _ Hlo) as (Hh & _).
  unfold splash_draw. cbn zeta. unfold l_x, l_w, l_scale in E. rewrite E. cbn [mbind option_bind]. eexists. split; [done|].
  unfold l_h, l_scale in Hh. set (th := scaled (img_height img) _) in *.
  unfold fb_scroll_up, surface, g_pitch_words. cbn. rewrite Hr. unfold FONT_HEIGHT in *. fold (g_pitch_words (geom s)).
  destruct Hg as (Hw & Hht & Hp). unfold u32, SPLASH_MARGIN_TOP, SPLASH_TEXT_GAP. rewrite Z.mod_small by lia.
  rewrite (proj2 (Z.leb_gt _ _)); [done|]. assert (g_height (geom s) < 24 + th + 16 + g_height (geom s) / 16 * 16) by divlia. nia.
Qed.

Lemma splash_scroll_overruns_witness :
  exists s', splash_draw 2 demo_logo demo_screen = Some s' /\ fb_scroll_up s' = None.
Proof. exact (splash_scroll_overruns 2 demo_logo demo_screen demo_surface demo_layout eq_refl). Defined.

(** ** A run *)

Definition logo_text : list Z := bs "P3" ++ [10] ++ bs "2 1 255" ++ [10] ++ bs "1 2 3 4 5 6".

Definition splash_kern : kern pmm feed :=
  let s := k_vfs demo_kern in
  let nodes := {[ 1 := VfsNode [SLASH] VFS_DIR 493 0 0 [] 0 0 None 0 0 0 2;
                  2 := VfsNode (bs "logo.ppm") VFS_FILE 420 0 0 logo_text (zlen logo_text) (zlen logo_text) None 0 1 0 0 ]} in
  with_vfs demo_kern (Vfs nodes ∅ ∅ 1 (tables s) (cur s) 3 [] (Some (set_fb (Dev demo_screen true false kbd_boot
    (replicate 60 0) (replicate 8 0) 0 0 (FbInfo 0 0 0 0 0) None (Feed 0 [])) demo_screen))).

(** The logo appears, the text starts below it and the descriptor is closed. *)
Example splash_show_run :
  (fun r => (fst r, tables (k_vfs (snd r)) !! 0,
     (fun d => (g_text_top (geom (d_fb d)), g_pixels (d_fb d) (at_ (geom demo_screen) 88 24))) <$> devs (k_vfs (snd r))))
  <$> splash_show 5 2 splash_kern = Some (0, Some (replicate 16 0), Some (41, 0x010203)).
Proof. vm_compute. reflexivity. Qed.
