(* ===== verification/Descriptors.v ===== *)
(** * Descriptor tables and interrupt entry

    Translation of src/kernel/arch/x86_64/gdt.c, idt.c and cpu.c: the segment
    descriptors and the task state segment, the 256 gates, the dispatch of
    hardware interrupts, the panic messages and SSE. The addresses
    of the tables and of the entry stubs are parameters; the instructions that
    load tables and segment registers set the registers of [processor].

    The theorems look at the tables as the processor does: fields of a
    descriptor by their bits, delivery of an interrupt through a gate with the
    privilege checks of the architecture, the in-service registers of the two
    interrupt controllers. *)

From stdpp Require Import base numbers list gmap.
From Stdlib Require Import ZArith Lia ZifyBool.
From S2P Require Import Prelude.
From S2P Require Import Interfaces.
From S2P Require Import Hardware.
From S2P Require Import Klib.
From S2P Require Import Vmm.
From S2P Require Import Kmalloc.
From S2P Require Import Devices.
From S2P Require Import Sched.

(** ** Segments (gdt.c) *)

Definition SEL_KERNEL_CODE : Z := 0x08.
Definition SEL_KERNEL_DATA : Z := 0x10.
Definition SEL_TSS : Z := 0x28.

Record gdt_entry := GdtEntry {
  limit_low : Z;
  base_low : Z;
  base_mid : Z;
  access : Z;
  flags_limit_hi : Z;
  base_high : Z;
}.

Record tss := Tss {
  tss_rsp0 : Z;
  tss_rsp1 : Z;
  tss_rsp2 : Z;
  tss_ist : list Z;
  tss_iomap_base : Z;
}.

Definition TSS_BYTES : Z := 104.

(** One of the 256 gates (idt.c). *)
Record idt_entry := IdtEntry {
  offset_low : Z;
  selector : Z;
  ist : Z;
  attributes : Z;
  offset_mid : Z;
  offset_high : Z;
  zero : Z;
}.

(** The registers that the initialisation loads; a table register is the limit
    and the base. *)
Record processor := Processor {
  r_cs : Z;
  r_data : Z;
  r_gdtr : Z * Z;
  r_idtr : Z * Z;
  r_tr : Z;
}.

Record desc_tables := Tables {
  g_gdt : list gdt_entry;
  g_tss : tss;
  g_idt : list idt_entry;
  r_cpu : processor;
}.

Definition gdt_set_entry (i : nat) (base limit acc flags : Z) (g : list gdt_entry) : list gdt_entry :=
  <[i := GdtEntry (u16 (Z.land limit 0xFFFF)) (u16 (Z.land base 0xFFFF)) (u8 (Z.land (Z.shiftr base 16) 0xFF)) acc
           (u8 (Z.lor (Z.shiftl flags 4) (Z.land (Z.shiftr limit 16) 0x0F))) (u8 (Z.land (Z.shiftr base 24) 0xFF))]> g.

Definition gdt_set_tss (i : nat) (base limit : Z) (g : list gdt_entry) : list gdt_entry :=
  let g := <[i := GdtEntry (u16 (Z.land limit 0xFFFF)) (u16 (Z.land base 0xFFFF)) (u8 (Z.land (Z.shiftr base 16) 0xFF)) 0x89
                    (u8 (Z.lor (Z.land (Z.shiftr limit 16) 0x0F) 0)) (u8 (Z.land (Z.shiftr base 24) 0xFF))]> g in
  let base_hi := u32 (Z.shiftr base 32) in
  <[S i := GdtEntry (u16 (Z.land base_hi 0xFFFF)) (u16 (Z.land (Z.shiftr base_hi 16) 0xFFFF)) 0 0 0 0]> g.

(** [lgdt], the far return and the loads of the data segment registers. *)
Definition gdt_reload (gdt_ptr : Z * Z) (t : desc_tables) : desc_tables :=
  let c := r_cpu t in
  Tables (g_gdt t) (g_tss t) (g_idt t) (Processor SEL_KERNEL_CODE SEL_KERNEL_DATA gdt_ptr (r_idtr c) (r_tr c)).

(** [ltr] marks the descriptor busy. *)
Definition ltr (sel : Z) (t : desc_tables) : desc_tables :=
  let busy e := GdtEntry (limit_low e) (base_low e) (base_mid e) (Z.lor (access e) 2) (flags_limit_hi e) (base_high e) in
  let c := r_cpu t in
  Tables (alter busy (Z.to_nat (Z.shiftr sel 3)) (g_gdt t)) (g_tss t) (g_idt t)
    (Processor (r_cs c) (r_data c) (r_gdtr c) (r_idtr c) sel).

Definition gdt_init (gdt_addr tss_addr : Z) (t : desc_tables) : desc_tables :=
  let g := gdt_set_entry 0 0 0 0 0 (g_gdt t) in
  let g := gdt_set_entry 1 0 0xFFFFF 0x9A 0xA g in
  let g := gdt_set_entry 2 0 0xFFFFF 0x92 0xA g in
  let g := gdt_set_entry 3 0 0xFFFFF 0xFA 0xA g in
  let g := gdt_set_entry 4 0 0xFFFFF 0xF2 0xA g in
  let g := gdt_set_tss 5 tss_addr (TSS_BYTES - 1) g in
  let gdt_ptr := (u16 (8 * Z.of_nat (length g) - 1), gdt_addr) in
  ltr SEL_TSS (gdt_reload gdt_ptr (Tables g (g_tss t) (g_idt t) (r_cpu t))).

Definition tss_set_rsp0 (rsp0 : Z) (t : desc_tables) : desc_tables :=
  let s := g_tss t in
  Tables (g_gdt t) (Tss rsp0 (tss_rsp1 s) (tss_rsp2 s) (tss_ist s) (tss_iomap_base s)) (g_idt t) (r_cpu t).

(** ** Gates (idt.c) *)

Definition IDT_GATE_64_INTERRUPT : Z := 0x8E.
Definition IDT_GATE_64_TRAP_USER : Z := 0xEF.
Definition IDT_VECTOR_SYSCALL : Z := 0x80.
Definition KERNEL_CODE_SELECTOR : Z := 0x08.

Definition gate (handler attr : Z) : idt_entry :=
  IdtEntry (u16 (Z.land handler 0xFFFF)) KERNEL_CODE_SELECTOR 0 attr
    (u16 (Z.land (Z.shiftr handler 16) 0xFFFF)) (u32 (Z.land (Z.shiftr handler 32) 0xFFFFFFFF)) 0.

Definition idt_set_gate_attr (vector handler attr : Z) (g : list idt_entry) : list idt_entry :=
  <[Z.to_nat vector := gate handler attr]> g.

Definition idt_set_gate (vector handler : Z) (g : list idt_entry) : list idt_entry :=
  idt_set_gate_attr vector handler IDT_GATE_64_INTERRUPT g.

(** The addresses of the entry stubs. *)
Record stubs := Stubs {
  exception_stub : Z -> Z;
  irq_stub : Z -> Z;
  sched_tick_entry : Z;
  syscall_entry : Z;
  irq_ignored : Z;
}.

(** The handler of the loop for one vector. *)
Definition stub_of (s : stubs) (vector : Z) : Z :=
  if vector <? 32 then exception_stub s vector
  else if vector =? 32 then sched_tick_entry s
  else if vector <? 48 then irq_stub s (vector - 32)
  else irq_ignored s.

Definition idt_init (s : stubs) (idt_addr : Z) (t : desc_tables) : desc_tables :=
  let g := fold_left (fun g v => idt_set_gate v (stub_of s v) g) (zseq 0 256) (g_idt t) in
  let g := idt_set_gate_attr IDT_VECTOR_SYSCALL (syscall_entry s) IDT_GATE_64_TRAP_USER g in
  let c := r_cpu t in
  Tables (g_gdt t) (g_tss t) g (Processor (r_cs c) (r_data c) (r_gdtr c) (u16 (16 * Z.of_nat (length g) - 1), idt_addr) (r_tr c)).

(** ** Hardware interrupts *)

Definition PIC_READ_ISR : Z := 0x0B.

Section Irq.
Context {S : Type} `{Ports S}.

(** A handler acts on the state of the kernel and its hardware. *)
Definition irq_install (irq : Z) (handler : option (S -> S)) (g_irq_handlers : list (option (S -> S))) : list (option (S -> S)) :=
  if irq <? 16 then <[Z.to_nat irq := handler]> g_irq_handlers else g_irq_handlers.

(** The end of the dispatch: the handler, if there is one, and the
    acknowledgement. *)
Definition irq_handle (g_irq_handlers : list (option (S -> S))) (irq : Z) (s : S) : S :=
  let s := match g_irq_handlers !! Z.to_nat irq with Some (Some handler) => handler s | _ => s end in
  pic_send_eoi irq s.

Definition irq_dispatch (g_irq_handlers : list (option (S -> S))) (irq : Z) (s : S) : S :=
  if (irq =? 7) || (irq =? 15) then
    let cmd_port := if irq =? 7 then PIC1_CMD_PORT else PIC2_CMD_PORT in
    let s := outb cmd_port PIC_READ_ISR s in
    let '(isr, s) := inb cmd_port s in
    if Z.land isr (Z.shiftl 1 (Z.land irq 7)) =? 0 then s
    else irq_handle g_irq_handlers irq s
  else irq_handle g_irq_handlers irq s.
End Irq.

(** ** Exceptions *)

Definition g_exception_names : list (list Z) :=
  [bs "Divide Error"; bs "Debug"; bs "Non-Maskable Interrupt";
   bs "Breakpoint"; bs "Overflow"; bs "Bound Range Exceeded";
   bs "Invalid Opcode"; bs "Device Not Available"; bs "Double Fault";
   bs "Coprocessor Segment Overrun"; bs "Invalid TSS"; bs "Segment Not Present";
   bs "Stack-Segment Fault"; bs "General Protection"; bs "Page Fault";
   bs "Reserved"; bs "x87 FPU Error"; bs "Alignment Check";
   bs "Machine Check"; bs "SIMD FPU Exception"; bs "Virtualization Exception";
   bs "Control Protection"; bs "Reserved"; bs "Reserved";
   bs "Reserved"; bs "Reserved"; bs "Reserved";
   bs "Reserved"; bs "Hypervisor Injection"; bs "VMM Communication";
   bs "Security Exception"; bs "Reserved"].

Record interrupt_frame := Frame {
  f_rip : Z;
  f_cs : Z;
  f_rflags : Z;
  f_rsp : Z;
  f_ss : Z;
}.

(** The general registers that the page fault stub saves and its dump names. *)
Record pf_regs := PfRegs {
  pf_rax : Z;
  pf_rbx : Z;
  pf_rcx : Z;
  pf_rdx : Z;
  pf_rsi : Z;
  pf_rdi : Z;
  pf_rbp : Z;
  pf_r12 : Z;
  pf_error : Z;
  pf_frame : interrupt_frame;
}.

Section Panic.
Context {P H : Type} `{FramePool P} `{Ports H}.
Implicit Types k : kern P H.

Definition con_write k (s : list Z) : option (kern P H) := Some (on_dev k (console_write s)).

(** One line of a dump. *)
Definition dump (label : list Z) (v : Z) k : option (kern P H) := kprintf k (label ++ bs ": 0x%llx" ++ [10]) [VaInt v].

Definition s_panic : list Z := [10; 10] ++ bs "*** KERNEL PANIC ***" ++ [10].
Definition s_stopped : list Z := bs "System halted." ++ [10].

(** The message of an exception, after which the processor halts with
    interrupts off. *)
Definition exception_fatal (frame : interrupt_frame) (error_code vec : Z) (has_error_code : bool) (cr2 : Z) k : option (kern P H) :=
  k ← con_write k s_panic;
  k ← kprintf k (bs "Exception %d: %s" ++ [10]) [VaInt vec; VaStr (g_exception_names !! Z.to_nat vec)];
  k ← (if has_error_code then dump (bs "Error code") error_code k else Some k);
  k ← (if vec =? 14 then
         k ← dump (bs "CR2     ") cr2 k;
         let '(pte, v) := vmm_pte (k_vmm k) cr2 in
         let '(phys, v) := vmm_translate v cr2 in
         kprintf (with_vmm k v) (bs "PTE     : 0x%llx (translate 0x%llx)" ++ [10]) [VaInt pte; VaInt phys]
       else Some k);
  k ← dump (bs "RIP    ") (f_rip frame) k;
  k ← dump (bs "CS     ") (f_cs frame) k;
  k ← dump (bs "RFLAGS ") (f_rflags frame) k;
  k ← dump (bs "RSP    ") (f_rsp frame) k;
  k ← dump (bs "SS     ") (f_ss frame) k;
  con_write k s_stopped.

(** The vectors defined with an error code; the handlers of the other ones pass
    0. *)
Definition with_error : list Z := [8; 10; 11; 12; 13; 17; 21; 29; 30].

(** The generated handler of a vector, which the processor may have given an
    error code. *)
Definition exc_stub (vec : Z) (frame : interrupt_frame) (error_code cr2 : Z) k : option (kern P H) :=
  if bool_decide (vec ∈ with_error) then exception_fatal frame error_code vec true cr2 k
  else exception_fatal frame 0 vec false cr2 k.

(** [stack] is what the 24 words at the stack pointer read. *)
Definition exc_page_fault_c (r : pf_regs) (cr2 : Z) (stack : list Z) k : option (kern P H) :=
  k ← con_write k s_panic;
  k ← kprintf k (bs "Exception 14: Page Fault" ++ [10]) [];
  k ← dump (bs "Error code") (pf_error r) k;
  k ← dump (bs "CR2     ") cr2 k;
  k ← dump (bs "RDI     ") (pf_rdi r) k;
  k ← dump (bs "RSI     ") (pf_rsi r) k;
  k ← dump (bs "RDX     ") (pf_rdx r) k;
  k ← dump (bs "RAX     ") (pf_rax r) k;
  k ← dump (bs "RCX     ") (pf_rcx r) k;
  k ← dump (bs "RBX     ") (pf_rbx r) k;
  k ← dump (bs "RBP     ") (pf_rbp r) k;
  k ← dump (bs "R12     ") (pf_r12 r) k;
  k ← dump (bs "RIP    ") (f_rip (pf_frame r)) k;
  k ← dump (bs "CS     ") (f_cs (pf_frame r)) k;
  k ← dump (bs "RFLAGS ") (f_rflags (pf_frame r)) k;
  k ← dump (bs "RSP    ") (f_rsp (pf_frame r)) k;
  k ← dump (bs "SS     ") (f_ss (pf_frame r)) k;
  k ← kprintf k (bs "STACK  :") [];
  k ← fold_left (fun m w => k ← m; kprintf k (bs " %llx") [VaInt w]) (take 24 stack) (Some k);
  k ← kprintf k [10] [];
  con_write k s_stopped.
End Panic.


(** ** SSE (cpu.c) *)

(** CR0 and CR4 afterwards. *)
Definition cpu_enable_sse (cr0 cr4 : Z) : Z * Z :=
  (Z.land cr0 (u64 (Z.lnot (Z.shiftl 1 2))), Z.lor cr4 (Z.lor (Z.shiftl 1 9) (Z.shiftl 1 10))).

(** ** What the processor sees *)

(** The eight bytes of a segment descriptor, as a number. *)
Definition entry_word (e : gdt_entry) : Z :=
  limit_low e + base_low e * 2 ^ 16 + base_mid e * 2 ^ 32 + access e * 2 ^ 40 + flags_limit_hi e * 2 ^ 48 + base_high e * 2 ^ 56.

(** Bits [i] to [i + n - 1]. *)
Definition bits (i n w : Z) : Z := w / 2 ^ i mod 2 ^ n.

Definition seg_base (w : Z) : Z := bits 16 24 w + bits 56 8 w * 2 ^ 24.
Definition seg_limit (w : Z) : Z := bits 0 16 w + bits 48 4 w * 2 ^ 16.
Definition seg_type (w : Z) : Z := bits 40 5 w.
Definition seg_dpl (w : Z) : Z := bits 45 2 w.
Definition seg_present (w : Z) : bool := bits 47 1 w =? 1.
Definition seg_long (w : Z) : bool := bits 53 1 w =? 1.

(** A 64-bit code segment, one of type 26 or 27 with the long bit. *)
Definition code64 (w : Z) : bool := seg_present w && (Z.lor (seg_type w) 1 =? 27) && seg_long w.
(** A writable data segment. *)
Definition data_rw (w : Z) : bool := seg_present w && (Z.lor (seg_type w) 1 =? 19).

(** The descriptor that a selector names. *)
Definition segment (t : desc_tables) (sel : Z) : option Z := entry_word <$> (g_gdt t !! Z.to_nat (sel / 8)).

Definition gate_offset (g : idt_entry) : Z := offset_low g + offset_mid g * 2 ^ 16 + offset_high g * 2 ^ 32.
Definition gate_type (g : idt_entry) : Z := bits 0 5 (attributes g).
Definition gate_dpl (g : idt_entry) : Z := bits 5 2 (attributes g).
Definition gate_present (g : idt_entry) : bool := bits 7 1 (attributes g) =? 1.

(** Where an interrupt leads: the code, the stack, and whether interrupts are
    off. *)
Record entered := Entered {
  e_cs : Z;
  e_rip : Z;
  e_rsp : Z;
  e_masked : bool;
}.

(** Delivery of a vector in 64-bit mode: [None] is a protection fault. A gate
    is passed by [int n] only from its privilege level or a higher one, and a
    change of level takes the stack from the task state segment. *)
Definition deliver (t : desc_tables) (software : bool) (cpl rsp vector : Z) : option entered :=
  g ← g_idt t !! Z.to_nat vector;
  if negb (gate_present g) || negb (Z.lor (gate_type g) 1 =? 15) then None
  else if software && (gate_dpl g <? cpl) then None
  else
    w ← segment t (selector g);
    if negb (code64 w) || (cpl <? seg_dpl w) then None
    else Some (Entered (selector g) (gate_offset g) (if seg_dpl w <? cpl then tss_rsp0 (g_tss t) else rsp) (gate_type g =? 14)).

(** All tables as the kernel finds them in its zeroed memory. *)
Definition boot_tables (c : processor) : desc_tables :=
  Tables (replicate 8 (GdtEntry 0 0 0 0 0 0)) (Tss 0 0 0 (replicate 7 0) 0) (replicate 256 (IdtEntry 0 0 0 0 0 0 0)) c.

Lemma u16_land z : u16 (Z.land z 0xFFFF) = z mod 2 ^ 16.
Proof. change 0xFFFF with (Z.ones 16). rewrite Z.land_ones by lia. unfold u16. apply Z.mod_mod. lia. Qed.
Lemma u8_land z : u8 (Z.land z 0xFF) = z mod 2 ^ 8.
Proof. change 0xFF with (Z.ones 8). rewrite Z.land_ones by lia. unfold u8. apply Z.mod_mod. lia. Qed.
Lemma u32_land z : u32 (Z.land z 0xFFFFFFFF) = z mod 2 ^ 32.
Proof. change 0xFFFFFFFF with (Z.ones 32). rewrite Z.land_ones by lia. unfold u32. apply Z.mod_mod. lia. Qed.

(** A gate leads to the address it was set to. *)
Lemma gate_offset_set h a : 0 <= h < 2 ^ 64 -> gate_offset (gate h a) = h.
Proof.
  intros Hh. unfold gate_offset. cbn [gate offset_low offset_mid offset_high].
  rewrite !u16_land, u32_land, !Z.shiftr_div_pow2 by lia. divlia.
Qed.

Lemma gates_set s i n g v : 0 <= i -> (Z.to_nat v < length g)%nat -> 0 <= v ->
  fold_left (fun g v => idt_set_gate v (stub_of s v) g) (zseq i n) g !! Z.to_nat v =
    if (i <=? v) && (v <? i + Z.of_nat n) then Some (gate (stub_of s v) IDT_GATE_64_INTERRUPT) else g !! Z.to_nat v.
Proof.
  revert i g. induction n as [|n IH]; intros i g Hi Hl Hv; cbn [zseq fold_left].
  - rewrite (proj2 (andb_false_iff _ _)); [done|]. lia.
  - rewrite IH by (lia || (unfold idt_set_gate, idt_set_gate_attr; by rewrite length_insert)).
    destruct (Z.eq_dec i v) as [->|Hne].
    + rewrite (proj2 (Z.leb_gt (v + 1) v)), Z.leb_refl, (proj2 (Z.ltb_lt v (v + Z.of_nat (S n)))) by lia. cbn [andb].
      by apply list_lookup_insert_eq.
    + destruct ((i + 1 <=? v) && (v <? i + 1 + Z.of_nat n)) eqn:E.
      * by replace ((i <=? v) && (v <? i + Z.of_nat (S n))) with true by lia.
      * replace ((i <=? v) && (v <? i + Z.of_nat (S n))) with false by lia. apply list_lookup_insert_ne. lia.
Qed.

Lemma length_gates s i n g : length (fold_left (fun g v => idt_set_gate v (stub_of s v) g) (zseq i n) g) = length g.
Proof.
  revert i g. induction n as [|n IH]; intros i g; cbn [zseq fold_left]; [done|]. rewrite IH. unfold idt_set_gate, idt_set_gate_attr. apply length_insert.
Qed.

(** The gate of a vector after [idt_init]. *)
Lemma idt_gate s a t v : length (g_idt t) = 256%nat -> 0 <= v < 256 ->
  g_idt (idt_init s a t) !! Z.to_nat v =
    Some (if v =? 0x80 then gate (syscall_entry s) IDT_GATE_64_TRAP_USER else gate (stub_of s v) IDT_GATE_64_INTERRUPT).
Proof.
  intros Hl Hv. unfold idt_init. cbn [g_idt]. unfold idt_set_gate_attr, IDT_VECTOR_SYSCALL. destruct (Z.eqb_spec v 0x80) as [->|Hne].
  - apply list_lookup_insert_eq. rewrite length_gates, Hl. lia.
  - rewrite list_lookup_insert_ne, gates_set by lia. by replace ((0 <=? v) && (v <? 0 + Z.of_nat 256)) with true by lia.
Qed.

(** The kernel's tables after the initialisation, with a kernel stack. *)
Definition kernel_tables (c : processor) (gdt_addr tss_addr idt_addr : Z) (s : stubs) (rsp0 : Z) : desc_tables :=
  tss_set_rsp0 rsp0 (idt_init s idt_addr (gdt_init gdt_addr tss_addr (boot_tables c))).

Record stubs_ok (s : stubs) : Prop := StubsOk {
  so_exc v : 0 <= exception_stub s v < 2 ^ 64;
  so_irq v : 0 <= irq_stub s v < 2 ^ 64;
  so_rest : 0 <= sched_tick_entry s < 2 ^ 64 /\ 0 <= syscall_entry s < 2 ^ 64 /\ 0 <= irq_ignored s < 2 ^ 64;
}.

(** C2. User mode enters the kernel through the system call gate only. With the
    tables that [gdt_init] and [idt_init] build, [int n] in ring 3 is a
    protection fault for every vector but 0x80, and that one leads to
    [syscall_entry] in ring 0 on the kernel stack of the task, with interrupts
    left on. Exceptions and hardware interrupts lead to their stubs in ring 0
    with interrupts off: the timer's is the scheduler's entry; from user mode
    they run on the task's kernel stack, from the kernel on the current one. *)
Theorem kernel_entry_points c gdt_addr tss_addr idt_addr s rsp0 rsp v :
  stubs_ok s -> 0 <= v < 256 ->
  let t := kernel_tables c gdt_addr tss_addr idt_addr s rsp0 in
  deliver t true 3 rsp v = (if v =? 0x80 then Some (Entered SEL_KERNEL_CODE (syscall_entry s) rsp0 false) else None) /\
  (v <> 0x80 -> forall cpl, cpl = 0 \/ cpl = 3 ->
     deliver t false cpl rsp v = Some (Entered SEL_KERNEL_CODE (stub_of s v) (if cpl =? 3 then rsp0 else rsp) true)).
Proof.
  intros Hs Hv t. assert (Hst : 0 <= stub_of s v < 2 ^ 64).
  { unfold stub_of. split_tests; apply Hs. }
  unfold deliver. change (g_idt t) with (g_idt (idt_init s idt_addr (gdt_init gdt_addr tss_addr (boot_tables c)))).
  rewrite idt_gate by (done || reflexivity). cbn [mbind option_bind].
  assert (Hseg : segment t KERNEL_CODE_SELECTOR = Some (entry_word (GdtEntry 0xFFFF 0 0 0x9A 0xAF 0))) by reflexivity.
  change (g_tss t) with (Tss rsp0 0 0 (replicate 7 0) 0). cbn [tss_rsp0]. split.
  - destruct (v =? 0x80); [|done]. cbn [gate_present gate_type gate_dpl attributes gate selector].
    rewrite Hseg. rewrite gate_offset_set by apply Hs. done.
  - intros Hne cpl Hc. rewrite (proj2 (Z.eqb_neq v 0x80)) by done.
    cbn [gate_present gate_type gate_dpl attributes gate selector andb]. rewrite Hseg, gate_offset_set by done.
    by destruct Hc as [-> | ->].
Qed.

(** A witness: the stubs at some addresses. *)
Definition some_stubs : stubs := Stubs (fun v => 0xFFFFFFFF80001000 + 16 * (v mod 32)) (fun v => 0xFFFFFFFF80002000 + 16 * (v mod 16))
  0xFFFFFFFF80003000 0xFFFFFFFF80004000 0xFFFFFFFF80005000.

Lemma kernel_entry_points_witness :
  let t := kernel_tables (Processor 0 0 (0, 0) (0, 0) 0) 0xFFFFFFFF80100000 0xFFFFFFFF80100100 0xFFFFFFFF80101000 some_stubs 0xFFFF800000010000 in
  deliver t true 3 0x60010000 0x80 = Some (Entered 0x08 0xFFFFFFFF80004000 0xFFFF800000010000 false) /\
  deliver t true 3 0x60010000 14 = None /\
  deliver t false 3 0x60010000 33 = Some (Entered 0x08 0xFFFFFFFF80002010 0xFFFF800000010000 true).
Proof.
  assert (Hs : stubs_ok some_stubs) by (split; [intros v; cbn; divlia|intros v; cbn; divlia|cbn; lia]).
  intros t. split_and!.
  - unfold t. rewrite (proj1 (kernel_entry_points _ _ _ _ some_stubs _ 0x60010000 0x80 Hs ltac:(lia))). reflexivity.
  - unfold t. rewrite (proj1 (kernel_entry_points _ _ _ _ some_stubs _ 0x60010000 14 Hs ltac:(lia))). reflexivity.
  - unfold t. rewrite (proj2 (kernel_entry_points _ _ _ _ some_stubs _ 0x60010000 33 Hs ltac:(lia))) by (lia || by right). reflexivity.
Defined.

(** The base of a system segment takes 16 bytes. *)
Definition tss_base (t : desc_tables) (sel : Z) : option Z :=
  lo ← segment t sel; hi ← segment t (sel + 8); Some (seg_base lo + bits 0 32 hi * 2 ^ 32).

(** The segments are what their users take them for: the kernel runs in a 64-bit
    code segment and a writable data segment of ring 0, the selectors that the
    scheduler gives to user tasks name such segments of ring 3, and the task
    register names a busy task state segment at the address of [g_tss], of its
    size. *)
Theorem gdt_segments c gdt_addr tss_addr : 0 <= tss_addr < 2 ^ 64 ->
  let t := gdt_init gdt_addr tss_addr (boot_tables c) in
  r_gdtr (r_cpu t) = (63, gdt_addr) /\ length (g_gdt t) = 8%nat /\
  (exists w, segment t (r_cs (r_cpu t)) = Some w /\ code64 w = true /\ seg_dpl w = 0) /\
  (exists w, segment t (r_data (r_cpu t)) = Some w /\ data_rw w = true /\ seg_dpl w = 0) /\
  (exists w, segment t SEL_USER_CODE = Some w /\ code64 w = true /\ seg_dpl w = SEL_USER_CODE mod 4) /\
  (exists w, segment t SEL_USER_DATA = Some w /\ data_rw w = true /\ seg_dpl w = SEL_USER_DATA mod 4) /\
  (exists w, segment t (r_tr (r_cpu t)) = Some w /\ seg_present w = true /\ seg_type w = 11 /\ seg_limit w = TSS_BYTES - 1) /\
  tss_base t (r_tr (r_cpu t)) = Some tss_addr.
Proof.
  intros Ha t. split; [done|]. split; [done|].
  split; [by eexists|]. split; [by eexists|]. split; [by eexists|]. split; [by eexists|].
  unfold tss_base, segment. set (e5 := GdtEntry 103 (tss_addr mod 2 ^ 16) (tss_addr / 2 ^ 16 mod 2 ^ 8) 0x8B 0 (tss_addr / 2 ^ 24 mod 2 ^ 8)).
  set (hi := u32 (tss_addr / 2 ^ 32)). set (e6 := GdtEntry (hi mod 2 ^ 16) (hi / 2 ^ 16 mod 2 ^ 16) 0 0 0 0).
  assert (E5 : g_gdt t !! 5%nat = Some e5).
  { unfold t, gdt_init, gdt_set_tss. cbn -[u16 u8 Z.land Z.shiftr Z.lor u32]. rewrite !u16_land, !u8_land, !Z.shiftr_div_pow2 by lia. reflexivity. }
  assert (E6 : g_gdt t !! 6%nat = Some e6).
  { unfold t, gdt_init, gdt_set_tss. cbn -[u16 u8 Z.land Z.shiftr Z.lor u32]. rewrite !u16_land, !Z.shiftr_div_pow2 by lia. done. }
  change (Z.to_nat (r_tr (r_cpu t) / 8)) with 5%nat. change (Z.to_nat ((r_tr (r_cpu t) + 8) / 8)) with 6%nat.
  rewrite E5, E6. cbn [fmap option_fmap option_map mbind option_bind]. split.
  - eexists. split; [done|]. unfold seg_present, seg_type, seg_limit, bits, entry_word, e5. cbn [limit_low base_low base_mid access flags_limit_hi base_high].
    unfold TSS_BYTES. split_and!; [apply Z.eqb_eq| |]; divlia.
  - f_equal. unfold seg_base, bits, entry_word, e5, e6, hi, u32. cbn [limit_low base_low base_mid access flags_limit_hi base_high]. divlia.
Qed.

(** ** Interrupts in service *)

(** The in-service registers of the two controllers, and which register a read
    of the command port delivers (the request register, here [irr], before
    the first OCW3). *)
Record isrs := Isrs {
  m_isr : Z;
  s_isr : Z;
  m_read : bool;
  s_read : bool;
}.

(** A non-specific end of interrupt clears the bit of the highest priority. *)
Definition eoi (isr : Z) : Z := Z.land isr (isr - 1).

Definition chip_write (v : Z) (isr : Z) (read : bool) : Z * bool :=
  if v =? 0x20 then (eoi isr, read) else if v =? PIC_READ_ISR then (isr, true) else (isr, read).

Definition isrs_out (port v : Z) (c : isrs) : isrs :=
  if port =? PIC1_CMD_PORT then let '(i, r) := chip_write v (m_isr c) (m_read c) in Isrs i (s_isr c) r (s_read c)
  else if port =? PIC2_CMD_PORT then let '(i, r) := chip_write v (s_isr c) (s_read c) in Isrs (m_isr c) i (m_read c) r
  else c.

Section Service.
Context {X : Type} (irr : Z).

#[local] Instance isrs_ports : Ports (isrs * X) := {
  inb port s :=
    (if port =? PIC1_CMD_PORT then (if m_read (fst s) then m_isr (fst s) else irr)
     else if port =? PIC2_CMD_PORT then (if s_read (fst s) then s_isr (fst s) else irr) else 0, s);
  outb port v s := (isrs_out port v (fst s), snd s);
}.

(** The processor accepts line [n] while nothing is in service. *)
Definition accepted (n : Z) : isrs :=
  if n <? 8 then Isrs (Z.shiftl 1 n) 0 false false else Isrs (Z.shiftl 1 2) (Z.shiftl 1 (n - 8)) false false.

(** The request went away before it was accepted: the controller answers with
    its line 7 and marks nothing; for the second one, the first has accepted
    its line 2. *)
Definition spurious (n : Z) : isrs := if n <? 8 then Isrs 0 0 false false else Isrs (Z.shiftl 1 2) 0 false false.

(** A handler that leaves the controllers alone. *)
Definition on_kernel (f : X -> X) (s : isrs * X) : isrs * X := (fst s, f (snd s)).

(** Every hardware interrupt is handled once and acknowledged: when line [n] was
    accepted, [irq_dispatch] runs the installed handler of this line, and
    nothing is in service afterwards. A spurious interrupt of line 7 runs no
    handler and leaves the controllers idle. A spurious one of line 15 runs
    no handler either, but the first controller keeps line 2 in service. *)
Theorem irq_dispatch_serves (handlers : list (option (isrs * X -> isrs * X))) (n : Z) (f : X -> X) (x : X) :
  0 <= n < 16 -> length handlers = 16%nat ->
  let hs := irq_install n (Some (on_kernel f)) handlers in
  (exists c, irq_dispatch hs n (accepted n, x) = (c, f x) /\ m_isr c = 0 /\ s_isr c = 0) /\
  (n = 7 -> exists c, irq_dispatch hs n (spurious n, x) = (c, x) /\ m_isr c = 0 /\ s_isr c = 0) /\
  (n = 15 -> exists c, irq_dispatch hs n (spurious n, x) = (c, x) /\ m_isr c = 4 /\ s_isr c = 0).
Proof.
  intros Hn Hl hs. assert (Hh : hs !! Z.to_nat n = Some (Some (on_kernel f))).
  { unfold hs, irq_install. rewrite (proj2 (Z.ltb_lt n 16)) by lia. apply list_lookup_insert_eq. lia. }
  clearbody hs. split_and!.
  - assert (n ∈ zseq 0 16) as Hin by (apply elem_of_zseq; lia). unfold irq_dispatch, irq_handle.
    repeat (apply elem_of_cons in Hin as [-> |Hin]; [cbn [Z.eqb Pos.eqb orb]; rewrite Hh; by eexists|]). by apply not_elem_of_nil in Hin.
  - intros ->. by eexists.
  - intros ->. by eexists.
Qed.
End Service.

(** ** Panic messages *)

Section PanicTotal.
Context {P H : Type} `{FramePool P} `{Ports H}.
Implicit Types k : kern P H.

(** A step that succeeds and leaves the task table as it is. *)
Definition prints (tasks : list task) (m : option (kern P H)) : Prop := exists k, m = Some k /\ g_tasks k = tasks.

Lemma prints_bind tasks m (f : kern P H -> option (kern P H)) :
  prints tasks m -> (forall k, g_tasks k = tasks -> prints tasks (f k)) -> prints tasks (m ≫= f).
Proof. intros (k & -> & E) Hf. by apply Hf. Qed.

Lemma prints_write tasks k s : g_tasks k = tasks -> prints tasks (con_write k s).
Proof. intros E. by eexists. Qed.

Lemma prints_kprintf tasks k fmt args : g_tasks k = tasks -> is_Some (kvprintf (S (length fmt)) fmt args) -> prints tasks (kprintf k fmt args).
Proof.
  intros E [out Eo]. unfold kprintf. rewrite Eo. eexists. split; [done|]. unfold preempt_enable. by case_match.
Qed.

Definition labels : list (list Z) :=
  [bs "Error code"; bs "CR2     "; bs "RDI     "; bs "RSI     "; bs "RDX     "; bs "RAX     "; bs "RCX     "; bs "RBX     "; bs "RBP     ";
   bs "R12     "; bs "RIP    "; bs "CS     "; bs "RFLAGS "; bs "RSP    "; bs "SS     "].

Lemma prints_dump tasks label v k : g_tasks k = tasks -> label ∈ labels -> prints tasks (dump label v k).
Proof.
  intros E Hl. apply prints_kprintf; [done|]. unfold labels in Hl.
  repeat (apply elem_of_cons in Hl as [-> |Hl]; [lazy -[format_unsigned]; by eexists|]). by apply not_elem_of_nil in Hl.
Qed.

Lemma prints_words tasks ws k : g_tasks k = tasks ->
  prints tasks (fold_left (fun m w => k ← m; kprintf k (bs " %llx") [VaInt w]) ws (Some k)).
Proof.
  revert k. induction ws as [|w ws IH]; intros k E; cbn [fold_left]; [by exists k|]. cbn [mbind option_bind].
  destruct (prints_kprintf tasks k (bs " %llx") [VaInt w] E) as (k' & -> & E'); [lazy -[format_unsigned]; by eexists|]. by apply IH.
Qed.

End PanicTotal.

Ltac print_steps := repeat match goal with
  | |- prints _ (mbind _ _) => apply prints_bind; [|intros ? ?]
  | |- prints _ (con_write _ _) => by apply prints_write
  | |- prints _ (dump _ _ _) => apply prints_dump; [done|by_decide]
  | |- prints _ (fold_left _ _ _) => by apply prints_words
  | |- prints _ (if ?b then _ else _) => destruct b
  | |- prints _ (Some _) => by eexists
  | |- prints _ (kprintf _ _ _) => apply prints_kprintf; [done|lazy -[format_signed format_unsigned format_str kput_unsigned u64]; by eexists]
  end.

(** Every panic prints its dump to the end and leaves the task table for
    inspection: neither handler runs out of arguments or of the table of
    names, for any vector and any contents of the registers. *)
Theorem panic_dumps_complete {P H} `{FramePool P} `{Ports H} (k : kern P H) frame error_code vec cr2 regs stack :
  0 <= vec < 32 ->
  prints (g_tasks k) (exc_stub vec frame error_code cr2 k) /\
  prints (g_tasks k) (exc_page_fault_c regs cr2 stack k).
Proof.
  intros Hv. split; [unfold exc_stub, exception_fatal|unfold exc_page_fault_c; print_steps].
  destruct (lookup_lt_is_Some_2 g_exception_names (Z.to_nat vec)) as [name En]; [cbn; lia|]. rewrite En. print_steps.
  all: destruct (vmm_pte _ _) as [pte v]; destruct (vmm_translate v cr2) as [phys v']; print_steps.
Qed.
