(* ===== verification/Main.v ===== *)
(** * The kernel entry (src/kernel/main.c)

    [_start] calls the initialisation of every part in turn and ends in the
    shell. What the boot loader answers is a parameter ([responses]); the
    state is that of the kernel ([kern]) with the descriptor tables, the masks
    of the interrupt controllers, the control registers, the interrupt flag
    and the mailboxes of the other processors ([machine]). *)

From stdpp Require Import base numbers list gmap.
From Stdlib Require Import ZArith Lia ZifyBool.
From S2P Require Import Prelude.
From S2P Require Import Interfaces.
From S2P Require Import Hardware.
From S2P Require Import Keyboard.
From S2P Require Import Klib.
From S2P Require Import Pmm.
From S2P Require Import Vmm.
From S2P Require Import Kmalloc.
From S2P Require Import Vfs.
From S2P Require Import Rootfs.
From S2P Require Import Fb.
From S2P Require Import Devices.
From S2P Require Import Sched.
From S2P Require Import Descriptors.
From S2P Require Import TusElf.
From S2P Require Import Ppm.
From S2P Require Import Splash.

(** ** What the boot loader provides *)

(** The response pointers; [None] is NULL. The framebuffer comes with its
    address, a processor is the mailbox [goto_address] (or a null pointer). *)
Record responses := Responses {
  rs_loader : option (list Z * list Z);
  rs_framebuffers : option (list (limine_framebuffer * Z));
  rs_hhdm : option Z;
  rs_cpus : option (list (option Z));
  rs_modules : option (list (list Z));
  rs_memmap : option (list memmap_entry);
}.

Record bootinfo := Bootinfo {
  bi_name : option (list Z);
  bi_version : option (list Z);
  bi_framebuffer : option (limine_framebuffer * Z);
  bi_memory : Z;
  bi_hhdm : Z;
  bi_cpus : Z;
  bi_rootfs : option (list Z);
}.

Definition add_usable (total : Z) (e : memmap_entry) : Z :=
  if me_type e =? LIMINE_MEMMAP_USABLE then u64 (total + me_length e) else total.

Definition fill_bootinfo (r : responses) : bootinfo :=
  Bootinfo (fst <$> rs_loader r) (snd <$> rs_loader r) (rs_framebuffers r ≫= head)
    (match rs_memmap r with Some entries => fold_left add_usable entries 0 | None => 0 end)
    (default 0 (rs_hhdm r))
    (match rs_cpus r with Some cpus => Z.of_nat (length cpus) | None => 1 end)
    (rs_modules r ≫= head).

(** The mailboxes after [park_aps]; [ap_park] is the address of the loop. *)
Definition park_aps (ap_park : Z) (cpus : option (list (option Z))) : option (list (option Z)) :=
  map (fun cpu => match cpu with Some _ => Some ap_park | None => None end) <$> cpus.

(** ** The banner *)

Section Banner.
Context {H : Type} `{Ports H}.
Implicit Types k : kern pmm H.

Definition set_color (fg bg : Z) k : kern pmm H := on_dev k (fun d => Some (console_set_color fg bg d)).

Definition print_boot_banner (bi : bootinfo) k : option (kern pmm H) :=
  let name := default (bs "unknown") (bi_name bi) in
  let version := default [] (bi_version bi) in
  let mib := bi_memory bi / (1024 * 1024) in
  let rule := bs "------------------------------------------------" ++ [10] in
  k ← con_write (set_color 0x00FFA040 0 k) (bs "Toasty Unix Software (TUS)" ++ [10]);
  k ← con_write (set_color 0x00E8E8E8 0 k) ([34] ++ bs "Work everywhere, but work right." ++ [34; 10]);
  k ← con_write k rule;
  k ← kprintf k (bs "bootloader   : %s %s" ++ [10]) [VaStr (Some name); VaStr (Some version)];
  k ← con_write k (bs "architecture : x86_64 (AMD64)" ++ [10]);
  k ← kprintf k (bs "cpu count    : %llu" ++ [10]) [VaInt (bi_cpus bi)];
  k ← kprintf k (bs "memory       : %llu MiB usable" ++ [10]) [VaInt mib];
  k ← (match bi_framebuffer bi with
       | Some (f, address) =>
           kprintf k (bs "framebuffer  : %llux%llu, %u bpp, pitch %llu @ %p" ++ [10])
             [VaInt (lf_width f); VaInt (lf_height f); VaInt (lf_bpp f); VaInt (lf_pitch f); VaInt address]
       | None => con_write k (bs "framebuffer  : unavailable (serial console only)" ++ [10])
       end);
  k ← con_write k (bs "serial       : COM1 @ 115200 8N1 (debug mirror)" ++ [10]);
  k ← con_write k (bs "keyboard     : PS/2 scancode set 1, IRQ1" ++ [10]);
  k ← kprintf k (bs "timer        : PIT 100 Hz (IRQ0)" ++ [10]) [];
  let '(total, free) := pmm_get_stats (pool (k_vmm k)) in
  k ← kprintf k (bs "pmm          : %llu free / %llu frames (%llu MiB usable)" ++ [10]) [VaInt free; VaInt total; VaInt mib];
  k ← con_write k (bs "vfs          : /dev/fb0 tty0 kbd0 serial0 null zero" ++ [10]);
  k ← con_write k rule;
  con_write k (bs "tsh ready. Type 'help' to list the commands." ++ [10; 10]).

(** ** The entry point *)

Record machine := Machine {
  m_kern : kern pmm H;
  m_tables : desc_tables;
  m_pic : pic;
  m_cr0 : Z;
  m_cr4 : Z;
  m_if : bool;
  m_cpus : option (list (option Z));
}.

(** Where the linker has put things. *)
Record layout := Layout {
  ly_gdt : Z;
  ly_tss : Z;
  ly_idt : Z;
  ly_stubs : stubs;
  ly_ap_park : Z;
}.

Definition BOOT_SPLASH_HOLD_MS : Z := 2500.

Definition with_kern (m : machine) (k : kern pmm H) : machine :=
  Machine k (m_tables m) (m_pic m) (m_cr0 m) (m_cr4 m) (m_if m) (m_cpus m).

(** A driver that talks to ports, on the hardware of the kernel. *)
Definition on_ports (f : pic -> H -> pic * H) (pc : pic) k : option (pic * kern pmm H) :=
  d ← devs (k_vfs k);
  let '(pc, h) := f pc (d_hw d) in
  Some (pc, with_vfs k (with_devs (k_vfs k) (Some (set_hw d h)))).

(** The memory managers: [pmm_init], [vmm_init], [kmalloc_init]. *)
Definition init_memory (memmap : option (list memmap_entry)) (hhdm : Z) k : kern pmm H :=
  let v := k_vmm k in
  let v := Vmm (pmm_init (pool v) memmap hhdm) (pmem v) (hw_cr3 v) (g_cr3 v) (g_root_cr3 v) in
  let k := with_vmm k (vmm_init v) in
  with_heap k (kmalloc_init (k_heap k)).

(** [_start] up to [tsh_run]: [fuel] is that of the heap lists, [wakes] the
    interrupts during the pause. The outer [None] is a fault, or a pause that
    is not over. *)
Definition start (ly : layout) (r : responses) (fuel : nat) (wakes : list bool) (m : machine) : option machine :=
  let bi := fill_bootinfo r in
  let cpus := park_aps (ly_ap_park ly) (rs_cpus r) in
  let k := on_dev (m_kern m) (fun d => Some (console_init (fst <$> bi_framebuffer bi) d)) in
  let t := gdt_init (ly_gdt ly) (ly_tss ly) (m_tables m) in
  let t := idt_init (ly_stubs ly) (ly_idt ly) t in
  '(pc, k) ← on_ports (fun p h => (p, pic_init p h)) (m_pic m) k;
  let k := init_memory (rs_memmap r) (bi_hhdm bi) k in
  '(pc, k) ← on_ports pit_init pc k;
  '(pc, k) ← on_ports kbd_init pc k;
  '(_, k) ← on_vfs vfs_init k;
  k ← (match bi_rootfs bi with
       | Some image => '(_, k) ← on_vfs (vfs_mount_rootfs (Some image)) k; Some k
       | None => con_write k (bs "rootfs       : not loaded (no Limine module)" ++ [10])
       end);
  k ← sched_init k;
  let t := tss_set_rsp0 (rsp0 (k_cpu k)) t in
  '(_, k) ← on_vfs (vfs_devices_init (devices_init (match bi_framebuffer bi with Some (_, a) => a | None => 0 end))) k;
  '(_, k) ← splash_show fuel (bi_cpus bi) k;
  let '(cr0, cr4) := cpu_enable_sse (m_cr0 m) (m_cr4 m) in
  k ← print_boot_banner bi k;
  let k := preempt_disable k in
  '(ticks, _) ← timer_sleep_ms BOOT_SPLASH_HOLD_MS (g_ticks k) wakes;
  let k := preempt_enable (with_ticks k ticks) in
  Some (Machine k t pc cr0 cr4 true cpus).
End Banner.

(** ** What is in place when the shell starts *)

(** The usable memory is the sum of the usable entries, as long as it fits. *)
Definition usable (entries : list memmap_entry) : Z :=
  foldr (fun e n => (if me_type e =? LIMINE_MEMMAP_USABLE then me_length e else 0) + n) 0 entries.

Lemma usable_nonneg entries : Forall (fun e => 0 <= me_length e) entries -> 0 <= usable entries.
Proof. induction 1 as [|e l He Hl IH]; cbn [usable foldr]; [lia|]. fold (usable l). destruct (_ =? _); lia. Qed.

Lemma add_usable_sum entries total : Forall (fun e => 0 <= me_length e) entries -> 0 <= total -> total + usable entries < 2 ^ 64 ->
  fold_left add_usable entries total = total + usable entries.
Proof.
  intros Hl. revert total. induction Hl as [|e l He Hl IH]; intros total H0 Hs; cbn [fold_left usable foldr] in *; [lia|].
  fold (usable l) in *. pose proof (usable_nonneg l Hl). unfold add_usable at 2. destruct (me_type e =? LIMINE_MEMMAP_USABLE).
  - rewrite u64_small by lia. rewrite IH; lia.
  - rewrite IH; lia.
Qed.

Section Start.
Context {H : Type} `{Ports H}.
Implicit Types k : kern pmm H.

Lemma on_ports_pic f pc k pc' k' : on_ports f pc k = Some (pc', k') -> exists h, pc' = fst (f pc h).
Proof.
  unfold on_ports. intros (d & _ & E)%bind_Some. destruct (f pc (d_hw d)) as [q h] eqn:Ef. injection E as <- <-.
  exists (d_hw d). by rewrite Ef.
Qed.

Lemma on_ports_tasks f pc k pc' k' : on_ports f pc k = Some (pc', k') -> g_tasks k' = g_tasks k.
Proof. unfold on_ports. intros (d & _ & E)%bind_Some. destruct (f pc (d_hw d)) as [q h]. by injection E as <- <-. Qed.

Lemma on_vfs_tasks {A} (f : M (option (dev H)) A) k x k' : on_vfs f k = Some (x, k') -> g_tasks k' = g_tasks k.
Proof. unfold on_vfs. intros ([y v] & _ & E)%bind_Some. by injection E as <- <-. Qed.

Lemma preempt_enable_tasks k : g_tasks (preempt_enable k) = g_tasks k.
Proof. unfold preempt_enable. by destruct (0 <? _). Qed.

Lemma heap_alloc_tasks fuel k n p k' : heap_alloc fuel k n = Some (p, k') -> g_tasks k' = g_tasks k.
Proof. unfold heap_alloc. intros ([q h] & _ & E)%bind_Some. by injection E as <- <-. Qed.

Lemma heap_free_tasks fuel k p k' : heap_free fuel k p = Some k' -> g_tasks k' = g_tasks k.
Proof. unfold heap_free. intros (h & _ & E)%bind_Some. by injection E as <-. Qed.

Ltac keep_tasks := repeat match goal with
  | E : Some _ = Some _ |- _ => injection E as E; subst
  | E : (_, _) = (_, _) |- _ => injection E as E; subst
  | E : mbind _ _ = Some _ |- _ => apply bind_Some in E as (? & ? & ?)
  | E : on_vfs _ _ = Some (_, _) |- _ => apply on_vfs_tasks in E
  | E : heap_alloc _ _ _ = Some (_, _) |- _ => apply heap_alloc_tasks in E
  | E : heap_free _ _ _ = Some _ |- _ => apply heap_free_tasks in E
  | E : context [match ?x with _ => _ end] |- _ => destruct x; try discriminate E
  end; cbn in *; try congruence.

Lemma splash_load_tasks fuel k r k' : splash_load fuel k = Some (r, k') -> g_tasks k' = g_tasks k.
Proof. unfold splash_load. intros E. keep_tasks. Qed.

Lemma ppm_decode_tasks fuel k b r k' : ppm_decode (heap_alloc fuel) (heap_free fuel) k b = Some (r, k') -> g_tasks k' = g_tasks k.
Proof. unfold ppm_decode. intros E. keep_tasks. Qed.

Lemma splash_show_tasks fuel n k r k' : splash_show fuel n k = Some (r, k') -> g_tasks k' = g_tasks k.
Proof.
  unfold splash_show. intros (d & _ & E)%bind_Some. destruct (negb _); [by injection E as <- <-|].
  apply bind_Some in E as ([loaded k1] & E1%splash_load_tasks & E). destruct loaded as [[bytes file]|]; [|by injection E as <- <-].
  apply bind_Some in E as ([img k2] & E2%ppm_decode_tasks & E). apply bind_Some in E as (k3 & E3%heap_free_tasks & E).
  destruct img as [img|]; [|injection E as <- <-; cbn; congruence].
  apply bind_Some in E as (k4 & E4%heap_free_tasks & E). injection E as <- <-. cbn in *. congruence.
Qed.

(** The first task runs on the stack that interrupts from ring 3 will use. *)
Lemma sched_init_stack k k' : length (g_tasks k) = 16%nat -> sched_init k = Some k' ->
  exists t, 0 <= t < 16 /\ g_current k' = Some t /\ t_state (get_task k' t) = TASK_RUNNING /\ t_name (get_task k' t) = bs "tsh" /\
    rsp0 (k_cpu k') = t_kstack_top (get_task k' t).
Proof.
  intros Hl. unfold sched_init. destruct (task_find_slot k) as [[t|] k1] eqn:Ef; [|done].
  apply find_slot_spec in Ef as (Ht & _ & Hl1 & _); [|done]. intros ([stack h] & _ & E)%bind_Some.
  injection E as <-. exists t. split; [done|]. split; [done|]. cbn [k_cpu with_cpu rsp0].
  match goal with |- context [set_task ?k t ?x] => pose proof (get_set_task k t t x) as G end.
  rewrite Z.eqb_refl in G. specialize (G Hl1 Ht Ht).
  match type of G with get_task ?k t = _ => match goal with |- context [get_task ?k' t] => change (get_task k' t) with (get_task k t) end end.
  by rewrite G.
Qed.

(** The banner is printed to its end. *)
Theorem banner_complete bi k : prints (g_tasks k) (print_boot_banner bi k).
Proof.
  unfold print_boot_banner. cbv zeta. generalize (bi_memory bi / (1024 * 1024)), (default (bs "unknown") (bi_name bi)), (default [] (bi_version bi)).
  intros mib name version. print_steps.
  - destruct (bi_framebuffer bi) as [[f address]|]; print_steps.
  - destruct (pmm_get_stats _) as [total free]. print_steps.
Qed.

(** C29. When the shell starts, interrupts are on and everything they need is in
    place: the descriptor tables are those of [gdt_init] and [idt_init] with the
    kernel stack of the running task, the shell's, in the task state segment;
    the controllers let the timer and the keyboard through and nothing else,
    the processors have been sent to the parking loop, and SSE is enabled. *)
Theorem start_interrupts_ready ly r fuel wakes c k cr0 cr4 m' : length (g_tasks k) = 16%nat ->
  start ly r fuel wakes (Machine k (boot_tables c) pic_boot cr0 cr4 false (rs_cpus r)) = Some m' ->
  m_if m' = true /\ m_pic m' = Pic 0xFC 0xFF /\
  (exists t, 0 <= t < 16 /\ t_state (get_task (m_kern m') t) = TASK_RUNNING /\ t_name (get_task (m_kern m') t) = bs "tsh" /\
    m_tables m' = kernel_tables c (ly_gdt ly) (ly_tss ly) (ly_idt ly) (ly_stubs ly) (t_kstack_top (get_task (m_kern m') t))) /\
  (forall cpus cpu, m_cpus m' = Some cpus -> Some cpu ∈ cpus -> cpu = ly_ap_park ly) /\
  Z.testbit (m_cr0 m') 2 = false /\ Z.testbit (m_cr4 m') 9 = true /\ Z.testbit (m_cr4 m') 10 = true.
Proof.
  intros Hl. unfold start. cbn [m_kern m_tables m_pic m_cr0 m_cr4].
  intros ([pc1 k1] & E1 & E)%bind_Some. pose proof (on_ports_tasks _ _ _ _ _ E1) as T1. apply on_ports_pic in E1 as [h1 ->]. cbn [fst] in E.
  apply bind_Some in E as ([pc2 k2] & E2 & E). pose proof (on_ports_tasks _ _ _ _ _ E2) as T2. apply on_ports_pic in E2 as [h2 ->].
  apply bind_Some in E as ([pc3 k3] & E3 & E). pose proof (on_ports_tasks _ _ _ _ _ E3) as T3. apply on_ports_pic in E3 as [h3 ->].
  apply bind_Some in E as ([u4 k4] & T4%on_vfs_tasks & E). apply bind_Some in E as (k5 & E5 & E). apply bind_Some in E as (k6 & E6 & E).
  assert (T5 : g_tasks k5 = g_tasks k4).
  { destruct (bi_rootfs _); [|by injection E5 as <-]. apply bind_Some in E5 as ([u k5'] & T5%on_vfs_tasks & [= <-]). done. }
  destruct (sched_init_stack k5 k6) as (t & Ht & _ & Hrun & Hname & Hstack); [rewrite T5, T4, T3, T2, <- Hl; exact (f_equal length T1)|done|].
  apply bind_Some in E as ([u7 k7] & T7%on_vfs_tasks & E). apply bind_Some in E as ([u8 k8] & T8%splash_show_tasks & E).
  destruct (cpu_enable_sse cr0 cr4) as [c0 c4] eqn:Es. apply bind_Some in E as (k9 & E9 & E).
  destruct (banner_complete (fill_bootinfo r) k8) as (k9' & E9' & T9). rewrite E9 in E9'. injection E9' as <-.
  apply bind_Some in E as ([ticks ws] & _ & [= <-]). cbn [m_if m_pic m_tables m_cpus m_cr0 m_cr4 m_kern].
  match goal with |- context [preempt_enable ?kf] =>
    assert (Hf : get_task (preempt_enable kf) t = get_task k6 t) end.
  { unfold get_task. rewrite preempt_enable_tasks, <- T7, <- T8, <- T9. done. }
  injection Es as <- <-. split_and!; [done|reflexivity|by exists t; rewrite Hf, <- Hstack| | | |].
  - intros cpus cpu Ec Hin. unfold park_aps in Ec. destruct (rs_cpus r) as [l|]; [|done]. injection Ec as <-.
    apply list_elem_of_fmap in Hin as ([x|] & [= ->] & _). done.
  - rewrite Z.land_spec. apply andb_false_intro2. reflexivity.
  - rewrite Z.lor_spec. apply orb_true_intro. by right.
  - rewrite Z.lor_spec. apply orb_true_intro. by right.
Qed.
End Start.

(** ** A boot *)

(** A serial line that is always ready and remembers what it was sent, the last
    byte first. *)
Record uart := Uart { sent : list Z }.

#[export] Instance uart_ports : Ports uart := {
  inb port h := (if port =? COM1_BASE + REG_LSR then LSR_THR_EMPTY else 0, h);
  outb port v h := if port =? COM1_BASE + REG_DATA then Uart (v :: sent h) else h;
}.

(** The kernel as it is loaded, its variables zero; two processors, eight
    megabytes, neither screen nor image. *)
Definition cold_kern : kern pmm uart :=
  Kern (Heap (Vmm (Pmm (fun _ => 0) 0 0 0 0) (fun _ => 0) 0 0 0) (fun _ => 0) 0 0 0)
    (Vfs ∅ ∅ ∅ 0 {[ 0 := replicate 16 0 ]} None 1 []
      (Some (Dev fb_static false false kbd_boot (replicate 60 0) (replicate 8 0) 0 0 (FbInfo 0 0 0 0 0) None (Uart []))))
    (replicate 16 no_task) 1 0 (Cpu 0 (replicate 512 0) 0) 0 (fun _ => []).

Definition small_machine : responses :=
  Responses (Some (bs "Limine", bs "12.5.2")) None (Some 0) (Some [Some 0; Some 0]) None
    (Some [MemmapEntry 0x100000 0x800000 LIMINE_MEMMAP_USABLE]).

Definition small_layout : layout := Layout 0x1000 0x2000 0x3000 some_stubs 0x4000.

#[local] Notation cold_start :=
  (start small_layout small_machine 1 (replicate 250 true)
    (Machine cold_kern (boot_tables (Processor 0 0 (0, 0) (0, 0) 0)) pic_boot 0 0 false (rs_cpus small_machine))).

Definition sent_by (m : machine (H := uart)) : list Z := match devs (k_vfs (m_kern m)) with Some d => sent (d_hw d) | None => [] end.

(** It comes up: the shell is the current task 0 with a kernel stack, its
    descriptors 0 to 2 are open, and the banner has gone out on the line. *)
Lemma cold_start_runs :
  match cold_start with
  | Some m =>
      bool_decide (g_current (m_kern m) = Some 0) && (0 <? t_kstack (get_task (m_kern m) 0)) &&
      forallb (fun a => negb (a =? 0)) (take 3 (default [] (tables (k_vfs (m_kern m)) !! 0))) &&
      bool_decide (rev (take 46 (sent_by m)) = bs "tsh ready. Type 'help' to list the commands." ++ [10; 10])
  | None => false
  end = true.
Proof. vm_compute. reflexivity. Qed.

Lemma start_interrupts_ready_witness : exists m, cold_start = Some m /\ m_if m = true /\ m_pic m = Pic 0xFC 0xFF.
Proof.
  pose proof cold_start_runs as Hr. destruct cold_start as [m|] eqn:E; [|discriminate]. exists m. split; [reflexivity|].
  destruct (start_interrupts_ready small_layout small_machine 1 (replicate 250 true) (Processor 0 0 (0, 0) (0, 0) 0) cold_kern 0 0 m eq_refl E) as (H1 & H2 & _).
  split; [exact H1|exact H2].
Defined.
