(* ===== verification/Grep.v ===== *)
(** * grep (src/userspace/grep.c): the regular expression engine

    Strings are lists of bytes without the final NUL; a pointer into a string
    is a suffix of it, and reading at its end gives 0. The engine is
    backtracking: [m_seq] matches a pattern at the start of a string, calling
    itself on shorter patterns only, so the length of the pattern bounds the
    recursion ([m_seq] supplies that much fuel).

    A continuation of the engine returns 0 to stop and 1 to go on; here it
    returns the truth value "matched". The two places where the source mixes
    these up are kept as they are ([reps_match]). *)

From stdpp Require Import base numbers list.
From Stdlib Require Import ZArith Lia ZifyBool.
From S2P Require Import Prelude.

Definition LINE_MAX : Z := 4096.
Definition PAT_MAX : Z := 512.

(** ** Characters (ctype.h in the C locale) *)

Definition isupper (c : Z) : bool := (65 <=? c) && (c <=? 90).
Definition islower (c : Z) : bool := (97 <=? c) && (c <=? 122).
Definition isalpha (c : Z) : bool := isupper c || islower c.
Definition isdigit (c : Z) : bool := (48 <=? c) && (c <=? 57).
Definition isalnum (c : Z) : bool := isalpha c || isdigit c.
Definition isspace (c : Z) : bool := (c =? 32) || ((9 <=? c) && (c <=? 13)).
Definition isblank (c : Z) : bool := (c =? 32) || (c =? 9).
Definition isgraph (c : Z) : bool := (33 <=? c) && (c <=? 126).
Definition isprint (c : Z) : bool := (32 <=? c) && (c <=? 126).
Definition ispunct (c : Z) : bool := isgraph c && negb (isalnum c).
Definition iscntrl (c : Z) : bool := (c <? 32) || (c =? 127).
Definition isxdigit (c : Z) : bool := isdigit c || ((65 <=? c) && (c <=? 70)) || ((97 <=? c) && (c <=? 102)).
Definition tolower (c : Z) : Z := if isupper c then c + 32 else c.

Definition mchar (icase : bool) (c : Z) : Z := if icase then tolower c else c.

(** [p[i]]. *)
Definition at_ (p : list Z) (i : nat) : Z := nth i p 0.

(** [strchr(p, c)] for a character other than NUL, as an offset. *)
Fixpoint strchr (p : list Z) (c : Z) : option nat :=
  match p with
  | [] => None
  | b :: p' => if b =? c then Some O else S <$> strchr p' c
  end.

(** ** Atoms *)

(** The close parenthesis of the group at the start, from [p] on at offset
    [i] with [depth] open parentheses. *)
Fixpoint group_end_loop (fuel : nat) (ere : bool) (p : list Z) (i : nat) (depth : Z) : option nat :=
  match fuel, p with
  | O, _ | _, [] => None
  | S fuel', c :: p1 =>
      if negb ere && (c =? 92) && ((at_ p 1 =? 40) || (at_ p 1 =? 41)) then
        let depth := if at_ p 1 =? 40 then depth + 1 else depth - 1 in
        if depth =? 0 then Some (S i) else group_end_loop fuel' ere (drop 2 p) (i + 2) depth
      else if ere && ((c =? 40) || (c =? 41)) then
        let depth := if c =? 40 then depth + 1 else depth - 1 in
        if depth =? 0 then Some i else group_end_loop fuel' ere p1 (S i) depth
      else
        let n := if negb ere && (c =? 92) && negb (at_ p 1 =? 0) then 2%nat else 1%nat in
        group_end_loop fuel' ere (drop n p) (i + n) depth
  end.

Definition re_group_end (re : list Z) (ere : bool) : option nat := group_end_loop (length re) ere re 0 0.

(** A POSIX class name [[:name:]] at [p]: the offset behind it. *)
Definition posix_class (p : list Z) : option nat :=
  if (at_ p 0 =? 91) && (at_ p 1 =? 58) then
    close ← strchr (drop 2 p) 58;
    if at_ p (close + 3) =? 93 then Some (close + 4)%nat else None
  else None.

(** The offset of the bracket that ends a class, from [p] at offset [i] on. *)
Fixpoint class_end (fuel : nat) (p : list Z) (i : nat) (first : bool) : option nat :=
  match fuel, p with
  | O, _ | _, [] => None
  | S fuel', c :: _ =>
      if (c =? 93) && negb first then Some i
      else
        match posix_class p with
        | Some n => class_end fuel' (drop n p) (i + n) false
        | None =>
            let n := if (c =? 92) && negb (at_ p 1 =? 0) then 2%nat else 1%nat in
            class_end fuel' (drop n p) (i + n) false
        end
  end.

(** The length of the atom at [re]; 0 if there is none. *)
Definition re_atom_len (re : list Z) (ere : bool) : nat :=
  let c := at_ re 0 in
  if (c =? 0) || (c =? 41) || (c =? 124) then O
  else if negb ere && (c =? 92) then
    let e := at_ re 1 in
    if e =? 40 then match re_group_end re ere with Some g => S g | None => O end
    else if (e =? 41) || (e =? 124) || (e =? 123) || (e =? 125) then O
    else 2%nat
  else if ere && (c =? 40) then match re_group_end re ere with Some g => S g | None => O end
  else if c =? 91 then match class_end (length re) (drop 1 re) 1 true with Some e => S e | None => O end
  else 1%nat.

(** The class names, with the lengths that the source compares. *)
Definition posix_names : list (list Z * nat * (Z -> bool)) :=
  [(bs "alpha", 5%nat, isalpha); (bs "digit", 5%nat, isdigit); (bs "space", 5%nat, isspace); (bs "upper", 5%nat, isupper);
   (bs "lower", 5%nat, islower); (bs "punct", 5%nat, ispunct); (bs "alnum", 4%nat, isalnum); (bs "cntrl", 3%nat, iscntrl);
   (bs "xdigit", 6%nat, isxdigit); (bs "graph", 5%nat, isgraph); (bs "print", 5%nat, isprint); (bs "blank", 4%nat, isblank)].

(** [nlen == n && strncmp(name, w, n) == 0]: the first entry that applies. *)
Definition posix_in (name : list Z) (nlen : nat) (c : Z) : bool :=
  match find (fun '(w, n, _) => bool_decide (nlen = n) && bool_decide (take n name = take n w)) posix_names with
  | Some (_, f) => f c
  | None => false
  end.

(** The members of a class: [q] is the rest of the pattern, of which [n]
    bytes belong to the class. *)
Fixpoint class_match (fuel : nat) (c : Z) (q : list Z) (n : nat) : bool :=
  match fuel, n with
  | O, _ | _, O => false
  | S fuel', S _ =>
      let nlen := default O (strchr (drop 2 q) 58) in
      if (at_ q 0 =? 91) && bool_decide (1 < n)%nat && (at_ q 1 =? 58) && bool_decide (0 < nlen)%nat &&
         (at_ q (nlen + 3) =? 93)
      then posix_in (drop 2 q) nlen c || class_match fuel' c (drop (nlen + 4) q) (n - (nlen + 4))
      else
        let lo := at_ q 0 in
        if bool_decide (2 < n)%nat && (at_ q 1 =? 45)
        then ((lo <=? c) && (c <=? at_ q 2)) || class_match fuel' c (drop 3 q) (n - 3)
        else (c =? lo) || class_match fuel' c (drop 1 q) (n - 1)
  end.

(** Does the atom at [re] match the character [c]? *)
Definition re_atom_char (re : list Z) (c : Z) (ere icase : bool) : bool :=
  let ch := at_ re 0 in
  if negb ere && (ch =? 92) then
    let e := at_ re 1 in
    if e =? 110 then c =? 10
    else if e =? 116 then c =? 9
    else if e =? 114 then c =? 13
    else if e =? 48 then c =? 0
    else mchar icase c =? mchar icase e
  else if ch =? 46 then negb (c =? 0)
  else if ch =? 91 then
    let neg := at_ re 1 =? 94 in
    let p := drop (if neg then 2 else 1)%nat re in
    match class_end (length p) p 0 true with
    | None => false
    | Some e => xorb neg (class_match (S e) c p e)
    end
  else mchar icase c =? mchar icase ch.

(** ** Alternation *)

(** The loop that looks for a bar outside parentheses: its offset, if any. *)
Fixpoint find_bar (fuel : nat) (ere : bool) (p : list Z) (i : nat) (depth : Z) : option nat :=
  match fuel, p with
  | O, _ | _, [] => None
  | S fuel', c :: p1 =>
      if negb ere && (c =? 92) && ((at_ p 1 =? 40) || (at_ p 1 =? 41)) then
        find_bar fuel' ere (drop 2 p) (i + 2) (if at_ p 1 =? 40 then depth + 1 else depth - 1)
      else if ere && ((c =? 40) || (c =? 41)) then
        find_bar fuel' ere p1 (S i) (if c =? 40 then depth + 1 else depth - 1)
      else if (c =? 124) || (negb ere && (c =? 92) && (at_ p 1 =? 124)) then
        if depth =? 0 then Some i
        else
          let n := if negb ere && (c =? 92) then 2%nat else 1%nat in
          find_bar fuel' ere (drop n p) (i + n) depth
      else
        let n := if negb ere && (c =? 92) && negb (at_ p 1 =? 0) then 2%nat else 1%nat in
        find_bar fuel' ere (drop n p) (i + n) depth
  end.

Definition next_bar (ere : bool) (p : list Z) : option nat := find_bar (length p) ere p 0 0.

(** ** Quantifiers *)

(** Decimal digits from [b] on: the value, in an int, and what follows. *)
Fixpoint digits (b : list Z) (v : Z) : Z * list Z :=
  match b with
  | c :: b' => if isdigit c then digits b' (s32 (v * 10 + (c - 48))) else (v, b)
  | [] => (v, [])
  end.

(** The quantifier at [after]: least and greatest count (-1 for none), and
    its length in the pattern (0 if there is none). *)
Definition quantifier (after : list Z) (ere : bool) : Z * Z * nat :=
  let q (ch : Z) := (at_ after 0 =? ch) || (negb ere && (at_ after 0 =? 92) && (at_ after 1 =? ch)) in
  let len (ch : Z) := if at_ after 0 =? ch then 1%nat else 2%nat in
  if q 42 then (0, -1, len 42)
  else if q 43 then (1, -1, len 43)
  else if q 63 then (0, 1, len 63)
  else if q 123 then
    let b := drop (if ere then 1 else 2)%nat after in
    if isdigit (at_ b 0) then
      let '(lo, b) := digits b 0 in
      let '(hi, b) :=
        if at_ b 0 =? 44 then
          let b := drop 1 b in
          if isdigit (at_ b 0) then digits b 0 else (-1, b)
        else (lo, b) in
      if (at_ b 0 =? 125) || (negb ere && (at_ b 0 =? 92) && (at_ b 1 =? 125))
      then (lo, hi, (length after - length b + (if ere then 1 else 2))%nat)
      else (1, 1, O)
    else (1, 1, O)
  else (1, 1, O).

(** ** Matching *)

Section Engine.
Context (ere icase : bool).

(** [rec] is [m_seq] on shorter patterns. *)
Context (rec : list Z -> list Z -> bool).

(** For every way to match the atom at the start of [s]: does [cb] accept
    the rest? *)
Definition atom_each (re s : list Z) (cb : list Z -> bool) : bool :=
  let c := at_ re 0 in
  if (c =? 40) || (negb ere && (c =? 92) && (at_ re 1 =? 40)) then
    match re_group_end re ere with
    | None => false
    | Some gend =>
        let gstart := if c =? 40 then 1%nat else 2%nat in
        let gparen := if ere then gend else (gend - 1)%nat in
        let gbuf := take (gparen - gstart) (drop gstart re) in
        if PAT_MAX <=? zlen gbuf then false
        else
          existsb (fun l => rec gbuf (take l s) && cb (drop l s))
            (seq 0 (Nat.min (S (length s)) (Z.to_nat PAT_MAX)))
    end
  else
    match s with
    | [] => false
    | b :: s' => re_atom_char re b ere icase && cb s'
    end.

(** [q_cont] with the remaining count: [count] is at least 1. *)
Fixpoint q_cont (count : nat) (atom : list Z) (final : list Z -> bool) (s : list Z) : bool :=
  match count with
  | O | S O => final s
  | S count' => atom_each atom s (q_cont count' atom final)
  end.

(** The return value, and whether [final] accepted. For a count of 0 the
    source returns what [final_cb] returned, which is 0 when it accepted. *)
Definition reps_match (atom s : list Z) (count : Z) (final : list Z -> bool) : bool * bool :=
  if count =? 0 then (negb (final s), final s)
  else
    let ok := atom_each atom s (q_cont (Z.to_nat count) atom final) in (ok, ok).

(** The counts from [count] down to [qmin], [n] of them. *)
Fixpoint count_loop (n : nat) (count : Z) (atom s : list Z) (final : list Z -> bool) : bool :=
  match n with
  | O => false
  | S n' =>
      let '(ret, ok) := reps_match atom s count final in
      if ret then true else if ok then true else count_loop n' (count - 1) atom s final
  end.

(** The alternatives from [start] on. *)
Fixpoint alt_loop (fuel : nat) (start s : list Z) : bool :=
  match fuel with
  | O => false
  | S fuel' =>
      let alt_end := next_bar ere start in
      let buf := match alt_end with Some e => take e start | None => start end in
      if PAT_MAX <=? zlen buf then false
      else if rec buf s then true
      else
        match alt_end with
        | None => false
        | Some e => alt_loop fuel' (drop (e + (if negb ere && (at_ start e =? 92) then 2 else 1)) start) s
        end
  end.

Definition m_item (re s : list Z) : bool :=
  let alen := re_atom_len re ere in
  if bool_decide (alen = O) then false
  else
    let after := drop alen re in
    let '(qmin, qmax, qlen) := quantifier after ere in
    let rest := drop qlen after in
    let max := if qmax <? 0 then zlen s + 1 else qmax in
    count_loop (Z.to_nat (max - qmin + 1)) max re s (rec rest).

Definition m_step (re s : list Z) : bool :=
  match re with
  | [] => true
  | c :: re' =>
      if c =? 94 then rec re' s
      else if (c =? 36) && bool_decide (re' = []) then bool_decide (s = [])
      else
        match next_bar ere re with
        | Some _ => alt_loop (S (length re)) re s
        | None => m_item re s
        end
  end.
End Engine.

Fixpoint m_fuel (fuel : nat) (ere icase : bool) (re s : list Z) : bool :=
  match fuel with
  | O => false
  | S fuel' => m_step ere icase (m_fuel fuel' ere icase) re s
  end.

Definition m_seq (re s : list Z) (ere icase : bool) : bool := m_fuel (S (length re)) ere icase re s.

(** ** Searching *)

(** [strstr(line, pat) != NULL]. *)
Fixpoint strstr (line pat : list Z) : bool :=
  bool_decide (take (length pat) line = pat) || match line with [] => false | _ :: line' => strstr line' pat end.

(** The search of a fixed string without regard to case. *)
Definition fixed_icase (pat line : list Z) : bool :=
  existsb (fun i => bool_decide (map tolower (take (length pat) (drop i line)) = map tolower pat)) (seq 0 (S (length line))).

Definition re_search (pat line : list Z) (fixed ere icase : bool) : bool :=
  if fixed then if icase then fixed_icase pat line else strstr line pat
  else
    let anchored := at_ pat 0 =? 94 in
    let anchored_end := bool_decide (pat <> []) && (at_ pat (length pat - 1) =? 36) in
    let blen := zlen pat - (if anchored then 1 else 0) - (if anchored_end then 1 else 0) in
    if PAT_MAX <=? blen then false
    else
      let buf := take (Z.to_nat blen) (drop (if anchored then 1 else 0)%nat pat) in
      let hit i :=
        m_seq buf (drop i line) ere icase &&
        (if anchored_end then (zlen (drop i line) <? LINE_MAX) && m_seq buf (drop i line) ere icase else true) in
      if anchored then hit O else existsb hit (seq 0 (S (length line))).

(** ** Options *)

Record opts := Opts {
  opt_icase : bool;
  opt_invert : bool;
  opt_lineno : bool;
  opt_count : bool;
  opt_files_with : bool;
  opt_only : bool;
  opt_quiet : bool;
  opt_no_msgs : bool;
  opt_word : bool;
  opt_line : bool;
  opt_ere : bool;
  opt_fixed : bool;
  opt_filename : Z;
  opt_max_count : Z;
  opt_after : Z;
  opt_before : Z;
}.

Definition no_opts : opts :=
  Opts false false false false false false false false false false false false (-1) (-1) 0 0.

(** [atol]: spaces, a sign, digits. *)
Fixpoint skip_spaces (v : list Z) : list Z :=
  match v with
  | c :: v' => if isspace c then skip_spaces v' else v
  | [] => []
  end.

Fixpoint decimal (v : list Z) (n : Z) : Z :=
  match v with
  | c :: v' => if isdigit c then decimal v' (n * 10 + (c - 48)) else n
  | [] => n
  end.

Definition atol (v : list Z) : Z :=
  match skip_spaces v with
  | c :: v' =>
      if c =? 45 then s64 (- decimal v' 0) else if c =? 43 then s64 (decimal v' 0) else s64 (decimal (c :: v') 0)
  | [] => 0
  end.

(** What the arguments set up. *)
Record setup := Setup {
  su_opts : opts;
  su_pats : list (option (list Z));      (* [None] is a null pointer *)
  su_files : list (list Z);
  su_patfile : option (option (list Z)); (* -f, and its value *)
}.

(** The flags without a value. *)
Definition set_flag (o : opts) (c : Z) : option opts :=
  let '(Opts i v n ct l on q s w x e f h m a b) := o in
  if c =? 105 then Some (Opts true v n ct l on q s w x e f h m a b)
  else if c =? 118 then Some (Opts i true n ct l on q s w x e f h m a b)
  else if c =? 110 then Some (Opts i v true ct l on q s w x e f h m a b)
  else if c =? 99 then Some (Opts i v n true l on q s w x e f h m a b)
  else if c =? 108 then Some (Opts i v n ct true on q s w x e f h m a b)
  else if c =? 111 then Some (Opts i v n ct l true q s w x e f h m a b)
  else if c =? 113 then Some (Opts i v n ct l on true s w x e f h m a b)
  else if c =? 115 then Some (Opts i v n ct l on q true w x e f h m a b)
  else if c =? 119 then Some (Opts i v n ct l on q s true x e f h m a b)
  else if c =? 120 then Some (Opts i v n ct l on q s w true e f h m a b)
  else if c =? 69 then Some (Opts i v n ct l on q s w x true f h m a b)
  else if c =? 70 then Some (Opts i v n ct l on q s w x e true h m a b)
  else if c =? 72 then Some (Opts i v n ct l on q s w x e f 1 m a b)
  else if c =? 104 then Some (Opts i v n ct l on q s w x e f 0 m a b)
  else None.

(** The options with a number. *)
Definition set_number (o : opts) (c k : Z) : option opts :=
  let '(Opts i v n ct l on q s w x e f h m a b) := o in
  if c =? 109 then Some (Opts i v n ct l on q s w x e f h k a b)
  else if c =? 65 then Some (Opts i v n ct l on q s w x e f h m k b)
  else if c =? 66 then Some (Opts i v n ct l on q s w x e f h m a k)
  else if c =? 67 then Some (Opts i v n ct l on q s w x e f h m k k)
  else None.

(** How argument processing ends: an exit with its output, or the setup. *)
Inductive parsed :=
  | Exit (status : Z) (out err : list Z)
  | Go (su : setup).

Definition s_version : list Z := bs "grep (TUS) 1.0" ++ [10].
Definition s_invalid (c : Z) : list Z := bs "grep: invalid option -- '" ++ [c] ++ bs "'" ++ [10].

(** The loop over the arguments; [help] is the text of [print_help]. [None] is
    a null pointer passed to [atol]. *)
Fixpoint parse_args (help : list Z) (args : list (list Z)) (su : setup) : option parsed :=
  match args with
  | [] => Some (Go su)
  | a :: args' =>
      let '(Setup o pats files patfile) := su in
      if bool_decide (a = bs "--help") then Some (Exit 0 help [])
      else if bool_decide (a = bs "--version") then Some (Exit 0 s_version [])
      else if (at_ a 0 =? 45) && negb (at_ a 1 =? 0) && bool_decide (pats = []) && bool_decide (files = []) then
        let c := at_ a 1 in
        let attached := negb (at_ a 2 =? 0) in
        let takes := negb attached && ((c =? 101) || (c =? 102)) in
        let val := if attached then Some (drop 2 a) else if takes then head args' else None in
        let next su := if takes then match args' with [] => Some (Go su) | _ :: args'' => parse_args help args'' su end
                       else parse_args help args' su in
        if c =? 101 then next (Setup o (pats ++ [val]) files patfile)
        else if c =? 102 then next (Setup o pats files (Some val))
        else
          match set_flag o c with
          | Some o => next (Setup o pats files patfile)
          | None =>
              if bool_decide (c ∈ [109; 65; 66; 67]) then
                v ← val;
                o ← set_number o c (atol v);
                next (Setup o pats files patfile)
              else Some (Exit 2 [] (s_invalid c))
          end
      else if bool_decide (pats = []) && bool_decide (patfile = None) then
        parse_args help args' (Setup o [Some a] files patfile)
      else if bool_decide (length files < 64)%nat then parse_args help args' (Setup o pats (files ++ [a]) patfile)
      else parse_args help args' su
  end.

(** ** Input *)

(** [fgets]: at most [n] bytes, to the end of the line; then the rest. *)
Fixpoint fgets (n : nat) (f : list Z) : list Z * list Z :=
  match n, f with
  | O, _ => ([], f)
  | _, [] => ([], [])
  | S n', c :: f' => if c =? 10 then ([c], f') else let '(l, r) := fgets n' f' in (c :: l, r)
  end.

(** A buffer as a string: up to the first NUL. *)
Fixpoint cstr (l : list Z) : list Z :=
  match l with
  | [] => []
  | c :: l' => if c =? 0 then [] else c :: cstr l'
  end.

(** The line endings removed. *)
Fixpoint chomp_rev (l : list Z) : list Z :=
  match l with
  | c :: l' => if (c =? 10) || (c =? 13) then chomp_rev l' else l
  | [] => []
  end.

Definition chomp (l : list Z) : list Z := rev (chomp_rev (rev (cstr l))).

(** The lines of a file as the loops read them. *)
Fixpoint lines_of (fuel : nat) (f : list Z) : list (list Z) :=
  match fuel, f with
  | O, _ | _, [] => []
  | S fuel', _ => let '(l, r) := fgets (Z.to_nat (LINE_MAX - 1)) f in chomp l :: lines_of fuel' r
  end.

Definition file_lines (f : list Z) : list (list Z) := lines_of (length f) f.

(** ** Lines *)

Definition word_char (c : Z) : bool := isalnum c || (c =? 95).

(** The check of -w: the pattern, as a string, between word boundaries. *)
Definition word_hit (pat line : list Z) : bool :=
  existsb (fun i =>
      bool_decide (take (length pat) (drop i line) = pat) &&
      (bool_decide (i = O) || negb (word_char (at_ line (i - 1)))) &&
      (bool_decide (length line <= i + length pat)%nat || negb (word_char (at_ line (i + length pat)))))
    (seq 0 (S (length line) - length pat)).

Definition pat_hit (o : opts) (pat line : list Z) : bool :=
  let hit := re_search pat line (opt_fixed o) (opt_ere o) (opt_icase o) in
  let hit := if hit && opt_word o then word_hit pat line else hit in
  if hit && opt_line o then bool_decide (line = pat) else hit.

(** The loop over the patterns; [None] is a null pointer. *)
Fixpoint any_hit (o : opts) (pats : list (option (list Z))) (line : list Z) : option bool :=
  match pats with
  | [] => Some false
  | p :: pats' => p ← p; if pat_hit o p line then Some true else any_hit o pats' line
  end.

(** Decimal digits of a number, as [printf] writes them. *)
Fixpoint ldigits (fuel : nat) (n : Z) : list Z :=
  match fuel with
  | O => []
  | S fuel' => (if n <? 10 then [] else ldigits fuel' (n / 10)) ++ [48 + n mod 10]
  end.

Definition pct_ld (n : Z) : list Z := if n <? 0 then 45 :: ldigits 20 (- n) else ldigits 20 n.

(** A line of output: file name and number if asked for, then the text. *)
Definition out_line (o : opts) (fname : list Z) (lineno : Z) (sep : Z) (line : list Z) : list Z :=
  (if opt_filename o =? 0 then [] else fname ++ [sep]) ++
  (if opt_lineno o then pct_ld lineno ++ [sep] else []) ++ line ++ [10].

(** The lines before a match, from the buffer of at most 16. *)
Definition out_before (o : opts) (fname : list Z) (lineno : Z) (ctx : list (list Z)) : list Z :=
  if 0 <? opt_before o then
    let n := length ctx in
    let start := if opt_before o <? Z.of_nat n then (n - Z.to_nat (opt_before o))%nat else O in
    concat (imap (fun i l => out_line o fname (lineno - (Z.of_nat n - Z.of_nat (start + i))) 45 l) (drop start ctx))
  else [].

(** The state of the loop over the lines of a file. *)
Record scan := Scan {
  sc_lineno : Z;
  sc_matches : Z;
  sc_ctx : list (list Z);
  sc_pending : Z;
  sc_any : bool;
  sc_out : list Z;
}.

(** How a line leaves the loop. *)
Inductive line_res :=
  | Next (st : scan)
  | Stop (st : scan)      (* -m reached *)
  | Quit (out : list Z).  (* -q: exit with status 0 *)

Definition silent (o : opts) : bool := opt_count o || opt_files_with o.

Definition push_ctx (ctx : list (list Z)) (line : list Z) : list (list Z) :=
  if bool_decide (length ctx < 16)%nat then ctx ++ [line] else drop 1 ctx ++ [line].

Definition grep_line (o : opts) (pats : list (option (list Z))) (fname : list Z) (line : list Z) (st : scan) : option line_res :=
  let lineno := sc_lineno st + 1 in
  hit ← any_hit o pats line;
  let hit := if opt_invert o then negb hit else hit in
  let ctx' := if 0 <? opt_before o then push_ctx (sc_ctx st) line else sc_ctx st in
  Some (
    if hit then
      if opt_quiet o then Quit (sc_out st)
      else
        let matches := sc_matches st + 1 in
        let '(pending, out) :=
          if silent o then (sc_pending st, sc_out st)
          else (opt_after o, sc_out st ++ out_before o fname lineno (sc_ctx st) ++ out_line o fname lineno 58 line) in
        if (0 <=? opt_max_count o) && (opt_max_count o <=? matches)
        then Stop (Scan lineno matches (sc_ctx st) pending true out)
        else Next (Scan lineno matches ctx' pending true out)
    else if 0 <? sc_pending st then
      Next (Scan lineno (sc_matches st) ctx' (sc_pending st - 1) (sc_any st)
              (sc_out st ++ (if silent o then [] else out_line o fname lineno 45 line)))
    else Next (Scan lineno (sc_matches st) ctx' (sc_pending st) (sc_any st) (sc_out st))).

(** The lines of a file, and those left when the loop ends early. *)
Fixpoint grep_lines (o : opts) (pats : list (option (list Z))) (fname : list Z) (lines : list (list Z)) (st : scan)
    : option (line_res * list (list Z)) :=
  match lines with
  | [] => Some (Next st, [])
  | l :: lines' =>
      r ← grep_line o pats fname l st;
      match r with
      | Next st => grep_lines o pats fname lines' st
      | _ => Some (r, lines')
      end
  end.

(** What is printed after the last line of a file. *)
Definition file_summary (o : opts) (fname : list Z) (matches : Z) : list Z :=
  (if opt_count o && negb (opt_files_with o)
   then (if opt_filename o =? 0 then [] else fname ++ [58]) ++ pct_ld matches ++ [10] else []) ++
  (if opt_files_with o && (0 <? matches) then fname ++ [10] else []).

(** The state of the loop over the files: a match so far, an error so far,
    the lines left of standard input, and the two outputs. *)
Record run := Run {
  rn_any : bool;
  rn_errors : bool;
  rn_stdin : list (list Z);
  rn_out : list Z;
  rn_err : list Z;
}.

(** One open file; [inr] is the exit of -q. *)
Definition grep_file (o : opts) (pats : list (option (list Z))) (fname : list Z) (lines : list (list Z)) (any : bool) (out : list Z)
    : option (bool * list Z * list (list Z) + list Z) :=
  '(r, rest) ← grep_lines o pats fname lines (Scan 0 0 [] 0 any out);
  Some (match r with
        | Next st | Stop st => inl (sc_any st, sc_out st ++ file_summary o fname (sc_matches st), rest)
        | Quit out => inr out
        end).

Section Main.
(** The file system: the contents of a file, and the message of [strerror]
    when it cannot be opened. *)
Context (fopen : list Z -> option (list Z)) (strerror : list Z -> list Z) (help : list Z).

Definition s_open (name : list Z) : list Z := bs "grep: " ++ name ++ bs ": " ++ strerror name ++ [10].

(** Standard input, as the file "-" or without a file argument. *)
Definition grep_stdin (o : opts) (pats : list (option (list Z))) (fname : list Z) (r : run) : option (run + list Z * list Z) :=
  x ← grep_file o pats fname (rn_stdin r) (rn_any r) (rn_out r);
  Some (match x with
        | inl (any, out, rest) => inl (Run any (rn_errors r) rest out (rn_err r))
        | inr out => inr (out, rn_err r)
        end).

Definition grep_named (o : opts) (pats : list (option (list Z))) (name : list Z) (r : run) : option (run + list Z * list Z) :=
  if bool_decide (name = [45]) then grep_stdin o pats name r
  else
    match fopen name with
    | None =>
        Some (inl (Run (rn_any r) true (rn_stdin r) (rn_out r) (rn_err r ++ (if opt_no_msgs o then [] else s_open name))))
    | Some f =>
        x ← grep_file o pats name (file_lines f) (rn_any r) (rn_out r);
        Some (match x with
              | inl (any, out, _) => inl (Run any (rn_errors r) (rn_stdin r) out (rn_err r))
              | inr out => inr (out, rn_err r)
              end)
    end.

Fixpoint grep_files (o : opts) (pats : list (option (list Z))) (files : list (list Z)) (r : run) : option (run + list Z * list Z) :=
  match files with
  | [] => Some (inl r)
  | name :: files' =>
      x ← grep_named o pats name r;
      match x with
      | inl r => grep_files o pats files' r
      | inr q => Some (inr q)
      end
  end.

(** The patterns of -f, at most 16. *)
Definition file_patterns (f : list Z) : list (option (list Z)) := map Some (take 16 (file_lines f)).

Definition set_auto (o : opts) (nfiles : nat) : opts :=
  if opt_filename o <? 0 then
    let '(Opts i v n ct l on q s w x e f _ m a b) := o in
    Opts i v n ct l on q s w x e f (if bool_decide (1 < nfiles)%nat then 1 else 0) m a b
  else o.

(** The files, once the patterns are known. *)
Definition grep_run (o : opts) (pats : list (option (list Z))) (files : list (list Z)) (stdin : list Z) : option (Z * list Z * list Z) :=
  let o := set_auto o (length files) in
  let r := Run false false (file_lines stdin) [] [] in
  x ← (match files with
       | [] => grep_stdin o pats (bs "(standard input)") r
       | _ => grep_files o pats files r
       end);
  Some (match x with
        | inr (out, err) => (0, out, err)
        | inl r => (if rn_errors r then 2 else if rn_any r then 0 else 1, rn_out r, rn_err r)
        end).

(** Exit status, standard output and standard error. *)
Definition main (args : list (list Z)) (stdin : list Z) : option (Z * list Z * list Z) :=
  p ← parse_args help args (Setup no_opts [] [] None);
  match p with
  | Exit status out err => Some (status, out, err)
  | Go (Setup o pats files patfile) =>
      match patfile with
      | Some v =>
          name ← v;
          match fopen name with
          | None => Some (2, [], s_open name)
          | Some f =>
              match file_patterns f with
              | [] => Some (2, [], bs "grep: no pattern given" ++ [10])
              | pats => grep_run o pats files stdin
              end
          end
      | None =>
          match pats with
          | [] => Some (2, [], bs "grep: no pattern given" ++ [10])
          | _ => grep_run o pats files stdin
          end
      end
  end.
End Main.
