(* ===== verification/GrepProps.v ===== *)
(** * Properties of grep

    The engine's recursion is well founded; on extended regular expressions
    built from single characters, classes, repetitions of at least one and
    alternation it finds exactly the substrings of the language; the lines
    grep prints are the selected ones. Where the engine goes wrong (a count of
    zero, groups, a final dollar, class names) is stated as well. *)

From stdpp Require Import base numbers list sets.
From Stdlib Require Import ZArith Lia ZifyBool.
From S2P Require Import Prelude.
From S2P Require Import Grep.

(** ** The recursion *)

Lemma find_bar_range fuel ere p : forall i d e, find_bar fuel ere p i d = Some e -> (i <= e < i + length p)%nat.
Proof.
  revert p. induction fuel as [|fuel IH]; intros p i d e; [done|]. destruct p as [|c p1]; [done|]. cbn [find_bar].
  assert (forall n, (1 <= n)%nat -> forall d', find_bar fuel ere (drop n (c :: p1)) (i + n) d' = Some e -> (i <= e < i + length (c :: p1))%nat) as Hd.
  { intros n Hn d' E. apply IH in E. rewrite length_drop in E. lia. }
  destruct (negb ere && (c =? 92) && _); [intros E; eapply (Hd 2%nat); [lia|exact E]|].
  destruct (ere && _); [intros E; apply (Hd 1%nat ltac:(lia) (if c =? 40 then d + 1 else d - 1)); rewrite Nat.add_1_r; exact E|].
  destruct (_ || _).
  - destruct (d =? 0); [intros [= <-]; cbn; lia|]. intros E. eapply Hd; [|exact E]. destruct (_ && _); lia.
  - intros E. eapply Hd; [|exact E]. destruct (_ && _); lia.
Qed.

Lemma next_bar_range ere p e : next_bar ere p = Some e -> (e < length p)%nat.
Proof. intros E%find_bar_range. lia. Qed.

Section Extensional.
Context (ere icase : bool) (rec1 rec2 : list Z -> list Z -> bool).

(** The two agree on patterns shorter than [n]. *)
Definition agree (n : nat) : Prop := forall re s, (length re < n)%nat -> rec1 re s = rec2 re s.

Lemma existsb_ext_in {A} (f g : A -> bool) l : (forall x, f x = g x) -> existsb f l = existsb g l.
Proof. intros E. induction l as [|x l IH]; [done|]. cbn. by rewrite E, IH. Qed.

Lemma atom_each_ext re s cb1 cb2 : agree (length re) -> (forall s', cb1 s' = cb2 s') ->
  atom_each ere icase rec1 re s cb1 = atom_each ere icase rec2 re s cb2.
Proof.
  intros Ha Hcb. unfold atom_each. destruct (_ || _) eqn:Eg.
  - destruct (re_group_end re ere) as [g|]; [|done]. destruct (PAT_MAX <=? _); [done|].
    apply existsb_ext_in. intros l. rewrite Hcb. f_equal. apply Ha. rewrite length_take, length_drop.
    destruct re; [unfold at_ in Eg; cbn in Eg; lia|]. cbn [length]. destruct (_ =? 40); lia.
  - destruct s; [done|]. by rewrite Hcb.
Qed.

Lemma q_cont_ext n re f1 f2 : agree (length re) -> (forall s', f1 s' = f2 s') ->
  forall s, q_cont ere icase rec1 n re f1 s = q_cont ere icase rec2 n re f2 s.
Proof.
  intros Ha Hf. induction n as [|[|n] IH]; intros s; [apply Hf|apply Hf|]. cbn [q_cont]. by apply atom_each_ext.
Qed.

Lemma count_loop_ext n re s f1 f2 : agree (length re) -> (forall s', f1 s' = f2 s') ->
  forall count, count_loop ere icase rec1 n count re s f1 = count_loop ere icase rec2 n count re s f2.
Proof.
  intros Ha Hf. induction n as [|n IH]; intros count; [done|]. cbn [count_loop]. unfold reps_match.
  rewrite !Hf, IH. rewrite (atom_each_ext re s _ (q_cont ere icase rec2 (Z.to_nat count) re f2)); [done|done|].
  intros s'. by apply q_cont_ext.
Qed.

Lemma alt_loop_ext n : forall fuel start s, agree n -> (length start < n)%nat \/ (length start = n /\ is_Some (next_bar ere start)) ->
  alt_loop ere rec1 fuel start s = alt_loop ere rec2 fuel start s.
Proof.
  induction fuel as [|fuel IH]; intros start s Ha Hs; [done|]. cbn [alt_loop]. destruct (next_bar ere start) as [e|] eqn:En.
  - pose proof (next_bar_range _ _ _ En) as He. destruct (PAT_MAX <=? _); [done|].
    rewrite Ha by (rewrite length_take; lia). destruct (rec2 _ s); [done|]. apply IH; [done|].
    left. rewrite length_drop. destruct (_ && _); lia.
  - destruct (PAT_MAX <=? _); [done|]. destruct Hs as [Hs|[_ [? ?]]]; [|done]. by rewrite Ha.
Qed.

Lemma m_step_ext re s : agree (length re) -> m_step ere icase rec1 re s = m_step ere icase rec2 re s.
Proof.
  intros Ha. unfold m_step. destruct re as [|c re']; [done|]. destruct (c =? 94); [apply Ha; cbn; lia|].
  destruct (_ && _); [done|]. destruct (next_bar ere (c :: re')) eqn:En.
  - apply (alt_loop_ext (length (c :: re'))); [done|]. right. by rewrite En.
  - unfold m_item. case_bool_decide as Hl; [done|].
    destruct (quantifier _ ere) as [[qmin qmax] qlen]. apply count_loop_ext; [done|].
    intros s'. apply Ha. rewrite !length_drop. cbn [length] in *. lia.
Qed.
End Extensional.

Lemma m_fuel_enough ere icase : forall n m re s, (length re < n)%nat -> (length re < m)%nat ->
  m_fuel n ere icase re s = m_fuel m ere icase re s.
Proof.
  induction n as [|n IH]; intros m re s Hn Hm; [lia|]. destruct m as [|m]; [lia|]. cbn [m_fuel].
  apply m_step_ext. intros re' s' Hlt. apply IH; lia.
Qed.

Lemma m_seq_step re s ere icase : m_seq re s ere icase = m_step ere icase (fun re' s' => m_seq re' s' ere icase) re s.
Proof.
  unfold m_seq at 1. cbn [m_fuel]. apply m_step_ext. intros re' s' Hlt. unfold m_seq. apply m_fuel_enough; lia.
Qed.

(** The recursion of the engine ends. [m_seq], which runs with as much
    fuel as the pattern has characters, satisfies the equation of the source
    for every pattern and string: one round of [m_seq] in which every nested
    call (for alternatives, groups, and the rest of the pattern) is [m_seq]
    itself. More fuel never changes the answer. *)
Theorem m_seq_terminates re s ere icase :
  m_seq re s ere icase = m_step ere icase (fun re' s' => m_seq re' s' ere icase) re s /\
  forall fuel, (length re < fuel)%nat -> m_fuel fuel ere icase re s = m_seq re s ere icase.
Proof. split; [apply m_seq_step|]. intros fuel Hf. apply m_fuel_enough; lia. Qed.

Lemma m_seq_terminates_witness :
  m_fuel 100 true false (bs "ab+|c") (bs "xabb") = m_seq (bs "ab+|c") (bs "xabb") true false.
Proof. apply (m_seq_terminates (bs "ab+|c") (bs "xabb") true false). vm_compute. lia. Defined.

(** ** Regular expressions *)

(** One character. *)
Inductive atom :=
  | ALit (c : Z)
  | AAny
  | ASet (neg : bool) (l : list Z).

(** How often. *)
Inductive quant :=
  | One
  | Plus
  | Times (n : nat) (m : option nat).

(** A sequence, and alternatives of sequences. *)
Definition pieces : Type := list (atom * quant).
Definition regex : Type := list pieces.

(** *** The language *)

(** The characters of an atom; with -i the case makes no difference. *)
Definition atom_lang (icase : bool) (a : atom) (c : Z) : bool :=
  match a with
  | ALit ch => mchar icase c =? mchar icase ch
  | AAny => negb (c =? 0)
  | ASet neg l => xorb neg (existsb (fun m => mchar icase c =? mchar icase m) l)
  end.

(** What the engine takes for an atom: it compares the members of a class as
    they are, also with -i. *)
Definition atom_sem (icase : bool) (a : atom) (c : Z) : bool :=
  match a with
  | ASet neg l => xorb neg (bool_decide (c ∈ l))
  | _ => atom_lang icase a c
  end.

Definition count_ok (q : quant) (n : nat) : Prop :=
  match q with
  | One => n = 1%nat
  | Plus => (1 <= n)%nat
  | Times lo (Some hi) => (lo <= n <= hi)%nat
  | Times lo None => (lo <= n)%nat
  end.

Fixpoint seq_lang (sem : atom -> Z -> bool) (ps : pieces) (w : list Z) : Prop :=
  match ps with
  | [] => w = []
  | (a, q) :: ps' =>
      exists u v, w = u ++ v /\ count_ok q (length u) /\ Forall (fun c => sem a c = true) u /\ seq_lang sem ps' v
  end.

Notation seq_sem icase := (seq_lang (atom_sem icase)).

Definition regex_sem (icase : bool) (r : regex) (w : list Z) : Prop := exists ps, ps ∈ r /\ seq_sem icase ps w.

(** The language of an expression. *)
Definition regex_lang (icase : bool) (r : regex) (w : list Z) : Prop := exists ps, ps ∈ r /\ seq_lang (atom_lang icase) ps w.

(** With -i there are no classes. *)
Definition case_ok (icase : bool) (r : regex) : Prop :=
  icase = true -> forall ps a q, ps ∈ r -> (a, q) ∈ ps -> match a with ASet _ _ => False | _ => True end.

Lemma atom_lang_sem icase a c : (icase = true -> match a with ASet _ _ => False | _ => True end) -> atom_lang icase a c = atom_sem icase a c.
Proof.
  destruct a as [ch| |neg l]; try done. destruct icase; [by intros []|]. intros _. cbn. f_equal.
  apply eq_bool_prop_intro. rewrite bool_decide_spec, Is_true_true, existsb_exists. split.
  - intros (m & Hm%list_elem_of_In & ->%Z.eqb_eq). done.
  - intros Hc%list_elem_of_In. exists c. split; [done|]. apply Z.eqb_refl.
Qed.

Lemma seq_lang_ext f g ps w : (forall a q c, (a, q) ∈ ps -> f a c = g a c) -> seq_lang f ps w <-> seq_lang g ps w.
Proof.
  revert w. induction ps as [|[a q] ps IH]; intros w Hfg; cbn [seq_lang]; [done|].
  assert (forall u, Forall (fun c => f a c = true) u <-> Forall (fun c => g a c = true) u) as Ha.
  { intros u. apply Forall_iff. intros c. by rewrite (Hfg a q c) by set_solver. }
  assert (forall v, seq_lang f ps v <-> seq_lang g ps v) as Hs by (intros v; apply IH; intros b q' c Hin; apply (Hfg b q' c); set_solver).
  split; intros (u & v & -> & Hq & Hu & Hv); exists u, v; (split_and!; [done|done|by apply Ha|by apply Hs]).
Qed.

Lemma seq_lang_sem icase r ps w : case_ok icase r -> ps ∈ r -> seq_lang (atom_lang icase) ps w <-> seq_sem icase ps w.
Proof. intros Hc Hps. apply seq_lang_ext. intros a q c Hin. apply atom_lang_sem. intros Hi. by apply (Hc Hi ps a q). Qed.

Lemma regex_lang_sem icase r w : case_ok icase r -> regex_lang icase r w <-> regex_sem icase r w.
Proof.
  intros Hc. split; intros (ps & Hps & Hs); exists ps; (split; [done|]); by apply (seq_lang_sem icase r).
Qed.

(** *** The text of an extended regular expression *)

(** Characters without a meaning of their own, and members of classes. *)
Definition special : list Z := [36; 40; 41; 42; 43; 46; 63; 91; 92; 94; 123; 124].
Definition plain (c : Z) : Prop := 0 < c < 256 /\ c ∉ special.
Definition member (c : Z) : Prop := 0 < c < 256 /\ c ∉ [40; 41; 45; 91; 92; 93; 94; 124].

Definition atom_text (a : atom) : list Z :=
  match a with
  | ALit c => [c]
  | AAny => [46]
  | ASet neg l => 91 :: (if neg then [94] else []) ++ l ++ [93]
  end.

Definition dec (n : nat) : list Z :=
  if bool_decide (n < 10)%nat then [48 + Z.of_nat n]
  else if bool_decide (n < 100)%nat then [48 + Z.of_nat (n / 10); 48 + Z.of_nat (n mod 10)]
  else [48 + Z.of_nat (n / 100); 48 + Z.of_nat (n / 10 mod 10); 48 + Z.of_nat (n mod 10)].

Definition quant_text (q : quant) : list Z :=
  match q with
  | One => []
  | Plus => [43]
  | Times n (Some m) => 123 :: dec n ++ 44 :: dec m ++ [125]
  | Times n None => 123 :: dec n ++ [44; 125]
  end.

Definition seq_text (ps : pieces) : list Z := concat (map (fun '(a, q) => atom_text a ++ quant_text q) ps).

Fixpoint regex_text (r : regex) : list Z :=
  match r with
  | [] => []
  | [ps] => seq_text ps
  | ps :: r' => seq_text ps ++ 124 :: regex_text r'
  end.

Definition atom_ok (a : atom) : Prop :=
  match a with
  | ALit c => plain c
  | AAny => True
  | ASet _ l => l <> [] /\ Forall member l
  end.

(** Every piece at least once, with counts up to 255. *)
Definition quant_ok (q : quant) : Prop :=
  match q with
  | Times n (Some m) => (1 <= n <= m)%nat /\ (m <= 255)%nat
  | Times n None => (1 <= n <= 255)%nat
  | _ => True
  end.

Definition piece_ok (p : atom * quant) : Prop := atom_ok (fst p) /\ quant_ok (snd p).
Definition pieces_ok (ps : pieces) : Prop := Forall piece_ok ps /\ zlen (seq_text ps) < PAT_MAX.
Definition regex_ok (r : regex) : Prop := r <> [] /\ Forall pieces_ok r.

(** *** Reading an atom *)

(** What may follow a piece. *)
Definition starts_atom (p : list Z) : Prop := p = [] \/ plain (at_ p 0) \/ at_ p 0 = 46 \/ at_ p 0 = 91.

Ltac solve_plain := unfold plain, member, special in *; rewrite ?not_elem_of_cons in *; lia.

Lemma atom_starts a p : atom_ok a -> starts_atom (atom_text a ++ p) /\ atom_text a <> [].
Proof. destruct a as [c| |neg l]; intros Ha; (split; [|done]); right; cbn; [by left|by right; left|by right; right]. Qed.

Lemma seq_starts ps : Forall piece_ok ps -> starts_atom (seq_text ps).
Proof.
  destruct ps as [|[a q] ps]; [by left|]. intros [[Ha _] _]%Forall_cons. unfold seq_text. cbn [map concat].
  rewrite <-app_assoc. by apply atom_starts.
Qed.

(** Scanning a class whose members have no meaning of their own. *)
Lemma class_end_members l p : Forall member l -> forall fuel i, (length l < fuel)%nat ->
  forall first, (first = true -> l <> []) -> class_end fuel (l ++ 93 :: p) i first = Some (i + length l)%nat.
Proof.
  induction l as [|c l IH]; intros Hl fuel i Hf first Hfirst; destruct fuel as [|fuel]; cbn [length] in Hf; try lia.
  - destruct first; [by destruct Hfirst|]. cbn. by rewrite Nat.add_0_r.
  - apply Forall_cons in Hl as [Hc Hl]. cbn [app class_end].
    assert (c <> 93 /\ c <> 91 /\ c <> 92) as (H1 & H2 & H3) by solve_plain.
    rewrite (proj2 (Z.eqb_neq c 93)) by done. cbn [andb]. unfold posix_class. cbn [at_ nth].
    rewrite (proj2 (Z.eqb_neq c 91)), (proj2 (Z.eqb_neq c 92)) by done. cbn [andb drop].
    rewrite IH by (done || lia). cbn [length]. f_equal. lia.
Qed.

Lemma class_end_caret fuel p i first : class_end (S fuel) (94 :: p) i first = class_end fuel p (i + 1) false.
Proof. reflexivity. Qed.

Lemma class_match_members c l p : Forall member l -> forall fuel, (length l <= fuel)%nat ->
  class_match (S fuel) c (l ++ p) (length l) = bool_decide (c ∈ l).
Proof.
  induction l as [|b l IH]; intros Hl fuel Hf; [done|]. apply Forall_cons in Hl as [Hb Hl]. cbn [length] in *.
  assert (b <> 91) as H1 by solve_plain.
  assert (bool_decide (2 < S (length l))%nat && (at_ (l ++ p) 0 =? 45) = false) as H2.
  { destruct l as [|b' l]; [done|]. apply Forall_cons in Hl as [Hb' _]. cbn.
    rewrite (proj2 (Z.eqb_neq b' 45)) by solve_plain. apply andb_false_r. }
  destruct fuel as [|fuel]; [lia|].
  assert (class_match (S (S fuel)) c ((b :: l) ++ p) (S (length l)) = (c =? b) || class_match (S fuel) c (l ++ p) (length l)) as ->.
  { cbn [class_match]. cbn [app at_ nth]. rewrite (proj2 (Z.eqb_neq b 91)) by done. cbn [andb].
    change (nth 0 (l ++ p) 0) with (at_ (l ++ p) 0). rewrite H2. cbn [drop]. by rewrite Nat.sub_succ, Nat.sub_0_r. }
  rewrite IH by (done || lia). destruct (Z.eqb_spec c b) as [->|Hne]; cbn [orb]; [by rewrite bool_decide_eq_true_2 by left|].
  apply bool_decide_ext. rewrite elem_of_cons. split; [by right|]. by intros [?|?].
Qed.

Lemma atom_len a p : atom_ok a -> re_atom_len (atom_text a ++ p) true = length (atom_text a).
Proof.
  destruct a as [c| |neg l]; intros Ha; unfold re_atom_len; cbn [atom_text app at_ nth negb andb].
  - cbn in Ha. assert (c <> 0 /\ c <> 41 /\ c <> 124 /\ c <> 40 /\ c <> 91) as (E1 & E2 & E3 & E4 & E5) by solve_plain.
    rewrite (proj2 (Z.eqb_neq c 0)), (proj2 (Z.eqb_neq c 41)), (proj2 (Z.eqb_neq c 124)), (proj2 (Z.eqb_neq c 40)),
      (proj2 (Z.eqb_neq c 91)) by done. done.
  - done.
  - destruct Ha as [Hne Hl]. cbn [Z.eqb Pos.eqb orb drop]. rewrite <-!app_assoc, drop_0. cbn [app].
    destruct neg; cbn [app length].
    + rewrite class_end_caret, class_end_members; [rewrite length_app; cbn; f_equal; lia|done| |done].
      rewrite length_app. cbn. lia.
    + rewrite class_end_members; [rewrite length_app; cbn; f_equal; lia|done| |done].
      rewrite length_app. cbn. lia.
Qed.

Lemma atom_char a p c icase : atom_ok a -> re_atom_char (atom_text a ++ p) c true icase = atom_sem icase a c.
Proof.
  destruct a as [ch| |neg l]; intros Ha; unfold re_atom_char; cbn [atom_text app at_ nth negb andb atom_sem].
  - cbn in Ha. assert (ch <> 46 /\ ch <> 91) as (E1 & E2) by solve_plain.
    by rewrite (proj2 (Z.eqb_neq ch 46)), (proj2 (Z.eqb_neq ch 91)) by done.
  - done.
  - destruct Ha as [Hne Hl]. cbn [Z.eqb Pos.eqb]. rewrite <-!app_assoc. cbn [app].
    assert ((nth 0 ((if neg then [94] else []) ++ l ++ 93 :: p) 0 =? 94) = neg) as ->.
    { destruct neg; [done|]. destruct l as [|b l]; [done|]. apply Forall_cons in Hl as [Hb _]. cbn.
      apply Z.eqb_neq. solve_plain. }
    assert (drop (if neg then 2 else 1)%nat (91 :: (if neg then [94] else []) ++ l ++ 93 :: p) = l ++ 93 :: p) as -> by by destruct neg.
    rewrite class_end_members by (done || (rewrite length_app; cbn; lia)). cbn [Nat.add].
    by rewrite class_match_members.
Qed.

(** A simple atom takes one character. *)
Lemma atom_each_simple rec a p icase s cb : atom_ok a ->
  atom_each true icase rec (atom_text a ++ p) s cb =
  match s with [] => false | b :: s' => atom_sem icase a b && cb s' end.
Proof.
  intros Ha. unfold atom_each. assert (at_ (atom_text a ++ p) 0 <> 40) as H40.
  { destruct a as [c| |neg l]; cbn; [cbn in Ha; solve_plain|done|done]. }
  rewrite (proj2 (Z.eqb_neq _ 40)) by done. cbn [negb andb orb]. destruct s as [|b s]; [done|]. by rewrite atom_char.
Qed.

(** *** Reading a quantifier *)

Lemma digits_app ds : Forall (fun c => isdigit c = true) ds -> forall p v, isdigit (at_ p 0) = false ->
  digits (ds ++ p) v = (foldl (fun v c => s32 (v * 10 + (c - 48))) v ds, p).
Proof.
  induction ds as [|d ds IH]; intros Hds p v Hp.
  - destruct p as [|c p]; [done|]. cbn in *. by rewrite Hp.
  - apply Forall_cons in Hds as [Hd Hds]. cbn. rewrite Hd. by apply IH.
Qed.

(** The decimal texts of 0 to 255 are read back. *)
Lemma dec_reads n : (n <= 255)%nat ->
  Forall (fun c => isdigit c = true) (dec n) /\ foldl (fun v c => s32 (v * 10 + (c - 48))) 0 (dec n) = Z.of_nat n.
Proof.
  intros Hn.
  assert (forallb (fun n => forallb isdigit (dec n) && (foldl (fun v c => s32 (v * 10 + (c - 48))) 0 (dec n) =? Z.of_nat n))
            (seq 0 256) = true) as Hall by (vm_compute; reflexivity).
  rewrite forallb_forall in Hall. specialize (Hall n (proj2 (in_seq 256 0 n) ltac:(lia))).
  apply andb_true_iff in Hall as [H1 H2]. split; [|lia]. apply Forall_forall. intros c Hc. rewrite forallb_forall in H1.
  apply H1. by apply list_elem_of_In.
Qed.

Lemma dec_digit n : (n <= 255)%nat -> forall p, isdigit (at_ (dec n ++ p) 0) = true.
Proof.
  intros Hn p. destruct (dec_reads n Hn) as [Hd _]. destruct (dec n) as [|c l] eqn:E.
  - unfold dec in E. repeat case_bool_decide; discriminate.
  - apply Forall_cons in Hd as [Hc _]. done.
Qed.

Definition quant_bounds (q : quant) : Z * Z :=
  match q with
  | One => (1, 1)
  | Plus => (1, -1)
  | Times n (Some m) => (Z.of_nat n, Z.of_nat m)
  | Times n None => (Z.of_nat n, -1)
  end.

(** A brace in an extended expression. *)
Lemma quantifier_braces b : quantifier (123 :: b) true =
  if isdigit (at_ b 0) then
    let '(lo, b1) := digits b 0 in
    let '(hi, b2) :=
      if at_ b1 0 =? 44 then if isdigit (at_ (drop 1 b1) 0) then digits (drop 1 b1) 0 else (-1, drop 1 b1) else (lo, b1) in
    if at_ b2 0 =? 125 then (lo, hi, (S (length b) - length b2 + 1)%nat) else (1, 1, O)
  else (1, 1, O).
Proof.
  unfold quantifier. cbn [at_ nth negb andb Z.eqb Pos.eqb orb]. change (drop 1 (123 :: b)) with b. fold (at_ b 0).
  destruct (isdigit (at_ b 0)); [|done]. destruct (digits b 0) as [lo b1].
  destruct (if at_ b1 0 =? 44 then _ else _) as [hi b2]. by rewrite orb_false_r.
Qed.

Lemma quantifier_reads q p : quant_ok q -> starts_atom p ->
  quantifier (quant_text q ++ p) true = (quant_bounds q, length (quant_text q)).
Proof.
  intros Hq Hp. destruct q as [| |n [m|]].
  - unfold quantifier. cbn [quant_text app negb andb orb]. rewrite !orb_false_r.
    assert (at_ p 0 <> 42 /\ at_ p 0 <> 43 /\ at_ p 0 <> 63 /\ at_ p 0 <> 123) as (E1 & E2 & E3 & E4).
    { destruct Hp as [->|[Hp|[->| ->]]]; [done|solve_plain|done|done]. }
    by rewrite (proj2 (Z.eqb_neq _ 42)), (proj2 (Z.eqb_neq _ 43)), (proj2 (Z.eqb_neq _ 63)), (proj2 (Z.eqb_neq _ 123)) by done.
  - done.
  - destruct Hq as [Hnm Hm]. destruct (dec_reads n ltac:(lia)) as [Dn Vn]. destruct (dec_reads m ltac:(lia)) as [Dm Vm].
    assert (quant_text (Times n (Some m)) ++ p = 123 :: dec n ++ 44 :: dec m ++ 125 :: p) as ->
      by (cbn [quant_text app]; repeat (rewrite <-app_assoc; cbn [app]); done).
    rewrite quantifier_braces, dec_digit, digits_app, Vn by (done || lia). cbn [at_ nth Z.eqb Pos.eqb].
    change (drop 1 (44 :: dec m ++ 125 :: p)) with (dec m ++ 125 :: p). rewrite dec_digit, digits_app, Vm by (done || lia).
    cbn [at_ nth Z.eqb Pos.eqb quant_bounds quant_text length]. f_equal.
    rewrite !length_app. cbn [length]. rewrite !length_app. cbn [length]. lia.
  - cbn in Hq. destruct (dec_reads n ltac:(lia)) as [Dn Vn].
    assert (quant_text (Times n None) ++ p = 123 :: dec n ++ 44 :: 125 :: p) as ->
      by (cbn [quant_text app]; repeat (rewrite <-app_assoc; cbn [app]); done).
    rewrite quantifier_braces, dec_digit, digits_app, Vn by (done || lia). cbn [at_ nth Z.eqb Pos.eqb].
    change (drop 1 (44 :: 125 :: p)) with (125 :: p). cbn [at_ nth isdigit Z.leb Z.compare Pos.compare Pos.compare_cont andb Z.eqb Pos.eqb quant_bounds quant_text length].
    f_equal. rewrite !length_app. cbn [length]. lia.
Qed.

(** *** Matching *)

Section Match.
Context (icase : bool) (rec : list Z -> list Z -> bool).

(** [n] characters of the atom, and then [final]. *)
Definition takes (a : atom) (n : nat) (final : list Z -> bool) (s : list Z) : Prop :=
  exists u v, s = u ++ v /\ length u = n /\ Forall (fun c => atom_sem icase a c = true) u /\ final v = true.

Lemma takes_S a n final s : takes a (S n) final s <->
  exists b s', s = b :: s' /\ atom_sem icase a b = true /\ takes a n final s'.
Proof.
  split.
  - intros ([|b u] & v & -> & Hl & Hu & Hf); [done|]. apply Forall_cons in Hu as [Hb Hu]. cbn in Hl.
    exists b, (u ++ v). split_and!; try done. exists u, v. split_and!; (done || lia).
  - intros (b & s' & -> & Hb & u & v & -> & Hl & Hu & Hf). exists (b :: u), v. split_and!; try done; [cbn; lia|by constructor].
Qed.

Lemma q_cont_takes a p final : atom_ok a -> forall n s,
  q_cont true icase rec (S n) (atom_text a ++ p) final s = true <-> takes a n final s.
Proof.
  intros Ha. induction n as [|n IH]; intros s.
  - split; [intros Hf; by exists [], s|]. intros ([|] & v & -> & Hl & _ & Hf); [done|done].
  - rewrite takes_S. change (q_cont true icase rec (S (S n)) (atom_text a ++ p) final s) with
      (atom_each true icase rec (atom_text a ++ p) s (q_cont true icase rec (S n) (atom_text a ++ p) final)).
    rewrite atom_each_simple by done. destruct s as [|b s]; [split; [done|]; by intros (? & ? & ? & _)|].
    rewrite andb_true_iff, IH. split; [intros []; by exists b, s|]. by intros (? & ? & [= <- <-] & ? & ?).
Qed.

Lemma reps_takes a p final count s : atom_ok a -> 1 <= count ->
  let '(ret, ok) := reps_match true icase rec (atom_text a ++ p) s count final in
  (ret = true <-> takes a (Z.to_nat count) final s) /\ ok = ret.
Proof.
  intros Ha Hc. unfold reps_match. rewrite (proj2 (Z.eqb_neq count 0)) by lia. split; [|done].
  rewrite atom_each_simple by done. destruct (Z.to_nat count) as [|n] eqn:En; [lia|]. rewrite takes_S.
  destruct s as [|b s]; [split; [done|]; by intros (? & ? & ? & _)|].
  rewrite andb_true_iff, q_cont_takes by done. split; [intros []; by exists b, s|]. by intros (? & ? & [= <- <-] & ? & ?).
Qed.

(** The counts from [count] down, [n] of them, all at least 1. *)
Lemma count_loop_takes a p final s : atom_ok a -> forall n count, Z.of_nat n <= count ->
  count_loop true icase rec n count (atom_text a ++ p) s final = true <->
  exists k, count - Z.of_nat n < Z.of_nat k <= count /\ takes a k final s.
Proof.
  intros Ha. induction n as [|n IH]; intros count Hc.
  - split; [done|]. intros (k & Hk & _). lia.
  - cbn [count_loop]. pose proof (reps_takes a p final count s Ha ltac:(lia)) as R.
    destruct (reps_match _ _ _ _ _ _ _) as [ret ok]. destruct R as [R ->]. destruct ret.
    + split; [|done]. intros _. exists (Z.to_nat count). split; [lia|by apply R].
    + rewrite IH by lia. split; intros (k & Hk & Ht).
      * exists k. split; [lia|done].
      * destruct (decide (Z.of_nat k = count)) as [Ek|]; [|exists k; split; [lia|done]].
        exfalso. replace k with (Z.to_nat count) in Ht by lia. apply R in Ht. done.
Qed.

Lemma takes_bound a k final s : takes a k final s -> (k <= length s)%nat.
Proof. intros (u & v & -> & <- & _). rewrite length_app. lia. Qed.

(** A piece: the counts of the quantifier. *)
Lemma m_item_takes a q p s : atom_ok a -> quant_ok q -> starts_atom p ->
  m_item true icase rec (atom_text a ++ quant_text q ++ p) s = true <-> exists k, count_ok q k /\ takes a k (rec p) s.
Proof.
  intros Ha Hq Hp. unfold m_item. rewrite atom_len by done.
  destruct (atom_starts a [] Ha) as [_ Hne]. rewrite bool_decide_eq_false_2 by (intros E%length_zero_iff_nil; done).
  rewrite drop_app_length, quantifier_reads by done. destruct (quant_bounds q) as [qmin qmax] eqn:Eb.
  rewrite drop_app_length. set (max := if qmax <? 0 then zlen s + 1 else qmax).
  assert (1 <= qmin) as Hmin by (destruct q as [| |n [m|]]; cbn in Eb, Hq; injection Eb as <- <-; lia).
  destruct (decide (qmin <= max)) as [Hle|Hgt].
  - rewrite count_loop_takes by (done || lia). split; intros (k & Hk & Ht).
    + exists k. split; [|done]. unfold max in *. destruct q as [| |n [m|]]; cbn in Eb; injection Eb as <- <-; cbn; split_tests_in Hk; lia.
    + exists k. split; [|done]. pose proof (takes_bound _ _ _ _ Ht) as Hb. unfold max, zlen in *.
      destruct q as [| |n [m|]]; cbn in Eb, Hk; injection Eb as <- <-; split_tests; lia.
  - replace (Z.to_nat (max - qmin + 1)) with O by lia. split; [done|]. intros (k & Hk & Ht). exfalso.
    pose proof (takes_bound _ _ _ _ Ht) as Hb. unfold max, zlen in *.
    destruct q as [| |n [m|]]; cbn in Eb, Hk, Hq; injection Eb as <- <-; split_tests_in Hgt; lia.
Qed.
End Match.

(** *** Texts without bars and parentheses *)

Definition no_bar (c : Z) : Prop := c <> 40 /\ c <> 41 /\ c <> 124.

Lemma find_bar_none p : Forall no_bar p -> forall fuel i, find_bar fuel true p i 0 = None.
Proof.
  induction p as [|c p IH]; intros Hp fuel i; destruct fuel as [|fuel]; try done.
  apply Forall_cons in Hp as [(H1 & H2 & H3) Hp]. cbn [find_bar negb andb].
  rewrite (proj2 (Z.eqb_neq c 40)), (proj2 (Z.eqb_neq c 41)), (proj2 (Z.eqb_neq c 124)) by done. cbn [orb].
  change (drop 1 (c :: p)) with p. by apply IH.
Qed.

Lemma find_bar_first p t : Forall no_bar p -> forall fuel i, (length p < fuel)%nat ->
  find_bar fuel true (p ++ 124 :: t) i 0 = Some (i + length p)%nat.
Proof.
  induction p as [|c p IH]; intros Hp fuel i Hf; (destruct fuel as [|fuel]; [cbn in Hf; lia|]).
  - cbn. by rewrite Nat.add_0_r.
  - apply Forall_cons in Hp as [(H1 & H2 & H3) Hp]. cbn [length] in Hf. cbn [app find_bar negb andb].
    rewrite (proj2 (Z.eqb_neq c 40)), (proj2 (Z.eqb_neq c 41)), (proj2 (Z.eqb_neq c 124)) by done. cbn [orb].
    change (drop 1 (c :: p ++ 124 :: t)) with (p ++ 124 :: t). rewrite IH by (done || lia). cbn [length]. f_equal. lia.
Qed.

Lemma next_bar_none p : Forall no_bar p -> next_bar true p = None.
Proof. intros. by apply find_bar_none. Qed.

Lemma next_bar_first p t : Forall no_bar p -> next_bar true (p ++ 124 :: t) = Some (length p).
Proof. intros. unfold next_bar. rewrite find_bar_first; [done|done|]. rewrite length_app. cbn. lia. Qed.

Lemma dec_no_bar n : (n <= 255)%nat -> Forall no_bar (dec n).
Proof.
  intros Hn. destruct (dec_reads n Hn) as [Hd _]. eapply Forall_impl; [exact Hd|].
  intros c Hc. unfold isdigit in Hc. unfold no_bar. lia.
Qed.

Lemma piece_no_bar p : piece_ok p -> Forall no_bar (atom_text (fst p) ++ quant_text (snd p)).
Proof.
  destruct p as [a q]. intros [Ha Hq]. cbn [fst snd] in *. apply Forall_app. split.
  - destruct a as [c| |neg l]; cbn in *.
    + constructor; [|done]. unfold no_bar. solve_plain.
    + by repeat constructor.
    + constructor; [done|]. apply Forall_app. split; [by destruct neg; repeat constructor|]. apply Forall_app. split; [|by repeat constructor].
      eapply Forall_impl; [apply Ha|]. intros c Hc. unfold no_bar. solve_plain.
  - destruct q as [| |n [m|]]; cbn in *; [done|by repeat constructor| |].
    + constructor; [done|]. apply Forall_app. split; [apply dec_no_bar; lia|]. constructor; [done|].
      apply Forall_app. split; [apply dec_no_bar; lia|by repeat constructor].
    + constructor; [done|]. apply Forall_app. split; [apply dec_no_bar; lia|by repeat constructor].
Qed.

Lemma seq_no_bar ps : Forall piece_ok ps -> Forall no_bar (seq_text ps).
Proof.
  induction 1 as [|[a q] ps Hp Hps IH]; [constructor|]. unfold seq_text. cbn [map concat].
  apply Forall_app. split; [by apply (piece_no_bar (a, q))|done].
Qed.

(** *** Sequences *)

(** A prefix of [s] belongs to the language. *)
Definition prefix_in (L : list Z -> Prop) (s : list Z) : Prop := exists u v, s = u ++ v /\ L u.

Lemma first_char a p : atom_ok a -> exists c p', atom_text a ++ p = c :: p' /\ c <> 94 /\ c <> 36.
Proof.
  destruct a as [c| |neg l]; intros Ha; cbn; (eexists _, _; split; [reflexivity|]); [cbn in Ha; solve_plain|done|done].
Qed.

Lemma m_seq_pieces icase ps : Forall piece_ok ps -> forall s,
  m_seq (seq_text ps) s true icase = true <-> prefix_in (seq_sem icase ps) s.
Proof.
  induction 1 as [|[a q] ps [Ha Hq] Hps IH]; intros s.
  - split; [|done]. intros _. by exists [], s.
  - cbn [fst snd] in Ha, Hq. rewrite m_seq_step. assert (seq_text ((a, q) :: ps) = atom_text a ++ quant_text q ++ seq_text ps) as Et.
    { unfold seq_text. cbn [map concat]. by rewrite app_assoc. }
    pose proof (seq_no_bar _ (Forall_cons_2 _ (a, q) ps (conj Ha Hq) Hps)) as Hnb. rewrite Et in *.
    destruct (first_char a (quant_text q ++ seq_text ps) Ha) as (c & p' & Ec & Hc1 & Hc2).
    unfold m_step. rewrite Ec at 1. rewrite (proj2 (Z.eqb_neq c 94)), (proj2 (Z.eqb_neq c 36)) by done. cbn [andb].
    rewrite next_bar_none by done. rewrite m_item_takes by (done || by apply seq_starts). split.
    + intros (k & Hk & u & v & -> & Hl & Hu & Hf). apply IH in Hf as (u' & v' & -> & Hs).
      exists (u ++ u'), v'. rewrite <-app_assoc. split; [done|]. exists u, u'. by rewrite Hl.
    + intros (w & v & -> & u & u' & -> & Hk & Hu & Hs). exists (length u). split; [done|].
      exists u, (u' ++ v). rewrite <-app_assoc. split_and!; try done. apply IH. by exists u', v.
Qed.

(** *** Alternatives *)

Lemma regex_text_cons ps r : r <> [] -> regex_text (ps :: r) = seq_text ps ++ 124 :: regex_text r.
Proof. by destruct r. Qed.

Lemma regex_sem_cons icase ps r s : prefix_in (regex_sem icase (ps :: r)) s <->
  prefix_in (seq_sem icase ps) s \/ prefix_in (regex_sem icase r) s.
Proof.
  split.
  - intros (u & v & -> & ps' & [->|Hin]%elem_of_cons & Hs); [left; by exists u, v|right; exists u, v; split; [done|]; by exists ps'].
  - intros [(u & v & -> & Hs)|(u & v & -> & ps' & Hin & Hs)]; exists u, v; (split; [done|]).
    + exists ps. split; [by left|done].
    + exists ps'. split; [by right|done].
Qed.

Lemma alt_loop_regex icase r : Forall pieces_ok r -> r <> [] -> forall fuel s, (length r <= fuel)%nat ->
  alt_loop true (fun re' s' => m_seq re' s' true icase) fuel (regex_text r) s = true <-> prefix_in (regex_sem icase r) s.
Proof.
  induction r as [|ps r IH]; [done|]. intros [[Hps Hlen] Hr]%Forall_cons _ fuel s Hf.
  destruct fuel as [|fuel]; [cbn in Hf; lia|]. cbn [alt_loop]. rewrite regex_sem_cons.
  pose proof (seq_no_bar _ Hps) as Hnb. destruct (decide (r = [])) as [->|Hne].
  - cbn [regex_text]. rewrite next_bar_none by done. rewrite (proj2 (Z.leb_gt _ _)) by done.
    destruct (m_seq _ s true icase) eqn:Em.
    + split; [|done]. intros _. left. by apply m_seq_pieces.
    + split; [done|]. intros [Hs|(u & v & _ & ps' & Hin & _)]; [|by apply not_elem_of_nil in Hin].
      apply m_seq_pieces in Hs; [congruence|done].
  - rewrite regex_text_cons, next_bar_first by done. rewrite take_app_length. rewrite (proj2 (Z.leb_gt _ _)) by done.
    destruct (m_seq _ s true icase) eqn:Em.
    + split; [|done]. intros _. left. by apply m_seq_pieces.
    + cbn [negb andb]. rewrite drop_app_ge by lia. replace (length (seq_text ps) + 1 - length (seq_text ps))%nat with 1%nat by lia.
      change (drop 1 (124 :: regex_text r)) with (regex_text r). rewrite IH by (done || (cbn in Hf; lia)).
      split; [by right|]. intros [Hs|Hs]; [|done]. apply m_seq_pieces in Hs; [congruence|done].
Qed.

Lemma seq_text_bound r : (length r <= S (length (regex_text r)))%nat.
Proof.
  induction r as [|ps r IH]; [cbn; lia|]. destruct (decide (r = [])) as [->|Hne]; [cbn; lia|].
  rewrite regex_text_cons, length_app by done. cbn [length]. lia.
Qed.

Lemma m_seq_regex icase r s : regex_ok r -> m_seq (regex_text r) s true icase = true <-> prefix_in (regex_sem icase r) s.
Proof.
  intros [Hne Hr]. destruct r as [|ps r]; [done|]. destruct (decide (r = [])) as [->|Hr0].
  - rewrite regex_sem_cons. apply Forall_cons in Hr as [[Hps _] _]. cbn [regex_text]. rewrite m_seq_pieces by done.
    split; [by left|]. intros [?|(u & v & _ & ps' & Hin & _)]; [done|by apply not_elem_of_nil in Hin].
  - rewrite m_seq_step. assert (next_bar true (regex_text (ps :: r)) = Some (length (seq_text ps))) as Hnb.
    { rewrite regex_text_cons by done. apply next_bar_first. apply seq_no_bar. apply Forall_cons in Hr as [[? _] _]. done. }
    assert (exists c p', regex_text (ps :: r) = c :: p' /\ c <> 94 /\ c <> 36) as (c & p' & Ec & H1 & H2).
    { rewrite regex_text_cons by done. destruct ps as [|[a q] ps]; [by eexists _, _|].
      apply Forall_cons in Hr as [[[[Ha _] _]%Forall_cons _] _]. unfold seq_text. cbn [map concat]. rewrite <-!app_assoc.
      by apply first_char. }
    unfold m_step. rewrite Ec at 1. rewrite (proj2 (Z.eqb_neq c 94)), (proj2 (Z.eqb_neq c 36)) by done. cbn [andb].
    rewrite Hnb. apply alt_loop_regex; [done|done|apply seq_text_bound].
Qed.

(** *** Searching *)

Lemma quant_last q : quant_text q = [] \/ exists p c, quant_text q = p ++ [c] /\ c <> 36.
Proof.
  destruct q as [| |n [m|]]; [by left|right..].
  - by exists [], 43.
  - exists (123 :: dec n ++ 44 :: dec m), 125. split; [|done]. cbn [quant_text app]. by repeat (rewrite <-app_assoc; cbn [app]).
  - exists (123 :: dec n ++ [44]), 125. split; [|done]. cbn [quant_text app]. by repeat (rewrite <-app_assoc; cbn [app]).
Qed.

Lemma piece_last p : piece_ok p -> exists t c, atom_text (fst p) ++ quant_text (snd p) = t ++ [c] /\ c <> 36.
Proof.
  destruct p as [a q]. intros [Ha _]. cbn [fst snd]. destruct (quant_last q) as [->|(t & c & -> & Hc)].
  - rewrite app_nil_r. destruct a as [c| |neg l]; cbn in *; [exists [], c; split; [done|solve_plain]|by exists [], 46|].
    exists (91 :: (if neg then [94] else []) ++ l), 93. split; [|done]. cbn. by repeat (rewrite <-app_assoc; cbn [app]).
  - exists (atom_text a ++ t), c. by rewrite <-app_assoc.
Qed.

Lemma seq_last ps : Forall piece_ok ps -> seq_text ps = [] \/ exists t c, seq_text ps = t ++ [c] /\ c <> 36.
Proof.
  induction 1 as [|p ps Hp Hps IH]; [by left|right]. unfold seq_text. cbn [map concat]. destruct p as [a q].
  destruct IH as [E|(t & c & E & Hc)]; unfold seq_text in E; rewrite E.
  - rewrite app_nil_r. by apply (piece_last (a, q)).
  - exists ((atom_text a ++ quant_text q) ++ t), c. split; [by rewrite !app_assoc|done].
Qed.

Lemma regex_last r : regex_ok r -> regex_text r = [] \/ exists t c, regex_text r = t ++ [c] /\ c <> 36.
Proof.
  intros [Hne Hr]. induction r as [|ps r IH]; [done|]. apply Forall_cons in Hr as [[Hps _] Hr].
  destruct (decide (r = [])) as [->|Hr0]; [by apply seq_last|]. right. rewrite regex_text_cons by done.
  destruct (IH Hr0 Hr) as [->|(t & c & -> & Hc)].
  - by exists (seq_text ps), 124.
  - exists (seq_text ps ++ 124 :: t), c. by rewrite <-app_assoc.
Qed.

Lemma regex_first r : regex_ok r -> at_ (regex_text r) 0 <> 94.
Proof.
  intros [Hne Hr]. destruct r as [|ps r]; [done|]. apply Forall_cons in Hr as [[Hps _] Hr].
  assert (forall t, at_ t 0 <> 94 -> at_ (seq_text ps ++ t) 0 <> 94) as Hs.
  { intros t Ht. destruct ps as [|[a q] ps]; [done|]. apply Forall_cons in Hps as [[Ha _] _].
    unfold seq_text. cbn [map concat]. rewrite <-!app_assoc. destruct (first_char a (quant_text q ++ concat (map (fun '(a, q) => atom_text a ++ quant_text q) ps) ++ t) Ha) as (c & p' & -> & ? & _). done. }
  destruct (decide (r = [])) as [->|Hr0].
  - cbn [regex_text]. rewrite <-(app_nil_r (seq_text ps)). by apply Hs.
  - rewrite regex_text_cons by done. by apply Hs.
Qed.

(** The test for a final dollar. *)
Definition ends_dollar (pat : list Z) : bool := bool_decide (pat <> []) && (at_ pat (length pat - 1) =? 36).

Lemma ends_dollar_snoc t c : ends_dollar (t ++ [c]) = (c =? 36).
Proof.
  unfold ends_dollar. rewrite bool_decide_eq_true_2 by by destruct t. cbn [andb]. f_equal. unfold at_.
  rewrite length_app. cbn [length]. rewrite app_nth2 by lia. by replace (length t + 1 - 1 - length t)%nat with O by lia.
Qed.

Lemma regex_no_dollar r : regex_ok r -> ends_dollar (regex_text r) = false.
Proof.
  intros Hr. destruct (regex_last r Hr) as [->|(t & c & -> & Hc)]; [done|]. rewrite ends_dollar_snoc. lia.
Qed.

(** A search without anchors tries every position. *)
Lemma re_search_plain pat line ere icase : at_ pat 0 <> 94 -> ends_dollar pat = false -> zlen pat < PAT_MAX ->
  re_search pat line false ere icase = existsb (fun i => m_seq pat (drop i line) ere icase) (seq 0 (S (length line))).
Proof.
  intros H1 H2 Hl. unfold re_search. fold (ends_dollar pat). rewrite H2, (proj2 (Z.eqb_neq _ 94)) by done.
  rewrite !Z.sub_0_r, (proj2 (Z.leb_gt _ _)) by done.
  replace (Z.to_nat (zlen pat)) with (length pat) by (unfold zlen; lia). rewrite drop_0, firstn_all.
  apply existsb_ext_in. intros i. by rewrite andb_true_r.
Qed.

Lemma re_search_regex icase r line : regex_ok r -> zlen (regex_text r) < PAT_MAX ->
  re_search (regex_text r) line false true icase = true <-> exists a w b, line = a ++ w ++ b /\ regex_sem icase r w.
Proof.
  intros Hr Hl. rewrite re_search_plain by (done || by apply regex_first || by apply regex_no_dollar). rewrite existsb_exists. split.
  - intros (i & Hi%in_seq & Hm). apply m_seq_regex in Hm as (u & v & E & Hs); [|done].
    exists (take i line), u, v. split; [|done]. by rewrite <-E, take_drop.
  - intros (a & w & b & -> & Hs). exists (length a). split; [apply in_seq; rewrite length_app; lia|].
    rewrite drop_app_length. apply m_seq_regex; [done|]. by exists w, b.
Qed.

(** Some part of the line belongs to the language. *)
Definition contains (icase : bool) (r : regex) (line : list Z) : Prop :=
  exists a w b, line = a ++ w ++ b /\ regex_lang icase r w.

Lemma re_search_contains icase r line : regex_ok r -> case_ok icase r -> zlen (regex_text r) < PAT_MAX ->
  re_search (regex_text r) line false true icase = true <-> contains icase r line.
Proof.
  intros Hr Hc Hl. rewrite re_search_regex by done.
  split; intros (a & w & b & E & Hw); exists a, w, b; (split; [done|]); by apply regex_lang_sem.
Qed.


Definition demo_regex : regex := [[(ALit 97, Plus); (ASet true [98; 99], Times 2 (Some 3%nat))]; [(AAny, One)]].

Lemma demo_regex_ok : regex_ok demo_regex.
Proof.
  split; [done|]. repeat constructor; cbn; try lia; try (vm_compute; reflexivity); rewrite ?not_elem_of_cons; try (split_and!; lia); try set_solver.
Qed.


(** ** Where the engine goes wrong *)

Lemma count_loop_zero ere icase rec atom s final : forall n count, count < Z.of_nat n -> 0 <= count ->
  count_loop ere icase rec n count atom s final = true.
Proof.
  induction n as [|n IH]; intros count Hn Hc; [lia|]. cbn [count_loop]. unfold reps_match.
  destruct (Z.eqb_spec count 0) as [->|Hne]; [by destruct (final s)|].
  destruct (atom_each _ _ _ _ _ _); [done|]. apply IH; lia.
Qed.

(** A star matches everything. In an extended expression without groups
    and alternatives, an atom followed by [*] or [?] makes the search succeed
    on every line, whatever the rest of the pattern asks for: for a count of
    zero, [reps_match] returns 1 when the rest does not match. *)
Theorem grep_star_matches_everything icase a q rest line :
  atom_ok a -> q = 42 \/ q = 63 -> Forall no_bar rest -> ends_dollar (atom_text a ++ q :: rest) = false ->
  zlen (atom_text a ++ q :: rest) < PAT_MAX ->
  re_search (atom_text a ++ q :: rest) line false true icase = true.
Proof.
  intros Ha Hq Hr He Hl. destruct (first_char a (q :: rest) Ha) as (c & p' & Ec & Hc1 & Hc2).
  rewrite re_search_plain by (done || by rewrite Ec). rewrite existsb_exists. exists O. split; [apply in_seq; lia|].
  rewrite drop_0, m_seq_step. unfold m_step. rewrite Ec at 1.
  rewrite (proj2 (Z.eqb_neq c 94)), (proj2 (Z.eqb_neq c 36)) by done. cbn [andb].
  assert (Forall no_bar (atom_text a ++ q :: rest)) as Hnb.
  { apply Forall_app. split; [by pose proof (piece_no_bar (a, One) (conj Ha I)) as Hp; cbn in Hp; rewrite app_nil_r in Hp|].
    constructor; [unfold no_bar; lia|done]. }
  rewrite next_bar_none by done. unfold m_item. rewrite atom_len by done. destruct (atom_starts a [] Ha) as [_ Hne].
  rewrite bool_decide_eq_false_2 by (intros E%length_zero_iff_nil; done). rewrite drop_app_length.
  assert (quantifier (q :: rest) true = (0, if q =? 42 then -1 else 1, 1%nat)) as -> by (destruct Hq as [->| ->]; done).
  apply count_loop_zero; destruct Hq as [->| ->]; cbn -[zlen]; unfold zlen; lia.
Qed.

Lemma grep_star_matches_everything_witness : re_search (bs "a*b") (bs "xyz") false true false = true.
Proof.
  apply (grep_star_matches_everything false (ALit 97) 42 [98] (bs "xyz")); [cbn|by left| |reflexivity|reflexivity].
  - split; [lia|]. unfold special. rewrite !not_elem_of_cons. split_and!; (lia || apply not_elem_of_nil).
  - repeat constructor; discriminate.
Defined.

(** A final dollar has no effect: because [m_seq] accepts a string as soon
    as the pattern is used up, searching with a dollar after the pattern gives
    the same answer as searching without it, in basic and in extended
    expressions. *)
Theorem grep_final_dollar_ignored pat line ere icase :
  pat <> [] -> ends_dollar pat = false -> zlen line < LINE_MAX ->
  re_search (pat ++ [36]) line false ere icase = re_search pat line false ere icase.
Proof.
  intros Hne He Hl. unfold re_search. fold (ends_dollar (pat ++ [36])) (ends_dollar pat). rewrite ends_dollar_snoc, He.
  assert (at_ (pat ++ [36]) 0 = at_ pat 0) as -> by by destruct pat. change (36 =? 36) with true. cbn iota.
  rewrite zlen_app. change (zlen [36]) with 1. set (d := if at_ pat 0 =? 94 then 1 else 0).
  replace (zlen pat + 1 - d - 1) with (zlen pat - d - 0) by lia. destruct (PAT_MAX <=? _); [done|].
  assert (1 <= zlen pat) as Hz by (destruct pat; [done|]; unfold zlen; cbn [length]; lia).
  set (n := if at_ pat 0 =? 94 then 1%nat else O).
  assert (Z.of_nat n = d /\ (n <= 1)%nat) as [En Hn] by (unfold n, d; destruct (_ =? 94); lia).
  assert (take (Z.to_nat (zlen pat - d - 0)) (drop n (pat ++ [36])) = take (Z.to_nat (zlen pat - d - 0)) (drop n pat)) as ->.
  { unfold zlen in *. rewrite drop_app_le by lia. rewrite take_app_le; [done|]. rewrite length_drop. lia. }
  set (buf := take _ _).
  assert (forall i, m_seq buf (drop i line) ere icase && ((zlen (drop i line) <? LINE_MAX) && m_seq buf (drop i line) ere icase) =
                    m_seq buf (drop i line) ere icase && true) as Hh.
  { intros i. rewrite (proj2 (Z.ltb_lt _ _)), andb_true_r; [by destruct (m_seq _ _ _ _)|].
    unfold zlen in *. rewrite length_drop. lia. }
  destruct (at_ pat 0 =? 94); [apply Hh|]. by apply existsb_ext_in.
Qed.

Lemma grep_final_dollar_ignored_witness : re_search (bs "ab$") (bs "abc") false false false = re_search (bs "ab") (bs "abc") false false false.
Proof. apply (grep_final_dollar_ignored (bs "ab") (bs "abc") false false); [discriminate|reflexivity|vm_compute; reflexivity]. Defined.

(** A group takes any text that begins with a match of it. *)
Example grep_group_takes_more : re_search (bs "(ab)c") (bs "abxxc") false true false = true.
Proof. vm_compute. reflexivity. Qed.

(** The names alnum, cntrl and blank are compared with a wrong length. *)
Example grep_alnum_class : re_search (bs "[[:alnum:]]") (bs "abc") false true false = false /\
  re_search (bs "[[:alnu:]]") (bs "abc") false true false = true.
Proof. split; vm_compute; reflexivity. Qed.

(** In a basic expression a bar and a plus are operators, and a parenthesis
    matches nothing. *)
Example grep_basic_operators : re_search (bs "a|b") (bs "b") false false false = true /\
  re_search (bs "a+b") (bs "a+b") false false false = false /\ re_search (bs "(") (bs "f(x)") false false false = false.
Proof. split_and!; vm_compute; reflexivity. Qed.

(** ** The lines that are printed *)

(** A line is selected when some pattern hits it, or with -v when none does. *)
Definition selects (o : opts) (pats : list (list Z)) (line : list Z) : bool :=
  xorb (opt_invert o) (existsb (fun p => pat_hit o p line) pats).

(** The selected lines with their numbers, after [n] lines. *)
Fixpoint selected (o : opts) (pats : list (list Z)) (n : Z) (lines : list (list Z)) : list (Z * list Z) :=
  match lines with
  | [] => []
  | l :: lines' => (if selects o pats l then [(n + 1, l)] else []) ++ selected o pats (n + 1) lines'
  end.

(** No option that stops early or adds context. *)
Record whole (o : opts) : Prop := Whole {
  wh_quiet : opt_quiet o = false;
  wh_max : opt_max_count o < 0;
  wh_after : opt_after o <= 0;
  wh_before : opt_before o <= 0;
}.

Definition body (o : opts) (fname : list Z) (sel : list (Z * list Z)) : list Z :=
  if silent o then [] else concat (map (fun '(i, l) => out_line o fname i 58 l) sel).

Lemma any_hit_existsb o pats line : any_hit o (map Some pats) line = Some (existsb (fun p => pat_hit o p line) pats).
Proof. induction pats as [|p pats IH]; [done|]. cbn. by destruct (pat_hit o p line). Qed.

Lemma body_cons o fname x sel : body o fname (x :: sel) = body o fname [x] ++ body o fname sel.
Proof. unfold body. destruct (silent o); [done|]. cbn [map concat]. by rewrite app_nil_r. Qed.

Lemma grep_lines_selects o pats fname : whole o -> forall lines st, sc_pending st <= 0 ->
  let sel := selected o pats (sc_lineno st) lines in
  exists st', grep_lines o (map Some pats) fname lines st = Some (Next st', []) /\
    sc_matches st' = sc_matches st + Z.of_nat (length sel) /\
    sc_any st' = sc_any st || bool_decide (sel <> []) /\
    sc_out st' = sc_out st ++ body o fname sel.
Proof.
  intros [Hq Hm Ha Hb]. induction lines as [|l lines IH]; intros st Hp.
  - cbn zeta. exists st. cbn [selected length]. split_and!; [done|lia|by rewrite orb_false_r|].
    unfold body. destruct (silent o); by rewrite app_nil_r.
  - cbn zeta. cbn [grep_lines selected]. unfold grep_line. rewrite any_hit_existsb. cbn [mbind option_bind].
    assert ((if opt_invert o then negb (existsb (fun p => pat_hit o p l) pats) else existsb (fun p => pat_hit o p l) pats) = selects o pats l) as ->
      by (unfold selects; by destruct (opt_invert o)).
    rewrite (proj2 (Z.ltb_ge 0 (opt_before o))), (proj2 (Z.ltb_ge 0 (sc_pending st))) by lia. rewrite Hq.
    rewrite (proj2 (Z.leb_gt 0 (opt_max_count o))) by lia. cbn [andb].
    destruct (selects o pats l).
    + unfold out_before. rewrite (proj2 (Z.ltb_ge 0 (opt_before o))) by lia.
      set (out := if silent o then _ else _).
      assert (snd out = sc_out st ++ body o fname [(sc_lineno st + 1, l)] /\ fst out <= 0) as [Eo Hp'].
      { unfold out, body. destruct (silent o); cbn; [by rewrite app_nil_r|]. by rewrite app_nil_r. }
      destruct out as [pending out]. cbn [fst snd] in *.
      destruct (IH (Scan (sc_lineno st + 1) (sc_matches st + 1) (sc_ctx st) pending true out) Hp') as (st' & -> & E1 & E2 & E3).
      exists st'. cbn [sc_lineno sc_matches sc_any sc_out] in *. split_and!; [done| |by rewrite E2, orb_true_r|].
      * rewrite E1. cbn [app length]. lia.
      * rewrite E3, Eo, <-app_assoc. f_equal. symmetry. apply body_cons.
    + destruct (IH (Scan (sc_lineno st + 1) (sc_matches st) (sc_ctx st) (sc_pending st) (sc_any st) (sc_out st)) Hp) as (st' & -> & E1 & E2 & E3).
      by exists st'.
Qed.

Lemma grep_run_selected fopen strerror o pats name f stdin :
  whole o -> name <> [45] -> fopen name = Some f ->
  let o' := set_auto o 1 in
  let sel := selected o' pats 0 (file_lines f) in
  grep_run fopen strerror o (map Some pats) [name] stdin =
    Some (if bool_decide (sel = []) then 1 else 0,
          body o' name sel ++ file_summary o' name (Z.of_nat (length sel)), []).
Proof.
  intros Hw Hn Hf o' sel. assert (whole o') as Hw'.
  { destruct Hw as [? ? ? ?]. unfold o', set_auto. destruct (_ <? 0); [|by split]. by destruct o. }
  unfold grep_run. cbn [length]. fold o'. cbn [grep_files]. unfold grep_named. rewrite bool_decide_eq_false_2 by done.
  rewrite Hf. cbn [rn_any rn_out rn_errors rn_stdin rn_err]. unfold grep_file.
  destruct (grep_lines_selects o' pats name Hw' (file_lines f) (Scan 0 0 [] 0 false []) ltac:(done)) as (st' & -> & E1 & E2 & E3).
  cbn [sc_lineno sc_matches sc_any sc_out] in E1, E2, E3. fold sel in E1, E2, E3.
  cbn [mbind option_bind rn_any rn_out rn_errors rn_err]. rewrite E1, E2, E3. cbn [orb app]. rewrite Z.add_0_l.
  f_equal. f_equal. f_equal. repeat case_bool_decide; done || tauto.
Qed.

(** The lines that are wanted, with their numbers, after [n] lines. *)
Inductive picks (want : list Z -> Prop) : Z -> list (list Z) -> list (Z * list Z) -> Prop :=
| picks_nil n : picks want n [] []
| picks_take n l lines sel : want l -> picks want (n + 1) lines sel -> picks want n (l :: lines) ((n + 1, l) :: sel)
| picks_skip n l lines sel : ~ want l -> picks want (n + 1) lines sel -> picks want n (l :: lines) sel.

(** The line has a part that belongs to one of the expressions; with -v it has
    none. *)
Definition wanted (o : opts) (rs : list regex) (line : list Z) : Prop :=
  if opt_invert o then forall r, r ∈ rs -> ~ contains (opt_icase o) r line
  else exists r, r ∈ rs /\ contains (opt_icase o) r line.

(** -E, and none of the options -q, -m, -o, -w, -x and context. *)
Record plain_search (o : opts) : Prop := PlainSearch {
  ps_whole : whole o;
  ps_ere : opt_ere o = true /\ opt_fixed o = false;
  ps_only : opt_only o = false;
  ps_anchors : opt_word o = false /\ opt_line o = false;
}.

Definition pattern_ok (o : opts) (r : regex) : Prop :=
  regex_ok r /\ case_ok (opt_icase o) r /\ zlen (regex_text r) < PAT_MAX.

Lemma selects_wanted o rs line : plain_search o -> Forall (pattern_ok o) rs ->
  selects o (map regex_text rs) line = true <-> wanted o rs line.
Proof.
  intros [_ [He Hx] _ [Hw Hl]] Hrs. unfold selects, wanted.
  assert (existsb (fun p => pat_hit o p line) (map regex_text rs) = true <-> exists r, r ∈ rs /\ contains (opt_icase o) r line) as Hex.
  { rewrite existsb_exists. unfold pat_hit. rewrite He, Hx, Hw, Hl. rewrite Forall_forall in Hrs. split.
    - intros (t & (r & <- & Hr%list_elem_of_In)%in_map_iff & Hh). rewrite !andb_false_r in Hh.
      destruct (Hrs r Hr) as (R1 & R2 & R3). exists r. split; [done|]. by apply re_search_contains.
    - intros (r & Hr & Hc). destruct (Hrs r Hr) as (R1 & R2 & R3). exists (regex_text r).
      split; [apply in_map; by apply list_elem_of_In|]. rewrite !andb_false_r. by apply re_search_contains. }
  destruct (opt_invert o); rewrite ?xorb_true_l, ?xorb_false_l; [|exact Hex]. rewrite negb_true_iff, <-not_true_iff_false, Hex. split.
  - intros Hn r Hr Hc. apply Hn. by exists r.
  - intros Hn (r & Hr & Hc). by apply (Hn r Hr).
Qed.

Lemma selected_picks o rs n lines : plain_search o -> Forall (pattern_ok o) rs ->
  picks (wanted o rs) n lines (selected o (map regex_text rs) n lines).
Proof.
  intros Ho Hrs. revert n. induction lines as [|l lines IH]; intros n; cbn [selected]; [constructor|].
  pose proof (selects_wanted o rs l Ho Hrs) as Hs. destruct (selects o _ l); cbn [app]; constructor; try apply IH; [by apply Hs|].
  intros Hw%Hs. done.
Qed.


(** The expression [wor+l] with -E and -n. *)
Definition demo_opts : opts := Opts false false true false false false false false false false true false (-1) (-1) 0 0.
Definition demo_word : regex := [[(ALit 119, One); (ALit 111, One); (ALit 114, Plus); (ALit 108, One)]].

Lemma demo_word_ok : pattern_ok demo_opts demo_word.
Proof.
  split; [|split; [discriminate|vm_compute; reflexivity]]. split; [done|].
  repeat constructor; cbn; try lia; try (vm_compute; reflexivity); rewrite ?not_elem_of_cons; try (split_and!; lia); set_solver.
Qed.


Example grep_prints_world :
  grep_run (fun _ => Some (bs "hello" ++ [10] ++ bs "world" ++ [10])) (fun _ => []) demo_opts [Some (bs "wor+l")] [bs "f"] [] =
    Some (0, bs "2:world" ++ [10], []).
Proof. vm_compute. reflexivity. Qed.

(** An option with a number as a separate argument hands a null pointer to
    [atol]. *)
Example grep_number_option_crashes : main (fun _ => None) (fun _ => []) [] [bs "-A"; bs "2"; bs "x"] [] = None.
Proof. vm_compute. reflexivity. Qed.
