(* ===== verification/Unix.v ===== *)
(** * The process of a user program

    What the account programs (doas, login, passwd, useradd) use of the C
    library and the kernel: files, the terminal, identities, and how a program
    ends. A string is the list of its bytes without the terminator; strings of
    programs have no NUL, so that [strcmp(a, b) == 0] is equality. *)

From stdpp Require Import base numbers list gmap.
From Stdlib Require Import ZArith Lia ZifyBool.
From S2P Require Import Prelude.
From S2P Require Import Klib.
From S2P Require Import Grep.

(** Contents of the files by path, what [read] will deliver from the
    terminal, what was printed, the identities, and the directories made. *)
Record proc := Proc {
  p_files : gmap (list Z) (list Z);
  p_in : list Z;
  p_out : list Z;
  p_err : list Z;
  p_uid : Z;
  p_euid : Z;
  p_gid : Z;
  p_dirs : list (list Z * Z);
}.

(** A program goes on, exits, or becomes another one. *)
Inductive ended (A : Type) :=
  | Val (x : A)
  | Exit (status : Z)
  | Exec (path : list Z) (argv : list (list Z)).
Arguments Val {A}.
Arguments Exit {A}.
Arguments Exec {A}.

(** [None] is the use of a NULL pointer or of memory out of bounds. *)
Definition U (A : Type) : Type := proc -> option (ended A * proc).

#[export] Instance U_ret : MRet U := fun A x p => Some (Val x, p).
#[export] Instance U_bind : MBind U := fun A B f m p =>
  match m p with
  | None => None
  | Some (Val x, p') => f x p'
  | Some (Exit st, p') => Some (Exit st, p')
  | Some (Exec path argv, p') => Some (Exec path argv, p')
  end.

Definition exit {A} (status : Z) : U A := fun p => Some (Exit status, p).
(** A successful [execve]. *)
Definition become {A} (path : list Z) (argv : list (list Z)) : U A := fun p => Some (Exec path argv, p).
Definition fault {A} : U A := fun _ => None.
Definition proc_state : U proc := fun p => Some (Val p, p).
Definition printf (t : list Z) : U unit := fun p =>
  Some (Val tt, Proc (p_files p) (p_in p) (p_out p ++ t) (p_err p) (p_uid p) (p_euid p) (p_gid p) (p_dirs p)).
Definition eprintf (t : list Z) : U unit := fun p =>
  Some (Val tt, Proc (p_files p) (p_in p) (p_out p) (p_err p ++ t) (p_uid p) (p_euid p) (p_gid p) (p_dirs p)).

(** [fopen] for reading. *)
Definition fopen (path : list Z) : U (option (list Z)) := fun p => Some (Val (p_files p !! path), p).

Definition set_files (f : gmap (list Z) (list Z)) (p : proc) : proc :=
  Proc f (p_in p) (p_out p) (p_err p) (p_uid p) (p_euid p) (p_gid p) (p_dirs p).

(** [setuid] and [setgid]: the kernel lets any task take any identity. *)
Definition setuid (u : Z) : U unit := fun p =>
  Some (Val tt, Proc (p_files p) (p_in p) (p_out p) (p_err p) u u (p_gid p) (p_dirs p)).
Definition setgid (g : Z) : U unit := fun p =>
  Some (Val tt, Proc (p_files p) (p_in p) (p_out p) (p_err p) (p_uid p) (p_euid p) g (p_dirs p)).

(** ** Strings *)

Definition streq (a b : list Z) : bool := bool_decide (a = b).

(** [snprintf(buf, size, "%s", s)]. *)
Definition bounded (size : nat) (s : list Z) : list Z := take (size - 1) s.

(** [strchr] and the replacement of the character found by a NUL: the part
    before it and the part behind it. *)
Fixpoint cut_at (c : Z) (s : list Z) : option (list Z * list Z) :=
  match s with
  | [] => None
  | x :: s' => if x =? c then Some ([], s') else '(a, b) ← cut_at c s'; Some (x :: a, b)
  end.

Definition COLON : Z := 58.

(** All tokens that repeated calls of [strtok_r] return; [acc] is the token
    that is being read. *)
Fixpoint strtok (sep : Z -> bool) (acc s : list Z) : list (list Z) :=
  match s with
  | [] => if bool_decide (acc = []) then [] else [acc]
  | c :: s' =>
      if sep c then (if bool_decide (acc = []) then strtok sep [] s' else acc :: strtok sep [] s')
      else strtok sep (acc ++ [c]) s'
  end.

Definition blank (c : Z) : bool := (c =? 32) || (c =? 9).

Fixpoint drop_blanks (s : list Z) : list Z :=
  match s with
  | c :: s' => if blank c then drop_blanks s' else s
  | [] => []
  end.

(** What a loop of [fgets] with a buffer of [size] bytes reads from a file. *)
Fixpoint read_lines (fuel size : nat) (f : list Z) : list (list Z) :=
  match fuel, f with
  | S fuel', _ :: _ => let '(l, r) := fgets (size - 1) f in l :: read_lines fuel' size r
  | _, _ => []
  end.

(** The strings in the buffer. *)
Definition fgets_lines (size : nat) (f : list Z) : list (list Z) := map cstr (read_lines (length f) size f).

(** What follows the colon in the first line of [name]; lines without a colon
    do not count. *)
Fixpoint find_entry (name : list Z) (lines : list (list Z)) : option (list Z) :=
  match lines with
  | [] => None
  | l :: lines' =>
      match cut_at COLON l with
      | Some (a, b) => if streq a name then Some b else find_entry name lines'
      | None => find_entry name lines'
      end
  end.

Definition upto_colon (s : list Z) : list Z := match cut_at COLON s with Some (a, _) => a | None => s end.

Definition atoi (s : list Z) : Z := s32 (atol s).

(** [%d] and [%ld]. *)
Definition decimal_text (v : Z) : list Z := if v <? 0 then 45 :: kput_unsigned (- v) 10 false else kput_unsigned v 10 false.

(** ** The terminal *)

(** The bytes up to the end of the line, at most [n]. *)
Fixpoint read_typed (n : nat) (inp : list Z) : list Z * list Z :=
  match n, inp with
  | S n', c :: r =>
      if (c =? 10) || (c =? 13) then ([], r)
      else let '(l, r) := read_typed n' r in (c :: l, r)
  | _, _ => ([], inp)
  end.

(** A line from the terminal into [outsz] bytes; [None] is [-1]. Setting and
    restoring the mode of the terminal has no effect on what is read. *)
Definition read_input (outsz : nat) : U (option (list Z)) := fun p =>
  let '(l, r) := read_typed (outsz - 1) (p_in p) in
  Some (Val (if bool_decide (l = []) then None else Some (cstr l)),
        Proc (p_files p) r (p_out p) (p_err p) (p_uid p) (p_euid p) (p_gid p) (p_dirs p)).

(** [read_line] of login.c and passwd.c. *)
Definition read_line (prompt : list Z) (outsz : nat) : U (option (list Z)) :=
  _ ← eprintf prompt;
  r ← read_input outsz;
  _ ← eprintf [10];
  mret r.

(** ** /etc/passwd *)

Definition s_etc_passwd : list Z := bs "/etc/passwd".
Definition s_etc_shadow : list Z := bs "/etc/shadow".
Definition s_etc_group : list Z := bs "/etc/group".

Record passwd := Passwd {
  pw_name : list Z;
  pw_uid : Z;
  pw_gid : Z;
  pw_dir : list Z;
  pw_shell : list Z;
}.

(** Digits and what follows them. *)
Fixpoint atou (v : Z) (s : list Z) : Z * list Z :=
  match s with
  | c :: s' => if isdigit c then atou (u32 (10 * v + (c - 48))) s' else (v, s)
  | [] => (v, [])
  end.

(** A line without its newline; the first byte belongs to the name in any
    case. *)
Definition parse_pw (l : list Z) : option passwd :=
  '(name, s) ← cut_at COLON (tail l);
  '(_, s) ← cut_at COLON s;
  let '(uid, s) := atou 0 s in
  '(x, s) ← cut_at COLON s;
  if negb (bool_decide (x = [])) then None
  else
    let '(gid, s) := atou 0 s in
    '(x, s) ← cut_at COLON s;
    if negb (bool_decide (x = [])) then None
    else
      '(_, s) ← cut_at COLON s;
      '(dir, shell) ← cut_at COLON s;
      Some (Passwd (take 1 l ++ name) uid gid dir shell).

(** Whole lines, of which the last byte is dropped. *)
Definition pw_lines (f : list Z) : list (list Z) :=
  map (fun l => cstr (removelast l)) (read_lines (length f) (S (S (length f))) f).

Fixpoint pw_find (sel : passwd -> bool) (lines : list (list Z)) : option passwd :=
  match lines with
  | [] => None
  | l :: lines' =>
      match parse_pw l with
      | Some pw => if sel pw then Some pw else pw_find sel lines'
      | None => pw_find sel lines'
      end
  end.

Definition getpw (sel : passwd -> bool) : U (option passwd) :=
  f ← fopen s_etc_passwd;
  mret (match f with None => None | Some f => pw_find sel (pw_lines f) end).
Definition getpwnam (name : list Z) : U (option passwd) := getpw (fun pw => streq (pw_name pw) name).
Definition getpwuid (uid : Z) : U (option passwd) := getpw (fun pw => pw_uid pw =? uid).

(** ** Files of lines *)

(** A line that fits a buffer of [size] bytes: no NUL, one newline, at its
    end. *)
Definition line_ok (size : nat) (l : list Z) : Prop :=
  exists b, l = b ++ [10] /\ 10 ∉ b /\ 0 ∉ b /\ (length l < size)%nat.

Lemma fgets_line n b r : 10 ∉ b -> (length b < n)%nat -> fgets n (b ++ 10 :: r) = (b ++ [10], r).
Proof.
  revert n. induction b as [|c b IH]; intros n Hb Hn; destruct n as [|n]; cbn [length] in Hn; try lia; cbn [app fgets].
  - done.
  - destruct (Z.eqb_spec c 10); [set_solver|]. rewrite IH by (set_solver || lia). done.
Qed.

Lemma cstr_nz l : 0 ∉ l -> cstr l = l.
Proof. induction l as [|c l IH]; intros Hl; [done|]. cbn. destruct (Z.eqb_spec c 0); [set_solver|]. rewrite IH by set_solver. done. Qed.

Lemma line_no_nul size l : line_ok size l -> 0 ∉ l.
Proof. intros (b & -> & _ & H0 & _). set_solver. Qed.

Lemma read_lines_concat fuel size lines : Forall (line_ok size) lines -> (length (concat lines) <= fuel)%nat ->
  read_lines fuel size (concat lines) = lines.
Proof.
  intros Hl. revert fuel. induction Hl as [|l lines (b & -> & Hb & _ & Hn) Hl IH]; intros fuel Hf; [by destruct fuel|].
  cbn [concat] in *. rewrite <-app_assoc in *. cbn [app] in *. rewrite length_app in Hf, Hn. cbn [length] in Hf, Hn.
  destruct fuel as [|fuel]; [lia|]. cbn [read_lines]. rewrite fgets_line by (done || lia).
  destruct (b ++ 10 :: concat lines) eqn:E; [by destruct b|]. rewrite IH by lia. done.
Qed.

Lemma fgets_lines_concat size lines : Forall (line_ok size) lines -> fgets_lines size (concat lines) = lines.
Proof.
  intros Hl. unfold fgets_lines. rewrite read_lines_concat by done.
  rewrite <-(map_id lines) at 2. apply map_ext_in. intros l Hin%list_elem_of_In.
  rewrite Forall_forall in Hl. apply cstr_nz. by eapply line_no_nul, Hl.
Qed.

Lemma cut_at_app c a b : c ∉ a -> cut_at c (a ++ c :: b) = Some (a, b).
Proof.
  induction a as [|x a IH]; intros Ha; cbn; [by rewrite Z.eqb_refl|].
  destruct (Z.eqb_spec x c); [set_solver|]. rewrite IH by set_solver. done.
Qed.

Lemma cut_at_none c a : c ∉ a -> cut_at c a = None.
Proof.
  induction a as [|x a IH]; intros Ha; cbn; [done|]. destruct (Z.eqb_spec x c); [set_solver|]. rewrite IH by set_solver. done.
Qed.

Lemma cut_at_Some c s a b : cut_at c s = Some (a, b) -> s = a ++ c :: b /\ c ∉ a.
Proof.
  revert a. induction s as [|x s IH]; intros a; cbn; [done|]. destruct (Z.eqb_spec x c) as [->|Hx].
  - intros [= <- <-]. split; [done|apply not_elem_of_nil].
  - intros ([a' b'] & E & [= <- <-])%bind_Some. destruct (IH _ E) as [-> Ha]. split; [done|set_solver].
Qed.

Lemma streq_eq a b : streq a b = true <-> a = b.
Proof. apply bool_decide_eq_true. Qed.
Lemma streq_refl a : streq a a = true.
Proof. by apply streq_eq. Qed.
Lemma streq_ne a b : a <> b -> streq a b = false.
Proof. intros. by apply bool_decide_eq_false. Qed.

(** The tokens of words with one separator between them. *)
Lemma strtok_word sep acc w s : Forall (fun c => sep c = false) w -> strtok sep acc (w ++ s) = strtok sep (acc ++ w) s.
Proof.
  intros Hw. revert acc. induction Hw as [|c w Hc Hw IH]; intros acc; cbn [app strtok]; [by rewrite app_nil_r|].
  rewrite Hc, IH, <-app_assoc. done.
Qed.

Definition word_of (sep : Z -> bool) (w : list Z) : Prop := w <> [] /\ Forall (fun c => sep c = false) w.

Lemma strtok_words sep d ws : sep d = true -> Forall (word_of sep) ws -> strtok sep [] (concat (map (fun w => w ++ [d]) ws)) = ws.
Proof.
  intros Hd. induction 1 as [|w ws [Hne Hw] Hws IH]; [done|]. cbn [map concat]. rewrite <-app_assoc, strtok_word by done.
  cbn [app strtok]. rewrite Hd, bool_decide_eq_false_2 by done. by rewrite IH.
Qed.

Lemma strtok_last sep d ws w : sep d = true -> Forall (word_of sep) ws -> word_of sep w ->
  strtok sep [] (concat (map (fun w => w ++ [d]) ws) ++ w) = ws ++ [w].
Proof.
  intros Hd. induction 1 as [|x ws [Hne Hx] Hws IH]; intros [Hne' Hw].
  - cbn [map concat app]. rewrite <-(app_nil_r w) at 1. rewrite strtok_word by done. cbn. by rewrite bool_decide_eq_false_2.
  - cbn [map concat]. rewrite <-!app_assoc, strtok_word by done. cbn [app strtok]. rewrite Hd, bool_decide_eq_false_2 by done.
    rewrite IH by done. done.
Qed.
