(* ===== verification/Doas.v ===== *)
(** * doas (src/userspace/doas.c)

    The rules of the configuration file, the choice of a rule, the password
    check and the program itself. [crypt], the environment, which files can be
    executed and the text of [strerror] are parameters, and so is what a string
    in the static buffer of the account functions reads after the next call. *)

From stdpp Require Import base numbers list gmap.
From Stdlib Require Import ZArith Lia ZifyBool.
From S2P Require Import Prelude.
From S2P Require Import Klib.
From S2P Require Import Grep.
From S2P Require Import Unix.

Definition PERMIT : Z := 1.
Definition DENY : Z := 2.
Definition NOPASS : Z := 1.
Definition KEEPENV : Z := 2.
Definition MAX_RULES : nat := 64.

(** The empty string stands for anything in [target], [cmd] and [cmdargs]. *)
Record rule := Rule {
  r_action : Z;
  r_options : Z;
  r_ident : list Z;
  r_target : list Z;
  r_cmd : list Z;
  r_cmdargs : list Z;
}.

(** ** The configuration file *)

Fixpoint rule_options (toks : list (list Z)) (o : Z) : Z * list (list Z) :=
  match toks with
  | t :: toks' =>
      if streq t (bs "nopass") then rule_options toks' (Z.lor o NOPASS)
      else if streq t (bs "keepenv") then rule_options toks' (Z.lor o KEEPENV)
      else (o, toks)
  | [] => (o, [])
  end.

Fixpoint join_args (acc : list Z) (toks : list (list Z)) : list Z :=
  match toks with
  | [] => acc
  | t :: toks' => join_args (if (length acc + length t + 2 <? 128)%nat then acc ++ 32 :: t else acc) toks'
  end.

Definition field (size : nat) (t : list Z) : list Z := take (size - 1) t.

(** The rule of a line of two or more tokens and whether it is in error; the
    rule counts in any case, as far as it was filled in. *)
Definition parse_rule (toks : list (list Z)) : rule * bool :=
  let action := if streq (hd [] toks) (bs "deny") then DENY else PERMIT in
  let '(o, toks) := rule_options (tail toks) 0 in
  match toks with
  | [] => (Rule action o [] [] [] [], true)
  | ident :: toks =>
      let rest target toks :=
        match toks with
        | [] => (Rule action o (field 64 ident) target [] [], false)
        | cmd :: toks => (Rule action o (field 64 ident) target (field 64 cmd) (join_args [] toks), false)
        end in
      match toks with
      | t :: toks' =>
          if streq t (bs "as") then
            match toks' with
            | [] => (Rule action o (field 64 ident) [] [] [], true)
            | target :: toks => rest (field 64 target) toks
            end
          else rest [] toks
      | [] => rest [] []
      end
  end.

(** The tokens of a line; [None] for an empty line or a comment. *)
Definition conf_tokens (line : list Z) : option (list (list Z)) :=
  let p := drop_blanks line in
  match p with
  | [] => None
  | c :: _ =>
      if (c =? 35) || (c =? 10) then None
      else
        let p := match cut_at 10 p with Some (a, _) => a | None => p end in
        Some (take 16 (strtok blank [] p))
  end.

(** The rules and the number of errors. *)
Fixpoint conf_rules (lines : list (list Z)) (rules : list rule) (errors : Z) : list rule * Z :=
  match lines with
  | [] => (rules, errors)
  | line :: lines' =>
      match conf_tokens line with
      | None => conf_rules lines' rules errors
      | Some toks =>
          if (length toks <? 2)%nat then conf_rules lines' rules (errors + 1)
          else if (MAX_RULES <=? length rules)%nat then (rules, errors)
          else
            let '(r, bad) := parse_rule toks in
            conf_rules lines' (rules ++ [r]) (if bad then errors + 1 else errors)
      end
  end.

Definition parse_conf (path : list Z) : U (list rule * Z) :=
  f ← fopen path;
  mret (match f with None => ([], 0) | Some f => conf_rules (fgets_lines 512 f) [] 0 end).

(** ** Identities *)

(** The part behind the last colon. *)
Fixpoint after_last_colon (s : list Z) : option (list Z) :=
  match s with
  | [] => None
  | c :: s' =>
      match after_last_colon s' with
      | Some r => Some r
      | None => if c =? COLON then Some s' else None
      end
  end.

Definition member_sep (c : Z) : bool := (c =? 44) || (c =? 32) || (c =? 9) || (c =? 10).

Fixpoint group_has (gname user : list Z) (lines : list (list Z)) : bool :=
  match lines with
  | [] => false
  | l :: lines' =>
      match cut_at COLON l with
      | None => group_has gname user lines'
      | Some (name, rest) =>
          if negb (streq name gname) then group_has gname user lines'
          else
            match after_last_colon rest with
            | None => group_has gname user lines'
            | Some members => existsb (streq user) (strtok member_sep [] members)
            end
      end
  end.

Definition is_member (group user : list Z) : U bool :=
  if negb (hd 0 group =? COLON) then mret false
  else
    f ← fopen s_etc_group;
    mret (match f with None => false | Some f => group_has (tail group) user (fgets_lines 512 f) end).

(** Does the rule apply? *)
Definition rule_applies (user target cmd : list Z) (r : rule) : U bool :=
  idmatch ← (if hd 0 (r_ident r) =? COLON then is_member (r_ident r) user else mret (streq (r_ident r) user));
  mret (idmatch && (bool_decide (r_target r = []) || streq (r_target r) target) &&
        (bool_decide (r_cmd r = []) || streq (r_cmd r) cmd)).

Fixpoint match_rule (user target cmd : list Z) (rules : list rule) (hit : option rule) : U (option rule) :=
  match rules with
  | [] => mret hit
  | r :: rules' =>
      ok ← rule_applies user target cmd r;
      match_rule user target cmd rules' (if ok : bool then Some r else hit)
  end.

(** ** The program *)

Section Doas.
Context (crypt : list Z -> list Z -> option (list Z)) (env_shell : option (list Z)) (executable : list Z -> bool) (strerror : list Z).
(** A text in the buffer that [getpwuid] and [getpwnam] share, after the buffer
    was used again. *)
Context (reused : list Z -> list Z).

Definition check_password (user pass : list Z) : U bool :=
  f ← fopen s_etc_shadow;
  mret (match f with
        | None => false
        | Some f =>
            match find_entry user (fgets_lines 512 f) with
            | None => false
            | Some rest =>
                let hash := upto_colon rest in
                if bool_decide (hash = []) || (hd 0 hash =? 33) then false
                else match crypt pass hash with None => false | Some c => streq c hash end
            end
        end).

Record doas_opts := DoasOpts {
  d_noninteractive : bool;
  d_shellmode : bool;
  d_check : bool;
  d_target : option (list Z);
  d_conf : list Z;
}.

(** The letters of one option word, [rest] being the arguments behind it;
    [None] is [usage] (the message of [getopt] itself is left out). *)
Fixpoint option_letters (w : list Z) (rest : list (list Z)) (o : doas_opts) : option (doas_opts * list (list Z)) :=
  match w with
  | [] => Some (o, rest)
  | c :: w' =>
      let arg := match w', rest with
                 | [], a :: rest' => Some (a, rest')
                 | [], [] => None
                 | _, _ => Some (w', rest)
                 end in
      if c =? 110 then option_letters w' rest (DoasOpts true (d_shellmode o) (d_check o) (d_target o) (d_conf o))
      else if c =? 115 then option_letters w' rest (DoasOpts (d_noninteractive o) true (d_check o) (d_target o) (d_conf o))
      else if c =? 117 then
        '(a, rest) ← arg; Some (DoasOpts (d_noninteractive o) (d_shellmode o) (d_check o) (Some a) (d_conf o), rest)
      else if c =? 67 then
        '(a, rest) ← arg; Some (DoasOpts (d_noninteractive o) (d_shellmode o) true (d_target o) a, rest)
      else None
  end.

(** The loop of [getopt]; every round takes an argument. *)
Fixpoint doas_getopt (n : nat) (args : list (list Z)) (o : doas_opts) : option (doas_opts * list (list Z)) :=
  match n, args with
  | S n', a :: rest =>
      if negb (hd 0 a =? 45) || bool_decide (a = [45]) then Some (o, args)
      else if streq a (bs "--") then Some (o, rest)
      else '(o, rest) ← option_letters (tail a) rest o; doas_getopt n' rest o
  | _, _ => Some (o, args)
  end.

Definition doas_usage {A} : U A := _ ← eprintf (bs "usage: doas [-nSs] [-u user] [-C config] command [args]" ++ [10]); exit 1.

(** The password, unless the rule says nopass or the effective user is root. *)
Definition doas_authenticate (r : rule) (noninteractive : bool) (user : list Z) : U unit :=
  p ← proc_state;
  if (Z.land (r_options r) NOPASS =? 0) && negb (p_euid p =? 0) then
    if noninteractive then _ ← eprintf (bs "doas: no password allowed for non-interactive use" ++ [10]); exit 1
    else
      _ ← eprintf (bs "doas (" ++ user ++ bs "@tus) password: ");
      pass ← read_input 128;
      _ ← printf [10];
      ok ← (match pass with None => mret false | Some pass => check_password user pass end);
      if ok : bool then mret tt else _ ← eprintf (bs "doas: authentication failed" ++ [10]); exit 1
  else mret tt.

(** The target's identity, and the command; [static] when the command is a text
    in the buffer of [getpwuid]. *)
Definition doas_run (static : bool) (target : option (list Z)) (argv : list (list Z)) : U unit :=
  _ ← (match target with
       | None => mret tt
       | Some t =>
           tpw ← getpwnam t;
           match tpw with
           | None => _ ← eprintf (bs "doas: unknown user " ++ t ++ [10]); exit 1
           | Some tpw => _ ← setgid (pw_gid tpw); setuid (pw_uid tpw)
           end
       end : U unit);
  let arg0 := if static && bool_decide (is_Some target) then reused (hd [] argv) else hd [] argv in
  p ← proc_state;
  let pbuf := bounded 128 (bs "/bin/" ++ arg0) in
  let path := if bool_decide (47 ∈ arg0) then arg0
              else if bool_decide (is_Some (p_files p !! pbuf)) then pbuf else arg0 in
  if executable path then become path (path :: tail argv)
  else _ ← eprintf (bs "doas: unable to execute " ++ path ++ bs ": " ++ strerror ++ [10]); exit 1.

(** From the configuration on; [user] is whom the rules are looked up for, and
    [shell] the program of -s; [static] says that the latter is a text in the
    buffer. *)
Definition doas_permit (o : doas_opts) (rest : list (list Z)) (user shell : list Z) (static : bool) : U unit :=
  '(rules, errors) ← parse_conf (d_conf o);
  _ ← (if 0 <? errors then eprintf (bs "doas: parse error in " ++ d_conf o ++ [10]) else mret tt);
  if d_check o then exit (if 0 <? errors then 1 else 0)
  else
    argv ← (if d_shellmode o then mret [shell] else match rest with [] => doas_usage | _ => mret rest end);
    r ← match_rule user (default user (d_target o)) (hd [] argv) rules None;
    match r with
    | None => _ ← eprintf (bs "doas: permission denied" ++ [10]); exit 1
    | Some r =>
        if r_action r =? DENY then _ ← eprintf (bs "doas: permission denied" ++ [10]); exit 1
        else
          _ ← doas_authenticate r (d_noninteractive o) user;
          doas_run (d_shellmode o && static) (d_target o) argv
    end.

Definition doas_main (args : list (list Z)) : U unit :=
  match doas_getopt (length args) args (DoasOpts false false false None (bs "/etc/doas.conf")) with
  | None => doas_usage
  | Some (o, rest) =>
      p ← proc_state;
      pw ← getpwuid (p_uid p);
      let user := match d_target o with
                  | Some t => t
                  | None => match pw with Some pw => pw_name pw | None => bs "root" end
                  end in
      let shell := match env_shell, pw with
                   | Some s, _ => s
                   | None, Some pw => if bool_decide (pw_shell pw = []) then bs "/bin/sh" else pw_shell pw
                   | None, None => bs "/bin/sh"
                   end in
      let static := match env_shell, pw with None, Some pw => negb (bool_decide (pw_shell pw = [])) | _, _ => false end in
      doas_permit o rest user shell static
  end.
End Doas.

(** ** Which rule counts *)

(** [user] belongs to the group of an identity like [:wheel]. *)
Definition in_group (groups : option (list Z)) (ident user : list Z) : bool :=
  match groups with None => false | Some f => group_has (tail ident) user (fgets_lines 512 f) end.

Definition applies (groups : option (list Z)) (user target cmd : list Z) (r : rule) : bool :=
  (if hd 0 (r_ident r) =? COLON then in_group groups (r_ident r) user else streq (r_ident r) user) &&
  (bool_decide (r_target r = []) || streq (r_target r) target) && (bool_decide (r_cmd r = []) || streq (r_cmd r) cmd).

(** The last rule that applies. *)
Definition verdict (groups : option (list Z)) (user target cmd : list Z) (rules : list rule) : option rule :=
  last (filter (fun r => applies groups user target cmd r = true) rules).

Lemma rule_applies_run user target cmd r p :
  rule_applies user target cmd r p = Some (Val (applies (p_files p !! s_etc_group) user target cmd r), p).
Proof.
  unfold rule_applies, applies, is_member, in_group. destruct (hd 0 (r_ident r) =? COLON) eqn:E; [|done].
  cbn [negb]. unfold mbind, U_bind, fopen, mret, U_ret. by destruct (p_files p !! s_etc_group).
Qed.

Lemma match_rule_run user target cmd rules hit p :
  match_rule user target cmd rules hit p =
    Some (Val (match verdict (p_files p !! s_etc_group) user target cmd rules with Some r => Some r | None => hit end), p).
Proof.
  revert hit. induction rules as [|r rules IH]; intros hit; [done|]. cbn [match_rule]. unfold mbind at 1, U_bind.
  rewrite rule_applies_run, IH. do 3 f_equal. unfold verdict. cbn [filter list_filter].
  destruct (applies _ user target cmd r) eqn:E.
  - rewrite decide_True by done. destruct (filter _ rules) as [|y l] eqn:El; [done|].
    change (last (r :: y :: l)) with (last (y :: l)). destruct (last (y :: l)) eqn:Ey; [done|]. by apply last_None in Ey.
  - rewrite decide_False by congruence. by destruct (last _).
Qed.

(** ** What doas runs *)

Lemma U_bind_Val {A B} (m : U A) (f : A -> U B) p r p' :
  (m ≫= f) p = Some (r, p') ->
  (exists x p1, m p = Some (Val x, p1) /\ f x p1 = Some (r, p')) \/
  (exists st, m p = Some (Exit st, p') /\ r = Exit st) \/
  (exists path argv, m p = Some (Exec path argv, p') /\ r = Exec path argv).
Proof.
  unfold mbind, U_bind. destruct (m p) as [[[x|st|path argv] p1]|]; try done; intros E.
  - left. eauto.
  - right. left. injection E as <- <-. eauto.
  - right. right. injection E as <- <-. eauto.
Qed.

(** A part of the program that does not become another one. *)
Definition stays {A} (m : U A) : Prop := forall p path argv p', m p <> Some (Exec path argv, p').

Lemma stays_bind {A B} (m : U A) (f : A -> U B) : stays m -> (forall x, stays (f x)) -> stays (m ≫= f).
Proof.
  intros Hm Hf p path argv p' E. apply U_bind_Val in E as [(x & p1 & _ & E)|[(st & _ & [=])|(pa & ar & E & _)]]; [by eapply Hf|by eapply Hm].
Qed.

Ltac stay :=
  repeat match goal with
  | |- stays (mbind _ _) => apply stays_bind; [|intros ?]
  | |- stays (if ?b then _ else _) => destruct b
  | |- stays (match ?x with _ => _ end) => destruct x
  | |- stays _ => done
  end.

Lemma stays_authenticate crypt r ni user : stays (doas_authenticate crypt r ni user).
Proof.
  assert (forall n, stays (read_input n)) by (intros n p path argv p' E; unfold read_input in E; by destruct (read_typed _ _)).
  assert (forall pass, stays (check_password crypt user pass)).
  { intros pass. unfold check_password. stay. }
  unfold doas_authenticate. stay; auto.
Qed.

Section Runs.
Context (crypt : list Z -> list Z -> option (list Z)) (env_shell : option (list Z)) (executable : list Z -> bool) (strerror : list Z).
Context (reused : list Z -> list Z).

(** [pass] is the password of [user]. *)
Definition password_of (p : proc) (user pass : list Z) : Prop :=
  exists f rest, p_files p !! s_etc_shadow = Some f /\ find_entry user (fgets_lines 512 f) = Some rest /\
    upto_colon rest <> [] /\ hd 0 (upto_colon rest) <> 33 /\ crypt pass (upto_colon rest) = Some (upto_colon rest).

(** The password of [user] is the next line of the terminal. *)
Definition typed_password (p : proc) (user : list Z) : Prop :=
  password_of p user (cstr (fst (read_typed 127 (p_in p)))).

Lemma check_password_true p user pass p' :
  check_password crypt user pass p = Some (Val true, p') -> password_of p user pass /\ p' = p.
Proof.
  unfold check_password, mbind, U_bind, fopen, mret, U_ret. destruct (p_files p !! s_etc_shadow) as [f|] eqn:Ef; [|done].
  destruct (find_entry user _) as [rest|] eqn:Er; [|done]. destruct (_ || _) eqn:Eh; [done|].
  destruct (crypt pass _) as [c|] eqn:Ec; [|done]. intros [= Es <-]. apply streq_eq in Es as ->. split; [|done].
  exists f, rest. split_and!; try done; [|lia]. intros E. rewrite E in Eh. done.
Qed.

(** What authentication leaves: the terminal and the output change. *)
Definition io_only (p p' : proc) : Prop :=
  p_files p' = p_files p /\ p_uid p' = p_uid p /\ p_euid p' = p_euid p /\ p_gid p' = p_gid p.

Lemma authenticate_ok r noninteractive user p p' :
  doas_authenticate crypt r noninteractive user p = Some (Val tt, p') ->
  io_only p p' /\ (Z.land (r_options r) NOPASS <> 0 \/ p_euid p = 0 \/ typed_password p user).
Proof.
  unfold doas_authenticate. unfold mbind at 1, U_bind at 1, proc_state. destruct (_ && _) eqn:Eb.
  2:{ intros [= <-]. split; [done|]. apply andb_false_iff in Eb as [?|?]; [left|right; left]; lia. }
  destruct noninteractive; [done|]. intros E.
  unfold mbind at 1, U_bind at 1, eprintf in E. unfold mbind at 1, U_bind at 1, read_input in E. cbn [p_in] in E.
  destruct (read_typed (128 - 1) (p_in p)) as [l rest] eqn:El. unfold mbind at 1, U_bind at 1, printf in E. cbn in E.
  set (q := Proc _ _ _ _ _ _ _ _) in E. assert (Hq : io_only p q) by done.
  case_bool_decide as Hl; cbn in E; [done|]. unfold mbind, U_bind in E.
  destruct (check_password crypt user (cstr l) q) as [[[[]|?|?] q']|] eqn:Ec; try done.
  apply check_password_true in Ec as [Hp ->]. injection E as <-. split; [done|]. right. right.
  unfold typed_password. change (128 - 1)%nat with 127%nat in El. by rewrite El.
Qed.

Definition pw_entry (p : proc) (sel : passwd -> bool) : option passwd :=
  match p_files p !! s_etc_passwd with None => None | Some f => pw_find sel (pw_lines f) end.

Lemma getpw_run sel p : getpw sel p = Some (Val (pw_entry p sel), p).
Proof. unfold getpw, pw_entry, mbind, U_bind, fopen, mret, U_ret. by destruct (p_files p !! s_etc_passwd). Qed.

(** The identity of the process that runs the command: that of the account
    named with -u, or the old one. *)
Definition runs_as (p : proc) (target : option (list Z)) (p' : proc) : Prop :=
  match target with
  | None => p_uid p' = p_uid p /\ p_euid p' = p_euid p /\ p_gid p' = p_gid p
  | Some t => exists pw, pw_entry p (fun pw => streq (pw_name pw) t) = Some pw /\
                p_uid p' = pw_uid pw /\ p_euid p' = pw_uid pw /\ p_gid p' = pw_gid pw
  end.

(** What may be run for the command name [cmd]. *)
Definition program_of (cmd path : list Z) : Prop := path = cmd \/ 47 ∉ cmd /\ path = bounded 128 (bs "/bin/" ++ cmd).

Lemma doas_run_exec static target argv p path av p' :
  doas_run executable strerror reused static target argv p = Some (Exec path av, p') ->
  program_of (if static && bool_decide (is_Some target) then reused (hd [] argv) else hd [] argv) path /\ av = path :: tail argv /\ executable path = true /\ p_files p' = p_files p /\ runs_as p target p'.
Proof.
  unfold doas_run. intros E. apply U_bind_Val in E as [([] & p1 & E1 & E)|[(st & E1 & [=])|(pa & ar & E1 & _)]].
  2:{ destruct target as [t|]; [|done]. apply U_bind_Val in E1 as [(x & p1 & E1 & E)|[(st & E1 & [=])|(pa' & ar' & E1 & _)]].
      - unfold getpwnam in E1. rewrite getpw_run in E1. injection E1 as <- <-. by destruct (pw_entry _ _).
      - unfold getpwnam in E1. by rewrite getpw_run in E1. }
  assert (H1 : p_files p1 = p_files p /\ runs_as p target p1).
  { destruct target as [t|]; [|by injection E1 as <-]. unfold getpwnam, mbind, U_bind in E1. rewrite getpw_run in E1.
    unfold runs_as. destruct (pw_entry p _) as [pw|]; [|done]. injection E1 as <-. split; [done|]. by exists pw. }
  unfold mbind at 1, U_bind at 1, proc_state in E. set (arg0 := if static && _ then _ else _) in *. set (path' := if bool_decide _ then _ else _) in E.
  destruct (executable path') eqn:Ee; [|done]. injection E as <- <- <-. destruct H1 as [Hf Hr]. split_and!; try done.
  unfold path', program_of. case_bool_decide; [by left|]. case_bool_decide; [by right|by left].
Qed.

(** The rules in force, and the user they are looked up for. *)
Definition doas_rules (p : proc) (o : doas_opts) : list rule :=
  match p_files p !! d_conf o with None => [] | Some f => fst (conf_rules (fgets_lines 512 f) [] 0) end.

Definition doas_user (p : proc) (o : doas_opts) : list Z :=
  match d_target o with
  | Some t => t
  | None => match pw_entry p (fun pw => pw_uid pw =? p_uid p) with Some pw => pw_name pw | None => bs "root" end
  end.

Definition doas_defaults : doas_opts := DoasOpts false false false None (bs "/etc/doas.conf").

End Runs.

(** Whatever the options: when doas becomes the program [path], the last rule
    that applies to the user it looks rules up for is not a deny rule (and
    there is one); the rule says nopass, or the effective user is root, or that
    user's password was typed; the program is the command or its namesake in
    /bin, except for -s together with -u when SHELL is not set (the name of the
    shell is overwritten before it is used); no file has changed; and it runs
    with the identity of the account named by -u, or with the old identity.
    The user is the one named by -u, see [doas_ignores_invoker]. *)
Theorem doas_exec_has_rule crypt env_shell executable strerror reused args p path argv p' :
  doas_main crypt env_shell executable strerror reused args p = Some (Exec path argv, p') ->
  exists o rest r cmd,
    doas_getopt (length args) args doas_defaults = Some (o, rest) /\
    verdict (p_files p !! s_etc_group) (doas_user p o) (default (doas_user p o) (d_target o)) cmd (doas_rules p o) = Some r /\
    r_action r <> DENY /\
    (Z.land (r_options r) NOPASS <> 0 \/ p_euid p = 0 \/ typed_password crypt p (doas_user p o)) /\
    (program_of cmd path \/ d_shellmode o = true /\ env_shell = None /\ is_Some (d_target o)) /\ executable path = true /\ p_files p' = p_files p /\ runs_as p (d_target o) p'.
Proof.
  unfold doas_main. fold doas_defaults. destruct (doas_getopt _ args _) as [[o rest]|]; [|done].
  unfold mbind at 1, U_bind at 1, proc_state. unfold getpwuid, mbind at 1, U_bind at 1. rewrite getpw_run.
  set (static := match env_shell with None => match _ with Some pw => negb _ | None => _ end | Some _ => _ end).
  assert (Hst : static = true -> env_shell = None) by (unfold static; by destruct env_shell).
  fold (doas_user p o). unfold doas_permit, mbind at 1, U_bind at 1, parse_conf. unfold mbind at 1, U_bind at 1, fopen.
  set (rs := match p_files p !! d_conf o with None => _ | Some f => _ end).
  assert (Ers : fst rs = doas_rules p o) by (unfold rs, doas_rules; by destruct (p_files p !! d_conf o)).
  unfold mret at 1, U_ret at 1. destruct rs as [rules errors]. cbn [fst] in Ers. subst rules. intros E.
  apply U_bind_Val in E as [([] & p1 & E1 & E)|[(st & _ & [=])|(pa & ar & E1 & _)]]; [|by destruct (0 <? errors)].
  assert (H1 : p_in p1 = p_in p /\ io_only p p1) by (destruct (0 <? errors); by injection E1 as <-). clear E1.
  destruct (d_check o); [done|]. apply U_bind_Val in E as [(av & p2 & E2 & E)|[(st & _ & [=])|(pa & ar & E2 & _)]];
    [|by destruct (d_shellmode o), rest].
  assert (p2 = p1) as -> by (destruct (d_shellmode o), rest; by injection E2). clear E2.
  destruct H1 as (Hin & Hf & Hu & He & Hgid). unfold mbind at 1, U_bind at 1 in E. rewrite match_rule_run, Hf in E.
  set (v := verdict _ _ _ _ _) in E. destruct v as [r|] eqn:Ev; [|done]. destruct (Z.eqb_spec (r_action r) DENY); [done|].
  apply U_bind_Val in E as [([] & p3 & E3 & E)|[(st & _ & [=])|(pa & ar & E3 & _)]].
  2:{ by apply stays_authenticate in E3. }
  apply authenticate_ok in E3 as [(Hf3 & Hu3 & He3 & Hg3) Hauth]. apply doas_run_exec in E as (Hp & _ & Hx & Hf' & Hr).
  exists o, rest, r, (hd [] av). split_and!; try done.
  - destruct Hauth as [?|[?|Hty]]; [by left|right; left; congruence|right; right].
    unfold typed_password, password_of in *. by rewrite Hin, Hf in Hty.
  - destruct (d_shellmode o); [|by left]. destruct static; [|by left]. case_bool_decide; [|by left].
    right. split_and!; [done|by apply Hst|done].
  - congruence.
  - unfold runs_as, pw_entry in *. rewrite Hf3, Hf in Hr. destruct (d_target o); [done|]. destruct Hr as (? & ? & ?). split_and!; congruence.
Qed.

(** The root file system of the repository: root may do anything without a
    password. *)
Definition shipped_files : gmap (list Z) (list Z) :=
  {[ bs "/etc/doas.conf" := bs "# doas configuration (TUS)" ++ [10] ++ bs "permit nopass root" ++ [10] ++ bs "permit keepenv :wheel" ++ [10];
     s_etc_group := bs "root:x:0:" ++ [10] ++ bs "wheel:x:10:" ++ [10];
     s_etc_passwd := bs "root:x:0:0:root:/:/bin/tsh" ++ [10] ++ bs "eve:x:1000:1000::/home/eve:/bin/tsh" ++ [10];
     bs "/bin/id" := [] ]}.

Definition shell_of (uid : Z) : proc := Proc shipped_files [] [] [] uid uid uid [].

Definition eve_runs : option (ended unit * proc) :=
  doas_main (fun _ _ => None) None (fun _ => true) [] id [bs "-u"; bs "root"; bs "id"] (shell_of 1000).

Lemma doas_exec_has_rule_witness :
  match eve_runs with
  | Some (Exec path argv, p') => exists r, r_action r <> DENY /\ p_files p' = shipped_files
  | _ => False
  end.
Proof.
  assert (Hf : (fun r => fst r) <$> eve_runs = Some (Exec (bs "/bin/id") [bs "/bin/id"])) by (vm_compute; reflexivity).
  destruct eve_runs as [[e p']|] eqn:E; [|discriminate]. injection Hf as ->.
  destruct (doas_exec_has_rule (fun _ _ => None) None (fun _ => true) [] id [bs "-u"; bs "root"; bs "id"] (shell_of 1000)
    (bs "/bin/id") [bs "/bin/id"] p' E) as (o & rest & r & cmd & _ & _ & Ha & _ & _ & _ & Hp & _).
  exists r. split; [exact Ha|exact Hp].
Defined.

(** ** Who asks *)

(** The two processes differ in their real user only. *)
Definition alike (p q : proc) : Prop :=
  p_files q = p_files p /\ p_in q = p_in p /\ p_out q = p_out p /\ p_err q = p_err p /\
  p_euid q = p_euid p /\ p_gid q = p_gid p /\ p_dirs q = p_dirs p.

(** The program does the same in both. *)
Definition blind {A} (m : U A) : Prop := forall p q, alike p q ->
  match m p, m q with
  | Some (Val x, p'), Some (Val y, q') => x = y /\ alike p' q'
  | Some (Exit x, p'), Some (Exit y, q') => x = y /\ alike p' q'
  | Some (Exec x a, p'), Some (Exec y b, q') => x = y /\ a = b /\ alike p' q'
  | None, None => True
  | _, _ => False
  end.

Lemma blind_bind {A B} (m : U A) (f : A -> U B) : blind m -> (forall x, blind (f x)) -> blind (m ≫= f).
Proof.
  intros Hm Hf p q Hpq. specialize (Hm p q Hpq). unfold mbind, U_bind.
  destruct (m p) as [[[x|x|x a] p']|], (m q) as [[[y|y|y b] q']|]; try done. destruct Hm as [<- Ha]. by apply Hf.
Qed.

Lemma blind_eprintf t : blind (eprintf t).
Proof. intros p q (A1 & A2 & A3 & A4 & A5 & A6 & A7). cbn. unfold alike. cbn. by rewrite A1, A2, A3, A4, A5, A6, A7. Qed.
Lemma blind_printf t : blind (printf t).
Proof. intros p q (A1 & A2 & A3 & A4 & A5 & A6 & A7). cbn. unfold alike. cbn. by rewrite A1, A2, A3, A4, A5, A6, A7. Qed.
Lemma blind_exit {A} n : blind (exit n : U A).
Proof. intros p q Hpq. by cbn. Qed.
Lemma blind_ret {A} (x : A) : blind (mret x).
Proof. intros p q Hpq. by cbn. Qed.
Lemma blind_become {A} path argv : blind (become path argv : U A).
Proof. intros p q Hpq. by cbn. Qed.
Lemma blind_fopen f : blind (fopen f).
Proof. intros p q Hpq. cbn. split; [|done]. by destruct Hpq as [-> _]. Qed.
Lemma blind_setuid u : blind (setuid u).
Proof. intros p q (A1 & A2 & A3 & A4 & A5 & A6 & A7). cbn. unfold alike. cbn. by rewrite A1, A2, A3, A4, A6, A7. Qed.
Lemma blind_setgid u : blind (setgid u).
Proof. intros p q (A1 & A2 & A3 & A4 & A5 & A6 & A7). cbn. unfold alike. cbn. by rewrite A1, A2, A3, A4, A5, A7. Qed.

Lemma blind_read_input n : blind (read_input n).
Proof.
  intros p q (A1 & A2 & A3 & A4 & A5 & A6 & A7). unfold read_input. rewrite A2. destruct (read_typed _ _). unfold alike. cbn.
  by rewrite A1, A3, A4, A5, A6, A7.
Qed.

(** What is computed from files and the effective user. *)
Lemma blind_state {A} (f : proc -> U A) :
  (forall p q, alike p q -> f p = f q) -> (forall p, blind (f p)) -> blind (proc_state ≫= f).
Proof. intros He Hf p q Hpq. unfold mbind, U_bind, proc_state. rewrite <-(He p q Hpq). by apply Hf. Qed.

Lemma blind_rules user target cmd rules hit : blind (match_rule user target cmd rules hit).
Proof. intros p q Hpq. rewrite !match_rule_run. destruct Hpq as [E Hpq]. rewrite E. split; [done|]. by split. Qed.

Ltac blinded :=
  repeat match goal with
  | |- blind (proc_state ≫= _) => fail 1
  | |- blind (mbind _ _) => apply blind_bind; [|intros ?]
  | |- blind (eprintf _) => apply blind_eprintf
  | |- blind (printf _) => apply blind_printf
  | |- blind (exit _) => apply blind_exit
  | |- blind (mret _) => apply blind_ret
  | |- blind (become _ _) => apply blind_become
  | |- blind (fopen _) => apply blind_fopen
  | |- blind (setuid _) => apply blind_setuid
  | |- blind (setgid _) => apply blind_setgid
  | |- blind (read_input _) => apply blind_read_input
  | |- blind (if ?b then _ else _) => destruct b
  | |- blind (match ?x with _ => _ end) => destruct x
  end.

Lemma blind_authenticate crypt r ni user : blind (doas_authenticate crypt r ni user).
Proof.
  unfold doas_authenticate. apply blind_state; [intros p q (_ & _ & _ & _ & -> & _); done|]. intros p.
  unfold check_password. blinded.
Qed.

Lemma blind_run executable strerror reused static target argv : blind (doas_run executable strerror reused static target argv).
Proof.
  unfold doas_run, getpwnam, getpw. apply blind_bind; [blinded|]. intros _.
  apply blind_state; [intros p q (-> & _); done|]. intros p. blinded.
Qed.

Lemma blind_permit crypt executable strerror reused o rest user shell static : blind (doas_permit crypt executable strerror reused o rest user shell static).
Proof.
  pose proof @blind_rules. pose proof blind_authenticate. pose proof blind_run.
  unfold doas_permit, parse_conf, doas_usage. blinded; auto.
Qed.

(** The shell is not used without -s. *)
Lemma permit_shell crypt executable strerror reused o rest user shell shell' static p : d_shellmode o = false ->
  doas_permit crypt executable strerror reused o rest user shell static p =
  doas_permit crypt executable strerror reused o rest user shell' false p.
Proof. intros E. unfold doas_permit. by rewrite E. Qed.

(** With -u doas does not look at who asks: the account named on the command
    line is taken for the asking user as well, so the result is the same for
    every real user. Whoever names root gets what the rules give to root - in
    the shipped configuration everything, without a password. *)
Theorem doas_ignores_invoker crypt env_shell executable strerror reused args o rest t p q :
  doas_getopt (length args) args doas_defaults = Some (o, rest) -> d_target o = Some t -> d_shellmode o = false ->
  alike p q ->
  option_map fst (doas_main crypt env_shell executable strerror reused args p) =
  option_map fst (doas_main crypt env_shell executable strerror reused args q).
Proof.
  intros Eo Et Es Hpq. unfold doas_main. fold doas_defaults. rewrite Eo. unfold getpwuid, mbind, U_bind, proc_state. rewrite !getpw_run, Et.
  rewrite (permit_shell crypt executable strerror reused o rest t _ [] _ p Es), (permit_shell crypt executable strerror reused o rest t _ [] _ q Es).
  pose proof (blind_permit crypt executable strerror reused o rest t [] false p q Hpq) as Hm.
  destruct (doas_permit _ _ _ _ o rest t [] false p) as [[[x|x|x a] p']|], (doas_permit _ _ _ _ o rest t [] false q) as [[[y|y|y b] q']|]; try done; cbn.
  - by destruct Hm as [-> _].
  - by destruct Hm as [-> _].
  - by destruct Hm as (-> & -> & _).
Qed.

Lemma doas_ignores_invoker_witness :
  option_map fst eve_runs =
  option_map fst (doas_main (fun _ _ => None) None (fun _ => true) [] id [bs "-u"; bs "root"; bs "id"]
    (Proc shipped_files [] [] [] 0 1000 1000 [])).
Proof.
  apply (doas_ignores_invoker (fun _ _ => None) None (fun _ => true) [] id [bs "-u"; bs "root"; bs "id"]
    (DoasOpts false false false (Some (bs "root")) (bs "/etc/doas.conf")) [bs "id"] (bs "root")); by split_and?.
Defined.

(** ** Configurations *)

(** A word of a rule. *)
Definition conf_word (w : list Z) : Prop :=
  w <> [] /\ (length w <= 63)%nat /\ Forall (fun c => blank c = false /\ c <> 10 /\ c <> 0) w.

Record rule_ok (r : rule) : Prop := RuleOk {
  ro_action : r_action r = PERMIT \/ r_action r = DENY;
  ro_options : r_options r = 0 \/ r_options r = 1 \/ r_options r = 2 \/ r_options r = 3;
  ro_ident : conf_word (r_ident r) /\ r_ident r <> bs "nopass" /\ r_ident r <> bs "keepenv";
  ro_target : r_target r = [] \/ conf_word (r_target r);
  ro_cmd : r_cmd r = [] \/ conf_word (r_cmd r) /\ r_cmd r <> bs "as";
  ro_args : r_cmdargs r = [];
}.

Definition option_words (o : Z) : list (list Z) :=
  (if Z.testbit o 0 then [bs "nopass"] else []) ++ (if Z.testbit o 1 then [bs "keepenv"] else []).

Definition opt_word (w : list Z) : list (list Z) := if bool_decide (w = []) then [] else [w].

(** The words of a rule, and its line. *)
Definition rule_words (r : rule) : list (list Z) :=
  [if r_action r =? DENY then bs "deny" else bs "permit"] ++ option_words (r_options r) ++ [r_ident r] ++
  (if bool_decide (r_target r = []) then [] else [bs "as"; r_target r]) ++ opt_word (r_cmd r).

Definition spaced (ws : list (list Z)) : list Z := concat (map (fun w => w ++ [32]) ws).

Definition rule_line (r : rule) : list Z := spaced (rule_words r) ++ [10].

Lemma field_word w : conf_word w -> field 64 w = w.
Proof. intros (_ & Hl & _). apply take_ge. cbn. lia. Qed.

Lemma rule_options_words o w ws : (o = 0 \/ o = 1 \/ o = 2 \/ o = 3) -> w <> bs "nopass" -> w <> bs "keepenv" ->
  rule_options (option_words o ++ w :: ws) 0 = (o, w :: ws).
Proof.
  intros Ho H1 H2. assert (Hw : forall n, rule_options (w :: ws) n = (n, w :: ws)).
  { intros n. cbn. by rewrite !streq_ne. }
  destruct Ho as [-> |[-> |[-> | ->]]]; cbn [option_words Z.testbit Pos.testbit app]; [apply Hw|..]; cbn [rule_options].
  - change (streq (bs "nopass") (bs "nopass")) with true. cbn iota. apply Hw.
  - change (streq (bs "keepenv") (bs "nopass")) with false. change (streq (bs "keepenv") (bs "keepenv")) with true. cbn iota. apply Hw.
  - change (streq (bs "nopass") (bs "nopass")) with true. cbn iota.
    change (streq (bs "keepenv") (bs "nopass")) with false. change (streq (bs "keepenv") (bs "keepenv")) with true. cbn iota. apply Hw.
Qed.

Lemma parse_rule_words r : rule_ok r -> parse_rule (rule_words r) = (r, false).
Proof.
  intros [Ha Ho (Hi & Hi1 & Hi2) Ht Hc Hargs]. destruct r as [a o ident target cmd args]. cbn [r_action r_options r_ident r_target r_cmd r_cmdargs] in *.
  subst args. unfold parse_rule, rule_words. cbn [r_action r_options r_ident r_target r_cmd app hd tail].
  assert (Ea : (if streq (if a =? DENY then bs "deny" else bs "permit") (bs "deny") then DENY else PERMIT) = a) by by destruct Ha as [-> | ->].
  rewrite Ea, rule_options_words by done. rewrite (field_word _ Hi). destruct Ht as [->|Ht].
  - rewrite bool_decide_eq_true_2 by done. cbn [app]. destruct Hc as [->|[Hc Has]]; unfold opt_word; [done|].
    rewrite bool_decide_eq_false_2 by apply Hc. by rewrite streq_ne, (field_word _ Hc).
  - rewrite bool_decide_eq_false_2 by apply Ht. cbn [app]. change (streq (bs "as") (bs "as")) with true. rewrite (field_word _ Ht).
    destruct Hc as [->|[Hc Has]]; unfold opt_word; [done|]. rewrite bool_decide_eq_false_2 by apply Hc. by rewrite (field_word _ Hc).
Qed.

Lemma conf_word_lit (w : list Z) : bool_decide (w <> [] /\ (length w <= 63)%nat /\ Forall (fun c => blank c = false /\ c <> 10 /\ c <> 0) w) = true -> conf_word w.
Proof. apply bool_decide_eq_true_1. Qed.

Lemma rule_words_ok r : rule_ok r -> Forall conf_word (rule_words r) /\ (2 <= length (rule_words r) <= 7)%nat /\ hd [] (rule_words r) <> [] /\ hd 0 (hd [] (rule_words r)) <> 35.
Proof.
  intros [Ha Ho (Hi & Hi1 & Hi2) Ht Hc Hargs]. unfold rule_words.
  assert (Hopt : Forall conf_word (option_words (r_options r)) /\ (length (option_words (r_options r)) <= 2)%nat).
  { destruct Ho as [-> |[-> |[-> | ->]]]; (split; [|cbn; lia]); repeat constructor; try apply conf_word_lit; by vm_compute. }
  assert (Hhd : conf_word (if r_action r =? DENY then bs "deny" else bs "permit")) by (destruct (r_action r =? DENY); by apply conf_word_lit).
  split; [|split].
  - cbn [app]. apply Forall_cons. split; [done|]. apply Forall_app. split; [apply Hopt|]. apply Forall_cons. split; [done|]. apply Forall_app. split.
    + destruct Ht as [->|Ht]; [by rewrite bool_decide_eq_true_2|]. rewrite bool_decide_eq_false_2 by apply Ht.
      apply Forall_cons. split; [by apply conf_word_lit|]. by apply Forall_singleton.
    + unfold opt_word. destruct Hc as [->|[Hc _]]; [by rewrite bool_decide_eq_true_2|]. rewrite bool_decide_eq_false_2 by apply Hc. by apply Forall_singleton.
  - rewrite !length_app. unfold opt_word. repeat case_bool_decide; cbn [length]; lia.
  - cbn [app hd]. split; by destruct (r_action r =? DENY).
Qed.

Lemma rule_line_body r : rule_ok r ->
  10 ∉ spaced (rule_words r) /\ 0 ∉ spaced (rule_words r) /\
  (length (spaced (rule_words r)) <= 64 * length (rule_words r))%nat.
Proof.
  intros Hr. destruct (rule_words_ok r Hr) as (Hw & _ & _). clear Hr. induction Hw as [|w ws (Hne & Hl & Hc) Hws IH]; [split_and!; [by apply not_elem_of_nil..|done]|].
  unfold spaced in *. cbn [map concat]. destruct IH as (I1 & I2 & I3). rewrite Forall_forall in Hc. split_and!.
  - rewrite !not_elem_of_app. split_and!; [|set_solver|done]. intros Hin. by destruct (Hc _ Hin) as (_ & ? & _).
  - rewrite !not_elem_of_app. split_and!; [|set_solver|done]. intros Hin. by destruct (Hc _ Hin) as (_ & _ & ?).
  - rewrite !length_app. cbn [length]. lia.
Qed.

Lemma rule_line_ok r : rule_ok r -> line_ok 512 (rule_line r).
Proof.
  intros Hr. destruct (rule_line_body r Hr) as (H1 & H2 & H3). destruct (rule_words_ok r Hr) as (_ & Hn & _).
  eexists. split; [done|]. split_and!; [done|done|]. unfold rule_line. rewrite length_app. cbn [length]. lia.
Qed.

Lemma conf_tokens_rule r : rule_ok r -> conf_tokens (rule_line r) = Some (rule_words r).
Proof.
  intros Hr. destruct (rule_line_body r Hr) as (Hb & _ & _). destruct (rule_words_ok r Hr) as (Hw & Hn & Hne & Hhd).
  unfold conf_tokens, rule_line.
  assert (Et : strtok blank [] (spaced (rule_words r)) = rule_words r).
  { unfold spaced. apply strtok_words; [done|]. eapply Forall_impl; [exact Hw|]. intros w (Hw1 & _ & Hw2). split; [done|].
    eapply Forall_impl; [exact Hw2|]. by intros c [? _]. }
  assert (Hstart : exists c rest, rule_words r <> [] /\ spaced (rule_words r) ++ [10] = c :: rest /\ blank c = false /\ c <> 35 /\ c <> 10).
  { destruct (rule_words r) as [|w ws]; [done|]. cbn [hd] in Hne, Hhd. destruct w as [|c w]; [done|].
    apply Forall_cons in Hw as [(_ & _ & Hc) _]. apply Forall_cons in Hc as [(? & ? & _) _]. exists c, (((w ++ [32]) ++ spaced ws) ++ [10]). by split_and!. }
  destruct Hstart as (c & rest & _ & E & Hbl & H35 & H10). rewrite E. cbn [drop_blanks]. rewrite Hbl.
  rewrite (proj2 (Z.eqb_neq c 35)), (proj2 (Z.eqb_neq c 10)) by done. cbn [orb].
  rewrite <-E, cut_at_app by done. rewrite Et. f_equal. apply take_ge. lia.
Qed.

Lemma conf_rules_lines rules acc n : Forall rule_ok rules -> (length acc + length rules <= MAX_RULES)%nat ->
  conf_rules (map rule_line rules) acc n = (acc ++ rules, n).
Proof.
  intros Hr. revert acc. induction Hr as [|r rules Hr Hrs IH]; intros acc Hn; cbn [map conf_rules]; [by rewrite app_nil_r|].
  rewrite conf_tokens_rule by done. destruct (rule_words_ok r Hr) as (_ & Hw & _). cbn [length] in Hn.
  rewrite (proj2 (Nat.ltb_ge _ _)), (proj2 (Nat.leb_gt _ _)) by lia. rewrite parse_rule_words by done.
  rewrite IH by (rewrite length_app; cbn [length]; lia). by rewrite <-app_assoc.
Qed.

(** Configurations are read back: up to 64 rules of permit or deny, with any
    options, identity, target and command, written one to a line, are parsed to
    exactly these rules, in order and without an error. *)
Theorem doas_conf_parses (rules : list rule) p path :
  Forall rule_ok rules -> (length rules <= MAX_RULES)%nat -> p_files p !! path = Some (concat (map rule_line rules)) ->
  parse_conf path p = Some (Val (rules, 0), p).
Proof.
  intros Hr Hn Hf. unfold parse_conf, mbind, U_bind, fopen. rewrite Hf. unfold mret, U_ret.
  rewrite fgets_lines_concat by (apply Forall_map; eapply Forall_impl; [exact Hr|]; apply rule_line_ok).
  by rewrite conf_rules_lines.
Qed.

Definition demo_rules : list rule :=
  [Rule PERMIT 3 (bs ":wheel") [] [] []; Rule DENY 0 (bs "eve") (bs "root") (bs "sh") []].

Lemma demo_rules_ok : Forall rule_ok demo_rules.
Proof.
  apply Forall_cons. split; [|apply Forall_singleton]; split; cbn [r_action r_options r_ident r_target r_cmd r_cmdargs].
  - by left.
  - by do 3 right.
  - split_and!; [by apply conf_word_lit|done|done].
  - by left.
  - by left.
  - done.
  - by right.
  - by left.
  - split_and!; [by apply conf_word_lit|done|done].
  - right. by apply conf_word_lit.
  - right. split; [by apply conf_word_lit|done].
  - done.
Qed.

Lemma doas_conf_parses_witness :
  let p := Proc {[ bs "c" := concat (map rule_line demo_rules) ]} [] [] [] 0 0 0 [] in
  parse_conf (bs "c") p = Some (Val (demo_rules, 0), p).
Proof.
  intros p. apply (doas_conf_parses demo_rules p (bs "c")).
  - exact demo_rules_ok.
  - cbn. unfold MAX_RULES. lia.
  - by vm_compute.
Defined.

(** A line that is neither permit nor deny permits, and a rule in error is kept
    as far as it was read: this one lets eve do anything as anybody. *)
Example misspelt_deny : conf_rules [bs "dney eve as" ++ [10]] [] 0 = ([Rule PERMIT 0 (bs "eve") [] [] []], 1).
Proof. reflexivity. Qed.

(** ** Who may run what *)

(** [r] is a rule for this user and command, run as oneself. *)
Record rule_for (groups : option (list Z)) (user cmd : list Z) (r : rule) : Prop := RuleFor {
  rf_who : if hd 0 (r_ident r) =? COLON then in_group groups (r_ident r) user = true else r_ident r = user;
  rf_target : r_target r = [] \/ r_target r = user;
  rf_cmd : r_cmd r = [] \/ r_cmd r = cmd;
}.

Lemma applies_rule groups user cmd r : applies groups user user cmd r = true <-> rule_for groups user cmd r.
Proof.
  assert (forall a b : list Z, bool_decide (a = []) || streq a b = true <-> a = [] \/ a = b) as Ho.
  { intros x y. rewrite orb_true_iff, bool_decide_eq_true. unfold streq. by rewrite bool_decide_eq_true. }
  unfold applies. rewrite !andb_true_iff, !Ho. split.
  - intros [[Hw Ht] Hc]. split; [|done|done]. destruct (_ =? COLON); [done|]. unfold streq in Hw. by apply bool_decide_eq_true in Hw.
  - intros [Hw Ht Hc]. split_and!; [|done|done]. destruct (_ =? COLON); [done|]. unfold streq. by apply bool_decide_eq_true.
Qed.

(** The last rule for the user and the command is [r]. *)
Definition decides (groups : option (list Z)) (user cmd : list Z) (rules : list rule) (r : rule) : Prop :=
  exists before after, rules = before ++ r :: after /\ rule_for groups user cmd r /\
    Forall (fun r' => ~ rule_for groups user cmd r') after.

Lemma verdict_decides groups user cmd rules :
  match verdict groups user user cmd rules with
  | Some r => decides groups user cmd rules r
  | None => Forall (fun r => ~ rule_for groups user cmd r) rules
  end.
Proof.
  unfold verdict. induction rules as [|r rules IH] using rev_ind; [constructor|]. rewrite filter_app. cbn [filter list_filter].
  pose proof (applies_rule groups user cmd r) as Hr. destruct (decide (applies groups user user cmd r = true)) as [Ha|Ha].
  - rewrite last_snoc. exists rules, []. split_and!; [done|by apply Hr|constructor].
  - rewrite app_nil_r. assert (~ rule_for groups user cmd r) as Hn by (intros H%Hr; done).
    destruct (last _) as [x|].
    + destruct IH as (before & after & -> & Hx & Hf). exists before, (after ++ [r]). split_and!; [by rewrite <-app_assoc|done|].
      apply Forall_app. split; [done|by apply Forall_singleton].
    + apply Forall_app. split; [done|by apply Forall_singleton].
Qed.

Lemma decides_unique groups user cmd rules r1 r2 :
  decides groups user cmd rules r1 -> decides groups user cmd rules r2 -> r1 = r2.
Proof.
  intros (b1 & a1 & E1 & H1 & F1) (b2 & a2 & E2 & H2 & F2). rewrite E1 in E2. clear E1.
  revert a2 E2 F2. induction a1 as [|x a1 IH] using rev_ind; intros a2 E2 F2.
  - destruct a2 as [|y a2 _] using rev_ind.
    + by apply app_inj_tail in E2 as [_ ->].
    + rewrite app_comm_cons, app_assoc in E2. apply app_inj_tail in E2 as [_ ->]. apply Forall_app in F2 as [_ [F2 _]%Forall_cons]. done.
  - rewrite app_comm_cons, app_assoc in E2. apply Forall_app in F1 as [F1 [Fx _]%Forall_cons]. destruct a2 as [|y a2 _] using rev_ind.
    + apply app_inj_tail in E2 as [_ ->]. done.
    + rewrite app_comm_cons, app_assoc in E2. apply app_inj_tail in E2 as [E2 _]. apply Forall_app in F2 as [F2 _]. by eapply IH.
Qed.

Section Permitted.
Context (crypt : list Z -> list Z -> option (list Z)).

(** The next line of the terminal is a password of [user]. *)
Definition types_password (p : proc) (user : list Z) : Prop :=
  fst (read_typed 127 (p_in p)) <> [] /\ typed_password crypt p user.

(** The last rule for the user and the command permits it, and no password is
    needed or the right one is typed. *)
Definition permitted (p : proc) (rules : list rule) (user cmd : list Z) : Prop :=
  exists r, decides (p_files p !! s_etc_group) user cmd rules r /\ r_action r = PERMIT /\
    (Z.land (r_options r) NOPASS <> 0 \/ p_euid p = 0 \/ types_password p user).

(** The program of a command: a name without a slash is looked up in /bin. *)
Definition program_path (p : proc) (cmd : list Z) : list Z :=
  if bool_decide (47 ∈ cmd) then cmd
  else if bool_decide (is_Some (p_files p !! bounded 128 (bs "/bin/" ++ cmd))) then bounded 128 (bs "/bin/" ++ cmd) else cmd.

Lemma check_password_run p user pass : exists b, check_password crypt user pass p = Some (Val b, p) /\ (b = true <-> password_of crypt p user pass).
Proof.
  destruct (check_password crypt user pass p) as [[[b|?|?] p']|] eqn:E.
  - exists b. assert (p' = p) as ->.
    { revert E. unfold check_password, mbind, U_bind, fopen, mret, U_ret. destruct (p_files p !! s_etc_shadow); by intros [= _ <-]. }
    split; [done|]. split.
    + intros ->. by apply check_password_true in E as [? _].
    + intros (f & rest & Ef & Er & H1 & H2 & H3). revert E. unfold check_password, mbind, U_bind, fopen, mret, U_ret. rewrite Ef, Er.
      rewrite bool_decide_eq_false_2, (proj2 (Z.eqb_neq _ 33)), H3 by done. cbn [orb]. rewrite streq_refl. by intros [= <-].
  - revert E. unfold check_password, mbind, U_bind, fopen, mret, U_ret. by destruct (p_files p !! s_etc_shadow).
  - revert E. unfold check_password, mbind, U_bind, fopen, mret, U_ret. by destruct (p_files p !! s_etc_shadow).
  - revert E. unfold check_password, mbind, U_bind, fopen, mret, U_ret. by destruct (p_files p !! s_etc_shadow).
Qed.

(** Authentication decides; nothing but terminal and output changes. *)
Lemma authenticate_decides r user p :
  exists b p', doas_authenticate crypt r false user p = Some (if b : bool then Val tt else Exit 1, p') /\ io_only p p' /\
    (b = true <-> Z.land (r_options r) NOPASS <> 0 \/ p_euid p = 0 \/ types_password p user).
Proof.
  unfold doas_authenticate. unfold mbind at 1, U_bind at 1, proc_state. destruct (_ && _) eqn:Eb.
  2:{ exists true, p. split_and!; [done|done|]. split; [|done]. intros _. apply andb_false_iff in Eb as [?|?]; [left|right; left]; lia. }
  apply andb_true_iff in Eb as [E1%Z.eqb_eq E2%negb_true_iff%Z.eqb_neq].
  unfold mbind at 1, U_bind at 1, eprintf. unfold mbind at 1, U_bind at 1, read_input. cbn [p_in]. unfold types_password, typed_password.
  change (128 - 1)%nat with 127%nat. destruct (read_typed 127 (p_in p)) as [l rest]. cbn [fst].
  unfold mbind at 1, U_bind at 1, printf. cbn [p_files p_in p_out p_err p_uid p_euid p_gid p_dirs]. set (q := Proc _ _ _ _ _ _ _ _).
  assert (Hq : io_only p q) by done. case_bool_decide as Hl.
  - exists false. eexists. split; [done|]. split; [done|]. split; [done|]. intros [?|[?|[? _]]]; done.
  - destruct (check_password_run q user (cstr l)) as (b & Ec & Hb). unfold mbind, U_bind. rewrite Ec. exists b. destruct b.
    + eexists. split; [done|]. split; [done|]. split; [|done]. intros _. right. right. split; [done|]. by apply Hb.
    + eexists. split; [done|]. split; [done|]. split; [done|]. intros [?|[?|[_ Hp]]]; [done|done|]. by apply Hb.
Qed.
End Permitted.

Lemma io_only_trans p1 p2 p3 : io_only p1 p2 -> io_only p2 p3 -> io_only p1 p3.
Proof. unfold io_only. intros (-> & -> & -> & ->) (-> & -> & -> & ->). done. Qed.


(** bob of the group wheel runs id with their password; sh is denied. *)
Definition wheel_rules : list rule :=
  [Rule PERMIT 2 (bs ":wheel") [] [] []; Rule DENY 0 (bs "bob") [] (bs "sh") []].

Lemma wheel_rules_ok : Forall rule_ok wheel_rules.
Proof.
  apply Forall_cons. split; [|apply Forall_singleton]; split; cbn [r_action r_options r_ident r_target r_cmd r_cmdargs].
  - by left.
  - right. right. by left.
  - split_and!; [by apply conf_word_lit|done|done].
  - by left.
  - by left.
  - done.
  - by right.
  - by left.
  - split_and!; [by apply conf_word_lit|done|done].
  - by left.
  - right. split; [by apply conf_word_lit|done].
  - done.
Qed.

Definition wheel_files : gmap (list Z) (list Z) :=
  {[ bs "/etc/doas.conf" := concat (map rule_line wheel_rules);
     s_etc_group := bs "wheel:x:10:bob,ann" ++ [10];
     s_etc_shadow := bs "bob:secret:0::::::" ++ [10];
     s_etc_passwd := bs "bob:x:1000:1000::/home/bob:/bin/tsh" ++ [10];
     bs "/bin/id" := [] ]}.

Definition bob : proc := Proc wheel_files (bs "secret" ++ [10]) [] [] 1000 1000 1000 [].

(** A [crypt] that hides nothing. *)
Definition open_crypt (key salt : list Z) : option (list Z) := Some key.

