(* ===== verification/Accounts.v ===== *)
(** * login, passwd and useradd (src/userspace)

    [crypt], the clock, [rand], the environment, which files can be written
    and where directories can be made are parameters. *)

From stdpp Require Import base numbers list gmap.
From Stdlib Require Import ZArith Lia ZifyBool.
From S2P Require Import Prelude.
From S2P Require Import Klib.
From S2P Require Import Grep.
From S2P Require Import Unix.

Definition MAX_LINES : nat := 256.
Definition LINE_MAXLEN : nat := 512.
Definition LOGIN_RETRIES : nat := 3.
Definition BANG : Z := 33.

(** ** Lines and fields *)

(** [lines_load] on an empty structure: at most [MAX_LINES] lines. *)
Definition lines_load (path : list Z) : U (option (list (list Z))) :=
  f ← fopen path;
  mret (match f with None => None | Some f => Some (take MAX_LINES (fgets_lines LINE_MAXLEN f)) end).

(** The fields of a line. *)
Fixpoint split_colon (acc s : list Z) : list (list Z) :=
  match s with
  | [] => [acc]
  | c :: s' => if c =? COLON then acc :: split_colon [] s' else split_colon (acc ++ [c]) s'
  end.

Definition shadow_fields (line : list Z) (max : nat) : list (list Z) := take max (split_colon [] line).

(** The first line of [name], whole. *)
Fixpoint find_line (name : list Z) (lines : list (list Z)) : option (list Z) :=
  match lines with
  | [] => None
  | l :: lines' =>
      match cut_at COLON l with
      | Some (a, _) => if streq a name then Some l else find_line name lines'
      | None => find_line name lines'
      end
  end.

(** The first line of [name] is replaced. *)
Fixpoint replace_line (name new : list Z) (lines : list (list Z)) : list (list Z) :=
  match lines with
  | [] => []
  | l :: lines' =>
      match cut_at COLON l with
      | Some (a, _) => if streq a name then new :: lines' else l :: replace_line name new lines'
      | None => l :: replace_line name new lines'
      end
  end.

Section Programs.
Context (crypt : list Z -> list Z -> option (list Z)) (writable : list Z -> bool).

Definition lines_save (lines : list (list Z)) (path : list Z) : U bool := fun p =>
  if writable path then Some (Val true, set_files (<[path := concat lines]> (p_files p)) p) else Some (Val false, p).

(** ** login *)

Definition shadow_hash (user : list Z) : U (option (list Z)) :=
  f ← fopen s_etc_shadow;
  mret (match f with
        | None => None
        | Some f => rest ← find_entry user (fgets_lines LINE_MAXLEN f); Some (upto_colon rest)
        end).

Definition authenticate (user pass : list Z) : U bool :=
  hash ← shadow_hash user;
  mret (match hash with
        | None => false
        | Some hash =>
            if bool_decide (hash = []) || (hd 0 hash =? BANG) then false
            else match crypt pass hash with None => false | Some c => streq c hash end
        end).

(** The loop: [left] attempts are left; the user that got in. *)
Fixpoint login_loop (left : nat) (user : option (list Z)) : U (list Z) :=
  match left with
  | O => exit 1
  | S left' =>
      name ← (match user with Some u => mret (Some u) | None => read_line (bs "login: ") 64 end);
      match name with
      | None => exit 1
      | Some user =>
          pass ← read_line (bs "Password: ") 128;
          match pass with
          | None => exit 1
          | Some pass =>
              ok ← authenticate user pass;
              if ok : bool then mret user
              else
                _ ← eprintf (bs "Login incorrect" ++ [10]);
                _ ← (if bool_decide (left' = O) then eprintf (bs "login: maximum login attempts exceeded" ++ [10]) else mret tt);
                login_loop left' None
          end
      end
  end.

Definition login_main (args : list (list Z)) : U unit :=
  user ← login_loop LOGIN_RETRIES (head args);
  pw ← getpwnam user;
  _ ← printf (bs "Welcome to TUS, " ++ user ++ bs "!" ++ [10]);
  let '(uid, gid, dir, shell) := match pw with
    | Some pw => (pw_uid pw, pw_gid pw, pw_dir pw, pw_shell pw)
    | None => (0, 0, bs "/", bs "/bin/tsh")
    end in
  _ ← printf (bs "  uid=" ++ decimal_text uid ++ bs "  gid=" ++ decimal_text gid ++ bs "  home=" ++ dir ++ bs "  shell=" ++ shell ++ [10]);
  _ ← printf (bs "  PATH=/bin:/usr/bin" ++ [10]);
  m ← fopen (bs "/etc/motd");
  _ ← (match m with None => mret tt | Some text => printf text end);
  exit 0.

(** ** passwd *)

Context (getlogin env_user : option (list Z)) (now rand1 rand2 : Z).

Record pw_opts := PwOpts {
  o_del : bool;
  o_lock : bool;
  o_unlock : bool;
  o_status : bool;
  o_min : Z;
  o_max : Z;
  o_warn : Z;
  o_inact : Z;
  o_user : option (list Z);
}.

(** One option letter with its value; [None] for a letter that is none. *)
Definition pw_letter (c : Z) (val : option (list Z)) (o : pw_opts) : option (U pw_opts) :=
  let '(PwOpts d l u s mn mx w i us) := o in
  let number (f : Z -> pw_opts) := Some (match val with None => fault | Some v => mret (f (atol v)) end : U pw_opts) in
  if c =? 100 then Some (mret (PwOpts true l u s mn mx w i us))
  else if c =? 108 then Some (mret (PwOpts d true u s mn mx w i us))
  else if c =? 117 then Some (mret (PwOpts d l true s mn mx w i us))
  else if c =? 83 then Some (mret (PwOpts d l u true mn mx w i us))
  else if c =? 110 then number (fun v => PwOpts d l u s v mx w i us)
  else if c =? 120 then number (fun v => PwOpts d l u s mn v w i us)
  else if c =? 119 then number (fun v => PwOpts d l u s mn mx v i us)
  else if c =? 105 then number (fun v => PwOpts d l u s mn mx w v us)
  else None.

Definition s_pw_usage : list Z :=
  bs "usage: passwd [-d] [-l] [-u] [-S] [-n mindays] [-x maxdays]" ++ [10] ++
  bs "              [-w warndays] [-i inactdays] [LOGIN]" ++ [10].

Fixpoint passwd_args (args : list (list Z)) (o : pw_opts) : U pw_opts :=
  match args with
  | [] => mret o
  | a :: rest =>
      let c := hd 0 (tail a) in
      if (hd 0 a =? 45) && negb (c =? 0) then
        let step val := match pw_letter c val o with
                        | Some m => m
                        | None => _ ← eprintf (bs "passwd: invalid option -- '" ++ [c] ++ bs "'" ++ [10]); exit 6
                        end in
        if negb (bool_decide (drop 2 a = [])) then o ← step (Some (drop 2 a)); passwd_args rest o
        else
          match rest with
          | v :: rest' => if bool_decide (c ∈ bs "nxwi") then o ← step (Some v); passwd_args rest' o
                          else o ← step None; passwd_args rest o
          | [] => o ← step None; passwd_args rest o
          end
      else
        match o_user o with
        | None => let '(PwOpts d l u s mn mx w i _) := o in passwd_args rest (PwOpts d l u s mn mx w i (Some a))
        | Some _ => _ ← eprintf s_pw_usage; exit 2
        end
  end.

(** A hash without its lock. *)
Definition unlocked (hash : list Z) : list Z := if hd 0 hash =? BANG then tail hash else hash.

Definition pw_fail (msg : list Z) : U unit := _ ← eprintf (bs "passwd: " ++ msg ++ [10]); exit 1.

(** Who is not root gives their current password first. *)
Definition current_password (hash : list Z) : U unit :=
  p ← proc_state;
  if negb (p_euid p =? 0) then
    cur ← read_line (bs "Current password: ") 128;
    match cur with
    | None | Some [] => pw_fail (bs "authentication failure")
    | Some cur =>
        if bool_decide (hash = []) || (hd 0 hash =? BANG) then pw_fail (bs "account is locked")
        else match crypt cur hash with
             | None => pw_fail (bs "authentication failure")
             | Some c => if streq c hash then mret tt else pw_fail (bs "authentication failure")
             end
    end
  else mret tt.

(** The new password, read twice; [hash] is the old one. *)
Definition new_password (hash : list Z) : U (list Z) :=
  _ ← current_password hash;
  p1 ← read_line (bs "New password: ") 128;
  match p1 with
  | None => _ ← pw_fail (bs "no password supplied"); mret []
  | Some p1 =>
      p2 ← read_line (bs "Retype new password: ") 128;
      _ ← (match p2 with
           | None => pw_fail (bs "passwords do not match")
           | Some p2 => if streq p1 p2 then mret tt else pw_fail (bs "passwords do not match")
           end);
      _ ← (if bool_decide (p1 = []) then pw_fail (bs "no password supplied") else mret tt);
      let salt := bounded 32 (bs "$6$" ++ decimal_text now ++ [97 + rand1 mod 26; 48 + rand2 mod 10] ++ bs "$") in
      mret (bounded 128 (default (bs "!") (crypt p1 salt)))
  end.

(** The new line: aging fields are kept unless they are overridden. *)
Definition shadow_line (user newhash : list Z) (fld : list (list Z)) (o : pw_opts) : list Z :=
  let keep i d := bounded 16 (default d (fld !! i)) in
  let over v old := if 0 <=? v then bounded 16 (decimal_text v) else old in
  let mn := over (o_min o) (keep 3%nat (bs "0")) in
  let mx := over (o_max o) (keep 4%nat (bs "99999")) in
  let wn := over (o_warn o) (keep 5%nat (bs "7")) in
  let inact := over (o_inact o) (keep 6%nat []) in
  bounded LINE_MAXLEN (user ++ bs ":" ++ newhash ++ bs ":" ++ keep 2%nat (bs "0") ++ bs ":" ++ mn ++ bs ":" ++ mx ++ bs ":" ++ wn ++
    bs ":" ++ inact ++ bs "::" ++ [10]).

Definition pw_status (user hash : list Z) (fld : list (list Z)) : list Z :=
  let st := if hd 0 hash =? BANG then bs "L" else if bool_decide (hash = []) then bs "NP" else bs "P" in
  let f i := bs " " ++ default [] (fld !! i) in
  user ++ bs " " ++ st ++ f 2%nat ++ f 3%nat ++ f 4%nat ++ f 5%nat ++ f 6%nat ++ [10].

(** The account to work on. *)
Definition pw_account (o : pw_opts) : U (list Z) :=
  match o_user o with
  | Some u => mret u
  | None =>
      let known u := match u with Some (_ :: _) => true | _ => false end in
      let u := if known getlogin then getlogin else env_user in
      match u with
      | Some (c :: u) => mret (c :: u)
      | _ => _ ← eprintf (bs "passwd: can't determine your user name" ++ [10]); exit 3
      end
  end.

(** The new hash: deleted, locked, unlocked or that of a new password. *)
Definition pw_newhash (o : pw_opts) (hash : list Z) : U (list Z) :=
  if o_del o then mret []
  else if o_lock o then mret (bounded 128 (BANG :: unlocked hash))
  else if o_unlock o then mret (bounded 128 (unlocked hash))
  else new_password hash.

(** The change of the shadow file, from [lines_load] on. *)
Definition pw_update (o : pw_opts) (user : list Z) (fld : list (list Z)) (hash : list Z) : U unit :=
  lines ← lines_load s_etc_shadow;
  match lines with
  | None => _ ← eprintf (bs "passwd: shadow file missing" ++ [10]); exit 4
  | Some lines =>
      newhash ← pw_newhash o hash;
      ok ← lines_save (replace_line user (shadow_line user newhash fld o) lines) s_etc_shadow;
      if negb ok then _ ← eprintf (bs "passwd: can't update shadow file" ++ [10]); exit 3
      else
        _ ← printf (bs "passwd: password for " ++ user ++
              (if o_del o then bs " deleted" else if o_lock o then bs " locked" else if o_unlock o then bs " unlocked" else bs " updated") ++ [10]);
        exit 0
  end.

Definition passwd_main (args : list (list Z)) : U unit :=
  o ← passwd_args args (PwOpts false false false false (-1) (-1) (-1) (-1) None);
  if o_del o && (o_lock o || o_unlock o) then
    _ ← eprintf (bs "passwd: invalid combination of options" ++ [10]); exit 2
  else
    user ← pw_account o;
    pf ← fopen s_etc_passwd;
    match pf with
    | None => _ ← eprintf (bs "passwd: passwd file missing" ++ [10]); exit 4
    | Some pf =>
        if bool_decide (find_entry user (fgets_lines LINE_MAXLEN pf) = None) then
          _ ← eprintf (bs "passwd: user '" ++ user ++ bs "' does not exist" ++ [10]); exit 1
        else
          sf ← fopen s_etc_shadow;
          match (sf ≫= fun sf => find_line user (fgets_lines LINE_MAXLEN sf)) with
          | None => _ ← eprintf (bs "passwd: shadow file missing" ++ [10]); exit 4
          | Some sh =>
              let fld := shadow_fields sh 9 in
              let hash := default [] (fld !! 1%nat) in
              if o_status o then _ ← printf (pw_status user hash fld); exit 0
              else pw_update o user fld hash
          end
    end.
End Programs.

(** ** useradd *)

Section Useradd.
Context (crypt : list Z -> list Z -> option (list Z)) (writable : list Z -> bool) (can_mkdir : list Z -> bool) (now rand1 rand2 : Z).
(** What the stack holds in place of the counters of the line tables, which
    are never initialised: any other value than 0 makes the program follow
    wild pointers. *)
Context (stack : Z).

Definition load (path : list Z) : U (list (list Z)) :=
  if stack =? 0 then ls ← lines_load path; mret (default [] ls) else fault.

(** [ls->l[ls->n++] = line]. *)
Definition add_line (ls : list (list Z)) (l : list Z) : U (list (list Z)) :=
  if (length ls <? MAX_LINES)%nat then mret (ls ++ [l]) else fault.

(** The largest number in the fields with that index, from 0 on. *)
Fixpoint max_field (ls : list (list Z)) (i : nat) (max : Z) : Z :=
  match ls with
  | [] => max
  | l :: ls' =>
      max_field ls' i (match split_colon [] l !! i with
                       | Some f => if max <? atoi f then atoi f else max
                       | None => max
                       end)
  end.

Definition valid_name (name : list Z) : bool :=
  negb (bool_decide (name = [])) && (length name <=? 32)%nat && negb ((hd 0 name =? 45) || (hd 0 name =? 46)) &&
  forallb (fun c => isalnum c || (c =? 95) || (c =? 45)) name && negb (forallb isdigit name).

(** A missing value of -b, -c or -s is printed as (null). *)
Record ua_opts := UaOpts {
  a_base : option (option (list Z));
  a_comment : option (list Z);
  a_home : option (list Z);
  a_gid : option (list Z);
  a_pass : option (list Z);
  a_shell : option (list Z);
  a_name : option (list Z);
  a_uid : Z;
  a_make : bool;
  a_none : bool;
  a_system : bool;
  a_defaults : bool;
}.

Definition str_text (s : option (list Z)) : list Z := default (bs "(null)") s.

Definition s_ua_usage : list Z :=
  bs "usage: useradd [options] LOGIN" ++ [10] ++ bs "       useradd -D [options]" ++ [10] ++
  bs "options: -b BASE_DIR  -c COMMENT  -d HOME_DIR  -g GROUP" ++ [10] ++
  bs "         -m (create home)  -M (no home)  -p PASSWORD  -r (system)" ++ [10] ++
  bs "         -s SHELL  -u UID  -D (defaults)  --help" ++ [10].

Definition ua_letter (c : Z) (val : option (list Z)) (o : ua_opts) : option (U ua_opts) :=
  let '(UaOpts b cm h g p s n u m no sy d) := o in
  if c =? 98 then Some (mret (UaOpts (Some val) cm h g p s n u m no sy d))
  else if c =? 99 then Some (mret (UaOpts b val h g p s n u m no sy d))
  else if c =? 100 then Some (mret (UaOpts b cm val g p s n u m no sy d))
  else if c =? 103 then Some (mret (UaOpts b cm h val p s n u m no sy d))
  else if c =? 109 then Some (mret (UaOpts b cm h g p s n u true no sy d))
  else if c =? 77 then Some (mret (UaOpts b cm h g p s n u m true sy d))
  else if c =? 112 then Some (mret (UaOpts b cm h g val s n u m no sy d))
  else if c =? 114 then Some (mret (UaOpts b cm h g p s n u m no true d))
  else if c =? 115 then Some (mret (UaOpts b cm h g p val n u m no sy d))
  else if c =? 117 then
    Some (match val with None => fault | Some v => mret (UaOpts b cm h g p s n (atoi v) m no sy d) end : U ua_opts)
  else None.

Fixpoint useradd_args (args : list (list Z)) (o : ua_opts) : U ua_opts :=
  match args with
  | [] => mret o
  | a :: rest =>
      let c := hd 0 (tail a) in
      let '(UaOpts b cm h g p s n u m no sy d) := o in
      if streq a (bs "--help") || streq a (bs "-h") then _ ← eprintf s_ua_usage; exit 2
      else if streq a (bs "-D") then useradd_args rest (UaOpts b cm h g p s n u m no sy true)
      else if (hd 0 a =? 45) && negb (c =? 0) && bool_decide (n = None) then
        let step val := match ua_letter c val o with
                        | Some m => m
                        | None => _ ← eprintf (bs "useradd: invalid option -- '" ++ [c] ++ bs "'" ++ [10]); exit 3
                        end in
        if negb (bool_decide (drop 2 a = [])) then o ← step (Some (drop 2 a)); useradd_args rest o
        else
          match rest with
          | v :: rest' => if bool_decide (c ∈ bs "bcdgpsu") then o ← step (Some v); useradd_args rest' o
                          else o ← step None; useradd_args rest o
          | [] => o ← step None; useradd_args rest o
          end
      else
        match n with
        | None => useradd_args rest (UaOpts b cm h g p s (Some a) u m no sy d)
        | Some _ => _ ← eprintf s_ua_usage; exit 2
        end
  end.

Definition save (ls : list (list Z)) (path : list Z) : U bool := lines_save writable ls path.

(** -D: the defaults are printed, and stored when -b was given. *)
Definition ua_defaults (o : ua_opts) : U unit :=
  _ ← (match a_base o with
       | None => mret true
       | Some base => save [bs "HOME=" ++ str_text base ++ [10] ++ bs "SHELL=" ++ str_text (a_shell o) ++ [10] ++
                            bs "GROUP=" ++ default [] (a_gid o) ++ [10]] (bs "/etc/default/useradd")
       end);
  _ ← printf (bs "GROUP=100" ++ [10] ++ bs "HOME=/home" ++ [10] ++ bs "SHELL=/bin/tsh" ++ [10] ++ bs "SKEL=/etc/skel" ++ [10] ++
              bs "CREATE_MAIL_SPOOL=no" ++ [10]);
  exit 0.

(** The user id: the one asked for, if no line of the file has it, or one above
    the maximum that [max_field] finds. *)
Definition ua_uid (o : ua_opts) (pw : list (list Z)) : U Z :=
  if 0 <=? a_uid o then
    all ← load s_etc_passwd;
    if existsb (fun l => match split_colon [] l !! 2%nat with Some f => atoi f =? a_uid o | None => false end) all then
      _ ← eprintf (bs "useradd: UID " ++ decimal_text (a_uid o) ++ bs " is already in use" ++ [10]); exit 4
    else mret (a_uid o)
  else
    let min := if a_system o then 101 else 1000 in
    let uid := s32 (max_field pw 0 0 + 1) in
    mret (if uid <? min then min else uid).

(** The group id: a number, the second field of the group's line, or a new
    group with the number of the user. *)
Definition ua_gid (o : ua_opts) (name : list Z) (uid : Z) (gr : list (list Z)) : U Z :=
  match a_gid o with
  | Some g =>
      if isdigit (hd 0 g) then mret (atoi g)
      else
        match find_line g gr with
        | None => _ ← eprintf (bs "useradd: group '" ++ g ++ bs "' does not exist" ++ [10]); exit 6
        | Some l => mret (atoi (default [] (split_colon [] l !! 1%nat)))
        end
  | None =>
      gr ← add_line gr (bounded LINE_MAXLEN (name ++ bs ":x:" ++ decimal_text uid ++ bs ":" ++ [10]));
      ok ← save gr s_etc_group;
      if ok : bool then mret uid
      else _ ← eprintf (bs "useradd: can't update group file" ++ [10]); exit 10
  end.

Definition passwd_line (name : list Z) (uid gid : Z) (comment home shell : list Z) : list Z :=
  bounded LINE_MAXLEN (name ++ bs ":x:" ++ decimal_text uid ++ bs ":" ++ decimal_text gid ++ bs ":" ++ comment ++ bs ":" ++ home ++ bs ":" ++ shell ++ [10]).

Definition ua_shadow_line (name : list Z) (pass : option (list Z)) : list Z :=
  let hash := match pass with
              | Some p =>
                  let salt := bounded 32 (bs "$6$" ++ decimal_text now ++ [97 + rand1 mod 26; 48 + rand2 mod 10] ++ bs "$") in
                  default (bs "!") (crypt p salt)
              | None => bs "!"
              end in
  bounded LINE_MAXLEN (name ++ bs ":" ++ hash ++ bs ":0:0:99999:7::" ++ [10]).

Definition mkdir (path : list Z) (mode : Z) : U bool := fun p =>
  if can_mkdir path then
    Some (Val true, Proc (p_files p) (p_in p) (p_out p) (p_err p) (p_uid p) (p_euid p) (p_gid p) (p_dirs p ++ [(path, mode)]))
  else Some (Val false, p).

(** The parents of [home]: every prefix that ends before a slash, from the
    second byte on. *)
Fixpoint make_parents (done left : list Z) : U unit :=
  match left with
  | [] => mret tt
  | c :: left' => _ ← (if c =? 47 then mkdir done 493 else mret true); make_parents (done ++ [c]) left'
  end.

Definition useradd_main (args : list (list Z)) : U unit :=
  o ← useradd_args args (UaOpts None (Some []) None None None (Some (bs "/bin/tsh")) None (-1) false false false false);
  if a_defaults o then ua_defaults o
  else if negb (match a_name o with None => false | Some name => valid_name name end) then
    _ ← eprintf (bs "useradd: invalid user name '" ++ default [] (a_name o) ++ bs "'" ++ [10]); exit 19
  else
    let name := default [] (a_name o) in
    pw ← load s_etc_passwd;
    sh ← load s_etc_shadow;
    gr ← load s_etc_group;
    if negb (bool_decide (find_line name pw = None)) then
      _ ← eprintf (bs "useradd: user '" ++ name ++ bs "' already exists" ++ [10]); exit 9
    else
      uid ← ua_uid o pw;
      gid ← ua_gid o name uid gr;
      let home := match a_home o with
                  | Some h => h
                  | None => bounded 256 (str_text (default (Some (bs "/home")) (a_base o)) ++ bs "/" ++ name)
                  end in
      pw ← add_line pw (passwd_line name uid gid (str_text (a_comment o)) home (str_text (a_shell o)));
      sh ← add_line sh (ua_shadow_line name (a_pass o));
      ok ← save pw s_etc_passwd;
      if negb ok then _ ← eprintf (bs "useradd: can't update password file" ++ [10]); exit 1
      else
        ok ← save sh s_etc_shadow;
        if negb ok then _ ← eprintf (bs "useradd: can't update shadow file" ++ [10]); exit 1
        else
          ok ← (if a_make o && negb (a_none o) then
                  let tmp := bounded 256 home in
                  _ ← make_parents (take 1 tmp) (drop 1 tmp); mkdir home 448
                else mret true);
          if negb ok then _ ← eprintf (bs "useradd: can't create home directory " ++ home ++ [10]); exit 12
          else
            _ ← printf (bs "useradd: user " ++ name ++ bs " added (uid " ++ decimal_text uid ++ bs ", gid " ++ decimal_text gid ++
                        bs ", home " ++ home ++ bs ")" ++ [10]);
            exit 0.
End Useradd.
