(* ===== verification/AccountsProps.v ===== *)
(** * Properties of the account programs

    passwd changes one line of the shadow file, and login then accepts the new
    password; a lock keeps everybody out and can be undone. useradd makes a
    locked account that passwd opens; it gives every account the same number. *)

From stdpp Require Import base numbers list gmap.
From Stdlib Require Import ZArith Lia ZifyBool.
From S2P Require Import Prelude.
From S2P Require Import Klib.
From S2P Require Import Grep.
From S2P Require Import Unix.
From S2P Require Import Accounts.

(** ** Fields *)

Lemma split_colon_cut acc s a b : cut_at COLON s = Some (a, b) -> split_colon acc s = (acc ++ a) :: split_colon [] b.
Proof.
  revert acc a. induction s as [|c s IH]; intros acc a; cbn [cut_at split_colon]; [done|]. destruct (c =? COLON).
  - intros [= <- <-]. by rewrite app_nil_r.
  - intros ([a' b'] & E & [= <- <-])%bind_Some. rewrite (IH _ _ E), <-app_assoc. done.
Qed.

Lemma split_colon_none acc s : cut_at COLON s = None -> split_colon acc s = [acc ++ s].
Proof.
  revert acc. induction s as [|c s IH]; intros acc; cbn [cut_at split_colon]; [by rewrite app_nil_r|]. destruct (c =? COLON); [done|].
  destruct (cut_at COLON s) as [[a b]|]; [done|]. intros _. rewrite IH by done. by rewrite <-app_assoc.
Qed.

Lemma split_colon_head s : head (split_colon [] s) = Some (upto_colon s).
Proof.
  unfold upto_colon. destruct (cut_at COLON s) as [[a b]|] eqn:E; [by rewrite (split_colon_cut [] s a b)|by rewrite split_colon_none].
Qed.

(** A byte that is nowhere in the text is in no field; one that only ends the
    text is in the last one. *)
Lemma split_colon_notin c acc s f : c ∉ acc -> c ∉ s -> f ∈ split_colon acc s -> c ∉ f.
Proof.
  revert acc. induction s as [|x s IH]; intros acc Ha Hs; cbn [split_colon]; [set_solver|].
  destruct (x =? COLON).
  - intros [-> |Hf]%elem_of_cons; [done|]. apply (IH []); [apply not_elem_of_nil|set_solver|done].
  - apply IH; set_solver.
Qed.

Lemma split_colon_inner c acc b i f : c <> COLON -> c ∉ acc -> c ∉ b ->
  split_colon acc (b ++ [c]) !! i = Some f -> (S i < length (split_colon acc (b ++ [c])))%nat -> c ∉ f.
Proof.
  intros Hc. revert acc i. induction b as [|x b IH]; intros acc i Ha Hb; cbn [app split_colon].
  - rewrite (proj2 (Z.eqb_neq c COLON)) by done. cbn [split_colon length]. lia.
  - destruct (x =? COLON); [|apply IH; set_solver]. destruct i as [|i]; cbn [lookup list_lookup length].
    + by intros [= <-].
    + intros Hf Hn. eapply (IH [] i); [apply not_elem_of_nil|set_solver|done|lia].
Qed.

Lemma split_colon_clean acc s f : COLON ∉ acc -> f ∈ split_colon acc s -> COLON ∉ f.
Proof.
  revert acc. induction s as [|x s IH]; intros acc Ha; cbn [split_colon]; [set_solver|].
  destruct (Z.eqb_spec x COLON); [|apply IH; set_solver].
  intros [-> |Hf]%elem_of_cons; [done|]. apply (IH []); [apply not_elem_of_nil|done].
Qed.

Definition colons (s : list Z) : nat := length (filter (fun c => c = COLON) s).

Lemma colons_app a b : colons (a ++ b) = (colons a + colons b)%nat.
Proof. unfold colons. by rewrite filter_app, length_app. Qed.

Lemma split_colon_length acc s : length (split_colon acc s) = S (colons s).
Proof.
  unfold colons. revert acc. induction s as [|c s IH]; intros acc; cbn [split_colon]; [done|]. rewrite filter_cons.
  destruct (Z.eqb_spec c COLON); [rewrite decide_True by done|rewrite decide_False by done]; cbn [length]; by rewrite IH.
Qed.

(** ** Entries *)

Lemma find_line_entry user lines :
  find_entry user lines = match find_line user lines with Some l => snd <$> cut_at COLON l | None => None end.
Proof.
  induction lines as [|l lines IH]; [done|]. cbn [find_entry find_line]. destruct (cut_at COLON l) as [[a b]|] eqn:E; [|done].
  destruct (streq a user); [by rewrite E|done].
Qed.

Lemma find_line_cut user lines l : find_line user lines = Some l -> l ∈ lines /\ exists rest, cut_at COLON l = Some (user, rest).
Proof.
  induction lines as [|x lines IH]; [done|]. cbn [find_line]. destruct (cut_at COLON x) as [[a b]|] eqn:E.
  - destruct (streq a user) eqn:Ea.
    + intros [= <-]. apply streq_eq in Ea as ->. split; [by left|by eexists].
    + intros Hl. destruct (IH Hl) as [Hin He]. split; [by right|done].
  - intros Hl. destruct (IH Hl) as [Hin He]. split; [by right|done].
Qed.

Lemma find_replaced user new rest lines l : find_line user lines = Some l -> cut_at COLON new = Some (user, rest) ->
  find_entry user (replace_line user new lines) = Some rest.
Proof.
  intros Hl Hn. induction lines as [|x lines IH]; [done|]. cbn [find_line replace_line] in *.
  destruct (cut_at COLON x) as [[a b]|] eqn:E.
  - destruct (streq a user) eqn:Ea; cbn [find_entry]; [by rewrite Hn, streq_refl|]. rewrite E, Ea. by apply IH.
  - cbn [find_entry]. rewrite E. by apply IH.
Qed.

Lemma find_others user new rest v lines : cut_at COLON new = Some (user, rest) -> v <> user ->
  find_entry v (replace_line user new lines) = find_entry v lines.
Proof.
  intros Hn Hv. induction lines as [|x lines IH]; [done|]. cbn [find_entry replace_line].
  destruct (cut_at COLON x) as [[a b]|] eqn:E.
  - destruct (streq a user) eqn:Ea; cbn [find_entry].
    + apply streq_eq in Ea as ->. by rewrite Hn, streq_ne by congruence.
    + rewrite E. by rewrite IH.
  - cbn [find_entry]. by rewrite E.
Qed.

Lemma replace_lines_ok user new lines : Forall (line_ok LINE_MAXLEN) lines -> line_ok LINE_MAXLEN new ->
  Forall (line_ok LINE_MAXLEN) (replace_line user new lines) /\ length (replace_line user new lines) = length lines.
Proof.
  intros Hl Hn. induction Hl as [|l lines Hl Hls [IH1 IH2]]; [done|]. cbn [replace_line].
  destruct (cut_at COLON l) as [[a b]|]; [destruct (streq a user)|]; cbn [length]; (split; [by apply Forall_cons|lia]).
Qed.

(** ** An account *)

(** [user] has an entry in both files; the shadow file is made of lines that fit
    the buffer, and the user's line [l] has its eight or more fields. *)
Record account (p : proc) (user : list Z) (lines : list (list Z)) (l : list Z) : Prop := Account {
  ac_name : COLON ∉ user /\ 10 ∉ user /\ 0 ∉ user /\ (length user <= 32)%nat;
  ac_passwd : exists pf, p_files p !! s_etc_passwd = Some pf /\ find_entry user (fgets_lines LINE_MAXLEN pf) <> None;
  ac_file : p_files p !! s_etc_shadow = Some (concat lines);
  ac_lines : Forall (line_ok LINE_MAXLEN) lines;
  ac_count : (length lines <= MAX_LINES)%nat;
  ac_line : find_line user lines = Some l;
  ac_fields : (8 <= length (split_colon [] l))%nat;
}.

Definition hash_of (l : list Z) : list Z := default [] (shadow_fields l 9 !! 1%nat).

Definition plain_text (s : list Z) : Prop := 10 ∉ s /\ 0 ∉ s.

Lemma plain_take n s : plain_text s -> plain_text (take n s).
Proof. intros [H1 H2]. split; intros Hin%elem_of_take; destruct Hin as (i & Hi & _); apply list_elem_of_lookup_2 in Hi; done. Qed.

Lemma plain_app a b : plain_text a -> plain_text b -> plain_text (a ++ b).
Proof. intros [] []. split; set_solver. Qed.

Section Account.
Context (p : proc) (user : list Z) (lines : list (list Z)) (l : list Z) (Hac : account p user lines l).

Lemma account_line_ok : line_ok LINE_MAXLEN l.
Proof. destruct (find_line_cut _ _ _ (ac_line _ _ _ _ Hac)) as [Hin _]. by eapply Forall_forall in Hin; [|apply Hac]. Qed.

Lemma account_entry : exists rest, cut_at COLON l = Some (user, rest) /\ find_entry user lines = Some rest /\ upto_colon rest = hash_of l.
Proof.
  destruct (find_line_cut _ _ _ (ac_line _ _ _ _ Hac)) as [_ [rest E]]. exists rest. split; [done|].
  rewrite find_line_entry, (ac_line _ _ _ _ Hac), E. split; [done|].
  unfold hash_of, shadow_fields. rewrite (split_colon_cut [] l user rest E). cbn [app take lookup list_lookup].
  pose proof (split_colon_head rest) as Hh. destruct (split_colon [] rest) as [|f fs]; [done|]. by injection Hh as <-.
Qed.

(** A field before the last one. *)
Lemma account_field i : (i <= 6)%nat -> exists f, shadow_fields l 9 !! i = Some f /\ plain_text f /\ COLON ∉ f.
Proof.
  intros Hi. pose proof (ac_fields _ _ _ _ Hac) as Hn. destruct account_line_ok as (b & El & H10 & H0 & _).
  destruct (split_colon [] l !! i) as [f|] eqn:Ef; [|apply lookup_ge_None in Ef; lia].
  exists f. unfold shadow_fields. rewrite lookup_take_lt by lia. split; [done|].
  assert (f ∈ split_colon [] l) as Hin by by eapply list_elem_of_lookup_2. split; [split|].
  - rewrite El in Ef, Hn. eapply (split_colon_inner 10 [] b i); [done|apply not_elem_of_nil|done|done|lia].
  - eapply split_colon_notin; [| |exact Hin]; [apply not_elem_of_nil|]. rewrite El. set_solver.
  - eapply split_colon_clean; [|exact Hin]. apply not_elem_of_nil.
Qed.

Lemma account_keep i d : (i <= 6)%nat -> plain_text (bounded 16 (default d (shadow_fields l 9 !! i))) /\
  (length (bounded 16 (default d (shadow_fields l 9 !! i))) <= 15)%nat.
Proof.
  intros Hi. destruct (account_field i Hi) as (f & -> & Hf & _). cbn. split; [by apply plain_take|]. unfold bounded. rewrite length_take. lia.
Qed.

Definition no_aging (o : pw_opts) : Prop := o_min o < 0 /\ o_max o < 0 /\ o_warn o < 0 /\ o_inact o < 0.

Definition hash_ok (h : list Z) : Prop := plain_text h /\ COLON ∉ h /\ (length h <= 127)%nat.

Lemma shadow_line_shape o h : no_aging o -> hash_ok h ->
  line_ok LINE_MAXLEN (shadow_line user h (shadow_fields l 9) o) /\
  (exists tl, cut_at COLON (shadow_line user h (shadow_fields l 9) o) = Some (user, h ++ COLON :: tl)) /\
  (8 <= length (split_colon [] (shadow_line user h (shadow_fields l 9) o)))%nat.
Proof.
  intros (N1 & N2 & N3 & N4) (Hh & Hhc & Hhl). destruct (ac_name _ _ _ _ Hac) as (Uc & U10 & U0 & Ul).
  unfold shadow_line. cbv beta zeta. rewrite !(proj2 (Z.leb_gt 0 _)) by done.
  destruct (account_keep 2 (bs "0")) as [P2 L2]; [lia|]. destruct (account_keep 3 (bs "0")) as [P3 L3]; [lia|].
  destruct (account_keep 4 (bs "99999")) as [P4 L4]; [lia|]. destruct (account_keep 5 (bs "7")) as [P5 L5]; [lia|].
  destruct (account_keep 6 []) as [P6 L6]; [lia|].
  set (k2 := bounded 16 (default (bs "0") (shadow_fields l 9 !! 2%nat))) in *. set (k3 := bounded 16 (default (bs "0") (shadow_fields l 9 !! 3%nat))) in *. set (k4 := bounded 16 (default (bs "99999") (shadow_fields l 9 !! 4%nat))) in *. set (k5 := bounded 16 (default (bs "7") (shadow_fields l 9 !! 5%nat))) in *. set (k6 := bounded 16 (default [] (shadow_fields l 9 !! 6%nat))) in *.
  change (bs ":") with [COLON]. change (bs "::") with [COLON; COLON].
  set (body := user ++ [COLON] ++ h ++ [COLON] ++ k2 ++ [COLON] ++ k3 ++ [COLON] ++ k4 ++ [COLON] ++ k5 ++ [COLON] ++ k6 ++ [COLON; COLON]).
  assert (Eb : user ++ [COLON] ++ h ++ [COLON] ++ k2 ++ [COLON] ++ k3 ++ [COLON] ++ k4 ++ [COLON] ++ k5 ++ [COLON] ++ k6 ++ [COLON; COLON] ++ [10] = body ++ [10])
    by (unfold body; by rewrite <-!app_assoc).
  assert (Hlen : (length body <= 250)%nat) by (unfold body; rewrite !length_app; cbn [length]; lia).
  assert (Hp : plain_text body).
  { assert (plain_text [COLON] /\ plain_text [COLON; COLON]) as [C1 C2] by (split; split; by_decide).
    unfold body. repeat apply plain_app; done. }
  rewrite Eb. unfold bounded, LINE_MAXLEN. rewrite take_ge by (rewrite length_app; cbn [length]; lia). split_and!.
  - exists body. split; [done|]. destruct Hp. split_and!; [done|done|]. rewrite length_app. cbn [length]. lia.
  - unfold body. eexists. rewrite <-!app_assoc. cbn [app]. by rewrite cut_at_app.
  - rewrite split_colon_length. unfold body. rewrite !colons_app. change (colons [COLON]) with 1%nat. change (colons [COLON; COLON]) with 2%nat. lia.
Qed.
End Account.

Section Passwd.
Context (crypt : list Z -> list Z -> option (list Z)) (writable : list Z -> bool).
Context (getlogin env_user : option (list Z)) (now rand1 rand2 : Z) (Hwr : writable s_etc_shadow = true).

Definition pw_none : pw_opts := PwOpts false false false false (-1) (-1) (-1) (-1) None.

(** The arguments ask for a change of [user]'s entry. *)
Record asks (args : list (list Z)) (p : proc) (o : pw_opts) (user : list Z) : Prop := Asks {
  as_args : passwd_args args pw_none p = Some (Val o, p);
  as_user : o_user o = Some user;
  as_status : o_status o = false;
  as_combo : o_del o && (o_lock o || o_unlock o) = false;
  as_aging : no_aging o;
}.

(** The file afterwards. *)
Definition new_shadow (user nh : list Z) (lines : list (list Z)) (l : list Z) (o : pw_opts) : list (list Z) :=
  replace_line user (shadow_line user nh (shadow_fields l 9) o) lines.

Lemma passwd_main_run args p o user lines l nh p1 :
  account p user lines l -> asks args p o user -> pw_newhash crypt now rand1 rand2 o (hash_of l) p = Some (Val nh, p1) -> p_files p1 = p_files p ->
  exists p2, passwd_main crypt writable getlogin env_user now rand1 rand2 args p = Some (Exit 0, p2) /\
    p_files p2 = <[s_etc_shadow := concat (new_shadow user nh lines l o)]> (p_files p).
Proof.
  intros Hac [E1 E2 E3 E4 E5] Eh Ef. destruct (ac_passwd _ _ _ _ Hac) as (pf & Epf & Hpf).
  unfold passwd_main. fold pw_none. unfold mbind at 1, U_bind at 1. rewrite E1, E4. unfold pw_account. rewrite E2.
  unfold mbind at 1, U_bind at 1, mret at 1, U_ret at 1. unfold mbind at 1, U_bind at 1, fopen at 1. rewrite Epf.
  rewrite bool_decide_eq_false_2 by done. unfold mbind at 1, U_bind at 1, fopen at 1. rewrite (ac_file _ _ _ _ Hac). cbn [mbind option_bind].
  rewrite fgets_lines_concat by apply Hac. rewrite (ac_line _ _ _ _ Hac), E3. fold (hash_of l).
  unfold pw_update, lines_load. unfold mbind at 1, U_bind at 1. unfold mbind at 1, U_bind at 1, fopen at 1. rewrite (ac_file _ _ _ _ Hac).
  rewrite fgets_lines_concat by apply Hac. rewrite take_ge by apply Hac. unfold mret at 1, U_ret at 1.
  unfold mbind at 1, U_bind at 1. rewrite Eh. unfold mbind at 1, U_bind at 1, lines_save at 1. rewrite Hwr. cbn [negb].
  eexists. split; [done|]. cbn [p_files set_files printf]. by rewrite Ef.
Qed.

(** The account is still one, with the new hash; other accounts are as before. *)
Lemma new_shadow_account p p2 user lines l nh o :
  account p user lines l -> no_aging o -> hash_ok nh ->
  p_files p2 = <[s_etc_shadow := concat (new_shadow user nh lines l o)]> (p_files p) ->
  shadow_hash user p2 = Some (Val (Some nh), p2) /\
  (forall v, v <> user -> fst <$> shadow_hash v p2 = fst <$> shadow_hash v p) /\
  (forall path, path <> s_etc_shadow -> p_files p2 !! path = p_files p !! path).
Proof.
  intros Hac Ho Hh Ef. destruct (shadow_line_shape p user lines l Hac o nh Ho Hh) as (Hok & (tl & Hcut) & _).
  destruct (replace_lines_ok user _ lines (ac_lines _ _ _ _ Hac) Hok) as [Hls _]. fold (new_shadow user nh lines l o) in Hls.
  assert (Ef2 : p_files p2 !! s_etc_shadow = Some (concat (new_shadow user nh lines l o))) by (rewrite Ef; apply lookup_insert_eq).
  unfold shadow_hash, mbind, U_bind, fopen. rewrite Ef2, (ac_file _ _ _ _ Hac). rewrite !fgets_lines_concat by (done || apply Hac).
  unfold mret, U_ret. split_and!.
  - unfold new_shadow. rewrite (find_replaced _ _ _ _ _ (ac_line _ _ _ _ Hac) Hcut). cbn. do 4 f_equal.
    unfold upto_colon. by rewrite cut_at_app by apply Hh.
  - intros v Hv. unfold new_shadow. by rewrite (find_others _ _ _ _ _ Hcut Hv).
  - intros path Hp. rewrite Ef. by apply lookup_insert_ne.
Qed.

Lemma find_line_replaced user new rest lines l : find_line user lines = Some l -> cut_at COLON new = Some (user, rest) ->
  find_line user (replace_line user new lines) = Some new.
Proof.
  intros Hl Hn. induction lines as [|x lines IH]; [done|]. cbn [find_line replace_line] in *.
  destruct (cut_at COLON x) as [[a b]|] eqn:E.
  - destruct (streq a user) eqn:Ea; cbn [find_line]; [by rewrite Hn, streq_refl|]. rewrite E, Ea. by apply IH.
  - cbn [find_line]. rewrite E. by apply IH.
Qed.

Lemma account_kept p p2 user lines l nh o :
  account p user lines l -> no_aging o -> hash_ok nh ->
  p_files p2 = <[s_etc_shadow := concat (new_shadow user nh lines l o)]> (p_files p) ->
  exists l2, account p2 user (new_shadow user nh lines l o) l2 /\ hash_of l2 = nh.
Proof.
  intros Hac Ho Hh Ef. destruct (shadow_line_shape p user lines l Hac o nh Ho Hh) as (Hok & (tl & Hcut) & H8).
  destruct (replace_lines_ok user _ lines (ac_lines _ _ _ _ Hac) Hok) as [Hls Hlen].
  assert (Hac2 : account p2 user (new_shadow user nh lines l o) (shadow_line user nh (shadow_fields l 9) o)).
  { split; [apply Hac| | |done| |by eapply find_line_replaced; [apply Hac|]|done].
    - rewrite Ef, lookup_insert_ne by done. apply Hac.
    - by rewrite Ef, lookup_insert_eq.
    - unfold new_shadow. rewrite Hlen. apply Hac. }
  eexists. split; [exact Hac2|]. destruct (account_entry _ _ _ _ Hac2) as (rest & Er & _ & <-).
  rewrite Hcut in Er. injection Er as <-. unfold upto_colon. by rewrite cut_at_app by apply Hh.
Qed.
End Passwd.

(** ** Typing *)

(** What can be typed as one line of a password. *)
Definition typable (s : list Z) : Prop := s <> [] /\ 10 ∉ s /\ 13 ∉ s /\ 0 ∉ s /\ (length s <= 126)%nat.

Lemma read_typed_line n s r : 10 ∉ s -> 13 ∉ s -> (length s < n)%nat -> read_typed n (s ++ 10 :: r) = (s, r).
Proof.
  revert n. induction s as [|c s IH]; intros n H10 H13 Hn; destruct n as [|n]; cbn [length] in Hn; try lia; cbn [app read_typed]; [done|].
  destruct (Z.eqb_spec c 10); [set_solver|]. destruct (Z.eqb_spec c 13); [set_solver|]. cbn [orb]. rewrite IH by (lia || set_solver). done.
Qed.

(** The process after a line was read from the terminal. *)
Definition after_line (prompt r : list Z) (p : proc) : proc :=
  Proc (p_files p) r (p_out p) ((p_err p ++ prompt) ++ [10]) (p_uid p) (p_euid p) (p_gid p) (p_dirs p).

Lemma read_line_run prompt s r p : typable s -> p_in p = s ++ 10 :: r ->
  read_line prompt 128 p = Some (Val (Some s), after_line prompt r p).
Proof.
  intros (Hne & H10 & H13 & H0 & Hl) Ein. unfold read_line, mbind, U_bind, eprintf, read_input. cbn [p_in].
  change (128 - 1)%nat with 127%nat. rewrite Ein, read_typed_line by (done || lia). rewrite bool_decide_eq_false_2 by done.
  by rewrite cstr_nz.
Qed.

Section Login.
Context (crypt : list Z -> list Z -> option (list Z)) (writable : list Z -> bool).
Context (getlogin env_user : option (list Z)) (now rand1 rand2 : Z).

Definition salt : list Z := bounded 32 (bs "$6$" ++ decimal_text now ++ [97 + rand1 mod 26; 48 + rand2 mod 10] ++ bs "$").

(** A usable hash. *)
Definition usable (h : list Z) : Prop := h <> [] /\ hd 0 h <> BANG.

(** What has to be typed before the new password: nothing for root, the
    current password for others. *)
Definition entitled (p : proc) (hash before : list Z) : Prop :=
  (p_euid p = 0 /\ before = []) \/
  (p_euid p <> 0 /\ exists cur, typable cur /\ before = cur ++ [10] /\ usable hash /\ crypt cur hash = Some hash).

Lemma current_password_run p hash before r : entitled p hash before -> p_in p = before ++ r ->
  exists p1, current_password crypt hash p = Some (Val tt, p1) /\ p_files p1 = p_files p /\ p_in p1 = r.
Proof.
  intros He Ein. unfold current_password. unfold mbind at 1, U_bind at 1, proc_state at 1.
  destruct He as [[E ->]|[E (cur & Hc & -> & [Hu1 Hu2] & Ec)]].
  - rewrite E. by exists p.
  - rewrite (proj2 (Z.eqb_neq _ _) E). cbn [negb]. unfold mbind at 1, U_bind at 1.
    rewrite (read_line_run _ cur r) by (done || by rewrite Ein, <-app_assoc).
    destruct cur as [|x cur]; [by destruct Hc|]. rewrite bool_decide_eq_false_2 by done. rewrite (proj2 (Z.eqb_neq _ _) Hu2). cbn [orb].
    rewrite Ec, streq_refl. by eexists.
Qed.

Lemma new_password_run p hash before pass rest h :
  entitled p hash before -> typable pass -> p_in p = before ++ pass ++ 10 :: pass ++ 10 :: rest ->
  crypt pass salt = Some h -> (length h <= 127)%nat ->
  exists p1, new_password crypt now rand1 rand2 hash p = Some (Val h, p1) /\ p_files p1 = p_files p.
Proof.
  intros He Hp Ein Eh Hl. destruct (current_password_run p hash before _ He Ein) as (p0 & E0 & Ef0 & Ein0).
  unfold new_password. unfold mbind at 1, U_bind at 1. rewrite E0.
  unfold mbind at 1, U_bind at 1. rewrite (read_line_run _ pass (pass ++ 10 :: rest)) by done.
  unfold mbind at 1, U_bind at 1. rewrite (read_line_run _ pass rest) by done. rewrite streq_refl.
  unfold mbind at 1, U_bind at 1, mret at 1, U_ret at 1. rewrite bool_decide_eq_false_2 by apply Hp.
  unfold mbind at 1, U_bind at 1, mret at 1, U_ret at 1. fold salt. rewrite Eh.
  assert (bounded 128 h = h) as Ebh by (apply take_ge; lia). change (default (bs "!") (Some h)) with h. rewrite Ebh. by eexists.
Qed.

Lemma authenticate_run user w p h : shadow_hash user p = Some (Val (Some h), p) -> usable h ->
  authenticate crypt user w p = Some (Val (bool_decide (crypt w h = Some h)), p).
Proof.
  intros E [Hne Hb]. unfold authenticate, mbind, U_bind. rewrite E. unfold mret, U_ret. rewrite bool_decide_eq_false_2 by done.
  rewrite (proj2 (Z.eqb_neq _ _) Hb). cbn [orb]. do 3 f_equal. destruct (crypt w h) as [c|]; [|by rewrite bool_decide_eq_false_2].
  unfold streq. apply bool_decide_ext. split; [by intros ->|by intros [= ->]].
Qed.
End Login.

(** After passwd the user's hash is the new one. *)
Lemma passwd_sets crypt writable getlogin env_user now rand1 rand2 p user lines l before pass rest h :
  account p user lines l -> hd 0 user <> 45 -> writable s_etc_shadow = true ->
  entitled crypt p (hash_of l) before -> typable pass -> p_in p = before ++ pass ++ 10 :: pass ++ 10 :: rest ->
  crypt pass (salt now rand1 rand2) = Some h -> hash_ok h ->
  exists p2, passwd_main crypt writable getlogin env_user now rand1 rand2 [user] p = Some (Exit 0, p2) /\
    shadow_hash user p2 = Some (Val (Some h), p2) /\
    (forall v, v <> user -> fst <$> shadow_hash v p2 = fst <$> shadow_hash v p) /\
    (forall path, path <> s_etc_shadow -> p_files p2 !! path = p_files p !! path).
Proof.
  intros Hac Hu Hwr He Hp Ein Es Hok.
  destruct (new_password_run crypt now rand1 rand2 p (hash_of l) before pass rest h He Hp Ein Es (proj2 (proj2 Hok))) as (p1 & E1 & Ef1).
  assert (Ha : asks [user] p (PwOpts false false false false (-1) (-1) (-1) (-1) (Some user)) user).
  { split; [|done|done|done|unfold no_aging; cbn; lia]. cbn [passwd_args]. by rewrite (proj2 (Z.eqb_neq _ _) Hu). }
  destruct (passwd_main_run crypt writable getlogin env_user now rand1 rand2 Hwr [user] p _ user lines l h p1 Hac Ha E1 Ef1) as (p2 & E2 & Ef2).
  exists p2. split; [done|]. by apply (new_shadow_account p p2 user lines l h _ Hac (as_aging _ _ _ _ Ha) Hok Ef2).
Qed.

(** The invoker is root, or [user] is their own account. *)
Definition manages (p : proc) (user : list Z) : Prop :=
  (p_uid p = 0 /\ p_euid p = 0) \/ exists pw, getpwuid (p_uid p) p = Some (Val (Some pw), p) /\ pw_name pw = user.

(** C?. A password that was set is the one that logs in: when root, or a user
    who changes the password of their own account and types the current one,
    runs passwd for [user] and types the new password twice, passwd succeeds;
    afterwards login accepts for this user exactly the passwords that [crypt]
    maps to the stored hash, among them the new one; the hashes of all other
    users and all other files are as before. The shadow file has at most 256
    lines of less than 512 bytes and can be written; [crypt] is taken to
    return a printable hash that verifies the password it was made from. *)
Theorem passwd_then_login crypt writable getlogin env_user now rand1 rand2 p user lines l before pass rest h :
  account p user lines l -> manages p user -> hd 0 user <> 45 -> writable s_etc_shadow = true ->
  entitled crypt p (hash_of l) before -> typable pass -> p_in p = before ++ pass ++ 10 :: pass ++ 10 :: rest ->
  crypt pass (salt now rand1 rand2) = Some h -> crypt pass h = Some h -> hash_ok h -> usable h ->
  exists p2, passwd_main crypt writable getlogin env_user now rand1 rand2 [user] p = Some (Exit 0, p2) /\
    authenticate crypt user pass p2 = Some (Val true, p2) /\
    (forall w, authenticate crypt user w p2 = Some (Val (bool_decide (crypt w h = Some h)), p2)) /\
    (forall v, v <> user -> fst <$> shadow_hash v p2 = fst <$> shadow_hash v p) /\
    (forall path, path <> s_etc_shadow -> p_files p2 !! path = p_files p !! path).
Proof.
  intros Hac _ Hu Hwr He Hp Ein Es Eh Hok Hus.
  destruct (passwd_sets _ writable getlogin env_user _ _ _ _ _ _ _ _ _ _ _ Hac Hu Hwr He Hp Ein Es Hok) as (p2 & E2 & Hh & Hv & Hf).
  exists p2. split_and!; [done| | |done|done].
  - by rewrite (authenticate_run crypt user pass p2 h Hh Hus), bool_decide_eq_true_2.
  - intros w. by apply authenticate_run.
Qed.

Definition lock_args (user : list Z) : list (list Z) := [bs "-l"; user].
Definition unlock_args (user : list Z) : list (list Z) := [bs "-u"; user].

Lemma lock_asks user p : hd 0 user <> 45 ->
  asks (lock_args user) p (PwOpts false true false false (-1) (-1) (-1) (-1) (Some user)) user /\
  asks (unlock_args user) p (PwOpts false false true false (-1) (-1) (-1) (-1) (Some user)) user.
Proof.
  intros Hu. split; (split; [|done|done|done|unfold no_aging; cbn; lia]); cbn; by rewrite (proj2 (Z.eqb_neq _ _) Hu).
Qed.

Lemma hash_ok_locked h : hash_ok h -> (length h <= 126)%nat -> hash_ok (BANG :: h).
Proof. intros ([P1 P2] & Hc & _) Hl. split_and!; [split; set_solver by done|set_solver by done|cbn [length]; lia]. Qed.

Lemma authenticate_same crypt v w p1 p2 : fst <$> shadow_hash v p2 = fst <$> shadow_hash v p1 ->
  fst <$> authenticate crypt v w p2 = fst <$> authenticate crypt v w p1.
Proof.
  unfold authenticate, mbind, U_bind. destruct (shadow_hash v p1) as [[e1 q1]|], (shadow_hash v p2) as [[e2 q2]|]; cbn; try done.
  intros [= ->]. by destruct e1.
Qed.

Lemma account_hash p user lines l : account p user lines l -> shadow_hash user p = Some (Val (Some (hash_of l)), p).
Proof.
  intros Hac. destruct (account_entry _ _ _ _ Hac) as (rest & _ & Ef & Eh). unfold shadow_hash, mbind, U_bind, fopen.
  rewrite (ac_file _ _ _ _ Hac), fgets_lines_concat by apply Hac. unfold mret, U_ret. by rewrite Ef, <-Eh.
Qed.

(** C38. Locking is complete and reversible: after root has run [passwd -l user]
    login refuses every password of this user, and a following [passwd -u user]
    puts the hash back, so that exactly the passwords of before are accepted
    again. The other accounts and files are untouched throughout. The account
    is not locked before and its hash has at most 126 bytes; the shadow file
    has at most 256 lines of less than 512 bytes and can be written. *)
Theorem passwd_lock_unlock crypt writable getlogin env_user now rand1 rand2 p user lines l :
  p_uid p = 0 -> p_euid p = 0 -> account p user lines l -> hd 0 user <> 45 -> writable s_etc_shadow = true ->
  usable (hash_of l) -> hash_ok (hash_of l) -> (length (hash_of l) <= 126)%nat ->
  let passwd := passwd_main crypt writable getlogin env_user now rand1 rand2 in
  exists p1 p2, passwd (lock_args user) p = Some (Exit 0, p1) /\ passwd (unlock_args user) p1 = Some (Exit 0, p2) /\
    (forall w, authenticate crypt user w p1 = Some (Val false, p1)) /\
    (forall v w, fst <$> authenticate crypt v w p2 = fst <$> authenticate crypt v w p) /\
    (forall path, path <> s_etc_shadow -> p_files p2 !! path = p_files p !! path).
Proof.
  intros _ _ Hac Hu Hwr Hus Hok Hl passwd. destruct (lock_asks user p Hu) as [Ha1 _].
  assert (Hlk : pw_newhash crypt now rand1 rand2 (PwOpts false true false false (-1) (-1) (-1) (-1) (Some user)) (hash_of l) p =
    Some (Val (BANG :: hash_of l), p)).
  { unfold pw_newhash, unlocked. cbn [o_del o_lock]. rewrite (proj2 (Z.eqb_neq _ _) (proj2 Hus)).
    unfold bounded. by rewrite take_ge by (cbn [length app]; lia). }
  pose proof (hash_ok_locked _ Hok Hl) as Hok1.
  destruct (passwd_main_run crypt writable getlogin env_user now rand1 rand2 Hwr _ p _ user lines l _ p Hac Ha1 Hlk eq_refl) as (p1 & E1 & Ef1).
  destruct (new_shadow_account p p1 user lines l _ _ Hac (as_aging _ _ _ _ Ha1) Hok1 Ef1) as (_ & Hv1 & Hf1).
  destruct (account_kept p p1 user lines l _ _ Hac (as_aging _ _ _ _ Ha1) Hok1 Ef1) as (l1 & Hac1 & Eh1).
  destruct (lock_asks user p1 Hu) as [_ Ha2].
  assert (Hul : pw_newhash crypt now rand1 rand2 (PwOpts false false true false (-1) (-1) (-1) (-1) (Some user)) (hash_of l1) p1 =
    Some (Val (hash_of l), p1)).
  { rewrite Eh1. unfold pw_newhash, unlocked, bounded. cbn [o_del o_lock o_unlock hd tail]. rewrite Z.eqb_refl. by rewrite take_ge by lia. }
  destruct (passwd_main_run crypt writable getlogin env_user now rand1 rand2 Hwr _ p1 _ user _ l1 _ p1 Hac1 Ha2 Hul eq_refl) as (p2 & E2 & Ef2).
  destruct (new_shadow_account p1 p2 user _ l1 _ _ Hac1 (as_aging _ _ _ _ Ha2) Hok Ef2) as (Hh2 & Hv2 & Hf2).
  exists p1, p2. split_and!; [done|done| | |].
  - intros w. unfold authenticate, mbind, U_bind. by rewrite (account_hash _ _ _ _ Hac1), Eh1.
  - intros v w. apply authenticate_same. destruct (decide (v = user)) as [->|Hne].
    + by rewrite Hh2, (account_hash _ _ _ _ Hac).
    + by rewrite Hv2, Hv1.
  - intros path Hp. by rewrite Hf2, Hf1.
Qed.

(** ** A run *)

(** A toy [crypt]: the scheme's mark followed by the password itself. *)
Definition toy_crypt (key salt : list Z) : option (list Z) := Some (take 3 salt ++ key).

Definition toy_shadow : list (list Z) :=
  [bs "root:!:19000:0:99999:7:::" ++ [10]; bs "ann:$6$old:19000:0:99999:7:::" ++ [10]].

(** The user ann types their password and twice a new one. *)
Definition toy_proc : proc :=
  Proc (<[s_etc_passwd := bs "root:x:0:0::/root:/bin/tsh" ++ [10] ++ bs "ann:x:1000:1000::/home/ann:/bin/tsh" ++ [10]]>
         (<[s_etc_shadow := concat toy_shadow]> ∅))
       (bs "old" ++ [10] ++ bs "new" ++ [10] ++ bs "new" ++ [10]) [] [] 1000 1000 1000 [].

Lemma toy_account : account toy_proc (bs "ann") toy_shadow (bs "ann:$6$old:19000:0:99999:7:::" ++ [10]).
Proof.
  split; [split_and!; by_decide| |done| |by_decide|vm_compute; reflexivity|by_decide].
  - eexists. split; [reflexivity|]. vm_compute. discriminate.
  - unfold toy_shadow. apply Forall_cons; split; [|apply Forall_cons; split; [|done]]; eexists; (split; [reflexivity|]); split_and!; by_decide.
Qed.

Lemma passwd_then_login_witness : exists p2,
  passwd_main toy_crypt (fun _ => true) None None 1700000000 3 4 [bs "ann"] toy_proc = Some (Exit 0, p2) /\
  authenticate toy_crypt (bs "ann") (bs "new") p2 = Some (Val true, p2) /\ authenticate toy_crypt (bs "ann") (bs "old") p2 = Some (Val false, p2).
Proof.
  destruct (passwd_then_login toy_crypt (fun _ => true) None None 1700000000 3 4 toy_proc (bs "ann") toy_shadow
    (bs "ann:$6$old:19000:0:99999:7:::" ++ [10]) (bs "old" ++ [10]) (bs "new") [] (bs "$6$new")) as (p2 & E & Ea & Ew & _).
  - apply toy_account.
  - right. eexists. split; [vm_compute; reflexivity|reflexivity].
  - by_decide.
  - done.
  - right. split; [done|]. exists (bs "old"). split_and!; [split_and!; by_decide|done|split; by_decide|vm_compute; reflexivity].
  - split_and!; by_decide.
  - done.
  - vm_compute. reflexivity.
  - vm_compute. reflexivity.
  - split_and!; [split; by_decide|by_decide|by_decide].
  - split; by_decide.
  - exists p2. split_and!; [exact E|exact Ea|]. rewrite Ew. do 2 f_equal.
Defined.

(** root, with the same files. *)
Definition toy_admin : proc := Proc (p_files toy_proc) [] [] [] 0 0 0 [].

Lemma passwd_lock_unlock_witness :
  let passwd := passwd_main toy_crypt (fun _ => true) None None 1700000000 3 4 in
  exists p1 p2, passwd [bs "-l"; bs "ann"] toy_admin = Some (Exit 0, p1) /\ passwd [bs "-u"; bs "ann"] p1 = Some (Exit 0, p2) /\
    authenticate toy_crypt (bs "ann") (bs "old") p1 = Some (Val false, p1) /\
    fst <$> authenticate toy_crypt (bs "ann") (bs "old") p2 = Some (Val true).
Proof.
  intros passwd. destruct (passwd_lock_unlock toy_crypt (fun _ => true) None None 1700000000 3 4 toy_admin (bs "ann") toy_shadow
    (bs "ann:$6$old:19000:0:99999:7:::" ++ [10])) as (p1 & p2 & E1 & E2 & Hl & Hu & _).
  - reflexivity.
  - reflexivity.
  - destruct toy_account as [A1 A2 A3 A4 A5 A6 A7]. split; assumption.
  - by_decide.
  - done.
  - split; vm_compute; discriminate.
  - split_and!; [split; by_decide|by_decide|by_decide].
  - by_decide.
  - exists p1, p2. split_and!; [exact E1|exact E2|apply Hl|]. rewrite Hu. vm_compute. reflexivity.
Defined.

(** ** useradd *)

Lemma valid_name_text name : valid_name name = true ->
  COLON ∉ name /\ 10 ∉ name /\ 0 ∉ name /\ (length name <= 32)%nat /\ hd 0 name <> 45.
Proof.
  unfold valid_name. rewrite !andb_true_iff. intros ((((Hne & Hl) & Hh) & Hc) & _). apply Nat.leb_le in Hl.
  assert (forall c, c ∈ name -> isalnum c || (c =? 95) || (c =? 45) = true) as Hin.
  { intros c Hc'. rewrite forallb_forall in Hc. apply Hc. by apply list_elem_of_In. }
  split_and!; [intros H%Hin; done|intros H%Hin; done|intros H%Hin; done|done|]. apply negb_true_iff in Hh. lia.
Qed.

Lemma find_line_app user lines new rest : find_line user lines = None -> cut_at COLON new = Some (user, rest) ->
  find_line user (lines ++ [new]) = Some new.
Proof.
  intros Hl Hn. induction lines as [|x lines IH]; cbn [app find_line] in *; [by rewrite Hn, streq_refl|].
  destruct (cut_at COLON x) as [[a b]|]; [destruct (streq a user); [done|]|]; by apply IH.
Qed.

Lemma find_entry_app user v lines new rest : cut_at COLON new = Some (user, rest) -> v <> user ->
  find_entry v (lines ++ [new]) = find_entry v lines.
Proof.
  intros Hn Hv. induction lines as [|x lines IH]; cbn [app find_entry]; [by rewrite Hn, streq_ne by congruence|].
  by rewrite IH.
Qed.

(** A line that starts with the name, with a rest that does not depend on it. *)
Lemma name_line name tl : COLON ∉ name -> 10 ∉ name -> 0 ∉ name -> (length name + length tl <= 500)%nat -> plain_text tl ->
  bounded LINE_MAXLEN (name ++ COLON :: tl ++ [10]) = name ++ COLON :: tl ++ [10] /\
  line_ok LINE_MAXLEN (name ++ COLON :: tl ++ [10]) /\ cut_at COLON (name ++ COLON :: tl ++ [10]) = Some (name, tl ++ [10]).
Proof.
  intros Hc H10 H0 Hl [P1 P2]. unfold bounded, LINE_MAXLEN. split_and!.
  - apply take_ge. rewrite length_app. cbn [length]. rewrite length_app. cbn [length]. lia.
  - exists (name ++ COLON :: tl). split; [by rewrite <-app_assoc|]. split_and!; [set_solver by done|set_solver by done|].
    rewrite length_app. cbn [length]. rewrite length_app. cbn [length]. lia.
  - by rewrite cut_at_app.
Qed.

Lemma max_field_ge ls i m : m <= max_field ls i m.
Proof.
  revert m. induction ls as [|l ls IH]; intros m; cbn [max_field]; [lia|]. etrans; [|apply IH].
  destruct (split_colon [] l !! i) as [f|]; [|lia]. destruct (Z.ltb_spec m (atoi f)); lia.
Qed.

(** The files before: three tables of lines with room for one more, none of
    which names the new account. *)
Record tables (p : proc) (name : list Z) (pws shs grs : list (list Z)) : Prop := Tables {
  tb_pw : p_files p !! s_etc_passwd = Some (concat pws);
  tb_sh : p_files p !! s_etc_shadow = Some (concat shs);
  tb_gr : p_files p !! s_etc_group = Some (concat grs);
  tb_lines : Forall (line_ok LINE_MAXLEN) pws /\ Forall (line_ok LINE_MAXLEN) shs /\ Forall (line_ok LINE_MAXLEN) grs;
  tb_room : (length pws < MAX_LINES /\ length shs < MAX_LINES /\ length grs < MAX_LINES)%nat;
  tb_fresh : find_line name pws = None /\ find_line name shs = None;
  tb_names : max_field pws 0 0 < 1000;
}.

Definition new_pw (name : list Z) : list Z := name ++ COLON :: (bs "x:1000:1000::/home/" ++ name ++ bs ":/bin/tsh") ++ [10].
Definition new_sh (name : list Z) : list Z := name ++ COLON :: bs "!:0:0:99999:7::" ++ [10].
Definition new_gr (name : list Z) : list Z := name ++ COLON :: bs "x:1000:" ++ [10].

Section Useradd.
Context (crypt : list Z -> list Z -> option (list Z)) (can_mkdir : list Z -> bool) (now rand1 rand2 : Z).
Context (p : proc) (name : list Z) (pws shs grs : list (list Z)) (Hv : valid_name name = true) (Htb : tables p name pws shs grs).

Lemma new_pw_line : bounded LINE_MAXLEN (new_pw name) = new_pw name /\ line_ok LINE_MAXLEN (new_pw name) /\
  exists r, cut_at COLON (new_pw name) = Some (name, r).
Proof.
  destruct (valid_name_text _ Hv) as (Nc & N10 & N0 & Nl & _).
  destruct (name_line name (bs "x:1000:1000::/home/" ++ name ++ bs ":/bin/tsh")) as (E1 & E2 & E3); [done|done|done| | |].
  - rewrite !length_app. cbn. lia.
  - apply plain_app; [split; by_decide|]. apply plain_app; [done|split; by_decide].
  - split_and!; [done|done|by eexists].
Qed.

Lemma load_run path lines q : p_files q !! path = Some (concat lines) -> Forall (line_ok LINE_MAXLEN) lines -> (length lines < MAX_LINES)%nat ->
  load 0 path q = Some (Val lines, q).
Proof.
  intros E Hl Hn. unfold load. cbn [Z.eqb]. unfold mbind, U_bind, lines_load. unfold mbind, U_bind, fopen. rewrite E.
  unfold mret, U_ret. rewrite fgets_lines_concat by done. by rewrite take_ge by lia.
Qed.

Lemma new_lines : (bounded LINE_MAXLEN (name ++ bs ":x:" ++ decimal_text 1000 ++ bs ":" ++ [10]) = new_gr name) /\
  passwd_line name 1000 1000 [] (bounded 256 (bs "/home" ++ bs "/" ++ name)) (bs "/bin/tsh") = new_pw name /\
  ua_shadow_line crypt now rand1 rand2 name None = new_sh name.
Proof.
  destruct (valid_name_text _ Hv) as (Nc & N10 & N0 & Nl & _).
  assert (Eh : bounded 256 (bs "/home" ++ bs "/" ++ name) = bs "/home/" ++ name).
  { unfold bounded. rewrite take_ge; [done|]. rewrite !length_app. cbn. lia. }
  split_and!.
  - apply (name_line name (bs "x:1000:")); [done|done|done|cbn; lia|split; by_decide].
  - unfold passwd_line. rewrite Eh, <-(proj1 (new_pw_line)).
    unfold new_pw. change (decimal_text 1000) with (bs "1000"). by rewrite <-!app_assoc.
  - apply (name_line name (bs "!:0:0:99999:7::")); [done|done|done|cbn; lia|split; by_decide].
Qed.

Lemma uid_run o q : a_uid o < 0 -> a_system o = false -> ua_uid 0 o pws q = Some (Val 1000, q).
Proof.
  intros Hu Hs. unfold ua_uid. rewrite (proj2 (Z.leb_gt 0 _) Hu), Hs. pose proof (tb_names _ _ _ _ _ Htb) as Hm.
  pose proof (max_field_ge pws 0 0) as Hge. cbv zeta. rewrite s32_small by lia.
  destruct (Z.ltb_spec (max_field pws 0 0 + 1) 1000); [done|]. by replace (max_field pws 0 0 + 1) with 1000 by lia.
Qed.

Lemma add_line_run ls l q : (length ls < MAX_LINES)%nat -> add_line ls l q = Some (Val (ls ++ [l]), q).
Proof. intros Hl. unfold add_line. by rewrite (proj2 (Nat.ltb_lt _ _) Hl). Qed.

Lemma useradd_run : exists p2, useradd_main crypt (fun _ => true) can_mkdir now rand1 rand2 0 [name] p = Some (Exit 0, p2) /\
  p_files p2 = <[s_etc_shadow := concat (shs ++ [new_sh name])]>
    (<[s_etc_passwd := concat (pws ++ [new_pw name])]> (<[s_etc_group := concat (grs ++ [new_gr name])]> (p_files p))) /\
  p_in p2 = p_in p /\ p_euid p2 = p_euid p.
Proof.
  destruct (valid_name_text _ Hv) as (Nc & N10 & N0 & Nl & Nh). destruct (tb_lines _ _ _ _ _ Htb) as (L1 & L2 & L3).
  destruct (tb_room _ _ _ _ _ Htb) as (R1 & R2 & R3). destruct (tb_fresh _ _ _ _ _ Htb) as [F1 F2]. pose proof (tb_names _ _ _ _ _ Htb) as Hm.
  destruct new_lines as (E1 & E2 & E3).
  unfold useradd_main. cbn [useradd_args]. rewrite (proj2 (Z.eqb_neq _ _) Nh), !streq_ne by (intros ->; by apply Nh). cbn [orb andb].
  unfold mbind at 1, U_bind at 1, mret at 1, U_ret at 1. cbn [a_defaults a_name]. change (default [] (Some name)) with name. rewrite Hv. cbn [negb].
  unfold mbind at 1, U_bind at 1. rewrite (load_run _ pws) by (done || apply Htb).
  unfold mbind at 1, U_bind at 1. rewrite (load_run _ shs) by (done || apply Htb).
  unfold mbind at 1, U_bind at 1. rewrite (load_run _ grs) by (done || apply Htb).
  rewrite bool_decide_eq_true_2 by done. cbn [negb].
  unfold mbind at 1, U_bind at 1. rewrite uid_run by done.
  unfold mbind at 1, U_bind at 1. unfold ua_gid. cbn [a_gid]. unfold mbind at 1, U_bind at 1. rewrite add_line_run, E1 by done.
  unfold mbind at 1, U_bind at 1. cbn [save lines_save mret U_ret]. unfold mret at 1, U_ret at 1. cbn [a_home a_base a_comment a_shell a_pass].
  unfold str_text. change (default _ (Some [])) with (@nil Z). change (default _ (default _ None)) with (bs "/home"). change (default _ (Some (bs "/bin/tsh"))) with (bs "/bin/tsh").
  unfold mbind at 1, U_bind at 1. rewrite add_line_run by done. unfold mbind at 1, U_bind at 1. rewrite add_line_run, E2, E3 by done.
  eexists. split; [done|]. done.
Qed.

(** The new account: locked, and no other account has changed. *)
Lemma useradd_account p2 :
  p_files p2 = <[s_etc_shadow := concat (shs ++ [new_sh name])]>
    (<[s_etc_passwd := concat (pws ++ [new_pw name])]> (<[s_etc_group := concat (grs ++ [new_gr name])]> (p_files p))) ->
  account p2 name (shs ++ [new_sh name]) (new_sh name) /\ hash_of (new_sh name) = [BANG] /\
  forall v, v <> name -> fst <$> shadow_hash v p2 = fst <$> shadow_hash v p.
Proof.
  intros Ef. destruct (valid_name_text _ Hv) as (Nc & N10 & N0 & Nl & Nh). destruct (tb_lines _ _ _ _ _ Htb) as (L1 & L2 & L3).
  destruct (tb_room _ _ _ _ _ Htb) as (R1 & R2 & R3). destruct (tb_fresh _ _ _ _ _ Htb) as [F1 F2].
  destruct (name_line name (bs "!:0:0:99999:7::")) as (_ & Hok & Hcut); [done|done|done|cbn; lia|split; by_decide|].
  fold (new_sh name) in Hok, Hcut. destruct new_pw_line as (_ & Pok & Pr & Pcut).
  assert (Ls : Forall (line_ok LINE_MAXLEN) (shs ++ [new_sh name])) by (apply Forall_app; split; [done|by apply Forall_singleton]).
  assert (Es : p_files p2 !! s_etc_shadow = Some (concat (shs ++ [new_sh name]))) by (rewrite Ef; apply lookup_insert_eq).
  assert (Hac : account p2 name (shs ++ [new_sh name]) (new_sh name)).
  { split; [done| |done|done|rewrite length_app; cbn [length]; lia|by eapply find_line_app|].
    - exists (concat (pws ++ [new_pw name])). split; [by rewrite Ef, lookup_insert_ne, lookup_insert_eq by done|].
      rewrite fgets_lines_concat by (apply Forall_app; split; [done|by apply Forall_singleton]).
      by rewrite find_line_entry, (find_line_app _ _ _ _ F1 Pcut), Pcut.
    - rewrite split_colon_length. unfold new_sh. rewrite colons_app.
      assert (colons (COLON :: bs "!:0:0:99999:7::" ++ [10]) = 7%nat) as -> by (vm_compute; reflexivity). lia. }
  split_and!; [done| |].
  - unfold hash_of, shadow_fields. by rewrite (split_colon_cut [] _ _ _ Hcut).
  - intros v Hne. unfold shadow_hash, mbind, U_bind, fopen. rewrite Es, (tb_sh _ _ _ _ _ Htb), !fgets_lines_concat by done.
    unfold mret, U_ret. by rewrite (find_entry_app _ _ _ _ _ Hcut Hne).
Qed.
End Useradd.


Definition toy_group : list (list Z) := [bs "root:x:0:" ++ [10]].

Definition toy_root : proc :=
  Proc (<[s_etc_passwd := bs "root:x:0:0::/root:/bin/tsh" ++ [10]]> (<[s_etc_shadow := bs "root:!:19000:0:99999:7:::" ++ [10]]>
         (<[s_etc_group := concat toy_group]> ∅)))
       (bs "new" ++ [10] ++ bs "new" ++ [10]) [] [] 0 0 0 [].


(** Two accounts, one number: the second useradd takes 1000 again. *)
Example useradd_shares_numbers :
  match useradd_main toy_crypt (fun _ => true) (fun _ => true) 1700000000 3 4 0 [bs "ann"] toy_root with
  | Some (Exit 0, p2) =>
      match useradd_main toy_crypt (fun _ => true) (fun _ => true) 1700000000 3 4 0 [bs "bob"] p2 with
      | Some (Exit 0, p3) => p_files p3 !! s_etc_passwd =
          Some (bs "root:x:0:0::/root:/bin/tsh" ++ [10] ++ bs "ann:x:1000:1000::/home/ann:/bin/tsh" ++ [10] ++
                bs "bob:x:1000:1000::/home/bob:/bin/tsh" ++ [10])
      | _ => False
      end
  | _ => False
  end.
Proof. vm_compute. reflexivity. Qed.
