(* ===== verification/Sed.v ===== *)
(** * sed and echo (src/userspace)

    The matcher of sed.c is an older copy of grep's: the parts that are the same
    text are those of [Grep] ([next_bar], [quantifier], [mchar]), the others
    are here. A script is a list of [cmd]; a run edits the lines of one file
    after the other in the pattern space of [space]. Memory allocation is taken
    to succeed; an expression ends at its terminator, also when its last byte
    is a backslash and the code looks at the byte behind. [None] is another
    read outside of an object, or a script that is not done when the fuel is
    used up. *)

From stdpp Require Import base numbers list gmap.
From Stdlib Require Import ZArith Lia ZifyBool.
From S2P Require Import Prelude.
From S2P Require Import Klib.
From S2P Require Import Grep.
From S2P Require Import Unix.

(** ** echo *)

Fixpoint echo_args (first : bool) (args : list (list Z)) : U unit :=
  match args with
  | [] => mret tt
  | a :: args' => _ ← (if first then mret tt else printf [32]); _ ← printf a; echo_args false args'
  end.

Definition echo_main (args : list (list Z)) : U unit := _ ← echo_args true args; _ ← printf [10]; exit 0.

(** ** The matcher *)

Definition SED_BUF : Z := 512.

(** The bracket that ends a class. *)
Fixpoint sed_class_end (fuel : nat) (p : list Z) (i : nat) (first : bool) : option nat :=
  match fuel, p with
  | O, _ | _, [] => None
  | S fuel', c :: _ =>
      if (c =? 93) && negb first then Some i
      else
        let n := if (c =? 92) && negb (at_ p 1 =? 0) then 2%nat else 1%nat in
        sed_class_end fuel' (drop n p) (i + n) false
  end.

Definition sed_atom_len (re : list Z) (ere : bool) : nat :=
  let c := at_ re 0 in
  if (c =? 0) || (c =? 41) || (c =? 124) then O
  else if negb ere && (c =? 92) then
    let e := at_ re 1 in
    if (e =? 40) || (e =? 41) || (e =? 124) || (e =? 123) || (e =? 125) then O else 2%nat
  else if ere && (c =? 40) then O
  else if c =? 91 then match sed_class_end (length re) (drop 1 re) 1 true with Some e => S e | None => O end
  else 1%nat.

(** The members of a class of [n] bytes at [q]. *)
Fixpoint sed_class_match (fuel : nat) (c : Z) (q : list Z) (n : nat) : bool :=
  match fuel, n with
  | O, _ | _, O => false
  | S fuel', S _ =>
      let lo := at_ q 0 in
      if bool_decide (2 < n)%nat && (at_ q 1 =? 45)
      then ((lo <=? c) && (c <=? at_ q 2)) || sed_class_match fuel' c (drop 3 q) (n - 3)
      else (c =? lo) || sed_class_match fuel' c (drop 1 q) (n - 1)
  end.

Definition sed_atom_char (re : list Z) (c : Z) (ere icase : bool) : bool :=
  let ch := at_ re 0 in
  if negb ere && (ch =? 92) then
    let e := at_ re 1 in
    if e =? 110 then c =? 10
    else if e =? 116 then c =? 9
    else if e =? 114 then c =? 13
    else if e =? 48 then c =? 0
    else mchar icase c =? mchar icase e
  else if ch =? 46 then negb (c =? 0)
  else if ch =? 91 then
    let neg := at_ re 1 =? 94 in
    let p := drop (if neg then 2 else 1)%nat re in
    match sed_class_end (length p) p 0 true with
    | None => false
    | Some e => xorb neg (sed_class_match (S e) c p e)
    end
  else mchar icase c =? mchar icase ch.

(** The search starts with one open parenthesis, in front of the first. *)
Definition sed_group_end (re : list Z) (ere : bool) : option nat := group_end_loop (length re) ere re 0 1.

Section Engine.
Context (ere icase : bool) (rec : list Z -> list Z -> bool).

(** A continuation returns the flag [ok] of its level, which is set exactly
    when it stops the enumeration, and the flag [ok] of [mseq_ctx]. *)
Definition flags : Type := bool * bool.

(** The lengths of a group, from [l] on: the first that stops. *)
Fixpoint sed_lengths (n l : nat) (gbuf s : list Z) (cb : list Z -> flags) : flags :=
  match n with
  | O => (false, false)
  | S n' =>
      let here := if rec gbuf (take l s) then cb (drop l s) else (false, false) in
      if fst here then here
      else let later := sed_lengths n' (S l) gbuf s cb in (fst later, snd here || snd later)
  end.

Definition sed_atom_each (re s : list Z) (cb : list Z -> flags) : flags :=
  let c := at_ re 0 in
  if (c =? 40) || (negb ere && (c =? 92) && (at_ re 1 =? 40)) then
    match sed_group_end re ere with
    | None => (false, false)
    | Some gend =>
        let gstart := if c =? 40 then 1%nat else 2%nat in
        let gparen := if negb ere && (at_ re (gend - 1) =? 41) then (gend - 1)%nat else gend in
        let gbuf := take (gparen - gstart) (drop gstart re) in
        if (gparen <? gstart)%nat || (SED_BUF <=? zlen gbuf) then (false, false)
        else sed_lengths (Nat.min (S (length s)) (Z.to_nat SED_BUF)) 0 gbuf s cb
    end
  else
    match s with
    | [] => (false, false)
    | b :: s' => if sed_atom_char re b ere icase then cb s' else (false, false)
    end.

(** [q_cont] with [count] repetitions left; [final] is [mseq_cont], which
    returns 1 when the rest does not match. *)
Fixpoint sed_q_cont (count : nat) (atom : list Z) (final : list Z -> bool) (s : list Z) : flags :=
  match count with
  | O | S O => (negb (final s), final s)
  | S count' => sed_atom_each atom s (sed_q_cont count' atom final)
  end.

Definition sed_reps_match (atom s : list Z) (count : Z) (final : list Z -> bool) : flags :=
  if count =? 0 then (negb (final s), final s)
  else sed_atom_each atom s (sed_q_cont (Z.to_nat count) atom final).

Fixpoint sed_count_loop (n : nat) (count : Z) (atom s : list Z) (final : list Z -> bool) : bool :=
  match n with
  | O => false
  | S n' =>
      let '(ret, ok) := sed_reps_match atom s count final in
      if ret then true else if ok then true else sed_count_loop n' (count - 1) atom s final
  end.

Definition sed_item (re s : list Z) : bool :=
  let alen := sed_atom_len re ere in
  if bool_decide (alen = O) then false
  else
    let after := drop alen re in
    let '(qmin, qmax, qlen) := quantifier after ere in
    let rest := drop qlen after in
    let max := if qmax <? 0 then zlen s + 1 else qmax in
    sed_count_loop (Z.to_nat (max - qmin + 1)) max re s (rec rest).

Definition sed_step (re s : list Z) : bool :=
  match re with
  | [] => true
  | c :: re' =>
      if c =? 94 then rec re' s
      else if (c =? 36) && bool_decide (re' = []) then bool_decide (s = [])
      else
        match next_bar ere re with
        | Some _ => alt_loop ere rec (S (length re)) re s
        | None => sed_item re s
        end
  end.
End Engine.

Fixpoint sed_fuel (fuel : nat) (ere icase : bool) (re s : list Z) : bool :=
  match fuel with
  | O => false
  | S fuel' => sed_step ere icase (sed_fuel fuel' ere icase) re s
  end.

Definition sed_m_seq (re s : list Z) (ere icase : bool) : bool := sed_fuel (S (length re)) ere icase re s.

(** ** The script *)

Inductive op :=
| CMD_S | CMD_P | CMD_D | CMD_Q | CMD_EQ | CMD_Y | CMD_A | CMD_I
| CMD_C | CMD_H | CMD_G | CMD_X | CMD_N | CMD_B | CMD_T | CMD_LABEL
| CMD_BRACE.

#[export] Instance op_eq_dec : EqDecision op.
Proof. solve_decision. Defined.

(** An address: a type (0 none, 1 line, 2 expression, 3 last line), a number
    and an expression. *)
Record addr := Addr {
  ad_type : Z;
  ad_num : Z;
  ad_re : list Z;
}.

Definition no_addr : addr := Addr 0 0 [].

(** [c_data] is what is stored of the 512 bytes of [data], without the zeros
    that follow. *)
Record cmd := Cmd {
  c_op : op;
  c_addr1 : addr;
  c_addr2 : addr;
  c_step : Z;
  c_data : list Z;
}.

Definition SCRIPT_MAX : nat := 64.

Fixpoint number (p : list Z) (v : Z) : Z * list Z :=
  match p with
  | c :: p' => if isdigit c then number p' (s64 (s64 (v * 10) + (c - 48))) else (v, p)
  | [] => (v, [])
  end.

(** The bytes up to [delim], at most [n]; the rest starts at the byte that
    stopped the copy. *)
Fixpoint copy_until (n : nat) (delim : Z) (p : list Z) : list Z * list Z :=
  match n, p with
  | S n', c :: p' => if c =? delim then ([], p) else let '(a, r) := copy_until n' delim p' in (c :: a, r)
  | _, _ => ([], p)
  end.

(** One part of [s] or [y] in a buffer of [size] bytes: the part and what
    follows its delimiter. *)
Definition part (size : nat) (delim : Z) (p : list Z) : option (list Z * list Z) :=
  let '(a, r) := copy_until (size - 1) delim p in
  match r with
  | c :: r' => if c =? delim then Some (a, r') else None
  | [] => None
  end.

Definition parse_addr (p : list Z) : option (addr * list Z) :=
  match p with
  | [] => None
  | c :: p' =>
      if c =? 36 then Some (Addr 3 0 [], p')
      else if c =? 47 then '(re, r) ← part 128 47 p'; Some (Addr 2 0 re, r)
      else if isdigit c then let '(n, r) := number p 0 in Some (Addr 1 n [], r)
      else None
  end.

(** The addresses of a command, and the step. *)
Definition parse_addrs (p : list Z) : option (addr * addr * Z * list Z) :=
  let c := at_ p 0 in
  if isdigit c || (c =? 36) || (c =? 47) then
    '(a1, p) ← parse_addr p;
    '(a2, step, p) ←
      (if at_ p 0 =? 44 then '(a2, p) ← parse_addr (drop 1 p); Some (a2, 0, p)
       else if at_ p 0 =? 126 then let '(n, p) := number (drop 1 p) 0 in Some (no_addr, n, p)
       else Some (no_addr, 0, p));
    Some (a1, a2, step, drop_blanks p)
  else Some (no_addr, no_addr, 0, p).

(** The flags of [s]: g, p, i, w. *)
Fixpoint subst_flags (p : list Z) (g pr i w : bool) : bool * bool * bool * bool :=
  match p with
  | c :: p' =>
      if c =? 103 then subst_flags p' true pr i w
      else if c =? 112 then subst_flags p' g true i w
      else if c =? 105 then subst_flags p' g pr true w
      else if c =? 119 then subst_flags p' g pr i true
      else (g, pr, i, w)
  | [] => (g, pr, i, w)
  end.

Definition flag_digit (b : bool) : Z := if b then 49 else 48.

(** The text of [a], [i] and [c]. *)
Definition text_arg (p : list Z) : list Z :=
  let p := drop_blanks p in
  if at_ p 0 =? 92 then drop_blanks (drop 1 p) else p.

(** What a command line is: nothing ([#]), a command, or an error. *)
Inductive parsed :=
| Comment
| Command (c : cmd)
| BadCommand.

(** A command without its addresses; [None] is a read behind the end of the
    line, when the delimiter of [s] or [y] is missing. *)
Definition parse_op (a1 a2 : addr) (step : Z) (p : list Z) : option parsed :=
  let mk o data := Some (Command (Cmd o a1 a2 step (bounded 512 data))) in
  match p with
  | [] => Some BadCommand
  | o :: p =>
      if o =? 115 then
        match p with
        | [] => None
        | delim :: p =>
            match part 256 delim p with
            | None => Some BadCommand
            | Some (pat, p) =>
                match part 256 delim p with
                | None => Some BadCommand
                | Some (rep, p) =>
                    let '(g, pr, i, w) := subst_flags p false false false false in
                    mk CMD_S (pat ++ [1] ++ rep ++ [1] ++ map flag_digit [g; pr; i; w])
                end
            end
        end
      else if o =? 112 then mk CMD_P []
      else if o =? 100 then mk CMD_D []
      else if o =? 113 then mk CMD_Q []
      else if o =? 61 then mk CMD_EQ []
      else if o =? 121 then
        match p with
        | [] => None
        | delim :: p =>
            match part 128 delim p with
            | None => Some BadCommand
            | Some (src, p) =>
                match part 128 delim p with
                | None => Some BadCommand
                | Some (dst, p) => mk CMD_Y (src ++ [1] ++ dst)
                end
            end
        end
      else if o =? 97 then mk CMD_A (text_arg p)
      else if o =? 105 then mk CMD_I (text_arg p)
      else if o =? 99 then mk CMD_C (text_arg p)
      else if o =? 104 then mk CMD_H []
      else if o =? 103 then mk CMD_G []
      else if o =? 120 then mk CMD_X []
      else if o =? 110 then mk CMD_N []
      else if o =? 98 then mk CMD_B (drop_blanks p)
      else if o =? 116 then mk CMD_T (drop_blanks p)
      else if o =? 58 then mk CMD_LABEL (drop_blanks p)
      else if o =? 123 then mk CMD_BRACE []
      else if o =? 35 then Some Comment
      else Some BadCommand
  end.

(** The script with the command of the line [s] added; [None] in the result
    for -1. *)
Definition script_add (s : list Z) (script : list cmd) : option (option (list cmd)) :=
  if (SCRIPT_MAX <=? length script)%nat then Some None
  else
    match parse_addrs (drop_blanks s) with
    | None => Some None
    | Some (a1, a2, step, p) =>
        r ← parse_op a1 a2 step p;
        Some (match r with
              | Comment => Some script
              | Command c => Some (script ++ [c])
              | BadCommand => None
              end)
    end.

(** ** Editing *)

Section Edit.
Context (g_ere g_suppress : bool) (g_script : list cmd).

(** The search for an expression anywhere in the line. *)
Definition sed_search (re line : list Z) : bool :=
  existsb (fun i => sed_m_seq re (drop i line) g_ere false) (seq 0 (S (length line))).

Definition addr_match (c : cmd) (which : bool) (line : list Z) (lineno nlines : Z) : bool :=
  let a := if which then c_addr1 c else c_addr2 c in
  if ad_type a =? 0 then true
  else if ad_type a =? 3 then lineno =? nlines
  else if ad_type a =? 1 then (lineno =? ad_num (c_addr1 c)) || (lineno =? ad_num (c_addr2 c))
  else if ad_type a =? 2 then sed_search (ad_re a) line
  else false.

Definition rep_escape (e : Z) : Z := if e =? 110 then 10 else if e =? 116 then 9 else e.

(** The replacement text in a buffer of 512 bytes. *)
Fixpoint expand_rep (rep m out : list Z) : list Z :=
  if (511 <=? length out)%nat then out
  else
    match rep with
    | [] => out
    | c :: rep =>
        if c =? 38 then
          expand_rep rep m (out ++ take (if (512 <=? length out + length m)%nat then 512 - length out - 1 else length m) m)
        else if c =? 92 then
          match rep with
          | [] => out
          | e :: rep => if (49 <=? e) && (e <=? 57) then expand_rep rep m out else expand_rep rep m (out ++ [rep_escape e])
          end
        else expand_rep rep m (out ++ [c])
    end.

(** The stored parts of [s]: expression, replacement, flags g and i. The loops
    look for the mark only; [None] is a read behind the 512 bytes. *)
Definition subst_parts (data : list Z) : option (list Z * list Z * bool * bool) :=
  let d := data ++ replicate (512 - length data) 0 in
  let '(pat, p) := copy_until 255 1 d in
  let '(rep, p) := copy_until 255 1 (drop 1 p) in
  let p := drop 1 p in
  g ← p !! 0%nat; pr ← p !! 1%nat; i ← p !! 2%nat;
  Some (cstr pat, cstr rep, g =? 49, i =? 49).

(** How much of [s] a match at its start takes. *)
Definition consumed (re s : list Z) (icase : bool) : nat :=
  default (length s)
    (find (fun cl => sed_m_seq re (take cl s) g_ere icase && ((cl =? length s)%nat || negb (sed_m_seq re (take cl s) g_ere icase)))
       (seq 0 (Nat.min (S (length s)) 512))).

(** The next match from [pos] on: start and length. *)
Definition next_match (re line : list Z) (icase : bool) (pos : nat) : option (nat * nat) :=
  match find (fun i => sed_m_seq re (drop i line) g_ere icase) (seq pos (S (length line) - pos)) with
  | Some i => Some (i, consumed re (drop i line) icase)
  | None => None
  end.

(** Bytes appended to [out] as far as the buffer of [LINE_MAX * 2] reaches. *)
Definition append (out x : list Z) : list Z := out ++ take (Z.to_nat 8191 - length out) x.

(** The loop of [do_subst]; [None] when the fuel is used up. *)
Fixpoint subst_loop (fuel : nat) (re rep line : list Z) (global icase : bool) (pos : nat) (out : list Z) (done : bool) : option (bool * list Z) :=
  match fuel with
  | O => None
  | S fuel' =>
      if (length line <? pos)%nat then Some (done, out)
      else
        match next_match re line icase pos with
        | None => Some (done, out)
        | Some (mstart, mlen) =>
            let out := append out (take (mstart - pos) (drop pos line)) in
            let out := append out (expand_rep rep (take (Nat.min mlen 511) (drop mstart line)) []) in
            let pos := (mstart + (if (0 <? mlen)%nat then mlen else 1))%nat in
            if global then subst_loop fuel' re rep line global icase pos out true
            else Some (true, append out (drop pos (line ++ [0])))
        end
  end.

(** Whether a substitution happened, and the line. *)
Definition do_subst (data line : list Z) : option (bool * list Z) :=
  '(pat, rep, g, i) ← subst_parts data;
  '(done, out) ← subst_loop (S (S (length line))) pat rep line g i 0 [] false;
  Some (if done : bool then (true, if zlen out <? LINE_MAX then cstr out else line) else (false, line)).

(** One character of [y]: the first place in [src] with a partner in [dst]. *)
Fixpoint y_char (src dst : list Z) (c : Z) : Z :=
  match src with
  | s :: src' =>
      match dst with
      | d :: dst' => if c =? s then d else y_char src' dst' c
      | [] => c
      end
  | [] => c
  end.

Definition y_parts (data : list Z) : list Z * list Z :=
  let '(src, p) := copy_until 127 1 (data ++ replicate (512 - length data) 0) in
  (cstr src, cstr (take 127 (drop 1 p))).

(** [all[i]] without its line end. *)
Fixpoint strip_eol (s : list Z) : list Z :=
  match s with
  | [] => []
  | c :: s' => let r := strip_eol s' in if bool_decide (r = []) && ((c =? 10) || (c =? 13)) then [] else c :: r
  end.

(** The state while one file is edited: the pattern space, the index of its
    line, the flags of the current line, the hold space and [range_active]. *)
Record space := Space {
  sp_line : list Z;
  sp_i : nat;
  sp_deleted : bool;
  sp_printed : bool;
  sp_hold : list Z;
  sp_active : list bool;
}.

Definition with_line (s : space) (l : list Z) : space := Space l (sp_i s) (sp_deleted s) (sp_printed s) (sp_hold s) (sp_active s).
Definition with_printed (s : space) (b : bool) : space := Space (sp_line s) (sp_i s) (sp_deleted s) b (sp_hold s) (sp_active s).
Definition with_deleted (s : space) (b : bool) : space := Space (sp_line s) (sp_i s) b (sp_printed s) (sp_hold s) (sp_active s).
Definition with_active (s : space) (ci : nat) (b : bool) : space :=
  Space (sp_line s) (sp_i s) (sp_deleted s) (sp_printed s) (sp_hold s) (<[ci := b]> (sp_active s)).

Definition lineno (s : space) : Z := Z.of_nat (sp_i s) + 1.

(** Is the line in the range of command [ci]? *)
Definition in_range (ci : nat) (c : cmd) (nlines : Z) (s : space) : bool * space :=
  let '(r, s) :=
    if ad_type (c_addr1 c) =? 0 then (true, s)
    else if ad_type (c_addr2 c) =? 0 then (addr_match c true (sp_line s) (lineno s) nlines, s)
    else
      let active := default false (sp_active s !! ci) in
      if negb active && addr_match c true (sp_line s) (lineno s) nlines then (true, with_active s ci true)
      else if active then
        (true, if addr_match c false (sp_line s) (lineno s) nlines then with_active s ci false else s)
      else (false, s) in
  if (0 <? c_step c) && (ad_type (c_addr1 c) =? 1) then
    ((ad_num (c_addr1 c) <=? lineno s) && (Z.rem (lineno s - ad_num (c_addr1 c)) (c_step c) =? 0), s)
  else (r, s).

(** What a command does to the run. *)
Inductive flow :=
| Quit
| Next (s : space)
| Restart (s : space).

Definition puts (l : list Z) : U unit := printf (l ++ [10]).

Definition exec_cmd (all : list (list Z)) (c : cmd) (s : space) : U flow :=
  match c_op c with
  | CMD_S =>
      match do_subst (c_data c) (sp_line s) with
      | None => fault
      | Some (done, l) => mret (Next (if done then with_printed (with_line s l) false else s))
      end
  | CMD_P => _ ← puts (sp_line s); mret (Next (with_printed s true))
  | CMD_D => mret (Next (with_deleted s true))
  | CMD_Q => mret Quit
  | CMD_EQ => _ ← puts (decimal_text (lineno s)); mret (Next s)
  | CMD_Y => let '(src, dst) := y_parts (c_data c) in mret (Next (with_line s (map (y_char src dst) (sp_line s))))
  | CMD_A => _ ← puts (c_data c); mret (Next s)
  | CMD_I => _ ← puts (c_data c); mret (Next (with_printed s true))
  | CMD_C => _ ← puts (c_data c); mret (Next (with_printed (with_deleted s true) true))
  | CMD_H => mret (Next (Space (sp_line s) (sp_i s) (sp_deleted s) (sp_printed s) (sp_line s) (sp_active s)))
  | CMD_G => mret (Next (with_line s (sp_hold s)))
  | CMD_X => mret (Next (Space (sp_hold s) (sp_i s) (sp_deleted s) (sp_printed s) (sp_line s) (sp_active s)))
  | CMD_N =>
      let s := match all !! S (sp_i s) with
               | Some l => Space (strip_eol l) (S (sp_i s)) (sp_deleted s) (sp_printed s) (sp_hold s) (sp_active s)
               | None => s
               end in
      if negb g_suppress then _ ← puts (sp_line s); mret (Next (with_printed s true)) else mret (Next s)
  | CMD_B => mret (Restart s)
  | CMD_T | CMD_LABEL | CMD_BRACE => mret (Next s)
  end.

(** The label loop, from command [ci] on; [None] in the result is [q]. *)
Fixpoint run_script (fuel : nat) (all : list (list Z)) (ci : nat) (restart : bool) (s : space) : U (option space) :=
  match fuel with
  | O => fault
  | S fuel' =>
      let leave s := if restart then run_script fuel' all 0 false s else mret (Some s) in
      match g_script !! ci with
      | None => leave s
      | Some c =>
          let '(r, s) := in_range ci c (Z.of_nat (length all)) s in
          if negb r then run_script fuel' all (S ci) restart s
          else
            f ← exec_cmd all c s;
            match f with
            | Quit => mret None
            | Next s => if sp_deleted s then leave s else run_script fuel' all (S ci) restart s
            | Restart s => if sp_deleted s then run_script fuel' all 0 false s else run_script fuel' all 0 true s
            end
      end
  end.

(** The lines of a file from the one of [s] on; [rounds] is the fuel of the
    script on one line. *)
Fixpoint edit_lines (fuel rounds : nat) (all : list (list Z)) (i : nat) (hold : list Z) (active : list bool) : U (option (list Z * list bool)) :=
  match fuel with
  | O => fault
  | S fuel' =>
      match all !! i with
      | None => mret (Some (hold, active))
      | Some l =>
          r ← run_script rounds all 0 false (Space (strip_eol l) i false false hold active);
          match r with
          | None => mret None
          | Some s =>
              _ ← (if negb (sp_deleted s) && negb (sp_printed s) && negb g_suppress then puts (sp_line s) else mret tt);
              edit_lines fuel' rounds all (S (sp_i s)) (sp_hold s) (sp_active s)
          end
      end
  end.
End Edit.

(** ** The program *)

Record sed_opts := SedOpts {
  se_suppress : bool;
  se_ere : bool;
  se_from_file : bool;
  se_scripts : list (option (list Z));
  se_seen : bool;
  se_files : list (list Z);
}.

Definition sed_none : sed_opts := SedOpts false false false [] false [].

Definition s_sed_usage : list Z :=
  bs "usage: sed [-n] [-E] [-e script] [-f script-file]" ++ [10] ++ bs "           [script] [file...]" ++ [10].

(** One option letter with its value; [None] for a letter that is none. *)
Definition sed_letter (c : Z) (val : option (list Z)) (o : sed_opts) : option sed_opts :=
  let '(SedOpts n e ff sc seen files) := o in
  if c =? 110 then Some (SedOpts true e ff sc seen files)
  else if (c =? 69) || (c =? 114) then Some (SedOpts n true ff sc seen files)
  else if c =? 101 then Some (if (length sc <? SCRIPT_MAX)%nat then SedOpts n e ff (sc ++ [val]) true files else o)
  else if c =? 102 then Some (SedOpts n e true [val] true files)
  else if c =? 105 then Some o
  else None.

(** A word that is no option: the script, or a file. *)
Definition sed_word (a : list Z) (o : sed_opts) : sed_opts :=
  let '(SedOpts n e ff sc seen files) := o in
  if negb seen then (if (length sc <? SCRIPT_MAX)%nat then SedOpts n e ff (sc ++ [Some a]) true files else o)
  else if (length files <? 64)%nat then SedOpts n e ff sc seen (files ++ [a])
  else o.

Fixpoint sed_args (args : list (list Z)) (o : sed_opts) : U sed_opts :=
  match args with
  | [] => mret o
  | a :: rest =>
      let c := at_ a 1 in
      if streq a (bs "--help") || streq a (bs "-h") then _ ← printf s_sed_usage; exit 0
      else if streq a (bs "--version") then _ ← printf (bs "sed (TUS) 1.0" ++ [10]); exit 0
      else if (at_ a 0 =? 45) && negb (c =? 0) then
        let step val (k : sed_opts -> U sed_opts) : U sed_opts :=
          match sed_letter c val o with
          | Some o => k o
          | None => _ ← eprintf (bs "sed: invalid option -- '" ++ [c] ++ bs "'" ++ [10]); exit 1
          end in
        if negb (bool_decide (drop 2 a = [])) then step (Some (drop 2 a)) (sed_args rest)
        else
          match rest with
          | v :: rest' => if (c =? 101) || (c =? 102) then step (Some v) (sed_args rest') else step None (sed_args rest)
          | [] => step None (sed_args rest)
          end
      else sed_args rest (sed_word a o)
  end.

Definition parse_error {A} (s : list Z) : U A := _ ← eprintf (bs "sed: parse error: " ++ s ++ [10]); exit 1.

Fixpoint add_scripts (texts : list (option (list Z))) (script : list cmd) : U (list cmd) :=
  match texts with
  | [] => mret script
  | None :: _ => fault
  | Some s :: texts' =>
      match script_add s script with
      | None => fault
      | Some None => parse_error s
      | Some (Some script) => add_scripts texts' script
      end
  end.

(** The lines of a script file; comments and empty lines are left out. *)
Fixpoint add_lines (lines : list (list Z)) (script : list cmd) : U (list cmd) :=
  match lines with
  | [] => mret script
  | l :: lines' =>
      if (SCRIPT_MAX <=? length script)%nat then mret script
      else
        let s := strip_eol l in
        if (at_ s 0 =? 35) || (at_ s 0 =? 0) then add_lines lines' script
        else
          match script_add s script with
          | None => fault
          | Some None => parse_error s
          | Some (Some script) => add_lines lines' script
          end
  end.

Section Program.
Context (strerror : list Z) (rounds : nat).

Definition no_file {A} (path : list Z) : U A := _ ← eprintf (bs "sed: " ++ path ++ bs ": " ++ strerror ++ [10]); exit 1.

Definition sed_script (o : sed_opts) : U (list cmd) :=
  if se_from_file o then
    match se_scripts o with
    | Some path :: _ =>
        f ← fopen path;
        match f with
        | None => no_file path
        | Some f => add_lines (fgets_lines 4096 f) []
        end
    | _ => fault
    end
  else add_scripts (se_scripts o) [].

Definition SED_LINES : nat := Z.to_nat 8192.

(** The lines of standard input, which are used up. *)
Definition read_stdin : U (list (list Z)) := fun p =>
  let raw := take SED_LINES (read_lines (length (p_in p)) 4096 (p_in p)) in
  Some (Val (map cstr raw),
    Proc (p_files p) (drop (length (concat raw)) (p_in p)) (p_out p) (p_err p) (p_uid p) (p_euid p) (p_gid p) (p_dirs p)).

Fixpoint sed_files (o : sed_opts) (script : list cmd) (files : list (option (list Z))) (hold : list Z) (active : list bool) : U unit :=
  match files with
  | [] => exit 0
  | f :: files' =>
      all ← (match f with
             | None => read_stdin
             | Some path =>
                 f ← fopen path;
                 match f with
                 | None => no_file path
                 | Some f => mret (take SED_LINES (fgets_lines 4096 f))
                 end
             end);
      r ← edit_lines (se_ere o) (se_suppress o) script (S (length all)) rounds all 0 hold active;
      match r with
      | None => exit 0
      | Some (hold, active) => sed_files o script files' hold active
      end
  end.

Definition sed_main (args : list (list Z)) : U unit :=
  o ← sed_args args sed_none;
  if bool_decide (se_scripts o = []) then _ ← eprintf (bs "sed: no script given" ++ [10]); exit 1
  else
    script ← sed_script o;
    let files := if bool_decide (se_files o = []) then [None]
                 else map (fun f => if streq f (bs "-") then None else Some f) (se_files o) in
    sed_files o script files [] (replicate SCRIPT_MAX false).
End Program.
