(* ===== verification/SedProps.v ===== *)
(** * Properties of sed

    What the matcher of sed decides (the first atom of a pattern and nothing
    else), what [s] does with it, which scripts come to an end, and that a
    range of line numbers selects these lines. *)

From stdpp Require Import base numbers list gmap.
From Stdlib Require Import ZArith Lia ZifyBool.
From S2P Require Import Prelude.
From S2P Require Import Klib.
From S2P Require Import Grep.
From S2P Require Import GrepProps.
From S2P Require Import Unix.
From S2P Require Import Sed.

(** ** The recursion of the matcher *)

Section Extensional.
Context (ere icase : bool) (rec1 rec2 : list Z -> list Z -> bool).

Lemma sed_lengths_ext n l gbuf s cb1 cb2 : (forall s', rec1 gbuf s' = rec2 gbuf s') -> (forall s', cb1 s' = cb2 s') ->
  sed_lengths rec1 n l gbuf s cb1 = sed_lengths rec2 n l gbuf s cb2.
Proof. intros Hr Hc. revert l. induction n as [|n IH]; intros l; [done|]. cbn [sed_lengths]. by rewrite Hr, Hc, IH. Qed.

Lemma sed_atom_each_ext re s cb1 cb2 : agree rec1 rec2 (length re) -> (forall s', cb1 s' = cb2 s') ->
  sed_atom_each ere icase rec1 re s cb1 = sed_atom_each ere icase rec2 re s cb2.
Proof.
  intros Ha Hcb. unfold sed_atom_each. destruct ((_ =? 40) || _) eqn:Eg.
  - destruct (sed_group_end re ere) as [g|]; [|done]. cbv zeta. destruct ((_ <? _)%nat || _); [done|].
    apply sed_lengths_ext; [|done]. intros s'. apply Ha. rewrite length_take, length_drop.
    destruct re; [unfold at_ in Eg; cbn in Eg; lia|]. cbn [length]. destruct (_ =? 40); lia.
  - destruct s; [done|]. by rewrite Hcb.
Qed.

Lemma sed_q_cont_ext n re f1 f2 : agree rec1 rec2 (length re) -> (forall s', f1 s' = f2 s') ->
  forall s, sed_q_cont ere icase rec1 n re f1 s = sed_q_cont ere icase rec2 n re f2 s.
Proof.
  intros Ha Hf. induction n as [|[|n] IH]; intros s; [cbn; by rewrite Hf|cbn; by rewrite Hf|]. cbn [sed_q_cont]. by apply sed_atom_each_ext.
Qed.

Lemma sed_count_loop_ext n re s f1 f2 : agree rec1 rec2 (length re) -> (forall s', f1 s' = f2 s') ->
  forall count, sed_count_loop ere icase rec1 n count re s f1 = sed_count_loop ere icase rec2 n count re s f2.
Proof.
  intros Ha Hf. induction n as [|n IH]; intros count; [done|]. cbn [sed_count_loop]. unfold sed_reps_match.
  rewrite !Hf, IH. rewrite (sed_atom_each_ext re s _ (sed_q_cont ere icase rec2 (Z.to_nat count) re f2)); [done|done|].
  intros s'. by apply sed_q_cont_ext.
Qed.

Lemma sed_step_ext re s : agree rec1 rec2 (length re) -> sed_step ere icase rec1 re s = sed_step ere icase rec2 re s.
Proof.
  intros Ha. unfold sed_step. destruct re as [|c re']; [done|]. destruct (c =? 94); [apply Ha; cbn; lia|].
  destruct (_ && _); [done|]. destruct (next_bar ere (c :: re')) eqn:En.
  - apply (alt_loop_ext ere rec1 rec2 (length (c :: re'))); [done|]. right. by rewrite En.
  - unfold sed_item. case_bool_decide as Hl; [done|].
    destruct (quantifier _ ere) as [[qmin qmax] qlen]. apply sed_count_loop_ext; [done|].
    intros s'. apply Ha. rewrite !length_drop. cbn [length] in *. lia.
Qed.
End Extensional.

Lemma sed_fuel_enough ere icase : forall n m re s, (length re < n)%nat -> (length re < m)%nat ->
  sed_fuel n ere icase re s = sed_fuel m ere icase re s.
Proof.
  induction n as [|n IH]; intros m re s Hn Hm; [lia|]. destruct m as [|m]; [lia|]. cbn [sed_fuel].
  apply sed_step_ext. intros re' s' Hlt. apply IH; lia.
Qed.

(** The fuel of [sed_m_seq] is enough: it satisfies the equation of the source,
    in which every nested call is [m_seq] itself. *)
Theorem sed_m_seq_step re s ere icase :
  sed_m_seq re s ere icase = sed_step ere icase (fun re' s' => sed_m_seq re' s' ere icase) re s.
Proof.
  unfold sed_m_seq at 1. cbn [sed_fuel]. apply sed_step_ext. intros re' s' Hlt. unfold sed_m_seq. apply sed_fuel_enough; lia.
Qed.

(** ** The matcher *)

(** The pattern starts with an atom that is no group, and has no alternatives. *)
Record simple_start (ere : bool) (re : list Z) : Prop := SimpleStart {
  ss_paren : at_ re 0 <> 40;
  ss_escape : negb ere && (at_ re 0 =? 92) && (at_ re 1 =? 40) = false;
  ss_anchor : at_ re 0 <> 94 /\ re <> [36];
  ss_bar : next_bar ere re = None;
  ss_atom : sed_atom_len re ere <> O;
}.

(** [n] characters at the start of [s] match the atom. *)
Definition run_of (re : list Z) (ere icase : bool) (n : nat) (s : list Z) : bool :=
  (n <=? length s)%nat && forallb (fun c => sed_atom_char re c ere icase) (take n s).

Lemma run_of_S re ere icase n s :
  run_of re ere icase (S n) s = match s with [] => false | c :: s' => sed_atom_char re c ere icase && run_of re ere icase n s' end.
Proof.
  unfold run_of. destruct s as [|c s]; [done|]. cbn [length take forallb Nat.leb]. destruct (n <=? length s)%nat; cbn [andb]; [done|].
  by rewrite andb_false_r.
Qed.

Lemma run_of_le re ere icase m n s : (m <= n)%nat -> run_of re ere icase n s = true -> run_of re ere icase m s = true.
Proof.
  revert n s. induction m as [|m IH]; intros n s Hm Hn; [done|]. destruct n as [|n]; [lia|]. rewrite run_of_S in *.
  destruct s as [|c s]; [done|]. apply andb_true_iff in Hn as [-> Hn]. cbn [andb]. apply (IH n); [lia|done].
Qed.

Section Matcher.
Context (ere icase : bool) (rec : list Z -> list Z -> bool) (re : list Z) (Hs : simple_start ere re).

Definition either (f : flags) : bool := fst f || snd f.

Lemma sed_atom_simple s cb :
  sed_atom_each ere icase rec re s cb = match s with [] => (false, false) | b :: s' => if sed_atom_char re b ere icase then cb s' else (false, false) end.
Proof. unfold sed_atom_each. rewrite (proj2 (Z.eqb_neq _ _) (ss_paren _ _ Hs)), (ss_escape _ _ Hs). done. Qed.

(** Whether the rest matches makes no difference. *)
Lemma reps_any k final s : either (sed_atom_each ere icase rec re s (sed_q_cont ere icase rec (S k) re final)) = run_of re ere icase (S k) s.
Proof.
  revert s. induction k as [|k IH]; intros s; rewrite sed_atom_simple, run_of_S; destruct s as [|c s]; try done;
    destruct (sed_atom_char re c ere icase); try done.
  - cbn. by destruct (final s).
  - cbn [andb]. change (sed_q_cont ere icase rec (S (S k)) re final s) with
      (sed_atom_each ere icase rec re s (sed_q_cont ere icase rec (S k) re final)). apply IH.
Qed.

Lemma reps_match_any count final s : 0 <= count -> either (sed_reps_match ere icase rec re s count final) = run_of re ere icase (Z.to_nat count) s.
Proof.
  intros Hc. unfold sed_reps_match. destruct (Z.eqb_spec count 0) as [->|]; [by cbn; destruct (final s)|].
  destruct (Z.to_nat count) as [|k] eqn:E; [lia|]. apply reps_any.
Qed.

Lemma count_loop_any n count final s : (0 < n)%nat -> 0 <= count - Z.of_nat n + 1 ->
  sed_count_loop ere icase rec n count re s final = run_of re ere icase (Z.to_nat (count - Z.of_nat n + 1)) s.
Proof.
  revert count. induction n as [|n IH]; intros count Hn Hc; [lia|]. cbn [sed_count_loop].
  pose proof (reps_match_any count final s ltac:(lia)) as Hr. destruct (sed_reps_match _ _ _ _ _ _ _) as [ret ok]. cbn in Hr.
  assert (Hm : (if ret then true else if ok then true else sed_count_loop ere icase rec n (count - 1) re s final) =
    run_of re ere icase (Z.to_nat count) s || sed_count_loop ere icase rec n (count - 1) re s final) by (rewrite <-Hr; by destruct ret, ok).
  rewrite Hm. destruct n as [|n].
  - cbn [sed_count_loop]. rewrite orb_false_r. do 2 f_equal. lia.
  - rewrite IH by lia. replace (count - 1 - Z.of_nat (S n) + 1) with (count - Z.of_nat (S (S n)) + 1) by lia.
    destruct (run_of re ere icase (Z.to_nat count) s) eqn:E; [|done]. symmetry. apply (run_of_le re ere icase _ (Z.to_nat count)); [lia|done].
Qed.
End Matcher.

(** The matcher of sed looks at the first atom of a pattern only: a pattern that
    starts with a character, an escape or a class, and has no alternatives,
    matches a string exactly when the string starts with as many characters
    of this atom as its quantifier asks for; what follows in the pattern makes
    no difference. *)
Theorem sed_matches_first_atom re s ere icase qmin qmax qlen :
  simple_start ere re -> quantifier (drop (sed_atom_len re ere) re) ere = (qmin, qmax, qlen) ->
  0 <= qmin -> qmax < 0 \/ qmin <= qmax ->
  sed_m_seq re s ere icase = run_of re ere icase (Z.to_nat qmin) s.
Proof.
  intros Hs Hq H0 Hm. unfold sed_m_seq. cbn [sed_fuel]. set (rec := sed_fuel (length re) ere icase). unfold sed_step.
  destruct re as [|c re']; [by destruct (ss_atom _ _ Hs)|]. destruct (ss_anchor _ _ Hs) as [Ha Hd]. cbn [at_ nth] in Ha.
  rewrite (proj2 (Z.eqb_neq _ _) Ha). destruct ((c =? 36) && bool_decide (re' = [])) eqn:E.
  { apply andb_true_iff in E as [Ec Er]. apply Z.eqb_eq in Ec as ->. apply bool_decide_eq_true_1 in Er as ->. done. }
  rewrite (ss_bar _ _ Hs). unfold sed_item. rewrite bool_decide_eq_false_2 by apply Hs. rewrite Hq.
  set (max := if qmax <? 0 then zlen s + 1 else qmax). destruct (Z.ltb_spec max qmin).
  - replace (Z.to_nat (max - qmin + 1)) with O by lia. cbn [sed_count_loop]. unfold run_of.
    rewrite (proj2 (Nat.leb_gt (Z.to_nat qmin) (length s))); [done|]. unfold max, zlen in *. destruct (Z.ltb_spec qmax 0); lia.
  - rewrite (count_loop_any ere icase rec _ Hs) by lia. do 2 f_equal. lia.
Qed.

(** ** Substitution *)

(** The test for the length of a match holds at the end of the line only. *)
Lemma consumed_tail ere re s icase : consumed ere re s icase = length s.
Proof.
  unfold consumed. destruct (find _ _) as [cl|] eqn:E; [|done]. cbn. apply find_some in E as [_ E].
  destruct (sed_m_seq re (take cl s) ere icase); [|done]. cbn [andb negb] in E. rewrite orb_false_r in E. by apply Nat.eqb_eq.
Qed.

Lemma find_first {A} (f : A -> bool) l i x : l !! i = Some x -> f x = true -> (forall j y, (j < i)%nat -> l !! j = Some y -> f y = false) -> find f l = Some x.
Proof.
  revert i. induction l as [|y l IH]; intros i Hi Hf Hj; [done|]. cbn [find]. destruct i as [|i].
  - injection Hi as ->. by rewrite Hf.
  - rewrite (Hj O y) by (lia || done). apply (IH i); [done|done|]. intros j z Hlt. apply (Hj (S j)). lia.
Qed.

(** The first match of the expression. *)
Record first_match (ere icase : bool) (re line : list Z) (i : nat) : Prop := FirstMatch {
  fm_at : sed_m_seq re (drop i line) ere icase = true;
  fm_in : (i <= length line)%nat;
  fm_first j : (j < i)%nat -> sed_m_seq re (drop j line) ere icase = false;
}.

Lemma next_match_first ere icase re line i : first_match ere icase re line i ->
  next_match ere re line icase 0 = Some (i, (length line - i)%nat).
Proof.
  intros [Hm Hi Hf]. unfold next_match. rewrite (find_first _ _ i i); [by rewrite consumed_tail, length_drop| |done|].
  - rewrite Nat.sub_0_r. apply lookup_seq. lia.
  - intros j y Hj Hy. apply lookup_seq in Hy as [-> _]. by apply Hf.
Qed.

Lemma expand_nz rep m out : 0 ∉ rep -> 0 ∉ m -> 0 ∉ out -> 0 ∉ expand_rep rep m out.
Proof.
  revert out. remember (length rep) as n eqn:En. revert rep En.
  induction n as [n IH] using lt_wf_ind; intros rep -> out Hr Hm Ho.
  destruct rep as [|c rep]; cbn [expand_rep]; destruct (511 <=? length out)%nat; try done.
  destruct (c =? 38).
  - apply (IH (length rep)); [cbn; lia|done|set_solver|done|]. intros [|Hin]%elem_of_app; [done|].
    apply elem_of_take in Hin as (j & Hj & _). apply Hm. by eapply list_elem_of_lookup_2.
  - destruct (c =? 92).
    + destruct rep as [|e rep]; [done|]. destruct ((49 <=? e) && (e <=? 57)).
      * apply (IH (length rep)); [cbn; lia|done|set_solver|done|done].
      * apply (IH (length rep)); [cbn; lia|done|set_solver|done|]. intros [|Hin%list_elem_of_singleton]%elem_of_app; [done|].
        unfold rep_escape in Hin. destruct (e =? 110); [lia|]. destruct (e =? 116); [lia|set_solver].
    + apply (IH (length rep)); [cbn; lia|done|set_solver|done|]. set_solver.
Qed.

Lemma cstr_app_nul s r : 0 ∉ s -> cstr (s ++ 0 :: r) = s.
Proof.
  induction s as [|c s IH]; intros Hs; cbn [app cstr]; [done|]. rewrite (proj2 (Z.eqb_neq c 0)) by set_solver. by rewrite IH by set_solver.
Qed.

Lemma append_fits out x : (length out + length x <= Z.to_nat 8191)%nat -> append out x = out ++ x.
Proof. intros Hl. unfold append. by rewrite take_ge by lia. Qed.

Lemma expand_length rep m out : (length out <= 511)%nat -> (length (expand_rep rep m out) <= 511)%nat.
Proof.
  revert out. remember (length rep) as n eqn:En. revert rep En.
  induction n as [n IH] using lt_wf_ind; intros rep -> out Ho.
  destruct rep as [|c rep]; cbn [expand_rep]; destruct (Nat.leb_spec 511 (length out)); try done.
  destruct (c =? 38).
  - apply (IH (length rep)); [cbn; lia|done|]. rewrite length_app, length_take. destruct (Nat.leb_spec 512 (length out + length m)); lia.
  - destruct (c =? 92).
    + destruct rep as [|e rep]; [done|]. destruct ((49 <=? e) && (e <=? 57)).
      * apply (IH (length rep)); [cbn; lia|done|done].
      * apply (IH (length rep)); [cbn; lia|done|]. rewrite length_app. cbn [length]. lia.
    + apply (IH (length rep)); [cbn; lia|done|]. rewrite length_app. cbn [length]. lia.
Qed.

(** [s] replaces everything from the first match to the end of the line: for
    any expression and replacement, the line up to the first match is kept
    and the rest is replaced once. *)
Theorem sed_subst_to_end ere data line pat rep icase i :
  subst_parts data = Some (pat, rep, false, icase) -> first_match ere icase pat line i ->
  0 ∉ line -> 0 ∉ rep -> (length line < 4096)%nat ->
  (i + length (expand_rep rep (take 511 (drop i line)) []) < 4095)%nat ->
  do_subst ere data line = Some (true, take i line ++ expand_rep rep (take 511 (drop i line)) []).
Proof.
  intros Ed Hf Hn Hrn Hl Ho. unfold do_subst. rewrite Ed. cbn [mbind option_bind]. destruct Hf as [Hm Hi Hfi].
  cbn [subst_loop]. rewrite (proj2 (Nat.ltb_ge (length line) 0)) by lia. rewrite (next_match_first ere icase pat line i) by done.
  rewrite Nat.sub_0_r, drop_0. set (m := take (Nat.min (length line - i) 511) (drop i line)).
  assert (m = take 511 (drop i line)) as Em.
  { unfold m. destruct (Nat.le_gt_cases (length line - i) 511); [|by rewrite Nat.min_r by lia].
    rewrite Nat.min_l by lia. rewrite !take_ge by (rewrite length_drop; lia). done. }
  rewrite Em. set (x := expand_rep rep _ []) in *. assert (Hx : 0 ∉ x).
  { apply expand_nz; [done| |apply not_elem_of_nil]. intros Hin. apply Hn. apply elem_of_take in Hin as (j & Hj & _).
    rewrite lookup_drop in Hj. by eapply list_elem_of_lookup_2. }
  assert (Ht : length (take i line) = i) by (rewrite length_take; lia).
  rewrite (append_fits [] (take i line)) by (cbn [length]; lia). cbn [app].
  rewrite (append_fits (take i line) x) by lia. rewrite append_fits by (rewrite length_app, length_drop, length_app; cbn [length]; lia).
  assert (Hz : 0 ∉ take i line ++ x).
  { intros [Hin|Hin]%elem_of_app; [|done]. apply Hn. apply elem_of_take in Hin as (j & Hj & _). by eapply list_elem_of_lookup_2. }
  destruct (Nat.ltb_spec 0 (length line - i)).
  - replace (i + (length line - i))%nat with (length line) by lia. rewrite drop_app_length. cbn [mbind option_bind].
    rewrite (proj2 (Z.ltb_lt _ LINE_MAX)) by (unfold zlen, LINE_MAX; rewrite !length_app; cbn [length]; lia).
    by rewrite cstr_app_nul.
  - rewrite drop_ge by (rewrite length_app; cbn [length]; lia). rewrite app_nil_r. cbn [mbind option_bind].
    rewrite (proj2 (Z.ltb_lt _ LINE_MAX)) by (unfold zlen, LINE_MAX; rewrite !length_app; lia). by rewrite cstr_nz.
Qed.

(** ** Ends *)

(** Every match moves the position forward, also an empty one: the fuel of
    [do_subst] is enough. *)
Lemma subst_loop_ends ere re rep line g icase fuel pos out done : (length line + 1 - pos < fuel)%nat ->
  is_Some (subst_loop ere fuel re rep line g icase pos out done).
Proof.
  revert pos out done. induction fuel as [|fuel IH]; intros pos out done Hf; [lia|]. cbn [subst_loop].
  destruct (Nat.ltb_spec (length line) pos) as [Hlt|Hge]; [by eexists|].
  unfold next_match. destruct (find _ _) as [i|] eqn:Ei; [|by eexists]. apply find_some in Ei as [Hi%in_seq _].
  destruct g; [|by eexists]. apply IH. destruct (Nat.ltb_spec 0 (consumed ere re (drop i line) icase)); lia.
Qed.

(** The expression does not end in a backslash that escapes nothing, behind
    which the matcher would go on. *)
Fixpoint open_end (re : list Z) : bool :=
  match re with
  | [] => false
  | c :: re' =>
      if c =? 92 then match re' with [] => true | _ :: re'' => open_end re'' end
      else open_end re'
  end.

Definition closed (ere : bool) (re : list Z) : Prop := ere = true \/ open_end re = false.

(** A command that does not branch, whose expressions are closed and whose
    stored parts can be read. *)
Record calm (ere : bool) (c : cmd) : Prop := Calm {
  cm_branch : c_op c <> CMD_B;
  cm_addr : closed ere (ad_re (c_addr1 c)) /\ closed ere (ad_re (c_addr2 c));
  cm_subst : c_op c = CMD_S -> exists pat rep g i, subst_parts (c_data c) = Some (pat, rep, g, i) /\ closed ere pat;
}.

Lemma in_range_i ere ci c n s : sp_i (snd (in_range ere ci c n s)) = sp_i s.
Proof.
  unfold in_range. destruct (ad_type (c_addr1 c) =? 0); [by destruct (_ && _)|].
  destruct (ad_type (c_addr2 c) =? 0); [by destruct (_ && _)|]. cbv zeta.
  destruct (negb _ && _); [by destruct (_ && _)|].
  destruct (default false _); [destruct (addr_match _ _ false _ _ _)|]; by destruct (_ && _).
Qed.

Section Ends.
Context (ere suppress : bool) (script : list cmd) (Hcalm : Forall (calm ere) script).

Lemma exec_calm all c s p : calm ere c -> exists f p', exec_cmd ere suppress all c s p = Some (Val f, p') /\
  (f = Quit \/ exists s', f = Next s' /\ (sp_i s <= sp_i s')%nat).
Proof.
  intros [Hb _ Hs]. unfold exec_cmd. destruct (c_op c) eqn:Eo; try done;
    try (eexists _, _; split; [reflexivity|]; right; eexists; split; [reflexivity|cbn; lia]).
  - destruct (Hs eq_refl) as (pat & rep & g & i & Ep & _). unfold do_subst. rewrite Ep. cbn [mbind option_bind].
    destruct (subst_loop_ends ere pat rep (sp_line s) g i (S (S (length (sp_line s)))) 0 [] false ltac:(lia)) as [[done out] ->].
    cbn [mbind option_bind]. destruct done; eexists _, _; (split; [reflexivity|]); right; eexists; (split; [reflexivity|cbn; lia]).
  - eexists _, _. split; [reflexivity|]. by left.
  - destruct (y_parts _). eexists _, _. split; [reflexivity|]. right. eexists. split; [reflexivity|cbn; lia].
  - destruct (all !! S (sp_i s)); destruct suppress; eexists _, _; (split; [reflexivity|]); right; eexists; (split; [reflexivity|cbn; lia]).
Qed.

Lemma run_script_ends fuel all ci s p : (length script - ci < fuel)%nat ->
  exists r p', run_script ere suppress script fuel all ci false s p = Some (Val r, p') /\
    (forall s', r = Some s' -> (sp_i s <= sp_i s')%nat).
Proof.
  revert ci s p. induction fuel as [|fuel IH]; intros ci s p Hf; [lia|]. cbn [run_script].
  destruct (script !! ci) as [c|] eqn:Ec; [|eexists _, _; split; [reflexivity|]; by intros s' [= <-]].
  pose proof (lookup_lt_Some _ _ _ Ec) as Hlt. pose proof (in_range_i ere ci c (Z.of_nat (length all)) s) as Er.
  destruct (in_range ere ci c _ s) as [r s1]. cbn [snd] in Er. destruct r; cbn [negb].
  2:{ destruct (IH (S ci) s1 p ltac:(lia)) as (r & p' & E & Hi). exists r, p'. split; [done|]. intros s' Hs'. rewrite <-Er. by apply Hi. }
  destruct (exec_calm all c s1 p) as (f & p1 & E1 & Hf1); [by eapply Forall_lookup_1 in Ec|].
  unfold mbind at 1, U_bind at 1. rewrite E1. destruct Hf1 as [->|(s2 & -> & Hi2)].
  { eexists _, _. by split. }
  destruct (sp_deleted s2).
  - eexists _, _. split; [reflexivity|]. intros s' [= <-]. lia.
  - destruct (IH (S ci) s2 p1 ltac:(lia)) as (r & p' & E & Hi). exists r, p'. split; [done|]. intros s' Hs'. specialize (Hi s' Hs'). lia.
Qed.

Lemma edit_lines_ends fuel rounds all i hold active p : (length script < rounds)%nat -> (length all - i < fuel)%nat ->
  exists r p', edit_lines ere suppress script fuel rounds all i hold active p = Some (Val r, p').
Proof.
  intros Hr. revert i hold active p. induction fuel as [|fuel IH]; intros i hold active p Hf; [lia|]. cbn [edit_lines].
  destruct (all !! i) as [l|] eqn:El; [|by eexists _, _]. pose proof (lookup_lt_Some _ _ _ El) as Hlt.
  destruct (run_script_ends rounds all 0 (Space (strip_eol l) i false false hold active) p ltac:(lia)) as (r & p1 & E1 & Hi).
  unfold mbind at 1, U_bind at 1. rewrite E1. destruct r as [s|]; [|by eexists _, _]. specialize (Hi s eq_refl). cbn in Hi.
  unfold mbind at 1, U_bind at 1. destruct (_ && _); apply IH; lia.
Qed.
End Ends.


(** A script of one [b] never ends on any line: no number of rounds is
    enough. *)
Theorem sed_branch_loops ere suppress data fuel all r s q :
  run_script ere suppress [Cmd CMD_B no_addr no_addr 0 data] fuel all 0 r s q = None.
Proof.
  revert r s q. induction fuel as [|fuel IH]; intros r s q; [done|]. cbn [run_script lookup list_lookup].
  unfold in_range. cbn [c_addr1 no_addr ad_type Z.eqb c_step Z.ltb Z.compare andb negb]. unfold exec_cmd. cbn [c_op].
  unfold mbind at 1, U_bind at 1, mret at 1, U_ret at 1. destruct (sp_deleted s); apply IH.
Qed.

(** ** Ranges of lines *)

Lemma number_put f v rest : 0 <= v < 2 ^ Z.of_nat f -> v < 2 ^ 31 -> number (rev (put_digits f v 10 false) ++ rest) 0 = number rest v.
Proof.
  revert v rest; induction f as [|f IH]; intros v rest Hv Hv31; cbn [put_digits].
  { change (2 ^ Z.of_nat 0) with 1 in Hv. by replace v with 0 by lia. }
  destruct (Z.eqb_spec v 0) as [->|Hnz]; [done|]. cbn [rev]. rewrite <-app_assoc.
  rewrite Nat2Z.inj_succ, Z.pow_succ_r in Hv by lia.
  rewrite IH by divlia. cbn [app number]. unfold digit_char. destruct (Z.ltb_spec (v mod 10) 10); [|divlia].
  replace (isdigit (48 + v mod 10)) with true by (unfold isdigit; divlia).
  f_equal. replace (48 + v mod 10 - 48) with (v mod 10) by lia.
  rewrite (s64_small (_ * _)) by divlia. rewrite s64_small; divlia.
Qed.

Lemma number_decimal v c rest : 0 < v < 2 ^ 31 -> isdigit c = false -> number (decimal_text v ++ c :: rest) 0 = (v, c :: rest).
Proof.
  intros Hv Hc. unfold decimal_text. rewrite (proj2 (Z.ltb_ge v 0)) by lia. unfold kput_unsigned.
  rewrite (proj2 (Z.eqb_neq v 0)) by lia. rewrite number_put by (lia || (change (2 ^ Z.of_nat 64) with (2 ^ 64); lia)). cbn [number]. by rewrite Hc.
Qed.

Lemma decimal_first_digit v : 0 < v < 2 ^ 31 -> exists c r, decimal_text v = c :: r /\ isdigit c = true.
Proof.
  intros Hv. destruct (decimal_text v) as [|c r] eqn:E.
  { pose proof (number_decimal v 44 [] Hv eq_refl) as Hn. rewrite E in Hn. injection Hn as Hn. lia. }
  exists c, r. split; [done|]. unfold decimal_text in E. rewrite (proj2 (Z.ltb_ge v 0)) in E by lia. unfold kput_unsigned in E.
  rewrite (proj2 (Z.eqb_neq v 0)) in E by lia. pose proof (Forall_rev (put_digits_decimal 64 v false)) as Hf.
  rewrite E in Hf. apply Forall_cons_1 in Hf as [Hc _]. unfold isdigit. lia.
Qed.

(** The text of the command that prints lines [a] to [b]. *)
Definition range_text (a b : Z) : list Z := decimal_text a ++ [44] ++ decimal_text b ++ bs "p".
Definition range_cmd (a b : Z) : cmd := Cmd CMD_P (Addr 1 a []) (Addr 1 b []) 0 [].

Section Range.
Context (ere : bool) (a b : Z) (Hab : 0 < a < b).

(** Line number [i + 1] is one of them; the range is active in front of it. *)
Definition selected (i : nat) : bool := (a <=? Z.of_nat i + 1) && (Z.of_nat i + 1 <=? b).
Definition inside (i : nat) : bool := (a <=? Z.of_nat i) && (Z.of_nat i <? b).

Definition write_out (t : list Z) (p : proc) : proc :=
  Proc (p_files p) (p_in p) (p_out p ++ t) (p_err p) (p_uid p) (p_euid p) (p_gid p) (p_dirs p).

Lemma in_range_lines i l hold active n : active !! 0%nat = Some (inside i) ->
  exists active', in_range ere 0 (range_cmd a b) n (Space l i false false hold active) = (selected i, Space l i false false hold active') /\
    active' !! 0%nat = Some (inside (S i)).
Proof.
  intros Ha. unfold in_range, range_cmd. cbn [c_addr1 c_addr2 c_step ad_type Z.eqb sp_active Z.ltb Z.compare andb]. rewrite Ha. cbn [default].
  unfold addr_match, lineno. cbn [c_addr1 c_addr2 ad_type ad_num Z.eqb sp_i]. change (default false (Some (inside i))) with (inside i).
  pose proof (lookup_lt_Some _ _ _ Ha) as Hl. unfold with_active. cbn [sp_line sp_i sp_deleted sp_printed sp_hold sp_active].
  destruct (inside i) eqn:Ei; cbn [negb andb].
  - destruct ((Z.of_nat i + 1 =? a) || (Z.of_nat i + 1 =? b)) eqn:Em.
    + exists (<[0%nat := false]> active). split; [f_equal|rewrite list_lookup_insert_eq by done; f_equal]; unfold selected, inside in *; lia.
    + exists active. split; [f_equal|rewrite Ha; f_equal]; unfold selected, inside in *; lia.
  - destruct ((Z.of_nat i + 1 =? a) || (Z.of_nat i + 1 =? b)) eqn:Em.
    + exists (<[0%nat := true]> active). split; [f_equal|rewrite list_lookup_insert_eq by done; f_equal]; unfold selected, inside in *; lia.
    + exists active. split; [f_equal|rewrite Ha; f_equal]; unfold selected, inside in *; lia.
Qed.

(** What is printed from line [i + 1] on. *)
Fixpoint chosen (i : nat) (lines : list (list Z)) : list (list Z) :=
  match lines with
  | [] => []
  | l :: lines' => (if selected i then [l] else []) ++ chosen (S i) lines'
  end.

Lemma chosen_slice i lines : chosen i lines = take (Z.to_nat (b - Z.max (a - 1) (Z.of_nat i))) (drop (Z.to_nat (a - 1 - Z.of_nat i)) lines).
Proof.
  revert i. induction lines as [|l lines IH]; intros i; cbn [chosen]; [by rewrite drop_nil, take_nil|]. rewrite IH. unfold selected.
  destruct (Z.leb_spec a (Z.of_nat i + 1)); cbn [andb].
  - replace (Z.to_nat (a - 1 - Z.of_nat i)) with O by lia. replace (Z.to_nat (a - 1 - Z.of_nat (S i))) with O by lia. rewrite !drop_0.
    destruct (Z.leb_spec (Z.of_nat i + 1) b).
    + replace (Z.to_nat (b - Z.max (a - 1) (Z.of_nat i))) with (S (Z.to_nat (b - Z.max (a - 1) (Z.of_nat (S i))))) by lia. done.
    + replace (Z.to_nat (b - Z.max (a - 1) (Z.of_nat (S i)))) with O by lia.
      by replace (Z.to_nat (b - Z.max (a - 1) (Z.of_nat i))) with O by lia.
  - replace (Z.to_nat (a - 1 - Z.of_nat i)) with (S (Z.to_nat (a - 1 - Z.of_nat (S i)))) by lia. cbn [app drop]. do 2 f_equal. lia.
Qed.

Lemma write_none p : write_out [] p = p.
Proof. destruct p. unfold write_out. cbn. by rewrite app_nil_r. Qed.

Lemma write_app t u p : write_out u (write_out t p) = write_out (t ++ u) p.
Proof. unfold write_out. cbn. by rewrite app_assoc. Qed.

Lemma run_range r all i l hold active p : active !! 0%nat = Some (inside i) ->
  exists active', run_script ere true [range_cmd a b] (S (S r)) all 0 false (Space l i false false hold active) p =
    Some (Val (Some (Space l i false (selected i) hold active')), write_out (if selected i then l ++ [10] else []) p) /\
    active' !! 0%nat = Some (inside (S i)).
Proof.
  intros Ha. destruct (in_range_lines i l hold active (Z.of_nat (length all)) Ha) as (active' & Er & Ha'). exists active'. split; [|done].
  cbn [run_script lookup list_lookup]. rewrite Er. destruct (selected i); cbn [negb]; [done|]. by rewrite write_none.
Qed.

Lemma edit_range fuel r all i hold active p : active !! 0%nat = Some (inside i) -> (length all - i < fuel)%nat ->
  exists active', edit_lines ere true [range_cmd a b] fuel (S (S r)) all i hold active p =
    Some (Val (Some (hold, active')), write_out (concat (map (fun l => strip_eol l ++ [10]) (chosen i (drop i all)))) p).
Proof.
  revert i active p. induction fuel as [|fuel IH]; intros i active p Ha Hf; [lia|]. cbn [edit_lines].
  destruct (all !! i) as [l|] eqn:El.
  - destruct (run_range r all i (strip_eol l) hold active p Ha) as (active' & E & Ha'). unfold mbind at 1, U_bind at 1. rewrite E.
    cbn [sp_deleted sp_printed negb andb sp_line sp_i sp_hold sp_active]. rewrite andb_false_r. unfold mbind at 1, U_bind at 1, mret at 1, U_ret at 1.
    pose proof (lookup_lt_Some _ _ _ El). destruct (IH (S i) active' (write_out (if selected i then strip_eol l ++ [10] else []) p) Ha' ltac:(lia)) as (act & E2).
    exists act. rewrite E2, write_app. rewrite (drop_S all l i El). cbn [chosen]. rewrite map_app, concat_app. do 4 f_equal.
    destruct (selected i); cbn [map concat]; by rewrite ?app_nil_r.
  - exists active. rewrite drop_ge by (by apply lookup_ge_None). cbn. by rewrite write_none.
Qed.
End Range.

(** A line as [sed] reads and prints it. *)
Definition text_line (l : list Z) : Prop := 10 ∉ l /\ 13 ∉ l /\ 0 ∉ l /\ (length l < 4095)%nat.

Definition file_of (ls : list (list Z)) : list Z := concat (map (fun l => l ++ [10]) ls).

Lemma strip_text l : 10 ∉ l -> 13 ∉ l -> strip_eol (l ++ [10]) = l.
Proof.
  induction l as [|c l IH]; intros H10 H13; [done|]. cbn [app strip_eol]. rewrite IH by set_solver.
  destruct (Z.eqb_spec c 10); [set_solver|]. destruct (Z.eqb_spec c 13); [set_solver|]. cbn [orb]. by rewrite andb_false_r.
Qed.

Lemma digit_plain c : isdigit c = true -> blank c = false /\ (c =? 36) = false /\ (c =? 47) = false /\ (c =? 45) = false.
Proof. unfold isdigit, blank. lia. Qed.

Lemma parse_addr_decimal v x rest : 0 < v < 2 ^ 31 -> isdigit x = false ->
  parse_addr (decimal_text v ++ x :: rest) = Some (Addr 1 v [], x :: rest).
Proof.
  intros Hv Hx. pose proof (number_decimal v x rest Hv Hx) as Hn. destruct (decimal_first_digit v Hv) as (c & r & Ec & Hc).
  rewrite Ec in *. cbn [app] in *. destruct (digit_plain c Hc) as (_ & H1 & H2 & _). unfold parse_addr. by rewrite H1, H2, Hc, Hn.
Qed.

Lemma range_parses a b : 0 < a < b -> b < 2 ^ 31 -> script_add (range_text a b) [] = Some (Some [range_cmd a b]).
Proof.
  intros Ha Hb. unfold script_add, range_text. cbn [length Nat.leb SCRIPT_MAX].
  pose proof (parse_addr_decimal a 44 (decimal_text b ++ bs "p") ltac:(lia) eq_refl) as Pa.
  pose proof (parse_addr_decimal b 112 [] ltac:(lia) eq_refl) as Pb. change (bs "p") with [112] in *.
  destruct (decimal_first_digit a ltac:(lia)) as (c & r & Ec & Hd). rewrite Ec in *. cbn [app] in *.
  destruct (digit_plain c Hd) as (Hbl & _ & _ & _). cbn [drop_blanks]. rewrite Hbl. unfold parse_addrs. cbn [at_ nth]. rewrite Hd. cbn [orb].
  rewrite Pa. cbn [mbind option_bind at_ nth Z.eqb Pos.eqb drop]. rewrite drop_0, Pb. done.
Qed.

Lemma range_args a b path p : 0 < a < 2 ^ 31 -> at_ path 0 <> 45 ->
  sed_args [bs "-n"; range_text a b; path] sed_none p = Some (Val (SedOpts true false false [Some (range_text a b)] true [path]), p).
Proof.
  intros Ha Hp.
  change (sed_args [bs "-n"; range_text a b; path] sed_none p) with (sed_args [range_text a b; path] (SedOpts true false false [] false []) p).
  destruct (decimal_first_digit a Ha) as (c & r & Ec & Hd). destruct (digit_plain c Hd) as (_ & _ & _ & H45).
  assert (Hw : forall w o rest, at_ w 0 <> 45 -> sed_args (w :: rest) o p = sed_args rest (sed_word w o) p).
  { intros w o rest Hne. cbn [sed_args]. rewrite !streq_ne by (intros ->; by apply Hne). cbn [orb]. by rewrite (proj2 (Z.eqb_neq _ _) Hne). }
  rewrite !Hw; [done|done|]. unfold range_text. rewrite Ec. cbn [app at_ nth]. lia.
Qed.


(** ** Stored substitutions *)

Lemma copy_until_mark n d a r : d ∉ a -> (length a <= n)%nat -> copy_until n d (a ++ d :: r) = (a, d :: r).
Proof.
  revert n. induction a as [|c a IH]; intros n Ha Hn; destruct n as [|n]; cbn [length] in Hn; try lia; cbn [app copy_until].
  - done.
  - by rewrite Z.eqb_refl.
  - rewrite (proj2 (Z.eqb_neq c d)) by set_solver. rewrite IH by (lia || set_solver). done.
Qed.

(** The parts of [s] are read back as they were stored, as long as they fit. *)
Theorem subst_stored pat rep g pr i w :
  0 ∉ pat -> 1 ∉ pat -> 0 ∉ rep -> 1 ∉ rep -> (length pat <= 255)%nat -> (length rep <= 255)%nat -> (length pat + length rep <= 505)%nat ->
  subst_parts (bounded 512 (pat ++ [1] ++ rep ++ [1] ++ map flag_digit [g; pr; i; w])) = Some (pat, rep, g, i).
Proof.
  intros P0 P1 R0 R1 Lp Lr Ls. set (data := pat ++ _). assert (Hl : (length data <= 511)%nat).
  { unfold data. rewrite !length_app, length_map. cbn [length]. lia. }
  unfold subst_parts, bounded. rewrite take_ge by lia. set (z := replicate _ 0). unfold data. rewrite <-!app_assoc. cbn [app].
  rewrite copy_until_mark by (done || lia). cbn [drop]. rewrite drop_0, copy_until_mark by (done || lia). cbn [drop map app lookup list_lookup mbind option_bind].
  rewrite !cstr_nz by done. by destruct g, i.
Qed.

(** ** echo *)

(** The arguments with a space between two of them. *)
Fixpoint joined (args : list (list Z)) : list Z :=
  match args with
  | [] => []
  | [a] => a
  | a :: args' => a ++ 32 :: joined args'
  end.

Lemma echo_args_run first args p : echo_args first args p =
  Some (Val tt, write_out (match args with [] => [] | _ => (if first then [] else [32]) ++ joined args end) p).
Proof.
  revert first p. induction args as [|a args IH]; intros first p; cbn [echo_args]; [by rewrite write_none|].
  assert (forall q, (_ ← printf a; echo_args false args) q = Some (Val tt, write_out (joined (a :: args)) q)) as Hs.
  { intros q. unfold mbind at 1, U_bind at 1. change (printf a q) with (Some (Val tt, write_out a q)). cbv iota beta. rewrite IH, write_app.
    do 3 f_equal. destruct args as [|b args]; [by rewrite app_nil_r|done]. }
  unfold mbind at 1, U_bind at 1. destruct first.
  - apply Hs.
  - change (printf [32] p) with (Some (Val tt, write_out [32] p)). cbv iota beta. rewrite Hs, write_app. done.
Qed.

(** echo prints its arguments with one space between them and a newline. *)
Theorem echo_prints args p : echo_main args p = Some (Exit 0, write_out (joined args ++ [10]) p).
Proof.
  unfold echo_main. unfold mbind at 1, U_bind at 1. rewrite echo_args_run. unfold mbind at 1, U_bind at 1.
  change (printf [10] ?q) with (Some (Val tt, write_out [10] q)). cbv iota beta. unfold exit. rewrite write_app. by destruct args.
Qed.

(** ** Runs *)

Definition poem : proc :=
  Proc {[ bs "poem" := file_of [bs "one"; bs "two"; bs "three"; bs "four"] ]} [] [] [] 0 0 0 [].


(** [/e/s/x*/-/g], an expression that matches the empty string, and [2d]. *)
Definition dashes : list cmd :=
  [Cmd CMD_S (Addr 2 0 (bs "e")) no_addr 0 (bs "x*" ++ [1] ++ bs "-" ++ [1] ++ bs "1000"); Cmd CMD_D (Addr 1 2 []) no_addr 0 []].


(** [s/bar/X/] on a line that contains bar: what follows it is lost as well. *)
Example sed_subst_demo :
  match sed_main [] 2 [bs "s/bar/X/"] (Proc ∅ (bs "foo bar baz" ++ [10]) [] [] 0 0 0 []) with
  | Some (Exit st, p') => p_out p' = bs "foo X" ++ [10]
  | _ => False
  end.
Proof. vm_compute. reflexivity. Qed.
