(* ===== verification/ShellParse.v ===== *)
(** * Command lines of the shell (src/kernel/shell/commands.c)

    [tokenize] works in place: it overwrites bytes of the line with NULs and
    returns the offsets of the tokens, which are C strings of the final
    buffer. [parse_pipeline] turns the tokens into the stages of a pipeline.
    A line is the list of its bytes up to the terminator; past the end the
    buffer reads as NUL. *)

From stdpp Require Import base numbers list sets.
From Stdlib Require Import ZArith Lia ZifyBool.
From S2P Require Import Prelude.
From S2P Require Import Klib.

Definition MAX_ARGS : Z := 16.
Definition MAX_PIPE_SEGS : Z := 8.
Definition TSH_LINE_MAX : Z := 128.
Definition MAX_TOKENS : Z := TSH_LINE_MAX / 2 + 8.

(** ** The tokenizer *)

Definition SPACE : Z := 32.
Definition GT : Z := 62.
Definition is_op (c : Z) : bool := (c =? 124) || (c =? 60) || (c =? GT).

(** [while (f( *p)) p++;] for an [f] that is false of NUL. *)
Fixpoint skip_while (f : Z -> bool) (n : nat) (buf : list Z) (p : Z) : Z :=
  match n with
  | O => p
  | S n' => if f (byte_at buf p) then skip_while f n' buf (p + 1) else p
  end.

(** [if ( *p != 0) { *p = 0; p++; }]. *)
Definition cut (buf : list Z) (p : Z) : list Z * Z :=
  if byte_at buf p =? 0 then (buf, p) else (<[Z.to_nat p := 0]> buf, p + 1).

Definition in_word (c : Z) : bool := negb (c =? 0) && negb (c =? SPACE) && negb (is_op c).

(** The token that starts at [p]: the buffer and the position behind it. *)
Definition tokenize_one (buf : list Z) (p : Z) : list Z * Z :=
  if is_op (byte_at buf p) then
    let op := byte_at buf p in
    let p := p + 1 in
    let p := if (op =? GT) && (byte_at buf p =? GT) then p + 1 else p in
    cut buf p
  else
    let start := p in
    let p := skip_while in_word (length buf) buf p in
    if byte_at buf p =? 0 then (buf, p)
    else
      let p :=
        if (byte_at buf p =? GT) && (p =? start + 1) && (byte_at buf start =? 50) then
          let p := p + 1 in
          if byte_at buf p =? GT then p + 1 else p
        else p in
      cut buf p.

(** The loop from [p] on with the tokens found so far; [None] is [-1]. *)
Fixpoint tokenize_loop (n : nat) (buf : list Z) (p : Z) (tok : list Z) (max : Z) : option (list Z * list Z) :=
  match n with
  | O => Some (buf, tok)
  | S n' =>
      if byte_at buf p =? 0 then Some (buf, tok)
      else
        let p := skip_while (fun c => c =? SPACE) (length buf) buf p in
        if byte_at buf p =? 0 then Some (buf, tok)
        else if max <=? zlen tok then None
        else
          let '(buf', p') := tokenize_one buf p in
          tokenize_loop n' buf' p' (tok ++ [p]) max
  end.

(** The C string at an offset. *)
Definition token_at (buf : list Z) (p : Z) : list Z := c_string (drop (Z.to_nat p) buf).

Definition tokenize (s : list Z) (max : Z) : option (list (list Z)) :=
  match tokenize_loop (S (length s)) s 0 [] max with
  | None => None
  | Some (buf, tok) => Some (map (token_at buf) tok)
  end.

(** ** Pipelines *)

Definition PIPE : list Z := [124].
Definition OUT : list Z := [62].
Definition APPEND : list Z := [62; 62].
Definition IN : list Z := [60].
Definition ERR : list Z := [50; 62].
Definition ERR_APPEND : list Z := [50; 62; 62].

(** [redir], [rmode] and [rfile] of the three descriptors as one option each:
    mode 0 truncates, 1 appends, 2 is input. [seg_argc] is kept beside the
    arguments because a plain command sets it on its own. *)
Record pipeline_seg := Seg {
  seg_argv : list (list Z);
  seg_argc : Z;
  seg_redir : list (option (Z * list Z));
  seg_builtin : Z;
}.

Definition new_seg : pipeline_seg := Seg [] 0 [None; None; None] 0.

Definition add_arg (s : pipeline_seg) (a : list Z) : pipeline_seg :=
  Seg (seg_argv s ++ [a]) (seg_argc s + 1) (seg_redir s) (seg_builtin s).
Definition add_redir (s : pipeline_seg) (target mode : Z) (file : list Z) : pipeline_seg :=
  Seg (seg_argv s) (seg_argc s) (<[Z.to_nat target := Some (mode, file)]> (seg_redir s)) (seg_builtin s).
Definition set_builtin (s : pipeline_seg) (b : Z) : pipeline_seg :=
  Seg (seg_argv s) (seg_argc s) (seg_redir s) b.

(** The descriptor and mode of a redirection operator. *)
Definition redir_op (s : list Z) : option (Z * Z) :=
  if strcmp s OUT =? 0 then Some (1, 0)
  else if strcmp s APPEND =? 0 then Some (1, 1)
  else if strcmp s IN =? 0 then Some (0, 2)
  else if strcmp s ERR =? 0 then Some (2, 0)
  else if strcmp s ERR_APPEND =? 0 then Some (2, 1)
  else None.

(** The stages before the current one, the current one and the tokens left;
    [None] is the syntax error. *)
Fixpoint parse_loop (segs : list pipeline_seg) (cur : pipeline_seg) (tok : list (list Z)) : option (list pipeline_seg) :=
  match tok with
  | [] => if seg_argc cur =? 0 then None else Some (segs ++ [cur])
  | s :: rest =>
      if strcmp s PIPE =? 0 then
        if seg_argc cur =? 0 then None
        else if MAX_PIPE_SEGS <=? Z.of_nat (length segs) + 1 then None
        else parse_loop (segs ++ [cur]) new_seg rest
      else
        match redir_op s with
        | Some (target, mode) =>
            match rest with
            | [] => None
            | file :: rest => parse_loop segs (add_redir cur target mode file) rest
            end
        | None =>
            if MAX_ARGS <=? seg_argc cur then None
            else parse_loop segs (add_arg cur s) rest
        end
  end.

Definition parse_pipeline (tok : list (list Z)) : option (list pipeline_seg) := parse_loop [] new_seg tok.

(** Does a token look like an operator? *)
Definition is_operator (s : list Z) : bool :=
  (strcmp s PIPE =? 0) || (strcmp s OUT =? 0) || (strcmp s APPEND =? 0) || (strcmp s IN =? 0) ||
  (strcmp s ERR =? 0) || (strcmp s ERR_APPEND =? 0).

Definition has_ops (tok : list (list Z)) : bool := existsb is_operator tok.

(** ** The tokens as a function of the line *)

Fixpoint span (f : Z -> bool) (l : list Z) : list Z * list Z :=
  match l with
  | [] => ([], [])
  | c :: r => if f c then let '(a, b) := span f r in (c :: a, b) else ([], l)
  end.

(** The second [>] of [>>]. *)
Definition second_gt (l : list Z) : list Z * list Z :=
  match l with
  | c :: r => if c =? GT then ([GT], r) else ([], l)
  | [] => ([], [])
  end.

(** The first token of a line that starts with one, and what follows the
    byte behind it. *)
Definition scan_one (l : list Z) : list Z * list Z :=
  match l with
  | [] => ([], [])
  | c :: r =>
      if is_op c then
        let '(t, r) := if c =? GT then second_gt r else ([], r) in
        (c :: t, tail r)
      else
        let '(w, r) := span in_word l in
        match r with
        | d :: r' =>
            if (d =? GT) && bool_decide (w = [50]) then
              let '(t, r') := second_gt r' in (50 :: GT :: t, tail r')
            else (w, r')
        | [] => (w, [])
        end
  end.

Fixpoint scan (n : nat) (l : list Z) : list (list Z) :=
  match n with
  | O => []
  | S n' =>
      let l := snd (span (fun c => c =? SPACE) l) in
      match l with
      | [] => []
      | _ :: _ => let '(t, r) := scan_one l in t :: scan n' r
      end
  end.

(** The tokens of a line. *)
Definition tokens (l : list Z) : list (list Z) := scan (S (length l)) l.

Lemma span_app f l : fst (span f l) ++ snd (span f l) = l.
Proof. induction l as [|c r IH]; [done|]. cbn. destruct (f c); [|done]. destruct (span f r). cbn in *. by rewrite IH. Qed.

Lemma byte_at_mid pre l : byte_at (pre ++ l) (zlen pre) = hd 0 l.
Proof. rewrite byte_at_app by apply zlen_nonneg. rewrite Z.ltb_irrefl, Z.sub_diag. by destruct l. Qed.

Lemma skip_while_span f n pre l :
  f 0 = false -> (length l <= n)%nat ->
  skip_while f n (pre ++ l) (zlen pre) = zlen pre + zlen (fst (span f l)).
Proof.
  intros H0. revert pre l. induction n as [|n IH]; intros pre l Hn; cbn [skip_while].
  - destruct l; cbn in *; [unfold zlen; cbn; lia|lia].
  - rewrite byte_at_mid. destruct l as [|c r]; cbn [hd span].
    + rewrite H0. unfold zlen; cbn; lia.
    + destruct (f c); [|unfold zlen; cbn; lia].
      specialize (IH (pre ++ [c]) r). rewrite <-app_assoc, zlen_app in IH. cbn [app] in IH.
      change (zlen [c]) with 1 in IH. rewrite IH by (cbn in Hn; lia).
      destruct (span f r) as [a b]. unfold zlen. cbn. lia.
Qed.

(** The byte that ends a token: a NUL, or nothing at the end of the line. *)
Definition closer (l : list Z) : list Z := match l with [] => [] | _ => [0] end.

Lemma cut_run pre l :
  0 ∉ l -> cut (pre ++ l) (zlen pre) = (pre ++ closer l ++ tail l, zlen pre + zlen (closer l)).
Proof.
  intros Hl. unfold cut. rewrite byte_at_mid. destruct l as [|c r]; cbn [hd closer tail app].
  - by rewrite Z.eqb_refl, Z.add_0_r.
  - destruct (Z.eqb_spec c 0); [set_solver|]. f_equal.
    unfold zlen. rewrite Nat2Z.id, insert_app_r_alt by lia. by rewrite Nat.sub_diag.
Qed.

(** What [tokenize_one] does to the line [l] that is left at [pre]. *)
Record token_step (pre l t l' : list Z) (res : list Z * Z) : Prop := TokenStep {
  ts_buf : exists sep, res = (pre ++ t ++ sep ++ l', zlen pre + zlen t + zlen sep) /\
             (sep = [0] \/ sep = [] /\ l' = []) /\ length (t ++ sep ++ l') = length l;
  ts_nz : 0 ∉ t;
  ts_rest : 0 ∉ l';
}.

Lemma cut_step pre l t r :
  0 ∉ l -> l = t ++ r -> token_step pre l t (tail r) (cut (pre ++ l) (zlen pre + zlen t)).
Proof.
  intros Hl ->. rewrite app_assoc, <-zlen_app, cut_run by set_solver. split.
  - exists (closer r). rewrite <-!app_assoc, !zlen_app. split_and!; [done|destruct r; cbn; auto|].
    rewrite !length_app. by destruct r.
  - set_solver.
  - destruct r; set_solver.
Qed.

Lemma second_gt_app l : fst (second_gt l) ++ snd (second_gt l) = l.
Proof. destruct l as [|c r]; [done|]. cbn. destruct (Z.eqb_spec c GT); cbn; by subst. Qed.

(** Stepping over the second [>], if it is there. *)
Lemma second_gt_pos pre l :
  (if byte_at (pre ++ l) (zlen pre) =? GT then zlen pre + 1 else zlen pre) = zlen pre + zlen (fst (second_gt l)).
Proof. rewrite byte_at_mid. destruct l as [|c r]; cbn; [unfold zlen; cbn; lia|]. destruct (c =? GT); unfold zlen; cbn; lia. Qed.

Lemma tokenize_one_op pre c r :
  0 ∉ c :: r -> is_op c = true ->
  let '(t, l') := scan_one (c :: r) in token_step pre (c :: r) t l' (tokenize_one (pre ++ c :: r) (zlen pre)).
Proof.
  intros Hl Hc. unfold tokenize_one, scan_one. rewrite byte_at_mid. cbn [hd]. rewrite Hc.
  destruct (Z.eqb_spec c GT) as [->|Hgt]; cbn [andb].
  - replace (zlen pre + 1) with (zlen (pre ++ [GT])) by (rewrite zlen_app; done).
    change (GT :: r) with ([GT] ++ r). rewrite app_assoc, second_gt_pos, zlen_app.
    pose proof (second_gt_app r) as E. destruct (second_gt r) as [t r']. cbn [fst snd] in *.
    rewrite <-app_assoc. change (zlen [GT]) with 1.
    replace (zlen pre + 1 + zlen t) with (zlen pre + zlen (GT :: t)) by (unfold zlen; cbn; lia).
    apply cut_step; [done|]. cbn. by rewrite E.
  - replace (zlen pre + 1) with (zlen pre + zlen [c]) by done. by apply cut_step.
Qed.

Lemma span_head f l : match snd (span f l) with [] => True | c :: _ => f c = false end.
Proof. induction l as [|c r IH]; cbn; [done|]. destruct (f c) eqn:E; [|done]. by destruct (span f r). Qed.

Lemma span_all f l : Forall (fun c => f c = true) (fst (span f l)).
Proof. induction l as [|c r IH]; cbn; [done|]. destruct (f c) eqn:E; [|done]. destruct (span f r). by constructor. Qed.

Lemma tokenize_one_word pre c r :
  0 ∉ c :: r -> is_op c = false ->
  let '(t, l') := scan_one (c :: r) in token_step pre (c :: r) t l' (tokenize_one (pre ++ c :: r) (zlen pre)).
Proof.
  intros Hl Hc. unfold tokenize_one, scan_one. rewrite byte_at_mid. cbn [hd]. rewrite Hc.
  rewrite skip_while_span by (done || (rewrite length_app; lia)).
  pose proof (span_app in_word (c :: r)) as E. pose proof (span_head in_word (c :: r)) as Hh.
  destruct (span in_word (c :: r)) as [w l] eqn:Es. cbn [fst snd] in *. rewrite <-E in *.
  rewrite app_assoc, <-zlen_app, byte_at_mid.
  destruct l as [|d l]; cbn [hd].
  - rewrite Z.eqb_refl. split; [|set_solver|set_solver].
    exists []. rewrite zlen_app. change (zlen []) with 0. rewrite Z.add_0_r, !app_nil_r. auto.
  - destruct (Z.eqb_spec d 0); [set_solver|].
    assert (Ew : (zlen (pre ++ w) =? zlen pre + 1) && (c =? 50) = bool_decide (w = [50])).
    { rewrite zlen_app. destruct w as [|x [|y w]]; unfold zlen; cbn [length].
      - rewrite (proj2 (Z.eqb_neq _ _)), bool_decide_eq_false_2 by (done || lia). done.
      - rewrite Z.eqb_refl. injection E as -> _. cbn. destruct (Z.eqb_spec c 50); case_bool_decide; congruence.
      - rewrite (proj2 (Z.eqb_neq _ _)), bool_decide_eq_false_2 by (done || lia). done. }
    rewrite <-andb_assoc, Ew. clear Ew. destruct (Z.eqb_spec d GT) as [->|]; cbn [andb].
    + case_bool_decide as Hw.
      * subst w. replace (zlen (pre ++ [50]) + 1) with (zlen (pre ++ [50; GT])) by (rewrite !zlen_app; unfold zlen; cbn; lia).
        replace ((pre ++ [50]) ++ GT :: l) with ((pre ++ [50; GT]) ++ l) by by rewrite <-!app_assoc.
        rewrite second_gt_pos. pose proof (second_gt_app l) as E2. destruct (second_gt l) as [t l']. cbn [fst snd] in *.
        rewrite <-app_assoc, zlen_app, <-Z.add_assoc, <-zlen_app. apply cut_step; [done|]. cbn. by rewrite E2.
      * rewrite <-app_assoc, zlen_app. by apply (cut_step pre (w ++ GT :: l) w (GT :: l)).
    + rewrite <-app_assoc, zlen_app. by apply (cut_step pre (w ++ d :: l) w (d :: l)).
Qed.

Lemma tokenize_one_run pre c r :
  0 ∉ c :: r ->
  let '(t, l') := scan_one (c :: r) in token_step pre (c :: r) t l' (tokenize_one (pre ++ c :: r) (zlen pre)).
Proof. intros Hl. destruct (is_op c) eqn:E; [by apply tokenize_one_op|by apply tokenize_one_word]. Qed.

Lemma token_at_mid a t sep r :
  0 ∉ t -> sep = [0] \/ sep = [] /\ r = [] -> token_at (a ++ t ++ sep ++ r) (zlen a) = t.
Proof.
  intros Ht Hs. unfold token_at, zlen. rewrite Nat2Z.id, drop_app_length.
  induction t as [|c t IH]; cbn [app].
  - by destruct Hs as [-> | [-> ->]].
  - rewrite c_string_cons. destruct (Z.eqb_spec c 0); [set_solver|]. rewrite IH; [done|set_solver].
Qed.

(** A token has at least one byte. *)
Lemma scan_one_pos c r : c <> SPACE -> c <> 0 -> (0 < length (fst (scan_one (c :: r))))%nat.
Proof.
  intros Hs H0. unfold scan_one. destruct (is_op c) eqn:Eo.
  { destruct (c =? GT); [destruct (second_gt r)|]; cbn; lia. }
  assert (Ew : in_word c = true) by (unfold in_word; rewrite Eo; lia).
  cbn [span]. rewrite Ew. destruct (span in_word r) as [w [|d l]]; [cbn; lia|].
  destruct (_ && _); [destruct (second_gt l)|]; cbn; lia.
Qed.

Lemma tokenize_loop_scan n pre l tok max :
  0 ∉ l -> (length l < n)%nat -> zlen tok <= max ->
  if max <? zlen tok + Z.of_nat (length (scan n l)) then tokenize_loop n (pre ++ l) (zlen pre) tok max = None
  else exists rest offs, tokenize_loop n (pre ++ l) (zlen pre) tok max = Some (pre ++ rest, tok ++ offs) /\
       map (token_at (pre ++ rest)) offs = scan n l /\ length rest = length l.
Proof.
  revert pre l tok. induction n as [|n IH]; intros pre l tok Hl Hn Ht; [lia|].
  assert (Hend : if max <? zlen tok + Z.of_nat (@length (list Z) []) then Some (pre ++ l, tok) = None
     else exists rest offs, Some (pre ++ l, tok) = Some (pre ++ rest, tok ++ offs) /\
          map (token_at (pre ++ rest)) offs = [] /\ length rest = length l).
  { rewrite (proj2 (Z.ltb_ge _ _)) by (cbn; lia). exists l, []. by rewrite app_nil_r. }
  cbn [tokenize_loop scan]. rewrite byte_at_mid.
  destruct (Z.eqb_spec (hd 0 l) 0) as [E0|_].
  { destruct l; [apply Hend|cbn in E0; set_solver]. }
  rewrite skip_while_span by (done || (rewrite length_app; lia)).
  pose proof (span_app (fun c => c =? SPACE) l) as E. pose proof (span_head (fun c => c =? SPACE) l) as Hh.
  destruct (span (fun c => c =? SPACE) l) as [sp l1]. cbn [fst snd] in *.
  rewrite <-zlen_app. subst l. rewrite app_assoc, byte_at_mid. destruct l1 as [|c r]; cbn [hd].
  { rewrite <-app_assoc. apply Hend. }
  clear Hend. destruct (Z.eqb_spec c 0) as [|Hc0]; [set_solver|].
  pose proof (tokenize_one_run (pre ++ sp) c r ltac:(set_solver)) as Hone.
  pose proof (scan_one_pos c r ltac:(lia) Hc0) as Hpos.
  destruct (scan_one (c :: r)) as [t l']. destruct Hone as [(sep & E1 & Hsep & Hlen) Hnz Hl']. rewrite E1. cbn [length fst] in *.
  destruct (Z.leb_spec max (zlen tok)); [rewrite (proj2 (Z.ltb_lt _ _)) by lia; done|].
  rewrite !length_app in *. cbn [length] in *.
  specialize (IH ((pre ++ sp) ++ t ++ sep) l' (tok ++ [zlen (pre ++ sp)]) Hl' ltac:(lia)).
  replace (zlen (pre ++ sp) + zlen t + zlen sep) with (zlen ((pre ++ sp) ++ t ++ sep)) by (rewrite !zlen_app; lia).
  replace ((pre ++ sp) ++ t ++ sep ++ l') with (((pre ++ sp) ++ t ++ sep) ++ l') by by rewrite <-!app_assoc.
  rewrite (zlen_app tok) in IH. change (zlen [zlen (pre ++ sp)]) with 1 in IH.
  rewrite Nat2Z.inj_succ, Z.add_succ_r, <-Z.add_1_r, <-Z.add_assoc.
  rewrite <-Z.add_assoc, (Z.add_comm 1) in IH.
  destruct (max <? _); [apply IH; lia|].
  destruct IH as (rest & offs & E2 & Emap & Hrest); [lia|].
  exists (sp ++ t ++ sep ++ rest), (zlen (pre ++ sp) :: offs). rewrite E2. cbn [map].
  rewrite <-!app_assoc. rewrite <-!app_assoc in Emap. cbn [app]. split_and!; [done| |rewrite !length_app; lia].
  f_equal; [|done]. rewrite app_assoc. apply token_at_mid; [done|].
  destruct Hsep as [-> | [-> ->]]; [by left|right]. destruct rest; done.
Qed.

(** The in-place tokenizer computes the tokens of the line. *)
Lemma tokenize_tokens s max :
  0 ∉ s -> 0 <= max -> tokenize s max = if max <? Z.of_nat (length (tokens s)) then None else Some (tokens s).
Proof.
  intros Hs Hm. unfold tokenize, tokens.
  pose proof (tokenize_loop_scan (S (length s)) [] s [] max Hs ltac:(lia) Hm) as E.
  change (zlen []) with 0 in E. rewrite Z.add_0_l in E. cbn [app] in E.
  destruct (max <? _); [by rewrite E|]. destruct E as (buf & offs & -> & <- & _). done.
Qed.

(** ** The shape of tokens *)

Definition operators : list (list Z) := [PIPE; OUT; APPEND; IN; ERR; ERR_APPEND].
Definition word (t : list Z) : Prop := t <> [] /\ Forall (fun c => in_word c = true) t.
Definition token_ok (t : list Z) : Prop := t ∈ operators \/ word t.

#[export] Instance token_ok_dec t : Decision (token_ok t).
Proof. unfold token_ok, word. apply _. Defined.

Lemma second_gt_shape l : fst (second_gt l) = [] \/ fst (second_gt l) = [GT].
Proof. destruct l as [|c r]; cbn; [auto|]. destruct (c =? GT); auto. Qed.

Lemma scan_one_shape c r : c <> SPACE -> c <> 0 -> token_ok (fst (scan_one (c :: r))).
Proof.
  intros Hs H0. pose proof (scan_one_pos c r Hs H0) as Hpos. unfold scan_one in *. destruct (is_op c) eqn:Eo.
  - left. destruct (Z.eqb_spec c GT) as [->|].
    + pose proof (second_gt_shape r) as Hsh. destruct (second_gt r) as [t r']. cbn in *. unfold operators, OUT, APPEND, GT.
      destruct Hsh as [-> | ->]; set_solver.
    + unfold is_op in Eo. assert (Hc : c = 124 \/ c = 60) by lia.
      unfold operators, PIPE, IN. cbn. destruct Hc as [-> | ->]; set_solver.
  - pose proof (span_all in_word (c :: r)) as Ha. destruct (span in_word (c :: r)) as [w [|d l]]; cbn [fst] in *.
    + right. split; [by destruct w; [cbn in Hpos; lia|]|done].
    + destruct ((d =? GT) && bool_decide (w = [50])).
      * left. pose proof (second_gt_shape l) as Hsh. destruct (second_gt l) as [t l']. cbn in *.
        unfold operators, ERR, ERR_APPEND, GT. destruct Hsh as [-> | ->]; set_solver.
      * right. split; [by destruct w; [cbn in Hpos; lia|]|done].
Qed.

Lemma scan_one_len c r : 0 ∉ c :: r -> (length (fst (scan_one (c :: r))) + length (snd (scan_one (c :: r))) <= length (c :: r))%nat /\
  (snd (scan_one (c :: r)) = [] \/ length (fst (scan_one (c :: r))) + length (snd (scan_one (c :: r))) < length (c :: r))%nat.
Proof.
  intros Hl. pose proof (tokenize_one_run [] c r Hl) as Hone. destruct (scan_one (c :: r)) as [t l'].
  destruct Hone as [(sep & _ & Hsep & Hlen) _ _]. rewrite !length_app in Hlen. cbn [fst snd].
  destruct Hsep as [-> | [-> ->]]; cbn [length] in *; [split; [|right]; lia|]. split; [lia|by left].
Qed.

Lemma scan_one_nz c r : 0 ∉ c :: r -> 0 ∉ snd (scan_one (c :: r)).
Proof. intros Hl. pose proof (tokenize_one_run [] c r Hl) as Hone. destruct (scan_one (c :: r)). by destruct Hone. Qed.

(** Every token is an operator or a word, and all but the last take two bytes of the line. *)
Lemma scan_shape n l : 0 ∉ l -> Forall token_ok (scan n l) /\ (2 * length (scan n l) <= length l + 1)%nat.
Proof.
  revert l. induction n as [|n IH]; intros l Hl; cbn [scan]; [split; [done|cbn; lia]|].
  pose proof (span_app (fun c => c =? SPACE) l) as E. pose proof (span_head (fun c => c =? SPACE) l) as Hh.
  destruct (span (fun c => c =? SPACE) l) as [sp l1]. cbn [fst snd] in *. subst l.
  rewrite length_app. destruct l1 as [|c r]; [split; [done|cbn; lia]|].
  assert (Hc0 : c <> 0) by set_solver. assert (Hl1 : 0 ∉ c :: r) by set_solver.
  pose proof (scan_one_shape c r ltac:(lia) Hc0) as Hs. pose proof (scan_one_pos c r ltac:(lia) Hc0) as Hp.
  pose proof (scan_one_nz c r Hl1) as Hnz. destruct (scan_one_len c r Hl1) as [Hle Hlt].
  destruct (scan_one (c :: r)) as [t l']. cbn [fst snd] in *. destruct (IH l' Hnz) as [Hf Hn].
  split; [by constructor|]. cbn [length] in *. destruct Hlt as [-> | Hlt]; [|lia].
  assert (scan n [] = []) as -> by (by destruct n). cbn. lia.
Qed.

(** ** The shape of pipelines *)

Lemma strcmp_eqb a b : 0 ∉ a -> 0 ∉ b -> (strcmp a b =? 0) = bool_decide (a = b).
Proof.
  revert b. induction a as [|x a IH]; intros b Ha Hb; cbn [strcmp].
  - destruct b as [|y b]; [by rewrite bool_decide_eq_true_2|]. rewrite bool_decide_eq_false_2 by done.
    cbn. assert (y <> 0) by set_solver. lia.
  - assert (x <> 0) by set_solver. destruct b as [|y b]; cbn [hd tl].
    + rewrite bool_decide_eq_false_2 by done. split_tests; lia.
    + destruct (Z.eqb_spec x y) as [->|].
      * rewrite (proj2 (Z.eqb_neq y 0)) by done. cbn [negb andb]. rewrite IH by set_solver.
        apply bool_decide_ext. naive_solver.
      * rewrite andb_false_r, bool_decide_eq_false_2 by congruence. lia.
Qed.

Lemma word_nz t : word t -> 0 ∉ t.
Proof. intros [_ Hw] Hin. eapply Forall_forall in Hw; [|done]. done. Qed.

(** A word is no operator. *)
Lemma word_not_op t o : word t -> o ∈ operators -> (strcmp t o =? 0) = false.
Proof.
  intros Hw Ho. rewrite strcmp_eqb; [|by apply word_nz|].
  - apply bool_decide_eq_false_2. intros ->. destruct Hw as [_ Hw]. revert Hw. revert o Ho.
    apply (proj1 (Forall_forall (fun o => ~ Forall (fun c => in_word c = true) o) operators)). by_decide.
  - revert o Ho. apply (proj1 (Forall_forall (fun o => 0 ∉ o) operators)). by_decide.
Qed.

(** The operator of a redirection of descriptor [target]. *)
Definition redir_token (target mode : Z) : list Z :=
  if target =? 0 then IN
  else if target =? 1 then if mode =? 0 then OUT else APPEND
  else if mode =? 0 then ERR else ERR_APPEND.

Definition redir_ok (target : Z) (r : option (Z * list Z)) : Prop :=
  match r with
  | None => True
  | Some (mode, file) => (if target =? 0 then mode = 2 else mode = 0 \/ mode = 1) /\ token_ok file
  end.

(** A stage as the executor expects it. *)
Record seg_ok (s : pipeline_seg) : Prop := SegOk {
  so_argc : seg_argc s = Z.of_nat (length (seg_argv s));
  so_args : 1 <= seg_argc s <= MAX_ARGS;
  so_words : Forall word (seg_argv s);
  so_redir : exists r0 r1 r2, seg_redir s = [r0; r1; r2] /\ redir_ok 0 r0 /\ redir_ok 1 r1 /\ redir_ok 2 r2;
  so_builtin : seg_builtin s = 0;
}.

(** A stage under construction: it may have no argument yet. *)
Definition seg_open (s : pipeline_seg) : Prop := seg_argc s = 0 /\ seg_argv s = [] /\ seg_builtin s = 0 /\
  (exists r0 r1 r2, seg_redir s = [r0; r1; r2] /\ redir_ok 0 r0 /\ redir_ok 1 r1 /\ redir_ok 2 r2) \/ seg_ok s.

Lemma new_seg_open : seg_open new_seg.
Proof. left. split_and!; try done. by exists None, None, None. Qed.

Lemma open_ok s : seg_open s -> seg_argc s <> 0 -> seg_ok s.
Proof. intros [(? & _)|?]; [done|done]. Qed.

Lemma redir_op_Some s target mode :
  redir_op s = Some (target, mode) -> (target = 0 /\ mode = 2) \/ ((target = 1 \/ target = 2) /\ (mode = 0 \/ mode = 1)).
Proof. unfold redir_op. repeat destruct (_ =? _); intros [= <- <-]; lia. Qed.

Lemma add_redir_open s target mode file :
  seg_open s -> token_ok file -> (target = 0 /\ mode = 2) \/ ((target = 1 \/ target = 2) /\ (mode = 0 \/ mode = 1)) ->
  seg_open (add_redir s target mode file).
Proof.
  intros Hs Hf Ht.
  assert (Hr : forall r0 r1 r2, redir_ok 0 r0 -> redir_ok 1 r1 -> redir_ok 2 r2 ->
     exists x0 x1 x2, <[Z.to_nat target := Some (mode, file)]> [r0; r1; r2] = [x0; x1; x2] /\
       redir_ok 0 x0 /\ redir_ok 1 x1 /\ redir_ok 2 x2).
  { intros r0 r1 r2 H0 H1 H2. destruct Ht as [[-> ->]|[[-> | ->] Hm]]; cbn; eexists _, _, _; split_and!; done. }
  destruct Hs as [(Hc & Ha & Hb & r0 & r1 & r2 & E & H0 & H1 & H2)|[Hc Ha Hw (r0 & r1 & r2 & E & H0 & H1 & H2) Hb]].
  - left. cbn. rewrite E. split_and!; auto.
  - right. split; cbn; try done. rewrite E. auto.
Qed.

Lemma add_arg_ok s a : seg_open s -> word a -> seg_argc s < MAX_ARGS -> seg_ok (add_arg s a).
Proof.
  intros Hs Ha Hlt. destruct Hs as [(Hc & Hv & Hb & Hr)|[Hc Hn Hw Hr Hb]]; split; cbn; try done.
  - rewrite Hv, Hc. done.
  - unfold MAX_ARGS in *. lia.
  - rewrite Hv. by apply Forall_singleton.
  - rewrite length_app. cbn. lia.
  - unfold MAX_ARGS in *. lia.
  - apply Forall_app. by rewrite Forall_singleton.
Qed.

(** What no operator matches is a word. *)
Lemma token_word s : token_ok s -> (strcmp s PIPE =? 0) = false -> redir_op s = None -> word s.
Proof.
  intros [Ho|]; [|done]. intros Hp Hr. exfalso. revert s Ho Hp Hr.
  apply (proj1 (Forall_forall (fun s => (strcmp s PIPE =? 0) = false -> redir_op s = None -> False) operators)).
  repeat constructor; done.
Qed.

Lemma parse_loop_ok segs cur tok :
  Forall token_ok tok -> Forall seg_ok segs -> Z.of_nat (length segs) < MAX_PIPE_SEGS -> seg_open cur ->
  match parse_loop segs cur tok with
  | None => True
  | Some l => 1 <= Z.of_nat (length l) <= MAX_PIPE_SEGS /\ Forall seg_ok l
  end.
Proof.
  intros Ht. remember (length tok) as n eqn:En. assert (Hn : (length tok <= n)%nat) by lia. clear En.
  revert segs cur tok Ht Hn. induction n as [|n IH]; intros segs cur tok Ht Hn Hs Hl Hc.
  all: destruct Ht as [|s tok Hs1 Ht]; cbn [length] in Hn; try lia; cbn [parse_loop].
  1,2: destruct (Z.eqb_spec (seg_argc cur) 0); [done|]; rewrite length_app; cbn [length]; split;
    [lia|apply Forall_app; split; [done|constructor; [by apply open_ok|done]]].
  destruct (strcmp s PIPE =? 0) eqn:Ep.
  - destruct (Z.eqb_spec (seg_argc cur) 0); [done|]. destruct (Z.leb_spec MAX_PIPE_SEGS (Z.of_nat (length segs) + 1)); [done|].
    apply IH; [done|lia| |rewrite length_app; cbn; lia|apply new_seg_open].
    apply Forall_app. split; [done|]. constructor; [by apply open_ok|done].
  - destruct (redir_op s) as [[target mode]|] eqn:Er.
    + destruct Ht as [|file tok Hf Ht]; [done|]. apply IH; try done; [cbn in Hn; lia|].
      apply add_redir_open; [done|done|by eapply redir_op_Some].
    + destruct (Z.leb_spec MAX_ARGS (seg_argc cur)); [done|]. apply IH; try done; [lia|].
      right. apply add_arg_ok; [done|by apply token_word|lia].
Qed.

(** ** Writing a pipeline as a line *)

Fixpoint join (toks : list (list Z)) : list Z :=
  match toks with
  | [] => []
  | [t] => t
  | t :: rest => t ++ SPACE :: join rest
  end.

Definition redir_tokens (target : Z) (r : option (Z * list Z)) : list (list Z) :=
  match r with None => [] | Some (mode, file) => [redir_token target mode; file] end.

Definition seg_tokens (s : pipeline_seg) : list (list Z) :=
  seg_argv s ++ concat (imap (fun i => redir_tokens (Z.of_nat i)) (seg_redir s)).

Fixpoint pipeline_tokens (segs : list pipeline_seg) : list (list Z) :=
  match segs with
  | [] => []
  | [s] => seg_tokens s
  | s :: rest => seg_tokens s ++ PIPE :: pipeline_tokens rest
  end.

(** The line, with a space between tokens. *)
Definition pipeline_line (segs : list pipeline_seg) : list Z := join (pipeline_tokens segs).

Lemma span_word t l :
  Forall (fun c => in_word c = true) t -> in_word (hd 0 l) = false -> span in_word (t ++ l) = (t, l).
Proof.
  intros Ht Hl. induction Ht as [|c t Hc Ht IH]; cbn [app span].
  - destruct l as [|c l]; [done|]. cbn in *. by rewrite Hl.
  - by rewrite Hc, IH.
Qed.

Lemma word_scan t l : word t -> l = [] \/ hd 0 l = SPACE -> scan_one (t ++ l) = (t, tail l).
Proof.
  intros [Hne Hw] Hl.
  assert (Hh : in_word (hd 0 l) = false) by (destruct Hl as [-> | ->]; done).
  pose proof (span_word t l Hw Hh) as E. destruct t as [|c t]; [done|]. cbn [app] in *. unfold scan_one.
  inversion Hw as [|? ? Hc Hw']; subst. destruct (is_op c) eqn:Eo; [unfold in_word in Hc; rewrite Eo in Hc; lia|].
  rewrite E. destruct l as [|d l]; [done|]. destruct Hl as [|Hd]; [done|]. cbn in Hd. by subst d.
Qed.

Lemma token_scan t l : token_ok t -> l = [] \/ hd 0 l = SPACE -> scan_one (t ++ l) = (t, tail l).
Proof.
  intros [Ho|Hw] Hl; [|by apply word_scan].
  assert (E : l = [] \/ exists r, l = SPACE :: r).
  { destruct Hl as [|Hl]; [by left|]. destruct l as [|d r]; [by left|]. right. exists r. cbn in Hl. by rewrite Hl. }
  revert t Ho. apply (proj1 (Forall_forall (fun t => scan_one (t ++ l) = (t, tail l)) operators)).
  destruct E as [-> | [r ->]]; repeat constructor.
Qed.

Lemma token_head t : token_ok t -> exists c r, t = c :: r /\ (c =? SPACE) = false.
Proof.
  intros [Ho|[Hne Hw]].
  - revert t Ho. apply (proj1 (Forall_forall (fun t => exists c r, t = c :: r /\ (c =? SPACE) = false) operators)).
    repeat constructor; by eexists _, _.
  - destruct Hw as [|c r Hc Hr]; [done|]. exists c, r. split; [done|]. unfold in_word in Hc. lia.
Qed.

Lemma scan_token n t l : token_ok t -> l = [] \/ hd 0 l = SPACE -> scan (S n) (t ++ l) = t :: scan n (tail l).
Proof.
  intros Ht Hl. destruct (token_head t Ht) as (c & r & E & Hc). pose proof (token_scan t l Ht Hl) as Es.
  cbn [scan]. subst t. cbn [app span] in *. rewrite Hc. cbn [snd]. by rewrite Es.
Qed.

(** A line of tokens with spaces between them has these tokens. *)
Lemma scan_join n toks : Forall token_ok toks -> (length (join toks) < n)%nat -> scan n (join toks) = toks.
Proof.
  intros Ht. revert n. induction Ht as [|t toks Ht Hts IH]; intros n Hn; [destruct n; [cbn in Hn; lia|done]|].
  destruct n as [|n]; [lia|]. destruct (token_head t Ht) as (c & r & E & _).
  destruct toks as [|t' toks]; cbn [join].
  - rewrite <-(app_nil_r t) at 1. rewrite scan_token by auto. by destruct n.
  - rewrite scan_token by auto. cbn [tail]. rewrite IH; [done|].
    cbn [join] in Hn. rewrite length_app in Hn. cbn [length] in Hn. cbn [join]. lia.
Qed.

Lemma parse_args segs cur args rest :
  Forall word args -> seg_argc cur + Z.of_nat (length args) <= MAX_ARGS ->
  parse_loop segs cur (args ++ rest) =
  parse_loop segs (Seg (seg_argv cur ++ args) (seg_argc cur + Z.of_nat (length args)) (seg_redir cur) (seg_builtin cur)) rest.
Proof.
  intros Hw. revert cur. induction Hw as [|a args Ha Hw IH]; intros cur Hc; cbn [app length] in *.
  - rewrite app_nil_r, Z.add_0_r. by destruct cur.
  - cbn [parse_loop]. rewrite word_not_op by (done || (unfold operators; set_solver)).
    assert (redir_op a = None) as ->.
    { unfold redir_op. by rewrite !word_not_op by (done || (unfold operators; set_solver)). }
    rewrite (proj2 (Z.leb_gt _ _)) by lia. rewrite IH by (cbn; lia). f_equal. cbn.
    rewrite <-app_assoc. f_equal. lia.
Qed.

Lemma redir_op_token target mode :
  (target = 0 /\ mode = 2) \/ ((target = 1 \/ target = 2) /\ (mode = 0 \/ mode = 1)) ->
  (strcmp (redir_token target mode) PIPE =? 0) = false /\ redir_op (redir_token target mode) = Some (target, mode).
Proof. intros [[-> ->]|[[-> | ->] [-> | ->]]]; done. Qed.

(** The tokens of one redirection. *)
Lemma parse_redir segs cur target r rest :
  target = 0 \/ target = 1 \/ target = 2 -> redir_ok target r -> seg_redir cur !! Z.to_nat target = Some None ->
  parse_loop segs cur (redir_tokens target r ++ rest) =
  parse_loop segs (Seg (seg_argv cur) (seg_argc cur) (<[Z.to_nat target := r]> (seg_redir cur)) (seg_builtin cur)) rest.
Proof.
  intros Ht Hr Hc. destruct r as [[mode file]|]; cbn [redir_tokens app].
  - destruct (redir_op_token target mode) as [E1 E2].
    { destruct Hr as [Hr _]. destruct Ht as [-> | [-> | ->]]; cbn in Hr; lia. }
    cbn [parse_loop]. by rewrite E1, E2.
  - rewrite list_insert_id by done. by destruct cur.
Qed.

Lemma parse_seg segs s rest :
  seg_ok s -> parse_loop segs new_seg (seg_tokens s ++ rest) = parse_loop segs s rest.
Proof.
  intros [Hc Hn Hw (r0 & r1 & r2 & E & H0 & H1 & H2) Hb]. unfold seg_tokens. rewrite E.
  replace (concat _) with (redir_tokens 0 r0 ++ redir_tokens 1 r1 ++ redir_tokens 2 r2) by (cbn; by rewrite app_nil_r).
  rewrite <-!app_assoc. rewrite parse_args by (done || (cbn; lia)).
  rewrite !parse_redir by (done || auto). f_equal. destruct s as [av ac rd bi]. cbn in *. by subst.
Qed.

Lemma parse_segs segs done_ :
  Forall seg_ok segs -> segs <> [] -> Z.of_nat (length done_) + Z.of_nat (length segs) <= MAX_PIPE_SEGS ->
  parse_loop done_ new_seg (pipeline_tokens segs) = Some (done_ ++ segs).
Proof.
  intros Hs. revert done_. induction Hs as [|s segs Hok Hs IH]; intros done_ Hne Hn; [done|].
  assert (Hc : (seg_argc s =? 0) = false) by (destruct Hok as [_ ? _ _ _]; lia).
  destruct segs as [|s' segs]; cbn [pipeline_tokens].
  - rewrite <-(app_nil_r (seg_tokens s)), parse_seg by done. cbn [parse_loop]. by rewrite Hc.
  - rewrite parse_seg by done. cbn [parse_loop]. change (strcmp PIPE PIPE =? 0) with true. cbn iota. rewrite Hc.
    cbn [length] in Hn. rewrite (proj2 (Z.leb_gt _ _)) by lia.
    rewrite IH by (done || (rewrite length_app; cbn [length]; lia)). by rewrite <-app_assoc.
Qed.

Lemma token_nz t : token_ok t -> 0 ∉ t.
Proof.
  intros [Ho|Hw]; [|by apply word_nz].
  revert t Ho. apply (proj1 (Forall_forall (fun t => 0 ∉ t) operators)). by_decide.
Qed.

Lemma join_nz toks : Forall token_ok toks -> 0 ∉ join toks.
Proof.
  induction 1 as [|t toks Ht Hts IH]; [apply not_elem_of_nil|]. apply token_nz in Ht.
  destruct toks as [|t' toks]; [done|]. cbn [join] in *. rewrite elem_of_app, elem_of_cons. by intros [?|[?|?]].
Qed.

Lemma redir_tokens_ok target r : redir_ok target r -> Forall token_ok (redir_tokens target r).
Proof.
  destruct r as [[mode file]|]; [|done]. intros [_ Hf]. cbn. apply Forall_cons. split; [|by apply Forall_singleton].
  left. unfold redir_token. repeat destruct (_ =? _); unfold operators; set_solver.
Qed.

Lemma pipeline_tokens_ok segs : Forall seg_ok segs -> Forall token_ok (pipeline_tokens segs).
Proof.
  assert (Hone : forall s, seg_ok s -> Forall token_ok (seg_tokens s)).
  { intros s [_ _ Hw (r0 & r1 & r2 & E & H0 & H1 & H2) _]. unfold seg_tokens. rewrite E. cbn. rewrite !Forall_app.
    split_and!; [|by apply redir_tokens_ok..|done]. eapply Forall_impl; [done|]. by right. }
  induction 1 as [|s segs Hs Hss IH]; [done|]. apply Hone in Hs. destruct segs as [|s' segs]; [done|].
  cbn [pipeline_tokens] in *. apply Forall_app. split; [done|]. constructor; [|done]. left. unfold operators. set_solver.
Qed.

(** A line that fits the buffer never has too many tokens. *)
Lemma tokenize_line s : 0 ∉ s -> zlen s < TSH_LINE_MAX -> tokenize s MAX_TOKENS = Some (tokens s).
Proof.
  intros Hs Hn. rewrite tokenize_tokens by done. destruct (scan_shape (S (length s)) s Hs) as [_ Hc].
  change MAX_TOKENS with 72. unfold tokens, zlen, TSH_LINE_MAX in *. rewrite (proj2 (Z.ltb_ge _ _)); [done|lia].
Qed.

(** C18. The shell's command lines are well typed: every line that fits the
    line editor's buffer is split into at most [MAX_TOKENS] tokens, each of
    which is one of the six operators or a nonempty word without spaces and
    operator characters; and if the parser accepts them, the result is one
    to eight stages, each with one to sixteen words as arguments and with
    redirections whose mode fits their descriptor. *)
Theorem command_line_typed (s : list Z) :
  0 ∉ s -> zlen s < TSH_LINE_MAX ->
  exists toks, tokenize s MAX_TOKENS = Some toks /\ Forall token_ok toks /\
    match parse_pipeline toks with
    | None => True
    | Some segs => 1 <= Z.of_nat (length segs) <= MAX_PIPE_SEGS /\ Forall seg_ok segs
    end.
Proof.
  intros Hs Hn. exists (tokens s). rewrite tokenize_line by done.
  destruct (scan_shape (S (length s)) s Hs) as [Hf _]. split_and!; [done|done|].
  apply parse_loop_ok; [done|done|done|apply new_seg_open].
Qed.

Lemma command_line_typed_witness :
  exists toks, tokenize (bs "cat < in | grep x 2>> log") MAX_TOKENS = Some toks /\ Forall token_ok toks /\
    match parse_pipeline toks with
    | None => True
    | Some segs => 1 <= Z.of_nat (length segs) <= MAX_PIPE_SEGS /\ Forall seg_ok segs
    end.
Proof. apply (command_line_typed (bs "cat < in | grep x 2>> log")); [by_decide|reflexivity]. Defined.

(** C19. Round trip of pipelines: a pipeline written as a line with a space
    between any two tokens (the arguments of each stage, then its
    redirections, stages separated by a bar) is tokenized and parsed back
    to exactly that pipeline, as long as the line fits the buffer. *)
Theorem pipeline_line_parses (segs : list pipeline_seg) :
  segs <> [] -> Z.of_nat (length segs) <= MAX_PIPE_SEGS -> Forall seg_ok segs ->
  zlen (pipeline_line segs) < TSH_LINE_MAX ->
  exists toks, tokenize (pipeline_line segs) MAX_TOKENS = Some toks /\ parse_pipeline toks = Some segs.
Proof.
  intros Hne Hn Hs Hl. pose proof (pipeline_tokens_ok segs Hs) as Ht. exists (pipeline_tokens segs).
  rewrite tokenize_line by (done || by apply join_nz). unfold tokens, pipeline_line.
  rewrite scan_join by (done || lia). split; [done|]. by apply (parse_segs segs []).
Qed.

Definition demo_pipeline : list pipeline_seg :=
  [Seg [bs "cat"; bs "-n"] 2 [Some (2, bs "in"); None; None] 0;
   Seg [bs "grep"; bs "x"] 2 [None; Some (1, bs "out"); Some (0, bs "log")] 0].

Lemma pipeline_line_parses_witness :
  pipeline_line demo_pipeline = bs "cat -n < in | grep x >> out 2> log" /\
  exists toks, tokenize (pipeline_line demo_pipeline) MAX_TOKENS = Some toks /\ parse_pipeline toks = Some demo_pipeline.
Proof.
  split; [reflexivity|]. apply (pipeline_line_parses demo_pipeline); [done|done| |reflexivity].
  repeat constructor; try done; try by_decide; eexists _, _, _; (split; [reflexivity|]);
    repeat split; cbn; auto; by_decide.
Defined.

Lemma glued_scan n a o b :
  word a -> a <> [50] -> is_op o = true -> scan (S n) (a ++ o :: b) = a :: scan n b.
Proof.
  intros Ha Ha2 Ho. destruct (token_head a (or_intror Ha)) as (x & r & E & Hx). destruct Ha as [_ Hw].
  assert (Hx2 : is_op x = false) by (subst a; inversion Hw; subst; unfold in_word in *; destruct (is_op x); lia).
  pose proof (span_word a (o :: b) Hw) as Es. subst a. cbn [scan app span] in *. rewrite Hx. cbn [snd scan_one]. rewrite Hx2.
  cbn [span] in *. rewrite Es by (cbn; unfold in_word; rewrite Ho; lia).
  rewrite bool_decide_eq_false_2 by done. by rewrite andb_false_r.
Qed.

Lemma op_scan n o c b : is_op o = true -> o <> SPACE -> c <> GT -> scan (S n) (o :: c :: b) = [o] :: scan n b.
Proof.
  intros Ho Hs Hc. cbn [scan span]. rewrite (proj2 (Z.eqb_neq o SPACE)) by done. cbn [snd scan_one]. rewrite Ho.
  cbn [second_gt]. rewrite (proj2 (Z.eqb_neq c GT)) by done. by destruct (o =? GT).
Qed.

(** Operators glued to their neighbours are lost, although the
    shell's documentation allows them: in [a|b], [a<b] and [a>b] the
    operator itself is overwritten and the line is the command [a] with the
    argument [b]; after [a >cb] or [a |cb] the first character [c] of the
    next word is overwritten. *)
Theorem glued_operators_lost (a b : list Z) (o c : Z) :
  word a -> a <> [50] -> word b -> is_op o = true -> in_word c = true ->
  zlen a + zlen b < TSH_LINE_MAX - 3 ->
  tokenize (a ++ o :: b) MAX_TOKENS = Some [a; b] /\
  tokenize (a ++ SPACE :: o :: c :: b) MAX_TOKENS = Some [a; [o]; b].
Proof.
  intros Ha Ha2 Hb Ho Hc Hl. pose proof (word_nz a Ha) as Na. pose proof (word_nz b Hb) as Nb.
  assert (Hall : forall n, (length b < n)%nat -> scan n b = [b]).
  { intros n Hn. apply (scan_join n [b]); [by apply Forall_singleton; right|done]. }
  assert (o <> 0 /\ o <> SPACE /\ c <> 0 /\ c <> GT) as (Ho0 & Hos & Hc0 & Hcg) by (unfold in_word, is_op, SPACE, GT in *; lia).
  rewrite !tokenize_line.
  2,4: rewrite elem_of_app, !elem_of_cons; naive_solver.
  2,3: rewrite zlen_app; unfold zlen, TSH_LINE_MAX in *; cbn [length]; lia.
  unfold tokens. rewrite !length_app. cbn [length]. split.
  - rewrite glued_scan by done. by rewrite Hall by lia.
  - rewrite scan_token by (auto; by right). cbn [tail]. rewrite !Nat.add_succ_r, op_scan by done.
    by rewrite Hall by lia.
Qed.

Lemma glued_operators_lost_witness :
  tokenize (bs "ls|more") MAX_TOKENS = Some [bs "ls"; bs "more"] /\
  tokenize (bs "ls >xmore") MAX_TOKENS = Some [bs "ls"; bs ">"; bs "more"].
Proof.
  split.
  - apply (glued_operators_lost (bs "ls") (bs "more") 124 120); try done; by_decide.
  - apply (glued_operators_lost (bs "ls") (bs "more") 62 120); try done; by_decide.
Defined.
