(* ===== verification/ShellPath.v ===== *)
(** * Paths and listings of the shell (src/kernel/shell/cmd_fs.c)

    The parts of the file commands that compute on strings: the resolution of
    a path against the working directory, the permission string of [ls -l]
    and the sorting of a listing. *)

From stdpp Require Import base numbers list sets sorting.
From Stdlib Require Import ZArith Lia ZifyBool.
From S2P Require Import Prelude.
From S2P Require Import Klib.
From S2P Require Import Pipe.
From S2P Require Import Vfs.
From S2P Require Import VfsFd.
From S2P Require Import VfsTree.
From S2P Require Import ShellParse.

Definition PATH_BUF : Z := 256.
Definition DOT : list Z := [46].
Definition DOTDOT : list Z := [46; 46].

(** ** Path resolution *)

Definition is_slash (c : Z) : bool := c =? SLASH.

(** The split loop on what is left of [tmp], with the segments so far. *)
Fixpoint split_path (n : nat) (p : list Z) (segs : list (list Z)) : list (list Z) :=
  match n with
  | O => segs
  | S n' =>
      match snd (span is_slash p) with
      | [] => segs
      | p =>
          let '(s, p) := span (fun c => negb (is_slash c)) p in
          if bool_decide (s = DOT) then split_path n' p segs
          else if bool_decide (s = DOTDOT) then split_path n' p (removelast segs)
          else if Z.of_nat (length segs) <? 32 then split_path n' p (segs ++ [s])
          else split_path n' p segs
      end
  end.

(** The segments from the [i]-th on, with [room] bytes of room. *)
Fixpoint rebuild_path (first : bool) (segs : list (list Z)) (room : Z) : list Z :=
  match segs with
  | [] => []
  | s :: segs' =>
      if room <=? 1 then []
      else
        let '(slash, room) := if first then ([], room) else ([SLASH], room - 1) in
        let l := if zlen s <? room - 1 then zlen s else room - 1 in
        slash ++ take (Z.to_nat l) s ++ rebuild_path false segs' (room - l)
  end.

Definition path_resolve (g_cwd inp : list Z) (outsz : Z) : list Z :=
  let tmp_size := PATH_BUF + 32 in
  let go tmp := SLASH :: rebuild_path true (split_path (S (length tmp)) tmp []) (outsz - 1) in
  if hd 0 inp =? SLASH then go (take (Z.to_nat (tmp_size - 1)) inp)
  else if tmp_size <=? zlen g_cwd + 1 + zlen inp then [SLASH]
  else go (g_cwd ++ SLASH :: inp).

(** ** Listings *)

Record ls_entry := LsEntry {
  le_name : list Z;
  le_type : node_type;
  le_size : Z;
  le_mode : Z;
}.

Definition type_char (t : node_type) : Z :=
  match t with VFS_DIR => 100 | VFS_DEVICE => 99 | VFS_FILE => 45 end.

(** One of the three special bits over the [x] of its triple. *)
Definition special (mode bit pos on off : Z) (out : list Z) : list Z :=
  if Z.land mode bit =? 0 then out
  else <[Z.to_nat pos := if byte_at out pos =? 120 then on else off]> out.

Definition mode_string (mode : Z) (t : node_type) : list Z :=
  let rwx := bs "rwxrwxrwx" in
  let out := type_char t :: map (fun i => if Z.land mode (Z.shiftr 256 i) =? 0 then 45 else byte_at rwx i) (zseq 0 9) in
  let out := special mode 2048 3 115 83 out in
  let out := special mode 1024 6 115 83 out in
  special mode 512 9 116 84 out.

(** [ents[i]] and [ents[j]] change places. *)
Definition swap_entries (ents : list ls_entry) (i j : nat) : list ls_entry :=
  match ents !! i, ents !! j with
  | Some a, Some b => <[j := a]> (<[i := b]> ents)
  | _, _ => ents
  end.

Definition name_less (ents : list ls_entry) (j i : nat) : bool :=
  match ents !! j, ents !! i with
  | Some b, Some a => strcmp (le_name b) (le_name a) <? 0
  | _, _ => false
  end.

(** The inner loop, [n] rounds from [j] on. *)
Fixpoint ls_inner (n : nat) (i j : nat) (ents : list ls_entry) : list ls_entry :=
  match n with
  | O => ents
  | S n' => ls_inner n' i (S j) (if name_less ents j i then swap_entries ents i j else ents)
  end.

Fixpoint ls_outer (n : nat) (i : nat) (ents : list ls_entry) : list ls_entry :=
  match n with
  | O => ents
  | S n' => ls_outer n' (S i) (ls_inner (length ents - S i) i (S i) ents)
  end.

Definition ls_sort (ents : list ls_entry) : list ls_entry := ls_outer (length ents) 0 ents.

(** ** Resolution on components *)

Definition up_or_in (st : list (list Z)) (c : list Z) : list (list Z) :=
  if bool_decide (c = DOT) then st
  else if bool_decide (c = DOTDOT) then removelast st
  else st ++ [c].

(** What is left of a component list once [.] and [..] are followed. *)
Definition follow (cs : list (list Z)) : list (list Z) := foldl up_or_in [] cs.

(** A path from its components. *)
Definition path_text (cs : list (list Z)) : list Z :=
  match cs with [] => [SLASH] | _ => concat (map (cons SLASH) cs) end.

Definition full_path (g_cwd inp : list Z) : list Z :=
  if hd 0 inp =? SLASH then inp else g_cwd ++ SLASH :: inp.

Definition plain (c : list Z) : Prop := c <> [] /\ SLASH ∉ c /\ c <> DOT /\ c <> DOTDOT.

Lemma span_slashes p : snd (span is_slash p) = skip_slashes p.
Proof.
  induction p as [|c p IH]; [done|]. cbn [span skip_slashes]. unfold is_slash in *.
  destruct (c =? SLASH); [|done]. by destruct (span _ p).
Qed.

Lemma span_comp p : span (fun c => negb (is_slash c)) p = (take (comp_len p) p, drop (comp_len p) p).
Proof.
  induction p as [|c p IH]; [done|]. cbn [span comp_len]. unfold is_slash in *.
  destruct (c =? SLASH); cbn [negb]; [done|]. by rewrite IH.
Qed.

Lemma skip_idem p : skip_slashes (skip_slashes p) = skip_slashes p.
Proof. induction p as [|c p IH]; [done|]. cbn [skip_slashes]. destruct (c =? SLASH) eqn:E; [done|]. cbn. by rewrite E. Qed.

Lemma skip_len p : (length (skip_slashes p) <= length p)%nat.
Proof. induction p as [|c p IH]; cbn; [lia|]. destruct (c =? SLASH); cbn; lia. Qed.

(** The loop follows the components while at most 32 of them are held. *)
Lemma split_path_follow n p segs :
  (length p < n)%nat -> (forall i, (length (foldl up_or_in segs (take i (components p))) <= 32)%nat) ->
  split_path n p segs = foldl up_or_in segs (components p).
Proof.
  revert p segs. induction n as [|n IH]; intros p segs Hn Hd; [lia|]. cbn [split_path].
  rewrite span_slashes, <-(skip_slashes_components p). rewrite <-(skip_slashes_components p) in Hd.
  pose proof (skip_len p) as Hl. pose proof (skip_idem p) as Hi.
  destruct (skip_slashes p) as [|c q] eqn:E; [done|]. rewrite span_comp.
  destruct (components_step (c :: q) ltac:(done) Hi) as [Ec Hpos]. rewrite Ec in Hd |- *. cbn [foldl].
  set (w := take _ (c :: q)) in *. rewrite skip_slashes_components in Hd |- *. set (r := drop _ (c :: q)) in *.
  assert (Hr : (length r < n)%nat) by (unfold r; rewrite length_drop; cbn [length] in *; lia).
  assert (Hstep : up_or_in segs w = if bool_decide (w = DOT) then segs else if bool_decide (w = DOTDOT) then removelast segs else segs ++ [w]) by done.
  assert (Hd' : forall i, (length (foldl up_or_in (up_or_in segs w) (take i (components r))) <= 32)%nat) by (intros i; apply (Hd (S i))).
  rewrite <-(IH r (up_or_in segs w) Hr Hd'). specialize (Hd' O). rewrite take_0 in Hd'. cbn [foldl] in Hd'. rewrite Hstep in Hd' |- *.
  clear IH. case_bool_decide; [done|]. case_bool_decide; [done|].
  rewrite length_app in Hd'. cbn [length] in Hd'. by rewrite (proj2 (Z.ltb_lt _ _)) by lia.
Qed.

Lemma removelast_incl {A} (l : list A) x : x ∈ removelast l -> x ∈ l.
Proof. induction l as [|y l IH]; [done|]. destruct l; [set_solver|]. cbn [removelast]. set_solver. Qed.

(** What holds of all components holds of those that are left. *)
Lemma follow_Forall (R : list Z -> Prop) st cs : Forall R cs -> Forall R st -> Forall R (foldl up_or_in st cs).
Proof.
  intros Hc. revert st. induction Hc as [|c cs Hx Hcs IH]; intros st Hs; [done|]. cbn [foldl]. apply IH.
  unfold up_or_in. case_bool_decide; [done|]. case_bool_decide; [|apply Forall_app; by rewrite Forall_singleton].
  apply Forall_forall. intros x Hin%removelast_incl. by eapply Forall_forall in Hs.
Qed.

(** None of them is a dot or two dots. *)
Lemma follow_no_dots st cs :
  Forall (fun c => c <> DOT /\ c <> DOTDOT) st -> Forall (fun c => c <> DOT /\ c <> DOTDOT) (foldl up_or_in st cs).
Proof.
  revert st. induction cs as [|c cs IH]; intros st Hs; [done|]. cbn [foldl]. apply IH.
  unfold up_or_in. case_bool_decide; [done|]. case_bool_decide; [|apply Forall_app; by rewrite Forall_singleton].
  apply Forall_forall. intros x Hin%removelast_incl. by eapply Forall_forall in Hs.
Qed.

Lemma comps_shape acc p : SLASH ∉ acc -> Forall (fun c => c <> [] /\ SLASH ∉ c) (comps acc p).
Proof.
  revert acc. induction p as [|c p IH]; intros acc Ha; cbn [comps]; [by destruct acc; [|apply Forall_singleton]|].
  destruct (Z.eqb_spec c SLASH).
  - destruct acc; [apply IH; set_solver|]. constructor; [done|]. apply IH. set_solver.
  - apply IH. set_solver.
Qed.

Lemma follow_plain p : Forall plain (follow (components p)).
Proof.
  assert (H1 : Forall (fun c => c <> [] /\ SLASH ∉ c) (follow (components p))).
  { apply follow_Forall; [|done]. apply comps_shape. set_solver. }
  pose proof (follow_no_dots [] (components p) ltac:(done)) as H2. apply Forall_forall. intros c Hc.
  eapply Forall_forall in H1, H2; try done. unfold plain. tauto.
Qed.

Lemma comps_cstr acc p : cstr acc -> cstr p -> Forall cstr (comps acc p).
Proof.
  intros Ha Hp. revert acc Ha. induction Hp as [|c p Hc Hp IH]; intros acc Ha; cbn [comps].
  - destruct acc; [done|]. by apply Forall_singleton.
  - destruct (c =? SLASH); [|apply IH, Forall_app; by rewrite Forall_singleton].
    destruct acc; [by apply IH|]. constructor; [done|]. by apply IH, Forall_nil.
Qed.

Lemma text_cstr cs : Forall cstr cs -> cstr (path_text cs).
Proof.
  intros Hc. assert (Hs : 0 < SLASH < 256) by (unfold SLASH; lia).
  assert (G : cstr (concat (map (cons SLASH) cs))).
  { induction Hc as [|c cs Hc Hcs IH]; [by apply Forall_nil|]. cbn. constructor; [done|]. by apply Forall_app. }
  destruct cs; [by apply Forall_singleton|done].
Qed.

(** Plain components stay as they are. *)
Lemma follow_id_from st cs : Forall plain cs -> foldl up_or_in st cs = st ++ cs.
Proof.
  intros Hc. revert st. induction Hc as [|c cs (H1 & H2 & H3 & H4) Hcs IH]; intros st; cbn [foldl]; [by rewrite app_nil_r|].
  rewrite IH. unfold up_or_in. rewrite !bool_decide_eq_false_2 by done. by rewrite <-app_assoc.
Qed.

Lemma components_text cs : Forall plain cs -> components (path_text cs) = cs.
Proof.
  intros Hc. assert (G : components (concat (map (cons SLASH) cs)) = cs).
  { induction Hc as [|c cs (H1 & H2 & _) Hcs IH]; [done|]. cbn [map concat]. 
    unfold components. cbn [app comps]. change (SLASH =? SLASH) with true. cbn iota.
    destruct cs as [|c' cs]; [rewrite app_nil_r; by apply components_name|]. cbn [map concat app] in *.
    rewrite comps_app. rewrite (comps_name [] c) by done. cbn [app]. f_equal.
    unfold components in IH. cbn [comps] in IH. by change (SLASH =? SLASH) with true in IH. }
  by destruct cs.
Qed.

Lemma rebuild_all first cs room :
  Forall plain cs -> zlen (concat (map (cons SLASH) cs)) < room ->
  rebuild_path first cs room = (if first then tail (concat (map (cons SLASH) cs)) else concat (map (cons SLASH) cs)).
Proof.
  intros Hc. revert first room. induction Hc as [|c cs (Hne & _) Hcs IH]; intros first room Hl; [by destruct first|].
  cbn [rebuild_path map concat app tail] in *.
  assert (Hlen : zlen (SLASH :: c ++ concat (map (cons SLASH) cs)) = 1 + zlen c + zlen (concat (map (cons SLASH) cs))).
  { unfold zlen. cbn [length]. rewrite length_app. lia. }
  rewrite Hlen in Hl. assert (0 < zlen c) by (destruct c; [done|unfold zlen; cbn; lia]).
  pose proof (zlen_nonneg (concat (map (cons SLASH) cs))).
  assert (Ht : take (Z.to_nat (zlen c)) c = c) by (apply take_ge; unfold zlen; lia).
  rewrite (proj2 (Z.leb_gt _ _)) by lia.
  assert (Hmin : forall x, zlen c <= x -> (if zlen c <? x then zlen c else x) = zlen c) by (intros; split_tests; lia).
  destruct first; rewrite Hmin, Ht, IH by lia; done.
Qed.

Lemma follow_len_from st cs :
  zlen (concat (map (cons SLASH) (foldl up_or_in st cs))) <=
  zlen (concat (map (cons SLASH) st)) + zlen (concat (map (cons SLASH) cs)).
Proof.
  revert st. induction cs as [|c cs IH]; intros st; cbn [foldl map concat]; [change (zlen []) with 0; lia|].
  etrans; [apply IH|]. rewrite zlen_app.
  assert (Hst : zlen (concat (map (cons SLASH) (up_or_in st c))) <= zlen (concat (map (cons SLASH) st)) + zlen (SLASH :: c)).
  { pose proof (zlen_nonneg (SLASH :: c)). unfold up_or_in. case_bool_decide; [lia|]. case_bool_decide.
    - destruct st as [|x st _] using rev_ind; [cbn; lia|]. rewrite removelast_last, map_app, concat_app, zlen_app.
      pose proof (zlen_nonneg (concat (map (cons SLASH) [x]))). lia.
    - rewrite map_app, concat_app, zlen_app. cbn. rewrite app_nil_r. lia. }
  lia.
Qed.

Lemma components_len p : zlen (concat (map (cons SLASH) (components p))) <= zlen p + 1.
Proof.
  assert (G : forall acc, zlen (concat (map (cons SLASH) (comps acc p))) <= zlen acc + zlen p + 1).
  { induction p as [|c p IH]; intros acc; cbn [comps].
    - destruct acc; cbn; rewrite ?app_nil_r; unfold zlen; cbn; lia.
    - destruct (c =? SLASH).
      + specialize (IH []). destruct acc as [|x acc]; [unfold zlen in *; cbn in *; lia|].
        cbn [map concat]. rewrite zlen_app. unfold zlen in *. cbn in *. lia.
      + etrans; [apply IH|]. rewrite zlen_app. unfold zlen. cbn. lia. }
  specialize (G []). unfold components. change (zlen []) with 0 in G. lia.
Qed.

Lemma components_len_abs q : zlen (concat (map (cons SLASH) (components (SLASH :: q)))) <= zlen (SLASH :: q).
Proof. pose proof (components_len q) as Hc. unfold components in *. cbn [comps]. unfold zlen in *. cbn [length] in *. cbn. lia. Qed.

(** An absolute path at most as long as the buffer allows, never more than 32 levels down. *)
Record resolvable (g_cwd inp : list Z) : Prop := Resolvable {
  rs_abs : hd 0 (full_path g_cwd inp) = SLASH;
  rs_len : zlen (full_path g_cwd inp) < PATH_BUF - 1;
  rs_deep : forall i, (length (follow (take i (components (full_path g_cwd inp)))) <= 32)%nat;
}.

Lemma follow_text_len g_cwd inp :
  resolvable g_cwd inp -> zlen (concat (map (cons SLASH) (follow (components (full_path g_cwd inp))))) < PATH_BUF - 1.
Proof.
  intros [Ha Hl _]. pose proof (follow_len_from [] (components (full_path g_cwd inp))) as Hf.
  cbn [map concat] in Hf. change (zlen []) with 0 in Hf. unfold follow.
  destruct (full_path g_cwd inp) as [|c q]; [done|]. cbn in Ha. subst c. pose proof (components_len_abs q). lia.
Qed.

Lemma path_resolve_run g_cwd inp :
  resolvable g_cwd inp -> path_resolve g_cwd inp PATH_BUF = path_text (follow (components (full_path g_cwd inp))).
Proof.
  intros Hr. pose proof (follow_text_len _ _ Hr) as Htl. destruct Hr as [_ Hl Hd]. unfold path_resolve.
  assert (Hgo : forall tmp, tmp = full_path g_cwd inp ->
     SLASH :: rebuild_path true (split_path (S (length tmp)) tmp []) (PATH_BUF - 1) = path_text (follow (components tmp))).
  { intros tmp ->. rewrite split_path_follow by (done || lia). change (foldl up_or_in [] ?x) with (follow x).
    rewrite rebuild_all by (done || apply follow_plain). unfold path_text. by destruct (follow _). }
  unfold full_path in *. destruct (hd 0 inp =? SLASH) eqn:E.
  - rewrite take_ge; [by apply Hgo|]. unfold PATH_BUF, zlen in *. lia.
  - rewrite zlen_app in Hl. rewrite (proj2 (Z.leb_gt _ _)); [by apply Hgo|]. unfold PATH_BUF, zlen in *. cbn in Hl. lia.
Qed.

Lemma text_len cs : zlen (path_text cs) <= Z.max 1 (zlen (concat (map (cons SLASH) cs))).
Proof. destruct cs; [done|]. cbn [path_text]. lia. Qed.

Lemma full_text dir cs : full_path dir (path_text cs) = path_text cs.
Proof. unfold full_path. by destruct cs. Qed.

(** A plain path is resolvable from anywhere. *)
Lemma text_resolvable g_cwd cs :
  Forall plain cs -> (length cs <= 32)%nat -> zlen (path_text cs) < PATH_BUF - 1 -> resolvable g_cwd (path_text cs).
Proof.
  intros Hc Hn Hl. split; rewrite full_text; [by destruct cs|done|]. intros i. rewrite components_text by done. unfold follow.
  rewrite follow_id_from by (by apply Forall_take). cbn [app]. rewrite length_take. lia.
Qed.

(** C20. The shell's path resolution: for an absolute path, or one below an
    absolute working directory, that fits the buffer and never goes more
    than 32 levels down, the result is the normal form of the path. Its
    components are those of the full path with [.] dropped and [..]
    followed (staying at the root), joined by single slashes; resolving it
    again, from any directory, does not change it; and in a well-formed tree
    the file system finds under it the node that the walk along these
    components reaches. *)
Theorem path_resolve_normalizes (g_cwd inp : list Z) :
  resolvable g_cwd inp -> cstr (full_path g_cwd inp) ->
  let r := path_resolve g_cwd inp PATH_BUF in
  let cs := follow (components (full_path g_cwd inp)) in
  r = path_text cs /\ components r = cs /\ Forall plain cs /\
  (forall dir, path_resolve dir r PATH_BUF = r) /\
  (forall D (s : vfs D) kids, tree s kids ->
     vfs_lookup r s = Some (default 0 (walk (nodes s) kids (g_root s) cs), s)).
Proof.
  intros Hr Hs r cs. pose proof (follow_plain (full_path g_cwd inp)) as Hp. fold cs in Hp.
  pose proof (path_resolve_run g_cwd inp Hr) as E. fold r in E. fold cs in E.
  pose proof (components_text cs Hp) as Ec. split_and!; [done|by rewrite E|done| |].
  - intros dir. rewrite E. assert (Hres : resolvable dir (path_text cs)).
    { apply text_resolvable; [done| |].
      - pose proof (rs_deep _ _ Hr (length (components (full_path g_cwd inp)))) as Hd.
        by rewrite take_ge in Hd by lia.
      - pose proof (follow_text_len _ _ Hr) as Hl. fold cs in Hl. pose proof (text_len cs). unfold PATH_BUF in *. lia. }
    rewrite path_resolve_run by done.
    assert (full_path dir (path_text cs) = path_text cs) as -> by apply full_text.
    rewrite Ec. unfold follow. by rewrite follow_id_from.
  - intros D s kids Ht. rewrite vfs_lookup_run with (kids := kids); [by rewrite E, Ec|done|].
    rewrite E. apply text_cstr. apply follow_Forall; [|done]. apply comps_cstr; [by apply Forall_nil|done].
Qed.

Lemma path_resolve_normalizes_witness :
  path_resolve (bs "/usr/local") (bs "../lib//./x") PATH_BUF = bs "/usr/lib/x" /\
  components (path_resolve (bs "/usr/local") (bs "../lib//./x") PATH_BUF) = [bs "usr"; bs "lib"; bs "x"].
Proof.
  split; [reflexivity|].
  apply (path_resolve_normalizes (bs "/usr/local") (bs "../lib//./x")).
  - split; [reflexivity|reflexivity|]. intros i. do 7 (destruct i as [|i]; [cbv; lia|]). cbv; lia.
  - by_decide.
Defined.

(** A directory below 32 levels is not found by its path: the deeper
    components are dropped, and the path names an ancestor. *)
Example path_resolve_deep :
  path_resolve (bs "/") (path_text (replicate 33 (bs "a"))) PATH_BUF = path_text (replicate 32 (bs "a")).
Proof. reflexivity. Qed.

(** ** Sorting *)

Lemma lex_opp a b : lex b a = CompOpp (lex a b).
Proof. revert b. induction a as [|x a IH]; intros [|y b]; cbn; try done. rewrite (Z.compare_antisym x y). destruct (x ?= y); [apply IH|done|done]. Qed.

Lemma lex_trans a b c : lex a b <> Gt -> lex b c <> Gt -> lex a c <> Gt.
Proof.
  revert b c. induction a as [|x a IH]; intros [|y b] [|z c]; cbn; try done.
  destruct (Z.compare_spec x y), (Z.compare_spec y z), (Z.compare_spec x z); try done; try lia. apply IH.
Qed.

(** Names in the order of their bytes. *)
Definition name_le (a b : ls_entry) : Prop := lex (le_name a) (le_name b) <> Gt.
Definition entry_ok (e : ls_entry) : Prop := cstr (le_name e).

Lemma name_le_refl a : name_le a a.
Proof. unfold name_le. by rewrite (proj2 (lex_eq _ _)). Qed.

Lemma strcmp_less a b :
  entry_ok a -> entry_ok b -> if strcmp (le_name b) (le_name a) <? 0 then name_le b a else name_le a b.
Proof.
  intros Ha Hb.
  assert (G : forall l, cstr l -> bytes l /\ c_string l = l).
  { intros l Hl. split; [eapply Forall_impl; [exact Hl|]; cbn; lia|].
    apply c_string_nz. intros Hin. eapply Forall_forall in Hl; [|done]. lia. }
  destruct (G _ Ha) as [Ba Ca], (G _ Hb) as [Bb Cb].
  pose proof (strcmp_lex _ _ Bb Ba) as E. rewrite Ca, Cb in E. unfold name_le.
  rewrite (lex_opp (le_name b) (le_name a)), <-E. destruct (Z.ltb_spec (strcmp (le_name b) (le_name a)) 0) as [Hlt|Hge].
  - rewrite (proj2 (Z.compare_lt_iff _ _)) by done. done.
  - rewrite <-Z.compare_antisym. by apply Z.compare_le_iff.
Qed.

Lemma lookup_pivot {A} (pre : list A) a l : (pre ++ a :: l) !! length pre = Some a.
Proof. by rewrite lookup_app_r, Nat.sub_diag by lia. Qed.

Lemma lookup_probe {A} (pre : list A) a mid b l :
  (pre ++ a :: mid ++ b :: l) !! (length pre + S (length mid))%nat = Some b.
Proof.
  rewrite lookup_app_r by lia. replace (_ - _)%nat with (S (length mid)) by lia. apply lookup_pivot.
Qed.

Lemma swap_run pre a mid b l :
  swap_entries (pre ++ a :: mid ++ b :: l) (length pre) (length pre + S (length mid)) = pre ++ b :: mid ++ a :: l.
Proof.
  unfold swap_entries. rewrite lookup_pivot, lookup_probe.
  rewrite insert_app_r_alt, Nat.sub_diag by lia. change (<[0%nat := b]> (a :: ?l)) with (b :: l).
  rewrite insert_app_r_alt by lia. replace (_ - _)%nat with (S (length mid)) by lia.
  change (<[S ?i := a]> (b :: ?l)) with (b :: <[i := a]> l). by rewrite insert_app_r_alt, Nat.sub_diag by lia.
Qed.

Lemma less_run pre a mid b l :
  name_less (pre ++ a :: mid ++ b :: l) (length pre + S (length mid)) (length pre) = (strcmp (le_name b) (le_name a) <? 0).
Proof. unfold name_less. by rewrite lookup_pivot, lookup_probe. Qed.

(** One round of the outer loop brings a least entry to the front. *)
Lemma ls_inner_run pre a mid l :
  entry_ok a -> Forall entry_ok mid -> Forall entry_ok l -> Forall (name_le a) mid ->
  exists b rest, ls_inner (length l) (length pre) (length pre + S (length mid)) (pre ++ a :: mid ++ l) = pre ++ b :: rest /\
    b :: rest ≡ₚ a :: mid ++ l /\ Forall (name_le b) rest.
Proof.
  intros Ha Hm Hl. revert a mid Ha Hm. induction Hl as [|b l Hb Hl IH]; intros a mid Ha Hm Hle; cbn [length ls_inner].
  - exists a, mid. by rewrite app_nil_r.
  - rewrite less_run, swap_run. pose proof (strcmp_less a b Ha Hb) as Hcmp.
    assert (En : forall x : ls_entry, S (length pre + S (length mid)) = (length pre + S (length (mid ++ [x])))%nat)
      by (intros x; rewrite length_app; cbn; lia).
    destruct (strcmp (le_name b) (le_name a) <? 0).
    + rewrite (En a). destruct (IH b (mid ++ [a])) as (c & rest & E & Hp & Hf); [done| | |].
      * apply Forall_app. by rewrite Forall_singleton.
      * apply Forall_app. rewrite Forall_singleton. split; [|done]. eapply Forall_impl; [done|]. intros x Hx. by eapply lex_trans.
      * exists c, rest. rewrite <-E, <-app_assoc. split_and!; [done| |done]. rewrite Hp, <-app_assoc. cbn [app].
        rewrite <-!Permutation_middle. apply perm_swap.
    + rewrite (En b). destruct (IH a (mid ++ [b])) as (c & rest & E & Hp & Hf); [done| | |].
      * apply Forall_app. by rewrite Forall_singleton.
      * apply Forall_app. by rewrite Forall_singleton.
      * exists c, rest. rewrite <-E, <-app_assoc. split_and!; [done| |done]. by rewrite Hp, <-app_assoc.
Qed.

Lemma ls_outer_run n pre l :
  length l = n -> Forall entry_ok l ->
  exists l', ls_outer n (length pre) (pre ++ l) = pre ++ l' /\ l' ≡ₚ l /\ StronglySorted name_le l'.
Proof.
  revert pre l. induction n as [|n IH]; intros pre l Hn Hl; cbn [ls_outer].
  - destruct l; [|done]. exists []. split_and!; [done|done|constructor].
  - destruct l as [|a l]; [done|]. cbn in Hn. inversion Hl as [|? ? Ha Hl']; subst.
    destruct (ls_inner_run pre a [] l Ha ltac:(done) Hl' ltac:(done)) as (b & rest & E & Hp & Hf).
    rewrite length_app. replace (_ - _)%nat with (length l) by (cbn; lia).
    cbn [app length] in E, Hp. rewrite Nat.add_1_r in E. rewrite E.
    destruct (IH (pre ++ [b]) rest) as (l' & E' & Hp' & Hs).
    + apply Permutation_length in Hp. cbn in *. lia.
    + eapply Forall_cons. by rewrite Hp.
    + exists (b :: l'). rewrite <-app_assoc in E'. replace (length (pre ++ [b])) with (S (length pre)) in E' by (rewrite length_app; cbn; lia).
      cbn [app] in E'. rewrite E', <-app_assoc. split_and!; [done|by rewrite Hp'|]. constructor; [done|]. by rewrite Hp'.
Qed.

(** Sorting of a listing: the exchange sort of [ls] terminates, returns
    the entries it was given, each as often as before, and leaves them in
    the order of the bytes of their names. *)
Theorem ls_sort_sorts (ents : list ls_entry) :
  Forall entry_ok ents -> ls_sort ents ≡ₚ ents /\ StronglySorted name_le (ls_sort ents).
Proof.
  intros He. destruct (ls_outer_run (length ents) [] ents eq_refl He) as (l & E & Hp & Hs).
  unfold ls_sort. cbn [app length] in E. by rewrite E.
Qed.

Lemma ls_sort_sorts_witness :
  map le_name (ls_sort [LsEntry (bs "tmp") VFS_DIR 0 493; LsEntry (bs "bin") VFS_DIR 0 493; LsEntry (bs "dev") VFS_DIR 0 493]) =
    [bs "bin"; bs "dev"; bs "tmp"] /\
  StronglySorted name_le (ls_sort [LsEntry (bs "tmp") VFS_DIR 0 493; LsEntry (bs "bin") VFS_DIR 0 493; LsEntry (bs "dev") VFS_DIR 0 493]).
Proof. split; [reflexivity|]. apply ls_sort_sorts. repeat constructor. Defined.
