(* ===== verification/Shell.v ===== *)
(** * The kernel shell (src/kernel/shell/tsh.c, commands.c, cmd_fs.c)

    The commands, the pipeline executor and the line editor of tsh, over the
    kernel of Sched. The file commands enter the kernel through interrupt
    0x80 from kernel mode, where every pointer is accepted; here they are the
    calls that the dispatcher of Syscall makes for such a caller, on kernel
    buffers.

    A run may fault ([None], as in the components it calls) or end in one of
    three ways: it finishes; the shell is still inside, blocked in a read, a
    write or a sleep, waiting for a task, or not yet through a loop; or the
    machine has stopped. The loops of [cat] and [ls] and the wait for tasks
    get [fuel] rounds. *)

From stdpp Require Import base numbers list gmap.
From Stdlib Require Import ZArith Lia ZifyBool.
From S2P Require Import Prelude.
From S2P Require Import Interfaces.
From S2P Require Import Hardware.
From S2P Require Import Keyboard.
From S2P Require Import Klib.
From S2P Require Import Pmm.
From S2P Require Import Vmm.
From S2P Require Import VmmTables.
From S2P Require Import Kmalloc.
From S2P Require Import Pipe.
From S2P Require Import Vfs.
From S2P Require Import VfsFd.
From S2P Require Import VfsData.
From S2P Require Import Fb.
From S2P Require Import Devices.
From S2P Require Import Sched.
From S2P Require Import ElfLoad.
From S2P Require Import UserMem.
From S2P Require Import TusElf.
From S2P Require Import Syscall.
From S2P Require Import ShellParse.
From S2P Require Import ShellPath.

(** The palette of tsh. *)
Definition COLOR_ACCENT : Z := 0x00FFA040.

Definition line (s : String.string) : list Z := bs s ++ [10].
Arguments line s%_string_scope.

(** ** The state and its monad *)

(** The kernel, the working directories and the edited line. *)
Record shell (P H : Type) := Shell {
  sh_kern : kern P H;
  g_cwd : list Z;
  g_oldpwd : list Z;
  g_line : list Z;
}.
Arguments Shell {P H}.
Arguments sh_kern {P H}.
Arguments g_cwd {P H}.
Arguments g_oldpwd {P H}.
Arguments g_line {P H}.

Inductive did (A : Type) :=
  | Did (x : A)
  | Busy
  | Stopped.
Arguments Did {A}.
Arguments Busy {A}.
Arguments Stopped {A}.

Definition T (P H A : Type) : Type := shell P H -> option (did A * shell P H).

#[export] Instance T_ret {P H} : MRet (T P H) := fun A x s => Some (Did x, s).
#[export] Instance T_bind {P H} : MBind (T P H) := fun A B f m s =>
  match m s with
  | None => None
  | Some (Did x, s') => f x s'
  | Some (Busy, s') => Some (Busy, s')
  | Some (Stopped, s') => Some (Stopped, s')
  end.

(** What the machine and the boot loader tell: the compiler's version, CPUID,
    [g_bootinfo], the statistics of the frame pool and the address of the
    framebuffer. *)
Record sysenv (P : Type) := SysEnv {
  cc_version : list Z;
  cpuid : Z -> Z * Z * Z * Z;
  bootloader_name : option (list Z);
  bootloader_version : option (list Z);
  usable_memory_bytes : Z;
  frame_stats : P -> Z * Z;
  fb_address : Z;
}.
Arguments cc_version {P}.
Arguments cpuid {P}.
Arguments bootloader_name {P}.
Arguments bootloader_version {P}.
Arguments usable_memory_bytes {P}.
Arguments frame_stats {P}.
Arguments fb_address {P}.

(** ** Processor identification (src/kernel/arch/x86_64/cpu.c) *)

Definition cpu_get_vendor {P} (env : sysenv P) : list Z :=
  let '(_, b, c, d) := cpuid env 0 in
  c_string (le_bytes 4 b ++ le_bytes 4 d ++ le_bytes 4 c).

Definition cpu_get_brand {P} (env : sysenv P) : list Z :=
  let '(a, _, _, _) := cpuid env 0x80000000 in
  if a <? 0x80000004 then []
  else c_string (concat (map (fun leaf =>
    let '(a, b, c, d) := cpuid env leaf in le_bytes 4 a ++ le_bytes 4 b ++ le_bytes 4 c ++ le_bytes 4 d)
    [0x80000002; 0x80000003; 0x80000004])).

(** ** The command tables *)

(** [g_core_commands] and [g_fs_commands]: names and descriptions. *)
Definition g_core_commands : list (list Z * list Z) :=
  [(bs "help", bs "list available commands");
   (bs "clear", bs "clear the screen");
   (bs "ver", bs "show the kernel version");
   (bs "about", bs "show TUS information");
   (bs "sysinfo", bs "show system information");
   (bs "reboot", bs "restart the machine");
   (bs "crash", bs "raise a CPU exception (demo)")].

Definition g_fs_commands : list (list Z * list Z) :=
  [(bs "ls", bs "list a directory");
   (bs "cat", bs "print a file or device");
   (bs "echo", bs "print text (supports > file)");
   (bs "mkdir", bs "create a directory");
   (bs "touch", bs "create an empty file");
   (bs "rm", bs "remove a file");
   (bs "cd", bs "change the working directory");
   (bs "pwd", bs "print the working directory");
   (bs "uptime", bs "time since boot");
   (bs "sleep", bs "wait N milliseconds");
   (bs "fbfill", bs "fill the framebuffer with a color");
   (bs "exec", bs "run a static ELF binary");
   (bs "ps", bs "list running tasks")].

(** The position of a name in a table, counted from [i]. *)
Fixpoint table_find (name : list Z) (l : list (list Z * list Z)) (i : Z) : option Z :=
  match l with
  | [] => None
  | (n, _) :: l' => if strcmp name n =? 0 then Some i else table_find name l' (i + 1)
  end.

Definition builtin_find (name : list Z) : Z :=
  match table_find name g_core_commands 0 with
  | Some i => i + 1
  | None => match table_find name g_fs_commands 0 with Some i => - i - 1 | None => 0 end
  end.

Section Shell.
Context {P H : Type} `{FramePool P} `{Ports H} (junk : Z -> Z) (env : sysenv P) (fuel : nat).
Context (halt : kern P H -> kern P H).
Implicit Types s : shell P H.

Definition with_kern s k : shell P H := Shell k (g_cwd s) (g_oldpwd s) (g_line s).
Definition with_line s l : shell P H := Shell (sh_kern s) (g_cwd s) (g_oldpwd s) l.

Definition busy {A} : T P H A := fun s => Some (Busy, s).
Definition stopped {A} : T P H A := fun s => Some (Stopped, s).
Definition state : T P H (shell P H) := fun s => Some (Did s, s).
Definition kernel : T P H (kern P H) := fun s => Some (Did (sh_kern s), s).

(** A kernel function. *)
Definition call {A} (f : kern P H -> option (A * kern P H)) : T P H A := fun s =>
  '(x, k) ← f (sh_kern s); Some (Did x, with_kern s k).
Definition vfs_call {A} (m : M (option (dev H)) A) : T P H A := call (on_vfs m).
Definition dev_call (f : dev H -> option (dev H)) : T P H unit := call (fun k => Some (tt, on_dev k f)).

Definition say (fmt : list Z) (args : list va) : T P H unit :=
  call (fun k => k ← kprintf k fmt args; Some (tt, k)).
Definition write (t : list Z) : T P H unit := dev_call (console_write t).

(** ** System calls of the shell *)

(** [int $0x80] from kernel mode. *)
Definition syscall {A} (m : M (option (dev H)) A) : T P H A := call (fun k => on_vfs m (set_caller k)).

Definition sc_open (path : list Z) (flags : Z) : T P H Z := syscall (vfs_open (Some path) flags).
Definition sc_close (fd : Z) : T P H Z := syscall (vfs_close fd).
Definition sc_readdir (fd : Z) : T P H (Z * list vfs_dirent) := syscall (vfs_readdir fd true SIZEOF_DIRENT).

Definition sc_read (fd count : Z) : T P H (Z * list Z) :=
  r ← syscall (vfs_read fd true count);
  match r with IoRet n bytes => mret (n, bytes) | IoWait _ => busy end.

Definition sc_write (fd : Z) (buf : list Z) : T P H Z :=
  r ← syscall (vfs_write junk fd (Some buf) 0);
  match r with IoRet n _ => mret n | IoWait _ => busy end.

Definition print_syscall_error (what : list Z) (err : Z) : T P H unit :=
  say (line "%s: error %ld") [VaStr (Some what); VaInt (- err)].

(** A path argument of a command. *)
Definition resolve (p : list Z) : T P H (list Z) := s ← state; mret (path_resolve (g_cwd s) p PATH_BUF).

(** ** Core commands *)

Fixpoint help_lines (l : list (list Z * list Z)) : T P H unit :=
  match l with
  | [] => mret tt
  | (name, description) :: l' =>
      _ ← say (line "  %-10s %s") [VaStr (Some name); VaStr (Some description)];
      help_lines l'
  end.

Definition cmd_help : T P H unit :=
  _ ← write (line "Available commands:");
  _ ← help_lines g_core_commands;
  help_lines g_fs_commands.

Definition cmd_clear : T P H unit := dev_call (fun d => Some (console_clear d)).

Definition cmd_ver : T P H unit := say (line "TUS kernel 0.9.0, built with %s") [VaStr (Some (cc_version env))].

Definition cmd_about : T P H unit :=
  _ ← write (line "Toasty Unix Software (TUS)");
  _ ← write ([34] ++ bs "Work everywhere, but work right." ++ [34; 10]);
  _ ← write (line "Architecture: x86_64 (AMD64)");
  say (line "Bootloader  : %s %s")
    [VaStr (Some (default (bs "unknown") (bootloader_name env))); VaStr (Some (default [] (bootloader_version env)))].

Definition cmd_sysinfo : T P H unit :=
  _ ← say (line "CPU vendor  : %s") [VaStr (Some (cpu_get_vendor env))];
  _ ← say (line "CPU model   : %s") [VaStr (Some (cpu_get_brand env))];
  _ ← say (line "Memory      : %llu MiB usable") [VaInt (usable_memory_bytes env / (1024 * 1024))];
  k ← kernel;
  let '(total_frames, free_frames) := frame_stats env (pool (k_vmm k)) in
  _ ← say (line "PMM         : %llu free / %llu frames (%llu MiB)")
        [VaInt free_frames; VaInt total_frames; VaInt (u64 (free_frames * 4) / 1024)];
  k ← kernel;
  _ ← say (line "Uptime      : %llu.%03llu s")
        [VaInt (pit_uptime_ms (g_ticks k) / 1000); VaInt (pit_uptime_ms (g_ticks k) mod 1000)];
  k ← kernel;
  match devs (k_vfs k) with
  | None => fun _ => None
  | Some d =>
      let i := fb_get_info (g_fb_active d) (d_fb d) (fb_address env) in
      if (0 <? fi_width i) && (0 <? fi_height i) then
        say (line "Framebuffer : %ux%u, %u bpp, pitch %llu @ %p")
          [VaInt (fi_width i); VaInt (fi_height i); VaInt (fi_bpp i); VaInt (fi_pitch i); VaInt (fi_address i)]
      else write (line "Framebuffer : none (serial console only)")
  end.

(** The keyboard controller is asked for a reset; then nothing more runs. *)
Definition cmd_reboot : T P H unit :=
  _ ← write (line "Rebooting...");
  _ ← dev_call (fun d => Some (set_hw d (outb 0x64 0xFE (d_hw d))));
  stopped.

(** [ud2] raises #UD. *)
Definition cmd_crash : T P H unit :=
  _ ← write (line "Raising invalid opcode (#UD)...");
  stopped.

(** ** File commands *)

Definition cmd_pwd : T P H unit := s ← state; say (line "%s") [VaStr (Some (g_cwd s))].

(** The first 127 bytes, as [strncpy] and the terminator leave them. *)
Definition dir_buf (p : list Z) : list Z := take 127 p.

(** [cd]'s move to [target]. *)
Definition enter_dir (target : list Z) (print_target : bool) : T P H unit :=
  resolved ← resolve target;
  fd ← sc_open resolved O_RDONLY;
  if fd <? 0 then print_syscall_error (bs "cd") fd
  else
    '(r, _) ← sc_readdir fd;
    _ ← sc_close fd;
    if r <? 0 then say (line "cd: not a directory: %s") [VaStr (Some resolved)]
    else
      _ ← (fun s => Some (Did tt, Shell (sh_kern s) (dir_buf resolved) (dir_buf (g_cwd s)) (g_line s)));
      if print_target then say (line "%s") [VaStr (Some resolved)] else mret tt.

Definition cmd_cd (argv : list (list Z)) : T P H unit :=
  match argv with
  | _ :: a :: _ =>
      if strcmp a (bs "-") =? 0 then
        s ← state;
        if bool_decide (g_oldpwd s = []) then say (line "cd: no previous directory") []
        else enter_dir (g_oldpwd s) true
      else if strcmp a (bs "~") =? 0 then enter_dir [SLASH] false
      else enter_dir a false
  | _ => enter_dir [SLASH] false
  end.

(** One option argument of [ls]; [None] once an invalid one is reported. *)
Fixpoint ls_flags (p : list Z) (long_fmt all : bool) : T P H (option (bool * bool)) :=
  match p with
  | [] => mret (Some (long_fmt, all))
  | c :: p' =>
      if c =? 108 then ls_flags p' true all
      else if c =? 97 then ls_flags p' long_fmt true
      else _ ← say (line "ls: invalid option -- '%c'") [VaInt c]; mret None
  end.

Definition is_option (a : list Z) : bool := (hd 0 a =? 45) && negb (hd 0 (tail a) =? 0).

Fixpoint ls_args (args : list (list Z)) (long_fmt all : bool) (target : option (list Z))
    : T P H (option (bool * bool * option (list Z))) :=
  match args with
  | [] => mret (Some (long_fmt, all, target))
  | a :: args' =>
      if is_option a then
        o ← ls_flags (tail a) long_fmt all;
        match o with
        | None => mret None
        | Some (long_fmt, all) => ls_args args' long_fmt all target
        end
      else ls_args args' long_fmt all (match target with None => Some a | Some _ => target end)
  end.

(** The entries of an open directory, and the last result of the call. *)
Fixpoint ls_collect (n : nat) (fd : Z) (all : bool) (ents : list ls_entry) : T P H (Z * list ls_entry) :=
  match n with
  | O => busy
  | S n' =>
      '(r, found) ← sc_readdir fd;
      if (0 <? r) && (Z.of_nat (length ents) <? 128) then
        match found with
        | [] => mret (r, ents)
        | e :: _ =>
            if negb all && (hd 0 (d_name e) =? 46) then ls_collect n' fd all ents
            else ls_collect n' fd all (ents ++ [LsEntry (take 63 (d_name e)) (d_type e) (d_size e) (d_mode e)])
        end
      else mret (r, ents)
  end.

Definition ls_line (long_fmt : bool) (e : ls_entry) : T P H unit :=
  if long_fmt then
    let kind := match le_type e with VFS_DIR => bs "/" | _ => [] end in
    say (line "%s root root %8u %s%s")
      [VaStr (Some (mode_string (le_mode e) (le_type e))); VaInt (le_size e); VaStr (Some (le_name e)); VaStr (Some kind)]
  else say (line "%s") [VaStr (Some (le_name e))].

Fixpoint ls_print (long_fmt : bool) (ents : list ls_entry) : T P H unit :=
  match ents with
  | [] => mret tt
  | e :: ents' => _ ← ls_line long_fmt e; ls_print long_fmt ents'
  end.

Definition cmd_ls (argv : list (list Z)) : T P H unit :=
  o ← ls_args (tail argv) false false None;
  match o with
  | None => mret tt
  | Some (long_fmt, all, target) =>
      resolved ← (match target with
                  | Some t => resolve t
                  | None => s ← state; mret (take 255 (g_cwd s))
                  end);
      fd ← sc_open resolved O_RDONLY;
      if fd <? 0 then print_syscall_error (bs "ls") fd
      else
        '(n, ents) ← ls_collect fuel fd all [];
        _ ← (if n <? 0 then print_syscall_error (bs "ls") n else mret tt);
        _ ← sc_close fd;
        ls_print long_fmt (ls_sort ents)
  end.

Fixpoint cat_loop (n : nat) (fd : Z) : T P H Z :=
  match n with
  | O => busy
  | S n' =>
      '(r, bytes) ← sc_read fd 256;
      if 0 <? r then _ ← sc_write 1 (take (Z.to_nat r) bytes); cat_loop n' fd else mret r
  end.

Definition cmd_cat (argv : list (list Z)) : T P H unit :=
  match argv with
  | _ :: a :: _ =>
      resolved ← resolve a;
      fd ← sc_open resolved O_RDONLY;
      if fd <? 0 then print_syscall_error (bs "cat") fd
      else
        n ← cat_loop fuel fd;
        _ ← (if n <? 0 then print_syscall_error (bs "cat") n else mret tt);
        _ ← sc_close fd;
        mret tt
  | _ => write (line "usage: cat <path>")
  end.

(** The arguments before the first redirection, and the redirection. *)
Fixpoint echo_args (args : list (list Z)) : list (list Z) * option (Z * list Z) :=
  match args with
  | a :: ((file :: _) as args') =>
      if strcmp a OUT =? 0 then ([], Some (Z.lor (Z.lor O_WRONLY O_CREAT) O_TRUNC, file))
      else if strcmp a APPEND =? 0 then ([], Some (Z.lor (Z.lor O_WRONLY O_CREAT) O_APPEND, file))
      else let '(l, r) := echo_args args' in (a :: l, r)
  | _ => (args, None)
  end.

Fixpoint echo_words (first : bool) (fd : Z) (args : list (list Z)) : T P H unit :=
  match args with
  | [] => mret tt
  | a :: args' =>
      _ ← (if first then mret 0 else sc_write fd (bs " "));
      _ ← sc_write fd a;
      echo_words false fd args'
  end.

Definition cmd_echo (argv : list (list Z)) : T P H unit :=
  let '(args, redirect) := echo_args (tail argv) in
  fd ← (match redirect with
        | None => mret 1
        | Some (flags, file) => resolved ← resolve file; sc_open resolved flags
        end);
  if fd <? 0 then print_syscall_error (bs "echo") fd
  else
    _ ← echo_words true fd args;
    _ ← sc_write fd [10];
    if negb (fd =? 1) then _ ← sc_close fd; mret tt else mret tt.

(** The options and the operand of [mkdir]. *)
Record mkdir_opts := MkdirOpts {
  mo_parents : bool;
  mo_verbose : bool;
  mo_mode : Z;
  mo_target : option (list Z);
}.

(** One option argument, [rest] being the arguments behind it: [-m] takes the
    next of them. [None] once an error is reported. *)
Fixpoint mkdir_flags (p : list Z) (rest : list (list Z)) (o : mkdir_opts) : T P H (option (mkdir_opts * list (list Z))) :=
  match p with
  | [] => mret (Some (o, rest))
  | c :: p' =>
      if c =? 112 then mkdir_flags p' rest (MkdirOpts true (mo_verbose o) (mo_mode o) (mo_target o))
      else if c =? 118 then mkdir_flags p' rest (MkdirOpts (mo_parents o) true (mo_mode o) (mo_target o))
      else if c =? 109 then
        match rest with
        | m :: rest' => mkdir_flags p' rest' (MkdirOpts (mo_parents o) (mo_verbose o) (u32 (fst (strtoul m 8))) (mo_target o))
        | [] => _ ← say (line "mkdir: option requires an argument -- 'm'") []; mret None
        end
      else _ ← say (line "mkdir: invalid option -- '%c'") [VaInt c]; mret None
  end.

(** Every round takes at least one argument. *)
Fixpoint mkdir_args (n : nat) (args : list (list Z)) (o : mkdir_opts) : T P H (option mkdir_opts) :=
  match n, args with
  | S n', a :: args' =>
      match mo_target o with
      | Some _ => mkdir_args n' args' o
      | None =>
          if is_option a then
            r ← mkdir_flags (tail a) args' o;
            match r with None => mret None | Some (o, rest) => mkdir_args n' rest o end
          else mkdir_args n' args' (MkdirOpts (mo_parents o) (mo_verbose o) (mo_mode o) (Some a))
      end
  | _, _ => mret (Some o)
  end.

Definition sc_mkdir (path : list Z) (mode : Z) : T P H Z := syscall (vfs_mkdir (Some path) mode).

Definition created (o : mkdir_opts) (r : Z) (path : list Z) : T P H unit :=
  if mo_verbose o && (r =? 0) then say (line "mkdir: created directory '%s'") [VaStr (Some path)] else mret tt.

(** The components of [resolved] from byte [i] on, [n] bytes to go. *)
Fixpoint mkdir_parents (n : nat) (i : Z) (resolved : list Z) (o : mkdir_opts) : T P H Z :=
  match n with
  | O => mret 0
  | S n' =>
      if (i =? zlen resolved) || (byte_at resolved i =? SLASH) then
        let len := if (i =? zlen resolved) && (1 <? i) && (byte_at resolved (i - 1) =? SLASH) then i - 1 else i in
        let comp := take (Z.to_nat len) resolved in
        if 1 <? len then
          rr ← sc_mkdir comp (mo_mode o);
          if (rr <? 0) && negb (rr =? -17) then mret rr
          else _ ← created o rr comp; mkdir_parents n' (i + 1) resolved o
        else mkdir_parents n' (i + 1) resolved o
      else mkdir_parents n' (i + 1) resolved o
  end.

Definition cmd_mkdir (argv : list (list Z)) : T P H unit :=
  o ← mkdir_args (length argv) (tail argv) (MkdirOpts false false 0 None);
  match o with
  | None => mret tt
  | Some o =>
      match mo_target o with
      | None => write (line "usage: mkdir [-p] [-v] [-m mode] <directory>")
      | Some target =>
          resolved ← resolve target;
          r ← (if mo_parents o then mkdir_parents (length resolved) 1 resolved o
               else r ← sc_mkdir resolved (mo_mode o); _ ← created o r resolved; mret r);
          if r <? 0 then print_syscall_error (bs "mkdir") r else mret tt
      end
  end.

Definition cmd_touch (argv : list (list Z)) : T P H unit :=
  match argv with
  | _ :: a :: _ =>
      resolved ← resolve a;
      fd ← sc_open resolved (Z.lor O_CREAT O_RDWR);
      if fd <? 0 then print_syscall_error (bs "touch") fd
      else _ ← sc_close fd; mret tt
  | _ => write (line "usage: touch <path>")
  end.

Definition cmd_rm (argv : list (list Z)) : T P H unit :=
  match argv with
  | _ :: a :: _ =>
      resolved ← resolve a;
      r ← syscall (vfs_unlink (Some resolved));
      if r <? 0 then print_syscall_error (bs "rm") r else mret tt
  | _ => write (line "usage: rm <path>")
  end.

(** The system calls without a file set the caller as well. *)
Definition sc_kernel : T P H (kern P H) := _ ← call (fun k => Some (tt, set_caller k)); kernel.

Definition cmd_uptime : T P H unit :=
  k ← sc_kernel;
  let ms := s64 (pit_uptime_ms (g_ticks k)) in
  say (line "uptime: %ld.%03ld s") [VaInt (Z.quot ms 1000); VaInt (Z.rem ms 1000)].

Definition cmd_sleep (argv : list (list Z)) : T P H unit :=
  match argv with
  | _ :: a :: _ =>
      k ← sc_kernel;
      if g_ticks k <? sleep_target (g_ticks k) (u32 (fst (strtoul a 10))) then busy else mret tt
  | _ => write (line "usage: sleep <milliseconds>")
  end.

Definition cmd_fbfill (argv : list (list Z)) : T P H unit :=
  let color := match argv with
               | _ :: a :: _ => Z.land (u32 (fst (strtoul a 16))) 0xFFFFFF
               | _ => 0xFFFFFF
               end in
  fd ← sc_open s_fb0 O_WRONLY;
  if fd <? 0 then print_syscall_error (bs "fbfill") fd
  else
    '(r, _) ← syscall (vfs_ioctl fd FB_IOCTL_FILL (le_bytes 4 color));
    _ ← (if r <? 0 then print_syscall_error (bs "fbfill") r else say (line "fb0: filled with #%06x") [VaInt color]);
    _ ← sc_close fd;
    mret tt.

Definition cmd_exec (argv : list (list Z)) : T P H unit :=
  match argv with
  | _ :: a :: args =>
      resolved ← resolve a;
      _ ← dev_call (fun d => Some (set_kbd d (kbd_input_release (kbd_input_owner (d_kbd d)) (d_kbd d))));
      _ ← call (fun k => elf_exec k (Some resolved) (map Some args));
      mret tt
  | _ => write (line "usage: exec <static-elf-path> [args...]")
  end.

Definition cmd_ps : T P H unit :=
  _ ← write (line "PID  STATE   CR3       NAME");
  call (fun k => k ← task_list_all k; Some (tt, k)).

(** [run] of the entries of the two tables. *)
Definition run_core (i : Z) : T P H unit :=
  if i =? 0 then cmd_help
  else if i =? 1 then cmd_clear
  else if i =? 2 then cmd_ver
  else if i =? 3 then cmd_about
  else if i =? 4 then cmd_sysinfo
  else if i =? 5 then cmd_reboot
  else cmd_crash.

Definition run_fs (i : Z) (argv : list (list Z)) : T P H unit :=
  if i =? 0 then cmd_ls argv
  else if i =? 1 then cmd_cat argv
  else if i =? 2 then cmd_echo argv
  else if i =? 3 then cmd_mkdir argv
  else if i =? 4 then cmd_touch argv
  else if i =? 5 then cmd_rm argv
  else if i =? 6 then cmd_cd argv
  else if i =? 7 then cmd_pwd
  else if i =? 8 then cmd_uptime
  else if i =? 9 then cmd_sleep argv
  else if i =? 10 then cmd_fbfill argv
  else if i =? 11 then cmd_exec argv
  else cmd_ps.

Definition builtin_run (id : Z) (argv : list (list Z)) : T P H unit :=
  if 0 <? id then run_core (id - 1) else run_fs (- id - 1) argv.

(** ** Pipelines *)

(** The path of a program; [None] is [-1]. *)
Definition resolve_prog (name : list Z) (out_size : Z) : M (option (dev H)) (option (list Z)) :=
  match strchr name SLASH with
  | Some _ => mret (if out_size <=? strlen name then None else Some name)
  | None =>
      if out_size <=? strlen name + 6 then mret None
      else
        let out := bs "/bin/" ++ name in
        node ← vfs_lookup out;
        if node =? 0 then mret None
        else
          n ← get_node node;
          mret (if negb (bool_decide (n_type n = VFS_FILE)) || negb (executable n) then None else Some out)
  end.

(** The stages with the paths of their programs (none for a builtin);
    [None] once a missing program is reported. *)
Fixpoint resolve_all (segs : list pipeline_seg) : T P H (option (list (pipeline_seg * list Z))) :=
  match segs with
  | [] => mret (Some [])
  | g :: segs' =>
      r ← (if seg_builtin g =? 0 then vfs_call (resolve_prog (hd [] (seg_argv g)) 160) else mret (Some []));
      match r with
      | None => _ ← say (line "tsh: %s: command not found") [VaStr (head (seg_argv g))]; mret None
      | Some path =>
          rest ← resolve_all segs';
          mret (match rest with None => None | Some l => Some ((g, path) :: l) end)
      end
  end.

(** Standard input of a stage: the read end of the previous pipe. *)
Definition stage_stdin (first : bool) (prev_r : Z) : T P H Z :=
  if first then mret prev_r
  else
    _ ← vfs_call (vfs_dup2 prev_r 0);
    _ ← vfs_call (vfs_close prev_r);
    mret (-1).

(** Standard output: a fresh pipe, unless the stage is the last one. The
    results are [prev_r], [w] and [failed]. *)
Definition stage_stdout (is_last : bool) (prev_r : Z) : T P H (Z * Z * bool) :=
  if is_last then mret (prev_r, -1, false)
  else
    '(r, (pp0, pp1)) ← vfs_call vfs_pipe_open;
    if negb (r =? 0) then mret (prev_r, -1, true)
    else
      _ ← vfs_call (vfs_dup2 pp1 1);
      mret (pp0, pp1, false).

Definition redir_flags (mode : Z) : Z :=
  if mode =? 2 then O_RDONLY
  else Z.lor (Z.lor O_WRONLY O_CREAT) (if mode =? 1 then O_APPEND else O_TRUNC).

(** The file redirections from descriptor [tgt] on: [filefds] of those that
    were opened, and [failed]. *)
Fixpoint stage_files (redirs : list (option (Z * list Z))) (tgt : Z) : T P H (list Z * bool) :=
  match redirs with
  | [] => mret ([], false)
  | None :: redirs' => stage_files redirs' (tgt + 1)
  | Some (mode, file) :: redirs' =>
      fd ← vfs_call (vfs_open (Some file) (redir_flags mode));
      if fd <? 0 then _ ← say (line "tsh: %s: cannot open") [VaStr (Some file)]; mret ([], true)
      else
        _ ← vfs_call (vfs_dup2 fd tgt);
        '(fds, failed) ← stage_files redirs' (tgt + 1);
        mret (fd :: fds, failed)
  end.

(** [elf_exec(path, argc - 1, &argv[1])]. With more than [MAX_ARGS] arguments
    it reads behind the array, unless it fails before it builds the stack. *)
Definition spawn (g : pipeline_seg) (path : list Z) (k : kern P H) : option (Z * kern P H) :=
  '(pid, k) ← elf_exec k (Some path) (map Some (tail (seg_argv g)));
  if (MAX_ARGS <? seg_argc g) && (0 <=? pid) then None else Some (pid, k).

(** The stage itself; the new [pids] and [failed]. *)
Definition stage_run (g : pipeline_seg) (path : list Z) (pids : list Z) : T P H (list Z * bool) :=
  if negb (seg_builtin g =? 0) then _ ← builtin_run (seg_builtin g) (seg_argv g); mret (pids, false)
  else
    pid ← call (spawn g path);
    if s32 pid <? 0 then _ ← say (line "tsh: %s: cannot execute") [VaStr (head (seg_argv g))]; mret (pids, true)
    else mret (pids ++ [s32 pid], false).

Fixpoint close_all (fds : list Z) : T P H unit :=
  match fds with
  | [] => mret tt
  | fd :: fds' => _ ← (if 0 <=? fd then vfs_call (vfs_close fd) else mret 0); close_all fds'
  end.

(** The shell's own descriptors come back, the temporary ones are closed. *)
Definition stage_restore (saves : Z * Z * Z) (filefds : list Z) (w : Z) : T P H unit :=
  let '(s0, s1, s2) := saves in
  _ ← vfs_call (vfs_dup2 s0 0);
  _ ← vfs_call (vfs_dup2 s1 1);
  _ ← vfs_call (vfs_dup2 s2 2);
  _ ← close_all filefds;
  close_all [w].

(** The loop over the stages; the final [prev_r] and [pids]. *)
Fixpoint run_stages (first : bool) (l : list (pipeline_seg * list Z)) (saves : Z * Z * Z) (prev_r : Z) (pids : list Z)
    : T P H (Z * list Z) :=
  match l with
  | [] => mret (prev_r, pids)
  | (g, path) :: l' =>
      prev_r ← stage_stdin first prev_r;
      '(prev_r, w, failed) ← stage_stdout (bool_decide (length l' = 0%nat)) prev_r;
      '(filefds, failed) ← (if failed : bool then mret ([], true) else stage_files (seg_redir g) 0);
      '(pids, failed) ← (if failed : bool then mret (pids, true) else stage_run g path pids);
      _ ← stage_restore saves filefds w;
      if failed : bool then mret (prev_r, pids) else run_stages false l' saves prev_r pids
  end.

(** [while (sched_task_alive(pid)) hlt();] *)
Fixpoint wait_task (n : nat) (pid : Z) : T P H unit :=
  k ← kernel;
  if sched_task_alive k (u32 pid) then
    match n with
    | O => busy
    | S n' => _ ← call (fun k => Some (tt, halt k)); wait_task n' pid
    end
  else mret tt.

Fixpoint wait_tasks (pids : list Z) : T P H unit :=
  match pids with
  | [] => mret tt
  | pid :: pids' => _ ← wait_task fuel pid; wait_tasks pids'
  end.

Definition exec_pipeline (segs : list pipeline_seg) : T P H unit :=
  l ← resolve_all segs;
  match l with
  | None => mret tt
  | Some l =>
      s0 ← vfs_call (vfs_dup 0);
      s1 ← vfs_call (vfs_dup 1);
      s2 ← vfs_call (vfs_dup 2);
      if (s0 <? 0) || (s1 <? 0) || (s2 <? 0) then say (line "tsh: too many open files") []
      else
        '(prev_r, pids) ← run_stages true l (s0, s1, s2) (-1) [];
        _ ← close_all [prev_r];
        _ ← wait_tasks pids;
        _ ← vfs_call (vfs_close s0);
        _ ← vfs_call (vfs_close s1);
        _ ← vfs_call (vfs_close s2);
        mret tt
  end.

(** A line without operators. *)
Definition plain_command (tokens : list (list Z)) : T P H unit :=
  let name := hd [] tokens in
  match builtin_find name with
  | 0 =>
      r ← vfs_call (resolve_prog name 128);
      match r with
      | Some _ => exec_pipeline [Seg (take 16 tokens) (Z.of_nat (length tokens)) [None; None; None] 0]
      | None => say (line "tsh: %s: command not found") [VaStr (Some name)]
      end
  | id => builtin_run id tokens
  end.

Definition command_execute (text : list Z) : T P H unit :=
  let len := if TSH_LINE_MAX <=? strlen text then TSH_LINE_MAX - 1 else strlen text in
  match tokenize (take (Z.to_nat len) text) MAX_TOKENS with
  | None | Some [] => mret tt
  | Some tokens =>
      if negb (has_ops tokens) then plain_command tokens
      else
        match parse_pipeline tokens with
        | None => say (line "tsh: syntax error") []
        | Some segs => exec_pipeline (map (fun g => set_builtin g (builtin_find (hd [] (seg_argv g)))) segs)
        end
  end.

(** ** The line editor *)

Definition tsh_prompt : T P H unit :=
  _ ← dev_call (fun d => Some (console_set_color COLOR_ACCENT COLOR_BG d));
  _ ← write (bs "tus:");
  s ← state;
  _ ← write (g_cwd s);
  _ ← write (bs "> ");
  dev_call (fun d => Some (console_set_color COLOR_FG COLOR_BG d)).

Definition set_line (l : list Z) : T P H unit := fun s => Some (Did tt, with_line s l).

Definition tsh_process_line : T P H unit :=
  s ← state;
  _ ← command_execute (g_line s);
  set_line [].

Definition put_char (c : Z) : T P H unit := dev_call (console_putchar c).

(** One event of the keyboard. *)
Definition tsh_event (ev : kbd_event) : T P H unit :=
  if ev_type ev =? KBD_EVENT_SPECIAL then
    if ev_code ev =? KBD_KEY_PAGE_UP then dev_call (console_scroll_page 1)
    else if ev_code ev =? KBD_KEY_PAGE_DOWN then dev_call (console_scroll_page (-1))
    else mret tt
  else if negb (ev_type ev =? KBD_EVENT_CHAR) then mret tt
  else
    let c := ev_c ev in
    s ← state;
    if c =? 10 then
      _ ← put_char 10;
      _ ← tsh_process_line;
      tsh_prompt
    else if c =? 8 then
      if bool_decide (g_line s = []) then mret tt
      else _ ← set_line (removelast (g_line s)); put_char 8
    else if c =? 0x0C then
      _ ← dev_call (fun d => Some (console_clear d));
      tsh_prompt
    else if (0x20 <=? c) && (c <? 0x7F) then
      if zlen (g_line s) <? TSH_LINE_MAX - 1 then _ ← set_line (g_line s ++ [c]); put_char c
      else mret tt
    else mret tt.

(** One turn of the loop of [tsh_run]; without an event for the shell it
    halts. *)
Definition tsh_turn : T P H unit :=
  k ← kernel;
  let pid := match sched_current k with Some c => t_pid (get_task k c) | None => 1 end in
  match devs (k_vfs k) with
  | None => fun _ => None
  | Some d =>
      let '(ev, q) := kbd_get_event_shell pid (d_kbd d) in
      match ev with
      | None => busy
      | Some ev => _ ← dev_call (fun d => Some (set_kbd d q)); tsh_event ev
      end
  end.

Fixpoint tsh_turns (n : nat) : T P H unit :=
  match n with
  | O => mret tt
  | S n' => _ ← tsh_turn; tsh_turns n'
  end.

(** The shell through its first [n] events. *)
Definition tsh_run (n : nat) : T P H unit :=
  _ ← dev_call (fun d => Some (console_clear d));
  _ ← tsh_prompt;
  tsh_turns n.
End Shell.
