(* ===== verification/ShellProps.v ===== *)
(** * Properties of the shell

    What the commands and pipelines of Shell leave behind: the descriptors of
    the shell. *)

From stdpp Require Import base numbers list gmap.
From Stdlib Require Import ZArith Lia ZifyBool.
From S2P Require Import Prelude.
From S2P Require Import Interfaces.
From S2P Require Import Hardware.
From S2P Require Import Keyboard.
From S2P Require Import Klib.
From S2P Require Import Pmm.
From S2P Require Import Vmm.
From S2P Require Import VmmTables.
From S2P Require Import Kmalloc.
From S2P Require Import Pipe.
From S2P Require Import Vfs.
From S2P Require Import VfsFd.
From S2P Require Import VfsData.
From S2P Require Import VfsQuiet.
From S2P Require Import Fb.
From S2P Require Import Devices.
From S2P Require Import Sched.
From S2P Require Import ElfLoad.
From S2P Require Import UserMem.
From S2P Require Import TusElf.
From S2P Require Import Syscall.
From S2P Require Import ShellParse.
From S2P Require Import ShellPath.
From S2P Require Import Shell.

Local Notation empty_table := (replicate 16 0).

Section Kernel.
Context {P H : Type} `{FramePool P} `{Ports H} (c : Z).
Implicit Types k : kern P H.

(** The shell runs in slot [c] with the descriptors [tbl], and the slots that
    a new task may take have no descriptors. *)
Record shell_ok k (tbl : list Z) : Prop := ShellOk {
  sk_counted : counted (k_vfs k);
  sk_table : table (k_vfs k) c tbl;
  sk_slots : length (g_tasks k) = 16%nat;
  sk_self : t_state (get_task k c) <> 0 /\ t_state (get_task k c) <> TASK_ZOMBIE;
  sk_free i : 0 <= i < 16 -> t_state (get_task k i) = 0 \/ t_state (get_task k i) = TASK_ZOMBIE ->
    tables (k_vfs k) !! i = Some empty_table;
}.

Lemma ok_rest k k' tbl : k_vfs k' = k_vfs k -> g_tasks k' = g_tasks k -> shell_ok k tbl -> shell_ok k' tbl.
Proof. intros Ev Et [A1 A2 A3 A4 A5]. split; unfold get_task in *; rewrite ?Ev, ?Et; done. Qed.

(** A change of the file system that keeps the tables of other tasks. *)
Lemma ok_local k v tbl tbl' :
  loc (k_vfs k) v -> counted v -> table v c tbl' -> shell_ok k tbl -> shell_ok (with_vfs k v) tbl'.
Proof.
  intros [Lc Lt] Hc Ht [A1 A2 A3 A4 A5]. split; [done|done|done|done|]. intros i Hi Hs. cbn.
  rewrite Lt; [by apply A5|]. rewrite (proj1 A2). intros [= ->]. destruct A4. by destruct Hs.
Qed.

Lemma ok_quiet k v tbl : quiet (k_vfs k) v -> shell_ok k tbl -> shell_ok (with_vfs k v) tbl.
Proof.
  intros Hq Hk. eapply ok_local; [by apply quiet_loc| | |done].
  - eapply quiet_counted; [done|apply Hk].
  - eapply quiet_table; [done|apply Hk].
Qed.

Lemma ok_dev k f tbl : shell_ok k tbl -> shell_ok (on_dev k f) tbl.
Proof. intros Hk. apply ok_quiet; [by split|done]. Qed.

Lemma ok_caller k tbl : shell_ok k tbl -> shell_ok (set_caller k) tbl.
Proof. apply ok_dev. Qed.

Lemma ok_kprintf k fmt args k' tbl : kprintf k fmt args = Some k' -> shell_ok k tbl -> shell_ok k' tbl.
Proof.
  unfold kprintf. intros (out & _ & [= <-])%bind_Some Hk.
  eapply ok_rest; [| |apply (ok_dev k (console_write out)), Hk]; unfold preempt_enable; by destruct (0 <? _).
Qed.

Lemma ok_on_vfs_quiet {A} (m : M (option (dev H)) A) k x k' tbl :
  (forall s, hushed m s) -> on_vfs m k = Some (x, k') -> shell_ok k tbl -> shell_ok k' tbl.
Proof.
  unfold on_vfs. intros Hm ([y v] & E & [= <- <-])%bind_Some Hk. apply ok_quiet; [by eapply Hm|done].
Qed.

(** ** Tables *)

Lemma table_len k tbl : shell_ok k tbl -> length tbl = 16%nat.
Proof. intros Hk. destruct (sk_counted _ _ Hk) as (leak & _ & Hok). eapply fds_len; [done|apply (sk_table _ _ Hk)]. Qed.

(** A descriptor opened and closed again. *)
Lemma insert_undo tbl fd a :
  length tbl = 16%nat -> 0 <= fd < 16 -> slot tbl fd = 0 -> <[Z.to_nat fd := 0]> (<[Z.to_nat fd := a]> tbl) = tbl.
Proof.
  intros Hl Hfd Hs. rewrite list_insert_insert_eq. apply list_insert_id.
  rewrite <-Hs. apply byte_at_lookup. unfold zlen. lia.
Qed.

Lemma ok_close k fd r k' tbl : on_vfs (vfs_close fd) k = Some (r, k') -> shell_ok k tbl ->
  (r < 0 /\ k' = k) \/ (0 <= fd < 16 /\ slot tbl fd <> 0 /\ shell_ok k' (<[Z.to_nat fd := 0]> tbl)).
Proof.
  unfold on_vfs. intros ([y v] & E & [= <- <-])%bind_Some Hk. pose proof (sk_counted _ _ Hk) as (leak & Hl & Hok).
  destruct (vfs_close_ok _ leak c tbl fd Hok Hl (sk_table _ _ Hk)) as (r' & s' & E' & Hok' & _ & Hcase).
  rewrite E' in E. injection E as -> ->. destruct Hcase as [[-> ->]|(-> & Hfd & Hs & Ht)].
  - left. split; [done|]. by destruct k.
  - right. split_and!; [lia|lia|done|]. eapply ok_local; [by eapply local_close|by exists leak|done|done].
Qed.

Lemma ok_open k path flags fd k' tbl : on_vfs (vfs_open path flags) k = Some (fd, k') -> shell_ok k tbl ->
  (fd < 0 /\ shell_ok k' tbl) \/
  (3 <= fd < 16 /\ slot tbl fd = 0 /\ exists a, a <> 0 /\ shell_ok k' (<[Z.to_nat fd := a]> tbl)).
Proof.
  unfold on_vfs. intros ([y v] & E & [= <- <-])%bind_Some Hk.
  destruct (vfs_open_step _ _ _ _ _ _ _ (sk_counted _ _ Hk) (sk_table _ _ Hk) E) as (HL & HC & [[Hn Ht]|(Hfd & Hs & a & Ha & Ht)]).
  - left. split; [done|]. by eapply ok_local.
  - right. split_and!; [lia|lia|done|]. exists a. split; [done|]. by eapply ok_local.
Qed.

(** Closing what was opened. *)
Lemma ok_closes k fd a r k' tbl :
  length tbl = 16%nat -> 0 <= fd < 16 -> slot tbl fd = 0 -> a <> 0 ->
  on_vfs (vfs_close fd) k = Some (r, k') -> shell_ok k (<[Z.to_nat fd := a]> tbl) -> shell_ok k' tbl.
Proof.
  intros Hl Hfd Hs Ha E Hk. destruct (ok_close _ _ _ _ _ E Hk) as [[Hr ->]|(_ & _ & Hk')].
  - exfalso. unfold on_vfs in E. apply bind_Some in E as ([y v] & E & [= -> _]).
    unfold vfs_close, mbind, M_bind in E. rewrite (table_run _ _ _ (sk_table _ _ Hk)) in E.
    rewrite slot_insert, Z.eqb_refl, (proj2 (Z.eqb_neq a 0)) in E by (unfold zlen; rewrite ?length_insert; lia).
    unfold VFS_MAX_FDS in E. rewrite (proj2 (Z.ltb_ge fd 0)), (proj2 (Z.leb_gt 16 fd)) in E by lia. cbn [orb] in E.
    destruct (fd_set fd 0 (k_vfs k)) as [[[] s1]|]; [|done]. destruct (file_unref a s1) as [[[] s2]|]; [|done].
    injection E as <- _. lia.
  - by rewrite insert_undo in Hk'.
Qed.

(** ** Starting programs *)

(** [k'] has the file system and the tasks of [k]. *)
Definition apart k k' : Prop := k_vfs k' = k_vfs k /\ g_tasks k' = g_tasks k.

#[local] Instance apart_preorder : PreOrder apart.
Proof. split; [done|]. intros k1 k2 k3 [A1 A2] [B1 B2]. split; congruence. Qed.

Lemma apart_ok k k' tbl : apart k k' -> shell_ok k tbl -> shell_ok k' tbl.
Proof. intros [A1 A2]. by apply ok_rest. Qed.

Lemma apart_store k a l k' : user_store k a l = Some k' -> apart k k'.
Proof.
  revert k a. induction l as [|b l IH]; intros k a; cbn [user_store]; [by intros [= <-]|].
  intros (k1 & E1 & E2)%bind_Some. etrans; [|by eapply IH]. unfold poke in E1. apply bind_Some in E1 as (f & _ & [= <-]). done.
Qed.

Lemma apart_alloc n page cr3 k : apart k (snd (alloc_pages n page cr3 k)).
Proof.
  revert page k. induction n as [|n IH]; intros page k; cbn [alloc_pages]; [done|].
  destruct (vmm_translate_in (k_vmm k) cr3 page) as [f v]. cbn zeta.
  destruct (if f =? 0 then _ else _) as [f1 v1]. destruct (f1 =? 0); [done|].
  destruct (vmm_map_page_in _ _ _ _ _) as [rc v2]. destruct (negb (rc =? 0)); [done|].
  etrans; [|apply IH]. done.
Qed.

Lemma apart_stack n i cr3 k : apart k (snd (map_stack n i cr3 k)).
Proof.
  revert i k. induction n as [|n IH]; intros i k; cbn [map_stack]; [done|].
  generalize (replicate 4096 0). intros zeros. destruct (pmm_alloc (k_vmm k)) as [f v]. cbn zeta. destruct (f =? 0); [done|].
  destruct (vmm_map_page_in _ _ _ _ _) as [rc v2]. destruct (negb (rc =? 0)); [done|].
  etrans; [|apply IH]. done.
Qed.

Lemma apart_segment (l : loader P H) ctx ph st l' :
  load_segment l ctx ph = Some (st, l') -> apart (ld_kern l) (ld_kern l').
Proof.
  unfold load_segment. destruct (host_alloc _ _ _ _) as [dest l1] eqn:Ea.
  assert (A1 : apart (ld_kern l) (ld_kern l1)).
  { cbn in Ea. unfold tus_alloc in Ea. destruct (alloc_pages _ _ _ _) as [ok k1] eqn:Ep. injection Ea as _ <-. cbn.
    pose proof (apart_alloc (page_count (Z.ldiff (u64 (p_vaddr ph + base_load_vaddr ctx)) 4095) 
      (Z.ldiff (u64 (u64 (u64 (p_vaddr ph + base_load_vaddr ctx) + p_memsz ph) + 4095)) 4095)) 
      (Z.ldiff (u64 (p_vaddr ph + base_load_vaddr ctx)) 4095) (ld_cr3 l) (ld_kern l)) as A.
    by rewrite Ep in A. }
  destruct (dest =? 0); [by intros [= _ <-]|]. intros ([rv b] & _ & E)%bind_Some.
  apply bind_Some in E as (l2 & E2 & E). cbn in E2. apply bind_Some in E2 as (k2 & E2 & [= <-]).
  assert (A2 : apart (ld_kern l) k2) by (etrans; [done|by eapply apart_store]).
  destruct (bool_decide _); [|by injection E as _ <-]. apply bind_Some in E as (l3 & E3 & [= _ <-]).
  cbn in E3. apply bind_Some in E3 as (k3 & E3 & [= <-]). cbn. etrans; [done|by eapply apart_store].
Qed.

Lemma apart_load fuel (l : loader P H) ctx i st l' :
  load_loop fuel l ctx i = Some (st, l') -> apart (ld_kern l) (ld_kern l').
Proof.
  revert l i. induction fuel as [|fuel IH]; intros l i; cbn [load_loop]; [done|].
  intros ([rv found] & _ & E)%bind_Some. destruct (bool_decide _); [|by injection E as _ <-].
  destruct found as [[j ph]|]; [|by injection E as _ <-]. apply bind_Some in E as ([rv' l1] & E1 & E).
  pose proof (apart_segment _ _ _ _ _ E1). destruct (bool_decide _); [|by injection E as _ <-].
  etrans; [done|by eapply IH].
Qed.

(** The slot of a new task is not the shell's, and clearing it changes nothing
    that the shell sees. *)
Lemma find_slot_ok k t k' tbl : task_find_slot k = (Some t, k') -> shell_ok k tbl -> 0 <= c < 16 ->
  shell_ok k' tbl /\ 0 <= t < 16 /\ t <> c /\ t_state (get_task k' t) = 0.
Proof.
  unfold task_find_slot. intros E Hk Hc. pose proof Hk as [A1 A2 A3 A4 A5].
  destruct (zfind _ 16 0) as [i|] eqn:Ez.
  - apply zfind_Some in Ez as (Hi & Hz%Z.eqb_eq & _). injection E as <- <-.
    assert (Hic : i <> c) by (intros ->; by destruct A4).
    assert (Hti : tables (k_vfs k) !! i = Some empty_table) by (apply A5; [lia|by right]).
    assert (Ev : with_tables (k_vfs k) (<[i := empty_table]> (tables (k_vfs k))) = k_vfs k) by (rewrite insert_id by done; by destruct (k_vfs k)).
    cbn [replicate] in Ev. change (k_vfs (set_task k i no_task)) with (k_vfs k). rewrite Ev.
    change (get_task (with_vfs (set_task k i no_task) (k_vfs k)) ?x) with (get_task (set_task k i no_task) x).
    rewrite get_set_task, Z.eqb_refl by lia. split_and!; [|lia|lia|done|done].
    split; try done.
    + cbn. by rewrite length_insert.
    + change (get_task (with_vfs (set_task k i no_task) (k_vfs k)) c) with (get_task (set_task k i no_task) c).
      rewrite get_set_task by lia. by rewrite (proj2 (Z.eqb_neq c i)) by lia.
    + intros j Hj. change (get_task (with_vfs (set_task k i no_task) (k_vfs k)) j) with (get_task (set_task k i no_task) j).
      rewrite get_set_task by lia. destruct (Z.eqb_spec j i) as [->|]; [done|]. apply A5. lia.
  - destruct (zfind (fun i => t_state (get_task k i) =? 0) 16 0) as [i|] eqn:Ez2; [|done]. injection E as <- <-.
    apply zfind_Some in Ez2 as (Hi & Hz%Z.eqb_eq & _). split_and!; [done|lia|lia| |done]. intros ->. by destruct A4.
Qed.

Lemma create_user_ok k entry name cr3 argv r k' tbl :
  task_create_user k entry name cr3 argv = Some (r, k') -> shell_ok k tbl -> 0 <= c < 16 -> shell_ok k' tbl.
Proof.
  unfold task_create_user. intros E Hk Hc. destruct (task_find_slot k) as [[t|] k1] eqn:Ef.
  2:{ injection E as _ <-. unfold task_find_slot in Ef. destruct (zfind _ 16 0); [done|]. by injection Ef as _ <-. }
  destruct (find_slot_ok _ _ _ _ Ef Hk Hc) as (Hk1 & Ht & Htc & Hst).
  apply bind_Some in E as ([kstack h] & _ & E). cbn zeta in E.
  destruct (kstack =? 0); [injection E as _ <-; by apply (apart_ok k1)|].
  pose proof (apart_stack (Z.to_nat (USER_STACK_SIZE / 4096)) 0 cr3 (with_heap k1 h)) as A2.
  destruct (map_stack _ _ _ _) as [ok k2] eqn:Em. cbn [snd] in A2.
  assert (A2' : apart k1 k2) by (etrans; [|done]; done). clear A2.
  destruct ok; [|injection E as _ <-; by eapply apart_ok].
  destruct (vmm_translate_in _ _ _) as [f v]. destruct (f =? 0).
  { injection E as _ <-. eapply apart_ok; [|done]. etrans; [done|]. done. }
  destruct (build_stack _ _ _) as [[page init]|]; [|injection E as _ <-; eapply apart_ok; [|done]; etrans; [done|]; done].
  set (k3 := with_pid _ _) in E. assert (A3 : apart k1 k3) by (etrans; [done|]; done).
  destruct (g_current _) as [cc|] eqn:Ecur; [|done].
  apply bind_Some in E as ([[] v3] & Ei & E). injection E as _ <-.
  pose proof (apart_ok _ _ _ A3 Hk1) as Hk3. clearbody k3. 
  assert (Hst3 : t_state (get_task k3 t) = 0) by (unfold get_task; rewrite (proj2 A3); exact Hst).
  set (nt := Task _ _ _ _ _ _ _ _ _ _ _ _ _ _ _ _ _) in *.
  pose proof Hk3 as [B1 B2 B3 B4 B5]. destruct B1 as (leak & Hl & Hok).
  assert (cc = c) as -> by (unfold g_current in Ecur; cbn in Ecur; destruct B2; congruence).
  assert (Htt : tables (k_vfs k3) !! t = Some empty_table) by (apply B5; [lia|by left]).
  destruct (inherit_slots_ok 16 0 (k_vfs k3) leak t c empty_table tbl Hok Hl Htc Htt (proj2 B2)) as (s' & dt & E' & Hok' & Hcur' & Htab & _);
    [lia|done| |].
  { intros j Hj. unfold slot, byte_at. by rewrite nth_lookup, lookup_replicate_2 by lia. }
  unfold vfs_fd_inherit in Ei. cbn in Ei. cbn in E'. rewrite E' in Ei. injection Ei as <-.
  split.
  - cbn. by exists leak.
  - cbn. split; [by rewrite Hcur'; apply B2|]. rewrite Htab, lookup_insert_ne by done. apply B2.
  - cbn. by rewrite length_insert.
  - change (get_task _ c) with (get_task (set_task k3 t nt) c).
    rewrite get_set_task by lia. by rewrite (proj2 (Z.eqb_neq c t)) by lia.
  - intros j Hj. change (get_task _ j) with (get_task (set_task k3 t nt) j). rewrite get_set_task by lia. cbn [k_vfs with_heap with_vfs].
    rewrite Htab. destruct (Z.eqb_spec j t) as [->|Hne]; [cbn; unfold TASK_READY, TASK_ZOMBIE; lia|].
    rewrite lookup_insert_ne by done. apply B5. lia.
Qed.

Lemma hushed_may_exec path (s : vfs (option (dev H))) : hushed (may_exec path) s.
Proof.
  unfold may_exec. apply hushed_bind; [apply hushed_lookup|]. intros x s1 _ _.
  destruct (x =? 0); [apply hushed_ret|]. apply hushed_get_node. intros n _. apply hushed_ret.
Qed.

(** A program is started with the shell's descriptors as they were. *)
Lemma elf_exec_ok k path argv r k' tbl :
  elf_exec k path argv = Some (r, k') -> shell_ok k tbl -> 0 <= c < 16 -> shell_ok k' tbl.
Proof.
  intros E Hk Hc. unfold elf_exec in E. destruct path as [path|]; [|by injection E as _ <-].
  apply bind_Some in E as ([fd k1] & E1 & E). destruct (ok_open _ _ _ _ _ _ E1 Hk) as [[Hneg Hk1]|(Hfd & Hs & a & Ha & Hk1)].
  { rewrite (proj2 (Z.ltb_lt fd 0)) in E by lia. apply bind_Some in E as (k2 & E2 & [= _ <-]). by eapply ok_kprintf. }
  rewrite (proj2 (Z.ltb_ge fd 0)) in E by lia. clear E1. pose proof (table_len _ _ Hk) as Hlen.
  assert (Hclose : forall k2 err, shell_ok k2 (<[Z.to_nat fd := a]> tbl) -> close_with k2 fd err = Some (r, k') -> shell_ok k' tbl).
  { intros k2 err Hk2 E2. unfold close_with in E2. apply bind_Some in E2 as ([r' k3] & E2 & [= _ <-]).
    by apply (ok_closes k2 fd a r'); [|lia|..]. }
  apply bind_Some in E as ([ok k2] & E2 & E).
  pose proof (ok_on_vfs_quiet _ _ _ _ _ (hushed_may_exec path) E2 Hk1) as Hk2. clear E2 Hk1 k1.
  destruct (negb ok).
  { apply bind_Some in E as (k3 & E3 & E). eapply Hclose; [|done]. by eapply ok_kprintf. }
  apply bind_Some in E as ([st ctx] & _ & E). destruct (negb (bool_decide (st = EL_OK))).
  { apply bind_Some in E as (k3 & E3 & E). eapply Hclose; [|done]. by eapply ok_kprintf. }
  destruct (vmm_space_clone (k_vmm k2)) as [cr3 v]. cbn zeta in E. destruct (cr3 =? 0).
  { apply bind_Some in E as (k3 & E3 & E). eapply Hclose; [|done]. eapply ok_kprintf; [done|]. by apply (apart_ok k2). }
  apply bind_Some in E as ([st2 l] & El & E). cbn zeta in E. apply apart_load in El.
  assert (Hl : shell_ok (ld_kern l) (<[Z.to_nat fd := a]> tbl)).
  { eapply apart_ok; [exact El|]. by apply (apart_ok k2). }
  assert (Hleave : forall k3, shell_ok k3 (<[Z.to_nat fd := a]> tbl) -> shell_ok (leave_space k3) (<[Z.to_nat fd := a]> tbl)).
  { intros k3. apply apart_ok. unfold leave_space, preempt_enable. by destruct (0 <? _). }
  destruct (negb (bool_decide (st2 = EL_OK))).
  { apply bind_Some in E as (k3 & E3 & E). eapply Hclose; [|done]. apply Hleave. by eapply ok_kprintf. }
  apply bind_Some in E as ([pid k3] & E3 & E). pose proof (create_user_ok _ _ _ _ _ _ _ _ E3 Hl Hc) as Hk3.
  apply Hleave in Hk3. destruct (pid <? 0).
  { apply bind_Some in E as (k4 & E4 & E). eapply Hclose; [|done]. by eapply ok_kprintf. }
  apply bind_Some in E as ([r4 k4] & E4 & E). apply bind_Some in E as (k5 & E5 & [= _ <-]).
  eapply ok_kprintf; [done|]. by apply (ok_closes (leave_space k3) fd a r4); [|lia|..].
Qed.
End Kernel.

(** ** Commands *)

Section Commands.
Context {P H : Type} `{FramePool P} `{Ports H} (junk : Z -> Z) (env : sysenv P) (fuel : nat).
Context (halt : kern P H -> kern P H) (c : Z) (Hc : 0 <= c < 16).
Context (Hhalt : forall k tbl, shell_ok c k tbl -> shell_ok c (halt k) tbl).

(** If [m], run with the descriptors [tbl], finishes, then [Q] holds of the
    result and the descriptors. *)
Definition triple {A} (tbl : list Z) (m : T P H A) (Q : A -> list Z -> Prop) : Prop :=
  forall s, shell_ok c (sh_kern s) tbl ->
    match m s with
    | Some (Did x, s') => exists tbl', shell_ok c (sh_kern s') tbl' /\ Q x tbl'
    | _ => True
    end.

(** [m] leaves the descriptors as they were. *)
Definition neat {A} (m : T P H A) : Prop := forall tbl, triple tbl m (fun _ t => t = tbl).

Lemma triple_ret {A} tbl (x : A) Q : Q x tbl -> triple tbl (mret x) Q.
Proof. intros HQ s Hs. by exists tbl. Qed.

Lemma triple_bind {A B} tbl (m : T P H A) (f : A -> T P H B) R Q :
  triple tbl m R -> (forall x t, length t = 16%nat -> R x t -> triple t (f x) Q) -> triple tbl (m ≫= f) Q.
Proof.
  intros Hm Hf s Hs. specialize (Hm s Hs). unfold mbind, T_bind. destruct (m s) as [[[x| |] s1]|]; try done.
  destruct Hm as (t & Ht & HR). apply (Hf x t); [by eapply table_len|done|done].
Qed.

Lemma triple_weaken {A} tbl (m : T P H A) (R Q : A -> list Z -> Prop) :
  triple tbl m R -> (forall x t, R x t -> Q x t) -> triple tbl m Q.
Proof. intros Hm HQ s Hs. specialize (Hm s Hs). destruct (m s) as [[[x| |] s1]|]; naive_solver. Qed.

(** A neat step first. *)
Lemma triple_after {A B} tbl (m : T P H A) (f : A -> T P H B) Q :
  neat m -> (forall x, triple tbl (f x) Q) -> triple tbl (m ≫= f) Q.
Proof. intros Hm Hf. eapply triple_bind; [apply Hm|]. intros x t _ ->. apply Hf. Qed.

Lemma neat_bind {A B} (m : T P H A) (f : A -> T P H B) : neat m -> (forall x, neat (f x)) -> neat (m ≫= f).
Proof. intros Hm Hf tbl. apply triple_after; [done|]. intros x. apply Hf. Qed.

Lemma neat_ret {A} (x : A) : neat (mret x).
Proof. intros tbl. by apply triple_ret. Qed.
Lemma neat_busy {A} : neat (busy : T P H A).
Proof. done. Qed.
Lemma neat_stopped {A} : neat (stopped : T P H A).
Proof. done. Qed.
Lemma neat_state : neat (state : T P H _).
Proof. intros tbl s Hs. by exists tbl. Qed.
Lemma neat_kernel : neat (kernel : T P H _).
Proof. intros tbl s Hs. by exists tbl. Qed.
Lemma neat_set_line l : neat (set_line l : T P H _).
Proof. intros tbl s Hs. by exists tbl. Qed.

Lemma neat_call {A} (f : kern P H -> option (A * kern P H)) :
  (forall k x k' tbl, f k = Some (x, k') -> shell_ok c k tbl -> shell_ok c k' tbl) -> neat (call f).
Proof.
  intros Hf tbl s Hs. unfold call. destruct (f (sh_kern s)) as [[x k]|] eqn:E; [|done]. cbn. exists tbl. split; [|done]. by eapply Hf.
Qed.

Lemma neat_vfs {A} (m : M (option (dev H)) A) : (forall s, hushed m s) -> neat (vfs_call m).
Proof. intros Hm. apply neat_call. intros k x k' tbl. by apply ok_on_vfs_quiet. Qed.

Lemma neat_syscall {A} (m : M (option (dev H)) A) : (forall s, hushed m s) -> neat (syscall m).
Proof. intros Hm. apply neat_call. intros k x k' tbl E Hk. eapply ok_on_vfs_quiet; [done..|]. by apply ok_caller. Qed.

Lemma neat_dev f : neat (dev_call f : T P H _).
Proof. apply neat_call. intros k x k' tbl [= _ <-]. apply ok_dev. Qed.

Lemma neat_say fmt args : neat (say fmt args : T P H _).
Proof. apply neat_call. intros k x k' tbl (k1 & E & [= _ <-])%bind_Some. by eapply ok_kprintf. Qed.

Lemma neat_write t : neat (write t : T P H _).
Proof. apply neat_dev. Qed.

Lemma neat_sc_read fd n : neat (sc_read fd n : T P H _).
Proof. apply neat_bind; [apply neat_syscall; intros; apply hushed_read|]. intros [n' b|t]; [apply neat_ret|apply neat_busy]. Qed.
Lemma neat_sc_write fd b : neat (sc_write junk fd b : T P H _).
Proof. apply neat_bind; [apply neat_syscall; intros; apply hushed_write|]. intros [n' b'|t]; [apply neat_ret|apply neat_busy]. Qed.
Lemma neat_sc_readdir fd : neat (sc_readdir fd : T P H _).
Proof. apply neat_syscall. intros. apply hushed_readdir. Qed.
Lemma neat_sc_mkdir p m : neat (sc_mkdir p m : T P H _).
Proof. apply neat_syscall. intros. apply hushed_mkdir. Qed.
Lemma neat_resolve p : neat (resolve p : T P H _).
Proof. apply neat_bind; [apply neat_state|]. intros. apply neat_ret. Qed.
Lemma neat_sc_kernel : neat (sc_kernel : T P H _).
Proof. apply neat_bind; [|intros; apply neat_kernel]. apply neat_call. intros k x k' tbl [= _ <-]. apply ok_caller. Qed.
Lemma neat_error w e : neat (print_syscall_error w e : T P H _).
Proof. apply neat_say. Qed.

Ltac tidy_step :=
  match goal with
  | |- neat (mbind _ (sc_open _ _)) => fail 1
  | |- neat (mbind _ _) => apply neat_bind; [|intros ?]
  | |- neat (mret _) => apply neat_ret
  | |- neat busy => apply neat_busy
  | |- neat stopped => apply neat_stopped
  | |- neat state => apply neat_state
  | |- neat kernel => apply neat_kernel
  | |- neat sc_kernel => apply neat_sc_kernel
  | |- neat (say _ _) => apply neat_say
  | |- neat (write _) => apply neat_write
  | |- neat (dev_call _) => apply neat_dev
  | |- neat (resolve _) => apply neat_resolve
  | |- neat (set_line _) => apply neat_set_line
  | |- neat (print_syscall_error _ _) => apply neat_error
  | |- neat (sc_read _ _) => apply neat_sc_read
  | |- neat (sc_write _ _ _) => apply neat_sc_write
  | |- neat (sc_readdir _) => apply neat_sc_readdir
  | |- neat (sc_mkdir _ _) => apply neat_sc_mkdir
  | |- neat (if ?b then _ else _) => destruct b
  | |- neat (match ?x with _ => _ end) => destruct x
  | |- neat (let '(_, _) := ?x in _) => destruct x
  | H : context [neat] |- neat _ => solve [apply H]
  end.
Ltac tidy := repeat tidy_step.

(** *** Files opened and closed *)

Lemma triple_close fd a tbl :
  length tbl = 16%nat -> 0 <= fd < 16 -> slot tbl fd = 0 -> a <> 0 ->
  triple (<[Z.to_nat fd := a]> tbl) (sc_close fd) (fun _ t => t = tbl).
Proof.
  intros Hl Hfd Hs Ha s Hk. unfold sc_close, syscall, call.
  destruct (on_vfs (vfs_close fd) (set_caller (sh_kern s))) as [[r k]|] eqn:E; [|done]. cbn. exists tbl. split; [|done].
  eapply (ok_closes c); [..|apply ok_caller, Hk]; done.
Qed.

(** A command that opens a file, works on it and closes it. *)
Lemma neat_open {A} path flags (f : Z -> T P H A) :
  (forall fd, fd < 0 -> neat (f fd)) ->
  (forall fd a tbl, 3 <= fd < 16 -> slot tbl fd = 0 -> a <> 0 -> length tbl = 16%nat ->
     triple (<[Z.to_nat fd := a]> tbl) (f fd) (fun _ t => t = tbl)) ->
  neat (sc_open path flags ≫= f).
Proof.
  intros Hneg Hpos tbl s Hs. pose proof (table_len _ _ _ Hs) as Hl. unfold mbind, T_bind, sc_open, syscall, call.
  destruct (on_vfs (vfs_open (Some path) flags) (set_caller (sh_kern s))) as [[fd k]|] eqn:E; [|done]. cbn.
  destruct (ok_open _ _ _ _ _ _ _ E (ok_caller _ _ _ Hs)) as [[Hn Hk]|(Hfd & Hsl & a & Ha & Hk)].
  - by apply (Hneg fd Hn tbl (with_kern s k)).
  - by apply (Hpos fd a tbl Hfd Hsl Ha Hl (with_kern s k)).
Qed.

Lemma neat_cat_loop n fd : neat (cat_loop junk n fd).
Proof. induction n as [|n IH]; cbn [cat_loop]; tidy. Qed.

Lemma neat_ls_collect n fd all ents : neat (ls_collect n fd all ents).
Proof. revert ents. induction n as [|n IH]; intros ents; cbn [ls_collect]; tidy. Qed.

Lemma neat_ls_print long ents : neat (ls_print long ents).
Proof. induction ents as [|e ents IH]; cbn [ls_print]; unfold ls_line; tidy. Qed.

Lemma neat_ls_flags p l a : neat (ls_flags p l a).
Proof. revert l a. induction p as [|x p IH]; intros l a; cbn [ls_flags]; tidy. Qed.

Lemma neat_ls_args args l a t : neat (ls_args args l a t).
Proof.
  revert l a t. induction args as [|x args IH]; intros l a t; cbn [ls_args]; tidy. apply neat_ls_flags.
Qed.

Lemma neat_echo_words first fd args : neat (echo_words junk first fd args).
Proof. revert first. induction args as [|x args IH]; intros first; cbn [echo_words]; tidy. Qed.

Lemma neat_mkdir_flags p rest o : neat (mkdir_flags p rest o).
Proof. revert rest o. induction p as [|x p IH]; intros rest o; cbn [mkdir_flags]; tidy. Qed.

Lemma neat_mkdir_args n args o : neat (mkdir_args n args o).
Proof.
  revert args o. induction n as [|n IH]; intros args o; cbn [mkdir_args]; tidy. apply neat_mkdir_flags.
Qed.

Lemma neat_mkdir_parents n i r o : neat (mkdir_parents n i r o).
Proof. revert i. induction n as [|n IH]; intros i; cbn [mkdir_parents]; unfold created; tidy. Qed.

Lemma neat_help_lines l : neat (help_lines l).
Proof. induction l as [|[x y] l IH]; cbn [help_lines]; tidy. Qed.

(** The close of the file, and the neat rest of the command. *)
Lemma triple_closing {A} fd a tbl (f : Z -> T P H A) :
  length tbl = 16%nat -> 3 <= fd < 16 -> slot tbl fd = 0 -> a <> 0 -> (forall r, neat (f r)) ->
  triple (<[Z.to_nat fd := a]> tbl) (sc_close fd ≫= f) (fun _ t => t = tbl).
Proof.
  intros Hl Hfd Hs Ha Hf. eapply triple_bind; [apply triple_close; (done || lia)|]. intros r t _ ->. apply Hf.
Qed.

(** Opens a proof of [neat (sc_open p fl ≫= f)] where [f] tests for an error first. *)
Ltac opening :=
  apply neat_open;
  [ intros fd Hneg; rewrite (proj2 (Z.ltb_lt fd 0)) by lia; tidy
  | intros fd a tbl Hfd Hsl Ha Hlen; rewrite (proj2 (Z.ltb_ge fd 0)) by lia ].
Ltac closing := apply triple_closing; [done|done|done|done|intros ?; tidy].

Lemma neat_cmd_cat argv : neat (cmd_cat junk fuel argv).
Proof.
  destruct argv as [|x [|y argv]]; cbn [cmd_cat]; tidy. opening.
  apply triple_after; [apply neat_cat_loop|]. intros n. apply triple_after; [tidy|]. intros _. closing.
Qed.

Lemma neat_cmd_ls argv : neat (cmd_ls fuel argv).
Proof.
  unfold cmd_ls. apply neat_bind; [apply neat_ls_args|]. intros [[[l all] t]|]; [|apply neat_ret].
  apply neat_bind; [tidy|]. intros r. opening.
  apply triple_after; [apply neat_ls_collect|]. intros [n ents]. apply triple_after; [tidy|]. intros _. closing.
  apply neat_ls_print.
Qed.

Lemma neat_enter_dir target pr : neat (enter_dir target pr : T P H _).
Proof.
  unfold enter_dir. apply neat_bind; [tidy|]. intros r. opening.
  apply triple_after; [tidy|]. intros [n e]. closing. intros t s Hs. by exists t.
Qed.

Lemma neat_cmd_cd argv : neat (cmd_cd argv : T P H _).
Proof. unfold cmd_cd. destruct argv as [|x [|y argv]]; tidy; apply neat_enter_dir. Qed.

Lemma neat_assoc {A B C} (m : T P H A) (f : A -> T P H B) (g : B -> T P H C) :
  neat (m ≫= fun x => f x ≫= g) -> neat ((m ≫= f) ≫= g).
Proof. intros Hn tbl s Hs. specialize (Hn tbl s Hs). unfold mbind, T_bind in *. by destruct (m s) as [[[x| |] s1]|]. Qed.

Lemma neat_known {A B} (x : A) (f : A -> T P H B) : neat (f x) -> neat (mret x ≫= f).
Proof. done. Qed.

Lemma neat_cmd_echo argv : neat (cmd_echo junk argv).
Proof.
  unfold cmd_echo. destruct (echo_args (tail argv)) as [args [[flags file]|]].
  - apply neat_assoc, neat_bind; [tidy|]. intros r. opening.
    apply triple_after; [apply neat_echo_words|]. intros _. apply triple_after; [tidy|]. intros _.
    rewrite (proj2 (Z.eqb_neq fd 1)) by lia. cbn [negb]. closing.
  - apply neat_known. cbn. tidy. apply neat_echo_words.
Qed.

Lemma neat_cmd_mkdir argv : neat (cmd_mkdir argv : T P H _).
Proof.
  unfold cmd_mkdir. apply neat_bind; [apply neat_mkdir_args|]. intros [o|]; [|tidy].
  destruct (mo_target o); unfold created; tidy. apply neat_mkdir_parents.
Qed.

Lemma neat_cmd_touch argv : neat (cmd_touch argv : T P H _).
Proof. destruct argv as [|x [|y argv]]; cbn [cmd_touch]; tidy. opening. closing. Qed.

Lemma neat_cmd_rm argv : neat (cmd_rm argv : T P H _).
Proof. destruct argv as [|x [|y argv]]; cbn [cmd_rm]; tidy. apply neat_syscall. intros. apply hushed_unlink. Qed.

Lemma neat_cmd_fbfill argv : neat (cmd_fbfill argv : T P H _).
Proof.
  unfold cmd_fbfill. opening. apply triple_after; [apply neat_syscall; intros; apply hushed_ioctl|]. intros [r b].
  apply triple_after; [tidy|]. intros _. closing.
Qed.

Lemma neat_exec path argv : neat (call (fun k : kern P H => elf_exec k path argv)).
Proof. apply neat_call. intros k x k' tbl E Hk. by eapply elf_exec_ok. Qed.

Lemma neat_cmd_exec argv : neat (cmd_exec argv : T P H _).
Proof. destruct argv as [|x [|y argv]]; cbn [cmd_exec]; tidy. apply neat_exec. Qed.

Lemma neat_cmd_ps : neat (cmd_ps : T P H _).
Proof.
  unfold cmd_ps. tidy. apply neat_call. intros k u k' tbl (k1 & E & [= _ <-])%bind_Some.
  unfold task_list_all in E. revert E. generalize (g_tasks k). intros l. revert k.
  induction l as [|t l IH]; intros k; cbn [list_tasks]; [by intros [= <-]|].
  intros (k2 & E2 & E)%bind_Some Hk. eapply IH; [done|]. unfold list_task in E2.
  destruct (t_state t =? 0); [by injection E2 as <-|]. by eapply ok_kprintf.
Qed.

(** Every command of the two tables leaves the descriptors as they were. *)
Lemma neat_builtin id argv : neat (builtin_run junk env fuel id argv).
Proof.
  unfold builtin_run, run_core, run_fs. repeat case_match.
  all: try (unfold cmd_help, cmd_clear, cmd_ver, cmd_about, cmd_sysinfo, cmd_reboot, cmd_crash, cmd_pwd, cmd_uptime, cmd_sleep;
            tidy; try apply neat_help_lines).
  - done.
  - apply neat_cmd_ls.
  - apply neat_cmd_cat.
  - apply neat_cmd_echo.
  - apply neat_cmd_mkdir.
  - apply neat_cmd_touch.
  - apply neat_cmd_rm.
  - apply neat_cmd_cd.
  - apply neat_cmd_fbfill.
  - apply neat_cmd_exec.
  - apply neat_cmd_ps.
Qed.

(** *** Descriptors of a pipeline *)

(** The table [t] is [base] with the further descriptors [X], whatever its
    first three slots are. *)
Record plus (base X t : list Z) : Prop := Plus {
  pl_len : length t = 16%nat;
  pl_nodup : NoDup X;
  pl_in j : j ∈ X -> 3 <= j < 16 /\ slot t j <> 0 /\ slot base j = 0;
  pl_out j : 3 <= j < 16 -> j ∉ X -> slot t j = slot base j;
}.

Definition std (base t : list Z) : Prop := forall j, 0 <= j < 3 -> slot t j = slot base j.

Lemma slot_set t i v j : length t = 16%nat -> 0 <= i < 16 -> 0 <= j -> slot (<[Z.to_nat i := v]> t) j = if j =? i then v else slot t j.
Proof. intros Hl Hi Hj. apply slot_insert; unfold zlen; lia. Qed.

Lemma plus_low base X t y v : plus base X t -> 0 <= y < 3 -> plus base X (<[Z.to_nat y := v]> t).
Proof.
  intros [Hl Hn Hi Ho] Hy. split; [by rewrite length_insert|done|..]; intros j Hj.
  - destruct (Hi j Hj) as (Hr & Ha & Hb). rewrite slot_set by lia. rewrite (proj2 (Z.eqb_neq j y)) by lia. done.
  - intros Hx. rewrite slot_set by lia. rewrite (proj2 (Z.eqb_neq j y)) by lia. by apply Ho.
Qed.

Lemma plus_add base X t i v : plus base X t -> 3 <= i < 16 -> slot t i = 0 -> v <> 0 -> plus base (i :: X) (<[Z.to_nat i := v]> t).
Proof.
  intros [Hl Hn Hi Ho] Hr Hz Hv.
  assert (Hni : i ∉ X) by (intros Hx; by destruct (Hi i Hx) as (_ & ? & _)).
  split; [by rewrite length_insert|by constructor|..]; intros j Hj.
  - destruct (decide (j = i)) as [->|Hne].
    + rewrite slot_set, Z.eqb_refl by lia. split_and!; [lia|lia|done|]. by rewrite <-Ho.
    + apply elem_of_cons in Hj as [|Hj]; [done|]. destruct (Hi j Hj) as (? & ? & ?).
      rewrite slot_set by lia. by rewrite (proj2 (Z.eqb_neq j i)) by lia.
  - intros [Hne Hx]%not_elem_of_cons. rewrite slot_set by lia. rewrite (proj2 (Z.eqb_neq j i)) by lia. by apply Ho.
Qed.

Lemma plus_del base X t i : plus base (i :: X) t -> plus base X (<[Z.to_nat i := 0]> t).
Proof.
  intros [Hl Hn Hi Ho]. apply NoDup_cons in Hn as [Hni Hn]. destruct (Hi i ltac:(by left)) as (Hr & _ & Hb).
  split; [by rewrite length_insert|done|..]; intros j Hj.
  - destruct (Hi j ltac:(by right)) as (? & ? & ?). rewrite slot_set by lia.
    rewrite (proj2 (Z.eqb_neq j i)) by (intros ->; done). done.
  - intros Hx. rewrite slot_set by lia. destruct (Z.eqb_spec j i) as [->|]; [done|]. apply Ho; [done|]. by apply not_elem_of_cons.
Qed.

Lemma plus_perm base X X' t : X ≡ₚ X' -> plus base X t -> plus base X' t.
Proof.
  intros Hp [Hl Hn Hi Ho]. split; [done|by rewrite <-Hp|..].
  - intros j Hj. apply Hi. by rewrite Hp.
  - intros j Hj Hx. apply Ho; [done|]. by rewrite Hp.
Qed.

Lemma plus_eq base t : length base = 16%nat -> plus base [] t -> std base t -> t = base.
Proof.
  intros Hb [Hl _ _ Ho] Hs. apply buf_ext; [unfold zlen; lia|]. intros j Hj. unfold zlen in Hj.
  destruct (decide (j < 3)); [apply Hs; lia|]. apply Ho; [lia|set_solver].
Qed.

(** *** The calls of the executor *)

Lemma triple_vfs {A} (m : M (option (dev H)) A) tbl (Q : A -> list Z -> Prop) :
  local m ->
  (forall v leak, fds_ok v leak -> (forall a, 0 <= leak a) -> table v c tbl ->
     exists x v', m v = Some (x, v') /\ fds_ok v' leak /\ exists t, table v' c t /\ Q x t) ->
  triple tbl (vfs_call m) Q.
Proof.
  intros Hloc Hm s Hs. destruct (sk_counted _ _ _ Hs) as (leak & Hl & Hok).
  destruct (Hm _ leak Hok Hl (sk_table _ _ _ Hs)) as (x & v & E & Hok' & t & Ht & HQ).
  unfold vfs_call, call, on_vfs. rewrite E. cbn. exists t. split; [|done].
  eapply ok_local; [by eapply Hloc|by exists leak|done|done].
Qed.

Lemma triple_dup2 x y tbl :
  triple tbl (vfs_call (vfs_dup2 x y)) (fun _ t =>
    (t = tbl /\ (x < 0 \/ 16 <= x \/ slot tbl x = 0 \/ y < 0 \/ 16 <= y)) \/ (0 <= y < 16 /\ t = <[Z.to_nat y := slot tbl x]> tbl)).
Proof.
  apply triple_vfs; [apply local_dup2|]. intros v leak Hok Hl Ht.
  destruct (vfs_dup2_ok v leak c tbl x y Hok Hl Ht) as (r & v' & E & Hok' & _ & Hcase).
  exists r, v'. split; [done|]. split; [done|].
  destruct Hcase as [[-> ->]|(-> & Hy & Hx & Ht')]; [|exists (<[Z.to_nat y := slot tbl x]> tbl); split; [done|]; right; split; [lia|done]].
  exists tbl. split; [done|]. left. split; [done|].
  unfold vfs_dup2, mbind, M_bind in E. rewrite (table_run _ _ _ Ht) in E. unfold VFS_MAX_FDS in E.
  destruct ((x <? 0) || (16 <=? x) || (slot tbl x =? 0)) eqn:Et; [lia|].
  destruct ((y <? 0) || (16 <=? y)) eqn:Et2; [lia|]. exfalso. unfold EBADF in *.
  destruct (x =? y); [injection E as E; lia|].
  destruct ((if negb (slot tbl y =? 0) then file_unref (slot tbl y) else mret tt) v) as [[[] s1]|]; [|done].
  destruct (fd_set y (slot tbl x) s1) as [[[] s2]|]; [|done].
  destruct (file_ref (slot tbl x) s2) as [[[] s3]|]; [|done]. injection E as E _. lia.
Qed.

Lemma triple_close_any x tbl :
  triple tbl (vfs_call (vfs_close x)) (fun _ t =>
    (t = tbl /\ (x < 0 \/ 16 <= x \/ slot tbl x = 0)) \/ (0 <= x < 16 /\ t = <[Z.to_nat x := 0]> tbl)).
Proof.
  apply triple_vfs; [apply local_close|]. intros v leak Hok Hl Ht.
  destruct (vfs_close_ok v leak c tbl x Hok Hl Ht) as (r & v' & E & Hok' & _ & Hcase).
  exists r, v'. split; [done|]. split; [done|].
  destruct Hcase as [[-> ->]|(-> & Hx & Hs & Ht')]; [|exists (<[Z.to_nat x := 0]> tbl); split; [done|]; right; split; [lia|done]].
  exists tbl. split; [done|]. left. split; [done|].
  unfold vfs_close, mbind, M_bind in E. rewrite (table_run _ _ _ Ht) in E. unfold VFS_MAX_FDS in E.
  destruct ((x <? 0) || (16 <=? x) || (slot tbl x =? 0)) eqn:Et; [lia|]. exfalso. unfold EBADF in *.
  destruct (fd_set x 0 v) as [[[] s1]|]; [|done]. destruct (file_unref (slot tbl x) s1) as [[[] s2]|]; [|done].
  injection E as E _. lia.
Qed.

Lemma triple_pipe tbl :
  triple tbl (vfs_call vfs_pipe_open) (fun x t =>
    (fst x < 0 /\ t = tbl) \/
    (exists a b v w, x = (0, (a, b)) /\ 3 <= a < 16 /\ 3 <= b < 16 /\ a <> b /\ slot tbl a = 0 /\ slot tbl b = 0 /\
       v <> 0 /\ w <> 0 /\ t = <[Z.to_nat b := w]> (<[Z.to_nat a := v]> tbl))).
Proof.
  apply triple_vfs; [apply local_pipe|]. intros v leak Hok Hl Ht.
  destruct (vfs_pipe_ok v leak c tbl Hok Hl Ht) as (r & v' & E & Hok' & Hcur & Hcase).
  exists r, v'. split; [done|]. split; [done|]. destruct Hcase as [[Hr Htab]|(a & b & x & w & -> & ? & ? & ? & ? & ? & ? & ? & Htb)].
  - exists tbl. split; [|by left]. destruct Ht as [? ?]. split; congruence.
  - exists (<[Z.to_nat b := w]> (<[Z.to_nat a := x]> tbl)). split; [done|]. right. by exists a, b, x, w.
Qed.

(** *** Stages *)

(** The further descriptor that a variable like [prev_r] stands for. *)
Definition fd_opt (p : Z) : list Z := if 0 <=? p then [p] else [].

Lemma plus_close base X x t :
  plus base (x :: X) t ->
  triple t (vfs_call (vfs_close x)) (fun _ t' => plus base X t' /\ (std base t -> std base t')).
Proof.
  intros Hp. destruct (pl_in _ _ _ Hp x ltac:(by left)) as (Hr & Hne & _). pose proof (pl_len _ _ _ Hp) as Hl.
  eapply triple_weaken; [apply triple_close_any|]. intros r t' [[_ Hbad]|[_ ->]]; [lia|]. split; [by apply plus_del|].
  intros Hs j Hj. rewrite slot_set by lia. rewrite (proj2 (Z.eqb_neq j x)) by lia. by apply Hs.
Qed.

Lemma plus_dup2 base X x y t :
  plus base X t -> 0 <= y < 3 -> triple t (vfs_call (vfs_dup2 x y)) (fun _ t' => plus base X t').
Proof.
  intros Hp Hy. eapply triple_weaken; [apply triple_dup2|]. intros r t' [[-> _]|[_ ->]]; [done|by apply plus_low].
Qed.

Lemma stage_stdin_ok base first prev_r t :
  plus base (fd_opt prev_r) t -> (if first : bool then prev_r = -1 else 0 <= prev_r) ->
  triple t (stage_stdin first prev_r) (fun p t' => p = -1 /\ plus base [] t').
Proof.
  intros Hp Hf. unfold stage_stdin. destruct first; [subst; by apply triple_ret|].
  unfold fd_opt in Hp. rewrite (proj2 (Z.leb_le 0 prev_r)) in Hp by done.
  eapply triple_bind; [by apply (plus_dup2 base [prev_r])|]. intros r t1 _ Hp1.
  eapply triple_bind; [by apply (plus_close base [])|]. intros r2 t2 _ [Hp2 _]. by apply triple_ret.
Qed.

Lemma stage_stdout_ok base is_last t :
  plus base [] t ->
  triple t (stage_stdout is_last (-1)) (fun x t' => let '(p, w, failed) := x in
    plus base (fd_opt p ++ fd_opt w) t' /\ (failed = false -> is_last = false -> 0 <= p)).
Proof.
  intros Hp. unfold stage_stdout. destruct is_last; [by apply triple_ret|].
  eapply triple_bind; [apply triple_pipe|]. intros [r [pp0 pp1]] t1 Hl1 [[Hr ->]|(a & b & v & w & [= -> -> ->] & ? & ? & ? & ? & ? & ? & ? & ->)].
  - cbn in Hr. rewrite (proj2 (Z.eqb_neq r 0)) by lia. cbn [negb]. by apply triple_ret.
  - cbn [Z.eqb negb].
    assert (Hp1 : plus base [b; a] (<[Z.to_nat b := w]> (<[Z.to_nat a := v]> t))).
    { pose proof (pl_len _ _ _ Hp). apply plus_add; [by apply plus_add|done| |done].
      rewrite slot_set by lia. by rewrite (proj2 (Z.eqb_neq b a)) by lia. }
    eapply triple_bind; [by apply (plus_dup2 base [b; a])|]. intros r t2 _ Hp2. apply triple_ret.
    unfold fd_opt. rewrite !(proj2 (Z.leb_le 0 _)) by lia. split; [|lia].
    apply (plus_perm base [b; a]); [apply perm_swap|done].
Qed.

Lemma stage_files_ok base redirs tgt X t :
  plus base X t -> 0 <= tgt -> tgt + Z.of_nat (length redirs) <= 3 ->
  triple t (stage_files redirs tgt) (fun x t' => plus base (fst x ++ X) t').
Proof.
  revert tgt X t. induction redirs as [|[[mode file]|] redirs IH]; intros tgt X t Hp Ht Hl; cbn [stage_files length] in *.
  - by apply triple_ret.
  - eapply triple_bind with (R := fun fd t' => (fd < 0 /\ t' = t) \/ (3 <= fd < 16 /\ plus base (fd :: X) t')).
    { intros s Hs. unfold vfs_call, call. destruct (on_vfs _ (sh_kern s)) as [[fd k]|] eqn:E; [|done]. cbn.
      destruct (ok_open _ _ _ _ _ _ _ E Hs) as [[Hn Hk]|(Hfd & Hsl & a & Ha & Hk)]; [exists t; auto|].
      exists (<[Z.to_nat fd := a]> t). split; [done|]. right. split; [lia|]. by apply plus_add. }
    intros fd t1 _ [[Hn ->]|[Hfd Hp1]].
    + rewrite (proj2 (Z.ltb_lt fd 0)) by lia. apply triple_after; [tidy|]. intros _. by apply triple_ret.
    + rewrite (proj2 (Z.ltb_ge fd 0)) by lia.
      eapply triple_bind; [apply (plus_dup2 base (fd :: X)); [done|lia]|]. intros r t2 _ Hp2.
      eapply triple_bind; [apply (IH (tgt + 1) (fd :: X)); [done|lia|lia]|]. intros [fds failed] t3 _ Hp3.
      apply triple_ret. cbn [fst] in *.
      apply (plus_perm base (fds ++ fd :: X)); [|done]. symmetry. apply Permutation_middle.
  - apply IH; [done|lia|lia].
Qed.

Lemma stage_run_neat g path pids : neat (stage_run junk env fuel g path pids).
Proof.
  unfold stage_run. destruct (negb (seg_builtin g =? 0)); tidy; [apply neat_builtin|].
  apply neat_call. intros k r k' tbl E Hk. unfold spawn in E. apply bind_Some in E as ([pid k1] & E1 & E).
  destruct (_ && _); [done|]. injection E as _ <-. by eapply elf_exec_ok.
Qed.

Lemma close_all_ok base fds X t :
  plus base (fds ++ X) t ->
  triple t (close_all fds) (fun _ t' => plus base X t' /\ (std base t -> std base t')).
Proof.
  revert t. induction fds as [|fd fds IH]; intros t Hp; cbn [close_all app] in *; [by apply triple_ret|].
  destruct (pl_in _ _ _ Hp fd ltac:(by left)) as (Hr & _). rewrite (proj2 (Z.leb_le 0 fd)) by lia.
  eapply triple_bind; [by apply (plus_close base (fds ++ X))|]. intros r t1 _ [Hp1 Hs1].
  eapply triple_weaken; [by apply IH|]. cbn. tauto.
Qed.

Lemma close_opt_ok base p X t :
  plus base (fd_opt p ++ X) t -> triple t (close_all [p]) (fun _ t' => plus base X t' /\ (std base t -> std base t')).
Proof.
  unfold fd_opt. destruct (Z.leb_spec 0 p); [by apply (close_all_ok base [p])|]. intros Hp. cbn [close_all].
  rewrite (proj2 (Z.leb_gt 0 p)) by lia. apply triple_after; [tidy|]. intros _. by apply triple_ret.
Qed.

(** The copies [saves] of the standard descriptors. *)
Definition saved (base : list Z) (saves : Z * Z * Z) : Prop :=
  let '(s0, s1, s2) := saves in
  (3 <= s0 < 16 /\ slot base s0 = slot base 0) /\ (3 <= s1 < 16 /\ slot base s1 = slot base 1) /\
  (3 <= s2 < 16 /\ slot base s2 = slot base 2) /\ slot base 0 <> 0 /\ slot base 1 <> 0 /\ slot base 2 <> 0.

(** One standard descriptor comes back. *)
Lemma restore_one base X s y t :
  plus base X t -> 3 <= s < 16 -> slot base s = slot base y -> slot base y <> 0 -> 0 <= y < 3 ->
  triple t (vfs_call (vfs_dup2 s y)) (fun _ t' => plus base X t' /\ slot t' y = slot base y /\
    forall j, 0 <= j < 3 -> j <> y -> slot t' j = slot t j).
Proof.
  intros Hp Hs Hb Hnz Hy. pose proof (pl_len _ _ _ Hp) as Hl.
  assert (Hx : s ∉ X). { intros Hin. destruct (pl_in _ _ _ Hp s Hin) as (_ & _ & ?). congruence. }
  pose proof (pl_out _ _ _ Hp s Hs Hx) as Ho.
  eapply triple_weaken; [apply triple_dup2|]. intros r t' [[_ Hbad]|[_ ->]]; [lia|]. split_and!.
  - by apply plus_low.
  - rewrite slot_set, Z.eqb_refl by lia. congruence.
  - intros j Hj Hne. rewrite slot_set by lia. by rewrite (proj2 (Z.eqb_neq j y)) by lia.
Qed.

Lemma stage_restore_ok base saves fds p w t :
  saved base saves -> plus base (fds ++ fd_opt p ++ fd_opt w) t ->
  triple t (stage_restore saves fds w) (fun _ t' => plus base (fd_opt p) t' /\ std base t').
Proof.
  destruct saves as [[s0 s1] s2]. intros ((H01 & H02) & (H11 & H12) & (H21 & H22) & Hn0 & Hn1 & Hn2) Hp. unfold stage_restore.
  eapply triple_bind; [apply (restore_one base (fds ++ fd_opt p ++ fd_opt w) s0 0); (done || lia)|]. intros r0 t0 _ (Hp0 & E00 & _).
  eapply triple_bind; [apply (restore_one base (fds ++ fd_opt p ++ fd_opt w) s1 1); (done || lia)|]. intros r1 t1 _ (Hp1 & E11 & K1).
  eapply triple_bind; [apply (restore_one base (fds ++ fd_opt p ++ fd_opt w) s2 2); (done || lia)|]. intros r2 t2 _ (Hp2 & E22 & K2).
  assert (Hstd : std base t2).
  { intros j Hj. assert (j = 0 \/ j = 1 \/ j = 2) as [-> | [-> | ->]] by lia; [|rewrite K2 by lia; done|done].
    rewrite K2, K1 by lia. done. }
  eapply triple_bind; [by apply (close_all_ok base fds)|]. intros r3 t3 _ [Hp3 Hs3].
  eapply triple_weaken; [apply (close_opt_ok base w (fd_opt p))|].
  - apply (plus_perm base (fd_opt p ++ fd_opt w)); [apply Permutation_app_comm|done].
  - intros r4 t4 [Hp4 Hs4]. auto.
Qed.

Lemma run_stages_ok base saves l first prev_r pids t :
  saved base saves -> Forall (fun g => length (seg_redir g.1) = 3%nat) l ->
  plus base (fd_opt prev_r) t -> std base t -> (if first : bool then prev_r = -1 else 0 <= prev_r) ->
  triple t (run_stages junk env fuel first l saves prev_r pids) (fun x t' => plus base (fd_opt x.1) t' /\ std base t').
Proof.
  intros Hsv Hl. revert first prev_r pids t. induction Hl as [|[g path] l Hg Hl IH]; intros first prev_r pids t Hp Hs Hf;
    cbn [run_stages]; [by apply triple_ret|].
  eapply triple_bind; [by apply stage_stdin_ok|]. intros p0 t0 _ [-> Hp0].
  eapply triple_bind; [by apply stage_stdout_ok|]. intros [[p w] failed] t1 _ [Hp1 Hpos].
  assert (Hrest : forall fds pids (failed' : bool) t2, plus base (fds ++ fd_opt p ++ fd_opt w) t2 -> (failed' = false -> failed = false) ->
    triple t2 (_ ← stage_restore saves fds w; if failed' then mret (p, pids) else run_stages junk env fuel false l saves p pids)
      (fun x t' => plus base (fd_opt x.1) t' /\ std base t')).
  { intros fds pids' failed' t2 Hp2 Hff. eapply triple_bind; [by apply (stage_restore_ok base saves fds p w)|]. intros r t3 _ [Hp3 Hs3].
    destruct failed'; [by apply triple_ret|]. destruct l as [|g' l']; [by apply triple_ret|]. apply IH; [done|done|].
    apply Hpos; [by apply Hff|done]. }
  destruct failed.
  - intros s Hs'. by apply (Hrest [] pids true t1).
  - eapply triple_bind; [apply (stage_files_ok base (seg_redir g) 0 (fd_opt p ++ fd_opt w)); [done|lia|cbn in Hg; lia]|].
    intros [fds failed2] t2 _ Hp2. cbn [fst] in Hp2. destruct failed2.
    + intros s Hs'. by apply (Hrest fds pids true t2).
    + apply triple_after; [apply stage_run_neat|]. intros [pids' failed3]. by apply Hrest.
Qed.

(** *** Pipelines *)

Lemma hushed_resolve_prog name size (s : vfs (option (dev H))) : hushed (resolve_prog name size) s.
Proof.
  unfold resolve_prog. destruct (strchr name SLASH); [apply hushed_ret|]. destruct (size <=? _); [apply hushed_ret|].
  apply hushed_bind; [apply hushed_lookup|]. intros x s1 _ _. destruct (x =? 0); [apply hushed_ret|].
  apply hushed_get_node. intros n _. apply hushed_ret.
Qed.

Lemma resolve_all_ok segs tbl :
  triple tbl (resolve_all segs : T P H _) (fun x t => t = tbl /\ match x with None => True | Some l => map fst l = segs end).
Proof.
  induction segs as [|g segs IH]; cbn [resolve_all]; [by apply triple_ret|].
  apply triple_after. { destruct (seg_builtin g =? 0); [apply neat_vfs; intros; apply hushed_resolve_prog|apply neat_ret]. }
  intros [path|].
  - eapply triple_bind; [apply IH|]. intros [l|] t _ [-> Hl]; apply triple_ret; [by rewrite <-Hl|done].
  - apply triple_after; [apply neat_say|]. intros _. by apply triple_ret.
Qed.

Lemma wait_task_neat n pid : neat (wait_task halt n pid).
Proof.
  induction n as [|n IH]; cbn [wait_task]; tidy. apply neat_call. intros k u k' tbl [= _ <-]. apply Hhalt.
Qed.

Lemma wait_tasks_neat pids : neat (wait_tasks fuel halt pids).
Proof. induction pids as [|pid pids IH]; cbn [wait_tasks]; tidy. apply wait_task_neat. Qed.

Lemma occ_pos a l : 0 < occ a l -> exists i, l !! i = Some a.
Proof.
  induction l as [|x l IH]; cbn [occ]; [lia|]. destruct (Z.eqb_spec x a) as [->|]; [by exists O|].
  intros [i Hi]%IH. by exists (S i).
Qed.

Lemma triple_dup x tbl :
  length tbl = 16%nat -> 0 <= x < 16 -> slot tbl x <> 0 -> 0 < occ 0 tbl ->
  triple tbl (vfs_call (vfs_dup x)) (fun r t => 0 <= r < 16 /\ slot tbl r = 0 /\ t = <[Z.to_nat r := slot tbl x]> tbl).
Proof.
  intros Hlen Hx Hnz Hocc. apply triple_vfs; [apply local_dup|]. intros v leak Hok Hl Ht.
  destruct (vfs_dup_ok v leak c tbl x Hok Hl Ht) as (r & v' & E & Hok' & _ & Hcase).
  exists r, v'. split; [done|]. split; [done|].
  destruct Hcase as [[Hr ->]|(Hr & Hs & _ & Ht')]; [|exists (<[Z.to_nat r := slot tbl x]> tbl); split_and!; (done || lia)].
  exfalso. unfold vfs_dup, mbind, M_bind in E. rewrite (table_run _ _ _ Ht) in E. unfold VFS_MAX_FDS in E.
  rewrite (proj2 (Z.ltb_ge x 0)), (proj2 (Z.leb_gt 16 x)), (proj2 (Z.eqb_neq (slot tbl x) 0)) in E by lia. cbn [orb] in E.
  destruct (zfind _ 16 0) as [i|] eqn:Ei.
  - apply zfind_Some in Ei as (Hi & _). destruct (fd_set i (slot tbl x) v) as [[[] s1]|]; [|done].
    destruct (file_ref (slot tbl x) s1) as [[[] s2]|]; [|done]. injection E as E _. lia.
  - apply occ_pos in Hocc as [i Hi]. rewrite zfind_None in Ei. pose proof (lookup_lt_Some _ _ _ Hi) as Hlt.
    specialize (Ei (Z.of_nat i) ltac:(lia)). unfold slot, byte_at in Ei. rewrite Nat2Z.id in Ei.
    rewrite (nth_lookup_Some _ _ 0 _ Hi) in Ei. done.
Qed.

Lemma occ_set tbl r v : length tbl = 16%nat -> 0 <= r < 16 -> slot tbl r = 0 -> v <> 0 -> occ 0 (<[Z.to_nat r := v]> tbl) = occ 0 tbl - 1.
Proof.
  intros Hl Hr Hs Hv. assert (E : tbl !! Z.to_nat r = Some 0).
  { rewrite <-Hs. apply byte_at_lookup. unfold zlen. lia. }
  rewrite (occ_insert 0 tbl _ _ v E). rewrite Z.eqb_refl, (proj2 (Z.eqb_neq v 0)) by done. lia.
Qed.

(** The three standard descriptors are open and three slots are free. *)
Definition roomy (tbl : list Z) : Prop := (forall y, 0 <= y < 3 -> slot tbl y <> 0) /\ 3 <= occ 0 tbl.

(** A copy of standard descriptor [y] goes to a free slot. *)
Lemma triple_save y tbl t n :
  length t = 16%nat -> (forall j, 0 <= j < 3 -> slot t j = slot tbl j /\ slot tbl j <> 0) -> 0 <= y < 3 -> 0 < n -> n <= occ 0 t ->
  triple t (vfs_call (vfs_dup y)) (fun r t' => 3 <= r < 16 /\ slot t r = 0 /\ n - 1 <= occ 0 t' /\
    (forall j, 0 <= j < 3 -> slot t' j = slot tbl j /\ slot tbl j <> 0) /\ t' = <[Z.to_nat r := slot tbl y]> t).
Proof.
  intros Hl Hstd Hy Hn Hocc. destruct (Hstd y Hy) as [Ey Ny].
  eapply triple_weaken; [apply (triple_dup y); (done || lia || congruence)|]. intros r t' (Hr & Hz & ->). rewrite Ey.
  assert (3 <= r). { destruct (decide (r < 3)); [|lia]. destruct (Hstd r ltac:(lia)). congruence. }
  rewrite occ_set by (done || lia). split_and!; try done; try lia.
  intros j Hj. rewrite slot_set by lia. rewrite (proj2 (Z.eqb_neq j r)) by lia. by apply Hstd.
Qed.

(** The three copies, closed again. *)
Lemma unsave tbl s0 s1 s2 v0 v1 v2 :
  length tbl = 16%nat -> 0 <= s0 < 16 -> 0 <= s1 < 16 -> 0 <= s2 < 16 -> s0 <> s1 -> s0 <> s2 -> s1 <> s2 ->
  slot tbl s0 = 0 -> slot tbl s1 = 0 -> slot tbl s2 = 0 ->
  <[Z.to_nat s2 := 0]> (<[Z.to_nat s1 := 0]> (<[Z.to_nat s0 := 0]>
    (<[Z.to_nat s2 := v2]> (<[Z.to_nat s1 := v1]> (<[Z.to_nat s0 := v0]> tbl))))) = tbl.
Proof.
  intros Hl R0 R1 R2 D01 D02 D12 E0 E1 E2. apply buf_ext; [unfold zlen; by rewrite !length_insert|].
  intros j Hj. unfold zlen in Hj. rewrite !length_insert in Hj. change (byte_at ?l j) with (slot l j).
  rewrite !slot_set by (rewrite ?length_insert; lia). split_tests; congruence.
Qed.

Lemma exec_pipeline_ok segs tbl :
  Forall (fun g => length (seg_redir g) = 3%nat) segs -> roomy tbl ->
  triple tbl (exec_pipeline junk env fuel halt segs) (fun _ t => t = tbl).
Proof.
  intros Hsegs [Hstd Hocc]. unfold exec_pipeline. eapply triple_bind; [apply resolve_all_ok|].
  intros [l|] t Hlen [-> Hl]; [|by apply triple_ret].
  assert (Hl3 : Forall (fun g => length (seg_redir g.1) = 3%nat) l) by (rewrite <-Hl, Forall_map in Hsegs; done). clear Hl Hsegs.
  eapply triple_bind; [apply (triple_save 0 tbl tbl 3); auto with lia|]. intros s0 t0 L0 (R0 & Z0 & O0 & S0 & E0).
  eapply triple_bind; [apply (triple_save 1 tbl t0 2); auto with lia|]. intros s1 t1 L1 (R1 & Z1 & O1 & S1 & E1).
  eapply triple_bind; [apply (triple_save 2 tbl t1 1); auto with lia|]. intros s2 base L2 (R2 & Z2 & O2 & S2 & E2).
  rewrite (proj2 (Z.ltb_ge s0 0)), (proj2 (Z.ltb_ge s1 0)), (proj2 (Z.ltb_ge s2 0)) by lia. cbn [orb].
  assert (D01 : s0 <> s1 /\ slot tbl s1 = 0).
  { subst t0. rewrite slot_set in Z1 by lia. destruct (Z.eqb_spec s1 s0); [by destruct (S0 0 ltac:(lia))|]. split; [lia|done]. }
  assert (D2 : s0 <> s2 /\ s1 <> s2 /\ slot tbl s2 = 0).
  { subst t1 t0. rewrite !slot_set in Z2 by (rewrite ?length_insert; lia).
    destruct (Z.eqb_spec s2 s1); [by destruct (S0 1 ltac:(lia))|]. destruct (Z.eqb_spec s2 s0); [by destruct (S0 0 ltac:(lia))|]. auto. }
  assert (Hsv : saved base (s0, s1, s2)).
  { pose proof (S2 0 ltac:(lia)) as [B0 ?]. pose proof (S2 1 ltac:(lia)) as [B1 ?]. pose proof (S2 2 ltac:(lia)) as [B2 ?].
    unfold saved. rewrite B0, B1, B2. subst base t1 t0. rewrite !slot_set by (rewrite ?length_insert; lia).
    rewrite !Z.eqb_refl. split_tests; split_and!; (done || lia). }
  assert (Hp : plus base (fd_opt (-1)) base) by (split; [done|constructor|intros j []%elem_of_nil|done]).
  eapply triple_bind; [by apply (run_stages_ok base (s0, s1, s2) l true (-1))|]. intros [prev_r pids] t3 L3 [Hp3 Hs3]. cbn [fst] in Hp3.
  eapply triple_bind; [apply (close_opt_ok base prev_r []); by rewrite app_nil_r|]. intros [] t4 L4 [Hp4 Hs4].
  pose proof (plus_eq base t4 L2 Hp4 (Hs4 Hs3)) as ->.
  apply triple_after; [apply wait_tasks_neat|]. intros [].
  pose proof Hsv as ((_ & V0) & (_ & V1) & (_ & V2) & N0 & N1 & N2).
  eapply triple_bind; [apply triple_close_any|]. intros r5 t5 L5 [[_ ?]|[_ E5]]; [lia|].
  eapply triple_bind; [apply triple_close_any|]. intros r6 t6 L6 [[_ Hbad]|[_ E6]].
  { rewrite E5, slot_set in Hbad by lia. rewrite (proj2 (Z.eqb_neq s1 s0)) in Hbad by lia. lia. }
  eapply triple_bind; [apply triple_close_any|]. intros r7 t7 L7 [[_ Hbad]|[_ E7]].
  { rewrite E6, E5, !slot_set in Hbad by (rewrite ?length_insert; lia).
    rewrite (proj2 (Z.eqb_neq s2 s0)), (proj2 (Z.eqb_neq s2 s1)) in Hbad by lia. lia. }
  apply triple_ret. subst t7 t6 t5 base t1 t0. apply unsave; (done || lia).
Qed.

(** *** Lines *)

Lemma c_string_no_nul t : 0 ∉ c_string t.
Proof.
  induction t as [|x t IH]; [set_solver|]. rewrite c_string_cons. destruct (Z.eqb_spec x 0); set_solver.
Qed.

(** The stages of a line that the parser accepts. *)
Lemma line_segs text len toks segs :
  0 <= len <= strlen text -> len < TSH_LINE_MAX ->
  tokenize (take (Z.to_nat len) text) MAX_TOKENS = Some toks -> parse_pipeline toks = Some segs ->
  Forall (fun g => length (seg_redir g) = 3%nat) segs.
Proof.
  intros Hle Hlt Et Ep. set (l := take (Z.to_nat len) text) in *.
  assert (Hnz : 0 ∉ l).
  { intros Hin. apply (c_string_no_nul text). unfold c_string. unfold l in Hin.
    replace (take (Z.to_nat len) text) with (take (Z.to_nat len) (take (Z.to_nat (strlen text)) text)) in Hin
      by (rewrite take_take; f_equal; lia).
    rewrite <-(take_drop (Z.to_nat len) (take (Z.to_nat (strlen text)) text)). apply elem_of_app. by left. }
  assert (Hl : zlen l < TSH_LINE_MAX) by (unfold l, zlen in *; rewrite length_take; lia).
  rewrite tokenize_line in Et by done. injection Et as <-. destruct (scan_shape (S (length l)) l Hnz) as [Hf _].
  pose proof (parse_loop_ok [] new_seg (tokens l) Hf ltac:(done) ltac:(done) new_seg_open) as Hok.
  unfold parse_pipeline in Ep. rewrite Ep in Hok. destruct Hok as [_ Hs]. eapply Forall_impl; [exact Hs|].
  intros g [_ _ _ (r0 & r1 & r2 & -> & _) _]. done.
Qed.

Lemma command_execute_ok text tbl :
  roomy tbl -> triple tbl (command_execute junk env fuel halt text) (fun _ t => t = tbl).
Proof.
  intros Hr. unfold command_execute. set (len := if TSH_LINE_MAX <=? strlen text then TSH_LINE_MAX - 1 else strlen text).
  assert (Hlen : 0 <= len <= strlen text /\ len < TSH_LINE_MAX).
  { pose proof (strlen_nonneg text). unfold len, TSH_LINE_MAX. split_tests; lia. }
  destruct (tokenize _ MAX_TOKENS) as [[|t toks]|] eqn:Et; [by apply triple_ret| |by apply triple_ret].
  destruct (negb (has_ops (t :: toks))).
  - unfold plain_command. destruct (builtin_find _) eqn:Eb; [|apply neat_builtin..].
    apply triple_after; [apply neat_vfs; intros; apply hushed_resolve_prog|]. intros [path|]; [|apply neat_say].
    apply exec_pipeline_ok; [by apply Forall_singleton|done].
  - destruct (parse_pipeline (t :: toks)) as [segs|] eqn:Ep; [|apply neat_say].
    apply exec_pipeline_ok; [|done]. apply Forall_map. eapply Forall_impl; [by apply (line_segs text len (t :: toks)); [apply Hlen|apply Hlen|..]|]. done.
Qed.

Lemma tsh_event_ok ev tbl : roomy tbl -> triple tbl (tsh_event junk env fuel halt ev) (fun _ t => t = tbl).
Proof.
  intros Hr. unfold tsh_event. destruct (ev_type ev =? KBD_EVENT_SPECIAL).
  { by assert (neat (if ev_code ev =? KBD_KEY_PAGE_UP then dev_call (console_scroll_page 1)
      else if ev_code ev =? KBD_KEY_PAGE_DOWN then dev_call (console_scroll_page (-1)) else mret tt : T P H unit)) as Hn by tidy; apply Hn. }
  destruct (negb _); [apply neat_ret|]. apply triple_after; [tidy|]. intros s.
  assert (Hprompt : neat (tsh_prompt : T P H _)) by (unfold tsh_prompt; tidy).
  destruct (ev_c ev =? 10).
  - apply triple_after; [apply neat_dev|]. intros _.
    eapply (triple_bind _ _ _ (fun _ t => t = tbl)); [|intros _ t _ ->; apply Hprompt].
    unfold tsh_process_line. apply triple_after; [tidy|]. intros s2.
    eapply triple_bind; [by apply command_execute_ok|]. intros _ t _ ->. apply neat_set_line.
  - assert (Hrest : forall m : T P H unit, neat m -> triple tbl m (fun _ t => t = tbl)) by (intros m Hm; apply Hm).
    apply Hrest. unfold put_char. tidy.
Qed.

Lemma tsh_turns_ok n tbl : roomy tbl -> triple tbl (tsh_turns junk env fuel halt n) (fun _ t => t = tbl).
Proof.
  intros Hr. induction n as [|n IH]; cbn [tsh_turns]; [by apply triple_ret|].
  eapply (triple_bind _ _ _ (fun _ t => t = tbl)); [|intros _ t _ ->; done].
  unfold tsh_turn. apply triple_after; [tidy|]. intros k. destruct (devs (k_vfs k)) as [d|]; [|done].
  destruct (kbd_get_event_shell _ _) as [[ev|] q]; [|apply neat_busy].
  apply triple_after; [apply neat_dev|]. intros _. by apply tsh_event_ok.
Qed.

Lemma tsh_run_ok n tbl : roomy tbl -> triple tbl (tsh_run junk env fuel halt n) (fun _ t => t = tbl).
Proof.
  intros Hr. unfold tsh_run. apply triple_after; [tidy|]. intros _. apply triple_after; [unfold tsh_prompt; tidy|]. intros _.
  by apply tsh_turns_ok.
Qed.
End Commands.

(** ** A shell on the small machine *)

(** A root directory with a program [p] and a device [n]. *)
Definition tsh_nodes : gmap Z vfs_node :=
  {[ 1 := VfsNode [SLASH] VFS_DIR 493 0 0 [] 0 0 None 0 0 0 2;
     2 := VfsNode (bs "p") VFS_FILE 493 0 0 demo_image (zlen demo_image) (zlen demo_image) None 0 1 3 0;
     3 := VfsNode (bs "n") VFS_DEVICE 384 0 0 [] 0 0 (Some 5) 0 1 0 0 ]}.

(** The keys of a line, waiting in the keyboard's buffer. *)
Definition tsh_dev (keys : list Z) : dev feed :=
  Dev fb_static false false (fold_left (fun q c => kbd_push_char c q) keys kbd_boot)
    (replicate 60 0) (replicate 8 0) 0 0 (FbInfo 0 0 0 0 0) None (Feed 0 []).

Definition tsh_kern (keys : list Z) : kern pmm feed :=
  let s := k_vfs demo_kern in
  with_vfs demo_kern (Vfs tsh_nodes ∅ ∅ 1 (tables s) (cur s) 4 [] (Some (tsh_dev keys))).

(** The device becomes standard input, output and error. *)
Definition tsh_boot : T pmm feed unit :=
  fd ← vfs_call (vfs_open (Some (bs "/n")) O_RDWR);
  _ ← vfs_call (vfs_dup2 fd 0);
  _ ← vfs_call (vfs_dup2 fd 1);
  _ ← vfs_call (vfs_dup2 fd 2);
  _ ← vfs_call (vfs_close fd);
  mret tt.

Definition tsh_start (keys : list Z) : shell pmm feed :=
  match tsh_boot (Shell (tsh_kern keys) [SLASH] [] []) with
  | Some (_, s) => s
  | None => Shell (tsh_kern keys) [SLASH] [] []
  end.

Definition tsh_env : sysenv pmm := SysEnv pmm (bs "13.2.0") (fun _ => (0, 0, 0, 0)) None None 0 pmm_get_stats 0.

(** Between two ticks nothing else runs. *)
Definition tsh_halt (k : kern pmm feed) : kern pmm feed := with_ticks k (pit_tick (g_ticks k)).

(** C17. Whatever is typed, the shell gives its descriptors back: after any
    number of lines run to completion - builtins, programs, pipelines and
    redirections, failing stages included - the descriptor table of the shell's
    task is the one it started with, every file object is still referenced
    exactly as often as it is counted, and the slots a new task may take have no
    descriptors.  Required at the start are open standard descriptors and three
    free slots for their saved copies, and of the interrupts that run while the
    shell waits, that they keep this too. *)
Theorem shell_keeps_descriptors {P H : Type} `{FramePool P} `{Ports H} junk (env : sysenv P) fuel
    (halt : kern P H -> kern P H) c n tbl (s s' : shell P H) :
  0 <= c < 16 -> (forall k t, shell_ok c k t -> shell_ok c (halt k) t) ->
  shell_ok c (sh_kern s) tbl -> roomy tbl ->
  tsh_run junk env fuel halt n s = Some (Did tt, s') ->
  shell_ok c (sh_kern s') tbl.
Proof.
  intros Hc Hhalt Hs Hr E. pose proof (tsh_run_ok junk env fuel halt c Hc Hhalt n tbl Hr s Hs) as Hk.
  rewrite E in Hk. by destruct Hk as (t & Ht & ->).
Qed.

Lemma tsh_kern_ok keys : shell_ok 0 (tsh_kern keys) (replicate 16 0).
Proof.
  assert (Hz : forall u tbl, tables (k_vfs (tsh_kern keys)) !! u = Some tbl -> tbl = replicate 16 0).
  { intros u tbl E. apply elem_of_list_to_map_2 in E. apply list_elem_of_fmap in E as (i & [= _ ->] & _). done. }
  split; try done.
  - exists (fun _ => 0). split; [done|]. by apply (no_files_ok _ 0).
  - intros i Hi _. destruct (tables (k_vfs (tsh_kern keys)) !! i) as [t|] eqn:E; [by rewrite (Hz _ _ E)|exfalso].
    apply not_elem_of_list_to_map in E. apply E. rewrite <-list_fmap_compose.
    apply list_elem_of_fmap. exists i. split; [done|]. apply elem_of_zseq. lia.
Qed.

Lemma tsh_boot_ok : triple 0 (replicate 16 0) tsh_boot (fun _ _ => True).
Proof.
  assert (Hopen : forall t, triple 0 t (vfs_call (vfs_open (Some (bs "/n")) O_RDWR) : T pmm feed Z) (fun _ _ => True)).
  { intros t s Hs. unfold vfs_call, call. destruct (on_vfs _ _) as [[x k]|] eqn:E; [|done]. cbn.
    destruct (ok_open _ _ _ _ _ _ _ E Hs) as [[_ Hk]|(_ & _ & a & _ & Hk)]; by eexists. }
  unfold tsh_boot. eapply triple_bind; [apply Hopen|]. intros fd t _ _.
  do 3 (eapply triple_bind; [apply triple_dup2|]; intros ? ? _ _).
  eapply triple_bind; [apply triple_close_any|]. intros. by apply triple_ret.
Qed.

Lemma tsh_start_ok keys t :
  option_map fst (tsh_boot (Shell (tsh_kern keys) [SLASH] [] [])) = Some (Did tt) ->
  tables (k_vfs (sh_kern (tsh_start keys))) !! 0 = Some t -> shell_ok 0 (sh_kern (tsh_start keys)) t.
Proof.
  pose proof (tsh_boot_ok (Shell (tsh_kern keys) [SLASH] [] []) (tsh_kern_ok keys)) as Hb.
  unfold tsh_start. destruct (tsh_boot _) as [[o s]|]; [|done]. intros [= ->] Ht.
  destruct Hb as (t' & Hs & _). destruct (sk_table _ _ _ Hs) as [_ Ht']. rewrite Ht' in Ht. by injection Ht as <-.
Qed.

Lemma tsh_halt_ok k t : shell_ok 0 k t -> shell_ok 0 (tsh_halt k) t.
Proof. by apply ok_rest. Qed.

Definition tsh_line : list Z := bs "echo hi > /f" ++ [10].

Lemma shell_keeps_descriptors_witness :
  match tsh_run (fun _ => 0) tsh_env 10 tsh_halt 13 (tsh_start tsh_line) with
  | Some (_, s') => shell_ok 0 (sh_kern s') (4 :: 4 :: 4 :: replicate 13 0)
  | None => False
  end.
Proof.
  assert (Hs : shell_ok 0 (sh_kern (tsh_start tsh_line)) (4 :: 4 :: 4 :: replicate 13 0))
    by (apply tsh_start_ok; vm_compute; reflexivity).
  assert (Hd : option_map fst (tsh_run (fun _ => 0) tsh_env 10 tsh_halt 13 (tsh_start tsh_line)) = Some (Did tt))
    by (vm_compute; reflexivity).
  destruct (tsh_run _ _ _ _ _ _) as [[o s']|] eqn:E; [|discriminate]. injection Hd as ->.
  apply (shell_keeps_descriptors (fun _ => 0) tsh_env 10 tsh_halt 0 13 (4 :: 4 :: 4 :: replicate 13 0) (tsh_start tsh_line) s').
  - lia.
  - exact tsh_halt_ok.
  - exact Hs.
  - split; [|by_decide]. intros y Hy. assert (y = 0 \/ y = 1 \/ y = 2) as [->|[->| ->]] by lia; discriminate.
  - exact E.
Defined.

(** The line typed: the output of [echo] goes to a new file. *)
Example tsh_echo :
  (fun r => (fst r, (fun n => sub (n_data n) 0 (n_size n)) <$> nodes (k_vfs (sh_kern (snd r))) !! 5,
     tables (k_vfs (sh_kern (snd r))) !! 0))
  <$> tsh_run (fun _ => 0) tsh_env 10 tsh_halt 13 (tsh_start tsh_line) =
  Some (Did tt, Some (bs "hi" ++ [10]), Some (4 :: 4 :: 4 :: replicate 13 0)).
Proof. vm_compute. reflexivity. Qed.

(** In [/p a | /p b] the first program gets the write end of the pipe (file 7)
    as its output, and inherits the read end (file 6) and the saved standard
    descriptors too; the second holds the read end alone.  When the second
    program ends, the pipe still has a reader: the first one. *)
Example tsh_pipe :
  (fun r => (fst r, tables (k_vfs (sh_kern (snd r))) !! 0, tables (k_vfs (sh_kern (snd r))) !! 1, tables (k_vfs (sh_kern (snd r))) !! 2,
     (fun f => (f_pipe f, f_flags f, f_refs f)) <$> files (k_vfs (sh_kern (snd r))) !! 6))
  <$> tsh_run (fun _ => 0) tsh_env 10 tsh_halt 12 (tsh_start (bs "/p a | /p b" ++ [10])) =
  Some (Busy, Some (replicate 6 4 ++ replicate 10 0),
    Some ([4; 7; 4; 4; 4; 4; 6; 7; 8] ++ replicate 7 0), Some ([6; 4; 4; 4; 4; 4; 9] ++ replicate 9 0), Some (5, O_RDONLY, 2)).
Proof. vm_compute. reflexivity. Qed.
